(* ===== verification/_CoqProject ===== *)
-Q . S2P
Prelude.v
PyVal.v
PyDecimal.v
Json.v
Config.v
Credits.v
CreditPrice.v
CreditUsage.v
CreditProps.v
Scheduler.v
SchedulerProps.v
HostFilter.v
Interleave.v
Mfa.v
MfaProps.v
Messages.v
MessagesProps.v
PayloadMessages.v
PayloadMessagesProps.v
AccessGrants.v
AccessGrantsProps.v
Groups.v
GroupsProps.v
Chains.v
AccessControl.v
AccessControlProps.v
RateLimit.v
RateLimitProps.v
ToolApproval.v
ToolApprovalProps.v
ToolApprovalRefinement.v
ToolApprovalRuns.v
Checkin.v
CheckinProps.v
ContextCompaction.v
ContextCompactionProps.v
AnthropicStream.v
AnthropicStreamProps.v
Anthropic.v
AnthropicProps.v
ChatTree.v
ChatTreeProps.v
ChatMergeProps.v
ChatForkProps.v
BotGateway.v
BotGatewayEventsProps.v
Sha256.v
BotGatewayRouter.v
BotGatewayRouterProps.v
BotGatewayBindingsProps.v
BotGatewayRebalanceProps.v
StreamTags.v
StreamTagsProps.v
JsonDump.v
Responses.v
ResponsesProps.v
ResponseStream.v
ResponseStreamProps.v
SharedDict.v
SharedDictProps.v
Timers.v
TimersProps.v
Folders.v
FoldersProps.v
Uuid.v
NotePages.v
NotePagesProps.v
NotePageOpsProps.v
Notes.v
NotesProps.v
NoteTools.v
NoteToolsProps.v
Documents.v
DocumentsProps.v
