(* ===== verification/Prelude.v ===== *)
(** * RyanAI backend: verification library

    RyanAI is a chat platform: a Python server (FastAPI, SQLAlchemy) between
    users and language model providers, with a credit account per user, shared
    resources, groups, and gateways that run bots.  This library models the
    parts of [src/backend/open_webui] whose logic decides who pays, who may see
    what, what a provider is sent, and where a bot runs, and proves what they
    promise.  Paths below are relative to [src/backend/open_webui].

    ** Layout

    This file is the prelude: results of code that can raise ([res]), state
    with exceptions and rolled-back transactions ([st], [transaction]), Python's
    stable sort and [max], first-match searches, and the closure computed by
    recursive SQL queries.
    - [PyVal] models Python values: strings, insertion-ordered dicts as
      association lists, floats, JSON-like values ([pyval]) with truthiness,
      equality and access.  [PyDecimal] is [decimal.Decimal] with 28 digits,
      [Json] is [json.loads].
    - [Config] is [models/config.py]: values in the database, defaults from
      the environment, and which of the two a read answers.
    - [Credits] is [models/credits.py]: the balance and log tables and every
      operation on them.  [CreditPrice] is [utils/credit/utils.py]: prices, the
      check before a request, standalone fees.  [CreditUsage] is
      [utils/credit/usage.py] with the pydantic models of
      [utils/credit/models.py]: counting tokens and the [CreditDeduct] object.
      [CreditProps] proves the properties of the whole chain.
    - [Scheduler] is [utils/bot_gateway_scheduler.py] and the event fence of
      [utils/bot_gateway_coordination.py]; [SchedulerProps] its properties.
    - [HostFilter] is the host filter of [utils/misc.py] on top of a model of
      the standard library's [ipaddress] parsers, with its properties.
    - [Interleave] is a language of asynchronous functions that read and change a
      shared world one statement at a time, the system of any number of them, and
      rules to prove what holds under every interleaving; [Mfa] writes
      [utils/mfa.py] in it, with the credential rows of [models/auths.py], the
      session gate of [utils/auth.py] and the routes of [routers/mfa.py];
      [MfaProps] proves that nothing is used twice.
    - [Messages] is the message code of [utils/misc.py]: branches of a chat
      tree, tool call pairing, rebuilding messages from stored output items,
      editing message lists; [MessagesProps] its properties.
      [PayloadMessages] is what [process_chat_payload] of [utils/middleware.py]
      makes of the stored messages before they go to a provider, with
      [PayloadMessagesProps].
    - [AccessGrants] is [models/access_grants.py], [Groups] is
      [models/groups.py], each with a file of properties.  [Chains] holds the
      lemmas on walks along an optional id of a row (parent folder, base
      model).  [AccessControl] is [utils/access_control/__init__.py] and
      [utils/access_control/folders.py], [AccessControlProps] its properties.
    - [RateLimit] is [utils/rate_limit.py] over a Redis client given by its
      operations and their laws ([RedisLaws], with a concrete server as an
      instance); [RateLimitProps] refines both stores to a history of requests.
    - [ToolApproval] is [utils/tool_approval.py] with the two functions of
      [utils/middleware.py] that start calls and pause for approval.
      [ToolApprovalProps] is a transition system on the calls of a message with
      its invariant and a measure of the work left, [ToolApprovalRefinement]
      shows that the operations refine it, and [ToolApprovalRuns] what follows
      for any sequence of operations.
    - [Checkin] is [models/checkin.py] and [routers/checkin.py] on top of the
      credit tables, with [CheckinProps].
    - [ContextCompaction] is [utils/context_compaction.py] on top of
      [Messages], with [ContextCompactionProps].
    - [AnthropicStream] and [Anthropic] are [utils/anthropic.py]: the conversion
      of a stream of chat completion chunks to events of the Messages API, and of
      requests and responses; [AnthropicStreamProps] and [AnthropicProps] prove
      their properties.
    - [ChatTree] is the message tree of [models/chats.py] with
      [utils/chat_fork.py] and the text clean-up of [utils/misc.py]: links,
      repair, merges, saving and deleting messages, turns, patches, forks.
      [ChatTreeProps] reads a history as a forest, a finite map from ids to a
      parent and children, on which every operation has a counterpart;
      [ChatMergeProps] is about merges and stale saves, [ChatForkProps] about
      forks.
    - [BotGateway] is the tables of [models/bot_gateway.py] (connections,
      bindings of identities, codes, conversations, groups, events with their
      leases, nonces, credentials) with the operations on them, and
      [BotGatewayRouter] the parts of [routers/bot_gateway.py] that decide:
      signatures (on [Sha256], with the test vectors of the standards), the
      admission and routing of an event, replies, applying a rebalance plan.
      [BotGatewayEventsProps] interleaves the statements of workers;
      [BotGatewayBindingsProps] runs the gateway from empty tables;
      [BotGatewayRouterProps] and [BotGatewayRebalanceProps] are about the
      routes.
    - [StreamTags] is the tag handler of [utils/middleware.py]: a reply that
      streams in is cut into text, reasoning, solution and code items while the
      positions already scanned are remembered; [StreamTagsProps] shows that the
      memory is transparent.
    - [Responses] is the reducer of [utils/response.py]: events of the Responses
      API applied to a list of output items, with [ResponsesProps].
      [ResponseStream] is how a reply in progress is kept in Redis ([tasks.py]) and
      sent to the clients ([utils/middleware.py]); [ResponseStreamProps] shows that
      both replay to the reply.  The JSON codec is the class
      [ResponseStream.JsonCodec]; [JsonDump] is [json.dumps] with its round trip
      ([json_round_trip]), the codec of the application without orjson, and an
      instance of the class.
    - [SharedDict] is the dictionaries of [socket/utils.py] that workers share in
      Redis, with the copies they keep, over the class [RedisHashes] of commands;
      [SharedDictProps] shows that the copies are coherent.
    - [Timers] is [utils/timers.py] on top of the chats of [ChatTree]: setting,
      claiming, cancelling and executing one-shot timers; [TimersProps] follows every
      execution through the interleavings.
    - [Folders] is [models/folders.py] with the routes of [routers/folders.py] that
      list, create, update, move and delete chat folders, over the access checks of
      [AccessControl]; [FoldersProps] is about its traversals.
    - [NotePages] is the first half of [models/notes.py]: the pages of a note, their
      normalization with the migration of old attachments, the operations on their tree
      (on [Uuid], the standard library's UUIDs with SHA-1) and edits of a page;
      [NotePagesProps] reads the list of pages as the outline of a tree and
      [NotePageOpsProps] says what each operation does to it.  [Notes] is the table with
      its update loop, in the language of [Interleave], with [NotesProps].  [NoteTools]
      is the note tools of [tools/builtin.py], with [NoteToolsProps].
    - [Documents] is [YdocManager] of [socket/utils.py], the documents that several users
      edit, with what the handlers of [socket/main.py] do to them: two instances of the
      class [DocumentStore], one in memory and one over the commands of [RedisKeys].
      [DocumentsProps] shows that both refine a store that keeps every update.

    The parts call each other as the code does: leaving a deduction reads the
    configuration, computes a price and writes the accounts in one state;
    access checks read the grant table with the inherited groups of a user;
    deleting a group removes rows of the grant table; a check-in writes its
    record and the credit account in one transaction; compaction cuts the
    messages whose calls [Messages] pairs; an event passes the signature, the
    event fence of [Scheduler], the lease and the bindings in that order, and a
    rebalance run applies a plan of [Scheduler] to the connections it was
    computed from.

    ** How the code is rendered

    A function that can raise answers in [res]; [exn] lists the exception
    classes that are raised or caught.  A method of a table is a state
    transformer [st]; a SQLAlchemy session that commits at its end is a
    [transaction], which restores the state when an exception leaves it, and a
    unique constraint is an [IntegrityError] of the insertion.  Times
    ([time.time()]) and identifiers ([uuid4], the n-th one drawn) are
    arguments.  Dicts keep insertion order; sets that the code only tests for
    membership are lists or [gset]s.  In-place changes of messages are new
    values, as the functions of [utils/misc.py] answer the list they change.

    Code outside the repository is a parameter: JSONPath, tiktoken, Pillow and
    httpx, pydantic validation, and the numeric column of the database.  The
    class [Credits.NumericColumn] states what is relied on of that column, and
    [Credits.numeric_scale12] is an instance; uuids are assumed injective where
    the primary key matters.  An identifier drawn for a tool call without one is
    assumed not to be in use (C9).

    Loops that are not structural carry fuel, and theorems show it suffices:
    branches of a chat run at most once per message (C18), parent and base
    model walks at most once per row and one more (the iff lemmas of
    [AccessControlProps] through [Chains.walk_spec]), recursive queries once per group
    ([closure_spec]).  [CreditPrice.get_model_price] recurses
    as the code does, so its fuel is the recursion limit of the interpreter and
    a chain of base models that loops is a [RecursionError];
    [CreditProps.get_model_price_follows_chain] gives the answer for every chain
    the limit allows.

    ** Properties

    - Credits, C1, C3, C4 and C6: no account is ever in debt; a request the check
      let through can be paid; leaving a deduction charges the total price exactly
      once or nothing; accounting over a stream.  Beside them [add_credit_spec] and
      [total_price_per_call], and [get_model_price_follows_chain]: which model's
      price counts.
    - Streams, C2 and C5: a saved reply replays to the reply or to an earlier state
      of it, and the clients can follow it by the events they are sent.
    - Anthropic endpoint, C8 and C9: the events of a converted stream follow the
      protocol of the Messages API, whatever chunks arrive; a converted request
      pairs its tool calls with their results.
    - Scheduling, C11 and C15: a plan never moves a connection that may not move;
      applying it moves at most one connection, as planned, under a new generation
      that fences the old one.  Beside them: a plan overfills a shard only with
      connections that may not move, reports exactly its assignments and does not
      depend on input order.
    - Bot gateway events, C7, C10 and C14: a signed request is accepted once, an
      answered event is answered the same way for good, and a worker that lost
      the lease of an event writes nothing more to it.
    - Bot gateway identities, C24 and C28: conversations belong to the user an
      identity is bound to now; an event acts only for the user of its sender.
    - Chats, C13, C16 and C21: a save from a stale copy loses nothing; a fork is
      the branch it was taken from; the links of a chat stay a forest under
      every sequence of operations.
    - Chat middleware, C17: a streamed reply is cut at its tags as if its whole
      text were scanned after every chunk.
    - Messages, C18 to C20: a branch is rebuilt even from cyclic maps; tool
      calls and results are paired in everything sent to a provider.
    - Notes, C12, C22 and C23: concurrent updates of notes have the effect of one after
      the other; an operation on the pages edits their tree in one place and keeps the
      texts; a model edits the text it read.
    - Grants: replacing grants, the round trip of legacy dicts, who loses access.
    - Groups, C25 and C26: the hierarchy stays a forest, every change refreshes
      the sessions it affects (beside them: the two membership queries agree, what
      a deletion leaves).
    - Sockets, C27 and C31: once the calls under way are over, the copies of the workers
      answer as the dictionary in Redis does; documents under edit lose no update.
    - Timers, C29: a timer is run once.
    - Folders, C30 and C34: listing repairs the tree of a user, deletion takes exactly
      a subtree and leaves nothing that names it (beside them: a move makes no loop).
    - Access: grants in memory and in the table agree, two readings of
      permissions agree, sharing changes are accepted or refused as a whole, chat
      moves, model access along base models, inherited folder access.
    - Authenticators, C32 and C33: five attempts at a challenge, and no two
      sign-ins on one challenge, one step of an authenticator or one recovery code
      (beside them: a revoked session stays revoked).
    - Rate limits, C35 and C36: memory and Redis both answer as if the whole
      history were kept, and no span of the window's length sees more than the
      limit of a key's requests.
    - Tool approval, C37 and C38: under any interleaving no call runs or is
      answered twice and the model is restarted once; something can always be
      done while a call is pending, and it ends.
    - Check-ins, C39: the three outcomes of a check-in and what each leaves.
    - Compaction, C40: a conversation is cut at the start of a turn or of a
      batch of calls, and a stored summary resumes exactly what was kept.

    ** Bounds of the model

    Characters are code points below 256 (white space and case are ASCII).
    Decimals leave out NaN, infinities and the exponent limits; a [numeric]
    column rounds as its class says.  The encoder cache of a call that raises
    later is dropped.  Statements run one after the other: the guarded UPDATE
    of [Credits.add_credit_by_user_id] is one step, as it is in the database,
    and concurrent sessions are sequences of such steps.  Logging is left out.

    A stored message is read, changed and written back under the lock of its
    chat, so an operation on its tool calls is one step; C37 and C38 assume that
    calls have identifiers of their own and that a worker reports the call it
    was given.  C21 starts from a chat whose links form a forest, as an empty one
    does, and assumes that a message saved again keeps its links or leaves them
    out, as the clients do; C13 and C16 only need parents that are texts.  The
    limiter's times are whole seconds that do not go back.

    Of the authenticators (C32, C33), a statement of the database is one step, as its
    isolation makes it; random values are indexed by the number of values drawn, and
    [MfaProps.CryptoLaws] states that they, their hashes and what is encrypted with
    them do not repeat.  The loops that save retry five times, as the code does.

    Of the bot gateway, foreign keys are not enforced, as in SQLite: deleting a
    connection deletes its rows by hand.  Digests and envelopes of credentials are
    arguments.  C7 assumes that time does not go back; C10 and C14 that row
    identifiers are fresh and that each attempt has a nonce of its own, which C7
    provides.  C24 takes the lookup of a sender's binding and of its conversation
    as one step.

    In a stream of content (C17) the events sent to the client are left out and the
    time is read once per delta.  C17 is about start tags whose attributes hold no
    bracket and begin on the tag's line; the examples after it show that others can
    be missed when a chunk ends inside them.

    C2 and C5 are about events of the Responses API of a new reply (not one that is
    continued) whose deltas are texts; sizes are bytes, and a Redis command is done,
    refused, or done with its answer lost.  Setting a key and its expiry is one step.
    The codec writes values without floats here; [JsonCodec.is_json] says which
    values it reads back.

    Of the dictionaries in Redis (C27), commands succeed, one command is one step,
    and the uuids of signatures do not repeat.

    Of the documents under edit (C31), requests run one after the other, as the lock of a
    document makes those of one document do.  [DocumentsProps.YDocLaws] states what is
    relied on of pycrdt: an update made of the state of a document does what the updates
    of the document did.  Redis answers every command; lists of bytes read back from JSON.

    A timer (C29) is executed once per claim, as the scheduler does; claims lock their
    rows, as on PostgreSQL, uuids do not repeat and the id of a deleted chat is not
    used again.  Reading an absolute time and the completion handler are parameters;
    numbers of relative times have at most 4300 digits.

    A request about folders (C30, C34) runs alone.  The recursions of the table carry the
    recursion limit as fuel, and C34 asks that the table is not larger; climbing to the
    root takes one round per folder at most.

    The pages of a note are records: what the code reads with a default is a field,
    and a page has a content, as every writer of pages sees to.  The parsers behind links
    (markdown, BeautifulSoup) are parameters.  An update of a note (C12) is tried eight
    times, as in the code; the select and the update of one try are two steps.  C12 assumes
    that uuids do not repeat; C23 that the page was not deleted in between (an operation
    that makes a deleted id again starts its revisions anew).

    Not modelled: HTTP routers, of the sockets the locks, rooms, events and access
    checks, the chat middleware but for the
    functions above, retrieval (vector stores, loaders, search engines),
    authentication (passwords, identity providers, the policy of authenticators and
    the revocation list in Redis), tools and plugins that run user code, migrations, the
    configuration row repairs, of the bot gateway the commands, attachments, chat
    runs, user settings, nodes and calls between processes, the paginated listings of groups and the SQL
    filter builders of grants, the prompt of a compaction summary and the call
    of the model, the queries over many chats and the message table, of notes the grants, pins,
    listings, searches and the rooms of their editors, the web
    frontend and the gateway node in TypeScript. *)

From stdpp Require Export strings list gmap sorting.
From Stdlib Require Export ZArith Lia.
From Stdlib Require Import Ascii.

Declare Scope py_scope.
Delimit Scope py_scope with py.
Create HintDb py discriminated.
Create Rewrite HintDb py_simpl.

(** ** Results

    Python code that can raise is a function into [res]; [exn] lists the
    exception classes the modelled code raises or catches. *)
Inductive exn :=
| TypeError
| AttributeError
| KeyError (key : string)
| IndexError
| ValueError (msg : string)
| ZeroDivisionError
| OverflowError
| RecursionError
| RuntimeError (msg : string)
| IntegrityError
| HTTPException (status : Z) (detail : string)
| ProviderError (detail : string)
| GroupHierarchyError (message : string) (status : Z)
| NotePageConflict (message : string).

#[export] Instance exn_eq_dec : EqDecision exn.
Proof. solve_decision. Defined.

Inductive res (A : Type) :=
| Ok (a : A)
| Err (e : exn).
Arguments Ok {A} a.
Arguments Err {A} e.

#[export] Instance res_eq_dec {A} `{EqDecision A} : EqDecision (res A).
Proof. solve_decision. Defined.

#[export] Instance res_ret : MRet res := λ A a, Ok a.
#[export] Instance res_bind : MBind res := λ A B f m,
  match m with Ok a => f a | Err e => Err e end.
#[export] Instance res_fmap : FMap res := λ A B f m,
  match m with Ok a => Ok (f a) | Err e => Err e end.

Lemma Ok_inj {A} (a b : A) : Ok a = Ok b → a = b.
Proof. by intros [= ->]. Qed.

Definition is_ok {A} (m : res A) : bool :=
  match m with Ok _ => true | Err _ => false end.

(** [try: m except Exception: h] *)
Definition catch {A} (m : res A) (h : exn → res A) : res A :=
  match m with Ok a => Ok a | Err e => h e end.

(** A [for] loop whose body may raise. *)
Fixpoint foldM {S A} (f : S → A → res S) (s : S) (l : list A) : res S :=
  match l with
  | [] => Ok s
  | a :: l' => s' ← f s a; foldM f s' l'
  end.

Fixpoint mapR {A B} (f : A → res B) (l : list A) : res (list B) :=
  match l with
  | [] => Ok []
  | a :: l' => b ← f a; bs ← mapR f l'; Ok (b :: bs)
  end.

Lemma bind_Ok {A B} (m : res A) (f : A → res B) b :
  m ≫= f = Ok b ↔ ∃ a, m = Ok a ∧ f a = Ok b.
Proof. destruct m as [a|e']; cbn; naive_solver. Qed.

Lemma bind_Err {A B} (m : res A) (f : A → res B) e :
  m ≫= f = Err e ↔ m = Err e ∨ ∃ a, m = Ok a ∧ f a = Err e.
Proof. destruct m as [a|e']; cbn; naive_solver. Qed.

Lemma foldM_app {S A} (f : S → A → res S) s l1 l2 :
  foldM f s (l1 ++ l2) = s' ← foldM f s l1; foldM f s' l2.
Proof.
  revert s. induction l1 as [|a l1 IH]; intros s; cbn; [done|].
  destruct (f s a); cbn; auto.
Qed.

(** The rule for loops: an invariant of the body is an invariant of the loop. *)
Lemma foldM_inv {S A} (P : S → Prop) (f : S → A → res S) l s s' :
  (∀ s1 a s2, a ∈ l → P s1 → f s1 a = Ok s2 → P s2) →
  P s → foldM f s l = Ok s' → P s'.
Proof.
  revert s. induction l as [|a l IH]; cbn; intros s Hf Hs; [naive_solver|].
  intros (s1 & Hs1 & Hl)%bind_Ok.
  apply (IH s1); [|by apply (Hf s a s1); [left| |]|done].
  intros s2 a' s3 Ha. apply Hf. by right.
Qed.

Lemma foldM_total {S A} (f : S → A → res S) (g : S → A → S) l s :
  (∀ s a, f s a = Ok (g s a)) → foldM f s l = Ok (foldl g s l).
Proof.
  intros Hf. revert s. induction l as [|a l IH]; cbn; intros s; [done|].
  rewrite Hf. cbn. apply IH.
Qed.

Lemma mapR_length {A B} (f : A → res B) l l' :
  mapR f l = Ok l' → length l' = length l.
Proof.
  revert l'. induction l as [|a l IH]; cbn; intros l'; [naive_solver|].
  intros (b & _ & (bs & Hbs & [= <-])%bind_Ok)%bind_Ok. cbn. f_equal. auto.
Qed.

(** ** Stateful code

    [st S A]: a computation over the state [S] that may raise; the state
    reached before the exception is kept, as in Python. *)
Definition st (S A : Type) : Type := S → res A * S.

#[export] Instance st_ret {S} : MRet (st S) := λ A a s, (Ok a, s).
#[export] Instance st_bind {S} : MBind (st S) := λ A B f m s,
  match m s with (Ok a, s') => f a s' | (Err e, s') => (Err e, s') end.

Definition st_get {S} : st S S := λ s, (Ok s, s).
Definition st_put {S} (s : S) : st S unit := λ _, (Ok tt, s).
Definition st_modify {S} (f : S → S) : st S unit := λ s, (Ok tt, f s).
Definition st_gets {S A} (f : S → A) : st S A := λ s, (Ok (f s), s).
Definition raise {S A} (e : exn) : st S A := λ s, (Err e, s).
Definition st_lift {S A} (m : res A) : st S A := λ s, (m, s).

(** [try: m except Exception as e: h e] *)
Definition st_catch {S A} (m : st S A) (h : exn → st S A) : st S A := λ s,
  match m s with (Ok a, s') => (Ok a, s') | (Err e, s') => h e s' end.

(** A database session whose last statement is the commit: an exception
    rolls the changes back. *)
Definition transaction {S A} (m : st S A) : st S A := λ s,
  match m s with (Ok a, s') => (Ok a, s') | (Err e, _) => (Err e, s) end.

Lemma st_bind_eq {S A B} (m : st S A) (f : A → st S B) s :
  (m ≫= f) s = match m s with (Ok a, s') => f a s' | (Err e, s') => (Err e, s') end.
Proof. done. Qed.

(** The frame rule of the monad: [P] holds after [m] from any state satisfying it. *)
Definition preserves {S A} (P : S → Prop) (m : st S A) : Prop :=
  ∀ s, P s → P (m s).2.

Lemma preserves_bind {S A B} (P : S → Prop) (m : st S A) (f : A → st S B) :
  preserves P m → (∀ a, preserves P (f a)) → preserves P (m ≫= f).
Proof.
  intros Hm Hf s Hs. rewrite st_bind_eq. specialize (Hm s Hs).
  destruct (m s) as [[a|e] s']; cbn in *; [by apply Hf|done].
Qed.

Lemma preserves_catch {S A} (P : S → Prop) (m : st S A) h :
  preserves P m → (∀ e, preserves P (h e)) → preserves P (st_catch m h).
Proof.
  intros Hm Hh s Hs. unfold st_catch. specialize (Hm s Hs).
  destruct (m s) as [[a|e] s']; cbn in *; [done|by apply Hh].
Qed.

Lemma preserves_transaction {S A} (P : S → Prop) (m : st S A) :
  preserves P m → preserves P (transaction m).
Proof.
  intros Hm s Hs. unfold transaction. specialize (Hm s Hs).
  by destruct (m s) as [[a|e] s'].
Qed.

Lemma transaction_err {S A} (m : st S A) s e s' : transaction m s = (Err e, s') → s' = s.
Proof. unfold transaction. destruct (m s) as [[a|e'] s1]; congruence. Qed.

Lemma preserves_pure {S A} (P : S → Prop) (m : st S A) :
  (∀ s, (m s).2 = s) → preserves P m.
Proof. intros H s Hs. by rewrite H. Qed.

(** Runs the monad symbolically. *)
Ltac st_run :=
  unfold transaction, st_catch, st_get, st_gets, st_put, st_modify, st_lift, raise,
    mbind, st_bind, mret, st_ret; cbn.

Create HintDb preserves discriminated.
#[export] Hint Resolve preserves_bind preserves_catch preserves_transaction : preserves.
#[export] Hint Extern 5 (preserves _ (λ _, _)) => (apply preserves_pure; reflexivity) : preserves.
#[export] Hint Extern 5 (preserves _ (raise _)) => (apply preserves_pure; reflexivity) : preserves.
#[export] Hint Extern 5 (preserves _ (mret _)) => (apply preserves_pure; reflexivity) : preserves.
#[export] Hint Extern 5 (preserves _ (st_lift _)) => (apply preserves_pure; reflexivity) : preserves.
#[export] Hint Extern 5 (preserves _ (st_gets _)) => (apply preserves_pure; reflexivity) : preserves.
#[export] Hint Extern 5 (preserves _ st_get) => (apply preserves_pure; reflexivity) : preserves.

Ltac simplify_res :=
  repeat match goal with
  | H : mbind _ _ = Ok _ |- _ =>
      apply bind_Ok in H; let x := fresh "x" in let Hx := fresh "Hx" in
      destruct H as (x & Hx & H)
  | H : Ok _ = Ok _ |- _ => injection H as H; try subst
  | H : Err _ = Ok _ |- _ => discriminate H
  | H : Ok _ = Err _ |- _ => discriminate H
  end; simplify_eq.

(** Case analysis on the scrutinee of a match or an [if] of the goal. *)
Ltac case_goal :=
  match goal with
  | |- context [match ?x with _ => _ end] => destruct x eqn:?
  end.

Ltac case_hyp H :=
  match type of H with
  | context [match ?x with _ => _ end] => destruct x eqn:?
  end.

(** ** Lists *)

(** The first element satisfying [p], Python's [next((x for x in l if p(x)), None)]. *)
Fixpoint find_first {A} (p : A → bool) (l : list A) : option A :=
  match l with
  | [] => None
  | a :: l' => if p a then Some a else find_first p l'
  end.

Fixpoint find_index {A} (p : A → bool) (l : list A) : option nat :=
  match l with
  | [] => None
  | a :: l' => if p a then Some 0 else S <$> find_index p l'
  end.

Lemma find_first_Some {A} (p : A → bool) l a :
  find_first p l = Some a → a ∈ l ∧ p a = true.
Proof.
  induction l as [|b l IH]; cbn; [done|].
  rewrite elem_of_cons. destruct (p b) eqn:Hb; naive_solver.
Qed.

Lemma find_first_None {A} (p : A → bool) l :
  find_first p l = None ↔ ∀ a, a ∈ l → p a = false.
Proof.
  induction l as [|b l IH]; cbn; [split; [intros _ a ?%elem_of_nil|]; done|].
  destruct (p b) eqn:Hb; rewrite ?IH; split.
  - done.
  - intros H. rewrite (H b) in Hb; [done|by left].
  - intros H a [->|Ha]%elem_of_cons; auto.
  - intros H a Ha. apply H. by right.
Qed.

Lemma find_index_Some {A} (p : A → bool) l i :
  find_index p l = Some i →
  ∃ a, l !! i = Some a ∧ p a = true ∧
    ∀ j b, j < i → l !! j = Some b → p b = false.
Proof.
  revert i. induction l as [|b l IH]; cbn; intros i; [done|].
  destruct (p b) eqn:Hb.
  - intros [= <-]. exists b. repeat split; auto. lia.
  - intros (k & Hk & ->)%fmap_Some. destruct (IH k Hk) as (a & Ha & Hpa & Hlt).
    exists a. repeat split; auto.
    intros [|j] c Hj; cbn; [naive_solver|]. intros ?. apply (Hlt j); [lia|done].
Qed.

Lemma existsb_True {A} (p : A → bool) l :
  existsb p l = true ↔ ∃ a, a ∈ l ∧ p a = true.
Proof. rewrite existsb_exists. by setoid_rewrite list_elem_of_In. Qed.

Lemma forallb_True {A} (p : A → bool) l :
  forallb p l = true ↔ ∀ a, a ∈ l → p a = true.
Proof. rewrite forallb_forall. by setoid_rewrite list_elem_of_In. Qed.

Lemma existsb_False {A} (p : A → bool) l :
  existsb p l = false ↔ ∀ a, a ∈ l → p a = false.
Proof.
  rewrite <-not_true_iff_false, existsb_True. split.
  - intros H a Ha. destruct (p a) eqn:?; [|done]. exfalso. eauto.
  - intros H (a & Ha & Hp). rewrite (H a Ha) in Hp. done.
Qed.

Lemma filter_id {A} (f : A → bool) l : (∀ a, a ∈ l → f a = true) → List.filter f l = l.
Proof.
  induction l as [|a l IH]; cbn; intros H; [done|].
  rewrite (H a) by left. rewrite IH; [done|]. intros b Hb. apply H. by right.
Qed.

Lemma filter_elem {A} (f : A → bool) l a : a ∈ List.filter f l ↔ a ∈ l ∧ f a = true.
Proof. by rewrite list_elem_of_In, filter_In, <-list_elem_of_In. Qed.

(** The Python [list.sort] and [sorted] built-ins: a stable insertion sort.
    [le a b] is the comparison of the keys, [key a <= key b]. *)
Section PySort.
Context {A : Type} (le : A → A → bool).

Fixpoint insert_sorted (x : A) (l : list A) : list A :=
  match l with
  | [] => [x]
  | y :: l' => if le x y then x :: y :: l' else y :: insert_sorted x l'
  end.

Fixpoint py_sorted (l : list A) : list A :=
  match l with
  | [] => []
  | x :: l' => insert_sorted x (py_sorted l')
  end.

Lemma insert_sorted_perm x l : insert_sorted x l ≡ₚ x :: l.
Proof.
  induction l as [|y l IH]; cbn; [done|].
  destruct (le x y); [done|]. rewrite IH. apply Permutation_swap.
Qed.

Lemma py_sorted_perm l : py_sorted l ≡ₚ l.
Proof. induction l as [|x l IH]; cbn; [done|]. by rewrite insert_sorted_perm, IH. Qed.

Lemma py_sorted_elem x l : x ∈ py_sorted l ↔ x ∈ l.
Proof. by rewrite py_sorted_perm. Qed.

Context (le_total : ∀ a b, le a b = true ∨ le b a = true).
Context (le_trans : ∀ a b c, le a b = true → le b c = true → le a c = true).

Lemma insert_sorted_sorted x l :
  StronglySorted (λ a b, le a b = true) l →
  StronglySorted (λ a b, le a b = true) (insert_sorted x l).
Proof.
  induction 1 as [|y l Hl IH Hy]; cbn; [repeat constructor|].
  destruct (le x y) eqn:E.
  - constructor; [by constructor|]. constructor; [done|].
    eapply Forall_impl; [exact Hy|]. cbn. eauto.
  - constructor; [done|]. apply Forall_forall. intros z.
    rewrite insert_sorted_perm, elem_of_cons. intros [->|Hz].
    + destruct (le_total y x); congruence.
    + by apply (proj1 (Forall_forall _ _) Hy).
Qed.

Lemma py_sorted_sorted l : StronglySorted (λ a b, le a b = true) (py_sorted l).
Proof. induction l; cbn; [constructor|]. by apply insert_sorted_sorted. Qed.
End PySort.

(** [max(l, key=...)] on a non-empty sequence: the first greatest element. *)
Fixpoint py_max {A} (lt : A → A → bool) (a : A) (l : list A) : A :=
  match l with
  | [] => a
  | b :: l' => py_max lt (if lt a b then b else a) l'
  end.

Lemma py_max_elem {A} (lt : A → A → bool) a l : py_max lt a l ∈ a :: l.
Proof.
  revert a. induction l as [|b l IH]; cbn; intros a; [set_solver|].
  specialize (IH (if lt a b then b else a)). destruct (lt a b); set_solver.
Qed.

(** ** Recursive queries

    A recursive common table expression: the rows reached from a start set.
    [UNION] drops duplicates, so the recursion ends when a round adds nothing;
    [fuel] bounds the number of rounds. *)
Section Closure.
Context {A : Type} `{Countable A} (step : gset A → gset A).

Fixpoint closure (fuel : nat) (s : gset A) : gset A :=
  match fuel with O => s | S fuel => closure fuel (s ∪ step s) end.

Context (R : A → A → Prop) (U : gset A).
Context (step_spec : ∀ s y, y ∈ step s ↔ ∃ x, x ∈ s ∧ R x y).
Context (R_bounded : ∀ x y, R x y → y ∈ U).

Lemma closure_incl fuel s x : x ∈ s → x ∈ closure fuel s.
Proof. revert s. induction fuel as [|fuel IH]; cbn; intros s Hx; [done|]. apply IH. set_solver. Qed.

Lemma closure_sound fuel s y : y ∈ closure fuel s → ∃ x, x ∈ s ∧ rtc R x y.
Proof.
  revert s. induction fuel as [|fuel IH]; cbn; intros s Hy; [exists y; split; [done|constructor]|].
  destruct (IH _ Hy) as (x & [Hx|Hx]%elem_of_union & Hr); [eauto|].
  apply step_spec in Hx as (z & Hz & HR). exists z. split; [done|]. by eapply rtc_l.
Qed.

Lemma closure_fixed fuel s : step s ⊆ s → closure fuel s = s.
Proof.
  intros Hs. induction fuel as [|fuel IH]; cbn; [done|].
  replace (s ∪ step s) with s by set_solver. done.
Qed.

Lemma closure_closed fuel s : size (U ∖ s) ≤ fuel → step (closure fuel s) ⊆ closure fuel s.
Proof.
  revert s. induction fuel as [|fuel IH]; cbn; intros s Hsize.
  - assert (U ⊆ s).
    { intros u Hu. destruct (decide (u ∈ s)); [done|].
      assert (size (U ∖ s) = 0) as Hz by lia. apply size_empty_iff in Hz. set_solver. }
    intros y (x & _ & HR)%step_spec. apply R_bounded in HR. set_solver.
  - destruct (decide (step s ⊆ s)) as [Hc|Hc].
    + replace (s ∪ step s) with s by set_solver. by rewrite closure_fixed.
    + apply IH. assert (∃ y, y ∈ step s ∧ y ∉ s) as (y & Hy & Hys).
      { destruct (decide (step s ∖ s = ∅)) as [He|He].
        - exfalso. apply Hc. intros y Hy. destruct (decide (y ∈ s)); [done|].
          assert (Hd : y ∈ step s ∖ s) by (by apply elem_of_difference).
          rewrite He in Hd. by apply elem_of_empty in Hd.
        - apply set_choose_L in He as [y Hy]. exists y. by apply elem_of_difference in Hy. }
      assert (y ∈ U). { apply step_spec in Hy as (x & _ & HR). by eapply R_bounded. }
      assert (size (U ∖ (s ∪ step s)) < size (U ∖ s)); [|lia].
      apply subset_size. set_solver.
Qed.

(** Enough rounds reach exactly what the relation reaches. *)
Lemma closure_spec fuel s y :
  size U ≤ fuel → y ∈ closure fuel s ↔ ∃ x, x ∈ s ∧ rtc R x y.
Proof.
  intros Hf. split; [apply closure_sound|]. intros (x & Hx & Hr).
  assert (Hc : step (closure fuel s) ⊆ closure fuel s).
  { apply closure_closed. etrans; [|exact Hf]. apply subseteq_size. set_solver. }
  apply (closure_incl fuel) in Hx. induction Hr as [|x z y HR _ IH]; [done|].
  apply IH, Hc, step_spec. eauto.
Qed.
End Closure.

#[export] Hint Rewrite @length_app @length_map @length_fmap : py_simpl.
