(* ===== verification/PyVal.v ===== *)
(** * Python values: strings, insertion-ordered dicts, floats and JSON-like
    values, with the built-in operations the modelled code applies to them.

    A [str] is a [string], one [ascii] per character: the model covers texts
    whose code points are below 256.  A [float] is an IEEE 754 binary64 number
    ([spec_float] with precision 53 and exponent bound 1024). *)

From S2P Require Import Prelude.
From stdpp Require Export pretty.
From Stdlib Require Import Ascii SpecFloat.

Local Open Scope Z_scope.

(** ** Strings *)
Module Str.
Local Open Scope nat_scope.

Definition code (c : ascii) : nat := nat_of_ascii c.

(** [str.isspace] of one character, for code points below 256. *)
Definition is_space (c : ascii) : bool :=
  let n := code c in
  ((9 <=? n) && (n <=? 13)) || ((28 <=? n) && (n <=? 32)) || (n =? 133) || (n =? 160).

Definition is_digit (c : ascii) : bool := (48 <=? code c) && (code c <=? 57).

(** [str.lower] on Latin-1: A-Z and the accented capitals. *)
Definition lower_char (c : ascii) : ascii :=
  let n := code c in
  if ((65 <=? n) && (n <=? 90)) || ((192 <=? n) && (n <=? 222) && negb (n =? 215))
  then ascii_of_nat (n + 32) else c.

Fixpoint smap (f : ascii → ascii) (s : string) : string :=
  match s with EmptyString => EmptyString | String c s' => String (f c) (smap f s') end.

Definition lower : string → string := smap lower_char.

Fixpoint sforallb (p : ascii → bool) (s : string) : bool :=
  match s with EmptyString => true | String c s' => p c && sforallb p s' end.

(** [s.lstrip(chars)], [chars] given as a predicate on characters. *)
Fixpoint lstrip_by (p : ascii → bool) (s : string) : string :=
  match s with
  | EmptyString => EmptyString
  | String c s' => if p c then lstrip_by p s' else s
  end.

Fixpoint rstrip_by (p : ascii → bool) (s : string) : string :=
  match s with
  | EmptyString => EmptyString
  | String c s' =>
      match rstrip_by p s' with
      | EmptyString => if p c then EmptyString else String c EmptyString
      | r => String c r
      end
  end.

Definition strip_by (p : ascii → bool) (s : string) : string := rstrip_by p (lstrip_by p s).
Definition strip : string → string := strip_by is_space.

Fixpoint mem_char (c : ascii) (s : string) : bool :=
  match s with EmptyString => false | String d s' => Ascii.eqb c d || mem_char c s' end.

(** [s.lstrip(chars)] removes any leading characters of the SET [chars]. *)
Definition lstrip_chars (chars s : string) : string := lstrip_by (λ c, mem_char c chars) s.
Definition rstrip_chars (chars s : string) : string := rstrip_by (λ c, mem_char c chars) s.
Definition strip_chars (chars s : string) : string := strip_by (λ c, mem_char c chars) s.

Definition startswith (p s : string) : bool := String.prefix p s.

Definition take (n : nat) (s : string) : string := String.substring 0 n s.
Fixpoint drop (n : nat) (s : string) : string :=
  match n, s with
  | O, _ => s
  | _, EmptyString => EmptyString
  | S n', String _ s' => drop n' s'
  end.

Definition endswith (suf s : string) : bool :=
  (String.length suf <=? String.length s)
  && String.eqb (drop (String.length s - String.length suf) s) suf.

Definition contains (sub s : string) : bool :=
  match String.index 0 sub s with Some _ => true | None => false end.

(** [s.split(c)] for a one-character separator: never empty. *)
Fixpoint split (c : ascii) (s : string) : list string :=
  match s with
  | EmptyString => [EmptyString]
  | String d s' =>
      if Ascii.eqb c d then EmptyString :: split c s'
      else match split c s' with
           | w :: ws => String d w :: ws
           | [] => [String d EmptyString]
           end
  end.

Definition join (sep : string) (l : list string) : string := String.concat sep l.

Definition is_empty (s : string) : bool :=
  match s with EmptyString => true | _ => false end.

(** Lexicographic order on code points, Python's [<=] and [<] on [str]. *)
Definition leb (a b : string) : bool := bool_decide (String.le a b).
Definition ltb (a b : string) : bool := negb (leb b a).

Lemma leb_total a b : leb a b = true ∨ leb b a = true.
Proof.
  unfold leb. rewrite !bool_decide_eq_true. apply (total String.le).
Qed.
Lemma leb_trans a b c : leb a b = true → leb b c = true → leb a c = true.
Proof. unfold leb. rewrite !bool_decide_eq_true. apply transitivity. Qed.
Lemma leb_antisym a b : leb a b = true → leb b a = true → a = b.
Proof. unfold leb. rewrite !bool_decide_eq_true. apply (anti_symm String.le). Qed.

Lemma lstrip_by_app p s t : sforallb p s = true → lstrip_by p (s +:+ t) = lstrip_by p t.
Proof.
  induction s as [|c s IH]; [done|].
  change (String c s +:+ t) with (String c (s +:+ t)). cbn.
  intros [Hc Hs]%andb_prop. rewrite Hc. auto.
Qed.

Lemma lstrip_by_all p s : sforallb p s = true → lstrip_by p s = EmptyString.
Proof.
  induction s as [|c s IH]; cbn; [done|].
  intros [Hc Hs]%andb_prop. rewrite Hc. auto.
Qed.

Lemma split_nonempty c s : split c s ≠ [].
Proof.
  destruct s as [|d s]; cbn; [done|].
  destruct (Ascii.eqb c d); [done|]. by destruct (split c s).
Qed.

Lemma take_length n s : String.length (take n s) = Nat.min n (String.length s).
Proof.
  unfold take. revert n. induction s as [|c s IH]; intros [|n]; cbn; auto.
Qed.

(** Concatenation, suffixes and parts. *)
Lemma app_nil_r (s : string) : s +:+ EmptyString = s.
Proof. induction s as [|c s IH]; [done|]. exact (f_equal (String c) IH). Qed.

Lemma app_assoc (r s t : string) : r +:+ (s +:+ t) = (r +:+ s) +:+ t.
Proof. induction r as [|c r IH]; [done|]. exact (f_equal (String c) IH). Qed.

Lemma app_length (s t : string) : String.length (s +:+ t) = String.length s + String.length t.
Proof. induction s as [|c s IH]; [done|]. exact (f_equal S IH). Qed.

Lemma drop_app_length (r t : string) : drop (String.length r) (r +:+ t) = t.
Proof. induction r as [|c r IH]; [by destruct t|]. exact IH. Qed.

Lemma drop_split n s : n <= String.length s → ∃ r, s = r +:+ drop n s.
Proof.
  revert s. induction n as [|n IH]; intros s Hn; [by exists EmptyString|].
  destruct s as [|c s]; cbn in Hn; [lia|]. destruct (IH s) as [r Hr]; [lia|].
  exists (String c r). exact (f_equal (String c) Hr).
Qed.

Lemma endswith_app t s : endswith t s = true ↔ ∃ r, s = r +:+ t.
Proof.
  unfold endswith. rewrite andb_true_iff, Nat.leb_le, String.eqb_eq. split.
  - intros [Hle Hd]. destruct (drop_split (String.length s - String.length t) s) as [r Hr]; [lia|].
    exists r. by rewrite Hd in Hr.
  - intros [r ->]. rewrite app_length. split; [lia|].
    replace (_ - _) with (String.length r) by lia. apply drop_app_length.
Qed.

Lemma split_app_sep c (r t : string) : split c (r +:+ String c t) = split c r ++ split c t.
Proof.
  induction r as [|d r IH].
  { change (split c (String c t) = [EmptyString] ++ split c t). cbn. by rewrite Ascii.eqb_refl. }
  change (String d r +:+ String c t) with (String d (r +:+ String c t)). cbn. rewrite IH.
  destruct (Ascii.eqb c d); [done|].
  pose proof (split_nonempty c r). by destruct (split c r).
Qed.

Lemma split_no_sep c s : sforallb (λ d, negb (Ascii.eqb c d)) s = true → split c s = [s].
Proof.
  induction s as [|d s IH]; cbn; [done|]. intros [Hd Hs]%andb_prop.
  apply negb_true_iff in Hd as ->. by rewrite IH.
Qed.

Lemma join_cons sep a l : l ≠ [] → join sep (a :: l) = a +:+ sep +:+ join sep l.
Proof. by destruct l. Qed.

Lemma join_split c s : join (String c EmptyString) (split c s) = s.
Proof.
  induction s as [|d s IH]; [done|]. cbn [split].
  pose proof (split_nonempty c s) as Hne.
  destruct (Ascii.eqb_spec c d) as [->|Hcd].
  - rewrite join_cons by done. by rewrite IH.
  - destruct (split c s) as [|w [|w' ws]] eqn:E; [done| |]; cbn in *; by rewrite <-IH.
Qed.

Lemma join_app sep l1 l2 :
  l1 ≠ [] → l2 ≠ [] → join sep (l1 ++ l2) = join sep l1 +:+ sep +:+ join sep l2.
Proof.
  intros H1 H2. induction l1 as [|a l1 IH]; [done|]. cbn [app].
  destruct l1 as [|b l1]; [by rewrite join_cons|].
  rewrite !join_cons by done. rewrite IH by done. by rewrite !app_assoc.
Qed.

Lemma sforallb_app p s t : sforallb p (s +:+ t) = sforallb p s && sforallb p t.
Proof.
  induction s as [|c s IH]; [done|].
  change (p c && sforallb p (s +:+ t) = p c && sforallb p s && sforallb p t).
  rewrite IH. apply andb_assoc.
Qed.

Lemma sforallb_impl (p q : ascii → bool) s :
  (∀ c, p c = true → q c = true) → sforallb p s = true → sforallb q s = true.
Proof. intros H. induction s as [|c s IH]; cbn; [done|]. rewrite !andb_true_iff. naive_solver. Qed.

(** Stripping does nothing to a text that has none of the characters at its ends. *)
Lemma lstrip_by_id p s : sforallb (λ c, negb (p c)) s = true → lstrip_by p s = s.
Proof. destruct s as [|c s]; cbn; [done|]. by intros [->%negb_true_iff _]%andb_prop. Qed.

Lemma rstrip_by_snoc p s c : p c = false →
  rstrip_by p (s +:+ String c EmptyString) = s +:+ String c EmptyString.
Proof.
  intros Hc. induction s as [|d s IH].
  { change (rstrip_by p (String c EmptyString) = String c EmptyString). cbn. by rewrite Hc. }
  change (String d s +:+ String c EmptyString) with (String d (s +:+ String c EmptyString)).
  cbn. rewrite IH. by destruct s.
Qed.

Lemma rstrip_by_id p s : sforallb (λ c, negb (p c)) s = true → rstrip_by p s = s.
Proof.
  induction s as [|c s IH]; cbn; [done|]. intros [Hc%negb_true_iff Hs]%andb_prop.
  rewrite IH by done. destruct s; [by rewrite Hc|done].
Qed.

Lemma smap_id f s : sforallb (λ c, Ascii.eqb (f c) c) s = true → smap f s = s.
Proof.
  induction s as [|c s IH]; cbn; [done|]. intros [Hc%Ascii.eqb_eq Hs]%andb_prop.
  by rewrite Hc, IH.
Qed.
(** Decimal numerals are digits. *)
Lemma pretty_go_digits x s :
  sforallb is_digit s = true → sforallb is_digit (pretty_N_go x s) = true.
Proof.
  revert s. induction (N.lt_wf_0 x) as [x _ IH]. intros s Hs.
  destruct (decide (x = 0)%N) as [->|Hx]; [by rewrite pretty_N_go_0|].
  rewrite pretty_N_go_step by lia. apply IH; [apply N.div_lt; lia|]. cbn. rewrite Hs, andb_true_r.
  pose proof (N.mod_lt x 10 ltac:(lia)) as Hd. revert Hd. generalize (x `mod` 10)%N. intros d Hd.
  assert (d = 0 ∨ d = 1 ∨ d = 2 ∨ d = 3 ∨ d = 4 ∨ d = 5 ∨ d = 6 ∨ d = 7 ∨ d = 8 ∨ d = 9)%N
    as Hcases by lia.
  by repeat destruct Hcases as [->|Hcases]; subst.
Qed.

Lemma pretty_N_digits (n : N) : sforallb is_digit (pretty n) = true.
Proof. unfold pretty, pretty_N. destruct (decide _); [done|]. by apply pretty_go_digits. Qed.

(** What follows the last separator determines both parts. *)
Lemma last_sep_inj c r t r' t' :
  sforallb (λ d, negb (Ascii.eqb c d)) t = true → sforallb (λ d, negb (Ascii.eqb c d)) t' = true →
  r +:+ String c t = r' +:+ String c t' → r = r' ∧ t = t'.
Proof.
  intros Ht Ht' H. apply (f_equal (split c)) in H.
  rewrite !split_app_sep, (split_no_sep c t), (split_no_sep c t') in H by done.
  apply app_inj_2 in H as [H [= ->]]; [|done]. split; [|done].
  by rewrite <-(join_split c r), H, join_split.
Qed.
End Str.

(** ** Dicts

    A Python [dict] with string keys: an association list in insertion order. *)
Section Dict.
Context {V : Type}.
Implicit Types (d : list (string * V)) (k : string) (v : V).

Fixpoint dict_get k d : option V :=
  match d with
  | [] => None
  | (k', v) :: d' => if String.eqb k k' then Some v else dict_get k d'
  end.

Definition dict_has k d : bool :=
  match dict_get k d with Some _ => true | None => false end.

(** [d[k] = v]: in place when the key exists, at the end otherwise. *)
Fixpoint dict_set k v d : list (string * V) :=
  match d with
  | [] => [(k, v)]
  | (k', v') :: d' => if String.eqb k k' then (k', v) :: d' else (k', v') :: dict_set k v d'
  end.

(** [d.pop(k, None)] without the result, and [{... if key != k}]. *)
Definition dict_del k d : list (string * V) :=
  List.filter (λ kv, negb (String.eqb k kv.1)) d.

(** [d.update(d2)] and [{**d, **d2}]. *)
Definition dict_update d d2 : list (string * V) :=
  foldl (λ acc kv, dict_set kv.1 kv.2 acc) d d2.

(** [d.setdefault(k, v)] without the result. *)
Definition dict_setdefault k v d : list (string * V) :=
  if dict_has k d then d else dict_set k v d.

Definition dict_keys d : list string := map fst d.
Definition dict_values d : list V := map snd d.

Lemma dict_get_set_eq k v d : dict_get k (dict_set k v d) = Some v.
Proof.
  induction d as [|[k' v'] d IH]; cbn; [by rewrite String.eqb_refl|].
  destruct (String.eqb k k') eqn:E; cbn; rewrite E; done.
Qed.

Lemma dict_get_set_ne k k' v d : k ≠ k' → dict_get k (dict_set k' v d) = dict_get k d.
Proof.
  intros Hk. induction d as [|[k2 v2] d IH]; cbn.
  - by apply String.eqb_neq in Hk as ->.
  - destruct (String.eqb k' k2) eqn:E; cbn; [|by rewrite IH].
    apply String.eqb_eq in E as <-. by apply String.eqb_neq in Hk as ->.
Qed.

Lemma dict_get_set k k' v d :
  dict_get k (dict_set k' v d) = if String.eqb k k' then Some v else dict_get k d.
Proof.
  destruct (String.eqb_spec k k') as [->|?]; [apply dict_get_set_eq|by apply dict_get_set_ne].
Qed.

Lemma dict_get_del_eq k d : dict_get k (dict_del k d) = None.
Proof.
  induction d as [|[k' v'] d IH]; cbn; [done|].
  destruct (String.eqb k k') eqn:E; cbn; [done|]. by rewrite E.
Qed.

Lemma dict_get_del_ne k k' d : k ≠ k' → dict_get k (dict_del k' d) = dict_get k d.
Proof.
  intros Hk. unfold dict_del. induction d as [|[k2 v2] d IH]; cbn; [done|].
  destruct (String.eqb k' k2) eqn:E; cbn; [|by rewrite IH].
  apply String.eqb_eq in E as <-. by apply String.eqb_neq in Hk as ->.
Qed.

Lemma dict_get_None k d : dict_get k d = None ↔ k ∉ dict_keys d.
Proof.
  induction d as [|[k' v'] d IH]; cbn; [split; [intros _ ?%elem_of_nil|]; done|].
  rewrite not_elem_of_cons. destruct (String.eqb_spec k k') as [->|?]; naive_solver.
Qed.

Lemma dict_get_Some_key k v d : dict_get k d = Some v → k ∈ dict_keys d.
Proof.
  intros H. destruct (decide (k ∈ dict_keys d)); [done|].
  apply dict_get_None in n. congruence.
Qed.

Lemma dict_get_Some_elem k v d : dict_get k d = Some v → (k, v) ∈ d.
Proof.
  induction d as [|[k' v'] d IH]; cbn; [done|].
  destruct (String.eqb_spec k k') as [->|?]; [intros [= ->]; left|right; auto].
Qed.

Lemma dict_get_elem k v d : NoDup (dict_keys d) → (k, v) ∈ d → dict_get k d = Some v.
Proof.
  induction d as [|[k' v'] d IH]; cbn; [by intros _ ?%elem_of_nil|].
  intros [Hk Hd]%NoDup_cons [[= <- <-]|Hin]%elem_of_cons.
  - by rewrite String.eqb_refl.
  - destruct (String.eqb_spec k k') as [->|?]; [|auto].
    destruct Hk. apply list_elem_of_fmap. by exists (k', v).
Qed.

Lemma dict_keys_set k v d :
  dict_keys (dict_set k v d) = if dict_has k d then dict_keys d else dict_keys d ++ [k].
Proof.
  unfold dict_has, dict_keys. induction d as [|[k' v'] d IH]; cbn; [done|].
  destruct (String.eqb k k') eqn:E; cbn; [done|].
  rewrite IH. by destruct (dict_get k d).
Qed.

Lemma dict_set_NoDup k v d : NoDup (dict_keys d) → NoDup (dict_keys (dict_set k v d)).
Proof.
  intros Hd. rewrite dict_keys_set. unfold dict_has.
  destruct (dict_get k d) eqn:E; [done|]. apply dict_get_None in E.
  apply NoDup_app. split; [done|]. split; [|apply NoDup_singleton].
  intros x Hx ->%list_elem_of_singleton. done.
Qed.

Lemma dict_update_NoDup d d2 : NoDup (dict_keys d) → NoDup (dict_keys (dict_update d d2)).
Proof.
  revert d. induction d2 as [|[k v] d2 IH]; cbn; intros d Hd; [done|].
  apply IH. by apply dict_set_NoDup.
Qed.

Lemma dict_get_update k d d2 :
  NoDup (dict_keys d2) →
  dict_get k (dict_update d d2) =
    match dict_get k d2 with Some v => Some v | None => dict_get k d end.
Proof.
  revert d. induction d2 as [|[k' v'] d2 IH]; cbn; intros d; [done|].
  intros [Hk Hd]%NoDup_cons. rewrite IH by done.
  destruct (String.eqb_spec k k') as [->|Hne].
  - assert (dict_get k' d2 = None) as -> by (by apply dict_get_None).
    apply dict_get_set_eq.
  - rewrite dict_get_set_ne by done. done.
Qed.

Lemma dict_keys_del k d : dict_keys (dict_del k d) = List.filter (λ x, negb (String.eqb k x)) (dict_keys d).
Proof.
  unfold dict_del, dict_keys. induction d as [|[k' v'] d IH]; cbn; [done|].
  destruct (String.eqb k k'); cbn; [done|]. by f_equal.
Qed.

Lemma dict_keys_update_elem k d d2 :
  k ∈ dict_keys (dict_update d d2) ↔ k ∈ dict_keys d ∨ k ∈ dict_keys d2.
Proof.
  revert d. induction d2 as [|[k' v'] d2 IH]; cbn; intros d; [set_solver|].
  rewrite IH, dict_keys_set. unfold dict_has.
  destruct (dict_get k' d) eqn:E; [|set_solver].
  apply dict_get_Some_key in E. set_solver.
Qed.

Lemma dict_set_same k v d : dict_get k d = Some v → dict_set k v d = d.
Proof.
  induction d as [|[k' v'] d IH]; cbn; [done|].
  destruct (String.eqb_spec k k') as [->|?]; [by intros [= ->]|]. intros H. by rewrite IH.
Qed.

Lemma dict_set_set k v w d : dict_set k v (dict_set k w d) = dict_set k v d.
Proof.
  induction d as [|[k' x] d IH]; cbn; [by rewrite String.eqb_refl|].
  destruct (String.eqb k k') eqn:E; cbn; rewrite E; [done|]. by rewrite IH.
Qed.

(** Every entry of an updated dict comes from one of the two dicts. *)
Lemma dict_set_elem k v d kv : kv ∈ dict_set k v d → kv = (k, v) ∨ kv ∈ d.
Proof.
  induction d as [|[k' v'] d IH]; cbn.
  - intros ->%list_elem_of_singleton. by left.
  - destruct (String.eqb_spec k k') as [->|?]; rewrite !elem_of_cons; naive_solver.
Qed.
End Dict.

#[export] Hint Rewrite @dict_get_set_eq @dict_get_del_eq : py_simpl.
#[export] Hint Rewrite @dict_get_set_ne @dict_get_del_ne using congruence : py_simpl.
#[export] Hint Resolve dict_set_NoDup dict_update_NoDup : py.
#[export] Hint Constructors NoDup : py.

Ltac dict_simpl := repeat progress (autorewrite with py_simpl in *; cbn in *).

(** ** Floats: IEEE 754 binary64 through [SpecFloat]. *)
Module F64.
Definition prec := 53.
Definition emax := 1024.

Definition add : spec_float → spec_float → spec_float := SFadd prec emax.
Definition sub : spec_float → spec_float → spec_float := SFsub prec emax.
Definition mul : spec_float → spec_float → spec_float := SFmul prec emax.
Definition div : spec_float → spec_float → spec_float := SFdiv prec emax.
Definition zero : spec_float := S754_zero false.

Definition is_finite (f : spec_float) : bool :=
  match f with S754_zero _ | S754_finite _ _ _ => true | _ => false end.

(** The binary64 nearest to an integer; [None] where [float(z)] overflows. *)
Definition of_Z (z : Z) : option spec_float :=
  let f := binary_normalize prec emax z 0 false in
  if is_finite f then Some f else None.

(** A finite float as an integer times a power of two. *)
Definition dyadic (f : spec_float) : option (Z * Z) :=
  match f with
  | S754_zero _ => Some (0, 0)
  | S754_finite s m e => Some (if s then Z.neg m else Z.pos m, e)
  | _ => None
  end.

Definition dyadic_compare (a b : Z * Z) : comparison :=
  let e := Z.min a.2 b.2 in
  Z.compare (a.1 * 2 ^ (a.2 - e)) (b.1 * 2 ^ (b.2 - e)).

Definition compare (x y : spec_float) : option comparison := SFcompare x y.
Definition ltb (x y : spec_float) : bool :=
  match compare x y with Some Lt => true | _ => false end.

(** [math.ceil] and [math.floor]; NaN raises ValueError, infinities OverflowError. *)
Definition ceil (f : spec_float) : res Z :=
  match f with
  | S754_nan => Err (ValueError "cannot convert float NaN to integer")
  | S754_infinity _ => Err OverflowError
  | S754_zero _ => Ok 0
  | S754_finite s m e =>
      let z := if s then Z.neg m else Z.pos m in
      Ok (if 0 <=? e then z * 2 ^ e else - ((- z) / 2 ^ (- e)))
  end.

Definition floor (f : spec_float) : res Z :=
  match f with
  | S754_nan => Err (ValueError "cannot convert float NaN to integer")
  | S754_infinity _ => Err OverflowError
  | S754_zero _ => Ok 0
  | S754_finite s m e =>
      let z := if s then Z.neg m else Z.pos m in
      Ok (if 0 <=? e then z * 2 ^ e else z / 2 ^ (- e))
  end.

(** [int(f)]: truncation towards zero. *)
Definition trunc (f : spec_float) : res Z :=
  match f with
  | S754_nan => Err (ValueError "cannot convert float NaN to integer")
  | S754_infinity _ => Err OverflowError
  | S754_zero _ => Ok 0
  | S754_finite s m e =>
      let z := if 0 <=? e then Z.pos m * 2 ^ e else Z.pos m / 2 ^ (- e) in
      Ok (if s then - z else z)
  end.
End F64.

(** ** Values *)
Inductive pyval :=
| VNone
| VBool (b : bool)
| VInt (z : Z)
| VFloat (f : spec_float)
| VStr (s : string)
| VList (l : list pyval)
| VDict (d : list (string * pyval)).

Notation pydict := (list (string * pyval)).

(** Induction through lists and dict entries. *)
Section PyvalInd.
Context (P : pyval → Prop).
Context (HNone : P VNone) (HBool : ∀ b, P (VBool b)) (HInt : ∀ z, P (VInt z))
  (HFloat : ∀ f, P (VFloat f)) (HStr : ∀ s, P (VStr s))
  (HList : ∀ l, Forall P l → P (VList l))
  (HDict : ∀ d, Forall (λ kv, P kv.2) d → P (VDict d)).

Fixpoint pyval_nested_ind (v : pyval) : P v :=
  match v with
  | VNone => HNone
  | VBool b => HBool b
  | VInt z => HInt z
  | VFloat f => HFloat f
  | VStr s => HStr s
  | VList l => HList l ((fix go l : Forall P l :=
      match l with
      | [] => Forall_nil_2 _
      | x :: l' => Forall_cons_2 _ _ _ (pyval_nested_ind x) (go l')
      end) l)
  | VDict d => HDict d ((fix go d : Forall (λ kv, P kv.2) d :=
      match d with
      | [] => Forall_nil_2 _
      | kv :: d' => Forall_cons_2 _ _ _ (pyval_nested_ind kv.2) (go d')
      end) d)
  end.
End PyvalInd.

(** [bool(v)] *)
Definition truthy (v : pyval) : bool :=
  match v with
  | VNone => false
  | VBool b => b
  | VInt z => negb (z =? 0)
  | VFloat (S754_zero _) => false
  | VFloat _ => true
  | VStr s => negb (Str.is_empty s)
  | VList l => match l with [] => false | _ => true end
  | VDict d => match d with [] => false | _ => true end
  end.

(** [a or b] *)
Definition por (a b : pyval) : pyval := if truthy a then a else b.

Definition is_none (v : pyval) : bool := match v with VNone => true | _ => false end.
Definition is_dict (v : pyval) : bool := match v with VDict _ => true | _ => false end.
Definition is_list (v : pyval) : bool := match v with VList _ => true | _ => false end.
Definition is_str (v : pyval) : bool := match v with VStr _ => true | _ => false end.

(** Numbers: [bool] is a subclass of [int]. *)
Inductive pynum := NInt (z : Z) | NFloat (f : spec_float).

Definition as_num (v : pyval) : option pynum :=
  match v with
  | VBool b => Some (NInt (if b then 1 else 0))
  | VInt z => Some (NInt z)
  | VFloat f => Some (NFloat f)
  | _ => None
  end.

(** Exact comparison of an int with a float. *)
Definition int_float_compare (z : Z) (f : spec_float) : option comparison :=
  match f with
  | S754_nan => None
  | S754_infinity s => Some (if s then Gt else Lt)
  | _ => match F64.dyadic f with
         | Some d => Some (F64.dyadic_compare (z, 0) d)
         | None => None
         end
  end.

Definition num_compare (a b : pynum) : option comparison :=
  match a, b with
  | NInt x, NInt y => Some (Z.compare x y)
  | NInt x, NFloat g => int_float_compare x g
  | NFloat f, NInt y => CompOpp <$> int_float_compare y f
  | NFloat f, NFloat g => F64.compare f g
  end.

Definition num_eqb (a b : pynum) : bool :=
  match num_compare a b with Some Eq => true | _ => false end.
Definition num_ltb (a b : pynum) : bool :=
  match num_compare a b with Some Lt => true | _ => false end.
Definition num_leb (a b : pynum) : bool :=
  match num_compare a b with Some Lt | Some Eq => true | _ => false end.

(** [a == b] *)
Fixpoint py_eqb (a b : pyval) {struct a} : bool :=
  match a, b with
  | VNone, VNone => true
  | VStr s, VStr t => String.eqb s t
  | VList l, VList m =>
      (fix go l m := match l, m with
        | [], [] => true
        | x :: l', y :: m' => py_eqb x y && go l' m'
        | _, _ => false
        end) l m
  | VDict d, VDict d' =>
      (length d =? length d')%nat &&
      (fix go d := match d with
        | [] => true
        | (k, x) :: r =>
            match dict_get k d' with Some y => py_eqb x y | None => false end && go r
        end) d
  | _, _ =>
      match as_num a, as_num b with Some x, Some y => num_eqb x y | _, _ => false end
  end.

Definition veq_str (v : pyval) (s : string) : bool :=
  match v with VStr t => String.eqb t s | _ => false end.

(** [v in (s1, s2, ...)] for strings *)
Definition vin_strs (v : pyval) (l : list string) : bool := existsb (veq_str v) l.

Lemma veq_str_true v s : veq_str v s = true ↔ v = VStr s.
Proof. destruct v; cbn; rewrite ?String.eqb_eq; naive_solver. Qed.

Lemma vin_strs_true v l : vin_strs v l = true ↔ ∃ s, v = VStr s ∧ s ∈ l.
Proof. unfold vin_strs. rewrite existsb_True. setoid_rewrite veq_str_true. naive_solver. Qed.

(** ** Access to values *)

(** [d.get(k)] and [d.get(k, default)] on a dict *)
Definition dget (d : pydict) (k : string) : pyval := default VNone (dict_get k d).
Definition dgetd (d : pydict) (k : string) (v : pyval) : pyval := default v (dict_get k d).

(** [v.get(k)], [v[k]] and iteration on a value that may not have them. *)
Definition vget (v : pyval) (k : string) : res pyval :=
  match v with VDict d => Ok (dget d k) | _ => Err AttributeError end.
Definition vgetd (v : pyval) (k : string) (w : pyval) : res pyval :=
  match v with VDict d => Ok (dgetd d k w) | _ => Err AttributeError end.
Definition ditem (d : pydict) (k : string) : res pyval :=
  match dict_get k d with Some v => Ok v | None => Err (KeyError k) end.
Definition vitem (v : pyval) (k : string) : res pyval :=
  match v with VDict d => ditem d k | _ => Err TypeError end.

Fixpoint chars (s : string) : list string :=
  match s with EmptyString => [] | String c s' => String c EmptyString :: chars s' end.

Definition viter (v : pyval) : res (list pyval) :=
  match v with
  | VList l => Ok l
  | VDict d => Ok (VStr <$> dict_keys d)
  | VStr s => Ok (VStr <$> chars s)
  | _ => Err TypeError
  end.

Definition as_dict (v : pyval) : res pydict :=
  match v with VDict d => Ok d | _ => Err AttributeError end.

Lemma dget_set_eq k v d : dget (dict_set k v d) k = v.
Proof. unfold dget. by rewrite dict_get_set_eq. Qed.

Lemma dget_set_ne k k' v d : k ≠ k' → dget (dict_set k' v d) k = dget d k.
Proof. intros. unfold dget. by rewrite dict_get_set_ne. Qed.

Lemma dget_del_ne k k' d : k ≠ k' → dget (dict_del k' d) k = dget d k.
Proof. intros. unfold dget. by rewrite dict_get_del_ne. Qed.

#[export] Hint Rewrite dget_set_eq : py_simpl.
#[export] Hint Rewrite dget_set_ne dget_del_ne using congruence : py_simpl.

(** Numbers compare as Python does; integers as integers. *)
Lemma num_leb_int x y : num_leb (NInt x) (NInt y) = (x <=? y).
Proof. unfold num_leb, Z.leb; cbn. by destruct (x ?= y). Qed.
Lemma num_ltb_int x y : num_ltb (NInt x) (NInt y) = (x <? y).
Proof. unfold num_ltb, Z.ltb; cbn. by destruct (x ?= y). Qed.

(** ** [str(v)] *)
Section PyStr.
(** [repr] of floats and containers. *)
Context (repr_other : pyval → string).

Definition py_str (v : pyval) : string :=
  match v with
  | VStr s => s
  | VInt z => pretty z
  | VBool true => "True"
  | VBool false => "False"
  | VNone => "None"
  | _ => repr_other v
  end.
End PyStr.
