(* ===== verification/PyDecimal.v ===== *)
(** * Python's [decimal.Decimal] under the default context: 28 significant
    digits, ROUND_HALF_EVEN.

    A finite Decimal is [coef * 10 ^ dexp].  Constructors are exact; the
    arithmetic operators round the exact result.  NaN, infinities and the
    exponent limits of the default context are outside the model: parsing one
    of the special values is an error here.  Values are compared by [dle] and
    [deq], which identify 1.0 and 1.00. *)

From S2P Require Import Prelude PyVal.
From Stdlib Require Import Ascii SpecFloat Psatz.

Local Open Scope Z_scope.

Record dec := Dec { coef : Z; dexp : Z }.

#[export] Instance dec_eq_dec : EqDecision dec.
Proof. solve_decision. Defined.

Definition dec_prec : Z := 28.
Definition d0 : dec := Dec 0 0.
Definition dec_of_Z (z : Z) : dec := Dec z 0.

(** ** Comparison *)

(** The integer [d / 10 ^ e], for [e <= dexp d]. *)
Definition scaled (d : dec) (e : Z) : Z := coef d * 10 ^ (dexp d - e).

Definition dcompare (a b : dec) : comparison :=
  let e := Z.min (dexp a) (dexp b) in Z.compare (scaled a e) (scaled b e).

Definition dle (a b : dec) : Prop := dcompare a b ≠ Gt.
Definition dlt (a b : dec) : Prop := dcompare a b = Lt.
Definition deq (a b : dec) : Prop := dcompare a b = Eq.
Definition dleb (a b : dec) : bool := match dcompare a b with Gt => false | _ => true end.
Definition dltb (a b : dec) : bool := match dcompare a b with Lt => true | _ => false end.

(** [max(a, b)]: the first argument unless the second is greater. *)
Definition dmax (a b : dec) : dec := if dltb a b then b else a.

(** ** Rounding and arithmetic *)

Fixpoint ndigits_fuel (fuel : nat) (z : Z) : Z :=
  match fuel with
  | O => 0
  | S f => if z <=? 0 then 0 else 1 + ndigits_fuel f (z / 10)
  end.
Definition ndigits (z : Z) : Z := ndigits_fuel (S (Z.to_nat (Z.log2 (Z.abs z)))) (Z.abs z).

(** [z / p] rounded half to even, for [p > 0]. *)
Definition div_half_even (z p : Z) : Z :=
  let q := z / p in
  let r := z mod p in
  match Z.compare (2 * r) p with
  | Lt => q
  | Gt => q + 1
  | Eq => if Z.even q then q else q + 1
  end.

(** The context's rounding of an exact result. *)
Definition dround (d : dec) : dec :=
  let k := ndigits (coef d) - dec_prec in
  if k <=? 0 then d else Dec (div_half_even (coef d) (10 ^ k)) (dexp d + k).

Definition dadd (a b : dec) : dec :=
  let e := Z.min (dexp a) (dexp b) in dround (Dec (scaled a e + scaled b e) e).
Definition dneg (a : dec) : dec := dround (Dec (- coef a) (dexp a)).
Definition dmul (a b : dec) : dec := dround (Dec (coef a * coef b) (dexp a + dexp b)).
Definition dmul_Z (a : dec) (z : Z) : dec := dmul a (dec_of_Z z).

(** [d / 1000]: the divisor is a power of ten, so the exact quotient is an
    exponent shift and only the rounding remains. *)
Definition ddiv1000 (d : dec) : dec := dround (Dec (coef d) (dexp d - 3)).

(** ** Constructors: [Decimal(v)] *)

Definition digit_val (c : ascii) : Z := Z.of_nat (Str.code c) - 48.

Fixpoint span_digits (s : string) : list Z * string :=
  match s with
  | String c s' =>
      if Str.is_digit c then let '(ds, r) := span_digits s' in (digit_val c :: ds, r)
      else ([], s)
  | EmptyString => ([], EmptyString)
  end.

Definition digits_val (ds : list Z) : Z := foldl (λ acc d, 10 * acc + d) 0 ds.

Definition read_sign (s : string) : bool * string :=
  match s with
  | String "-" s' => (true, s')
  | String "+" s' => (false, s')
  | _ => (false, s)
  end.

Fixpoint drop_underscores (s : string) : string :=
  match s with
  | EmptyString => EmptyString
  | String c s' => if Ascii.eqb c "_" then drop_underscores s' else String c (drop_underscores s')
  end.

Definition dec_of_string (s : string) : option dec :=
  let '(neg, s0) := read_sign (drop_underscores (Str.strip s)) in
  let '(ip, s1) := span_digits s0 in
  let '(fp, s2) := match s1 with
                   | String "." s' => span_digits s'
                   | _ => ([], s1)
                   end in
  match ip ++ fp with
  | [] => None
  | ds =>
      let c := if neg then - digits_val ds else digits_val ds in
      let e0 := - Z.of_nat (length fp) in
      match s2 with
      | EmptyString => Some (Dec c e0)
      | String x s3 =>
          if Ascii.eqb x "e" || Ascii.eqb x "E" then
            let '(eneg, s4) := read_sign s3 in
            match span_digits s4 with
            | ([], _) => None
            | (eds, EmptyString) =>
                Some (Dec c (e0 + (if eneg then - digits_val eds else digits_val eds)))
            | _ => None
            end
          else None
      end
  end.

(** [m * 2 ^ e] for [e < 0] is [m * 5 ^ (-e) * 10 ^ e]: the conversion is exact. *)
Definition dec_of_float (f : spec_float) : option dec :=
  match F64.dyadic f with
  | Some (m, e) => Some (if 0 <=? e then Dec (m * 2 ^ e) 0 else Dec (m * 5 ^ (- e)) e)
  | None => None
  end.

(** [Decimal(v)]; decimal.InvalidOperation is an ArithmeticError, shown as
    ValueError here, and the tuple form is not used by the modelled code. *)
Definition to_dec (v : pyval) : res dec :=
  let bad := Err (ValueError "InvalidOperation") in
  match v with
  | VBool b => Ok (dec_of_Z (if b then 1 else 0))
  | VInt z => Ok (dec_of_Z z)
  | VFloat f => match dec_of_float f with Some d => Ok d | None => bad end
  | VStr s => match dec_of_string s with Some d => Ok d | None => bad end
  | VList _ => bad
  | VNone | VDict _ => Err TypeError
  end.

(** [float(d)]: the nearest binary64, infinite when out of range. *)
Definition float_of_dec (d : dec) : spec_float :=
  match coef d with
  | 0 => F64.zero
  | c =>
      if 0 <=? dexp d then binary_normalize F64.prec F64.emax (c * 10 ^ dexp d) 0 false
      else
        let '(mz, ez, lz) :=
          SFdiv_core_binary F64.prec F64.emax (Z.abs c) 0 (10 ^ (- dexp d)) 0 in
        binary_round_aux F64.prec F64.emax (c <? 0) mz ez lz
  end.

Definition dec_sum (l : list dec) : dec := foldl dadd d0 l.

Example dec_of_string_ex : dec_of_string " -1_2.50e-1 " = Some (Dec (-1250) (-3)).
Proof. reflexivity. Qed.
Example float_of_dec_ex : float_of_dec (Dec 1 (-1)) = SFdiv 53 1024 (S754_finite false 4503599627370496 (-52)) (S754_finite false 5629499534213120 (-49)).
Proof. vm_compute. reflexivity. Qed.

(** ** Order *)

Lemma scaled_rescale d e e' : e' <= e <= dexp d → scaled d e' = scaled d e * 10 ^ (e - e').
Proof.
  intros [? ?]. unfold scaled. rewrite <-Z.mul_assoc, <-Z.pow_add_r by lia. do 2 f_equal. lia.
Qed.

Lemma pow10_pos k : 0 <= k → 0 < 10 ^ k.
Proof. intros. apply Z.pow_pos_nonneg; lia. Qed.

(** Any common exponent decides the comparison. *)
Lemma dcompare_at a b e :
  e <= dexp a → e <= dexp b → dcompare a b = Z.compare (scaled a e) (scaled b e).
Proof.
  intros Ha Hb. unfold dcompare. set (m := Z.min (dexp a) (dexp b)).
  rewrite (scaled_rescale a m e), (scaled_rescale b m e) by lia.
  apply Zmult_compare_compat_r. apply Z.lt_gt, pow10_pos. lia.
Qed.

Lemma dle_at a b e : e <= dexp a → e <= dexp b → dle a b ↔ scaled a e <= scaled b e.
Proof. intros. unfold dle. by rewrite (dcompare_at a b e) by done. Qed.

Lemma dlt_at a b e : e <= dexp a → e <= dexp b → dlt a b ↔ scaled a e < scaled b e.
Proof. intros. unfold dlt. by rewrite (dcompare_at a b e), Z.compare_lt_iff by done. Qed.

Lemma deq_at a b e : e <= dexp a → e <= dexp b → deq a b ↔ scaled a e = scaled b e.
Proof. intros. unfold deq. by rewrite (dcompare_at a b e), Z.compare_eq_iff by done. Qed.

Lemma dleb_true a b : dleb a b = true ↔ dle a b.
Proof. unfold dleb, dle. by destruct (dcompare a b). Qed.
Lemma dltb_true a b : dltb a b = true ↔ dlt a b.
Proof. unfold dltb, dlt. by destruct (dcompare a b). Qed.

Lemma dltb_false a b : dltb a b = false ↔ dle b a.
Proof.
  rewrite <-not_true_iff_false, dltb_true.
  rewrite (dlt_at a b (Z.min (dexp a) (dexp b))), (dle_at b a (Z.min (dexp a) (dexp b))) by lia. lia.
Qed.

#[export] Instance dle_refl : Reflexive dle.
Proof. intros a. apply (dle_at a a (dexp a)); lia. Qed.

#[export] Instance dle_trans : Transitive dle.
Proof.
  intros a b c. set (e := Z.min (dexp a) (Z.min (dexp b) (dexp c))).
  rewrite (dle_at a b e), (dle_at b c e), (dle_at a c e) by lia. lia.
Qed.

Lemma dle_total a b : dle a b ∨ dle b a.
Proof.
  set (e := Z.min (dexp a) (dexp b)). rewrite (dle_at a b e), (dle_at b a e) by lia. lia.
Qed.

Lemma dlt_le a b : dlt a b → dle a b.
Proof. unfold dlt, dle. by intros ->. Qed.

Lemma dlt_le_trans a b c : dlt a b → dle b c → dlt a c.
Proof.
  set (e := Z.min (dexp a) (Z.min (dexp b) (dexp c))).
  rewrite (dlt_at a b e), (dle_at b c e), (dlt_at a c e) by lia. lia.
Qed.

Lemma deq_spec a b : deq a b ↔ dle a b ∧ dle b a.
Proof.
  set (e := Z.min (dexp a) (dexp b)).
  rewrite (deq_at a b e), (dle_at a b e), (dle_at b a e) by lia. lia.
Qed.

#[export] Instance deq_equiv : Equivalence deq.
Proof.
  split.
  - intros a. by apply deq_spec.
  - intros a b. rewrite !deq_spec. tauto.
  - intros a b c. rewrite !deq_spec. intros [? ?] [? ?]. split; etrans; eauto.
Qed.

#[export] Instance dle_proper : Proper (deq ==> deq ==> iff) dle.
Proof.
  intros a a' [? ?]%deq_spec b b' [? ?]%deq_spec.
  split; intros.
  - transitivity a; [done|]. by transitivity b.
  - transitivity a'; [done|]. by transitivity b'.
Qed.

Definition dnonneg (d : dec) : Prop := dle d0 d.

Lemma dnonneg_coef d : dnonneg d ↔ 0 <= coef d.
Proof.
  unfold dnonneg. rewrite (dle_at d0 d (Z.min 0 (dexp d))) by (cbn; lia).
  unfold scaled, d0; cbn. pose proof (pow10_pos (dexp d - Z.min 0 (dexp d)) ltac:(lia)). nia.
Qed.

Lemma dpos_coef d : dlt d0 d ↔ 0 < coef d.
Proof.
  rewrite (dlt_at d0 d (Z.min 0 (dexp d))) by (cbn; lia).
  unfold scaled, d0; cbn. pose proof (pow10_pos (dexp d - Z.min 0 (dexp d)) ltac:(lia)). nia.
Qed.

(** ** Results of at most 28 digits are exact *)

Lemma ndigits_fuel_le f z k : 0 <= k → 0 <= z < 10 ^ k → ndigits_fuel f z <= k.
Proof.
  revert z k. induction f as [|f IH]; cbn; intros z k Hk Hz; [done|].
  destruct (Z.leb_spec z 0); [done|].
  assert (0 < k) by (destruct (decide (k = 0)) as [->|]; cbn in *; lia).
  enough (ndigits_fuel f (z / 10) <= k - 1) by lia.
  apply IH; [lia|]. split; [apply Z.div_pos; lia|].
  apply Z.div_lt_upper_bound; [lia|]. rewrite <-Z.pow_succ_r by lia.
  replace (Z.succ (k - 1)) with k by lia. lia.
Qed.

Lemma dround_exact d : Z.abs (coef d) < 10 ^ 28 → dround d = d.
Proof.
  intros H. unfold dround.
  assert (ndigits (coef d) <= dec_prec) by (apply ndigits_fuel_le; unfold dec_prec; lia).
  by destruct (Z.leb_spec (ndigits (coef d) - dec_prec) 0); [|lia].
Qed.

(** Rounding is stable: the context's results have at most 28 digits. *)
Lemma ndigits_fuel_lower f z :
  0 < z → z < 2 ^ Z.of_nat f → 10 ^ (ndigits_fuel f z - 1) <= z ∧ 0 < ndigits_fuel f z.
Proof.
  revert z. induction f as [|f IH]; intros z Hz Hf.
  { change (2 ^ Z.of_nat 0) with 1 in Hf. lia. }
  cbn [ndigits_fuel]. destruct (Z.leb_spec z 0); [lia|].
  destruct (decide (z / 10 = 0)) as [E|E].
  - assert (ndigits_fuel f (z / 10) = 0) as -> by (rewrite E; by destruct f).
    cbn. lia.
  - pose proof (Z.div_pos z 10 ltac:(lia) ltac:(lia)).
    assert (z / 10 < 2 ^ Z.of_nat f).
    { rewrite Nat2Z.inj_succ, Z.pow_succ_r in Hf by lia.
      apply Z.div_lt_upper_bound; lia. }
    destruct (IH (z / 10)) as [IH1 IH2]; [lia|done|]. split; [|lia].
    replace (1 + ndigits_fuel f (z / 10) - 1) with (Z.succ (ndigits_fuel f (z / 10) - 1)) by lia.
    rewrite Z.pow_succ_r by lia. pose proof (Z.mul_div_le z 10 ltac:(lia)). lia.
Qed.

Lemma ndigits_fuel_upper f z :
  0 <= z → z < 2 ^ Z.of_nat f → z < 10 ^ ndigits_fuel f z ∧ 0 <= ndigits_fuel f z.
Proof.
  revert z. induction f as [|f IH]; intros z Hz Hf.
  { change (2 ^ Z.of_nat 0) with 1 in Hf. cbn. lia. }
  cbn [ndigits_fuel]. destruct (Z.leb_spec z 0); [cbn; lia|].
  pose proof (Z.div_pos z 10 ltac:(lia) ltac:(lia)).
  assert (z / 10 < 2 ^ Z.of_nat f).
  { rewrite Nat2Z.inj_succ, Z.pow_succ_r in Hf by lia. apply Z.div_lt_upper_bound; lia. }
  destruct (IH (z / 10)) as [IH1 IH2]; [lia|done|]. split; [|lia].
  rewrite Z.add_1_l, Z.pow_succ_r by lia.
  pose proof (Z.mul_succ_div_gt z 10 ltac:(lia)). lia.
Qed.

Lemma ndigits_bound z : Z.abs z < 10 ^ ndigits z ∧ 0 <= ndigits z.
Proof.
  apply ndigits_fuel_upper; [lia|].
  destruct (decide (z = 0)) as [->|]; [done|].
  rewrite Nat2Z.inj_succ, Z2Nat.id by apply Z.log2_nonneg. apply Z.log2_spec. lia.
Qed.

Lemma div_half_even_bounds z p : 0 < p → z / p <= div_half_even z p <= z / p + 1.
Proof.
  intros Hp. unfold div_half_even. cbv zeta.
  destruct (2 * (z mod p) ?= p); [destruct (Z.even (z / p))| |]; lia.
Qed.

Lemma div_half_even_multiple q p : 0 < p → div_half_even (q * p) p = q.
Proof.
  intros Hp. unfold div_half_even. cbv zeta. rewrite Z.div_mul, Z.mod_mul by lia.
  by destruct p.
Qed.

Lemma dround_coef_bound d : Z.abs (coef (dround d)) <= 10 ^ 28.
Proof.
  unfold dround. pose proof (ndigits_bound (coef d)) as [Hb Hn].
  destruct (Z.leb_spec (ndigits (coef d) - dec_prec) 0) as [Hk|Hk].
  - assert (10 ^ ndigits (coef d) <= 10 ^ 28); [|lia].
    apply Z.pow_le_mono_r; unfold dec_prec in Hk; lia.
  - change (coef (Dec ?c _)) with c. set (k := ndigits (coef d) - dec_prec) in *.
    assert (10 ^ ndigits (coef d) = 10 ^ 28 * 10 ^ k) as Hp.
    { rewrite <-Z.pow_add_r by lia. f_equal. unfold k, dec_prec. lia. }
    pose proof (pow10_pos k ltac:(lia)) as Hk0.
    pose proof (div_half_even_bounds (coef d) (10 ^ k) Hk0) as [Hl Hu].
    rewrite Hp in Hb.
    set (p := 10 ^ k) in *. set (M := 10 ^ 28) in *. clearbody p M.
    assert (coef d / p < M) by (apply Z.div_lt_upper_bound; nia).
    assert (- M <= coef d / p) by (apply Z.div_le_lower_bound; nia).
    lia.
Qed.

Lemma dround_small d : Z.abs (coef d) <= 10 ^ 28 → deq (dround d) d.
Proof.
  intros Hd. destruct (decide (Z.abs (coef d) < 10 ^ 28)); [by rewrite dround_exact|].
  destruct d as [c e]; cbn [coef] in *.
  assert (dround (Dec c e) = Dec (c / 10) (e + 1) ∧ c / 10 * 10 = c) as [-> Hc].
  { assert (c = 10 ^ 28 ∨ c = - 10 ^ 28) as [-> | ->] by lia; by split; vm_compute. }
  apply (deq_at _ _ e); cbn [dexp]; [lia|lia|].
  unfold scaled. cbn [coef dexp]. rewrite Z.sub_diag, (Z.add_simpl_l e 1), Z.mul_1_r. done.
Qed.

(** ** Rounding keeps signs *)

Lemma div_half_even_nonneg z p : 0 < p → 0 <= z → 0 <= div_half_even z p.
Proof.
  intros Hp Hz. unfold div_half_even. cbv zeta. pose proof (Z.div_pos z p Hz Hp).
  destruct (2 * (z mod p) ?= p); [destruct (Z.even (z / p))| |]; lia.
Qed.

Lemma dround_nonneg d : dnonneg d → dnonneg (dround d).
Proof.
  rewrite !dnonneg_coef. unfold dround. destruct (Z.leb_spec (ndigits (coef d) - dec_prec) 0); [done|].
  change (0 <= coef d → 0 <= div_half_even (coef d) (10 ^ (ndigits (coef d) - dec_prec))).
  intros. apply div_half_even_nonneg; [|done]. apply pow10_pos. lia.
Qed.

Lemma dadd_nonneg a b : dnonneg a → dnonneg b → dnonneg (dadd a b).
Proof.
  rewrite !dnonneg_coef. intros Ha Hb. apply dnonneg_coef, dround_nonneg, dnonneg_coef.
  cbn. unfold scaled.
  pose proof (pow10_pos (dexp a - Z.min (dexp a) (dexp b)) ltac:(lia)).
  pose proof (pow10_pos (dexp b - Z.min (dexp a) (dexp b)) ltac:(lia)). nia.
Qed.

Lemma dmul_nonneg a b : dnonneg a → dnonneg b → dnonneg (dmul a b).
Proof.
  rewrite !dnonneg_coef. intros. apply dnonneg_coef, dround_nonneg, dnonneg_coef. cbn. nia.
Qed.

Lemma ddiv1000_nonneg a : dnonneg a → dnonneg (ddiv1000 a).
Proof. rewrite dnonneg_coef. intros. apply dround_nonneg, dnonneg_coef. done. Qed.

Lemma dec_of_Z_nonneg z : 0 <= z → dnonneg (dec_of_Z z).
Proof. by rewrite dnonneg_coef. Qed.

Lemma dmul_Z_nonneg a z : dnonneg a → 0 <= z → dnonneg (dmul_Z a z).
Proof. intros. apply dmul_nonneg; [done|]. by apply dec_of_Z_nonneg. Qed.

Lemma d0_nonneg : dnonneg d0.
Proof. by apply dnonneg_coef. Qed.

Lemma dmax_ge_l a b : dle a (dmax a b).
Proof. unfold dmax. destruct (dltb a b) eqn:E; [|done]. by apply dltb_true, dlt_le in E. Qed.
Lemma dmax_ge_r a b : dle b (dmax a b).
Proof. unfold dmax. destruct (dltb a b) eqn:E; [done|]. by apply dltb_false in E. Qed.
Lemma dmax_nonneg a b : dnonneg a → dnonneg (dmax a b).
Proof. intros H. exact (dle_trans _ _ _ H (dmax_ge_l a b)). Qed.
Lemma dmax_lub a b c : dle a c → dle b c → dle (dmax a b) c.
Proof. unfold dmax. by destruct (dltb a b). Qed.
Lemma dmax_case a b : dmax a b = a ∨ dmax a b = b.
Proof. unfold dmax. destruct (dltb a b); auto. Qed.

Create HintDb dec discriminated.
#[export] Hint Resolve dadd_nonneg dmul_nonneg dmul_Z_nonneg ddiv1000_nonneg
  dec_of_Z_nonneg d0_nonneg dmax_nonneg dround_nonneg : dec.

(** ** Arithmetic respects the value *)

Lemma ndigits_unique z n :
  0 < n → 10 ^ (n - 1) <= Z.abs z < 10 ^ n → ndigits z = n.
Proof.
  intros Hn [Hl Hu].
  assert (Hz : 0 < Z.abs z) by (pose proof (pow10_pos (n - 1) ltac:(lia)); lia).
  pose proof (ndigits_bound z) as [Hb H0].
  assert (Hlow : 10 ^ (ndigits z - 1) <= Z.abs z ∧ 0 < ndigits z).
  { apply ndigits_fuel_lower; [done|]. rewrite Nat2Z.inj_succ, Z2Nat.id by apply Z.log2_nonneg.
    by apply Z.log2_spec. }
  assert (n - 1 < ndigits z) by (apply (Z.pow_lt_mono_r_iff 10); lia).
  assert (ndigits z - 1 < n) by (apply (Z.pow_lt_mono_r_iff 10); lia).
  lia.
Qed.

Lemma ndigits_shift c k : c ≠ 0 → 0 <= k → ndigits (c * 10 ^ k) = ndigits c + k.
Proof.
  intros Hc Hk. pose proof (ndigits_bound c) as [Hb _].
  assert (Hlow : 10 ^ (ndigits c - 1) <= Z.abs c ∧ 0 < ndigits c).
  { apply ndigits_fuel_lower; [lia|]. rewrite Nat2Z.inj_succ, Z2Nat.id by apply Z.log2_nonneg.
    apply Z.log2_spec. lia. }
  destruct Hlow as [Hlow Hpos]. pose proof (pow10_pos k Hk) as Hp.
  apply ndigits_unique; [lia|]. rewrite Z.abs_mul, (Z.abs_eq (10 ^ k)) by lia.
  replace (ndigits c + k - 1) with ((ndigits c - 1) + k) by lia.
  rewrite !Z.pow_add_r by lia. nia.
Qed.

Lemma div_half_even_scale z p q : 0 < p → 0 < q → div_half_even (z * q) (p * q) = div_half_even z p.
Proof.
  intros Hp Hq. unfold div_half_even. cbv zeta.
  rewrite Z.div_mul_cancel_r, Zmult_mod_distr_r by lia.
  replace (2 * (z mod p * q)) with (2 * (z mod p) * q) by lia.
  by rewrite <-Zmult_compare_compat_r by lia.
Qed.

Lemma deq_shift c e k : 0 <= k → deq (Dec (c * 10 ^ k) (e - k)) (Dec c e).
Proof.
  intros Hk. apply (deq_at _ _ (e - k)); cbn; [lia|lia|]. unfold scaled; cbn.
  rewrite Z.sub_diag, Z.mul_1_r. do 2 f_equal. lia.
Qed.

Lemma dround_shift c e k : 0 <= k → deq (dround (Dec (c * 10 ^ k) (e - k))) (dround (Dec c e)).
Proof.
  intros Hk. destruct (decide (c = 0)) as [->|Hc].
  { rewrite !dround_exact by (cbn; lia). by apply deq_shift. }
  unfold dround. cbn [coef dexp]. rewrite ndigits_shift by done.
  set (n := ndigits c - dec_prec). replace (ndigits c + k - dec_prec) with (n + k) by lia.
  destruct (Z.leb_spec (n + k) 0) as [H1|H1], (Z.leb_spec n 0) as [H2|H2]; [|lia| |].
  - by apply deq_shift.
  - replace (10 ^ k) with (10 ^ (- n) * 10 ^ (n + k)) by (rewrite <-Z.pow_add_r by lia; f_equal; lia).
    rewrite Z.mul_assoc, div_half_even_multiple by (apply pow10_pos; lia).
    replace (e - k + (n + k)) with (e - (- n)) by lia. apply deq_shift. lia.
  - rewrite Z.pow_add_r by lia. rewrite div_half_even_scale by (apply pow10_pos; lia).
    by replace (e - k + (n + k)) with (e + n) by lia.
Qed.

Lemma deq_shifted a b : deq a b → dexp a <= dexp b →
  a = Dec (coef b * 10 ^ (dexp b - dexp a)) (dexp b - (dexp b - dexp a)).
Proof.
  intros Heq Hle. apply (deq_at a b (dexp a)) in Heq; [|lia|lia]. unfold scaled in Heq.
  rewrite Z.sub_diag, Z.mul_1_r in Heq. destruct a as [ca ea]; cbn in *.
  f_equal; [done|lia].
Qed.

#[export] Instance dround_proper : Proper (deq ==> deq) dround.
Proof.
  assert (H : ∀ a b, deq a b → dexp a <= dexp b → deq (dround a) (dround b)).
  { intros a b Heq Hle. rewrite (deq_shifted a b Heq Hle). destruct b as [c e].
    apply dround_shift. cbn in *. lia. }
  intros a b Heq. destruct (Z.le_ge_cases (dexp a) (dexp b)); [by apply H|].
  symmetry. apply H; [by symmetry|done].
Qed.

#[export] Instance dadd_proper : Proper (deq ==> deq ==> deq) dadd.
Proof.
  intros a a' Ha b b' Hb. unfold dadd. apply dround_proper.
  set (e := Z.min (Z.min (dexp a) (dexp a')) (Z.min (dexp b) (dexp b'))).
  assert (Hs : ∀ x y, e <= dexp x → e <= dexp y →
    deq (Dec (scaled x (Z.min (dexp x) (dexp y)) + scaled y (Z.min (dexp x) (dexp y)))
             (Z.min (dexp x) (dexp y)))
        (Dec (scaled x e + scaled y e) e)).
  { intros x y Hx Hy. set (m := Z.min (dexp x) (dexp y)).
    rewrite (scaled_rescale x m e), (scaled_rescale y m e), <-Z.mul_add_distr_r by lia.
    pose proof (deq_shift (scaled x m + scaled y m) m (m - e) ltac:(lia)) as Hd.
    replace (m - (m - e)) with e in Hd by lia. by symmetry. }
  rewrite (Hs a b), (Hs a' b') by lia.
  apply (deq_at a a' e) in Ha as ->; [|lia|lia]. by apply (deq_at b b' e) in Hb as ->; [|lia|lia].
Qed.

#[export] Instance dneg_proper : Proper (deq ==> deq) dneg.
Proof.
  intros a b Hab. apply dround_proper.
  set (e := Z.min (dexp a) (dexp b)). apply (deq_at a b e) in Hab; [|lia|lia].
  apply (deq_at _ _ e); cbn; [lia|lia|]. unfold scaled in *; cbn. lia.
Qed.

Lemma dneg_dneg a : Z.abs (coef a) <= 10 ^ 28 → deq (dneg (dneg a)) a.
Proof.
  intros Ha. assert (deq (dneg a) (Dec (- coef a) (dexp a))) as -> by (apply dround_small; cbn; lia).
  unfold dneg. cbn [coef dexp]. rewrite Z.opp_involutive. destruct a. by apply dround_small.
Qed.

Lemma dneg_short a : Z.abs (coef (dneg a)) <= 10 ^ 28.
Proof. apply dround_coef_bound. Qed.

Lemma dadd_0_r a z e : Z.abs (coef a) <= 10 ^ 28 → z = 0 → deq (dadd a (Dec z e)) a.
Proof.
  intros Ha ->.
  assert (Hz : deq (Dec 0 e) (Dec 0 (dexp a))).
  { apply (deq_at _ _ (Z.min e (dexp a))); cbn; [lia|lia|]. by unfold scaled. }
  rewrite Hz. unfold dadd. cbn [dexp]. rewrite Z.min_id. unfold scaled. cbn [coef dexp].
  rewrite Z.sub_diag, Z.mul_1_r, Z.add_0_r. destruct a. by apply dround_small.
Qed.

Lemma dadd_short a b : Z.abs (coef (dadd a b)) <= 10 ^ 28.
Proof. apply dround_coef_bound. Qed.

#[export] Instance dmax_le_proper : Proper (dle ==> dle ==> dle) dmax.
Proof.
  intros a a' Ha b b' Hb. apply dmax_lub.
  - transitivity a'; [done|apply dmax_ge_l].
  - transitivity b'; [done|apply dmax_ge_r].
Qed.

#[export] Hint Resolve dneg_short dadd_short : dec.

(** ** [int(v)] *)

(** Underscores are allowed between two digits only. *)
Fixpoint int_digits (prev_digit : bool) (acc : Z) (s : string) : option Z :=
  match s with
  | EmptyString => if prev_digit then Some acc else None
  | String c s' =>
      if Str.is_digit c then int_digits true (10 * acc + digit_val c) s'
      else if Ascii.eqb c "_" && prev_digit then int_digits false acc s'
      else None
  end.

Definition int_of_string (s : string) : option Z :=
  let '(neg, s') := read_sign (Str.strip s) in
  z ← int_digits false 0 s'; Some (if neg then - z else z).

Definition py_int (v : pyval) : res Z :=
  match v with
  | VBool b => Ok (if b then 1 else 0)
  | VInt z => Ok z
  | VFloat f => F64.trunc f
  | VStr s => match int_of_string s with Some z => Ok z | None => Err (ValueError "int()") end
  | _ => Err TypeError
  end.

Example int_of_string_ex : (int_of_string " -1_0 ", int_of_string "_1", int_of_string "1.0") = (Some (-10), None, None).
Proof. reflexivity. Qed.
