(* ===== verification/Json.v ===== *)
(** * [json.loads]: the standard library's JSON decoder.

    Accepts what [json.loads] accepts on a [str]: RFC 8259 texts plus the
    constants NaN, Infinity and -Infinity; the last of two equal keys wins.
    Strings are limited to code points below 256, so an escape [\uXXXX] above
    that is an error here.  [fuel] bounds the nesting and the number of items;
    [json_loads] passes more than the length of the text. *)

From S2P Require Import Prelude PyVal PyDecimal.
From Stdlib Require Import Ascii SpecFloat.

Local Open Scope Z_scope.

Definition decode_error : exn := ValueError "JSONDecodeError".

Definition quote : ascii := ascii_of_nat 34.
Definition backslash : ascii := ascii_of_nat 92.

(** JSON white space: space, tab, newline, carriage return. *)
Definition json_ws (c : ascii) : bool :=
  let n := Str.code c in
  (n =? 32)%nat || (n =? 9)%nat || (n =? 10)%nat || (n =? 13)%nat.

Definition skip_ws : string → string := Str.lstrip_by json_ws.

Definition hex_val (c : ascii) : option Z :=
  let n := Z.of_nat (Str.code c) in
  if (48 <=? n) && (n <=? 57) then Some (n - 48)
  else if (97 <=? n) && (n <=? 102) then Some (n - 87)
  else if (65 <=? n) && (n <=? 70) then Some (n - 55)
  else None.

Definition hex4 (a b c d : ascii) : option Z :=
  match hex_val a, hex_val b, hex_val c, hex_val d with
  | Some x, Some y, Some z, Some w => Some (4096 * x + 256 * y + 16 * z + w)
  | _, _, _, _ => None
  end.

(** The body of a string literal, after the opening quote. *)
Fixpoint parse_string (fuel : nat) (s : string) : res (string * string) :=
  match fuel with
  | O => Err decode_error
  | S fuel =>
      match s with
      | EmptyString => Err decode_error
      | String c s1 =>
          let cons x rest := r ← parse_string fuel rest; Ok (String x r.1, r.2) in
          if Ascii.eqb c quote then Ok (EmptyString, s1)
          else if Ascii.eqb c backslash then
            match s1 with
            | String "b" r => cons (ascii_of_nat 8) r
            | String "f" r => cons (ascii_of_nat 12) r
            | String "n" r => cons (ascii_of_nat 10) r
            | String "r" r => cons (ascii_of_nat 13) r
            | String "t" r => cons (ascii_of_nat 9) r
            | String "/" r => cons "/"%char r
            | String "u" (String h1 (String h2 (String h3 (String h4 r)))) =>
                match hex4 h1 h2 h3 h4 with
                | Some n => if n <? 256 then cons (ascii_of_nat (Z.to_nat n)) r
                            else Err decode_error
                | None => Err decode_error
                end
            | String x r => if Ascii.eqb x quote || Ascii.eqb x backslash then cons x r
                            else Err decode_error
            | EmptyString => Err decode_error
            end
          else if (Str.code c <? 32)%nat then Err decode_error
          else cons c s1
      end
  end.

(** A number: optional minus, an integer part without leading zeros, then an
    optional fraction and exponent; an [int] without the last two, else the
    nearest binary64. *)
Definition parse_number (s : string) : res (pyval * string) :=
  let '(neg, s0) := match s with String "-" r => (true, r) | _ => (false, s) end in
  let '(ip, s1) := match s0 with
                   | String "0" r => ([0], r)
                   | _ => span_digits s0
                   end in
  match ip with
  | [] => Err decode_error
  | _ =>
      let '(fp, s2) := match s1 with
                       | String "." r => match span_digits r with
                                         | ([], _) => ([], s1)
                                         | p => p
                                         end
                       | _ => ([], s1)
                       end in
      let '(ex, s3) := match s2 with
                       | String x r =>
                           if Ascii.eqb x "e" || Ascii.eqb x "E" then
                             let '(eneg, r') := read_sign r in
                             match span_digits r' with
                             | ([], _) => (None, s2)
                             | (ds, rest) =>
                                 (Some (if eneg then - digits_val ds else digits_val ds), rest)
                             end
                           else (None, s2)
                       | EmptyString => (None, s2)
                       end in
      let c := if neg then - digits_val (ip ++ fp) else digits_val (ip ++ fp) in
      match fp, ex with
      | [], None => Ok (VInt c, s3)
      | _, _ =>
          Ok (VFloat (if c =? 0 then S754_zero neg
                      else float_of_dec (Dec c (default 0 ex - Z.of_nat (length fp)))), s3)
      end
  end.

Fixpoint strip_prefix (p s : string) : option string :=
  match p, s with
  | EmptyString, _ => Some s
  | String a p', String b s' => if Ascii.eqb a b then strip_prefix p' s' else None
  | _, EmptyString => None
  end.

Definition json_constants : list (string * pyval) :=
  [("null", VNone); ("true", VBool true); ("false", VBool false); ("NaN", VFloat S754_nan);
   ("Infinity", VFloat (S754_infinity false)); ("-Infinity", VFloat (S754_infinity true))].

Fixpoint parse_constant (l : list (string * pyval)) (s : string) : option (pyval * string) :=
  match l with
  | [] => None
  | (p, v) :: l' =>
      match strip_prefix p s with Some r => Some (v, r) | None => parse_constant l' s end
  end.

(** A value, and the items of an array or object up to the closing bracket. *)
Fixpoint parse_value (fuel : nat) (s : string) : res (pyval * string) :=
  match fuel with
  | O => Err decode_error
  | S fuel =>
      match s with
      | EmptyString => Err decode_error
      | String c r =>
          if Ascii.eqb c quote then p ← parse_string (S (String.length r)) r; Ok (VStr p.1, p.2)
          else if Ascii.eqb c "[" then
            match skip_ws r with
            | String "]" r' => Ok (VList [], r')
            | r' => p ← parse_items fuel r'; Ok (VList p.1, p.2)
            end
          else if Ascii.eqb c "{" then
            match skip_ws r with
            | String "}" r' => Ok (VDict [], r')
            | r' => p ← parse_members fuel [] r'; Ok (VDict p.1, p.2)
            end
          else match parse_constant json_constants s with
               | Some p => Ok p
               | None => parse_number s
               end
      end
  end
with parse_items (fuel : nat) (s : string) : res (list pyval * string) :=
  match fuel with
  | O => Err decode_error
  | S fuel =>
      p ← parse_value fuel s;
      match skip_ws p.2 with
      | String "]" r => Ok ([p.1], r)
      | String "," r => q ← parse_items fuel (skip_ws r); Ok (p.1 :: q.1, q.2)
      | _ => Err decode_error
      end
  end
with parse_members (fuel : nat) (acc : pydict) (s : string) : res (pydict * string) :=
  match fuel with
  | O => Err decode_error
  | S fuel =>
      match s with
      | String c r =>
          if Ascii.eqb c quote then
            k ← parse_string (S (String.length r)) r;
            match skip_ws k.2 with
            | String ":" r1 =>
                v ← parse_value fuel (skip_ws r1);
                let acc := dict_set k.1 v.1 acc in
                match skip_ws v.2 with
                | String "}" r2 => Ok (acc, r2)
                | String "," r2 => parse_members fuel acc (skip_ws r2)
                | _ => Err decode_error
                end
            | _ => Err decode_error
            end
          else Err decode_error
      | EmptyString => Err decode_error
      end
  end.

Definition json_loads (s : string) : res pyval :=
  p ← parse_value (S (2 * String.length s)) (skip_ws s);
  if Str.is_empty (skip_ws p.2) then Ok p.1 else Err decode_error.

Example json_loads_ex :
  json_loads " [1, -2, 0, true, null, {} , [ ] ,{ } ]" =
    Ok (VList [VInt 1; VInt (-2); VInt 0; VBool true; VNone; VDict []; VList []; VDict []]).
Proof. vm_compute. reflexivity. Qed.

Example json_loads_object :
  json_loads (Str.smap (λ c, if Ascii.eqb c "'" then quote else c)
    "{'a': 15e-1, 'b' : [{'c':'x\ny'}], 'a': 0.5}") =
    Ok (VDict [("a", VFloat (float_of_dec (Dec 5 (-1))));
               ("b", VList [VDict [("c", VStr (String "x" (String (ascii_of_nat 10) "y")))]])]).
Proof. vm_compute. reflexivity. Qed.

Example json_loads_trailing : json_loads "1 2" = Err decode_error.
Proof. vm_compute. reflexivity. Qed.

(** Decoded objects never hold a key twice. *)
Fixpoint wf_json (v : pyval) : bool :=
  match v with
  | VList l => (fix go l := match l with [] => true | x :: r => wf_json x && go r end) l
  | VDict d =>
      bool_decide (NoDup (dict_keys d)) &&
      (fix go d := match d with [] => true | (_, x) :: r => wf_json x && go r end) d
  | _ => true
  end.
