(* ===== verification/Config.v ===== *)
(** * Per-key configuration (models/config.py).

    [config_state] is the [config] table together with the class attributes
    DEFAULTS, PERSISTENT_ENABLED and OAUTH_PERSISTENT_ENABLED of [Config]. *)

From S2P Require Import Prelude PyVal.

Record config_state := {
  cfg_rows : gmap string pyval;
  cfg_defaults : gmap string pyval;
  cfg_persistent_enabled : bool;
  cfg_oauth_persistent_enabled : bool;
}.

(** [Config.default_value] *)
Definition default_value (c : config_state) (key : string) (dflt : pyval) : pyval :=
  default dflt (cfg_defaults c !! key).

(** [Config.persistent_enabled_for] *)
Definition persistent_enabled_for (c : config_state) (key : string) : bool :=
  if negb (cfg_persistent_enabled c) then false
  else if Str.startswith "oauth." key && negb (cfg_oauth_persistent_enabled c) then false
  else true.

(** [Config.get] and [Config.get_sync] *)
Definition config_get (c : config_state) (key : string) (dflt : pyval) : pyval :=
  if negb (persistent_enabled_for c key) then default_value c key dflt
  else match cfg_rows c !! key with
       | Some v => v
       | None => default_value c key dflt
       end.

(** [Config.get_many]: the keys that exist, in the order asked for. *)
Definition config_get_many (c : config_state) (keys : list string) : pydict :=
  let disabled_values :=
    foldl (λ d k, if negb (persistent_enabled_for c k)
                  then match cfg_defaults c !! k with
                       | Some _ => dict_set k (default_value c k VNone) d
                       | None => d
                       end
                  else d) [] keys in
  let enabled_keys := List.filter (persistent_enabled_for c) keys in
  match enabled_keys with
  | [] => disabled_values
  | _ =>
      let value k := if persistent_enabled_for c k then cfg_rows c !! k else None in
      foldl (λ d k,
        if (match value k with Some _ => true | None => false end)
           || (match cfg_defaults c !! k with Some _ => true | None => false end)
           || dict_has k disabled_values
        then dict_set k (match value k with Some v => v | None => default_value c k VNone end) d
        else d) [] keys
  end.

Section Upsert.
(** fastapi's [jsonable_encoder]. *)
Context (jsonable_encoder : pyval → pyval).

Definition config_set_row (k : string) (v : pyval) (c : config_state) : config_state :=
  {| cfg_rows := <[k := v]> (cfg_rows c); cfg_defaults := cfg_defaults c;
     cfg_persistent_enabled := cfg_persistent_enabled c;
     cfg_oauth_persistent_enabled := cfg_oauth_persistent_enabled c |}.

Definition config_set_default (k : string) (v : pyval) (c : config_state) : config_state :=
  {| cfg_rows := cfg_rows c; cfg_defaults := <[k := v]> (cfg_defaults c);
     cfg_persistent_enabled := cfg_persistent_enabled c;
     cfg_oauth_persistent_enabled := cfg_oauth_persistent_enabled c |}.

(** [Config.upsert] without a caller's session: keys whose persistence is
    off change the in-memory defaults, the others their row; the inner call
    encodes the values a second time. *)
Definition config_upsert (updates : pydict) (c : config_state) : config_state :=
  let step (acc : config_state * pydict) (kv : string * pyval) :=
    let value := jsonable_encoder kv.2 in
    if persistent_enabled_for acc.1 kv.1
    then (acc.1, dict_set kv.1 value acc.2)
    else (config_set_default kv.1 value acc.1, acc.2) in
  let '(c1, persistent_updates) := foldl step (c, []) updates in
  foldl (λ c kv, config_set_row kv.1 (jsonable_encoder kv.2) c) c1 persistent_updates.
End Upsert.

(** [Config.delete] *)
Definition config_delete (key : string) (c : config_state) : bool * config_state :=
  match cfg_rows c !! key with
  | Some _ => (true, {| cfg_rows := base.delete key (cfg_rows c); cfg_defaults := cfg_defaults c;
                        cfg_persistent_enabled := cfg_persistent_enabled c;
                        cfg_oauth_persistent_enabled := cfg_oauth_persistent_enabled c |})
  | None => (false, c)
  end.

(** [credit_config] of utils/credit/utils.py: a stored null means the default. *)
Definition credit_config (c : config_state) (key : string) (dflt : pyval) : pyval :=
  let value := config_get c key dflt in
  if is_none value then dflt else value.

(** ** Lemmas *)

Lemma persistent_enabled_for_set_default k v c key :
  persistent_enabled_for (config_set_default k v c) key = persistent_enabled_for c key.
Proof. done. Qed.

Lemma persistent_enabled_for_set_row k v c key :
  persistent_enabled_for (config_set_row k v c) key = persistent_enabled_for c key.
Proof. done. Qed.

Lemma set_rows_lookup (enc : pyval → pyval) (d : pydict) c k :
  NoDup (dict_keys d) →
  cfg_rows (foldl (λ c kv, config_set_row kv.1 (enc kv.2) c) c d) !! k =
    match dict_get k d with Some v => Some (enc v) | None => cfg_rows c !! k end.
Proof.
  revert c. induction d as [|[k' v] d IH]; cbn; intros c; [done|].
  intros [Hk Hd]%NoDup_cons. rewrite IH by done. cbn.
  destruct (String.eqb_spec k k') as [->|Hne].
  - apply dict_get_None in Hk as ->. by rewrite lookup_insert_eq.
  - by rewrite lookup_insert_ne.
Qed.

Lemma set_rows_frame (enc : pyval → pyval) (d : pydict) c :
  let c' := foldl (λ c kv, config_set_row kv.1 (enc kv.2) c) c d in
  cfg_defaults c' = cfg_defaults c ∧ cfg_persistent_enabled c' = cfg_persistent_enabled c
  ∧ cfg_oauth_persistent_enabled c' = cfg_oauth_persistent_enabled c.
Proof. revert c. induction d as [|kv d IH]; cbn; intros c; [done|]. apply (IH (config_set_row _ _ c)). Qed.

Lemma upsert_single (enc : pyval → pyval) k v c :
  config_upsert enc [(k, v)] c =
    if persistent_enabled_for c k then config_set_row k (enc (enc v)) c
    else config_set_default k (enc v) c.
Proof. unfold config_upsert; cbn. by destruct (persistent_enabled_for c k). Qed.
