(* ===== verification/Credits.v ===== *)
(** * Credit balances and the credit log (models/credits.py).

    [credit_db] holds the rows of the [credit] and [credit_log] tables that the
    two table classes work on, the configuration they read and the number of
    uuids drawn so far.  Every method is a computation in [st credit_db]; a
    [with get_db()] block is a [transaction]. *)

From S2P Require Import Prelude PyVal PyDecimal Config.
From Stdlib Require Import Psatz.

Local Open Scope Z_scope.

(** [Credit] / [CreditModel] *)
Record credit_row := {
  cr_id : string;
  cr_user_id : string;
  cr_credit : dec;
  cr_updated_at : Z;
  cr_created_at : Z;
}.

(** [SetCreditFormDetail] *)
Record credit_detail := {
  cd_api_path : string;
  cd_api_params : pydict;
  cd_desc : string;
  cd_usage : pydict;
}.

(** [CreditLog] / [CreditLogModel] *)
Record credit_log := {
  cl_id : string;
  cl_user_id : string;
  cl_credit : dec;
  cl_detail : credit_detail;
  cl_created_at : Z;
}.

(** [AddCreditForm] and [SetCreditForm] *)
Record add_credit_form := { af_user_id : string; af_amount : dec; af_detail : credit_detail }.
Record set_credit_form := { sf_user_id : string; sf_credit : dec; sf_detail : credit_detail }.

Record credit_db := {
  db_credits : list credit_row;
  db_logs : list credit_log;
  db_config : config_state;
  db_uuids : nat;
}.

Definition with_credits (l : list credit_row) (d : credit_db) : credit_db :=
  {| db_credits := l; db_logs := db_logs d; db_config := db_config d; db_uuids := db_uuids d |}.
Definition with_logs (l : list credit_log) (d : credit_db) : credit_db :=
  {| db_credits := db_credits d; db_logs := l; db_config := db_config d; db_uuids := db_uuids d |}.
Definition with_uuids (n : nat) (d : credit_db) : credit_db :=
  {| db_credits := db_credits d; db_logs := db_logs d; db_config := db_config d; db_uuids := n |}.

Definition set_balance (c : dec) (now : Z) (r : credit_row) : credit_row :=
  {| cr_id := cr_id r; cr_user_id := cr_user_id r; cr_credit := c;
     cr_updated_at := now; cr_created_at := cr_created_at r |}.

(** The exact SQL sum of two numerics. *)
Definition sql_add (a b : dec) : dec :=
  let e := Z.min (dexp a) (dexp b) in Dec (scaled a e + scaled b e) e.

Section Tables.
(** [numeric d]: the value read back after storing [d] in a NUMERIC(24, 12)
    column.  [uuid4 n]: the n-th identifier drawn.  [repr_other]: [repr] of
    floats and containers. *)
Context (numeric : dec → dec) (uuid4 : nat → string) (repr_other : pyval → string).

Definition fresh_uuid : st credit_db string :=
  n ← st_gets db_uuids; _ ← st_modify (with_uuids (S n)); mret (uuid4 n).

(** INSERT into [credit]: the unique index is on user_id (ids are fresh). *)
Definition insert_credit_row (r : credit_row) : st credit_db unit := λ d,
  if existsb (λ r', String.eqb (cr_user_id r') (cr_user_id r)) (db_credits d)
  then (Err IntegrityError, d)
  else (Ok tt, with_credits (db_credits d ++
          [set_balance (numeric (cr_credit r)) (cr_updated_at r) r]) d).

Definition insert_log_row (l : credit_log) : st credit_db unit :=
  st_modify (λ d, with_logs (db_logs d ++
    [{| cl_id := cl_id l; cl_user_id := cl_user_id l; cl_credit := numeric (cl_credit l);
        cl_detail := cl_detail l; cl_created_at := cl_created_at l |}]) d).

(** UPDATE credit SET credit = f(credit), updated_at = now WHERE p: the
    number of rows matched. *)
Definition update_credit_rows (p : credit_row → bool) (f : dec → dec) (now : Z)
    : st credit_db nat := λ d,
  (Ok (length (List.filter p (db_credits d))),
   with_credits (map (λ r, if p r then set_balance (numeric (f (cr_credit r))) now r else r)
                     (db_credits d)) d).

Definition of_user (user_id : string) (r : credit_row) : bool :=
  String.eqb (cr_user_id r) user_id.

(** [CreditsTable.insert_new_credit] *)
Definition insert_new_credit (now : Z) (user_id : string) : st credit_db (option credit_row) :=
  st_catch (
    default_credit ← st_gets (λ d, config_get (db_config d) "credit.default_credit" (VStr "0"));
    credit ← st_lift (to_dec (VStr (py_str repr_other default_credit)));
    id ← fresh_uuid;
    let credit_model := {| cr_id := id; cr_user_id := user_id; cr_credit := credit;
                           cr_updated_at := now; cr_created_at := now |} in
    _ ← transaction (insert_credit_row credit_model);
    mret (Some credit_model))
  (λ _, mret None).

(** [CreditsTable.get_credit_by_user_id] *)
Definition get_credit_by_user_id (user_id : string) : st credit_db (option credit_row) :=
  st_gets (λ d, find_first (of_user user_id) (db_credits d)).

(** [CreditsTable.list_credits_by_user_id] *)
Definition list_credits_by_user_id (user_ids : list string) : st credit_db (list credit_row) :=
  st_gets (λ d, List.filter (λ r, bool_decide (cr_user_id r ∈ user_ids)) (db_credits d)).

(** [CreditsTable.init_credit_by_user_id] *)
Definition init_credit_by_user_id (now : Z) (user_id : string) : st credit_db credit_row :=
  c1 ← get_credit_by_user_id user_id;
  match c1 with
  | Some c => mret c
  | None =>
      c2 ← insert_new_credit now user_id;
      match c2 with
      | Some c => mret c
      | None =>
          c3 ← get_credit_by_user_id user_id;
          match c3 with
          | Some c => mret c
          | None => raise (HTTPException 500 "credit initialize failed")
          end
      end
  end.

Definition new_log (now : Z) (user_id : string) (credit : dec) (detail : credit_detail)
    : st credit_db credit_log :=
  id ← fresh_uuid;
  mret {| cl_id := id; cl_user_id := user_id; cl_credit := credit;
          cl_detail := detail; cl_created_at := now |}.

(** [CreditsTable.set_credit_by_user_id] *)
Definition set_credit_by_user_id (now : Z) (form : set_credit_form)
    : st credit_db (option credit_row) :=
  credit_model ← init_credit_by_user_id now (sf_user_id form);
  log ← new_log now (sf_user_id form) (sf_credit form) (sf_detail form);
  _ ← transaction (
    _ ← insert_log_row log;
    update_credit_rows (of_user (cr_user_id credit_model)) (λ _, sf_credit form) now);
  get_credit_by_user_id (sf_user_id form).

Definition no_credit_detail (c : config_state) : string :=
  py_str repr_other (config_get c "credit.no_credit_msg" (VStr "余额不足，请联系管理员充值")).

(** [CreditsTable.add_credit_by_user_id]: one guarded UPDATE; the log row
    records the balance read back in the same session. *)
Definition add_credit_by_user_id (now : Z) (form : add_credit_form)
    : st credit_db (option credit_row) :=
  _ ← init_credit_by_user_id now (af_user_id form);
  before ← st_get;
  updated ← transaction (
    let enough r := if dltb (af_amount form) d0
                    then dleb (dneg (af_amount form)) (cr_credit r) else true in
    updated ← update_credit_rows (λ r, of_user (af_user_id form) r && enough r)
                (λ c, sql_add c (af_amount form)) now;
    if (updated =? 1)%nat then
      row ← get_credit_by_user_id (af_user_id form);
      let balance := match row with Some r => cr_credit r | None => d0 end in
      log ← new_log now (af_user_id form) balance (af_detail form);
      _ ← insert_log_row log;
      mret updated
    else (* no commit *) _ ← st_put before; mret updated);
  if (updated =? 1)%nat then get_credit_by_user_id (af_user_id form)
  else c ← st_gets db_config; raise (HTTPException 403 (no_credit_detail c)).

(** [CreditsTable.reset_all_credits] *)
Definition reset_all_credits (now : Z) (value : dec) : st credit_db nat :=
  transaction (update_credit_rows (λ _, true) (λ _, value) now).

(** The writing operations of the table, as one step relation. *)
Inductive credit_op :=
| OpInit (user_id : string)
| OpSet (form : set_credit_form)
| OpAdd (form : add_credit_form)
| OpReset (value : dec).

Definition run_op (now : Z) (op : credit_op) : st credit_db unit :=
  match op with
  | OpInit u => _ ← init_credit_by_user_id now u; mret tt
  | OpSet f => _ ← set_credit_by_user_id now f; mret tt
  | OpAdd f => _ ← add_credit_by_user_id now f; mret tt
  | OpReset v => _ ← reset_all_credits now v; mret tt
  end.
End Tables.

(** ** [CreditLogTable] *)

Definition log_of_users (user_ids : list string) (l : credit_log) : bool :=
  match user_ids with [] => true | _ => bool_decide (cl_user_id l ∈ user_ids) end.

(** [CreditLogTable.count_credit_log] *)
Definition count_credit_log (user_ids : list string) (d : credit_db) : nat :=
  length (List.filter (log_of_users user_ids) (db_logs d)).

(** [CreditLogTable.get_credit_log_by_page]: newest first; an absent or zero
    offset or limit is not applied. *)
Definition get_credit_log_by_page (user_ids : list string) (offset limit : nat) (d : credit_db)
    : list credit_log :=
  let rows := py_sorted (λ a b, cl_created_at b <=? cl_created_at a)
                (List.filter (log_of_users user_ids) (db_logs d)) in
  let rows := skipn offset rows in
  if (limit =? 0)%nat then rows else firstn limit rows.

(** [CreditLogTable.get_log_by_time] *)
Definition get_log_by_time (start_time end_time : Z) (user_ids : list string) (d : credit_db)
    : list credit_log :=
  py_sorted (λ a b, cl_created_at a <=? cl_created_at b)
    (List.filter (λ l, (start_time <=? cl_created_at l) && (cl_created_at l <? end_time)
                       && log_of_users user_ids l) (db_logs d)).

(** [CreditLogTable.delete_log_by_timestamp] *)
Definition delete_log_by_timestamp (timestamp : Z) : st credit_db nat := λ d,
  let old l := cl_created_at l <? timestamp in
  (Ok (length (List.filter old (db_logs d))),
   with_logs (List.filter (λ l, negb (old l)) (db_logs d)) d).

(** ** Invariants *)

(** The unique index, and no account in debt. *)
Definition unique_users (d : credit_db) : Prop := NoDup (map cr_user_id (db_credits d)).
Definition no_debt (d : credit_db) : Prop := Forall (λ r, dnonneg (cr_credit r)) (db_credits d).

Definition balance_of (user_id : string) (d : credit_db) : option dec :=
  cr_credit <$> find_first (of_user user_id) (db_credits d).

(** What the library relies on from the database: storing in the column is
    monotone and stores zero as zero. *)
Class NumericColumn (numeric : dec → dec) : Prop := {
  numeric_mono a b : dle a b → dle (numeric a) (numeric b);
  numeric_zero : deq (numeric d0) d0;
}.

(** A column of scale 12 that rounds half up towards positive infinity: one
    concrete column with these laws. *)
Definition numeric_scale12 (d : dec) : dec :=
  if -12 <=? dexp d then d else Dec ((2 * coef d + 10 ^ (-12 - dexp d)) / (2 * 10 ^ (-12 - dexp d))) (-12).

Section Invariants.
Context (numeric : dec → dec) (uuid4 : nat → string) (repr_other : pyval → string).
Context `{!NumericColumn numeric}.

Lemma numeric_nonneg d : dnonneg d → dnonneg (numeric d).
Proof.
  unfold dnonneg. intros H%numeric_mono. by rewrite numeric_zero in H.
Qed.

Lemma sql_add_nonneg c a :
  Z.abs (coef a) <= 10 ^ 28 → dle (dneg a) c → dnonneg (sql_add c a).
Proof.
  intros Ha Hle. rewrite dnonneg_coef.
  assert (Hn : dle (Dec (- coef a) (dexp a)) c).
  { assert (deq (dneg a) (Dec (- coef a) (dexp a))) as Heq by (apply dround_small; cbn; lia).
    by rewrite <-Heq. }
  rewrite (dle_at _ _ (Z.min (dexp c) (dexp a))) in Hn by (cbn; lia).
  unfold scaled in Hn; cbn in *. unfold scaled. lia.
Qed.

Lemma sql_add_nonneg_pos c a : dnonneg c → dnonneg a → dnonneg (sql_add c a).
Proof.
  rewrite !dnonneg_coef. cbn. unfold scaled. intros.
  pose proof (pow10_pos (dexp c - Z.min (dexp c) (dexp a)) ltac:(lia)).
  pose proof (pow10_pos (dexp a - Z.min (dexp c) (dexp a)) ltac:(lia)). nia.
Qed.

(** The default balance of new accounts is not negative. *)
Definition default_nonneg (d : credit_db) : Prop :=
  ∀ c, to_dec (VStr (py_str repr_other
         (config_get (db_config d) "credit.default_credit" (VStr "0")))) = Ok c → dnonneg c.

Definition credit_inv (d : credit_db) : Prop :=
  unique_users d ∧ no_debt d ∧ default_nonneg d.

Lemma fresh_uuid_inv : preserves credit_inv (fresh_uuid uuid4).
Proof. by intros d Hd. Qed.

Lemma insert_log_row_inv l : preserves credit_inv (insert_log_row numeric l).
Proof. by intros d Hd. Qed.

Lemma map_update_users (p : credit_row → bool) (f : credit_row → dec) (l : list credit_row) now :
  map cr_user_id (map (λ r, if p r then set_balance (f r) now r else r) l) = map cr_user_id l.
Proof. rewrite map_map. apply map_ext. intros r. by destruct (p r). Qed.

Lemma update_credit_rows_inv p f now :
  (∀ r, p r = true → dnonneg (cr_credit r) → dnonneg (f (cr_credit r))) →
  preserves credit_inv (update_credit_rows numeric p f now).
Proof.
  intros Hf d (Hu & Hd & Hdef). split_and!; [| |done]; unfold update_credit_rows; cbn.
  - unfold unique_users; cbn. by rewrite (map_update_users _ (λ r, numeric (f (cr_credit r)))).
  - unfold no_debt in *; cbn. apply Forall_map. eapply Forall_impl; [exact Hd|].
    intros r Hr. cbn. destruct (p r) eqn:Hp; [|done]. cbn. by apply numeric_nonneg, Hf.
Qed.

Lemma insert_credit_row_inv r :
  dnonneg (cr_credit r) → preserves credit_inv (insert_credit_row numeric r).
Proof.
  intros Hr d Hinv. unfold insert_credit_row.
  destruct (existsb _ _) eqn:E; [done|]. destruct Hinv as (Hu & Hd & Hdef).
  split_and!; [| |done].
  - unfold unique_users in *; cbn. rewrite map_app. apply NoDup_app. split; [done|].
    split; [|apply NoDup_singleton]. intros u Hin ->%list_elem_of_singleton.
    apply list_elem_of_fmap in Hin as (r' & Heq & Hr').
    apply (proj1 (existsb_False _ _) E) in Hr'. cbn in Heq.
    by rewrite Heq, String.eqb_refl in Hr'.
  - unfold no_debt in *; cbn. apply Forall_app. split; [done|].
    constructor; [by apply numeric_nonneg|constructor].
Qed.

Lemma get_credit_inv u : preserves credit_inv (get_credit_by_user_id u).
Proof. by intros d Hd. Qed.

Lemma insert_new_credit_inv now u :
  preserves credit_inv (insert_new_credit numeric uuid4 repr_other now u).
Proof.
  apply preserves_catch; [|by intros e d Hd].
  intros d Hd. rewrite st_bind_eq. unfold st_gets at 1. cbn iota beta.
  rewrite st_bind_eq. unfold st_lift at 1.
  destruct (to_dec _) as [c|e] eqn:E; cbn iota beta; [|done].
  apply (preserves_bind credit_inv); [apply fresh_uuid_inv| |exact Hd]. intros id.
  apply preserves_bind; [|by intros a d' Hd'].
  apply preserves_transaction, insert_credit_row_inv. by apply Hd.
Qed.

Lemma init_credit_inv now u :
  preserves credit_inv (init_credit_by_user_id numeric uuid4 repr_other now u).
Proof.
  apply preserves_bind; [apply get_credit_inv|]. intros [c|]; [by intros d Hd|].
  apply preserves_bind; [apply insert_new_credit_inv|]. intros [c|]; [by intros d Hd|].
  apply preserves_bind; [apply get_credit_inv|]. by intros [c|] d Hd.
Qed.

Lemma new_log_inv now u c det : preserves credit_inv (new_log uuid4 now u c det).
Proof. by intros d Hd. Qed.

Lemma set_credit_inv now f :
  dnonneg (sf_credit f) →
  preserves credit_inv (set_credit_by_user_id numeric uuid4 repr_other now f).
Proof.
  intros Hf. apply preserves_bind; [apply init_credit_inv|]. intros r.
  apply preserves_bind; [apply new_log_inv|]. intros log.
  apply preserves_bind; [|intros; apply get_credit_inv].
  apply preserves_transaction, preserves_bind; [apply insert_log_row_inv|].
  intros _. by apply update_credit_rows_inv.
Qed.

(** The amounts [CreditDeduct] and the routers post: at most 28 digits. *)
Definition short_amount (a : dec) : Prop := Z.abs (coef a) <= 10 ^ 28.

Lemma guarded_amount_nonneg a r :
  short_amount a → dnonneg (cr_credit r) →
  (if dltb a d0 then dleb (dneg a) (cr_credit r) else true) = true →
  dnonneg (sql_add (cr_credit r) a).
Proof.
  intros Ha Hr. destruct (dltb a d0) eqn:E.
  - rewrite dleb_true. by apply sql_add_nonneg.
  - intros _. by apply sql_add_nonneg_pos, dltb_false.
Qed.

Lemma add_credit_inv now f :
  short_amount (af_amount f) →
  preserves credit_inv (add_credit_by_user_id numeric uuid4 repr_other now f).
Proof.
  intros Hf. apply preserves_bind; [apply init_credit_inv|]. intros _ d Hd.
  unfold st_get. rewrite st_bind_eq; cbn iota beta.
  apply preserves_bind; [| |exact Hd].
  - apply preserves_transaction, preserves_bind.
    + apply update_credit_rows_inv. intros r [_ Hen]%andb_prop Hr.
      by apply guarded_amount_nonneg.
    + intros n. destruct (n =? 1)%nat.
      * apply preserves_bind; [apply get_credit_inv|]. intros row.
        apply preserves_bind; [apply new_log_inv|]. intros log.
        apply preserves_bind; [apply insert_log_row_inv|]. by intros _ d' Hd'.
      * by intros d' Hd'.
  - intros n. destruct (n =? 1)%nat; [apply get_credit_inv|]. by intros d' Hd'.
Qed.

Definition op_allowed (op : credit_op) : Prop :=
  match op with
  | OpInit _ => True
  | OpSet f => dnonneg (sf_credit f)
  | OpAdd f => short_amount (af_amount f)
  | OpReset v => dnonneg v
  end.

Inductive credit_step (d : credit_db) : credit_db → Prop :=
| CreditStep now op :
    op_allowed op → credit_step d (run_op numeric uuid4 repr_other now op d).2.

Lemma run_op_inv now op :
  op_allowed op → preserves credit_inv (run_op numeric uuid4 repr_other now op).
Proof.
  intros Hop. destruct op as [u|f|f|v]; apply preserves_bind; try (by intros _ d Hd).
  - apply init_credit_inv.
  - by apply set_credit_inv.
  - by apply add_credit_inv.
  - by apply preserves_transaction, update_credit_rows_inv.
Qed.
End Invariants.

(** ** Functional behaviour *)

#[local] Arguments of_user : simpl never.

Lemma of_user_set_balance u c now r : of_user u (set_balance c now r) = of_user u r.
Proof. done. Qed.

Lemma find_user_map (p : credit_row → bool) g now u l :
  find_first (of_user u) (map (λ r, if p r then set_balance (g r) now r else r) l) =
  (λ r, if p r then set_balance (g r) now r else r) <$> find_first (of_user u) l.
Proof.
  induction l as [|r l IH]; cbn [map find_first]; [done|].
  destruct (p r) eqn:Hp; rewrite ?of_user_set_balance;
    (destruct (of_user u r) eqn:Hu; [by cbn; rewrite Hp|done]).
Qed.

Lemma filter_unique_user u (q : credit_row → bool) l r :
  NoDup (map cr_user_id l) → find_first (of_user u) l = Some r →
  List.filter (λ r, of_user u r && q r) l = if q r then [r] else [].
Proof.
  assert (Hnone : ∀ l, u ∉ map cr_user_id l → List.filter (λ r, of_user u r && q r) l = []).
  { clear l r. intros l. induction l as [|x l IH]; cbn [map List.filter]; [done|].
    intros [Hx Hl]%not_elem_of_cons. unfold of_user at 1.
    destruct (String.eqb_spec (cr_user_id x) u); [congruence|cbn; by apply IH]. }
  induction l as [|x l IH]; cbn [map List.filter find_first]; [done|].
  intros [Hx Hl]%NoDup_cons Hr. destruct (of_user u x) eqn:E.
  - injection Hr as ->. cbn. apply String.eqb_eq in E. subst u.
    by destruct (q r); rewrite Hnone.
  - cbn. by apply IH.
Qed.

Section Functional.
Context (numeric : dec → dec) (uuid4 : nat → string) (repr_other : pyval → string).

Lemma init_credit_existing now u d r :
  find_first (of_user u) (db_credits d) = Some r →
  init_credit_by_user_id numeric uuid4 repr_other now u d = (Ok r, d).
Proof. intros H. unfold init_credit_by_user_id. rewrite st_bind_eq. cbn. by rewrite H. Qed.

Definition enough_credit (a balance : dec) : bool :=
  if dltb a d0 then dleb (dneg a) balance else true.

(** The database after a successful addition. *)
Definition after_add (now : Z) (f : add_credit_form) (r : credit_row) (d : credit_db) : credit_db :=
  let c := numeric (sql_add (cr_credit r) (af_amount f)) in
  {| db_credits := map (λ x, if of_user (af_user_id f) x then set_balance c now x else x)
                       (db_credits d);
     db_logs := db_logs d ++
       [{| cl_id := uuid4 (db_uuids d); cl_user_id := af_user_id f; cl_credit := numeric c;
           cl_detail := af_detail f; cl_created_at := now |}];
     db_config := db_config d;
     db_uuids := S (db_uuids d) |}.

Lemma update_user_rows u (q : credit_row → bool) g now d r :
  unique_users d → find_first (of_user u) (db_credits d) = Some r → q r = true →
  update_credit_rows numeric (λ r, of_user u r && q r) g now d =
    (Ok 1%nat, with_credits (map (λ x, if of_user u x then set_balance (numeric (g (cr_credit r))) now x else x)
                       (db_credits d)) d).
Proof.
  intros Hu Hr Hq. unfold update_credit_rows. f_equal.
  { by rewrite (filter_unique_user u q _ r Hu Hr), Hq. }
  f_equal. apply map_ext_in. intros x Hx%list_elem_of_In.
  destruct (of_user u x) eqn:E; cbn; [|done].
  assert (x = r) as ->; [|by rewrite Hq].
  assert (Hf : x ∈ List.filter (λ r, of_user u r && true) (db_credits d)).
  { apply list_elem_of_In, filter_In. split; [by apply list_elem_of_In|by rewrite E]. }
  rewrite (filter_unique_user u (λ _, true) _ r Hu Hr) in Hf.
  by apply list_elem_of_singleton in Hf.
Qed.

Lemma update_user_rows_none u (q : credit_row → bool) g now d r :
  unique_users d → find_first (of_user u) (db_credits d) = Some r → q r = false →
  (update_credit_rows numeric (λ r, of_user u r && q r) g now d).1 = Ok 0%nat.
Proof.
  intros Hu Hr Hq. unfold update_credit_rows.
  by rewrite (filter_unique_user u q _ r Hu Hr), Hq.
Qed.

Lemma add_credit_cases now f d r :
  unique_users d → find_first (of_user (af_user_id f)) (db_credits d) = Some r →
  add_credit_by_user_id numeric uuid4 repr_other now f d =
    if enough_credit (af_amount f) (cr_credit r)
    then (Ok (Some (set_balance (numeric (sql_add (cr_credit r) (af_amount f))) now r)),
          after_add now f r d)
    else (Err (HTTPException 403 (no_credit_detail repr_other (db_config d))), d).
Proof.
  intros Hu Hr. unfold add_credit_by_user_id.
  rewrite st_bind_eq, (init_credit_existing _ _ _ _ Hr), st_bind_eq.
  unfold st_get at 1. cbn iota beta zeta. rewrite st_bind_eq. unfold transaction.
  rewrite st_bind_eq.
  set (q := λ r, if dltb (af_amount f) d0 then dleb (dneg (af_amount f)) (cr_credit r) else true).
  destruct (enough_credit (af_amount f) (cr_credit r)) eqn:E.
  - rewrite (update_user_rows _ q _ _ _ r Hu Hr E). cbn [Nat.eqb].
    assert (Hf : find_first (of_user (af_user_id f))
      (map (λ x, if of_user (af_user_id f) x
                 then set_balance (numeric (sql_add (cr_credit r) (af_amount f))) now x else x)
         (db_credits d)) =
      Some (set_balance (numeric (sql_add (cr_credit r) (af_amount f))) now r)).
    { etrans; [apply (find_user_map (of_user (af_user_id f))
                       (λ _, numeric (sql_add (cr_credit r) (af_amount f))))|].
      rewrite Hr. cbn. by rewrite (proj2 (find_first_Some _ _ _ Hr)). }
    unfold get_credit_by_user_id, new_log, fresh_uuid, insert_log_row.
    st_run. rewrite !Hf. cbn. by rewrite ?Hf.
  - pose proof (update_user_rows_none _ q (λ c, sql_add c (af_amount f)) now _ r Hu Hr E) as H0.
    destruct (update_credit_rows _ _ _ _ d) as [x d'] eqn:Ed. cbn in H0. subst x.
    cbn. by rewrite ?Ed.
Qed.

Lemma after_add_balance now f r d v :
  find_first (of_user (af_user_id f)) (db_credits d) = Some r →
  balance_of v (after_add now f r d) =
    if String.eqb v (af_user_id f) then Some (numeric (sql_add (cr_credit r) (af_amount f)))
    else balance_of v d.
Proof.
  intros Hr. unfold balance_of, after_add; cbn [db_credits].
  rewrite (find_user_map _ (λ _, numeric (sql_add (cr_credit r) (af_amount f)))).
  destruct (String.eqb_spec v (af_user_id f)) as [->|Hne].
  - rewrite Hr. cbn. by rewrite (proj2 (find_first_Some _ _ _ Hr)).
  - destruct (find_first (of_user v) (db_credits d)) as [x|] eqn:Ex; [|done]. cbn.
    apply find_first_Some in Ex as [_ Hx]. unfold of_user in *.
    apply String.eqb_eq in Hx. rewrite Hx. by apply String.eqb_neq in Hne as ->.
Qed.
End Functional.

(** ** A concrete column *)

Lemma numeric_scale12_scaled d e :
  e <= dexp d → e <= -12 →
  dexp (numeric_scale12 d) >= -12 ∧
  scaled (numeric_scale12 d) (-12) = (2 * scaled d e + 10 ^ (-12 - e)) / (2 * 10 ^ (-12 - e)).
Proof.
  intros He H12. unfold numeric_scale12.
  pose proof (pow10_pos (-12 - e) ltac:(lia)) as Hp.
  destruct (Z.leb_spec (-12) (dexp d)) as [Hd|Hd]; (split; [cbn; lia|]).
  - rewrite (scaled_rescale d (-12) e) by lia.
    set (P := 10 ^ (-12 - e)) in *. set (Y := scaled d (-12)). clearbody P Y.
    apply (Z.div_unique _ _ Y P); lia.
  - unfold scaled at 1. change (dexp (Dec _ (-12))) with (-12). cbn [coef].
    rewrite Z.sub_diag, Z.mul_1_r.
    rewrite (scaled_rescale d (dexp d) e) by lia. unfold scaled. rewrite Z.sub_diag, Z.mul_1_r.
    replace (-12 - e) with ((-12 - dexp d) + (dexp d - e)) by lia.
    rewrite Z.pow_add_r by lia.
    pose proof (pow10_pos (-12 - dexp d) ltac:(lia)).
    pose proof (pow10_pos (dexp d - e) ltac:(lia)).
    set (p := 10 ^ (-12 - dexp d)) in *. set (q := 10 ^ (dexp d - e)) in *. clearbody p q.
    replace (2 * (coef d * q) + p * q) with ((2 * coef d + p) * q) by lia.
    replace (2 * (p * q)) with ((2 * p) * q) by lia.
    symmetry. apply Z.div_mul_cancel_r; lia.
Qed.

#[export] Instance numeric_scale12_column : NumericColumn numeric_scale12.
Proof.
  split; [|done]. intros a b Hab.
  set (e := Z.min (-12) (Z.min (dexp a) (dexp b))).
  destruct (numeric_scale12_scaled a e) as [Ha1 Ha2]; [lia..|].
  destruct (numeric_scale12_scaled b e) as [Hb1 Hb2]; [lia..|].
  rewrite (dle_at a b e) in Hab by lia. apply (dle_at _ _ (-12)); [lia..|].
  rewrite Ha2, Hb2. pose proof (pow10_pos (-12 - e) ltac:(lia)).
  apply Z.div_le_mono; lia.
Qed.

(** ** Properties *)

Section Properties.
Context (numeric : dec → dec) (uuid4 : nat → string) (repr_other : pyval → string).

(** C1: No sequence of account creations, additions, deductions (of amounts of
  at most 28 digits), admin sets and daily resets to a non-negative value
  ever leaves an account in debt or gives a user two accounts. *)
Theorem credits_never_negative `{!NumericColumn numeric} d d' :
credit_inv repr_other d →
rtc (credit_step numeric uuid4 repr_other) d d' →
unique_users d' ∧ ∀ u c, balance_of u d' = Some c → dnonneg c.
Proof.
intros Hinv Hsteps.
assert (credit_inv repr_other d') as (Hu & Hd & _).
{ induction Hsteps as [|d1 d2 d3 [now op Hop] _ IH]; [done|].
  apply IH. by apply run_op_inv. }
split; [done|]. unfold balance_of. intros u c.
destruct (find_first (of_user u) (db_credits d')) as [r|] eqn:E; [|done].
intros [= <-]. apply find_first_Some in E as [Hr _].
exact (proj1 (Forall_forall _ _) Hd r Hr).
Qed.

(** Adding an amount to an existing account either raises 403 and changes
  nothing, exactly when the amount is negative and exceeds the balance, or
  stores the new balance in that account only, keeps every other balance and
  appends one log row that records the balance. *)
Theorem add_credit_spec now f d r :
unique_users d → find_first (of_user (af_user_id f)) (db_credits d) = Some r →
let res := add_credit_by_user_id numeric uuid4 repr_other now f d in
let c := numeric (sql_add (cr_credit r) (af_amount f)) in
if dltb (af_amount f) d0 && negb (dleb (dneg (af_amount f)) (cr_credit r))
then res = (Err (HTTPException 403 (no_credit_detail repr_other (db_config d))), d)
else res.1 = Ok (Some (set_balance c now r)) ∧
     balance_of (af_user_id f) res.2 = Some c ∧
     (∀ v, v ≠ af_user_id f → balance_of v res.2 = balance_of v d) ∧
     ∃ log, db_logs res.2 = db_logs d ++ [log] ∧ cl_user_id log = af_user_id f ∧
            cl_credit log = numeric c ∧ cl_detail log = af_detail f.
Proof.
intros Hu Hr. cbv zeta. rewrite (add_credit_cases _ _ _ _ _ _ r Hu Hr).
unfold enough_credit.
assert (Hmap := λ v, after_add_balance numeric uuid4 now f r d v Hr).
destruct (dltb (af_amount f) d0); cbn [andb negb];
  [destruct (dleb (dneg (af_amount f)) (cr_credit r)); cbn [negb]; [|done]|].
all: split_and!; [done| | |eexists; split_and!; reflexivity].
all: cbn [snd]; try (intros v Hv); rewrite Hmap; rewrite ?String.eqb_refl; try done.
all: by apply String.eqb_neq in Hv as ->.
Qed.

End Properties.

Definition example_config : config_state :=
  {| cfg_rows := {["credit.default_credit" := VStr "10.5"]}; cfg_defaults := ∅;
     cfg_persistent_enabled := true; cfg_oauth_persistent_enabled := false |}.

Definition example_db : credit_db :=
  {| db_credits := [{| cr_id := "c0"; cr_user_id := "alice"; cr_credit := Dec 5 0;
                       cr_updated_at := 0; cr_created_at := 0 |}];
     db_logs := []; db_config := example_config; db_uuids := 0 |}.

Definition example_uuid (n : nat) : string := "id" +:+ pretty n.

Definition example_form (amount : Z) : add_credit_form :=
  {| af_user_id := "alice"; af_amount := Dec amount (-1);
     af_detail := {| cd_api_path := EmptyString; cd_api_params := []; cd_desc := "d"; cd_usage := [] |} |}.

Lemma example_db_inv : credit_inv (λ _, EmptyString) example_db.
Proof.
  split_and!.
  - apply NoDup_singleton.
  - constructor; [by apply dnonneg_coef|constructor].
  - intros c. vm_compute. intros [= <-]. done.
Qed.

Lemma credits_never_negative_witness :
  ∃ d', unique_users d' ∧ ∀ u c, balance_of u d' = Some c → dnonneg c.
Proof.
  eexists. apply (credits_never_negative numeric_scale12 example_uuid (λ _, EmptyString) example_db).
  - exact example_db_inv.
  - eapply rtc_l; [apply (CreditStep _ _ _ _ 1 (OpAdd (example_form (-30)))); vm_compute; discriminate|].
    eapply rtc_l; [apply (CreditStep _ _ _ _ 2 (OpInit "bob")); exact I|].
    apply rtc_refl.
Defined.

Lemma add_credit_spec_witness :
  balance_of "alice" (add_credit_by_user_id numeric_scale12 example_uuid (λ _, EmptyString) 1
                        (example_form (-30)) example_db).2 = Some (Dec 20 (-1)).
Proof.
  pose proof (add_credit_spec numeric_scale12 example_uuid (λ _, EmptyString) 1
                (example_form (-30)) example_db _ (NoDup_singleton _) eq_refl) as H.
  cbv zeta in H. destruct H as (_ & H & _). exact H.
Defined.
