(* ===== verification/CreditPrice.v ===== *)
(** * Prices and the credit check before a request (utils/credit/utils.py). *)

From S2P Require Import Prelude PyVal PyDecimal Json Config Credits.
From Stdlib Require Import Ascii SpecFloat.

Local Open Scope Z_scope.

(** The [ModelModel] fields that pricing reads. *)
Record model_row := {
  md_id : string;
  md_name : string;
  md_base_model_id : option string;
  md_price : option pydict;
}.

(** The tuple returned by [get_model_price], in its order. *)
Record model_price := {
  mp_prompt : dec;
  mp_completion : dec;
  mp_prompt_long_ctx_tokens : dec;
  mp_prompt_long_ctx : dec;
  mp_completion_long_ctx_tokens : dec;
  mp_completion_long_ctx : dec;
  mp_prompt_cache : dec;
  mp_prompt_long_ctx_cache : dec;
  mp_request : dec;
  mp_minimum_credit : dec;
}.

Definition call_price_of (request minimum : dec) : model_price :=
  {| mp_prompt := d0; mp_completion := d0; mp_prompt_long_ctx_tokens := d0;
     mp_prompt_long_ctx := d0; mp_completion_long_ctx_tokens := d0;
     mp_completion_long_ctx := d0; mp_prompt_cache := d0; mp_prompt_long_ctx_cache := d0;
     mp_request := request; mp_minimum_credit := minimum |}.

(** The billing defaults that config.py reads from the environment. *)
Record usage_defaults := {
  ud_minimum_cost : string;
  ud_image_gen_price : string;
  ud_code_execute_price : string;
  ud_web_search_price : string;
  ud_tool_server_price : string;
  ud_no_credit_msg : string;
  ud_no_charge_empty_response : bool;
  ud_model_prefix_to_remove : string;
  ud_default_encoding_model : string;
  ud_custom_price_config : string;
}.

(** [get_model_price]: follows [base_model_id] while the base model is stored.
    [fuel] stands for the interpreter's recursion limit. *)
Fixpoint get_model_price (fuel : nat) (models : gmap string model_row) (model : option model_row)
    : res model_price :=
  match fuel with
  | O => Err RecursionError
  | S fuel =>
      match model with
      | None => Ok (call_price_of d0 d0)
      | Some m =>
          let base := match md_base_model_id m with
                      | Some b => if Str.is_empty b then None else models !! b
                      | None => None
                      end in
          match base with
          | Some base_model => get_model_price fuel models (Some base_model)
          | None =>
              let price := default [] (md_price m) in
              call_price ← to_dec (dgetd price "call_price" (VInt 0));
              minimum_credit ← to_dec (dgetd price "minimum_credit" (VInt 0));
              Ok (call_price_of call_price minimum_credit)
          end
      end
  end.

Section Pricing.
(** jsonpath_ng: [jsonpath_parse(path).find(body)], the matched values. *)
Context (jsonpath_find : pyval → pyval → res (list pyval)).
Context (ud : usage_defaults) (models : gmap string model_row) (fuel : nat).

Definition per_million (d : dec) : dec := ddiv1000 (ddiv1000 d).

Definition feature_unit_price (c : config_state) (key : string) (dflt : string) : res dec :=
  v ← to_dec (credit_config c key (VStr dflt)); Ok (per_million v).

(** The [match feature] of [get_feature_price]. *)
Definition feature_price_step (c : config_state) (price : dec) (feature : string) : res dec :=
  let add key dflt := p ← feature_unit_price c key dflt; Ok (dadd price p) in
  if String.eqb feature "image_generation" then
    add "credit.calculate.feature.image_gen_price" (ud_image_gen_price ud)
  else if String.eqb feature "code_interpreter" then
    add "credit.calculate.feature.code_execute_price" (ud_code_execute_price ud)
  else if String.eqb feature "web_search" then
    add "credit.calculate.feature.web_search_price" (ud_web_search_price ud)
  else if String.eqb feature "direct_tool_servers" then
    add "credit.calculate.feature.tool_server_price" (ud_tool_server_price ud)
  else Ok price.

(** [get_feature_price]; a set is listed in its iteration order. *)
Definition get_feature_price (c : config_state) (features : list string) : res dec :=
  match features with
  | [] => Ok d0
  | _ => foldM (feature_price_step c) d0 features
  end.

(** One configured fee of [get_custom_price]; an exception skips the fee. *)
Definition custom_price_step (body : pyval) (total : Z) (config : pyval) : Z :=
  match config with
  | VDict cfg =>
      let fee :=
        path ← ditem cfg "path";
        cost_value ← ditem cfg "cost";
        cost ← py_int cost_value;
        exists_value ← ditem cfg "exists";
        let exists_check := truthy exists_value in
        let value := dget cfg "value" in
        if negb (truthy path) || (cost <=? 0) then Ok total
        else
          matches ← jsonpath_find path body;
          if exists_check && negb (match matches with [] => true | _ => false end)
          then Ok (total + cost)
          else if negb exists_check && existsb (λ v, py_eqb v value) matches
          then Ok (total + cost)
          else Ok total in
      match fee with Ok t => t | Err _ => total end
  | _ => total
  end.

(** [get_custom_price] *)
Definition get_custom_price (c : config_state) (body : pyval) : dec :=
  let custom_config := credit_config c "credit.calculate.custom_price_config" (VStr "[]") in
  if negb (truthy custom_config) || veq_str custom_config "[]" || negb (is_dict body) then d0
  else
    match custom_config with
    | VStr s =>
        match json_loads s with
        | Ok (VList configs) =>
            per_million (dec_of_Z (foldl (custom_price_step body) 0 configs))
        | _ => d0
        end
    | _ => d0
    end.

(** [{k for k, v in features.items() if v}] *)
Definition enabled_features (features : pyval) : res (list string) :=
  d ← as_dict features;
  Ok (map fst (List.filter (λ kv, truthy kv.2) d)).

Definition float_leb (a b : spec_float) : bool :=
  match F64.compare a b with Some Lt | Some Eq => true | _ => false end.

(** [is_free_request]; [sum] adds the floats from left to right. *)
Definition is_free_request (c : config_state) (prices : list dec) (form_data : pydict) : res bool :=
  let is_free_model :=
    float_leb (foldl F64.add F64.zero (map float_of_dec prices)) F64.zero in
  let metadata := por (dget form_data "metadata") (VDict []) in
  features ← (if truthy (dget form_data "features") then Ok (dget form_data "features")
              else f1 ← vget metadata "features";
                   if truthy f1 then Ok f1
                   else f2 ← vget metadata "features_for_credit"; Ok (por f2 (VDict [])));
  enabled ← enabled_features features;
  feature_price ← get_feature_price c enabled;
  Ok (is_free_model && dleb feature_price d0
      && dleb (get_custom_price c (VDict form_data)) d0).

Definition free_request_prices (p : model_price) : list dec :=
  [mp_prompt p; mp_completion p; mp_prompt_long_ctx p; mp_completion_long_ctx p;
   mp_prompt_cache p; mp_prompt_long_ctx_cache p; mp_request p].

(** The features whose price the check adds to the estimate. *)
Definition precheck_features (form_data : pydict) : res (list string) :=
  let metadata_for_features := por (dget form_data "metadata") (VDict []) in
  feature_flags ←
    (if truthy (dget form_data "features") then Ok (dget form_data "features")
     else f1 ← vget metadata_for_features "features_for_credit";
          if truthy f1 then Ok f1
          else f2 ← vget metadata_for_features "features"; Ok (por f2 (VDict [])));
  enabled_features feature_flags.

(** The credit a non-free request must have, [required_credit]. *)
Definition required_credit (c : config_state) (p : model_price) (form_data : pydict) : res dec :=
  enabled ← precheck_features form_data;
  feature_price ← get_feature_price c enabled;
  let custom_price := get_custom_price c (VDict form_data) in
  minimum_cost ← to_dec (credit_config c "credit.calculate.minimum_cost" (VStr (ud_minimum_cost ud)));
  let request := if dltb d0 (mp_request p) then mp_request p else d0 in
  let estimated_cost := dmax (dadd (dadd request feature_price) custom_price) minimum_cost in
  Ok (dmax (mp_minimum_credit p) estimated_cost).

Section Check.
Context (numeric : dec → dec) (uuid4 : nat → string) (repr_other : pyval → string).

(** [check_credit_by_user_id].  The 403 branch builds the coroutine
    [Chats.upsert_message_to_chat_by_id_and_message_id(...)] without
    awaiting it, so it writes nothing. *)
Definition check_credit_by_user_id (now : Z) (user_id : string) (form_data : pydict)
    : st credit_db unit :=
  config ← st_gets db_config;
  let model_id := por (por (dget form_data "model") (dget form_data "model_id")) (VStr EmptyString) in
  let model := match model_id with VStr s => models !! s | _ => None end in
  price ← st_lift (get_model_price fuel models model);
  free ← st_lift (is_free_request config (free_request_prices price) form_data);
  if (free : bool) then mret tt
  else
    credit ← init_credit_by_user_id numeric uuid4 repr_other now user_id;
    required ← st_lift (required_credit config price form_data);
    if dltb (cr_credit credit) required
    then raise (HTTPException 403 (py_str repr_other
           (credit_config config "credit.no_credit_msg" (VStr (ud_no_credit_msg ud)))))
    else mret tt.

(** [check_feature_credit_by_user_id] *)
Definition check_feature_credit_by_user_id (now : Z) (user_id feature : string)
    (model_id : option string) : st credit_db unit :=
  check_credit_by_user_id now user_id
    [("model", VStr (default EmptyString model_id));
     ("messages", VList [VDict [("role", VStr "user"); ("content", VStr feature)]]);
     ("metadata", VDict [("features_for_credit", VDict [(feature, VBool true)])])].

(** [charge_feature_by_user_id] *)
Definition charge_feature_by_user_id (now : Z) (user_id feature : string)
    (model_id : option string) : st credit_db dec :=
  config ← st_gets db_config;
  amount ← st_lift (get_feature_price config [feature]);
  if dleb amount d0 then mret d0
  else
    let name := match model_id with
                | Some m => if Str.is_empty m then feature else m
                | None => feature
                end in
    _ ← add_credit_by_user_id numeric uuid4 repr_other now
          {| af_user_id := user_id; af_amount := dneg amount;
             af_detail :=
               {| cd_api_path := EmptyString;
                  cd_api_params := [("model", VDict [("id", VStr name); ("name", VStr name)])];
                  cd_desc := "updated by standalone " +:+ feature;
                  cd_usage := [("total_price", VFloat (float_of_dec amount));
                               ("feature_price", VFloat (float_of_dec amount));
                               ("features", VList [VStr feature]);
                               ("is_calculate", VBool true)] |} |};
    mret amount.
End Check.
End Pricing.

(** [check_amount]: a comma separated list of amounts and ranges [lo-hi]. *)
Section CheckAmount.
(** [float(s)] of a string. *)
Definition float_of_string (s : string) : res spec_float :=
  match dec_of_string s with
  | Some d => Ok (float_of_dec d)
  | None => Err (ValueError "could not convert string to float")
  end.

Fixpoint check_amount_loop (amount : spec_float) (checks : list string) : res bool :=
  match checks with
  | [] => Ok false
  | check :: rest =>
      match Str.split "-"%char (Str.strip check) with
      | [lo; hi] =>
          lo ← float_of_string (Str.strip lo);
          if float_leb lo amount then
            hi ← float_of_string (Str.strip hi);
            if float_leb amount hi then Ok true else check_amount_loop amount rest
          else check_amount_loop amount rest
      | [v] =>
          v ← float_of_string (Str.strip v);
          if match F64.compare v amount with Some Eq => true | _ => false end
          then Ok true else check_amount_loop amount rest
      | _ => check_amount_loop amount rest
      end
  end.

Definition check_amount (amount : spec_float) (amount_control : string) : res bool :=
  if Str.is_empty amount_control then Ok true
  else check_amount_loop amount (Str.split ","%char amount_control).
End CheckAmount.
