(* ===== verification/CreditUsage.v ===== *)
(** * Token usage and the credit deduction of a request
    (utils/credit/usage.py, utils/credit/models.py). *)

From S2P Require Import Prelude PyVal PyDecimal Json Config Credits CreditPrice.
From Stdlib Require Import Ascii SpecFloat.

Local Open Scope Z_scope.

(** ** The pydantic models of utils/credit/models.py *)

(** [PromptTokensDetails] and [CompletionTokensDetails]: the declared field
    and the extra fields. *)
Record token_details := { td_tokens : option Z; td_extra : pydict }.

Record completion_usage := {
  cu_total_tokens : Z;
  cu_prompt_tokens : Z;
  cu_completion_tokens : Z;
  cu_prompt_tokens_details : option token_details;
  cu_completion_tokens_details : option token_details;
  cu_input_tokens_details : option token_details;
  cu_output_tokens_details : option token_details;
  cu_extra : pydict;
}.

Definition zero_usage : completion_usage :=
  {| cu_total_tokens := 0; cu_prompt_tokens := 0; cu_completion_tokens := 0;
     cu_prompt_tokens_details := None; cu_completion_tokens_details := None;
     cu_input_tokens_details := None; cu_output_tokens_details := None; cu_extra := [] |}.

Definition with_tokens (prompt completion total : Z) (u : completion_usage) : completion_usage :=
  {| cu_total_tokens := total; cu_prompt_tokens := prompt; cu_completion_tokens := completion;
     cu_prompt_tokens_details := cu_prompt_tokens_details u;
     cu_completion_tokens_details := cu_completion_tokens_details u;
     cu_input_tokens_details := cu_input_tokens_details u;
     cu_output_tokens_details := cu_output_tokens_details u; cu_extra := cu_extra u |}.

(** [data.pop(k1, 0) or data.pop(k2, 0) or data.pop(k3, 0)]: a later key is
    popped only when the earlier ones gave a false value. *)
Fixpoint pop_first (keys : list string) (data : pydict) : pyval * pydict :=
  match keys with
  | [] => (VInt 0, data)
  | k :: keys' =>
      let v := dgetd data k (VInt 0) in
      let data' := dict_del k data in
      match keys' with
      | [] => (v, data')
      | _ => if truthy v then (v, data') else pop_first keys' data'
      end
  end.

(** [a + b] of two token counts. *)
Definition add_counts (a b : pyval) : res pyval :=
  match as_num a, as_num b with
  | Some (NInt x), Some (NInt y) => Ok (VInt (x + y))
  | Some (NFloat f), Some (NFloat g) => Ok (VFloat (F64.add f g))
  | Some (NInt x), Some (NFloat g) =>
      match F64.of_Z x with Some f => Ok (VFloat (F64.add f g)) | None => Err OverflowError end
  | Some (NFloat f), Some (NInt y) =>
      match F64.of_Z y with Some g => Ok (VFloat (F64.add f g)) | None => Err OverflowError end
  | _, _ => match a, b with
            | VStr s, VStr t => Ok (VStr (s +:+ t))
            | VList l, VList m => Ok (VList (l ++ m))
            | _, _ => Err TypeError
            end
  end.

(** [CompletionUsage.format_input] *)
Definition format_input (data : pyval) : res pyval :=
  match data with
  | VDict d =>
      let '(prompt_tokens, d1) := pop_first ["prompt_tokens"; "promptTokenCount"; "input_tokens"] d in
      let '(completion_tokens, d2) :=
        pop_first ["completion_tokens"; "candidatesTokenCount"; "output_tokens"] d1 in
      let t1 := dgetd d2 "total_tokens" (VInt 0) in
      let d3 := dict_del "total_tokens" d2 in
      let t2 := dgetd d3 "totalTokenCount" (VInt 0) in
      let d4 := if truthy t1 then d3 else dict_del "totalTokenCount" d3 in
      total_tokens ← (if truthy t1 then Ok t1
                      else if truthy t2 then Ok t2
                      else add_counts prompt_tokens completion_tokens);
      Ok (VDict (dict_update d4 [("prompt_tokens", prompt_tokens);
                                 ("completion_tokens", completion_tokens);
                                 ("total_tokens", total_tokens)]))
  | _ => Ok data
  end.

(** [Choice], [ChatCompletion] and [ChatCompletionChunk]: [None] for a null
    message or delta, whose [content] is [None] when null or absent. *)
Record choice := { ch_message : option (option string); ch_delta : option (option string) }.
Record chat_response := {
  rs_choices : list choice;
  rs_usage : option completion_usage;
  rs_id : pyval;
}.

Record image_url := { iu_url : string; iu_detail : string }.

(** [MessageContent] and [MessageItem] *)
Record message_content := {
  mc_type : string;
  mc_text : option string;
  mc_image_url : option image_url;
}.
Inductive item_content :=
| ContentText (s : string)
| ContentParts (l : list message_content).

(** ** Token counting *)
Section Calculator.
(** tiktoken: [encoding_for_model] ([None] for a KeyError) and the number of
    tokens of an encoded text. *)
Context {encoding : Type}.
Context (encoding_for_model : string → option encoding) (encode_len : encoding → string → nat).
(** Pillow and httpx: the size of the image behind a URL. *)
Context (image_size : string → res (Z * Z)).

Definition encoder_cache : Type := list (string * encoding).

(** [Calculator.get_encoder]; the cache is the attribute [_encoder]. *)
Fixpoint get_encoder (fuel : nat) (cache : encoder_cache)
    (model_id model_prefix_to_remove default_model_for_encoding : string)
    : res (encoding * encoder_cache) :=
  match fuel with
  | O => Err RecursionError
  | S fuel =>
      let model_id_ops := if Str.is_empty model_prefix_to_remove then model_id
                          else Str.lstrip_chars model_prefix_to_remove model_id in
      match dict_get model_id_ops cache with
      | Some e => Ok (e, cache)
      | None =>
          match encoding_for_model model_id_ops with
          | None => get_encoder fuel cache default_model_for_encoding EmptyString "gpt-4o"
          | Some e =>
              get_encoder fuel (dict_set model_id_ops e cache) model_id EmptyString "gpt-4o"
          end
      end
  end.

(** [int / int] for operands below 2 ^ 53. *)
Definition int_truediv (a b : Z) : spec_float :=
  match F64.of_Z a, F64.of_Z b with
  | Some x, Some y => F64.div x y
  | _, _ => S754_nan
  end.

(** [calculate_image_token] of utils/credit/utils.py *)
Definition calculate_image_token (model_id : string) (image : option image_url) : res Z :=
  match image with
  | None => Ok 0
  | Some img =>
      if Str.is_empty (iu_url img) then Ok 0
      else if String.eqb (iu_detail img) "low" then Ok 85
      else
        let mini := Str.contains "gpt-4o-mini" model_id in
        let tile_tokens := if mini then 5667 else 170 in
        let base_tokens := if mini then 2833 else 85 in
        if Str.contains "gemini" model_id || Str.contains "claude" model_id
        then Ok (3 * base_tokens)
        else
          size ← image_size (iu_url img);
          let '(width, height) := size in
          let '(short_side, other_side) :=
            if height <? width then (height, width) else (width, height) in
          let '(scale, short_side) :=
            if 768 <? short_side then (int_truediv short_side 768, 768)
            else (int_truediv 1 1, short_side) in
          match F64.of_Z other_side with
          | None => Err OverflowError
          | Some o =>
              other_side ← F64.ceil (F64.div o scale);
              let tiles := F64.mul (int_truediv (short_side + 511) 512)
                                   (int_truediv (other_side + 511) 512) in
              match F64.of_Z tile_tokens, F64.of_Z base_tokens with
              | Some t, Some b => F64.ceil (F64.add (F64.mul tiles t) b)
              | _, _ => Err OverflowError
              end
          end
  end.

(** The prompt tokens of one message. *)
Definition content_tokens (enc : encoding) (model_id : string) (tokens : Z) (content : item_content)
    : res Z :=
  match content with
  | ContentText s => Ok (tokens + Z.of_nat (encode_len enc s))
  | ContentParts items =>
      foldM (λ tokens item,
        if String.eqb (mc_type item) "text"
        then Ok (tokens + Z.of_nat (encode_len enc (default EmptyString (mc_text item))))
        else if String.eqb (mc_type item) "image_url"
        then n ← calculate_image_token model_id (mc_image_url item); Ok (tokens + n)
        else Ok tokens) tokens items
  end.

(** The completion tokens of the first choice: [content.lstrip('<think>')]
    removes any leading run of the characters of [<think>]. *)
Definition completion_tokens_of (enc : encoding) (is_chunk : bool) (choices : list choice) : res Z :=
  match choices with
  | [] => Ok 0
  | c :: _ =>
      match (if is_chunk then ch_delta c else ch_message c) with
      | None => Err AttributeError
      | Some content =>
          Ok (Z.of_nat (encode_len enc (Str.lstrip_chars "<think>" (default EmptyString content))))
      end
  end.

(** [Calculator.calculate_usage] *)
Definition calculate_usage (fuel : nat) (cache : encoder_cache) (cached_usage : completion_usage)
    (model_id : string) (messages : res (list item_content)) (is_chunk : bool) (response : chat_response)
    (model_prefix_to_remove default_model_for_encoding : string)
    : res (bool * completion_usage * encoder_cache) :=
  match rs_usage response with
  | Some usage => Ok (true, usage, cache)
  | None =>
      enc ← get_encoder fuel cache model_id model_prefix_to_remove default_model_for_encoding;
      prompt_tokens ← (if negb (cu_prompt_tokens cached_usage =? 0)
                       then Ok (cu_prompt_tokens cached_usage)
                       else items ← messages; foldM (content_tokens enc.1 model_id) 0 items);
      completion_tokens ← completion_tokens_of enc.1 is_chunk (rs_choices response);
      Ok (false, with_tokens prompt_tokens completion_tokens (prompt_tokens + completion_tokens)
                   zero_usage, enc.2)
  end.
End Calculator.

(** ** [CreditDeduct] *)

(** What [run] is handed: a dict, bytes, a str or another value. *)
Inductive response_input :=
| RespDict (d : pydict)
| RespBytes (b : string)
| RespStr (s : string)
| RespOther (v : pyval).

(** UTF-8 decoding into code points below 256. *)
Fixpoint utf8_decode (b : string) : res string :=
  match b with
  | EmptyString => Ok EmptyString
  | String c r =>
      let n := Str.code c in
      if (n <? 128)%nat then t ← utf8_decode r; Ok (String c t)
      else match r with
           | String d r' =>
               let m := Str.code d in
               if ((n =? 194) || (n =? 195))%nat && ((128 <=? m) && (m <? 192))%nat
               then t ← utf8_decode r'; Ok (String (ascii_of_nat (64 * (n - 194) + m)) t)
               else Err (ValueError "UnicodeDecodeError")
           | EmptyString => Err (ValueError "UnicodeDecodeError")
           end
  end.

Record deduct := {
  dd_is_error : bool;
  dd_empty_no_cost : bool;
  dd_remote_id : pyval;
  dd_user_id : string;
  dd_model_id : string;
  dd_model : option model_row;
  dd_body : pydict;
  dd_is_stream : bool;
  dd_usage : completion_usage;
  dd_price : model_price;
  dd_features : list string;
  dd_custom_fees : list (pyval * pyval);
  dd_is_official_usage : bool;
}.

Definition set_error (x : deduct) : deduct :=
  {| dd_is_error := true; dd_empty_no_cost := dd_empty_no_cost x; dd_remote_id := dd_remote_id x;
     dd_user_id := dd_user_id x; dd_model_id := dd_model_id x; dd_model := dd_model x;
     dd_body := dd_body x; dd_is_stream := dd_is_stream x; dd_usage := dd_usage x;
     dd_price := dd_price x; dd_features := dd_features x; dd_custom_fees := dd_custom_fees x;
     dd_is_official_usage := dd_is_official_usage x |}.

Definition set_remote_id (id : pyval) (x : deduct) : deduct :=
  {| dd_is_error := dd_is_error x; dd_empty_no_cost := dd_empty_no_cost x; dd_remote_id := id;
     dd_user_id := dd_user_id x; dd_model_id := dd_model_id x; dd_model := dd_model x;
     dd_body := dd_body x; dd_is_stream := dd_is_stream x; dd_usage := dd_usage x;
     dd_price := dd_price x; dd_features := dd_features x; dd_custom_fees := dd_custom_fees x;
     dd_is_official_usage := dd_is_official_usage x |}.

Definition set_usage (u : completion_usage) (official : bool) (x : deduct) : deduct :=
  {| dd_is_error := dd_is_error x; dd_empty_no_cost := dd_empty_no_cost x;
     dd_remote_id := dd_remote_id x; dd_user_id := dd_user_id x; dd_model_id := dd_model_id x;
     dd_model := dd_model x; dd_body := dd_body x; dd_is_stream := dd_is_stream x; dd_usage := u;
     dd_price := dd_price x; dd_features := dd_features x; dd_custom_fees := dd_custom_fees x;
     dd_is_official_usage := official |}.

Section Deduct.
Context {encoding : Type}.
Context (encoding_for_model : string → option encoding) (encode_len : encoding → string → nat)
  (image_size : string → res (Z * Z)).
Context (jsonpath_find : pyval → pyval → res (list pyval)).
(** pydantic: the validated request messages and responses. *)
Context (validate_messages : pyval → res (list item_content))
  (validate_response : bool → pyval → res chat_response)
  (usage_dump : completion_usage → pydict) (model_dump : model_row → pydict).
Context (ud : usage_defaults) (models : gmap string model_row) (fuel : nat).
Context (numeric : dec → dec) (uuid4 : nat → string) (repr_other : pyval → string).

(** [custom_fees[name] = cost] *)
Fixpoint fees_set (name cost : pyval) (fees : list (pyval * pyval)) : list (pyval * pyval) :=
  match fees with
  | [] => [(name, cost)]
  | (n, c) :: rest => if py_eqb n name then (n, cost) :: rest else (n, c) :: fees_set name cost rest
  end.

(** One fee of [build_custom_fees]: [None] when an exception leaves the loop. *)
Definition custom_fee_step (body : pyval) (fees : list (pyval * pyval)) (cfg : pydict)
    : option (list (pyval * pyval)) :=
  match ditem cfg "path", ditem cfg "name", ditem cfg "value", ditem cfg "exists", ditem cfg "cost" with
  | Ok path, Ok name, Ok value, Ok exists_check, Ok cost =>
      if negb (truthy path) then Some fees
      else
        match as_num cost with
        | None => None
        | Some n =>
            if num_leb n (NInt 0) then Some fees
            else
              match jsonpath_find path body with
              | Err _ => Some fees
              | Ok matches =>
                  let found := if truthy exists_check
                               then negb (match matches with [] => true | _ => false end)
                               else existsb (λ v, py_eqb v value) matches in
                  let hashable := negb (is_list name || is_dict name) in
                  Some (if found && hashable then fees_set name cost fees else fees)
              end
        end
  | _, _, _, _, _ => None
  end.

Fixpoint custom_fee_loop (body : pyval) (fees : list (pyval * pyval)) (configs : list pyval)
    : list (pyval * pyval) :=
  match configs with
  | [] => fees
  | VDict cfg :: rest =>
      match custom_fee_step body fees cfg with
      | Some fees' => custom_fee_loop body fees' rest
      | None => fees
      end
  | _ :: rest => custom_fee_loop body fees rest
  end.

(** [CreditDeduct.build_custom_fees] *)
Definition build_custom_fees (c : config_state) (body : pydict) : list (pyval * pyval) :=
  let custom_config_str := credit_config c "credit.calculate.custom_price_config"
                             (VStr (ud_custom_price_config ud)) in
  if negb (truthy custom_config_str) || veq_str custom_config_str "[]" then []
  else
    match custom_config_str with
    | VStr s => match json_loads s with
                | Ok (VList configs) => custom_fee_loop (VDict body) [] configs
                | _ => []
                end
    | _ => []
    end.

(** The feature flags of the body and its metadata, later sources last. *)
Definition feature_flags (body : pydict) : pydict :=
  let metadata := match por (dget body "metadata") (VDict []) with VDict d => d | _ => [] end in
  foldl (λ flags source, match source with VDict d => dict_update flags d | _ => flags end) []
    [dget body "features"; dget metadata "features"; dget metadata "features_for_credit"].

(** [CreditDeduct.__init__] *)
Definition credit_deduct_init (c : config_state) (user_id model_id : string) (body : pydict)
    (is_stream is_embedding : bool) : res deduct :=
  let model := models !! model_id in
  price ← get_model_price fuel models model;
  Ok {| dd_is_error := false;
        dd_empty_no_cost := negb is_embedding &&
          truthy (credit_config c "credit.no_charge_empty_response"
                    (VBool (ud_no_charge_empty_response ud)));
        dd_remote_id := VStr EmptyString;
        dd_user_id := user_id; dd_model_id := model_id; dd_model := model;
        dd_body := body; dd_is_stream := is_stream;
        dd_usage := zero_usage; dd_price := price;
        dd_features := map fst (List.filter (λ kv, truthy kv.2) (feature_flags body));
        dd_custom_fees := build_custom_fees c body;
        dd_is_official_usage := false |}.

(** *** Prices *)

Definition is_empty_response (x : deduct) : bool := cu_completion_tokens (dd_usage x) <=? 0.

(** The guard shared by every price: errors and free empty responses cost nothing. *)
Definition is_free (x : deduct) : bool :=
  dd_is_error x || (is_empty_response x && dd_empty_no_cost x).

(** [tokens >= limit > 0 and price > 0] *)
Definition long_ctx (tokens : Z) (limit price : dec) : bool :=
  dleb limit (dec_of_Z tokens) && dltb d0 limit && dltb d0 price.

Definition prompt_unit_price (x : deduct) : dec :=
  let p := dd_price x in
  if long_ctx (cu_prompt_tokens (dd_usage x)) (mp_prompt_long_ctx_tokens p) (mp_prompt_long_ctx p)
  then mp_prompt_long_ctx p else mp_prompt p.

Definition prompt_cache_unit_price (x : deduct) : dec :=
  let p := dd_price x in
  if long_ctx (cu_prompt_tokens (dd_usage x)) (mp_prompt_long_ctx_tokens p)
       (mp_prompt_long_ctx_cache p)
  then mp_prompt_long_ctx_cache p else mp_prompt_cache p.

Definition completion_unit_price (x : deduct) : dec :=
  let p := dd_price x in
  if long_ctx (cu_completion_tokens (dd_usage x)) (mp_completion_long_ctx_tokens p)
       (mp_completion_long_ctx p)
  then mp_completion_long_ctx p else mp_completion p.

Definition details_tokens (d : option token_details) : Z :=
  match d with Some t => default 0 (td_tokens t) | None => 0 end.

Definition cache_tokens (x : deduct) : Z :=
  let p := details_tokens (cu_prompt_tokens_details (dd_usage x)) in
  if negb (p =? 0) then p else details_tokens (cu_input_tokens_details (dd_usage x)).

Definition prompt_price (x : deduct) : dec :=
  if is_free x then d0
  else
    let cached := cache_tokens x in
    if (0 <? cached) && dltb d0 (prompt_cache_unit_price x)
    then per_million (dadd (dmul_Z (prompt_cache_unit_price x) cached)
                           (dmul_Z (prompt_unit_price x) (cu_prompt_tokens (dd_usage x) - cached)))
    else per_million (dmul_Z (prompt_unit_price x) (cu_prompt_tokens (dd_usage x))).

Definition completion_price (x : deduct) : dec :=
  if is_free x then d0
  else per_million (dmul_Z (completion_unit_price x) (cu_completion_tokens (dd_usage x))).

Definition request_price (x : deduct) : dec :=
  if is_free x then d0 else mp_request (dd_price x).

Definition feature_price (c : config_state) (x : deduct) : res dec :=
  if is_free x then Ok d0 else get_feature_price ud c (dd_features x).

(** [sum(v for _, v in self.custom_fees.items())] *)
Definition custom_fee_sum (fees : list (pyval * pyval)) : res pyval :=
  foldM add_counts (VInt 0) (map snd fees).

Definition custom_price (x : deduct) : res dec :=
  if is_free x then Ok d0
  else v ← custom_fee_sum (dd_custom_fees x); d ← to_dec v; Ok (per_million d).

Definition total_price (c : config_state) (x : deduct) : res dec :=
  if is_free x then Ok d0
  else
    fp ← feature_price c x;
    cp ← custom_price x;
    let total := if dltb d0 (mp_request (dd_price x))
                 then dadd (dadd (request_price x) fp) cp
                 else dadd (dadd (dadd (prompt_price x) (completion_price x)) fp) cp in
    minimum ← to_dec (credit_config c "credit.calculate.minimum_cost" (VStr (ud_minimum_cost ud)));
    Ok (dmax total minimum).

(** *** Responses *)

Definition to_str (r : response_input) : res string :=
  match r with
  | RespStr s => Ok (Str.strip s)
  | RespBytes b => s ← utf8_decode b; Ok (Str.strip s)
  | RespDict d => Ok (py_str repr_other (VDict d))
  | RespOther v => Ok (py_str repr_other v)
  end.

Definition default_response (is_stream : bool) (content : string) : pyval :=
  VDict [("choices", VList [VDict [((if is_stream then "delta" else "message"),
                                    VDict [("content", VStr content)])]])].

(** [CreditDeduct.clean_response] on a text: [lstrip('data: ')] removes any
    leading characters of that set. *)
Definition clean_text (text : string) (dflt : pyval) : pyval :=
  let t := Str.lstrip_chars "data: " (Str.strip text) in
  if Str.startswith "[DONE]" t || Str.is_empty t then VDict []
  else match json_loads t with Ok v => v | Err _ => dflt end.

Definition clean_response (r : response_input) (dflt : pyval) : res pyval :=
  match r with
  | RespDict d => Ok (VDict d)
  | RespBytes b => s ← utf8_decode b; Ok (clean_text s dflt)
  | RespStr s => Ok (clean_text s dflt)
  | RespOther _ => Err AttributeError
  end.

(** [CreditDeduct._run] from the cleaned response on. *)
Definition run_cleaned (c : config_state) (x : deduct) (messages cleaned : pyval)
    : st (deduct * encoder_cache (encoding := encoding)) unit :=
  if negb (truthy cleaned) then mret tt
  else
    response ← st_lift (validate_response (dd_is_stream x) cleaned);
    error ← st_lift (vget cleaned "error");
    if truthy error then st_modify (λ s, (set_error s.1, s.2))
    else
      _ ← st_modify (λ s, (set_remote_id (rs_id response) s.1, s.2));
      cache ← st_gets snd;
      let prefix := py_str repr_other (credit_config c
                      "credit.calculate.model_prefix_to_remove"
                      (VStr (ud_model_prefix_to_remove ud))) in
      let dflt := py_str repr_other (credit_config c
                      "credit.calculate.encoding.default_model"
                      (VStr (ud_default_encoding_model ud))) in
      result ← st_lift (calculate_usage encoding_for_model encode_len image_size fuel cache
                 (dd_usage x) (dd_model_id x) (validate_messages messages) (dd_is_stream x)
                 response prefix dflt);
      st_modify (λ s,
        let '(is_official_usage, usage, cache') := result in
        let x := s.1 in
        (if (is_official_usage : bool) then set_usage usage true x
         else if dd_is_official_usage x then x
         else if dd_is_stream x then
           let p := cu_prompt_tokens usage in
           let t := cu_completion_tokens (dd_usage x) + cu_completion_tokens usage in
           set_usage (with_tokens p t (p + t) (dd_usage x)) false x
         else set_usage usage false x, cache')).

(** [CreditDeduct._run] *)
Definition run_inner (c : config_state) (r : response_input)
    : st (deduct * encoder_cache (encoding := encoding)) unit :=
  match r with
  | RespOther _ => mret tt
  | _ =>
      x ← st_gets fst;
      let messages := dgetd (dd_body x) "messages" (VList []) in
      if negb (truthy messages) then raise (HTTPException 400 "prompt messages is empty")
      else
        content ← st_lift (to_str r);
        cleaned ← st_lift (clean_response r (default_response (dd_is_stream x) content));
        run_cleaned c x messages cleaned
  end.

(** [CreditDeduct.run]: exceptions are logged only. *)
Definition run (c : config_state) (r : response_input)
    : st (deduct * encoder_cache (encoding := encoding)) unit :=
  st_catch (run_inner c r) (λ _, mret tt).

(** [{k: float(v / 1000 / 1000) for k, v in self.custom_fees.items()}] *)
Definition custom_fee_detail (x : deduct) : pydict :=
  let thousand := int_truediv 1000 1 in
  map (λ kv, (py_str repr_other kv.1,
              VFloat (match as_num kv.2 with
                      | Some (NInt z) => F64.div (int_truediv z 1000) thousand
                      | Some (NFloat f) => F64.div (F64.div f thousand) thousand
                      | None => S754_nan
                      end))) (dd_custom_fees x).

(** [CreditDeduct.usage_with_cost] *)
Definition usage_with_cost (c : config_state) (x : deduct) : res pydict :=
  total ← total_price c x;
  fp ← feature_price c x;
  cp ← custom_price x;
  Ok (dict_update
    [("total_cost", VFloat (float_of_dec total));
     ("cost_detail", VDict
       [("prompt_price", VFloat (float_of_dec (prompt_price x)));
        ("completion_price", VFloat (float_of_dec (completion_price x)));
        ("request_price", VFloat (float_of_dec (request_price x)));
        ("feature_price", VFloat (float_of_dec fp));
        ("features", VList (VStr <$> dd_features x));
        ("custom_fee", VFloat (float_of_dec cp));
        ("custom_fee_detail", VDict (custom_fee_detail x));
        ("is_calculate", VBool (negb (dd_is_official_usage x)));
        ("is_error", VBool (dd_is_error x));
        ("is_empty_response", VBool (is_empty_response x));
        ("empty_no_cost", VBool (dd_empty_no_cost x))])]
    (usage_dump (dd_usage x))).

(** [CreditDeduct.add_usage_to_resp] *)
Definition add_usage_to_resp (c : config_state) (x : deduct) (response : pyval) : res pyval :=
  match response with
  | VDict d => u ← usage_with_cost c x; Ok (VDict (dict_set "usage" (VDict u) d))
  | _ => Ok response
  end.

(** The [usage] entry of the log row. *)
Definition log_usage (c : config_state) (x : deduct) (total fp cp : dec) : pydict :=
  dict_update
    [("total_price", VFloat (float_of_dec total));
     ("prompt_unit_price", VFloat (float_of_dec (prompt_unit_price x)));
     ("prompt_cache_unit_price", VFloat (float_of_dec (prompt_cache_unit_price x)));
     ("completion_unit_price", VFloat (float_of_dec (completion_unit_price x)));
     ("call_price", VFloat (float_of_dec (mp_request (dd_price x))));
     ("feature_price", VFloat (float_of_dec fp));
     ("features", VList (VStr <$> dd_features x));
     ("custom_fee", VFloat (float_of_dec cp));
     ("custom_fee_detail", VDict (custom_fee_detail x));
     ("is_calculate", VBool (negb (dd_is_official_usage x)));
     ("is_empty_response", VBool (is_empty_response x));
     ("empty_no_cost", VBool (dd_empty_no_cost x))]
    (usage_dump (dd_usage x)).

(** [CreditDeduct.__exit__]: [raised] when the [with] body raised. *)
Definition credit_deduct_exit (now : Z) (raised : bool) (x : deduct) : st credit_db unit :=
  if raised || dd_is_error x then mret tt
  else
    config ← st_gets db_config;
    total ← st_lift (total_price config x);
    fp ← st_lift (feature_price config x);
    cp ← st_lift (custom_price x);
    _ ← add_credit_by_user_id numeric uuid4 repr_other now
          {| af_user_id := dd_user_id x; af_amount := dneg total;
             af_detail :=
               {| cd_api_path := EmptyString;
                  cd_api_params :=
                    [("model", VDict (match dd_model x with
                                      | Some m => model_dump m
                                      | None => [("id", VStr (dd_model_id x))]
                                      end));
                     ("is_stream", VBool (dd_is_stream x))];
                  cd_desc := "updated by CreditDeduct";
                  cd_usage := log_usage config x total fp cp |} |};
    mret tt.

(** A [with CreditDeduct(...)] block that feeds the chunks to [run] and then
    leaves normally. *)
Definition run_all (c : config_state) (rs : list response_input)
    : st (deduct * encoder_cache (encoding := encoding)) unit :=
  foldl (λ m r, _ ← m; run c r) (mret tt) rs.
End Deduct.
