(* ===== verification/CreditProps.v ===== *)
(** * Properties of pricing, the credit check and the credit deduction.

    The lemmas first reduce a price to the call price (token prices are zero
    in every tuple [get_model_price] returns), then relate the check before a
    request to the charge after it. *)

From S2P Require Import Prelude PyVal PyDecimal Json Config Credits CreditPrice CreditUsage.
From Stdlib Require Import SpecFloat Psatz.

Local Open Scope Z_scope.

(** ** Prices of a call-priced model *)

Lemma dmul_Z_0 z : dmul_Z d0 z = d0.
Proof. reflexivity. Qed.

Lemma dltb_refl a : dltb a a = false.
Proof. by apply dltb_false. Qed.

Lemma get_model_price_shape fuel models m p :
  get_model_price fuel models m = Ok p → ∃ r c, p = call_price_of r c.
Proof.
  revert m. induction fuel as [|fuel IH]; [done|]. intros [m|]; cbn; [|intros [= <-]; eauto].
  set (base := match md_base_model_id m with Some _ => _ | None => None end).
  destruct base as [b|]; [apply IH|].
  intros H. apply bind_Ok in H as (r & _ & H). apply bind_Ok in H as (c & _ & [= <-]). eauto.
Qed.

Section CallPrice.
Context (x : deduct) (r m : dec) (Hp : dd_price x = call_price_of r m).

Lemma prompt_price_call : prompt_price x = if is_free x then d0 else Dec 0 (-6).
Proof.
  unfold prompt_price, prompt_unit_price, prompt_cache_unit_price. rewrite Hp.
  destruct (is_free x); [done|]. cbn [call_price_of mp_prompt_cache mp_prompt mp_prompt_long_ctx
    mp_prompt_long_ctx_cache mp_prompt_long_ctx_tokens].
  assert (∀ b : bool, (if b then d0 else d0) = d0) as Hd by by intros [].
  by rewrite !Hd, dltb_refl, andb_false_r, dmul_Z_0.
Qed.

Lemma completion_price_call : completion_price x = if is_free x then d0 else Dec 0 (-6).
Proof.
  unfold completion_price, completion_unit_price. rewrite Hp.
  destruct (is_free x); [done|].
  cbn [call_price_of mp_completion mp_completion_long_ctx mp_completion_long_ctx_tokens].
  assert (∀ b : bool, (if b then d0 else d0) = d0) as Hd by by intros [].
  by rewrite Hd, dmul_Z_0.
Qed.

(** The part of the price that comes from the model. *)
Definition model_part : dec := if dltb d0 r then r else Dec 0 (-6).

Lemma total_price_call ud c :
  is_free x = false →
  total_price ud c x =
    fp ← get_feature_price ud c (dd_features x);
    v ← custom_fee_sum (dd_custom_fees x);
    cd ← to_dec v;
    mc ← to_dec (credit_config c "credit.calculate.minimum_cost" (VStr (ud_minimum_cost ud)));
    Ok (dmax (dadd (dadd model_part fp) (per_million cd)) mc).
Proof.
  intros Hf. unfold total_price, feature_price, custom_price, request_price.
  rewrite Hf, prompt_price_call, completion_price_call, Hf, Hp. cbn [call_price_of mp_request].
  unfold model_part. destruct (get_feature_price _ _ _) as [fp|]; cbn; [|done].
  destruct (custom_fee_sum _) as [v|]; cbn; [|done].
  destruct (to_dec v) as [cd|]; cbn; [|done].
  destruct (to_dec (credit_config _ _ _)) as [mc|]; cbn; [|done].
  by destruct (dltb d0 r).
Qed.
End CallPrice.

(** ** The check *)

Section CheckLemmas.
Context (jsonpath_find : pyval → pyval → res (list pyval)) (ud : usage_defaults)
  (models : gmap string model_row) (fuel : nat)
  (numeric : dec → dec) (uuid4 : nat → string) (repr_other : pyval → string).

Definition request_model (form_data : pydict) : option model_row :=
  match por (por (dget form_data "model") (dget form_data "model_id")) (VStr EmptyString) with
  | VStr s => models !! s
  | _ => None
  end.

Lemma check_credit_passed now user form d d' :
  check_credit_by_user_id jsonpath_find ud models fuel numeric uuid4 repr_other now user form d
    = (Ok tt, d') →
  ∃ p free, get_model_price fuel models (request_model form) = Ok p ∧
    is_free_request jsonpath_find ud (db_config d) (free_request_prices p) form = Ok free ∧
    if (free : bool) then d' = d
    else ∃ r q, init_credit_by_user_id numeric uuid4 repr_other now user d = (Ok r, d') ∧
                required_credit jsonpath_find ud (db_config d) p form = Ok q ∧
                dle q (cr_credit r).
Proof.
  unfold check_credit_by_user_id. rewrite st_bind_eq. unfold st_gets at 1. cbn iota beta zeta.
  fold (request_model form). rewrite st_bind_eq. unfold st_lift at 1.
  destruct (get_model_price _ _ _) as [p|] eqn:Ep; cbn iota beta; [|done].
  rewrite st_bind_eq. unfold st_lift at 1.
  destruct (is_free_request _ _ _ _ _) as [[]|] eqn:Ef; cbn iota beta; [| |done].
  { intros [= <-]. by exists p, true. }
  rewrite st_bind_eq. destruct (init_credit_by_user_id _ _ _ _ _ _) as [[r|] d1] eqn:Ei;
    cbn iota beta; [|done].
  rewrite st_bind_eq. unfold st_lift.
  destruct (required_credit _ _ _ _ _) as [q|] eqn:Eq; cbn iota beta; [|done].
  destruct (dltb (cr_credit r) q) eqn:El; [done|]. intros [= <-].
  exists p, false. split_and!; [done..|]. exists r, q. split_and!; [done..|].
  by apply dltb_false.
Qed.

(** [init_credit_by_user_id] answers with the first row of the user, or with
    the row it has just inserted. *)
Lemma init_credit_new now user d r d' :
  find_first (of_user user) (db_credits d) = None →
  init_credit_by_user_id numeric uuid4 repr_other now user d = (Ok r, d') →
  cr_user_id r = user ∧ db_config d' = db_config d ∧
  find_first (of_user user) (db_credits d') =
    Some (set_balance (numeric (cr_credit r)) (cr_updated_at r) r).
Proof.
  intros Hn. unfold init_credit_by_user_id, get_credit_by_user_id, insert_new_credit, fresh_uuid.
  st_run. rewrite Hn. cbn.
  destruct (dec_of_string _) as [c|]; cbn; [|by rewrite Hn].
  unfold insert_credit_row; cbn.
  destruct (existsb _ _) eqn:E; cbn; [by rewrite Hn|]. intros [= <- <-]. cbn.
  split_and!; [done..|]. clear E.
  induction (db_credits d) as [|y l IH]; cbn in *.
  - unfold of_user; cbn. by rewrite String.eqb_refl.
  - destruct (of_user user y); [done|auto].
Qed.
End CheckLemmas.

(** ** Leaving the [with] block *)

Lemma model_part_deq r : deq (model_part r) (if dltb d0 r then r else d0).
Proof. unfold model_part. by destruct (dltb d0 r). Qed.

Lemma per_million_0 : deq (per_million d0) d0.
Proof. reflexivity. Qed.

Lemma dmax_short a b : short_amount a → short_amount b → short_amount (dmax a b).
Proof. by destruct (dmax_case a b) as [-> | ->]. Qed.

Lemma enough_for_charge t balance :
  short_amount t → dle t balance → enough_credit (dneg t) balance = true.
Proof.
  intros Hs Hle. unfold enough_credit. destruct (dltb (dneg t) d0); [|done].
  apply dleb_true. by rewrite (dneg_dneg t Hs).
Qed.

Section ExitLemmas.
Context (usage_dump : completion_usage → pydict) (model_dump : model_row → pydict)
  (ud : usage_defaults) (numeric : dec → dec) (uuid4 : nat → string) (repr_other : pyval → string).

(** The form posted by [__exit__]. *)
Definition exit_form (c : config_state) (x : deduct) (total fp cp : dec) : add_credit_form :=
  {| af_user_id := dd_user_id x; af_amount := dneg total;
     af_detail :=
       {| cd_api_path := EmptyString;
          cd_api_params :=
            [("model", VDict (match dd_model x with
                              | Some m => model_dump m
                              | None => [("id", VStr (dd_model_id x))]
                              end));
             ("is_stream", VBool (dd_is_stream x))];
          cd_desc := "updated by CreditDeduct";
          cd_usage := log_usage usage_dump repr_other c x total fp cp |} |}.

Lemma exit_cases now x d row t :
  dd_is_error x = false → total_price ud (db_config d) x = Ok t →
  unique_users d → find_first (of_user (dd_user_id x)) (db_credits d) = Some row →
  ∃ fp cp,
  credit_deduct_exit usage_dump model_dump ud numeric uuid4 repr_other now false x d =
    if enough_credit (dneg t) (cr_credit row)
    then (Ok tt, after_add numeric uuid4 now (exit_form (db_config d) x t fp cp) row d)
    else (Err (HTTPException 403 (no_credit_detail repr_other (db_config d))), d).
Proof.
  intros He Ht Hu Hr.
  assert (∃ fp cp, feature_price ud (db_config d) x = Ok fp ∧ custom_price x = Ok cp)
    as (fp & cp & Hfp & Hcp).
  { unfold total_price, feature_price, custom_price in *. destruct (is_free x); [by eauto|].
    apply bind_Ok in Ht as (fp & Hfp & Ht). apply bind_Ok in Ht as (cp & Hcp & _).
    apply bind_Ok in Hcp as (v & Hv & Hcp). apply bind_Ok in Hcp as (cd & Hcd & [= <-]).
    exists fp, (per_million cd). by rewrite Hfp, Hv; cbn; rewrite Hcd. }
  exists fp, cp. unfold credit_deduct_exit. rewrite He. cbn [orb].
  rewrite st_bind_eq. unfold st_gets at 1. cbn iota beta.
  rewrite st_bind_eq. unfold st_lift at 1. rewrite Ht. cbn iota beta.
  rewrite st_bind_eq. unfold st_lift at 1. rewrite Hfp. cbn iota beta.
  rewrite st_bind_eq. unfold st_lift at 1. rewrite Hcp. cbn iota beta.
  rewrite st_bind_eq. fold (exit_form (db_config d) x t fp cp).
  rewrite (add_credit_cases numeric uuid4 repr_other now
    (exit_form (db_config d) x t fp cp) d row Hu Hr). cbn [af_amount exit_form].
  by destruct (enough_credit (dneg t) (cr_credit row)).
Qed.
End ExitLemmas.

(** ** One step of [run] *)

Section RunLemmas.
Context {encoding : Type} (encoding_for_model : string → option encoding)
  (encode_len : encoding → string → nat) (image_size : string → res (Z * Z))
  (validate_messages : pyval → res (list item_content))
  (validate_response : bool → pyval → res chat_response)
  (ud : usage_defaults) (fuel : nat) (repr_other : pyval → string).

Notation run_step := (run encoding_for_model encode_len image_size validate_messages
                        validate_response ud fuel repr_other).

(** What a step may do to the deduction. *)
Inductive usage_step (x : deduct) : deduct → Prop :=
| StepIdle : usage_step x x
| StepError : usage_step x (set_error x)
| StepKept id : usage_step x (set_remote_id id x)
| StepOfficial id u : usage_step x (set_usage u true (set_remote_id id x))
| StepChunk id p t :
    dd_is_official_usage x = false → dd_is_stream x = true →
    usage_step x (set_usage (with_tokens p (cu_completion_tokens (dd_usage x) + t)
                              (p + (cu_completion_tokens (dd_usage x) + t)) (dd_usage x))
                    false (set_remote_id id x))
| StepWhole id p t :
    dd_is_official_usage x = false → dd_is_stream x = false →
    usage_step x (set_usage (with_tokens p t (p + t) zero_usage) false (set_remote_id id x)).

Lemma calculate_usage_shape cache x msgs chunk r prefix dflt official u cache' :
  calculate_usage encoding_for_model encode_len image_size fuel cache (dd_usage x) (dd_model_id x)
    msgs chunk r prefix dflt = Ok (official, u, cache') →
  if official then rs_usage r = Some u
  else ∃ p t, u = with_tokens p t (p + t) zero_usage.
Proof.
  unfold calculate_usage. destruct (rs_usage r) as [u'|]; [by intros [= <- <- <-]|].
  intros (e & _ & H)%bind_Ok. apply bind_Ok in H as (p & _ & H).
  apply bind_Ok in H as (t & _ & [= <- <- <-]). eauto.
Qed.

Lemma run_cleaned_shape c x messages cleaned cache :
  usage_step x (run_cleaned encoding_for_model encode_len image_size validate_messages
                  validate_response ud fuel repr_other c x messages cleaned (x, cache)).2.1.
Proof.
  unfold run_cleaned. destruct (truthy cleaned); cbn [negb]; [|constructor].
  destruct (validate_response _ _) as [resp|]; st_run; [|constructor].
  destruct (vget cleaned "error") as [err|]; cbn; [|constructor].
  destruct (truthy err); cbn; [constructor|].
  destruct (calculate_usage _ _ _ _ _ _ _ _ _ _ _ _) as [[[official u] cache']|] eqn:E;
    cbn; [|constructor].
  apply calculate_usage_shape in E. destruct official; cbn; [constructor|].
  destruct E as (p & t & ->); cbn.
  destruct (dd_is_official_usage x) eqn:Ho; [constructor|].
  destruct (dd_is_stream x) eqn:Hs; by constructor.
Qed.

Lemma run_step_shape c r x cache : usage_step x (run_step c r (x, cache)).2.1.
Proof.
  unfold run, st_catch.
  enough (H : usage_step x (run_inner encoding_for_model encode_len image_size validate_messages
                validate_response ud fuel repr_other c r (x, cache)).2.1).
  { by destruct (run_inner _ _ _ _ _ _ _ _ _ _ _) as [[?|?] ?]. }
  assert (Hinner : ∀ (content : res string) (cleaned : string → res pyval), usage_step x
    ((content ← st_lift content; cleaned ← st_lift (cleaned content);
      run_cleaned encoding_for_model encode_len image_size validate_messages validate_response
        ud fuel repr_other c x (dgetd (dd_body x) "messages" (VList [])) cleaned)
     (x, cache)).2.1).
  { intros [content|] cleaned; rewrite st_bind_eq; cbn; [|constructor].
    rewrite st_bind_eq; unfold st_lift. destruct (cleaned content); cbn; [|constructor].
    apply run_cleaned_shape. }
  unfold run_inner. destruct r as [d|b|s|]; [| | |constructor].
  all: rewrite st_bind_eq; cbn [st_gets fst];
    destruct (truthy (dgetd _ _ _)); cbn [negb]; [|constructor].
  - apply (Hinner (to_str repr_other (RespDict d)) (λ content, clean_response (RespDict d) _)).
  - apply (Hinner (to_str repr_other (RespBytes b)) (λ content, clean_response (RespBytes b) _)).
  - apply (Hinner (to_str repr_other (RespStr s)) (λ content, clean_response (RespStr s) _)).
Qed.
End RunLemmas.

Section RunAll.
Context {encoding : Type} (encoding_for_model : string → option encoding)
  (encode_len : encoding → string → nat) (image_size : string → res (Z * Z))
  (validate_messages : pyval → res (list item_content))
  (validate_response : bool → pyval → res chat_response)
  (ud : usage_defaults) (fuel : nat) (repr_other : pyval → string).

(** Feeding responses one after the other is a sequence of steps. *)
Lemma run_all_steps c rs s :
  rtc usage_step s.1 (run_all encoding_for_model encode_len image_size validate_messages
                        validate_response ud fuel repr_other c rs s).2.1.
Proof.
  unfold run_all. induction rs as [|r rs IH] using rev_ind; [apply rtc_refl|].
  rewrite foldl_app. cbn [foldl]. rewrite st_bind_eq.
  match type of IH with context [foldl ?f ?a rs s] =>
    destruct (foldl f a rs s) as [[[]|e] [y cache]] end; cbn [fst snd] in *; [|done].
  eapply rtc_r; [exact IH|]. apply run_step_shape. 
Qed.
End RunAll.

(** What a step keeps. *)
Lemma usage_step_keeps x y :
  usage_step x y →
  dd_price y = dd_price x ∧ dd_features y = dd_features x ∧
  dd_custom_fees y = dd_custom_fees x ∧ dd_user_id y = dd_user_id x ∧
  dd_empty_no_cost y = dd_empty_no_cost x ∧
  (dd_is_error x = true → dd_is_error y = true) ∧
  (dd_is_official_usage x = true → dd_is_official_usage y = true).
Proof. destruct 1; cbn; split_and!; congruence. Qed.

Definition counted (u : completion_usage) : Prop :=
  cu_total_tokens u = cu_prompt_tokens u + cu_completion_tokens u.

Lemma usage_step_counted x y :
  usage_step x y → (dd_is_official_usage x = true ∨ counted (dd_usage x)) →
  dd_is_official_usage y = true ∨ counted (dd_usage y).
Proof. destruct 1; cbn; intros [|]; auto; right; reflexivity. Qed.

Lemma usage_steps_counted x y :
  rtc usage_step x y → (dd_is_official_usage x = true ∨ counted (dd_usage x)) →
  dd_is_official_usage y = true ∨ counted (dd_usage y).
Proof. induction 1; eauto using usage_step_counted. Qed.

Lemma usage_steps_keep x y :
  rtc usage_step x y →
  dd_price y = dd_price x ∧ dd_features y = dd_features x ∧
  dd_custom_fees y = dd_custom_fees x ∧ dd_user_id y = dd_user_id x ∧
  (dd_is_error x = true → dd_is_error y = true) ∧
  (dd_is_official_usage x = true → dd_is_official_usage y = true).
Proof.
  induction 1 as [x|x y z H _ IH]; [by split_and!|].
  apply usage_step_keeps in H as (?&?&?&?&?&?&?). destruct IH as (?&?&?&?&?&?).
  split_and!; (congruence || auto).
Qed.

(** ** Properties *)

Section Properties.
Context {encoding : Type} (encoding_for_model : string → option encoding)
(encode_len : encoding → string → nat) (image_size : string → res (Z * Z))
(jsonpath_find : pyval → pyval → res (list pyval))
(validate_messages : pyval → res (list item_content))
(validate_response : bool → pyval → res chat_response)
(usage_dump : completion_usage → pydict) (model_dump : model_row → pydict)
(ud : usage_defaults) (models : gmap string model_row) (fuel : nat)
(numeric : dec → dec) (uuid4 : nat → string) (repr_other : pyval → string).

(** C3: A request the credit check let through (and that is not a free one)
  can be paid: with the features the check priced, no custom fees and the
  balance the check saw, leaving the deduction never raises, whatever usage
  the responses reported. *)
Theorem precheck_guarantees_charge now now' user form d d' x row fs mc :
check_credit_by_user_id jsonpath_find ud models fuel numeric uuid4 repr_other now user form d
  = (Ok tt, d') →
unique_users d → find_first (of_user user) (db_credits d) = Some row →
get_model_price fuel models (request_model models form) = Ok (dd_price x) →
is_free_request jsonpath_find ud (db_config d) (free_request_prices (dd_price x)) form = Ok false →
dd_user_id x = user → dd_is_error x = false →
precheck_features form = Ok fs → dd_features x = fs → dd_custom_fees x = [] →
credit_config (db_config d) "credit.calculate.custom_price_config" (VStr "[]") = VStr "[]" →
to_dec (credit_config (db_config d) "credit.calculate.minimum_cost" (VStr (ud_minimum_cost ud)))
  = Ok mc → short_amount mc →
(credit_deduct_exit usage_dump model_dump ud numeric uuid4 repr_other now' false x d').1 = Ok tt.
Proof.
intros Hcheck Hu Hrow Hprice Hfree <- He Hfs Hfeat Hfees Hcfg Hmc Hshort.
destruct (check_credit_passed _ _ _ _ _ _ _ _ _ _ _ _ Hcheck) as (p & free & Hp & Hf & Hc).
rewrite Hprice in Hp. injection Hp as <-. rewrite Hfree in Hf. injection Hf as <-.
destruct Hc as (r & q & Hi & Hq & Hle).
rewrite (init_credit_existing _ _ _ _ _ _ _ Hrow) in Hi. injection Hi as <- <-.
destruct (get_model_price_shape _ _ _ _ Hprice) as (rp & minc & Hshape).
unfold required_credit in Hq. rewrite Hfs, Hmc in Hq. cbn in Hq.
apply bind_Ok in Hq as (fp & Hfp & Hq). cbn in Hq. injection Hq as <-.
assert (Hcustom : get_custom_price jsonpath_find (db_config d) (VDict form) = d0).
{ unfold get_custom_price. by rewrite Hcfg. }
rewrite Hcustom, Hshape in Hle. cbn [call_price_of mp_request mp_minimum_credit] in Hle.
assert (Hcharge : ∃ t, total_price ud (db_config d) x = Ok t ∧ short_amount t ∧
                       dle t (cr_credit row)
                  ∨ total_price ud (db_config d) x = Ok t ∧ t = d0).
{ destruct (is_free x) eqn:Hfr.
  { exists d0. right. unfold total_price. by rewrite Hfr. }
  eexists. left. rewrite (total_price_call x rp minc Hshape) by done.
  rewrite Hfeat, Hfp, Hfees, Hmc. cbn. split; [reflexivity|]. split.
  { apply dmax_short; [apply dadd_short|done]. }
  etrans; [|exact Hle]. etrans; [|apply dmax_ge_r].
  apply dmax_le_proper; [|done].
  by rewrite model_part_deq, per_million_0. }
destruct Hcharge as (t & [(Ht & Hst & Hlet)|[Ht ->]]);
  destruct (exit_cases usage_dump model_dump ud numeric uuid4 repr_other now' x d row _ He Ht Hu Hrow)
    as (fp' & cp' & ->).
- by rewrite enough_for_charge.
- reflexivity.
Qed.

(** C4: Leaving a deduction takes exactly the total price from the account of
  its user and from no other, or raises 403 and changes nothing when the
  balance is lower; after an exception in the block, or an error response,
  nothing is charged. *)
Theorem exit_charges_total now x d row t raised :
unique_users d → find_first (of_user (dd_user_id x)) (db_credits d) = Some row →
total_price ud (db_config d) x = Ok t → short_amount t →
let res := credit_deduct_exit usage_dump model_dump ud numeric uuid4 repr_other now raised x d in
if raised || dd_is_error x then res = (Ok tt, d)
else if dltb (dneg t) d0 && dltb (cr_credit row) t
then res = (Err (HTTPException 403 (no_credit_detail repr_other (db_config d))), d)
else res.1 = Ok tt ∧
     balance_of (dd_user_id x) res.2 = Some (numeric (sql_add (cr_credit row) (dneg t))) ∧
     ∀ v, v ≠ dd_user_id x → balance_of v res.2 = balance_of v d.
Proof.
intros Hu Hr Ht Hs res. destruct raised; [done|]. cbn [orb].
destruct (dd_is_error x) eqn:He; [unfold res, credit_deduct_exit; by rewrite He|].
destruct (exit_cases usage_dump model_dump ud numeric uuid4 repr_other now x d row t He Ht Hu Hr)
  as (fp & cp & Hres).
assert (Hen : enough_credit (dneg t) (cr_credit row)
              = negb (dltb (dneg t) d0 && dltb (cr_credit row) t)).
{ unfold enough_credit. destruct (dltb (dneg t) d0); [|done]. cbn [andb].
  apply eq_bool_prop_intro. rewrite !Is_true_true, dleb_true, (dneg_dneg t Hs).
  rewrite negb_true_iff. symmetry. apply dltb_false. }
unfold res. rewrite Hres, Hen.
destruct (dltb (dneg t) d0 && dltb (cr_credit row) t); cbn [negb]; [done|].
split; [done|]. cbn [snd]. set (f := exit_form _ _ _ _ _ _ _ _).
assert (Hmap : ∀ v, balance_of v (after_add numeric uuid4 now f row d) =
  if String.eqb v (dd_user_id x) then Some (numeric (sql_add (cr_credit row) (dneg t)))
  else balance_of v d); [|split; intros; rewrite Hmap;
    [by rewrite String.eqb_refl|by destruct (String.eqb_spec v (dd_user_id x))]].
intros v. apply after_add_balance; done.
Qed.

(** Pricing is per call: an erroneous or free empty response costs
  nothing; otherwise the price is the call price plus the feature and custom
  fees, at least the configured minimum, and replacing the token usage by any
  other non-free usage does not change it. *)
Theorem total_price_per_call c x r m :
dd_price x = call_price_of r m →
(is_free x = true → total_price ud c x = Ok d0) ∧
(is_free x = false → ∀ t, total_price ud c x = Ok t →
   ∃ fp cp mc, feature_price ud c x = Ok fp ∧ custom_price x = Ok cp ∧
     to_dec (credit_config c "credit.calculate.minimum_cost" (VStr (ud_minimum_cost ud))) = Ok mc ∧
     deq t (dmax (dadd (dadd (if dltb d0 r then r else d0) fp) cp) mc) ∧ dle mc t ∧
     ∀ u o, is_free (set_usage u o x) = false → total_price ud c (set_usage u o x) = Ok t).
Proof.
intros Hp. split; [intros Hf; unfold total_price; by rewrite Hf|]. intros Hf t Ht.
assert (Hsame : ∀ u o, is_free (set_usage u o x) = false →
                       total_price ud c (set_usage u o x) = Ok t).
{ intros u o Hf'. rewrite (total_price_call _ r m) by done.
  by rewrite (total_price_call x r m) in Ht. }
rewrite (total_price_call x r m) in Ht by done.
unfold feature_price, custom_price. rewrite Hf.
apply bind_Ok in Ht as (fp & Hfp & Ht). apply bind_Ok in Ht as (v & Hv & Ht).
apply bind_Ok in Ht as (cd & Hcd & Ht). apply bind_Ok in Ht as (mc & Hmc & [= <-]).
exists fp, (per_million cd), mc. rewrite Hv. cbn. rewrite Hcd. cbn.
split_and!; [done|done|done| |apply dmax_ge_r|done].
apply deq_spec; split; apply dmax_le_proper; try done; by rewrite model_part_deq.
Qed.

End Properties.

(** A base model chain of length [n] ending in a model without stored base. *)
Inductive base_chain (models : gmap string model_row) : nat → model_row → model_row → Prop :=
| ChainEnd m :
    (∀ b, md_base_model_id m = Some b → b ≠ EmptyString → models !! b = None) →
    base_chain models 0 m m
| ChainStep n m b m' leaf :
    md_base_model_id m = Some b → b ≠ EmptyString → models !! b = Some m' →
    base_chain models n m' leaf → base_chain models (S n) m leaf.

Definition own_price (m : model_row) : res model_price :=
  let price := default [] (md_price m) in
  call_price ← to_dec (dgetd price "call_price" (VInt 0));
  minimum_credit ← to_dec (dgetd price "minimum_credit" (VInt 0));
  Ok (call_price_of call_price minimum_credit).

(** [get_model_price] returns the price stored with the last model of the
    base model chain, for every stack deeper than the chain; a model that is
    its own base model exhausts every stack. *)
Theorem get_model_price_follows_chain models n m leaf fuel :
  base_chain models n m leaf → (n < fuel)%nat →
  get_model_price fuel models (Some m) = own_price leaf.
Proof.
  intros Hc. revert fuel. induction Hc as [m Hm|n m b m' leaf Hb Hne Hl _ IH];
    (intros [|fuel] Hf; [lia|]); cbn [get_model_price].
  - destruct (md_base_model_id m) as [b|]; [|done].
    destruct b as [|a b]; [done|]. cbn. by rewrite (Hm _ eq_refl).
  - rewrite Hb. destruct b as [|a b]; [done|]. cbn [Str.is_empty]. rewrite Hl. apply IH. lia.
Qed.

(** ** Shortcomings of the accounting *)

(** The tokens of a response made of characters of [<think>] only, such as
    a reply "hi" or "think", are counted as those of the empty text. *)
Theorem think_characters_not_counted {encoding} (encode_len : encoding → string → nat) enc
    is_chunk (s : string) (rest : list choice) :
  Str.sforallb (λ c, Str.mem_char c "<think>") s = true →
  completion_tokens_of encode_len enc is_chunk
    ({| ch_message := Some (Some s); ch_delta := Some (Some s) |} :: rest) =
  Ok (Z.of_nat (encode_len enc EmptyString)).
Proof.
  intros Hs. unfold completion_tokens_of, Str.lstrip_chars. destruct is_chunk; cbn;
    by rewrite Str.lstrip_by_all.
Qed.

(** The configured model prefix has no effect: once the encoder of the
    stripped name is cached, the lookup is repeated with the full name, which
    falls back to the encoder of the default model. *)
Theorem prefix_removal_ignored {encoding} (encoding_for_model : string → option encoding)
    fuel model_id prefix dflt e e4o :
  prefix ≠ EmptyString → Str.lstrip_chars prefix model_id ≠ model_id →
  encoding_for_model (Str.lstrip_chars prefix model_id) = Some e →
  encoding_for_model model_id = None →
  encoding_for_model "gpt-4o" = Some e4o →
  Str.lstrip_chars prefix model_id ≠ "gpt-4o" → model_id ≠ "gpt-4o" →
  ∃ cache, get_encoder encoding_for_model (4 + fuel) [] model_id prefix dflt = Ok (e4o, cache).
Proof.
  intros Hp Hne He Hm H4o Hs4 Hm4. set (ops := Str.lstrip_chars prefix model_id) in *.
  eexists. destruct prefix as [|a prefix]; [done|].
  do 4 (cbn [get_encoder Nat.add Str.is_empty]; fold ops; cbn [dict_get dict_set];
        rewrite ?He, ?Hm, ?H4o;
        repeat match goal with
        | H : ?a ≠ ?b |- context [String.eqb ?b ?a] =>
            rewrite (proj2 (String.eqb_neq b a)) by congruence
        | H : ?a ≠ ?b |- context [String.eqb ?a ?b] =>
            rewrite (proj2 (String.eqb_neq a b)) by congruence
        end; rewrite ?String.eqb_refl; cbn [dict_get dict_set]).
  reflexivity.
Qed.

(** ** Instances *)

Definition example_ud : usage_defaults :=
  {| ud_minimum_cost := "0"; ud_image_gen_price := "0"; ud_code_execute_price := "0";
     ud_web_search_price := "500000"; ud_tool_server_price := "0"; ud_no_credit_msg := "no credit";
     ud_no_charge_empty_response := true; ud_model_prefix_to_remove := EmptyString;
     ud_default_encoding_model := "gpt-4o"; ud_custom_price_config := "[]" |}.

Definition example_model (id : string) (base : option string) (price : string) : model_row :=
  {| md_id := id; md_name := id; md_base_model_id := base;
     md_price := Some [("call_price", VStr price)] |}.

Definition example_models : gmap string model_row :=
  {["preset" := example_model "preset" (Some "gpt") "9"; "gpt" := example_model "gpt" None "2.5"]}.

Definition example_request : pydict :=
  [("model", VStr "preset"); ("features", VDict [("web_search", VBool true); ("x", VBool false)]);
   ("messages", VList [VDict [("role", VStr "user"); ("content", VStr "q")]])].

Definition no_jsonpath (path body : pyval) : res (list pyval) := Err (ValueError "path").
Definition no_repr (v : pyval) : string := EmptyString.

Definition example_deduct : deduct :=
  {| dd_is_error := false; dd_empty_no_cost := true; dd_remote_id := VNone;
     dd_user_id := "alice"; dd_model_id := "preset"; dd_model := None; dd_body := example_request;
     dd_is_stream := true; dd_usage := with_tokens 7 9 16 zero_usage;
     dd_price := call_price_of (Dec 25 (-1)) d0; dd_features := ["web_search"];
     dd_custom_fees := []; dd_is_official_usage := false |}.

Lemma precheck_guarantees_charge_witness :
  (credit_deduct_exit (λ _, []) (λ _, []) example_ud numeric_scale12 example_uuid no_repr 2 false
     example_deduct example_db).1 = Ok tt.
Proof.
  apply (precheck_guarantees_charge no_jsonpath (λ _, []) (λ _, []) example_ud example_models 5
           numeric_scale12 example_uuid no_repr 1 2 "alice" example_request example_db example_db
           example_deduct {| cr_id := "c0"; cr_user_id := "alice"; cr_credit := Dec 5 0;
                             cr_updated_at := 0; cr_created_at := 0 |} ["web_search"] (Dec 0 0));
    try (vm_compute; reflexivity).
  - apply NoDup_singleton.
  - vm_compute. discriminate.
Defined.

Lemma exit_charges_total_witness :
  balance_of "alice" (credit_deduct_exit (λ _, []) (λ _, []) example_ud numeric_scale12 example_uuid
                        no_repr 2 false example_deduct example_db).2 = Some (Dec 2000000 (-6)).
Proof.
  pose proof (exit_charges_total (λ _, []) (λ _, []) example_ud numeric_scale12 example_uuid no_repr 2
    example_deduct example_db _ (Dec 3000000 (-6)) false (NoDup_singleton _) eq_refl eq_refl) as H.
  destruct (H ltac:(vm_compute; discriminate)) as (_ & Hb & _). exact Hb.
Defined.

Lemma total_price_per_call_witness :
  is_free example_deduct = false ∧ total_price example_ud example_config example_deduct = Ok (Dec 3000000 (-6)) ∧
  total_price example_ud example_config (set_usage (with_tokens 1 1 2 zero_usage) true example_deduct)
    = Ok (Dec 3000000 (-6)).
Proof.
  pose proof (total_price_per_call example_ud example_config example_deduct (Dec 25 (-1)) d0 eq_refl) as [_ H].
  split; [reflexivity|]. split; [reflexivity|].
  destruct (H eq_refl (Dec 3000000 (-6)) eq_refl) as (fp & cp & mc & _ & _ & _ & _ & _ & Hs).
  exact (Hs (with_tokens 1 1 2 zero_usage) true eq_refl).
Defined.

Lemma get_model_price_follows_chain_witness :
  get_model_price 3 example_models (example_models !! "preset") = Ok (call_price_of (Dec 25 (-1)) d0).
Proof.
  apply (get_model_price_follows_chain example_models 1 (example_model "preset" (Some "gpt") "9")
           (example_model "gpt" None "2.5") 3).
  - eapply (ChainStep _ 0 _ "gpt"); [reflexivity|done|reflexivity|]. by constructor.
  - lia.
Defined.

Lemma think_characters_not_counted_witness :
  completion_tokens_of (λ (_ : unit) s, String.length s) tt true
    [{| ch_message := Some (Some "hi"); ch_delta := Some (Some "hi") |}] = Ok 0.
Proof. exact (think_characters_not_counted (λ (_ : unit) s, String.length s) tt true "hi" [] eq_refl). Defined.

Definition example_encoding (model : string) : option nat :=
  if String.eqb model "gpt-4" then Some 4%nat else if String.eqb model "gpt-4o" then Some 40%nat else None.

Lemma prefix_removal_ignored_witness :
  ∃ cache, get_encoder example_encoding 4 [] "my.gpt-4" "my." "gpt-4" = Ok (40%nat, cache).
Proof.
  apply (prefix_removal_ignored example_encoding 0 "my.gpt-4" "my." "gpt-4" 4%nat 40%nat);
    vm_compute; congruence.
Defined.
