(* ===== verification/Scheduler.v ===== *)
(** * The bot gateway's shard scheduler (utils/bot_gateway_scheduler.py) and the
    fence of its events (utils/bot_gateway_coordination.py).

    [build_rebalance_plan] packs the enabled connections of each channel into
    shards.  Its working dicts are the fields of [plan_state]; the loops are
    folds over it in the order of the source. *)

From S2P Require Import Prelude PyVal PyDecimal.
From Stdlib Require Import SpecFloat Psatz.

Local Open Scope Z_scope.

(** ** Load units *)

(** [LoadSample]; the fields are floats, or the int 0 of the defaults, which
    computes like the float zero. *)
Record load_sample := {
  ls_event_rate_5m : spec_float;
  ls_event_rate_30m : spec_float;
  ls_processing_seconds_per_minute : spec_float;
  ls_processing_seconds_per_minute_30m : spec_float;
  ls_attachment_mib_per_minute : spec_float;
  ls_attachment_mib_per_minute_30m : spec_float;
  ls_account_errors_10m : spec_float;
}.

Definition zero_sample : load_sample :=
  {| ls_event_rate_5m := F64.zero; ls_event_rate_30m := F64.zero;
     ls_processing_seconds_per_minute := F64.zero; ls_processing_seconds_per_minute_30m := F64.zero;
     ls_attachment_mib_per_minute := F64.zero; ls_attachment_mib_per_minute_30m := F64.zero;
     ls_account_errors_10m := F64.zero |}.

(** [max(a, b)] of two floats: [b] only when it is greater. *)
Definition fmax (a b : spec_float) : spec_float := if F64.ltb a b then b else a.

(** The float of a small integer constant. *)
Definition fconst (z : Z) : spec_float := default S754_nan (F64.of_Z z).

(** [calculate_load_units] *)
Definition calculate_load_units (s : load_sample) : res Z :=
  let event_rate := fmax (ls_event_rate_5m s) (ls_event_rate_30m s) in
  let processing_seconds :=
    fmax (ls_processing_seconds_per_minute s) (ls_processing_seconds_per_minute_30m s) in
  let attachment_mib :=
    fmax (ls_attachment_mib_per_minute s) (ls_attachment_mib_per_minute_30m s) in
  let total :=
    F64.add (F64.add (F64.add (F64.add (fconst 1)
      (F64.div (fmax F64.zero event_rate) (fconst 5)))
      (F64.div (fmax F64.zero processing_seconds) (fconst 15)))
      (F64.div (fmax F64.zero attachment_mib) (fconst 20)))
      (F64.mul (fconst 3) (fmax F64.zero (ls_account_errors_10m s))) in
  raw ← F64.ceil total;
  Ok (Z.min 12 (Z.max 1 raw)).

(** The inner [number] of [load_sample_from_config]: finite numbers, else 0.
    [math.isfinite] of an int too large for a float raises OverflowError. *)
Definition metric_number (metrics : pydict) (key : string) : res spec_float :=
  match dgetd metrics key (VInt 0) with
  | VBool b => Ok (fconst (if b then 1 else 0))
  | VInt z => match F64.of_Z z with Some f => Ok f | None => Err OverflowError end
  | VFloat f => Ok (if F64.is_finite f then f else F64.zero)
  | _ => Ok F64.zero
  end.

(** [load_sample_from_config] *)
Definition load_sample_from_config (config : option pydict) : res load_sample :=
  match dget (default [] config) "runtime_metrics" with
  | VDict metrics =>
      a ← metric_number metrics "event_rate_5m";
      b ← metric_number metrics "event_rate_30m";
      c ← metric_number metrics "processing_seconds_per_minute";
      d ← metric_number metrics "processing_seconds_per_minute_30m";
      e ← metric_number metrics "attachment_mib_per_minute";
      f ← metric_number metrics "attachment_mib_per_minute_30m";
      g ← metric_number metrics "account_errors_10m";
      Ok {| ls_event_rate_5m := a; ls_event_rate_30m := b;
            ls_processing_seconds_per_minute := c; ls_processing_seconds_per_minute_30m := d;
            ls_attachment_mib_per_minute := e; ls_attachment_mib_per_minute_30m := f;
            ls_account_errors_10m := g |}
  | _ => Ok zero_sample
  end.

(** ** Connections *)

(** [SchedulingConnection] *)
Record connection := {
  cn_id : string;
  cn_channel : string;
  cn_shard_id : option string;
  cn_enabled : bool;
  cn_status : string;
  cn_load_units : Z;
  cn_config : pydict;
}.

Definition MOVE_COOLDOWN_SECONDS : Z := 30 * 60.

(** [isinstance(v, (int, float)) and math.isfinite(v) and v > bound] *)
Definition number_above (v : pyval) (bound : Z) : bool :=
  match as_num v with
  | Some (NInt z) => bound <? z
  | Some (NFloat f) => F64.is_finite f && num_ltb (NInt bound) (NFloat f)
  | None => false
  end.

(** [connection_can_move] *)
Definition connection_can_move (now : Z) (c : connection) : bool :=
  let config := cn_config c in
  let last_move_at := dgetd config "last_shard_move_at" (VInt 0) in
  let in_cooldown := number_above last_move_at (now - MOVE_COOLDOWN_SECONDS) in
  negb (String.eqb (cn_status c) "awaiting_scan"
        || truthy (dget config "half_open")
        || truthy (dget config "credential_migration_in_progress")
        || truthy (dget config "control_operation_in_progress")
        || in_cooldown).

(** [shard_id] is truthy: neither absent nor the empty string. *)
Definition assigned_shard (c : connection) : option string :=
  match cn_shard_id c with
  | Some s => if Str.is_empty s then None else Some s
  | None => None
  end.

(** [f'{index:03d}'] *)
Definition pad3 (n : nat) : string :=
  let s := pretty (N.of_nat n) in
  match String.length s with
  | 1%nat => "00" +:+ s
  | 2%nat => "0" +:+ s
  | _ => s
  end.

(** [_shard_id] *)
Definition shard_name (channel : string) (index : nat) : string :=
  channel +:+ "-shard-" +:+ pad3 index.

(** [_next_shard]: the first unused index; [fuel] bounds the search. *)
Fixpoint next_shard_from (fuel : nat) (channel : string) (known : list string) (index : nat) : string :=
  match fuel with
  | O => shard_name channel index
  | S fuel =>
      if bool_decide (shard_name channel index ∈ known)
      then next_shard_from fuel channel known (S index)
      else shard_name channel index
  end.

Definition next_shard (channel : string) (known : list string) : string :=
  next_shard_from (length known) channel known 0.

(** [int((item.config or {}).get(key, 0) or 0)] *)
Definition config_int (c : connection) (key : string) : res Z :=
  py_int (por (dgetd (cn_config c) key (VInt 0)) (VInt 0)).

(** [item.load_units >= 8 or account_error_streak >= 3] *)
Definition needs_isolation (c : connection) : res bool :=
  if 8 <=? cn_load_units c then Ok true
  else streak ← config_int c "account_error_streak"; Ok (3 <=? streak).

(** ** The plan *)

Record plan_state := {
  ps_assignments : list (string * string);
  ps_shard_accounts : list (string * Z);
  ps_shard_load : list (string * Z);
  ps_shard_channel : list (string * string);
  ps_dedicated : list string;
}.

Definition empty_plan : plan_state :=
  {| ps_assignments := []; ps_shard_accounts := []; ps_shard_load := [];
     ps_shard_channel := []; ps_dedicated := [] |}.

Definition get_count (k : string) (d : list (string * Z)) : Z := default 0 (dict_get k d).

(** The five writes that put a connection on a shard, shared by [retain] and
    the placement loop. *)
Definition assign (item : connection) (shard_id : string) (isolate : bool) (p : plan_state)
    : plan_state :=
  {| ps_assignments := dict_set (cn_id item) shard_id (ps_assignments p);
     ps_shard_accounts :=
       dict_set shard_id (get_count shard_id (ps_shard_accounts p) + 1) (ps_shard_accounts p);
     ps_shard_load :=
       dict_set shard_id (get_count shard_id (ps_shard_load p) + cn_load_units item) (ps_shard_load p);
     ps_shard_channel := dict_set shard_id (cn_channel item) (ps_shard_channel p);
     ps_dedicated := if isolate then shard_id :: ps_dedicated p else ps_dedicated p |}.

(** The inner [retain] *)
Definition retain (item : connection) (p : plan_state) : res plan_state :=
  match assigned_shard item with
  | None => Ok p
  | Some shard_id => isolate ← needs_isolation item; Ok (assign item shard_id isolate p)
  end.

(** The first pass: connections that cannot be moved stay. *)
Definition keep_step (now : Z) (p : plan_state) (item : connection) : res plan_state :=
  match assigned_shard item with
  | Some _ => if connection_can_move now item then Ok p else retain item p
  | None => Ok p
  end.

(** [existing_shard_accounts] *)
Definition existing_accounts (items : list connection) : list (string * Z) :=
  foldl (λ d item, match assigned_shard item with
                   | Some s => dict_set s (get_count s d + 1) d
                   | None => d
                   end) [] items.

(** [math.floor(load_capacity * 1.2)] *)
Definition sticky_limit (load_capacity : Z) : res Z :=
  match F64.of_Z load_capacity with
  | Some f => F64.floor (F64.mul f (float_of_dec (Dec 12 (-1))))
  | None => Err OverflowError
  end.

(** The sticky pass. *)
Definition sticky_step (account_capacity load_capacity : Z) (existing : list (string * Z))
    (p : plan_state) (item : connection) : res plan_state :=
  match assigned_shard item with
  | None => Ok p
  | Some shard_id =>
      if dict_has (cn_id item) (ps_assignments p) then Ok p
      else
        let projected_accounts := get_count shard_id (ps_shard_accounts p) + 1 in
        let projected_load := get_count shard_id (ps_shard_load p) + cn_load_units item in
        overloaded_windows ← config_int item "overloaded_windows";
        underloaded_windows ← config_int item "underloaded_windows";
        limit ← sticky_limit load_capacity;
        isolation ← needs_isolation item;
        let requires_isolation := isolation && (1 <? get_count shard_id existing) in
        if negb requires_isolation && (projected_accounts <=? account_capacity)
           && ((projected_load <=? limit) || (overloaded_windows <? 3))
           && (underloaded_windows <? 30)
        then retain item p else Ok p
  end.

(** The order of the placement loop: by load, highest first, then by id. *)
Definition placement_le (a b : connection) : bool :=
  (cn_load_units b <? cn_load_units a)
  || ((cn_load_units a =? cn_load_units b) && Str.leb (cn_id a) (cn_id b)).

(** The best-fit key: load, accounts, shard id. *)
Definition fit_lt (p : plan_state) (a b : string) : bool :=
  let la := get_count a (ps_shard_load p) in let lb := get_count b (ps_shard_load p) in
  let ca := get_count a (ps_shard_accounts p) in let cb := get_count b (ps_shard_accounts p) in
  (la <? lb) || ((la =? lb) && ((ca <? cb) || ((ca =? cb) && Str.ltb a b))).

Definition known_shards (channel : string) (p : plan_state) : list string :=
  map fst (List.filter (λ kv, String.eqb kv.2 channel) (ps_shard_channel p)).

Definition candidates (account_capacity load_capacity : Z) (item : connection) (p : plan_state)
    : list string :=
  List.filter (λ shard,
    negb (bool_decide (shard ∈ ps_dedicated p))
    && (get_count shard (ps_shard_accounts p) <? account_capacity)
    && (get_count shard (ps_shard_load p) + cn_load_units item <=? load_capacity))
    (known_shards (cn_channel item) p).

(** The shard the placement loop chooses. *)
Definition choose_shard (account_capacity load_capacity : Z) (isolate : bool) (item : connection)
    (p : plan_state) : string :=
  let known := known_shards (cn_channel item) p in
  match isolate, candidates account_capacity load_capacity item p with
  | false, c :: cs => py_max (fit_lt p) c cs
  | _, _ => next_shard (cn_channel item) known
  end.

Definition place_step (account_capacity load_capacity : Z) (p : plan_state) (item : connection)
    : res plan_state :=
  isolate ← needs_isolation item;
  Ok (assign item (choose_shard account_capacity load_capacity isolate item p) isolate p).

Record move := {
  mv_connection_id : string;
  mv_channel : string;
  mv_from_shard_id : option string;
  mv_to_shard_id : string;
  mv_load_units : Z;
  mv_reason : string;
}.

Record shard_info := {
  sh_id : string;
  sh_channel : string;
  sh_accounts : Z;
  sh_load_units : Z;
  sh_account_capacity : Z;
  sh_load_capacity : Z;
}.

Record plan := {
  pl_moves : list move;
  pl_shards : list shard_info;
  pl_assignments : list (string * string);
}.

(** [{item.id: item for item in items}]: the last connection of an id. *)
Definition by_id (items : list connection) : list (string * connection) :=
  foldl (λ d item, dict_set (cn_id item) item d) [] items.

Definition move_of (now : Z) (item : connection) (target : string) : option move :=
  if bool_decide (Some target = cn_shard_id item) || negb (connection_can_move now item) then None
  else Some {| mv_connection_id := cn_id item; mv_channel := cn_channel item;
               mv_from_shard_id := cn_shard_id item; mv_to_shard_id := target;
               mv_load_units := cn_load_units item;
               mv_reason := match cn_shard_id item with
                            | None => "new_assignment"
                            | Some _ => "capacity_rebalance"
                            end |}.

Definition moves_of (now : Z) (items : list connection) (assignments : list (string * string))
    : list move :=
  omap (λ kv, item ← dict_get kv.1 (by_id items); move_of now item kv.2)
    (py_sorted (λ a b, Str.ltb a.1 b.1 || (String.eqb a.1 b.1 && Str.leb a.2 b.2)) assignments).

Definition shards_of (account_capacity load_capacity : Z) (p : plan_state) : list shard_info :=
  map (λ kv, {| sh_id := kv.1; sh_channel := kv.2;
                sh_accounts := get_count kv.1 (ps_shard_accounts p);
                sh_load_units := get_count kv.1 (ps_shard_load p);
                sh_account_capacity := account_capacity; sh_load_capacity := load_capacity |})
    (py_sorted (λ a b, Str.leb a.1 b.1) (ps_shard_channel p)).

Definition by_id_le (a b : connection) : bool := Str.leb (cn_id a) (cn_id b).

(** The three passes of [build_rebalance_plan]. *)
Definition plan_assignments (account_capacity load_capacity now : Z) (items : list connection)
    : res plan_state :=
  let sorted_items := py_sorted by_id_le items in
  p1 ← foldM (keep_step now) empty_plan sorted_items;
  p2 ← foldM (sticky_step account_capacity load_capacity (existing_accounts items)) p1 sorted_items;
  let unassigned := py_sorted placement_le
    (List.filter (λ item, negb (dict_has (cn_id item) (ps_assignments p2))) items) in
  foldM (place_step account_capacity load_capacity) p2 unassigned.

(** [build_rebalance_plan] *)
Definition build_rebalance_plan (account_capacity load_capacity now : Z) (connections : list connection)
    : res plan :=
  let items := List.filter cn_enabled connections in
  p ← plan_assignments account_capacity load_capacity now items;
  Ok {| pl_moves := moves_of now items (ps_assignments p);
        pl_shards := shards_of account_capacity load_capacity p;
        pl_assignments := ps_assignments p |}.

(** ** Event fencing (utils/bot_gateway_coordination.py) *)

(** [CurrentShardLease] *)
Record shard_lease := {
  sl_node_id : string;
  sl_lease_id : string;
  sl_epoch : Z;
  sl_assignment_generation : Z;
  sl_ttl_ms : Z;
}.

(** [coordination_mode] *)
Definition coordination_mode (configured : string) : string :=
  if String.eqb configured "single" || String.eqb configured "redis" then configured else "single".

(** [current_shard_lease] after the two Redis reads: the decoded lease value
    and its remaining time; [Ok None] outside redis mode. *)
Definition current_shard_lease (repr_other : pyval → string) (mode : string)
    (value : option pyval) (ttl : Z) : res (option shard_lease) :=
  if negb (String.eqb (coordination_mode mode) "redis") then Ok None
  else
    match value with
    | None => Ok None
    | Some parsed =>
        if ttl <=? 0 then Ok None
        else
          node ← vitem parsed "nodeId";
          lease ← vitem parsed "leaseId";
          epoch_value ← vitem parsed "epoch"; epoch ← py_int epoch_value;
          generation_value ← vitem parsed "assignmentGeneration"; generation ← py_int generation_value;
          Ok (Some {| sl_node_id := py_str repr_other node; sl_lease_id := py_str repr_other lease;
                      sl_epoch := epoch; sl_assignment_generation := generation; sl_ttl_ms := ttl |})
    end.

(** [validate_event_fence]; [lease] is what [current_shard_lease] answers. *)
Definition validate_event_fence (mode : string) (shard_id node_id : option string)
    (lease_epoch assignment_generation : option Z) (expected_shard_id : option string)
    (expected_assignment_generation : Z) (lease : res (option shard_lease)) : res bool :=
  if negb (String.eqb (coordination_mode mode) "redis") then Ok true
  else
    match shard_id, node_id, lease_epoch, assignment_generation with
    | Some s, Some n, Some epoch, Some generation =>
        if Str.is_empty s || Str.is_empty n || negb (bool_decide (Some s = expected_shard_id))
           || negb (generation =? expected_assignment_generation)
        then Ok false
        else
          l ← lease;
          Ok match l with
             | Some l => String.eqb (sl_node_id l) n && (sl_epoch l =? epoch)
                         && (sl_assignment_generation l =? generation)
             | None => false
             end
    | _, _, _, _ => Ok false
    end.
