(* ===== verification/SchedulerProps.v ===== *)
(** * Properties of the shard scheduler.

    Every plan is [built] by single assignments of four kinds: keeping an
    immovable connection, retaining a sticky one, best fit and a fresh shard.
    The properties of the plan follow by rule induction. *)

From S2P Require Import Prelude PyVal PyDecimal Scheduler.
From Stdlib Require Import SpecFloat Psatz Ascii.

Local Open Scope Z_scope.

(** ** Shard names are distinct *)

(** The number a string of digits denotes. *)
Fixpoint digits_N (acc : N) (s : string) : N :=
  match s with
  | EmptyString => acc
  | String c s' => digits_N (10 * acc + (N_of_ascii c - 48)) s'
  end.

Lemma digits_N_char (d : N) acc s :
  (d < 10)%N → digits_N acc (String (pretty_N_char d) s) = digits_N (10 * acc + d) s.
Proof.
  intros Hd. cbn [digits_N]. do 2 f_equal.
  assert (d = 0 ∨ d = 1 ∨ d = 2 ∨ d = 3 ∨ d = 4 ∨ d = 5 ∨ d = 6 ∨ d = 7 ∨ d = 8 ∨ d = 9)%N
    as Hcases by lia.
  by repeat destruct Hcases as [->|Hcases]; subst.
Qed.

Lemma digits_N_go x s : digits_N 0 (pretty_N_go x s) = digits_N x s.
Proof.
  revert s. induction (N.lt_wf_0 x) as [x _ IH]. intros s.
  destruct (decide (x = 0)%N) as [->|Hx]; [by rewrite pretty_N_go_0|].
  rewrite pretty_N_go_step by lia. rewrite IH by (apply N.div_lt; lia).
  rewrite digits_N_char by (apply N.mod_lt; lia). f_equal.
  rewrite (N.Div0.div_mod x 10) at 3. lia.
Qed.

Lemma digits_N_pretty (n : N) : digits_N 0 (pretty n) = n.
Proof.
  unfold pretty, pretty_N. destruct (decide (n = 0)%N) as [->|]; [done|]. apply digits_N_go.
Qed.

Lemma digits_N_pad3 n : digits_N 0 (pad3 n) = N.of_nat n.
Proof.
  unfold pad3. rewrite <-(digits_N_pretty (N.of_nat n)) at 2.
  by destruct (String.length (pretty (N.of_nat n))) as [|[|[|k]]].
Qed.

#[export] Instance shard_name_inj channel : Inj (=) (=) (shard_name channel).
Proof.
  intros n m H. unfold shard_name in H. apply (inj (String.append _)) in H.
  apply (inj (String.append _)) in H. apply (f_equal (digits_N 0)) in H.
  rewrite !digits_N_pad3 in H. lia.
Qed.

(** The search for an unused index stops at one. *)
Lemma next_shard_from_fresh channel known fuel index :
  (length known <= fuel + index)%nat →
  (∀ i, (i < index)%nat → shard_name channel i ∈ known) →
  ∃ n, next_shard_from fuel channel known index = shard_name channel n ∧
       shard_name channel n ∉ known.
Proof.
  revert index. induction fuel as [|fuel IH]; intros index Hlen Hall; cbn.
  - exists index. split; [done|]. intros Hin.
    assert (Hsub : shard_name channel <$> seq 0 (S index) ⊆+ known).
    { apply NoDup_submseteq; [apply NoDup_fmap_2, NoDup_seq; apply _|].
      intros x (i & -> & Hi)%list_elem_of_fmap. apply elem_of_seq in Hi.
      destruct (decide (i = index)) as [->|]; [done|]. apply Hall. lia. }
    apply submseteq_length in Hsub. rewrite length_fmap, length_seq in Hsub. lia.
  - case_bool_decide as Hin; [|by exists index]. apply IH; [lia|].
    intros i Hi. destruct (decide (i = index)) as [->|]; [done|]. apply Hall. lia.
Qed.

Lemma next_shard_fresh channel known :
  ∃ n, next_shard channel known = shard_name channel n ∧ shard_name channel n ∉ known.
Proof. apply next_shard_from_fresh; [lia|]. intros i Hi. lia. Qed.

(** A shard name determines its channel: only digits follow the last dash. *)
Lemma pad3_digits n : Str.sforallb Str.is_digit (pad3 n) = true.
Proof.
  assert (Hp : Str.sforallb Str.is_digit (pretty (N.of_nat n)) = true).
  { apply Str.pretty_N_digits. }
  unfold pad3. by destruct (String.length (pretty (N.of_nat n))) as [|[|[|k]]].
Qed.

Lemma suffix_digits r d e :
  Str.sforallb Str.is_digit d = true → d ≠ r +:+ String "-" e.
Proof.
  intros Hd ->. induction r as [|c r IH]; cbn in Hd; [done|].
  apply IH. by apply andb_prop in Hd as [_ ?].
Qed.
Lemma dash_tail c b d e :
  Str.sforallb Str.is_digit d = true →
  "-shard-" +:+ d = String c b +:+ "-shard-" +:+ e → False.
Proof.
  intros Hd H. injection H as _ H.
  do 6 (destruct b as [|? b]; [first [discriminate H|injection H as H; change (d = "shard-" +:+ e) in H; rewrite H in Hd; discriminate Hd]|injection H as ? H]).
  revert H. by apply suffix_digits.
Qed.

Lemma dash_suffix_inj a b d e :
  Str.sforallb Str.is_digit d = true → Str.sforallb Str.is_digit e = true →
  a +:+ "-shard-" +:+ d = b +:+ "-shard-" +:+ e → a = b.
Proof.
  intros Hd He. revert b. induction a as [|c a IH]; intros [|c' b] H; [done| | |].
  - by destruct (dash_tail _ _ _ _ Hd H).
  - by destruct (dash_tail _ _ _ _ He (eq_sym H)).
  - injection H as -> H. f_equal. by apply IH.
Qed.

Lemma shard_name_channel c1 c2 n m : shard_name c1 n = shard_name c2 m → c1 = c2.
Proof. apply dash_suffix_inj; apply pad3_digits. Qed.

(** ** Plans are built by single assignments *)

(** The shards of a channel in the plan. *)
Lemma known_shards_elem channel p s :
  NoDup (dict_keys (ps_shard_channel p)) →
  s ∈ known_shards channel p ↔ dict_get s (ps_shard_channel p) = Some channel.
Proof.
  intros Hnd. unfold known_shards. rewrite list_elem_of_fmap. split.
  - intros ([s' c] & -> & [Hin Hc]%list_elem_of_In%filter_In).
    apply String.eqb_eq in Hc as <-. by apply dict_get_elem, list_elem_of_In.
  - intros Hs%dict_get_Some_elem. exists (s, channel). split; [done|].
    apply list_elem_of_In, filter_In. split; [by apply list_elem_of_In|apply String.eqb_refl].
Qed.

Section Built.
Context (account_capacity load_capacity now : Z) (items : list connection).

(** The assignments of the three passes, numbered 0, 1 and 2. *)
Inductive assign_kind (p : plan_state) (item : connection) : nat → string → bool → Prop :=
| KindKeep s iso :
    assigned_shard item = Some s → connection_can_move now item = false →
    assign_kind p item 0 s iso
| KindSticky s iso :
    assigned_shard item = Some s →
    get_count s (ps_shard_accounts p) + 1 <= account_capacity →
    assign_kind p item 1 s iso
| KindFit s :
    s ∈ candidates account_capacity load_capacity item p → needs_isolation item = Ok false →
    assign_kind p item 2 s false
| KindFresh iso :
    needs_isolation item = Ok iso →
    assign_kind p item 2 (next_shard (cn_channel item) (known_shards (cn_channel item) p)) iso.

Inductive built : nat → plan_state → Prop :=
| BuiltEmpty : built 0 empty_plan
| BuiltPass ph p : built ph p → built (S ph) p
| BuiltAssign ph p item s iso :
    built ph p → item ∈ items → dict_get (cn_id item) (ps_assignments p) = None →
    assign_kind p item ph s iso → built ph (assign item s iso p).

(** A step that either does nothing or assigns its own connection. *)
Definition own_step (ph : nat) (step : plan_state → connection → res plan_state) : Prop :=
  ∀ p item p', step p item = Ok p' →
    p' = p ∨ ∃ s iso, p' = assign item s iso p ∧ assign_kind p item ph s iso.

(** Assigned connections stay where they are. *)
Definition extends (p p' : plan_state) : Prop :=
  ∀ x s, dict_get x (ps_assignments p) = Some s → dict_get x (ps_assignments p') = Some s.

Lemma extends_assign item s iso p :
  dict_get (cn_id item) (ps_assignments p) = None → extends p (assign item s iso p).
Proof.
  intros Hf x t Hx. cbn. rewrite dict_get_set.
  destruct (String.eqb_spec x (cn_id item)) as [->|]; [congruence|done].
Qed.

Lemma retain_cases item p p' s :
  assigned_shard item = Some s → retain item p = Ok p' → ∃ iso, p' = assign item s iso p.
Proof. unfold retain. intros -> (iso & _ & [= <-])%bind_Ok. eauto. Qed.

Lemma keep_step_cases p item p' :
  keep_step now p item = Ok p' →
  p' = p ∧ (assigned_shard item = None ∨ connection_can_move now item = true) ∨
  ∃ s iso, assigned_shard item = Some s ∧ connection_can_move now item = false ∧
           p' = assign item s iso p.
Proof.
  unfold keep_step. destruct (assigned_shard item) as [s|] eqn:Es; [|intros [= <-]; auto].
  destruct (connection_can_move now item) eqn:Em; [intros [= <-]; auto|].
  intros [iso ->]%(retain_cases _ _ _ s); [|done]. right. eauto 6.
Qed.

Lemma keep_step_own : own_step 0 (keep_step now).
Proof.
  intros p item p' [[-> _]|(s & iso & Hs & Hm & ->)]%keep_step_cases; [by left|right].
  exists s, iso. split; [done|]. by apply KindKeep.
Qed.

Lemma sticky_step_cases ex p item p' :
  sticky_step account_capacity load_capacity ex p item = Ok p' →
  p' = p ∨ dict_get (cn_id item) (ps_assignments p) = None ∧
           ∃ s iso, p' = assign item s iso p ∧ assign_kind p item 1 s iso.
Proof.
  unfold sticky_step. destruct (assigned_shard item) as [s|] eqn:Es; [|by intros [= <-]; left].
  unfold dict_has. destruct (dict_get (cn_id item) (ps_assignments p)) eqn:Ed;
    [by intros [= <-]; left|].
  intros (ow & _ & H)%bind_Ok. apply bind_Ok in H as (uw & _ & H).
  apply bind_Ok in H as (lim & _ & H). apply bind_Ok in H as (iso & _ & H).
  match type of H with (if ?b then _ else _) = _ => destruct b eqn:Eb end;
    [|injection H as <-; by left].
  right. split; [done|]. apply (retain_cases _ _ _ s) in H as [iso' ->]; [|done].
  exists s, iso'. split; [done|]. apply KindSticky; [done|].
  rewrite !andb_true_iff in Eb. destruct Eb as [[[_ Eb] _] _]. by apply Z.leb_le.
Qed.

Lemma place_step_cases p item p' :
  place_step account_capacity load_capacity p item = Ok p' →
  ∃ s iso, p' = assign item s iso p ∧ assign_kind p item 2 s iso.
Proof.
  intros (iso & Hiso & [= <-])%bind_Ok. eexists _, iso. split; [reflexivity|].
  unfold choose_shard. destruct iso; [by apply KindFresh|].
  destruct (candidates account_capacity load_capacity item p) as [|c cs] eqn:Ec;
    [by apply KindFresh|].
  apply KindFit; [|done]. rewrite Ec. apply py_max_elem.
Qed.

Lemma place_step_own : own_step 2 (place_step account_capacity load_capacity).
Proof. intros p item p' H. right. by apply place_step_cases. Qed.

(** A pass over connections with distinct, not yet assigned ids. *)
Lemma fresh_pass ph step l p p' :
  own_step ph step → (∀ x, x ∈ l → x ∈ items) → NoDup (map cn_id l) →
  (∀ x, x ∈ l → dict_get (cn_id x) (ps_assignments p) = None) →
  built ph p → foldM step p l = Ok p' →
  built ph p' ∧ extends p p' ∧
  (∀ x, x ∈ l → ∃ q q', step q x = Ok q' ∧ extends q' p').
Proof.
  intros Hown. revert p. induction l as [|x l IH]; cbn; intros p Hin Hnd Hfresh Hb H.
  { injection H as <-. split_and!; [done|by intros ? ?|by intros ? ? %elem_of_nil]. }
  apply NoDup_cons in Hnd as [Hx Hnd]. apply bind_Ok in H as (p1 & H1 & H).
  assert (Hxf : dict_get (cn_id x) (ps_assignments p) = None) by (apply Hfresh; left).
  assert (built ph p1 ∧ extends p p1 ∧
                ∀ y, y ∈ l → dict_get (cn_id y) (ps_assignments p1) = None) as (Hb1 & He1 & Hf1).
  { destruct (Hown _ _ _ H1) as [->|(s & iso & -> & Hk)].
    - split_and!; [done|by intros ? ?|]. intros y Hy. apply Hfresh. by right.
    - split_and!; [constructor; auto; apply Hin; left|by apply extends_assign|].
      intros y Hy. cbn. rewrite dict_get_set_ne; [apply Hfresh; by right|].
      intros Heq. apply Hx. rewrite <-Heq. by apply list_elem_of_fmap_2. }
  destruct (IH p1) as (Hb' & He' & Hst); auto; [intros y Hy; apply Hin; by right|].
  split_and!; [done|intros y s Hy; by apply He', He1|].
  intros y [->|Hy]%elem_of_cons; [eauto|auto].
Qed.

Lemma sticky_pass ex l p p' :
  (∀ x, x ∈ l → x ∈ items) → built 1 p →
  foldM (sticky_step account_capacity load_capacity ex) p l = Ok p' →
  built 1 p' ∧ extends p p'.
Proof.
  intros Hin Hb. apply (foldM_inv (λ q, built 1 q ∧ extends p q)); [|split; [done|by intros ? ?]].
  intros p1 x p2 Hx [Hp1 He] H.
  apply sticky_step_cases in H as [->|(Hfresh & s & iso & -> & Hk)]; [done|].
  split; [by apply BuiltAssign; auto|]. intros y t Hy. by apply extends_assign, He.
Qed.

Context (Hnd : NoDup (map cn_id items)).

Lemma sorted_ids_NoDup le (l : list connection) :
  NoDup (map cn_id l) → NoDup (map cn_id (py_sorted le l)).
Proof. intros H. by rewrite (Permutation_map cn_id (py_sorted_perm le l)). Qed.

Lemma filter_ids_NoDup (f : connection → bool) (l : list connection) :
  NoDup (map cn_id l) → NoDup (map cn_id (List.filter f l)).
Proof.
  induction l as [|x l IH]; cbn; [done|]. intros [Hx Hl]%NoDup_cons.
  destruct (f x); cbn; [|auto]. apply NoDup_cons. split; [|auto].
  intros (y & Hy & [Hy' _]%list_elem_of_In%filter_In)%list_elem_of_fmap.
  apply Hx. rewrite Hy. apply list_elem_of_fmap_2. by apply list_elem_of_In.
Qed.

(** The three passes, the immovable connections and everybody's assignment. *)
Lemma plan_built p :
  plan_assignments account_capacity load_capacity now items = Ok p →
  built 2 p ∧
  (∀ x s, x ∈ items → assigned_shard x = Some s → connection_can_move now x = false →
     dict_get (cn_id x) (ps_assignments p) = Some s) ∧
  (∀ x, x ∈ items → is_Some (dict_get (cn_id x) (ps_assignments p))).
Proof.
  unfold plan_assignments. intros (p1 & H1 & H)%bind_Ok. apply bind_Ok in H as (p2 & H2 & H3).
  assert (Hs : ∀ x, x ∈ py_sorted by_id_le items ↔ x ∈ items) by (intros x; by rewrite py_sorted_elem).
  destruct (fresh_pass 0 (keep_step now) (py_sorted by_id_le items) empty_plan p1) as (Hb1 & _ & Hk1);
    [apply keep_step_own|by intros x ?%Hs|by apply sorted_ids_NoDup|done|constructor|done|].
  apply sticky_pass in H2 as [Hb2 He2]; [|by intros x ?%Hs|by constructor].
  apply fresh_pass with (ph := 2%nat) in H3 as (Hb3 & He3 & Hk3).
  - split_and!; [done| |].
    + intros x s Hx Hsx Hm. destruct (Hk1 x) as (q & q' & Hq & He); [by apply Hs|].
      apply keep_step_cases in Hq as [[_ [?|?]]|(s' & iso & Hs' & _ & ->)]; [congruence..|].
      assert (s' = s) as -> by congruence. apply He3, He2, He. cbn. apply dict_get_set_eq.
    + intros x Hx. destruct (dict_get (cn_id x) (ps_assignments p2)) as [s|] eqn:E;
        [exists s; by apply He3|].
      destruct (Hk3 x) as (q & q' & (s & iso & -> & _)%place_step_cases & He).
      { apply py_sorted_elem, list_elem_of_In, filter_In. split; [by apply list_elem_of_In|].
        unfold dict_has. by rewrite E. }
      exists s. apply He. cbn. apply dict_get_set_eq.
  - apply place_step_own.
  - intros x Hx%py_sorted_elem%list_elem_of_In%filter_In. by apply list_elem_of_In, Hx.
  - by apply sorted_ids_NoDup, filter_ids_NoDup.
  - intros x [_ Hx]%py_sorted_elem%list_elem_of_In%filter_In. unfold dict_has in Hx.
    by destruct (dict_get _ _).
  - by constructor.
Qed.
End Built.

(** ** Who is on a shard *)

(** The connections of a plan's shard, and their load. *)
Definition members (items : list connection) (assignments : list (string * string)) (s : string)
    : list connection :=
  List.filter (λ c, bool_decide (dict_get (cn_id c) assignments = Some s)) items.

Definition total_load (l : list connection) : Z := foldr (λ c n, cn_load_units c + n) 0 l.

#[export] Instance total_load_proper : Proper ((≡ₚ) ==> (=)) total_load.
Proof. intros l k H. unfold total_load. induction H; cbn; lia. Qed.

#[export] Instance filter_Permutation_proper {A} (f : A → bool) :
  Proper ((≡ₚ) ==> (≡ₚ)) (List.filter f).
Proof.
  intros l k H. induction H as [|x l k _ IH|x y l|l k m _ IH1 _ IH2]; cbn.
  - done.
  - destruct (f x); [by f_equiv|done].
  - destruct (f x), (f y); try done. apply Permutation_swap.
  - by rewrite IH1.
Qed.

Lemma members_elem items asg s c :
  c ∈ members items asg s ↔ c ∈ items ∧ dict_get (cn_id c) asg = Some s.
Proof.
  unfold members. by rewrite list_elem_of_In, filter_In, <-list_elem_of_In, bool_decide_eq_true.
Qed.

Lemma NoDup_id_unique items (x y : connection) :
  NoDup (map cn_id items) → x ∈ items → y ∈ items → cn_id x = cn_id y → x = y.
Proof.
  induction items as [|z l IH]; cbn; [by intros _ ?%elem_of_nil|].
  intros [Hz Hl]%NoDup_cons Hx%elem_of_cons Hy%elem_of_cons Hid.
  destruct Hx as [->|Hx], Hy as [->|Hy]; [done| | |auto]; destruct Hz;
    [rewrite Hid|rewrite <-Hid]; by apply list_elem_of_fmap_2.
Qed.

Lemma members_set items asg item s t :
  NoDup (map cn_id items) → item ∈ items → dict_get (cn_id item) asg = None →
  members items (dict_set (cn_id item) s asg) t
    ≡ₚ (if bool_decide (s = t) then [item] else []) ++ members items asg t.
Proof.
  intros Hnd Hin Hf. apply list_elem_of_split in Hin as (l1 & l2 & ->).
  assert (Hother : ∀ c, c ∈ l1 ++ l2 → cn_id c ≠ cn_id item).
  { intros c Hc Heq. rewrite map_app in Hnd. cbn in Hnd.
    rewrite <-Permutation_middle, <-map_app in Hnd. apply NoDup_cons in Hnd as [Hnd _].
    apply Hnd. rewrite <-Heq. by apply list_elem_of_fmap_2. }
  unfold members. rewrite <-Permutation_middle. cbn.
  rewrite dict_get_set_eq, Hf, (bool_decide_ext (Some s = Some t) (s = t)) by naive_solver.
  rewrite (bool_decide_false (None = Some t)) by done.
  rewrite (List.filter_ext_in _ (λ c, bool_decide (dict_get (cn_id c) asg = Some t)) (l1 ++ l2)).
  - by case_bool_decide.
  - intros c Hc%list_elem_of_In. rewrite dict_get_set_ne by (by apply Hother). done.
Qed.

Section Invariants.
Context (account_capacity load_capacity now : Z) (items : list connection).
Context (Hnd : NoDup (map cn_id items)).
Notation built := (built account_capacity load_capacity now items).

Lemma built_basic ph p :
  built ph p →
  NoDup (dict_keys (ps_shard_channel p)) ∧
  (∀ x s, dict_get x (ps_assignments p) = Some s →
     is_Some (dict_get s (ps_shard_channel p)) ∧
     ∃ c, c ∈ items ∧ cn_id c = x ∧ ((ph < 2)%nat → assigned_shard c = Some s)) ∧
  (∀ s, is_Some (dict_get s (ps_shard_channel p)) →
     ∃ x, dict_get x (ps_assignments p) = Some s).
Proof.
  induction 1 as [|ph p Hb (Hk & Ha & Hs)|ph p item s iso Hb (Hk & Ha & Hs) Hin Hf Hkind].
  - cbn. split_and!; [constructor|done|by intros ? [? ?]].
  - split_and!; [done| |done]. intros x s Hx. destruct (Ha x s Hx) as [? (c & ? & ? & ?)].
    split; [done|]. exists c. split_and!; [done..|]. intros ?. apply H2. lia.
  - cbn. split_and!; [by apply dict_set_NoDup| |].
    + intros x t. rewrite !dict_get_set. destruct (String.eqb_spec x (cn_id item)) as [->|Hx].
      * intros [= <-]. rewrite String.eqb_refl. split; [eauto|]. exists item.
        split_and!; [done..|]. intros Hph. destruct Hkind; done || lia.
      * intros Ht. destruct (Ha x t Ht) as [? ?]. split; [|done].
        destruct (String.eqb t s); eauto.
    + intros t. rewrite dict_get_set. destruct (String.eqb_spec t s) as [->|Ht].
      * intros _. exists (cn_id item). apply dict_get_set_eq.
      * intros [x Hx]%Hs. exists x. rewrite dict_get_set_ne; [done|]. intros ->. congruence.
Qed.

Lemma built_totals ph p s :
  built ph p →
  get_count s (ps_shard_accounts p) = Z.of_nat (length (members items (ps_assignments p) s)) ∧
  get_count s (ps_shard_load p) = total_load (members items (ps_assignments p) s).
Proof.
  induction 1 as [|ph p Hb IH|ph p item t iso Hb [IHa IHl] Hin Hf Hkind]; [|done|].
  - cbn. replace (members items [] s) with (@nil connection); [done|].
    symmetry. unfold members. cbn. induction items as [|c l IH']; cbn; [done|].
    apply IH'. by apply NoDup_cons in Hnd as [_ ?].
  - pose proof (members_set items (ps_assignments p) item t s Hnd Hin Hf) as Hm.
    cbn. rewrite Hm. unfold get_count, total_load in *. rewrite !dict_get_set.
    destruct (String.eqb_spec s t) as [->|Hne].
    + rewrite bool_decide_true by done. cbn [app length foldr default]. rewrite IHa, IHl. cbn. lia.
    + rewrite bool_decide_false by done. cbn. done.
Qed.

(** ** The shards of different channels are different *)

Definition well_named : Prop := ∀ x y i,
  x ∈ items → y ∈ items → assigned_shard x = Some (shard_name (cn_channel y) i) →
  cn_channel x = cn_channel y.

Context (Hwn : well_named).

Lemma built_named ph p s y i :
  built ph p → y ∈ items → is_Some (dict_get s (ps_shard_channel p)) →
  s = shard_name (cn_channel y) i → dict_get s (ps_shard_channel p) = Some (cn_channel y).
Proof.
  intros Hb Hy Hk ->. revert Hk. induction Hb as [|ph p Hb IH|ph p item t iso Hb IH Hin Hf Hkind].
  - by intros [? ?].
  - done.
  - cbn. rewrite dict_get_set. destruct (String.eqb_spec (shard_name (cn_channel y) i) t)
      as [<-|Hne]; [intros _; f_equal|done].
    inversion Hkind as [? ? Hs|? ? Hs|? Hc|? Hi]; subst; [by eapply Hwn..| |].
    + unfold candidates in Hc. apply list_elem_of_In, filter_In in Hc as [Hc _].
      apply list_elem_of_In, known_shards_elem in Hc; [|by eapply built_basic].
      rewrite IH in Hc by eauto. by injection Hc.
    + destruct (next_shard_fresh (cn_channel item) (known_shards (cn_channel item) p))
        as (n & Heq & _). eapply shard_name_channel. rewrite <-Heq. eassumption.
Qed.

(** A fresh shard holds nobody. *)
Lemma fresh_unused ph p item :
  built ph p → item ∈ items →
  dict_get (next_shard (cn_channel item) (known_shards (cn_channel item) p)) (ps_shard_channel p)
    = None.
Proof.
  intros Hb Hin. destruct (next_shard_fresh (cn_channel item) (known_shards (cn_channel item) p))
    as (n & -> & Hn). destruct (dict_get _ _) as [c|] eqn:E; [|done].
  destruct Hn. apply known_shards_elem; [by apply (built_basic ph)|].
  apply (built_named ph p _ _ n); eauto.
Qed.
End Invariants.

Section Capacity.
Context (account_capacity load_capacity now : Z) (items : list connection).
Context (Hnd : NoDup (map cn_id items)) (Hwn : well_named items).
Notation built := (built account_capacity load_capacity now items).

Definition kept (c : connection) (s : string) : Prop :=
  assigned_shard c = Some s ∧ connection_can_move now c = false.

Lemma fresh_none p item :
  built 2 p → item ∈ items →
  dict_get (next_shard (cn_channel item) (known_shards (cn_channel item) p)) (ps_shard_channel p)
    = None.
Proof. by eapply fresh_unused. Qed.

Lemma unused_count ph p s :
  built ph p → dict_get s (ps_shard_channel p) = None → get_count s (ps_shard_accounts p) = 0.
Proof.
  intros Hb Hs. destruct (built_totals _ _ _ _ Hnd ph p s Hb) as [-> _].
  destruct (members items (ps_assignments p) s) as [|c l] eqn:E; [done|].
  assert (Hc : c ∈ members items (ps_assignments p) s) by (rewrite E; left).
  apply members_elem in Hc as [_ Hc].
  apply (built_basic _ _ _ _ ph p Hb) in Hc as [[? ?] _]. congruence.
Qed.

(** A shard over the account capacity holds kept connections only. *)
Lemma built_capacity ph p :
  1 <= account_capacity → built ph p →
  (ph = 0%nat → ∀ c s, c ∈ items → dict_get (cn_id c) (ps_assignments p) = Some s → kept c s) ∧
  (∀ s, get_count s (ps_shard_accounts p) <= account_capacity ∨
        ∀ c, c ∈ items → dict_get (cn_id c) (ps_assignments p) = Some s → kept c s).
Proof.
  intros Hcap.
  induction 1 as [|ph p Hb [_ IH]|ph p item s iso Hb [IH0 IH] Hin Hf Hkind].
  - split; [by intros|]. intros s. left. cbn. lia.
  - split; [done|]. done.
  - assert (Hstep : ph = 0%nat ∧ kept item s ∨ get_count s (ps_shard_accounts p) + 1 <= account_capacity).
    { destruct Hkind as [s iso Hs Hm|s iso Hs Hle|s Hc _|iso _].
      - left. by split.
      - by right.
      - right. unfold candidates in Hc. apply list_elem_of_In, filter_In in Hc as [_ Hc].
        rewrite !andb_true_iff, Z.ltb_lt in Hc. lia.
      - right. rewrite (unused_count 2); [lia|done|]. by apply fresh_none. }
    assert (Hasg : ∀ c t, c ∈ items → dict_get (cn_id c) (ps_assignments (assign item s iso p)) = Some t →
                     c = item ∧ t = s ∨ dict_get (cn_id c) (ps_assignments p) = Some t).
    { intros c t Hc. cbn. rewrite dict_get_set.
      destruct (String.eqb_spec (cn_id c) (cn_id item)) as [Heq|]; [|auto].
      intros [= <-]. left. split; [|done]. by apply (NoDup_id_unique items). }
    split.
    + intros Hph c t Hc [[-> ->]|Ht]%Hasg; [| |done]; [|by apply IH0].
      destruct Hkind; [by split|lia..].
    + intros t. cbn [assign ps_shard_accounts]. unfold get_count in *. rewrite dict_get_set.
      destruct (String.eqb_spec t s) as [->|Hne]; cbn [default].
      * destruct Hstep as [[-> Hk]|Hle]; [right|by left].
        intros c Hc [[-> _]|Ht]%Hasg; [done| |done]. by apply IH0.
      * destruct (IH t) as [Hle|Hall]; [by left|right].
        intros c Hc [[-> ->]|Ht]%Hasg; [done| |done]. by apply Hall.
Qed.

(** A connection that was moved to a shard of its own stays alone there. *)
Lemma built_isolated ph p :
  built ph p →
  ∀ c s, c ∈ items → needs_isolation c = Ok true →
    dict_get (cn_id c) (ps_assignments p) = Some s → assigned_shard c ≠ Some s →
    s ∈ ps_dedicated p ∧
    ∀ d, d ∈ items → dict_get (cn_id d) (ps_assignments p) = Some s → d = c.
Proof.
  induction 1 as [|ph p Hb IH|ph p item s iso Hb IH Hin Hf Hkind]; intros c t Hc Hi Ht Hne;
    [done|by apply IH|].
  pose proof (BuiltAssign _ _ _ _ _ _ _ _ _ Hb Hin Hf Hkind) as Hb'.
  pose proof (built_basic _ _ _ _ ph _ Hb') as (_ & Ha & _).
  destruct (Ha _ _ Ht) as [_ (c' & Hc' & Hid & Hph)].
  assert (c' = c) as -> by (by apply (NoDup_id_unique items)).
  assert (Hlate : ¬ (ph < 2)%nat) by (intros H; by apply Hne, Hph). clear Ha Hc' Hid Hph.
  assert (Hn : NoDup (dict_keys (ps_shard_channel p))) by (by eapply built_basic).
  cbn [assign ps_assignments ps_dedicated] in *. rewrite dict_get_set in Ht.
  destruct (String.eqb_spec (cn_id c) (cn_id item)) as [Heq|Hid].
  - injection Ht as ->. assert (c = item) as -> by (by apply (NoDup_id_unique items)).
    inversion Hkind as [? ? ? Hm|? ? ? ?|? ? Hi'|iso' Hi']; subst; try lia; [congruence|].
    assert (iso = true) as -> by congruence. split; [left|].
    intros d Hd. rewrite dict_get_set.
    destruct (String.eqb_spec (cn_id d) (cn_id item)) as [?|?];
      [intros _; by apply (NoDup_id_unique items)|].
    intros Hd'. apply (built_basic _ _ _ _ 2 p Hb) in Hd' as [[? Hd'] _].
    by rewrite fresh_none in Hd'.
  - destruct (IH c t Hc Hi Ht Hne) as [Hded Hall]. split; [destruct iso; set_solver|].
    intros d Hd. rewrite dict_get_set.
    destruct (String.eqb_spec (cn_id d) (cn_id item)) as [Hdi|?]; [|by apply Hall].
    intros [= ->]. exfalso.
    inversion Hkind as [? ? ? Hm|? ? ? ?|? Hcand Hi'|iso' Hi']; subst; try lia.
    + unfold candidates in Hcand. apply list_elem_of_In, filter_In in Hcand as [_ Hcand].
      rewrite !andb_true_iff, negb_true_iff in Hcand. destruct Hcand as [[Hx _] _].
      by apply bool_decide_eq_false in Hx.
    + apply (built_basic _ _ _ _ 2 p Hb) in Ht as [[? Ht] _].
      by rewrite fresh_none in Ht.
Qed.
End Capacity.

(** ** The order of the connections does not matter *)

Lemma by_id_le_antisym (a b : connection) :
  by_id_le a b = true → by_id_le b a = true → cn_id a = cn_id b.
Proof. apply Str.leb_antisym. Qed.

Lemma placement_le_iff a b :
  placement_le a b = true ↔
  cn_load_units b < cn_load_units a ∨
  cn_load_units a = cn_load_units b ∧ Str.leb (cn_id a) (cn_id b) = true.
Proof. unfold placement_le. rewrite orb_true_iff, andb_true_iff, Z.ltb_lt, Z.eqb_eq. done. Qed.

Lemma placement_le_total a b : placement_le a b = true ∨ placement_le b a = true.
Proof.
  rewrite !placement_le_iff. pose proof (Str.leb_total (cn_id a) (cn_id b)).
  destruct (Z.lt_trichotomy (cn_load_units a) (cn_load_units b)); naive_solver.
Qed.

Lemma placement_le_trans a b c :
  placement_le a b = true → placement_le b c = true → placement_le a c = true.
Proof.
  rewrite !placement_le_iff. intros [H1|[H1 L1]] [H2|[H2 L2]]; try (left; lia).
  right. split; [lia|]. by eapply Str.leb_trans.
Qed.

Lemma placement_le_antisym a b :
  placement_le a b = true → placement_le b a = true → cn_id a = cn_id b.
Proof.
  rewrite !placement_le_iff. intros [H1|[H1 L1]] [H2|[H2 L2]]; try lia.
  by apply Str.leb_antisym.
Qed.

(** Sorting by a total order on distinct ids gives one result. *)
Lemma sorted_connections_eq le (l k : list connection) :
  (∀ a b, le a b = true ∨ le b a = true) →
  (∀ a b c, le a b = true → le b c = true → le a c = true) →
  (∀ a b, le a b = true → le b a = true → cn_id a = cn_id b) →
  NoDup (map cn_id l) → l ≡ₚ k → py_sorted le l = py_sorted le k.
Proof.
  intros Htot Htr Hanti Hnd Hp. eapply (StronglySorted_unique_strong (λ a b, le a b = true)).
  - intros a b Ha Hb H1 H2. apply py_sorted_elem in Ha, Hb. rewrite <-Hp in Hb.
    apply (NoDup_id_unique l); auto.
  - by apply py_sorted_sorted.
  - by apply py_sorted_sorted.
  - by rewrite !py_sorted_perm.
Qed.

Definition wants (s : string) (c : connection) : bool := bool_decide (assigned_shard c = Some s).

Lemma existing_accounts_count items s :
  get_count s (existing_accounts items) = Z.of_nat (length (List.filter (wants s) items)).
Proof.
  assert (Hgen : ∀ d, get_count s (foldl (λ d item, match assigned_shard item with
                        | Some s => dict_set s (get_count s d + 1) d | None => d end) d items)
                      = get_count s d + Z.of_nat (length (List.filter (wants s) items))).
  { induction items as [|c l IH]; intros d; cbn [foldl List.filter]; [cbn [length]; lia|].
    rewrite IH. unfold wants at 2.
    destruct (assigned_shard c) as [t|] eqn:E; [|by rewrite bool_decide_false].
    unfold get_count. rewrite dict_get_set. destruct (String.eqb_spec s t) as [->|Hne].
    - rewrite bool_decide_true by done. cbn [default length]. unfold id. lia.
    - rewrite bool_decide_false by naive_solver. done. }
  exact (Hgen []).
Qed.

Lemma foldM_ext {S A} (f g : S → A → res S) l s :
  (∀ s a, f s a = g s a) → foldM f s l = foldM g s l.
Proof.
  intros H. revert s. induction l as [|a l IH]; intros s; cbn; [done|].
  rewrite H. destruct (g s a); cbn; auto.
Qed.

Lemma sticky_step_ext ac lc ex ex' p item :
  (∀ s, get_count s ex = get_count s ex') →
  sticky_step ac lc ex p item = sticky_step ac lc ex' p item.
Proof.
  intros H. unfold sticky_step. destruct (assigned_shard item) as [s|]; [|done].
  by rewrite H.
Qed.

Lemma by_id_get items x c :
  NoDup (map cn_id items) →
  dict_get x (by_id items) = Some c ↔ c ∈ items ∧ cn_id c = x.
Proof.
  intros Hnd. unfold by_id.
  assert (Hgen : ∀ d, (∀ c, c ∈ items → dict_get (cn_id c) d = None) →
    dict_get x (foldl (λ d item, dict_set (cn_id item) item d) d items) = Some c ↔
    dict_get x d = Some c ∨ c ∈ items ∧ cn_id c = x).
  { induction items as [|a l IH]; intros d Hd; cbn; [set_solver|].
    apply NoDup_cons in Hnd as [Ha Hl]. rewrite IH; [|done|].
    - rewrite dict_get_set, elem_of_cons. destruct (String.eqb_spec x (cn_id a)) as [->|Hne].
      + rewrite Hd by left. split; [|naive_solver]. intros [[= <-]|[Hc Hid]]; [auto|].
        destruct Ha. rewrite <-Hid. by apply list_elem_of_fmap_2.
      + naive_solver.
    - intros b Hb. rewrite dict_get_set_ne; [apply Hd; by right|].
      intros Heq. apply Ha. rewrite <-Heq. by apply list_elem_of_fmap_2. }
  rewrite Hgen by done. naive_solver.
Qed.

Lemma by_id_perm l k x :
  NoDup (map cn_id l) → l ≡ₚ k → dict_get x (by_id l) = dict_get x (by_id k).
Proof.
  intros Hnd Hp. assert (Hk : NoDup (map cn_id k)) by (by rewrite <-Hp).
  destruct (dict_get x (by_id l)) as [c|] eqn:E.
  - apply by_id_get in E as [Hc <-]; [|done]. symmetry. apply by_id_get; [done|].
    by rewrite <-Hp.
  - destruct (dict_get x (by_id k)) as [c|] eqn:E'; [|done].
    apply by_id_get in E' as [Hc <-]; [|done]. rewrite <-Hp in Hc.
    assert (dict_get (cn_id c) (by_id l) = Some c) by (by apply by_id_get). congruence.
Qed.

Lemma omap_ext_fn {A B} (f g : A → option B) (l : list A) : (∀ a, f a = g a) → omap f l = omap g l.
Proof. intros H. induction l as [|a l IH]; cbn; [done|]. by rewrite H, <-IH. Qed.

Lemma plan_assignments_perm ac lc now l k :
  NoDup (map cn_id l) → l ≡ₚ k → plan_assignments ac lc now l = plan_assignments ac lc now k.
Proof.
  intros Hnd Hp. unfold plan_assignments.
  rewrite (sorted_connections_eq by_id_le l k); try done;
    [|by intros ? ?; apply Str.leb_total|by intros ? ? ?; apply Str.leb_trans|apply by_id_le_antisym].
  destruct (foldM _ _ _) as [p1|]; cbn; [|done].
  rewrite (foldM_ext _ (sticky_step ac lc (existing_accounts k))).
  2:{ intros s a. apply sticky_step_ext. intros t. by rewrite !existing_accounts_count, Hp. }
  destruct (foldM _ _ _) as [p2|]; cbn; [|done]. f_equal.
  apply sorted_connections_eq; auto using placement_le_total, placement_le_antisym.
  - intros ? ? ?. apply placement_le_trans.
  - by apply filter_ids_NoDup.
  - by rewrite Hp.
Qed.

(** ** Properties of [build_rebalance_plan] *)

Lemma rebalance_plan_built ac lc now conns pl :
  NoDup (map cn_id conns) → build_rebalance_plan ac lc now conns = Ok pl →
  ∃ p, let items := List.filter cn_enabled conns in
    NoDup (map cn_id items) ∧ built ac lc now items 2 p ∧
    (∀ x s, x ∈ items → assigned_shard x = Some s → connection_can_move now x = false →
       dict_get (cn_id x) (ps_assignments p) = Some s) ∧
    (∀ x, x ∈ items → is_Some (dict_get (cn_id x) (ps_assignments p))) ∧
    pl = {| pl_moves := moves_of now items (ps_assignments p); pl_shards := shards_of ac lc p;
            pl_assignments := ps_assignments p |}.
Proof.
  intros Hnd (p & Hp & [= <-])%bind_Ok. exists p. cbn.
  assert (Hnd' := filter_ids_NoDup cn_enabled conns Hnd).
  apply plan_built in Hp as (? & ? & ?); [|done]. done.
Qed.

Lemma enabled_elem conns c : c ∈ List.filter cn_enabled conns ↔ c ∈ conns ∧ cn_enabled c = true.
Proof. by rewrite list_elem_of_In, filter_In, <-list_elem_of_In. Qed.

Lemma shards_of_elem ac lc p sh :
  NoDup (dict_keys (ps_shard_channel p)) → sh ∈ shards_of ac lc p →
  dict_get (sh_id sh) (ps_shard_channel p) = Some (sh_channel sh) ∧
  sh_accounts sh = get_count (sh_id sh) (ps_shard_accounts p) ∧
  sh_load_units sh = get_count (sh_id sh) (ps_shard_load p).
Proof.
  intros Hnd ([s c] & -> & Hin)%list_elem_of_fmap. apply py_sorted_elem in Hin.
  split_and!; [by apply dict_get_elem|done|done].
Qed.

Lemma moves_of_elem now items asg mv :
  NoDup (map cn_id items) → NoDup (dict_keys asg) → mv ∈ moves_of now items asg →
  ∃ c, c ∈ items ∧ cn_id c = mv_connection_id mv ∧
       dict_get (cn_id c) asg = Some (mv_to_shard_id mv) ∧
       cn_shard_id c = mv_from_shard_id mv ∧ mv_from_shard_id mv ≠ Some (mv_to_shard_id mv) ∧
       connection_can_move now c = true.
Proof.
  intros Hnd Hasg ([x s] & Hin & Hmv)%list_elem_of_omap. apply py_sorted_elem in Hin. cbn in Hmv.
  destruct (dict_get x (by_id items)) as [c|] eqn:Ec; [|done].
  apply by_id_get in Ec as [Hc <-]; [|done]. unfold move_of in Hmv. cbn in Hmv.
  destruct (_ || _) eqn:Eb; [done|]. injection Hmv as <-. cbn.
  apply orb_false_iff in Eb as [Hb1%bool_decide_eq_false Hb2%negb_false_iff].
  exists c. split_and!; try done. by apply dict_get_elem.
Qed.

Lemma built_assignments_NoDup ac lc now items ph p :
  built ac lc now items ph p → NoDup (dict_keys (ps_assignments p)).
Proof. induction 1; cbn; [constructor|done|by apply dict_set_NoDup]. Qed.

(** A rebalance plan assigns every enabled connection to a shard of the
    plan, and the account count and the load it reports for a shard are the
    number and the total load of the enabled connections assigned to it; no
    reported shard is empty. *)
Theorem plan_reports_assignments (ac lc now : Z) (conns : list connection) (pl : plan) :
  NoDup (map cn_id conns) → build_rebalance_plan ac lc now conns = Ok pl →
  (∀ c, c ∈ conns → cn_enabled c = true →
     ∃ sh, sh ∈ pl_shards pl ∧ dict_get (cn_id c) (pl_assignments pl) = Some (sh_id sh)) ∧
  (∀ id s, dict_get id (pl_assignments pl) = Some s →
     ∃ c, c ∈ conns ∧ cn_enabled c = true ∧ cn_id c = id) ∧
  (∀ sh, sh ∈ pl_shards pl →
     let on_shard := members (List.filter cn_enabled conns) (pl_assignments pl) (sh_id sh) in
     on_shard ≠ [] ∧ sh_accounts sh = Z.of_nat (length on_shard) ∧
     sh_load_units sh = total_load on_shard).
Proof.
  intros Hnd H. destruct (rebalance_plan_built _ _ _ _ _ Hnd H) as (p & Hnd' & Hb & _ & Hall & ->).
  cbn. pose proof (built_basic _ _ _ _ _ _ Hb) as (Hk & Ha & Hs). split_and!.
  - intros c Hc Hen. destruct (Hall c) as [s Hc']; [by apply enabled_elem|].
    destruct (Ha _ _ Hc') as [[ch Hch] _]. eexists. split.
    + apply list_elem_of_fmap. exists (s, ch). split; [reflexivity|].
      apply py_sorted_elem. by apply dict_get_Some_elem.
    + done.
  - intros x s Hx. destruct (Ha _ _ Hx) as [_ (c & [? ?]%enabled_elem & ? & _)]. eauto.
  - intros sh Hsh. apply shards_of_elem in Hsh as (Hch & -> & ->); [|done].
    destruct (built_totals _ _ _ _ Hnd' _ _ (sh_id sh) Hb) as [-> ->].
    split_and!; [|done|done]. intros Hnil.
    destruct (Hs (sh_id sh)) as [x Hx]; [eauto|].
    destruct (Ha _ _ Hx) as [_ (c & Hc & <- & _)].
    assert (Hm : c ∈ members (List.filter cn_enabled conns) (ps_assignments p) (sh_id sh))
      by (by apply members_elem). rewrite Hnil in Hm. by apply elem_of_nil in Hm.
Qed.


(** When shard names are used for their own channel only and the account
    capacity is positive, a shard of a plan exceeds the account capacity only
    if every connection on it is one that may not be moved. *)
Theorem overfull_shards_hold_immovable (ac lc now : Z) (conns : list connection) (pl : plan)
    (sh : shard_info) (c : connection) :
  NoDup (map cn_id conns) → well_named (List.filter cn_enabled conns) → 1 <= ac →
  build_rebalance_plan ac lc now conns = Ok pl → sh ∈ pl_shards pl → ac < sh_accounts sh →
  c ∈ conns → cn_enabled c = true → dict_get (cn_id c) (pl_assignments pl) = Some (sh_id sh) →
  assigned_shard c = Some (sh_id sh) ∧ connection_can_move now c = false.
Proof.
  intros Hnd Hwn Hac H Hsh Hover Hc Hen Hcs.
  destruct (rebalance_plan_built _ _ _ _ _ Hnd H) as (p & Hnd' & Hb & _ & _ & ->). cbn in *.
  apply shards_of_elem in Hsh as (_ & Hacc & _); [|by eapply built_basic].
  destruct (built_capacity _ _ _ _ Hnd' Hwn _ _ Hac Hb) as [_ Hor].
  destruct (Hor (sh_id sh)) as [Hle|Hall]; [lia|]. apply Hall; [by apply enabled_elem|done].
Qed.

(** A connection that needs isolation (eight load units, or three account
    errors in a row) and that the plan moves ends up alone on its shard. *)
Theorem isolated_connections_move_alone (ac lc now : Z) (conns : list connection) (pl : plan)
    (mv : move) (c d : connection) :
  NoDup (map cn_id conns) → well_named (List.filter cn_enabled conns) →
  build_rebalance_plan ac lc now conns = Ok pl → mv ∈ pl_moves pl →
  c ∈ conns → cn_enabled c = true → cn_id c = mv_connection_id mv → needs_isolation c = Ok true →
  d ∈ conns → cn_enabled d = true →
  dict_get (cn_id d) (pl_assignments pl) = Some (mv_to_shard_id mv) → d = c.
Proof.
  intros Hnd Hwn H Hmv Hc Hcen Hid Hi Hd Hden Hds.
  destruct (rebalance_plan_built _ _ _ _ _ Hnd H) as (p & Hnd' & Hb & _ & _ & ->). cbn in *.
  apply moves_of_elem in Hmv as (c' & Hc' & Hid' & Hto & Hfrom & Hne & _);
    [|done|by eapply built_assignments_NoDup].
  assert (Hcin := proj2 (enabled_elem conns c) (conj Hc Hcen)).
  assert (c' = c) as -> by (apply (NoDup_id_unique _ _ _ Hnd'); congruence).
  eapply (built_isolated _ _ _ _ Hnd' Hwn 2 p Hb c (mv_to_shard_id mv)); try done.
  - unfold assigned_shard. rewrite Hfrom.
    destruct (mv_from_shard_id mv) as [t|]; [|done]. by destruct (Str.is_empty t); [|congruence].
  - by apply enabled_elem.
Qed.

(** The plan does not depend on the order in which the connections are
    read from the database. *)
Theorem plan_ignores_input_order (ac lc now : Z) (conns conns' : list connection) :
  NoDup (map cn_id conns) → conns ≡ₚ conns' →
  build_rebalance_plan ac lc now conns = build_rebalance_plan ac lc now conns'.
Proof.
  intros Hnd Hp. unfold build_rebalance_plan.
  assert (Hf : List.filter cn_enabled conns ≡ₚ List.filter cn_enabled conns') by (by rewrite Hp).
  assert (Hnd' := filter_ids_NoDup cn_enabled conns Hnd).
  rewrite (plan_assignments_perm _ _ _ _ _ Hnd' Hf).
  destruct (plan_assignments _ _ _ _) as [p|]; cbn; [|done]. do 2 f_equal.
  unfold moves_of. apply omap_ext_fn. intros [x s]. by rewrite (by_id_perm _ _ _ Hnd' Hf).
Qed.

(** ** A plan on concrete connections *)

Definition example_connection (id : string) (shard : option string) (status : string) (load : Z)
    : connection :=
  {| cn_id := id; cn_channel := "qq"; cn_shard_id := shard; cn_enabled := true;
     cn_status := status; cn_load_units := load; cn_config := [] |}.

(** One connection waits for a scan on a shard; a heavy one is new. *)
Definition example_connections : list connection :=
  [ example_connection "b" (Some "qq-shard-000") "awaiting_scan" 1;
    example_connection "a" (Some "qq-shard-000") "awaiting_scan" 2;
    example_connection "c" None "online" 9 ].

Definition example_result : res plan := build_rebalance_plan 1 12 100000 example_connections.

Definition example_plan : plan :=
  match example_result with
  | Ok pl => pl
  | Err _ => {| pl_moves := []; pl_shards := []; pl_assignments := [] |}
  end.

Definition example_shard : shard_info :=
  match pl_shards example_plan with
  | sh :: _ => sh
  | [] => {| sh_id := "none"; sh_channel := "none"; sh_accounts := 0; sh_load_units := 0;
             sh_account_capacity := 0; sh_load_capacity := 0 |}
  end.

Definition example_move : move :=
  match pl_moves example_plan with
  | mv :: _ => mv
  | [] => {| mv_connection_id := "none"; mv_channel := "none"; mv_from_shard_id := None;
             mv_to_shard_id := "none"; mv_load_units := 0; mv_reason := "none" |}
  end.

Lemma example_ids : NoDup (map cn_id example_connections).
Proof. apply (bool_decide_unpack _). vm_compute. exact I. Defined.

Lemma example_named : well_named (List.filter cn_enabled example_connections).
Proof.
  intros x y i Hx Hy _.
  assert (Hall : ∀ c, c ∈ List.filter cn_enabled example_connections → cn_channel c = "qq").
  { intros c Hc. cbn in Hc. repeat (apply elem_of_cons in Hc as [->|Hc]; [reflexivity|]).
    by apply elem_of_nil in Hc. }
  by rewrite !Hall.
Defined.

Lemma plan_reports_assignments_witness :
  ∃ sh, sh ∈ pl_shards example_plan ∧
        dict_get "c" (pl_assignments example_plan) = Some (sh_id sh).
Proof.
  apply (proj1 (plan_reports_assignments 1 12 100000 example_connections example_plan
                  example_ids eq_refl) (example_connection "c" None "online" 9)).
  - right. right. left.
  - reflexivity.
Defined.


Lemma overfull_shards_hold_immovable_witness :
  connection_can_move 100000 (example_connection "a" (Some "qq-shard-000") "awaiting_scan" 2)
    = false.
Proof.
  refine (proj2 (overfull_shards_hold_immovable 1 12 100000 example_connections example_plan
    example_shard (example_connection "a" (Some "qq-shard-000") "awaiting_scan" 2)
    example_ids example_named _ eq_refl _ _ _ eq_refl _)).
  - lia.
  - vm_compute. left.
  - vm_compute. reflexivity.
  - right. left.
  - vm_compute. reflexivity.
Defined.

Lemma isolated_connections_move_alone_witness :
  mv_connection_id example_move = "c" ∧ needs_isolation (example_connection "c" None "online" 9) = Ok true ∧
  example_connection "c" None "online" 9 = example_connection "c" None "online" 9.
Proof.
  split; [vm_compute; reflexivity|]. split; [vm_compute; reflexivity|].
  refine (isolated_connections_move_alone 1 12 100000 example_connections example_plan example_move
    (example_connection "c" None "online" 9) (example_connection "c" None "online" 9)
    example_ids example_named eq_refl _ _ eq_refl _ eq_refl _ eq_refl _).
  - vm_compute. left.
  - right. right. left.
  - vm_compute. reflexivity.
  - right. right. left.
  - vm_compute. reflexivity.
Defined.

Lemma plan_ignores_input_order_witness :
  build_rebalance_plan 1 12 100000 example_connections
  = build_rebalance_plan 1 12 100000 (rev example_connections).
Proof.
  apply (plan_ignores_input_order 1 12 100000 example_connections (rev example_connections)).
  - exact example_ids.
  - apply Permutation_rev.
Defined.
