(* ===== verification/HostFilter.v ===== *)
(** * Allow and block lists of hosts (utils/misc.py).

    The guard of outgoing web requests: filter entries are host names, which
    match on DNS label boundaries, or IPv4/IPv6 addresses and ranges, which
    match by containment.  The parts of Python's [ipaddress] the guard uses are
    written out: [ip_address], [ip_network(strict=False)] and [in]. *)

From S2P Require Import Prelude PyVal PyDecimal.
From Stdlib Require Import Ascii.

Local Open Scope Z_scope.

(** ** Python's [ipaddress] *)

(** An address: its version's number of bits and its integer. *)
Inductive ip_version := IPv4 | IPv6.
#[export] Instance ip_version_eq_dec : EqDecision ip_version.
Proof. solve_decision. Defined.

Definition max_prefixlen (v : ip_version) : Z := match v with IPv4 => 32 | IPv6 => 128 end.

Record ip_addr := { ip_ver : ip_version; ip_int : Z }.
Record ip_net := { net_ver : ip_version; net_int : Z; net_prefixlen : Z }.

Definition is_digits (s : string) : bool := negb (Str.is_empty s) && Str.sforallb Str.is_digit s.

Definition digits_Z (s : string) : Z := digits_val (span_digits s).1.

(** [_parse_octet] *)
Definition parse_octet (s : string) : option Z :=
  if negb (is_digits s) then None
  else if (3 <? String.length s)%nat then None
  else if Str.startswith "0" s && negb (String.eqb s "0") then None
  else if 255 <? digits_Z s then None
  else Some (digits_Z s).

(** [IPv4Address._ip_int_from_string] *)
Definition parse_ipv4 (s : string) : option Z :=
  match Str.split "." s with
  | [a; b; c; d] =>
      a ← parse_octet a; b ← parse_octet b; c ← parse_octet c; d ← parse_octet d;
      Some (((a * 256 + b) * 256 + c) * 256 + d)
  | _ => None
  end.

(** [_parse_hextet] *)
Definition hex_digit (c : ascii) : option Z :=
  let n := Z.of_nat (Str.code c) in
  if (48 <=? n) && (n <=? 57) then Some (n - 48)
  else if (97 <=? n) && (n <=? 102) then Some (n - 87)
  else if (65 <=? n) && (n <=? 70) then Some (n - 55)
  else None.

Fixpoint hex_value (acc : Z) (s : string) : option Z :=
  match s with
  | EmptyString => Some acc
  | String c s' => d ← hex_digit c; hex_value (16 * acc + d) s'
  end.

Definition parse_hextet (s : string) : option Z :=
  if Str.is_empty s || (4 <? String.length s)%nat then None else hex_value 0 s.

(** The parts of an IPv6 text: an IPv4 suffix stands for two hextets, which
    are kept as numbers ([inr]). *)
Fixpoint parse_parts (acc : Z) (l : list (string + Z)) : option Z :=
  match l with
  | [] => Some acc
  | inl p :: l' => h ← parse_hextet p; parse_parts (acc * 65536 + h) l'
  | inr h :: l' => parse_parts (acc * 65536 + h) l'
  end.

Definition part_empty (p : string + Z) : bool :=
  match p with inl s => Str.is_empty s | inr _ => false end.

Definition ipv6_parts (s : string) : option (list (string + Z)) :=
  let parts := Str.split ":" s in
  if (length parts <? 3)%nat then None
  else
    let lst := default EmptyString (last parts) in
    if Str.contains "." lst then
      v4 ← parse_ipv4 lst;
      Some (map inl (take (length parts - 1) parts) ++ [inr (v4 / 65536); inr (v4 mod 65536)])
    else Some (map inl parts).

(** The indices of the inner empty parts, where a [::] is. *)
Definition skip_indices (parts : list (string + Z)) : list nat :=
  List.filter (λ i, match parts !! i with Some p => part_empty p | None => false end)
    (seq 1 (length parts - 2)).

(** [IPv6Address._ip_int_from_string] *)
Definition parse_ipv6 (s : string) : option Z :=
  parts ← ipv6_parts s;
  let n := length parts in
  if (9 <? n)%nat then None
  else
    let first_empty := match parts !! 0%nat with Some p => part_empty p | None => false end in
    let last_empty := match parts !! (n - 1)%nat with Some p => part_empty p | None => false end in
    match skip_indices parts with
    | [] =>
        if negb (n =? 8)%nat || first_empty || last_empty then None else parse_parts 0 parts
    | [i] =>
        let hi := (if first_empty then i - 1 else i)%nat in
        let lo := (if last_empty then n - i - 2 else n - i - 1)%nat in
        if (first_empty && negb (hi =? 0)%nat) || (last_empty && negb (lo =? 0)%nat)
           || (8 <=? hi + lo)%nat then None
        else
          acc ← parse_parts 0 (take hi parts);
          parse_parts (acc * 65536 ^ Z.of_nat (8 - (hi + lo))) (drop (n - lo)%nat parts)
    | _ => None
    end.

(** [IPv6Address._split_scope_id]: the address without its zone. *)
Definition strip_scope (s : string) : option string :=
  match Str.split "%" s with
  | [a] => Some a
  | [a; scope] => if Str.is_empty scope then None else Some a
  | _ => None
  end.

Definition parse_addr (v : ip_version) (s : string) : option Z :=
  match v with IPv4 => parse_ipv4 s | IPv6 => a ← strip_scope s; parse_ipv6 a end.

(** [ipaddress.ip_address]; [None] is its ValueError. *)
Definition ip_address (s : string) : option ip_addr :=
  if Str.contains "/" s then None
  else match parse_addr IPv4 s with
       | Some z => Some {| ip_ver := IPv4; ip_int := z |}
       | None => z ← parse_addr IPv6 s; Some {| ip_ver := IPv6; ip_int := z |}
       end.

(** The netmask of a prefix length, and the prefix length of a netmask. *)
Definition netmask (v : ip_version) (p : Z) : Z :=
  2 ^ max_prefixlen v - 2 ^ (max_prefixlen v - p).

Definition prefix_of_mask (v : ip_version) (mask : Z) : option Z :=
  find_first (λ p, netmask v p =? mask) (seqZ 0 (max_prefixlen v + 1)).

(** [_make_netmask]: a prefix length or, for IPv4, a netmask or a hostmask. *)
Definition make_prefix (v : ip_version) (s : string) : option Z :=
  if is_digits s then
    let p := digits_Z s in if p <=? max_prefixlen v then Some p else None
  else
    match v with
    | IPv6 => None
    | IPv4 =>
        mask ← parse_ipv4 s;
        match prefix_of_mask IPv4 mask with
        | Some p => Some p
        | None => prefix_of_mask IPv4 (Z.lxor mask (2 ^ 32 - 1))
        end
    end.

(** [IPv4Network(s, strict=False)] and [IPv6Network(s, strict=False)] *)
Definition parse_net (v : ip_version) (s : string) : option ip_net :=
  match Str.split "/" s with
  | [addr] => z ← parse_addr v addr;
              Some {| net_ver := v; net_int := z; net_prefixlen := max_prefixlen v |}
  | [addr; mask] =>
      z ← parse_addr v addr; p ← make_prefix v mask;
      Some {| net_ver := v; net_int := Z.land z (netmask v p); net_prefixlen := p |}
  | _ => None
  end.

(** [ipaddress.ip_network(s, strict=False)] *)
Definition ip_network (s : string) : option ip_net :=
  match parse_net IPv4 s with Some n => Some n | None => parse_net IPv6 s end.

(** [addr in network] *)
Definition ip_in (a : ip_addr) (n : ip_net) : bool :=
  bool_decide (ip_ver a = net_ver n)
  && (Z.land (ip_int a) (netmask (net_ver n) (net_prefixlen n)) =? net_int n).

(** ** Filter lists *)

(** The two quote characters stripped from entries. *)
Definition quotes : string := String (ascii_of_nat 34) (String (ascii_of_nat 39) EmptyString).

(** [_strip_filter_entry] *)
Definition strip_filter_entry (entry : option string) : string :=
  Str.strip (Str.strip_chars quotes (Str.strip (default EmptyString entry))).

(** [get_allow_block_lists]; an absent list is the empty one. *)
Definition allow_block_step (acc : list string * list string) (raw : option string)
    : list string * list string :=
  let entry := strip_filter_entry raw in
  let is_blocked := Str.startswith "!" entry in
  let entry := if is_blocked then strip_filter_entry (Some (Str.drop 1 entry)) else entry in
  if Str.is_empty entry then acc
  else if is_blocked then (acc.1, acc.2 ++ [entry]) else (acc.1 ++ [entry], acc.2).

Definition get_allow_block_lists (filter_list : list (option string)) : list string * list string :=
  foldl allow_block_step ([], []) filter_list.

(** [is_string_allowed]; one string is the list of it. *)
Definition is_string_allowed (strings : list string) (filter_list : list (option string)) : bool :=
  match filter_list with
  | [] => true
  | _ =>
      let '(allow_list, block_list) := get_allow_block_lists filter_list in
      let matches l := existsb (λ s, existsb (λ e, Str.endswith e s) l) strings in
      if negb (bool_decide (allow_list = [])) && negb (matches allow_list) then false
      else if matches block_list then false
      else true
  end.

(** The normal form both sides of a comparison take. *)
Definition normalize_host (s : string) : string :=
  Str.rstrip_chars "." (Str.lower (Str.strip s)).

(** [as_network]; it is cached, which does not change its answers. *)
Definition as_network (pattern : string) : option ip_net := ip_network (normalize_host pattern).

(** [_host_matches_pattern] *)
Definition host_matches_pattern (host pattern : string) : bool :=
  let host := normalize_host host in
  let pattern := normalize_host pattern in
  if Str.is_empty host || Str.is_empty pattern then false
  else
    match as_network pattern with
    | Some network => match ip_address host with Some a => ip_in a network | None => false end
    | None => String.eqb host pattern || Str.endswith ("." +:+ pattern) host
    end.

Definition any_match (hosts patterns : list string) : bool :=
  existsb (λ h, existsb (host_matches_pattern h) patterns) hosts.

(** [is_host_blocked] *)
Definition is_host_blocked (hosts : list string) (filter_list : list (option string)) : bool :=
  any_match hosts (get_allow_block_lists filter_list).2.

(** [is_host_allowed] *)
Definition is_host_allowed (hosts : list string) (filter_list : list (option string)) : bool :=
  match filter_list with
  | [] => true
  | _ =>
      let allow_list := (get_allow_block_lists filter_list).1 in
      if negb (bool_decide (allow_list = [])) && negb (any_match hosts allow_list) then false
      else negb (is_host_blocked hosts filter_list)
  end.

Example host_ex1 :
  map (λ h, host_matches_pattern h "corp.com") ["api.corp.com"; "evilcorp.com"; "CORP.com."] = [true; false; true].
Proof. vm_compute. reflexivity. Qed.

Example host_ex2 :
  map (λ h, host_matches_pattern h "10.0.0.0/8") ["10.1.2.3"; "11.1.2.3"; "a.10.1.2.3"] = [true; false; false].
Proof. vm_compute. reflexivity. Qed.

Example host_ex3 :
  map (λ h, host_matches_pattern h "fe80::/10") ["fe80::1%eth0"; "febf::1"; "fec0::"; "::ffff:1.2.3.4"]
  = [true; true; false; false].
Proof. vm_compute. reflexivity. Qed.

Example host_ex4 :
  (parse_ipv6 "::", parse_ipv6 "1::", parse_ipv6 "1:2:3:4:5:6:7:8", parse_ipv6 ":1::", parse_ipv6 "::ffff:1.2.3.4")
  = (Some 0, Some (2 ^ 112), Some 0x00010002000300040005000600070008, None, Some 0xffff01020304).
Proof. vm_compute. reflexivity. Qed.


(** ** Label boundaries *)

Lemma host_suffix_labels (h p : string) :
  p ≠ EmptyString →
  (String.eqb h p || Str.endswith ("." +:+ p) h) = true ↔
  ∃ pre, Str.split "." h = pre ++ Str.split "." p.
Proof.
  intros Hp. rewrite orb_true_iff, String.eqb_eq, Str.endswith_app. split.
  - intros [->|[r ->]]; [by exists []|].
    exists (Str.split "." r). apply Str.split_app_sep.
  - intros [pre Hpre]. apply (f_equal (Str.join ".")) in Hpre. rewrite Str.join_split in Hpre.
    destruct pre as [|w pre].
    + left. cbn [app] in Hpre. by rewrite Str.join_split in Hpre.
    + right. rewrite Str.join_app, Str.join_split in Hpre by (done || apply Str.split_nonempty).
      eauto.
Qed.

(** ** Dotted addresses *)

Definition octet (n : Z) : Prop := 0 <= n <= 255.

(** The text of an IPv4 address and of a range. *)
Definition show_ipv4 (a b c d : Z) : string :=
  pretty a +:+ "." +:+ pretty b +:+ "." +:+ pretty c +:+ "." +:+ pretty d.
Definition show_net (a b c d p : Z) : string := show_ipv4 a b c d +:+ "/" +:+ pretty p.

Definition ipv4_value (a b c d : Z) : Z := ((a * 256 + b) * 256 + c) * 256 + d.

(** What parsing one number of an address needs to know about its text. *)
Definition number_text_ok (n : Z) : bool :=
  bool_decide (parse_octet (pretty n) = Some n) && is_digits (pretty n)
  && (digits_Z (pretty n) =? n).

Lemma number_texts_ok : forallb number_text_ok (seqZ 0 256) = true.
Proof. vm_compute. reflexivity. Qed.

Lemma number_text n : octet n → number_text_ok n = true.
Proof.
  intros Hn. assert (Hall := number_texts_ok). rewrite Prelude.forallb_True in Hall.
  apply Hall. apply elem_of_seqZ. unfold octet in Hn. lia.
Qed.

Lemma number_text_cases n : octet n →
  parse_octet (pretty n) = Some n ∧ is_digits (pretty n) = true ∧ digits_Z (pretty n) = n ∧
  Str.sforallb Str.is_digit (pretty n) = true.
Proof.
  intros Hn%number_text. unfold number_text_ok in Hn. rewrite !andb_true_iff in Hn.
  destruct Hn as [[H1 H2] H3]. split_and!; [by apply bool_decide_eq_true in H1|done|by apply Z.eqb_eq|].
  unfold is_digits in H2. by apply andb_prop in H2 as [_ ?].
Qed.

Definition addr_char (c : ascii) : bool := Str.is_digit c || Ascii.eqb c "." || Ascii.eqb c "/".

Lemma show_net_parts a b c d p :
  show_net a b c d p = pretty a +:+ "." +:+ pretty b +:+ "." +:+ pretty c +:+ "." +:+ pretty d
                       +:+ "/" +:+ pretty p.
Proof. unfold show_net, show_ipv4. by rewrite <-!Str.app_assoc. Qed.

Lemma digits_snoc s : is_digits s = true →
  ∃ t c, s = t +:+ String c EmptyString ∧ Str.is_digit c = true.
Proof.
  unfold is_digits. induction s as [|c s IH]; cbn; [done|]. intros [Hc Hs]%andb_prop.
  destruct s as [|c' s]; [by exists EmptyString, c|].
  destruct IH as (t & e & Ht & He); [cbn; exact Hs|].
  exists (String c t), e. split; [exact (f_equal (String c) Ht)|done].
Qed.

Lemma addr_char_plain c : addr_char c = true →
  Str.is_space c = false ∧ Ascii.eqb (Str.lower_char c) c = true.
Proof.
  revert c. assert (Hall : ∀ n, (n < 256)%nat → addr_char (ascii_of_nat n) = true →
    Str.is_space (ascii_of_nat n) = false ∧
    Ascii.eqb (Str.lower_char (ascii_of_nat n)) (ascii_of_nat n) = true).
  { assert (Hb : forallb (λ n, negb (addr_char (ascii_of_nat n))
      || negb (Str.is_space (ascii_of_nat n))
         && Ascii.eqb (Str.lower_char (ascii_of_nat n)) (ascii_of_nat n)) (seq 0 256) = true)
      by (vm_compute; reflexivity).
    intros n Hn Ha. rewrite Prelude.forallb_True in Hb. specialize (Hb n ltac:(apply elem_of_seq; lia)).
    rewrite Ha in Hb. cbn [negb orb] in Hb. rewrite andb_true_iff, negb_true_iff in Hb. exact Hb. }
  intros c. rewrite <-(ascii_nat_embedding c). apply Hall, nat_ascii_bounded.
Qed.

(** An address text is its own normal form. *)
Lemma normalize_addr s t :
  Str.sforallb addr_char s = true → is_digits t = true → Str.sforallb addr_char t = true →
  normalize_host (s +:+ t) = s +:+ t.
Proof.
  intros Hs Ht Hta. assert (Hall : Str.sforallb addr_char (s +:+ t) = true)
    by (by rewrite Str.sforallb_app, Hs, Hta).
  assert (Hstrip : Str.strip (s +:+ t) = s +:+ t).
  { unfold Str.strip, Str.strip_by. rewrite Str.lstrip_by_id, Str.rstrip_by_id; [done| |].
    all: eapply Str.sforallb_impl; [|exact Hall]; by intros c [-> _]%addr_char_plain. }
  unfold normalize_host. rewrite Hstrip. unfold Str.lower. rewrite Str.smap_id.
  2:{ eapply Str.sforallb_impl; [|exact Hall]. by intros c [_ ?]%addr_char_plain. }
  destruct (digits_snoc t Ht) as (u & c & -> & Hc). unfold Str.rstrip_chars.
  rewrite Str.app_assoc. apply Str.rstrip_by_snoc. cbn. rewrite orb_false_r.
  destruct (Ascii.eqb_spec c ".") as [->|]; done.
Qed.

Lemma number_addr_chars n : octet n → Str.sforallb addr_char (pretty n) = true.
Proof.
  intros (_ & _ & _ & H)%number_text_cases. eapply Str.sforallb_impl; [|exact H].
  intros c Hc. unfold addr_char. by rewrite Hc.
Qed.

Lemma number_no_sep n c : octet n → Str.is_digit c = false →
  Str.sforallb (λ d, negb (Ascii.eqb c d)) (pretty n) = true.
Proof.
  intros (_ & _ & _ & H)%number_text_cases Hc. eapply Str.sforallb_impl; [|exact H].
  intros d Hd. destruct (Ascii.eqb_spec c d); [congruence|done].
Qed.

Section Quad.
Context (a b c d : Z) (Ha : octet a) (Hb : octet b) (Hc : octet c) (Hd : octet d).

Lemma show_ipv4_chars : Str.sforallb addr_char (show_ipv4 a b c d) = true.
Proof. unfold show_ipv4. by rewrite !Str.sforallb_app, !number_addr_chars. Qed.

Lemma normalize_show_ipv4 : normalize_host (show_ipv4 a b c d) = show_ipv4 a b c d.
Proof.
  unfold show_ipv4. rewrite !Str.app_assoc. apply normalize_addr.
  - by rewrite !Str.sforallb_app, !number_addr_chars.
  - by apply number_text_cases.
  - by apply number_addr_chars.
Qed.

Lemma split_show_ipv4 :
  Str.split "." (show_ipv4 a b c d) = [pretty a; pretty b; pretty c; pretty d].
Proof.
  change (Str.split "." (pretty a +:+ String "." (pretty b +:+ String "." (pretty c
            +:+ String "." (pretty d)))) = [pretty a; pretty b; pretty c; pretty d]).
  rewrite !Str.split_app_sep.
  by rewrite !Str.split_no_sep by (by apply number_no_sep).
Qed.

Lemma parse_show_ipv4 : parse_ipv4 (show_ipv4 a b c d) = Some (ipv4_value a b c d).
Proof.
  unfold parse_ipv4. rewrite split_show_ipv4.
  destruct (number_text_cases a Ha) as [-> _], (number_text_cases b Hb) as [-> _],
    (number_text_cases c Hc) as [-> _], (number_text_cases d Hd) as [-> _]. done.
Qed.

Lemma show_ipv4_no_slash :
  Str.sforallb (λ e, negb (Ascii.eqb "/" e)) (show_ipv4 a b c d) = true.
Proof. unfold show_ipv4. by rewrite !Str.sforallb_app, !number_no_sep. Qed.

Lemma split_show_net p : octet p →
  Str.split "/" (show_net a b c d p) = [show_ipv4 a b c d; pretty p].
Proof.
  intros Hp. change (Str.split "/" (show_ipv4 a b c d +:+ String "/" (pretty p))
                     = [show_ipv4 a b c d; pretty p]).
  rewrite Str.split_app_sep.
  rewrite !Str.split_no_sep; [done|by apply number_no_sep|apply show_ipv4_no_slash].
Qed.

Lemma ipv4_value_bounds : 0 <= ipv4_value a b c d < 2 ^ 32.
Proof. unfold octet, ipv4_value in *. lia. Qed.
End Quad.

Lemma contains_char c s :
  Str.sforallb (λ d, negb (Ascii.eqb c d)) s = true → Str.contains (String c EmptyString) s = false.
Proof.
  unfold Str.contains. intros H.
  enough (String.index 0 (String c EmptyString) s = None) as ->; [done|].
  induction s as [|d s IH]; [done|]. cbn in H. apply andb_prop in H as [Hd Hs].
  cbn [String.index]. assert (String.prefix (String c EmptyString) (String d s) = false) as ->.
  { cbn. destruct (ascii_dec c d) as [->|]; [by rewrite Ascii.eqb_refl in Hd|done]. }
  by rewrite IH.
Qed.

Lemma land_netmask x p : 0 <= x < 2 ^ 32 → 0 <= p <= 32 →
  Z.land x (netmask IPv4 p) = Z.shiftl (Z.shiftr x (32 - p)) (32 - p).
Proof.
  intros Hx Hp.
  assert (netmask IPv4 p = Z.shiftl (Z.ones p) (32 - p)) as ->.
  { unfold netmask. cbn [max_prefixlen]. rewrite Z.shiftl_mul_pow2, Z.ones_equiv by lia.
    replace 32 with (p + (32 - p)) at 1 by lia. rewrite Z.pow_add_r by lia. lia. }
  apply Z.bits_inj'. intros n Hn. rewrite Z.land_spec, !Z.shiftl_spec by done.
  destruct (Z.lt_ge_cases n (32 - p)) as [Hlt|Hge].
  - rewrite !(Z.testbit_neg_r _ (n - (32 - p))) by lia. apply andb_false_r.
  - rewrite Z.shiftr_spec by lia. replace (n - (32 - p) + (32 - p)) with n by lia.
    destruct (Z.lt_ge_cases n 32) as [Hn32|Hn32].
    + rewrite Z.ones_spec_low by lia. apply andb_true_r.
    + replace (Z.testbit x n) with false; [done|]. symmetry.
      destruct (Z.eq_dec x 0) as [->|]; [apply Z.testbit_0_l|].
      apply Z.bits_above_log2; [lia|]. apply Z.log2_lt_pow2; [lia|].
      eapply Z.lt_le_trans; [apply Hx|]. apply Z.pow_le_mono_r; lia.
Qed.

Lemma same_prefix x y p : 0 <= x < 2 ^ 32 → 0 <= y < 2 ^ 32 → 0 <= p <= 32 →
  Z.land x (netmask IPv4 p) = Z.land y (netmask IPv4 p) ↔
  Z.shiftr x (32 - p) = Z.shiftr y (32 - p).
Proof.
  intros Hx Hy Hp. rewrite !land_netmask by done. split; [|by intros ->].
  rewrite !Z.shiftl_mul_pow2 by lia. intros H.
  apply Z.mul_reg_r in H; [done|]. pose proof (Z.pow_pos_nonneg 2 (32 - p)). lia.
Qed.

Lemma ip_network_show a b c d p :
  octet a → octet b → octet c → octet d → 0 <= p <= 32 →
  ip_network (show_net a b c d p) =
    Some {| net_ver := IPv4; net_int := Z.land (ipv4_value a b c d) (netmask IPv4 p);
            net_prefixlen := p |}.
Proof.
  intros Ha Hb Hc Hd Hp. assert (Hpo : octet p) by (unfold octet; lia).
  unfold ip_network, parse_net. rewrite split_show_net by done. cbn [parse_addr].
  rewrite parse_show_ipv4 by done. unfold make_prefix.
  destruct (number_text_cases p Hpo) as (_ & -> & -> & _).
  cbn [mbind option_bind max_prefixlen]. by rewrite (proj2 (Z.leb_le p 32)) by lia.
Qed.

Lemma ip_address_show a b c d :
  octet a → octet b → octet c → octet d →
  ip_address (show_ipv4 a b c d) = Some {| ip_ver := IPv4; ip_int := ipv4_value a b c d |}.
Proof.
  intros Ha Hb Hc Hd. unfold ip_address.
  rewrite contains_char by (by apply show_ipv4_no_slash). cbn [parse_addr].
  by rewrite parse_show_ipv4.
Qed.


(** ** The decision over a whole list *)

(** What an entry is: [Some (true, p)] blocks [p], [Some (false, p)] allows
    it, [None] is empty. *)
Definition entry_kind (raw : option string) : option (bool * string) :=
  let entry := strip_filter_entry raw in
  if Str.startswith "!" entry then
    let p := strip_filter_entry (Some (Str.drop 1 entry)) in
    if Str.is_empty p then None else Some (true, p)
  else if Str.is_empty entry then None else Some (false, entry).

Definition patterns_of (blocked : bool) (l : list (option string)) : list string :=
  omap (λ e, '(b, p) ← entry_kind e; if Bool.eqb b blocked then Some p else None) l.

Lemma allow_block_lists_eq l :
  get_allow_block_lists l = (patterns_of false l, patterns_of true l).
Proof.
  unfold get_allow_block_lists.
  assert (Hgen : ∀ acc, foldl allow_block_step acc l
                 = (acc.1 ++ patterns_of false l, acc.2 ++ patterns_of true l)).
  { induction l as [|e l IH]; intros [xs ys]; [cbn; by rewrite !app_nil_r|].
    cbn [foldl]. rewrite IH. unfold allow_block_step, patterns_of. cbn [omap list_omap].
    unfold entry_kind at 3 6. cbn zeta.
    destruct (Str.startswith "!" (strip_filter_entry e)); destruct (Str.is_empty _);
      cbn; by rewrite <-?app_assoc. }
  apply Hgen.
Qed.

Lemma patterns_of_elem blocked l p :
  p ∈ patterns_of blocked l ↔ ∃ e, e ∈ l ∧ entry_kind e = Some (blocked, p).
Proof.
  unfold patterns_of. rewrite list_elem_of_omap. f_equiv; intros e. f_equiv.
  destruct (entry_kind e) as [[b q]|]; cbn; [|naive_solver].
  destruct b, blocked; cbn; naive_solver.
Qed.

Lemma any_match_true hosts l :
  any_match hosts l = true ↔ ∃ h p, h ∈ hosts ∧ p ∈ l ∧ host_matches_pattern h p = true.
Proof.
  unfold any_match. rewrite existsb_True. setoid_rewrite existsb_True. naive_solver.
Qed.

Lemma show_ipv4_nonempty a b c d t : octet a → Str.is_empty (show_ipv4 a b c d +:+ t) = false.
Proof.
  intros (_ & Ha & _)%number_text_cases. unfold show_ipv4. rewrite <-Str.app_assoc.
  unfold is_digits in Ha. by destruct (pretty a).
Qed.

(** ** Properties *)

(** An entry that is not an address or a range matches a host exactly
    when, both in their normal form, the labels of the entry are the last
    labels of the host: the entry itself or one of its subdomains, never a
    host that merely ends with the same characters. *)
Theorem host_matches_on_labels (host pattern : string) :
  as_network (normalize_host pattern) = None →
  host_matches_pattern host pattern = true ↔
  normalize_host host ≠ EmptyString ∧ normalize_host pattern ≠ EmptyString ∧
  ∃ pre, Str.split "." (normalize_host host) = pre ++ Str.split "." (normalize_host pattern).
Proof.
  intros Hnet. unfold host_matches_pattern. rewrite Hnet.
  destruct (normalize_host host) as [|ch h] eqn:Eh; [cbn; naive_solver|].
  destruct (normalize_host pattern) as [|cp p] eqn:Ep; [cbn; naive_solver|].
  cbn [Str.is_empty orb]. rewrite host_suffix_labels by done. naive_solver.
Qed.

(** An IPv4 address matches a range a.b.c.d/p exactly when their first p
    bits are equal. *)
Theorem host_matches_ipv4_range (h1 h2 h3 h4 a b c d p : Z) :
  octet h1 → octet h2 → octet h3 → octet h4 →
  octet a → octet b → octet c → octet d → 0 <= p <= 32 →
  host_matches_pattern (show_ipv4 h1 h2 h3 h4) (show_net a b c d p) = true ↔
  Z.shiftr (ipv4_value h1 h2 h3 h4) (32 - p) = Z.shiftr (ipv4_value a b c d) (32 - p).
Proof.
  intros Hh1 Hh2 Hh3 Hh4 Ha Hb Hc Hd Hp.
  assert (Hnet : normalize_host (show_net a b c d p) = show_net a b c d p).
  { assert (Hpo : octet p) by (unfold octet; lia). unfold show_net. rewrite Str.app_assoc.
    apply normalize_addr; [|by apply number_text_cases|by apply number_addr_chars].
    by rewrite Str.sforallb_app, show_ipv4_chars. }
  unfold host_matches_pattern, as_network. rewrite !Hnet, normalize_show_ipv4 by done.
  rewrite <-(Str.app_nil_r (show_ipv4 h1 h2 h3 h4)) at 1. rewrite show_ipv4_nonempty by done.
  unfold show_net at 1. rewrite show_ipv4_nonempty by done. cbn [orb].
  rewrite ip_network_show, ip_address_show by done. unfold ip_in.
  cbn [ip_ver ip_int net_ver net_int net_prefixlen]. rewrite bool_decide_true by done.
  cbn [andb]. rewrite Z.eqb_eq. apply same_prefix; [by apply ipv4_value_bounds..|done].
Qed.

(** A non-empty filter list admits hosts exactly when no host matches a
    block entry and some host matches an allow entry, or there is none; so a
    block entry always wins, and the order of the entries does not matter. *)
Theorem is_host_allowed_iff (hosts : list string) (fl : list (option string)) :
  is_host_allowed hosts fl = true ↔
  fl = [] ∨
  (∀ e p h, e ∈ fl → entry_kind e = Some (true, p) → h ∈ hosts → host_matches_pattern h p = false) ∧
  ((∀ e p, e ∈ fl → entry_kind e ≠ Some (false, p)) ∨
   ∃ e p h, e ∈ fl ∧ entry_kind e = Some (false, p) ∧ h ∈ hosts ∧ host_matches_pattern h p = true).
Proof.
  destruct fl as [|e0 fl']; [cbn; naive_solver|]. set (fl := e0 :: fl').
  change (is_host_allowed hosts fl) with
    (if negb (bool_decide ((get_allow_block_lists fl).1 = []))
        && negb (any_match hosts (get_allow_block_lists fl).1)
     then false else negb (is_host_blocked hosts fl)).
  unfold is_host_blocked. rewrite !allow_block_lists_eq. cbn [fst snd].
  assert (Hblock : any_match hosts (patterns_of true fl) = false ↔
    ∀ e p h, e ∈ fl → entry_kind e = Some (true, p) → h ∈ hosts → host_matches_pattern h p = false).
  { rewrite <-not_true_iff_false, any_match_true. setoid_rewrite patterns_of_elem. split.
    - intros H e p h He Hk Hh. apply not_true_iff_false. intros Hm. apply H. eauto 10.
    - intros H (h & p & Hh & (e & He & Hk) & Hm). by rewrite (H e p h) in Hm. }
  assert (Hallow : any_match hosts (patterns_of false fl) = true ↔
    ∃ e p h, e ∈ fl ∧ entry_kind e = Some (false, p) ∧ h ∈ hosts ∧ host_matches_pattern h p = true).
  { rewrite any_match_true. setoid_rewrite patterns_of_elem. naive_solver. }
  assert (Hnone : patterns_of false fl = [] ↔ ∀ e p, e ∈ fl → entry_kind e ≠ Some (false, p)).
  { split.
    - intros H e p He Hk. assert (Hp : p ∈ patterns_of false fl) by (apply patterns_of_elem; eauto).
      rewrite H in Hp. by apply elem_of_nil in Hp.
    - intros H. destruct (patterns_of false fl) as [|p l] eqn:E; [done|].
      assert (Hp : p ∈ patterns_of false fl) by (rewrite E; left).
      apply patterns_of_elem in Hp as (e & He & Hk). by destruct (H e p He). }
  rewrite <-Hblock, <-Hallow, <-Hnone.
  case_bool_decide as Hn; destruct (any_match hosts (patterns_of false fl)),
    (any_match hosts (patterns_of true fl)); cbn; naive_solver.
Qed.

Lemma host_matches_on_labels_witness :
  host_matches_pattern "evilcorp.com" "corp.com" = false ∧
  ∃ pre, Str.split "." "api.corp.com" = pre ++ Str.split "." "corp.com".
Proof.
  split; [vm_compute; reflexivity|].
  apply (proj1 (host_matches_on_labels "api.corp.com" "corp.com" ltac:(vm_compute; reflexivity))).
  vm_compute. reflexivity.
Defined.

Lemma host_matches_ipv4_range_witness :
  host_matches_pattern (show_ipv4 10 1 2 3) (show_net 10 0 0 0 8) = true.
Proof.
  apply (host_matches_ipv4_range 10 1 2 3 10 0 0 0 8); try (unfold octet; lia).
  vm_compute. reflexivity.
Defined.
