(* ===== verification/Interleave.v ===== *)
(** * Interleaved programs: asynchronous functions that read and change a shared
    world one statement at a time, the system of any number of them, and the rules
    to prove what holds under every interleaving (rely and guarantee).

    A statement answers from the world it runs in; between two statements of a
    program the others, and the environment, may run. *)

From S2P Require Import Prelude.
From stdpp Require Import functions.

Inductive prog (W A : Type) : Type :=
| Done (r : res A)
| Step (update : W → W) (next : W → prog W A).
Arguments Done {W A} r.
Arguments Step {W A} update next.

Fixpoint prog_bind {W A B} (f : A → prog W B) (p : prog W A) : prog W B :=
  match p with
  | Done (Ok a) => f a
  | Done (Err e) => Done (Err e)
  | Step update next => Step update (λ w, prog_bind f (next w))
  end.

#[export] Instance prog_ret {W} : MRet (prog W) := λ A a, Done (Ok a).
#[export] Instance prog_mbind {W} : MBind (prog W) := λ A B f p, prog_bind f p.
#[export] Instance prog_fmap {W} : FMap (prog W) := λ A B f p, prog_bind (λ a, Done (Ok (f a))) p.

Definition fail {W A} (e : exn) : prog W A := Done (Err e).
Definition lift {W A} (r : res A) : prog W A := Done r.

(** [try: p except Exception as e: h e] *)
Fixpoint try_except {W A} (p : prog W A) (h : exn → prog W A) : prog W A :=
  match p with
  | Done (Ok a) => Done (Ok a)
  | Done (Err e) => h e
  | Step update next => Step update (λ w, try_except (next w) h)
  end.

(** One statement: a query, or a transaction *)
Definition query {W A} (f : W → A) : prog W A := Step (λ w, w) (λ w, Done (Ok (f w))).
Definition perform {W A} (m : st W A) : prog W A := Step (λ w, (m w).2) (λ w, Done (m w).1).

(** Nothing else runs *)
Fixpoint run_alone {W A} (p : prog W A) (w : W) : res A * W :=
  match p with
  | Done r => (r, w)
  | Step update next => run_alone (next w) (update w)
  end.

Lemma run_alone_bind {W A B} (p : prog W A) (f : A → prog W B) w :
  run_alone (p ≫= f) w =
  match run_alone p w with (Ok a, w') => run_alone (f a) w' | (Err e, w') => (Err e, w') end.
Proof.
  unfold mbind, prog_mbind. revert w. induction p as [[a|e]|u n IH]; intros w; cbn; [done..|].
  by rewrite IH.
Qed.

(** ** Systems *)

Section System.
Context {W A : Type} (env : W → W → Prop).

(** The world and the programs that run in it *)
Definition system : Type := W * list (prog W A).

Inductive sys_step : system → system → Prop :=
| step_program i update next w ps :
    ps !! i = Some (Step update next) →
    sys_step (w, ps) (update w, <[i := next w]> ps)
| step_environment w w' ps : env w w' → sys_step (w, ps) (w', ps).

Definition sys_run : system → system → Prop := rtc sys_step.
End System.

(** ** Rules

    [R] is what programs and environment may do to a world that satisfies [I].  A program
    has a state of its own, which only the proofs see: [tr s s' w w'] says that a
    statement may take the world from [w] to [w'] while the state of its program goes from
    [s] to [s']. *)

Section Rules.
Context {W P : Type} (I : W → Prop) (R : relation W) `{!PreOrder R}.
Context (tr : P → P → W → W → Prop).
Hypothesis tr_refl : ∀ s w, tr s s w w.

(** [wp Q s p w]: started in [w] with state [s], and whatever the others do, [p] keeps [I],
    [R] and [tr] and ends with [Q]. *)
Fixpoint wp {A} (Q : res A → P → W → Prop) (s : P) (p : prog W A) (w : W) : Prop :=
  match p with
  | Done r => Q r s w
  | Step update next => ∀ w1, R w w1 → I w1 →
      I (update w1) ∧ R w1 (update w1) ∧
      ∃ s', tr s s' w1 (update w1) ∧ wp Q s' (next w1) (update w1)
  end.

Lemma wp_mono {A} (Q Q' : res A → P → W → Prop) s p w :
  (∀ r s w, Q r s w → Q' r s w) → wp Q s p w → wp Q' s p w.
Proof.
  intros HQ. revert s w. induction p as [r|u n IH]; intros s w; cbn; [apply HQ|].
  intros Hp w1 HR HI. destruct (Hp w1 HR HI) as (? & ? & s' & ? & ?). split_and!; eauto.
Qed.

Lemma wp_later {A} (Q : res A → P → W → Prop) s p w w' :
  (∀ r s, Q r s w → Q r s w') → R w w' → wp Q s p w → wp Q s p w'.
Proof. destruct p as [r|u n]; cbn; [auto|]. intros _ HR Hp w1 HR1. apply Hp. by etrans. Qed.

Lemma wp_bind {A B} (Q : res B → P → W → Prop) s (p : prog W A) (f : A → prog W B) w :
  wp (λ r s w, match r with Ok a => wp Q s (f a) w | Err e => Q (Err e) s w end) s p w →
  wp Q s (p ≫= f) w.
Proof.
  unfold mbind, prog_mbind. revert s w.
  induction p as [[a|e]|u n IH]; intros s w; cbn; [done..|].
  intros Hp w1 HR HI. destruct (Hp w1 HR HI) as (? & ? & s' & ? & ?). split_and!; eauto.
Qed.

Lemma wp_fmap {A B} (Q : res B → P → W → Prop) s (f : A → B) (p : prog W A) w :
  wp (λ r s w, Q (f <$> r) s w) s p w → wp Q s (f <$> p) w.
Proof.
  intros Hp. apply (wp_bind Q s p (λ a, Done (Ok (f a)))). eapply wp_mono, Hp. by intros [a|e] s' w'.
Qed.

Lemma wp_try {A} (Q : res A → P → W → Prop) s (p : prog W A) h w :
  wp (λ r s w, match r with Ok a => Q (Ok a) s w | Err e => wp Q s (h e) w end) s p w →
  wp Q s (try_except p h) w.
Proof.
  revert s w. induction p as [[a|e]|u n IH]; intros s w; cbn; [done..|].
  intros Hp w1 HR HI. destruct (Hp w1 HR HI) as (? & ? & s' & ? & ?). split_and!; eauto.
Qed.

Lemma wp_query {A} (Q : res A → P → W → Prop) s (f : W → A) w :
  (∀ w1, R w w1 → I w1 → Q (Ok (f w1)) s w1) → wp Q s (query f) w.
Proof. intros HQ w1 HR HI. cbn. split_and!; [done..|]. exists s. auto. Qed.

(** *** Systems

    [G] relates the world to the states of all programs; a program that ended satisfies [Q]. *)

Context {A : Type} (Q : res A → P → W → Prop) (env : W → W → Prop) (s0 : P).
Context (G : W → (nat → P) → Prop).
Hypothesis Q_later : ∀ r s w w', R w w' → Q r s w → Q r s w'.
Hypothesis env_ok : ∀ w w', env w w' → I w → I w' ∧ R w w'.
Hypothesis G_env : ∀ w w' σ, env w w' → I w → G w σ → G w' σ.
Hypothesis G_step : ∀ i s' w w' σ, I w → R w w' → tr (σ i) s' w w' → G w σ → G w' (<[i := s']> σ).

Definition pool_ok (s : system) : Prop :=
  I s.1 ∧ ∃ σ : nat → P, G s.1 σ ∧ (∀ i, length s.2 ≤ i → σ i = s0) ∧
    ∀ i p, s.2 !! i = Some p → wp Q (σ i) p s.1.

Lemma pool_env w w' ps : env w w' → pool_ok (w, ps) → pool_ok (w', ps).
Proof.
  intros He (HI & σ & HG & H0 & Hp). cbn in *. destruct (env_ok w w' He HI) as [HI' HR].
  split; [done|]. exists σ. split_and!; [by eapply G_env|done|].
  intros i p Hi. eapply wp_later; [|exact HR|by apply Hp]. intros r s. by apply Q_later.
Qed.

Lemma pool_program i u n w ps :
  ps !! i = Some (Step u n) → pool_ok (w, ps) → pool_ok (u w, <[i := n w]> ps).
Proof.
  intros Hi (HI & σ & HG & H0 & Hp). cbn in *.
  destruct (Hp i _ Hi w) as (HI' & HR & s' & Htr & Hwp); [done..|].
  pose proof (lookup_lt_Some _ _ _ Hi) as Hlt.
  split; [done|]. exists (<[i := s']> σ). cbn. split_and!.
  - by apply G_step with w.
  - intros j. rewrite length_insert. intros Hj. rewrite fn_lookup_insert_ne by lia. auto.
  - intros j p. destruct (decide (i = j)) as [<-|Hij].
    + rewrite list_lookup_insert_eq by done. intros [= <-]. by rewrite fn_lookup_insert.
    + rewrite list_lookup_insert_ne by done. rewrite fn_lookup_insert_ne by done. intros Hjp.
      eapply wp_later; [|exact HR|by apply Hp]. intros r s. by apply Q_later.
Qed.

Lemma pool_run s s' : sys_run env s s' → pool_ok s → pool_ok s'.
Proof.
  induction 1 as [|s1 s2 s3 Hs _ IH]; [done|]. intros Hok. apply IH.
  destruct Hs; [by apply pool_program|by eapply pool_env].
Qed.

Lemma pool_evolves s s' : sys_run env s s' → pool_ok s → R s.1 s'.1.
Proof.
  induction 1 as [|s1 s2 s3 Hs _ IH]; [done|]. intros Hok.
  assert (Hok2 : pool_ok s2) by (destruct Hs; [by apply pool_program|by eapply pool_env]).
  transitivity s2.1; [|auto]. destruct Hs as [i u n w ps Hi|w w' ps He]; cbn.
  - destruct Hok as (HI & σ & _ & _ & Hp). by destruct (Hp i _ Hi w) as (_ & ? & _).
  - by apply env_ok; [|apply Hok].
Qed.

(** The programs start in states of their own. *)
Lemma pool_start_at w ps σ :
  I w → G w σ → (∀ i, length ps ≤ i → σ i = s0) → (∀ i p, ps !! i = Some p → wp Q (σ i) p w) → pool_ok (w, ps).
Proof. intros HI HG H0 Hp. split; [done|]. by exists σ. Qed.

Lemma pool_start w ps :
  I w → G w (λ _, s0) → (∀ i p, ps !! i = Some p → wp Q s0 p w) → pool_ok (w, ps).
Proof. intros HI HG Hp. by apply pool_start_at with (λ _, s0). Qed.
End Rules.

(** ** Keys that are spent once

    A [used] key stays used; the state of a program are the keys it has spent, turned from
    unused to used. *)

Section Keys.
Context {W K : Type} (I : W → Prop) (R : relation W) `{!PreOrder R}.
Context (used : K → W → Prop).
Hypothesis used_mono : ∀ κ w w', R w w' → I w → used κ w → used κ w'.

Definition spend (S S' : list K) (w w' : W) : Prop :=
  ∃ T, S' = T ++ S ∧ ∀ κ, κ ∈ T → ¬ used κ w ∧ used κ w'.

Lemma spend_nothing S w : spend S S w w.
Proof. exists []. split; [done|]. by intros κ ?%elem_of_nil. Qed.

Lemma wp_perform {A} (Q : res A → list K → W → Prop) S (m : st W A) w :
  (∀ w1, R w w1 → I w1 → I (m w1).2 ∧ R w1 (m w1).2 ∧
     ∃ T, (∀ κ, κ ∈ T → ¬ used κ w1 ∧ used κ (m w1).2) ∧ Q (m w1).1 (T ++ S) (m w1).2) →
  wp I R spend Q S (perform m) w.
Proof.
  intros Hm w1 HR HI. destruct (Hm w1 HR HI) as (? & ? & T & ? & ?). split_and!; [done..|].
  exists (T ++ S). split; [by exists T|done].
Qed.

Context {A : Type} (post : A → Prop) (keys : A → list K) (env : W → W → Prop).
Hypothesis env_ok : ∀ w w', env w w' → I w → I w' ∧ R w w'.

(** The answers of a program satisfy [post] and only show keys it has spent *)
Definition shows (r : res A) (S : list K) (w : W) : Prop :=
  match r with Ok a => post a ∧ ∀ κ, κ ∈ keys a → κ ∈ S | Err _ => True end.

Definition all_spent (w : W) (spent : nat → list K) : Prop :=
  (∀ i κ, κ ∈ spent i → used κ w) ∧ ∀ i j κ, i ≠ j → κ ∈ spent i → κ ∉ spent j.

Definition keys_ok : system → Prop := pool_ok I R spend shows [] all_spent.

Lemma all_spent_step i S' w w' spent :
  I w → R w w' → spend (spent i) S' w w' → all_spent w spent → all_spent w' (<[i := S']> spent).
Proof.
  intros HI HR (T & -> & HT) [Hu Hd]. split.
  - intros j κ. destruct (decide (i = j)) as [<-|Hij].
    + rewrite fn_lookup_insert. intros [Hk|Hk]%elem_of_app; [by apply HT|eauto].
    + rewrite fn_lookup_insert_ne by done. eauto.
  - intros j k κ Hjk. destruct (decide (i = j)) as [<-|Hij], (decide (i = k)) as [<-|Hik]; [done| | |];
      rewrite ?fn_lookup_insert, ?fn_lookup_insert_ne by done.
    + intros [HkT|Hki]%elem_of_app Hkk; [apply (HT κ HkT); eauto|exact (Hd i k κ Hjk Hki Hkk)].
    + intros Hkj [HkT|Hki]%elem_of_app; [apply (HT κ HkT); eauto|exact (Hd j i κ Hjk Hkj Hki)].
    + exact (Hd j k κ Hjk).
Qed.

Lemma all_spent_env w w' spent : env w w' → I w → all_spent w spent → all_spent w' spent.
Proof. intros He HI [Hu Hd]. destruct (env_ok w w' He HI). split; [eauto|done]. Qed.

Lemma keys_run s s' : sys_run env s s' → keys_ok s → keys_ok s'.
Proof.
  apply pool_run; try done; [exact all_spent_env|].
  intros i S' w w' σ. apply all_spent_step.
Qed.

Lemma keys_evolve s s' : sys_run env s s' → keys_ok s → R s.1 s'.1.
Proof.
  apply pool_evolves; try done; [exact all_spent_env|].
  intros i S' w w' σ. apply all_spent_step.
Qed.

Lemma keys_start w ps : I w → (∀ i p, ps !! i = Some p → wp I R spend shows [] p w) → keys_ok (w, ps).
Proof.
  intros HI Hp. apply pool_start; [done| |done].
  split; [by intros ?? ?%elem_of_nil|by intros ??? _ ?%elem_of_nil].
Qed.

Lemma keys_post w ps w' ps' i a :
  I w → (∀ k p, ps !! k = Some p → wp I R spend shows [] p w) → sys_run env (w, ps) (w', ps') →
  ps' !! i = Some (Done (Ok a)) → post a.
Proof.
  intros HI Hps Hrun Ha.
  destruct (keys_run _ _ Hrun (keys_start w ps HI Hps)) as (_ & spent & _ & _ & Hp).
  by apply (Hp i _ Ha).
Qed.

Lemma keys_spent_once w ps w' ps' i j a b κ :
  I w → (∀ k p, ps !! k = Some p → wp I R spend shows [] p w) → sys_run env (w, ps) (w', ps') →
  i ≠ j → ps' !! i = Some (Done (Ok a)) → ps' !! j = Some (Done (Ok b)) →
  κ ∈ keys a → κ ∉ keys b.
Proof.
  intros HI Hps Hrun Hij Ha Hb Hka Hkb.
  destruct (keys_run _ _ Hrun (keys_start w ps HI Hps)) as (_ & spent & [_ Hd] & _ & Hp).
  apply (Hd i j κ Hij); [by apply (Hp i _ Ha)|by apply (Hp j _ Hb)].
Qed.
End Keys.

(** One program runs to its end while the others wait. *)
Lemma run_program {W A} (env : W → W → Prop) (w w' : W) (ps : list (prog W A)) i p r :
  ps !! i = Some p → run_alone p w = (r, w') → sys_run env (w, ps) (w', <[i := Done r]> ps).
Proof.
  revert w ps. induction p as [r0|u n IH]; intros w ps Hi; cbn.
  - intros [= -> ->]. rewrite list_insert_id by done. apply rtc_refl.
  - intros Hr. eapply rtc_l; [by eapply step_program|].
    rewrite <-(list_insert_insert_eq ps i (Done r) (n w)). apply (IH w); [|done].
    rewrite list_lookup_insert_eq; [done|]. by eapply lookup_lt_Some.
Qed.

(** *** Schedules *)

(** One statement of each named program in turn *)
Fixpoint run_schedule {W A} (schedule : list nat) (w : W) (ps : list (prog W A)) : W * list (prog W A) :=
  match schedule with
  | [] => (w, ps)
  | i :: schedule =>
      match ps !! i with
      | Some (Step u n) => run_schedule schedule (u w) (<[i := n w]> ps)
      | _ => run_schedule schedule w ps
      end
  end.

Lemma run_schedule_ok {W A} (env : W → W → Prop) schedule (w : W) (ps : list (prog W A)) :
  sys_run env (w, ps) (run_schedule schedule w ps).
Proof.
  revert w ps. induction schedule as [|i schedule IH]; intros w ps; cbn; [apply rtc_refl|].
  destruct (ps !! i) as [[r|u n]|] eqn:Hi; [apply IH| |apply IH].
  eapply rtc_l; [by eapply step_program|apply IH].
Qed.
