(* ===== verification/Mfa.v ===== *)
(** * Authenticators (utils/mfa.py with the credential rows of models/auths.py and the
    session gate of utils/auth.py): enrolment, verification, recovery and reset of a
    second factor, one statement of the database at a time.

    Hashes, one-time passwords, encryption and random values come from libraries: they are
    the operations of the class [Crypto], the random ones indexed by the number of values
    drawn before.  Values that are saved are drawn by the statement that saves them: nobody
    sees them before.  Failures of the database ([SQLAlchemyError]) and the security log are
    left out; claims are those of the tokens [create_session_response] signs. *)

From S2P Require Import Prelude PyVal Interleave.
From stdpp Require Import gmap strings.
From Stdlib Require Import Ascii.

Local Open Scope Z_scope.

Class Crypto := {
  token_hash : string → string;           (** hashlib.sha256 *)
  uuid4 : nat → string;
  token_hex : nat → string;               (** secrets.token_hex(16) *)
  token_urlsafe : nat → string;           (** secrets.token_urlsafe(32) *)
  random_base32 : nat → string;           (** pyotp.random_base32 *)
  totp_at : string → Z → string;          (** pyotp.TOTP(secret).at, of a time *)
  encrypt : nat → string → res string;    (** cipher().encrypt *)
  decrypt : string → option string        (** cipher().decrypt *)
}.

(** ** Data *)

Definition CHALLENGE_SECONDS : Z := 300.
Definition LIMIT_SECONDS : Z := 900.

Record MfaConfigForm := MfaConfig {
  ENABLE_MFA : bool; MFA_ALLOW_OAUTH_BYPASS : bool; MFA_ALLOW_TRUSTED_HEADER_BYPASS : bool }.

Definition is_mfa_required (auth_method : string) (config : MfaConfigForm) : bool :=
  if negb (ENABLE_MFA config) then false
  else if String.eqb auth_method "oauth" && MFA_ALLOW_OAUTH_BYPASS config then false
  else negb (String.eqb auth_method "trusted_header" && MFA_ALLOW_TRUSTED_HEADER_BYPASS config).

Record MfaLimit := Limit { li_count : Z; li_expires_at : Z }.
Record MfaResetTicket := Ticket { ti_token_hash : string; ti_expires_at : Z }.

Inductive challenge_type := Enroll | Verify | Replace | Recover.
#[export] Instance challenge_type_eq_dec : EqDecision challenge_type.
Proof. solve_decision. Defined.

Record MfaChallenge := Challenge {
  ch_token_hash : string; ch_type : challenge_type; ch_expires_at : Z; ch_attempts : Z;
  ch_auth_method : string; ch_auth_time : Z; ch_session_stamp : option string;
  ch_secret : option string; ch_oauth_session_id : option string; ch_provider : option string }.

Record MfaData := Mfa {
  mfa_revision : string; mfa_secret : option string; mfa_last_step : Z;
  mfa_recovery_hashes : list string; mfa_login : option MfaChallenge; mfa_manage : option MfaChallenge;
  mfa_reset_required : bool; mfa_reset_ticket : option MfaResetTicket; mfa_limits : gmap string MfaLimit }.

(** A credential row *)
Record AuthModel := Auth {
  au_id : string; au_email : string; au_password : string; au_active : bool;
  au_mfa : option MfaData; au_session_stamp : option string }.

Record UserModel := User { us_id : string; us_email : string; us_role : string }.

Record world := World {
  w_auths : gmap string AuthModel; w_users : gmap string UserModel; w_config : MfaConfigForm;
  w_now : Z; w_drawn : nat }.

Definition set_auths (auths : gmap string AuthModel) (w : world) : world :=
  World auths (w_users w) (w_config w) (w_now w) (w_drawn w).
Definition draw_more (n : nat) (w : world) : world :=
  World (w_auths w) (w_users w) (w_config w) (w_now w) (n + w_drawn w).

Definition set_mfa (m : option MfaData) (stamp : option string) (a : AuthModel) : AuthModel :=
  Auth (au_id a) (au_email a) (au_password a) (au_active a) m stamp.
Definition set_password (password : string) (a : AuthModel) : AuthModel :=
  Auth (au_id a) (au_email a) password (au_active a) (au_mfa a) (au_session_stamp a).
Definition set_revision (revision : string) (m : MfaData) : MfaData :=
  Mfa revision (mfa_secret m) (mfa_last_step m) (mfa_recovery_hashes m) (mfa_login m) (mfa_manage m)
    (mfa_reset_required m) (mfa_reset_ticket m) (mfa_limits m).
Definition set_login (c : option MfaChallenge) (m : MfaData) : MfaData :=
  Mfa (mfa_revision m) (mfa_secret m) (mfa_last_step m) (mfa_recovery_hashes m) c (mfa_manage m)
    (mfa_reset_required m) (mfa_reset_ticket m) (mfa_limits m).
Definition set_manage (c : option MfaChallenge) (m : MfaData) : MfaData :=
  Mfa (mfa_revision m) (mfa_secret m) (mfa_last_step m) (mfa_recovery_hashes m) (mfa_login m) c
    (mfa_reset_required m) (mfa_reset_ticket m) (mfa_limits m).
Definition set_ticket (t : option MfaResetTicket) (m : MfaData) : MfaData :=
  Mfa (mfa_revision m) (mfa_secret m) (mfa_last_step m) (mfa_recovery_hashes m) (mfa_login m) (mfa_manage m)
    (mfa_reset_required m) t (mfa_limits m).
Definition set_reset_required (b : bool) (m : MfaData) : MfaData :=
  Mfa (mfa_revision m) (mfa_secret m) (mfa_last_step m) (mfa_recovery_hashes m) (mfa_login m) (mfa_manage m)
    b (mfa_reset_ticket m) (mfa_limits m).
Definition set_limits (limits : gmap string MfaLimit) (m : MfaData) : MfaData :=
  Mfa (mfa_revision m) (mfa_secret m) (mfa_last_step m) (mfa_recovery_hashes m) (mfa_login m) (mfa_manage m)
    (mfa_reset_required m) (mfa_reset_ticket m) limits.
Definition set_factor (secret : option string) (last_step : Z) (hashes : list string) (m : MfaData) : MfaData :=
  Mfa (mfa_revision m) secret last_step hashes (mfa_login m) (mfa_manage m)
    (mfa_reset_required m) (mfa_reset_ticket m) (mfa_limits m).
Definition clear_challenges (m : MfaData) : MfaData := set_login None (set_manage None (set_ticket None m)).
Definition add_attempt (c : MfaChallenge) : MfaChallenge :=
  Challenge (ch_token_hash c) (ch_type c) (ch_expires_at c) (ch_attempts c + 1) (ch_auth_method c) (ch_auth_time c)
    (ch_session_stamp c) (ch_secret c) (ch_oauth_session_id c) (ch_provider c).
Definition set_secret (secret : option string) (c : MfaChallenge) : MfaChallenge :=
  Challenge (ch_token_hash c) (ch_type c) (ch_expires_at c) (ch_attempts c) (ch_auth_method c) (ch_auth_time c)
    (ch_session_stamp c) secret (ch_oauth_session_id c) (ch_provider c).

(** The attribute of [MfaData] that holds a challenge *)
Inductive slot := LoginChallenge | ManageChallenge.
Definition in_slot (s : slot) (m : MfaData) : option MfaChallenge :=
  match s with LoginChallenge => mfa_login m | ManageChallenge => mfa_manage m end.
Definition set_slot (s : slot) (c : option MfaChallenge) (m : MfaData) : MfaData :=
  match s with LoginChallenge => set_login c m | ManageChallenge => set_manage c m end.

Section Mfa.
Context `{Crypto}.

(** [MfaData()]; its revision is never read, saving it draws another one *)
Definition new_data : MfaData := Mfa EmptyString None (-1) [] None None false None ∅.

Definition truthy_text (o : option string) : option string :=
  match o with Some EmptyString => None | _ => o end.

(** ** Rows *)

Definition same_revision (expected : option MfaData) (row : option MfaData) : bool :=
  bool_decide (mfa_revision <$> expected = mfa_revision <$> row).

(** [update_mfa_by_id]: compare and swap; the new values are drawn in any case *)
Definition update_mfa_by_id (auth : AuthModel) (m : MfaData) (revoke : bool) : st world (option AuthModel) := λ w,
  let m := set_revision (uuid4 (w_drawn w)) m in
  let stamp := if revoke then Some (uuid4 (S (w_drawn w))) else au_session_stamp auth in
  let w' := draw_more 2 w in
  match w_auths w !! au_id auth with
  | Some row =>
      if au_active row && String.eqb (au_password row) (au_password auth)
         && bool_decide (au_session_stamp row = au_session_stamp auth)
         && same_revision (au_mfa auth) (au_mfa row)
      then (Ok (Some (set_mfa (Some m) stamp auth)),
            set_auths (<[au_id auth := set_mfa (Some m) stamp row]> (w_auths w)) w')
      else (Ok None, w')
  | None => (Ok None, w')
  end.

Definition get_auth_by_id (user_id : string) : prog world (option AuthModel) :=
  query (λ w, w_auths w !! user_id).

Definition clock : prog world Z := query w_now.
Definition get_mfa_config : prog world MfaConfigForm := query w_config.
Definition get_user_by_id (user_id : string) : prog world (option UserModel) := query (λ w, w_users w !! user_id).

Definition get_auth (user_id : string) : prog world AuthModel :=
  auth ← get_auth_by_id user_id;
  match auth with
  | Some auth => if au_active auth then mret auth else fail (HTTPException 401 "Invalid authentication request.")
  | None => fail (HTTPException 401 "Invalid authentication request.")
  end.

(** The statement of [save_mfa]: [f] makes the data, and what else the caller needs, from the
    [draws] values it draws. *)
Definition save_statement {X} (auth : AuthModel) (draws : nat) (f : nat → res (MfaData * X)) (revoke : bool)
    : st world (option (AuthModel * X)) := λ w,
  match f (w_drawn w) with
  | Err e => (Err e, w)
  | Ok (m, x) =>
      (updated ← update_mfa_by_id auth m revoke;
       mret ((λ a : AuthModel, (a, x)) <$> updated)) (draw_more draws w)
  end.

(** [save_mfa] *)
Definition save_mfa {X} (auth : AuthModel) (draws : nat) (f : nat → res (MfaData * X)) (revoke : bool)
    : prog world (AuthModel * X) :=
  updated ← perform (save_statement auth draws f revoke);
  match updated with
  | Some updated => mret updated
  | None => fail (HTTPException 409 "Authentication changed in another request. Please start again.")
  end.

(** [auth.mfa.model_copy(deep=True) if auth.mfa else MfaData()] *)
Definition data_of (auth : AuthModel) : MfaData := default new_data (au_mfa auth).

(** [except HTTPException] of the loops that save: a conflict is tried again *)
Definition retry {A} (again : prog world A) (e : exn) : prog world A :=
  match e with HTTPException 409 _ => again | _ => fail e end.

Definition busy : exn := HTTPException 409 "Authentication is busy. Please try again.".

(** The counter of a kind of attempts *)
Definition current_limit (now : Z) (kind : string) (m : MfaData) : MfaLimit :=
  match mfa_limits m !! kind with
  | Some limit => if li_expires_at limit <=? now then Limit 0 (now + LIMIT_SECONDS) else limit
  | None => Limit 0 (now + LIMIT_SECONDS)
  end.
Definition count_attempt (kind : string) (limit : MfaLimit) (m : MfaData) : MfaData :=
  set_limits (<[kind := Limit (li_count limit + 1) (li_expires_at limit)]> (mfa_limits m)) m.
Definition throttled : exn := HTTPException 429 "Too many attempts. Please try again later.".

Fixpoint limit_loop (n : nat) (user_id kind : string) (expected : option (option string)) : prog world AuthModel :=
  match n with
  | O => fail busy
  | S n =>
      auth ← get_auth user_id;
      if match expected with Some stamp => negb (bool_decide (au_session_stamp auth = stamp)) | None => false end
      then fail (HTTPException 401 "Session expired. Please sign in again.")
      else
        now ← clock;
        let limit := current_limit now kind (data_of auth) in
        if 10 <=? li_count limit then fail throttled
        else try_except (fst <$> save_mfa auth 0 (λ _, Ok (count_attempt kind limit (data_of auth), tt)) false)
               (retry (limit_loop n user_id kind expected))
  end.
(** [limit_account]; [expected] is [expected_stamp] when [check_stamp] is set *)
Definition limit_account (user_id kind : string) (expected : option (option string)) : prog world AuthModel :=
  limit_loop 5 user_id kind expected.

(** ** Codes *)

Definition six_digits (code : string) : bool :=
  (String.length code =? 6)%nat && Str.sforallb Str.is_digit code.

(** [matching_step], at a time *)
Definition matching_step (now : Z) (secret code : string) (last_step : Z) : option Z :=
  if negb (six_digits code) then None
  else
    let current := now / 30 in
    head (List.filter (λ step, (last_step <? step) && String.eqb (totp_at secret (step * 30)) code)
            [current; current - 1; current + 1]).

Definition decrypt_secret (secret : string) : res string :=
  match decrypt secret with
  | Some text => Ok text
  | None => Err (HTTPException 503 "Authenticator configuration is unavailable. Contact the operator.")
  end.

(** [list.remove] *)
Fixpoint remove_first (h : string) (l : list string) : list string :=
  match l with
  | [] => []
  | h' :: l => if String.eqb h' h then l else h' :: remove_first h l
  end.

Definition invalid_code : exn := HTTPException 401 "Invalid or already used code.".

(** [consume_factor]: the data left once the factor is spent *)
Definition consume_factor (now : Z) (m : MfaData) (code : string) (recovery : bool) : res MfaData :=
  if recovery then
    let digest := token_hash (Str.lower (Str.strip code)) in
    if bool_decide (digest ∈ mfa_recovery_hashes m)
    then Ok (set_factor (mfa_secret m) (mfa_last_step m) (remove_first digest (mfa_recovery_hashes m)) m)
    else Err invalid_code
  else
    match truthy_text (mfa_secret m) with
    | Some secret =>
        text ← decrypt_secret secret;
        match matching_step now text (Str.strip code) (mfa_last_step m) with
        | Some step => Ok (set_factor (mfa_secret m) step (mfa_recovery_hashes m) m)
        | None => Err invalid_code
        end
    | None => Err invalid_code
    end.

(** [recovery_codes] *)
Definition recovery_codes (n : nat) : list string := map token_hex (seq n 10).

(** ** Challenges *)

Record challenge_answer := ChallengeAnswer { ca_next_step : challenge_type; ca_token : string; ca_expires_in : Z }.

(** [challenge_response] *)
Definition challenge_response (token : string) (c : MfaChallenge) : prog world challenge_answer :=
  now ← clock;
  mret (ChallengeAnswer (match ch_type c with Replace => Enroll | t => t end) token
          (Z.max 0 (ch_expires_at c - now))).

Definition new_token (user_id : string) (n : nat) : string := user_id +:+ "." +:+ token_urlsafe n.

(** [new_challenge] with the n-th value drawn; the context is the session of an identity
    provider *)
Definition new_challenge (auth : AuthModel) (kind : challenge_type) (auth_method : string) (auth_time : Z)
    (oauth_session_id provider : option string) (now : Z) (n : nat) : string * MfaChallenge :=
  let token := new_token (au_id auth) n in
  (token, Challenge (token_hash token) kind (now + CHALLENGE_SECONDS) 0 auth_method auth_time
            (au_session_stamp auth) None oauth_session_id provider).

(** [start_mfa_login] *)
Definition start_mfa_login (auth : AuthModel) (auth_method : string) (oauth_session_id provider : option string)
    : prog world challenge_answer :=
  let m := data_of auth in
  let kind := if mfa_reset_required m then Recover
              else match truthy_text (mfa_secret m) with Some _ => Verify | None => Enroll end in
  now ← clock;
  '(_, (token, challenge)) ← save_mfa auth 1 (λ n,
    let tc := new_challenge auth kind auth_method now oauth_session_id provider now n in
    Ok (set_login (Some tc.2) m, tc)) false;
  challenge_response token challenge.

(** [token.partition('.')]: the text before the separator, if there is one *)
Fixpoint before_dot (s : string) : option string :=
  match s with
  | EmptyString => None
  | String c s => if Ascii.eqb c "."%char then Some EmptyString else String c <$> before_dot s
  end.

Definition expired : exn := HTTPException 401 "This authentication step expired. Please start again.".

(** What [load_challenge] answers *)
Record loaded := Loaded {
  lo_user : UserModel; lo_auth : AuthModel; lo_mfa : MfaData; lo_challenge : MfaChallenge; lo_slot : slot }.

Definition has_hash (token : string) (c : option MfaChallenge) : bool :=
  match c with Some c => String.eqb (ch_token_hash c) (token_hash token) | None => false end.

Definition slot_for (kinds : list challenge_type) (token : string) (m : MfaData) : slot :=
  if bool_decide (kinds = [Replace]) then ManageChallenge
  else if bool_decide (Replace ∈ kinds) && has_hash token (mfa_manage m) then ManageChallenge
  else LoginChallenge.

Definition usable (now : Z) (kinds : list challenge_type) (token : string) (auth : AuthModel) (c : MfaChallenge) : bool :=
  bool_decide (ch_type c ∈ kinds) && (now <? ch_expires_at c)
  && bool_decide (ch_session_stamp c = au_session_stamp auth) && String.eqb (ch_token_hash c) (token_hash token).

Fixpoint load_loop (n : nat) (user_id token : string) (kinds : list challenge_type) (attempt : bool) (auth : AuthModel)
    : prog world loaded :=
  match n with
  | O => fail busy
  | S n =>
      let m := data_of auth in
      let s := slot_for kinds token m in
      now ← clock;
      match in_slot s m with
      | None => fail expired
      | Some c =>
          if negb (usable now kinds token auth c) then fail expired
          else
            user ← get_user_by_id user_id;
            match user with
            | None => fail (HTTPException 403 "Account is awaiting approval.")
            | Some user =>
                if negb (String.eqb (us_role user) "admin" || String.eqb (us_role user) "user")
                then fail (HTTPException 403 "Account is awaiting approval.")
                else
                  config ← get_mfa_config;
                  if negb (ENABLE_MFA config) then fail (HTTPException 403 "MFA is disabled. Please sign in again.")
                  else if negb attempt then mret (Loaded user auth m c s)
                  else if 5 <=? ch_attempts c then fail (HTTPException 429 "Too many codes. Please sign in again.")
                  else
                    now ← clock;
                    let limit := current_limit now "factor" m in
                    if 10 <=? li_count limit then fail throttled
                    else
                      let c := add_attempt c in
                      try_except
                        ('(updated, _) ← save_mfa auth 0 (λ _,
                            Ok (set_slot s (Some c) (count_attempt "factor" limit m), tt)) false;
                         mret (Loaded user updated (data_of updated) c s))
                        (retry (auth ← get_auth user_id; load_loop n user_id token kinds attempt auth))
            end
      end
  end.

(** [load_challenge] *)
Definition load_challenge (token : string) (kinds : list challenge_type) (attempt : bool) : prog world loaded :=
  match before_dot token with
  | None => fail expired
  | Some user_id =>
      if (64 <? String.length user_id)%nat then fail expired
      else auth ← get_auth user_id; load_loop 5 user_id token kinds attempt auth
  end.

(** ** Operations *)

(** [start_mfa_enrollment]: the secret and the address its QR code names *)
Definition start_mfa_enrollment (token : string) : prog world (string * string) :=
  l ← load_challenge token [Enroll; Replace] false;
  match truthy_text (ch_secret (lo_challenge l)) with
  | Some secret => text ← lift (decrypt_secret secret); mret (text, us_email (lo_user l))
  | None =>
      '(_, text) ← save_mfa (lo_auth l) 2 (λ n,
        let text := random_base32 n in
        secret ← encrypt (S n) text;
        Ok (set_slot (lo_slot l) (Some (set_secret (Some secret) (lo_challenge l))) (lo_mfa l), text)) false;
      mret (text, us_email (lo_user l))
  end.

(** [confirm_mfa_enrollment] *)
Definition confirm_mfa_enrollment (token code : string) : prog world (loaded * AuthModel * list string) :=
  l ← load_challenge token [Enroll; Replace] true;
  now ← clock;
  step ← lift (match truthy_text (ch_secret (lo_challenge l)) with
               | Some secret => text ← decrypt_secret secret; Ok (matching_step now text (Str.strip code) (-1))
               | None => Ok None
               end);
  match step with
  | None => fail (HTTPException 401 "Invalid code. Check your authenticator and try again.")
  | Some step =>
      '(updated, codes) ← save_mfa (lo_auth l) 10 (λ n,
        let codes := recovery_codes n in
        Ok (set_reset_required false (clear_challenges
              (set_factor (ch_secret (lo_challenge l)) step (map token_hash codes) (lo_mfa l))), codes)) true;
      mret (l, updated, codes)
  end.

(** [verify_mfa_challenge] *)
Definition verify_mfa_challenge (token code : string) (recovery : bool) : prog world (loaded * AuthModel) :=
  l ← load_challenge token [Verify] true;
  now ← clock;
  m ← lift (consume_factor now (lo_mfa l) code recovery);
  '(updated, _) ← save_mfa (lo_auth l) 0 (λ _, Ok (set_login None m, tt)) false;
  mret (l, updated).

(** The claims of a session token *)
Record claims := Claims {
  cl_id : string; cl_typ : string; cl_auth_method : string; cl_auth_time : Z;
  cl_session_stamp : option string; cl_mfa_verified : bool }.

(** [manage_mfa]: a challenge to replace the authenticator, or new recovery codes *)
Definition manage_mfa (user_id : string) (cl : claims) (code : string) (recovery replace : bool)
    : prog world (challenge_answer + list string) :=
  now ← clock;
  if CHALLENGE_SECONDS <? now - cl_auth_time cl then fail (HTTPException 403 "reauthentication_required")
  else
    config ← get_mfa_config;
    if negb (ENABLE_MFA config) then fail (HTTPException 403 "MFA is disabled.")
    else
      auth ← limit_account user_id "factor" (Some (cl_session_stamp cl));
      now ← clock;
      m ← lift (consume_factor now (data_of auth) code recovery);
      if replace then
        now ← clock;
        '(_, (token, challenge)) ← save_mfa auth 1 (λ n,
          let tc := new_challenge auth Replace (cl_auth_method cl) (cl_auth_time cl) None None now n in
          Ok (set_manage (Some tc.2) m, tc)) false;
        inl <$> challenge_response token challenge
      else
        '(_, codes) ← save_mfa auth 10 (λ n,
          let codes := recovery_codes n in
          Ok (clear_challenges (set_factor (mfa_secret m) (mfa_last_step m) (map token_hash codes) m), codes)) true;
        mret (inr codes).

(** [redeem_mfa_reset_token] *)
Definition redeem_mfa_reset_token (token reset_token : string) : prog world challenge_answer :=
  l ← load_challenge token [Recover] true;
  now ← clock;
  let valid := match mfa_reset_ticket (lo_mfa l) with
               | Some ticket => mfa_reset_required (lo_mfa l) && (now <? ti_expires_at ticket)
                                && String.eqb (ti_token_hash ticket) (token_hash reset_token)
               | None => false
               end in
  if negb valid then fail (HTTPException 401 "Invalid or expired operator recovery token.")
  else
    let c := lo_challenge l in
    now ← clock;
    '(_, (token, enroll)) ← save_mfa (lo_auth l) 1 (λ n,
      let tc := new_challenge (lo_auth l) Enroll (ch_auth_method c) (ch_auth_time c)
                  (ch_oauth_session_id c) (ch_provider c) now n in
      Ok (set_login (Some tc.2) (set_ticket None (lo_mfa l)), tc)) false;
    challenge_response token enroll.

(** [reset_mfa], once the user is found *)
Definition reset_mfa (user_id reason : string) : prog world string :=
  if Str.is_empty (Str.strip reason) then fail (ValueError "A nonempty reason is required.")
  else
    auth ← get_auth user_id;
    now ← clock;
    '(_, ticket) ← save_mfa auth 1 (λ n,
      let ticket := token_urlsafe n in
      Ok (set_ticket (Some (Ticket (token_hash ticket) (now + 1800)))
            (set_reset_required true
               (set_login None (set_manage None (set_factor None (-1) [] (data_of auth))))), ticket)) true;
    mret ticket.

(** [clear_mfa_challenges], with a new revision *)
Definition clear_mfa_challenges (n : nat) (m : option MfaData) : option MfaData :=
  (λ m, set_revision (uuid4 n) (clear_challenges m)) <$> m.

Definition conflict : exn := ValueError "Authentication changed in another request. Please try again.".

(** The update of [revoke_sessions_by_user_id] *)
Definition revoke_statement (auth : AuthModel) : st world bool := λ w,
  let w' := draw_more 2 w in
  match w_auths w !! au_id auth with
  | Some row =>
      if bool_decide (au_session_stamp row = au_session_stamp auth) && same_revision (au_mfa auth) (au_mfa row)
      then (Ok true, set_auths (<[au_id auth := set_mfa (clear_mfa_challenges (S (w_drawn w)) (au_mfa auth))
                                                  (Some (uuid4 (w_drawn w))) row]> (w_auths w)) w')
      else (Err conflict, w')
  | None => (Err conflict, w')
  end.

(** [revoke_sessions_by_user_id] *)
Definition revoke_sessions_by_user_id (user_id : string) : prog world bool :=
  auth ← get_auth_by_id user_id;
  match auth with Some auth => perform (revoke_statement auth) | None => mret false end.

(** The two updates of [update_user_password_by_id], one transaction; nothing is to be
    rolled back when the first one fails *)
Definition password_statements (user_id password : string) (auth : AuthModel) : st world bool :=
  updated ← update_mfa_by_id auth (clear_challenges (data_of auth)) true;
  match updated with
  | None => raise conflict
  | Some _ => _ ← st_modify (λ w, set_auths (alter (set_password password) user_id (w_auths w)) w); mret true
  end.

(** [update_user_password_by_id] without a row read before *)
Definition update_user_password_by_id (user_id password : string) : prog world bool :=
  auth ← get_auth_by_id user_id;
  match auth with
  | None => mret false
  | Some auth => perform (password_statements user_id password auth)
  end.

(** ** Sessions *)

Inductive signin_answer :=
| SignedIn (cl : claims)
| NextStep (a : challenge_answer)
| Pending.

(** [create_session_response]: the claims of the token *)
Definition create_session_response (user : UserModel) (source : string) (auth : AuthModel) (mfa_verified : bool)
    (auth_time : option Z) : prog world claims :=
  current ← get_auth (us_id user);
  if negb (bool_decide (au_session_stamp current = au_session_stamp auth))
  then fail (HTTPException 409 "Authentication changed. Please sign in again.")
  else
    config ← get_mfa_config;
    if is_mfa_required source config && negb mfa_verified
    then fail (HTTPException 401 "Authenticator verification is required.")
    else
      now ← clock;
      let auth_time := match auth_time with Some t => if t =? 0 then now else t | None => now end in
      mret (Claims (us_id user) "session" source auth_time (au_session_stamp auth) mfa_verified).

(** [create_signin_response], with the row that was checked *)
Definition create_signin_response (user : UserModel) (source : string) (auth : AuthModel)
    (oauth_session_id provider : option string) : prog world signin_answer :=
  current ← get_auth (us_id user);
  if negb (bool_decide (au_session_stamp current = au_session_stamp auth)
           && String.eqb (au_password current) (au_password auth))
  then fail (HTTPException 409 "Authentication changed. Please sign in again.")
  else
    config ← get_mfa_config;
    if ENABLE_MFA config && negb (String.eqb (us_role user) "admin" || String.eqb (us_role user) "user")
    then mret Pending
    else if is_mfa_required source config
    then NextStep <$> start_mfa_login current source oauth_session_id provider
    else SignedIn <$> create_session_response user source current false None.

(** [finish_login] of routers/mfa.py: the session of a login that was verified *)
Definition finish_login (l : loaded) (auth : AuthModel) : prog world claims :=
  create_session_response (lo_user l) (ch_auth_method (lo_challenge l)) auth true (Some (ch_auth_time (lo_challenge l))).

(** [is_valid_token], the part on the database *)
Definition is_valid_token (cl : claims) : prog world bool :=
  auth ← get_auth (cl_id cl);
  if negb (bool_decide (cl_session_stamp cl = au_session_stamp auth)) then mret false
  else if negb (bool_decide (cl_typ cl ∈ ["session"; "automation"; "subagent"])) then mret false
  else if String.eqb (cl_typ cl) "session" then
    config ← get_mfa_config;
    mret (negb (is_mfa_required (cl_auth_method cl) config)
          || (cl_mfa_verified cl
              && match au_mfa auth with
                 | Some m => bool_decide (is_Some (truthy_text (mfa_secret m))) && negb (mfa_reset_required m)
                 | None => false
                 end))
  else mret true.

(** ** Requests *)

(** What users, administrators and operators ask for; [Attempt] and [Show] are calls of
    [load_challenge] of their own *)
Inductive request :=
| SignIn (user : UserModel) (source : string) (auth : AuthModel) (oauth_session_id provider : option string)
| StartEnrollment (token : string)
| ConfirmEnrollment (token code : string)
| VerifyChallenge (token code : string) (recovery : bool)
| ManageFactor (user_id : string) (cl : claims) (code : string) (recovery replace : bool)
| RedeemToken (token reset_token : string)
| ResetAccount (user_id reason : string)
| RevokeSessions (user_id : string)
| ChangePassword (user_id password : string)
| CountPassword (user_id : string)
| Attempt (token : string) (kinds : list challenge_type)
| Show (token : string)
| CheckToken (cl : claims).

Inductive response :=
| Answered (a : signin_answer)
| Setup (secret email : string)
| Confirmed (l : loaded) (auth : AuthModel) (codes : list string)
| Verified (code : string) (recovery : bool) (l : loaded) (auth : AuthModel) (session : claims)
| Managed (a : challenge_answer + list string)
| Redeemed (a : challenge_answer)
| Ticketed (ticket : string)
| Changed (b : bool)
| Counted
| Attempted (l : loaded)
| Shown (l : loaded)
| Checked (b : bool).

Definition handle (r : request) : prog world response :=
  match r with
  | SignIn user source auth oauth provider => Answered <$> create_signin_response user source auth oauth provider
  | StartEnrollment token => (λ p, Setup p.1 p.2) <$> start_mfa_enrollment token
  | ConfirmEnrollment token code => (λ p, Confirmed p.1.1 p.1.2 p.2) <$> confirm_mfa_enrollment token code
  | VerifyChallenge token code recovery =>
      '(l, auth) ← verify_mfa_challenge token code recovery;
      Verified code recovery l auth <$> finish_login l auth
  | ManageFactor user_id cl code recovery replace => Managed <$> manage_mfa user_id cl code recovery replace
  | RedeemToken token reset_token => Redeemed <$> redeem_mfa_reset_token token reset_token
  | ResetAccount user_id reason => Ticketed <$> reset_mfa user_id reason
  | RevokeSessions user_id => Changed <$> revoke_sessions_by_user_id user_id
  | ChangePassword user_id password => Changed <$> update_user_password_by_id user_id password
  | CountPassword user_id => (λ _, Counted) <$> limit_account user_id "password" None
  | Attempt token kinds => Attempted <$> load_challenge token kinds true
  | Show token => Shown <$> load_challenge token [Enroll; Verify; Recover] false
  | CheckToken cl => Checked <$> is_valid_token cl
  end.

(** What else happens: users, settings, addresses and the clock change, accounts are
    switched off or deleted, values are drawn; factors and stamps stay. *)
Definition outside (w w' : world) : Prop :=
  (w_drawn w <= w_drawn w')%nat ∧
  ∀ id, match w_auths w !! id, w_auths w' !! id with
        | _, None => True
        | None, Some _ => False
        | Some r, Some r' => au_id r' = au_id r ∧ au_mfa r' = au_mfa r ∧ au_session_stamp r' = au_session_stamp r
        end.
End Mfa.
