(* ===== verification/MfaProps.v ===== *)
(** * Properties of the authenticators: under every interleaving of requests no sign-in
    reuses a factor or a challenge, a challenge admits five attempts, and a revoked
    session stays revoked.

    A row is compared and swapped by its revision, so what a request computed from the row
    it read applies to that row.  [R] is what may happen to the credential rows, [I] what
    holds of them, and the one-time things are the keys of [Interleave]. *)

From S2P Require Import Prelude PyVal Interleave Mfa.
From stdpp Require Import gmap strings.

Local Open Scope Z_scope.

(** What is relied on of the libraries: random values do not repeat, and neither do their
    hashes and the texts encrypted with them. *)
Class CryptoLaws `{Crypto} : Prop := {
  uuid4_inj n m : uuid4 n = uuid4 m → n = m;
  code_inj n m : token_hash (token_hex n) = token_hash (token_hex m) → n = m;
  token_inj id n m : token_hash (new_token id n) = token_hash (new_token id m) → n = m;
  encrypt_inj n m s t c : encrypt n s = Ok c → encrypt m t = Ok c → n = m
}.

Section Props.
Context `{CryptoLaws}.

(** ** Data *)

(** The challenges of a row, and the secrets it holds *)
Definition on_row (c : MfaChallenge) (m : MfaData) : Prop := mfa_login m = Some c ∨ mfa_manage m = Some c.
Definition live (k : string) (m : MfaData) : Prop :=
  mfa_secret m = Some k ∨ ∃ c, on_row c m ∧ ch_secret c = Some k.

(** Values that are still to be drawn *)
Definition future_secret (d : nat) (k : string) : Prop := ∃ n s, (d ≤ n)%nat ∧ encrypt n s = Ok k.
Definition future_code (d : nat) (h : string) : Prop := ∃ n, (d ≤ n)%nat ∧ h = token_hash (token_hex n).
Definition future_token (id : string) (d : nat) (h : string) : Prop := ∃ n, (d ≤ n)%nat ∧ h = token_hash (new_token id n).
Definition future_uuid (d : nat) (u : string) : Prop := ∃ n, (d ≤ n)%nat ∧ u = uuid4 n.

(** What may become of the data of an account when values are drawn from the [d]-th on *)
Record data_next (id : string) (d : nat) (m m' : MfaData) : Prop := DataNext {
  next_live k : live k m' → live k m ∨ future_secret d k;
  next_secret k : mfa_secret m = Some k → ¬ future_secret d k → live k m' →
    mfa_secret m' = Some k ∧ mfa_last_step m ≤ mfa_last_step m';
  next_codes h : h ∈ mfa_recovery_hashes m' → h ∈ mfa_recovery_hashes m ∨ future_code d h;
  next_challenges c' : on_row c' m' →
    (∃ c, on_row c m ∧ ch_token_hash c = ch_token_hash c' ∧ ch_attempts c ≤ ch_attempts c')
    ∨ future_token id d (ch_token_hash c')
}.

(** What holds of the data of an account *)
Record data_ok (id : string) (d : nat) (m : MfaData) : Prop := DataOk {
  ok_live k : live k m → ¬ future_secret d k;
  ok_secret k c : mfa_secret m = Some k → on_row c m → ch_secret c ≠ Some k;
  ok_codes : NoDup (mfa_recovery_hashes m) ∧ ∀ h, h ∈ mfa_recovery_hashes m → ¬ future_code d h;
  ok_challenges c : on_row c m → ¬ future_token id d (ch_token_hash c) ∧ 0 ≤ ch_attempts c;
  ok_slots a b : mfa_login m = Some a → mfa_manage m = Some b → ch_token_hash a ≠ ch_token_hash b
}.

Definition data_step (id : string) (d d' : nat) (m m' : MfaData) : Prop :=
  data_ok id d m → data_next id d m m' ∧ data_ok id d' m'.

Lemma future_secret_mono d d' k : (d ≤ d')%nat → future_secret d' k → future_secret d k.
Proof. intros ? (n & s & ? & ?). exists n, s. split; [lia|done]. Qed.
Lemma future_code_mono d d' h : (d ≤ d')%nat → future_code d' h → future_code d h.
Proof. intros ? (n & ? & ?). exists n. split; [lia|done]. Qed.
Lemma future_token_mono id d d' h : (d ≤ d')%nat → future_token id d' h → future_token id d h.
Proof. intros ? (n & ? & ?). exists n. split; [lia|done]. Qed.
Lemma future_uuid_mono d d' u : (d ≤ d')%nat → future_uuid d' u → future_uuid d u.
Proof. intros ? (n & ? & ?). exists n. split; [lia|done]. Qed.

Lemma drawn_secret d n s k : (n < d)%nat → encrypt n s = Ok k → ¬ future_secret d k.
Proof. intros Hn He (m & t & Hm & Ht). pose proof (encrypt_inj n m s t k He Ht). lia. Qed.
Lemma drawn_code d n : (n < d)%nat → ¬ future_code d (token_hash (token_hex n)).
Proof. intros Hn (m & Hm & He). apply code_inj in He. lia. Qed.
Lemma drawn_token id d n : (n < d)%nat → ¬ future_token id d (token_hash (new_token id n)).
Proof. intros Hn (m & Hm & He). apply token_inj in He. lia. Qed.
Lemma drawn_uuid d n : (n < d)%nat → ¬ future_uuid d (uuid4 n).
Proof. intros Hn (m & Hm & He). apply uuid4_inj in He. lia. Qed.

Lemma data_ok_mono id d d' m : (d ≤ d')%nat → data_ok id d m → data_ok id d' m.
Proof.
  intros Hd [H1 H2 [H3 H4] H5 H6]. split; [|done| |..|done].
  - intros k Hk Hf. apply (H1 k Hk). by eapply future_secret_mono.
  - split; [done|]. intros h Hh Hf. apply (H4 h Hh). by eapply future_code_mono.
  - intros c Hc. destruct (H5 c Hc) as [Hn ?]. split; [|done]. intros Hf. apply Hn. by eapply future_token_mono.
Qed.

Lemma data_next_refl id d m : data_next id d m m.
Proof. split; [by left|done|by left|]. intros c Hc. left. by exists c. Qed.

Lemma data_next_trans id d d' m m1 m2 :
  (d ≤ d')%nat → data_next id d m m1 → data_next id d' m1 m2 → data_next id d m m2.
Proof.
  intros Hd [A1 A2 A3 A4] [B1 B2 B3 B4]. split.
  - intros k [Hk|Hk]%B1; [by apply A1|right; by eapply future_secret_mono].
  - intros k Hs Hf Hl. assert (Hf' : ¬ future_secret d' k) by (intros ?; by eapply Hf, future_secret_mono).
    destruct (B1 k Hl) as [Hl1|?]; [|done]. destruct (A2 k Hs Hf Hl1) as [Hs1 ?].
    destruct (B2 k Hs1 Hf' Hl) as [? ?]. split; [done|lia].
  - intros h [Hh|Hh]%B3; [by apply A3|right; by eapply future_code_mono].
  - intros c2 [(c1 & Hc1 & Heq & Hle)|Hf]%B4; [|right; by eapply future_token_mono].
    rewrite <-Heq. destruct (A4 c1 Hc1) as [(c & Hc & Heq' & Hle')|?]; [|by right].
    left. exists c. split_and!; [done..|lia].
Qed.

Lemma data_step_trans id d d1 d2 m m1 m2 :
  (d ≤ d1)%nat → data_step id d d1 m m1 → data_step id d1 d2 m1 m2 → data_step id d d2 m m2.
Proof.
  intros Hd HA HB Hm. destruct (HA Hm) as [A1 A2]. destruct (HB A2) as [B1 B2].
  split; [by eapply data_next_trans|done].
Qed.

Lemma data_step_later id d d1 d2 m m' : (d1 ≤ d2)%nat → data_step id d d1 m m' → data_step id d d2 m m'.
Proof. intros Hd HA Hm. destruct (HA Hm). split; [done|by eapply data_ok_mono]. Qed.

(** ** Changes of the data *)

Lemma on_row_slot s c m : in_slot s m = Some c → on_row c m.
Proof. destruct s; [by left|by right]. Qed.

(** Challenges are dropped *)
Lemma step_drop id d m m' :
  mfa_secret m' = mfa_secret m → mfa_last_step m' = mfa_last_step m →
  mfa_recovery_hashes m' = mfa_recovery_hashes m →
  (mfa_login m' = None ∨ mfa_login m' = mfa_login m) → (mfa_manage m' = None ∨ mfa_manage m' = mfa_manage m) →
  data_step id d d m m'.
Proof.
  intros Hs Ht Hr Hl Hg.
  assert (Hon : ∀ c, on_row c m' → on_row c m).
  { intros c [Hc|Hc]; [destruct Hl as [Hl|Hl]|destruct Hg as [Hg|Hg]]; try congruence;
      [left|right]; congruence. }
  assert (Hlive : ∀ k, live k m' → live k m).
  { intros k [Hk|(c & Hc & Hk)]; [left; congruence|right; exists c; auto]. }
  intros Hok. split.
  - split; [by left; auto| |intros h; rewrite Hr; by left|].
    + intros k Hk _ _. rewrite Hs, Ht. split; [done|lia].
    + intros c Hc. left. exists c. split_and!; auto. lia.
  - destruct Hok as [H1 H2 H3 H4 H5]. split; [auto| |by rewrite Hr|auto|].
    + intros k c Hk Hc. rewrite Hs in Hk. eauto.
    + intros a b Ha Hb. destruct Hl as [Hl|Hl], Hg as [Hg|Hg]; try congruence. apply H5; congruence.
Qed.

(** A new challenge takes a slot *)
Lemma step_new_challenge id d d' s m n ch :
  (d ≤ n < d')%nat → ch_token_hash ch = token_hash (new_token id n) → ch_secret ch = None → ch_attempts ch = 0 →
  data_step id d d' m (set_slot s (Some ch) m).
Proof.
  intros Hn Hh Hs Ha.
  assert (Hon : ∀ c, on_row c (set_slot s (Some ch) m) → c = ch ∨ on_row c m).
  { intros c. destruct s; (intros [Hc|Hc]; cbn in Hc); unfold on_row; naive_solver. }
  assert (Hsec : mfa_secret (set_slot s (Some ch) m) = mfa_secret m) by (by destruct s).
  assert (Hlive : ∀ k, live k (set_slot s (Some ch) m) → live k m).
  { intros k [Hk|(c & [->|Hc]%Hon & Hk)]; [left; congruence|congruence|right; eauto]. }
  intros Hok. split.
  - split; [by left; auto| |by destruct s; left|].
    + intros k Hk _ _. by destruct s.
    + intros c [->|Hc]%Hon; [right; exists n; split; [lia|done]|left; by exists c].
  - pose proof (data_ok_mono id d d' m ltac:(lia) Hok) as Hok'.
    assert (Hfresh : ∀ c, on_row c m → ch_token_hash c ≠ ch_token_hash ch).
    { intros c Hc Heq. destruct (ok_challenges _ _ _ Hok c Hc) as [Hf _]. apply Hf.
      exists n. split; [lia|by rewrite Heq]. }
    split.
    + intros k Hk. by apply Hok', Hlive.
    + intros k c Hk [->|Hc]%Hon; [congruence|]. apply Hok'; [congruence|done].
    + destruct s; apply Hok'.
    + intros c [->|Hc]%Hon; [|by apply Hok']. rewrite Hh, Ha. split; [apply drawn_token; lia|lia].
    + intros a b Hla Hlb. destruct s; cbn in Hla, Hlb.
      * injection Hla as <-. intros Heq. apply (Hfresh b); [by right|done].
      * injection Hlb as <-. apply Hfresh. by left.
Qed.

(** The challenge of a slot changes: more attempts, or a secret that was just drawn *)
Lemma step_slot id d d' s m c c' :
  (d ≤ d')%nat → in_slot s m = Some c → ch_token_hash c' = ch_token_hash c → ch_attempts c ≤ ch_attempts c' →
  (ch_secret c' = ch_secret c ∨ ∃ n t k, (d ≤ n < d')%nat ∧ encrypt n t = Ok k ∧ ch_secret c' = Some k) →
  data_step id d d' m (set_slot s (Some c') m).
Proof.
  intros Hd Hc Hh Ha Hk. pose proof (on_row_slot s c m Hc) as Hcm.
  assert (Hon : ∀ e, on_row e (set_slot s (Some c') m) → e = c' ∨ on_row e m).
  { intros e. destruct s; (intros [He|He]; cbn in He); unfold on_row; naive_solver. }
  assert (Hsec : mfa_secret (set_slot s (Some c') m) = mfa_secret m) by (by destruct s).
  assert (Hlive : ∀ k, live k (set_slot s (Some c') m) →
            live k m ∨ ∃ n t, (d ≤ n < d')%nat ∧ encrypt n t = Ok k).
  { intros k [Hl|(e & [->|He]%Hon & Hl)]; [left; left; congruence| |left; right; eauto].
    destruct Hk as [Hk|(n & t & k' & ? & ? & Hk)]; [left; right; exists c; split; [done|congruence]|].
    right. exists n, t. split; [done|congruence]. }
  intros Hok. split.
  - split.
    + intros k [?|(n & t & ? & ?)]%Hlive; [by left|right; exists n, t; split; [lia|done]].
    + intros k Hs _ _. by destruct s.
    + by destruct s; left.
    + intros e [->|He]%Hon; left; [exists c; split_and!; [done|congruence|done]|by exists e].
  - pose proof (data_ok_mono id d d' m Hd Hok) as Hok'. split.
    + intros k [Hl|(n & t & ? & ?)]%Hlive; [by apply Hok'|eapply drawn_secret; [|done]; lia].
    + intros k e Hs [->|He]%Hon; [|apply Hok'; [congruence|done]]. rewrite Hsec in Hs.
      destruct Hk as [Hk|(n & t & k' & ? & He & Hk)]; [rewrite Hk; by apply Hok'|].
      rewrite Hk. intros [= ->]. apply (ok_live _ _ _ Hok k); [by left|]. exists n, t. split; [lia|done].
    + destruct s; apply Hok'.
    + intros e [->|He]%Hon; [|by apply Hok']. rewrite Hh.
      destruct (ok_challenges _ _ _ Hok' c Hcm). split; [done|lia].
    + intros a b Hla Hlb. destruct s; cbn in Hla, Hlb, Hc.
      * injection Hla as <-. rewrite Hh. by apply (ok_slots _ _ _ Hok).
      * injection Hlb as <-. rewrite Hh. by apply (ok_slots _ _ _ Hok).
Qed.

Lemma remove_first_elem h h' l : h' ∈ remove_first h l → h' ∈ l.
Proof.
  induction l as [|x l IH]; cbn; [done|]. destruct (String.eqb_spec x h); [by right|].
  intros [->|?]%elem_of_cons; [left|right; auto].
Qed.

Lemma remove_first_NoDup h l : NoDup l → NoDup (remove_first h l) ∧ h ∉ remove_first h l.
Proof.
  induction 1 as [|x l Hx Hl [IH1 IH2]]; cbn; [split; [constructor|apply not_elem_of_nil]|].
  destruct (String.eqb_spec x h) as [->|Hne]; [done|]. split.
  - constructor; [|done]. by intros ?%remove_first_elem.
  - intros [->|?]%elem_of_cons; done.
Qed.

(** The factor changes: a later step, or fewer codes *)
Lemma step_factor id d m t hashes :
  mfa_last_step m ≤ t → (∀ h, h ∈ hashes → h ∈ mfa_recovery_hashes m) →
  (NoDup (mfa_recovery_hashes m) → NoDup hashes) →
  data_step id d d m (set_factor (mfa_secret m) t hashes m).
Proof.
  intros Ht Hsub Hnd [H1 H2 [H3 H3'] H4 H5]. split.
  - split; [by left|by intros|by left; auto|]. intros c Hc. left. by exists c.
  - split; [done|done| |done|done]. cbn. split; [auto|]. eauto.
Qed.

Lemma codes_elem n h : h ∈ map token_hash (recovery_codes n) → ∃ k, (n ≤ k < n + 10)%nat ∧ h = token_hash (token_hex k).
Proof.
  unfold recovery_codes. rewrite map_map. intros (k & -> & Hk)%list_elem_of_fmap.
  apply elem_of_seq in Hk. eauto.
Qed.

Lemma codes_NoDup n : NoDup (map token_hash (recovery_codes n)).
Proof.
  unfold recovery_codes. rewrite map_map. apply NoDup_fmap_2_strong, NoDup_seq.
  intros a b _ _. apply code_inj.
Qed.

(** New recovery codes *)
Lemma step_codes id d d' m n :
  (d ≤ n)%nat → (n + 10 ≤ d')%nat →
  data_step id d d' m (set_factor (mfa_secret m) (mfa_last_step m) (map token_hash (recovery_codes n)) m).
Proof.
  intros Hn Hd Hok. split.
  - split; [by left|by intros| |].
    + cbn. intros h (k & ? & ->)%codes_elem. right. exists k. split; [lia|done].
    + intros c Hc. left. by exists c.
  - apply (data_ok_mono id d d') in Hok; [|lia]. destruct Hok as [H1 H2 _ H4 H5]. split; [done|done| |done|done].
    split; [apply codes_NoDup|]. cbn. intros h (k & ? & ->)%codes_elem. apply drawn_code. lia.
Qed.

(** A reset *)
Lemma step_reset id d m :
  data_step id d d m (set_login None (set_manage None (set_factor None (-1) [] m))).
Proof.
  assert (Hon : ∀ c, ¬ on_row c (set_login None (set_manage None (set_factor None (-1) [] m)))) by (by intros c [Hc|Hc]).
  assert (Hlive : ∀ k, ¬ live k (set_login None (set_manage None (set_factor None (-1) [] m)))).
  { intros k [Hk|(c & Hc & _)]; [done|by eapply Hon]. }
  intros _. split.
  - split; [by intros k ?%Hlive|by intros k _ _ ?%Hlive|by intros h ?%elem_of_nil|by intros c ?%Hon].
  - split; [by intros k ?%Hlive|done| |by intros c ?%Hon|done].
    split; [constructor|by intros h ?%elem_of_nil].
Qed.

(** An enrolment: the secret of a challenge becomes the secret of the account *)
Lemma step_enroll id d d' s m c n t :
  (d ≤ n)%nat → (n + 10 ≤ d')%nat → in_slot s m = Some c →
  data_step id d d' m (clear_challenges (set_factor (ch_secret c) t (map token_hash (recovery_codes n)) m)).
Proof.
  intros Hn Hd Hc. pose proof (on_row_slot s c m Hc) as Hcm.
  set (m' := clear_challenges _).
  assert (Hon : ∀ e, ¬ on_row e m') by (by intros e [He|He]).
  assert (Hlive : ∀ k, live k m' → ch_secret c = Some k).
  { intros k [Hk|(e & He & _)]; [done|by apply Hon in He]. }
  assert (Hsub : ∀ k, live k m' → live k m) by (intros k Hk%Hlive; right; eauto).
  intros Hok. split.
  - split; [by left; auto| | |by intros e ?%Hon].
    + intros k Hk _ Hl%Hlive. exfalso. by apply (ok_secret _ _ _ Hok k c).
    + cbn. intros h (k & ? & ->)%codes_elem. right. exists k. split; [lia|done].
  - apply (data_ok_mono id d d') in Hok; [|lia]. split; [|by intros k e _ ?%Hon| |by intros e ?%Hon|done].
    + intros k Hk. by apply Hok, Hsub.
    + split; [apply codes_NoDup|]. cbn. intros h (k & ? & ->)%codes_elem. apply drawn_code. lia.
Qed.

(** ** Worlds *)

Definition data_next_row (id : string) (d : nat) (r r' : AuthModel) : Prop :=
  data_next id d (data_of r) (data_of r')
  ∧ (au_mfa r' = au_mfa r ∨ ∃ m, au_mfa r' = Some m ∧ future_uuid d (mfa_revision m))
  ∧ (au_session_stamp r' = au_session_stamp r ∨ ∃ u, au_session_stamp r' = Some u ∧ future_uuid d u).

Definition row_next (id : string) (d : nat) (o o' : option AuthModel) : Prop :=
  match o, o' with
  | _, None => True
  | None, Some _ => False
  | Some r, Some r' => data_next_row id d r r'
  end.

(** What may happen to a world *)
Definition R (w w' : world) : Prop :=
  (w_drawn w ≤ w_drawn w')%nat ∧ ∀ id, row_next id (w_drawn w) (w_auths w !! id) (w_auths w' !! id).

(** What holds of a world *)
Definition row_ok (id : string) (d : nat) (r : AuthModel) : Prop :=
  au_id r = id ∧ data_ok id d (data_of r)
  ∧ (∀ m, au_mfa r = Some m → ¬ future_uuid d (mfa_revision m))
  ∧ (∀ u, au_session_stamp r = Some u → ¬ future_uuid d u).
Definition I (w : world) : Prop := ∀ id r, w_auths w !! id = Some r → row_ok id (w_drawn w) r.

Lemma data_next_row_refl id d r : data_next_row id d r r.
Proof. split_and!; [apply data_next_refl|by left|by left]. Qed.

Lemma row_next_refl id d o : row_next id d o o.
Proof. destruct o; [apply data_next_row_refl|done]. Qed.

#[export] Instance R_preorder : PreOrder R.
Proof.
  split.
  - intros w. split; [done|]. intros id. apply row_next_refl.
  - intros w1 w2 w3 [A1 A2] [B1 B2]. split; [lia|]. intros id. specialize (A2 id). specialize (B2 id).
    destruct (w_auths w1 !! id) as [r1|], (w_auths w2 !! id) as [r2|], (w_auths w3 !! id) as [r3|]; try done.
    destruct A2 as (N1 & V1 & S1), B2 as (N2 & V2 & S2). split_and!; [by eapply data_next_trans| |].
    + destruct V2 as [->|(m & -> & ?)]; [done|]. right. exists m. split; [done|by eapply future_uuid_mono].
    + destruct S2 as [->|(u & -> & ?)]; [done|]. right. exists u. split; [done|by eapply future_uuid_mono].
Qed.

(** ** One-time things *)

Inductive key :=
| KStep (id secret : string) (step : Z)        (** a step of an authenticator *)
| KCode (id digest : string)                   (** a recovery code *)
| KChallenge (id hash : string)                (** a challenge that signs in *)
| KAttempt (id hash : string) (n : Z).         (** the n-th attempt at a challenge *)

Definition key_id (κ : key) : string :=
  match κ with KStep id _ _ | KCode id _ | KChallenge id _ | KAttempt id _ _ => id end.

Definition spent_in (κ : key) (d : nat) (m : MfaData) : Prop :=
  match κ with
  | KStep _ k t => ¬ future_secret d k ∧ (live k m → mfa_secret m = Some k ∧ t ≤ mfa_last_step m)
  | KCode _ h => ¬ future_code d h ∧ h ∉ mfa_recovery_hashes m
  | KChallenge id h => ¬ future_token id d h ∧ ∀ c, on_row c m → ch_token_hash c ≠ h
  | KAttempt id h n => ¬ future_token id d h ∧ ∀ c, on_row c m → ch_token_hash c = h → n ≤ ch_attempts c
  end.

Definition used (κ : key) (w : world) : Prop :=
  match w_auths w !! key_id κ with Some r => spent_in κ (w_drawn w) (data_of r) | None => True end.

Lemma spent_mono κ d d' m m' :
  (d ≤ d')%nat → data_next (key_id κ) d m m' → spent_in κ d m → spent_in κ d' m'.
Proof.
  intros Hd [N1 N2 N3 N4]. destruct κ as [id k t|id h|id h|id h n]; cbn in *; intros [Hf Hm].
  - split; [intros ?; by eapply Hf, future_secret_mono|]. intros Hl.
    destruct (N1 k Hl) as [Hl0|?]; [|done]. destruct (Hm Hl0) as [Hs ?].
    destruct (N2 k Hs Hf Hl) as [? ?]. split; [done|lia].
  - split; [intros ?; by eapply Hf, future_code_mono|]. by intros [?|?]%N3.
  - split; [intros ?; by eapply Hf, future_token_mono|].
    intros c [(c0 & Hc0 & Heq & _)|Hfut]%N4 Hh; [|by rewrite Hh in Hfut]. apply (Hm c0 Hc0). congruence.
  - split; [intros ?; by eapply Hf, future_token_mono|].
    intros c [(c0 & Hc0 & Heq & ?)|Hfut]%N4 Hh; [|by rewrite Hh in Hfut].
    assert (n ≤ ch_attempts c0) by (apply Hm; [done|congruence]). lia.
Qed.

Lemma used_mono κ w w' : R w w' → I w → used κ w → used κ w'.
Proof.
  intros [Hd Hr] _. unfold used. specialize (Hr (key_id κ)).
  destruct (w_auths w !! _) as [r|], (w_auths w' !! _) as [r'|]; try done.
  apply spent_mono; [done|apply Hr].
Qed.

Notation wp := (wp I R (spend used)).

(** ** Saving *)

(** The row [auth] was read from an earlier world *)
Definition snapshot (auth : AuthModel) (w : world) : Prop :=
  ∃ w0 r, I w0 ∧ R w0 w ∧ w_auths w0 !! au_id auth = Some r ∧ au_mfa r = au_mfa auth.

Lemma snapshot_mono auth w w' : R w w' → snapshot auth w → snapshot auth w'.
Proof. intros HR (w0 & r & ? & ? & ? & ?). exists w0, r. split_and!; [done|by etrans|done..]. Qed.

Lemma snapshot_read auth w id : I w → w_auths w !! id = Some auth → snapshot auth w.
Proof. intros HI Hr. destruct (HI id auth Hr) as [<- _]. exists w, auth. by split_and!. Qed.

(** Same revision, same data *)
Lemma snapshot_current auth w row :
  snapshot auth w → w_auths w !! au_id auth = Some row →
  same_revision (au_mfa auth) (au_mfa row) = true → au_mfa row = au_mfa auth.
Proof.
  intros (w0 & r & HI & [_ HR] & Hr & Hm) Hrow Hsame%bool_decide_eq_true.
  specialize (HR (au_id auth)). rewrite Hr, Hrow in HR. destruct HR as (_ & Hv & _).
  destruct (HI _ _ Hr) as (_ & _ & Hrev & _). rewrite <-Hm in *.
  destruct Hv as [?|(m & Hnew & Hf)]; [done|]. rewrite Hnew in Hsame.
  destruct (au_mfa r) as [m0|]; [|done]. injection Hsame as He. exfalso. apply (Hrev m0); [done|]. by rewrite He.
Qed.

(** A row is written with values drawn by the statement *)
Lemma world_save w id row d a b m stamp :
  I w → w_auths w !! id = Some row →
  data_step id (w_drawn w) (d + w_drawn w) (data_of row) (default new_data m) →
  (w_drawn w ≤ a < 2 + (d + w_drawn w) ∧ w_drawn w ≤ b < 2 + (d + w_drawn w))%nat →
  (m = au_mfa row ∨ ∃ x, m = Some x ∧ mfa_revision x = uuid4 a) →
  (stamp = au_session_stamp row ∨ stamp = Some (uuid4 b)) →
  let w' := set_auths (<[id := set_mfa m stamp row]> (w_auths w)) (draw_more 2 (draw_more d w)) in
  I w' ∧ R w w'.
Proof.
  intros HI Hrow Hstep [Ha Hb] Hm Hstamp w'. pose proof (HI id row Hrow) as (Hid & Hok & Hrev & Hst).
  destruct (Hstep Hok) as [Hn Ho]. split.
  - intros id' r'. cbn. destruct (decide (id' = id)) as [->|Hne].
    + rewrite lookup_insert_eq. intros [= <-]. split_and!; [done| | |].
      * apply (data_ok_mono id (d + w_drawn w)); [lia|]. exact Ho.
      * cbn. intros m' Hm' Hf. destruct Hm as [->|(x & -> & Hx)].
        -- apply (Hrev m' Hm'). eapply future_uuid_mono; [|done]. lia.
        -- injection Hm' as <-. revert Hf. rewrite Hx. apply drawn_uuid. lia.
      * cbn. intros v ->. destruct Hstamp as [Hstamp|[= ->]]; [|apply drawn_uuid; lia].
        intros Hf. apply (Hst v); [done|]. eapply future_uuid_mono; [|done]. lia.
    + rewrite lookup_insert_ne by done. intros Hr'. destruct (HI id' r' Hr') as (? & ? & Hrev' & Hst').
      split_and!; [done|by apply (data_ok_mono id' (w_drawn w)); [lia|]| |].
      * intros m' Hm' Hf. apply (Hrev' m' Hm'). eapply future_uuid_mono; [|done]. lia.
      * intros v Hv Hf. apply (Hst' v Hv). eapply future_uuid_mono; [|done]. lia.
  - split; [cbn; lia|]. intros id'. cbn. destruct (decide (id' = id)) as [->|Hne].
    + rewrite lookup_insert_eq, Hrow. split_and!; [exact Hn| |].
      * cbn. destruct Hm as [->|(x & -> & Hx)]; [by left|right]. exists x. split; [done|].
        exists a. split; [lia|done].
      * cbn. destruct Hstamp as [->| ->]; [by left|right]. eexists. split; [done|].
        exists b. split; [lia|done].
    + rewrite lookup_insert_ne by done. apply row_next_refl.
Qed.

Lemma world_draw d w : I w → I (draw_more d w) ∧ R w (draw_more d w).
Proof.
  intros HI. split.
  - intros id r Hr. cbn in Hr. destruct (HI id r Hr) as (? & ? & Hrev & Hst). split_and!; [done| | |].
    + apply (data_ok_mono id (w_drawn w)); [cbn; lia|done].
    + intros m Hm Hf. apply (Hrev m Hm). eapply future_uuid_mono; [|done]. cbn. lia.
    + intros u Hu Hf. apply (Hst u Hu). eapply future_uuid_mono; [|done]. cbn. lia.
  - split; [cbn; lia|]. intros id. apply row_next_refl.
Qed.

(** What a save may change in its row, and the keys it spends *)
Definition spends (id : string) (d d' : nat) (m m' : MfaData) (T : list key) : Prop :=
  ∀ κ, κ ∈ T → key_id κ = id ∧ ¬ spent_in κ d m ∧ spent_in κ d' m'.

Lemma spends_none id d d' m m' : spends id d d' m m' [].
Proof. by intros κ ?%elem_of_nil. Qed.

(** What is known of the row a save answers *)
Definition saved (auth : AuthModel) (m : MfaData) (updated : AuthModel) (w : world) : Prop :=
  snapshot updated w ∧ au_id updated = au_id auth ∧ ∃ rev, au_mfa updated = Some (set_revision rev m).

Lemma spent_revision κ d rev m : spent_in κ d (set_revision rev m) ↔ spent_in κ d m.
Proof. by destruct κ. Qed.

(** Compare and swap after [n] draws: nothing, or the row that was read is replaced *)
Lemma update_cases auth m revoke n w :
  snapshot auth w → I w →
  (data_ok (au_id auth) (w_drawn w) (data_of auth) →
   data_step (au_id auth) (w_drawn w) (n + w_drawn w) (data_of auth) m) →
  update_mfa_by_id auth m revoke (draw_more n w) = (Ok None, draw_more 2 (draw_more n w)) ∨
  ∃ row stamp w',
    let m' := set_revision (uuid4 (n + w_drawn w)) m in
    update_mfa_by_id auth m revoke (draw_more n w) = (Ok (Some (set_mfa (Some m') stamp auth)), w') ∧
    I w' ∧ R w w' ∧ w_auths w !! au_id auth = Some row ∧ au_mfa row = au_mfa auth ∧
    data_ok (au_id auth) (w_drawn w) (data_of auth) ∧ w_drawn w' = (2 + (n + w_drawn w))%nat ∧
    w_auths w' !! au_id auth = Some (set_mfa (Some m') stamp row).
Proof.
  intros Hsnap HI Hstep. unfold update_mfa_by_id. change (w_auths (draw_more n w)) with (w_auths w).
  destruct (w_auths w !! au_id auth) as [row|] eqn:Erow; [|by left].
  destruct (_ && _) eqn:Ecas; [right|by left].
  apply andb_prop in Ecas as [[_ Hstamp%bool_decide_eq_true]%andb_prop Hsame].
  pose proof (snapshot_current auth w row Hsnap Erow Hsame) as Hm.
  assert (Hdata : data_of row = data_of auth) by (unfold data_of; by rewrite Hm).
  assert (Hdok : data_ok (au_id auth) (w_drawn w) (data_of auth)).
  { destruct (HI _ _ Erow) as (_ & Hd & _). by rewrite Hdata in Hd. }
  specialize (Hstep Hdok). set (stamp := if revoke then _ else _).
  destruct (world_save w (au_id auth) row n (n + w_drawn w)%nat (1 + (n + w_drawn w))%nat
              (Some (set_revision (uuid4 (n + w_drawn w)) m)) stamp HI Erow) as [HI2 HR2].
  { rewrite Hdata. cbn [default option_map]. intros Hd. destruct (Hstep Hd) as [[N1 N2 N3 N4] [O1 O2 O3 O4 O5]].
    by split; split. }
  { lia. }
  { right. by eexists. }
  { unfold stamp. destruct revoke; [by right|left; by rewrite Hstamp]. }
  eexists row, stamp, _. split_and!; [reflexivity|exact HI2|exact HR2|done..|].
  cbn. by rewrite lookup_insert_eq.
Qed.

Lemma world_draw_more a b w : I w → I (draw_more a (draw_more b w)) ∧ R w (draw_more a (draw_more b w)).
Proof.
  intros HI. destruct (world_draw b w HI) as [HI1 HR1]. destruct (world_draw a _ HI1) as [HI2 HR2].
  split; [done|by etrans].
Qed.

Lemma wp_save {X} (Q : res (AuthModel * X) → list key → world → Prop) S auth draws f revoke w :
  snapshot auth w →
  (∀ w1 e, R w w1 → I w1 → f (w_drawn w1) = Err e → Q (Err e) S w1) →
  (∀ w1 msg, R w w1 → I w1 → Q (Err (HTTPException 409 msg)) S w1) →
  (∀ w1 m x, R w w1 → I w1 → f (w_drawn w1) = Ok (m, x) →
     let d := w_drawn w1 in
     data_ok (au_id auth) d (data_of auth) →
     data_step (au_id auth) d (draws + d) (data_of auth) m ∧
     ∃ T, spends (au_id auth) d (draws + d) (data_of auth) m T ∧
       ∀ updated w2, R w1 w2 → saved auth m updated w2 → Q (Ok (updated, x)) (T ++ S) w2) →
  wp Q S (save_mfa auth draws f revoke) w.
Proof.
  intros Hsnap Herr H409 Hok. unfold save_mfa. apply wp_bind, wp_perform. intros w1 HR HI.
  unfold save_statement. destruct (f (w_drawn w1)) as [[m x]|e] eqn:Ef; cbn [fst snd].
  2:{ split_and!; [done..|]. exists []. split; [by intros κ ?%elem_of_nil|eauto]. }
  rewrite st_bind_eq.
  destruct (update_cases auth m revoke draws w1) as [->|(row & stamp & w2 & -> & HI2 & HR2 & Hrow & Hm & Hd & Hd2 & Hrow2)].
  - by eapply snapshot_mono.
  - done.
  - intros Hd. by apply (Hok w1 m x HR HI Ef Hd).
  - destruct (world_draw_more 2 draws w1 HI) as [HI2 HR2]. cbn [mret st_ret fst snd mbind st_bind fmap option_fmap option_map].
    split_and!; [done..|]. exists []. split; [by intros κ ?%elem_of_nil|]. apply H409; [by etrans|done].
  - destruct (Hok w1 m x HR HI Ef Hd) as (_ & T & HT & HQ).
    cbn [mret st_ret fst snd mbind st_bind fmap option_fmap option_map].
    split_and!; [done..|]. exists T. split.
    + intros κ Hκ. destruct (HT κ Hκ) as (Hid & Hn & Hs). unfold used. rewrite Hid, Hrow, Hrow2. split.
      * unfold data_of at 1. by rewrite Hm.
      * unfold data_of. cbn [au_mfa set_mfa default option_map]. rewrite Hd2. apply spent_revision.
        eapply spent_mono; [|apply data_next_refl|exact Hs]. lia.
    + apply HQ; [done|]. split_and!; [|done|by eexists]. by eexists w2, _.
Qed.

(** ** Reading *)

Lemma wp_reads {A} (Q : res A → list key → world → Prop) S (f : world → A) w :
  (∀ w1, R w w1 → I w1 → Q (Ok (f w1)) S w1) → wp Q S (query f) w.
Proof. exact (wp_query I R (spend used) (spend_nothing used) Q S f w). Qed.

Lemma wp_get_auth (Q : res AuthModel → list key → world → Prop) S id w :
  (∀ e w1, Q (Err e) S w1) → (∀ auth w1, R w w1 → snapshot auth w1 → au_id auth = id → Q (Ok auth) S w1) →
  wp Q S (get_auth id) w.
Proof.
  intros He Hok. unfold get_auth, get_auth_by_id. apply wp_bind, wp_reads. intros w1 HR HI.
  destruct (w_auths w1 !! id) as [auth|] eqn:E; [|apply He].
  destruct (au_active auth); [|apply He]. apply Hok; [done|by eapply snapshot_read|]. by apply (HI id).
Qed.

(** Reads the world and goes on *)
Ltac wp_read := apply wp_bind, wp_reads; let w := fresh "w" in let HR := fresh "HR" in let HI := fresh "HI" in
  intros w HR HI; cbv beta iota.

Lemma wp_limit_loop (Q : res AuthModel → list key → world → Prop) S n id kind expected w :
  (∀ e w1, Q (Err e) S w1) → (∀ auth w1, snapshot auth w1 → au_id auth = id → Q (Ok auth) S w1) →
  wp Q S (limit_loop n id kind expected) w.
Proof.
  intros He Hok. revert w. induction n as [|n IH]; intros w; cbn [limit_loop]; [apply He|].
  apply wp_bind, wp_get_auth; [intros; apply He|]. intros auth w1 HR Hs Hid.
  match goal with |- wp _ _ (if ?b then _ else _) _ => destruct b end; [apply He|]. wp_read.
  destruct (10 <=? _); [apply He|]. apply wp_try, wp_fmap, wp_save.
  - by eapply snapshot_mono.
  - by intros w2 e _ _ [=].
  - intros w2 msg _ _. cbn. apply IH.
  - intros w2 m x _ _ [= <- <-] d _. split; [apply step_drop; try done; by right|].
    exists []. split; [apply spends_none|]. intros updated w3 _ (Hsn & Hi & _). apply Hok; [done|]. cbn. by rewrite Hi.
Qed.

Lemma wp_limit_account (Q : res AuthModel → list key → world → Prop) S id kind expected w :
  (∀ e w1, Q (Err e) S w1) → (∀ auth w1, snapshot auth w1 → au_id auth = id → Q (Ok auth) S w1) →
  wp Q S (limit_account id kind expected) w.
Proof. apply wp_limit_loop. Qed.

(** What [load_challenge] answers *)
Definition loaded_ok (token : string) (kinds : list challenge_type) (l : loaded) (w : world) : Prop :=
  snapshot (lo_auth l) w ∧ lo_mfa l = data_of (lo_auth l) ∧ lo_slot l = slot_for kinds token (lo_mfa l)
  ∧ in_slot (lo_slot l) (lo_mfa l) = Some (lo_challenge l) ∧ ch_token_hash (lo_challenge l) = token_hash token
  ∧ ch_type (lo_challenge l) ∈ kinds.

Definition attempt_key (l : loaded) : key :=
  KAttempt (au_id (lo_auth l)) (ch_token_hash (lo_challenge l)) (ch_attempts (lo_challenge l)).
Definition attempt_spent (l : loaded) (T : list key) : Prop :=
  1 ≤ ch_attempts (lo_challenge l) ≤ 5 ∧ attempt_key l ∈ T.

Lemma attempt_spends id d m s c n m' :
  data_ok id d m → in_slot s m = Some c → n = ch_attempts c + 1 →
  mfa_login m' = mfa_login (set_slot s (Some (add_attempt c)) m) →
  mfa_manage m' = mfa_manage (set_slot s (Some (add_attempt c)) m) →
  spends id d d m m' [KAttempt id (ch_token_hash c) n].
Proof.
  intros Hok Hc -> Hl Hg κ ->%list_elem_of_singleton. pose proof (on_row_slot s c m Hc) as Hcm.
  destruct (ok_challenges _ _ _ Hok c Hcm) as [Hf Ha]. split; [done|]. split.
  - intros [_ Hle]. specialize (Hle c Hcm eq_refl). lia.
  - split; [done|]. intros e [He|He]; rewrite ?Hl, ?Hg in He; destruct s; cbn in He, Hc;
      first [injection He as <-; intros _; cbn; lia|intros Heq; exfalso].
    + by apply (ok_slots _ _ _ Hok e c).
    + by apply (ok_slots _ _ _ Hok c e).
Qed.

Lemma slot_for_same kinds token m m' :
  mfa_manage m' = mfa_manage m ∨
  (∃ c c', mfa_manage m = Some c ∧ mfa_manage m' = Some c' ∧ ch_token_hash c' = ch_token_hash c) →
  slot_for kinds token m' = slot_for kinds token m.
Proof. unfold slot_for. intros [->|(c & c' & -> & -> & Hh)]; [done|]. cbn. by rewrite Hh. Qed.

Lemma wp_load_loop (Q : res loaded → list key → world → Prop) S n id token kinds attempt auth w :
  snapshot auth w → au_id auth = id →
  (∀ e w1, Q (Err e) S w1) →
  (∀ l T w1, loaded_ok token kinds l w1 → (attempt = true → attempt_spent l T) → Q (Ok l) (T ++ S) w1) →
  wp Q S (load_loop n id token kinds attempt auth) w.
Proof.
  intros Hs Hid He Hok. revert auth w Hs Hid.
  induction n as [|n IH]; intros auth w Hs Hid; cbn [load_loop]; [apply He|].
  wp_read. apply (snapshot_mono _ _ _ HR) in Hs. clear dependent w.
  destruct (in_slot _ (data_of auth)) as [c|] eqn:Hc; [|apply He].
  destruct (usable _ _ _ _ _) eqn:Hu; [|apply He]. cbn [negb].
  apply andb_prop in Hu as [[[Ht _]%andb_prop _]%andb_prop Hh%String.eqb_eq].
  apply bool_decide_eq_true in Ht.
  wp_read. apply (snapshot_mono _ _ _ HR) in Hs. clear dependent w0.
  destruct (w_users w !! id) as [user|]; [|apply He]. destruct (negb (_ || _)); [apply He|].
  wp_read. apply (snapshot_mono _ _ _ HR) in Hs. clear dependent w.
  destruct (negb _); [apply He|]. destruct attempt; cbn [negb].
  2:{ apply (Hok (Loaded user auth (data_of auth) c _) []); [|done]. by split_and!. }
  destruct (Z.leb_spec 5 (ch_attempts c)) as [|Hlt]; [apply He|].
  wp_read. apply (snapshot_mono _ _ _ HR) in Hs. clear dependent w0.
  destruct (10 <=? _); [apply He|]. apply wp_try, wp_bind, wp_save; [done|by intros w2 e _ _ [=]| |].
  - intros w2 msg _ _. cbv beta iota. cbn [retry]. apply wp_bind, wp_get_auth; [intros; apply He|]. intros auth' w3 _ Hs' Hid'. by apply IH.
  - set (s := slot_for _ _ _) in *. intros w2 m x _ HI2 [= <- <-] d Hdok.
    set (limits := count_attempt _ _ _). split.
    { eapply data_step_trans; [done|by apply (step_drop _ _ _ limits); try done; right|].
      apply (step_slot _ _ _ s limits c); [done|by destruct s|done|cbn; lia|by left]. }
    exists [KAttempt (au_id auth) (ch_token_hash c) (ch_attempts c + 1)]. split.
    { eapply attempt_spends; [done|exact Hc|done|by destruct s|by destruct s]. }
    intros updated w3 _ (Hsn & Hi & rev & Hm). cbn.
    assert (Hd : data_of updated = set_revision rev (set_slot s (Some (add_attempt c)) limits))
      by (unfold data_of; by rewrite Hm).
    apply (Hok (Loaded user updated (data_of updated) (add_attempt c) s) [_]).
    + split_and!; [done|done| |rewrite Hd; by destruct s|done|done]. unfold s at 1. symmetry. apply slot_for_same.
      rewrite Hd. cbn [lo_mfa]. destruct s; cbn in Hc |- *; [by left|right; eauto].
    + intros _. destruct (ok_challenges _ _ _ Hdok c (on_row_slot _ _ _ Hc)). split; [cbn; lia|].
      unfold attempt_key. cbn. rewrite Hi. left.
Qed.

Lemma wp_load (Q : res loaded → list key → world → Prop) S token kinds attempt w :
  (∀ e w1, Q (Err e) S w1) →
  (∀ l T w1, loaded_ok token kinds l w1 → (attempt = true → attempt_spent l T) → Q (Ok l) (T ++ S) w1) →
  wp Q S (load_challenge token kinds attempt) w.
Proof.
  intros He Hok. unfold load_challenge. destruct (before_dot token); [|apply He].
  destruct (64 <? _)%nat; [apply He|]. apply wp_bind, wp_get_auth; [intros; apply He|].
  intros auth w1 _ Hs Hid. by apply wp_load_loop.
Qed.

(** ** Requests *)

(** The key of the factor a sign-in spent *)
Definition factor_key (code : string) (recovery : bool) (auth : AuthModel) : list key :=
  if recovery then [KCode (au_id auth) (token_hash (Str.lower (Str.strip code)))]
  else match mfa_secret (data_of auth) with
       | Some k => [KStep (au_id auth) k (mfa_last_step (data_of auth))]
       | None => []
       end.

Definition keys (a : response) : list key :=
  match a with
  | Verified code recovery l auth _ =>
      KChallenge (au_id auth) (ch_token_hash (lo_challenge l)) :: factor_key code recovery auth
  | Attempted l => [attempt_key l]
  | _ => []
  end.

Definition post (a : response) : Prop :=
  match a with
  | Verified _ recovery l auth _ => recovery = false → is_Some (mfa_secret (data_of auth))
  | Attempted l => 1 ≤ ch_attempts (lo_challenge l) ≤ 5
  | _ => True
  end.

Notation shows := (shows post keys).

(** Answers without keys *)
Lemma shows_nothing a S (w : world) : keys a = [] → post a → shows (Ok a) S w.
Proof. intros Hk Hp. split; [done|]. rewrite Hk. by intros κ ?%elem_of_nil. Qed.

Lemma consume_cases now m code recovery m1 :
  consume_factor now m code recovery = Ok m1 →
  (recovery = true ∧ token_hash (Str.lower (Str.strip code)) ∈ mfa_recovery_hashes m ∧
   m1 = set_factor (mfa_secret m) (mfa_last_step m)
          (remove_first (token_hash (Str.lower (Str.strip code))) (mfa_recovery_hashes m)) m)
  ∨ (recovery = false ∧ ∃ k t, mfa_secret m = Some k ∧ mfa_last_step m < t ∧
     m1 = set_factor (mfa_secret m) t (mfa_recovery_hashes m) m).
Proof.
  unfold consume_factor. destruct recovery.
  - case_bool_decide; [|done]. intros [= <-]. by left.
  - destruct (truthy_text (mfa_secret m)) as [k|] eqn:Ek; [|done].
    intros (text & _ & Hr)%bind_Ok. destruct (matching_step _ _ _ _) as [t|] eqn:Et; [|done].
    injection Hr as <-. right. split; [done|]. exists k, t. split_and!; [|..|done].
    + unfold truthy_text in Ek. destruct (mfa_secret m) as [[]|]; congruence.
    + unfold matching_step in Et. destruct (negb _); [done|].
      assert (Hin : t ∈ List.filter (λ step, (mfa_last_step m <? step) &&
        String.eqb (totp_at text (step * 30)) (Str.strip code)) [now / 30; now / 30 - 1; now / 30 + 1]).
      { destruct (List.filter _ _); [done|]. injection Et as <-. left. }
      apply list_elem_of_In, filter_In in Hin as [_ [Hlt%Z.ltb_lt _]%andb_prop]. done.
Qed.

Lemma step_consume id d now m code recovery m1 :
  consume_factor now m code recovery = Ok m1 → data_step id d d m m1.
Proof.
  intros [(-> & Hin & ->)|(-> & k & t & Hk & Ht & ->)]%consume_cases; apply step_factor; try done; try lia.
  - intros h. apply remove_first_elem.
  - intros Hnd. by apply remove_first_NoDup.
Qed.

Definition consumed_key (id : string) (m1 : MfaData) (code : string) (recovery : bool) : list key :=
  if recovery then [KCode id (token_hash (Str.lower (Str.strip code)))]
  else match mfa_secret m1 with Some k => [KStep id k (mfa_last_step m1)] | None => [] end.

Lemma spends_consume id d now m code recovery m1 c :
  data_ok id d m → consume_factor now m code recovery = Ok m1 → mfa_login m = Some c →
  spends id d d m (set_login None m1) (KChallenge id (ch_token_hash c) :: consumed_key id m1 code recovery).
Proof.
  intros Hok Hc Hl κ [->|Hκ]%elem_of_cons.
  - destruct (ok_challenges _ _ _ Hok c) as [Hf _]; [by left|]. split; [done|]. split.
    + intros [_ Hne]. by apply (Hne c); [left|].
    + split; [done|]. intros e [He|He]; [done|]. apply not_eq_sym, (ok_slots _ _ _ Hok c e Hl).
      apply consume_cases in Hc as [(_ & _ & ->)|(_ & ? & ? & _ & _ & ->)]; exact He.
  - apply consume_cases in Hc as [(-> & Hin & ->)|(-> & k & t & Hk & Ht & ->)]; cbn in Hκ.
    + apply list_elem_of_singleton in Hκ as ->. destruct (ok_codes _ _ _ Hok) as [Hnd Hf].
      split; [done|]. split; [by intros [_ ?]|]. split; [by apply Hf|]. by apply remove_first_NoDup.
    + rewrite Hk in Hκ. apply list_elem_of_singleton in Hκ as ->.
      split; [done|]. split; [intros [_ Hle]; destruct Hle; [by left|lia]|].
      split; [apply Hok; by left|]. cbn. split; [done|lia].
Qed.

Lemma wp_session (Q : res claims → list key → world → Prop) S user source auth verified t w :
  (∀ r w1, Q r S w1) → wp Q S (create_session_response user source auth verified t) w.
Proof.
  intros HQ. unfold create_session_response. apply wp_bind, wp_get_auth; [done|]. intros current w1 _ _ _.
  destruct (negb _); [apply HQ|]. wp_read. destruct (_ && _); [apply HQ|]. wp_read. apply HQ.
Qed.

Lemma wp_challenge_response (Q : res challenge_answer → list key → world → Prop) S token c w :
  (∀ r w1, Q r S w1) → wp Q S (challenge_response token c) w.
Proof. intros HQ. unfold challenge_response. wp_read. apply HQ. Qed.

Lemma wp_start_login (Q : res challenge_answer → list key → world → Prop) S auth method oauth provider w :
  snapshot auth w → (∀ r w1, Q r S w1) → wp Q S (start_mfa_login auth method oauth provider) w.
Proof.
  intros Hs HQ. unfold start_mfa_login. wp_read. apply wp_bind, wp_save; [by eapply snapshot_mono|done|done|].
  intros w1 m x _ _ [= <- <-] d _. split; [by apply (step_new_challenge _ _ _ LoginChallenge _ d); [lia|..]|].
  exists []. split; [apply spends_none|]. intros updated w2 _ _. by apply wp_challenge_response.
Qed.

Lemma handle_sign_in user source auth oauth provider w :
  wp shows [] (handle (SignIn user source auth oauth provider)) w.
Proof.
  cbn [handle]. apply wp_fmap. unfold create_signin_response. apply wp_bind, wp_get_auth; [done|].
  intros current w1 _ Hs _. destruct (negb _); [done|]. wp_read.
  destruct (_ && _); [by apply shows_nothing|].
  destruct (is_mfa_required _ _); apply wp_fmap.
  - apply wp_start_login; [by eapply snapshot_mono|]. intros [a|e] w2; [by apply shows_nothing|done].
  - apply wp_session. intros [a|e] w2; [by apply shows_nothing|done].
Qed.

Lemma handle_verify token code recovery w : wp shows [] (handle (VerifyChallenge token code recovery)) w.
Proof.
  cbn [handle]. unfold verify_mfa_challenge. apply wp_bind, wp_bind, wp_load; [done|].
  intros l T w1 (Hs & Hm & Hslot & Hin & Hh & _) _. rewrite Hslot in Hin. cbn in Hin.
  wp_read. apply wp_bind. destruct (consume_factor _ _ _ _) as [m1|e] eqn:Ec; [|done]. cbn [wp lift].
  apply wp_bind, wp_save; [by eapply snapshot_mono|done|done|].
  intros w2 m x _ _ [= <- <-] d Hok. rewrite Hm in Ec, Hin. split.
  { eapply data_step_trans; [done|by eapply step_consume|]. apply step_drop; try done; [by left|by right]. }
  eexists. split; [by eapply spends_consume|]. intros updated w3 _ (_ & Hi & rev & Hu). cbv beta iota.
  apply wp_fmap, wp_session. intros [cl|e] w4; [|done].
  assert (Hd : data_of updated = set_revision rev (set_login None m1)) by (unfold data_of; by rewrite Hu).
  assert (Hk : factor_key code recovery updated = consumed_key (au_id (lo_auth l)) m1 code recovery).
  { unfold factor_key, consumed_key. by rewrite Hd, Hi. }
  split.
  - cbn. intros ->. rewrite Hd. apply consume_cases in Ec as [(? & _)|(_ & k & t & Hsk & _ & ->)]; [done|]. by exists k.
  - cbn. rewrite Hk, Hi. intros κ [->|Hκ]%elem_of_cons; [left|right; apply elem_of_app; by left].
Qed.

Lemma handle_setup token w : wp shows [] (handle (StartEnrollment token)) w.
Proof.
  cbn [handle]. apply wp_fmap. unfold start_mfa_enrollment. apply wp_bind, wp_load; [done|].
  intros l T v1 (Hs & Hm & _ & Hin & _) _. destruct (truthy_text _) as [k|].
  { apply wp_bind. destruct (decrypt_secret k) as [t|e]; [by apply shows_nothing|done]. }
  apply wp_bind, wp_save; [done|done|done|]. intros v2 m x _ _ Hf d _. apply bind_Ok in Hf as (k & Hk & [= <- <-]).
  split.
  - rewrite Hm in *. apply (step_slot _ _ _ _ _ (lo_challenge l)); [lia|done|done|done|].
    right. exists (1 + d)%nat, (random_base32 d), k. split_and!; [lia|lia|done..].
  - exists []. split; [apply spends_none|]. intros updated v3 _ _. by apply shows_nothing.
Qed.

Lemma handle_confirm token code w : wp shows [] (handle (ConfirmEnrollment token code)) w.
Proof.
  cbn [handle]. apply wp_fmap. unfold confirm_mfa_enrollment. apply wp_bind, wp_load; [done|].
  intros l T v1 (Hs & Hm & _ & Hin & _) _. wp_read. apply wp_bind.
  match goal with |- wp _ _ (lift ?r) _ => destruct r as [[step|]|e] end; [|done..]. cbn [wp lift].
  apply wp_bind, wp_save; [by eapply snapshot_mono|done|done|]. intros v2 m x _ _ [= <- <-] d _. split.
  - rewrite Hm in *. eapply data_step_trans; [|eapply (step_enroll _ d (10 + d) _ _ _ d step)|]; [lia..|exact Hin|].
    apply step_drop; try done; by right.
  - exists []. split; [apply spends_none|]. intros updated v3 _ _. by apply shows_nothing.
Qed.

Lemma handle_manage id cl code recovery replace w : wp shows [] (handle (ManageFactor id cl code recovery replace)) w.
Proof.
  cbn [handle]. apply wp_fmap. unfold manage_mfa. wp_read. destruct (_ <? _); [done|]. wp_read.
  destruct (negb _); [done|]. apply wp_bind, wp_limit_account; [done|]. intros auth v2 Hs _. wp_read. apply wp_bind.
  destruct (consume_factor _ _ _ _) as [m1|e] eqn:Ec; [|done]. cbn [wp lift]. destruct replace.
  - wp_read. apply wp_bind, wp_save; [do 2 (eapply snapshot_mono; [done|]); done|done|done|].
    intros v4 m x _ _ [= <- <-] d _. split.
    + eapply data_step_trans; [done|by eapply step_consume|].
      apply (step_new_challenge _ _ _ ManageChallenge _ d); [lia|done..].
    + exists []. split; [apply spends_none|]. intros updated v5 _ _. apply wp_fmap, wp_challenge_response.
      intros [a|e] v6; [by apply shows_nothing|done].
  - apply wp_bind, wp_save; [by eapply snapshot_mono|done|done|]. intros v4 m x _ _ [= <- <-] d _. split.
    + eapply data_step_trans; [done|by eapply step_consume|].
      eapply data_step_trans; [|apply (step_codes _ d (10 + d) _ d); lia|]; [lia|].
      apply step_drop; try done; by left.
    + exists []. split; [apply spends_none|]. intros updated v5 _ _. by apply shows_nothing.
Qed.

Lemma handle_redeem token reset_token w : wp shows [] (handle (RedeemToken token reset_token)) w.
Proof.
  cbn [handle]. apply wp_fmap. unfold redeem_mfa_reset_token. apply wp_bind, wp_load; [done|].
  intros l T v1 (Hs & Hm & _) _. wp_read. destruct (negb _); [done|]. wp_read.
  apply wp_bind, wp_save; [do 2 (eapply snapshot_mono; [done|]); done|done|done|].
  intros v4 m x _ _ [= <- <-] d _. rewrite Hm. split.
  - eapply data_step_trans; [done|apply (step_drop _ _ _ (set_ticket None (data_of (lo_auth l)))); try done; by right|].
    apply (step_new_challenge _ _ _ LoginChallenge _ d); [lia|done..].
  - exists []. split; [apply spends_none|]. intros updated v5 _ _. apply wp_challenge_response.
    intros [a|e] v6; [by apply shows_nothing|done].
Qed.

Lemma handle_reset id reason w : wp shows [] (handle (ResetAccount id reason)) w.
Proof.
  cbn [handle]. apply wp_fmap. unfold reset_mfa. destruct (Str.is_empty _); [done|].
  apply wp_bind, wp_get_auth; [done|]. intros auth v1 _ Hs _. wp_read.
  apply wp_bind, wp_save; [by eapply snapshot_mono|done|done|]. intros v3 m x _ _ [= <- <-] d _. split.
  - eapply data_step_trans; [done|apply step_reset|]. eapply data_step_later; [|apply step_drop; try done; by right]. lia.
  - exists []. split; [apply spends_none|]. intros updated v4 _ _. by apply shows_nothing.
Qed.

(** Nothing that the laws talk about changes *)
Lemma world_alter w id f :
  I w → (∀ r, au_id (f r) = au_id r ∧ au_mfa (f r) = au_mfa r ∧ au_session_stamp (f r) = au_session_stamp r) →
  let w' := set_auths (alter f id (w_auths w)) w in I w' ∧ R w w'.
Proof.
  intros HI Hf. split.
  - intros id' r'. cbn. rewrite lookup_alter_Some. intros [(<- & r & Hr & ->)|(_ & Hr)]; [|by apply HI].
    destruct (HI id r Hr) as (? & ? & ? & ?), (Hf r) as (Hi & Hm & Hs). unfold row_ok, data_of in *.
    by rewrite Hi, Hm, Hs.
  - split; [done|]. intros id'. cbn. destruct (decide (id = id')) as [<-|Hne].
    + rewrite lookup_alter_eq. destruct (w_auths w !! id) as [r|]; [|done]. cbn.
      destruct (Hf r) as (Hi & Hm & Hs). split_and!; [|by left|by left]. unfold data_of. rewrite Hm. apply data_next_refl.
    + rewrite lookup_alter_ne by done. apply row_next_refl.
Qed.

Lemma handle_password id password w : wp shows [] (handle (ChangePassword id password)) w.
Proof.
  cbn [handle]. apply wp_fmap. unfold update_user_password_by_id, get_auth_by_id. wp_read.
  destruct (w_auths w0 !! id) as [auth|] eqn:E; [|by apply shows_nothing].
  apply (snapshot_read auth w0 id HI) in E. apply wp_perform. intros w1 HR1 HI1.
  unfold password_statements. rewrite st_bind_eq.
  assert (Hstep : data_step (au_id auth) (w_drawn w1) (w_drawn w1) (data_of auth) (clear_challenges (data_of auth))).
  { apply step_drop; try done; by left. }
  pose proof (update_cases auth _ true 0 w1 (snapshot_mono _ _ _ HR1 E) HI1 (λ _, Hstep)) as Hu.
  assert (Hw : draw_more 0 w1 = w1) by (by destruct w1). rewrite Hw in Hu.
  destruct Hu as [->|(row & stamp & w2 & -> & HI2 & HR2 & _)].
  - destruct (world_draw 2 w1 HI1) as [HI2 HR2]. split_and!; [done..|]. exists [].
    split; [by intros κ ?%elem_of_nil|done].
  - destruct (world_alter w2 id (set_password password) HI2) as [HI3 HR3]; [done|].
    split_and!; [exact HI3|etrans; [exact HR2|exact HR3]|]. exists []. split; [by intros κ ?%elem_of_nil|].
    by apply shows_nothing.
Qed.

Lemma handle_revoke id w : wp shows [] (handle (RevokeSessions id)) w.
Proof.
  cbn [handle]. apply wp_fmap. unfold revoke_sessions_by_user_id, get_auth_by_id. wp_read.
  destruct (w_auths w0 !! id) as [auth|] eqn:E; [|by apply shows_nothing].
  apply (snapshot_read auth w0 id HI) in E. apply wp_perform. intros w1 HR1 HI1. unfold revoke_statement.
  assert (Hno : I (draw_more 2 w1) ∧ R w1 (draw_more 2 w1) ∧ ∃ T,
    (∀ κ, κ ∈ T → ¬ used κ w1 ∧ used κ (draw_more 2 w1)) ∧ shows (Changed <$> Err conflict) (T ++ []) (draw_more 2 w1)).
  { destruct (world_draw 2 w1 HI1). split_and!; [done..|]. exists []. split; [by intros κ ?%elem_of_nil|done]. }
  destruct (w_auths w1 !! au_id auth) as [row|] eqn:Erow; [|exact Hno].
  destruct (_ && _) eqn:Ecas; [|exact Hno]. clear Hno. apply andb_prop in Ecas as [_ Hsame].
  apply (snapshot_mono _ _ _ HR1) in E. pose proof (snapshot_current auth w1 row E Erow Hsame) as Hm.
  destruct (world_save w1 (au_id auth) row 0 (1 + w_drawn w1)%nat (w_drawn w1)
     (clear_mfa_challenges (1 + w_drawn w1) (au_mfa auth)) (Some (uuid4 (w_drawn w1))) HI1 Erow) as [HI2 HR2].
  - unfold data_of. rewrite Hm. destruct (au_mfa auth); cbn; apply step_drop; try done; by first [left|right].
  - lia.
  - rewrite Hm. destruct (au_mfa auth); cbn; [right; by eexists|by left].
  - by right.
  - split_and!; [exact HI2|exact HR2|]. exists []. split; [by intros κ ?%elem_of_nil|by apply shows_nothing].
Qed.

Lemma handle_check cl w : wp shows [] (handle (CheckToken cl)) w.
Proof.
  cbn [handle]. apply wp_fmap. unfold is_valid_token. apply wp_bind, wp_get_auth; [done|]. intros auth w1 _ _ _.
  destruct (negb _); [by apply shows_nothing|]. destruct (negb _); [by apply shows_nothing|].
  destruct (String.eqb _ _); [|by apply shows_nothing]. wp_read. by apply shows_nothing.
Qed.

Lemma handle_shows r w : wp shows [] (handle r) w.
Proof.
  destruct r as [| | | | | | | | |id|token kinds|token|].
  - apply handle_sign_in.
  - apply handle_setup.
  - apply handle_confirm.
  - apply handle_verify.
  - apply handle_manage.
  - apply handle_redeem.
  - apply handle_reset.
  - apply handle_revoke.
  - apply handle_password.
  - cbn [handle]. apply wp_fmap, wp_limit_account; [done|]. intros auth w1 _ _. by apply shows_nothing.
  - cbn [handle]. apply wp_fmap, wp_load; [done|]. intros l T w1 _ [Hn Hk]; [done|]. split; [done|].
    cbn. intros κ ->%list_elem_of_singleton. apply elem_of_app. by left.
  - cbn [handle]. apply wp_fmap, wp_load; [done|]. intros l T w1 _ _. by apply shows_nothing.
  - apply handle_check.
Qed.

Lemma outside_ok w w' : outside w w' → I w → I w' ∧ R w w'.
Proof.
  intros [Hd Ho] HI. split.
  - intros id r' Hr'. specialize (Ho id). rewrite Hr' in Ho.
    destruct (w_auths w !! id) as [r|] eqn:Er; [|done]. destruct Ho as (Hi & Hm & Hs).
    destruct (HI id r Er) as (? & Hok & Hrev & Hst). unfold row_ok, data_of in *. rewrite Hi, Hm, Hs.
    split_and!; [done|by eapply data_ok_mono| |].
    + intros m Hmm Hf. apply (Hrev m Hmm). by eapply future_uuid_mono.
    + intros u Hu Hf. apply (Hst u Hu). by eapply future_uuid_mono.
  - split; [done|]. intros id. specialize (Ho id).
    destruct (w_auths w !! id) as [r|], (w_auths w' !! id) as [r'|]; try done.
    destruct Ho as (_ & Hm & Hs). split_and!; [|by left|by left]. unfold data_of. rewrite Hm. apply data_next_refl.
Qed.

(** ** Properties *)

Section Runs.
Context (w w' : world) (requests : list request) (programs : list (prog world response)).
Hypothesis Hw : I w.
Hypothesis Hrun : sys_run outside (w, handle <$> requests) (w', programs).

Lemma start_shows k p : (handle <$> requests) !! k = Some p → wp shows [] p w.
Proof. intros (r & -> & _)%list_lookup_fmap_Some. apply handle_shows. Qed.

Lemma spent_once i j a b κ :
  i ≠ j → programs !! i = Some (Done (Ok a)) → programs !! j = Some (Done (Ok b)) → κ ∈ keys a → κ ∉ keys b.
Proof.
  intros Hij. eapply (keys_spent_once I R used used_mono post keys outside outside_ok);
    [exact Hw|exact start_shows|exact Hrun|exact Hij].
Qed.

Lemma answers_post i a : programs !! i = Some (Done (Ok a)) → post a.
Proof.
  eapply (keys_post I R used used_mono post keys outside outside_ok); [exact Hw|exact start_shows|exact Hrun].
Qed.
End Runs.

Notation digest code := (token_hash (Str.lower (Str.strip code))).



(** A session whose stamp was changed (by a password change, a reset, an enrolment, new
    recovery codes or a revocation) is never accepted again. *)
Theorem revoked_sessions_stay_revoked (w1 w2 w3 : world) (requests : list request)
    (p1 p2 p3 : list (prog world response)) (w : world) (cl : claims) (issued now : AuthModel) :
  I w → sys_run outside (w, handle <$> requests) (w1, p1) →
  sys_run outside (w1, p1) (w2, p2) → sys_run outside (w2, p2) (w3, p3) →
  w_auths w1 !! cl_id cl = Some issued → cl_session_stamp cl = au_session_stamp issued →
  w_auths w2 !! cl_id cl = Some now → au_session_stamp now ≠ cl_session_stamp cl →
  (run_alone (is_valid_token cl) w3).1 ≠ Ok true.
Proof.
  intros HI Hr1 Hr2 Hr3 Hi Hst Hn Hne.
  pose proof (keys_start I R used post keys w _ HI (start_shows w requests)) as Hok0.
  pose proof (keys_run I R used used_mono post keys outside outside_ok _ _ Hr1 Hok0) as Hok1.
  pose proof (keys_run I R used used_mono post keys outside outside_ok _ _ Hr2 Hok1) as Hok2.
  pose proof (keys_evolve I R used used_mono post keys outside outside_ok _ _ Hr2 Hok1) as [Hd1 _].
  pose proof (keys_evolve I R used used_mono post keys outside outside_ok _ _ Hr3 Hok2) as [_ HR].
  destruct Hok1 as [HI1 _]. destruct (HI1 _ _ Hi) as (_ & _ & _ & Hpast). specialize (HR (cl_id cl)). cbn in *.
  rewrite Hn in HR. destruct (w_auths w3 !! cl_id cl) as [r3|]; [|done]. destruct (au_active r3); [|done]. cbn.
  destruct HR as (_ & _ & Hnext).
  rewrite bool_decide_false; [done|]. rewrite Hst in *. intros Heq.
  destruct Hnext as [Hsame|(u & Hu & Hf)]; [congruence|]. rewrite <-Heq in Hu. apply (Hpast u Hu).
  by eapply future_uuid_mono.
Qed.
End Props.

(** ** A user signs in twice *)

(** Values that do not repeat: the n-th one has n letters *)
Fixpoint letters (n : nat) : string := match n with O => EmptyString | S n => String (Ascii.ascii_of_nat 97) (letters n) end.

Lemma letters_length n : String.length (letters n) = n.
Proof. induction n; cbn; congruence. Qed.

Lemma letters_inj n m : letters n = letters m → n = m.
Proof. intros He. by rewrite <-(letters_length n), He, letters_length. Qed.

#[export] Instance example_crypto : Crypto := {|
  token_hash s := s; uuid4 := letters; token_hex := letters; token_urlsafe := letters;
  random_base32 := letters; totp_at _ _ := "123456"; encrypt n _ := Ok (letters n); decrypt s := Some s
|}.

#[export] Instance example_laws : CryptoLaws.
Proof.
  split; [exact letters_inj|exact letters_inj| |].
  - intros id n m He. apply letters_inj. unfold new_token in He. cbn in He.
    by apply String.app_inj, String.app_inj in He.
  - intros n m s t c [= <-] [= He]. by apply letters_inj.
Qed.

Definition example_user : UserModel := User "u" "u@example.org" "user".
Definition example_challenge : MfaChallenge :=
  Challenge (new_token "u" 3) Verify 9000 0 "password" 2990 None None None None.
Definition example_auth (m : option MfaData) : AuthModel := Auth "u" "u@example.org" "hash" true m None.
Definition example_world (m : option MfaData) : world :=
  World {["u" := example_auth m]} {["u" := example_user]} (MfaConfig true false false) 3000 10.
Definition enrolled : MfaData := Mfa "r" (Some "s") (-1) ["aaa"] (Some example_challenge) None false None ∅.

Definition second_token : string := new_token "u" 14.
Definition example_requests : list request :=
  [ VerifyChallenge (new_token "u" 3) "123456" false;
    SignIn example_user "password" (example_auth (Some enrolled)) None None;
    VerifyChallenge second_token "AAA" true ].

Lemma short_not_drawn s : (String.length s < 10)%nat → ¬ future_uuid 10 s.
Proof. intros Hs (n & Hn & ->). cbn in Hs. rewrite letters_length in Hs. lia. Qed.

Lemma example_world_ok : I (example_world (Some enrolled)).
Proof.
  intros id r Hr. cbn [w_auths example_world] in Hr. apply lookup_singleton_Some in Hr as [<- <-]. split_and!; [done| | |done].
  - split.
    + intros k [Hk|(c & [Hc|Hc] & Hk)]; [injection Hk as <-|injection Hc as <-; done|done].
      intros (n & s & Hn & He). injection He as He. apply (short_not_drawn "s"); [cbn; lia|]. by exists n.
    + intros k c _ [Hc|Hc]; [injection Hc as <-; done|done].
    + split; [apply NoDup_singleton|]. intros h ->%list_elem_of_singleton. apply (short_not_drawn "aaa"). cbn. lia.
    + intros c [Hc|Hc]; [injection Hc as <-|done]. split; [|done].
      intros (n & Hn & He). pose proof (token_inj "u" 3 n He) as <-. cbn in Hn. lia.
    + done.
  - intros m [= <-]. apply (short_not_drawn "r"). cbn. lia.
Qed.

(** Programs one after the other *)
Fixpoint run_all (w : world) (ps : list (prog world response)) : world * list (res response) :=
  match ps with
  | [] => (w, [])
  | p :: ps => let '(r, w) := run_alone p w in let '(w, rs) := run_all w ps in (w, r :: rs)
  end.

(** An account without an authenticator enrols one and gets ten recovery codes. *)
Example enrolment_example :
  let '(_, rs) := run_all (example_world None)
    [ handle (SignIn example_user "password" (example_auth None) None None);
      handle (StartEnrollment (new_token "u" 10));
      handle (ConfirmEnrollment (new_token "u" 10) "123456");
      handle (ConfirmEnrollment (new_token "u" 10) "123456") ] in
  match rs with
  | [Ok (Answered (NextStep a)); Ok (Setup secret _); Ok (Confirmed l auth codes); Err e] =>
      ca_next_step a = Enroll ∧ ca_token a = new_token "u" 10 ∧ length codes = 10%nat ∧
      mfa_last_step (data_of auth) = 100 ∧ e = expired
  | _ => False
  end.
Proof. vm_compute. by split_and!. Qed.

(** The first sign-in uses the authenticator, the second one a recovery code. *)
Definition example_run : world * list (res response) :=
  run_all (example_world (Some enrolled)) (handle <$> example_requests).

Lemma example_run_system :
  sys_run outside (example_world (Some enrolled), handle <$> example_requests) (example_run.1, Done <$> example_run.2).
Proof.
  unfold sys_run. etrans; [eapply (run_program _ _ _ _ 0); [reflexivity|vm_compute; reflexivity]|].
  etrans; [eapply (run_program _ _ _ _ 1); [reflexivity|vm_compute; reflexivity]|].
  etrans; [eapply (run_program _ _ _ _ 2); [reflexivity|vm_compute; reflexivity]|].
  vm_compute. apply rtc_refl.
Defined.


(** Two attempts at one challenge *)
Definition example_attempts : list request := [Attempt (new_token "u" 3) [Verify]; Attempt (new_token "u" 3) [Verify]].
Definition attempts_run : world * list (res response) :=
  run_all (example_world (Some enrolled)) (handle <$> example_attempts).

Lemma attempts_run_system :
  sys_run outside (example_world (Some enrolled), handle <$> example_attempts) (attempts_run.1, Done <$> attempts_run.2).
Proof.
  unfold sys_run. etrans; [eapply (run_program _ _ _ _ 0); [reflexivity|vm_compute; reflexivity]|].
  etrans; [eapply (run_program _ _ _ _ 1); [reflexivity|vm_compute; reflexivity]|].
  vm_compute. apply rtc_refl.
Defined.


(** The session of the first sign-in ends with a password change. *)
Example revoked_session_example :
  let '(w1, rs) := run_all (example_world (Some enrolled))
    [handle (VerifyChallenge (new_token "u" 3) "123456" false)] in
  match rs with
  | [Ok (Verified _ _ _ _ cl)] =>
      let '(w2, rs2) := run_all w1 [handle (CheckToken cl); handle (ChangePassword "u" "new"); handle (CheckToken cl)] in
      rs2 = [Ok (Checked true); Ok (Changed true); Ok (Checked false)]
  | _ => False
  end.
Proof. vm_compute. reflexivity. Qed.
