(* ===== verification/Messages.v ===== *)
(** * Chat messages (utils/misc.py): the branch of a chat, the text of a
    message, the pairing of tool calls with their results and the conversion
    of stored output items into Chat Completion messages.

    A message is a [pydict].  Lists the code mutates in place are threaded
    through; the functions return the list the code returns. *)

From S2P Require Import Prelude PyVal.

(** A value that may be put in a set or used as a dict key. *)
Definition hashable (v : pyval) : bool :=
  match v with VList _ | VDict _ => false | _ => true end.
Definition hashed (v : pyval) : res pyval := if hashable v then Ok v else Err TypeError.
Definition mem_id (v : pyval) (l : list pyval) : bool := existsb (py_eqb v) l.

(** [d.get(k)] for a key that need not be a string. *)
Definition get_by (d : pydict) (k : pyval) : res pyval :=
  match k with
  | VStr s => Ok (dget d s)
  | VList _ | VDict _ => Err TypeError
  | _ => Ok VNone
  end.

(** ** The branch of a chat *)

(** The loop of [get_message_list]: [visited] are the map keys seen, [acc] the
    list built so far, newest last in the code and first here, which is the
    final [reverse]. *)
Fixpoint message_loop (fuel : nat) (m : pydict) (visited : list string) (id cur : pyval)
    (acc : list pyval) : res (list pyval) :=
  match fuel with
  | O => Ok acc
  | S fuel =>
      if negb (truthy cur) then Ok acc
      else match id with
           | VStr s =>
               if bool_decide (s ∈ visited) then Ok acc
               else
                 parent ← vget cur "parentId";
                 next ← (if truthy parent then get_by m parent else Ok VNone);
                 message_loop fuel m (s :: visited) parent next (cur :: acc)
           | _ => Ok acc
           end
  end.

(** [get_message_list]; the loop runs at most once per message of the map. *)
Definition get_message_list (messages_map : pydict) (message_id : pyval) : res (list pyval) :=
  match messages_map with
  | [] => Ok []
  | _ =>
      cur ← get_by messages_map message_id;
      message_loop (S (length messages_map)) messages_map [] message_id cur []
  end.

(** ** The text of a message *)

Definition is_type (d : pydict) (t : string) : bool := veq_str (dget d "type") t.
Definition has_role (m : pydict) (role : string) : bool := veq_str (dget m "role") role.

(** [str.isspace] of a whole text. *)
Definition is_space_text (s : string) : bool :=
  negb (Str.is_empty s) && Str.sforallb Str.is_space s.

Section Text.
(** [repr] of floats and containers. *)
Context (repr_other : pyval → string).

Definition part_text (part : pyval) : string :=
  match part with
  | VDict p => if is_none (dget p "text") then EmptyString else py_str repr_other (dget p "text")
  | _ => EmptyString
  end.

Definition item_text (item : pyval) : option string :=
  match item with
  | VDict d =>
      if negb (is_type d "message") then None
      else match por (dget d "content") (VList []) with
           | VList parts =>
               let text := Str.join EmptyString (map part_text parts) in
               if negb (Str.is_empty text) && negb (is_space_text text) then Some text else None
           | _ => None
           end
  | _ => None
  end.

(** [get_output_text] *)
Definition get_output_text (output : pyval) : string :=
  match output with
  | VList items => Str.join (String (Ascii.ascii_of_nat 10) EmptyString) (omap item_text items)
  | _ => EmptyString
  end.

(** The first text part of a list of parts. *)
Definition first_text (parts : list pyval) : option pyval :=
  match find_first (λ item, match item with VDict d => is_type d "text" | _ => false end) parts with
  | Some (VDict d) => Some (dget d "text")
  | _ => None
  end.

(** [get_content_from_message] *)
Definition get_content_from_message (message : pydict) : pyval :=
  let content := dget message "content" in
  let fallback :=
    let output_text := get_output_text (dget message "output") in
    if negb (Str.is_empty output_text) then VStr output_text
    else if is_str content then content else VNone in
  match content with
  | VList parts => match first_text parts with Some t => t | None => fallback end
  | _ => if truthy content then content else fallback
  end.
End Text.

(** ** Tool calls and their results *)

Definition is_tool (m : pydict) : bool := has_role m "tool".
Definition has_calls (m : pydict) : bool :=
  has_role m "assistant" && truthy (dget m "tool_calls").

(** The tool messages directly after a message. *)
Fixpoint tool_block (messages : list pydict) : list pydict :=
  match messages with
  | m :: rest => if is_tool m then m :: tool_block rest else []
  | [] => []
  end.

(** [requested_ids] *)
Fixpoint requested_ids (calls : list pyval) : res (list pyval) :=
  match calls with
  | [] => Ok []
  | c :: calls' =>
      id ← vget c "id";
      id' ← (if truthy id then i ← hashed id; Ok [i] else Ok []);
      ids ← requested_ids calls'; Ok (id' ++ ids)
  end.

Definition completed_ids (block : list pydict) : res (list pyval) :=
  mapR (λ t, hashed (dget t "tool_call_id")) block.

(** [requested_ids & completed_ids] of an assistant message and its block. *)
Definition paired_ids (message : pydict) (block : list pydict) : res (list pyval) :=
  calls ← viter (dget message "tool_calls");
  requested ← requested_ids calls;
  completed ← completed_ids block;
  Ok (List.filter (λ i, mem_id i completed) requested).

(** [get_paired_tool_call_ids]: [pending] is the not yet visited part of
    [paired_ids_by_message]; a block overwrites its entries. *)
Fixpoint paired_loop (messages : list pydict) (pending : list (list pyval))
    : res (list (list pyval)) :=
  match messages with
  | [] => Ok []
  | m :: rest =>
      pending' ← (if has_calls m then
                    paired ← paired_ids m (tool_block rest);
                    let n := S (length (tool_block rest)) in
                    Ok (replicate n paired ++ drop n pending)
                  else Ok pending);
      tl ← paired_loop rest (tail pending');
      Ok (default [] (head pending') :: tl)
  end.

Definition get_paired_tool_call_ids (messages : list pydict) : res (list (list pyval)) :=
  paired_loop messages (map (λ _, []) messages).

(** The tool calls of a message whose id is paired. *)
Fixpoint valid_tool_calls (paired : list pyval) (calls : list pyval) : res (list pyval) :=
  match calls with
  | [] => Ok []
  | c :: calls' =>
      id ← vget c "id"; id ← hashed id;
      rest ← valid_tool_calls paired calls';
      Ok (if mem_id id paired then c :: rest else rest)
  end.

Section Reconcile.
Context (repr_other : pyval → string).

(** The loop body of [reconcile_tool_pairs]: the messages it appends. *)
Definition reconcile_message (message : pydict) (paired : list pyval) : res (list pydict) :=
  orphan ← (if is_tool message then
              id ← hashed (dget message "tool_call_id"); Ok (negb (mem_id id paired))
            else Ok false);
  if (orphan : bool) then Ok []
  else if negb (has_calls message) then Ok [message]
  else
    calls ← viter (dget message "tool_calls");
    valid ← valid_tool_calls paired calls;
    match valid with
    | _ :: _ => Ok [dict_set "tool_calls" (VList valid) message]
    | [] =>
        let content := por (get_content_from_message repr_other message) (VStr EmptyString) in
        let meaningful := match content with
                          | VStr s => negb (Str.is_empty (Str.strip s))
                          | c => truthy c
                          end in
        Ok (if meaningful || truthy (dget message "reasoning_content")
            then [dict_del "tool_calls" message] else [])
    end.

(** [reconcile_tool_pairs] *)
Definition reconcile_tool_pairs (messages : list pydict) : res (list pydict) :=
  paired ← get_paired_tool_call_ids messages;
  kept ← mapR (λ mp, reconcile_message mp.1 mp.2) (zip messages paired);
  Ok (concat kept).
End Reconcile.

(** ** Stored output items into messages *)

Definition newline : string := String (Ascii.ascii_of_nat 10) EmptyString.

(** The variables of [convert_output_to_messages]. *)
Record convert_state := {
  cv_messages : list pydict;
  cv_tool_calls : list pyval;
  cv_content : list string;
  cv_reasoning : list string;
  cv_details : list pyval;
  cv_image_urls : list pyval;
  cv_outputs : list pydict;
}.

Definition empty_convert : convert_state :=
  {| cv_messages := []; cv_tool_calls := []; cv_content := []; cv_reasoning := [];
     cv_details := []; cv_image_urls := []; cv_outputs := [] |}.

Definition add_message (m : pydict) (s : convert_state) : convert_state :=
  {| cv_messages := cv_messages s ++ [m]; cv_tool_calls := cv_tool_calls s;
     cv_content := cv_content s; cv_reasoning := cv_reasoning s; cv_details := cv_details s;
     cv_image_urls := cv_image_urls s; cv_outputs := cv_outputs s |}.

Definition add_content (t : string) (s : convert_state) : convert_state :=
  {| cv_messages := cv_messages s; cv_tool_calls := cv_tool_calls s;
     cv_content := cv_content s ++ [t]; cv_reasoning := cv_reasoning s; cv_details := cv_details s;
     cv_image_urls := cv_image_urls s; cv_outputs := cv_outputs s |}.

Definition add_tool_call (c : pyval) (s : convert_state) : convert_state :=
  {| cv_messages := cv_messages s; cv_tool_calls := cv_tool_calls s ++ [c];
     cv_content := cv_content s; cv_reasoning := cv_reasoning s; cv_details := cv_details s;
     cv_image_urls := cv_image_urls s; cv_outputs := cv_outputs s |}.

Definition add_reasoning (t : string) (s : convert_state) : convert_state :=
  {| cv_messages := cv_messages s; cv_tool_calls := cv_tool_calls s;
     cv_content := cv_content s; cv_reasoning := cv_reasoning s ++ [t]; cv_details := cv_details s;
     cv_image_urls := cv_image_urls s; cv_outputs := cv_outputs s |}.

Definition add_details (l : list pyval) (s : convert_state) : convert_state :=
  {| cv_messages := cv_messages s; cv_tool_calls := cv_tool_calls s;
     cv_content := cv_content s; cv_reasoning := cv_reasoning s; cv_details := cv_details s ++ l;
     cv_image_urls := cv_image_urls s; cv_outputs := cv_outputs s |}.

Definition add_image_urls (l : list pyval) (s : convert_state) : convert_state :=
  {| cv_messages := cv_messages s; cv_tool_calls := cv_tool_calls s;
     cv_content := cv_content s; cv_reasoning := cv_reasoning s; cv_details := cv_details s;
     cv_image_urls := cv_image_urls s ++ l; cv_outputs := cv_outputs s |}.

Definition with_outputs (l : list pydict) (s : convert_state) : convert_state :=
  {| cv_messages := cv_messages s; cv_tool_calls := cv_tool_calls s;
     cv_content := cv_content s; cv_reasoning := cv_reasoning s; cv_details := cv_details s;
     cv_image_urls := cv_image_urls s; cv_outputs := l |}.

Section Convert.
Context (repr_other : pyval → string) (json_dumps : pyval → res string).
Context (raw : bool) (reasoning_format : option string) (flatten_tool_images : bool).

Definition format_is (f : string) : bool :=
  match reasoning_format with Some g => String.eqb g f | None => false end.

(** [not reasoning_format] *)
Definition no_format : bool :=
  match reasoning_format with Some g => Str.is_empty g | None => true end.

(** [get_provider_function] *)
Definition get_provider_function (item : pydict) : res pydict :=
  let function := match dget item "provider_function" with VDict f => f | _ => item end in
  let arguments := dgetd function "arguments" (VStr "{}") in
  text ← (match arguments with VStr s => Ok s | a => json_dumps a end);
  Ok [("name", dgetd function "name" (VStr EmptyString)); ("arguments", VStr text)].

(** The message [flush_pending] appends. *)
Definition pending_message (s : convert_state) : pydict :=
  let base := [("role", VStr "assistant"); ("content", VStr (Str.join newline (cv_content s)))]
              ++ match cv_tool_calls s with [] => [] | l => [("tool_calls", VList l)] end in
  let with_reasoning :=
    match cv_reasoning s with
    | [] => base
    | l => dict_set (if format_is "thinking" then "thinking" else "reasoning_content")
                    (VStr (Str.join newline l)) base
    end in
  match cv_details s with
  | [] => with_reasoning
  | l => dict_set "reasoning_details" (VList l) with_reasoning
  end.

Definition nothing_pending (s : convert_state) : bool :=
  match cv_content s, cv_tool_calls s, cv_reasoning s, cv_details s with
  | [], [], [], [] => true
  | _, _, _, _ => false
  end.

(** [flush_pending] *)
Definition flush_pending (s : convert_state) : convert_state :=
  if nothing_pending s then s
  else {| cv_messages := cv_messages s ++ [pending_message s]; cv_tool_calls := [];
          cv_content := []; cv_reasoning := []; cv_details := [];
          cv_image_urls := cv_image_urls s; cv_outputs := cv_outputs s |}.

(** [flush_tool_images] *)
Definition image_message (urls : list pyval) : pydict :=
  [("role", VStr "user");
   ("content", VList
      (VDict [("type", VStr "text");
              ("text", VStr "Here are the images from the tool results above. Please analyze them.")]
       :: map (λ url, VDict [("type", VStr "image_url"); ("image_url", VDict [("url", url)])]) urls))].

Definition flush_tool_images (s : convert_state) : convert_state :=
  match cv_image_urls s with
  | [] => s
  | urls =>
      {| cv_messages := cv_messages s ++ [image_message urls]; cv_tool_calls := cv_tool_calls s;
         cv_content := cv_content s; cv_reasoning := cv_reasoning s; cv_details := cv_details s;
         cv_image_urls := []; cv_outputs := cv_outputs s |}
  end.

(** The text and the image urls of one tool result. *)
Definition output_part_step (acc : string * list pyval) (part : pyval) : res (string * list pyval) :=
  type ← vget part "type";
  if veq_str type "input_text" then
    text ← vgetd part "text" (VStr EmptyString);
    Ok (acc.1 +:+ py_str repr_other text, acc.2)
  else if veq_str type "input_image" then
    url ← vgetd part "image_url" (VStr EmptyString);
    Ok (acc.1, if truthy url then acc.2 ++ [url] else acc.2)
  else Ok acc.

Definition tool_message (output_item : pydict) (content : pyval) : pydict :=
  [("role", VStr "tool"); ("tool_call_id", dgetd output_item "call_id" (VStr EmptyString));
   ("content", content)].

Definition flush_output (s : convert_state) (output_item : pydict) : res convert_state :=
  parts ← viter (dgetd output_item "output" (VList []));
  '(content, urls) ← foldM output_part_step (EmptyString, []) parts;
  if flatten_tool_images then
    Ok (add_image_urls urls (add_message (tool_message output_item (VStr content)) s))
  else
    match urls with
    | [] => Ok (add_message (tool_message output_item (VStr content)) s)
    | _ => Ok (add_message (tool_message output_item
             (VList (VDict [("type", VStr "input_text"); ("text", VStr content)]
                     :: map (λ url, VDict [("type", VStr "input_image"); ("image_url", url)]) urls))) s)
    end.

Definition call_id_of (c : pyval) : pyval :=
  match c with VDict d => dget d "id" | _ => VNone end.

(** [flush_tool_outputs]: results nobody asked for are dropped.  The calls
    are dicts this function built, so they have an id. *)
Definition flush_tool_outputs (s : convert_state) : res convert_state :=
  match cv_outputs s with
  | [] => Ok s
  | outputs =>
      let claimed := List.filter (λ r, existsb (λ c, py_eqb (call_id_of c) (dget r "call_id"))
                                               (cv_tool_calls s)) outputs in
      s1 ← foldM flush_output (flush_pending (with_outputs claimed s)) claimed;
      Ok (with_outputs [] s1)
  end.

(** [text += part.get(key, default)] *)
Definition append_text (acc : string) (v : pyval) : res string :=
  match v with VStr t => Ok (acc +:+ t) | _ => Err TypeError end.

Definition message_part_step (acc : string) (part : pyval) : res string :=
  type ← vget part "type";
  if veq_str type "output_text" then
    t ← vgetd part "text" (VStr EmptyString); append_text acc t
  else Ok acc.

Definition message_item (s : convert_state) (item : pydict) : res convert_state :=
  parts ← viter (dgetd item "content" (VList []));
  text ← foldM message_part_step EmptyString parts;
  Ok (if Str.is_empty text then s else add_content text s).

Definition function_call_item (s : convert_state) (item : pydict) : res convert_state :=
  if negb (truthy (dget item "call_id")) then Ok s
  else
    status ← hashed (dget item "status");
    if negb (vin_strs status ["completed"; "failed"; "rejected"]) then Ok s
    else
      f ← get_provider_function item;
      Ok (add_tool_call (VDict [("id", dgetd item "call_id" (VStr EmptyString));
                                ("type", VStr "function"); ("function", VDict f)]) s).

(** The reasoning details that may be replayed. *)
Definition replayable (detail : pyval) : bool :=
  match detail with
  | VDict d => negb (veq_str (dget d "format") "anthropic-claude-v1") || truthy (dget d "signature")
  | _ => false
  end.

Definition reasoning_details_of (item : pydict) : list pyval :=
  let v := if raw then dget item "reasoning_details" else VNone in
  if truthy v then List.filter replayable (match v with VList l => l | _ => [v] end) else [].

Definition reasoning_part_step (acc : string) (part : pyval) : res string :=
  type ← vget part "type";
  d ← as_dict part;
  if veq_str type "output_text" || dict_has "text" d then
    append_text acc (dgetd d "text" (VStr EmptyString))
  else Ok acc.

Definition reasoning_item (s : convert_state) (item : pydict) : res convert_state :=
  let details := reasoning_details_of item in
  if no_format && match details with [] => true | _ => false end then Ok s
  else
    source ← viter (por (dgetd item "summary" (VList [])) (dgetd item "content" (VList [])));
    text ← foldM reasoning_part_step EmptyString source;
    let s1 :=
      if Str.is_empty text then s
      else if format_is "think_tags" then
        add_content (py_str repr_other (dgetd item "start_tag" (VStr "<think>")) +:+ text
                     +:+ py_str repr_other (dgetd item "end_tag" (VStr "</think>"))) s
      else if format_is "thinking" || format_is "reasoning_content" then add_reasoning text s
      else s in
    Ok (add_details details s1).

Definition code_item (s : convert_state) (item : pydict) : convert_state :=
  let code := dgetd item "code" (VStr EmptyString) in
  let code_output := dgetd item "output" (VStr EmptyString) in
  let s1 := if truthy code
            then add_content ("<code_interpreter>" +:+ newline +:+ py_str repr_other code +:+ newline
                              +:+ "</code_interpreter>") s
            else s in
  if truthy code_output then
    let output_text :=
      match code_output with
      | VDict d => por (dgetd d "stdout" (VStr EmptyString)) (dgetd d "result" (VStr EmptyString))
      | v => VStr (py_str repr_other v)
      end in
    if truthy output_text
    then add_content ("<code_interpreter_output>" +:+ newline +:+ py_str repr_other output_text
                      +:+ newline +:+ "</code_interpreter_output>") s1
    else s1
  else s1.

(** The loop body of [convert_output_to_messages]. *)
Definition convert_item (s : convert_state) (v : pyval) : res convert_state :=
  item ← as_dict v;
  let item_type := dgetd item "type" (VStr EmptyString) in
  s ← (if veq_str item_type "function_call_output" then Ok s
       else s1 ← flush_tool_outputs s; Ok (flush_tool_images s1));
  if veq_str item_type "message" then message_item s item
  else if veq_str item_type "function_call" then function_call_item s item
  else if veq_str item_type "function_call_output" then Ok (with_outputs (cv_outputs s ++ [item]) s)
  else if veq_str item_type "reasoning" then reasoning_item s item
  else if veq_str item_type "open_webui:code_interpreter" then Ok (code_item s item)
  else if is_str item_type then Ok s else Err AttributeError.

(** The messages before the final [reconcile_tool_pairs]. *)
Definition convert_items (output : list pyval) : res (list pydict) :=
  s ← foldM convert_item empty_convert output;
  s ← flush_tool_outputs s;
  Ok (cv_messages (flush_pending (flush_tool_images s))).

(** [convert_output_to_messages] *)
Definition convert_output_to_messages (output : pyval) : res (list pydict) :=
  match output with
  | VList [] => Ok []
  | VList items => messages ← convert_items items; reconcile_tool_pairs repr_other messages
  | _ => Ok []
  end.
End Convert.

Example convert_ex :
  convert_output_to_messages (λ _, "?") (λ _, Ok "?") false None false
    (VList [ VDict [("type", VStr "message"); ("content", VList [VDict [("type", VStr "output_text"); ("text", VStr "hi")]])];
             VDict [("type", VStr "function_call"); ("call_id", VStr "c1"); ("status", VStr "completed"); ("name", VStr "f")];
             VDict [("type", VStr "function_call"); ("call_id", VStr "c2"); ("status", VStr "completed"); ("name", VStr "g")];
             VDict [("type", VStr "function_call_output"); ("call_id", VStr "c1");
                    ("output", VList [VDict [("type", VStr "input_text"); ("text", VStr "r1")]])] ])
  = Ok [ [("role", VStr "assistant"); ("content", VStr "hi");
          ("tool_calls", VList [VDict [("id", VStr "c1"); ("type", VStr "function");
             ("function", VDict [("name", VStr "f"); ("arguments", VStr "{}")])]])];
         [("role", VStr "tool"); ("tool_call_id", VStr "c1"); ("content", VStr "r1")] ].
Proof. vm_compute. reflexivity. Qed.

(** ** Reading and editing a list of messages *)

(** [message['role'] == role], which raises when there is no role. *)
Definition role_is (m : pydict) (role : string) : res bool :=
  r ← ditem m "role"; Ok (veq_str r role).

(** The first message whose role is [role]. *)
Fixpoint find_role (role : string) (messages : list pydict) : res (option pydict) :=
  match messages with
  | [] => Ok None
  | m :: rest => b ← role_is m role; if (b : bool) then Ok (Some m) else find_role role rest
  end.

(** [get_system_message], [get_last_user_message_item] and
    [get_last_assistant_message_item] *)
Definition get_system_message : list pydict → res (option pydict) := find_role "system".
Definition get_last_user_message_item (messages : list pydict) : res (option pydict) :=
  find_role "user" (rev messages).
Definition get_last_assistant_message_item (messages : list pydict) : res (option pydict) :=
  find_role "assistant" (rev messages).

(** [remove_system_message] and [pop_system_message] *)
Fixpoint remove_system_message (messages : list pydict) : res (list pydict) :=
  match messages with
  | [] => Ok []
  | m :: rest =>
      b ← role_is m "system"; rest' ← remove_system_message rest;
      Ok (if (b : bool) then rest' else m :: rest')
  end.

Definition pop_system_message (messages : list pydict) : res (option pydict * list pydict) :=
  m ← get_system_message messages; rest ← remove_system_message messages; Ok (m, rest).

Section Edit.
Context (repr_other : pyval → string).

(** [get_last_user_message] and [get_last_assistant_message] *)
Definition get_last_user_message (messages : list pydict) : res pyval :=
  m ← get_last_user_message_item messages;
  Ok (match m with Some m => get_content_from_message repr_other m | None => VNone end).

Definition get_last_assistant_message (messages : list pydict) : res pyval :=
  m ← get_last_assistant_message_item messages;
  Ok (match m with Some m => get_content_from_message repr_other m | None => VNone end).

(** [merge_system_messages]; [join] raises on a content that is no text. *)
Definition system_text (m : pydict) : option pyval :=
  if has_role m "system" then
    let c := get_content_from_message repr_other m in if truthy c then Some c else None
  else None.

Definition merge_system_messages (messages : list pydict) : res (list pydict) :=
  let others := List.filter (λ m, negb (has_role m "system")) messages in
  match omap system_text messages with
  | [] => Ok others
  | contents =>
      texts ← mapR (λ c, match c with VStr s => Ok s | _ => Err TypeError end) contents;
      Ok ([("role", VStr "system"); ("content", VStr (Str.join newline texts))] :: others)
  end.

(** [f'{a}\n{b}'] *)
Definition lines (a b : pyval) : pyval :=
  VStr (py_str repr_other a +:+ newline +:+ py_str repr_other b).

Definition edit_text (append : bool) (old : pyval) (content : string) : pyval :=
  if append then lines old (VStr content) else lines (VStr content) old.

Definition update_text_part (content : string) (append : bool) (item : pyval) : res pyval :=
  type ← vitem item "type";
  d ← as_dict item;
  if veq_str type "text" then
    text ← ditem d "text"; Ok (VDict (dict_set "text" (edit_text append text content) d))
  else Ok item.

(** [update_message_content] *)
Definition update_message_content (message : pydict) (content : string) (append : bool)
    : res pydict :=
  c ← ditem message "content";
  match c with
  | VList items =>
      items' ← mapR (update_text_part content append) items;
      Ok (dict_set "content" (VList items') message)
  | c => Ok (dict_set "content" (edit_text append c content) message)
  end.

(** [add_or_update_system_message] *)
Definition add_or_update_system_message (content : string) (messages : list pydict) (append : bool)
    : res (list pydict) :=
  match messages with
  | m :: rest =>
      if has_role m "system" then
        m' ← update_message_content m content append; Ok (m' :: rest)
      else Ok ([("role", VStr "system"); ("content", VStr content)] :: messages)
  | [] => Ok [[("role", VStr "system"); ("content", VStr content)]]
  end.

(** The last message and those before it. *)
Definition unsnoc (messages : list pydict) : option (list pydict * pydict) :=
  match rev messages with m :: r => Some (rev r, m) | [] => None end.

(** [add_or_update_user_message] *)
Definition add_or_update_user_message (content : string) (messages : list pydict) (append : bool)
    : res (list pydict) :=
  match unsnoc messages with
  | Some (before, m) =>
      if has_role m "user" then
        m' ← update_message_content m content append; Ok (before ++ [m'])
      else Ok (messages ++ [[("role", VStr "user"); ("content", VStr content)]])
  | None => Ok [[("role", VStr "user"); ("content", VStr content)]]
  end.

(** [append_or_update_assistant_message] *)
Definition append_or_update_assistant_message (content : string) (messages : list pydict)
    : res (list pydict) :=
  match unsnoc messages with
  | Some (before, m) =>
      if has_role m "assistant" then
        c ← ditem m "content";
        Ok (before ++ [dict_set "content" (lines c (VStr content)) m])
      else Ok (messages ++ [[("role", VStr "assistant"); ("content", VStr content)]])
  | None => Ok [[("role", VStr "assistant"); ("content", VStr content)]]
  end.

(** Edits the first message whose role is [role]. *)
Fixpoint edit_first (role : string) (f : pydict → res pydict) (messages : list pydict)
    : res (list pydict) :=
  match messages with
  | [] => Ok []
  | m :: rest =>
      b ← role_is m role;
      if (b : bool) then m' ← f m; Ok (m' :: rest)
      else rest' ← edit_first role f rest; Ok (m :: rest')
  end.

(** [replace_system_message_content] and [prepend_to_first_user_message_content] *)
Definition replace_system_message_content (content : string) : list pydict → res (list pydict) :=
  edit_first "system" (λ m, Ok (dict_set "content" (VStr content) m)).
Definition prepend_to_first_user_message_content (content : string)
    : list pydict → res (list pydict) :=
  edit_first "user" (λ m, update_message_content m content false).

(** [set_last_user_message_content] *)
Fixpoint set_first_text (content : string) (items : list pyval) : res (list pyval) :=
  match items with
  | [] => Ok []
  | item :: rest =>
      type ← vget item "type"; d ← as_dict item;
      if veq_str type "text" then Ok (VDict (dict_set "text" (VStr content) d) :: rest)
      else rest' ← set_first_text content rest; Ok (item :: rest')
  end.

Definition set_content (content : string) (m : pydict) : res pydict :=
  match dget m "content" with
  | VList items => items' ← set_first_text content items; Ok (dict_set "content" (VList items') m)
  | _ => Ok (dict_set "content" (VStr content) m)
  end.

Fixpoint set_first_user (content : string) (messages : list pydict) : res (list pydict) :=
  match messages with
  | [] => Ok []
  | m :: rest =>
      if has_role m "user" then m' ← set_content content m; Ok (m' :: rest)
      else rest' ← set_first_user content rest; Ok (m :: rest')
  end.

Definition set_last_user_message_content (content : string) (messages : list pydict)
    : res (list pydict) :=
  r ← set_first_user content (rev messages); Ok (rev r).

(** [strip_empty_content_blocks] *)
Definition empty_text_block (block : pyval) : res bool :=
  match block with
  | VDict d =>
      if is_type d "text" then
        match dgetd d "text" (VStr EmptyString) with
        | VStr s => Ok (Str.is_empty (Str.strip s))
        | _ => Err AttributeError
        end
      else Ok false
  | _ => Ok false
  end.

Fixpoint nonempty_blocks (blocks : list pyval) : res (list pyval) :=
  match blocks with
  | [] => Ok []
  | b :: rest => e ← empty_text_block b; rest' ← nonempty_blocks rest;
                 Ok (if (e : bool) then rest' else b :: rest')
  end.

Definition strip_message_blocks (m : pydict) : res pydict :=
  match dget m "content" with
  | VList blocks =>
      cleaned ← nonempty_blocks blocks;
      Ok (match cleaned with [] => m | _ => dict_set "content" (VList cleaned) m end)
  | _ => Ok m
  end.

Definition strip_empty_content_blocks (messages : list pydict) : res (list pydict) :=
  mapR strip_message_blocks messages.
End Edit.
