(* ===== verification/MessagesProps.v ===== *)
(** * Properties of the message functions: the branch of a chat, the pairing
    of tool calls with their results, and merged system messages. *)

From S2P Require Import Prelude PyVal Messages.

(** ** The branch of a chat *)

(** Every message is a dict whose parent id can be looked up. *)
Definition message_map (m : pydict) : Prop :=
  ∀ k v, dict_get k m = Some v → ∃ d, v = VDict d ∧ hashable (dget d "parentId") = true.

(** The parent of a message, when the map has it. *)
Definition parent_key (m : pydict) (id : string) : option string :=
  match dget m id with
  | VDict d =>
      match dget d "parentId" with
      | VStr p => if truthy (dget m p) && negb (Str.is_empty p) then Some p else None
      | _ => None
      end
  | _ => None
  end.

(** The ids the loop visits, from the given message to the root. *)
Fixpoint branch (fuel : nat) (m : pydict) (visited : list string) (id : string) : list string :=
  match fuel with
  | O => []
  | S fuel =>
      if truthy (dget m id) && bool_decide (id ∉ visited)
      then id :: match parent_key m id with
                 | Some p => branch fuel m (id :: visited) p
                 | None => []
                 end
      else []
  end.

Lemma message_loop_falsy fuel m visited id cur acc :
  truthy cur = false → message_loop fuel m visited id cur acc = Ok acc.
Proof. intros H. destruct fuel; cbn; [done|]. by rewrite H. Qed.

Lemma message_map_dget m id :
  message_map m → truthy (dget m id) = true →
  ∃ d, dget m id = VDict d ∧ hashable (dget d "parentId") = true.
Proof.
  unfold dget at 1 2. intros Hm. destruct (dict_get id m) as [v|] eqn:E; cbn; [|done].
  intros _. by apply (Hm id).
Qed.

Lemma message_loop_branch fuel m visited id acc :
  message_map m →
  message_loop fuel m visited (VStr id) (dget m id) acc =
    Ok (rev (map (dget m) (branch fuel m visited id)) ++ acc).
Proof.
  intros Hm. revert visited id acc. induction fuel as [|fuel IH]; intros visited id acc; [done|].
  cbn [message_loop branch]. destruct (truthy (dget m id)) eqn:Et; cbn [negb andb]; [|done].
  rewrite bool_decide_not. case_bool_decide as Hv; cbn [negb]; [done|].
  destruct (message_map_dget m id Hm Et) as (d & Hd & Hh). unfold parent_key. rewrite Hd.
  cbn [vget mbind res_bind]. destruct (dget d "parentId") as [|b|z|f|p|l|e] eqn:Ep;
    try (cbn in Hh; discriminate Hh).
  1-4: match goal with |- context[if truthy ?v then _ else _] => destruct (truthy v) end;
    cbn [get_by mbind res_bind]; rewrite message_loop_falsy by done; cbn [map rev]; by rewrite Hd.
  cbn [truthy]. destruct p as [|c p].
  - cbn. rewrite message_loop_falsy by done. rewrite andb_false_r. cbn. by rewrite Hd.
  - cbn [Str.is_empty negb get_by]. rewrite andb_true_r. cbn [mbind res_bind].
    rewrite IH. destruct (truthy (dget m (String c p))) eqn:Etp; cbn [map rev]; rewrite Hd;
      [by rewrite <-app_assoc|].
    destruct fuel; cbn [branch]; [done|]. by rewrite Etp.
Qed.

Lemma branch_spec fuel m visited id :
  NoDup visited → (∀ x, x ∈ visited → x ∈ dict_keys m) → length m < fuel + length visited →
  let ids := branch fuel m visited id in
  NoDup ids ∧ (∀ x, x ∈ ids → x ∉ visited) ∧
  (∀ i a b, ids !! i = Some a → ids !! S i = Some b → parent_key m a = Some b) ∧
  (∀ a p, last ids = Some a → parent_key m a = Some p → p ∈ ids ∨ p ∈ visited) ∧
  (truthy (dget m id) = true → id ∉ visited → head ids = Some id).
Proof.
  revert visited id. induction fuel as [|fuel IH]; intros visited id Hnd Hsub Hlen; cbn zeta.
  { exfalso. apply NoDup_submseteq in Hsub; [|done]. apply submseteq_length in Hsub.
    unfold dict_keys in Hsub. rewrite length_map in Hsub. lia. }
  cbn [branch]. destruct (truthy (dget m id)) eqn:Et; cbn [andb].
  2:{ split_and!; try done; [constructor|by intros x ?%elem_of_nil]. }
  case_bool_decide as Hv.
  2:{ split_and!; try done; [constructor|by intros x ?%elem_of_nil]. }
  assert (Hkey : id ∈ dict_keys m).
  { unfold dget in Et. destruct (dict_get id m) eqn:E; [|done]. by eapply dict_get_Some_key. }
  destruct (parent_key m id) as [p|] eqn:Ep.
  2:{ split_and!; [apply NoDup_singleton|by intros x ->%list_elem_of_singleton|by intros [|i] a b| |done].
      intros a p [= <-]. congruence. }
  destruct (IH (id :: visited) p) as (H1 & H2 & H3 & H4 & H5).
  { by constructor. }
  { intros x [->|Hx]%elem_of_cons; auto. }
  { cbn. lia. }
  assert (Htp : truthy (dget m p) = true).
  { unfold parent_key in Ep. repeat case_hyp Ep; try done. injection Ep as <-.
    by match goal with H : _ && _ = true |- _ => apply andb_prop in H as [? _] end. }
  destruct (decide (p ∈ id :: visited)) as [Hp|Hp].
  - assert (branch fuel m (id :: visited) p = []) as ->.
    { destruct fuel; cbn [branch]; [done|]. rewrite Htp. by rewrite bool_decide_false by tauto. }
    split_and!; [apply NoDup_singleton|by intros x ->%list_elem_of_singleton|by intros [|i] a b| |done].
    intros a q [= <-]. rewrite Ep. intros [= <-]. set_solver.
  - specialize (H5 Htp Hp). split_and!.
    + constructor; [|done]. intros Hin. apply (H2 id Hin). left.
    + intros x [->|Hx]%elem_of_cons; [done|]. intros Hxv. apply (H2 x Hx). by right.
    + intros [|i] a b; cbn; [|apply H3]. intros [= <-] Hb. rewrite head_lookup in H5.
      assert (Some p = Some b) by (rewrite <-H5; exact Hb). congruence.
    + intros a q Hl Hq. destruct (branch fuel m (id :: visited) p) as [|b l] eqn:Eb; [done|].
      change (last (id :: b :: l)) with (last (b :: l)) in Hl.
      destruct (H4 a q Hl Hq); set_solver.
    + done.
Qed.

(** ** Pairing of tool calls and results *)

Definition text_id (v : pyval) : Prop := v = VNone ∨ ∃ s, v = VStr s.

Definition call_ids (m : pydict) : list pyval :=
  match dget m "tool_calls" with VList l => map call_id_of l | _ => [] end.

(** A message as the providers and the store write them: the tool calls are a
    list of dicts, and the ids of calls and results are absent or texts. *)
Definition plain (m : pydict) : Prop :=
  text_id (dget m "tool_call_id") ∧
  match dget m "tool_calls" with
  | VList l => ∀ c, c ∈ l → ∃ d, c = VDict d ∧ text_id (dget d "id")
  | v => truthy v = false
  end.

(** What strict providers accept: every tool result answers a call of the
    assistant message heading its block, and every call has an id and a result
    in the block.  [cur] are the ids the current block may answer. *)
Fixpoint well_paired_from (cur : list pyval) (messages : list pydict) : Prop :=
  match messages with
  | [] => True
  | m :: rest =>
      if is_tool m then dget m "tool_call_id" ∈ cur ∧ well_paired_from cur rest
      else if has_calls m then
        (∀ id, id ∈ call_ids m →
           truthy id = true ∧ ∃ t, t ∈ tool_block rest ∧ dget t "tool_call_id" = id)
        ∧ well_paired_from (call_ids m) rest
      else well_paired_from [] rest
  end.

Definition well_paired (messages : list pydict) : Prop := well_paired_from [] messages.

Lemma text_id_hashed v : text_id v → hashed v = Ok v.
Proof. by intros [->|[s ->]]. Qed.

Lemma py_eqb_text v w : text_id v → text_id w → py_eqb v w = true ↔ v = w.
Proof.
  intros [->|[s ->]] [->|[t ->]]; cbn; rewrite ?String.eqb_eq; naive_solver.
Qed.

Lemma mem_id_text v l : text_id v → (∀ w, w ∈ l → text_id w) → mem_id v l = true ↔ v ∈ l.
Proof.
  intros Hv Hl. unfold mem_id. rewrite existsb_True. split.
  - intros (w & Hw & He). apply py_eqb_text in He as ->; auto.
  - intros Hin. exists v. split; [done|]. by apply py_eqb_text.
Qed.

(** The pure counterparts of the code's loops on plain messages. *)
Definition pairs (m : pydict) (block : list pydict) : list pyval :=
  List.filter (λ i, mem_id i (map (λ t, dget t "tool_call_id") block))
    (List.filter truthy (call_ids m)).

Definition next_pairs (cur : list pyval) (m : pydict) (rest : list pydict) : list pyval :=
  if is_tool m then cur else if has_calls m then pairs m (tool_block rest) else [].

Fixpoint pairs_walk (cur : list pyval) (messages : list pydict) : list (list pyval) :=
  match messages with
  | [] => []
  | m :: rest => next_pairs cur m rest :: pairs_walk (next_pairs cur m rest) rest
  end.

Lemma tool_no_calls m : is_tool m = true → has_calls m = false.
Proof.
  unfold is_tool, has_calls, has_role. intros ->%veq_str_true. done.
Qed.

Lemma requested_plain calls :
  (∀ c, c ∈ calls → ∃ d, c = VDict d ∧ text_id (dget d "id")) →
  requested_ids calls = Ok (List.filter truthy (map call_id_of calls)).
Proof.
  induction calls as [|c calls IH]; cbn [requested_ids map]; intros H; [done|].
  destruct (H c) as (d & -> & Hid); [left|]. cbn [vget mbind res_bind call_id_of].
  rewrite IH by (intros e He; apply H; by right). cbn [List.filter].
  destruct (truthy (dget d "id")); cbn; [|done]. by rewrite text_id_hashed.
Qed.

Lemma completed_plain block :
  Forall plain block → completed_ids block = Ok (map (λ t, dget t "tool_call_id") block).
Proof.
  unfold completed_ids. induction 1 as [|t block [Ht _] _ IH]; cbn [mapR map]; [done|].
  rewrite text_id_hashed by done. cbn. by rewrite IH.
Qed.

Lemma plain_calls m : plain m → has_calls m = true →
  ∃ calls, dget m "tool_calls" = VList calls ∧ calls ≠ [] ∧
           ∀ c, c ∈ calls → ∃ d, c = VDict d ∧ text_id (dget d "id").
Proof.
  intros [_ Hp] [_ Ht]%andb_prop. destruct (dget m "tool_calls") as [| | | | |calls|];
    try congruence. exists calls. split_and!; [done| |done]. by intros ->.
Qed.

Lemma paired_plain m block : plain m → has_calls m = true → Forall plain block →
  paired_ids m block = Ok (pairs m block).
Proof.
  intros Hm Hc Hb. destruct (plain_calls m Hm Hc) as (calls & Hcalls & _ & Hall).
  unfold paired_ids, pairs, call_ids. rewrite Hcalls. cbn [viter mbind res_bind].
  rewrite requested_plain by done. cbn. by rewrite completed_plain.
Qed.

Lemma tool_block_plain ms : Forall plain ms → Forall plain (tool_block ms).
Proof. induction 1 as [|m ms Hm _ IH]; cbn; [constructor|]. destruct (is_tool m); auto. Qed.

Lemma tool_block_length ms : length (tool_block ms) <= length ms.
Proof. induction ms as [|m ms IH]; cbn; [done|]. destruct (is_tool m); cbn; lia. Qed.

(** The in-place writes give every message the pairs of its block. *)
Lemma paired_loop_walk ms cur :
  Forall plain ms →
  paired_loop ms (replicate (length (tool_block ms)) cur
                  ++ replicate (length ms - length (tool_block ms)) [])
  = Ok (pairs_walk cur ms).
Proof.
  revert cur. induction ms as [|m ms IH]; intros cur Hp; [done|].
  apply Forall_cons in Hp as [Hm Hms]. pose proof (tool_block_length ms) as Hl.
  cbn [paired_loop pairs_walk tool_block length]. unfold next_pairs.
  destruct (is_tool m) eqn:Et.
  - rewrite (tool_no_calls m) by done. cbn [mbind res_bind length replicate app tail head default Nat.sub].
    by rewrite IH.
  - destruct (has_calls m) eqn:Ec.
    + rewrite paired_plain by (done || by apply tool_block_plain).
      cbn [mbind res_bind length replicate app tail head default Nat.sub drop].
      rewrite drop_replicate, IH by done. done.
    + cbn [mbind res_bind length replicate app tail head default Nat.sub].
      replace (replicate (length ms) []) with (replicate (length (tool_block ms)) []
        ++ replicate (length ms - length (tool_block ms)) (@nil pyval)).
      * by rewrite IH.
      * rewrite <-replicate_add. f_equal. lia.
Qed.

Lemma get_paired_plain ms :
  Forall plain ms → get_paired_tool_call_ids ms = Ok (pairs_walk [] ms).
Proof.
  intros H. unfold get_paired_tool_call_ids. rewrite <-(paired_loop_walk ms []) by done. f_equal.
  rewrite <-replicate_add. replace (_ + _) with (length ms); [|pose proof (tool_block_length ms); lia].
  clear H. induction ms as [|m ms IH]; cbn; [done|]. by f_equal.
Qed.

Lemma has_role_set m k v r : k ≠ "role" → has_role (dict_set k v m) r = has_role m r.
Proof. intros. unfold has_role. by rewrite dget_set_ne. Qed.

Lemma has_role_del m k r : k ≠ "role" → has_role (dict_del k m) r = has_role m r.
Proof. intros. unfold has_role. by rewrite dget_del_ne. Qed.


Section Walk.
(** What is left of an assistant message without any of its calls: nothing, or a
    message without calls *)
Context (bare : pydict → list pydict).
Definition bare_ok : Prop := ∀ m, bare m = [] ∨ ∃ m', bare m = [m'] ∧ (∀ r, has_role m' r = has_role m r) ∧
  dget m' "tool_calls" = VNone ∧ dget m' "tool_call_id" = dget m "tool_call_id".
Hypothesis Hbare : bare_ok.

Definition valid_calls (paired calls : list pyval) : list pyval :=
  List.filter (λ c, mem_id (call_id_of c) paired) calls.

(** What becomes of an assistant message with calls. *)
Definition reconcile_calls (m : pydict) (calls paired : list pyval) : list pydict :=
  match valid_calls paired calls with
  | [] => bare m
  | valid => [dict_set "tool_calls" (VList valid) m]
  end.

Definition reconciled (m : pydict) (paired : list pyval) : list pydict :=
  if is_tool m then if mem_id (dget m "tool_call_id") paired then [m] else []
  else if has_calls m then
    match dget m "tool_calls" with VList calls => reconcile_calls m calls paired | _ => [] end
  else [m].

Fixpoint rec_walk (cur : list pyval) (messages : list pydict) : list pydict :=
  match messages with
  | [] => []
  | m :: rest => reconciled m (next_pairs cur m rest) ++ rec_walk (next_pairs cur m rest) rest
  end.

Lemma valid_plain paired calls :
  (∀ c, c ∈ calls → ∃ d, c = VDict d ∧ text_id (dget d "id")) →
  valid_tool_calls paired calls = Ok (valid_calls paired calls).
Proof.
  induction calls as [|c calls IH]; cbn [valid_tool_calls valid_calls List.filter]; intros H; [done|].
  destruct (H c) as (d & -> & Hid); [left|]. cbn [vget mbind res_bind call_id_of].
  rewrite text_id_hashed by done. cbn [mbind res_bind].
  rewrite IH by (intros e He; apply H; by right). done.
Qed.

(** ** The result is well paired *)

Lemma pairs_elem m block id :
  plain m → Forall plain block →
  id ∈ pairs m block ↔ id ∈ call_ids m ∧ truthy id = true ∧
                       ∃ t, t ∈ block ∧ dget t "tool_call_id" = id.
Proof.
  intros [_ Hm] Hb. unfold pairs.
  rewrite list_elem_of_In, filter_In, <-list_elem_of_In, list_elem_of_In, filter_In,
    <-list_elem_of_In.
  assert (Hid : id ∈ call_ids m → text_id id).
  { unfold call_ids. destruct (dget m "tool_calls"); try by intros ?%elem_of_nil.
    intros (c & -> & Hc)%list_elem_of_fmap. by destruct (Hm c Hc) as (d & -> & ?). }
  assert (Hts : ∀ w, w ∈ map (λ t, dget t "tool_call_id") block → text_id w).
  { intros w (t & -> & Ht)%list_elem_of_fmap. by apply (proj1 (Forall_forall _ _) Hb) in Ht as [? _]. }
  split.
  - intros [[Hc Ht] Hmem]. apply mem_id_text in Hmem; [|by apply Hid|done].
    apply list_elem_of_fmap in Hmem as (t & -> & ?). eauto.
  - intros (Hc & Ht & t & Htb & <-). split; [done|]. apply mem_id_text; [by apply Hid|done|].
    by apply list_elem_of_fmap_2 with (f := λ t, dget t "tool_call_id").
Qed.

Lemma plain_next cur m rest :
  (∀ i, i ∈ cur → text_id i) → plain m → Forall plain rest →
  ∀ i, i ∈ next_pairs cur m rest → text_id i.
Proof.
  intros Hcur Hm Hr i. unfold next_pairs. destruct (is_tool m); [auto|].
  destruct (has_calls m) eqn:Ec; [|by intros ?%elem_of_nil].
  intros (Hi & _)%pairs_elem; [|done|by apply tool_block_plain].
  destruct (plain_calls m Hm Ec) as (calls & Hcalls & _ & Hall). unfold call_ids in Hi.
  rewrite Hcalls in Hi. apply list_elem_of_fmap in Hi as (c & -> & Hc).
  by destruct (Hall c Hc) as (d & -> & ?).
Qed.

Lemma valid_calls_elem paired calls c :
  c ∈ valid_calls paired calls ↔ c ∈ calls ∧ mem_id (call_id_of c) paired = true.
Proof. unfold valid_calls. by rewrite list_elem_of_In, filter_In, <-list_elem_of_In. Qed.

(** Answered results stay in the block. *)
Lemma tool_block_kept cur ms t :
  Forall plain ms → (∀ i, i ∈ cur → text_id i) →
  t ∈ tool_block ms → dget t "tool_call_id" ∈ cur → t ∈ tool_block (rec_walk cur ms).
Proof.
  intros Hp Hcur. induction Hp as [|m ms Hm Hms IH]; cbn [tool_block]; [by intros ?%elem_of_nil|].
  destruct (is_tool m) eqn:Et; [|by intros ?%elem_of_nil]. intros Ht Hid.
  cbn [rec_walk]. unfold next_pairs, reconciled. rewrite Et.
  destruct (mem_id (dget m "tool_call_id") cur) eqn:Em.
  - cbn [app tool_block]. rewrite Et. apply elem_of_cons in Ht as [->|Ht]; [left|right; auto].
  - cbn [app]. apply elem_of_cons in Ht as [->|Ht]; [|auto].
    exfalso. apply not_true_iff_false in Em. apply Em. apply mem_id_text; [apply Hm|done|done].
Qed.

Lemma rec_walk_paired ms cur allowed :
  Forall plain ms → (∀ i, i ∈ cur → text_id i) → (∀ i, i ∈ cur → i ∈ allowed) →
  well_paired_from allowed (rec_walk cur ms).
Proof.
  intros Hp. revert cur allowed.
  induction Hp as [|m ms Hm Hms IH]; intros cur allowed Htext Hsub; [done|].
  assert (Hblk := tool_block_plain ms Hms).
  cbn [rec_walk]. pose proof (plain_next cur m ms Htext Hm Hms) as Hnext.
  unfold reconciled, next_pairs in *. destruct (is_tool m) eqn:Et.
  { destruct (mem_id _ cur) eqn:Em; [|by apply IH]. cbn [app well_paired_from]. rewrite Et.
    apply mem_id_text in Em; [|apply Hm|done]. auto. }
  destruct (has_calls m) eqn:Ec.
  2:{ cbn [app well_paired_from]. rewrite Et, Ec. by apply IH. }
  destruct (plain_calls m Hm Ec) as (calls & Hcalls & _ & Hall). rewrite Hcalls.
  set (paired := pairs m (tool_block ms)) in *.
  assert (Hin : ∀ i, i ∈ paired → ∃ c, c ∈ valid_calls paired calls ∧ call_id_of c = i).
  { intros i Hi. pose proof Hi as Hi'. apply pairs_elem in Hi' as (Hc & _); [|done|done].
    unfold call_ids in Hc. rewrite Hcalls in Hc. apply list_elem_of_fmap in Hc as (c & -> & Hc).
    exists c. split; [|done]. apply valid_calls_elem. split; [done|].
    apply mem_id_text; [by apply Hnext|done|done]. }
  unfold reconcile_calls. destruct (valid_calls paired calls) as [|c0 valid] eqn:Ev.
  - assert (paired = []) as ->.
    { destruct paired as [|i l]; [done|]. destruct (Hin i) as (c & Hc & _); [left|].
      by apply elem_of_nil in Hc. }
    destruct (Hbare m) as [->|(m' & -> & Hrole & Hnone & _)]; cbn [app]; [by apply IH; [|intros i ?%elem_of_nil]|].
    cbn [well_paired_from]. unfold is_tool, has_calls in *. rewrite !Hrole, Et, Hnone. cbn [truthy]. rewrite andb_false_r.
    by apply IH.
  - cbn [app well_paired_from]. unfold is_tool, has_calls in *.
    rewrite !has_role_set, Et, dget_set_eq by done. cbn [truthy].
    apply andb_prop in Ec as [-> _]. cbn [andb]. unfold call_ids.
    rewrite dget_set_eq, <-Ev. rewrite <-Ev in Hin. split.
    + intros id (c & -> & [Hc Hmem]%valid_calls_elem)%list_elem_of_fmap.
      apply mem_id_text in Hmem; [|by destruct (Hall c Hc) as (d & -> & ?)|done].
      pose proof Hmem as Hmem'. apply pairs_elem in Hmem' as (_ & Ht & t & Htb & Htid); [|done|done].
      split; [done|]. exists t. split; [|done]. apply tool_block_kept; try done. by rewrite Htid.
    + apply IH; [done|]. intros i Hi. destruct (Hin i Hi) as (c & Hc & <-).
      by apply list_elem_of_fmap_2.
Qed.
End Walk.

(** ** Well-paired conversations are unaffected *)

Section Fixed.
Context (bare : pydict → list pydict).
Hypothesis Hbare : bare_ok bare.

Lemma dget_list_get m k l : dget m k = VList l → dict_get k m = Some (VList l).
Proof. unfold dget. by destruct (dict_get k m); cbn; [intros ->|]. Qed.

Lemma rec_walk_fixed ms cur :
  Forall plain ms → (∀ i, i ∈ cur → text_id i) → well_paired_from cur ms →
  rec_walk bare cur ms = ms.
Proof.
  intros Hp. revert cur.
  induction Hp as [|m ms Hm Hms IH]; intros cur Htext; cbn [well_paired_from rec_walk]; [done|].
  assert (Hblk := tool_block_plain ms Hms).
  pose proof (plain_next cur m ms Htext Hm Hms) as Hnext.
  unfold reconciled, next_pairs in *. destruct (is_tool m) eqn:Et.
  { intros [Hid Hw]. rewrite (proj2 (mem_id_text _ _ (proj1 Hm) Htext) Hid). cbn [app].
    by rewrite IH. }
  destruct (has_calls m) eqn:Ec; [|intros Hw; cbn [app]; by rewrite IH].
  intros [Hall Hw]. destruct (plain_calls m Hm Ec) as (calls & Hcalls & Hne & Hc).
  assert (Hpairs : pairs m (tool_block ms) = call_ids m).
  { assert (Hin : ∀ id, id ∈ call_ids m → id ∈ pairs m (tool_block ms)).
    { intros id Hid. apply pairs_elem; [done..|]. split; [done|]. by apply Hall. }
    unfold pairs in *. rewrite (filter_id truthy) in * by (intros; by apply Hall).
    apply filter_id. intros id Hid%Hin%filter_elem. apply Hid. }
  rewrite Hpairs in *. rewrite IH by done. rewrite Hcalls. unfold reconcile_calls, valid_calls.
  rewrite filter_id.
  - destruct calls as [|c calls]; [done|]. by rewrite dict_set_same by (by apply dget_list_get).
  - intros c Hin. apply mem_id_text; [by destruct (Hc c Hin) as (d & -> & ?)|done|].
    unfold call_ids. rewrite Hcalls. by apply list_elem_of_fmap_2.
Qed.

Lemma plain_set m valid :
  plain m → (∀ c, c ∈ valid → ∃ d, c = VDict d ∧ text_id (dget d "id")) →
  plain (dict_set "tool_calls" (VList valid) m).
Proof. intros [Ht _] Hv. split; [by rewrite dget_set_ne|by rewrite dget_set_eq]. Qed.

Lemma plain_del m : plain m → plain (dict_del "tool_calls" m).
Proof.
  intros [Ht _]. split; [by rewrite dget_del_ne|].
  unfold dget. by rewrite dict_get_del_eq.
Qed.

Lemma rec_walk_plain ms cur : Forall plain ms → Forall plain (rec_walk bare cur ms).
Proof.
  intros Hp. revert cur. induction Hp as [|m ms Hm _ IH]; intros cur; cbn; [constructor|].
  apply Forall_app. split; [|done]. unfold reconciled.
  destruct (is_tool m); [destruct (mem_id _ _); [by apply Forall_singleton|constructor]|].
  destruct (has_calls m) eqn:Ec; [|by apply Forall_singleton].
  destruct (plain_calls m Hm Ec) as (calls & -> & _ & Hc). unfold reconcile_calls.
  destruct (valid_calls _ calls) as [|c valid] eqn:Ev.
  - destruct (Hbare m) as [->|(m' & -> & _ & Hnone & Hid)]; [constructor|]. apply Forall_singleton.
    split; [rewrite Hid; apply Hm|by rewrite Hnone].
  - rewrite <-Ev. apply Forall_singleton, plain_set; [done|].
    intros e [He _]%valid_calls_elem. auto.
Qed.

(** Messages that are neither results nor calls are kept. *)
Lemma rec_walk_keeps ms cur m :
  m ∈ ms → is_tool m = false → has_calls m = false → m ∈ rec_walk bare cur ms.
Proof.
  intros Hin Ht Hc. revert cur. induction ms as [|m' ms IH]; intros cur; cbn;
    [by apply elem_of_nil in Hin|].
  apply elem_of_app. apply elem_of_cons in Hin as [->|Hin]; [left|right; auto].
  unfold reconciled. rewrite Ht, Hc. left.
Qed.
End Fixed.

(** ** [reconcile_tool_pairs] *)

Section Reconciled.
Context (repr_other : pyval → string).

Definition meaningful (m : pydict) : bool :=
  match por (get_content_from_message repr_other m) (VStr EmptyString) with
  | VStr s => negb (Str.is_empty (Str.strip s))
  | c => truthy c
  end.

Definition reconcile_bare (m : pydict) : list pydict :=
  if meaningful m || truthy (dget m "reasoning_content") then [dict_del "tool_calls" m] else [].

Lemma reconcile_bare_ok : bare_ok reconcile_bare.
Proof.
  intros m. unfold reconcile_bare. destruct (_ || _); [right|by left]. exists (dict_del "tool_calls" m).
  split; [done|]. split; [intros r; by apply has_role_del|]. split; [unfold dget; by rewrite dict_get_del_eq|by rewrite dget_del_ne].
Qed.

Lemma reconcile_message_plain m paired :
  plain m → reconcile_message repr_other m paired = Ok (reconciled reconcile_bare m paired).
Proof.
  intros Hm. unfold reconcile_message, reconciled. destruct (is_tool m) eqn:Et.
  - rewrite text_id_hashed by apply Hm. cbn [mbind res_bind].
    rewrite (tool_no_calls m) by done. by destruct (mem_id _ paired).
  - cbn [mbind res_bind]. destruct (has_calls m) eqn:Ec; [|done]. cbn [negb].
    destruct (plain_calls m Hm Ec) as (calls & -> & _ & Hall). cbn [viter mbind res_bind].
    rewrite valid_plain by done. cbn [mbind res_bind]. unfold reconcile_calls.
  destruct (valid_calls paired calls); [|done]. unfold reconcile_bare, meaningful. by destruct (por _ _).
Qed.

Lemma reconcile_plain ms :
  Forall plain ms → reconcile_tool_pairs repr_other ms = Ok (rec_walk reconcile_bare [] ms).
Proof.
  intros Hp. unfold reconcile_tool_pairs. rewrite get_paired_plain by done. cbn [mbind res_bind].
  generalize (@nil pyval). induction Hp as [|m ms Hm _ IH]; intros cur; cbn; [done|].
  rewrite reconcile_message_plain by done. cbn. specialize (IH (next_pairs cur m ms)).
  destruct (mapR _ (zip ms _)) as [kept|]; cbn in *; [|done]. by injection IH as <-.
Qed.

End Reconciled.

(** ** Merged system messages *)

Lemma merge_system_contents (repr_other : pyval → string) ms out :
  merge_system_messages repr_other ms = Ok out →
  let others := List.filter (λ m, negb (has_role m "system")) ms in
  out = others ∨ ∃ text, out = [("role", VStr "system"); ("content", VStr text)] :: others.
Proof.
  unfold merge_system_messages. cbn zeta. destruct (omap _ ms) as [|c cs]; [intros [= <-]; by left|].
  intros (texts & _ & [= <-])%bind_Ok. right. eauto.
Qed.

(** ** Converted output is plain *)

Section ConvertPlain.
Context (repr_other : pyval → string) (json_dumps : pyval → res string).
Context (raw : bool) (reasoning_format : option string) (flatten_tool_images : bool).

Definition plain_call (c : pyval) : Prop := ∃ d, c = VDict d ∧ text_id (dget d "id").
Definition plain_item (d : pydict) : Prop := text_id (dget d "call_id").

Definition plain_state (s : convert_state) : Prop :=
  Forall plain (cv_messages s) ∧ (∀ c, c ∈ cv_tool_calls s → plain_call c) ∧
  Forall plain_item (cv_outputs s).

Lemma pending_message_plain s :
  plain_state s → plain (pending_message reasoning_format s).
Proof.
  intros (_ & Hc & _). unfold pending_message, plain.
  assert (Hbase : ∀ b l k v, dget (dict_set k v (b : pydict)) l = if String.eqb l k then v else dget b l).
  { intros b l k v. unfold dget. rewrite dict_get_set. by destruct (String.eqb l k). }
  destruct (cv_details s), (cv_reasoning s); rewrite ?Hbase;
    destruct (format_is reasoning_format "thinking"); cbn -[Str.join];
    destruct (cv_tool_calls s) eqn:E; cbn -[Str.join]; (split; [by left|]); try done;
    intros x Hx; apply Hc; done.
Qed.

Lemma flush_pending_plain s : plain_state s → plain_state (flush_pending reasoning_format s).
Proof.
  intros Hs. unfold flush_pending. destruct (nothing_pending s); [done|].
  pose proof (pending_message_plain s Hs). destruct Hs as (Hm & Hc & Ho).
  split_and!; cbn; [|by intros c ?%elem_of_nil|done]. apply Forall_app. by rewrite Forall_singleton.
Qed.

Lemma flush_images_plain s : plain_state s → plain_state (flush_tool_images s).
Proof.
  intros (Hm & Hc & Ho). unfold flush_tool_images. destruct (cv_image_urls s); [done|].
  split_and!; cbn -[image_message]; [|done|done]. apply Forall_app. rewrite Forall_singleton.
  split; [done|]. split; [by left|done].
Qed.

Lemma tool_message_plain item content : plain_item item → plain (tool_message item content).
Proof.
  unfold plain_item, plain, tool_message. cbn. intros Hi. split; [|done].
  unfold dgetd. unfold dget in *. destruct (dict_get "call_id" item); cbn in *; [done|right; eauto].
Qed.

Lemma add_message_plain m s : plain m → plain_state s → plain_state (add_message m s).
Proof.
  intros Hm (Hms & Hc & Ho). split_and!; cbn; [|done|done]. apply Forall_app.
  by rewrite Forall_singleton.
Qed.

Lemma flush_output_plain s item s' :
  plain_state s → plain_item item →
  flush_output repr_other flatten_tool_images s item = Ok s' → plain_state s'.
Proof.
  intros Hs Hi (parts & _ & H)%bind_Ok. apply bind_Ok in H as ([content urls] & _ & H).
  destruct flatten_tool_images; [|destruct urls]; injection H as <-;
    apply (add_message_plain _ s); by first [apply tool_message_plain|done].
Qed.

Lemma flush_outputs_plain s s' :
  plain_state s →
  flush_tool_outputs repr_other reasoning_format flatten_tool_images s = Ok s' → plain_state s'.
Proof.
  intros Hs. unfold flush_tool_outputs. destruct (cv_outputs s) as [|o os] eqn:E;
    [by intros [= <-]|].
  set (claimed := List.filter _ _). intros (s1 & H1 & [= <-])%bind_Ok.
  assert (Hcl : ∀ r, r ∈ claimed → plain_item r).
  { intros r [Hr _]%filter_elem. destruct Hs as (_ & _ & Ho). rewrite E in Ho.
    by apply (proj1 (Forall_forall _ _) Ho). }
  assert (Hs1 : plain_state s1).
  { revert H1. apply foldM_inv.
    - intros s2 r s3 Hr Hs2. apply flush_output_plain; auto.
    - apply flush_pending_plain. destruct Hs as (Hm & Hc & _).
      split_and!; [done|done|]. by apply Forall_forall. }
  destruct Hs1 as (? & ? & _). by split_and!.
Qed.

Lemma convert_item_plain s v s' :
  plain_state s → (∀ d, v = VDict d → plain_item d) →
  convert_item repr_other json_dumps raw reasoning_format flatten_tool_images s v = Ok s' →
  plain_state s'.
Proof.
  intros Hs Hv (item & Hitem & H)%bind_Ok.
  assert (Hi : plain_item item) by (apply Hv; destruct v; cbn in Hitem; congruence).
  apply bind_Ok in H as (s1 & H1 & H).
  assert (Hs1 : plain_state s1).
  { case_hyp H1; [by injection H1 as <-|]. apply bind_Ok in H1 as (s2 & H2 & [= <-]).
    by eapply flush_images_plain, flush_outputs_plain. }
  clear H1 Hs s. destruct Hs1 as (Hm & Hc & Ho).
  repeat match type of H with
  | (if ?b then _ else _) = Ok _ => destruct b eqn:?
  | Err _ = Ok _ => discriminate H
  | Ok _ = Ok _ => injection H as <-
  end.
  - apply bind_Ok in H as (parts & _ & H). apply bind_Ok in H as (t & _ & [= <-]).
    by destruct (Str.is_empty t).
  - unfold function_call_item in H. case_hyp H; [by injection H as <-|].
    apply bind_Ok in H as (st & _ & H). case_hyp H; [by injection H as <-|].
    apply bind_Ok in H as (f & _ & [= <-]). split_and!; [done| |done]. cbn.
    intros c [Hx|Hx]%elem_of_app; [by apply Hc|]. apply list_elem_of_singleton in Hx as ->.
    eexists. split; [reflexivity|]. cbn. unfold dgetd. unfold plain_item, dget in Hi.
    destruct (dict_get "call_id" item); [exact Hi|right; eauto].
  - split_and!; [done|done|]. cbn. apply Forall_app. by rewrite Forall_singleton.
  - unfold reasoning_item in H. case_hyp H; [by injection H as <-|].
    apply bind_Ok in H as (src & _ & H). apply bind_Ok in H as (t & _ & [= <-]).
    by repeat case_goal.
  - unfold code_item. by repeat case_goal.
  - done.
Qed.

Lemma convert_items_plain items ms :
  (∀ d, VDict d ∈ items → plain_item d) →
  convert_items repr_other json_dumps raw reasoning_format flatten_tool_images items = Ok ms →
  Forall plain ms.
Proof.
  intros Hall (s & Hs & H)%bind_Ok. apply bind_Ok in H as (s1 & H1 & [= <-]).
  apply flush_outputs_plain in H1.
  - by apply flush_pending_plain, flush_images_plain.
  - revert Hs. apply foldM_inv.
    + intros s2 v s3 Hv Hs2. apply convert_item_plain; [done|]. intros d ->. auto.
    + split_and!; [constructor|by intros c ?%elem_of_nil|constructor].
Qed.
End ConvertPlain.

Lemma mapR_texts l texts :
  mapR (λ c, match c with VStr s => Ok s | _ => Err TypeError end) l = Ok texts → l = map VStr texts.
Proof.
  revert texts. induction l as [|c l IH]; cbn; intros texts; [by intros [= <-]|].
  destruct c; try done. cbn. intros (ts & Hts & [= <-])%bind_Ok. cbn. by rewrite <-IH.
Qed.

Lemma merge_again repr_other text others :
  text ≠ EmptyString → (∀ m, m ∈ others → has_role m "system" = false) →
  merge_system_messages repr_other ([("role", VStr "system"); ("content", VStr text)] :: others)
  = Ok ([("role", VStr "system"); ("content", VStr text)] :: others).
Proof.
  intros Ht Ho. unfold merge_system_messages.
  assert (Hnone : omap (system_text repr_other) others = []).
  { clear Ht. induction others as [|m l IH]; cbn; [done|]. unfold system_text at 1.
    rewrite (Ho m) by left. apply IH. intros x Hx. apply Ho. by right. }
  assert (Hfilter : List.filter (λ m, negb (has_role m "system")) others = others).
  { apply filter_id. intros m Hm. by rewrite (Ho m Hm). }
  destruct text as [|c text]; [done|].
  change (omap (system_text repr_other) (?h :: others))
    with (VStr (String c text) :: omap (system_text repr_other) others).
  rewrite Hnone. cbn [mapR mbind res_bind Str.join String.concat List.filter].
  change (has_role [("role", VStr "system"); ("content", VStr (String c text))] "system") with true.
  cbn [negb]. by rewrite Hfilter.
Qed.

(** ** Properties *)

(** C18: [get_message_list] terminates on every map, cyclic ones included, and
    answers the branch of the given message: it ends with that message, every
    message follows its parent, none is repeated, and the first one has no
    parent in the map or a parent that is already in the branch. *)
Theorem get_message_list_branch (m : pydict) (id : string) :
  message_map m → truthy (dget m id) = true →
  ∃ ids, get_message_list m (VStr id) = Ok (rev (map (dget m) ids)) ∧
    head ids = Some id ∧ NoDup ids ∧
    (∀ i a b, ids !! i = Some a → ids !! S i = Some b → parent_key m a = Some b) ∧
    (∀ a p, last ids = Some a → parent_key m a = Some p → p ∈ ids).
Proof.
  intros Hm Ht. exists (branch (S (length m)) m [] id). split.
  - unfold get_message_list. destruct m as [|kv m]; [done|]. cbn [get_by mbind res_bind].
    rewrite message_loop_branch by done. by rewrite app_nil_r.
  - destruct (branch_spec (S (length m)) m [] id) as (H1 & _ & H3 & H4 & H5).
    + constructor.
    + by intros x ?%elem_of_nil.
    + cbn. lia.
    + split_and!; [apply H5; [done|by apply not_elem_of_nil]|done|done|].
      intros a p Ha Hp. destruct (H4 a p Ha Hp) as [?|Hnil]; [done|by apply elem_of_nil in Hnil].
Qed.

(** C19: [reconcile_tool_pairs] answers a conversation strict providers accept:
    every tool result answers a call of the assistant message heading its block
    and every call has a result there.  A conversation that is already well
    paired is returned as it is, reconciling twice changes nothing more, and
    messages that are neither results nor carry calls are never lost. *)
Theorem reconcile_pairs_calls_and_results (repr_other : pyval → string) (ms : list pydict) :
  Forall plain ms →
  ∃ out, reconcile_tool_pairs repr_other ms = Ok out ∧ well_paired out ∧
    (well_paired ms → out = ms) ∧ reconcile_tool_pairs repr_other out = Ok out ∧
    (∀ m, m ∈ ms → is_tool m = false → has_calls m = false → m ∈ out).
Proof.
  intros Hp. pose proof (reconcile_bare_ok repr_other) as Hb.
  exists (rec_walk (reconcile_bare repr_other) [] ms).
  assert (Hnil : ∀ i, i ∈ @nil pyval → text_id i) by (by intros i ?%elem_of_nil).
  assert (Hw : well_paired (rec_walk (reconcile_bare repr_other) [] ms)) by (by apply rec_walk_paired).
  assert (Hpl := rec_walk_plain _ Hb ms [] Hp).
  split_and!; [by apply reconcile_plain|done|by apply rec_walk_fixed| |].
  - rewrite reconcile_plain by done. f_equal. by apply rec_walk_fixed.
  - intros m Hm Ht Hc. by apply rec_walk_keeps.
Qed.

(** Whatever output items a reply has stored, if the call ids in them are
    texts, the messages [convert_output_to_messages] rebuilds are well paired;
    so a missing result or a missing call never reaches a strict provider. *)
Theorem converted_output_is_well_paired (repr_other : pyval → string)
    (json_dumps : pyval → res string) (raw : bool) (reasoning_format : option string)
    (flatten : bool) (output : pyval) (out : list pydict) :
  (∀ items d, output = VList items → VDict d ∈ items → text_id (dget d "call_id")) →
  convert_output_to_messages repr_other json_dumps raw reasoning_format flatten output = Ok out →
  well_paired out.
Proof.
  intros Hall. unfold convert_output_to_messages.
  destruct output as [| | | | |[|v items]|]; try (by intros [= <-]).
  intros (ms & Hms & H)%bind_Ok.
  assert (Hp : Forall plain ms).
  { eapply convert_items_plain; [|exact Hms]. intros d Hd. by apply (Hall (v :: items)). }
  rewrite reconcile_plain in H by done. injection H as <-.
  apply rec_walk_paired; [apply reconcile_bare_ok|done|by intros i ?%elem_of_nil|done].
Qed.

(** [merge_system_messages] leaves the other messages as they are, in
    their order, and at most one system message, the first one, whose content
    is the non-empty texts of the system messages joined by newlines; merging
    again changes nothing. *)
Theorem merged_system_message_is_unique (repr_other : pyval → string) (ms out : list pydict) :
  merge_system_messages repr_other ms = Ok out →
  let others := List.filter (λ m, negb (has_role m "system")) ms in
  (out = others ∧ omap (system_text repr_other) ms = [] ∨
   ∃ texts, omap (system_text repr_other) ms = map VStr texts ∧ texts ≠ [] ∧
     out = [("role", VStr "system"); ("content", VStr (Str.join newline texts))] :: others) ∧
  (∀ m, m ∈ others → has_role m "system" = false) ∧
  merge_system_messages repr_other out = Ok out.
Proof.
  intros H others. assert (Ho : ∀ m, m ∈ others → has_role m "system" = false).
  { intros m [_ Hm]%filter_elem. by apply negb_true_iff. }
  pose proof H as H'. unfold merge_system_messages in H'. fold others in H'.
  destruct (omap (system_text repr_other) ms) as [|c cs] eqn:E.
  - injection H' as <-. split_and!; [by left|done|]. unfold merge_system_messages.
    assert (omap (system_text repr_other) others = []) as ->.
    { clear -Ho. induction others as [|m l IH]; cbn; [done|]. unfold system_text at 1.
      rewrite (Ho m) by left. apply IH. intros x Hx. apply Ho. by right. }
    f_equal. apply filter_id. intros m Hm. by rewrite (Ho m Hm).
  - apply bind_Ok in H' as (texts & Htexts & [= <-]). apply mapR_texts in Htexts.
    destruct texts as [|t texts]; [done|]. split_and!; [right; by exists (t :: texts)|done|].
    apply merge_again; [|done].
    assert (Hc : VStr t ∈ omap (system_text repr_other) ms).
    { rewrite E, Htexts. left. }
    apply list_elem_of_omap in Hc as (m & _ & Hm). unfold system_text in Hm.
    destruct (has_role m "system"); [|done].
    destruct (truthy (get_content_from_message repr_other m)) eqn:Et; [|done].
    injection Hm as Hm. rewrite Hm in Et. destruct t; [done|]. by destruct texts.
Qed.

(** ** Concrete conversations *)

Definition example_map : pydict :=
  [("a", VDict [("role", VStr "user"); ("parentId", VNone)]);
   ("b", VDict [("role", VStr "assistant"); ("parentId", VStr "a")]);
   ("x", VDict [("role", VStr "user"); ("parentId", VStr "y")]);
   ("y", VDict [("role", VStr "user"); ("parentId", VStr "x")])].

Lemma example_map_ok : message_map example_map.
Proof.
  intros k v H. apply dict_get_Some_elem in H.
  repeat (apply elem_of_cons in H as [[= -> ->]|H]; [eexists; split; reflexivity|]).
  by apply elem_of_nil in H.
Defined.

Definition example_call (id : string) : pyval := VDict [("id", VStr id)].
Definition example_messages : list pydict :=
  [ [("role", VStr "user"); ("content", VStr "hi")];
    [("role", VStr "assistant"); ("content", VStr EmptyString); ("tool_calls", VList [example_call "1"; example_call "2"])];
    [("role", VStr "tool"); ("tool_call_id", VStr "1"); ("content", VStr "r")];
    [("role", VStr "tool"); ("tool_call_id", VStr "9"); ("content", VStr "r")] ].

Lemma example_messages_plain : Forall plain example_messages.
Proof.
  repeat (apply Forall_cons; split); [..|constructor].
  all: split; [first [by left|right; eexists; reflexivity]|cbn; try reflexivity].
  intros c Hc. repeat (apply elem_of_cons in Hc as [->|Hc];
    [eexists; split; [reflexivity|right; eexists; reflexivity]|]).
  by apply elem_of_nil in Hc.
Defined.

Definition example_repr (v : pyval) : string := "repr".

Lemma get_message_list_branch_witness :
  ∃ ids, get_message_list example_map (VStr "y") = Ok (rev (map (dget example_map) ids)) ∧
         head ids = Some "y".
Proof.
  destruct (get_message_list_branch example_map "y" example_map_ok eq_refl) as (ids & H & Hh & _).
  exists ids. split; [exact H|exact Hh].
Defined.

Lemma reconcile_pairs_calls_and_results_witness :
  ∃ out, reconcile_tool_pairs example_repr example_messages = Ok out ∧ well_paired out.
Proof.
  destruct (reconcile_pairs_calls_and_results example_repr example_messages example_messages_plain)
    as (out & H & Hw & _).
  exists out. split; [exact H|exact Hw].
Defined.

Lemma converted_output_is_well_paired_witness : well_paired [].
Proof.
  apply (converted_output_is_well_paired example_repr (λ _, Ok "json") false None false
    (VList [VDict [("type", VStr "function_call"); ("call_id", VStr "c"); ("status", VStr "completed")]])).
  - intros items d [= <-] Hd. apply elem_of_cons in Hd as [[= ->]|Hd].
    + right. eexists. reflexivity.
    + by apply elem_of_nil in Hd.
  - vm_compute. reflexivity.
Defined.

Lemma merged_system_message_is_unique_witness :
  merge_system_messages example_repr
    [ [("role", VStr "system"); ("content", VStr "a")]; [("role", VStr "user"); ("content", VStr "u")] ]
  = Ok [ [("role", VStr "system"); ("content", VStr "a")]; [("role", VStr "user"); ("content", VStr "u")] ].
Proof.
  apply (merged_system_message_is_unique example_repr
    [ [("role", VStr "system"); ("content", VStr "a")]; [("role", VStr "user"); ("content", VStr "u")] ]).
  vm_compute. reflexivity.
Defined.
