(* ===== verification/PayloadMessages.v ===== *)
(** * The messages of a request (utils/middleware.py): what [process_chat_payload]
    makes of the stored messages before they go to a provider:
    [strip_reasoning_details], [strip_tool_images], [process_messages_with_output]
    with [add_file_context], and [sanitize_tool_pairs].

    The functions change fresh copies of the messages, so new values stand for them. *)

From S2P Require Import Prelude PyVal Messages.

Local Open Scope Z_scope.

(** [get_reasoning_format] *)
Definition get_reasoning_format (model : pydict) : option string :=
  if veq_str (dget model "owned_by") "ollama" then Some "thinking"
  else if veq_str (dgetd model "provider" (VStr EmptyString)) "llama.cpp" then Some "reasoning_content"
  else None.

(** [strip_reasoning_details] *)
Definition strip_reasoning_details (output : list pyval) : list pyval :=
  map (λ item, match item with VDict d => VDict (dict_del "reasoning_details" d) | _ => item end) output.

(** [strip_tool_images]: with vision turned off, a note takes the place of an image. *)
Definition image_note : pyval := VDict [("type", VStr "input_text"); ("text", VStr (newline +:+ "[image]"))].
Definition strip_image (part : pyval) : res pyval :=
  t ← vget part "type"; Ok (if veq_str t "input_image" then image_note else part).
Definition strip_item_images (item : pyval) : res pyval :=
  match item with
  | VDict d =>
      if is_type d "function_call_output" then
        parts ← viter (dgetd d "output" (VList []));
        parts ← mapR strip_image parts;
        Ok (VDict (dict_set "output" (VList parts) d))
      else Ok item
  | _ => Ok item
  end.
Definition has_vision (model : pydict) : res bool :=
  meta ← vgetd (dgetd model "info" (VDict [])) "meta" (VDict []);
  capabilities ← vget meta "capabilities";
  v ← vgetd (por capabilities (VDict [])) "vision" (VBool true);
  Ok (truthy v).
Definition strip_tool_images (output : list pyval) (model : pydict) : res (list pyval) :=
  vision ← has_vision model;
  if (vision : bool) then Ok output else mapR strip_item_images output.

Section Payload.
Context (repr_other : pyval → string) (json_dumps : pyval → res string).

(** ** Files *)

(** [format_file_tag] *)
Definition quoted (key value : string) : string :=
  key +:+ "=" +:+ String (Ascii.ascii_of_nat 34) (value +:+ String (Ascii.ascii_of_nat 34) EmptyString).
Definition format_file_tag (file : pydict) : string :=
  let str v := py_str repr_other v in
  let optional key := if truthy (dget file key) then " " +:+ quoted key (str (dget file key)) else EmptyString in
  "<file " +:+ quoted "type" (str (dgetd file "type" (VStr "file"))) +:+ " "
  +:+ quoted "id" (str (por (dget file "id") (dget file "url")))
  +:+ optional "url" +:+ optional "content_type" +:+ optional "name" +:+ "/>".

Definition is_attached (file : pyval) : res bool :=
  url ← vget file "url";
  plain_url ← (if truthy url then
                 match url with VStr s => Ok (negb (Str.startswith "data:" s)) | _ => Err AttributeError end
               else Ok false);
  if (plain_url : bool) then Ok true
  else
    t ← vget file "type"; id ← vget file "id"; Ok (veq_str t "chat" && truthy id).

Fixpoint attached_files (files : list pyval) : res (list pydict) :=
  match files with
  | [] => Ok []
  | f :: files =>
      attached ← is_attached f;
      rest ← attached_files files;
      Ok (match f with VDict d => if (attached : bool) then d :: rest else rest | _ => rest end)
  end.

Definition file_context (files : list pydict) : string :=
  "<attached_files>" +:+ newline +:+ Str.join newline (map format_file_tag files) +:+ newline
  +:+ "</attached_files>" +:+ newline +:+ newline.

(** [add_file_context], one message *)
Definition with_file_context (message : pydict) : res pydict :=
  if negb (has_role message "user") then Ok message
  else
    files ← viter (dgetd message "files" (VList []));
    attached ← attached_files files;
    match attached with
    | [] => Ok message
    | _ =>
        match dgetd message "content" (VStr EmptyString) with
        | VList parts =>
            Ok (dict_set "content"
                  (VList (VDict [("type", VStr "text"); ("text", VStr (file_context attached))] :: parts)) message)
        | VStr s => Ok (dict_set "content" (VStr (file_context attached +:+ s)) message)
        | _ => Err TypeError
        end
    end.

(** ** Stored output *)

Definition voice_of (message : pydict) : pydict :=
  match dget message "meta" with
  | VDict meta => match dget meta "voice" with VDict v => v | _ => [] end
  | _ => []
  end.

Definition is_spoken (message : pydict) : bool :=
  has_role message "assistant" && truthy (VDict (voice_of message))
  && py_eqb (dget message "model") (dget (voice_of message) "model") && negb (truthy (dget message "output")).

Definition transcript_note : string :=
  "[Historical voice assistant transcript; not current task status]" +:+ newline.

(** The transcripts of a message, as messages *)
Definition speech_of (message : pydict) : res (list pydict) :=
  transcripts ← (if is_spoken message then
                   Ok [VDict [("transcript", dgetd message "content" (VStr EmptyString))]]
                 else if has_role message "assistant" then viter (por (dget (voice_of message) "speech") (VList []))
                 else Ok []);
  Ok (omap (M:=list) (λ item,
        match item with
        | VDict d =>
            match dget d "transcript" with
            | VStr t => if Str.is_empty t then None
                        else Some [("role", VStr "assistant"); ("content", VStr (transcript_note +:+ t))]
            | _ => None
            end
        | _ => None
        end) transcripts).

Definition internal_keys : list string :=
  ["id"; "output"; "model"; "contextSummary"; "context_summary"; "usage"; "meta"].
Definition clean_message (message : pydict) : pydict := foldl (λ m k, dict_del k m) message internal_keys.

Definition process_message (reasoning_format : option string) (message : pydict) : res (list pydict) :=
  speech ← speech_of message;
  if is_spoken message then Ok speech
  else
    converted ← (if has_role message "assistant" && truthy (dget message "output")
                 then convert_output_to_messages repr_other json_dumps true reasoning_format true (dget message "output")
                 else Ok []);
    match converted with
    | _ :: _ => Ok (converted ++ speech)
    | [] =>
        if has_role message "assistant" && truthy (dget message "output") && negb (truthy (dget message "content"))
        then Ok [] else Ok (clean_message message :: speech)
    end.

(** [process_messages_with_output] *)
Definition process_messages_with_output (messages : list pydict) (reasoning_format : option string)
    (include_file_context : bool) : res (list pydict) :=
  processed ← mapR (process_message reasoning_format) messages;
  let processed := concat processed in
  processed ← (if include_file_context then mapR with_file_context processed else Ok processed);
  Ok (map (dict_del "files") processed).

(** ** Tool pairs *)

(** A message of [sanitize_tool_pairs] *)
Definition sanitize_message (message : pydict) (paired : list pyval) : res (list pydict) :=
  if has_calls message then
    calls ← viter (dget message "tool_calls");
    kept ← valid_tool_calls paired calls;
    match kept with
    | _ :: _ => Ok [dict_set "tool_calls" (VList kept) message]
    | [] =>
        let clean := dict_del "reasoning_items" (dict_del "tool_calls" message) in
        Ok (if truthy (dget clean "content") then [clean] else [])
    end
  else if negb (is_tool message) then Ok [message]
  else
    id ← hashed (dget message "tool_call_id");
    Ok (if mem_id id paired then [message] else []).

(** [sanitize_tool_pairs] *)
Definition sanitize_tool_pairs (messages : list pydict) : res (list pydict) :=
  paired ← get_paired_tool_call_ids messages;
  kept ← mapR (λ mp, sanitize_message mp.1 mp.2) (zip messages paired);
  Ok (concat kept).

(** ** The messages of a request *)

(** The loop of [process_chat_payload] over the stored output *)
Definition strip_output (model : pydict) (message : pydict) : res pydict :=
  if has_role message "assistant" then
    id ← ditem model "id";
    match dget message "output" with
    | VList output =>
        let output := if py_eqb (dget message "model") id then output else strip_reasoning_details output in
        output ← strip_tool_images output model;
        Ok (dict_set "output" (VList output) message)
    | _ => Ok message
    end
  else Ok message.

Definition prepare_messages (model : pydict) (messages : list pydict) (include_file_context : bool)
    : res (list pydict) :=
  messages ← mapR (strip_output model) messages;
  processed ← process_messages_with_output messages (get_reasoning_format model) include_file_context;
  sanitize_tool_pairs processed.
End Payload.
