(* ===== verification/PayloadMessagesProps.v ===== *)
(** * Properties of the messages of a request: whatever the chat store holds,
    the messages [process_chat_payload] sends are well paired. *)

From S2P Require Import Prelude PyVal Messages MessagesProps PayloadMessages.

(** ** [sanitize_tool_pairs] *)

(** What is left of a message without its calls *)
Definition sanitize_bare (m : pydict) : list pydict :=
  let clean := dict_del "reasoning_items" (dict_del "tool_calls" m) in
  if truthy (dget clean "content") then [clean] else [].

Lemma sanitize_bare_ok : bare_ok sanitize_bare.
Proof.
  intros m. unfold sanitize_bare. destruct (truthy _); [right|by left].
  eexists. split; [done|]. split; [intros r; by rewrite !has_role_del|].
  rewrite !(dget_del_ne _ "reasoning_items"), (dget_del_ne "tool_call_id") by done.
  split; [|done]. unfold dget. by rewrite dict_get_del_eq.
Qed.

Lemma sanitize_message_plain m paired :
  plain m → sanitize_message m paired = Ok (reconciled sanitize_bare m paired).
Proof.
  intros Hm. unfold sanitize_message, reconciled. destruct (is_tool m) eqn:Et.
  - rewrite (tool_no_calls m) by done. cbn [negb]. by rewrite text_id_hashed by apply Hm.
  - destruct (has_calls m) eqn:Ec; [|done]. destruct (plain_calls m Hm Ec) as (calls & -> & _ & Hall).
    cbn [viter mbind res_bind]. rewrite valid_plain by done. cbn [mbind res_bind].
    unfold reconcile_calls. by destruct (valid_calls paired calls).
Qed.

Lemma sanitize_plain ms :
  Forall plain ms → sanitize_tool_pairs ms = Ok (rec_walk sanitize_bare [] ms).
Proof.
  intros Hp. unfold sanitize_tool_pairs. rewrite get_paired_plain by done. cbn [mbind res_bind].
  generalize (@nil pyval). induction Hp as [|m ms Hm _ IH]; intros cur; cbn; [done|].
  rewrite sanitize_message_plain by done. cbn. specialize (IH (next_pairs cur m ms)).
  destruct (mapR _ (zip ms _)) as [kept|]; cbn in *; [|done]. by injection IH as <-.
Qed.

(** ** Plain messages stay plain *)

Lemma plain_ext m m' :
  dget m' "tool_call_id" = dget m "tool_call_id" → dget m' "tool_calls" = dget m "tool_calls" →
  plain m → plain m'.
Proof. unfold plain. by intros -> ->. Qed.

Lemma plain_set_other k v m : k ≠ "tool_call_id" → k ≠ "tool_calls" → plain m → plain (dict_set k v m).
Proof. intros ??. apply plain_ext; by rewrite dget_set_ne. Qed.

Lemma plain_del_other k m : k ≠ "tool_call_id" → k ≠ "tool_calls" → plain m → plain (dict_del k m).
Proof. intros ??. apply plain_ext; by rewrite dget_del_ne. Qed.

Lemma clean_message_plain m : plain m → plain (clean_message m).
Proof. intros Hm. unfold clean_message, internal_keys. cbn [foldl]. by repeat apply plain_del_other. Qed.

(** The stored items of a message have text call ids *)
Definition stored (m : pydict) : Prop :=
  plain m ∧ ∀ items d, dget m "output" = VList items → VDict d ∈ items → plain_item d.

Lemma mapR_Forall {A B} (P : A → Prop) (Q : B → Prop) (f : A → res B) l l' :
  (∀ a b, P a → f a = Ok b → Q b) → Forall P l → mapR f l = Ok l' → Forall Q l'.
Proof.
  intros Hf Hl. revert l'. induction Hl as [|a l Ha _ IH]; intros l'; cbn; [by intros [= <-]|].
  intros (b & Hb & (bs & Hbs & [= <-])%bind_Ok)%bind_Ok. constructor; eauto.
Qed.

Lemma items_Forall items : (∀ d, VDict d ∈ items → plain_item d) ↔
  Forall (λ v, ∀ d, v = VDict d → plain_item d) items.
Proof. rewrite Forall_forall. split; [intros Hi v Hv d ->|]; naive_solver. Qed.

Lemma strip_item_images_plain v w d :
  (∀ d, v = VDict d → plain_item d) → strip_item_images v = Ok w → w = VDict d → plain_item d.
Proof.
  intros Hv. destruct v as [| | | | | |e]; cbn; try (by intros [= <-]).
  case_goal; [|intros [= <-]; by apply Hv].
  intros (parts & _ & (parts' & _ & [= <-])%bind_Ok)%bind_Ok [= <-].
  unfold plain_item. rewrite dget_set_ne by done. by apply Hv.
Qed.

Lemma strip_details_plain items :
  Forall (λ v, ∀ d, v = VDict d → plain_item d) items →
  Forall (λ v, ∀ d, v = VDict d → plain_item d) (strip_reasoning_details items).
Proof.
  intros Hi. apply Forall_map. eapply Forall_impl; [exact Hi|]. intros v Hv d. cbn.
  destruct v as [| | | | | |e]; try done. intros [= <-]. unfold plain_item.
  rewrite dget_del_ne by done. by apply Hv.
Qed.

Lemma strip_output_stored model m m' : stored m → strip_output model m = Ok m' → stored m'.
Proof.
  intros [Hm Hi]. unfold strip_output. destruct (has_role m "assistant"); [|by intros [= <-]].
  intros (id & _ & H)%bind_Ok. destruct (dget m "output") as [| | | | |items|] eqn:E;
    try (injection H as <-; split; [done|]; intros its e Hits; rewrite E in Hits; done).
  apply bind_Ok in H as (out & Hout & [= <-]). split; [by apply plain_set_other|].
  intros its d. rewrite dget_set_eq. intros [= <-]. revert d. apply items_Forall.
  apply bind_Ok in Hout as (vision & _ & Hout).
  assert (Hs : Forall (λ v, ∀ d, v = VDict d → plain_item d)
    (if py_eqb (dget m "model") id then items else strip_reasoning_details items)).
  { assert (Forall (λ v, ∀ d, v = VDict d → plain_item d) items) by (apply items_Forall; eauto).
    destruct (py_eqb _ id); [done|by apply strip_details_plain]. }
  destruct vision; [by injection Hout as <-|].
  eapply mapR_Forall; [|exact Hs|exact Hout]. intros v w Hv Hw d.
  exact (strip_item_images_plain v w d Hv Hw).
Qed.

Lemma speech_plain m speech : speech_of m = Ok speech → Forall plain speech.
Proof.
  intros (ts & _ & [= <-])%bind_Ok. apply Forall_forall. intros s Hs.
  apply list_elem_of_omap in Hs as (v & _ & Hv). destruct v as [| | | | | |d]; try done.
  destruct (dget d "transcript"); try done. destruct (Str.is_empty _); [done|].
  injection Hv as <-. split; [by left|done].
Qed.

Section Payload.
Context (repr_other : pyval → string) (json_dumps : pyval → res string).

Lemma process_message_plain fmt m ms :
  stored m → process_message repr_other json_dumps fmt m = Ok ms → Forall plain ms.
Proof.
  intros [Hm Hi] (speech & Hs%speech_plain & H)%bind_Ok.
  destruct (is_spoken m); [by injection H as <-|]. apply bind_Ok in H as (conv & Hc & H).
  destruct conv as [|c conv].
  { case_hyp H; injection H as <-; [constructor|]. constructor; [by apply clean_message_plain|done]. }
  injection H as <-. change (Forall plain ((c :: conv) ++ speech)). apply Forall_app. split; [|done].
  case_hyp Hc; [|discriminate]. unfold convert_output_to_messages in Hc.
  destruct (dget m "output") as [| | | | |[|v items]|] eqn:E; try discriminate Hc.
  apply bind_Ok in Hc as (ms0 & H0 & Hr).
  assert (Hp : Forall plain ms0) by (eapply convert_items_plain; [|exact H0]; intros d; by apply Hi).
  rewrite reconcile_plain in Hr by done. injection Hr as <-.
  by apply rec_walk_plain; [apply reconcile_bare_ok|].
Qed.

Lemma with_file_context_plain m m' : plain m → with_file_context repr_other m = Ok m' → plain m'.
Proof.
  intros Hm. unfold with_file_context. case_goal; [by intros [= <-]|].
  intros (files & _ & (att & _ & H)%bind_Ok)%bind_Ok.
  destruct att; [by injection H as <-|].
  destruct (dgetd m "content" _); try discriminate H; injection H as <-; by apply plain_set_other.
Qed.

Lemma process_messages_plain fmt ctx ms out :
  Forall stored ms → process_messages_with_output repr_other json_dumps ms fmt ctx = Ok out →
  Forall plain out.
Proof.
  intros Hs (groups & Hg & H)%bind_Ok.
  eapply mapR_Forall with (Q := Forall plain) in Hg; [|apply process_message_plain|exact Hs].
  assert (Hp : Forall plain (concat groups)) by (by apply Forall_concat).
  apply bind_Ok in H as (processed & H1 & [= <-]). apply Forall_map.
  assert (Hq : Forall plain processed).
  { destruct ctx; [|by injection H1 as <-]. eapply mapR_Forall; [|exact Hp|exact H1].
    apply with_file_context_plain. }
  eapply Forall_impl; [exact Hq|]. intros m. by apply plain_del_other.
Qed.
End Payload.

(** ** Properties *)

(** C20: for every model and every stored conversation whose call ids are texts
    or missing, the messages prepared for the provider are well paired: images
    and reasoning details stripped, stored outputs expanded, file tags and
    voice transcripts added, no tool result is left without its call and no
    call without its result.  Sanitising them once more changes nothing. *)
Theorem prepared_messages_are_well_paired (repr_other : pyval → string)
    (json_dumps : pyval → res string) (model : pydict) (messages : list pydict)
    (include_file_context : bool) (out : list pydict) :
  Forall stored messages →
  prepare_messages repr_other json_dumps model messages include_file_context = Ok out →
  well_paired out ∧ Forall plain out ∧ sanitize_tool_pairs out = Ok out.
Proof.
  intros Hs (ms & Hms & (processed & Hp & H)%bind_Ok)%bind_Ok.
  eapply mapR_Forall in Hms; [|apply strip_output_stored|exact Hs].
  apply process_messages_plain in Hp; [|done].
  rewrite sanitize_plain in H by done. injection H as <-.
  pose proof sanitize_bare_ok as Hb.
  assert (Hnil : ∀ i, i ∈ @nil pyval → text_id i) by (by intros i ?%elem_of_nil).
  assert (Hw : well_paired (rec_walk sanitize_bare [] processed)) by (by apply rec_walk_paired).
  assert (Hpl := rec_walk_plain _ Hb processed [] Hp).
  split_and!; [done|done|]. rewrite sanitize_plain by done. f_equal. by apply rec_walk_fixed.
Qed.

(** ** A stored conversation *)

Definition stored_messages : list pydict :=
  [ [("id", VStr "1"); ("role", VStr "user"); ("content", VStr "look");
     ("files", VList [VDict [("id", VStr "f"); ("url", VStr "u"); ("type", VStr "file")]])];
    [("id", VStr "2"); ("role", VStr "assistant"); ("content", VStr "old"); ("model", VStr "m");
     ("output", VList
        [ VDict [("type", VStr "function_call"); ("call_id", VStr "c"); ("name", VStr "see"); ("arguments", VStr "{}");
                 ("status", VStr "completed"); ("reasoning_details", VStr "d")];
          VDict [("type", VStr "function_call_output"); ("call_id", VStr "c");
                 ("output", VList [VDict [("type", VStr "input_image"); ("image_url", VStr "data:")]])] ])] ].

Definition example_model : pydict :=
  [("id", VStr "n"); ("info", VDict [("meta", VDict [("capabilities", VDict [("vision", VBool false)])])])].

Lemma stored_messages_ok : Forall stored stored_messages.
Proof.
  repeat (apply Forall_cons; split); [..|constructor].
  all: split; [split; [by left|reflexivity]|]; intros items d Hi; vm_compute in Hi; try discriminate Hi.
  injection Hi as <-. intros Hd.
  repeat (apply elem_of_cons in Hd as [[= ->]|Hd]; [right; eexists; reflexivity|]).
  by apply elem_of_nil in Hd.
Defined.

(** The call, its result without the image, and the file of the user *)
Example prepared_messages_example :
  prepare_messages example_repr (λ _, Ok "{}") example_model stored_messages true =
  Ok [ [("role", VStr "user");
        ("content", VStr (file_context example_repr [[("id", VStr "f"); ("url", VStr "u"); ("type", VStr "file")]] +:+ "look"))];
       [("role", VStr "assistant"); ("content", VStr EmptyString);
        ("tool_calls", VList [VDict [("id", VStr "c"); ("type", VStr "function");
          ("function", VDict [("name", VStr "see"); ("arguments", VStr "{}")])]])];
       [("role", VStr "tool"); ("tool_call_id", VStr "c"); ("content", VStr (newline +:+ "[image]"))] ].
Proof. vm_compute. reflexivity. Qed.

Lemma prepared_messages_are_well_paired_witness :
  ∃ out, prepare_messages example_repr (λ _, Ok "{}") example_model stored_messages true = Ok out ∧ well_paired out.
Proof.
  eexists. split; [vm_compute; reflexivity|].
  eapply (prepared_messages_are_well_paired example_repr (λ _, Ok "{}") example_model stored_messages true);
    [exact stored_messages_ok|vm_compute; reflexivity].
Defined.
