(* ===== verification/AccessGrants.v ===== *)
(** * Access grants (models/access_grants.py): the grant lists of the API and
    of the legacy dicts, and the access_grant table. *)

From S2P Require Import Prelude PyVal.

Local Open Scope Z_scope.

Definition PRINCIPAL_TYPE_ANYONE : string := "anyone".
Definition PRINCIPAL_TYPE_GROUP : string := "group".
Definition PRINCIPAL_TYPE_USER : string := "user".
Definition WILDCARD_PRINCIPAL_ID : string := "*".

(** [AccessGrant] / [AccessGrantModel] *)
Record grant := {
  gr_id : string;
  gr_resource_type : string;
  gr_resource_id : string;
  gr_principal_type : string;
  gr_principal_id : string;
  gr_permission : string;
  gr_created_at : Z;
}.

(** A grant as the conversion functions build it: the ids come from JSON. *)
Record grant_dict := {
  gd_principal_type : string;
  gd_principal_id : pyval;
  gd_permission : string;
}.

(** A normalized grant, [AccessGrantResponse]. *)
Record ngrant := {
  ng_id : string;
  ng_principal_type : string;
  ng_principal_id : string;
  ng_permission : string;
}.

(** [AccessGrantResponse.from_grant] *)
Definition from_grant (g : grant) : ngrant :=
  {| ng_id := gr_id g; ng_principal_type := gr_principal_type g;
     ng_principal_id := gr_principal_id g; ng_permission := gr_permission g |}.

(** ** Legacy access control dicts *)

(** The two id lists of one permission. *)
Definition perm_grants (perm_data : pyval) (permission : string) : res (list grant_dict) :=
  if negb (truthy perm_data) then Ok []
  else
    group_value ← vgetd perm_data "group_ids" (VList []); groups ← viter group_value;
    user_value ← vgetd perm_data "user_ids" (VList []); users ← viter user_value;
    Ok (map (λ i, {| gd_principal_type := "group"; gd_principal_id := i; gd_permission := permission |})
            groups
        ++ map (λ i, {| gd_principal_type := "user"; gd_principal_id := i; gd_permission := permission |})
               users).

(** [access_control_to_grants]; the resource columns are those of the call. *)
Definition access_control_to_grants (resource_type : string) (access_control : option pydict)
    : res (list grant_dict) :=
  match access_control with
  | None =>
      Ok (if String.eqb resource_type "file" then []
          else [{| gd_principal_type := "user"; gd_principal_id := VStr "*"; gd_permission := "read" |}])
  | Some ac =>
      read ← perm_grants (dgetd ac "read" (VDict [])) "read";
      write ← perm_grants (dgetd ac "write" (VDict [])) "write";
      Ok (read ++ write)
  end.

(** The four lists of the dict [grants_to_access_control] builds. *)
Record access_lists := {
  al_read_groups : list string;
  al_read_users : list string;
  al_write_groups : list string;
  al_write_users : list string;
}.

Definition empty_lists : access_lists :=
  {| al_read_groups := []; al_read_users := []; al_write_groups := []; al_write_users := [] |}.

(** [if x not in l: l.append(x)] *)
Definition append_new (x : string) (l : list string) : list string :=
  if bool_decide (x ∈ l) then l else l ++ [x].

Definition add_to_lists (group read : bool) (i : string) (a : access_lists) : access_lists :=
  {| al_read_groups := if group && read then append_new i (al_read_groups a) else al_read_groups a;
     al_read_users := if negb group && read then append_new i (al_read_users a) else al_read_users a;
     al_write_groups := if group && negb read then append_new i (al_write_groups a)
                        else al_write_groups a;
     al_write_users := if negb group && negb read then append_new i (al_write_users a)
                       else al_write_users a |}.

Definition is_public_read (g : grant) : bool :=
  String.eqb (gr_principal_type g) "user" && String.eqb (gr_principal_id g) "*"
  && String.eqb (gr_permission g) "read".

Definition list_step (acc : bool * access_lists) (g : grant) : bool * access_lists :=
  if is_public_read g then (true, acc.2)
  else if negb (String.eqb (gr_permission g) "read" || String.eqb (gr_permission g) "write") then acc
  else
    let read := String.eqb (gr_permission g) "read" in
    if String.eqb (gr_principal_type g) "group" then (acc.1, add_to_lists true read (gr_principal_id g) acc.2)
    else if String.eqb (gr_principal_type g) "user"
    then (acc.1, add_to_lists false read (gr_principal_id g) acc.2)
    else acc.

Definition ids_dict (groups users : list string) : pyval :=
  VDict [("group_ids", VList (VStr <$> groups)); ("user_ids", VList (VStr <$> users))].

(** [grants_to_access_control] *)
Definition grants_to_access_control (grants : list grant) : option pydict :=
  match grants with
  | [] => Some []
  | _ =>
      let '(is_public, a) := foldl list_step (false, empty_lists) grants in
      if is_public then None
      else Some [("read", ids_dict (al_read_groups a) (al_read_users a));
                 ("write", ids_dict (al_write_groups a) (al_write_users a))]
  end.

(** ** Grant lists of the API *)

(** [grant.get(k)] of a dict, [getattr(grant, k, None)] of a model. *)
Definition field (v : pyval) (k : string) : pyval :=
  match v with VDict d => dget d k | _ => VNone end.

Definition same_key (a b : ngrant) : bool :=
  String.eqb (ng_principal_type a) (ng_principal_type b)
  && String.eqb (ng_principal_id a) (ng_principal_id b)
  && String.eqb (ng_permission a) (ng_permission b).

(** [deduped[key] = grant] *)
Fixpoint put_grant (g : ngrant) (l : list ngrant) : list ngrant :=
  match l with
  | [] => [g]
  | h :: l' => if same_key h g then g :: l' else h :: put_grant g l'
  end.

(** The checks of [normalize_access_grants] on the three fields. *)
Definition valid_key (principal_type principal_id permission : string) : bool :=
  (String.eqb principal_type "user" || String.eqb principal_type "group"
   || String.eqb principal_type "anyone")
  && (String.eqb permission "read" || String.eqb permission "write")
  && negb (Str.is_empty principal_id)
  && negb (String.eqb principal_type "anyone"
           && (negb (String.eqb principal_id "*") || negb (String.eqb permission "read"))).

(** The key of a grant that passes them. *)
Definition grant_key (v : pyval) : option (string * string * string) :=
  match v with
  | VDict d =>
      match dget d "principal_type", dget d "principal_id", dget d "permission" with
      | VStr t, VStr i, VStr p => if valid_key t i p then Some (t, i, p) else None
      | _, _, _ => None
      end
  | _ => None
  end.

Section Normalize.
(** [uuid4 n]: the n-th identifier drawn. *)
Context (uuid4 : nat → string).

Definition normalize_step (acc : list ngrant * nat) (v : pyval) : list ngrant * nat :=
  match grant_key v with
  | None => acc
  | Some (t, i, p) =>
      let given := match field v "id" with
                   | VStr s => if Str.is_empty s then None else Some s
                   | _ => None
                   end in
      let '(id, n) := match given with Some s => (s, acc.2) | None => (uuid4 acc.2, S acc.2) end in
      (put_grant {| ng_id := id; ng_principal_type := t; ng_principal_id := i; ng_permission := p |}
                 acc.1, n)
  end.

(** [normalize_access_grants]; an absent list is the empty one.  The second
    component counts the identifiers drawn. *)
Definition normalize_access_grants (n : nat) (access_grants : list pyval) : list ngrant * nat :=
  foldl normalize_step ([], n) access_grants.

Definition has_grant (n : nat) (access_grants : list pyval) (p : ngrant → bool) : bool :=
  existsb p (normalize_access_grants n access_grants).1.

(** [has_public_read_access_grant], [has_public_write_access_grant],
    [has_anyone_read_access_grant], [has_user_access_grant] *)
Definition has_public_read_access_grant (n : nat) (l : list pyval) : bool :=
  has_grant n l (λ g, String.eqb (ng_principal_type g) "user" && String.eqb (ng_principal_id g) "*"
                      && String.eqb (ng_permission g) "read").
Definition has_public_write_access_grant (n : nat) (l : list pyval) : bool :=
  has_grant n l (λ g, String.eqb (ng_principal_type g) "user" && String.eqb (ng_principal_id g) "*"
                      && String.eqb (ng_permission g) "write").
Definition has_anyone_read_access_grant (n : nat) (l : list pyval) : bool :=
  has_grant n l (λ g, String.eqb (ng_principal_type g) "anyone" && String.eqb (ng_principal_id g) "*"
                      && String.eqb (ng_permission g) "read").
Definition has_user_access_grant (n : nat) (l : list pyval) : bool :=
  has_grant n l (λ g, String.eqb (ng_principal_type g) "user"
                      && negb (String.eqb (ng_principal_id g) "*")).
End Normalize.

(** [strip_user_access_grants] and [strip_anyone_access_grants] *)
Definition strip_user_access_grants (l : list pyval) : list pyval :=
  List.filter (λ g, negb (veq_str (field g "principal_type") "user"
                          && negb (veq_str (field g "principal_id") "*"))) l.
Definition strip_anyone_access_grants (l : list pyval) : list pyval :=
  List.filter (λ g, negb (veq_str (field g "principal_type") "anyone")) l.

(** ** The table *)

Record grant_db := { gdb_grants : list grant; gdb_uuids : nat }.

Definition with_grants (l : list grant) (d : grant_db) : grant_db :=
  {| gdb_grants := l; gdb_uuids := gdb_uuids d |}.

Definition on_resource (resource_type resource_id : string) (g : grant) : bool :=
  String.eqb (gr_resource_type g) resource_type && String.eqb (gr_resource_id g) resource_id.

(** Equality on the columns of the unique constraint. *)
Definition same_grant (a b : grant) : bool :=
  on_resource (gr_resource_type b) (gr_resource_id b) a
  && String.eqb (gr_principal_type a) (gr_principal_type b)
  && String.eqb (gr_principal_id a) (gr_principal_id b)
  && String.eqb (gr_permission a) (gr_permission b).

(** Direct, public and group access: the [or_] of the queries. *)
Definition matches_principal (user_id : string) (group_ids : list string) (t i : string) : bool :=
  (String.eqb t "user" && (String.eqb i "*" || String.eqb i user_id))
  || (String.eqb t "group" && bool_decide (i ∈ group_ids)).

Section Table.
(** [uuid4 n]: the n-th identifier drawn.  [bind_text]: what the database
    driver stores for a value bound to a text column. *)
Context (uuid4 : nat → string) (bind_text : pyval → res string).

Definition fresh_grant_id : st grant_db string := λ d,
  (Ok (uuid4 (gdb_uuids d)), {| gdb_grants := gdb_grants d; gdb_uuids := S (gdb_uuids d) |}).

(** INSERT: the primary key and uq_access_grant_grant. *)
Definition insert_grant (g : grant) : st grant_db unit := λ d,
  if existsb (λ h, String.eqb (gr_id h) (gr_id g) || same_grant h g) (gdb_grants d)
  then (Err IntegrityError, d)
  else (Ok tt, with_grants (gdb_grants d ++ [g]) d).

(** DELETE: the number of rows. *)
Definition delete_grants (p : grant → bool) : st grant_db nat := λ d,
  (Ok (length (List.filter p (gdb_grants d))),
   with_grants (List.filter (λ g, negb (p g)) (gdb_grants d)) d).

(** [AccessGrantsTable.grant_access] *)
Definition grant_access (now : Z) (resource_type resource_id principal_type principal_id
    permission : string) : st grant_db grant :=
  d ← st_get;
  let wanted g := on_resource resource_type resource_id g
                  && String.eqb (gr_principal_type g) principal_type
                  && String.eqb (gr_principal_id g) principal_id
                  && String.eqb (gr_permission g) permission in
  match find_first wanted (gdb_grants d) with
  | Some existing => mret existing
  | None =>
      transaction (
        id ← fresh_grant_id;
        let g := {| gr_id := id; gr_resource_type := resource_type; gr_resource_id := resource_id;
                    gr_principal_type := principal_type; gr_principal_id := principal_id;
                    gr_permission := permission; gr_created_at := now |} in
        _ ← insert_grant g; mret g)
  end.

(** [AccessGrantsTable.revoke_access] *)
Definition revoke_access (resource_type resource_id principal_type principal_id permission : string)
    : st grant_db bool :=
  n ← delete_grants (λ g, on_resource resource_type resource_id g
                          && String.eqb (gr_principal_type g) principal_type
                          && String.eqb (gr_principal_id g) principal_id
                          && String.eqb (gr_permission g) permission);
  mret (0 <? n)%nat.

(** [AccessGrantsTable.revoke_all_access] *)
Definition revoke_all_access (resource_type resource_id : string) : st grant_db nat :=
  delete_grants (on_resource resource_type resource_id).

(** The insertion loops of the two setters. *)
Fixpoint insert_all (now : Z) (resource_type resource_id : string)
    (l : list (string * string * string)) : st grant_db (list grant) :=
  match l with
  | [] => mret []
  | (t, i, p) :: l' =>
      id ← fresh_grant_id;
      let g := {| gr_id := id; gr_resource_type := resource_type; gr_resource_id := resource_id;
                  gr_principal_type := t; gr_principal_id := i; gr_permission := p;
                  gr_created_at := now |} in
      _ ← insert_grant g;
      rest ← insert_all now resource_type resource_id l';
      mret (g :: rest)
  end.

Definition bind_dict (g : grant_dict) : res (string * string * string) :=
  i ← bind_text (gd_principal_id g); Ok (gd_principal_type g, i, gd_permission g).

(** [AccessGrantsTable.set_access_control] *)
Definition set_access_control (now : Z) (resource_type resource_id : string)
    (access_control : option pydict) : st grant_db (list grant) :=
  transaction (
    _ ← delete_grants (on_resource resource_type resource_id);
    dicts ← st_lift (access_control_to_grants resource_type access_control);
    keys ← st_lift (mapR bind_dict dicts);
    insert_all now resource_type resource_id keys).

(** [AccessGrantsTable.replace_access_grants], in the caller's transaction *)
Definition replace_access_grants (now : Z) (resource_type resource_id : string)
    (access_grants : list pyval) : st grant_db (list grant) :=
  _ ← delete_grants (on_resource resource_type resource_id);
  normalized ← (λ d, let '(l, n) := normalize_access_grants uuid4 (gdb_uuids d) access_grants in
                     (Ok l, {| gdb_grants := gdb_grants d; gdb_uuids := n |}));
  insert_all now resource_type resource_id
    (map (λ g, (ng_principal_type g, ng_principal_id g, ng_permission g)) normalized).

(** [AccessGrantsTable.set_access_grants] *)
Definition set_access_grants (now : Z) (resource_type resource_id : string)
    (access_grants : list pyval) : st grant_db (list grant) :=
  transaction (replace_access_grants now resource_type resource_id access_grants).

(** [AccessGrantsTable.get_grants_by_resource] *)
Definition get_grants_by_resource (resource_type resource_id : string) (d : grant_db) : list grant :=
  List.filter (on_resource resource_type resource_id) (gdb_grants d).

(** [AccessGrantsTable.get_access_control] *)
Definition get_access_control (resource_type resource_id : string) (d : grant_db) : option pydict :=
  grants_to_access_control (get_grants_by_resource resource_type resource_id d).

(** [AccessGrantsTable.get_grants_by_resources] *)
Definition get_grants_by_resources (resource_type : string) (resource_ids : list string)
    (d : grant_db) : list (string * list grant) :=
  let rows := List.filter (λ g, String.eqb (gr_resource_type g) resource_type
                                && bool_decide (gr_resource_id g ∈ resource_ids)) (gdb_grants d) in
  foldl (λ acc g, dict_set (gr_resource_id g)
                    (default [] (dict_get (gr_resource_id g) acc) ++ [g]) acc)
        (foldl (λ acc r, dict_set r [] acc) [] resource_ids) rows.

(** [AccessGrantsTable.has_anyone_access] *)
Definition has_anyone_access (resource_type resource_id permission : string) (d : grant_db) : bool :=
  existsb (λ g, on_resource resource_type resource_id g
                && String.eqb (gr_principal_type g) "anyone" && String.eqb (gr_principal_id g) "*"
                && String.eqb (gr_permission g) permission) (gdb_grants d).

(** [AccessGrantsTable.has_access]; [group_ids] are the user's groups, given
    or looked up. *)
Definition has_access (user_id resource_type resource_id permission : string)
    (group_ids : list string) (d : grant_db) : bool :=
  existsb (λ g, on_resource resource_type resource_id g && String.eqb (gr_permission g) permission
                && matches_principal user_id group_ids (gr_principal_type g) (gr_principal_id g))
          (gdb_grants d).

(** [AccessGrantsTable.get_accessible_resource_ids] *)
Definition get_accessible_resource_ids (user_id resource_type : string) (resource_ids : list string)
    (permission : string) (group_ids : list string) (d : grant_db) : gset string :=
  list_to_set (map gr_resource_id (List.filter
    (λ g, String.eqb (gr_resource_type g) resource_type
          && bool_decide (gr_resource_id g ∈ resource_ids)
          && String.eqb (gr_permission g) permission
          && matches_principal user_id group_ids (gr_principal_type g) (gr_principal_id g))
    (gdb_grants d))).

(** [non_pending]: the ids of the users whose role is not pending;
    [members_of]: the users of a group, inherited ones included. *)
Context (non_pending : gset string) (members_of : string → gset string).

(** The loop of [get_user_ids_by_access_grants]. *)
Fixpoint user_ids_loop (grants : list grant) (permission : string) (user_ids : gset string)
    (group_ids : list string) : gset string :=
  match grants with
  | [] => foldl (λ acc g, acc ∪ members_of g) user_ids group_ids
  | g :: rest =>
      if negb (String.eqb (gr_permission g) permission)
      then user_ids_loop rest permission user_ids group_ids
      else if String.eqb (gr_principal_type g) "user" then
        if String.eqb (gr_principal_id g) "*" then non_pending
        else user_ids_loop rest permission ({[ gr_principal_id g ]} ∪ user_ids) group_ids
      else if String.eqb (gr_principal_type g) "group"
      then user_ids_loop rest permission user_ids (group_ids ++ [gr_principal_id g])
      else user_ids_loop rest permission user_ids group_ids
  end.

(** [AccessGrantsTable.get_user_ids_by_access_grants] *)
Definition get_user_ids_by_access_grants (grants : list grant) (permission : string) : gset string :=
  user_ids_loop grants permission ∅ [].

(** [AccessGrantsTable.get_users_with_access]: the ids of the users it reads *)
Definition get_users_with_access (resource_type resource_id permission : string) (d : grant_db)
    : gset string :=
  get_user_ids_by_access_grants
    (List.filter (λ g, on_resource resource_type resource_id g && String.eqb (gr_permission g) permission)
                 (gdb_grants d)) permission.

Definition principals (permission : string) (grants : list grant) : gset (string * string) :=
  list_to_set (map (λ g, (gr_principal_type g, gr_principal_id g))
                   (List.filter (λ g, String.eqb (gr_permission g) permission) grants)).

(** [AccessGrantsTable.get_revoked_user_ids_by_resource] *)
Definition get_revoked_user_ids_by_resource (resource_type resource_id : string)
    (previous_access_grants : list grant) (permission : string) (d : grant_db) : gset string :=
  let access_grants := get_grants_by_resource resource_type resource_id d in
  let previous_principals := principals permission previous_access_grants in
  let now_principals := principals permission access_grants in
  if bool_decide (previous_principals ⊆ now_principals)
     || bool_decide (("user", "*") ∈ now_principals)
  then ∅
  else get_user_ids_by_access_grants previous_access_grants permission
       ∖ get_user_ids_by_access_grants access_grants permission.
End Table.
