(* ===== verification/AccessGrantsProps.v ===== *)
(** * Properties of the access grants: replacing the grants of a resource,
    the legacy dicts and the users who lose access. *)

From S2P Require Import Prelude PyVal AccessGrants.

Definition row_key (g : grant) : string * string * string :=
  (gr_principal_type g, gr_principal_id g, gr_permission g).
Definition norm_key (g : ngrant) : string * string * string :=
  (ng_principal_type g, ng_principal_id g, ng_permission g).

Lemma on_resource_true rt rid g :
  on_resource rt rid g = true ↔ gr_resource_type g = rt ∧ gr_resource_id g = rid.
Proof. unfold on_resource. by rewrite andb_true_iff, !String.eqb_eq. Qed.

Lemma same_grant_true a b :
  same_grant a b = true ↔
  gr_resource_type a = gr_resource_type b ∧ gr_resource_id a = gr_resource_id b ∧ row_key a = row_key b.
Proof.
  unfold same_grant, row_key. rewrite !andb_true_iff, on_resource_true, !String.eqb_eq.
  split; [intros [[[[H1 H2] H3] H4] H5]; split_and!; congruence|].
  intros (H1 & H2 & [= H3 H4 H5]). by split_and!.
Qed.

(** ** Normalized lists *)

Lemma same_key_true a b : same_key a b = true ↔ norm_key a = norm_key b.
Proof. unfold same_key, norm_key. rewrite !andb_true_iff, !String.eqb_eq.
  split; [intros [[H1 H2] H3]; congruence|by intros [= H1 H2 H3]]. Qed.

Lemma put_grant_keys g l :
  map norm_key (put_grant g l) =
    if bool_decide (norm_key g ∈ map norm_key l) then map norm_key l else map norm_key l ++ [norm_key g].
Proof.
  induction l as [|h l IH]; cbn [put_grant map]; [done|].
  destruct (same_key h g) eqn:E; cbn [map].
  - apply same_key_true in E. rewrite bool_decide_true by (rewrite E; left). by rewrite E.
  - rewrite IH. assert (norm_key h ≠ norm_key g).
    { intros Heq. apply same_key_true in Heq. congruence. }
    case_bool_decide as H1; case_bool_decide as H2; try done; exfalso.
    + apply H2. by right.
    + apply elem_of_cons in H2 as [H2|H2]; [by apply H|done].
Qed.

Lemma put_grant_elem g l h : NoDup (map norm_key l) →
  h ∈ put_grant g l ↔ h = g ∨ h ∈ l ∧ norm_key h ≠ norm_key g.
Proof.
  induction l as [|x l IH]; cbn [put_grant map]; [set_solver|].
  intros [Hx Hl]%NoDup_cons. destruct (same_key x g) eqn:E.
  - apply same_key_true in E. rewrite !elem_of_cons. split.
    + intros [->|Hh]; [by left|right]. split; [by right|]. intros Heq. apply Hx.
      rewrite E, <-Heq. by apply list_elem_of_fmap_2.
    + intros [->|[[->|Hh] Hne]]; [by left|congruence|by right].
  - assert (norm_key x ≠ norm_key g) by (intros Heq; apply same_key_true in Heq; congruence).
    rewrite !elem_of_cons, IH by done.
    split; [intros [->|[->|[? ?]]]; auto|intros [->|[[->|?] ?]]; auto].
Qed.

Section Normalized.
Context (uuid4 : nat → string).

(** The id a valid grant carries. *)
Definition given_id (v : pyval) : option string :=
  match field v "id" with VStr s => if Str.is_empty s then None else Some s | _ => None end.

Lemma normalize_step_cases acc v :
  match grant_key v with
  | None => normalize_step uuid4 acc v = acc
  | Some (t, i, p) => ∃ id n, acc.2 <= n ∧ (∀ s, given_id v = Some s → id = s) ∧
      normalize_step uuid4 acc v =
        (put_grant {| ng_id := id; ng_principal_type := t; ng_principal_id := i;
                      ng_permission := p |} acc.1, n)
  end.
Proof.
  unfold normalize_step. destruct (grant_key v) as [[[t i] p]|]; [|done].
  change (match field v "id" with VStr s => _ | _ => _ end) with (given_id v).
  destruct (given_id v) as [s|]; eexists _, _; (split_and!; [|by intros ? [= <-]|reflexivity]); lia.
Qed.

Lemma normalize_inv l acc :
  NoDup (map norm_key acc.1) →
  let out := foldl (normalize_step uuid4) acc l in
  NoDup (map norm_key out.1) ∧ acc.2 <= out.2 ∧
  (∀ k, k ∈ map norm_key out.1 ↔ k ∈ map norm_key acc.1 ∨ ∃ v, v ∈ l ∧ grant_key v = Some k).
Proof.
  revert acc. induction l as [|v l IH]; intros acc Hnd; cbn zeta; cbn [foldl].
  - split_and!; [done|done|]. intros k. set_solver.
  - pose proof (normalize_step_cases acc v) as Hv.
    destruct (grant_key v) as [[[t i] p]|] eqn:Ek.
    + destruct Hv as (id & n & Hn & _ & ->).
      destruct (IH (put_grant {| ng_id := id; ng_principal_type := t; ng_principal_id := i;
                                 ng_permission := p |} acc.1, n)) as (H1 & H2 & H3).
      { cbn [fst]. rewrite put_grant_keys. case_bool_decide as Hk; [done|].
        apply NoDup_app. split_and!; [done| |apply NoDup_singleton].
        by intros x Hx ->%list_elem_of_singleton. }
      split_and!; [done|cbn in H2; lia|]. intros k. rewrite H3. cbn [fst].
      rewrite put_grant_keys. setoid_rewrite elem_of_cons.
      change (norm_key {| ng_id := id; ng_principal_type := t; ng_principal_id := i;
                          ng_permission := p |}) with (t, i, p).
      case_bool_decide as Hk; [|rewrite elem_of_app, list_elem_of_singleton];
        (split; [intros [H|(w & Hw & Hkw)]|intros [H|(w & [->|Hw] & Hkw)]]);
        eauto 6; try (destruct H; eauto 6; subst k; eauto 6);
        rewrite Ek in Hkw; injection Hkw as <-; auto.
    + rewrite Hv. destruct (IH acc Hnd) as (H1 & H2 & H3). split_and!; [done|done|].
      intros k. rewrite H3. setoid_rewrite elem_of_cons.
      split; [intros [H|(w & Hw & Hkw)]|intros [H|(w & [->|Hw] & Hkw)]]; eauto 6.
      congruence.
Qed.

Lemma normalize_spec n l :
  let out := normalize_access_grants uuid4 n l in
  NoDup (map norm_key out.1) ∧ n <= out.2 ∧
  (∀ k, k ∈ map norm_key out.1 ↔ ∃ v, v ∈ l ∧ grant_key v = Some k).
Proof.
  destruct (normalize_inv l ([], n)) as (H1 & H2 & H3); [constructor|].
  split_and!; [done|done|]. intros k. unfold normalize_access_grants. rewrite H3.
  split; [by intros [?%elem_of_nil|?]|auto].
Qed.
End Normalized.

(** ** Inserting the grants of a resource *)

(** The constraints of the table, and identifiers not drawn yet. *)
Definition grants_ok (uuid4 : nat → string) (d : grant_db) : Prop :=
  (∀ i j a b, gdb_grants d !! i = Some a → gdb_grants d !! j = Some b →
     gr_id a = gr_id b ∨ same_grant a b = true → i = j) ∧
  (∀ g n, g ∈ gdb_grants d → gdb_uuids d <= n → gr_id g ≠ uuid4 n).

Section Insert.
Context (uuid4 : nat → string) (Huuid : Inj (=) (=) uuid4).

Lemma grants_ok_filter (f : grant → bool) d n :
  grants_ok uuid4 d → gdb_uuids d <= n →
  grants_ok uuid4 {| gdb_grants := List.filter f (gdb_grants d); gdb_uuids := n |}.
Proof.
  intros [Hu Hf] Hn. split; cbn.
  - clear Hf. revert Hu. generalize (gdb_grants d) as l. induction l as [|x l IH]; intros Hu; [done|].
    assert (Hl : ∀ i j a b, l !! i = Some a → l !! j = Some b →
      gr_id a = gr_id b ∨ same_grant a b = true → i = j).
    { intros i j a b Ha Hb Hab. by apply (eq_add_S i j), (Hu (S i) (S j) a b). }
    cbn. destruct (f x); [|by apply IH].
    intros [|i] [|j] a b; cbn; [done| | |].
    + intros [= <-] Hb%list_elem_of_lookup_2%filter_elem [Hab|Hab]; destruct Hb as [Hb _];
        apply list_elem_of_lookup in Hb as [k Hk]; exfalso;
        by discriminate (Hu 0 (S k) x b eq_refl Hk ltac:(auto)).
    + intros Ha%list_elem_of_lookup_2%filter_elem [= <-] [Hab|Hab]; destruct Ha as [Ha _];
        apply list_elem_of_lookup in Ha as [k Hk]; exfalso;
        by discriminate (Hu (S k) 0 a x Hk eq_refl ltac:(auto)).
    + intros Ha Hb Hab. f_equal. by eapply IH.
  - intros g m [Hg _]%filter_elem Hm. apply Hf; [done|lia].
Qed.

Lemma insert_grant_ok d g :
  grants_ok uuid4 d → (∀ h, h ∈ gdb_grants d → gr_id h ≠ gr_id g ∧ same_grant h g = false) →
  (∀ n, gdb_uuids d <= n → gr_id g ≠ uuid4 n) →
  insert_grant g d = (Ok tt, with_grants (gdb_grants d ++ [g]) d) ∧
  grants_ok uuid4 (with_grants (gdb_grants d ++ [g]) d).
Proof.
  intros [Hu Hf] Hnew Hid. split.
  - unfold insert_grant. rewrite (proj2 (existsb_False _ _)); [done|].
    intros h Hh. destruct (Hnew h Hh) as [Hne ->]. rewrite orb_false_r. by apply String.eqb_neq.
  - split; cbn.
    + intros i j a b Ha Hb Hab. apply lookup_app_Some in Ha, Hb.
      destruct Ha as [Ha|[Hi Ha]], Hb as [Hb|[Hj Hb]].
      * by apply (Hu i j a b).
      * apply list_lookup_singleton_Some in Hb as [_ <-].
        destruct (Hnew a) as [H1 H2]; [by eapply list_elem_of_lookup_2|]. destruct Hab; congruence.
      * apply list_lookup_singleton_Some in Ha as [_ <-].
        destruct (Hnew b) as [H1 H2]; [by eapply list_elem_of_lookup_2|].
        destruct Hab as [?|Hs]; [congruence|]. exfalso.
        apply same_grant_true in Hs as (E1 & E2 & E3).
        assert (same_grant b g = true) by (by apply same_grant_true). congruence.
      * apply list_lookup_singleton_Some in Ha as [Ha _], Hb as [Hb _]. lia.
    + intros h n [Hh|Hh]%elem_of_app Hn; [auto|]. apply list_elem_of_singleton in Hh as ->. auto.
Qed.
End Insert.

Section Replace.
Context (uuid4 : nat → string) (bind_text : pyval → res string).
Context (Huuid : Inj (=) (=) uuid4).
Context (now : Z) (rt rid : string).

Definition new_grant (id : string) (k : string * string * string) : grant :=
  {| gr_id := id; gr_resource_type := rt; gr_resource_id := rid; gr_principal_type := k.1.1;
     gr_principal_id := k.1.2; gr_permission := k.2; gr_created_at := now |}.

Lemma insert_all_step d t i p l :
  insert_all uuid4 now rt rid ((t, i, p) :: l) d =
  match insert_grant (new_grant (uuid4 (gdb_uuids d)) (t, i, p))
          {| gdb_grants := gdb_grants d; gdb_uuids := S (gdb_uuids d) |} with
  | (Ok _, d') => match insert_all uuid4 now rt rid l d' with
                  | (Ok rest, d2) => (Ok (new_grant (uuid4 (gdb_uuids d)) (t, i, p) :: rest), d2)
                  | (Err e, d2) => (Err e, d2)
                  end
  | (Err e, d') => (Err e, d')
  end.
Proof. done. Qed.

Lemma insert_all_ok l d :
  grants_ok uuid4 d → NoDup l →
  (∀ h, h ∈ gdb_grants d → on_resource rt rid h = true → row_key h ∉ l) →
  ∃ rows d', insert_all uuid4 now rt rid l d = (Ok rows, d') ∧ grants_ok uuid4 d' ∧
    gdb_grants d' = gdb_grants d ++ rows ∧ map row_key rows = l ∧
    (∀ r, r ∈ rows → on_resource rt rid r = true).
Proof.
  revert d. induction l as [|[[t i] p] l IH]; intros d Hok Hnd Hnew.
  { exists [], d. cbn. rewrite app_nil_r. by split_and!; [..|intros r ?%elem_of_nil]. }
  apply NoDup_cons in Hnd as [Hk Hnd]. rewrite insert_all_step.
  set (d0 := {| gdb_grants := gdb_grants d; gdb_uuids := S (gdb_uuids d) |}).
  set (g := new_grant (uuid4 (gdb_uuids d)) (t, i, p)).
  assert (Hon : on_resource rt rid g = true) by (by apply on_resource_true).
  assert (Hok0 : grants_ok uuid4 d0).
  { destruct Hok as [Hu Hf]. split; [done|]. intros h n Hh Hn. apply Hf; [done|cbn in Hn; lia]. }
  destruct (insert_grant_ok uuid4 d0 g) as [-> Hok1]; [done| | |].
  - intros h Hh. split; [by apply Hok|]. apply not_true_iff_false. intros Hs.
    apply same_grant_true in Hs as (E1 & E2 & E3). apply (Hnew h Hh); [by apply on_resource_true|].
    rewrite E3. left.
  - intros n Hn Heq. apply (inj uuid4) in Heq. cbn in Hn. lia.
  - destruct (IH (with_grants (gdb_grants d0 ++ [g]) d0)) as (rows & d' & -> & Hok' & Hg & Hkeys & Hon');
      [done|done| |].
    + cbn. intros h [Hh|Hh]%elem_of_app; intros Hoh.
      * intros Hin. apply (Hnew h Hh Hoh). by right.
      * by apply list_elem_of_singleton in Hh as ->.
    + exists (g :: rows), d'. split_and!; [done|done| | |].
      * rewrite Hg. cbn. by rewrite <-app_assoc.
      * cbn. by rewrite Hkeys.
      * by intros r [->|Hr]%elem_of_cons; [|apply Hon'].
Qed.

Definition off_resource (d : grant_db) : list grant :=
  List.filter (λ g, negb (on_resource rt rid g)) (gdb_grants d).

Lemma off_resource_elem d h : h ∈ off_resource d → on_resource rt rid h = false.
Proof. intros [_ H]%filter_elem. by apply negb_true_iff. Qed.

(** Deleting the grants of the resource and inserting distinct ones. *)
Lemma replace_ok l n d :
  grants_ok uuid4 d → NoDup l → gdb_uuids d <= n →
  ∃ rows d', insert_all uuid4 now rt rid l {| gdb_grants := off_resource d; gdb_uuids := n |}
               = (Ok rows, d') ∧
    grants_ok uuid4 d' ∧ gdb_grants d' = off_resource d ++ rows ∧ map row_key rows = l ∧
    (∀ r, r ∈ rows → on_resource rt rid r = true).
Proof.
  intros Hok Hl Hn. apply insert_all_ok; [by apply grants_ok_filter|done|].
  intros h Hh. cbn in Hh. rewrite (off_resource_elem d h Hh). done.
Qed.

Lemma set_access_grants_eq grants d :
  set_access_grants uuid4 now rt rid grants d =
  let '(l, n) := normalize_access_grants uuid4 (gdb_uuids d) grants in
  match insert_all uuid4 now rt rid (map norm_key l) {| gdb_grants := off_resource d; gdb_uuids := n |} with
  | (Ok rows, d') => (Ok rows, d')
  | (Err e, _) => (Err e, d)
  end.
Proof.
  unfold set_access_grants, replace_access_grants, transaction. rewrite st_bind_eq. cbn.
  rewrite st_bind_eq. cbn.
  destruct (normalize_access_grants uuid4 (gdb_uuids d) grants) as [l n]. done.
Qed.

Lemma set_access_control_eq ac dicts keys d :
  access_control_to_grants rt ac = Ok dicts → mapR (bind_dict bind_text) dicts = Ok keys →
  set_access_control uuid4 bind_text now rt rid ac d =
  match insert_all uuid4 now rt rid keys
          {| gdb_grants := off_resource d; gdb_uuids := gdb_uuids d |} with
  | (Ok rows, d') => (Ok rows, d')
  | (Err e, _) => (Err e, d)
  end.
Proof.
  intros Hd Hk. unfold set_access_control, transaction. rewrite st_bind_eq. cbn.
  rewrite st_bind_eq. cbn. rewrite Hd, st_bind_eq. cbn. by rewrite Hk.
Qed.
End Replace.

Lemma filter_all_false {A} (f : A → bool) l : (∀ a, a ∈ l → f a = false) → List.filter f l = [].
Proof.
  induction l as [|a l IH]; cbn; intros H; [done|].
  rewrite (H a) by left. apply IH. intros b Hb. apply H. by right.
Qed.

Lemma rows_of_resource rt rid d rows d' :
  gdb_grants d' = off_resource rt rid d ++ rows → (∀ r, r ∈ rows → on_resource rt rid r = true) →
  get_grants_by_resource rt rid d' = rows.
Proof.
  intros Hg Hr. unfold get_grants_by_resource. rewrite Hg, List.filter_app.
  rewrite filter_all_false, filter_id; [done|done|]. intros h Hh. by eapply off_resource_elem.
Qed.

(** ** Legacy dicts and back *)

Definition keys_of (group read : bool) (ids : list string) : list (string * string * string) :=
  map (λ i, (if group then "group" else "user", i, if read then "read" else "write")) ids.

Definition pick (group read : bool) (a : access_lists) : list string :=
  match group, read with
  | true, true => al_read_groups a
  | false, true => al_read_users a
  | true, false => al_write_groups a
  | false, false => al_write_users a
  end.

Definition extend (group read : bool) (ids : list string) (a : access_lists) : access_lists :=
  {| al_read_groups := if group && read then al_read_groups a ++ ids else al_read_groups a;
     al_read_users := if negb group && read then al_read_users a ++ ids else al_read_users a;
     al_write_groups := if group && negb read then al_write_groups a ++ ids else al_write_groups a;
     al_write_users := if negb group && negb read then al_write_users a ++ ids else al_write_users a |}.

Lemma add_to_lists_new group read i a :
  i ∉ pick group read a → add_to_lists group read i a = extend group read [i] a.
Proof.
  unfold add_to_lists, extend, append_new, pick. intros Hi.
  destruct group, read; cbn; by rewrite bool_decide_false.
Qed.

Lemma pick_extend group read ids a : pick group read (extend group read ids a) = pick group read a ++ ids.
Proof. by destruct group, read. Qed.

Lemma extend_extend group read ids ids' a :
  extend group read ids' (extend group read ids a) = extend group read (ids ++ ids') a.
Proof. unfold extend. destruct group, read, a; cbn; by rewrite <-?app_assoc. Qed.

Lemma list_step_new (group read : bool) i b a g :
  row_key g = (if group then "group" else "user", i, if read then "read" else "write") →
  (group = false → read = true → i ≠ "*") → i ∉ pick group read a →
  list_step (b, a) g = (b, extend group read [i] a).
Proof.
  intros [= H1 H2 H3] Hs Hi. rewrite <-add_to_lists_new by done.
  unfold list_step, is_public_read. rewrite H1, H2, H3.
  assert (Hne : String.eqb "group" "user" = false ∧ String.eqb "user" "group" = false
                ∧ String.eqb "write" "read" = false) by done.
  destruct Hne as (E1 & E2 & E3).
  destruct group, read; rewrite ?String.eqb_refl, ?E1, ?E2, ?E3, ?andb_false_r; cbn [andb orb negb fst snd];
    try done.
  by rewrite (proj2 (String.eqb_neq i "*")) by (by apply Hs).
Qed.

Lemma fold_kind (group read : bool) ids rows b a :
  map row_key rows = keys_of group read ids →
  (group = false → read = true → "*" ∉ ids) →
  NoDup (pick group read a ++ ids) →
  foldl list_step (b, a) rows = (b, extend group read ids a).
Proof.
  revert ids a. induction rows as [|g rows IH]; intros [|i ids] a Hk Hs Hnd; try done.
  - cbn. f_equal. destruct a, group, read; unfold extend; cbn; by rewrite ?app_nil_r.
  - cbn [map keys_of] in Hk. injection Hk as H1 H2 H3 Hk. cbn [foldl].
    apply NoDup_app in Hnd as (Hp & Hdis & Hids). apply NoDup_cons in Hids as [Hi Hids].
    rewrite (list_step_new group read i).
    + rewrite IH with (ids := ids); [by rewrite extend_extend|done| |].
      * intros Hg Hr Hin. apply (Hs Hg Hr). by right.
      * rewrite pick_extend, <-app_assoc. apply NoDup_app. split_and!; [done| |by apply NoDup_cons].
        intros x Hx. by apply Hdis.
    + unfold row_key. by rewrite H1, H2, H3.
    + intros Hg Hr ->. apply (Hs Hg Hr). left.
    + intros Hin. apply (Hdis i Hin). left.
Qed.

Definition access_dict (rg ru wg wu : list string) : pydict :=
  [("read", ids_dict rg ru); ("write", ids_dict wg wu)].

Definition access_keys (rg ru wg wu : list string) : list (string * string * string) :=
  keys_of true true rg ++ keys_of false true ru ++ keys_of true false wg ++ keys_of false false wu.

Lemma keys_of_NoDup (group read : bool) ids : NoDup ids → NoDup (keys_of group read ids).
Proof.
  intros H. unfold keys_of.
  induction H as [|i ids Hi _ IH]; cbn; [constructor|]. constructor; [|done].
  intros (j & Hj & Hin)%list_elem_of_fmap. injection Hj as ->. done.
Qed.

Lemma access_keys_NoDup rg ru wg wu :
  NoDup rg → NoDup ru → NoDup wg → NoDup wu → NoDup (access_keys rg ru wg wu).
Proof.
  intros H1 H2 H3 H4. unfold access_keys.
  repeat (apply NoDup_app; split_and!; [by apply keys_of_NoDup| |]); [..|by apply keys_of_NoDup].
  all: intros k (i & -> & _)%list_elem_of_fmap;
    rewrite ?elem_of_app; intros Hk;
    repeat (destruct Hk as [Hk|Hk]; [apply list_elem_of_fmap in Hk as (j & [=] & _)|]);
    apply list_elem_of_fmap in Hk as (j & [=] & _).
Qed.

Section AccessControl.
Context (bind_text : pyval → res string) (Hbind : ∀ s, bind_text (VStr s) = Ok s).

Lemma bind_ids t p ids :
  mapR (bind_dict bind_text)
    (map (λ i, {| gd_principal_type := t; gd_principal_id := i; gd_permission := p |}) (VStr <$> ids))
  = Ok (map (λ i, (t, i, p)) ids).
Proof.
  induction ids as [|i ids IH]; [done|]. rewrite fmap_cons. cbn [map mapR].
  assert (bind_dict bind_text {| gd_principal_type := t; gd_principal_id := VStr i;
                                 gd_permission := p |} = Ok (t, i, p)) as ->.
  { unfold bind_dict. cbn [gd_principal_id]. by rewrite Hbind. }
  cbn [mbind res_bind]. by rewrite IH.
Qed.

Lemma mapR_app {A B} (f : A → res B) l1 l2 b1 b2 :
  mapR f l1 = Ok b1 → mapR f l2 = Ok b2 → mapR f (l1 ++ l2) = Ok (b1 ++ b2).
Proof.
  revert b1. induction l1 as [|a l1 IH]; cbn; intros b1; [by intros [= <-]|].
  intros (b & -> & (bs & Hbs & [= <-])%bind_Ok)%bind_Ok H2. cbn. by rewrite (IH bs).
Qed.

Lemma access_dict_keys rt rg ru wg wu :
  ∃ dicts, access_control_to_grants rt (Some (access_dict rg ru wg wu)) = Ok dicts ∧
           mapR (bind_dict bind_text) dicts = Ok (access_keys rg ru wg wu).
Proof.
  eexists. split; [reflexivity|]. unfold access_keys, keys_of. rewrite (app_assoc (map _ rg)).
  apply mapR_app; apply mapR_app; apply bind_ids.
Qed.

Lemma lists_of_rows rg ru wg wu rows :
  NoDup rg → NoDup ru → NoDup wg → NoDup wu → "*" ∉ ru →
  map row_key rows = access_keys rg ru wg wu →
  foldl list_step (false, empty_lists) rows =
    (false, {| al_read_groups := rg; al_read_users := ru; al_write_groups := wg; al_write_users := wu |}).
Proof.
  intros H1 H2 H3 H4 Hs Hk. unfold access_keys in Hk.
  apply map_eq_app in Hk as (r1 & rest1 & -> & Hr1 & Hk).
  apply map_eq_app in Hk as (r2 & rest2 & -> & Hr2 & Hk).
  apply map_eq_app in Hk as (r3 & r4 & -> & Hr3 & Hr4).
  rewrite !foldl_app. rewrite (fold_kind true true rg) by done.
  rewrite (fold_kind false true ru) by done. rewrite (fold_kind true false wg) by done.
  by rewrite (fold_kind false false wu).
Qed.
End AccessControl.

(** ** The users of a grant list *)

Lemma principals_elem p grants t i :
  (t, i) ∈ principals p grants ↔
  ∃ g, g ∈ grants ∧ gr_permission g = p ∧ gr_principal_type g = t ∧ gr_principal_id g = i.
Proof.
  unfold principals. rewrite elem_of_list_to_set, list_elem_of_fmap. split.
  - intros (g & [= -> ->] & [Hg Hp]%filter_elem). apply String.eqb_eq in Hp. eauto.
  - intros (g & Hg & Hp & <- & <-). exists g. split; [done|]. apply filter_elem.
    split; [done|]. by apply String.eqb_eq.
Qed.

Section Users.
Context (non_pending : gset string) (members_of : string → gset string).

Lemma group_users_elem u acc gs :
  u ∈ foldl (λ acc g, acc ∪ members_of g) acc gs ↔ u ∈ acc ∨ ∃ g, g ∈ gs ∧ u ∈ members_of g.
Proof.
  revert acc. induction gs as [|g gs IH]; intros acc; cbn [foldl].
  - split; [auto|]. by intros [?|(g & ?%elem_of_nil & _)].
  - rewrite IH, elem_of_union. setoid_rewrite elem_of_cons. split.
    + intros [[?|?]|(h & ? & ?)]; eauto.
    + intros [?|(h & [->|?] & ?)]; eauto.
Qed.

(** Whom a permission reaches: everyone who is not pending, or the named
    users and the members of the named groups. *)
Definition reached (p : string) (grants : list grant) (u : string) : Prop :=
  if bool_decide (("user", "*") ∈ principals p grants) then u ∈ non_pending
  else ("user", u) ∈ principals p grants ∨
       ∃ g, ("group", g) ∈ principals p grants ∧ u ∈ members_of g.

Lemma principals_cons p g grants :
  principals p (g :: grants) =
  if String.eqb (gr_permission g) p
  then {[ (gr_principal_type g, gr_principal_id g) ]} ∪ principals p grants else principals p grants.
Proof. unfold principals. cbn. by destruct (String.eqb (gr_permission g) p). Qed.

Lemma user_ids_loop_elem grants p us gs u :
  u ∈ user_ids_loop non_pending members_of grants p us gs ↔
  if bool_decide (("user", "*") ∈ principals p grants) then u ∈ non_pending
  else u ∈ us ∨ (∃ g, g ∈ gs ∧ u ∈ members_of g) ∨ ("user", u) ∈ principals p grants ∨
       ∃ g, ("group", g) ∈ principals p grants ∧ u ∈ members_of g.
Proof.
  revert us gs. induction grants as [|g grants IH]; intros us gs; cbn [user_ids_loop].
  - rewrite bool_decide_false by (by apply not_elem_of_empty). rewrite group_users_elem.
    split; [intros [?|?]; auto|]. intros [?|[?|[H|(h & H & _)]]]; auto; by apply elem_of_empty in H.
  - rewrite principals_cons.
    destruct (String.eqb (gr_permission g) p); cbn [negb]; [|apply IH].
    destruct (String.eqb_spec (gr_principal_type g) "user") as [->|Hu].
    { destruct (String.eqb_spec (gr_principal_id g) "*") as [->|Hs].
      - rewrite bool_decide_true; [done|]. apply elem_of_union. left. by apply elem_of_singleton.
      - rewrite IH. rewrite (bool_decide_ext (("user", "*") ∈ {[("user", gr_principal_id g)]} ∪ principals p grants)
          (("user", "*") ∈ principals p grants)).
        + case_bool_decide; [done|]. setoid_rewrite elem_of_union. setoid_rewrite elem_of_singleton.
          split.
          * intros [[->|?]|[?|[?|(h & ? & ?)]]]; eauto 9.
          * intros [?|[?|[[[= ->]|?]|(h & [[=]|?] & ?)]]]; eauto 6.
        + rewrite elem_of_union, elem_of_singleton. split; [intros [[= H]|?]; [congruence|done]|auto]. }
    assert (Hext : ("user", "*") ∈ ({[(gr_principal_type g, gr_principal_id g)]} ∪ principals p grants : gset _)
                   ↔ ("user", "*") ∈ principals p grants).
    { rewrite elem_of_union, elem_of_singleton. split; [intros [[= H _]|?]; [congruence|done]|auto]. }
    destruct (String.eqb_spec (gr_principal_type g) "group") as [Hg|Hg]; rewrite IH, (bool_decide_ext _ _ Hext);
      case_bool_decide; try done; setoid_rewrite elem_of_union; setoid_rewrite elem_of_singleton.
    + setoid_rewrite elem_of_app. setoid_rewrite list_elem_of_singleton. rewrite Hg. split.
      * intros [?|[(h & [?| ->] & ?)|[?|(h & ? & ?)]]]; eauto 9.
      * intros [?|[(h & ? & ?)|[[[=]|?]|(h & [[= ->]|?] & ?)]]]; eauto 9.
    + split.
      * intros [?|[?|[?|(h & ? & ?)]]]; eauto 9.
      * intros [?|[?|[[[= ? _]|?]|(h & [[= ? _]|?] & ?)]]]; eauto 9; congruence.
Qed.

Lemma user_ids_elem grants p u :
  u ∈ get_user_ids_by_access_grants non_pending members_of grants p ↔ reached p grants u.
Proof.
  unfold get_user_ids_by_access_grants, reached. rewrite user_ids_loop_elem. case_bool_decide; [done|].
  split; [intros [?%elem_of_empty|[(g & ?%elem_of_nil & _)|?]]; done|auto].
Qed.
End Users.

(** ** Access after a replacement *)

Lemma set_access_grants_rows uuid4 now rt rid grants d :
  Inj (=) (=) uuid4 → grants_ok uuid4 d →
  ∃ rows d', set_access_grants uuid4 now rt rid grants d = (Ok rows, d') ∧ grants_ok uuid4 d' ∧
    gdb_grants d' = off_resource rt rid d ++ rows ∧ NoDup (map row_key rows) ∧
    (∀ k, k ∈ map row_key rows ↔ ∃ v, v ∈ grants ∧ grant_key v = Some k) ∧
    (∀ r, r ∈ rows → on_resource rt rid r = true).
Proof.
  intros Huuid Hok. destruct (normalize_spec uuid4 (gdb_uuids d) grants) as (Hnd & Hn & Hkeys).
  rewrite set_access_grants_eq.
  destruct (normalize_access_grants uuid4 (gdb_uuids d) grants) as [l n] eqn:E. cbn [fst snd] in *.
  destruct (replace_ok uuid4 Huuid now rt rid (map norm_key l) n d Hok Hnd Hn)
    as (rows & d' & -> & Hok' & Hg & Hrk & Hon).
  exists rows, d'. split_and!; [done|done|done|by rewrite Hrk| |done]. intros k. by rewrite Hrk.
Qed.

Lemma other_resources_kept rt rid d rows d' :
  gdb_grants d' = off_resource rt rid d ++ rows → (∀ r, r ∈ rows → on_resource rt rid r = true) →
  ∀ rt' rid', (rt', rid') ≠ (rt, rid) →
    get_grants_by_resource rt' rid' d' = get_grants_by_resource rt' rid' d.
Proof.
  intros Hg Hon rt' rid' Hne. unfold get_grants_by_resource. rewrite Hg, List.filter_app.
  rewrite (filter_all_false _ rows), app_nil_r.
  - unfold off_resource. induction (gdb_grants d) as [|h hs IH]; cbn; [done|].
    destruct (on_resource rt rid h) eqn:Eo; cbn; rewrite IH; [|done].
    destruct (on_resource rt' rid' h) eqn:Eo'; [|done].
    apply on_resource_true in Eo as [<- <-], Eo' as [<- <-]. done.
  - intros r Hr%Hon. apply not_true_iff_false. intros Hr'.
    apply on_resource_true in Hr as [<- <-], Hr' as [<- <-]. done.
Qed.

Lemma has_access_rows rt rid (grants : list pyval) d rows d' :
  gdb_grants d' = off_resource rt rid d ++ rows → (∀ r, r ∈ rows → on_resource rt rid r = true) →
  (∀ k, k ∈ map row_key rows ↔ ∃ v, v ∈ grants ∧ grant_key v = Some k) →
  ∀ user group_ids p, has_access user rt rid p group_ids d' = true ↔
    ∃ v t i, v ∈ grants ∧ grant_key v = Some (t, i, p) ∧ matches_principal user group_ids t i = true.
Proof.
  intros Hg Hon Hk user gids p. unfold has_access. rewrite existsb_True. split.
  - intros (g & Hgin & Hc). rewrite !andb_true_iff in Hc. destruct Hc as [[Ho Hp] Hm].
    assert (Hr : g ∈ rows).
    { rewrite Hg in Hgin. apply elem_of_app in Hgin as [Hgin|?]; [|done].
      apply off_resource_elem in Hgin. congruence. }
    apply String.eqb_eq in Hp as <-.
    destruct (proj1 (Hk (row_key g))) as (v & Hv & Hkv); [by apply list_elem_of_fmap_2|]. eauto 6.
  - intros (v & t & i & Hv & Hkv & Hm).
    assert (Hin : (t, i, p) ∈ map row_key rows) by (apply Hk; eauto).
    apply list_elem_of_fmap in Hin as (g & [= -> -> ->] & Hr). exists g. split.
    + rewrite Hg. apply elem_of_app. by right.
    + by rewrite (Hon g Hr), Hm, String.eqb_refl.
Qed.

(** ** Properties *)

(** Replacing the grants of a resource from an API list never violates
    the table's constraints; afterwards the rows of the resource are exactly
    the valid entries of the list, each audience and permission once, the rows
    of every other resource are untouched, and a user has a permission on the
    resource exactly when a valid entry grants it to everyone, to the user or
    to one of the user's groups. *)
Theorem set_access_grants_replaces (uuid4 : nat → string) (now : Z) (rt rid : string)
    (grants : list pyval) (d : grant_db) :
  Inj (=) (=) uuid4 → grants_ok uuid4 d →
  ∃ rows d', set_access_grants uuid4 now rt rid grants d = (Ok rows, d') ∧ grants_ok uuid4 d' ∧
    get_grants_by_resource rt rid d' = rows ∧ NoDup (map row_key rows) ∧
    (∀ k, k ∈ map row_key rows ↔ ∃ v, v ∈ grants ∧ grant_key v = Some k) ∧
    (∀ rt' rid', (rt', rid') ≠ (rt, rid) →
       get_grants_by_resource rt' rid' d' = get_grants_by_resource rt' rid' d) ∧
    (∀ user group_ids p, has_access user rt rid p group_ids d' = true ↔
       ∃ v t i, v ∈ grants ∧ grant_key v = Some (t, i, p) ∧ matches_principal user group_ids t i = true).
Proof.
  intros Huuid Hok.
  destruct (set_access_grants_rows uuid4 now rt rid grants d Huuid Hok)
    as (rows & d' & Hset & Hok' & Hg & Hnd & Hk & Hon).
  exists rows, d'. split_and!; [done|done|by eapply rows_of_resource|done|done| |].
  - by apply (other_resources_kept rt rid d rows).
  - by apply (has_access_rows rt rid grants d rows).
Qed.

(** Storing a legacy access control dict and reading it back gives the
    dict: the id lists in their order, null for public read; null on a file
    means private and reads back as the empty dict. *)
Theorem access_control_roundtrip (uuid4 : nat → string) (bind_text : pyval → res string)
    (now : Z) (rt rid : string) (rg ru wg wu : list string) (d : grant_db) :
  Inj (=) (=) uuid4 → (∀ s, bind_text (VStr s) = Ok s) → grants_ok uuid4 d →
  NoDup rg → NoDup ru → NoDup wg → NoDup wu → "*" ∉ ru → rg ++ ru ++ wg ++ wu ≠ [] →
  (∃ rows d', set_access_control uuid4 bind_text now rt rid (Some (access_dict rg ru wg wu)) d = (Ok rows, d') ∧
     get_access_control rt rid d' = Some (access_dict rg ru wg wu)) ∧
  (∃ rows d', set_access_control uuid4 bind_text now rt rid None d = (Ok rows, d') ∧
     get_access_control rt rid d' = if String.eqb rt "file" then Some [] else None).
Proof.
  intros Huuid Hbind Hok H1 H2 H3 H4 Hstar Hne. split.
  - destruct (access_dict_keys bind_text Hbind rt rg ru wg wu) as (dicts & Hd & Hkeys).
    rewrite (set_access_control_eq _ _ _ _ _ _ _ _ _ Hd Hkeys).
    destruct (replace_ok uuid4 Huuid now rt rid (access_keys rg ru wg wu) (gdb_uuids d) d)
      as (rows & d' & -> & _ & Hg & Hrk & Hon); [done|by apply access_keys_NoDup|done|].
    exists rows, d'. split; [done|]. unfold get_access_control.
    rewrite (rows_of_resource rt rid d rows d') by done. unfold grants_to_access_control.
    destruct rows as [|r rows].
    + exfalso. apply Hne. unfold access_keys in Hrk. cbn in Hrk. by destruct rg, ru, wg, wu.
    + rewrite (lists_of_rows rg ru wg wu (r :: rows)) by done. done.
  - destruct (String.eqb rt "file") eqn:Ef.
    + rewrite (set_access_control_eq _ _ _ _ _ None [] []) by (cbn; rewrite ?Ef; done). cbn.
      eexists _, _. split; [reflexivity|]. unfold get_access_control, get_grants_by_resource. cbn.
      rewrite filter_all_false; [done|]. intros h Hh. by eapply off_resource_elem.
    + rewrite (set_access_control_eq _ _ _ _ _ None
        [{| gd_principal_type := "user"; gd_principal_id := VStr "*"; gd_permission := "read" |}]
        [("user", "*", "read")]); [|cbn; by rewrite Ef|cbn; unfold bind_dict; cbn; by rewrite Hbind].
      destruct (replace_ok uuid4 Huuid now rt rid [("user", "*", "read")] (gdb_uuids d) d)
        as (rows & d' & -> & _ & Hg & Hrk & Hon); [done|apply NoDup_singleton|done|].
      exists rows, d'. split; [done|]. unfold get_access_control.
      rewrite (rows_of_resource rt rid d rows d') by done.
      destruct rows as [|r [|? ?]]; try done. cbn in Hrk. injection Hrk as E1 E2 E3.
      cbn. unfold list_step, is_public_read. by rewrite E1, E2, E3.
Qed.

(** [get_revoked_user_ids_by_resource] answers exactly the users the
    previous grants reached and the current grants do not, unless the resource
    is now public to users, when nobody has lost access; its shortcut for
    unchanged or grown audiences loses nobody. *)
Theorem revoked_users_are_those_who_lost_access (non_pending : gset string)
    (members_of : string → gset string) (rt rid p : string) (previous : list grant)
    (d : grant_db) (u : string) :
  u ∈ get_revoked_user_ids_by_resource non_pending members_of rt rid previous p d ↔
  ("user", "*") ∉ principals p (get_grants_by_resource rt rid d) ∧
  reached non_pending members_of p previous u ∧
  ¬ reached non_pending members_of p (get_grants_by_resource rt rid d) u.
Proof.
  unfold get_revoked_user_ids_by_resource. set (now := get_grants_by_resource rt rid d).
  destruct (bool_decide (("user", "*") ∈ principals p now)) eqn:Ew.
  { apply bool_decide_eq_true in Ew. rewrite orb_true_r. split; [by intros ?%elem_of_empty|tauto]. }
  apply bool_decide_eq_false in Ew. rewrite orb_false_r. case_bool_decide as Hsub.
  - split; [by intros ?%elem_of_empty|]. intros (_ & Hprev & Hnow). exfalso. apply Hnow.
    unfold reached in *. rewrite bool_decide_false by done.
    rewrite bool_decide_false in Hprev by (intros H; by apply Ew, Hsub).
    destruct Hprev as [?|(g & ? & ?)]; [left; by apply Hsub|right; exists g; split; [by apply Hsub|done]].
  - rewrite elem_of_difference, !user_ids_elem. tauto.
Qed.

(** ** Concrete tables *)

Definition example_uuid4 (n : nat) : string := "uuid-" +:+ pretty n.

#[export] Instance example_uuid4_inj : Inj (=) (=) example_uuid4.
Proof. intros n m H. apply (inj (String.append "uuid-")) in H. by apply (inj pretty) in H. Defined.

Definition example_bind (v : pyval) : res string :=
  match v with VStr s => Ok s | _ => Err TypeError end.

Definition empty_grants : grant_db := {| gdb_grants := []; gdb_uuids := 0 |}.

Lemma empty_grants_ok : grants_ok example_uuid4 empty_grants.
Proof. split; [done|]. by intros g n ?%elem_of_nil. Defined.

Lemma set_access_grants_replaces_witness :
  ∃ rows d', set_access_grants example_uuid4 7 "note" "n1"
    [VDict [("principal_type", VStr "group"); ("principal_id", VStr "g"); ("permission", VStr "read")];
     VDict [("principal_type", VStr "nobody"); ("principal_id", VStr "g"); ("permission", VStr "read")]]
    empty_grants = (Ok rows, d') ∧ get_grants_by_resource "note" "n1" d' = rows.
Proof.
  destruct (set_access_grants_replaces example_uuid4 7 "note" "n1"
    [VDict [("principal_type", VStr "group"); ("principal_id", VStr "g"); ("permission", VStr "read")];
     VDict [("principal_type", VStr "nobody"); ("principal_id", VStr "g"); ("permission", VStr "read")]]
    empty_grants example_uuid4_inj empty_grants_ok) as (rows & d' & H & _ & Hr & _).
  exists rows, d'. split; [exact H|exact Hr].
Defined.

Lemma access_control_roundtrip_witness :
  ∃ rows d', set_access_control example_uuid4 example_bind 7 "note" "n1"
    (Some (access_dict ["g"] ["u"] [] ["u"])) empty_grants = (Ok rows, d') ∧
    get_access_control "note" "n1" d' = Some (access_dict ["g"] ["u"] [] ["u"]).
Proof.
  refine (proj1 (access_control_roundtrip example_uuid4 example_bind 7 "note" "n1" ["g"] ["u"] [] ["u"]
    empty_grants example_uuid4_inj (λ s, eq_refl) empty_grants_ok _ _ _ _ _ _)).
  - apply NoDup_singleton.
  - apply NoDup_singleton.
  - constructor.
  - apply NoDup_singleton.
  - intros H. apply list_elem_of_singleton in H. discriminate H.
  - discriminate.
Defined.
