(* ===== verification/Groups.v ===== *)
(** * Groups and their hierarchy (models/groups.py).

    A group may have a parent; the members of a group are inherited by all its
    ancestors.  The recursive queries are [closure]s; a [hierarchy_transaction]
    is a [transaction].  Every change answers the users whose sessions the code
    refreshes after the commit. *)

From S2P Require Import Prelude PyVal AccessGrants.

Local Open Scope Z_scope.

(** [Group] / [GroupModel]; the key of the table is the id. *)
Record group := {
  g_parent : option string;
  g_user_id : string;
  g_name : string;
  g_description : string;
  g_data : option pydict;
  g_meta : option pydict;
  g_permissions : option pydict;
  g_created_at : Z;
  g_updated_at : Z;
}.

(** [GroupForm] / [GroupUpdateForm]; [gf_parent] is [None] when the field was
    not sent ([model_fields_set]). *)
Record group_form := {
  gf_parent : option (option string);
  gf_name : string;
  gf_description : string;
  gf_permissions : option pydict;
  gf_data : option pydict;
}.

(** The group and group_member tables (rows of the latter are pairs of group
    and user, which its unique constraint makes a set), and the grants. *)
Record group_db := {
  gs_groups : gmap string group;
  gs_members : gset (string * string);
  gs_grants : grant_db;
  gs_uuids : nat;
}.

Definition with_groups (m : gmap string group) (d : group_db) : group_db :=
  {| gs_groups := m; gs_members := gs_members d; gs_grants := gs_grants d; gs_uuids := gs_uuids d |}.
Definition with_members (m : gset (string * string)) (d : group_db) : group_db :=
  {| gs_groups := gs_groups d; gs_members := m; gs_grants := gs_grants d; gs_uuids := gs_uuids d |}.
Definition without_grants (p : grant → bool) (d : group_db) : group_db :=
  {| gs_groups := gs_groups d; gs_members := gs_members d;
     gs_grants := with_grants (List.filter (λ g, negb (p g)) (gdb_grants (gs_grants d))) (gs_grants d);
     gs_uuids := gs_uuids d |}.

(** ** Default models *)

(** [x or {}], then [.get] *)
Definition or_empty (d : option pydict) : pyval := VDict (default [] d).

(** [group_default_models]; [VNone] when there are none. *)
Definition group_default_models (data : option pydict) : res pyval :=
  config ← vget (or_empty data) "config";
  models ← vget (por config (VDict [])) "default_models";
  Ok (por models VNone).

(** [list(dict.fromkeys(l))] *)
Fixpoint dedup_keys (seen l : list string) : list string :=
  match l with
  | [] => []
  | x :: l' => if bool_decide (x ∈ seen) then dedup_keys seen l' else x :: dedup_keys (x :: seen) l'
  end.

Definition model_ids (models : list pyval) : option (list string) :=
  mapM (λ m, match m with
             | VStr s => if Str.is_empty (Str.strip s) then None else Some (Str.strip s)
             | _ => None
             end) models.

(** [GroupForm.validate_default_models] *)
Definition validate_default_models (data : option pydict) : res (option pydict) :=
  match data with
  | None => Ok None
  | Some d =>
      match dict_get "config" d with
      | None => Ok data
      | Some (VDict config) =>
          match dget config "default_models" with
          | VNone => Ok data
          | VList models =>
              match model_ids models with
              | Some ids =>
                  Ok (Some (dict_set "config"
                        (VDict (dict_set "default_models" (VList (VStr <$> dedup_keys [] ids)) config)) d))
              | None => Err (ValueError "Default models must be a list of non-empty model IDs.")
              end
          | _ => Err (ValueError "Default models must be a list of non-empty model IDs.")
          end
      | Some _ => Err (ValueError "Group config must be an object.")
      end
  end.

(** ** Recursive queries *)

Definition parents_step (m : gmap string group) (s : gset string) : gset string :=
  list_to_set (omap (λ id, g ← m !! id; g_parent g) (elements s)).

Definition children_step (m : gmap string group) (s : gset string) : gset string :=
  dom (filter (λ kv : string * group,
    match g_parent kv.2 with Some p => bool_decide (p ∈ s) | None => false end = true) m).

(** [ancestor_groups] *)
Definition ancestor_groups (m : gmap string group) (ids : gset string) : gset string :=
  closure (parents_step m) (size m) (filter (λ i, is_Some (m !! i)) ids).

(** [descendant_groups] of one group *)
Definition descendant_groups (m : gmap string group) (id : string) : gset string :=
  closure (children_step m) (size m) (filter (λ i, is_Some (m !! i)) {[ id ]}).

Definition direct_groups (d : group_db) (user_id : string) : gset string :=
  list_to_set (map fst (List.filter (λ gu, String.eqb gu.2 user_id) (elements (gs_members d)))).

(** [user_group_memberships] of one user *)
Definition user_group_memberships (d : group_db) (user_id : string) (include_inherited : bool)
    : gset string :=
  if include_inherited then closure (parents_step (gs_groups d)) (size (gs_groups d)) (direct_groups d user_id)
  else direct_groups d user_id.

Definition members_in (d : group_db) (groups : gset string) : gset string :=
  list_to_set (map snd (List.filter (λ gu, bool_decide (gu.1 ∈ groups)) (elements (gs_members d)))).

(** [group_user_memberships] of one group *)
Definition group_user_memberships (d : group_db) (id : string) (include_inherited : bool)
    : gset string :=
  members_in d (if include_inherited then descendant_groups (gs_groups d) id else {[ id ]}).

(** [GroupTable.get_groups_by_member_id]: newest first, then by id. *)
Definition group_order (a b : string * group) : bool :=
  (g_updated_at b.2 <? g_updated_at a.2)
  || ((g_updated_at a.2 =? g_updated_at b.2) && Str.leb a.1 b.1).

Definition get_groups_by_member_id (d : group_db) (user_id : string) (include_inherited : bool)
    : list (string * group) :=
  py_sorted group_order
    (omap (λ i, g ← gs_groups d !! i; Some (i, g))
          (elements (user_group_memberships d user_id include_inherited))).

Definition user_group_ids (d : group_db) (user_id : string) (include_inherited : bool) : list string :=
  map fst (get_groups_by_member_id d user_id include_inherited).

(** [GroupTable.get_ancestor_ids], [get_group_user_ids_by_ids] and
    [get_group_member_counts_by_ids] *)
Definition get_ancestor_ids (d : group_db) (id : string) : gset string :=
  ancestor_groups (gs_groups d) {[ id ]}.
Definition get_group_user_ids_by_ids (d : group_db) (ids : list string) (include_inherited : bool)
    : list (string * gset string) :=
  foldl (λ acc i, dict_set i (group_user_memberships d i include_inherited) acc) [] ids.
Definition get_group_member_count_by_id (d : group_db) (id : string) (include_inherited : bool) : nat :=
  size (group_user_memberships d id include_inherited).

(** ** Changes *)

Definition exec (f : group_db → group_db) : st group_db unit := st_modify f.

(** [validate_parent] *)
Definition validate_parent (group_id : option string) (parent_id : option string)
    : st group_db unit := λ d,
  match parent_id with
  | None => (Ok tt, d)
  | Some p =>
      if Str.is_empty p
      then (Err (GroupHierarchyError "Parent group must be a group ID or null." 400), d)
      else match gs_groups d !! p with
           | None => (Err (GroupHierarchyError "Parent group not found." 404), d)
           | Some _ =>
               match group_id with
               | Some g =>
                   if bool_decide (g ∈ ancestor_groups (gs_groups d) {[ p ]})
                   then (Err (GroupHierarchyError
                           "A group cannot be its own parent or a descendant of itself." 400), d)
                   else (Ok tt, d)
               | None => (Ok tt, d)
               end
           end
  end.

(** [session.get(Group, id)], raising when there is none *)
Definition require_group (id : string) : st group_db group := λ d,
  match gs_groups d !! id with
  | Some g => (Ok g, d)
  | None => (Err (GroupHierarchyError "Group not found." 404), d)
  end.

Definition touch (now : Z) (g : group) : group :=
  {| g_parent := g_parent g; g_user_id := g_user_id g; g_name := g_name g;
     g_description := g_description g; g_data := g_data g; g_meta := g_meta g;
     g_permissions := g_permissions g; g_created_at := g_created_at g; g_updated_at := now |}.

Definition with_parent (p : option string) (g : group) : group :=
  {| g_parent := p; g_user_id := g_user_id g; g_name := g_name g;
     g_description := g_description g; g_data := g_data g; g_meta := g_meta g;
     g_permissions := g_permissions g; g_created_at := g_created_at g;
     g_updated_at := g_updated_at g |}.

Section Changes.
(** [uuid4 n]: the n-th identifier drawn.  [default_share]: the environment's
    DEFAULT_GROUP_SHARE_PERMISSION. *)
Context (uuid4 : nat → string) (default_share : pyval) (now : Z).

Definition fresh_group_id : st group_db string := λ d,
  (Ok (uuid4 (gs_uuids d)),
   {| gs_groups := gs_groups d; gs_members := gs_members d; gs_grants := gs_grants d;
      gs_uuids := S (gs_uuids d) |}).

(** INSERT INTO "group": the primary key. *)
Definition insert_group (id : string) (g : group) : st group_db unit := λ d,
  match gs_groups d !! id with
  | Some _ => (Err IntegrityError, d)
  | None => (Ok tt, with_groups (<[id := g]> (gs_groups d)) d)
  end.

(** [GroupTable._ensure_default_share_config] on the data field *)
Definition ensure_default_share_config (data : option pydict) : res pydict :=
  let d := default [] data in
  config ← (match dict_get "config" d with None => Ok [] | Some v =>
              match v with VDict c => Ok c | _ => Err TypeError end end);
  Ok (dict_set "config" (VDict (dict_setdefault "share" default_share config)) d).

(** [GroupTable.insert_new_group] *)
Definition insert_new_group (user_id : string) (form : group_form) : st group_db (string * group) :=
  transaction (
    let parent := default None (gf_parent form) in
    _ ← validate_parent None parent;
    data ← st_lift (ensure_default_share_config (gf_data form));
    id ← fresh_group_id;
    let g := {| g_parent := parent; g_user_id := user_id; g_name := gf_name form;
                g_description := gf_description form; g_data := Some data; g_meta := None;
                g_permissions := gf_permissions form; g_created_at := now; g_updated_at := now |} in
    _ ← insert_group id g;
    mret (id, g)).

Definition group_members (d : group_db) (id : string) : gset string := members_in d {[ id ]}.

Definition member_rows (id : string) (users : gset string) : gset (string * string) :=
  set_map (λ u, (id, u)) users.

(** [GroupTable.set_group_user_ids_by_id] *)
Definition set_group_user_ids_by_id (group_id : string) (user_ids : list string)
    : st group_db (gset string) :=
  transaction (
    g ← require_group group_id;
    previous ← st_gets (λ d, group_members d group_id);
    let requested : gset string := list_to_set user_ids in
    _ ← exec (λ d, with_members (gs_members d ∖ member_rows group_id (previous ∖ requested)) d);
    _ ← exec (λ d, with_members (gs_members d ∪ member_rows group_id (requested ∖ previous)) d);
    _ ← exec (λ d, with_groups (<[group_id := touch now g]> (gs_groups d)) d);
    mret ((previous ∖ requested) ∪ (requested ∖ previous))).

(** The new data of [update_group_by_id]. *)
Definition merge_data (old_data : option pydict) (new_data : pydict) : res pydict :=
  let old := default [] old_data in
  old_config ← (match por (dget old "config") (VDict []) with
                | VDict c => Ok c | _ => Err TypeError end);
  new_config ← (match por (dget new_data "config") (VDict []) with
                | VDict c => Ok c | _ => Err TypeError end);
  Ok (dict_set "config" (VDict (dict_update old_config new_config)) (dict_update old new_data)).

(** [GroupTable.update_group_by_id]: the group, the refreshed users and the
    old and new parents reported in [changes]. *)
Definition update_group_by_id (id : string) (form : group_form)
    : st group_db (group * gset string * (option string * option string)) :=
  transaction (
    g ← require_group id;
    _ ← (match gf_parent form with Some p => validate_parent (Some id) p | None => mret tt end);
    let parent := match gf_parent form with Some p => p | None => g_parent g end in
    data ← st_lift (match gf_data form with
                    | Some new => d ← merge_data (g_data g) new; Ok (Some d)
                    | None => Ok (g_data g)
                    end);
    defaults_changed ← st_lift (match gf_data form with
                                | Some _ => new ← group_default_models data;
                                            old ← group_default_models (g_data g);
                                            Ok (negb (py_eqb new old))
                                | None => Ok false
                                end);
    let parent_changed := negb (bool_decide (parent = g_parent g)) in
    let permissions_changed :=
      match gf_permissions form with
      | Some p => negb (match g_permissions g with
                        | Some q => py_eqb (VDict p) (VDict q)
                        | None => false
                        end)
      | None => false
      end in
    affected ← st_gets (λ d, if parent_changed || defaults_changed || permissions_changed
                             then group_user_memberships d id true else ∅);
    let g' := {| g_parent := parent; g_user_id := g_user_id g; g_name := gf_name form;
                 g_description := gf_description form; g_data := data; g_meta := g_meta g;
                 g_permissions := match gf_permissions form with
                                  | Some p => Some p | None => g_permissions g end;
                 g_created_at := g_created_at g; g_updated_at := now |} in
    _ ← exec (λ d, with_groups (<[id := g']> (gs_groups d)) d);
    mret (g', affected, (g_parent g, parent))).

(** The children a deleted group leaves to its parent. *)
Definition promote (id : string) (parent : option string) (m : gmap string group)
    : gmap string group :=
  (λ g, if bool_decide (g_parent g = Some id) then touch now (with_parent parent g) else g) <$> m.

Definition is_group_grant (id : string) (g : grant) : bool :=
  String.eqb (gr_principal_type g) "group" && String.eqb (gr_principal_id g) id.

(** [GroupTable.delete_group_by_id]: the refreshed users, and the parent and
    the promoted children reported in [changes]. *)
Definition delete_group_by_id (id : string)
    : st group_db (gset string * (option string * gset string)) :=
  transaction (
    g ← require_group id;
    affected ← st_gets (λ d, group_user_memberships d id true);
    children ← st_gets (λ d, children_step (gs_groups d) {[ id ]});
    _ ← exec (λ d, with_groups (promote id (g_parent g) (gs_groups d)) d);
    _ ← exec (λ d, with_members (filter (λ gu, gu.1 ≠ id) (gs_members d)) d);
    _ ← exec (without_grants (is_group_grant id));
    _ ← exec (λ d, with_groups (base.delete id (gs_groups d)) d);
    mret (affected, (g_parent g, children))).

(** [GroupTable.delete_all_groups] *)
Definition delete_all_groups : st group_db (gset string) :=
  transaction (
    affected ← st_gets (λ d, list_to_set (map snd (elements (gs_members d))));
    _ ← exec (λ d, with_groups (with_parent None <$> gs_groups d) d);
    _ ← exec (with_members ∅);
    _ ← exec (without_grants (λ g, String.eqb (gr_principal_type g) "group"));
    _ ← exec (with_groups ∅);
    mret affected).

(** Touches the groups of a set. *)
Definition touch_groups (ids : gset string) (m : gmap string group) : gmap string group :=
  map_imap (λ i g, Some (if bool_decide (i ∈ ids) then touch now g else g)) m.

(** [GroupTable.remove_user_from_all_groups] *)
Definition remove_user_from_all_groups (user_id : string) : st group_db (gset string) :=
  transaction (
    _ ← exec (λ d, with_groups (touch_groups (direct_groups d user_id) (gs_groups d)) d);
    _ ← exec (λ d, with_members (filter (λ gu, gu.2 ≠ user_id) (gs_members d)) d);
    mret {[ user_id ]}).

(** [GroupTable.create_groups_by_group_names]: the names of the groups that
    existed before the loop are skipped. *)
Definition named_group (user_id name : string) : group :=
  {| g_parent := None; g_user_id := user_id; g_name := name; g_description := EmptyString;
     g_data := Some [("config", VDict [("share", default_share)])]; g_meta := None;
     g_permissions := None; g_created_at := now; g_updated_at := now |}.

Fixpoint create_groups_loop (user_id : string) (existing : list string) (names : list string)
    : st group_db (list (string * group)) :=
  match names with
  | [] => mret []
  | name :: names' =>
      created ← (if bool_decide (name ∈ existing) then mret []
                 else id ← fresh_group_id;
                      st_catch (_ ← transaction (insert_group id (named_group user_id name));
                                mret [(id, named_group user_id name)])
                               (λ _, mret []));
      rest ← create_groups_loop user_id existing names';
      mret (created ++ rest)
  end.

Definition create_groups_by_group_names (user_id : string) (group_names : list string)
    : st group_db (list (string * group)) :=
  d ← st_get;
  create_groups_loop user_id (map (λ kv, g_name kv.2) (map_to_list (gs_groups d))) group_names.

(** [GroupTable.sync_groups_by_group_names] *)
Definition groups_named (names : list string) (m : gmap string group) : gset string :=
  dom (filter (λ kv : string * group, g_name kv.2 ∈ names) m).

Definition user_rows (user_id : string) (groups : gset string) : gset (string * string) :=
  set_map (λ g, (g, user_id)) groups.

Definition sync_groups_by_group_names (user_id : string) (group_names : list string)
    : st group_db (gset string) :=
  transaction (
    target ← st_gets (λ d, groups_named group_names (gs_groups d));
    previous ← st_gets (λ d, direct_groups d user_id);
    _ ← exec (λ d, with_members (gs_members d ∖ user_rows user_id (previous ∖ target)) d);
    _ ← exec (λ d, with_members (gs_members d ∪ user_rows user_id (target ∖ previous)) d);
    _ ← exec (λ d, with_groups (touch_groups ((previous ∖ target) ∪ (target ∖ previous)) (gs_groups d)) d);
    mret (if bool_decide (previous = target) then ∅ else {[ user_id ]})).

(** [GroupTable.add_users_to_group] *)
Definition add_users_to_group (id : string) (user_ids : list string)
    : st group_db (group * gset string) :=
  transaction (
    g ← require_group id;
    previous ← st_gets (λ d, group_members d id);
    let added : gset string := list_to_set user_ids ∖ previous in
    _ ← exec (λ d, with_members (gs_members d ∪ member_rows id added) d);
    _ ← exec (λ d, with_groups (<[id := touch now g]> (gs_groups d)) d);
    mret (touch now g, added)).

(** [GroupTable.remove_users_from_group] *)
Definition remove_users_from_group (id : string) (user_ids : list string)
    : st group_db (group * gset string) :=
  transaction (
    g ← require_group id;
    removed ← st_gets (λ d, group_members d id ∩ list_to_set user_ids);
    _ ← exec (λ d, with_members (gs_members d ∖ member_rows id removed) d);
    _ ← exec (λ d, with_groups (<[id := touch now g]> (gs_groups d)) d);
    mret (touch now g, removed)).
End Changes.

(** ** The default models of a user's groups *)

(** The inner loop of [resolve_group_default_models]: the path to the first
    group whose depth is known, that was seen, or that is missing. *)
Fixpoint depth_path (fuel : nat) (by_id : list (string * group)) (depths : list (string * Z))
    (path : list string) (current : option string) : list string * option string :=
  match fuel, current with
  | S fuel, Some c =>
      if dict_has c depths || bool_decide (c ∈ path) then (path, current)
      else
        let next := g ← dict_get c by_id; p ← g_parent g;
                    if dict_has p by_id then Some p else None in
        depth_path fuel by_id depths (c :: path) next
  | _, _ => (path, current)
  end.

(** Depths are given to the path from its far end. *)
Fixpoint assign_depths (depth : Z) (path : list string) (depths : list (string * Z))
    : list (string * Z) :=
  match path with
  | [] => depths
  | c :: path' => assign_depths (depth + 1) path' (dict_set c (depth + 1) depths)
  end.

Definition depth_step (by_id : list (string * group)) (depths : list (string * Z)) (id : string)
    : list (string * Z) :=
  let '(path, current) := depth_path (S (length by_id)) by_id depths [] (Some id) in
  let depth := match current with Some c => default (-1) (dict_get c depths) | None => -1 end in
  assign_depths depth path depths.

Definition group_depths (groups : list (string * group)) : list (string * Z) :=
  let by_id := foldl (λ d kv, dict_set kv.1 kv.2 d) [] groups in
  foldl (depth_step by_id) [] (map fst groups).

(** The order of the candidates: deepest, oldest, smallest id. *)
Definition wins (depths : list (string * Z)) (a b : string * group) : bool :=
  let da := default 0 (dict_get a.1 depths) in let db := default 0 (dict_get b.1 depths) in
  (db <? da)
  || ((da =? db) && ((g_created_at a.2 <? g_created_at b.2)
                     || ((g_created_at a.2 =? g_created_at b.2) && Str.ltb a.1 b.1))).

(** [resolve_group_default_models]: the models and the group they come from. *)
Definition resolve_group_default_models (groups : list (string * group))
    : res (pyval * option string) :=
  flags ← mapR (λ kv, m ← group_default_models (g_data kv.2); Ok (kv, truthy m)) groups;
  match omap (λ kf : string * group * bool, if kf.2 then Some kf.1 else None) flags with
  | [] => Ok (VNone, None)
  | c :: cs =>
      let winner := py_max (λ a b, wins (group_depths groups) b a) c cs in
      models ← group_default_models (g_data winner.2);
      Ok (models, Some winner.1)
  end.
