(* ===== verification/GroupsProps.v ===== *)
(** * Properties of the group hierarchy.

    The recursive queries compute reachability along the parent relation; every
    change keeps the hierarchy a forest, and the users whose inherited groups a
    change may alter are among those whose sessions are refreshed. *)

From S2P Require Import Prelude PyVal AccessGrants Groups.

(** ** The parent relation *)

Definition parent_of (m : gmap string group) (x y : string) : Prop :=
  ∃ g, m !! x = Some g ∧ g_parent g = Some y.

Lemma parent_of_det m x y z : parent_of m x y → parent_of m x z → y = z.
Proof. intros (g & Hg & Hy) (h & Hh & Hz). congruence. Qed.

Lemma parents_step_spec m s y : y ∈ parents_step m s ↔ ∃ x, x ∈ s ∧ parent_of m x y.
Proof.
  unfold parents_step. rewrite elem_of_list_to_set, list_elem_of_omap. split.
  - intros (x & Hx & Hy). apply elem_of_elements in Hx. exists x. split; [done|].
    destruct (m !! x) as [g|] eqn:E; [|done]. by exists g.
  - intros (x & Hx & g & Hg & Hy). exists x. split; [by apply elem_of_elements|]. by rewrite Hg.
Qed.

Lemma children_step_spec m s y : y ∈ children_step m s ↔ ∃ x, x ∈ s ∧ parent_of m y x.
Proof.
  unfold children_step. rewrite elem_of_dom. split.
  - intros [g Hg]. apply map_lookup_filter_Some in Hg as [Hg Hp]. cbn in Hp.
    destruct (g_parent g) as [p|] eqn:E; [|done]. apply bool_decide_eq_true in Hp.
    exists p. split; [done|]. by exists g.
  - intros (x & Hx & g & Hg & Hp). exists g. apply map_lookup_filter_Some. split; [done|].
    cbn. rewrite Hp. by apply bool_decide_eq_true.
Qed.

Definition all_parents (m : gmap string group) : gset string :=
  list_to_set (omap (λ kv, g_parent kv.2) (map_to_list m)).

Lemma all_parents_size m : size (all_parents m) ≤ size m.
Proof.
  unfold all_parents. rewrite <-length_map_to_list. generalize (map_to_list m) as l.
  induction l as [|kv l IH]; cbn; [by rewrite size_empty|].
  destruct (g_parent kv.2); cbn; [|lia]. rewrite size_union_alt, size_singleton.
  etrans; [apply Nat.add_le_mono_l, subseteq_size, subseteq_difference_l; reflexivity|]. lia.
Qed.

Lemma parent_in_all m x y : parent_of m x y → y ∈ all_parents m.
Proof.
  intros (g & Hg & Hy). apply elem_of_list_to_set, list_elem_of_omap. exists (x, g).
  split; [by apply elem_of_map_to_list|done].
Qed.

Lemma ancestor_groups_spec m ids y :
  y ∈ ancestor_groups m ids ↔ ∃ x, x ∈ ids ∧ is_Some (m !! x) ∧ rtc (parent_of m) x y.
Proof.
  unfold ancestor_groups. rewrite (closure_spec _ (parent_of m) (all_parents m)).
  - setoid_rewrite elem_of_filter. naive_solver.
  - apply parents_step_spec.
  - intros x z. apply parent_in_all.
  - apply all_parents_size.
Qed.

Lemma direct_groups_spec d u x : x ∈ direct_groups d u ↔ (x, u) ∈ gs_members d.
Proof.
  unfold direct_groups. rewrite elem_of_list_to_set, list_elem_of_fmap. split.
  - intros ([g v] & -> & [Hin Hv]%filter_elem). apply String.eqb_eq in Hv as <-.
    by apply elem_of_elements in Hin.
  - intros Hin. exists (x, u). split; [done|]. apply filter_elem.
    split; [by apply elem_of_elements|apply String.eqb_refl].
Qed.

(** The groups a user belongs to, inherited ones included. *)
Lemma user_memberships_spec d u y :
  y ∈ user_group_memberships d u true ↔
  ∃ x, (x, u) ∈ gs_members d ∧ rtc (parent_of (gs_groups d)) x y.
Proof.
  unfold user_group_memberships.
  rewrite (closure_spec _ (parent_of (gs_groups d)) (all_parents (gs_groups d))).
  - by setoid_rewrite direct_groups_spec.
  - apply parents_step_spec.
  - intros x z. apply parent_in_all.
  - apply all_parents_size.
Qed.

Lemma members_in_spec d gs u : u ∈ members_in d gs ↔ ∃ x, x ∈ gs ∧ (x, u) ∈ gs_members d.
Proof.
  unfold members_in. rewrite elem_of_list_to_set, list_elem_of_fmap. split.
  - intros ([x v] & -> & [Hin Hx]%filter_elem). apply bool_decide_eq_true in Hx.
    apply elem_of_elements in Hin. eauto.
  - intros (x & Hx & Hin). exists (x, u). split; [done|]. apply filter_elem.
    split; [by apply elem_of_elements|by apply bool_decide_eq_true].
Qed.

Lemma rtc_flip {A} (R : A → A → Prop) x y : rtc (flip R) x y ↔ rtc R y x.
Proof.
  split; induction 1 as [|x y z HR _ IH]; try done.
  - by eapply rtc_r.
  - by eapply rtc_r.
Qed.

Lemma group_users_spec d g u :
  u ∈ group_user_memberships d g true ↔
  is_Some (gs_groups d !! g) ∧ ∃ x, (x, u) ∈ gs_members d ∧ rtc (parent_of (gs_groups d)) x g.
Proof.
  unfold group_user_memberships, descendant_groups. rewrite members_in_spec.
  setoid_rewrite (closure_spec _ (flip (parent_of (gs_groups d))) (dom (gs_groups d))).
  - setoid_rewrite elem_of_filter. setoid_rewrite elem_of_singleton. split.
    + intros (x & (y & [Hy Hyg] & Hr%rtc_flip) & Hin). subst y. split; [done|]. by exists x.
    + intros (Hg & x & Hin & Hr). exists x. split; [|done]. exists g. split; [done|]. by apply rtc_flip.
  - intros s y. apply children_step_spec.
  - intros a b (h & Hh & _). by apply elem_of_dom_2 in Hh.
  - by rewrite size_dom.
Qed.

Lemma sorted_group_ids d u i :
  i ∈ user_group_ids d u true ↔ i ∈ user_group_memberships d u true ∧ is_Some (gs_groups d !! i).
Proof.
  unfold user_group_ids, get_groups_by_member_id. rewrite list_elem_of_fmap. split.
  - intros ([j g] & -> & Hin). apply py_sorted_elem, list_elem_of_omap in Hin as (k & Hk & Hg).
    apply elem_of_elements in Hk. destruct (gs_groups d !! k) as [g'|] eqn:E; [|done].
    injection Hg as -> ->. cbn. split; [done|]. by rewrite E.
  - intros [Hi [g Hg]]. exists (i, g). split; [done|]. apply py_sorted_elem, list_elem_of_omap.
    exists i. split; [by apply elem_of_elements|]. by rewrite Hg.
Qed.

(** ** Changes of the parent relation *)

Lemma user_memberships_ext d d' u :
  (∀ x, (x, u) ∈ gs_members d' ↔ (x, u) ∈ gs_members d) →
  (∀ x y, parent_of (gs_groups d') x y ↔ parent_of (gs_groups d) x y) →
  user_group_memberships d' u true = user_group_memberships d u true.
Proof.
  intros Hm Hp. apply set_eq. intros y. rewrite !user_memberships_spec. f_equiv; intros x.
  rewrite Hm. split; intros [Hx Hr]; (split; [done|]);
    (eapply rtc_subrel; [|exact Hr]); intros a b; apply Hp.
Qed.

Lemma parent_of_fmap f m x y :
  (∀ g, g_parent (f g) = g_parent g) → parent_of (f <$> m) x y ↔ parent_of m x y.
Proof.
  intros Hf. unfold parent_of. setoid_rewrite lookup_fmap. split.
  - intros (g & (h & Hh & ->)%fmap_Some & Hy). exists h. by rewrite <-Hf.
  - intros (g & Hg & Hy). exists (f g). rewrite Hg, Hf. done.
Qed.

Lemma parent_of_insert_same m i g g' x y :
  m !! i = Some g → g_parent g' = g_parent g → parent_of (<[i := g']> m) x y ↔ parent_of m x y.
Proof.
  intros Hi Hp. unfold parent_of. destruct (decide (x = i)) as [->|Hne].
  - setoid_rewrite lookup_insert_eq. split.
    + intros (h & [= <-] & Hy). exists g. by rewrite <-Hp.
    + intros (h & Hh & Hy). exists g'. split; [done|]. rewrite Hp. congruence.
  - assert (Hl : <[i := g']> m !! x = m !! x) by (by apply lookup_insert_ne).
    by rewrite Hl.
Qed.

Lemma parent_of_touch now s m x y : parent_of (touch_groups now s m) x y ↔ parent_of m x y.
Proof.
  unfold parent_of, touch_groups. setoid_rewrite map_lookup_imap. split.
  - intros (g & (h & Hh & [= <-])%bind_Some & Hy). exists h. split; [done|].
    by case_bool_decide.
  - intros (g & Hg & Hy). rewrite Hg. cbn. eexists. split; [reflexivity|]. by case_bool_decide.
Qed.

Arguments user_group_memberships : simpl never.
Arguments group_user_memberships : simpl never.

(** ** The invariant *)

Section Invariant.
Context (uuid4 : nat → string) (Huuid : Inj (=) (=) uuid4) (default_share : pyval).

(** The hierarchy is a forest (some rank decreases towards the roots), parents
    and the groups of members exist, and no identifier is taken in advance. *)
Definition group_inv (d : group_db) : Prop :=
  (∃ rank : string → nat, ∀ x y, parent_of (gs_groups d) x y → rank y < rank x) ∧
  (∀ x y, parent_of (gs_groups d) x y → is_Some (gs_groups d !! y)) ∧
  (∀ g u, (g, u) ∈ gs_members d → is_Some (gs_groups d !! g)) ∧
  (∀ n, gs_uuids d ≤ n → gs_groups d !! uuid4 n = None).

Lemma group_inv_ext d d' :
  group_inv d →
  (∀ x y, parent_of (gs_groups d') x y ↔ parent_of (gs_groups d) x y) →
  (∀ x, is_Some (gs_groups d' !! x) ↔ is_Some (gs_groups d !! x)) →
  (∀ g u, (g, u) ∈ gs_members d' → is_Some (gs_groups d !! g)) →
  gs_uuids d ≤ gs_uuids d' → group_inv d'.
Proof.
  intros (Hr & Hp & Hm & Hu) Hpar Hdom Hmem Huu. split_and!.
  - destruct Hr as [rank Hr]. exists rank. intros x y Hxy. by apply Hr, Hpar.
  - intros x y Hxy. apply Hdom. by apply (Hp x), Hpar.
  - intros g u Hgu. apply Hdom. by eapply Hmem.
  - intros n Hn. apply eq_None_not_Some. intros Hs. apply Hdom in Hs. rewrite Hu in Hs by lia.
    by apply is_Some_None in Hs.
Qed.

Lemma insert_same_dom (m : gmap string group) i (g g' : group) x :
  m !! i = Some g → is_Some (<[i := g']> m !! x) ↔ is_Some (m !! x).
Proof.
  intros Hi. destruct (decide (x = i)) as [->|Hne].
  - rewrite lookup_insert_eq, Hi. split; eauto.
  - by rewrite lookup_insert_ne.
Qed.

Lemma touch_dom now s (m : gmap string group) x : is_Some (touch_groups now s m !! x) ↔ is_Some (m !! x).
Proof. unfold touch_groups. rewrite map_lookup_imap. destruct (m !! x); cbn; [split; eauto|done]. Qed.

(** A change keeps the invariant, and only the users it answers may get or
    lose a group. *)
Definition sound (c : st group_db (gset string)) : Prop := ∀ d,
  group_inv d →
  group_inv (c d).2 ∧
  ∀ u, match (c d).1 with Ok s => u ∉ s | Err _ => True end →
    user_group_memberships (c d).2 u true = user_group_memberships d u true.

Lemma sound_err (c : st group_db (gset string)) d e :
  c d = (Err e, d) → group_inv d →
  group_inv (c d).2 ∧
  ∀ u, match (c d).1 with Ok s => u ∉ s | Err _ => True end →
    user_group_memberships (c d).2 u true = user_group_memberships d u true.
Proof. by intros ->. Qed.

(** Membership rows of one group or one user. *)
Lemma member_rows_elem id us g u : (g, u) ∈ member_rows id us ↔ g = id ∧ u ∈ us.
Proof.
  unfold member_rows. rewrite elem_of_map. split.
  - intros (v & [= -> ->] & Hv). done.
  - intros [-> Hu]. by exists u.
Qed.

Lemma user_rows_elem v gs g u : (g, u) ∈ user_rows v gs ↔ u = v ∧ g ∈ gs.
Proof.
  unfold user_rows. rewrite elem_of_map. split.
  - intros (h & [= -> ->] & Hh). done.
  - intros [-> Hg]. by exists g.
Qed.

Lemma group_members_elem d id u : u ∈ group_members d id ↔ (id, u) ∈ gs_members d.
Proof.
  unfold group_members. rewrite members_in_spec. split.
  - by intros (x & ->%elem_of_singleton & Hx).
  - intros H. exists id. split; [by apply elem_of_singleton|done].
Qed.

Lemma set_users_sound now id users : sound (set_group_user_ids_by_id now id users).
Proof.
  intros d Hd. destruct (gs_groups d !! id) as [g|] eqn:Eg.
  2:{ eapply (sound_err _ _ (GroupHierarchyError "Group not found." 404)); [|done].
      unfold set_group_user_ids_by_id, require_group, exec. st_run. by rewrite Eg. }
  unfold set_group_user_ids_by_id, require_group, exec. st_run. rewrite Eg. cbn.
  set (req := list_to_set users : gset string).
  change (group_members {| gs_groups := _; gs_members := _; gs_grants := _; gs_uuids := _ |} id)
    with (group_members d id).
  split.
  - apply (group_inv_ext d); cbn; [done| | | |done].
    + intros x y. by apply (parent_of_insert_same _ _ g).
    + intros x. by apply (insert_same_dom _ _ g).
    + intros h u. rewrite elem_of_union, elem_of_difference, !member_rows_elem.
      intros [[Hin _]|[-> _]]; [by eapply Hd|by rewrite Eg].
  - intros u Hu. apply user_memberships_ext; cbn.
    + intros x. rewrite elem_of_union, elem_of_difference, !member_rows_elem.
      destruct (decide (x = id)) as [->|Hne]; [|naive_solver].
      rewrite <-group_members_elem. set_solver.
    + intros x y. by apply (parent_of_insert_same _ _ g).
Qed.

Lemma add_users_sound now id users :
  sound (r ← add_users_to_group now id users; mret r.2).
Proof.
  intros d Hd. unfold add_users_to_group, require_group, exec. st_run.
  destruct (gs_groups d !! id) as [g|] eqn:Eg; [|done]. cbn. split.
  - apply (group_inv_ext d); cbn; [done| | | |done].
    + intros x y. by apply (parent_of_insert_same _ _ g).
    + intros x. by apply (insert_same_dom _ _ g).
    + intros h u. rewrite elem_of_union, member_rows_elem.
      intros [Hin|[-> _]]; [by eapply Hd|by rewrite Eg].
  - intros u Hu. apply user_memberships_ext; cbn.
    + intros x. rewrite elem_of_union, member_rows_elem. naive_solver.
    + intros x y. by apply (parent_of_insert_same _ _ g).
Qed.

Lemma remove_users_sound now id users :
  sound (r ← remove_users_from_group now id users; mret r.2).
Proof.
  intros d Hd. unfold remove_users_from_group, require_group, exec. st_run.
  destruct (gs_groups d !! id) as [g|] eqn:Eg; [|done]. cbn. split.
  - apply (group_inv_ext d); cbn; [done| | | |done].
    + intros x y. by apply (parent_of_insert_same _ _ g).
    + intros x. by apply (insert_same_dom _ _ g).
    + intros h u [Hin _]%elem_of_difference. by eapply Hd.
  - intros u Hu. apply user_memberships_ext; cbn.
    + intros x. rewrite elem_of_difference, member_rows_elem. naive_solver.
    + intros x y. by apply (parent_of_insert_same _ _ g).
Qed.

Lemma sync_sound now user names : sound (sync_groups_by_group_names now user names).
Proof.
  intros d Hd. unfold sync_groups_by_group_names, exec. st_run.
  set (target := groups_named names (gs_groups d)). set (prev := direct_groups d user). split.
  - apply (group_inv_ext d); cbn; [done| | | |done].
    + intros x y. apply parent_of_touch.
    + intros x. apply touch_dom.
    + intros g u. rewrite elem_of_union, elem_of_difference, !user_rows_elem.
      intros [[Hin _]|[_ Hg]]; [by eapply Hd|].
      apply elem_of_difference in Hg as [Hg _]. unfold target, groups_named in Hg.
      apply elem_of_dom in Hg as [h Hh]. apply map_lookup_filter_Some in Hh as [Hh _]. eauto.
  - intros u Hu. apply user_memberships_ext; cbn; [|intros x y; apply parent_of_touch].
    intros x. rewrite elem_of_union, elem_of_difference, !user_rows_elem.
    destruct (decide (u = user)) as [->|Hne]; [|naive_solver].
    case_bool_decide as Heq; [|set_solver].
    rewrite <-direct_groups_spec. fold prev. rewrite Heq. set_solver.
Qed.

Lemma remove_user_sound now user : sound (remove_user_from_all_groups now user).
Proof.
  intros d Hd. unfold remove_user_from_all_groups, exec. st_run. split.
  - apply (group_inv_ext d); cbn; [done| | | |done].
    + intros x y. apply parent_of_touch.
    + intros x. apply touch_dom.
    + intros g u [_ Hin]%elem_of_filter. by eapply Hd.
  - intros u Hu. apply user_memberships_ext; cbn; [|intros x y; apply parent_of_touch].
    intros x. rewrite elem_of_filter. cbn. set_solver.
Qed.

(** *** New edges *)

Lemma rtc_agree (R R' : string → string → Prop) x :
  (∀ a b, rtc R x a → R a b ↔ R' a b) → ∀ y, rtc R x y ↔ rtc R' x y.
Proof.
  intros H y. split.
  - revert y. apply rtc_ind_r; [done|]. intros y z Hxy HR IH.
    eapply rtc_r; [exact IH|]. by apply H.
  - revert y. apply rtc_ind_r; [done|]. intros y z Hxy HR IH.
    eapply rtc_r; [exact IH|]. by apply (H y z IH).
Qed.

Lemma user_memberships_agree d d' u :
  (∀ x, (x, u) ∈ gs_members d' ↔ (x, u) ∈ gs_members d) →
  (∀ x a b, (x, u) ∈ gs_members d → rtc (parent_of (gs_groups d)) x a →
     parent_of (gs_groups d) a b ↔ parent_of (gs_groups d') a b) →
  user_group_memberships d' u true = user_group_memberships d u true.
Proof.
  intros Hm Hp. apply set_eq. intros y. rewrite !user_memberships_spec. f_equiv; intros x.
  rewrite Hm. assert (Hag : (x, u) ∈ gs_members d →
    rtc (parent_of (gs_groups d)) x y ↔ rtc (parent_of (gs_groups d')) x y).
  { intros Hx. apply rtc_agree. intros a b Ha. by apply (Hp x). }
  naive_solver.
Qed.

Lemma parent_of_insert (m : gmap string group) i g x y :
  parent_of (<[i := g]> m) x y ↔ x = i ∧ g_parent g = Some y ∨ x ≠ i ∧ parent_of m x y.
Proof.
  unfold parent_of. destruct (decide (x = i)) as [->|Hne].
  - rewrite lookup_insert_eq. split; [intros (h & [= <-] & Hy); auto|].
    intros [[_ Hy]|[? _]]; [eauto|done].
  - rewrite lookup_insert_ne by done. naive_solver.
Qed.

Lemma reachable_exists d x a :
  group_inv d → is_Some (gs_groups d !! x) → rtc (parent_of (gs_groups d)) x a →
  is_Some (gs_groups d !! a).
Proof.
  intros (_ & Hp & _) Hx Hr. induction Hr as [|x y z HR _ IH]; [done|]. apply IH. by eapply Hp.
Qed.

(** A new group without children. *)
Lemma insert_inv d d' g :
  group_inv d → (∀ p, g_parent g = Some p → is_Some (gs_groups d !! p)) →
  gs_groups d' = <[uuid4 (gs_uuids d) := g]> (gs_groups d) → gs_members d' = gs_members d →
  gs_uuids d' = S (gs_uuids d) →
  group_inv d' ∧ ∀ u, user_group_memberships d' u true = user_group_memberships d u true.
Proof.
  intros Hd Hp Hg Hm Hu. set (id := uuid4 (gs_uuids d)) in *.
  pose proof Hd as ((rank & Hr) & Hpar & Hmem & Hfresh).
  assert (Hid : gs_groups d !! id = None) by (by apply Hfresh).
  assert (Hne : ∀ x, is_Some (gs_groups d !! x) → x ≠ id).
  { intros x Hx ->. rewrite Hid in Hx. by apply is_Some_None in Hx. }
  split.
  - split_and!.
    + exists (λ x, if decide (x = id) then S (match g_parent g with Some p => rank p | None => 0 end)
                   else rank x).
      intros x y. rewrite Hg, parent_of_insert. intros [[-> Hy]|[Hx Hxy]].
      * rewrite (decide_False (P := y = id)) by (by apply Hne, Hp).
        rewrite decide_True, Hy by done. lia.
      * rewrite (decide_False (P := y = id)) by (by eapply Hne, Hpar).
        rewrite decide_False by done. by apply Hr.
    + intros x y. rewrite Hg, parent_of_insert. intros [[-> Hy]|[Hx Hxy]].
      * rewrite lookup_insert_ne; [by apply Hp|]. apply not_eq_sym, Hne. by apply Hp.
      * rewrite lookup_insert_ne; [by eapply Hpar|]. apply not_eq_sym, Hne. by eapply Hpar.
    + intros h u. rewrite Hm, Hg. intros Hh%Hmem. rewrite lookup_insert_ne; [done|].
      by apply not_eq_sym, Hne.
    + intros n Hn. rewrite Hg, lookup_insert_ne; [apply Hfresh; lia|]. intros Heq.
      apply (inj uuid4) in Heq. lia.
  - intros u. apply user_memberships_agree; [by rewrite Hm|]. intros x a b Hx Ha.
    rewrite Hg, parent_of_insert. assert (a ≠ id).
    { apply Hne. eapply reachable_exists; [done| |exact Ha]. by eapply Hmem. }
    naive_solver.
Qed.

Lemma insert_sound now user form :
  sound (_ ← insert_new_group uuid4 default_share now user form; mret ∅).
Proof.
  intros d Hd. rewrite st_bind_eq.
  destruct (insert_new_group uuid4 default_share now user form d) as [[[id g]|e] d'] eqn:E.
  2:{ apply transaction_err in E as ->. done. }
  cbn. unfold insert_new_group, transaction, validate_parent, fresh_group_id, insert_group in E.
  revert E. st_run. destruct (default None (gf_parent form)) as [p|] eqn:Ep.
  - destruct (Str.is_empty p); [done|]. destruct (gs_groups d !! p) as [gp|] eqn:Egp; [|done].
    destruct (ensure_default_share_config _ _) as [data|]; [|done]. cbn.
    destruct (gs_groups d !! uuid4 (gs_uuids d)); [done|]. intros [= _ Hg <-].
    match goal with |- group_inv ?d' ∧ _ => destruct (insert_inv d d' g Hd) as [H1 H2] end;
      [|by rewrite <-Hg|done|done|split; [done|auto]].
    rewrite <-Hg. intros q [= <-]. by rewrite Egp.
  - destruct (ensure_default_share_config _ _) as [data|]; [|done]. cbn.
    destruct (gs_groups d !! uuid4 (gs_uuids d)); [done|]. intros [= _ Hg <-].
    match goal with |- group_inv ?d' ∧ _ => destruct (insert_inv d d' g Hd) as [H1 H2] end;
      [|by rewrite <-Hg|done|done|split; [done|auto]].
    by rewrite <-Hg.
Qed.

Lemma create_loop_sound now user existing names :
  sound (_ ← create_groups_loop uuid4 default_share now user existing names; mret ∅).
Proof.
  induction names as [|name names IH]; intros d Hd; [done|].
  cbn [create_groups_loop]. case_bool_decide.
  - specialize (IH d Hd). revert IH. st_run.
    by destruct (create_groups_loop uuid4 default_share now user existing names d) as [[r|e] d'].
  - set (g := named_group default_share now user name).
    set (d1 := {| gs_groups := <[uuid4 (gs_uuids d) := g]> (gs_groups d); gs_members := gs_members d;
                  gs_grants := gs_grants d; gs_uuids := S (gs_uuids d) |}).
    destruct (insert_inv d d1 g Hd) as [Hd1 Hm1]; [done..|].
    specialize (IH d1 Hd1). revert IH. unfold fresh_group_id, insert_group. st_run.
    assert (Hfresh : gs_groups d !! uuid4 (gs_uuids d) = None) by (by apply Hd).
    rewrite Hfresh. fold g.
    change (with_groups _ _) with d1.
    destruct (create_groups_loop uuid4 default_share now user existing names d1) as [[r|e] d'];
      cbn; intros [HI Hu]; (split; [done|]); intros u _; by rewrite Hu, Hm1.
Qed.

Lemma create_sound now user names :
  sound (_ ← create_groups_by_group_names uuid4 default_share now user names; mret ∅).
Proof.
  intros d Hd. unfold create_groups_by_group_names.
  pose proof (create_loop_sound now user (map (λ kv, g_name kv.2) (map_to_list (gs_groups d))) names d Hd)
    as H. revert H. rewrite !st_bind_eq. unfold st_get. done.
Qed.

Lemma delete_all_sound : sound delete_all_groups.
Proof.
  intros d Hd. unfold delete_all_groups, exec. st_run. split.
  - split_and!; cbn.
    + exists (λ _, 0). by intros x y (g & Hg & _).
    + by intros x y (g & Hg & _).
    + by intros g u ?%elem_of_empty.
    + done.
  - intros u Hu. apply set_eq. intros y. rewrite !user_memberships_spec. cbn. split.
    + by intros (x & ?%elem_of_empty & _).
    + intros (x & Hx & _). exfalso. apply Hu. apply elem_of_list_to_set, list_elem_of_fmap.
      exists (x, u). split; [done|]. by apply elem_of_elements.
Qed.

(** *** A new parent *)

Lemma forest_rank d rank x y :
  (∀ a b, parent_of (gs_groups d) a b → rank b < rank a) → rtc (parent_of (gs_groups d)) x y →
  rank y ≤ rank x.
Proof.
  intros Hr H. induction H as [|x z y Hxz _ IH]; [done|]. specialize (Hr x z Hxz). lia.
Qed.

Lemma own_parent_ok d id g p :
  group_inv d → gs_groups d !! id = Some g → g_parent g = Some p →
  is_Some (gs_groups d !! p) ∧ id ∉ ancestor_groups (gs_groups d) {[ p ]}.
Proof.
  intros ((rank & Hr) & Hp & _) Hg Hgp. assert (He : parent_of (gs_groups d) id p) by (by exists g).
  split; [by eapply Hp|]. intros (x & ->%elem_of_singleton & _ & Hrtc)%ancestor_groups_spec.
  specialize (Hr id p He) as Hlt. pose proof (forest_rank d rank p id Hr Hrtc). lia.
Qed.

Lemma update_core d d' id g g' :
  group_inv d → gs_groups d !! id = Some g →
  (∀ p, g_parent g' = Some p →
     is_Some (gs_groups d !! p) ∧ id ∉ ancestor_groups (gs_groups d) {[ p ]}) →
  d' = with_groups (<[id := g']> (gs_groups d)) d →
  group_inv d' ∧
  ∀ u, g_parent g' = g_parent g ∨ u ∉ group_user_memberships d id true →
    user_group_memberships d' u true = user_group_memberships d u true.
Proof.
  intros Hd Hg Hnew ->. pose proof Hd as ((rank & Hr) & Hpar & Hmem & Hfresh).
  assert (Hdom : ∀ x, is_Some (<[id := g']> (gs_groups d) !! x) ↔ is_Some (gs_groups d !! x)).
  { intros x. by apply (insert_same_dom _ _ g). }
  split.
  - split_and!; cbn.
    + set (D x := bool_decide (id ∈ ancestor_groups (gs_groups d) {[ x ]})).
      assert (HD : ∀ x y, parent_of (gs_groups d) x y → D y = true → D x = true).
      { intros x y Hxy. unfold D. rewrite !bool_decide_eq_true, !ancestor_groups_spec.
        intros (z & ->%elem_of_singleton & _ & Hr'). exists x.
        split_and!; [by apply elem_of_singleton| |by eapply rtc_l].
        destruct Hxy as (h & Hh & _). by rewrite Hh. }
      assert (HDid : D id = true).
      { apply bool_decide_eq_true, ancestor_groups_spec. exists id.
        split_and!; [by apply elem_of_singleton|by rewrite Hg|done]. }
      exists (λ x, rank x + if D x then match g_parent g' with Some p => S (rank p) | None => 0 end else 0).
      intros x y. rewrite parent_of_insert. intros [[-> Hy]|[Hx Hxy]].
      * rewrite HDid, Hy. destruct (Hnew y Hy) as [_ Hn]. unfold D.
        rewrite bool_decide_false by done. lia.
      * specialize (Hr x y Hxy). destruct (D y) eqn:Ey; [rewrite (HD x y Hxy Ey)|]; lia.
    + intros x y. rewrite parent_of_insert. intros [[-> Hy]|[Hx Hxy]]; apply Hdom;
        [by apply Hnew|by eapply Hpar].
    + intros h u Hh. by eapply Hdom, Hmem.
    + intros n Hn. apply eq_None_not_Some. intros Hs%Hdom. rewrite Hfresh in Hs by done.
      by apply is_Some_None in Hs.
  - intros u [Heq|Hu].
    + apply user_memberships_ext; cbn; [done|]. intros x y. by apply (parent_of_insert_same _ _ g).
    + apply user_memberships_agree; cbn; [done|]. intros x a b Hx Ha. rewrite parent_of_insert.
      assert (a ≠ id); [|naive_solver]. intros ->. apply Hu, group_users_spec.
      split; [by rewrite Hg|eauto].
Qed.

Lemma update_sound now id form :
  sound (r ← update_group_by_id now id form; mret r.1.2).
Proof.
  intros d Hd. rewrite st_bind_eq.
  destruct (update_group_by_id now id form d) as [[[[g' aff] ch]|e] d'] eqn:E.
  2:{ apply transaction_err in E as ->. done. }
  cbn. revert E. unfold update_group_by_id, transaction, require_group, exec. st_run.
  destruct (gs_groups d !! id) as [g|] eqn:Eg; [|done].
  assert (Hval : ∀ r d1, match gf_parent form with
                         | Some p => validate_parent (Some id) p | None => λ s, (Ok tt, s) end d = (r, d1) →
    r = Ok tt → d1 = d ∧ ∀ p, match gf_parent form with Some p => p | None => g_parent g end = Some p →
      is_Some (gs_groups d !! p) ∧ id ∉ ancestor_groups (gs_groups d) {[ p ]}).
  { intros r d1. destruct (gf_parent form) as [[p|]|].
    - unfold validate_parent. destruct (Str.is_empty p); [by intros [= <- _]|].
      destruct (gs_groups d !! p) as [gp|] eqn:Ep; [|by intros [= <- _]].
      case_bool_decide as Hanc; [by intros [= <- _]|]. intros [= <- <-] _.
      split; [done|]. intros q [= <-]. by rewrite Ep.
    - by intros [= <- <-].
    - intros [= <- <-] _. split; [done|]. intros p. by apply own_parent_ok. }
  destruct (match gf_parent form with
            | Some p => validate_parent (Some id) p | None => λ s, (Ok tt, s) end d)
    as [[[]|e] d1]; [|done].
  destruct (Hval _ _ eq_refl eq_refl) as [-> Hp].
  destruct (match gf_data form with Some new => _ | None => Ok (g_data g) end) as [data|]; [|done].
  destruct (match gf_data form with Some _ => _ | None => Ok false end) as [dc|]; [|done].
  intros [= _ Haff _ <-].
  match goal with |- context [<[id := ?h]> _] =>
    destruct (update_core d (with_groups (<[id := h]> (gs_groups d)) d) id g h Hd Eg) as [H1 H2] end;
    [exact Hp|done|].
  split; [done|]. intros u Hu. apply H2. cbn [g_parent]. rewrite <-Haff in Hu.
  case_bool_decide as Hsame; [by left|right]. exact Hu.
Qed.

(** *** Deleting a group *)

Lemma delete_parent now (m : gmap string group) id g x y :
  m !! id = Some g →
  parent_of (base.delete id (promote now id (g_parent g) m)) x y ↔
  x ≠ id ∧ (parent_of m x y ∧ y ≠ id ∨ parent_of m x id ∧ parent_of m id y).
Proof.
  intros Hg. unfold parent_of, promote. setoid_rewrite lookup_delete_Some.
  setoid_rewrite lookup_fmap_Some. split.
  - intros (h & [Hne (h0 & <- & Hh0)] & Hy). split; [done|].
    case_bool_decide as Hp; cbn in Hy; [right|left].
    + split; [by exists h0|by exists g].
    + split; [by exists h0|]. intros ->. done.
  - intros [Hne [[(h & Hh & Hy) Hyid]|[(h & Hh & Hp) (g0 & Hg0 & Hy)]]].
    + exists h. rewrite Hy. split; [|done]. split; [done|]. exists h.
      rewrite bool_decide_false by congruence. done.
    + assert (g0 = g) as -> by congruence. eexists. split; [split; [done|exists h; split; [reflexivity|done]]|].
      by rewrite bool_decide_true.
Qed.

Lemma delete_paths now d id g x h :
  group_inv d → gs_groups d !! id = Some g → x ≠ id → h ≠ id →
  rtc (parent_of (base.delete id (promote now id (g_parent g) (gs_groups d)))) x h ↔
  rtc (parent_of (gs_groups d)) x h.
Proof.
  intros ((rank & Hr) & _) Hg Hx Hh. split.
  - intros H. induction H as [|x z h Hxz _ IH]; [done|].
    apply delete_parent in Hxz as [_ [[Hxz Hz]|[H1 H2]]]; [| |done].
    + eapply rtc_l; [exact Hxz|]. by apply IH.
    + assert (z ≠ id) by (intros ->; specialize (Hr id id H2); lia).
      eapply rtc_l; [exact H1|]. eapply rtc_l; [exact H2|]. by apply IH.
  - intros H. assert (Hgen : (x ≠ id → rtc (parent_of (base.delete id (promote now id (g_parent g) (gs_groups d)))) x h) ∧
      (x = id → ∃ p, parent_of (gs_groups d) id p ∧ p ≠ id ∧
         rtc (parent_of (base.delete id (promote now id (g_parent g) (gs_groups d)))) p h)); [|by apply Hgen].
    clear Hx. induction H as [x|x z h Hxz Hzh IH]; [by split; [|intros ->]|].
    destruct (IH Hh) as [IH1 IH2]. split.
    + intros Hx. destruct (decide (z = id)) as [->|Hz].
      * destruct (IH2 eq_refl) as (p & Hp & Hpid & Hrtc). eapply rtc_l; [|exact Hrtc].
        apply delete_parent; [done|]. auto.
      * eapply rtc_l; [|by apply IH1]. apply delete_parent; [done|]. auto.
    + intros ->. exists z. assert (z ≠ id) by (intros ->; specialize (Hr id id Hxz); lia). auto.
Qed.

Lemma delete_core now d d' id g :
  group_inv d → gs_groups d !! id = Some g →
  gs_groups d' = base.delete id (promote now id (g_parent g) (gs_groups d)) →
  gs_members d' = filter (λ gu, gu.1 ≠ id) (gs_members d) → gs_uuids d' = gs_uuids d →
  group_inv d' ∧
  ∀ u, (id, u) ∉ gs_members d →
    user_group_memberships d' u true = user_group_memberships d u true ∖ {[ id ]}.
Proof.
  intros Hd Hg Hm Hrows Huu. pose proof Hd as ((rank & Hr) & Hpar & Hmem & Hfresh).
  assert (Hdom : ∀ x, is_Some (gs_groups d' !! x) ↔ x ≠ id ∧ is_Some (gs_groups d !! x)).
  { intros x. rewrite Hm. unfold promote. destruct (decide (x = id)) as [->|Hne].
    - rewrite lookup_delete_eq. split; [by intros ?%is_Some_None|by intros [? _]].
    - rewrite lookup_delete_ne, lookup_fmap, fmap_is_Some by done. naive_solver. }
  split.
  - split_and!.
    + exists rank. intros x y. rewrite Hm, delete_parent by done.
      intros [_ [[Hxy _]|[H1 H2]]]; [by apply Hr|]. specialize (Hr _ _ H1) as E1.
      specialize (Hr _ _ H2). lia.
    + intros x y. rewrite Hm at 1. rewrite delete_parent by done. rewrite Hdom.
      intros [_ [[Hxy Hy]|[H1 H2]]]; [split; [done|by eapply Hpar]|].
      split; [|by eapply Hpar]. intros ->. specialize (Hr _ _ H2). lia.
    + intros h u. rewrite Hrows. intros [Hne Hh]%elem_of_filter. apply Hdom.
      split; [done|by eapply Hmem].
    + intros n Hn. apply eq_None_not_Some. intros [_ Hs]%Hdom. rewrite Hfresh in Hs by lia.
      by apply is_Some_None in Hs.
  - intros u Hu. apply set_eq. intros h.
    rewrite elem_of_difference, elem_of_singleton, !user_memberships_spec, Hrows, Hm.
    setoid_rewrite elem_of_filter. cbn [fst]. split.
    + intros (x & [Hx Hin] & Hrtc). assert (Hh : h ≠ id).
      { intros ->. apply rtc_inv_r in Hrtc as [->|(z & _ & Hz)]; [done|].
        apply delete_parent in Hz as [_ [[_ Hz]|[_ Hz]]]; [done| |done].
        specialize (Hr _ _ Hz). lia. }
      split; [|done]. exists x. split; [done|]. by apply (delete_paths now d id g x h) in Hrtc.
    + intros [(x & Hin & Hrtc) Hh]. exists x. assert (x ≠ id) by congruence.
      split; [done|]. by apply delete_paths.
Qed.

Lemma delete_cases now id d :
  delete_group_by_id now id d =
  match gs_groups d !! id with
  | None => (Err (GroupHierarchyError "Group not found." 404), d)
  | Some g =>
      (Ok (group_user_memberships d id true, (g_parent g, children_step (gs_groups d) {[ id ]})),
       {| gs_groups := base.delete id (promote now id (g_parent g) (gs_groups d));
          gs_members := filter (λ gu, gu.1 ≠ id) (gs_members d);
          gs_grants := with_grants (List.filter (λ h, negb (is_group_grant id h))
                         (gdb_grants (gs_grants d))) (gs_grants d);
          gs_uuids := gs_uuids d |})
  end.
Proof.
  unfold delete_group_by_id, require_group, exec. st_run.
  by destruct (gs_groups d !! id).
Qed.

Lemma delete_sound now id : sound (r ← delete_group_by_id now id; mret r.1).
Proof.
  intros d Hd. rewrite st_bind_eq, delete_cases.
  destruct (gs_groups d !! id) as [g|] eqn:Eg; [|done]. cbn [fst snd mret st_ret].
  match goal with |- group_inv ?d' ∧ _ => destruct (delete_core now d d' id g Hd Eg) as [H1 H2] end;
    [done..|]. split; [done|]. intros u Hu. rewrite H2.
  - apply set_eq. intros h. rewrite elem_of_difference, elem_of_singleton.
    split; [by intros [? _]|]. intros Hh. split; [done|]. intros ->. apply Hu, group_users_spec.
    split; [by rewrite Eg|]. by apply user_memberships_spec in Hh.
  - intros Hin. apply Hu, group_users_spec. split; [by rewrite Eg|]. by exists id.
Qed.
End Invariant.

(** ** Histories of changes *)

Inductive group_op :=
| OpInsert (user : string) (form : group_form)
| OpSetUsers (id : string) (users : list string)
| OpUpdate (id : string) (form : group_form)
| OpDelete (id : string)
| OpDeleteAll
| OpRemoveUser (user : string)
| OpCreateNamed (user : string) (names : list string)
| OpSyncNames (user : string) (names : list string)
| OpAddUsers (id : string) (users : list string)
| OpRemoveUsers (id : string) (users : list string).

Section Histories.
Context (uuid4 : nat → string) (default_share : pyval).

(** A change and the users whose sessions it refreshes. *)
Definition run_op (now : Z) (op : group_op) : st group_db (gset string) :=
  match op with
  | OpInsert user form => _ ← insert_new_group uuid4 default_share now user form; mret ∅
  | OpSetUsers id users => set_group_user_ids_by_id now id users
  | OpUpdate id form => r ← update_group_by_id now id form; mret r.1.2
  | OpDelete id => r ← delete_group_by_id now id; mret r.1
  | OpDeleteAll => delete_all_groups
  | OpRemoveUser user => remove_user_from_all_groups now user
  | OpCreateNamed user names =>
      _ ← create_groups_by_group_names uuid4 default_share now user names; mret ∅
  | OpSyncNames user names => sync_groups_by_group_names now user names
  | OpAddUsers id users => r ← add_users_to_group now id users; mret r.2
  | OpRemoveUsers id users => r ← remove_users_from_group now id users; mret r.2
  end.

Inductive group_step (d : group_db) : group_db → Prop :=
| GroupStep now op : group_step d (run_op now op d).2.

Lemma run_op_sound now op :
  Inj (=) (=) uuid4 → sound uuid4 (run_op now op).
Proof.
  intros Huuid. destruct op; cbn.
  - by apply insert_sound.
  - by apply set_users_sound.
  - by apply update_sound.
  - by apply delete_sound.
  - by apply delete_all_sound.
  - by apply remove_user_sound.
  - by apply create_sound.
  - by apply sync_sound.
  - by apply add_users_sound.
  - by apply remove_users_sound.
Qed.

Definition empty_db : group_db :=
  {| gs_groups := ∅; gs_members := ∅; gs_grants := {| gdb_grants := []; gdb_uuids := 0 |};
     gs_uuids := 0 |}.

Lemma empty_db_inv : group_inv uuid4 empty_db.
Proof.
  split_and!; cbn; [exists (λ _, 0)| | |done].
  - by intros x y (g & Hg & _).
  - by intros x y (g & Hg & _).
  - by intros g u ?%elem_of_empty.
Qed.

Lemma reachable_inv d :
  Inj (=) (=) uuid4 → rtc group_step empty_db d → group_inv uuid4 d.
Proof.
  intros Huuid. generalize empty_db_inv. generalize empty_db as d0. intros d0 Hd0 H.
  induction H as [|d0 d1 d [now op] _ IH]; [done|]. apply IH. by apply run_op_sound.
Qed.
End Histories.

(** C25: whatever sequence of changes the group tables go through, the
    hierarchy stays a forest: no group is an ancestor of itself, every parent
    is a group of the table, and every member row names one. *)
Theorem hierarchy_stays_a_forest (uuid4 : nat → string) (default_share : pyval) (d : group_db) :
  Inj (=) (=) uuid4 → rtc (group_step uuid4 default_share) empty_db d →
  (∀ x, ¬ tc (parent_of (gs_groups d)) x x) ∧
  (∀ x y, parent_of (gs_groups d) x y → is_Some (gs_groups d !! y)) ∧
  (∀ g u, (g, u) ∈ gs_members d → is_Some (gs_groups d !! g)).
Proof.
  intros Huuid Hreach. destruct (reachable_inv _ _ d Huuid Hreach) as ((rank & Hr) & Hp & Hm & _).
  split_and!; [|done|done]. intros x Hx.
  assert (Hlt : ∀ a b, tc (parent_of (gs_groups d)) a b → rank b < rank a).
  { induction 1 as [a b H|a b c H _ IH]; [by apply Hr|]. specialize (Hr a b H). lia. }
  specialize (Hlt x x Hx). lia.
Qed.

(** C26: every change refreshes the sessions of all users whose groups it may
    have altered: a user outside the set a change answers (or after a refused
    change) belongs to the same groups as before, inherited ones included. *)
Theorem refresh_covers_membership_changes (uuid4 : nat → string) (default_share : pyval)
    (d : group_db) (now : Z) (op : group_op) (u : string) :
  Inj (=) (=) uuid4 → rtc (group_step uuid4 default_share) empty_db d →
  match (run_op uuid4 default_share now op d).1 with Ok s => u ∉ s | Err _ => True end →
  user_group_memberships (run_op uuid4 default_share now op d).2 u true =
  user_group_memberships d u true.
Proof.
  intros Huuid Hreach. apply (run_op_sound uuid4 default_share now op Huuid).
  by apply (reachable_inv uuid4 default_share).
Qed.

(** The two recursive queries agree on every table, even one whose parent
    links run in a circle: a user is among the inherited members of an existing
    group exactly when the group is among the user's inherited groups, that is
    when a chain of parents leads from a group of the user to it. *)
Theorem membership_queries_agree (d : group_db) (g u : string) :
  (u ∈ group_user_memberships d g true ↔ g ∈ user_group_ids d u true) ∧
  (g ∈ user_group_ids d u true ↔
     is_Some (gs_groups d !! g) ∧
     ∃ x, (x, u) ∈ gs_members d ∧ rtc (parent_of (gs_groups d)) x g).
Proof. rewrite sorted_group_ids, user_memberships_spec, group_users_spec. tauto. Qed.

(** Deleting a group removes its member rows and its grants and hands its
    children to its parent, so every user who was not a direct member keeps
    exactly the other groups; nobody gains a group. *)
Theorem delete_group_keeps_other_memberships (uuid4 : nat → string) (default_share : pyval)
    (d : group_db) (now : Z) (id : string) (g : group) :
  Inj (=) (=) uuid4 → rtc (group_step uuid4 default_share) empty_db d → gs_groups d !! id = Some g →
  let d' := (delete_group_by_id now id d).2 in
  gs_groups d' !! id = None ∧
  (∀ gr, gr ∈ gdb_grants (gs_grants d') ↔
     gr ∈ gdb_grants (gs_grants d) ∧
     ¬ (gr_principal_type gr = "group" ∧ gr_principal_id gr = id)) ∧
  (∀ u, (id, u) ∉ gs_members d →
     user_group_memberships d' u true = user_group_memberships d u true ∖ {[ id ]}) ∧
  (∀ u, user_group_memberships d' u true ⊆ user_group_memberships d u true).
Proof.
  intros Huuid Hreach Hg d'. assert (Hd := reachable_inv _ _ d Huuid Hreach).
  subst d'. rewrite delete_cases, Hg. cbn [snd]. set (d' := {| gs_groups := _ |}).
  destruct (delete_core uuid4 now d d' id g Hd Hg) as [_ Hmem]; [done..|].
  split_and!; [apply lookup_delete_eq| |done|].
  - intros gr. cbn. rewrite filter_elem. unfold is_group_grant.
    rewrite negb_true_iff, <-not_true_iff_false, andb_true_iff, !String.eqb_eq. done.
  - intros u h. rewrite !user_memberships_spec. cbn. setoid_rewrite elem_of_filter. cbn [fst].
    intros (x & [Hx Hin] & Hrtc). exists x. split; [done|].
    destruct (decide (h = id)) as [->|Hh].
    + apply rtc_inv_r in Hrtc as [->|(z & _ & Hz)]; [done|].
      apply delete_parent in Hz as [_ [[_ Hz]|[_ Hz]]]; [done| |done].
      destruct Hd as ((rank & Hr) & _). specialize (Hr _ _ Hz). lia.
    + by apply (delete_paths uuid4 now d id g x h).
Qed.

(** ** A concrete history *)

Definition example_group_uuid (n : nat) : string := "group-" +:+ pretty n.

#[export] Instance example_group_uuid_inj : Inj (=) (=) example_group_uuid.
Proof. intros n m H. apply (inj (String.append "group-")) in H. by apply (inj pretty) in H. Defined.

Definition example_group_form (parent : option string) (name : string) : group_form :=
  {| gf_parent := Some parent; gf_name := name; gf_description := name; gf_permissions := None;
     gf_data := None |}.

Definition example_step (op : group_op) (d : group_db) : group_db :=
  (run_op example_group_uuid VNone 5 op d).2.

(** A group, a child of it, and a member of the child. *)
Definition example_groups : group_db :=
  example_step (OpAddUsers "group-1" ["bob"])
    (example_step (OpInsert "ann" (example_group_form (Some "group-0") "child"))
       (example_step (OpInsert "ann" (example_group_form None "root")) empty_db)).

Lemma example_groups_reachable : rtc (group_step example_group_uuid VNone) empty_db example_groups.
Proof.
  eapply rtc_l; [exact (GroupStep example_group_uuid VNone _ 5 (OpInsert "ann" (example_group_form None "root")))|].
  eapply rtc_l; [exact (GroupStep example_group_uuid VNone _ 5
                          (OpInsert "ann" (example_group_form (Some "group-0") "child")))|].
  eapply rtc_l; [exact (GroupStep example_group_uuid VNone _ 5 (OpAddUsers "group-1" ["bob"]))|].
  apply rtc_refl.
Defined.

Lemma hierarchy_stays_a_forest_witness :
  ¬ tc (parent_of (gs_groups example_groups)) "group-1" "group-1".
Proof.
  exact (proj1 (hierarchy_stays_a_forest example_group_uuid VNone example_groups _
                  example_groups_reachable) "group-1").
Defined.

Lemma refresh_covers_membership_changes_witness :
  user_group_memberships
    (run_op example_group_uuid VNone 6 (OpRemoveUsers "group-1" ["bob"]) example_groups).2 "eve" true =
  user_group_memberships example_groups "eve" true.
Proof.
  apply (refresh_covers_membership_changes example_group_uuid VNone example_groups 6
           (OpRemoveUsers "group-1" ["bob"]) "eve"); [apply _|exact example_groups_reachable|].
  apply (bool_decide_unpack _). vm_compute. exact I.
Defined.

Lemma delete_group_keeps_other_memberships_witness :
  ∃ g, gs_groups example_groups !! "group-0" = Some g ∧
       user_group_memberships (delete_group_by_id 6 "group-0" example_groups).2 "bob" true =
       user_group_memberships example_groups "bob" true ∖ {[ "group-0" ]}.
Proof.
  eexists. split; [vm_compute; reflexivity|].
  eapply (proj1 (proj2 (proj2 (delete_group_keeps_other_memberships example_group_uuid VNone
    example_groups 6 "group-0" _ _ example_groups_reachable ltac:(vm_compute; reflexivity)))) "bob").
  apply (bool_decide_unpack _). vm_compute. exact I.
Defined.
