(* ===== verification/Chains.v ===== *)
(** * Chains of rows: following an optional id from row to row of a table
    (parent folders, base models), guarded by the set of ids already seen. *)

From S2P Require Import Prelude.

Section Chain.
Context {A : Type} (rows : gmap string A) (next : A → option string).

(** The row [i] names the id [j]. *)
Definition names (i j : string) : Prop := ∃ a, rows !! i = Some a ∧ next a = Some j.

Lemma names_det i j k : names i j → names i k → j = k.
Proof. intros (a & Ha & Hj) (b & Hb & Hk). congruence. Qed.

(** What lies above a row that names [j], and above one that names none. *)
Lemma rtc_names i j k : names i j → rtc names i k ↔ k = i ∨ rtc names j k.
Proof.
  intros Hj. split; [|intros [->|H]; [done|by eapply rtc_l]].
  intros Hr. inversion Hr as [|? j' ? Hj' Hr']; subst; [by left|right].
  by rewrite (names_det _ _ _ Hj Hj').
Qed.

Lemma tc_names i j k : names i j → tc names i k ↔ rtc names j k.
Proof.
  intros Hj. split; [|intros H; by eapply tc_rtc_r; [apply tc_once|]].
  intros Hr. inversion Hr as [? ? Hj'|? j' ? Hj' Hr']; subst; rewrite (names_det _ _ _ Hj Hj').
  - done.
  - by apply tc_rtc.
Qed.

Lemma rtc_top i a k : rows !! i = Some a → next a = None → rtc names i k ↔ k = i.
Proof.
  intros Ha Hn. split; [|by intros ->].
  intros Hr. inversion Hr as [|? j ? (b & Hb & Hj)]; subst; [done|congruence].
Qed.

(** The ids a guarded loop visits. *)
Fixpoint walk (fuel : nat) (seen : list string) (i : option string) : list string :=
  match fuel, i with
  | S fuel, Some i =>
      if bool_decide (i ∈ seen) then []
      else i :: match rows !! i with
                | None => []
                | Some a => walk fuel (i :: seen) (next a)
                end
  | _, _ => []
  end.

Lemma seen_bound seen :
  NoDup seen → (∀ i, i ∈ seen → is_Some (rows !! i)) → length seen ≤ size rows.
Proof.
  intros Hnd Hin. rewrite <-size_dom, <-(size_list_to_set (C := gset string)) by done.
  apply subseteq_size. intros i Hi%elem_of_list_to_set. by apply elem_of_dom, Hin.
Qed.

Lemma walk_sound fuel seen i j : j ∈ walk fuel seen (Some i) → rtc names i j.
Proof.
  revert seen i. induction fuel as [|fuel IH]; intros seen i; cbn [walk]; [by intros ?%elem_of_nil|].
  case_bool_decide; [by intros ?%elem_of_nil|].
  intros [->|Hj]%elem_of_cons; [done|].
  destruct (rows !! i) as [a|] eqn:Ea; [|by apply elem_of_nil in Hj].
  destruct (next a) as [k|] eqn:Ek; [|by destruct fuel; apply elem_of_nil in Hj].
  eapply rtc_l; [by exists a|]. by eapply IH.
Qed.

(** With enough fuel the ids seen and visited are closed. *)
Lemma walk_closed fuel seen i :
  NoDup seen → (∀ k, k ∈ seen → is_Some (rows !! k)) → size rows < fuel + length seen →
  (∀ k j, k ∈ seen → names k j → j ∈ seen ∨ i = Some j) →
  (∀ j, i = Some j → j ∈ seen ++ walk (S fuel) seen i) ∧
  ∀ k j, k ∈ seen ++ walk (S fuel) seen i → names k j → j ∈ seen ++ walk (S fuel) seen i.
Proof.
  revert seen i. induction fuel as [|fuel IH]; intros seen i Hnd Hrows Hfuel Hcl.
  { pose proof (seen_bound seen Hnd Hrows). cbn in Hfuel. lia. }
  destruct i as [i|]; cbn [walk].
  2:{ rewrite app_nil_r. split; [done|]. intros k j Hk Hn. by destruct (Hcl k j Hk Hn). }
  case_bool_decide as Hi.
  { rewrite app_nil_r. split; [by intros j [= <-]|]. intros k j Hk Hn.
    destruct (Hcl k j Hk Hn) as [?|[= <-]]; done. }
  destruct (rows !! i) as [a|] eqn:Ea.
  - destruct (IH (i :: seen) (next a)) as [H1 H2].
    + by constructor.
    + intros k [->|Hk]%elem_of_cons; [by eexists|auto].
    + cbn. lia.
    + intros k j [->|Hk]%elem_of_cons Hn.
      * destruct Hn as (b & Hb & Hj). right. congruence.
      * destruct (Hcl k j Hk Hn) as [?|[= <-]]; left; [by right|by left].
    + assert (Hperm : ∀ x l, x ∈ seen ++ i :: l ↔ x ∈ (i :: seen) ++ l) by set_solver.
      split; [intros j [= <-]; set_solver|]. intros k j. rewrite !Hperm. apply H2.
  - split; [intros j [= <-]; set_solver|]. intros k j Hk Hn.
    apply elem_of_app in Hk as [Hk|Hk%list_elem_of_singleton].
    + destruct (Hcl k j Hk Hn) as [?|[= <-]]; set_solver.
    + subst. destruct Hn as (b & Hb & _). congruence.
Qed.

Lemma walk_spec fuel i j :
  size rows < fuel → j ∈ walk (S fuel) [] (Some i) ↔ rtc names i j.
Proof.
  intros Hf. split; [apply walk_sound|].
  destruct (walk_closed fuel [] (Some i)) as [H1 H2];
    [constructor|by intros k ?%elem_of_nil|cbn; lia|by intros k l ?%elem_of_nil|].
  cbn [app] in *. specialize (H1 i eq_refl). revert H1 H2.
  generalize (walk (S fuel) [] (Some i)) as l. intros l H1 H2 Hr.
  induction Hr as [|i k j Hn _ IH]; eauto.
Qed.

(** A finite chain: the ids from [i] to the row that names none. *)
Inductive path : string → list string → Prop :=
| path_top i a : rows !! i = Some a → next a = None → path i [i]
| path_step i j l : names i j → path j l → path i (i :: l).

Lemma path_head i l : path i l → i ∈ l.
Proof. destruct 1; left. Qed.

Lemma path_elem i l j : path i l → j ∈ l ↔ rtc names i j.
Proof.
  induction 1 as [i a Ha Hn|i k l Hk Hp IH].
  - rewrite list_elem_of_singleton. split; [by intros ->|]. intros Hr.
    inversion Hr as [|? k ? (b & Hb & Hbk)]; subst; [done|congruence].
  - rewrite elem_of_cons, IH. split.
    + intros [->|Hr]; [done|]. by eapply rtc_l.
    + intros Hr. inversion Hr as [|? k' ? Hk' Hr']; subst; [by left|right].
      by rewrite (names_det _ _ _ Hk Hk').
Qed.

Lemma path_det i l l' : path i l → path i l' → l = l'.
Proof.
  intros Hp. revert l'. induction Hp as [i a Ha Hn|i k l Hk Hp IH]; intros l' Hp'.
  - inversion Hp' as [|? k ? (b & Hb & Hbk)]; subst; [done|congruence].
  - inversion Hp' as [? a Ha Hn|? k' ? Hk' Hp'']; subst.
    + destruct Hk as (b & Hb & Hbk). congruence.
    + f_equal. apply IH. by rewrite (names_det _ _ _ Hk Hk').
Qed.

Lemma path_suffix i l j : path i l → j ∈ l → ∃ l1 l2, l = l1 ++ l2 ∧ path j l2.
Proof.
  induction 1 as [i a Ha Hn|i k l Hk Hp IH].
  - intros ->%list_elem_of_singleton. exists [], [i]. split; [done|by econstructor].
  - intros [->|Hj]%elem_of_cons; [exists [], (i :: l); split; [done|by econstructor]|].
    destruct (IH Hj) as (l1 & l2 & -> & Hp2). by exists (i :: l1), l2.
Qed.

Lemma path_NoDup i l : path i l → NoDup l.
Proof.
  induction 1 as [i a Ha Hn|i k l Hk Hp IH]; [apply NoDup_singleton|]. constructor; [|done].
  intros Hi. destruct (path_suffix k l i Hp Hi) as (l1 & l2 & -> & Hp2).
  assert (E : i :: l1 ++ l2 = l2) by (by apply (path_det i); [eapply path_step|]).
  apply (f_equal length) in E. cbn in E. rewrite length_app in E. lia.
Qed.

Lemma path_rows i l j : path i l → j ∈ l → is_Some (rows !! j).
Proof.
  induction 1 as [i a Ha Hn|i k l (a & Ha & Hk) Hp IH].
  - intros ->%list_elem_of_singleton. eauto.
  - intros [->|Hj]%elem_of_cons; eauto.
Qed.

Lemma path_length i l : path i l → length l ≤ size rows.
Proof. intros Hp. apply seen_bound; [by eapply path_NoDup|]. intros j. by eapply path_rows. Qed.
End Chain.
