(* ===== verification/AccessControl.v ===== *)
(** * Permissions and access checks (utils/access_control): permission trees,
    in-memory grants, sharing policies, model chains and folder trees. *)

From Stdlib Require Import Ascii.
From S2P Require Import Prelude PyVal AccessGrants Groups.

(** ** Permission trees *)

(** [fill_missing_permissions], on a value of the default tree and the value
    at the same place of the tree that is filled. *)
Fixpoint fill_value (dflt cur : pyval) {struct dflt} : pyval :=
  match dflt with
  | VDict dd =>
      match cur with
      | VDict pd =>
          VDict ((fix go (dd pd : pydict) {struct dd} : pydict :=
            match dd with
            | [] => pd
            | (k, v) :: dd' =>
                go dd' (match dict_get k pd with
                        | None => dict_set k v pd
                        | Some c => dict_set k (fill_value v c) pd
                        end)
            end) dd pd)
      | _ => cur
      end
  | _ => cur
  end.

Definition fill_missing_permissions (permissions default_permissions : pydict) : pydict :=
  match fill_value (VDict default_permissions) (VDict permissions) with
  | VDict d => d
  | _ => permissions
  end.

(** [combine_permissions], on a group's value and the value at the same place
    of the combined tree; only a dict has keys to set. *)
Fixpoint combine_value (g cur : pyval) {struct g} : res pyval :=
  match g with
  | VDict gd =>
      (fix go (gd : pydict) (cur : pyval) {struct gd} : res pyval :=
        match gd with
        | [] => Ok cur
        | (k, v) :: gd' =>
            match cur with
            | VDict pd =>
                new ← (match v with
                       | VDict _ => combine_value v (dgetd pd k (VDict []))
                       | _ => Ok (match dict_get k pd with None => v | Some c => por c v end)
                       end);
                go gd' (VDict (dict_set k new pd))
            | _ => Err TypeError
            end
        end) gd cur
  | _ => Ok cur
  end.

Definition combine_permissions (permissions group_permissions : pydict) : res pydict :=
  v ← combine_value (VDict group_permissions) (VDict permissions); as_dict v.

(** The inner [get_permission] of [has_permission]. *)
Fixpoint get_permission (permissions : pyval) (keys : list string) : res bool :=
  match keys with
  | [] => Ok (truthy permissions)
  | k :: keys' =>
      match permissions with
      | VDict d => match dict_get k d with Some v => get_permission v keys' | None => Ok false end
      | VStr s => if Str.contains k s then Err TypeError else Ok false
      | VList l => if existsb (py_eqb (VStr k)) l then Err TypeError else Ok false
      | _ => Err TypeError
      end
  end.

Section Permissions.
(** The configured DEFAULT_USER_PERMISSIONS. *)
Context (DEFAULT_USER_PERMISSIONS : pydict).

Definition group_permissions (g : string * group) : pydict := default [] (g_permissions g.2).

(** [get_permissions] *)
Definition get_permissions (d : group_db) (user_id : string) (default_permissions : pydict)
    : res pydict :=
  foldM (λ p g, combine_permissions p (group_permissions g))
        (fill_missing_permissions default_permissions DEFAULT_USER_PERMISSIONS)
        (get_groups_by_member_id d user_id true).

(** The loop of [has_permission]. *)
Fixpoint any_group_permits (groups : list (string * group)) (keys : list string) : res bool :=
  match groups with
  | [] => Ok false
  | g :: rest =>
      b ← get_permission (VDict (group_permissions g)) keys;
      if (b : bool) then Ok true else any_group_permits rest keys
  end.

(** [has_permission] *)
Definition has_permission (d : group_db) (user_id permission_key : string)
    (default_permissions : pydict) : res bool :=
  let keys := Str.split "." permission_key in
  b ← any_group_permits (get_groups_by_member_id d user_id true) keys;
  if (b : bool) then Ok true
  else get_permission (VDict (fill_missing_permissions default_permissions DEFAULT_USER_PERMISSIONS))
                      keys.
End Permissions.

(** ** Grants kept in memory *)

(** [principal_id in user_group_ids] *)
Definition in_groups (principal_id : pyval) (group_ids : list string) : res bool :=
  match group_ids with
  | [] => Ok false
  | _ => match principal_id with
         | VStr i => Ok (bool_decide (i ∈ group_ids))
         | VList _ | VDict _ => Err TypeError
         | _ => Ok false
         end
  end.

(** [has_access] *)
Fixpoint has_access_in (user_id permission : string) (access_grants : list pyval)
    (group_ids : list string) : res bool :=
  match access_grants with
  | [] => Ok false
  | VDict grant :: rest =>
      if negb (veq_str (dget grant "permission") permission)
      then has_access_in user_id permission rest group_ids
      else
        let principal_type := dget grant "principal_type" in
        let principal_id := dget grant "principal_id" in
        if veq_str principal_type "user" && (veq_str principal_id "*" || veq_str principal_id user_id)
        then Ok true
        else
          member ← (if veq_str principal_type "group" then in_groups principal_id group_ids
                    else Ok false);
          if (member : bool) then Ok true else has_access_in user_id permission rest group_ids
  | _ :: rest => has_access_in user_id permission rest group_ids
  end.

(** What the checks read of a [UserModel]. *)
Record user := { us_id : string; us_role : string }.

Definition is_admin (u : user) : bool := String.eqb (us_role u) "admin".

(** [has_connection_access] *)
Definition has_connection_access (BYPASS_ADMIN_ACCESS_CONTROL : bool) (u : user)
    (connection : pydict) (group_ids : list string) : res bool :=
  if is_admin u && BYPASS_ADMIN_ACCESS_CONTROL then Ok true
  else
    access_grants ← vgetd (por (dget connection "config") (VDict [])) "access_grants" (VList []);
    if negb (truthy access_grants) then Ok (is_admin u)
    else grants ← viter access_grants; has_access_in (us_id u) "read" grants group_ids.

(** [migrate_access_control]: the new value of the dict. *)
Definition legacy_ids (perm_data : pyval) (key : string) : res (list pyval) :=
  v ← vgetd perm_data key (VList []); viter v.

Definition legacy_grants (access_control : pydict) (perm : string) : res (list pyval) :=
  let perm_data := dgetd access_control perm (VDict []) in
  if negb (truthy perm_data) then Ok []
  else
    groups ← legacy_ids perm_data "group_ids";
    users ← legacy_ids perm_data "user_ids";
    let entry t i := VDict [("principal_type", VStr t); ("principal_id", i); ("permission", VStr perm)] in
    Ok (map (entry "group") groups ++ map (entry "user") users).

Definition migrate_access_control (data : pydict) (ac_key grants_key : string) : res pydict :=
  if dict_has grants_key data then Ok data
  else if is_none (dget data ac_key) && negb (dict_has ac_key data) then Ok data
  else
    grants ← (match dget data ac_key with
              | VDict ac => read ← legacy_grants ac "read"; write ← legacy_grants ac "write";
                            Ok (read ++ write)
              | _ => Ok []
              end);
    Ok (dict_del ac_key (dict_set grants_key (VList grants) data)).

(** ** Sharing policies *)

(** [_SHARING_PERMISSION_KEYS], the dotted keys split in two: general sharing,
    all authenticated users, anonymous readers. *)
Definition sharing_key : Type := option (string * string).
Definition sharing_permission_keys (resource_type : string)
    : option (sharing_key * sharing_key * sharing_key) :=
  let s name : sharing_key := Some ("sharing", name) in
  match resource_type with
  | "model" => Some (s "models", s "public_models", None)
  | "knowledge" => Some (s "knowledge", s "public_knowledge", None)
  | "prompt" => Some (s "prompts", s "public_prompts", None)
  | "tool" => Some (s "tools", s "public_tools", None)
  | "skill" => Some (s "skills", s "public_skills", None)
  | "note" => Some (s "notes", s "public_notes", None)
  | "folder" => Some (s "folders", None, None)
  | "channel" => Some (None, s "public_channels", None)
  | "calendar" => Some (None, s "public_calendars", None)
  | "shared_chat" => Some (None, s "public_chats", s "open_chats")
  | _ => None
  end%string.

(** The inner [allowed]. *)
Definition sharing_allowed (permissions : pydict) (key : sharing_key) : res bool :=
  match key with
  | None => Ok false
  | Some (section, name) =>
      v ← vgetd (dgetd permissions section (VDict [])) name (VBool false); Ok (truthy v)
  end.

Definition is_public (g : ngrant) : bool :=
  String.eqb (ng_principal_type g) "user" && String.eqb (ng_principal_id g) "*".

(** [allowed_audiences] *)
Record audiences := { au_anyone : bool; au_public : bool; au_user : bool; au_group : bool }.

Definition audience_allowed (a : audiences) (g : ngrant) : bool :=
  if is_public g then au_public a
  else if String.eqb (ng_principal_type g) "anyone" then au_anyone a
  else if String.eqb (ng_principal_type g) "user" then au_user a
  else au_group a.

Definition ngrant_dict (g : ngrant) : pyval :=
  VDict [("id", VStr (ng_id g)); ("principal_type", VStr (ng_principal_type g));
         ("principal_id", VStr (ng_principal_id g)); ("permission", VStr (ng_permission g))].

Section Sharing.
Context (uuid4 : nat → string) (DEFAULT_USER_PERMISSIONS : pydict).

(** [filter_allowed_access_grants]; [n] identifiers were drawn before. *)
Definition filter_allowed_access_grants (d : group_db) (default_permissions : pydict)
    (user_id user_role : string) (access_grants : list pyval) (resource_type : string) (n : nat)
    : res (list ngrant) :=
  match sharing_permission_keys resource_type with
  | None => Err (ValueError "Unsupported sharing resource type")
  | Some (sharing, public, anyone) =>
      let normalized := (normalize_access_grants uuid4 n access_grants).1 in
      let no_anyone := if bool_decide (anyone = None)
                       then List.filter (λ g, negb (String.eqb (ng_principal_type g) "anyone")) normalized
                       else normalized in
      let grants := if bool_decide (public = None)
                    then List.filter (λ g, negb (is_public g)) no_anyone else no_anyone in
      if String.eqb user_role "admin" || bool_decide (grants = []) then Ok grants
      else
        permissions ← get_permissions DEFAULT_USER_PERMISSIONS d user_id default_permissions;
        shares ← (match sharing with None => Ok true | k => sharing_allowed permissions k end);
        if negb shares then Ok []
        else
          a1 ← sharing_allowed permissions anyone;
          a2 ← sharing_allowed permissions public;
          a3 ← sharing_allowed permissions (Some ("access_grants", "allow_users"));
          a4 ← sharing_allowed permissions (Some ("access_grants", "allow_groups"));
          Ok (List.filter (audience_allowed
                {| au_anyone := a1; au_public := a2; au_user := a3; au_group := a4 |}) grants)
  end.

(** [validate_access_grants] *)
Definition validate_access_grants (d : group_db) (default_permissions : pydict)
    (user_id user_role : string) (access_grants : list pyval) (resource_type : string) (n : nat)
    : res (list ngrant) :=
  let '(grants, n') := normalize_access_grants uuid4 n access_grants in
  allowed ← filter_allowed_access_grants d default_permissions user_id user_role
              (map ngrant_dict grants) resource_type n';
  if (length allowed =? length grants)%nat then Ok allowed
  else Err (HTTPException 403 "You do not have permission to share with the requested audience").
End Sharing.

(** ** Models and their base models *)

(** What the checks read of a model row. *)
Record model_info := { mi_id : string; mi_user_id : string; mi_base : option string }.

(** A truthy base model id. *)
Definition base_id (m : model_info) : option string :=
  match mi_base m with Some b => if Str.is_empty b then None else Some b | None => None end.

Section Models.
(** The model table and the grants. *)
Context (models : gmap string model_info) (grants : grant_db).

Definition may_read_model (user_id : string) (group_ids : list string) (m : model_info) : bool :=
  String.eqb user_id (mi_user_id m)
  || has_access user_id "model" (mi_id m) "read" group_ids grants.

(** The loop of [has_base_model_access]; every round sees a new id, so one
    round per row and one more are enough. *)
Fixpoint base_model_loop (fuel : nat) (user_id : string) (admin : bool) (group_ids : list string)
    (seen : list string) (base : option string) : bool :=
  match fuel, base with
  | S fuel, Some b =>
      if bool_decide (b ∈ seen) then true
      else
        match models !! b with
        | None => admin
        | Some m => if may_read_model user_id group_ids m
                    then base_model_loop fuel user_id admin group_ids (b :: seen) (base_id m)
                    else false
        end
  | _, _ => true
  end.

(** [has_base_model_access] *)
Definition has_base_model_access (user_id : string) (m : model_info) (user_role : string)
    (group_ids : list string) : bool :=
  base_model_loop (S (size models)) user_id (String.eqb user_role "admin") group_ids [mi_id m]
                  (base_id m).

(** [check_model_access] *)
Definition check_model_access (u : user) (m : option model_info) (bypass_filter : bool)
    (group_ids : list string) : res unit :=
  let denied := Err (HTTPException 403 "Model not found") in
  if bypass_filter then Ok tt
  else
    match m with
    | Some m =>
        if is_admin u then Ok tt
        else if negb (may_read_model (us_id u) group_ids m) then denied
        else if has_base_model_access (us_id u) m (us_role u) group_ids then Ok tt
        else denied
    | None => if is_admin u then Ok tt else denied
    end.
End Models.

(** ** Folder trees (utils/access_control/folders.py) *)

Record folder := { fo_id : string; fo_user_id : string; fo_parent : option string }.

Definition folder_parent (f : folder) : option string :=
  match fo_parent f with Some p => if Str.is_empty p then None else Some p | None => None end.

Section Folders.
(** The folder table (keyed by id), the grants, and the inherited groups of
    users. *)
Context (folders : gmap string folder) (grants : grant_db) (groups_of : string → list string).

Definition folder_granted (user_id permission : string) (f : folder) : bool :=
  String.eqb (fo_user_id f) user_id
  || has_access user_id "folder" (fo_id f) permission (groups_of user_id) grants.

(** The loop of [has_folder_access]. *)
Fixpoint folder_loop (fuel : nat) (user_id permission : string) (seen : list string)
    (current : option folder) : bool :=
  match fuel, current with
  | S fuel, Some f =>
      if bool_decide (fo_id f ∈ seen) then false
      else if folder_granted user_id permission f then true
      else folder_loop fuel user_id permission (fo_id f :: seen)
             (p ← folder_parent f; folders !! p)
  | _, _ => false
  end.

(** [has_folder_access] *)
Definition has_folder_access (user_id : string) (f : folder) (permission : string) : bool :=
  folder_loop (S (S (size folders))) user_id permission [] (Some f).

(** [has_folder_write_access] *)
Definition has_folder_write_access (user_id folder_id : string) : bool :=
  match folders !! folder_id with
  | None => false
  | Some f => has_folder_access user_id f "write"
  end.

(** The inner [get_owned_folder_root_id]. *)
Fixpoint owned_root_loop (fuel : nat) (user_id : string) (seen : list string)
    (shared_root : option string) (folder_id : option string) : option string :=
  match fuel, folder_id with
  | S fuel, Some i =>
      if bool_decide (i ∈ seen) then None
      else
        match folders !! i with
        | None => None
        | Some f =>
            if negb (String.eqb (fo_user_id f) user_id) then None
            else
              let shared := match get_grants_by_resource "folder" (fo_id f) grants with
                            | [] => shared_root
                            | _ => Some (fo_id f)
                            end in
              match folder_parent f with
              | None => Some (default (fo_id f) shared)
              | Some p => owned_root_loop fuel user_id (i :: seen) shared (Some p)
              end
        end
  | _, _ => None
  end.

Definition nonempty (s : option string) : option string :=
  match s with Some i => if Str.is_empty i then None else Some i | None => None end.

Definition get_owned_folder_root_id (user_id : string) (folder_id : option string) : option string :=
  owned_root_loop (S (size folders)) user_id [] None (nonempty folder_id).

(** [has_chat_move_access] *)
Definition has_chat_move_access (user_id : string) (source target : option string) : bool :=
  match get_owned_folder_root_id user_id source with
  | None => false
  | Some r => bool_decide (get_owned_folder_root_id user_id target = Some r)
  end.
End Folders.
