(* ===== verification/AccessControlProps.v ===== *)
(** * Properties of the access checks: the two readings of permission trees,
    sharing policies, grants kept in memory, model chains and folder trees. *)

From Stdlib Require Import Ascii.
From S2P Require Import Prelude PyVal Chains AccessGrants AccessGrantsProps Groups AccessControl.

(** ** Permission trees of sections with boolean flags *)

Definition flag (d : pydict) (section name : string) : option bool :=
  match dict_get section d with
  | Some (VDict sd) => match dict_get name sd with Some (VBool b) => Some b | _ => None end
  | _ => None
  end.

Definition flag_section (sd : pydict) : Prop := ∀ k w, dict_get k sd = Some w → ∃ b, w = VBool b.
Definition flags (d : pydict) : Prop :=
  ∀ k v, dict_get k d = Some v → ∃ sd, v = VDict sd ∧ flag_section sd.

(** The same with distinct keys, as every Python dict has. *)
Definition flag_tree (d : pydict) : Prop :=
  flags d ∧ NoDup (dict_keys d) ∧ ∀ k sd, dict_get k d = Some (VDict sd) → NoDup (dict_keys sd).

Lemma fill_lookup dd pd : NoDup (dict_keys dd) →
  ∃ pd', fill_value (VDict dd) (VDict pd) = VDict pd' ∧
    ∀ k, dict_get k pd' = match dict_get k dd, dict_get k pd with
                          | None, c => c
                          | Some v, None => Some v
                          | Some v, Some c => Some (fill_value v c)
                          end.
Proof.
  revert pd. induction dd as [|[k v] dd IH]; intros pd Hnd.
  - exists pd. split; [done|]. intros k. cbn. by destruct (dict_get k pd).
  - apply NoDup_cons in Hnd as [Hk Hnd].
    destruct (IH (match dict_get k pd with None => dict_set k v pd
                  | Some c => dict_set k (fill_value v c) pd end) Hnd) as (pd' & E & Hl).
    exists pd'. split; [exact E|]. intros x. rewrite Hl. cbn [dict_get].
    destruct (String.eqb_spec x k) as [->|Hne].
    + replace (dict_get k dd) with (@None pyval) by (symmetry; by apply dict_get_None).
      destruct (dict_get k pd); by rewrite dict_get_set_eq.
    + by destruct (dict_get k pd); rewrite dict_get_set_ne.
Qed.

Definition combine_entry (v : pyval) (old : option pyval) : res pyval :=
  match v with
  | VDict _ => combine_value v (default (VDict []) old)
  | _ => Ok (match old with None => v | Some c => por c v end)
  end.

Lemma combine_lookup gd pd : NoDup (dict_keys gd) →
  (∀ k v, dict_get k gd = Some v → is_ok (combine_entry v (dict_get k pd)) = true) →
  ∃ pd', combine_value (VDict gd) (VDict pd) = Ok (VDict pd') ∧
    ∀ k, match dict_get k gd with
         | None => dict_get k pd' = dict_get k pd
         | Some v => ∃ w, combine_entry v (dict_get k pd) = Ok w ∧ dict_get k pd' = Some w
         end.
Proof.
  revert pd. induction gd as [|[k v] gd IH]; intros pd Hnd Hok.
  { exists pd. by split. }
  apply NoDup_cons in Hnd as [Hk Hnd].
  pose proof (Hok k v) as Hv. cbn [dict_get] in Hv. rewrite String.eqb_refl in Hv.
  specialize (Hv eq_refl). destruct (combine_entry v (dict_get k pd)) as [w|e] eqn:Ew; [|done].
  assert (Hother : ∀ x u, dict_get x gd = Some u → x ≠ k).
  { intros x u Hx ->. apply Hk. by eapply dict_get_Some_key. }
  destruct (IH (dict_set k w pd) Hnd) as (pd' & E & Hl).
  { intros x u Hx. pose proof (Hother x u Hx) as Hne. rewrite dict_get_set_ne by done.
    apply Hok. cbn. apply String.eqb_neq in Hne. by rewrite Hne. }
  exists pd'. split.
  - change (combine_value (VDict ((k, v) :: gd)) (VDict pd)) with
      (new ← combine_entry v (dict_get k pd); combine_value (VDict gd) (VDict (dict_set k new pd))).
    by rewrite Ew.
  - intros x. cbn [dict_get]. destruct (String.eqb_spec x k) as [->|Hne].
    + exists w. split; [done|]. specialize (Hl k).
      rewrite (proj2 (dict_get_None k gd)) in Hl by done. by rewrite Hl, dict_get_set_eq.
    + specialize (Hl x). by rewrite dict_get_set_ne in Hl by done.
Qed.

(** A section with flags, filled and combined. *)
Lemma fill_section sd pd : NoDup (dict_keys sd) → flag_section sd → flag_section pd →
  ∃ pd', fill_value (VDict sd) (VDict pd) = VDict pd' ∧ flag_section pd' ∧
    ∀ n, dict_get n pd' = match dict_get n pd with Some c => Some c | None => dict_get n sd end.
Proof.
  intros Hnd Hs Hp. destruct (fill_lookup sd pd Hnd) as (pd' & E & Hl).
  assert (Hl' : ∀ n, dict_get n pd' = match dict_get n pd with Some c => Some c | None => dict_get n sd end).
  { intros n. rewrite Hl. destruct (dict_get n sd) as [v|] eqn:Es, (dict_get n pd) as [c|] eqn:Ep; try done.
    by destruct (Hs _ _ Es) as [b ->]. }
  exists pd'. split_and!; [done| |done]. intros n w. rewrite Hl'.
  destruct (dict_get n pd) eqn:Ep; [intros [= <-]; eauto|eauto].
Qed.

Lemma combine_section sd pd : NoDup (dict_keys sd) → flag_section sd → flag_section pd →
  ∃ pd', combine_value (VDict sd) (VDict pd) = Ok (VDict pd') ∧ flag_section pd' ∧
    ∀ n, dict_get n pd' = match dict_get n sd, dict_get n pd with
                          | Some v, Some c => Some (por c v)
                          | Some v, None => Some v
                          | None, c => c
                          end.
Proof.
  intros Hnd Hs Hp. destruct (combine_lookup sd pd Hnd) as (pd' & E & Hl).
  { intros k v Hk. by destruct (Hs _ _ Hk) as [b ->]. }
  assert (Hl' : ∀ n, dict_get n pd' = match dict_get n sd, dict_get n pd with
      | Some v, Some c => Some (por c v) | Some v, None => Some v | None, c => c end).
  { intros n. specialize (Hl n). destruct (dict_get n sd) as [v|] eqn:Es; [|by destruct (dict_get n pd)].
    destruct Hl as (w & Ew & ->). destruct (Hs _ _ Es) as [b ->]. cbn in Ew.
    by destruct (dict_get n pd); injection Ew as <-. }
  exists pd'. split_and!; [done| |done]. intros n w. rewrite Hl'.
  destruct (dict_get n sd) as [v|] eqn:Es, (dict_get n pd) as [c|] eqn:Ep; intros [= <-]; eauto.
  destruct (Hs _ _ Es) as [b ->], (Hp _ _ Ep) as [b' ->]. destruct b'; cbn; eauto.
Qed.

(** What filling and combining do to the flags of a tree. *)
Lemma fill_flags p dflt : flags p → flag_tree dflt →
  flags (fill_missing_permissions p dflt) ∧
  ∀ s n, flag (fill_missing_permissions p dflt) s n =
           match flag p s n with Some b => Some b | None => flag dflt s n end.
Proof.
  intros Hp (Hf & Hnd & Hsnd). unfold fill_missing_permissions.
  destruct (fill_lookup dflt p Hnd) as (p' & -> & Hl).
  assert (Hsec : ∀ s, match dict_get s dflt, dict_get s p with
    | None, c => dict_get s p' = c
    | Some v, None => dict_get s p' = Some v
    | Some v, Some c => ∃ sd pd sd', v = VDict sd ∧ c = VDict pd ∧ dict_get s p' = Some (VDict sd') ∧
        flag_section sd' ∧ flag_section sd ∧ flag_section pd ∧
        ∀ n, dict_get n sd' = match dict_get n pd with Some c => Some c | None => dict_get n sd end
    end).
  { intros s. specialize (Hl s).
    destruct (dict_get s dflt) as [v|] eqn:Ed, (dict_get s p) as [c|] eqn:Ep; try done.
    destruct (Hf _ _ Ed) as (sd & -> & Hs), (Hp _ _ Ep) as (pd & -> & Hps).
    destruct (fill_section sd pd) as (sd' & E & Hs' & Hn); [by eapply Hsnd|done|done|].
    rewrite E in Hl. by eexists _, _, _. }
  split.
  - intros s v Hv. specialize (Hsec s).
    destruct (dict_get s dflt) as [w|] eqn:Ed, (dict_get s p) as [c|] eqn:Ep.
    + destruct Hsec as (sd & pd & sd' & -> & -> & E & Hs & _). rewrite E in Hv. injection Hv as <-. eauto.
    + rewrite Hsec in Hv. injection Hv as <-. eauto.
    + rewrite Hsec in Hv. injection Hv as <-. eauto.
    + congruence.
  - intros s n. specialize (Hsec s). unfold flag.
    destruct (dict_get s dflt) as [w|] eqn:Ed, (dict_get s p) as [c|] eqn:Ep.
    + destruct Hsec as (sd & pd & sd' & -> & -> & -> & _ & _ & Hpd & Hn). rewrite Hn.
      destruct (dict_get n pd) as [x|] eqn:Ex; [|done]. by destruct (Hpd _ _ Ex) as [b ->].
    + by rewrite Hsec.
    + rewrite Hsec. by destruct (Hp _ _ Ep) as (pd & -> & _); destruct (dict_get n pd) as [[]|].
    + by rewrite Hsec.
Qed.

Lemma combine_flags p g : flags p → flag_tree g →
  ∃ p', combine_permissions p g = Ok p' ∧ flags p' ∧
    ∀ s n, flag p' s n = match flag g s n, flag p s n with
                         | Some v, Some c => Some (c || v)
                         | Some v, None => Some v
                         | None, c => c
                         end.
Proof.
  intros Hp (Hf & Hnd & Hsnd).
  assert (Hentry : ∀ s v, dict_get s g = Some v → ∃ sd sd', v = VDict sd ∧ flag_section sd' ∧
    combine_entry v (dict_get s p) = Ok (VDict sd') ∧
    ∀ n, dict_get n sd' = match dict_get n sd, match dict_get s p with Some (VDict pd) => dict_get n pd
                                               | _ => None end with
                          | Some v, Some c => Some (por c v) | Some v, None => Some v | None, c => c end).
  { intros s v Hs. destruct (Hf _ _ Hs) as (sd & -> & Hsd). cbn [combine_entry].
    destruct (dict_get s p) as [c|] eqn:Ep.
    - destruct (Hp _ _ Ep) as (pd & -> & Hpd).
      destruct (combine_section sd pd) as (sd' & ? & ? & ?); [by eapply Hsnd|done|done|]. eauto 7.
    - destruct (combine_section sd []) as (sd' & ? & ? & ?); [by eapply Hsnd|done|by intros ??|]. eauto 7. }
  destruct (combine_lookup g p Hnd) as (p' & E & Hl).
  { intros s v Hs. by destruct (Hentry s v Hs) as (? & ? & _ & _ & -> & _). }
  exists p'. unfold combine_permissions. rewrite E. split_and!; [done| |].
  - intros s v Hv. specialize (Hl s). destruct (dict_get s g) as [w|] eqn:Eg.
    + destruct Hl as (x & Ex & Hx). destruct (Hentry _ _ Eg) as (sd & sd' & _ & Hsd & E' & _).
      rewrite Ex in E'. injection E' as ->. rewrite Hx in Hv. injection Hv as <-. eauto.
    + rewrite Hl in Hv. eauto.
  - intros s n. specialize (Hl s). unfold flag. destruct (dict_get s g) as [w|] eqn:Eg; [|by rewrite Hl].
    destruct Hl as (x & Ex & ->). destruct (Hentry _ _ Eg) as (sd & sd' & -> & Hsd & E' & Hn).
    rewrite Ex in E'. injection E' as ->. rewrite Hn.
    destruct (Hf _ _ Eg) as (sd0 & [= <-] & Hsd0).
    destruct (dict_get n sd) as [v|] eqn:Ev; [destruct (Hsd0 _ _ Ev) as [b ->]|];
      (destruct (dict_get s p) as [c|] eqn:Ep; [destruct (Hp _ _ Ep) as (pd & -> & Hpd)|done]);
      (destruct (dict_get n pd) as [c|] eqn:Ec; [destruct (Hpd _ _ Ec) as [b' ->]|done]); [|done].
    by destruct b'.
Qed.

Lemma combine_groups_flags (groups : list (string * group)) p :
  flags p → (∀ g, g ∈ groups → flag_tree (group_permissions g)) →
  ∃ p', foldM (λ p g, combine_permissions p (group_permissions g)) p groups = Ok p' ∧ flags p' ∧
    ∀ s n, flag p' s n = Some true ↔
      flag p s n = Some true ∨ ∃ g, g ∈ groups ∧ flag (group_permissions g) s n = Some true.
Proof.
  revert p. induction groups as [|g groups IH]; intros p Hp Hg.
  - exists p. split_and!; [done|done|]. intros s n.
    split; [auto|by intros [?|(g & ?%elem_of_nil & _)]].
  - destruct (combine_flags p (group_permissions g)) as (p1 & E1 & Hp1 & H1); [done|apply Hg; left|].
    destruct (IH p1 Hp1) as (p' & E & Hp' & H'); [intros h Hh; apply Hg; by right|].
    exists p'. split_and!; [cbn [foldM]; rewrite E1; exact E|done|]. intros s n. rewrite H', H1.
    setoid_rewrite elem_of_cons. split.
    + intros [H|(h & Hh & Hf)]; [|eauto 6].
      destruct (flag (group_permissions g) s n) as [[]|] eqn:Eg; [eauto 6| |auto].
      destruct (flag p s n) as [[]|]; auto; done.
    + intros [->|(h & [->|Hh] & Hf)]; [left| |eauto].
      * by destruct (flag (group_permissions g) s n) as [[]|].
      * left. rewrite Hf. by destruct (flag p s n) as [[]|].
Qed.

Lemma get_permission_flag p s n : flags p →
  get_permission (VDict p) [s; n] = Ok (default false (flag p s n)).
Proof.
  intros Hp. cbn. unfold flag. destruct (dict_get s p) as [v|] eqn:Es; [|done].
  destruct (Hp _ _ Es) as (sd & -> & Hs). destruct (dict_get n sd) as [w|] eqn:En; [|done].
  by destruct (Hs _ _ En) as [b ->].
Qed.

Lemma any_group_permits_flags groups s n : (∀ g, g ∈ groups → flag_tree (group_permissions g)) →
  any_group_permits groups [s; n] =
    Ok (existsb (λ g, default false (flag (group_permissions g) s n)) groups).
Proof.
  induction groups as [|g groups IH]; cbn [any_group_permits existsb]; intros Hg; [done|].
  rewrite get_permission_flag by (apply Hg; left). cbn.
  destruct (default false (flag (group_permissions g) s n)); [done|].
  apply IH. intros h Hh. apply Hg. by right.
Qed.

Lemma default_true (o : option bool) : default false o = true ↔ o = Some true.
Proof. by destruct o as [[]|]. Qed.

Definition no_dot (s : string) : bool := Str.sforallb (λ c, negb (Ascii.eqb "." c)) s.

Section PermissionTrees.
Context (DEFAULT : pydict) (d : group_db) (user_id : string) (defaults : pydict).
Context (HDEFAULT : flag_tree DEFAULT) (Hdefaults : flags defaults).
Context (Hgroups : ∀ g, g ∈ get_groups_by_member_id d user_id true → flag_tree (group_permissions g)).

(** A flag is on for the user: in a group, or in the filled defaults. *)
Definition permits (s n : string) : Prop :=
  (∃ g, g ∈ get_groups_by_member_id d user_id true ∧ flag (group_permissions g) s n = Some true) ∨
  flag defaults s n = Some true ∨ (flag defaults s n = None ∧ flag DEFAULT s n = Some true).

Lemma filled_flag s n :
  flag (fill_missing_permissions defaults DEFAULT) s n = Some true ↔
  flag defaults s n = Some true ∨ (flag defaults s n = None ∧ flag DEFAULT s n = Some true).
Proof.
  destruct (fill_flags defaults DEFAULT Hdefaults HDEFAULT) as [_ ->].
  destruct (flag defaults s n) as [[]|]; naive_solver.
Qed.

Lemma get_permissions_flags :
  ∃ p, get_permissions DEFAULT d user_id defaults = Ok p ∧ flags p ∧
    ∀ s n, flag p s n = Some true ↔ permits s n.
Proof.
  destruct (fill_flags defaults DEFAULT Hdefaults HDEFAULT) as [Hf _].
  destruct (combine_groups_flags _ _ Hf Hgroups) as (p & E & Hp & Hl).
  exists p. split_and!; [exact E|done|]. intros s n. rewrite Hl, filled_flag. unfold permits. tauto.
Qed.

Lemma has_permission_flags s n : no_dot s = true → no_dot n = true →
  ∃ b, has_permission DEFAULT d user_id (s +:+ "." +:+ n) defaults = Ok b ∧ (b = true ↔ permits s n).
Proof.
  intros Hs Hn. unfold has_permission. change ("." +:+ n) with (String "." n).
  rewrite Str.split_app_sep, !Str.split_no_sep by done. cbn [app].
  rewrite any_group_permits_flags by done. cbn [mbind res_bind].
  destruct (fill_flags defaults DEFAULT Hdefaults HDEFAULT) as [Hf _].
  rewrite get_permission_flag by done. unfold permits.
  destruct (existsb _ _) eqn:Ex; (eexists; split; [reflexivity|]).
  - apply existsb_True in Ex as (g & Hg & Hb%default_true). split; [eauto|done].
  - rewrite default_true, filled_flag. split; [auto|]. intros [(g & Hg & Hb)|?]; [|done].
    rewrite existsb_False in Ex. specialize (Ex g Hg). rewrite Hb in Ex. done.
Qed.
End PermissionTrees.

(** ** Sharing policies *)

Lemma put_grant_new g l : norm_key g ∉ map norm_key l → put_grant g l = l ++ [g].
Proof.
  induction l as [|h l IH]; cbn [put_grant map app]; intros Hg; [done|].
  destruct (same_key h g) eqn:E.
  - apply same_key_true in E. exfalso. apply Hg. rewrite E. left.
  - rewrite IH; [done|]. intros Hin. apply Hg. by right.
Qed.

Section Renormalize.
Context (uuid4 : nat → string).

Definition clean (g : ngrant) : Prop :=
  valid_key (ng_principal_type g) (ng_principal_id g) (ng_permission g) = true ∧ ng_id g ≠ EmptyString.

Lemma renormalize_step acc g : clean g → norm_key g ∉ map norm_key acc.1 →
  normalize_step uuid4 acc (ngrant_dict g) = (acc.1 ++ [g], acc.2).
Proof.
  intros [Hv Hid] Hk. unfold normalize_step, grant_key, ngrant_dict, dget. cbn -[valid_key].
  rewrite Hv. unfold field, dget. cbn. destruct g as [id t i p]. cbn in *.
  destruct id; [done|]. cbn. by rewrite put_grant_new.
Qed.

Lemma renormalize l n : NoDup (map norm_key l) → Forall clean l →
  normalize_access_grants uuid4 n (map ngrant_dict l) = (l, n).
Proof.
  intros Hnd Hc. unfold normalize_access_grants.
  assert (H : ∀ acc, NoDup (map norm_key (acc ++ l)) →
    foldl (normalize_step uuid4) (acc, n) (map ngrant_dict l) = (acc ++ l, n)); [|by apply (H [])].
  clear Hnd. induction Hc as [|g l Hg _ IH]; intros acc Hnd; cbn [map foldl]; [by rewrite app_nil_r|].
  rewrite renormalize_step; [|done|].
  - cbn [fst snd]. rewrite IH; rewrite <-app_assoc; done.
  - cbn [fst]. rewrite map_app in Hnd. apply NoDup_app in Hnd as (_ & Hd & _).
    intros Hin. apply (Hd _ Hin). left.
Qed.

Lemma normalize_clean n l : (∀ k, uuid4 k ≠ EmptyString) →
  Forall clean (normalize_access_grants uuid4 n l).1.
Proof.
  intros Hu. unfold normalize_access_grants.
  assert (H : ∀ acc, Forall clean acc.1 → Forall clean (foldl (normalize_step uuid4) acc l).1);
    [|apply H; constructor].
  induction l as [|v l IH]; intros acc Hacc; [done|]. cbn. apply IH. unfold normalize_step.
  destruct (grant_key v) as [[[t i] p]|] eqn:Ek; [|done].
  assert (Hput : ∀ id, id ≠ EmptyString → Forall clean (put_grant
    {| ng_id := id; ng_principal_type := t; ng_principal_id := i; ng_permission := p |} acc.1)).
  { intros id Hid. assert (Hc : clean {| ng_id := id; ng_principal_type := t; ng_principal_id := i; ng_permission := p |}).
    { split; [|done]. unfold grant_key in Ek. repeat case_hyp Ek; try done. by injection Ek as -> -> ->. }
    induction Hacc as [|h hs Hh Hhs IHh]; cbn; [by constructor|].
    destruct (same_key h _); by constructor. }
  destruct (match field v "id" with VStr s => _ | _ => _ end) as [s|] eqn:Eg; apply Hput; [|done].
  intros ->. by destruct (field v "id") as [| | | |[|]| |].
Qed.
End Renormalize.

Lemma filter_filter_eq {A} (f g : A → bool) l :
  List.filter f (List.filter g l) = List.filter (λ a, g a && f a) l.
Proof.
  induction l as [|a l IH]; cbn; [done|]. destruct (g a); cbn; [|done].
  destruct (f a); by rewrite IH.
Qed.

Lemma filter_length_full {A} (f : A → bool) l :
  length (List.filter f l) = length l ↔ ∀ a, a ∈ l → f a = true.
Proof.
  split; [|by intros H; rewrite filter_id].
  induction l as [|a l IH]; cbn; [by intros _ a ?%elem_of_nil|].
  pose proof (List.filter_length_le f l). destruct (f a) eqn:Ha; cbn; intros Hl; [|lia].
  intros b [->|Hb]%elem_of_cons; [done|]. apply IH; [lia|done].
Qed.

(** The audiences a resource type has at all, and the flag each one needs. *)
Definition supported (public anyone : sharing_key) (g : ngrant) : bool :=
  (negb (bool_decide (anyone = None)) || negb (String.eqb (ng_principal_type g) "anyone"))
  && (negb (bool_decide (public = None)) || negb (is_public g)).

Definition audience_key (public anyone : sharing_key) (g : ngrant) : sharing_key :=
  if is_public g then public
  else if String.eqb (ng_principal_type g) "anyone" then anyone
  else if String.eqb (ng_principal_type g) "user" then Some ("access_grants", "allow_users")
  else Some ("access_grants", "allow_groups").

Definition key_flag (permissions : pydict) (key : sharing_key) : bool :=
  match key with None => false | Some (s, n) => default false (flag permissions s n) end.

Lemma sharing_allowed_flag p key : flags p → sharing_allowed p key = Ok (key_flag p key).
Proof.
  intros Hp. destruct key as [[s n]|]; [|done]. unfold sharing_allowed, dgetd, flag, key_flag, flag.
  destruct (dict_get s p) as [v|] eqn:Es; [|done].
  destruct (Hp _ _ Es) as (sd & -> & Hs). cbn. unfold dgetd.
  destruct (dict_get n sd) as [w|] eqn:En; [|done]. by destruct (Hs _ _ En) as [b ->].
Qed.

Section Sharing.
Context (uuid4 : nat → string) (DEFAULT : pydict) (d : group_db) (defaults : pydict).
Context (user_id role : string) (permissions : pydict).
Context (Hget : get_permissions DEFAULT d user_id defaults = Ok permissions) (Hp : flags permissions).

Definition share_flag (sharing : sharing_key) : bool :=
  match sharing with None => true | Some k => key_flag permissions (Some k) end.

Definition shared_with (sharing public anyone : sharing_key) (grants : list ngrant) : list ngrant :=
  if String.eqb role "admin" then grants
  else if share_flag sharing
  then List.filter (λ g, key_flag permissions (audience_key public anyone g)) grants
  else [].

Lemma filter_allowed_spec raw rt sharing public anyone n :
  sharing_permission_keys rt = Some (sharing, public, anyone) →
  filter_allowed_access_grants uuid4 DEFAULT d defaults user_id role raw rt n =
    Ok (shared_with sharing public anyone
          (List.filter (supported public anyone) (normalize_access_grants uuid4 n raw).1)).
Proof.
  intros Hk. unfold filter_allowed_access_grants. rewrite Hk, Hget.
  set (norm := (normalize_access_grants uuid4 n raw).1).
  assert (E : (let no_anyone := if bool_decide (anyone = None)
      then List.filter (λ g, negb (String.eqb (ng_principal_type g) "anyone")) norm else norm in
    if bool_decide (public = None) then List.filter (λ g, negb (is_public g)) no_anyone else no_anyone)
    = List.filter (supported public anyone) norm).
  { unfold supported. do 2 case_bool_decide; cbn zeta; rewrite ?filter_filter_eq; cbn; try done;
      try (by apply List.filter_ext; intros g; rewrite ?andb_true_r); by rewrite filter_id. }
  cbn zeta in E. rewrite E. generalize (List.filter (supported public anyone) norm). intros grants.
  unfold shared_with. destruct (String.eqb role "admin"); [done|]. cbn [orb].
  destruct (bool_decide_reflect (grants = [])) as [->|_]; [by destruct (share_flag sharing)|].
  cbn [mbind res_bind].
  replace (match sharing with None => Ok true | k => sharing_allowed permissions k end)
    with (Ok (share_flag sharing)).
  2:{ destruct sharing; [|done]. by rewrite sharing_allowed_flag. }
  cbn [mbind res_bind]. destruct (share_flag sharing); [cbn [negb]|done].
  rewrite !sharing_allowed_flag by done. cbn [mbind res_bind]. f_equal.
  apply List.filter_ext. intros g. unfold audience_allowed, audience_key.
  destruct (is_public g); [done|]. by repeat case_goal.
Qed.

(** Every grant goes to an audience the type has and the user may use. *)
Definition may_share (sharing public anyone : sharing_key) (l : list ngrant) : Prop :=
  (∀ g, g ∈ l → supported public anyone g = true) ∧
  (role = "admin" ∨ l = [] ∨
   ((sharing = None ∨ key_flag permissions sharing = true) ∧
    ∀ g, g ∈ l → key_flag permissions (audience_key public anyone g) = true)).

Lemma shared_with_full sharing public anyone l :
  length (shared_with sharing public anyone (List.filter (supported public anyone) l)) = length l ↔
  may_share sharing public anyone l.
Proof.
  pose proof (List.filter_length_le (supported public anyone) l) as Hle.
  unfold shared_with, may_share. destruct (String.eqb_spec role "admin") as [->|Hrole].
  { rewrite filter_length_full. naive_solver. }
  destruct (share_flag sharing) eqn:Es.
  - rewrite filter_filter_eq, filter_length_full. split.
    + intros H. split; [intros g Hg; by destruct (andb_prop _ _ (H g Hg))|]. right; right.
      split; [|intros g Hg; by destruct (andb_prop _ _ (H g Hg))].
      destruct sharing; auto.
    + intros [Hs [?|[->|[_ Ha]]]]; [done|by intros g ?%elem_of_nil|]. intros g Hg. by rewrite Hs, Ha.
  - split.
    + cbn. destruct l; [|done]. intros _. split; [by intros g ?%elem_of_nil|auto].
    + intros [_ [?|[->|[[->|Hs] _]]]]; [done|done|done|]. destruct sharing; [|done]. unfold share_flag in Es. congruence.
Qed.

Lemma shared_with_all sharing public anyone l :
  may_share sharing public anyone l →
  shared_with sharing public anyone (List.filter (supported public anyone) l) = l.
Proof.
  intros H%shared_with_full.
  assert (Hgen : ∀ f : ngrant → bool, length (List.filter f l) = length l → List.filter f l = l).
  { intros f Hf. apply filter_id. by apply filter_length_full. }
  unfold shared_with in *. destruct (String.eqb role "admin"); [by apply Hgen|].
  destruct (share_flag sharing).
  - rewrite filter_filter_eq in *. by apply Hgen.
  - by destruct l.
Qed.
End Sharing.

(** ** Grants kept in memory *)

Lemma matches_principal_true user gs t i :
  matches_principal user gs t i = true ↔
  (t = "user" ∧ (i = "*" ∨ i = user)) ∨ (t = "group" ∧ i ∈ gs).
Proof.
  unfold matches_principal.
  by rewrite orb_true_iff, !andb_true_iff, orb_true_iff, !String.eqb_eq, bool_decide_eq_true.
Qed.

Definition grants_it (user permission : string) (gs : list string) (v : pyval) : Prop :=
  ∃ t i, field v "principal_type" = VStr t ∧ field v "principal_id" = VStr i ∧
    field v "permission" = VStr permission ∧ matches_principal user gs t i = true.

(** One entry, with the rest of the list. *)
Lemma has_access_in_cons user p gs v rest b :
  has_access_in user p (v :: rest) gs = Ok b →
  (grants_it user p gs v ∧ b = true) ∨ (¬ grants_it user p gs v ∧ has_access_in user p rest gs = Ok b).
Proof.
  assert (Hno : ∀ v, (∀ grant, v ≠ VDict grant) → ¬ grants_it user p gs v).
  { intros w Hw (t & i & Ht & _). by destruct w as [| | | | | |grant]; try done; destruct (Hw grant). }
  destruct v as [| | | | | |grant]; try (intros H; right; split; [by apply Hno|exact H]).
  cbn [has_access_in]. destruct (veq_str (dget grant "permission") p) eqn:Ep; cbn [negb].
  2:{ intros H. right. split; [|done]. intros (t & i & _ & _ & Hp & _). cbn [field] in Hp.
      rewrite Hp in Ep. cbn in Ep. by rewrite String.eqb_refl in Ep. }
  apply veq_str_true in Ep.
  destruct (_ && _) eqn:Eu.
  - intros [= <-]. left. split; [|done]. apply andb_true_iff in Eu as [Ht%veq_str_true Hi].
    apply orb_true_iff in Hi as [Hi%veq_str_true|Hi%veq_str_true];
      (eexists _, _; split_and!; [exact Ht|exact Hi|exact Ep|apply matches_principal_true; auto]).
  - destruct (veq_str (dget grant "principal_type") "group") eqn:Eg.
    + apply veq_str_true in Eg. unfold in_groups. destruct gs as [|g0 gs].
      { intros H. right. split; [|done]. intros (t & i & Ht & _ & _ & Hm). cbn [field] in Ht.
        rewrite Eg in Ht. injection Ht as <-. apply matches_principal_true in Hm as [[? _]|[_ ?%elem_of_nil]]; done. }
      destruct (dget grant "principal_id") as [| | | |i| |] eqn:Ei; cbn [mbind res_bind]; try done;
        try (intros H; right; split; [|exact H]; intros (t & j & _ & Hj & _); cbn [field] in Hj; congruence).
      case_bool_decide as Hin; intros H.
      * injection H as <-. left. split; [|done]. exists "group", i. split_and!; [done|done|done|].
        apply matches_principal_true. auto.
      * right. split; [|done]. intros (t & j & Ht & Hj & _ & Hm). cbn [field] in Ht, Hj.
        rewrite Eg in Ht. rewrite Ei in Hj. injection Ht as <-. injection Hj as <-.
        apply matches_principal_true in Hm as [[? _]|[_ ?]]; done.
    + cbn [mbind res_bind]. intros H. right. split; [|done]. intros (t & i & Ht & Hi & _ & Hm).
      cbn [field] in Ht, Hi. rewrite Ht in Eu, Eg. rewrite Hi in Eu.
      apply matches_principal_true in Hm as [[-> [->| ->]]|[-> _]]; [done| |done].
      cbn in Eu. by rewrite String.eqb_refl, orb_true_r in Eu.
Qed.

Lemma has_access_in_spec user p gs l b :
  has_access_in user p l gs = Ok b → (b = true ↔ ∃ v, v ∈ l ∧ grants_it user p gs v).
Proof.
  induction l as [|v l IH]; intros H.
  - injection H as <-. split; [done|]. by intros (v & ?%elem_of_nil & _).
  - setoid_rewrite elem_of_cons. apply has_access_in_cons in H as [[Hv ->]|[Hv H]].
    + split; eauto.
    + rewrite (IH H). split; [naive_solver|]. intros (w & [->|Hw] & Hg); [done|eauto].
Qed.

(** For a real user, a known permission and real groups, an entry grants in
    memory exactly when it is valid and grants in the table. *)
Lemma grants_it_key user p gs v :
  user ≠ EmptyString → EmptyString ∉ gs → p = "read" ∨ p = "write" →
  grants_it user p gs v ↔
  ∃ t i, grant_key v = Some (t, i, p) ∧ matches_principal user gs t i = true.
Proof.
  intros Hu Hgs Hp. split.
  - intros (t & i & Ht & Hi & Hpv & Hm). exists t, i. split; [|done].
    destruct v as [| | | | | |grant]; try done. cbn [field] in *. unfold grant_key. rewrite Ht, Hi, Hpv.
    replace (valid_key t i p) with true; [done|]. symmetry. apply matches_principal_true in Hm.
    assert (Hi' : Str.is_empty i = false).
    { destruct i; [|done]. destruct Hm as [[_ [?|?]]|[_ ?]]; [done|by subst|done]. }
    unfold valid_key. rewrite Hi'. destruct Hm as [[-> _]|[-> _]], Hp as [-> | ->]; done.
  - intros (t & i & Hk & Hm). unfold grant_key in Hk. destruct v as [| | | | | |grant]; try done.
    repeat case_hyp Hk; try done. injection Hk as -> -> ->. exists t, i. by split_and!.
Qed.

(** ** Models and their base models *)

(** Rows stored under their own id. *)
Definition keyed {A} (id_of : A → string) (rows : gmap string A) : Prop :=
  ∀ i a, rows !! i = Some a → id_of a = i.

Section ModelChains.
Context (models : gmap string model_info) (grants : grant_db) (user : string) (gs : list string).

(** The model of a visited id may be read; an unregistered one is for
    admins. *)
Definition hop_ok (admin : bool) (i : string) : bool :=
  match models !! i with None => admin | Some m => may_read_model grants user gs m end.

Lemma base_model_loop_walk fuel admin seen base :
  base_model_loop models grants fuel user admin gs seen base =
  forallb (hop_ok admin) (walk models base_id fuel seen base).
Proof.
  revert seen base. induction fuel as [|fuel IH]; intros seen [i|]; cbn; try done.
  case_bool_decide; [done|]. cbn. unfold hop_ok at 1.
  destruct (models !! i) as [m|]; [|by rewrite andb_true_r].
  by destruct (may_read_model grants user gs m).
Qed.

Lemma has_base_model_access_spec m role :
  models !! mi_id m = Some m → may_read_model grants user gs m = true →
  has_base_model_access models grants user m role gs = true ↔
  ∀ j, rtc (names models base_id) (mi_id m) j → hop_ok (String.eqb role "admin") j = true.
Proof.
  intros Hm Hr. unfold has_base_model_access. rewrite base_model_loop_walk.
  assert (Hw : ∀ j, j ∈ mi_id m :: walk models base_id (S (size models)) [mi_id m] (base_id m) ↔
                    rtc (names models base_id) (mi_id m) j).
  { intros j. rewrite <-(walk_spec models base_id (S (size models))) by lia.
    set (n := S (size models)). change (walk models base_id (S n) [] (Some (mi_id m))) with
      (if bool_decide (mi_id m ∈ []) then []
       else mi_id m :: match models !! mi_id m with
                       | None => [] | Some a => walk models base_id n [mi_id m] (base_id a) end).
    rewrite bool_decide_false by apply not_elem_of_nil. by rewrite Hm. }
  assert (Hself : hop_ok (String.eqb role "admin") (mi_id m) = true) by (unfold hop_ok; by rewrite Hm).
  rewrite Prelude.forallb_True. split.
  - intros H j [->|Hj]%Hw%elem_of_cons; auto.
  - intros H j Hj. apply H, Hw. by right.
Qed.
End ModelChains.

(** ** Folder trees *)

Section FolderTrees.
Context (folders : gmap string folder) (grants : grant_db) (groups_of : string → list string).
Context (Hkeyed : keyed fo_id folders).

(** [up i j]: the folder [j] is the parent of the folder [i]. *)
Definition up : string → string → Prop := names folders folder_parent.

Lemma folder_loop_walk fuel user p seen i :
  folder_loop folders grants groups_of fuel user p seen (folders !! i) =
  existsb (λ j, match folders !! j with
                | Some f => folder_granted grants groups_of user p f | None => false end)
          (walk folders folder_parent fuel seen (Some i)).
Proof.
  revert seen i. induction fuel as [|fuel IH]; intros seen i; cbn; [by destruct (folders !! i)|].
  destruct (folders !! i) as [f|] eqn:Ef.
  - rewrite (Hkeyed i f Ef). case_bool_decide; [done|]. cbn. rewrite Ef.
    destruct (folder_granted grants groups_of user p f); [done|]. cbn.
    destruct (folder_parent f) as [j|]; cbn; [apply IH|by destruct fuel].
  - case_bool_decide; [done|]. cbn. by rewrite Ef.
Qed.

Lemma has_folder_access_spec user f p : folders !! fo_id f = Some f →
  has_folder_access folders grants groups_of user f p = true ↔
  ∃ j g, rtc up (fo_id f) j ∧ folders !! j = Some g ∧ folder_granted grants groups_of user p g = true.
Proof.
  intros Hf. unfold has_folder_access. rewrite <-Hf, folder_loop_walk, existsb_True.
  setoid_rewrite walk_spec; [|lia]. split.
  - intros (j & Hj & Hg). destruct (folders !! j) as [g|] eqn:Eg; [eauto|done].
  - intros (j & g & Hj & Hg & Hgr). exists j. by rewrite Hg.
Qed.

End FolderTrees.

Section FolderRoots.
Context (folders : gmap string folder) (grants : grant_db).
Context (Hkeyed : keyed fo_id folders).
Local Notation up := (up folders).

Definition shared (i : string) : Prop := get_grants_by_resource "folder" i grants ≠ [].

(** The root the loop computes on a finite chain. *)
Fixpoint chain_root (acc : option string) (l : list string) : option string :=
  match l with
  | [] => None
  | i :: l' =>
      let acc' := match get_grants_by_resource "folder" i grants with [] => acc | _ => Some i end in
      match l' with [] => Some (default i acc') | _ => chain_root acc' l' end
  end.

Definition owned (user i : string) : Prop := ∃ f, folders !! i = Some f ∧ fo_user_id f = user.

Lemma owned_root_sound fuel user seen acc i r :
  owned_root_loop folders grants fuel user seen acc (Some i) = Some r →
  ∃ l, path folders folder_parent i l ∧ (∀ j, j ∈ l → owned user j) ∧ chain_root acc l = Some r.
Proof.
  revert seen acc i. induction fuel as [|fuel IH]; intros seen acc i; cbn; [done|].
  case_bool_decide; [done|]. destruct (folders !! i) as [f|] eqn:Ef; [|done].
  rewrite (Hkeyed i f Ef). destruct (String.eqb_spec (fo_user_id f) user) as [Hu|]; cbn [negb]; [|done].
  destruct (folder_parent f) as [j|] eqn:Ej.
  - intros (l & Hp & Hl & Hr)%IH. exists (i :: l). split_and!.
    + eapply path_step; [by exists f|done].
    + intros k [->|Hk]%elem_of_cons; [by exists f|auto].
    + by destruct l; [inversion Hp|].
  - intros [= <-]. exists [i]. split_and!; [by econstructor| |done].
    intros k ->%list_elem_of_singleton. by exists f.
Qed.

Lemma owned_root_complete fuel user seen acc i l :
  path folders folder_parent i l → length l ≤ fuel → (∀ j, j ∈ l → owned user j ∧ j ∉ seen) →
  owned_root_loop folders grants fuel user seen acc (Some i) = chain_root acc l.
Proof.
  intros Hp. pose proof (path_NoDup _ _ _ _ Hp) as Hnd. revert fuel seen acc Hnd.
  induction Hp as [i f Hf Hn|i j l (f & Hf & Hj) Hp IH]; intros [|fuel] seen acc Hnd Hlen Hl;
    try (cbn in Hlen; lia); cbn [owned_root_loop];
    (destruct (Hl i) as [(g & Hg & Hu) Hs]; [left|]);
    rewrite bool_decide_false by done; rewrite Hf in Hg |- *; injection Hg as <-;
    rewrite (Hkeyed i f Hf), Hu, String.eqb_refl; cbn [negb].
  - by rewrite Hn.
  - rewrite Hj. apply NoDup_cons in Hnd as [Hi Hnd]. rewrite IH; [|done|cbn in Hlen; lia|].
    + by destruct l; [inversion Hp|].
    + intros k Hk. destruct (Hl k) as [Ho Hks]; [by right|]. split; [done|].
      intros [->|?]%elem_of_cons; done.
Qed.

Definition top (i : string) : Prop := ∃ f, folders !! i = Some f ∧ folder_parent f = None.

(** The topmost shared folder above [i] or, when none is, the folder without
    a parent. *)
Definition tree_root (i r : string) : Prop :=
  (shared r ∧ rtc up i r ∧ ∀ j, tc up r j → ¬ shared j) ∨
  ((∀ j, rtc up i j → ¬ shared j) ∧ rtc up i r ∧ top r).

Definition tree_root_from (acc : option string) (i r : string) : Prop :=
  (shared r ∧ rtc up i r ∧ ∀ j, tc up r j → ¬ shared j) ∨
  ((∀ j, rtc up i j → ¬ shared j) ∧ match acc with Some a => r = a | None => rtc up i r ∧ top r end).

Lemma chain_root_spec acc i l r :
  path folders folder_parent i l → chain_root acc l = Some r ↔ tree_root_from acc i r.
Proof.
  intros Hp. revert acc. unfold tree_root_from.
  induction Hp as [i f Hf Hn|i j l Hj Hp IH]; intros acc.
  - setoid_rewrite (rtc_top folders folder_parent i f _ Hf Hn). cbn [chain_root].
    assert (Hup : ∀ k, ¬ tc up i k).
    { intros k Ht. assert (Hx : ∃ x, up i x) by (destruct Ht; eauto).
      destruct Hx as (x & g & Hg & Hx). congruence. }
    destruct (get_grants_by_resource "folder" i grants) as [|g0 gl] eqn:Eg.
    + assert (Hns : ¬ shared i) by (unfold shared; rewrite Eg; auto). split.
      * intros [= <-]. right. split; [by intros ? ->|].
        destruct acc; cbn; [done|]. split; [done|by exists f].
      * intros [(Hs & -> & _)|(_ & Hr)]; [done|]. destruct acc; cbn; [by subst|].
        destruct Hr as [Hr _]. apply (rtc_top folders folder_parent i f r Hf Hn) in Hr. by subst.
    + assert (Hs : shared i) by (unfold shared; rewrite Eg; done). split.
      * intros [= <-]. left. split_and!; [done|done|]. intros k Hk. by apply Hup in Hk.
      * intros [(_ & -> & _)|(Hno & _)]; [done|]. by destruct (Hno i).
  - change (chain_root acc (i :: l)) with
      (let acc' := match get_grants_by_resource "folder" i grants with [] => acc | _ => Some i end in
       match l with [] => Some (default i acc') | _ => chain_root acc' l end).
    cbn zeta. replace (match l with [] => Some _ | _ => _ end) with
      (chain_root (match get_grants_by_resource "folder" i grants with [] => acc | _ => Some i end) l)
      by (by destruct l; [inversion Hp|]).
    rewrite IH. setoid_rewrite (rtc_names folders folder_parent i j _ Hj).
    destruct (get_grants_by_resource "folder" i grants) as [|g0 gl] eqn:Eg.
    + assert (Hns : ¬ shared i) by (unfold shared; rewrite Eg; auto).
      assert (Hnt : ¬ top i) by (intros (f & Hf & Hn); destruct Hj as (f' & Hf' & Hj); congruence).
      split; (intros [(Hs & Hr & Hab)|(Hno & Hr)]; [left; split_and!; [done|naive_solver|done]|right]).
      * split; [intros k [->|Hk]; auto|]. destruct acc; [done|]. destruct Hr as [Hr Ht].
        split; [by eapply rtc_l|done].
      * split; [auto|]. destruct acc; [done|]. destruct Hr as [Hr Ht]. split; [|done].
        by apply (rtc_names folders folder_parent i j r Hj) in Hr as [->|Hr].
    + assert (Hs : shared i) by (unfold shared; rewrite Eg; done).
      split; (intros [(Hsr & Hr & Hab)|(Hno & Hr)]).
      * left. auto.
      * left. subst. split_and!; [done|by left|]. intros k Hk. apply Hno.
        by apply (tc_names folders folder_parent i j k Hj).
      * destruct Hr as [->|Hr]; [right|left; auto]. split; [|done]. intros k Hk. apply Hab.
        by apply (tc_names folders folder_parent i j k Hj).
      * destruct (Hno i); [by left|done].
Qed.

(** The user owns every folder from [i] up to one without a parent. *)
Definition owned_chain (user i : string) : Prop :=
  ∃ l, path folders folder_parent i l ∧ ∀ j, j ∈ l → owned user j.

Lemma owned_root_spec user i r : i ≠ EmptyString →
  get_owned_folder_root_id folders grants user (Some i) = Some r ↔
  owned_chain user i ∧ tree_root i r.
Proof.
  intros Hi. unfold get_owned_folder_root_id, nonempty.
  replace (Str.is_empty i) with false by (by destruct i). split.
  - intros (l & Hp & Hl & Hr)%owned_root_sound. split; [by exists l|].
    by apply (chain_root_spec None i l r Hp).
  - intros [(l & Hp & Hl) Hr]. rewrite (owned_root_complete _ user [] None i l); [|done| |].
    + by apply (chain_root_spec None i l r Hp).
    + pose proof (path_length _ _ _ _ Hp). lia.
    + intros j Hj. split; [by apply Hl|apply not_elem_of_nil].
Qed.
End FolderRoots.

(** ** Properties *)

(** A permission flag of a section means the same in the two readings of
    a user's permissions: both succeed, and the check of the dotted key answers
    true exactly when the combined tree has the flag on, which is when some
    group of the user (inherited ones included) turns it on or the defaults,
    filled from the template, do. *)
Theorem permission_readings_agree (DEFAULT : pydict) (d : group_db) (user_id : string)
    (defaults : pydict) (s n : string) :
  flag_tree DEFAULT → flags defaults →
  (∀ g, g ∈ get_groups_by_member_id d user_id true → flag_tree (group_permissions g)) →
  no_dot s = true → no_dot n = true →
  ∃ p b, get_permissions DEFAULT d user_id defaults = Ok p ∧
    has_permission DEFAULT d user_id (s +:+ "." +:+ n) defaults = Ok b ∧
    (b = true ↔ flag p s n = Some true) ∧ (b = true ↔ permits DEFAULT d user_id defaults s n).
Proof.
  intros HD Hd Hg Hs Hn.
  destruct (get_permissions_flags DEFAULT d user_id defaults HD Hd Hg) as (p & E & Hp & Hl).
  destruct (has_permission_flags DEFAULT d user_id defaults HD Hd Hg s n Hs Hn) as (b & Eb & Hb).
  exists p, b. split_and!; [done|done| |done]. by rewrite Hb, Hl.
Qed.

(** A change of the grants of a resource is accepted as a whole or
    rejected with 403: it is accepted exactly when every grant goes to an
    audience the resource type has (admins included) and, for other roles,
    when the user's permissions allow sharing this type and each audience of
    the list.  An accepted list is the normalized request. *)
Theorem validate_access_grants_all_or_nothing (uuid4 : nat → string) (DEFAULT : pydict)
    (d : group_db) (defaults : pydict) (user_id role rt : string) (raw : list pyval) (n : nat)
    (sharing public anyone : sharing_key) :
  (∀ k, uuid4 k ≠ EmptyString) →
  sharing_permission_keys rt = Some (sharing, public, anyone) →
  flag_tree DEFAULT → flags defaults →
  (∀ g, g ∈ get_groups_by_member_id d user_id true → flag_tree (group_permissions g)) →
  ∃ permissions, get_permissions DEFAULT d user_id defaults = Ok permissions ∧
    let l := (normalize_access_grants uuid4 n raw).1 in
    (may_share role permissions sharing public anyone l →
       validate_access_grants uuid4 DEFAULT d defaults user_id role raw rt n = Ok l) ∧
    (¬ may_share role permissions sharing public anyone l →
       validate_access_grants uuid4 DEFAULT d defaults user_id role raw rt n =
         Err (HTTPException 403 "You do not have permission to share with the requested audience")).
Proof.
  intros Hu Hk HD Hd Hg.
  destruct (get_permissions_flags DEFAULT d user_id defaults HD Hd Hg) as (p & E & Hp & _).
  exists p. split; [done|]. cbn zeta. unfold validate_access_grants.
  pose proof (normalize_clean uuid4 n raw Hu) as Hc.
  destruct (normalize_spec uuid4 n raw) as (Hnd & _ & _).
  destruct (normalize_access_grants uuid4 n raw) as [l n'] eqn:El. cbn [fst] in *.
  rewrite (filter_allowed_spec uuid4 DEFAULT d defaults user_id role p E Hp _ rt sharing public anyone n' Hk).
  rewrite renormalize by done. cbn [fst mbind res_bind].
  pose proof (shared_with_full role p sharing public anyone l) as Hfull.
  destruct (Nat.eqb_spec (length (shared_with role p sharing public anyone
             (List.filter (supported public anyone) l))) (length l)) as [Heq|Hne].
  - split; [intros _; f_equal; apply shared_with_all; tauto|tauto].
  - split; [tauto|done].
Qed.

(** The check of grants kept in a configuration and the check of the
    access_grant table agree: whatever the first answers for a list, the
    second answers once the list is stored as the grants of a resource. *)
Theorem memory_and_table_access_agree (uuid4 : nat → string) (now : Z) (rt rid : string)
    (grants : list pyval) (d d' : grant_db) (rows : list grant) (user p : string)
    (gs : list string) (b : bool) :
  Inj (=) (=) uuid4 → grants_ok uuid4 d →
  user ≠ EmptyString → EmptyString ∉ gs → p = "read" ∨ p = "write" →
  set_access_grants uuid4 now rt rid grants d = (Ok rows, d') →
  has_access_in user p grants gs = Ok b →
  has_access user rt rid p gs d' = b.
Proof.
  intros Hinj Hok Hu Hgs Hp Hset Hin.
  destruct (set_access_grants_rows uuid4 now rt rid grants d Hinj Hok)
    as (rows' & d2 & Hset' & _ & Hg & _ & Hk & Hon).
  rewrite Hset in Hset'. injection Hset' as <- <-.
  apply eq_true_iff_eq. rewrite (has_access_rows rt rid grants d rows d' Hg Hon Hk user gs p).
  rewrite (has_access_in_spec user p gs grants b Hin). split.
  - intros (v & t & i & Hv & Hkv & Hm). exists v. split; [done|]. apply grants_it_key; eauto.
  - intros (v & Hv & Hgr). apply grants_it_key in Hgr as (t & i & Hkv & Hm); eauto 6.
Qed.

(** Access to a model is granted exactly to internal callers, to admins,
    and to users who may read the model and every registered model its chain
    of base models reaches, when the chain names no unregistered model; chains
    that loop end the walk without an error. *)
Theorem check_model_access_iff (models : gmap string model_info) (grants : grant_db) (u : user)
    (m : option model_info) (bypass : bool) (gs : list string) :
  (∀ m0, m = Some m0 → models !! mi_id m0 = Some m0) →
  (check_model_access models grants u m bypass gs = Ok tt ↔
   bypass = true ∨ us_role u = "admin" ∨
   ∃ m0, m = Some m0 ∧ may_read_model grants (us_id u) gs m0 = true ∧
     ∀ j, rtc (names models base_id) (mi_id m0) j →
       ∃ mj, models !! j = Some mj ∧ may_read_model grants (us_id u) gs mj = true).
Proof.
  intros Hm. unfold check_model_access, is_admin. destruct bypass; [tauto|].
  destruct (String.eqb_spec (us_role u) "admin") as [Ha|Ha].
  { rewrite Ha. destruct m; tauto. }
  destruct m as [m0|]; [|split; [done|naive_solver]].
  destruct (may_read_model grants (us_id u) gs m0) eqn:Er; cbn [negb].
  2:{ split; [done|]. intros [?|[?|(m1 & [= <-] & Hr & _)]]; congruence. }
  pose proof (has_base_model_access_spec models grants (us_id u) gs m0 (us_role u) (Hm m0 eq_refl) Er) as Hb.
  apply String.eqb_neq in Ha as Ha'. rewrite Ha' in Hb. unfold hop_ok in Hb.
  destruct (has_base_model_access models grants (us_id u) m0 (us_role u) gs).
  - split; [|done]. intros _. right; right. exists m0. split_and!; [done|done|]. intros j Hj.
    apply (proj1 Hb eq_refl) in Hj. destruct (models !! j); eauto; done.
  - split; [done|]. intros [?|[?|(m1 & [= <-] & _ & Hr)]]; [done|done|].
    enough (false = true) by done. apply Hb. intros j Hj. by destruct (Hr j Hj) as (mj & -> & ?).
Qed.

(** A folder is accessible exactly when the user owns it or one of the
    folders above it, or one of them is granted to the user; a loop of parents
    does not change this. *)
Theorem folder_access_is_inherited (folders : gmap string folder) (grants : grant_db)
    (groups_of : string → list string) (user p : string) (f : folder) :
  keyed fo_id folders → folders !! fo_id f = Some f →
  (has_folder_access folders grants groups_of user f p = true ↔
   ∃ j g, rtc (names folders folder_parent) (fo_id f) j ∧ folders !! j = Some g ∧
     (fo_user_id g = user ∨ has_access user "folder" j p (groups_of user) grants = true)).
Proof.
  intros Hk Hf. rewrite (has_folder_access_spec folders grants groups_of Hk) by done.
  split; intros (j & g & Hj & Hg & H); exists j, g; (split_and!; [done|done|]); revert H;
    unfold folder_granted; by rewrite orb_true_iff, String.eqb_eq, (Hk j g Hg).
Qed.

(** A chat may move between two folders exactly when the user owns every
    folder from each of them up to a folder without a parent (so neither chain
    loops) and both chains have the same root: the topmost shared folder or,
    when no folder of the chain is shared, the folder without a parent. *)
Theorem chat_moves_stay_in_tree (folders : gmap string folder) (grants : grant_db)
    (user : string) (source target : option string) :
  keyed fo_id folders →
  (has_chat_move_access folders grants user source target = true ↔
   ∃ i j r, source = Some i ∧ target = Some j ∧ i ≠ EmptyString ∧ j ≠ EmptyString ∧
     owned_chain folders user i ∧ owned_chain folders user j ∧
     tree_root folders grants i r ∧ tree_root folders grants j r).
Proof.
  intros Hk. unfold has_chat_move_access.
  assert (Hnone : ∀ s r, get_owned_folder_root_id folders grants user s = Some r →
                    ∃ i, s = Some i ∧ i ≠ EmptyString).
  { intros [[|c i]|] r; [done|by eexists|done]. }
  split.
  - destruct (get_owned_folder_root_id folders grants user source) as [r|] eqn:Es; [|done].
    intros Et%bool_decide_eq_true.
    destruct (Hnone _ _ Es) as (i & -> & Hi), (Hnone _ _ Et) as (j & -> & Hj).
    apply (owned_root_spec folders grants Hk user i r Hi) in Es as [? ?].
    apply (owned_root_spec folders grants Hk user j r Hj) in Et as [? ?].
    by exists i, j, r.
  - intros (i & j & r & -> & -> & Hi & Hj & Ho & Ho' & Hr & Hr').
    assert (Es : get_owned_folder_root_id folders grants user (Some i) = Some r) by (by apply owned_root_spec).
    assert (Et : get_owned_folder_root_id folders grants user (Some j) = Some r) by (by apply owned_root_spec).
    rewrite Es, Et. by apply bool_decide_eq_true.
Qed.

(** ** Witnesses *)

(** A test for trees given by value. *)
Definition is_flag (v : pyval) : bool := match v with VBool _ => true | _ => false end.
Definition flag_treeb (d : pydict) : bool :=
  bool_decide (NoDup (dict_keys d))
  && forallb (λ kv, match kv.2 with
                    | VDict sd => bool_decide (NoDup (dict_keys sd)) && forallb (λ kw, is_flag kw.2) sd
                    | _ => false
                    end) d.

Lemma flag_treeb_ok d : flag_treeb d = true → flag_tree d.
Proof.
  unfold flag_treeb. rewrite andb_true_iff, bool_decide_eq_true, Prelude.forallb_True. intros [Hnd Hd].
  assert (Hsec : ∀ k v, dict_get k d = Some v →
    ∃ sd, v = VDict sd ∧ NoDup (dict_keys sd) ∧ flag_section sd).
  { intros k v Hk%dict_get_Some_elem. specialize (Hd _ Hk). cbn in Hd.
    destruct v as [| | | | | |sd]; try done. exists sd.
    rewrite andb_true_iff, bool_decide_eq_true, Prelude.forallb_True in Hd. destruct Hd as [Hs Hf].
    split_and!; [done|done|]. intros n w Hn%dict_get_Some_elem. specialize (Hf _ Hn). cbn in Hf.
    destruct w; try done. eauto. }
  split_and!; [|done|].
  - intros k v Hk. destruct (Hsec k v Hk) as (sd & ? & _ & ?). eauto.
  - intros k sd Hk. by destruct (Hsec k _ Hk) as (sd' & [= <-] & ? & _).
Qed.

Definition example_template : pydict :=
  [("sharing", VDict [("notes", VBool false); ("public_notes", VBool false)]);
   ("access_grants", VDict [("allow_users", VBool false); ("allow_groups", VBool false)])].

(** The group "staff" of "ann" may share notes with groups. *)
Definition example_staff : group :=
  {| g_parent := None; g_user_id := "root"; g_name := "staff"; g_description := "staff"; g_data := None;
     g_meta := None;
     g_permissions := Some [("sharing", VDict [("notes", VBool true)]);
                            ("access_grants", VDict [("allow_groups", VBool true)])];
     g_created_at := 0; g_updated_at := 0 |}.

Definition example_staff_db : group_db :=
  {| gs_groups := {[ "staff" := example_staff ]}; gs_members := {[ ("staff", "ann") ]};
     gs_grants := {| gdb_grants := []; gdb_uuids := 0 |}; gs_uuids := 0 |}.

Lemma example_staff_groups :
  ∀ g, g ∈ get_groups_by_member_id example_staff_db "ann" true → flag_tree (group_permissions g).
Proof.
  replace (get_groups_by_member_id example_staff_db "ann" true) with [("staff", example_staff)]
    by (vm_compute; reflexivity).
  intros g ->%list_elem_of_singleton. apply flag_treeb_ok. vm_compute. reflexivity.
Qed.

Lemma permission_readings_agree_witness :
  ∃ p b, get_permissions example_template example_staff_db "ann" [] = Ok p ∧
    has_permission example_template example_staff_db "ann" "sharing.notes" [] = Ok b ∧
    (b = true ↔ flag p "sharing" "notes" = Some true).
Proof.
  destruct (permission_readings_agree example_template example_staff_db "ann" [] "sharing" "notes")
    as (p & b & H1 & H2 & H3 & _);
    [apply flag_treeb_ok; vm_compute; reflexivity|by intros ? ?|exact example_staff_groups
    |reflexivity|reflexivity|].
  exists p, b. split; [exact H1|split; [exact H2|exact H3]].
Defined.

Definition example_entry (t i p : string) : pyval :=
  VDict [("principal_type", VStr t); ("principal_id", VStr i); ("permission", VStr p)].

Lemma validate_access_grants_all_or_nothing_witness :
  ∃ permissions, get_permissions example_template example_staff_db "ann" [] = Ok permissions ∧
    (¬ may_share "user" permissions (Some ("sharing", "notes")) (Some ("sharing", "public_notes")) None
         (normalize_access_grants example_uuid4 0
            [example_entry "group" "g" "read"; example_entry "user" "*" "read"]).1 →
     validate_access_grants example_uuid4 example_template example_staff_db [] "ann" "user"
       [example_entry "group" "g" "read"; example_entry "user" "*" "read"] "note" 0 =
       Err (HTTPException 403 "You do not have permission to share with the requested audience")).
Proof.
  destruct (validate_access_grants_all_or_nothing example_uuid4 example_template example_staff_db []
    "ann" "user" "note" [example_entry "group" "g" "read"; example_entry "user" "*" "read"] 0
    (Some ("sharing", "notes")) (Some ("sharing", "public_notes")) None) as (p & Hp & _ & H);
    [intros k; discriminate|reflexivity|apply flag_treeb_ok; vm_compute; reflexivity|by intros ? ?
    |exact example_staff_groups|].
  exists p. split; [exact Hp|exact H].
Defined.

(** The verdicts on this database: ann may share a note with a group, not with
    everyone. *)
Example validate_example :
  is_ok (validate_access_grants example_uuid4 example_template example_staff_db [] "ann" "user"
           [example_entry "group" "g" "read"] "note" 0) = true ∧
  validate_access_grants example_uuid4 example_template example_staff_db [] "ann" "user"
    [example_entry "group" "g" "read"; example_entry "user" "*" "read"] "note" 0 =
    Err (HTTPException 403 "You do not have permission to share with the requested audience").
Proof. vm_compute. by split. Qed.

Lemma memory_and_table_access_agree_witness :
  has_access "ann" "tool" "t1" "read" ["g"]
    (set_access_grants example_uuid4 7 "tool" "t1" [example_entry "group" "g" "read"] empty_grants).2 = true.
Proof.
  refine (memory_and_table_access_agree example_uuid4 7 "tool" "t1" [example_entry "group" "g" "read"]
    empty_grants _ _ "ann" "read" ["g"] true example_uuid4_inj empty_grants_ok _ _ (or_introl eq_refl) _ _).
  - discriminate.
  - apply (bool_decide_unpack _). vm_compute. exact I.
  - vm_compute. reflexivity.
  - vm_compute. reflexivity.
Defined.

(** A shared preset whose base model is its owner's private one. *)
Definition example_models : gmap string model_info :=
  <["preset" := {| mi_id := "preset"; mi_user_id := "bob"; mi_base := Some "base" |}]>
  {[ "base" := {| mi_id := "base"; mi_user_id := "bob"; mi_base := Some "preset" |} ]}.

Lemma check_model_access_iff_witness :
  check_model_access example_models empty_grants {| us_id := "bob"; us_role := "user" |}
    (example_models !! "preset") false [] = Ok tt ↔
  false = true ∨ "user" = "admin" ∨
  ∃ m0, example_models !! "preset" = Some m0 ∧ may_read_model empty_grants "bob" [] m0 = true ∧
    ∀ j, rtc (names example_models base_id) (mi_id m0) j →
      ∃ mj, example_models !! j = Some mj ∧ may_read_model empty_grants "bob" [] mj = true.
Proof.
  apply (check_model_access_iff example_models empty_grants {| us_id := "bob"; us_role := "user" |}
           (example_models !! "preset") false []).
  intros m0 H. vm_compute in H. injection H as <-. vm_compute. reflexivity.
Defined.

Definition example_folders : gmap string folder :=
  <["kid" := {| fo_id := "kid"; fo_user_id := "bob"; fo_parent := Some "top" |}]>
  {[ "top" := {| fo_id := "top"; fo_user_id := "bob"; fo_parent := None |} ]}.

Lemma example_folders_keyed : keyed fo_id example_folders.
Proof.
  intros i f. unfold example_folders. rewrite lookup_insert_Some, lookup_singleton_Some.
  by intros [[<- <-]|(_ & <- & <-)].
Qed.

Lemma folder_access_is_inherited_witness :
  has_folder_access example_folders empty_grants (λ _, [])
    "bob" {| fo_id := "kid"; fo_user_id := "bob"; fo_parent := Some "top" |} "read" = true ↔
  ∃ j g, rtc (names example_folders folder_parent) "kid" j ∧ example_folders !! j = Some g ∧
    (fo_user_id g = "bob" ∨ has_access "bob" "folder" j "read" [] empty_grants = true).
Proof.
  apply (folder_access_is_inherited example_folders empty_grants (λ _, []) "bob" "read"
    {| fo_id := "kid"; fo_user_id := "bob"; fo_parent := Some "top" |} example_folders_keyed).
  vm_compute. reflexivity.
Defined.

Lemma chat_moves_stay_in_tree_witness :
  ∃ i j r, Some "kid" = Some i ∧ Some "top" = Some j ∧ i ≠ EmptyString ∧ j ≠ EmptyString ∧
    owned_chain example_folders "bob" i ∧ owned_chain example_folders "bob" j ∧
    tree_root example_folders empty_grants i r ∧ tree_root example_folders empty_grants j r.
Proof.
  apply (chat_moves_stay_in_tree example_folders empty_grants "bob" (Some "kid") (Some "top")
           example_folders_keyed).
  vm_compute. reflexivity.
Defined.
