(* ===== verification/RateLimit.v ===== *)
(** * The rolling-window rate limiter (utils/rate_limit.py): counts per bucket
    of time, in memory or in Redis. *)

From stdpp Require Import list_numbers pretty.
From S2P Require Import Prelude PyVal.

Local Open Scope Z_scope.

(** [RateLimiter]; the memory store is passed separately. *)
Record rate_limiter := {
  rl_limit : Z;
  rl_window : Z;
  rl_bucket_size : Z;
  rl_num_buckets : Z;
  rl_enabled : bool;
}.

(** [RateLimiter.__init__] *)
Definition make_limiter (limit window bucket_size : Z) (enabled : bool) : res rate_limiter :=
  if bucket_size =? 0 then Err ZeroDivisionError
  else Ok {| rl_limit := limit; rl_window := window; rl_bucket_size := bucket_size;
             rl_num_buckets := window / bucket_size; rl_enabled := enabled |}.

(** [_memory_store]: bucket index, then key, to hits. *)
Notation memory_store := (gmap Z (gmap string Z)).

(** What the limiter uses of a Redis client; an operation may raise, and the
    server has its own state.  Times are whole seconds. *)
Record redis_ops (R : Type) := {
  r_incr : string → Z → st R Z;
  r_expire : string → Z → Z → st R unit;
  r_mget : list string → Z → st R (list (option Z));
}.
Arguments r_incr {R} _ _ _.
Arguments r_expire {R} _ _ _ _.
Arguments r_mget {R} _ _ _.

Section Limiter.
Context (REDIS_KEY_PREFIX : string) {R : Type} (redis : redis_ops R) (l : rate_limiter).

(** [_bucket_key] *)
Definition bucket_key (key : string) (bucket_index : Z) : string :=
  REDIS_KEY_PREFIX +:+ ":ratelimit:" +:+ Str.lower key +:+ ":" +:+ pretty bucket_index.

(** [_current_bucket]; [now] is [int(time.time())]. *)
Definition current_bucket (now : Z) : Z := now / rl_bucket_size l.

(** [_prune_memory_store] *)
Definition prune_memory_store (now_bucket : Z) (store : memory_store) : memory_store :=
  filter (λ kv, now_bucket - rl_num_buckets l <= kv.1) store.

(** [sum(bucket_counts.get(key, 0) for bucket_counts in self._memory_store.values())] *)
Definition total_of (key : string) (store : memory_store) : Z :=
  map_fold (λ _ bucket_counts total, default 0 (bucket_counts !! key) + total) 0 store.

(** [_is_limited_memory] *)
Definition is_limited_memory (now : Z) (key : string) (store : memory_store) : bool * memory_store :=
  let now_bucket := current_bucket now in
  let pruned := prune_memory_store now_bucket store in
  let current_bucket_counts := default ∅ (pruned !! now_bucket) in
  let counted := <[key := default 0 (current_bucket_counts !! key) + 1]> current_bucket_counts in
  let store' := <[now_bucket := counted]> pruned in
  (rl_limit l <? total_of key store', store').

(** [_get_count_memory] *)
Definition get_count_memory (now : Z) (key : string) (store : memory_store) : Z * memory_store :=
  let pruned := prune_memory_store (current_bucket now) store in
  (total_of key pruned, pruned).

(** The keys of the buckets in the window, the newest first. *)
Definition window_keys (now_bucket : Z) (key : string) : list string :=
  map (λ i, bucket_key key (now_bucket - i)) (seqZ 0 (rl_num_buckets l + 1)).

(** [sum(int(c) for c in counts if c)] *)
Definition sum_counts (counts : list (option Z)) : Z := foldr (λ c t, default 0 c + t) 0 counts.

(** [_is_limited_redis] *)
Definition is_limited_redis (now : Z) (key : string) : st R bool :=
  let now_bucket := current_bucket now in
  let bucket := bucket_key key now_bucket in
  attempts ← r_incr redis bucket now;
  _ ← (if attempts =? 1 then r_expire redis bucket (rl_window l + rl_bucket_size l) now else mret tt);
  counts ← r_mget redis (window_keys now_bucket key) now;
  mret (rl_limit l <? sum_counts counts).

(** [_get_count_redis] *)
Definition get_count_redis (now : Z) (key : string) : st R Z :=
  counts ← r_mget redis (window_keys (current_bucket now) key) now;
  mret (sum_counts counts).

(** A call on the Redis client when there is one ([connected]), with the
    memory store as the fallback when there is none or it raises. *)
Definition or_memory {A} (connected : bool) (remote : st R A) (local : memory_store → A * memory_store)
    : st (R * memory_store) A := λ s,
  let fallback r := let '(a, m) := local s.2 in (Ok a, (r, m)) in
  if connected then
    match remote s.1 with
    | (Ok a, r) => (Ok a, (r, s.2))
    | (Err _, r) => fallback r
    end
  else fallback s.1.

(** [is_limited] *)
Definition is_limited (connected : bool) (now : Z) (key : string) : st (R * memory_store) bool :=
  if negb (rl_enabled l) then mret false
  else or_memory connected (is_limited_redis now key) (is_limited_memory now key).

(** [get_count] *)
Definition get_count (connected : bool) (now : Z) (key : string) : st (R * memory_store) Z :=
  if negb (rl_enabled l) then mret 0
  else or_memory connected (get_count_redis now key) (get_count_memory now key).

(** [remaining] *)
Definition remaining (connected : bool) (now : Z) (key : string) : st (R * memory_store) Z :=
  used ← get_count connected now key; mret (Z.max 0 (rl_limit l - used)).
End Limiter.

(** ** What is relied on of Redis

    [r_clock] is the time of the last operation and [r_entry] the value of a
    key with the time it may be dropped at, if it has one: nothing is assumed
    of a key from that time on, nor of a clock that runs backwards. *)
Definition unexpired (now : Z) (e : option (Z * option Z)) : Prop :=
  match e with Some (_, Some deadline) => now < deadline | _ => True end.

Class RedisLaws {R} (redis : redis_ops R) := {
  r_clock : R → Z;
  r_entry : R → string → option (Z * option Z);
  (** An operation at [now] moves the clock and keeps the other keys. *)
  r_after (now : Z) (touched : string → Prop) (r r' : R) : Prop :=
    r_clock r' = now ∧
    ∀ k, ¬ touched k → unexpired now (r_entry r k) → r_entry r' k = r_entry r k;
  r_incr_law r k now : r_clock r <= now → unexpired now (r_entry r k) →
    ∃ r', r_incr redis k now r = (Ok (default 0 (fst <$> r_entry r k) + 1), r') ∧
      r_after now (eq k) r r' ∧
      r_entry r' k = Some (default 0 (fst <$> r_entry r k) + 1, r_entry r k ≫= snd);
  r_expire_law r k seconds now v old : r_clock r <= now → r_entry r k = Some (v, old) →
    unexpired now (r_entry r k) → 0 < seconds →
    ∃ r', r_expire redis k seconds now r = (Ok tt, r') ∧
      r_after now (eq k) r r' ∧ r_entry r' k = Some (v, Some (now + seconds));
  r_mget_law r ks now : r_clock r <= now → Forall (λ k, unexpired now (r_entry r k)) ks →
    ∃ r', r_mget redis ks now r = (Ok (map (λ k, fst <$> r_entry r k) ks), r') ∧
      r_after now (λ _, False) r r';
}.

(** *** A server with these laws: expired keys are dropped at once *)

Record redis_db := { rd_clock : Z; rd_keys : gmap string (Z * option Z) }.

Definition live (now : Z) (v : Z * option Z) : bool :=
  match v.2 with Some deadline => now <? deadline | None => true end.

Definition rd_tick (now : Z) (r : redis_db) : gmap string (Z * option Z) :=
  filter (λ kv, live now kv.2 = true) (rd_keys r).

Definition redis_server : redis_ops redis_db := {|
  r_incr := λ k now r,
    let keys := rd_tick now r in
    let v := default 0 (fst <$> keys !! k) + 1 in
    (Ok v, {| rd_clock := now; rd_keys := <[k := (v, keys !! k ≫= snd)]> keys |});
  r_expire := λ k seconds now r,
    let keys := rd_tick now r in
    (Ok tt, {| rd_clock := now;
               rd_keys := match keys !! k with
                          | Some (v, _) => <[k := (v, Some (now + seconds))]> keys
                          | None => keys
                          end |});
  r_mget := λ ks now r,
    let keys := rd_tick now r in
    (Ok (map (λ k, fst <$> keys !! k) ks), {| rd_clock := now; rd_keys := keys |});
|}.

Lemma rd_tick_lookup now r k :
  unexpired now (rd_keys r !! k) → rd_tick now r !! k = rd_keys r !! k.
Proof.
  intros Hu. apply option_eq. intros [v d]. unfold rd_tick. rewrite map_lookup_filter_Some.
  split; [by intros [? _]|]. intros E. split; [done|]. rewrite E in Hu. unfold live. cbn in *.
  destruct d; [by apply Z.ltb_lt|done].
Qed.

#[export] Instance redis_server_laws : RedisLaws redis_server.
Proof.
  refine {| r_clock := rd_clock; r_entry := λ r k, rd_keys r !! k |}.
  - intros r k now _ Hu. eexists. cbn in *. rewrite rd_tick_lookup by done. split; [reflexivity|].
    split; [split; [done|]|]; cbn; [|by rewrite lookup_insert_eq].
    intros k' Hk Hu'. rewrite lookup_insert_ne by done. by apply rd_tick_lookup.
  - intros r k seconds now v old _ E Hu _. eexists. cbn in *. split; [reflexivity|].
    cbn [rd_keys rd_clock]. rewrite rd_tick_lookup, E by done. split; [split; [done|]|]; cbn; [|by rewrite lookup_insert_eq].
    intros k' Hk Hu'. rewrite lookup_insert_ne by done. by apply rd_tick_lookup.
  - intros r ks now _ Hks. exists {| rd_clock := now; rd_keys := rd_tick now r |}. cbn in *. split; [|split; [reflexivity|]].
    + do 2 f_equal. apply map_ext_Forall. eapply Forall_impl; [exact Hks|].
      intros k Hu. by rewrite rd_tick_lookup.
    + intros k _ Hu. by apply rd_tick_lookup.
Defined.
