(* ===== verification/RateLimitProps.v ===== *)
(** * Properties of the rate limiter: both stores implement one rolling
    window over the history of requests. *)

From stdpp Require Import list_numbers pretty.
From Stdlib Require Import Ascii.
From S2P Require Import Prelude PyVal RateLimit.

Local Open Scope Z_scope.

#[local] Arguments is_limited_memory : simpl never.
#[local] Arguments get_count_memory : simpl never.
#[local] Arguments is_limited_redis : simpl never.
#[local] Arguments get_count_redis : simpl never.

(** ** Sums over a list of buckets *)

Definition sum_over {A} (f : A → Z) (ls : list A) : Z := foldr (λ a t, f a + t) 0 ls.

Lemma sum_over_ext {A} (f g : A → Z) ls : (∀ a, a ∈ ls → f a = g a) → sum_over f ls = sum_over g ls.
Proof.
  induction ls as [|a ls IH]; intros H; [done|]. cbn. rewrite H by left. f_equal.
  apply IH. intros b Hb. apply H. by right.
Qed.

Lemma sum_over_zero {A} (f : A → Z) ls : (∀ a, a ∈ ls → f a = 0) → sum_over f ls = 0.
Proof. intros H. rewrite (sum_over_ext f (λ _, 0)) by done. clear H. by induction ls as [|a ls IH]; [|exact IH]. Qed.

(** Changing the value at one place changes the sum by the difference. *)
Lemma sum_over_update `{EqDecision A} (f g : A → Z) (a : A) ls :
  NoDup ls → (∀ b, b ≠ a → f b = g b) →
  sum_over f ls = sum_over g ls + (if decide (a ∈ ls) then f a - g a else 0).
Proof.
  intros Hnd Hfg. induction Hnd as [|b ls Hb _ IH]; [done|]. cbn [sum_over foldr].
  change (foldr (λ a t, f a + t) 0 ls) with (sum_over f ls).
  change (foldr (λ a t, g a + t) 0 ls) with (sum_over g ls). rewrite IH.
  destruct (decide (b = a)) as [->|Hne].
  - rewrite decide_False by done. rewrite decide_True by left. lia.
  - rewrite (Hfg b Hne). destruct (decide (a ∈ ls)).
    + rewrite decide_True by (by right). lia.
    + rewrite decide_False; [lia|]. intros [->|?]%elem_of_cons; done.
Qed.

(** ** The specification: the history of requests *)

Section Spec.
Context (l : rate_limiter).

(** A request counted at a time for a key. *)
Definition hit : Type := Z * string.

Definition in_bucket (key : string) (b : Z) (h : hit) : bool :=
  String.eqb h.2 key && (current_bucket l h.1 =? b).

Definition bucket_count (hist : list hit) (key : string) (b : Z) : Z :=
  Z.of_nat (length (List.filter (in_bucket key b) hist)).

(** The oldest bucket of the window. *)
Definition oldest (now : Z) : Z := current_bucket l now - rl_num_buckets l.

Definition in_window (now : Z) (key : string) (h : hit) : bool :=
  String.eqb h.2 key && (oldest now <=? current_bucket l h.1)
  && (current_bucket l h.1 <=? current_bucket l now).

(** The requests for the key in the buckets of the window. *)
Definition window_count (hist : list hit) (now : Z) (key : string) : Z :=
  Z.of_nat (length (List.filter (in_window now key) hist)).

Inductive request := Check (now : Z) (key : string) | Count (now : Z) (key : string).
Inductive outcome := Limited (b : bool) | Counted (n : Z).

Definition time_of (req : request) : Z := match req with Check now _ | Count now _ => now end.

(** Times do not go back. *)
Fixpoint ordered (t : Z) (reqs : list request) : Prop :=
  match reqs with
  | [] => True
  | req :: rest => t <= time_of req ∧ ordered (time_of req) rest
  end.

(** [norm]: how the store spells a key. *)
Definition spec_step (norm : string → string) (hist : list hit) (req : request) : outcome * list hit :=
  match req with
  | Check now key => let hist' := (now, norm key) :: hist in
                     (Limited (rl_limit l <? window_count hist' now (norm key)), hist')
  | Count now key => (Counted (window_count hist now (norm key)), hist)
  end.

Fixpoint spec_run (norm : string → string) (hist : list hit) (reqs : list request) : list outcome :=
  match reqs with
  | [] => []
  | req :: rest => let '(o, hist') := spec_step norm hist req in o :: spec_run norm hist' rest
  end.

Lemma spec_run_length norm hist reqs : length (spec_run norm hist reqs) = length reqs.
Proof.
  revert hist. induction reqs as [|req reqs IH]; intros hist; [done|]. cbn.
  destruct (spec_step norm hist req). cbn. by rewrite IH.
Qed.

Lemma bucket_count_cons h hist key b :
  bucket_count (h :: hist) key b = (if in_bucket key b h then 1 else 0) + bucket_count hist key b.
Proof. unfold bucket_count. cbn. destruct (in_bucket key b h); cbn [length]; lia. Qed.

(** The window is the sum of its buckets. *)
Lemma window_count_sum hist now key ls :
  NoDup ls → (∀ b, b ∈ ls ↔ oldest now ≤ b ≤ current_bucket l now) →
  window_count hist now key = sum_over (bucket_count hist key) ls.
Proof.
  intros Hnd Hls. induction hist as [|h hist IH].
  { symmetry. by apply sum_over_zero. }
  rewrite (sum_over_update _ (bucket_count hist key) (current_bucket l h.1)); [|done|].
  - rewrite <-IH, bucket_count_cons. unfold window_count, in_window, in_bucket at 1. cbn [List.filter].
    rewrite Z.eqb_refl. destruct (String.eqb h.2 key); cbn [andb]; [|case_decide; lia].
    destruct (Z.leb_spec (oldest now) (current_bucket l h.1)),
      (Z.leb_spec (current_bucket l h.1) (current_bucket l now)); cbn [andb length];
      case_decide as Hd; rewrite Hls in Hd; try lia.
  - intros b Hb. rewrite bucket_count_cons. unfold in_bucket at 1.
    replace (current_bucket l h.1 =? b) with false by lia. rewrite andb_false_r. lia.
Qed.
End Spec.

(** ** The memory store *)

Definition cell (store : memory_store) (b : Z) (key : string) : Z :=
  default 0 (default ∅ (store !! b) !! key).

Lemma total_of_sum key (store : memory_store) ls :
  NoDup ls → (∀ b, is_Some (store !! b) → b ∈ ls) →
  total_of key store = sum_over (λ b, cell store b key) ls.
Proof.
  intros Hnd. unfold total_of. induction store as [|b counts store Hb IH] using map_ind; intros Hdom.
  { rewrite map_fold_empty. symmetry. apply sum_over_zero. intros b _. unfold cell. by rewrite lookup_empty. }
  rewrite map_fold_insert_L; [|intros; lia|done].
  rewrite IH by (intros b' Hb'; apply Hdom; rewrite lookup_insert_is_Some; destruct (decide (b = b')); auto).
  rewrite (sum_over_update (λ b0, cell (<[b:=counts]> store) b0 key) (λ b0, cell store b0 key) b);
    [|done|intros b' Hne; unfold cell; by rewrite lookup_insert_ne].
  rewrite decide_True by (apply Hdom; rewrite lookup_insert_eq; eauto).
  unfold cell. rewrite lookup_insert_eq, Hb. cbn. rewrite lookup_empty. cbn. lia.
Qed.

Section Limiter.
Context (l : rate_limiter) (Hbs : 0 < rl_bucket_size l) (Hnb : 0 <= rl_num_buckets l).

Lemma current_bucket_mono t t' : t <= t' → current_bucket l t <= current_bucket l t'.
Proof. intros H. unfold current_bucket. by apply Z.div_le_mono. Qed.

Lemma window_list now b :
  b ∈ seqZ (oldest l now) (rl_num_buckets l + 1) ↔ oldest l now ≤ b ≤ current_bucket l now.
Proof. rewrite elem_of_seqZ. unfold oldest. lia. Qed.

(** The store holds the counts of the buckets in the window, no others. *)
Definition mem_rep (hist : list hit) (now : Z) (store : memory_store) : Prop :=
  (∀ b key, oldest l now <= b → cell store b key = bucket_count l hist key b) ∧
  (∀ b, is_Some (store !! b) → oldest l now <= b <= current_bucket l now).

Lemma prune_rep hist t now store :
  mem_rep hist t store → t <= now →
  mem_rep hist now (prune_memory_store l (current_bucket l now) store).
Proof.
  intros [Hc Hd] Ht. pose proof (current_bucket_mono t now Ht) as Hm. unfold prune_memory_store.
  split.
  - intros b key Hb. rewrite <-Hc by (unfold oldest in *; lia). unfold cell. do 2 f_equal.
    f_equal. apply option_eq. intros counts. rewrite map_lookup_filter_Some. split; [by intros [? _]|by split].
  - intros b [counts [Hb Hp]%map_lookup_filter_Some]. cbn in Hp. unfold oldest in *.
    specialize (Hd b ltac:(eauto)). lia.
Qed.

Lemma total_rep hist now store key :
  mem_rep hist now store → total_of key store = window_count l hist now key.
Proof.
  intros [Hc Hd].
  rewrite (total_of_sum key store (seqZ (oldest l now) (rl_num_buckets l + 1)));
    [|apply NoDup_seqZ|by intros b Hb; apply window_list, Hd].
  rewrite (window_count_sum l hist now key (seqZ (oldest l now) (rl_num_buckets l + 1)));
    [|apply NoDup_seqZ|apply window_list].
  apply sum_over_ext. intros b [Hb _]%window_list. by apply Hc.
Qed.

Lemma memory_check_rep hist t now key store :
  mem_rep hist t store → t <= now →
  let '(b, store') := is_limited_memory l now key store in
  b = (rl_limit l <? window_count l ((now, key) :: hist) now key) ∧
  mem_rep ((now, key) :: hist) now store'.
Proof.
  intros Hrep Ht. apply (prune_rep _ _ now) in Hrep; [|done]. unfold is_limited_memory.
  set (pruned := prune_memory_store l (current_bucket l now) store) in *.
  set (store' := <[current_bucket l now := _]> pruned).
  assert (Hrep' : mem_rep ((now, key) :: hist) now store').
  { destruct Hrep as [Hc Hd]. split.
    - intros b k Hb. rewrite bucket_count_cons, <-Hc by done. unfold in_bucket. cbn [fst snd].
      unfold cell, store'. destruct (Z.eqb_spec (current_bucket l now) b) as [<-|Hne].
      + rewrite lookup_insert_eq. cbn [from_option id]. destruct (String.eqb_spec key k) as [<-|Hk].
        * rewrite lookup_insert_eq. cbn. lia.
        * by rewrite lookup_insert_ne.
      + rewrite lookup_insert_ne by done. rewrite andb_false_r. lia.
    - intros b. unfold store'. rewrite lookup_insert_is_Some. intros [<-|[_ Hb]]; [|by apply Hd].
      unfold oldest. lia. }
  split; [by rewrite (total_rep _ _ _ key Hrep')|done].
Qed.

Lemma memory_count_rep hist t now key store :
  mem_rep hist t store → t <= now →
  let '(n, store') := get_count_memory l now key store in
  n = window_count l hist now key ∧ mem_rep hist now store'.
Proof.
  intros Hrep Ht. apply (prune_rep _ _ now) in Hrep; [|done]. unfold get_count_memory.
  split; [by apply total_rep|done].
Qed.

(** ** The Redis store *)

Lemma sum_over_map {A B} (f : B → Z) (g : A → B) ls : sum_over f (map g ls) = sum_over (λ a, f (g a)) ls.
Proof. induction ls as [|a ls IH]; [done|]. cbn. by f_equal. Qed.

Section Redis.
Context (prefix : string) {R : Type} (redis : redis_ops R) `{!RedisLaws redis}.
Context (Hwindow : rl_num_buckets l * rl_bucket_size l <= rl_window l).

Lemma pretty_Z_no_colon (z : Z) : Str.sforallb (λ d, negb (Ascii.eqb ":" d)) (pretty z) = true.
Proof.
  assert (Hn : ∀ n : N, Str.sforallb (λ d, negb (Ascii.eqb ":" d)) (pretty n) = true).
  { intros n. eapply Str.sforallb_impl; [|apply Str.pretty_N_digits].
    intros c Hc. apply negb_true_iff, Ascii.eqb_neq. by intros <-. }
  destruct z as [|p|p]; [done|apply (Hn (Npos p))|].
  change (pretty (Z.neg p)) with (String "-" (pretty (Npos p))). cbn. apply Hn.
Qed.

Lemma bucket_key_inj key b key' b' :
  bucket_key prefix key b = bucket_key prefix key' b' → Str.lower key = Str.lower key' ∧ b = b'.
Proof.
  unfold bucket_key. intros H. do 2 apply (inj (String.append _)) in H.
  apply (Str.last_sep_inj ":") in H as [H1 H2]; [|apply pretty_Z_no_colon..].
  split; [done|]. by apply (inj pretty) in H2.
Qed.

Lemma bucket_key_lower key key' b :
  Str.lower key = Str.lower key' → bucket_key prefix key b = bucket_key prefix key' b.
Proof. intros H. unfold bucket_key. by rewrite H. Qed.

(** In the window every key holds its count and lives until the window has
    passed. *)
Definition red_rep (hist : list hit) (now : Z) (r : R) : Prop :=
  r_clock r <= now ∧
  ∀ key b, oldest l now <= b →
    default 0 (fst <$> r_entry r (bucket_key prefix key b)) = bucket_count l hist (Str.lower key) b ∧
    ∀ v d, r_entry r (bucket_key prefix key b) = Some (v, Some d) →
      (b + rl_num_buckets l + 1) * rl_bucket_size l <= d.

Lemma now_before_next now : now < (current_bucket l now + 1) * rl_bucket_size l.
Proof. unfold current_bucket. pose proof (Z.mul_succ_div_gt now (rl_bucket_size l) Hbs). lia. Qed.

Lemma red_rep_unexpired hist now r key b :
  red_rep hist now r → oldest l now <= b → unexpired now (r_entry r (bucket_key prefix key b)).
Proof.
  intros [_ H] Hb. destruct (H key b Hb) as [_ Hd].
  destruct (r_entry r (bucket_key prefix key b)) as [[v [d|]]|]; try done. cbn.
  specialize (Hd v d eq_refl). pose proof (now_before_next now). unfold oldest in Hb. nia.
Qed.

Lemma red_rep_later hist t now r : red_rep hist t r → t <= now → red_rep hist now r.
Proof.
  intros [Hc H] Ht. pose proof (current_bucket_mono t now Ht). split; [lia|].
  intros key b Hb. apply H. unfold oldest in *. lia.
Qed.

(** Operations on keys that are not in the window, or on none. *)
Lemma red_rep_after hist now touched r r' :
  red_rep hist now r → r_after now touched r r' →
  (∀ key b, ¬ touched (bucket_key prefix key b)) → red_rep hist now r'.
Proof.
  intros Hrep [Hc Hk] Ht. split; [lia|]. intros key b Hb.
  rewrite Hk by (apply Ht || by eapply red_rep_unexpired). by apply Hrep.
Qed.

Lemma window_read hist now key r : red_rep hist now r →
  ∃ r', r_mget redis (window_keys prefix l (current_bucket l now) key) now r =
          (Ok (map (λ k, fst <$> r_entry r k) (window_keys prefix l (current_bucket l now) key)), r') ∧
    red_rep hist now r' ∧
    sum_counts (map (λ k, fst <$> r_entry r k) (window_keys prefix l (current_bucket l now) key)) =
      window_count l hist now (Str.lower key).
Proof.
  intros Hrep. set (ks := window_keys prefix l (current_bucket l now) key).
  assert (Hin : ∀ i, i ∈ seqZ 0 (rl_num_buckets l + 1) → oldest l now <= current_bucket l now - i).
  { intros i Hi%elem_of_seqZ. unfold oldest. lia. }
  destruct (r_mget_law r ks now) as (r' & E & Hafter); [apply Hrep| |].
  { apply List.Forall_forall. intros k Hk. unfold ks, window_keys in Hk.
    rewrite List.in_map_iff in Hk. destruct Hk as [i [Hk Hi]]. rewrite <-Hk.
    apply list_elem_of_In in Hi.
    by eapply red_rep_unexpired; [|apply Hin]. }
  exists r'. split_and!; [exact E|by eapply red_rep_after; [| |intros ? ? ?]|].
  assert (Hsum : ∀ js, (∀ i, i ∈ js → oldest l now <= current_bucket l now - i) →
    sum_counts (map (λ k, fst <$> r_entry r k) (map (λ i, bucket_key prefix key (current_bucket l now - i)) js)) =
    sum_over (bucket_count l hist (Str.lower key)) (map (λ i, current_bucket l now - i) js)).
  { induction js as [|i js IH]; intros Hjs; [done|]. cbn. f_equal.
    - apply Hrep. apply Hjs. by left.
    - apply IH. intros j Hj. apply Hjs. by right. }
  unfold ks, window_keys. rewrite Hsum by done. symmetry. apply window_count_sum.
  - apply NoDup_fmap_2; [intros i j; lia|apply NoDup_seqZ].
  - intros b. rewrite list_elem_of_fmap. setoid_rewrite elem_of_seqZ. unfold oldest. split.
    + intros (i & -> & Hi). lia.
    + intros Hb. exists (current_bucket l now - b). lia.
Qed.

Lemma redis_count_rep hist t now key r :
  red_rep hist t r → t <= now →
  ∃ r', get_count_redis prefix redis l now key r = (Ok (window_count l hist now (Str.lower key)), r') ∧
    red_rep hist now r'.
Proof.
  intros Hrep Ht. apply (red_rep_later _ _ now) in Hrep; [|done].
  destruct (window_read hist now key r Hrep) as (r' & E & Hrep' & Hsum).
  exists r'. split; [|done]. unfold get_count_redis. rewrite st_bind_eq, E. cbn. by rewrite Hsum.
Qed.

(** Writing the current bucket of a key. *)
Lemma red_rep_touch hist hist' now key r r' v d :
  red_rep hist now r → r_after now (eq (bucket_key prefix key (current_bucket l now))) r r' →
  r_entry r' (bucket_key prefix key (current_bucket l now)) = Some (v, d) →
  v = bucket_count l hist' (Str.lower key) (current_bucket l now) →
  (∀ key' b, (key', b) ≠ (Str.lower key, current_bucket l now) →
    bucket_count l hist' key' b = bucket_count l hist key' b) →
  (∀ d', d = Some d' → (current_bucket l now + rl_num_buckets l + 1) * rl_bucket_size l <= d') →
  red_rep hist' now r'.
Proof.
  intros Hrep [Hc Hk] E Hv Hother Hd. split; [lia|]. intros key' b Hb.
  destruct (decide ((Str.lower key', b) = (Str.lower key, current_bucket l now))) as [Heq|Hne].
  - simplify_eq. rewrite (bucket_key_lower key' key) by done. rewrite E, H. cbn. split; [done|].
    intros ? d' [= <- ->]. by apply Hd.
  - rewrite Hk; [|by intros [? ?]%bucket_key_inj; apply Hne; f_equal|by eapply red_rep_unexpired].
    rewrite Hother by done. by apply Hrep.
Qed.

Lemma redis_check_rep hist t now key r :
  red_rep hist t r → t <= now →
  ∃ r', is_limited_redis prefix redis l now key r =
          (Ok (rl_limit l <? window_count l ((now, Str.lower key) :: hist) now (Str.lower key)), r') ∧
    red_rep ((now, Str.lower key) :: hist) now r'.
Proof.
  intros Hrep Ht. apply (red_rep_later _ _ now) in Hrep; [|done].
  set (hist' := (now, Str.lower key) :: hist). set (k0 := bucket_key prefix key (current_bucket l now)).
  assert (Hold : oldest l now <= current_bucket l now) by (unfold oldest; lia).
  pose proof (proj2 Hrep key _ Hold) as [Hcount Hdead]. fold k0 in Hcount, Hdead.
  assert (Hhit : in_bucket l (Str.lower key) (current_bucket l now) (now, Str.lower key) = true).
  { unfold in_bucket. by rewrite String.eqb_refl, Z.eqb_refl. }
  assert (Hother : ∀ key' b, (key', b) ≠ (Str.lower key, current_bucket l now) →
    bucket_count l hist' key' b = bucket_count l hist key' b).
  { intros key' b Hne. unfold hist'. rewrite bucket_count_cons. unfold in_bucket. cbn [fst snd].
    destruct (String.eqb_spec (Str.lower key) key') as [<-|_]; [|done].
    destruct (Z.eqb_spec (current_bucket l now) b) as [<-|_]; [by destruct Hne|done]. }
  destruct (r_incr_law r k0 now) as (r1 & E1 & Hafter1 & Hent1);
    [apply Hrep|by eapply red_rep_unexpired|].
  rewrite Hcount in E1, Hent1.
  assert (Hv : bucket_count l hist (Str.lower key) (current_bucket l now) + 1 =
    bucket_count l hist' (Str.lower key) (current_bucket l now)).
  { unfold hist'. rewrite bucket_count_cons, Hhit. lia. }
  assert (Hrep1 : red_rep hist' now r1).
  { eapply red_rep_touch; [exact Hrep|exact Hafter1|exact Hent1|done|done|].
    intros d' Hd'. destruct (r_entry r k0) as [[v d]|]; [|done]. cbn in Hd'. subst d. by eapply Hdead. }
  assert (∃ r2, (if bucket_count l hist (Str.lower key) (current_bucket l now) + 1 =? 1
      then r_expire redis k0 (rl_window l + rl_bucket_size l) now else mret tt) r1 = (Ok tt, r2) ∧
    red_rep hist' now r2) as (r2 & E2 & Hrep2).
  { destruct (_ =? 1); [|by exists r1].
    destruct (r_expire_law r1 k0 (rl_window l + rl_bucket_size l) now _ _ (proj1 Hrep1) Hent1)
      as (r2 & E2 & Hafter2 & Hent2); [by eapply red_rep_unexpired|nia|].
    exists r2. split; [done|]. eapply red_rep_touch; [exact Hrep1|exact Hafter2|exact Hent2|done|done|].
    intros d' [= <-]. unfold current_bucket. pose proof (Z.mul_div_le now (rl_bucket_size l) Hbs). nia. }
  destruct (window_read hist' now key r2 Hrep2) as (r3 & E3 & Hrep3 & Hsum).
  exists r3. split; [|done]. unfold is_limited_redis. fold k0.
  rewrite st_bind_eq, E1. cbn. rewrite st_bind_eq, E2. cbn. rewrite st_bind_eq, E3. cbn. by rewrite Hsum.
Qed.
End Redis.

(** ** Serving a sequence of requests *)

Section Serve.
Context (prefix : string) {R : Type} (redis : redis_ops R).

Definition serve (connected : bool) (req : request) : st (R * memory_store) outcome :=
  match req with
  | Check now key => b ← is_limited prefix redis l connected now key; mret (Limited b)
  | Count now key => n ← get_count prefix redis l connected now key; mret (Counted n)
  end.

Lemma serve_memory_refines hist t reqs (r : R) store :
  rl_enabled l = true → mem_rep hist t store → ordered t reqs →
  ∃ s', mapM (serve false) reqs (r, store) = (Ok (spec_run l id hist reqs), s').
Proof.
  intros Hen. revert hist t store. induction reqs as [|req reqs IH]; intros hist t store Hrep Ho; [by eexists|].
  destruct Ho as [Ht Ho].
  assert (∃ store', serve false req (r, store) = (Ok (spec_step l id hist req).1, (r, store')) ∧
    mem_rep (spec_step l id hist req).2 (time_of req) store') as (store' & E & Hrep').
  { destruct req as [now key|now key]; cbn in *; rewrite st_bind_eq;
      unfold is_limited, get_count, or_memory; rewrite Hen; cbn.
    - pose proof (memory_check_rep hist t now key store Hrep Ht) as Hm.
      destruct (is_limited_memory l now key store) as [b store']. destruct Hm as [-> Hm]. by exists store'.
    - pose proof (memory_count_rep hist t now key store Hrep Ht) as Hm.
      destruct (get_count_memory l now key store) as [n store']. destruct Hm as [-> Hm]. by exists store'. }
  cbn. destruct (spec_step l id hist req) as [o hist']. cbn in *.
  destruct (IH hist' _ store' Hrep' Ho) as [s' IH']. exists s'.
  rewrite st_bind_eq, E. cbn. rewrite st_bind_eq, IH'. done.
Qed.

Lemma serve_redis_refines `{!RedisLaws redis} hist t reqs (r : R) (store : memory_store) :
  rl_num_buckets l * rl_bucket_size l <= rl_window l →
  rl_enabled l = true → red_rep prefix redis hist t r → ordered t reqs →
  ∃ s', mapM (serve true) reqs (r, store) = (Ok (spec_run l Str.lower hist reqs), s').
Proof.
  intros Hw Hen. revert hist t r. induction reqs as [|req reqs IH]; intros hist t r Hrep Ho; [by eexists|].
  destruct Ho as [Ht Ho].
  assert (∃ r', serve true req (r, store) = (Ok (spec_step l Str.lower hist req).1, (r', store)) ∧
    red_rep prefix redis (spec_step l Str.lower hist req).2 (time_of req) r') as (r' & E & Hrep').
  { destruct req as [now key|now key]; cbn in *; rewrite st_bind_eq;
      unfold is_limited, get_count, or_memory; rewrite Hen; cbn.
    - destruct (redis_check_rep prefix redis Hw hist t now key r Hrep Ht) as (r' & -> & Hr). by exists r'.
    - destruct (redis_count_rep prefix redis hist t now key r Hrep Ht) as (r' & -> & Hr). by exists r'. }
  cbn. destruct (spec_step l Str.lower hist req) as [o hist']. cbn in *.
  destruct (IH hist' _ r' Hrep' Ho) as [s' IH']. exists s'.
  rewrite st_bind_eq, E. cbn. rewrite st_bind_eq, IH'. done.
Qed.
End Serve.
End Limiter.

(** ** A limiter that starts empty *)

Definition norm_of (connected : bool) : string → string := if connected then Str.lower else id.

Lemma make_limiter_spec limit window bucket_size l :
  make_limiter limit window bucket_size true = Ok l → 0 < bucket_size → 0 <= window →
  rl_enabled l = true ∧ rl_limit l = limit ∧ 0 < rl_bucket_size l ∧ 0 <= rl_num_buckets l ∧
  rl_num_buckets l = window / bucket_size ∧ rl_bucket_size l = bucket_size ∧
  rl_num_buckets l * rl_bucket_size l <= rl_window l.
Proof.
  unfold make_limiter. intros H Hb Hw. destruct (Z.eqb_spec bucket_size 0); [lia|].
  injection H as <-. cbn. pose proof (Z.div_pos window bucket_size Hw Hb).
  pose proof (Z.mul_div_le window bucket_size Hb). split_and!; lia.
Qed.

Lemma limiter_serves prefix {R} (redis : redis_ops R) `{!RedisLaws redis} connected limit window bucket_size l t r reqs :
  make_limiter limit window bucket_size true = Ok l → 0 < bucket_size → 0 <= window →
  r_clock r <= t → (∀ k, r_entry r k = None) → ordered t reqs →
  ∃ s', mapM (serve l prefix redis connected) reqs (r, ∅) = (Ok (spec_run l (norm_of connected) [] reqs), s').
Proof.
  intros Hl Hb Hw Hc Hfresh Ho.
  apply make_limiter_spec in Hl as (Hen & _ & Hbs & Hnb & _ & _ & Hwin); [|done..].
  destruct connected.
  - eapply serve_redis_refines; eauto. split; [done|]. intros key b _. by rewrite Hfresh.
  - eapply serve_memory_refines; eauto. split.
    + intros b key _. unfold cell. by rewrite lookup_empty.
    + intros b [? Hx]. by rewrite lookup_empty in Hx.
Qed.

(** ** Requests let through *)

Section Spans.
Context (l : rate_limiter) (Hbs : 0 < rl_bucket_size l) (Hnb : 0 <= rl_num_buckets l).
Context (norm : string → string) (key : string) (lo hi : Z).
Context (Hspan : hi - lo <= rl_num_buckets l * rl_bucket_size l).

(** A request of the key that was let through, between two times. *)
Definition admitted (ro : request * outcome) : bool :=
  match ro with
  | (Check now k, Limited false) => String.eqb (norm k) key && (lo <=? now) && (now <=? hi)
  | _ => false
  end.

Definition admitted_count (reqs : list request) (outs : list outcome) : Z :=
  Z.of_nat (length (List.filter admitted (zip reqs outs))).

(** The history's requests of the key from [lo] on. *)
Definition span_count (hist : list hit) : Z :=
  Z.of_nat (length (List.filter (λ h, String.eqb h.2 key && (lo <=? h.1)) hist)).

Lemma span_in_window hist now :
  (∀ h, In h hist → h.1 <= now) → now <= hi → span_count hist <= window_count l hist now key.
Proof.
  intros Hall Hhi. unfold span_count, window_count. induction hist as [|h hist IH]; [done|].
  specialize (IH (λ x Hx, Hall x (or_intror Hx))). pose proof (Hall h (or_introl eq_refl)) as Hh.
  cbn [List.filter]. unfold in_window at 1. destruct (String.eqb h.2 key); cbn [andb]; [|done].
  destruct (Z.leb_spec lo h.1); cbn [length]; [|destruct (_ && _); cbn [length]; lia].
  assert (oldest l now <= current_bucket l h.1).
  { unfold oldest, current_bucket.
    replace (now / rl_bucket_size l - rl_num_buckets l)
      with ((now + (- rl_num_buckets l) * rl_bucket_size l) / rl_bucket_size l)
      by (rewrite Z.div_add by lia; lia).
    apply Z.div_le_mono; lia. }
  pose proof (current_bucket_mono l Hbs _ _ Hh).
  replace (oldest l now <=? current_bucket l h.1) with true by lia.
  replace (current_bucket l h.1 <=? current_bucket l now) with true by lia. cbn [andb length]. lia.
Qed.

Lemma admitted_bound t hist reqs :
  ordered t reqs → (∀ h, In h hist → h.1 <= t) →
  let n := admitted_count reqs (spec_run l norm hist reqs) in
  n = 0 ∨ span_count hist + n <= rl_limit l.
Proof.
  revert t hist. induction reqs as [|req reqs IH]; intros t hist Ho Hall; [by left|].
  destruct Ho as [Ht Ho]. cbn [spec_run].
  destruct req as [now k|now k]; cbn [spec_step].
  2: { specialize (IH now hist Ho). cbn zeta in IH. unfold admitted_count in *. cbn.
       apply IH. intros h Hh. specialize (Hall h Hh). cbn in Ht. lia. }
  cbn in Ht, Ho. set (hist' := (now, norm k) :: hist).
  assert (Hall' : ∀ h, In h hist' → h.1 <= now).
  { intros h [<-|Hh]; [done|]. specialize (Hall h Hh). lia. }
  specialize (IH now hist' Ho Hall'). cbn zeta in *. unfold admitted_count in *.
  cbn [zip zip_with List.filter]. fold (zip reqs (spec_run l norm hist' reqs)).
  set (n := length (List.filter admitted (zip reqs (spec_run l norm hist' reqs)))) in *.
  assert (Hs : span_count hist' =
    (if String.eqb (norm k) key && (lo <=? now) then 1 else 0) + span_count hist).
  { unfold span_count, hist'. cbn. destruct (String.eqb (norm k) key && _); cbn [length]; lia. }
  destruct (admitted (Check now k, _)) eqn:Had.
  - right. unfold admitted in Had. destruct (Z.ltb_spec (rl_limit l) (window_count l hist' now (norm k))); [done|].
    apply andb_prop in Had as [[Hk Hlo]%andb_prop Hhi]. rewrite Hk, Hlo in Hs. cbn in Hs. cbn [length].
    apply String.eqb_eq in Hk. rewrite Hk in *.
    pose proof (span_in_window hist' now Hall' ltac:(lia)). destruct IH; lia.
  - destruct IH as [?|?]; [by left|right]. destruct (String.eqb (norm k) key && _); lia.
Qed.
End Spans.

(** C35: A limiter that starts empty answers every sequence of checks and counts, at times that do not go back, as if it kept the whole history: a check counts the request and refuses it when more than the limit of the key's requests fall in the buckets of the window, and a count is their number.  The memory store and the Redis keys (under the documented behaviour of INCR, EXPIRE and MGET, whose keys the code lets expire) implement the same specification, but for the case of keys, which Redis ignores. *)
Theorem limiter_refines_history prefix {R} (redis : redis_ops R) `{!RedisLaws redis} limit window bucket_size l t (r : R) reqs :
  make_limiter limit window bucket_size true = Ok l → 0 < bucket_size → 0 <= window →
  r_clock r <= t → (∀ k, r_entry r k = None) → ordered t reqs →
  (mapM (serve l prefix redis false) reqs (r, ∅)).1 = Ok (spec_run l id [] reqs) ∧
  (mapM (serve l prefix redis true) reqs (r, ∅)).1 = Ok (spec_run l Str.lower [] reqs).
Proof.
  intros Hl Hb Hw Hc Hfresh Ho. split.
  - by destruct (limiter_serves prefix redis false _ _ _ l t r reqs Hl Hb Hw Hc Hfresh Ho) as [s' ->].
  - by destruct (limiter_serves prefix redis true _ _ _ l t r reqs Hl Hb Hw Hc Hfresh Ho) as [s' ->].
Qed.

Definition empty_redis : redis_db := {| rd_clock := 0; rd_keys := ∅ |}.
Definition two_in_two_minutes : rate_limiter :=
  {| rl_limit := 2; rl_window := 120; rl_bucket_size := 60; rl_num_buckets := 2; rl_enabled := true |}.

Lemma limiter_refines_history_witness :
  (mapM (serve two_in_two_minutes "app" redis_server true)
     [Check 1000 "A"; Check 1010 "a"; Check 1070 "A"; Count 1100 "b"; Count 1170 "a"] (empty_redis, ∅)).1 =
  Ok [Limited false; Limited false; Limited true; Counted 0; Counted 1].
Proof.
  destruct (limiter_refines_history "app" redis_server 2 120 60 two_in_two_minutes 1000 empty_redis
    [Check 1000 "A"; Check 1010 "a"; Check 1070 "A"; Count 1100 "b"; Count 1170 "a"]) as [_ ->];
    [reflexivity|lia|lia|cbn; lia|intros k; exact (lookup_empty (M:=gmap string) k)|cbn; lia|reflexivity].
Defined.

(** C36: With a window that is a whole number of buckets, a limiter that starts empty lets at most the limit of requests of a key through in any span of the window's length, wherever the span begins, with either store. *)
Theorem admitted_at_most_limit prefix {R} (redis : redis_ops R) `{!RedisLaws redis} connected limit window bucket_size l t (r : R) reqs key lo :
  make_limiter limit window bucket_size true = Ok l → 0 < bucket_size → 0 <= window → (bucket_size | window) →
  0 <= limit → r_clock r <= t → (∀ k, r_entry r k = None) → ordered t reqs →
  ∃ outs s', mapM (serve l prefix redis connected) reqs (r, ∅) = (Ok outs, s') ∧ length outs = length reqs ∧
    admitted_count (norm_of connected) key lo (lo + window) reqs outs <= limit.
Proof.
  intros Hl Hb Hw Hdiv Hlim Hc Hfresh Ho.
  destruct (limiter_serves prefix redis connected _ _ _ l t r reqs Hl Hb Hw Hc Hfresh Ho) as [s' E].
  exists (spec_run l (norm_of connected) [] reqs), s'. split_and!; [done|apply spec_run_length|].
  apply make_limiter_spec in Hl as (_ & Hlimit & Hbs & Hnb & Hn & Hsz & _); [|done..].
  destruct (admitted_bound l Hbs (norm_of connected) key lo (lo + window)) with (t := t) (hist := @nil hit) (reqs := reqs)
    as [H|H]; [|done|done|lia|unfold span_count in H; cbn in H; lia].
  rewrite Hn, Hsz. rewrite Z.mul_comm, <-Z_div_exact_full_2; [lia|lia|]. by apply Z.mod_divide; [lia|].
Qed.

Lemma admitted_at_most_limit_witness :
  ∃ outs s', mapM (serve two_in_two_minutes "app" redis_server false)
      [Check 1000 "a"; Check 1010 "a"; Check 1070 "a"] (empty_redis, ∅) = (Ok outs, s') ∧ length outs = 3%nat ∧
    admitted_count (norm_of false) "a" 1000 (1000 + 120) [Check 1000 "a"; Check 1010 "a"; Check 1070 "a"] outs <= 2.
Proof.
  apply (admitted_at_most_limit "app" redis_server false 2 120 60 two_in_two_minutes 1000 empty_redis
    [Check 1000 "a"; Check 1010 "a"; Check 1070 "a"] "a" 1000);
    [reflexivity|lia|lia|by exists 2|lia|cbn; lia|intros k; exact (lookup_empty (M:=gmap string) k)|cbn; lia].
Defined.
