(* ===== verification/ToolApproval.v ===== *)
(** * Approval of tool calls (utils/tool_approval.py, with the transaction of
    utils/middleware.py that starts an approved call): the life of the tool
    calls of a stored message.

    [Chats.edit_message_output] hands out a copy of the stored message under a
    lock and writes it back when its block ends normally; an operation here is
    that block, a function from the message found to its answer and the message
    to be written, and an exception leaves the stored message as it was.

    A message that is missing or empty is [None].

    The items of a message's output are dicts.  The code's lists of pending
    items hold the same objects as the output; here they are positions in it. *)

From S2P Require Import Prelude PyVal Config Messages.

(** ** Items *)

Notation output_items := (list pydict).

(** [for item in message.get('output') or []]; an output with an item that is
    not a dict raises at the item's first [.get]. *)
Definition output_items_of (message : pydict) : res output_items :=
  match por (dget message "output") (VList []) with
  | VList l => mapR as_dict l
  | VDict _ | VStr _ => Err AttributeError
  | _ => Err TypeError
  end.

(** [message['output']] once the items were changed in place: an empty or
    missing output is replaced by a list of its own, which is not stored. *)
Definition with_output (message : pydict) (output : output_items) : pydict :=
  if truthy (dget message "output") then dict_set "output" (VList (map VDict output)) message
  else message.

(** [item.get('call_id') or item.get('id')] *)
Definition item_id (item : pydict) : pyval := por (dget item "call_id") (dget item "id").

Definition is_true (v : pyval) : bool := match v with VBool true => true | _ => false end.
Definition is_approved (item : pydict) : bool := is_true (dget item "approved").
Definition in_progress (item : pydict) : bool := veq_str (dget item "status") "in_progress".

Definition item_at (output : output_items) (i : nat) : pydict := default [] (output !! i).
Definition set_item (i : nat) (k : string) (v : pyval) (output : output_items) : output_items :=
  alter (dict_set k v) i output.

(** [result_ids], a set: its elements are hashed. *)
Fixpoint result_ids (output : output_items) : res (list pyval) :=
  match output with
  | [] => Ok []
  | item :: rest =>
      if is_type item "function_call_output"
      then v ← hashed (dget item "call_id"); vs ← result_ids rest; Ok (v :: vs)
      else result_ids rest
  end.

Definition pending_statuses : list string := ["pending"; "queued"; "requires_approval"; "in_progress"].

Definition is_pending (ids : list pyval) (item : pydict) : res bool :=
  if negb (is_type item "function_call") then Ok false
  else
    id ← hashed (item_id item);
    if mem_id id ids then Ok false
    else status ← hashed (dget item "status"); Ok (vin_strs status pending_statuses).

Fixpoint pending_from (ids : list pyval) (i : nat) (output : output_items) : res (list nat) :=
  match output with
  | [] => Ok []
  | item :: rest =>
      b ← is_pending ids item;
      ps ← pending_from ids (S i) rest;
      Ok (if (b : bool) then i :: ps else ps)
  end.

(** [pending_tool_calls] *)
Definition pending_tool_calls (output : output_items) : res (list nat) :=
  ids ← result_ids output; pending_from ids 0 output.

(** [tool_continuation]; the identifier holds a fresh [uuid4]. *)
Definition tool_continuation (uuid : string) : pydict :=
  [("type", VStr "message"); ("id", VStr ("msg_" +:+ uuid)); ("status", VStr "in_progress");
   ("role", VStr "assistant");
   ("content", VList [VDict [("type", VStr "output_text"); ("text", VStr EmptyString)]])].

Definition NOT_FOUND : string := "We could not find what you're looking for :/".
Definition ACCESS_PROHIBITED : string :=
  "You do not have permission to access this resource. Please contact your administrator for assistance.".

(** ** Starting a call

    The transaction of [resume_tool_calls]: [full] tells the mode in which
    calls need no approval.  The answer is the call to run, if any. *)
Definition may_start (full : bool) (item : pydict) : bool :=
  negb (veq_str (dget item "name") "ask_user") && (is_approved item || full).

Definition claim_tool_call (full : bool) (message : option pydict) : res (option pydict * pydict) :=
  match message with
  | None => Err (HTTPException 404 "Message not found.")
  | Some message =>
      output ← output_items_of message;
      pending ← pending_tool_calls output;
      if existsb (λ i, in_progress (item_at output i)) pending then Ok (None, message)
      else
        match find_first (λ i, may_start full (item_at output i)) pending with
        | None =>
            match pending with
            | i :: _ => Ok (None, with_output message (set_item i "status" (VStr "pending") output))
            | [] => Ok (None, message)
            end
        | Some i =>
            let item := item_at output i in
            call_id ← (if truthy (dget item "call_id") then Ok (dget item "call_id") else ditem item "id");
            let item' := dict_set "status" (VStr "in_progress") (dict_set "call_id" call_id item) in
            Ok (Some item', dict_set "done" (VBool false) (with_output message (<[i := item']> output)))
        end
  end.

(** ** Completing a call *)

(** The pending call with the identifier of [call]: [call['call_id']] is only
    evaluated when there is a pending call. *)
Definition find_saved (output : output_items) (pending : list nat) (call : pydict) : res (option nat) :=
  match pending with
  | [] => Ok None
  | _ =>
      call_id ← ditem call "call_id";
      Ok (find_first (λ i, py_eqb (dget (item_at output i) "call_id") call_id) pending)
  end.

Definition not_running : exn := HTTPException 409 "Tool call is no longer running.".

(** [complete_tool_call] *)
Definition complete_tool_call (uuid : string) (call result : pydict) (message : option pydict)
    : res (output_items * pydict) :=
  match message with
  | None => Err (HTTPException 404 NOT_FOUND)
  | Some message =>
      output ← output_items_of message;
      pending ← pending_tool_calls output;
      saved ← find_saved output pending call;
      match saved with
      | None => Err not_running
      | Some i =>
          if negb (in_progress (item_at output i)) then Err not_running
          else
            let output := alter (λ item, dict_update item call) i output ++ [result] in
            pending ← pending_tool_calls output;
            if veq_str (dget result "status") "incomplete"
            then Ok (output, dict_set "done" (VBool true) (with_output message output))
            else
              let output :=
                match pending with
                | [] => output ++ [tool_continuation uuid]
                | _ =>
                    match find_first (λ j, negb (truthy (dget (item_at output j) "approved"))) pending with
                    | Some j => set_item j "status" (VStr "pending") output
                    | None => output
                    end
                end in
              Ok (output, with_output message output)
      end
  end.

(** ** The user's decision on a call *)

Inductive action := Approve | Reject | Answer.

(** [ResolveToolCallForm] *)
Record resolve_form := {
  rf_call_id : string;
  rf_action : action;
  rf_answers : pyval;
  rf_timed_out : bool;
}.

Inductive resume := ResumeTools | ResumeModel.

Definition already_resolved : exn := HTTPException 409 "Tool call has already been resolved.".

(** The result item of a call that is not run. *)
Definition decision_result (call_id text status : string) : pydict :=
  [("type", VStr "function_call_output"); ("id", VStr ("fco_" +:+ call_id)); ("call_id", VStr call_id);
   ("output", VList [VDict [("type", VStr "input_text"); ("text", VStr text)]]); ("status", VStr status)].

Section Resolve.
(** [JSONCodec.dumps] *)
Context (dumps : pyval → string).

Definition answer_payload (form : resolve_form) : pyval :=
  if rf_timed_out form
  then VDict [("status", VStr "cancelled"); ("answers", VDict []); ("timed_out", VBool true)]
  else VDict [("status", VStr "answered"); ("answers", por (rf_answers form) (VDict []))].

(** The three actions on the items; [i] is the position of the call. *)
Definition apply_action (form : resolve_form) (i : nat) (output : output_items) : res output_items :=
  let call_id := rf_call_id form in
  let ask_user := veq_str (dget (item_at output i) "name") "ask_user" in
  match rf_action form with
  | Approve =>
      if ask_user then Err (HTTPException 400 "ask_user requires an answer or deny.")
      else Ok (set_item i "approved" (VBool true) (set_item i "status" (VStr "queued") output))
  | Reject =>
      Ok (set_item i "status" (VStr "rejected") output
          ++ [decision_result call_id "Error: tool call rejected by user." "rejected"])
  | Answer =>
      if negb ask_user then Err (HTTPException 400 "Tool call does not accept answers.")
      else if is_none (rf_answers form) && negb (rf_timed_out form)
      then Err (HTTPException 400 "Answers are required for ask_user.")
      else Ok (set_item i "status" (VStr "completed") output
               ++ [decision_result call_id (dumps (answer_payload form)) "completed"])
  end.

(** Whether the call has a result or is not waiting for a decision. *)
Definition is_resolved (form : resolve_form) (i : nat) (output : output_items) : res bool :=
  if existsb (λ item, is_type item "function_call_output" && veq_str (dget item "call_id") (rf_call_id form)) output
  then Ok true
  else
    status ← hashed (dget (item_at output i) "status");
    Ok (negb (vin_strs status ["pending"; "queued"; "requires_approval"]) || is_approved (item_at output i)).

(** What follows the decision: the tools or the model go on, or the next call
    is shown to the user. *)
Definition advance (uuid : string) (form : resolve_form) (active : bool) (pending : list nat)
    (output : output_items) : option resume * output_items :=
  if active then (None, output)
  else match rf_action form, pending with
       | Approve, _ => (Some ResumeTools, output)
       | _, [] => (Some ResumeModel, output ++ [tool_continuation uuid])
       | _, j :: _ => (None, set_item j "status" (VStr "pending") output)
       end.

(** The block of [resolve_tool_call_output] on the message of a chat. *)
Definition resolve_message (uuid chat_user_id user_id : string) (form : resolve_form)
    (message : option pydict) : res ((option resume * output_items) * pydict) :=
  match message with
  | None => Err (HTTPException 404 NOT_FOUND)
  | Some message =>
      if negb (veq_str (por (dget message "user_id") (VStr chat_user_id)) user_id)
      then Err (HTTPException 403 ACCESS_PROHIBITED)
      else if negb (is_list (por (dget message "output") (VList [])))
      then Err (HTTPException 400 "Message has no resolvable output.")
      else
        output ← output_items_of message;
        match find_index (λ item, is_type item "function_call" && veq_str (item_id item) (rf_call_id form)) output with
        | None => Err (HTTPException 404 "Tool call not found.")
        | Some i =>
            let output := alter (dict_setdefault "call_id" (VStr (rf_call_id form))) i output in
            resolved ← is_resolved form i output;
            if (resolved : bool) then Err already_resolved
            else
              before ← pending_tool_calls output;
              let active := existsb (λ j, is_approved (item_at output j) || in_progress (item_at output j)) before in
              output ← apply_action form i output;
              pending ← pending_tool_calls output;
              let '(resume, output) := advance uuid form active pending output in
              Ok ((resume, output), with_output (dict_set "done" (VBool false) message) output)
        end
  end.

(** [resolve_tool_call_output]: [chat] is the owner of the chat when the user
    may write to it.  The event sent to the clients is left out. *)
Definition resolve_tool_call_output (chat : option string) (uuid user_id : string) (form : resolve_form)
    (message : option pydict) : res ((option resume * output_items) * pydict) :=
  match chat with
  | None => Err (HTTPException 401 ACCESS_PROHIBITED)
  | Some chat_user_id => resolve_message uuid chat_user_id user_id form message
  end.
End Resolve.

(** ** Pausing for approval *)

(** The body of the loop of [pause_for_tool_approval]; the flag tells that a
    call is shown to the user. *)
Definition pause_item (ids : list pyval) (shown : bool) (item : pydict) : res (bool * pydict) :=
  let is_call := is_type item "function_call" in
  let item :=
    if is_call && negb (truthy (dget item "call_id")) && truthy (dget item "id")
    then dict_set "call_id" (dget item "id") item else item in
  if negb (is_call && truthy (dget item "call_id")) then Ok (shown, item)
  else
    call_id ← hashed (dget item "call_id");
    if mem_id call_id ids || veq_str (dget item "status") "rejected" then Ok (shown, item)
    else if negb shown then Ok (true, dict_set "status" (VStr "pending") item)
    else
      status ← hashed (dget item "status");
      Ok (shown, if vin_strs status ["in_progress"; "completed"]
                 then dict_set "status" (VStr "queued") item else item).

Fixpoint pause_items (ids : list pyval) (shown : bool) (output : output_items) : res output_items :=
  match output with
  | [] => Ok []
  | item :: rest =>
      x ← pause_item ids shown item;
      rest' ← pause_items ids x.1 rest;
      Ok (x.2 :: rest')
  end.

(** [result_call_ids] *)
Fixpoint result_call_ids (output : output_items) : res (list pyval) :=
  match output with
  | [] => Ok []
  | item :: rest =>
      if is_type item "function_call_output" && truthy (dget item "call_id")
      then v ← hashed (dget item "call_id"); vs ← result_call_ids rest; Ok (v :: vs)
      else result_call_ids rest
  end.

(** [pause_for_tool_approval], the output it stores. *)
Definition pause_for_tool_approval (output : output_items) : res output_items :=
  ids ← result_call_ids output; pause_items ids false output.

(** ** Going on after a decision *)

(** The chat row: its data, owner and variables. *)
Record approval_chat := { ac_chat : pydict; ac_user_id : string; ac_variables : pyval }.

Definition dict_or_empty (v : pyval) : pydict := match v with VDict d => d | _ => [] end.

Section Resume.
(** [Chats.get_message_by_id_and_message_id] of the chat, the interface
    settings of a user ([None] without an account or settings) and the
    configuration. *)
Context (get_message : pyval → option pydict) (ui_settings : string → pyval) (c : config_state).

(** The parameters: those of the chat when the message is its owner's, those of
    the message, and the approval mode. *)
Definition resume_params (chat : approval_chat) (owner : pyval) (message_meta : pydict) : res pydict :=
  let chat_params := if veq_str owner (ac_user_id chat) then dict_or_empty (dget (ac_chat chat) "params") else [] in
  let params := dict_update chat_params (dict_or_empty (dget message_meta "params")) in
  current_approval_mode ← hashed (dget chat_params "tool_approval_mode");
  let params := if vin_strs current_approval_mode ["ask"; "full"]
                then dict_set "tool_approval_mode" current_approval_mode params else params in
  Ok (dict_setdefault "tool_approval_mode" (VStr "ask") params).

(** The system prompt of the parameters, of the user or of the instance. *)
Definition resume_system_prompt (owner : pyval) (params : pydict) : res pyval :=
  let system_prompt := dget params "system" in
  if truthy system_prompt then Ok system_prompt
  else
    let settings := match owner with VStr u => por (ui_settings u) (VDict []) | _ => VDict [] end in
    system_prompt ← vget settings "system";
    if is_none system_prompt
    then vget (por (config_get c "ui.default_interface_settings" VNone) (VDict [])) "system"
    else Ok system_prompt.

(** [build_tool_approval_resume_payload] *)
Definition build_tool_approval_resume_payload (chat : option approval_chat) (chat_id message_id : string)
    : res pydict :=
  match chat with
  | None => Err (HTTPException 404 NOT_FOUND)
  | Some chat =>
      match get_message (VStr message_id) with
      | None | Some [] => Err (HTTPException 404 NOT_FOUND)
      | Some assistant_message =>
          let user_message_id := dget assistant_message "parentId" in
          match (if truthy user_message_id then get_message user_message_id else None) with
          | None | Some [] => Err (HTTPException 409 "Tool call parent message is missing.")
          | Some user_message =>
              let message_meta := dict_or_empty (dget assistant_message "meta") in
              let owner := por (dget assistant_message "user_id") (VStr (ac_user_id chat)) in
              params ← resume_params chat owner message_meta;
              models ← (if truthy (dget assistant_message "model") then Ok []
                        else viter (por (dget (ac_chat chat) "models") (VList [])));
              let model_id := por (dget assistant_message "model") (match models with m :: _ => m | [] => VNone end) in
              if negb (truthy model_id) then Err (HTTPException 409 "Tool call message model is missing.")
              else
                system_prompt ← resume_system_prompt owner params;
                let messages := if truthy system_prompt
                                then [VDict [("role", VStr "system"); ("content", system_prompt)]] else [] in
                let or_none key := (key, por (dget message_meta key) VNone) in
                let or_empty key := (key, por (dget message_meta key) (VDict [])) in
                Ok [("stream", dgetd params "stream_response" (VBool true)); ("model", model_id);
                    ("messages", VList messages); ("params", VDict params);
                    ("files", if dict_has "files" message_meta then dget message_meta "files"
                              else dget (ac_chat chat) "files");
                    or_none "filter_ids"; or_none "tool_ids"; or_none "skill_ids"; or_none "terminal_id";
                    or_none "tool_servers"; or_empty "features"; or_empty "variables";
                    ("chat_variables", if veq_str owner (ac_user_id chat) then ac_variables chat else VDict []);
                    ("session_id", dget message_meta "session_id"); ("chat_id", VStr chat_id); ("id", VStr message_id);
                    ("parent_id", dget user_message "parentId"); ("user_message", VDict user_message);
                    ("assistant_message_id", VStr message_id)]
          end
      end
  end.
End Resume.
