(* ===== verification/ToolApprovalProps.v ===== *)
(** * Properties of the approval of tool calls: the operations on a stored
    message refine a small transition system on its calls and results. *)

From S2P Require Import Prelude PyVal Messages ToolApproval.

(** ** The abstract calls of a message *)

Inductive vstatus := Waiting | Running | Closed.
#[export] Instance vstatus_eq_dec : EqDecision vstatus.
Proof. solve_decision. Defined.

(** A call with its identifier, status, approval and whether it asks the
    user; a result; another item. *)
Inductive vitem :=
| VCall (id : string) (s : vstatus) (approved ask : bool)
| VResult (id : string)
| VOther.

Definition status_of (v : pyval) : vstatus :=
  if veq_str v "in_progress" then Running
  else if vin_strs v ["pending"; "queued"; "requires_approval"] then Waiting else Closed.

Definition abs (item : pydict) : vitem :=
  if is_type item "function_call" then
    match item_id item with
    | VStr id => VCall id (status_of (dget item "status")) (is_approved item)
                   (veq_str (dget item "name") "ask_user")
    | _ => VOther
    end
  else if is_type item "function_call_output" then
    match dget item "call_id" with VStr id => VResult id | _ => VOther end
  else VOther.

Definition abs_all (output : output_items) : list vitem := map abs output.

Definition rids (v : list vitem) : list string :=
  omap (λ x, match x with VResult id => Some id | _ => None end) v.

(** A call without a result, not closed. *)
Definition vpend (ids : list string) (x : vitem) : bool :=
  match x with VCall id s _ _ => bool_decide (id ∉ ids) && bool_decide (s ≠ Closed) | _ => false end.

Definition pends (v : list vitem) (i : nat) (x : vitem) : Prop :=
  v !! i = Some x ∧ vpend (rids v) x = true.
Definition no_pending (v : list vitem) : Prop := ∀ i x, ¬ pends v i x.
Definition is_running (x : vitem) : bool := match x with VCall _ Running _ _ => true | _ => false end.
Definition running (v : list vitem) (i : nat) (id : string) : Prop :=
  ∃ a k, pends v i (VCall id Running a k).

(** Items as the program writes them: identifiers are non-empty strings, a
    running call has its [call_id]. *)
Definition tidy (item : pydict) : Prop :=
  (is_type item "function_call" = true →
     (∃ id, item_id item = VStr id ∧ id ≠ EmptyString) ∧ hashable (dget item "status") = true ∧
     (in_progress item = true → truthy (dget item "call_id") = true)) ∧
  (is_type item "function_call_output" = true → ∃ id, dget item "call_id" = VStr id).

(** ** Transitions *)

(** What an operation did: nothing, an approval, the start of a call, a result,
    or the last result, after which the model goes on. *)
Inductive effect := Idle | Approved | Runs (id : pyval) | Answered | Restarts.

Inductive moves (v : list vitem) : effect → list vitem → Prop :=
| moves_skip : moves v Idle v
| moves_start i id a k :
    pends v i (VCall id Waiting a k) → (∀ j id', ¬ running v j id') →
    moves v (Runs (VStr id)) (<[i := VCall id Running a k]> v)
| moves_approve i id :
    pends v i (VCall id Waiting false false) →
    moves v Approved (<[i := VCall id Waiting true false]> v)
| moves_answer i id s a k s' a' k' eff tail :
    pends v i (VCall id s a k) →
    let w := <[i := VCall id s' a' k']> v ++ [VResult id] in
    eff = Answered ∧ tail = [] ∨ eff = Restarts ∧ tail = [VOther] ∧ no_pending w →
    moves v eff (w ++ tail).

Definition cids (v : list vitem) : list string :=
  omap (λ x, match x with VCall id _ _ _ => Some id | _ => None end) v.

(** Calls have identifiers of their own and one result at most, one call runs
    at a time, questions are not approved. *)
Record vinv (v : list vitem) : Prop := {
  vinv_calls : NoDup (cids v);
  vinv_results : NoDup (rids v);
  vinv_running i j id id' : running v i id → running v j id' → i = j;
  vinv_ask i id s a : pends v i (VCall id s a true) → a = false;
}.

(** *** Invariant, by cases on the transitions *)

Lemma rids_app v w : rids (v ++ w) = rids v ++ rids w.
Proof. apply omap_app. Qed.

Lemma rids_insert v i id s a k s' a' k' :
  v !! i = Some (VCall id s a k) → rids (<[i := VCall id s' a' k']> v) = rids v.
Proof.
  intros H. apply list_elem_of_split_length in H as (l1 & l2 & -> & ->).
  rewrite <-(Nat.add_0_r (length l1)), insert_app_r. cbn. by rewrite !rids_app.
Qed.

Lemma cids_insert v i id s a k s' a' k' :
  v !! i = Some (VCall id s a k) → cids (<[i := VCall id s' a' k']> v) = cids v.
Proof.
  intros H. apply list_elem_of_split_length in H as (l1 & l2 & -> & ->).
  rewrite <-(Nat.add_0_r (length l1)), insert_app_r. unfold cids. by rewrite !omap_app.
Qed.

Lemma vpend_mono ids ids' x : ids ⊆ ids' → vpend ids' x = true → vpend ids x = true.
Proof.
  intros H. destruct x as [id s a k| |]; [|done..]. cbn. rewrite !andb_true_iff, !bool_decide_eq_true. set_solver.
Qed.

(** A transition that only changes the call at [i]. *)
Lemma pends_insert v i j id s a k s' a' k' x :
  pends v i (VCall id s a k) → pends (<[i := VCall id s' a' k']> v) j x →
  (j = i ∧ x = VCall id s' a' k' ∧ s' ≠ Closed) ∨ (j ≠ i ∧ pends v j x).
Proof.
  intros [Hi Hp] [Hj Hp']. rewrite (rids_insert _ _ _ _ _ _ _ _ _ Hi) in Hp'.
  apply list_lookup_insert_Some in Hj as [(-> & <- & _)|[Hne Hj]]; [left|by right].
  cbn in Hp'. apply andb_prop in Hp' as [_ Hs%bool_decide_eq_true]. done.
Qed.

(** A call that gets its result leaves the others as they are. *)
Lemma pends_answer v i j id s a k s' a' k' tail x :
  pends v i (VCall id s a k) → rids tail = [] → Forall (λ y, y = VOther) tail →
  pends ((<[i := VCall id s' a' k']> v ++ [VResult id]) ++ tail) j x →
  j ≠ i ∧ pends v j x ∧ (∀ s0 a0 k0, x ≠ VCall id s0 a0 k0).
Proof.
  intros [Hi Hp] Ht Hother [Hj Hp'].
  rewrite !rids_app, (rids_insert _ _ _ _ _ _ _ _ _ Hi), Ht, app_nil_r in Hp'. cbn in Hp'.
  assert (Hx : ∀ s0 a0 k0, x ≠ VCall id s0 a0 k0).
  { intros s0 a0 k0 ->. cbn in Hp'. apply andb_prop in Hp' as [Hn%bool_decide_eq_true _].
    apply Hn, elem_of_app. right. by left. }
  assert (Hv : vpend (rids v) x = true) by (eapply vpend_mono; [|exact Hp']; set_solver).
  rewrite <-app_assoc in Hj. apply lookup_app_Some in Hj as [Hj|[_ Hj]].
  - apply list_lookup_insert_Some in Hj as [(-> & <- & _)|[Hne Hj]]; [by destruct (Hx s' a' k')|done].
  - exfalso. apply list_elem_of_lookup_2 in Hj. apply elem_of_app in Hj as [->%list_elem_of_singleton|Hj]; [done|].
    rewrite Forall_forall in Hother. by rewrite (Hother x Hj) in Hv.
Qed.

Lemma rids_answer v i id s a k s' a' k' tail :
  pends v i (VCall id s a k) → rids tail = [] →
  rids ((<[i := VCall id s' a' k']> v ++ [VResult id]) ++ tail) = rids v ++ [id].
Proof. intros [Hi _] Ht. by rewrite !rids_app, (rids_insert _ _ _ _ _ _ _ _ _ Hi), Ht, app_nil_r. Qed.

Lemma pends_fresh v i id s a k : pends v i (VCall id s a k) → id ∉ rids v.
Proof. intros [_ Hp]. cbn in Hp. by apply andb_prop in Hp as [?%bool_decide_eq_true _]. Qed.

Lemma tail_others (eff : effect) (tail : list vitem) (P : Prop) :
  eff = Answered ∧ tail = [] ∨ eff = Restarts ∧ tail = [VOther] ∧ P →
  rids tail = [] ∧ Forall (λ y, y = VOther) tail.
Proof. intros [[_ ->]|(_ & -> & _)]; repeat constructor. Qed.

Lemma moves_inv v eff w : vinv v → moves v eff w → vinv w.
Proof.
  intros [Hc Hr Hrun Hask] Hm.
  destruct Hm as [|i id a k Hp Hnone|i id Hp|i id s a k s' a' k' eff tail Hp w Htail].
  - by split.
  - assert (Hsub : ∀ j x, pends (<[i:=VCall id Running a k]> v) j x →
      (j = i ∧ x = VCall id Running a k ∧ Running ≠ Closed) ∨ (j ≠ i ∧ pends v j x)) by eauto using pends_insert.
    split.
    + destruct Hp as [Hi _]. by rewrite (cids_insert _ _ _ _ _ _ _ _ _ Hi).
    + destruct Hp as [Hi _]. by rewrite (rids_insert _ _ _ _ _ _ _ _ _ Hi).
    + intros j1 j2 id1 id2 (a1 & k1 & H1) (a2 & k2 & H2).
      apply Hsub in H1 as [(-> & _)|[_ H1]]; [|by destruct (Hnone j1 id1); exists a1, k1].
      apply Hsub in H2 as [(-> & _)|[_ H2]]; [done|by destruct (Hnone j2 id2); exists a2, k2].
    + intros j id1 s1 a1 H1. apply Hsub in H1 as [(-> & [= -> -> -> <-] & _)|[_ H1]]; [by eapply Hask|by eapply Hask].
  - split.
    + destruct Hp as [Hi _]. by rewrite (cids_insert _ _ _ _ _ _ _ _ _ Hi).
    + destruct Hp as [Hi _]. by rewrite (rids_insert _ _ _ _ _ _ _ _ _ Hi).
    + intros j1 j2 id1 id2 (a1 & k1 & H1) (a2 & k2 & H2).
      eapply pends_insert in H1 as [(_ & ? & _)|[_ H1]]; [done| |done].
      eapply pends_insert in H2 as [(_ & ? & _)|[_ H2]]; [done| |done].
      eapply Hrun; by eexists _, _.
    + intros j id1 s1 a1 H1. eapply pends_insert in H1 as [(_ & ? & _)|[_ H1]]; [done| |done]. by eapply Hask.
  - destruct (tail_others _ _ _ Htail) as [Ht Ho]. split.
    + pose proof Hp as [Hi _]. unfold w, cids. rewrite !omap_app. fold (cids (<[i:=VCall id s' a' k']> v)) (cids tail).
      rewrite (cids_insert _ _ _ _ _ _ _ _ _ Hi). cbn. rewrite app_nil_r.
      replace (cids tail) with (@nil string); [by rewrite app_nil_r|].
      clear -Ho. induction Ho as [|? ? -> _ IH]; [done|]. exact IH.
    + unfold w. rewrite (rids_answer v i id s a k) by done. apply NoDup_app. split_and!; [done| |apply NoDup_singleton].
      intros x Hx ->%list_elem_of_singleton. by eapply pends_fresh.
    + intros j1 j2 id1 id2 (a1 & k1 & H1) (a2 & k2 & H2).
      eapply pends_answer in H1 as (_ & H1 & _); [|done..]. eapply pends_answer in H2 as (_ & H2 & _); [|done..].
      eapply Hrun; by eexists _, _.
    + intros j id1 s1 a1 H1. eapply pends_answer in H1 as (_ & H1 & _); [|done..]. by eapply Hask.
Qed.

Lemma moves_no_pending v eff w : no_pending v → moves v eff w → eff = Idle ∧ w = v.
Proof. intros Hn Hm. destruct Hm as [|i ? ? ? Hp|i ? Hp|i ? ? ? ? ? ? ? ? ? Hp]; [done|by destruct (Hn _ _ Hp)..]. Qed.

Lemma moves_restarts v w : moves v Restarts w → no_pending w.
Proof.
  intros Hm. inversion Hm as [| | |i id s a k s' a' k' eff tail Hp w' Ht]. subst.
  destruct Ht as [[? _]|(_ & -> & Hn)]; [done|].
  intros j x [Hj Hx]. apply (Hn j x). rewrite rids_app, app_nil_r in Hx. split; [|done].
  apply lookup_app_Some in Hj as [Hj|[_ Hj]]; [done|].
  apply list_elem_of_lookup_2, list_elem_of_singleton in Hj as ->. done.
Qed.

(** A call that runs or has a result. *)
Definition started (id : string) (v : list vitem) : Prop := id ∈ rids v ∨ ∃ i, running v i id.

Lemma moves_started id v eff w : started id v → moves v eff w → started id w.
Proof.
  intros Hs Hm.
  destruct Hm as [|i id0 a k Hp Hnone|i id0 Hp|i id0 s a k s' a' k' eff tail Hp w Htail]; [done| | |].
  - left. destruct Hp as [Hi _]. rewrite (rids_insert _ _ _ _ _ _ _ _ _ Hi).
    destruct Hs as [?|[j Hj]]; [done|by destruct (Hnone j id)].
  - pose proof Hp as [Hi _]. destruct Hs as [?|(j & a & k & Hj & Hpj)];
      [left; by rewrite (rids_insert _ _ _ _ _ _ _ _ _ Hi)|].
    right. exists j, a, k. split; [|by rewrite (rids_insert _ _ _ _ _ _ _ _ _ Hi)].
    rewrite list_lookup_insert_ne; [done|]. intros <-. rewrite Hi in Hj. done.
  - destruct (tail_others _ _ _ Htail) as [Ht _]. pose proof (rids_answer v i id0 s a k s' a' k' tail Hp Ht) as Hr.
    fold w in Hr. destruct (decide (id = id0)) as [->|Hne]; [left; rewrite Hr; set_solver|].
    destruct Hs as [?|(j & a0 & k0 & Hj & Hpj)]; [left; rewrite Hr; set_solver|].
    right. exists j, a0, k0. split.
    + unfold w. apply lookup_app_l_Some, lookup_app_l_Some. rewrite list_lookup_insert_ne; [done|].
      intros <-. destruct Hp as [Hi _]. by simplify_eq.
    + rewrite Hr. cbn in *. apply andb_prop in Hpj as [Hf%bool_decide_eq_true ->].
      rewrite andb_true_r. apply bool_decide_eq_true. set_solver.
Qed.

Lemma moves_runs v x w : moves v (Runs x) w → ∃ id i, x = VStr id ∧ ¬ started id v ∧ running w i id.
Proof.
  intros Hm. inversion Hm as [|i id a k Hp Hnone| |? ? ? ? ? ? ? ? ? ? ? ? Ht]; subst;
    [|by destruct Ht as [[? _]|[? _]]].
  exists id, i. split; [done|]. pose proof (pends_fresh _ _ _ _ _ _ Hp) as Hf. split.
  - intros [?|[j Hj]]; [done|by eapply Hnone].
  - exists a, k. destruct Hp as [Hi Hp]. split.
    + apply list_lookup_insert_eq. by eapply lookup_lt_Some.
    + rewrite (rids_insert _ _ _ _ _ _ _ _ _ Hi). cbn in *. by rewrite bool_decide_eq_true_2.
Qed.

Lemma moves_runs_pending v x w : moves v (Runs x) w → ¬ no_pending w.
Proof.
  intros Hm Hn. apply moves_runs in Hm as (id & i & _ & _ & a & k & Hi). by destruct (Hn _ _ Hi).
Qed.

(** *** Sequences of transitions *)

Definition runs_of (effs : list effect) : list pyval :=
  omap (λ e, match e with Runs id => Some id | _ => None end) effs.
Definition is_restart (e : effect) : bool := match e with Restarts => true | _ => false end.

Inductive mruns : list vitem → list effect → list vitem → Prop :=
| mruns_nil v : mruns v [] v
| mruns_cons v e u effs w : moves v e u → mruns u effs w → mruns v (e :: effs) w.

Lemma mruns_idle v effs w : no_pending v → mruns v effs w → Forall (eq Idle) effs ∧ w = v.
Proof.
  intros Hn Hm. induction Hm as [|v e u effs w Hm _ IH]; [done|].
  apply moves_no_pending in Hm as [-> ->]; [|done]. destruct (IH Hn) as [? ->]. auto.
Qed.

Lemma idle_effects effs : Forall (eq Idle) effs → runs_of effs = [] ∧ List.filter is_restart effs = [].
Proof. induction 1 as [|e effs <- _ IH]; done. Qed.

Lemma mruns_once v effs w : vinv v → mruns v effs w →
  vinv w ∧ NoDup (runs_of effs) ∧ (∀ id, VStr id ∈ runs_of effs → ¬ started id v) ∧
  length (List.filter is_restart effs) <= 1.
Proof.
  intros Hv Hm. induction Hm as [v|v e u effs w Hm Hrest IH]; [split_and!; [done|constructor|by intros ? ?%elem_of_nil|cbn; lia]|].
  destruct (IH (moves_inv _ _ _ Hv Hm)) as (Hw & Hnd & Hfresh & Hone). split; [done|].
  assert (Hback : ∀ id, VStr id ∈ runs_of effs → ¬ started id v).
  { intros id Hid Hs. by eapply Hfresh, moves_started. }
  destruct e as [| |x| |]; [done|done| |done|].
  - destruct (moves_runs _ _ _ Hm) as (id & i & -> & Hnew & Hst).
    change (runs_of (Runs (VStr id) :: effs)) with (VStr id :: runs_of effs). split_and!; [| |done].
    + constructor; [|done]. intros Hid. eapply Hfresh; [exact Hid|]. right. by exists i.
    + intros id' [[= ->]|Hid]%elem_of_cons; auto.
  - apply moves_restarts in Hm as Hn. destruct (mruns_idle _ _ _ Hn Hrest) as [Hq _].
    destruct (idle_effects _ Hq) as [E1 E2].
    change (runs_of (Restarts :: effs)) with (runs_of effs). rewrite E1. split_and!; [constructor|by intros ? ?%elem_of_nil|].
    cbn. rewrite E2. cbn. lia.
Qed.

(** ** Work left *)

Definition item_work (x : vitem) : nat :=
  match x with
  | VCall _ s a _ => 1 + (if a then 0 else 1) + (match s with Running => 0 | _ => 2 end)
  | _ => 0
  end.

Definition pending_work (ids : list string) (x : vitem) : nat := if vpend ids x then item_work x else 0.
Definition work_in (ids : list string) (v : list vitem) : nat := sum_list_with (pending_work ids) v.
Definition work (v : list vitem) : nat := work_in (rids v) v.

Lemma work_in_mono ids ids' v : ids ⊆ ids' → work_in ids' v <= work_in ids v.
Proof.
  intros H. induction v as [|x v IH]; [done|]. cbn. apply Nat.add_le_mono; [|done].
  unfold pending_work. destruct (vpend ids' x) eqn:E; [|lia]. by rewrite (vpend_mono _ _ _ H E).
Qed.

Lemma work_in_lt ids ids' v i x : ids ⊆ ids' → v !! i = Some x →
  vpend ids x = true → vpend ids' x = false → work_in ids' v < work_in ids v.
Proof.
  intros Hsub H Hp Hp'. apply list_elem_of_split_length in H as (l1 & l2 & -> & _).
  unfold work_in. rewrite !sum_list_with_app.
  pose proof (work_in_mono _ _ l1 Hsub). pose proof (work_in_mono _ _ l2 Hsub). unfold work_in in *.
  cbn. unfold pending_work at 2 5. rewrite Hp, Hp'. destruct x; [cbn; lia|done..].
Qed.

Lemma work_in_insert ids v i x y :
  v !! i = Some x → work_in ids (<[i := y]> v) + pending_work ids x = work_in ids v + pending_work ids y.
Proof.
  intros H. apply list_elem_of_split_length in H as (l1 & l2 & -> & ->).
  rewrite <-(Nat.add_0_r (length l1)), insert_app_r. unfold work_in. rewrite !sum_list_with_app. cbn. lia.
Qed.

Lemma moves_work v eff w : moves v eff w → work w < work v ∨ (eff = Idle ∧ w = v).
Proof.
  intros Hm. destruct Hm as [|i id a k Hp _|i id Hp|i id s a k s' a' k' eff tail Hp w Htail]; [by right|left..].
  - destruct Hp as [Hi Hp]. unfold work. rewrite (rids_insert _ _ _ _ _ _ _ _ _ Hi).
    pose proof (work_in_insert (rids v) v i _ (VCall id Running a k) Hi) as H.
    unfold pending_work in H. rewrite Hp in H. cbn in Hp, H. apply andb_prop in Hp as [Hf _].
    change (bool_decide (Running ≠ Closed)) with true in H. rewrite Hf in H. cbn in H. destruct a; lia.
  - destruct Hp as [Hi Hp]. unfold work. rewrite (rids_insert _ _ _ _ _ _ _ _ _ Hi).
    pose proof (work_in_insert (rids v) v i _ (VCall id Waiting true false) Hi) as H.
    unfold pending_work in H. rewrite Hp in H. cbn in Hp, H. rewrite Hp in H. cbn in H. lia.
  - destruct (tail_others _ _ _ Htail) as [Ht Ho]. unfold work, w.
    rewrite (rids_answer v i id s a k) by done. destruct Hp as [Hi Hp].
    pose proof (work_in_insert (rids v ++ [id]) v i _ (VCall id s' a' k') Hi) as H.
    assert (Hsub : rids v ⊆ rids v ++ [id]) by set_solver.
    assert (Hgone : ∀ s0 a0 k0, pending_work (rids v ++ [id]) (VCall id s0 a0 k0) = 0).
    { intros. unfold pending_work. cbn. rewrite bool_decide_eq_false_2; [done|]. set_solver. }
    rewrite !Hgone in H. unfold work_in. rewrite !sum_list_with_app. fold (work_in (rids v ++ [id]) (<[i:=VCall id s' a' k']> v)).
    replace (sum_list_with _ tail) with 0 by (clear -Ho; induction Ho as [|? ? -> _ IH]; cbn; lia).
    cbn. pose proof (work_in_lt _ _ v i _ Hsub Hi Hp) as Hlt. unfold work_in in *.
    assert (vpend (rids v ++ [id]) (VCall id s a k) = false) as Hno; [|specialize (Hlt Hno); lia].
    cbn. rewrite bool_decide_eq_false_2; [done|set_solver].
Qed.
