(* ===== verification/ToolApprovalRefinement.v ===== *)
(** * The operations on stored tool calls refine the transition system, and
    what follows: no call runs or is answered twice, the model is restarted
    once, and every message can be brought to its end. *)

From S2P Require Import Prelude PyVal Messages ToolApproval ToolApprovalProps.

(** ** Items and their abstraction *)

Lemma status_in_pending v : vin_strs v pending_statuses = bool_decide (status_of v ≠ Closed).
Proof.
  unfold status_of. destruct v; try done. cbn.
  destruct (String.eqb_spec s "in_progress") as [->|]; [done|].
  destruct (String.eqb s "pending"), (String.eqb s "queued"), (String.eqb s "requires_approval"); done.
Qed.

Lemma abs_set k v item : k ∉ ["type"; "id"; "call_id"] →
  abs (dict_set k v item) =
  match abs item with
  | VCall id s a ask =>
      VCall id (if String.eqb k "status" then status_of v else s)
        (if String.eqb k "approved" then is_true v else a)
        (if String.eqb k "name" then veq_str v "ask_user" else ask)
  | x => x
  end.
Proof.
  intros Hk. assert (Hk' : k ≠ "type" ∧ k ≠ "id" ∧ k ≠ "call_id") by (split_and!; set_solver).
  destruct Hk' as (H1 & H2 & H3). unfold abs, is_type, item_id, is_approved.
  rewrite !(dget_set_ne "type"), !(dget_set_ne "call_id"), !(dget_set_ne "id") by done.
  destruct (veq_str (dget item "type") "function_call"); [|by destruct (veq_str _ _), (dget item "call_id")].
  destruct (por _ _); try done.
  f_equal; match goal with |- context [String.eqb k ?t] => destruct (String.eqb_spec k t) as [->|] end;
    by rewrite ?dget_set_eq, ?dget_set_ne.
Qed.

Lemma tidy_set k v item : k ∉ ["type"; "id"; "call_id"] → (k = "status" → hashable v = true ∧ veq_str v "in_progress" = false) →
  tidy item → tidy (dict_set k v item).
Proof.
  intros Hk Hv [Hc Hr]. assert (Hk' : k ≠ "type" ∧ k ≠ "id" ∧ k ≠ "call_id") by (split_and!; set_solver).
  destruct Hk' as (H1 & H2 & H3). unfold tidy, is_type, item_id in *.
  rewrite !(dget_set_ne "type"), !(dget_set_ne "call_id"), !(dget_set_ne "id") by done.
  split; [|done]. intros Ht. destruct (Hc Ht) as (? & ? & ?). unfold in_progress in *.
  destruct (decide (k = "status")) as [->|]; [|by rewrite !dget_set_ne].
  rewrite dget_set_eq. destruct (Hv eq_refl) as [? ->]. by split_and!.
Qed.

Lemma is_call_abs item id s a k : abs item = VCall id s a k →
  is_type item "function_call" = true ∧ item_id item = VStr id ∧ s = status_of (dget item "status") ∧
  a = is_approved item ∧ k = veq_str (dget item "name") "ask_user".
Proof.
  unfold abs. destruct (is_type item "function_call"); [|destruct (is_type _ _), (dget item "call_id"); done].
  destruct (item_id item); try done. intros [= <- <- <- <-]. done.
Qed.

Lemma in_progress_abs item id s a k : abs item = VCall id s a k → in_progress item = bool_decide (s = Running).
Proof.
  intros (_ & _ & -> & _)%is_call_abs. unfold in_progress, status_of.
  destruct (veq_str _ "in_progress"); [done|]. by destruct (vin_strs _ _).
Qed.

(** ** Pending calls *)

Lemma mem_id_strings s ids : mem_id (VStr s) (map VStr ids) = bool_decide (s ∈ ids).
Proof.
  apply Bool.eq_true_iff_eq. rewrite bool_decide_eq_true. unfold mem_id. rewrite existsb_True. split.
  - intros (v & Hv & E). apply list_elem_of_fmap in Hv as (t & -> & Ht). cbn in E.
    by apply String.eqb_eq in E as ->.
  - intros Hs. exists (VStr s). split; [by apply list_elem_of_fmap_2|]. apply String.eqb_refl.
Qed.

Lemma result_ids_abs out : Forall tidy out → result_ids out = Ok (map VStr (rids (abs_all out))).
Proof.
  induction 1 as [|item out [_ Hr] _ IH]; [done|].
  cbn [result_ids abs_all map]. unfold abs at 1. destruct (is_type item "function_call_output") eqn:E.
  - assert (is_type item "function_call" = false) as ->.
    { unfold is_type in *. apply veq_str_true in E. by rewrite E. }
    destruct (Hr eq_refl) as [id Hid]. rewrite Hid, IH. done.
  - rewrite IH. destruct (is_type item "function_call"); [by destruct (item_id item)|done].
Qed.

Lemma is_pending_abs ids item : tidy item → is_pending (map VStr ids) item = Ok (vpend ids (abs item)).
Proof.
  intros [Hc _]. unfold is_pending, abs. destruct (is_type item "function_call") eqn:E; cbn [negb].
  - destruct (Hc eq_refl) as [(id & -> & _) Hs]. cbn. rewrite mem_id_strings. unfold hashed. destruct Hs as [Hs _]. rewrite Hs.
    destruct (decide (id ∈ ids)) as [Hin|Hin].
    + rewrite (bool_decide_eq_true_2 (id ∈ ids)), (bool_decide_eq_false_2 (id ∉ ids)) by tauto. done.
    + rewrite (bool_decide_eq_false_2 (id ∈ ids)), (bool_decide_eq_true_2 (id ∉ ids)) by tauto.
      cbn [mbind res_bind andb].
      by rewrite <-status_in_pending.
  - by destruct (is_type item "function_call_output"), (dget item "call_id").
Qed.

Fixpoint positions (p : vitem → bool) (i : nat) (v : list vitem) : list nat :=
  match v with
  | [] => []
  | x :: v => if p x then i :: positions p (S i) v else positions p (S i) v
  end.

Lemma positions_spec p i v j : j ∈ positions p i v ↔ ∃ n x, j = i + n ∧ v !! n = Some x ∧ p x = true.
Proof.
  revert i. induction v as [|x v IH]; intros i; cbn.
  - split; [by intros ?%elem_of_nil|]. by intros (? & ? & _ & [=] & _).
  - transitivity ((j = i ∧ p x = true) ∨ j ∈ positions p (S i) v).
    { destruct (p x); [rewrite elem_of_cons|]; naive_solver. }
    rewrite IH. split.
    + intros [[-> Hp]|(n & y & -> & ? & ?)]; [exists 0, x; split_and!; [lia|done|done]|].
      exists (S n), y. split_and!; [lia|done|done].
    + intros ([|n] & y & -> & Hy & Hp); [left|right]; cbn in Hy; simplify_eq; [split; [lia|done]|].
      exists n, y. split_and!; [lia|done|done].
Qed.

Definition pending_positions (v : list vitem) : list nat := positions (vpend (rids v)) 0 v.

Lemma pending_positions_spec v i : i ∈ pending_positions v ↔ ∃ x, pends v i x.
Proof.
  unfold pending_positions. rewrite positions_spec. split.
  - intros (n & x & -> & Hx & Hp). by exists x.
  - intros (x & Hx & Hp). by exists i, x.
Qed.

Lemma pending_abs out : Forall tidy out → pending_tool_calls out = Ok (pending_positions (abs_all out)).
Proof.
  intros Ht. unfold pending_tool_calls. rewrite result_ids_abs by done. cbn.
  unfold pending_positions. generalize (rids (abs_all out)), 0. intros ids i. revert i.
  induction Ht as [|item out Hi _ IH]; intros i; [done|]. cbn. rewrite is_pending_abs by done. cbn.
  rewrite IH. cbn. by destruct (vpend ids (abs item)).
Qed.

Lemma no_pending_positions v : pending_positions v = [] ↔ no_pending v.
Proof.
  split.
  - intros E i x Hx. assert (i ∈ pending_positions v) as Hi by (apply pending_positions_spec; eauto).
    by rewrite E in Hi; apply elem_of_nil in Hi.
  - intros H. destruct (pending_positions v) as [|i l] eqn:E; [done|].
    assert (i ∈ pending_positions v) as Hi by (rewrite E; left).
    apply pending_positions_spec in Hi as [x Hx]. by destruct (H i x).
Qed.

(** A pending position holds a call. *)
Lemma pending_item out i : i ∈ pending_positions (abs_all out) →
  ∃ item id s a k, out !! i = Some item ∧ item_at out i = item ∧ abs item = VCall id s a k ∧
    pends (abs_all out) i (VCall id s a k).
Proof.
  intros [x Hx]%pending_positions_spec. pose proof Hx as [Hi Hp].
  unfold abs_all in Hi. rewrite list_lookup_fmap in Hi.
  apply fmap_Some in Hi as (item & Hi & ->). destruct (abs item) as [id s a k| |] eqn:E; [|done..].
  exists item, id, s, a, k. split_and!; [done|unfold item_at; by rewrite Hi|done|done].
Qed.

(** The call as it is started: its identifier is filled in. *)
Lemma abs_id item id s a k : abs item = VCall id s a k → abs (dict_set "call_id" (VStr id) item) = VCall id s a k.
Proof.
  intros E. pose proof (is_call_abs _ _ _ _ _ E) as (Hty & Hid & -> & -> & ->).
  unfold abs, is_type, item_id, is_approved in *. rewrite dget_set_eq, !dget_set_ne, Hty by done.
  unfold por in *. destruct (truthy (dget item "call_id")) eqn:Et; [by rewrite Hid in Et; cbn in *; rewrite Et|].
  destruct (truthy (VStr id)); [done|]. by rewrite Hid.
Qed.

Lemma tidy_id item id s a k : abs item = VCall id s a k → tidy item → tidy (dict_set "call_id" (VStr id) item).
Proof.
  intros E Htidy. pose proof (is_call_abs _ _ _ _ _ E) as (Hty & Hid & _).
  destruct (proj1 Htidy Hty) as [(id' & Hid' & Hne) Hh]. rewrite Hid in Hid'. injection Hid' as <-.
  unfold tidy, is_type, item_id in *. rewrite dget_set_eq, !dget_set_ne by done. split; [|by eauto].
  intros _. destruct Hh as [Hh _]. split_and!; [|done|by destruct id].
  exists id. split; [|done]. unfold por. destruct id; done.
Qed.

Lemma abs_start item id s a k : abs item = VCall id s a k →
  abs (dict_set "status" (VStr "in_progress") (dict_set "call_id" (VStr id) item)) = VCall id Running a k.
Proof. intros E. rewrite abs_set by set_solver. by rewrite (abs_id _ _ _ _ _ E). Qed.

Lemma tidy_start item id s a k : abs item = VCall id s a k → tidy item →
  tidy (dict_set "status" (VStr "in_progress") (dict_set "call_id" (VStr id) item)).
Proof.
  intros E Hi. destruct (tidy_id _ _ _ _ _ E Hi) as [Hc Hr]. pose proof (is_call_abs _ _ _ _ _ E) as (Hty & Hid & _).
  destruct (proj1 Hi Hty) as [(id' & Hid' & Hne) _]. rewrite Hid in Hid'. injection Hid' as <-.
  unfold tidy, is_type, item_id in Hc, Hr |- *.
  rewrite (dget_set_ne "type" "status"), (dget_set_ne "call_id" "status"), (dget_set_ne "id" "status") by done.
  split; [|done]. intros Hty'. split_and!; [by apply Hc|by rewrite dget_set_eq|].
  intros _. rewrite dget_set_eq. by destruct id.
Qed.

Lemma running_exists out :
  existsb (λ i, in_progress (item_at out i)) (pending_positions (abs_all out)) = true ↔
  ∃ j id, running (abs_all out) j id.
Proof.
  rewrite existsb_True. split.
  - intros (i & Hi & Hp). apply pending_item in Hi as (item & id & s & a & k & _ & Hat & E & Hpend).
    rewrite Hat, (in_progress_abs _ _ _ _ _ E) in Hp. apply bool_decide_eq_true in Hp as ->. by exists i, id, a, k.
  - intros (i & id & a & k & Hp).
    assert (Hi : i ∈ pending_positions (abs_all out)) by (apply pending_positions_spec; eauto).
    exists i. split; [done|]. apply pending_item in Hi as (item & id' & s & a' & k' & _ & Hat & E & Hp').
    rewrite Hat, (in_progress_abs _ _ _ _ _ E). apply bool_decide_eq_true.
    destruct Hp as [Hp _], Hp' as [Hp' _]. by simplify_eq.
Qed.

Lemma pends_open v i id s a k : pends v i (VCall id s a k) → s ≠ Closed.
Proof. intros [_ Hp]. cbn in Hp. by apply andb_prop in Hp as [_ ?%bool_decide_eq_true]. Qed.

(** ** Changing an item *)

Lemma alter_insert (f : pydict → pydict) (i : nat) (out : output_items) (item : pydict) : out !! i = Some item → alter f i out = <[i := f item]> out.
Proof.
  intros H. apply list_elem_of_split_length in H as (l1 & l2 & -> & ->).
  rewrite <-(Nat.add_0_r (length l1)), alter_app_r, insert_app_r. done.
Qed.

Lemma abs_all_insert (i : nat) y (out : output_items) : abs_all (<[i := y]> out) = <[i := abs y]> (abs_all out).
Proof. apply list_fmap_insert. Qed.

Lemma abs_all_app out out' : abs_all (out ++ out') = abs_all out ++ abs_all out'.
Proof. apply map_app. Qed.

Lemma show_item (out : output_items) (i : nat) item id a k : out !! i = Some item → abs item = VCall id Waiting a k → Forall tidy out →
  abs_all (set_item i "status" (VStr "pending") out) = abs_all out ∧
  Forall tidy (set_item i "status" (VStr "pending") out).
Proof.
  intros Hi E Ht. unfold set_item. rewrite (alter_insert _ _ _ _ Hi). split.
  - rewrite abs_all_insert, abs_set by set_solver. rewrite E. cbn. apply list_insert_id.
    unfold abs_all. rewrite list_lookup_fmap, Hi. cbn. by rewrite E.
  - apply Forall_insert; [done|]. apply tidy_set; [set_solver|done|]. by eapply Forall_lookup_1.
Qed.

(** ** Stored messages *)

Definition stored (m : pydict) (out : output_items) : Prop :=
  dget m "output" = VList (map VDict out) ∧ out ≠ [].

Lemma stored_items m out : stored m out → output_items_of m = Ok out ∧ truthy (dget m "output") = true.
Proof.
  intros [E Hne]. unfold output_items_of. rewrite E. destruct out as [|item out]; [done|]. cbn. split; [|done].
  assert (H : mapR as_dict (map VDict out) = Ok out); [|by rewrite H].
  clear. induction out as [|item out IH]; [done|]. cbn. by rewrite IH.
Qed.

Lemma with_output_stored m out out' : stored m out → out' ≠ [] →
  stored (with_output m out') out' ∧ dget (with_output m out') "user_id" = dget m "user_id".
Proof.
  intros Hs Hne. apply stored_items in Hs as [_ Ht]. unfold with_output, stored. rewrite Ht.
  rewrite dget_set_eq, dget_set_ne by done. done.
Qed.

Lemma stored_done m out b : stored m out → stored (dict_set "done" b m) out.
Proof. unfold stored. by rewrite dget_set_ne. Qed.

(** The operation took the message from its items [out] to new ones by a
    transition. *)
Definition refined (m : pydict) (out : output_items) (eff : effect) (m' : pydict) : Prop :=
  ∃ out', stored m' out' ∧ Forall tidy out' ∧ dget m' "user_id" = dget m "user_id" ∧
    moves (abs_all out) eff (abs_all out').

Lemma refined_with m out eff out' : stored m out → out' ≠ [] → Forall tidy out' →
  moves (abs_all out) eff (abs_all out') → refined m out eff (with_output m out').
Proof.
  intros Hs Hne Ht Hm. destruct (with_output_stored _ _ _ Hs Hne) as [? ?]. by exists out'.
Qed.

Lemma refined_done m out eff m' b : refined m out eff m' → refined m out eff (dict_set "done" b m').
Proof.
  intros (out' & Hs & Ht & Hu & Hm). exists out'. split_and!; [by apply stored_done|done| |done].
  by rewrite dget_set_ne.
Qed.

Lemma nonempty_lookup {A} (l : list A) (i : nat) x : l !! i = Some x → l ≠ [].
Proof. by intros H ->. Qed.

Lemma find_first_unique {A} (p : A → bool) l a : a ∈ l → p a = true → (∀ b, b ∈ l → p b = true → b = a) →
  find_first p l = Some a.
Proof.
  intros Ha Hp Hu. destruct (find_first p l) as [b|] eqn:E.
  - apply find_first_Some in E as [Hb Hpb]. by rewrite (Hu b Hb Hpb).
  - apply find_first_None with (a := a) in E; [congruence|done].
Qed.

Lemma cids_elem v id : id ∈ cids v → ∃ i s a k, v !! i = Some (VCall id s a k).
Proof.
  intros (x & Hx & E)%list_elem_of_omap. apply list_elem_of_lookup in Hx as [i Hi].
  destruct x as [id' s a k| |]; [|done..]. injection E as ->. by exists i, s, a, k.
Qed.

(** A call is found by its identifier. *)
Lemma same_call v i j id s a k s' a' k' : vinv v →
  v !! i = Some (VCall id s a k) → v !! j = Some (VCall id s' a' k') → i = j.
Proof.
  intros [Hnd _ _ _] Hi Hj. revert i j Hi Hj. induction v as [|x v IH]; intros i j Hi Hj; [done|].
  destruct i as [|i], j as [|j]; cbn in Hi, Hj; [done| | |].
  - injection Hi as ->. apply NoDup_cons in Hnd as [Hn _]. destruct Hn. apply list_elem_of_omap.
    exists (VCall id s' a' k'). split; [by eapply list_elem_of_lookup_2|done].
  - injection Hj as ->. apply NoDup_cons in Hnd as [Hn _]. destruct Hn. apply list_elem_of_omap.
    exists (VCall id s a k). split; [by eapply list_elem_of_lookup_2|done].
  - f_equal. apply IH; [|done|done]. unfold cids in *. cbn in Hnd. destruct x; [by apply NoDup_cons in Hnd as [_ ?]|done..].
Qed.

Section Ops.
Context (m : pydict) (out : output_items).
Context (Hs : stored m out) (Ht : Forall tidy out) (Hv : vinv (abs_all out)).

Lemma refined_same eff : moves (abs_all out) eff (abs_all out) → refined m out eff m.
Proof using Hs Ht. intros Hm. by exists out. Qed.

Definition started_effect (r : option pydict) : effect :=
  match r with Some item => Runs (dget item "call_id") | None => Idle end.

Lemma claim_refines full : ∃ r m', claim_tool_call full (Some m) = Ok (r, m') ∧ refined m out (started_effect r) m'.
Proof using All.
  destruct (stored_items _ _ Hs) as [Hout Htruthy]. unfold claim_tool_call. rewrite Hout. cbn [mbind res_bind].
  rewrite pending_abs by done. cbn [mbind res_bind].
  destruct (existsb _ _) eqn:Hrun; [exists None, m; split; [done|apply refined_same; constructor]|].
  assert (Hnone : ∀ j id, ¬ running (abs_all out) j id).
  { intros j id Hj. apply not_true_iff_false in Hrun. apply Hrun, running_exists. eauto. }
  assert (Hwait : ∀ i, i ∈ pending_positions (abs_all out) → ∃ item id a k, out !! i = Some item ∧
    item_at out i = item ∧ abs item = VCall id Waiting a k ∧ pends (abs_all out) i (VCall id Waiting a k)).
  { intros i Hi. apply pending_item in Hi as (item & id & s & a & k & ? & ? & E & Hp).
    destruct s; [by exists item, id, a, k|by destruct (Hnone i id); exists a, k|by apply pends_open in Hp]. }
  destruct (find_first _ _) as [i|] eqn:Hf.
  - apply find_first_Some in Hf as [Hi Hstart]. destruct (Hwait i Hi) as (item & id & a & k & Hl & -> & E & Hp).
    apply is_call_abs in E as Hcall. destruct Hcall as (Hty & Hid & Hst & Ha & Hk).
    assert (Htidy : tidy item) by by eapply Forall_lookup_1.
    destruct (proj1 Htidy Hty) as [(id0 & Hid0 & Hne) Hhash]. rewrite Hid in Hid0. injection Hid0 as <-.
    assert (Hcid : (if truthy (dget item "call_id") then Ok (dget item "call_id") else ditem item "id") = Ok (VStr id)).
    { unfold item_id, por in Hid. destruct (truthy (dget item "call_id")); [by rewrite Hid|].
      unfold dget in Hid. unfold ditem. destruct (dict_get "id" item); [|done]. cbn in Hid. by subst. }
    rewrite Hcid. cbn [mbind res_bind]. set (item' := dict_set "status" _ _).
    eexists _, _. split; [done|]. apply refined_done. apply (refined_with _ _ _ (<[i := item']> out) Hs).
    + eapply nonempty_lookup, list_lookup_insert_eq. by eapply lookup_lt_Some.
    + apply Forall_insert; [done|]. by eapply tidy_start.
    + unfold started_effect, item'. rewrite dget_set_ne, dget_set_eq, abs_all_insert by done.
      rewrite (abs_start item id Waiting a k) by done. by apply moves_start.
  - destruct (pending_positions (abs_all out)) as [|i l] eqn:Epos;
      [exists None, m; split; [done|apply refined_same; constructor]|].
    destruct (Hwait i ltac:(left)) as (item & id & a & k & Hl & _ & E & _).
    destruct (show_item _ _ _ _ _ _ Hl E Ht) as [Habs Htidy].
    eexists None, _. split; [done|]. apply (refined_with _ _ _ _ Hs); [|done|rewrite Habs; constructor].
    unfold set_item. rewrite (alter_insert _ _ _ _ Hl).
    eapply nonempty_lookup, list_lookup_insert_eq. by eapply lookup_lt_Some.
Qed.

(** The items after a call at [i] got its result. *)
Lemma answered i id s a k item' s' a' k' r :
  pends (abs_all out) i (VCall id s a k) → abs item' = VCall id s' a' k' → tidy item' →
  abs r = VResult id → tidy r →
  let out' := <[i := item']> out ++ [r] in
  abs_all out' = <[i := VCall id s' a' k']> (abs_all out) ++ [VResult id] ∧ Forall tidy out' ∧ out' ≠ [] ∧
  ∀ j id', running (abs_all out') j id' → j ≠ i ∧ running (abs_all out) j id'.
Proof using Ht.
  intros Hp E Hi Er Hr out'.
  assert (Habs : abs_all out' = <[i := VCall id s' a' k']> (abs_all out) ++ [VResult id]).
  { unfold out'. rewrite abs_all_app, abs_all_insert, E. cbn. by rewrite Er. }
  split_and!; [done| |by unfold out'; destruct (<[i:=item']> out)|].
  - apply Forall_app. split; [by apply Forall_insert|by constructor].
  - intros j id' (a0 & k0 & Hj). rewrite Habs in Hj. rewrite <-(app_nil_r (_ ++ _)) in Hj.
    eapply pends_answer in Hj as (? & Hj & _); [|done..]. split; [done|by exists a0, k0].
Qed.

(** Showing the next call to the user. *)
Lemma show_next out1 j : Forall tidy out1 → out1 ≠ [] → j ∈ pending_positions (abs_all out1) →
  (∀ id, ¬ running (abs_all out1) j id) →
  let out' := set_item j "status" (VStr "pending") out1 in
  abs_all out' = abs_all out1 ∧ Forall tidy out' ∧ out' ≠ [].
Proof.
  intros Ht1 Hne Hj Hrun. apply pending_item in Hj as (item & id & s & a & k & Hl & _ & E & Hp).
  destruct s; [|by destruct (Hrun id); exists a, k|by apply pends_open in Hp].
  destruct (show_item _ _ _ _ _ _ Hl E Ht1). split_and!; [done..|].
  unfold set_item. rewrite (alter_insert _ _ _ _ Hl).
  eapply nonempty_lookup, list_lookup_insert_eq. by eapply lookup_lt_Some.
Qed.

Lemma no_pending_other v : no_pending v → no_pending (v ++ [VOther]).
Proof.
  intros Hn j x [Hj Hx]. apply (Hn j x). rewrite rids_app, app_nil_r in Hx. split; [|done].
  apply lookup_app_Some in Hj as [Hj|[_ Hj]]; [done|].
  by apply list_elem_of_lookup_2, list_elem_of_singleton in Hj as ->.
Qed.

Lemma tidy_continuation uuid : tidy (tool_continuation uuid) ∧ abs (tool_continuation uuid) = VOther.
Proof. by split_and!. Qed.

(** The end of an operation that answered a call: nothing more, the
    continuation when no call is pending, or the next call shown. *)
Lemma answer_refines i id s a k item' s' a' k' r eff out2 :
  pends (abs_all out) i (VCall id s a k) → abs item' = VCall id s' a' k' → tidy item' →
  abs r = VResult id → tidy r →
  let out1 := <[i := item']> out ++ [r] in
  (eff = Answered ∧ out2 = out1) ∨
  (eff = Restarts ∧ pending_positions (abs_all out1) = [] ∧ ∃ uuid, out2 = out1 ++ [tool_continuation uuid]) ∨
  (eff = Answered ∧ ∃ j, j ∈ pending_positions (abs_all out1) ∧ (∀ id', ¬ running (abs_all out1) j id') ∧
     out2 = set_item j "status" (VStr "pending") out1) →
  out2 ≠ [] ∧ Forall tidy out2 ∧ moves (abs_all out) eff (abs_all out2).
Proof using Ht.
  intros Hp E Hi Er Hr out1 Hcases.
  destruct (answered i id s a k item' s' a' k' r) as (Habs & Ht1 & Hne1 & _); [done..|]. fold out1 in Habs, Ht1, Hne1.
  assert (Hend : moves (abs_all out) Answered (abs_all out1)).
  { rewrite Habs, <-(app_nil_r (_ ++ _)). eapply moves_answer; [exact Hp|by left]. }
  destruct Hcases as [[-> ->]|[(-> & Hn & uuid & ->)|(-> & j & Hj & Hrun & ->)]]; [done| |].
  - destruct (tidy_continuation uuid) as [Htc _]. split_and!; [by destruct out1| |].
    + apply Forall_app. split; [done|by constructor].
    + rewrite abs_all_app. change (abs_all [tool_continuation uuid]) with [VOther].
      rewrite Habs. eapply moves_answer; [exact Hp|].
      right. rewrite <-Habs. split_and!; [done..|by apply no_pending_positions].
  - destruct (show_next out1 j Ht1 Hne1 Hj Hrun) as (Habs2 & ? & ?). rewrite Habs2. by split_and!.
Qed.

Lemma pending_at i : i ∈ pending_positions (abs_all out) → ∃ id s a k,
  out !! i = Some (item_at out i) ∧ abs (item_at out i) = VCall id s a k ∧ pends (abs_all out) i (VCall id s a k).
Proof. intros (item & id & s & a & k & Hl & Hat & E & Hp)%pending_item. rewrite Hat. by exists id, s, a, k. Qed.

(** What a worker reports: the call it was given, with a new status, and a
    result for it. *)
Record good_completion (call result : pydict) (id : string) : Prop := {
  gc_keys : NoDup (dict_keys call);
  gc_type : dict_get "type" call = Some (VStr "function_call");
  gc_id : dict_get "call_id" call = Some (VStr id);
  gc_id_nonempty : id ≠ EmptyString;
  gc_status : ∀ v, dict_get "status" call = Some v → hashable v = true;
  gc_result_type : dget result "type" = VStr "function_call_output";
  gc_result_id : dget result "call_id" = VStr id;
}.

Lemma result_abs r id : dget r "type" = VStr "function_call_output" → dget r "call_id" = VStr id →
  abs r = VResult id ∧ tidy r.
Proof.
  intros Hty Hid. unfold abs, tidy, is_type. rewrite Hty, Hid. cbn. split; [done|]. split; [done|eauto].
Qed.

Lemma update_abs item call result id : good_completion call result id → tidy item →
  is_type item "function_call" = true →
  tidy (dict_update item call) ∧ ∃ s a k, abs (dict_update item call) = VCall id s a k.
Proof.
  intros [Hnd Hty Hid Hne Hst _ _] Hi Hcall.
  assert (Et : is_type (dict_update item call) "function_call" = true).
  { unfold is_type, dget. by rewrite dict_get_update, Hty. }
  assert (Ec : dget (dict_update item call) "call_id" = VStr id).
  { unfold dget. by rewrite dict_get_update, Hid. }
  assert (Ei : item_id (dict_update item call) = VStr id).
  { unfold item_id, por. rewrite Ec. by destruct id. }
  split.
  - split; [|eauto]. intros _. split_and!; [by exists id| |intros _; rewrite Ec; by destruct id].
    unfold dget. rewrite dict_get_update by done. destruct (dict_get "status" call) eqn:E; [by apply Hst|].
    by apply Hi.
  - unfold abs. rewrite Et, Ei. by eexists _, _, _.
Qed.

Definition is_incomplete (result : pydict) : bool := veq_str (dget result "status") "incomplete".

(** [resume_tool_calls] goes on to the model when no call is pending. *)
Definition completion_effect (result : pydict) (out' : output_items) : effect :=
  if is_incomplete result then Answered
  else match pending_positions (abs_all out') with [] => Restarts | _ => Answered end.

(** What a completed call is followed by. *)
Lemma finish_refines uuid i id a k item' s' a' k' r :
  pends (abs_all out) i (VCall id Running a k) → abs item' = VCall id s' a' k' → tidy item' →
  abs r = VResult id → tidy r →
  let out1 := <[i := item']> out ++ [r] in
  let out2 :=
    match pending_positions (abs_all out1) with
    | [] => out1 ++ [tool_continuation uuid]
    | _ =>
        match find_first (λ j, negb (truthy (dget (item_at out1 j) "approved"))) (pending_positions (abs_all out1)) with
        | Some j => set_item j "status" (VStr "pending") out1
        | None => out1
        end
    end in
  out2 ≠ [] ∧ Forall tidy out2 ∧
  moves (abs_all out) (match pending_positions (abs_all out2) with [] => Restarts | _ => Answered end) (abs_all out2).
Proof using Ht Hv.
  intros Hp E Hi Er Hr out1 out2.
  destruct (answered i id Running a k _ s' a' k' r Hp E Hi Er Hr) as (_ & Ht1 & Hne1 & Hrun1).
  pose proof (λ eff o H, answer_refines i id Running a k _ s' a' k' r eff o Hp E Hi Er Hr H) as Hfin.
  fold out1 in Hrun1, Hfin, Ht1, Hne1.
  assert (Hno : ∀ j id0, ¬ running (abs_all out1) j id0).
  { intros j id0 (Hne & Hj)%Hrun1. apply Hne. eapply vinv_running; [exact Hv|exact Hj|by exists a, k]. }
  unfold out2. destruct (pending_positions (abs_all out1)) as [|j0 l] eqn:Epos.
  - rewrite abs_all_app. change (abs_all [tool_continuation uuid]) with [VOther].
    assert (pending_positions (abs_all out1 ++ [VOther]) = []) as ->.
    { apply no_pending_positions, no_pending_other. by apply no_pending_positions. }
    destruct (Hfin Restarts (out1 ++ [tool_continuation uuid])) as (? & ? & Hm); [right; left; eauto|].
    by rewrite abs_all_app in Hm.
  - destruct (find_first _ _) as [j|] eqn:Ef; [|rewrite Epos; apply Hfin; by left].
    apply find_first_Some in Ef as [Hj _].
    destruct (show_next out1 j Ht1 Hne1) as (Habs & _ & _); [by rewrite Epos|done|].
    rewrite Habs, Epos, <-Habs. apply Hfin. right. right. split; [done|]. by exists j.
Qed.

Lemma complete_refines uuid call result id out' m' : good_completion call result id →
  complete_tool_call uuid call result (Some m) = Ok (out', m') →
  Forall tidy out' ∧ refined m out (completion_effect result out') m'.
Proof using All.
  intros Hgc. pose proof (stored_items _ _ Hs) as [Hout _].
  unfold complete_tool_call. rewrite Hout. cbn [mbind res_bind]. rewrite pending_abs by done. cbn [mbind res_bind].
  destruct (find_saved _ _ _) as [saved|] eqn:Hf; [|done]. cbn [mbind res_bind].
  destruct saved as [i|]; [|done]. destruct (in_progress _) eqn:Hrun; [|done]. cbn [negb].
  assert (Hi : i ∈ pending_positions (abs_all out) ∧ dget (item_at out i) "call_id" = VStr id).
  { unfold find_saved, ditem in Hf. rewrite (gc_id _ _ _ Hgc) in Hf.
    destruct (pending_positions (abs_all out)) as [|j l]; [done|]. cbn [mbind res_bind] in Hf.
    apply Ok_inj, find_first_Some in Hf as [? He]. split; [done|].
    destruct (dget _ _); try done. cbn in He. by apply String.eqb_eq in He as ->. }
  destruct Hi as [Hi Hcid]. destruct (pending_at i Hi) as (id' & s & a & k & Hl & E & Hp).
  set (item := item_at out i) in *. pose proof (is_call_abs _ _ _ _ _ E) as (Hty & Hid & _).
  rewrite (in_progress_abs _ _ _ _ _ E) in Hrun. apply bool_decide_eq_true in Hrun as ->.
  assert (id' = id) as ->.
  { unfold item_id, por in Hid. rewrite Hcid in Hid. pose proof (gc_id_nonempty _ _ _ Hgc). by destruct id; cbn in Hid; simplify_eq. }
  destruct (update_abs item call result id Hgc) as (Htu & s' & a' & k' & Eu); [by eapply Forall_lookup_1|done|].
  destruct (result_abs result id) as [Er Htr]; [apply Hgc..|].
  rewrite (alter_insert _ _ _ _ Hl).
  destruct (answered i id Running a k _ s' a' k' result Hp Eu Htu Er Htr) as (_ & Ht1 & Hne1 & _).
  pose proof (finish_refines uuid i id a k _ s' a' k' result Hp Eu Htu Er Htr) as Hfin.
  set (out1 := <[i:=dict_update item call]> out ++ [result]) in *.
  rewrite pending_abs by done. cbn [mbind res_bind]. unfold completion_effect, is_incomplete.
  destruct (veq_str (dget result "status") "incomplete"); intros [= <- <-].
  - split; [done|]. apply refined_done, refined_with; [done..|].
    by destruct (answer_refines i id Running a k _ s' a' k' result Answered out1 Hp Eu Htu Er Htr (or_introl (conj eq_refl eq_refl)))
      as (_ & _ & Hm).
  - destruct Hfin as (? & ? & ?). split; [done|by apply refined_with].
Qed.

Lemma setdefault_abs item id s a k : abs item = VCall id s a k → tidy item →
  abs (dict_setdefault "call_id" (VStr id) item) = VCall id s a k ∧
  tidy (dict_setdefault "call_id" (VStr id) item).
Proof.
  intros E Hi. unfold dict_setdefault. destruct (dict_has _ _); [done|]. split; [by apply abs_id|by eapply tidy_id].
Qed.

Lemma decision_abs cid text status :
  abs (decision_result cid text status) = VResult cid ∧ tidy (decision_result cid text status).
Proof. by apply result_abs. Qed.

Definition resume_effect (form : resolve_form) (r : option resume) : effect :=
  match r with
  | Some ResumeModel => Restarts
  | _ => match rf_action form with Approve => Approved | _ => Answered end
  end.

(** The call a decision is about. *)
Lemma found_call form i : 
  find_index (λ item, is_type item "function_call" && veq_str (item_id item) (rf_call_id form)) out = Some i →
  ∃ item s a k, out !! i = Some item ∧ abs item = VCall (rf_call_id form) s a k ∧
    let out1 := alter (dict_setdefault "call_id" (VStr (rf_call_id form))) i out in
    abs_all out1 = abs_all out ∧ Forall tidy out1 ∧ abs (item_at out1 i) = VCall (rf_call_id form) s a k ∧
    out1 !! i = Some (item_at out1 i).
Proof using Ht.
  intros (item & Hl & [Hty Hid]%andb_prop & _)%find_index_Some. apply veq_str_true in Hid.
  assert (E : abs item = VCall (rf_call_id form) (status_of (dget item "status")) (is_approved item)
                (veq_str (dget item "name") "ask_user")) by (unfold abs; by rewrite Hty, Hid).
  destruct (setdefault_abs item _ _ _ _ E) as [E1 Ht1]; [by eapply Forall_lookup_1|].
  exists item, (status_of (dget item "status")), (is_approved item), (veq_str (dget item "name") "ask_user").
  split_and!; [done..|]. intros out1. unfold out1. rewrite (alter_insert _ _ _ _ Hl).
  set (item1 := dict_setdefault _ _ item) in *. pose proof (lookup_lt_Some _ _ _ Hl) as Hlt.
  assert (Hat : item_at (<[i := item1]> out) i = item1) by (unfold item_at; by rewrite list_lookup_insert_eq).
  rewrite Hat, list_lookup_insert_eq by done. split_and!; [|by apply Forall_insert|done..].
  rewrite abs_all_insert, E1. apply list_insert_id. unfold abs_all. rewrite list_lookup_fmap, Hl. cbn. by rewrite E.
Qed.

Lemma result_exists cid : cid ∈ rids (abs_all out) →
  existsb (λ item, is_type item "function_call_output" && veq_str (dget item "call_id") cid) out = true.
Proof.
  intros (x & Hx & Hc)%list_elem_of_omap. unfold abs_all in Hx. apply list_elem_of_fmap in Hx as (item & -> & Hin).
  apply existsb_True. exists item. split; [done|]. unfold abs in Hc.
  destruct (is_type item "function_call"); [by destruct (item_id item)|].
  destruct (is_type item "function_call_output"); [|done].
  destruct (dget item "call_id") eqn:E; try done. injection Hc as ->. cbn. apply String.eqb_refl.
Qed.

Lemma unresolved_waiting form i item id s a k : is_resolved form i out = Ok false →
  out !! i = Some item → abs item = VCall id s a k → id = rf_call_id form →
  s = Waiting ∧ a = false ∧ pends (abs_all out) i (VCall id s a k).
Proof.
  unfold is_resolved. intros Hr Hl E ->. destruct (existsb _ _) eqn:Hex; [done|].
  assert (Hid : rf_call_id form ∉ rids (abs_all out)).
  { intros Hin%result_exists. by rewrite Hin in Hex. }
  assert (Hat : item_at out i = item) by (unfold item_at; by rewrite Hl). rewrite Hat in Hr.
  pose proof (is_call_abs _ _ _ _ _ E) as (_ & _ & Hs1 & Ha & _).
  unfold hashed in Hr. destruct (hashable _); [|done]. cbn [mbind res_bind] in Hr. apply Ok_inj in Hr.
  apply orb_false_elim in Hr as [Hw%negb_false_iff Hap]. rewrite Hap in Ha. subst a.
  assert (s = Waiting) as ->.
  { rewrite Hs1. unfold status_of. destruct (veq_str _ "in_progress") eqn:Ep; [|by rewrite Hw].
    apply veq_str_true in Ep. by rewrite Ep in Hw. }
  split_and!; [done..|]. split; [unfold abs_all; by rewrite list_lookup_fmap, Hl; cbn; rewrite E|].
  cbn. by rewrite bool_decide_eq_true_2.
Qed.
End Ops.

Section Decide.
Context (dumps : pyval → string).

(** The items after an answer or a rejection, or an approval. *)
Lemma apply_action_shape form i out item id k out2 : Forall tidy out → vinv (abs_all out) →
  out !! i = Some item → item_at out i = item → abs item = VCall id Waiting false k → id = rf_call_id form →
  apply_action dumps form i out = Ok out2 →
  (rf_action form = Approve ∧ k = false ∧ out2 ≠ [] ∧ Forall tidy out2 ∧
     abs_all out2 = <[i := VCall id Waiting true false]> (abs_all out)) ∨
  (rf_action form ≠ Approve ∧ ∃ item' s' r, out2 = <[i := item']> out ++ [r] ∧
     abs item' = VCall id s' false k ∧ tidy item' ∧ abs r = VResult id ∧ tidy r).
Proof.
  intros Ht Hv Hl Hat E ->. unfold apply_action. rewrite Hat.
  pose proof (is_call_abs _ _ _ _ _ E) as (_ & _ & _ & _ & Hk). rewrite <-Hk.
  assert (Hi : tidy item) by by eapply Forall_lookup_1.
  destruct (rf_action form).
  - destruct k; [done|]. intros [= <-]. left. unfold set_item.
    rewrite (alter_insert _ i out item) by done.
    rewrite (alter_insert _ i _ (dict_set "status" (VStr "queued") item))
      by (apply list_lookup_insert_eq; by eapply lookup_lt_Some).
    rewrite list_insert_insert_eq. split_and!; [done|done| | |].
    + eapply nonempty_lookup, list_lookup_insert_eq. by eapply lookup_lt_Some.
    + apply Forall_insert; [done|]. apply tidy_set; [set_solver|done|]. by apply tidy_set; [set_solver|done|].
    + rewrite abs_all_insert, !abs_set, E by set_solver. done.
  - intros [= <-]. right. split; [done|]. unfold set_item. rewrite (alter_insert _ i out item) by done.
    eexists _, _, _. split; [done|].
    rewrite abs_set, E by set_solver. split_and!; [done|by apply tidy_set; [set_solver|done|]|apply decision_abs..].
  - destruct (negb k); [done|]. destruct (_ && _); [done|]. intros [= <-]. right. split; [done|].
    unfold set_item. rewrite (alter_insert _ i out item) by done. eexists _, _, _. split; [done|].
    rewrite abs_set, E by set_solver. split_and!; [done|by apply tidy_set; [set_solver|done|]|apply decision_abs..].
Qed.

(** Without an active call none runs. *)
Lemma inactive_not_running out : Forall tidy out →
  existsb (λ j, is_approved (item_at out j) || in_progress (item_at out j)) (pending_positions (abs_all out)) = false →
  ∀ j id, ¬ running (abs_all out) j id.
Proof.
  intros Ht Hact j id Hj. assert (existsb (λ j, in_progress (item_at out j)) (pending_positions (abs_all out)) = true)
    as Hex by (apply running_exists; eauto).
  apply not_true_iff_false in Hact. apply Hact. apply existsb_True in Hex as (x & Hx & Hp).
  apply existsb_True. exists x. by rewrite Hp, orb_true_r.
Qed.

Lemma advance_refines uuid form i out item id k out2 active : Forall tidy out → vinv (abs_all out) →
  out !! i = Some item → item_at out i = item → abs item = VCall id Waiting false k → id = rf_call_id form →
  pends (abs_all out) i (VCall id Waiting false k) → apply_action dumps form i out = Ok out2 →
  active = existsb (λ j, is_approved (item_at out j) || in_progress (item_at out j)) (pending_positions (abs_all out)) →
  Forall tidy out2 ∧
  let '(r, out3) := advance uuid form active (pending_positions (abs_all out2)) out2 in
  out3 ≠ [] ∧ Forall tidy out3 ∧ moves (abs_all out) (resume_effect form r) (abs_all out3).
Proof.
  intros Ht Hv Hl Hat E Hid Hp Hact ->.
  destruct (apply_action_shape _ _ _ _ _ _ _ Ht Hv Hl Hat E Hid Hact)
    as [(Ha & -> & Hne & Ht2 & Habs)|(Ha & item' & s' & r & -> & Ei & Hi & Er & Hr)].
  - split; [done|]. unfold advance. rewrite Ha.
    unfold resume_effect. rewrite Ha.
    assert (moves (abs_all out) Approved (abs_all out2)) by (rewrite Habs; by apply moves_approve).
    by destruct (existsb _ _).
  - destruct (answered out Ht i id Waiting false k item' s' false k r Hp Ei Hi Er Hr) as (_ & Ht2 & Hne & Hrun).
    split; [done|]. set (out2 := <[i := item']> out ++ [r]) in *.
    assert (Hfin : ∀ eff out3, _ → out3 ≠ [] ∧ Forall tidy out3 ∧ moves (abs_all out) eff (abs_all out3)) by
      exact (λ eff out3 H, answer_refines out Ht i id Waiting false k item' s' false k r eff out3 Hp Ei Hi Er Hr H).
    fold out2 in Hfin. unfold advance, resume_effect.
    destruct (existsb _ _) eqn:Hex; [destruct (rf_action form); [done|apply Hfin; by left..]|].
    destruct (rf_action form); [done| |];
      (destruct (pending_positions (abs_all out2)) as [|j l] eqn:Epos;
        [apply Hfin; right; left; eauto|]);
      (apply Hfin; right; right; split; [done|]; exists j; split_and!; [left| |done]);
      intros id' [_ Hj]%Hrun; exact (inactive_not_running out Ht Hex _ _ Hj).
Qed.

Lemma resolve_refines chat uuid user form m out r m' :
  stored m out → Forall tidy out → vinv (abs_all out) →
  resolve_tool_call_output dumps chat uuid user form (Some m) = Ok (r, m') →
  refined m out (resume_effect form r.1) m'.
Proof.
  intros Hs Ht Hv. destruct chat as [owner|]; [|done]. unfold resolve_tool_call_output, resolve_message.
  destruct (negb _); [done|]. destruct (negb _); [done|].
  pose proof (stored_items _ _ Hs) as [-> _]. cbn [mbind res_bind].
  destruct (find_index _ _) as [i|] eqn:Hf; [|done].
  destruct (found_call out Ht form i Hf) as (item0 & s & a & k & _ & _ & Habs & Ht1 & E & Hl).
  set (out1 := alter _ i out) in *. destruct (is_resolved form i out1) as [resolved|] eqn:Hres; [|done].
  cbn [mbind res_bind]. destruct resolved; [done|].
  destruct (unresolved_waiting out1 form i _ _ s a k Hres Hl E) as (-> & -> & Hp); [done|].
  rewrite pending_abs by done. cbn [mbind res_bind].
  destruct (apply_action dumps form i out1) as [out2|] eqn:Hact; [|done]. cbn [mbind res_bind].
  assert (Hv1 : vinv (abs_all out1)) by by rewrite Habs.
  destruct (advance_refines uuid form i out1 _ _ k out2 _ Ht1 Hv1 Hl eq_refl E eq_refl Hp Hact eq_refl) as [Ht2 H].
  rewrite pending_abs by done. cbn [mbind res_bind]. destruct (advance _ _ _ _ _) as [r0 out3].
  intros [= <- <-]. destruct H as (Hne & Ht3 & Hm). rewrite Habs in Hm.
  destruct (with_output_stored (dict_set "done" (VBool false) m) out out3) as [Hs3 Hu]; [by apply stored_done|done|].
  exists out3. split_and!; [done|done| |done]. by rewrite Hu, dget_set_ne.
Qed.
End Decide.
