(* ===== verification/ToolApprovalRuns.v ===== *)
(** * Interleaved operations on the tool calls of a message: no call runs or
    is answered twice, and every message can be brought to its end. *)

From S2P Require Import Prelude PyVal Messages ToolApproval ToolApprovalProps ToolApprovalRefinement.

(** ** Operations in any order *)

(** What may happen to a stored message: a worker looks for a call to run, a
    worker reports, a user decides. *)
Inductive event :=
| Start (full : bool)
| Complete (uuid id : string) (call result : pydict)
| Decide (chat : option string) (uuid user : string) (form : resolve_form).

Definition good_event (ev : event) : Prop :=
  match ev with Complete _ id call result => good_completion call result id | _ => True end.

Section Serve.
Context (dumps : pyval → string).

Definition serve (ev : event) (m : pydict) : res (effect * pydict) :=
  match ev with
  | Start full => x ← claim_tool_call full (Some m); Ok (started_effect x.1, x.2)
  | Complete uuid id call result =>
      x ← complete_tool_call uuid call result (Some m);
      pending ← pending_tool_calls x.1;
      Ok (if is_incomplete result then Answered
          else match pending with [] => Restarts | _ => Answered end, x.2)
  | Decide chat uuid user form =>
      x ← resolve_tool_call_output dumps chat uuid user form (Some m); Ok (resume_effect form x.1.1, x.2)
  end.

(** A refused operation leaves the message as it was. *)
Fixpoint serve_all (evs : list event) (m : pydict) : list effect * pydict :=
  match evs with
  | [] => ([], m)
  | ev :: evs =>
      match serve ev m with
      | Ok (e, m') => let '(effs, m'') := serve_all evs m' in (e :: effs, m'')
      | Err _ => serve_all evs m
      end
  end.

(** The stored message holds these items, which satisfy the invariant. *)
Record kept (m : pydict) (out : output_items) : Prop := {
  kept_stored : stored m out;
  kept_tidy : Forall tidy out;
  kept_inv : vinv (abs_all out);
}.

Lemma serve_refines ev m out e m' : kept m out → good_event ev → serve ev m = Ok (e, m') → refined m out e m'.
Proof.
  intros [Hs Ht Hv] Hg. destruct ev as [full|uuid id call result|chat uuid user form]; cbn [serve].
  - destruct (claim_refines m out Hs Ht Hv full) as (r & m1 & -> & Hr). by intros [= <- <-].
  - intros ([out' m1] & E & H)%bind_Ok. destruct (complete_refines m out Hs Ht Hv _ _ _ _ _ _ Hg E) as [Ht' Hr].
    cbn [fst snd] in H. rewrite pending_abs in H by done. cbn [mbind res_bind] in H. by injection H as <- <-.
  - intros ([r m1] & E & H)%bind_Ok. injection H as <- <-. by eapply resolve_refines.
Qed.

Lemma refined_kept m out e m' : kept m out → refined m out e m' →
  ∃ out', kept m' out' ∧ dget m' "user_id" = dget m "user_id" ∧ moves (abs_all out) e (abs_all out').
Proof.
  intros [_ _ Hv] (out' & Hs' & Ht' & Hu & Hm). exists out'. split_and!; [|done|done].
  split; [done|done|by eapply moves_inv].
Qed.

Lemma serve_all_runs evs m out : kept m out → Forall good_event evs →
  ∃ out', kept (serve_all evs m).2 out' ∧ mruns (abs_all out) (serve_all evs m).1 (abs_all out').
Proof.
  revert m out. induction evs as [|ev evs IH]; intros m out Hk Hg; [exists out; by split; [|constructor]|].
  apply Forall_cons in Hg as [Hev Hg]. cbn. destruct (serve ev m) as [[e m1]|] eqn:E; [|by apply IH].
  apply (serve_refines _ _ _ _ _ Hk Hev) in E.
  destruct (refined_kept _ _ _ _ Hk E) as (out1 & Hk1 & _ & Hm).
  destruct (IH m1 out1 Hk1 Hg) as (out' & Hk' & Hr). destruct (serve_all evs m1) as [effs m'].
  exists out'. split; [done|by econstructor].
Qed.

(** ** Something can always be done *)

(** The operation did something, and the model goes on when no call is left. *)
Definition continues (e : effect) (m' : pydict) : Prop :=
  e ≠ Idle ∧ (e ≠ Restarts → ∃ out', stored m' out' ∧ ¬ no_pending (abs_all out')).

(** A pending call is found again by its identifier. *)
Lemma saved_call out i call id : vinv (abs_all out) → i ∈ pending_positions (abs_all out) →
  dget (item_at out i) "call_id" = VStr id → id ≠ EmptyString → dict_get "call_id" call = Some (VStr id) →
  find_saved out (pending_positions (abs_all out)) call = Ok (Some i).
Proof.
  intros Hv Hi Hcid Hne Hcall. unfold find_saved, ditem. rewrite Hcall.
  destruct (pending_positions (abs_all out)) as [|j0 l] eqn:Epos; [by apply elem_of_nil in Hi|].
  cbn [mbind res_bind]. f_equal. rewrite <-Epos in Hi |- *.
  assert (Hid : ∀ j, j ∈ pending_positions (abs_all out) → dget (item_at out j) "call_id" = VStr id →
    ∃ s a k, abs_all out !! j = Some (VCall id s a k)).
  { intros j Hj Ec. destruct (pending_at out j Hj) as (idj & sj & aj & kj & _ & Ej & [Hl _]).
    pose proof (is_call_abs _ _ _ _ _ Ej) as (_ & Hidj & _). unfold item_id, por in Hidj. rewrite Ec in Hidj.
    assert (truthy (VStr id) = true) as Htr by by destruct id. rewrite Htr in Hidj. injection Hidj as <-. eauto. }
  apply find_first_unique; [done|rewrite Hcid; apply String.eqb_refl|].
  intros j Hj He. destruct (dget (item_at out j) "call_id") eqn:Ec; try done. cbn in He. apply String.eqb_eq in He as ->.
  destruct (Hid i Hi Hcid) as (? & ? & ? & ?), (Hid j Hj Ec) as (? & ? & ? & ?). by eapply same_call.
Qed.

(** A worker may report the running call. *)
Lemma can_complete m out i id : kept m out → running (abs_all out) i id →
  ∃ call result e m', good_completion call result id ∧
    serve (Complete EmptyString id call result) m = Ok (e, m') ∧ continues e m'.
Proof.
  intros [Hs Ht Hv] (a & k & Hp).
  assert (Hi : i ∈ pending_positions (abs_all out)) by (apply pending_positions_spec; eauto).
  destruct (pending_at out i Hi) as (id' & s' & a' & k' & Hl & E & Hp').
  assert (VCall id' s' a' k' = VCall id Running a k) as [= -> -> -> ->].
  { destruct Hp as [Hp _], Hp' as [Hp' _]. by simplify_eq. }
  set (item := item_at out i) in *. pose proof (is_call_abs _ _ _ _ _ E) as (Hty & Hid & Hst & _).
  assert (Htidy : tidy item) by by eapply Forall_lookup_1.
  destruct (proj1 Htidy Hty) as ((id0 & Hid0 & Hne) & _ & Hcall). rewrite Hid in Hid0. injection Hid0 as <-.
  assert (Hprog : in_progress item = true) by (by rewrite (in_progress_abs _ _ _ _ _ E), bool_decide_eq_true_2).
  assert (Hcid : dget item "call_id" = VStr id).
  { specialize (Hcall Hprog). unfold item_id, por in Hid. by rewrite Hcall in Hid. }
  set (call := [("type", VStr "function_call"); ("call_id", VStr id); ("status", VStr "completed")]).
  set (result := [("type", VStr "function_call_output"); ("call_id", VStr id); ("status", VStr "completed")]).
  assert (Hgc : good_completion call result id).
  { split; try done; [repeat constructor; set_solver|by intros v [= <-]]. }
  exists call, result. cbn [serve]. unfold complete_tool_call.
  destruct (stored_items _ _ Hs) as [-> _]. cbn [mbind res_bind]. rewrite pending_abs by done. cbn [mbind res_bind].
  assert (Hf : find_saved out (pending_positions (abs_all out)) call = Ok (Some i)) by by eapply saved_call.
  rewrite Hf. cbn [mbind res_bind]. fold item. rewrite Hprog. cbn [negb].
  destruct (update_abs item call result id Hgc Htidy Hty) as (Htu & s' & a' & k' & Eu).
  destruct (result_abs result id) as [Er Htr]; [done..|].
  rewrite (alter_insert _ _ _ _ Hl).
  destruct (answered out Ht i id Running a k _ s' a' k' result Hp Eu Htu Er Htr) as (_ & Ht1 & _).
  rewrite pending_abs by done. cbn [mbind res_bind fst snd].
  destruct (finish_refines out Ht Hv EmptyString i id a k _ s' a' k' result Hp Eu Htu Er Htr) as (Hne2 & Ht2 & _).
  change (veq_str (dget result "status") "incomplete") with false. cbv iota. cbn [mbind res_bind fst snd].
  set (out2 := match pending_positions _ with [] => _ | _ => _ end) in *. rewrite pending_abs by done.
  eexists _, _. split; [done|]. split; [reflexivity|]. change (is_incomplete result) with false. cbv iota.
  split; [by destruct (pending_positions (abs_all out2))|]. intros Hn. exists out2.
  split; [by apply (with_output_stored m out)|]. intros Hnp. apply no_pending_positions in Hnp. by rewrite Hnp in Hn.
Qed.

(** A worker may start an approved call. *)
Lemma can_start m out i id k : kept m out → (∀ j id', ¬ running (abs_all out) j id') →
  pends (abs_all out) i (VCall id Waiting true k) →
  ∃ e m', serve (Start false) m = Ok (e, m') ∧ continues e m'.
Proof.
  intros [Hs Ht Hv] Hnone Hp. destruct (claim_refines m out Hs Ht Hv false) as (r & m' & E & Hr).
  cbn [serve]. rewrite E. eexists _, _. split; [reflexivity|]. destruct r as [item|]; [split; [done|]; intros _|exfalso].
  { destruct Hr as (out' & Hs' & _ & _ & Hm). exists out'. split; [done|]. by eapply moves_runs_pending. }
  unfold claim_tool_call in E. destruct (stored_items _ _ Hs) as [Hout _]. rewrite Hout in E. cbn [mbind res_bind] in E.
  rewrite pending_abs in E by done. cbn [mbind res_bind] in E.
  assert (existsb (λ i, in_progress (item_at out i)) (pending_positions (abs_all out)) = false) as Hex.
  { apply not_true_iff_false. intros (j & id' & Hj)%running_exists. by eapply Hnone. }
  rewrite Hex in E. destruct (find_first _ _) as [j|] eqn:Hf; [by apply bind_Ok in E as (? & _ & [=])|].
  assert (Hi : i ∈ pending_positions (abs_all out)) by (apply pending_positions_spec; eauto).
  rewrite find_first_None in Hf. specialize (Hf i Hi).
  destruct (pending_at out i Hi) as (id' & s' & a' & k' & _ & E' & Hp').
  destruct k; [by pose proof (vinv_ask _ Hv _ _ _ _ Hp)|].
  assert (VCall id' s' a' k' = VCall id Waiting true false) as [= -> -> -> ->].
  { destruct Hp as [Hp _], Hp' as [Hp' _]. by simplify_eq. }
  pose proof (is_call_abs _ _ _ _ _ E') as (_ & _ & _ & Ha & Hk). unfold may_start in Hf. by rewrite <-Ha, <-Hk in Hf.
Qed.

Lemma find_index_exists {A} (p : A → bool) (l : list A) (i : nat) a :
  l !! i = Some a → p a = true → ∃ j, find_index p l = Some j.
Proof.
  revert i. induction l as [|b l IH]; intros i Hi Hp; [done|]. cbn. destruct (p b) eqn:Hb; [eauto|].
  destruct i as [|i]; cbn in Hi; [congruence|]. destruct (IH i Hi Hp) as [j ->]. eauto.
Qed.

Lemma waiting_unresolved form out i k : Forall tidy out →
  pends (abs_all out) i (VCall (rf_call_id form) Waiting false k) → is_resolved form i out = Ok false.
Proof.
  intros Ht Hp. assert (Hi : i ∈ pending_positions (abs_all out)) by (apply pending_positions_spec; eauto).
  destruct (pending_at out i Hi) as (id' & s' & a' & k' & Hl & E & Hp').
  assert (VCall id' s' a' k' = VCall (rf_call_id form) Waiting false k) as [= -> -> -> ->].
  { destruct Hp as [Hp _], Hp' as [Hp' _]. by simplify_eq. }
  unfold is_resolved. destruct (existsb _ _) eqn:Hex.
  - exfalso. apply (pends_fresh _ _ _ _ _ _ Hp). apply existsb_True in Hex as (item & Hin & Hb).
    apply andb_prop in Hb as [Hty Hc]. apply veq_str_true in Hc. unfold is_type in Hty. apply veq_str_true in Hty.
    apply list_elem_of_omap. exists (abs item). split; [by apply list_elem_of_fmap_2|].
    by rewrite (proj1 (result_abs item _ Hty Hc)).
  - pose proof (is_call_abs _ _ _ _ _ E) as (Hty & _ & Hst & Ha & _).
    assert (Hti : tidy (item_at out i)) by by eapply Forall_lookup_1.
    destruct (proj1 Hti Hty) as (_ & Hh & _). unfold hashed. rewrite Hh. cbn [mbind res_bind].
    rewrite <-Ha, orb_false_r. do 2 f_equal. unfold status_of in Hst.
    destruct (veq_str _ "in_progress"); [done|]. by destruct (vin_strs _ _).
Qed.

Definition rejects (id : string) : resolve_form :=
  {| rf_call_id := id; rf_action := Reject; rf_answers := VNone; rf_timed_out := false |}.

Lemma pending_positions_nonempty v i x : pends v i x → pending_positions v ≠ [].
Proof. intros Hp Hn. by apply no_pending_positions in Hn; destruct (Hn i x). Qed.

(** No call runs or was approved. *)
Definition all_waiting (v : list vitem) : Prop :=
  ∀ j id s a k, pends v j (VCall id s a k) → s = Waiting ∧ a = false.

Lemma waiting_inactive out : all_waiting (abs_all out) →
  existsb (λ j, is_approved (item_at out j) || in_progress (item_at out j)) (pending_positions (abs_all out)) = false.
Proof.
  intros Hw. apply not_true_iff_false. intros (j & Hj & Hb)%existsb_True.
  destruct (pending_at out j Hj) as (id & s & a & k & _ & E & Hp). destruct (Hw _ _ _ _ _ Hp) as [-> ->].
  pose proof (is_call_abs _ _ _ _ _ E) as (_ & _ & _ & Ha & _). by rewrite <-Ha, (in_progress_abs _ _ _ _ _ E) in Hb.
Qed.

(** A user may reject a call while no other is active. *)
Lemma can_reject m out i owner user id k : kept m out → por (dget m "user_id") (VStr owner) = VStr user →
  all_waiting (abs_all out) → pends (abs_all out) i (VCall id Waiting false k) →
  ∃ e m', serve (Decide (Some owner) EmptyString user (rejects id)) m = Ok (e, m') ∧
    continues e m'.
Proof.
  intros [Hs Ht Hv] Huser Hact Hp. cbn [serve]. unfold resolve_tool_call_output, resolve_message.
  rewrite Huser. cbn [veq_str]. rewrite String.eqb_refl. cbn [negb].
  destruct (stored_items _ _ Hs) as [Hout Htr]. unfold por. rewrite Htr, (proj1 Hs). cbn [is_list negb].
  rewrite Hout. cbn [mbind res_bind].
  pose proof Hp as [Hi _]. unfold abs_all in Hi. rewrite list_lookup_fmap in Hi.
  apply fmap_Some in Hi as (item0 & Hl0 & E0). symmetry in E0. pose proof (is_call_abs _ _ _ _ _ E0) as (Hty0 & Hid0 & _).
  destruct (find_index_exists (λ item, is_type item "function_call" && veq_str (item_id item) (rf_call_id (rejects id))) out i item0)
    as [j Hf]; [done|by rewrite Hty0, Hid0; apply String.eqb_refl|].
  rewrite Hf. destruct (found_call out Ht (rejects id) j Hf) as (item & s & a & k1 & Hl & E & Habs & Ht1 & E1 & Hl1).
  assert (j = i) as ->.
  { eapply same_call; [exact Hv| |apply Hp]. unfold abs_all. by rewrite list_lookup_fmap, Hl; cbn; rewrite E. }
  rewrite Hl0 in Hl. injection Hl as <-. rewrite E0 in E. cbn in E. injection E as <- <- <-.
  set (out1 := alter _ i out) in *. cbn [rf_call_id rejects] in E1.
  assert (Hp1 : pends (abs_all out1) i (VCall id Waiting false k)) by by rewrite Habs.
  rewrite (waiting_unresolved (rejects id) out1 i k) by done. cbn [mbind res_bind].
  rewrite pending_abs by done. cbn [mbind res_bind apply_action rf_action rejects].
  rewrite waiting_inactive by by rewrite Habs.
  unfold set_item. rewrite (alter_insert _ _ _ _ Hl1). set (item' := dict_set "status" _ _).
  assert (Ei : abs item' = VCall id Closed false k) by (unfold item'; rewrite abs_set, E1 by set_solver; done).
  assert (Hti : tidy item') by (apply tidy_set; [set_solver|done|by eapply Forall_lookup_1]).
  destruct (decision_abs id "Error: tool call rejected by user." "rejected") as [Er Htr'].
  destruct (answered out1 Ht1 i id Waiting false k item' Closed false k _ Hp1 Ei Hti Er Htr') as (_ & Ht2 & Hne & Hrun).
  cbn [rf_call_id rejects]. set (out2 := <[i := item']> out1 ++ _) in *.
  rewrite pending_abs by done. cbn [mbind res_bind]. unfold advance. cbn [rf_action rejects].
  destruct (pending_positions (abs_all out2)) as [|j l] eqn:Epos; cbn [mbind res_bind fst snd].
  - eexists _, _. split; [reflexivity|]. split; [done|]. by intros [].
  - eexists _, _. split; [reflexivity|]. split; [done|]. intros _. eexists. split.
    + apply (with_output_stored _ out); [by apply stored_done|].
      destruct (show_next out2 j Ht2 Hne) as (_ & _ & H); [rewrite Epos; left| |exact H].
      intros id' (_ & a0 & k0 & Hj)%Hrun. rewrite Habs in Hj. by destruct (Hact _ _ _ _ _ Hj).
    + destruct (show_next out2 j Ht2 Hne) as (-> & _ & _); [rewrite Epos; left| |].
      * intros id' (_ & a0 & k0 & Hj)%Hrun. rewrite Habs in Hj. by destruct (Hact _ _ _ _ _ Hj).
      * intros Hn. apply no_pending_positions in Hn. by rewrite Epos in Hn.
Qed.

Lemma can_work m out owner user : kept m out → por (dget m "user_id") (VStr owner) = VStr user →
  ¬ no_pending (abs_all out) →
  ∃ ev e m', good_event ev ∧ serve ev m = Ok (e, m') ∧ continues e m'.
Proof.
  intros Hk Huser Hn. pose proof Hk as [_ Ht _].
  destruct (existsb (λ i, in_progress (item_at out i)) (pending_positions (abs_all out))) eqn:Hrun.
  { apply running_exists in Hrun as (j & id & Hj).
    destruct (can_complete m out j id Hk Hj) as (call & result & e & m' & Hg & E & Hc). by exists (Complete EmptyString id call result), e, m'. }
  assert (Hnone : ∀ j id, ¬ running (abs_all out) j id).
  { intros j id Hj. apply not_true_iff_false in Hrun. apply Hrun, running_exists. eauto. }
  assert (Hwait : ∀ i id s a k, pends (abs_all out) i (VCall id s a k) → s = Waiting).
  { intros i id s a k Hp. destruct s; [done|by destruct (Hnone i id); exists a, k|by apply pends_open in Hp]. }
  destruct (existsb (λ i, is_approved (item_at out i)) (pending_positions (abs_all out))) eqn:Happ.
  - apply existsb_True in Happ as (i & Hi & Ha). destruct (pending_at out i Hi) as (id & s & a & k & _ & E & Hp).
    pose proof (is_call_abs _ _ _ _ _ E) as (_ & _ & _ & Ha' & _). rewrite Ha in Ha'. subst a.
    rewrite (Hwait _ _ _ _ _ Hp) in Hp. destruct (can_start m out i id k Hk Hnone Hp) as (e & m' & E' & Hc).
    by exists (Start false), e, m'.
  - destruct (pending_positions (abs_all out)) as [|i l] eqn:Epos; [by destruct Hn; apply no_pending_positions|].
    rewrite <-Epos in Happ. assert (Hi : i ∈ pending_positions (abs_all out)) by (rewrite Epos; left).
    assert (Hw : all_waiting (abs_all out)).
    { intros j id s a k Hp. split; [by eapply Hwait|]. destruct a; [|done]. exfalso.
      assert (Hj : j ∈ pending_positions (abs_all out)) by (apply pending_positions_spec; eauto).
      apply not_true_iff_false in Happ. apply Happ, existsb_True. exists j. split; [done|].
      destruct (pending_at out j Hj) as (id' & s' & a' & k' & _ & E & [Hl _]).
      pose proof (is_call_abs _ _ _ _ _ E) as (_ & _ & _ & <- & _). destruct Hp as [Hp _]. by simplify_eq. }
    destruct (pending_at out i Hi) as (id & s & a & k & _ & _ & Hp). destruct (Hw _ _ _ _ _ Hp) as [-> ->].
    destruct (can_reject m out i owner user id k Hk Huser Hw Hp) as (e & m' & E & Hc). by exists (Decide (Some owner) EmptyString user (rejects id)), e, m'.
Qed.

Lemma stored_inj m out out' : stored m out → stored m out' → out = out'.
Proof.
  intros [E _] [E' _]. rewrite E in E'. injection E' as E'. clear E. revert out' E'.
  induction out as [|x out IH]; intros [|y out'] E'; cbn in E'; simplify_eq; [done|]. f_equal. by apply IH.
Qed.

(** Working until nothing is pending. *)
Lemma can_finish n m out owner user : work (abs_all out) <= n → kept m out →
  por (dget m "user_id") (VStr owner) = VStr user → ¬ no_pending (abs_all out) →
  ∃ evs, Forall good_event evs ∧ length evs <= n ∧
    let '(effs, m') := serve_all evs m in
    (∃ out', kept m' out' ∧ no_pending (abs_all out')) ∧ List.filter is_restart effs = [Restarts].
Proof.
  revert m out. induction n as [n IH] using lt_wf_ind. intros m out Hn Hk Huser Hp.
  destruct (can_work m out owner user Hk Huser Hp) as (ev & e & m1 & Hg & E & Hidle & Hcont).
  pose proof (serve_refines _ _ _ _ _ Hk Hg E) as Href.
  destruct (refined_kept _ _ _ _ Hk Href) as (out1 & Hk1 & Hu & Hm).
  destruct (moves_work _ _ _ Hm) as [Hlt|[? _]]; [|done].
  destruct (pending_positions (abs_all out1)) as [|i l] eqn:Epos.
  - assert (Hn1 : no_pending (abs_all out1)) by by apply no_pending_positions.
    assert (e = Restarts) as ->.
    { destruct e; try done; destruct (Hcont ltac:(done)) as (out' & Hs' & Hn');
        by rewrite (stored_inj _ _ _ Hs' (kept_stored _ _ Hk1)) in Hn'. }
    exists [ev]. split_and!; [by constructor|cbn; lia|]. cbn. rewrite E. split; [by exists out1|done].
  - assert (Hp1 : ¬ no_pending (abs_all out1)) by (intros Hnp%no_pending_positions; by rewrite Hnp in Epos).
    destruct (IH (work (abs_all out1)) ltac:(lia) m1 out1 ltac:(lia) Hk1 ltac:(by rewrite Hu) Hp1)
      as (evs & Hgs & Hlen & Hrest).
    exists (ev :: evs). split_and!; [by constructor|cbn; lia|]. cbn. rewrite E.
    destruct (serve_all evs m1) as [effs m']. destruct Hrest as [Hfin Hone]. split; [done|].
    destruct e; try done. exfalso. apply Hp1. by eapply moves_restarts.
Qed.
End Serve.

(** ** Properties *)

(** A message that waits for its first decision. *)
Lemma waiting_vinv v : NoDup (cids v) → NoDup (rids v) →
  Forall (λ x, match x with VCall _ s a k => s ≠ Running ∧ (k = true → a = false) | _ => True end) v → vinv v.
Proof.
  intros Hc Hr Hall. rewrite Forall_lookup in Hall. split; [done|done| |].
  - intros i j id id' (a & k & Hi & _) _. by destruct (Hall _ _ Hi).
  - intros i id s a [Hi _]. destruct (Hall _ _ Hi) as [_ H]. auto.
Qed.

(** C37: Whatever the order of approvals, rejections, answers, starts and reports on the tool calls of a stored message, concurrent ones included since each is one transaction, every call is started at most once, the calls keep at most one result each and run one at a time, and the model is restarted at most once. *)
Theorem tool_calls_run_once dumps m out evs : kept m out → Forall good_event evs →
  let '(effs, m') := serve_all dumps evs m in
  NoDup (runs_of effs) ∧ length (List.filter is_restart effs) <= 1 ∧
  ∃ out', stored m' out' ∧ NoDup (rids (abs_all out')) ∧
    ∀ i j id id', running (abs_all out') i id → running (abs_all out') j id' → i = j.
Proof.
  intros Hk Hg. destruct (serve_all_runs dumps evs m out Hk Hg) as (out' & [Hs' _ Hv'] & Hr).
  destruct (serve_all dumps evs m) as [effs m']. destruct Hk as [_ _ Hv].
  destruct (mruns_once _ _ _ Hv Hr) as (_ & ? & _ & ?).
  split_and!; [done..|]. exists out'. split_and!; [done|apply Hv'|apply Hv'].
Qed.

(** A message with a call to approve and a question. *)
Definition two_calls : output_items :=
  [[("type", VStr "function_call"); ("id", VStr "fc_1"); ("call_id", VStr "c1"); ("name", VStr "search");
    ("status", VStr "pending")];
   [("type", VStr "function_call"); ("id", VStr "fc_2"); ("call_id", VStr "c2"); ("name", VStr "ask_user");
    ("status", VStr "queued")]].
Definition two_calls_message : pydict := [("role", VStr "assistant"); ("output", VList (map VDict two_calls))].

Definition finished : pydict :=
  [("type", VStr "function_call"); ("call_id", VStr "c1"); ("status", VStr "completed")].
Definition finished_result : pydict :=
  [("type", VStr "function_call_output"); ("call_id", VStr "c1"); ("status", VStr "completed")].
Definition approval : resolve_form :=
  {| rf_call_id := "c1"; rf_action := Approve; rf_answers := VNone; rf_timed_out := false |}.
Definition answer : resolve_form :=
  {| rf_call_id := "c2"; rf_action := Answer; rf_answers := VDict [("q", VStr "yes")]; rf_timed_out := false |}.

Definition two_calls_events : list event :=
  [Start false; Decide (Some "u") "x" "u" approval; Start false; Decide (Some "u") "x" "u" approval; Start false;
   Complete "x" "c1" finished finished_result; Complete "x" "c1" finished finished_result;
   Decide (Some "u") "y" "u" answer; Start true].

Lemma two_calls_kept : kept two_calls_message two_calls.
Proof.
  split; [done| |].
  - apply Forall_cons; split; [|apply Forall_singleton]; (split; [intros _|done]); split_and!; try done.
    + by exists "c1".
    + by exists "c2".
  - apply waiting_vinv; [vm_compute; repeat constructor; set_solver|constructor|by repeat constructor].
Qed.

Lemma finished_good : good_completion finished finished_result "c1".
Proof. split; try done; [repeat constructor; set_solver|by intros v [= <-]]. Qed.

Lemma tool_calls_run_once_witness :
  (serve_all (λ _, EmptyString) two_calls_events two_calls_message).1 =
    [Idle; Approved; Runs (VStr "c1"); Idle; Answered; Restarts; Idle] ∧
  NoDup (runs_of (serve_all (λ _, EmptyString) two_calls_events two_calls_message).1).
Proof.
  pose proof (tool_calls_run_once (λ _, EmptyString) two_calls_message two_calls two_calls_events two_calls_kept) as H.
  destruct (serve_all (λ _, EmptyString) two_calls_events two_calls_message) as [effs m'] eqn:E.
  split; [vm_compute in E; by injection E as <- _|].
  apply H. repeat (constructor; [try exact I; try exact finished_good|]). constructor.
Defined.

(** C38: Tool calls never block a message: while a call is pending, some operation of a worker or of the user is accepted, every accepted operation reduces the work that is left, and there is a sequence of operations, no longer than that work, after which no call is pending, whose last one restarts the model. *)
Theorem tool_calls_can_finish dumps m out owner user : kept m out →
  por (dget m "user_id") (VStr owner) = VStr user → pending_tool_calls out ≠ Ok [] →
  (∀ ev e m', good_event ev → serve dumps ev m = Ok (e, m') → e ≠ Idle →
     ∃ out', kept m' out' ∧ work (abs_all out') < work (abs_all out)) ∧
  ∃ evs, Forall good_event evs ∧ length evs <= work (abs_all out) ∧
    let '(effs, m') := serve_all dumps evs m in
    (∃ out', kept m' out' ∧ pending_tool_calls out' = Ok []) ∧ List.filter is_restart effs = [Restarts].
Proof.
  intros Hk Huser Hp. rewrite pending_abs in Hp by apply Hk. split.
  - intros ev e m' Hg E Hidle.
    destruct (refined_kept _ _ _ _ Hk (serve_refines _ _ _ _ _ _ Hk Hg E)) as (out' & Hk' & _ & Hm).
    exists out'. split; [done|]. by destruct (moves_work _ _ _ Hm) as [?|[? _]].
  - destruct (can_finish dumps (work (abs_all out)) m out owner user) as (evs & Hg & Hlen & H); [done..| |].
    { intros Hn%no_pending_positions. by rewrite Hn in Hp. }
    exists evs. split_and!; [done..|]. destruct (serve_all dumps evs m) as [effs m'].
    destruct H as [(out' & Hk' & Hn) H]. split; [|done]. exists out'. split; [done|].
    rewrite pending_abs by apply Hk'. f_equal. by apply no_pending_positions.
Qed.

Lemma tool_calls_can_finish_witness :
  ∃ evs, Forall good_event evs ∧ length evs <= 8 ∧
    let '(effs, m') := serve_all (λ _, EmptyString) evs two_calls_message in
    (∃ out', kept m' out' ∧ pending_tool_calls out' = Ok []) ∧ List.filter is_restart effs = [Restarts].
Proof.
  destruct (tool_calls_can_finish (λ _, EmptyString) two_calls_message two_calls "u" "u" two_calls_kept) as [_ H];
    [reflexivity|by vm_compute|exact H].
Defined.
