(* ===== verification/Checkin.v ===== *)
(** * Daily check-ins (models/checkin.py and routers/checkin.py): the record of
    a day and the reward are written in one transaction.

    [checkin_db] is the credit database with the table of check-in records.
    Decimal and float texts are finite numbers. *)

From S2P Require Import Prelude PyVal PyDecimal Json Config Credits CreditPrice.
From Stdlib Require Import SpecFloat.

Local Open Scope Z_scope.

(** [CheckinRecord] / [CheckinRecordModel] *)
Record checkin_record := {
  ck_id : string;
  ck_user_id : string;
  ck_date : string;
  ck_reward : dec;
  ck_created_at : Z;
}.

Record checkin_db := { ci_credit : credit_db; ci_records : list checkin_record }.

Definition with_records (l : list checkin_record) (d : checkin_db) : checkin_db :=
  {| ci_credit := ci_credit d; ci_records := l |}.

(** An operation on the credit tables. *)
Definition on_credit {A} (m : st credit_db A) : st checkin_db A := λ d,
  let '(r, c) := m (ci_credit d) in (r, {| ci_credit := c; ci_records := ci_records d |}).

(** [float(v)] *)
Definition py_float (v : pyval) : res spec_float :=
  match v with
  | VFloat f => Ok f
  | VInt z => match F64.of_Z z with Some f => Ok f | None => Err OverflowError end
  | VBool b => match F64.of_Z (if b then 1 else 0) with Some f => Ok f | None => Err OverflowError end
  | VStr s => float_of_string s
  | _ => Err TypeError
  end.

Definition float_positive (f : spec_float) : bool := F64.ltb F64.zero f.
Definition float_nonneg (f : spec_float) : bool := float_leb F64.zero f.

Definition same_day (user_id date : string) (r : checkin_record) : bool :=
  String.eqb (ck_user_id r) user_id && String.eqb (ck_date r) date.

(** ** [CheckinRecordTable] *)

(** [has_checked_in] *)
Definition has_checked_in (user_id date : string) : st checkin_db bool :=
  st_gets (λ d, existsb (same_day user_id date) (ci_records d)).

(** [get_user_records]: newest first. *)
Definition newest_first (l : list checkin_record) : list checkin_record :=
  py_sorted (λ a b, ck_created_at b <=? ck_created_at a) l.

Definition get_user_records (user_id : string) (limit : nat) (d : checkin_db) : list checkin_record :=
  firstn limit (List.filter (λ r, String.eqb (ck_user_id r) user_id) (newest_first (ci_records d))).

(** [get_records]: an empty keyword and a zero offset or limit are not applied. *)
Definition get_records (keyword : option string) (offset limit : nat) (d : checkin_db)
    : nat * list checkin_record :=
  let rows := newest_first (ci_records d) in
  let rows := match keyword with
              | Some k => if Str.is_empty k then rows else List.filter (λ r, String.eqb (ck_user_id r) k) rows
              | None => rows
              end in
  (length rows, let rows := skipn offset rows in if (limit =? 0)%nat then rows else firstn limit rows).

(** ** Rewards *)

Notation reward := (dec * spec_float)%type.

(** [(Decimal('1'), 1.0)] *)
Definition default_reward : reward := (dec_of_Z 1, default F64.zero (F64.of_Z 1)).

(** [_weighted_pick]; [rnd] is [random.random()], which [random.uniform] scales. *)
Fixpoint pick_from (value cumulative : spec_float) (rewards : list reward) : option dec :=
  match rewards with
  | [] => None
  | (amount, weight) :: rest =>
      let cumulative := F64.add cumulative weight in
      if float_leb value cumulative then Some amount else pick_from value cumulative rest
  end.

Definition weighted_pick (rnd : spec_float) (rewards : list reward) : res dec :=
  let total := foldl F64.add F64.zero (map snd rewards) in
  let value := F64.add F64.zero (F64.mul (F64.sub total F64.zero) rnd) in
  match pick_from value F64.zero rewards with
  | Some amount => Ok amount
  | None => match rewards with (amount, _) :: _ => Ok amount | [] => Err IndexError end
  end.

Section Checkin.
(** As for the credit tables. *)
Context (numeric : dec → dec) (uuid4 : nat → string) (repr_other : pyval → string).

(** One item of the reward list: [None] when its weight is not positive. *)
Definition parse_reward (item : pyval) : res (option reward) :=
  w ← vgetd item "weight" (VInt 0);
  f ← py_float w;
  if float_positive f then
    a ← vitem item "amount";
    amount ← to_dec (VStr (py_str repr_other a));
    w ← vitem item "weight";
    weight ← py_float w;
    Ok (Some (amount, weight))
  else Ok None.

Definition present (rewards : list (option reward)) : list reward := omap (M:=list) id rewards.

(** The [try] block of [_parse_rewards]. *)
Definition parse_reward_data (raw : pyval) : res (list reward) :=
  data ← (match raw with VStr s => json_loads s | _ => Err TypeError end : res pyval);
  items ← viter data;
  rewards ← mapR parse_reward items;
  Ok (present rewards).

(** [_parse_rewards] *)
Definition parse_rewards (c : config_state) : list reward :=
  let raw := por (config_get c "lottery.reward_config" (VStr EmptyString)) (VStr EmptyString) in
  match parse_reward_data raw with
  | Ok [] => [default_reward]
  | Ok rewards => rewards
  | Err _ => [default_reward]
  end.

(** INSERT into [lottery_draw]: the unique index is on user and date. *)
Definition insert_checkin_row (r : checkin_record) : st checkin_db unit := λ d,
  if existsb (same_day (ck_user_id r) (ck_date r)) (ci_records d) then (Err IntegrityError, d)
  else (Ok tt, with_records (ci_records d ++
          [{| ck_id := ck_id r; ck_user_id := ck_user_id r; ck_date := ck_date r;
              ck_reward := numeric (ck_reward r); ck_created_at := ck_created_at r |}]) d).

(** [CheckinRecordTable.insert] *)
Definition insert (r : checkin_record) : st checkin_db (option checkin_record) :=
  st_catch (
    transaction (
      _ ← insert_checkin_row r;
      mret (Some {| ck_id := ck_id r; ck_user_id := ck_user_id r; ck_date := ck_date r;
                    ck_reward := numeric (ck_reward r); ck_created_at := ck_created_at r |})))
    (λ _, mret None).

(** The balance of the user's row, which is created when there is none;
    the new row's value in memory is not rounded yet. *)
Definition balance_for_reward (now : Z) (user_id : string) : st checkin_db dec :=
  credit_row ← on_credit (get_credit_by_user_id user_id);
  match credit_row with
  | Some row => mret (cr_credit row)
  | None =>
      default_value ← st_gets (λ d, config_get (db_config (ci_credit d)) "credit.default_credit" (VStr "0"));
      default_credit ← st_lift (to_dec (VStr (py_str repr_other default_value)));
      id ← on_credit (fresh_uuid uuid4);
      _ ← on_credit (insert_credit_row numeric
            {| cr_id := id; cr_user_id := user_id; cr_credit := default_credit;
               cr_updated_at := now; cr_created_at := now |});
      mret default_credit
  end.

(** The block of [_create_checkin_record] that writes. *)
Definition award (now : Z) (user_id today : string) (reward : dec) : st checkin_db unit :=
  transaction (
    id ← on_credit (fresh_uuid uuid4);
    _ ← insert_checkin_row {| ck_id := id; ck_user_id := user_id; ck_date := today;
                              ck_reward := reward; ck_created_at := now |};
    balance ← balance_for_reward now user_id;
    (* [Decimal(str(credit_row.credit or 0))] *)
    let current_credit := if coef balance =? 0 then d0 else balance in
    let new_credit := dadd current_credit reward in
    _ ← on_credit (update_credit_rows numeric (of_user user_id) (λ _, new_credit) now);
    mret tt).

Definition checkin_failure (duplicate_detail : string) (e : exn) : exn :=
  match e with
  | IntegrityError => HTTPException 400 duplicate_detail
  | _ => HTTPException 500 "Failed to award check-in reward"
  end.

(** [_create_checkin_record] *)
Definition create_checkin_record (now : Z) (rnd : spec_float) (user_id today duplicate_detail : string)
    : st checkin_db dec :=
  c ← st_gets (λ d, db_config (ci_credit d));
  reward ← st_lift (weighted_pick rnd (parse_rewards c));
  st_catch (_ ← award now user_id today reward; mret reward)
    (λ e, raise (checkin_failure duplicate_detail e)).

(** ** Endpoints *)

Definition checkin_enabled : st checkin_db bool :=
  st_gets (λ d, truthy (config_get (db_config (ci_credit d)) "lottery.checkin.enable" (VBool false))).

(** [get_checkin_config] *)
Definition get_checkin_config (user_id today : string) : st checkin_db (bool * bool) :=
  enabled ← checkin_enabled;
  checked_in ← (if (enabled : bool) then has_checked_in user_id today else mret false);
  mret (enabled, checked_in).

(** [checkin]; [lock] is the answer of [redis.set(..., nx=True, ex=30)]:
    [None] without a client or when it raises. *)
Definition checkin (now : Z) (rnd : spec_float) (lock : option bool) (user_id today : string)
    : st checkin_db spec_float :=
  enabled ← checkin_enabled;
  if negb enabled then raise (HTTPException 400 "Check-in is not enabled")
  else
    done ← has_checked_in user_id today;
    if (done : bool) then raise (HTTPException 400 "Already checked in today")
    else match lock with
         | Some false => raise (HTTPException 400 "Too many requests")
         | _ =>
             reward ← create_checkin_record now rnd user_id today "Already checked in today";
             mret (float_of_dec reward)
         end.

(** [my_history] *)
Definition my_history (user_id : string) (d : checkin_db) : list pyval :=
  map (λ r, VDict [("checkin_date", VStr (ck_date r)); ("reward", VFloat (float_of_dec (ck_reward r)));
                   ("type", VStr "checkin"); ("created_at", VInt (ck_created_at r))])
      (get_user_records user_id 30 d).

(** [list_checkin_records]; [get_user] gives the name and email of an account,
    pages are not negative. *)
Definition PAGE_ITEM_COUNT : nat := 30.

Definition list_checkin_records (get_user : string → option (string * string)) (page : option nat)
    (keyword : option string) (d : checkin_db) : pyval :=
  let page := match page with Some (S n) => S n | _ => 1%nat end in
  let '(total, records) := get_records keyword ((page - 1) * PAGE_ITEM_COUNT) PAGE_ITEM_COUNT d in
  let item r :=
    let '(name, email) := default (ck_user_id r, EmptyString) (get_user (ck_user_id r)) in
    VDict [("id", VStr (ck_id r)); ("user_id", VStr (ck_user_id r)); ("name", VStr name); ("email", VStr email);
           ("checkin_date", VStr (ck_date r)); ("reward", VFloat (float_of_dec (ck_reward r)));
           ("type", VStr "checkin"); ("created_at", VInt (ck_created_at r))] in
  VDict [("total", VInt (Z.of_nat total)); ("page", VInt (Z.of_nat page));
         ("limit", VInt (Z.of_nat PAGE_ITEM_COUNT)); ("items", VList (map item records))].

(** [CheckinAdminConfigForm] *)
Record admin_form := {
  ENABLE_DAILY_CHECKIN : bool;
  DAILY_CHECKIN_REWARD_CONFIG : string;
  CHECKIN_TIMEZONE : string;
  ENABLE_DAILY_CREDIT_RESET : bool;
  DAILY_RESET_CREDIT : string;
}.

Definition admin_keys : list string :=
  ["lottery.checkin.enable"; "lottery.reward_config"; "lottery.timezone";
   "lottery.daily_reset.enable"; "lottery.daily_reset.credit"].

(** [_admin_config] *)
Definition admin_config (c : config_state) : pydict :=
  let config := config_get_many c admin_keys in
  [("ENABLE_DAILY_CHECKIN", VBool (truthy (dgetd config "lottery.checkin.enable" (VBool false))));
   ("DAILY_CHECKIN_REWARD_CONFIG", dgetd config "lottery.reward_config" (VStr EmptyString));
   ("CHECKIN_TIMEZONE", dgetd config "lottery.timezone" (VStr "Asia/Shanghai"));
   ("ENABLE_DAILY_CREDIT_RESET", VBool (truthy (dgetd config "lottery.daily_reset.enable" (VBool false))));
   ("DAILY_RESET_CREDIT", dgetd config "lottery.daily_reset.credit" (VStr "3"))].

Definition assertion_error : exn := RuntimeError "AssertionError".

(** The checks of one item of the list. *)
Definition check_reward (item : pyval) : res unit :=
  a ← vitem item "amount"; amount ← py_float a;
  if negb (float_nonneg amount) then Err assertion_error
  else
    w ← vitem item "weight"; weight ← py_float w;
    if negb (float_nonneg weight) then Err assertion_error else Ok tt.

(** The first [try] block of [set_admin_checkin_config]. *)
Definition check_reward_config (text : string) : res unit :=
  data ← json_loads (if Str.is_empty text then "[]" else text);
  match data with
  | VList (item :: items) =>
      _ ← mapR check_reward (item :: items);
      weights ← mapR (λ item, w ← vitem item "weight"; py_float w) (item :: items);
      if float_positive (foldl F64.add F64.zero weights) then Ok tt else Err assertion_error
  | _ => Err assertion_error
  end.

(** The text quotes the two field names. *)
Definition quoted (s : string) : string :=
  let q := String (Ascii.ascii_of_nat 34) EmptyString in q +:+ s +:+ q.
Definition reward_config_detail : string :=
  "Invalid reward config: expect [{" +:+ quoted "amount" +:+ ":N," +:+ quoted "weight" +:+
  ":W}, ...] with weight sum > 0".

Section Admin.
(** [jsonable_encoder], and whether [ZoneInfo] knows a time zone. *)
Context (jsonable_encoder : pyval → pyval) (zone_known : string → bool).

(** [set_admin_checkin_config] *)
Definition set_admin_checkin_config (form : admin_form) (c : config_state) : res (pydict * config_state) :=
  match check_reward_config (DAILY_CHECKIN_REWARD_CONFIG form) with
  | Err _ => Err (HTTPException 400 reward_config_detail)
  | Ok _ =>
      if negb (zone_known (if Str.is_empty (CHECKIN_TIMEZONE form) then "Asia/Shanghai" else CHECKIN_TIMEZONE form))
      then Err (HTTPException 400 "Invalid timezone")
      else match to_dec (VStr (DAILY_RESET_CREDIT form)) with
           | Ok reset_credit =>
               if dltb reset_credit d0 then Err (HTTPException 400 "Invalid daily reset credit")
               else
                 let c' := config_upsert jsonable_encoder
                   [("lottery.checkin.enable", VBool (ENABLE_DAILY_CHECKIN form));
                    ("lottery.reward_config", VStr (DAILY_CHECKIN_REWARD_CONFIG form));
                    ("lottery.timezone", VStr (CHECKIN_TIMEZONE form));
                    ("lottery.daily_reset.enable", VBool (ENABLE_DAILY_CREDIT_RESET form));
                    ("lottery.daily_reset.credit", VStr (DAILY_RESET_CREDIT form))] c in
                 Ok (admin_config c', c')
           | Err _ => Err (HTTPException 400 "Invalid daily reset credit")
           end
  end.
End Admin.
End Checkin.
