(* ===== verification/CheckinProps.v ===== *)
(** * Properties of the daily check-in. *)

From S2P Require Import Prelude PyVal PyDecimal Json Config Credits CreditPrice Checkin.
From Stdlib Require Import SpecFloat.

Local Open Scope Z_scope.

#[local] Arguments to_dec : simpl never.
#[local] Arguments config_get : simpl never.
#[local] Arguments parse_rewards : simpl never.
#[local] Arguments weighted_pick : simpl never.

(** ** Rewards *)

Lemma parse_rewards_nonempty repr_other c : parse_rewards repr_other c ≠ [].
Proof. unfold parse_rewards. by destruct (parse_reward_data _ _) as [[|r l]|]. Qed.

Lemma pick_from_elem value cumulative rewards amount :
  pick_from value cumulative rewards = Some amount → amount ∈ map fst rewards.
Proof.
  revert cumulative. induction rewards as [|[a w] rewards IH]; intros cumulative; cbn; [done|].
  destruct (float_leb _ _); [intros [= <-]; left|]. intros H. right. by eapply IH.
Qed.

Lemma weighted_pick_elem rnd rewards : rewards ≠ [] →
  ∃ amount, weighted_pick rnd rewards = Ok amount ∧ amount ∈ map fst rewards.
Proof.
  intros Hne. unfold weighted_pick. destruct (pick_from _ _ _) as [amount|] eqn:E.
  - exists amount. split; [done|]. by eapply pick_from_elem.
  - destruct rewards as [|[a w] rewards]; [done|]. exists a. split; [done|left].
Qed.

(** ** Balances *)

Lemma find_first_map_update (p : credit_row → bool) (f : credit_row → credit_row) l :
  (∀ r, p (f r) = p r) →
  find_first p (map (λ r, if p r then f r else r) l) = f <$> find_first p l.
Proof.
  intros Hf. induction l as [|r l IH]; [done|]. cbn. destruct (p r) eqn:E; [by rewrite Hf, E|by rewrite E, IH].
Qed.

Lemma find_first_map_other (p q : credit_row → bool) (f : credit_row → credit_row) l :
  (∀ r, p r = true → q r = false) → (∀ r, q (f r) = q r) →
  find_first q (map (λ r, if p r then f r else r) l) = find_first q l.
Proof.
  intros Hpq Hf. induction l as [|r l IH]; [done|]. cbn. destruct (p r) eqn:E; [rewrite Hf, (Hpq r E)|destruct (q r); [done|]]; done.
Qed.

Lemma find_first_app {A} (p : A → bool) l1 l2 :
  find_first p (l1 ++ l2) = match find_first p l1 with Some a => Some a | None => find_first p l2 end.
Proof. induction l1 as [|a l1 IH]; [done|]. cbn. by destruct (p a). Qed.

Lemma of_user_ne u u' r : u ≠ u' → of_user u r = true → of_user u' r = false.
Proof. unfold of_user. intros Hne ->%String.eqb_eq. by apply String.eqb_neq. Qed.

(** The user's balances after the whole row set was updated. *)
Lemma balance_after_update numeric user x now d u :
  balance_of u (update_credit_rows numeric (of_user user) (λ _, x) now d).2 =
  if String.eqb u user then (λ _, numeric x) <$> balance_of user d else balance_of u d.
Proof.
  unfold balance_of, update_credit_rows. cbn. destruct (String.eqb_spec u user) as [->|Hne].
  - rewrite (find_first_map_update (of_user user) (set_balance (numeric x) now)) by done.
    by destruct (find_first _ _).
  - rewrite (find_first_map_other (of_user user) (of_user u) (set_balance (numeric x) now)); [done| |done].
    intros r. by apply of_user_ne.
Qed.

Lemma to_dec_err v e : to_dec v = Err e → e ≠ IntegrityError.
Proof.
  unfold to_dec. destruct v; try (by intros [= <-]);
    match goal with |- context [match ?x with _ => _ end] => destruct x end; by intros [= <-].
Qed.

(** ** Check-ins *)

Section Award.
Context (numeric : dec → dec) (uuid4 : nat → string) (repr_other : pyval → string).

(** The balance a reward is added to: the account's, or the configured one of
    a new account. *)
Definition opening_balance (user_id : string) (d : credit_db) : res dec :=
  match balance_of user_id d with
  | Some b => Ok b
  | None => to_dec (VStr (py_str repr_other (config_get (db_config d) "credit.default_credit" (VStr "0"))))
  end.

Definition records_unique (d : checkin_db) : Prop :=
  NoDup (map (λ r, (ck_user_id r, ck_date r)) (ci_records d)).

Lemma records_unique_app d r : records_unique d →
  existsb (same_day (ck_user_id r) (ck_date r)) (ci_records d) = false →
  records_unique (with_records (ci_records d ++ [r]) d).
Proof.
  unfold records_unique. intros Hu He. cbn. rewrite map_app. apply NoDup_app. split_and!; [done| |apply NoDup_singleton].
  intros x (r' & -> & Hr')%list_elem_of_fmap Hx. apply list_elem_of_singleton in Hx as [= E1 E2].
  rewrite existsb_False in He. specialize (He r' Hr'). unfold same_day in He. by rewrite E1, E2, !String.eqb_refl in He.
Qed.

Lemma on_fresh_uuid d : on_credit (fresh_uuid uuid4) d =
  (Ok (uuid4 (db_uuids (ci_credit d))),
   {| ci_credit := with_uuids (S (db_uuids (ci_credit d))) (ci_credit d); ci_records := ci_records d |}).
Proof. done. Qed.

(** What the balance lookup leaves in the tables. *)
Lemma balance_for_reward_spec now user d :
  match opening_balance user (ci_credit d) with
  | Err e => (balance_for_reward numeric uuid4 repr_other now user d).1 = Err e ∧ e ≠ IntegrityError
  | Ok b => ∃ c, balance_for_reward numeric uuid4 repr_other now user d =
                   (Ok b, {| ci_credit := c; ci_records := ci_records d |}) ∧
      is_Some (balance_of user c) ∧ (∀ u, u ≠ user → balance_of u c = balance_of u (ci_credit d)) ∧
      db_logs c = db_logs (ci_credit d) ∧ db_config c = db_config (ci_credit d)
  end.
Proof.
  unfold opening_balance, balance_for_reward, balance_of at 1. rewrite st_bind_eq. unfold on_credit at 1, get_credit_by_user_id at 1.
  cbn. destruct (find_first (of_user user) (db_credits (ci_credit d))) as [row|] eqn:E; cbn.
  { exists (ci_credit d). unfold balance_of. rewrite E. split_and!; [by destruct d|by eexists|done..]. }
  rewrite st_bind_eq. unfold st_gets at 1. cbn. rewrite st_bind_eq. unfold st_lift at 1.
  match goal with |- context [to_dec ?v] => destruct (to_dec v) as [b|e] eqn:Ed end;
    [|split; [done|by eapply to_dec_err]]. cbn.
  rewrite st_bind_eq, on_fresh_uuid, st_bind_eq. unfold on_credit, insert_credit_row. cbn.
  destruct (existsb _ _) eqn:Ex.
  { exfalso. apply existsb_True in Ex as (r & Hr & Hu). rewrite find_first_None in E. specialize (E r Hr).
    unfold of_user in E. by rewrite Hu in E. }
  eexists. split; [reflexivity|]. unfold balance_of. cbn. rewrite !find_first_app, E. cbn.
  split_and!; [unfold of_user; cbn; rewrite String.eqb_refl; by eexists| |done..].
  intros u Hne. rewrite find_first_app.
  destruct (find_first (of_user u) (db_credits (ci_credit d))); [done|].
  cbn. unfold of_user. cbn. replace (String.eqb user u) with false; [done|]. symmetry. by apply String.eqb_neq.
Qed.

(** C39: A check-in ends in one of three ways. When the user already has a record of the day it is refused with status 400; when there is no account and the configured opening balance is not a number it fails with status 500; either way no table changes. Otherwise the reward, one of the configured ones, is recorded for the day and added to the balance (a new account starting from the configured balance), and no other record, balance, log row or setting changes; the records stay one a day and user. *)
Theorem checkin_pays_once now rnd user today detail d :
  let c := db_config (ci_credit d) in
  let '(r, d') := create_checkin_record numeric uuid4 repr_other now rnd user today detail d in
  ∃ reward, reward ∈ map fst (parse_rewards repr_other c) ∧ weighted_pick rnd (parse_rewards repr_other c) = Ok reward ∧
  if existsb (same_day user today) (ci_records d) then r = Err (HTTPException 400 detail) ∧ d' = d
  else match opening_balance user (ci_credit d) with
  | Err _ => r = Err (HTTPException 500 "Failed to award check-in reward") ∧ d' = d
  | Ok b =>
      r = Ok reward ∧
      (∃ row, ci_records d' = ci_records d ++ [row] ∧ same_day user today row = true ∧
         ck_reward row = numeric reward ∧ ck_created_at row = now) ∧
      balance_of user (ci_credit d') = Some (numeric (dadd (if coef b =? 0 then d0 else b) reward)) ∧
      (∀ u, u ≠ user → balance_of u (ci_credit d') = balance_of u (ci_credit d)) ∧
      db_logs (ci_credit d') = db_logs (ci_credit d) ∧ db_config (ci_credit d') = c ∧
      (records_unique d → records_unique d')
  end.
Proof.
  destruct (weighted_pick_elem rnd (parse_rewards repr_other (db_config (ci_credit d))))
    as (reward & Epick & Hin); [apply parse_rewards_nonempty|].
  unfold create_checkin_record. rewrite st_bind_eq. unfold st_gets at 1. cbn iota beta.
  rewrite st_bind_eq. unfold st_lift at 1. rewrite Epick. cbn iota beta.
  unfold st_catch. rewrite st_bind_eq. unfold award, transaction. rewrite st_bind_eq, on_fresh_uuid, st_bind_eq.
  set (d1 := {| ci_credit := with_uuids _ _; ci_records := _ |}).
  unfold insert_checkin_row at 1. cbn [ck_user_id ck_date ci_records d1].
  destruct (existsb (same_day user today) (ci_records d)) eqn:Ex;
    [exists reward; by split_and!|]. cbn iota beta. rewrite st_bind_eq.
  set (d2 := with_records _ d1).
  pose proof (balance_for_reward_spec now user d2) as Hb.
  change (opening_balance user (ci_credit d2)) with (opening_balance user (ci_credit d)) in Hb.
  destruct (opening_balance user (ci_credit d)) as [b|e] eqn:Eo.
  - destruct Hb as (c & -> & Hsome & Hother & Hlogs & Hconf). cbn iota beta. rewrite st_bind_eq. unfold on_credit.
    set (x := dadd _ reward). destruct (update_credit_rows numeric (of_user user) (λ _, x) now c) as [n c'] eqn:Eu.
    assert (Ec : c' = (update_credit_rows numeric (of_user user) (λ _, x) now c).2) by by rewrite Eu.
    cbn in Eu. injection Eu as <- _. cbn iota beta. exists reward.
    subst c'. split_and!; [done|done|done| | | |done|done|].
    + eexists. split; [reflexivity|]. unfold same_day. cbn. by rewrite !String.eqb_refl.
    + etransitivity; [exact (balance_after_update numeric user x now c user)|].
      rewrite String.eqb_refl. by destruct Hsome as [? ->].
    + intros u Hu. etransitivity; [exact (balance_after_update numeric user x now c u)|].
      replace (String.eqb u user) with false by (symmetry; by apply String.eqb_neq). exact (Hother u Hu).
    + intros Hu. by apply (records_unique_app d).
  - destruct Hb as [Hb He].
    destruct (balance_for_reward numeric uuid4 repr_other now user d2) as [r d3] eqn:Eb.
    change (r = Err e) in Hb. rewrite Hb. cbn iota beta.
    exists reward. split_and!; [done..| |done]. unfold raise. cbn. by destruct e.
Qed.
End Award.

Definition checkin_example : checkin_db :=
  {| ci_credit := {| db_credits := [{| cr_id := "a"; cr_user_id := "u"; cr_credit := Dec 250 (-2);
                                       cr_updated_at := 0; cr_created_at := 0 |}];
                     db_logs := [];
                     db_config := {| cfg_rows := ∅; cfg_defaults := ∅; cfg_persistent_enabled := true;
                                     cfg_oauth_persistent_enabled := true |};
                     db_uuids := 0 |};
     ci_records := [{| ck_id := "r"; ck_user_id := "u"; ck_date := "2024-01-01"; ck_reward := dec_of_Z 1;
                       ck_created_at := 5 |}] |}.

Lemma checkin_pays_once_witness :
  records_unique checkin_example ∧
  let '(r, d') := create_checkin_record numeric_scale12 (λ _, EmptyString) (λ _, EmptyString) 9 F64.zero
                    "u" "2024-01-02" "twice" checkin_example in
  r = Ok (dec_of_Z 1) ∧ balance_of "u" (ci_credit d') = Some (Dec 350 (-2)) ∧ records_unique d'.
Proof.
  assert (Hu : records_unique checkin_example) by apply NoDup_singleton. split; [done|].
  pose proof (checkin_pays_once numeric_scale12 (λ _, EmptyString) (λ _, EmptyString) 9 F64.zero
    "u" "2024-01-02" "twice" checkin_example) as H.
  destruct (create_checkin_record _ _ _ _ _ _ _ _ _) as [r d'].
  destruct H as (reward & _ & Hpick & H).
  assert (reward = dec_of_Z 1) as -> by (vm_compute in Hpick; by injection Hpick as <-).
  cbn in H. destruct H as (-> & _ & Hb & _ & _ & _ & Hn). split_and!; [done|by rewrite Hb; vm_compute|auto].
Defined.

(** ** A configuration that is accepted and not used *)

(** A list of two rewards, the first with the amount [true]. *)
Definition boolean_amount_config : string :=
  "[{" +:+ quoted "amount" +:+ ":true," +:+ quoted "weight" +:+ ":1},{" +:+
  quoted "amount" +:+ ":5," +:+ quoted "weight" +:+ ":1}]".

(** [float(True)] is a number, [Decimal('True')] is not: the administrator's
    check accepts the list and every check-in falls back to the default reward. *)
Lemma accepted_config_not_used repr_other c :
  config_get c "lottery.reward_config" (VStr EmptyString) = VStr boolean_amount_config →
  check_reward_config boolean_amount_config = Ok tt ∧ parse_rewards repr_other c = [default_reward].
Proof. intros H. unfold parse_rewards. rewrite H. split; vm_compute; reflexivity. Qed.
