(* ===== verification/ContextCompaction.v ===== *)
(** * Context compaction (utils/context_compaction.py): when the older turns of
    a conversation are replaced by a summary, and where it is cut.

    Messages are dicts.  The text of a summary comes from a model: the prompt
    sent to it is left out, what is done with its answer is here. *)

From S2P Require Import Prelude PyVal PyDecimal Config Messages.
From Stdlib Require Import Ascii SpecFloat.

Local Open Scope Z_scope.

(** ** Settings *)

(** [_parse_positive_int]; an infinite float raises OverflowError. *)
Definition parse_positive_int (value : pyval) : res (option Z) :=
  match py_int value with
  | Ok parsed => Ok (if 0 <? parsed then Some parsed else None)
  | Err TypeError | Err (ValueError _) => Ok None
  | Err e => Err e
  end.

(** [_clamp_retention_percentage] *)
Definition clamp_retention_percentage (value : pyval) : res Z :=
  let clamp parsed := Z.min 50 (Z.max 10 parsed) in
  match py_int value with
  | Ok parsed => Ok (clamp parsed)
  | Err TypeError | Err (ValueError _) => Ok (clamp 40)
  | Err e => Err e
  end.

Record compaction_config := {
  cc_enable : bool;
  cc_token_threshold : Z;
  cc_token_cap : Z;
  cc_retention_percentage : Z;
  cc_prompt_template : pyval;
}.

(** [_load_config] *)
Definition load_config (c : config_state) : res compaction_config :=
  let values := config_get_many c
    ["chat.context_compaction.enable"; "chat.context_compaction.token_threshold";
     "chat.context_compaction.token_cap"; "chat.context_compaction.retention_percentage";
     "chat.context_compaction.prompt_template"] in
  threshold ← parse_positive_int (dget values "chat.context_compaction.token_threshold");
  let token_threshold := default 80000 threshold in
  cap ← parse_positive_int (dget values "chat.context_compaction.token_cap");
  retention ← clamp_retention_percentage (dget values "chat.context_compaction.retention_percentage");
  Ok {| cc_enable := truthy (dgetd values "chat.context_compaction.enable" (VBool false));
        cc_token_threshold := token_threshold;
        cc_token_cap := default token_threshold cap;
        cc_retention_percentage := retention;
        cc_prompt_template := por (dgetd values "chat.context_compaction.prompt_template" (VStr EmptyString))
                                  (VStr EmptyString) |}.

(** [_resolve_token_threshold] *)
Definition resolve_token_threshold (global_threshold global_cap : Z) (metadata : pydict) : res Z :=
  v ← vget (por (dget metadata "params") (VDict [])) "compact_token_threshold";
  configured_threshold ← parse_positive_int v;
  Ok (Z.min (default global_threshold configured_threshold) global_cap).

(** ** Token counts *)

(** [_usage_token_count] *)
Definition usage_token_count (usage : pydict) : res Z :=
  prompt ← py_int (por (dget usage "prompt_tokens") (por (dget usage "prompt_eval_count") (VInt 0)));
  prompt ← (if (prompt =? 0) && (negb (is_none (dget usage "prompt_n")) || negb (is_none (dget usage "cache_n"))) then
              p ← py_int (por (dget usage "prompt_n") (VInt 0));
              c ← py_int (por (dget usage "cache_n") (VInt 0)); Ok (p + c)
            else Ok prompt);
  prompt ← (if prompt =? 0 then py_int (por (dget usage "input_tokens") (VInt 0)) else Ok prompt);
  completion ← py_int (por (dget usage "completion_tokens") (por (dget usage "output_tokens")
                 (por (dget usage "eval_count") (por (dget usage "predicted_n") (VInt 0)))));
  Ok (prompt + completion).

(** [BASE64_DATA_URI_RE]: the characters of the media type, [\w] and [/+.;=%-],
    and those of the data. *)
Definition is_word (c : ascii) : bool :=
  let n := Str.code c in
  (Str.is_digit c || ((65 <=? n)%nat && (n <=? 90)%nat) || ((97 <=? n)%nat && (n <=? 122)%nat) || (n =? 95)%nat
   || existsb (Nat.eqb n) [170; 178; 179; 181; 185; 186; 188; 189; 190]%nat
   || ((192 <=? n)%nat && negb (n =? 215)%nat && negb (n =? 247)%nat)).
Definition is_media_char (c : ascii) : bool := is_word c || Str.mem_char c "/+.;=%-".
Definition is_base64_char (c : ascii) : bool :=
  let n := Str.code c in
  Str.is_digit c || ((65 <=? n)%nat && (n <=? 90)%nat) || ((97 <=? n)%nat && (n <=? 122)%nat) || Str.mem_char c "+/=".

Fixpoint span (p : ascii → bool) (s : string) : string * string :=
  match s with
  | String c s' => if p c then let '(a, b) := span p s' in (String c a, b) else (EmptyString, s)
  | EmptyString => (EmptyString, EmptyString)
  end.

(** What follows a data URI that starts here.  A comma is no media character,
    so [;base64] ends the longest run of them. *)
Definition match_data_uri (s : string) : option string :=
  if Str.startswith "data:" s then
    let '(media, rest) := span is_media_char (Str.drop 5 s) in
    match rest with
    | String c rest' =>
        if Ascii.eqb c ","%char && Str.endswith ";base64" media then Some (span is_base64_char rest').2 else None
    | EmptyString => None
    end
  else None.

(** [BASE64_DATA_URI_RE.sub('', s)]; one step per character at most. *)
Fixpoint strip_data_uris (fuel : nat) (s : string) : string :=
  match fuel, s with
  | S fuel, String c s' =>
      match match_data_uri s with
      | Some rest => strip_data_uris fuel rest
      | None => String c (strip_data_uris fuel s')
      end
  | _, _ => s
  end.

Section Compaction.
(** [JSONCodec.dumps(v, ensure_ascii=False)], which may raise, and [repr] of
    floats and containers. *)
Context (dumps : pyval → res string) (repr_other : pyval → string).

(** [_estimate_tokens] *)
Definition text_tokens (s : string) : Z :=
  if Str.is_empty s then 0 else Z.max 1 (Z.of_nat (String.length s) / 4).

Definition estimate_tokens (value : pyval) : Z :=
  match value with
  | VNone => 0
  | VStr s => text_tokens s
  | _ => text_tokens (match dumps value with Ok s => s | Err _ => py_str repr_other value end)
  end.

(** One part of a message's content. *)
Definition estimate_part (item : pyval) : res Z :=
  match item with
  | VDict d =>
      ty ← hashed (dget d "type");
      Ok (if vin_strs ty ["image"; "image_url"] then 1000
          else estimate_tokens (por (dget d "text") (por (dget d "content") item)))
  | _ => Ok (estimate_tokens item)
  end.

Definition estimate_message (message : pydict) : res Z :=
  content ← (match dget message "content" with
             | VList items => ns ← mapR estimate_part items; Ok (foldl Z.add 0 ns)
             | content => Ok (estimate_tokens content)
             end);
  let files := dget message "files" in
  file_tokens ← (if truthy files then s ← dumps files; Ok (text_tokens (strip_data_uris (String.length s) s))
                 else Ok 0);
  Ok (4 + content + estimate_tokens (dget message "output") + estimate_tokens (dget message "tool_calls") + file_tokens).

(** [_estimate_messages_tokens] *)
Definition estimate_messages_tokens (messages : list pydict) : res Z :=
  ns ← mapR estimate_message messages; Ok (foldl Z.add 0 ns).

(** The loop of [_exceeds_token_threshold] and [get_chat_context_usage]: the
    newest message that reports its usage, the list being newest first, and
    an estimate of the messages after it. *)
Fixpoint reported_tokens (newest_first later : list pydict) : res (option Z) :=
  match newest_first with
  | [] => Ok None
  | message :: rest =>
      usage ← (if truthy (dget message "usage") then Ok (dget message "usage")
               else vget (por (dget message "info") (VDict [])) "usage");
      tokens ← match usage with VDict u => usage_token_count u | _ => Ok 0 end;
      if tokens =? 0 then reported_tokens rest (message :: later)
      else estimated ← estimate_messages_tokens later; Ok (Some (tokens + estimated))
  end.

(** [_exceeds_token_threshold] *)
Definition exceeds_token_threshold (messages : list pydict) (system_prompt summary : pyval) (threshold : Z)
    : res bool :=
  if threshold <=? 0 then Ok false
  else
    reported ← reported_tokens (rev messages) [];
    match reported with
    | Some tokens => Ok (threshold <? tokens)
    | None =>
        estimated ← estimate_messages_tokens messages;
        Ok (threshold <? estimate_tokens system_prompt
                         + estimate_tokens (por summary (VStr EmptyString)) + estimated)
    end.

(** ** Checkpoints *)

Definition compaction_marker : string := "open_webui:context_compaction".

Definition output_of (message : pydict) : res (list pyval) := viter (por (dget message "output") (VList [])).

Definition has_type (item : pyval) (t : string) : res bool := ty ← vget item "type"; Ok (veq_str ty t).

(** The newest marker of an output, the list being newest first. *)
Fixpoint find_marker (items : list pyval) : res (option pydict) :=
  match items with
  | [] => Ok None
  | item :: rest =>
      b ← has_type item compaction_marker;
      if (b : bool) then d ← as_dict item; Ok (Some d) else find_marker rest
  end.

(** The position of the marker's call in an output. *)
Fixpoint find_call (marker : pydict) (i : nat) (items : list pyval) : res (option nat) :=
  match items with
  | [] => Ok None
  | item :: rest =>
      b ← has_type item "function_call";
      if (b : bool) then
        c ← vget item "call_id"; call_id ← ditem marker "call_id";
        if py_eqb c call_id then Ok (Some i) else find_call marker (S i) rest
      else find_call marker (S i) rest
  end.

(** Back to the item after the last tool result before the call. *)
Fixpoint walk_back (items : list pyval) (start : nat) : res nat :=
  match start with
  | O => Ok O
  | S n =>
      b ← has_type (default VNone (items !! n)) "function_call_output";
      if (b : bool) then Ok start else walk_back items n
  end.

Fixpoint without_markers (items : list pyval) : res (list pyval) :=
  match items with
  | [] => Ok []
  | item :: rest =>
      b ← has_type item compaction_marker; rest' ← without_markers rest;
      Ok (if (b : bool) then rest' else item :: rest')
  end.

(** The inner loop: the messages from the turn that holds the marker's call. *)
Fixpoint cut_at_call (marker : pydict) (newest_first later : list pydict) : res (option (list pydict)) :=
  match newest_first with
  | [] => Ok None
  | message :: rest =>
      output ← output_of message;
      start ← find_call marker 0 output;
      match start with
      | Some start =>
          start ← walk_back output start;
          kept ← without_markers (skipn start output);
          Ok (Some (firstn 1 rest ++ dict_set "output" (VList kept) message :: later))
      | None => cut_at_call marker rest (message :: later)
      end
  end.

(** [message.get('contextSummary') or message.get('context_summary')], when it
    is a text that is not blank. *)
Definition summary_of (message : pydict) : option string :=
  match por (dget message "contextSummary") (dget message "context_summary") with
  | VStr s => if Str.is_empty (Str.strip s) then None else Some s
  | _ => None
  end.

Fixpoint latest_checkpoint (newest_first later : list pydict) : res (option (list pydict * pyval)) :=
  match newest_first with
  | [] => Ok None
  | message :: rest =>
      match summary_of message with
      | Some s => Ok (Some (message :: later, VStr s))
      | None =>
          output ← output_of message;
          marker ← find_marker (rev output);
          match marker with
          | None => latest_checkpoint rest (message :: later)
          | Some marker =>
              cut ← cut_at_call marker newest_first later;
              match cut with
              | Some messages => summary ← ditem marker "summary"; Ok (Some (messages, summary))
              | None => latest_checkpoint rest (message :: later)
              end
          end
      end
  end.

(** [_apply_latest_summary_checkpoint] *)
Definition apply_latest_summary_checkpoint (messages : list pydict) : res (list pydict * pyval) :=
  found ← latest_checkpoint (rev messages) [];
  Ok (default (messages, VNone) found).

(** ** Where to cut *)

(** The positions of the messages that satisfy [p]. *)
Fixpoint positions_of (p : pydict → bool) (i : Z) (messages : list pydict) : list Z :=
  match messages with
  | [] => []
  | m :: rest => if p m then i :: positions_of p (i + 1) rest else positions_of p (i + 1) rest
  end.

(** [_find_compaction_boundary] *)
Definition find_compaction_boundary (messages : list pydict) (retention : pyval) : res Z :=
  retention_percentage ← clamp_retention_percentage retention;
  let n := Z.of_nat (length messages) in
  let keep_count := Z.max 2 (n * retention_percentage / 100) in
  let target := Z.max 1 (n - keep_count) in
  let '(boundaries, target) :=
    if existsb is_tool messages
    then (tail (positions_of has_calls 0 messages), target)
    else
      let boundaries := tail (positions_of (λ m, has_role m "user") 0 messages) in
      (boundaries, Z.max target (match boundaries with [] => 0 | b :: bs => foldl Z.min b bs end)) in
  Ok (default 0 (find_first (λ idx, idx <=? target) (rev boundaries))).

(** ** Requests *)

Inductive plan :=
| Keep (messages : list pydict) (summary : pyval)
| Compact (system compacted recent : list pydict) (previous_summary : pyval).

(** The system message, if it is the first. *)
Definition split_system (messages : list pydict) : list pydict * list pydict :=
  match messages with
  | m :: rest => if has_role m "system" then ([m], rest) else ([], messages)
  | [] => ([], [])
  end.

(** [compact_messages_for_request], up to the call of the model.  The flags
    are those a bot gateway request carries. *)
Definition plan_compaction (config : compaction_config) (bot_enabled bot_force : bool)
    (messages : list pydict) (metadata : pydict) (system_prompt : string) : res plan :=
  if negb (cc_enable config) && negb bot_enabled then Ok (Keep messages VNone)
  else
    let '(system_messages, messages) := split_system messages in
    checkpoint ← apply_latest_summary_checkpoint messages;
    let '(messages, previous_summary) := checkpoint in
    let system_prompt :=
      if negb (Str.is_empty system_prompt) then VStr system_prompt
      else match system_messages with
           | m :: _ => get_content_from_message repr_other m
           | [] => VStr EmptyString
           end in
    token_threshold ← resolve_token_threshold (cc_token_threshold config) (cc_token_cap config) metadata;
    exceeds ← exceeds_token_threshold messages system_prompt previous_summary token_threshold;
    if negb (exceeds || bot_force) then Ok (Keep (system_messages ++ messages) previous_summary)
    else
      boundary ← find_compaction_boundary messages (VInt (cc_retention_percentage config));
      let compacted_messages := firstn (Z.to_nat boundary) messages in
      let recent_messages := skipn (Z.to_nat boundary) messages in
      match compacted_messages, recent_messages with
      | [], _ | _, [] => Ok (Keep (system_messages ++ messages) previous_summary)
      | _, _ => Ok (Compact system_messages compacted_messages recent_messages previous_summary)
      end.

(** [is_saved_chat_id] of utils/chat_id.py *)
Definition is_saved_chat_id (chat_id : pyval) : res bool :=
  if negb (truthy chat_id) then Ok false
  else match chat_id with
       | VStr s => Ok (negb (existsb (λ p, Str.startswith p s) ["temporary:"; "local:"; "channel:"]))
       | _ => Err AttributeError
       end.

(** The message the summary is stored on. *)
Definition checkpoint_id (recent : pydict) (metadata : pydict) : pyval :=
  por (dget recent "id") (por (dget metadata "user_message_id") (dget metadata "message_id")).

(** The stored summary: chat, message and text. *)
Definition checkpoint_write (recent metadata : pydict) (summary : string) : res (option (pyval * pyval * string)) :=
  if has_role recent "user" then
    saved ← is_saved_chat_id (dget metadata "chat_id");
    let id := checkpoint_id recent metadata in
    Ok (if (saved : bool) && truthy id then Some (dget metadata "chat_id", id, summary) else None)
  else Ok None.

(** [compact_messages_for_request]: the messages, the summary and whether it is
    new, with the summary to be stored.  [generate_summary] is the text of
    [_generate_summary]; events to the client are left out. *)
Definition compact_messages_for_request (config : compaction_config) (bot_enabled bot_force : bool)
    (generate_summary : list pydict → list pydict → pyval → res string)
    (messages : list pydict) (metadata : pydict) (system_prompt : string)
    : res (list pydict * pyval * bool * option (pyval * pyval * string)) :=
  p ← plan_compaction config bot_enabled bot_force messages metadata system_prompt;
  match p with
  | Keep messages summary => Ok (messages, summary, false, None)
  | Compact system compacted recent previous =>
      summary ← generate_summary compacted recent previous;
      write ← match recent with m :: _ => checkpoint_write m metadata summary | [] => Err IndexError end;
      Ok (system ++ recent, VStr summary, true, write)
  end.

(** ** Branches of a stored chat *)

(** The current message of a chat, [current_message_id] being the attribute. *)
Definition current_id (current_message_id : pyval) (chat_data : pydict) : res pyval :=
  id ← (if truthy current_message_id then Ok current_message_id
        else vget (por (dget chat_data "history") (VDict [])) "currentId");
  let id := if truthy id then id else por (dget chat_data "currentId") (dget chat_data "branchPointMessageId") in
  if truthy id then Ok id
  else match dget chat_data "messages" with
       | VList (m :: ms) => vget (List.last ms m) "id"
       | _ => Ok id
       end.

(** [get_message_list] of the chat's messages, [stored] being
    [Chats.get_messages_map_by_chat_id]. *)
Definition branch (stored : pydict) (chat_data : pydict) (id : pyval) : res (list pydict) :=
  messages_map ← (match stored with
                  | [] => h ← vget (por (dget chat_data "history") (VDict [])) "messages"; as_dict (por h (VDict []))
                  | _ => Ok stored
                  end);
  messages ← get_message_list messages_map id;
  mapR as_dict messages.

(** [compact_chat_branch]: everything but the newest message is summarized. *)
Definition compact_chat_branch (config : compaction_config)
    (generate_summary : list pydict → list pydict → pyval → res string)
    (current_message_id : pyval) (chat_data stored : pydict) : res (pydict * option (pyval * string)) :=
  let skip reason := Ok ([("ok", VBool true); ("compacted", VBool false); ("reason", VStr reason)], None) in
  if negb (cc_enable config) then skip "disabled"
  else
    id ← current_id current_message_id chat_data;
    if negb (truthy id) then skip "empty"
    else
      messages ← branch stored chat_data id;
      checkpoint ← apply_latest_summary_checkpoint messages;
      let '(messages, previous_summary) := checkpoint in
      let compacted := removelast messages in
      let recent := skipn (length messages - 1) messages in
      match compacted, recent with
      | [], _ | _, [] => skip "too_short"
      | _, _ =>
          summary ← generate_summary compacted recent previous_summary;
          Ok ([("ok", VBool true); ("compacted", VBool true);
               ("dropped_messages", VInt (Z.of_nat (length compacted)));
               ("kept_messages", VInt (Z.of_nat (length recent)));
               ("summary_chars", VInt (Z.of_nat (String.length summary)))], Some (id, summary))
      end.

(** [a / b] of two integers, for [b > 0], and [round] of a finite float. *)
Definition int_truediv (a b : Z) : spec_float :=
  match a with
  | 0 => F64.zero
  | _ => let '(mz, ez, lz) := SFdiv_core_binary F64.prec F64.emax (Z.abs a) 0 b 0 in
         binary_round_aux F64.prec F64.emax (a <? 0) mz ez lz
  end.

Definition py_round (f : spec_float) : res Z :=
  match F64.dyadic f with
  | Some (m, e) => Ok (if 0 <=? e then m * 2 ^ e else div_half_even m (2 ^ (- e)))
  | None => Err OverflowError
  end.

(** [_build_context_usage] *)
Definition build_context_usage (tokens threshold : Z) : res pydict :=
  percent ← (if 0 <? threshold
             then py_round (F64.mul (int_truediv tokens threshold) (default F64.zero (F64.of_Z 100)))
             else Ok 0);
  Ok [("tokens", VInt tokens); ("estimated_tokens", VInt tokens); ("threshold", VInt threshold);
      ("percent", VInt percent); ("source", VStr "estimated")].

(** [get_chat_context_usage] *)
Definition get_chat_context_usage (config : compaction_config) (model_id : option string)
    (current_message_id : pyval) (chat_data stored : pydict) : res (option pydict) :=
  id ← current_id current_message_id chat_data;
  if negb (truthy id) then Ok None
  else
    messages ← branch stored chat_data id;
    match messages with
    | [] => Ok None
    | _ =>
        if negb (cc_enable config) then Ok None
        else
          params ← as_dict (por (dget chat_data "params") (VDict []));
          let params := match model_id with
                        | Some m => if Str.is_empty m then params else dict_set "model" (VStr m) params
                        | None => params
                        end in
          threshold ← resolve_token_threshold (cc_token_threshold config) (cc_token_cap config)
                        [("params", VDict params)];
          checkpoint ← apply_latest_summary_checkpoint messages;
          let '(messages, previous_summary) := checkpoint in
          reported ← reported_tokens (rev messages) [];
          tokens ← match reported with
                   | Some tokens => Ok tokens
                   | None => estimated ← estimate_messages_tokens messages;
                             Ok (estimate_tokens (por previous_summary (VStr EmptyString)) + estimated)
                   end;
          usage ← build_context_usage tokens threshold;
          Ok (Some usage)
    end.

(** ** The model's answer *)

Definition newline : string := String (ascii_of_nat 10) EmptyString.

(** [join] of the parts that are not empty; other values than texts raise. *)
Fixpoint text_parts (parts : list pyval) : res (list string) :=
  match parts with
  | [] => Ok []
  | part :: rest =>
      texts ← text_parts rest;
      if truthy part then match part with VStr s => Ok (s :: texts) | _ => Err TypeError end else Ok texts
  end.

(** The parts of one output item. *)
Definition item_parts (item : pyval) : res (list pyval) :=
  content ← vget item "content";
  parts ← viter (por content (VList []));
  Ok (omap (M:=list) (λ p, match p with
                 | VDict d => Some (por (dget d "text") (por (dget d "content") (VStr EmptyString)))
                 | _ => None
                 end) parts).

(** [_response_text] of a decoded answer. *)
Definition response_text (response : pyval) : res pyval :=
  let response := match response with VList [r] => r | r => r end in
  match response with
  | VDict d =>
      let choices := por (dget d "choices") (VList []) in
      if truthy choices then
        choice ← match choices with VList (c :: _) => Ok c | VDict _ => Err (KeyError "0") | _ => Err TypeError end;
        message ← vget choice "message";
        let message := por message (VDict []) in
        content ← vget message "content"; reasoning ← vget message "reasoning_content";
        Ok (por content (por reasoning (VStr EmptyString)))
      else
        items ← viter (por (dget d "output") (VList []));
        parts ← mapR item_parts items;
        texts ← text_parts (concat parts);
        Ok (VStr (Str.join newline texts))
  | _ => Ok (VStr EmptyString)
  end.

(** The summary of [_generate_summary] when the model answers with nothing:
    the previous summary and the start of every message. *)
Definition fallback_part (message : pydict) : res (option string) :=
  let content := get_content_from_message repr_other message in
  if truthy content then
    match content with
    | VStr s => Ok (Some ("- " +:+ py_str repr_other (dgetd message "role" (VStr "unknown")) +:+ ": " +:+ Str.take 500 s))
    | _ => Err TypeError
    end
  else Ok None.

Definition fallback_summary (previous_summary : pyval) (compacted : list pydict) : res string :=
  previous ← (if truthy previous_summary
              then match previous_summary with VStr s => Ok [s] | _ => Err TypeError end else Ok []);
  parts ← mapR fallback_part compacted;
  Ok (Str.take 4000 (Str.join newline (previous ++ omap (M:=list) id parts))).
End Compaction.
