(* ===== verification/ContextCompactionProps.v ===== *)
(** * Properties of context compaction. *)

From S2P Require Import Prelude PyVal PyDecimal Config Messages MessagesProps ContextCompaction.

Local Open Scope Z_scope.

(** ** Positions *)

Lemma positions_of_elem p i messages x : x ∈ positions_of p i messages →
  i <= x < i + Z.of_nat (length messages) ∧
  ∃ m, messages !! Z.to_nat (x - i) = Some m ∧ p m = true.
Proof.
  revert i. induction messages as [|m messages IH]; intros i; [by intros ?%elem_of_nil|].
  cbn [positions_of length]. intros H.
  assert (Hc : (x = i ∧ p m = true) ∨ x ∈ positions_of p (i + 1) messages).
  { destruct (p m) eqn:Hp; [apply elem_of_cons in H as [->|H]|]; auto. }
  destruct Hc as [[-> Hp]|(Hx & m' & Hm & Hp)%IH].
  - split; [lia|]. exists m. by rewrite Z.sub_diag.
  - split; [lia|]. exists m'. split; [|done].
    replace (Z.to_nat (x - i)) with (S (Z.to_nat (x - (i + 1)))) by lia. done.
Qed.

(** The first two positions: what comes before them does not satisfy [p]. *)
Lemma positions_of_first p i messages x l : positions_of p i messages = x :: l →
  i <= x ∧ List.filter p (firstn (Z.to_nat (x - i)) messages) = [] ∧
  (∀ z, z ∈ l → x < z).
Proof.
  revert i. induction messages as [|m messages IH]; intros i; [done|]. cbn [positions_of].
  destruct (p m) eqn:Hp.
  - intros [= -> <-]. rewrite Z.sub_diag. split_and!; [lia|done|].
    intros z (Hz & _)%positions_of_elem. lia.
  - intros (Hx & Hf & Hl)%IH. split_and!; [lia| |done].
    replace (Z.to_nat (x - i)) with (S (Z.to_nat (x - (i + 1)))) by lia. cbn. by rewrite Hp.
Qed.

Lemma positions_of_second p i messages x y l : positions_of p i messages = x :: y :: l →
  length (List.filter p (firstn (Z.to_nat (y - i)) messages)) = 1%nat ∧ (∀ z, z ∈ l → y < z).
Proof.
  revert i. induction messages as [|m messages IH]; intros i; [done|]. cbn [positions_of].
  destruct (p m) eqn:Hp.
  - intros [= -> E]. apply positions_of_first in E as (Hy & Hf & Hl). split; [|done].
    replace (Z.to_nat (y - x)) with (S (Z.to_nat (y - (x + 1)))) by lia. cbn. by rewrite Hp; cbn; rewrite Hf.
  - intros E. pose proof (positions_of_elem p (i + 1) messages y) as Hy. rewrite E in Hy.
    destruct Hy as [Hy _]; [right; left|]. apply IH in E as [Hf Hl]. split; [|done].
    replace (Z.to_nat (y - i)) with (S (Z.to_nat (y - (i + 1)))) by lia. cbn. by rewrite Hp.
Qed.

Lemma foldl_min_lower (l : list Z) a : foldl Z.min a l <= a ∧ ∀ z, z ∈ l → foldl Z.min a l <= z.
Proof.
  revert a. induction l as [|b l IH]; intros a; cbn; [split; [lia|by intros ? ?%elem_of_nil]|].
  destruct (IH (Z.min a b)) as [H1 H2]. split; [lia|]. intros z [->|Hz]%elem_of_cons; [lia|auto].
Qed.

Lemma role_exclusive m r r' : has_role m r = true → r ≠ r' → has_role m r' = false.
Proof.
  unfold has_role. intros ->%veq_str_true Hne. cbn. by apply String.eqb_neq.
Qed.

(** ** The boundary *)

Definition starts_turn (m : pydict) : Prop := has_role m "user" = true ∨ has_calls m = true.

Lemma starts_turn_no_tool m : starts_turn m → is_tool m = false.
Proof.
  intros [H|H]; [by eapply role_exclusive|]. unfold has_calls in H. apply andb_prop in H as [H _].
  by eapply role_exclusive.
Qed.

(** The share of the messages that is kept. *)
Definition retained (retention n : Z) : Z := Z.max 2 (n * Z.min 50 (Z.max 10 retention) / 100).

Lemma elem_rev_tail {A} (x : A) l : x ∈ rev (tail l) → ∃ y l', l = y :: l' ∧ x ∈ l'.
Proof.
  intros H%list_elem_of_In. apply in_rev in H. destruct l as [|y l]; [done|].
  exists y, l. split; [done|]. by apply list_elem_of_In.
Qed.

Lemma boundary_spec messages retention b :
  find_compaction_boundary messages (VInt retention) = Ok b → 0 < b →
  (∃ m, messages !! Z.to_nat b = Some m ∧ starts_turn m) ∧ b < Z.of_nat (length messages) ∧
  (b <= Z.max 1 (Z.of_nat (length messages) - retained retention (Z.of_nat (length messages))) ∨
   existsb is_tool messages = false ∧
   length (List.filter (λ m, has_role m "user") (firstn (Z.to_nat b) messages)) = 1%nat).
Proof.
  unfold find_compaction_boundary, clamp_retention_percentage. cbn [py_int mbind res_bind].
  fold (retained retention (Z.of_nat (length messages))).
  set (target := Z.max 1 _). destruct (existsb is_tool messages).
  - intros [= <-] Hb. destruct (find_first _ _) as [x|] eqn:Hf; [|done]. cbn [from_option id] in *.
    apply find_first_Some in Hf as [(y & l & E & Hx)%elem_rev_tail Hle%Z.leb_le].
    destruct (positions_of_elem has_calls 0 messages x) as (Hrange & m & Hm & Hp); [rewrite E; by right|].
    rewrite Z.sub_0_r in Hm. split_and!; [exists m; split; [done|by right]|lia|by left].
  - intros [= <-] Hb. destruct (find_first _ _) as [x|] eqn:Hf; [|done]. cbn [from_option id] in *.
    apply find_first_Some in Hf as [(y & l & E & Hx)%elem_rev_tail Hle%Z.leb_le].
    rewrite E in Hle. cbn [tail] in Hle.
    destruct (positions_of_elem (λ m, has_role m "user") 0 messages x) as (Hrange & m & Hm & Hp); [rewrite E; by right|].
    rewrite Z.sub_0_r in Hm. split_and!; [exists m; split; [done|by left]|lia|].
    destruct (decide (x <= target)) as [|Hgt]; [by left|right; split; [done|]].
    destruct l as [|z l]; [by apply elem_of_nil in Hx|].
    destruct (positions_of_second _ _ _ _ _ _ E) as [Hcount Hl]. rewrite Z.sub_0_r in Hcount.
    assert (x = z) as ->; [|done]. apply elem_of_cons in Hx as [->|Hx]; [done|]. specialize (Hl x Hx).
    pose proof (proj1 (foldl_min_lower l z)). lia.
Qed.

(** ** Calls stay with their results *)

Lemma tool_block_app c m r : is_tool m = false → tool_block (c ++ m :: r) = tool_block c.
Proof. intros Hm. induction c as [|x c IH]; cbn; [by rewrite Hm|]. destruct (is_tool x); [by f_equal|done]. Qed.

Lemma well_paired_from_split cur c m r : is_tool m = false → well_paired_from cur (c ++ m :: r) →
  well_paired_from cur c ∧ well_paired (m :: r).
Proof.
  intros Hm. revert cur. induction c as [|x c IH]; intros cur.
  - cbn [app]. unfold well_paired. cbn [well_paired_from]. by rewrite Hm.
  - cbn [app well_paired_from]. rewrite (tool_block_app c m r) by done.
    destruct (is_tool x); [intros [? H]; by destruct (IH _ H)|].
    destruct (has_calls x); [intros [? H]; by destruct (IH _ H)|apply IH].
Qed.

(** ** Checkpoints *)

(** A message without a summary or a marker. *)
Definition no_checkpoint (m : pydict) : Prop :=
  summary_of m = None ∧ ∃ out, output_of m = Ok out ∧ find_marker (rev out) = Ok None.

Lemma latest_checkpoint_skip newest rest later : Forall no_checkpoint newest →
  latest_checkpoint (newest ++ rest) later = latest_checkpoint rest (rev newest ++ later).
Proof.
  intros Hn. revert later. induction Hn as [|m newest (Hs & out & Ho & Hm) _ IH]; intros later; [done|].
  cbn [app latest_checkpoint]. rewrite Hs, Ho. cbn [mbind res_bind]. rewrite Hm. cbn [mbind res_bind].
  rewrite IH. cbn. by rewrite <-app_assoc.
Qed.

Lemma Forall_rev_list {A} (P : A → Prop) l : Forall P l → Forall P (rev l).
Proof. rewrite !List.Forall_forall. intros H x Hx. apply H. by apply in_rev. Qed.

Lemma checkpoint_found c m later s : summary_of m = Some s → Forall no_checkpoint later →
  apply_latest_summary_checkpoint (c ++ m :: later) = Ok (m :: later, VStr s).
Proof.
  intros Hs Hl. unfold apply_latest_summary_checkpoint.
  rewrite rev_app_distr. cbn [rev]. rewrite <-app_assoc, latest_checkpoint_skip by by apply Forall_rev_list.
  cbn [app latest_checkpoint]. rewrite Hs. cbn. by rewrite rev_involutive, app_nil_r.
Qed.

Lemma summary_stored m s : Str.is_empty (Str.strip s) = false →
  summary_of (dict_set "contextSummary" (VStr s) m) = Some s.
Proof.
  intros Hs. unfold summary_of. rewrite dget_set_eq. unfold por. cbn [truthy].
  destruct s as [|ch s]; [done|]. cbn [truthy Str.is_empty negb]. by rewrite Hs.
Qed.

Section Plan.
Context (dumps : pyval → res string) (repr_other : pyval → string).

End Plan.

Definition chat_message (role content : string) : pydict := [("role", VStr role); ("content", VStr content)].
Definition long_chat : list pydict :=
  [chat_message "system" "s"; chat_message "user" "a"; chat_message "assistant" "b"; chat_message "user" "c";
   chat_message "assistant" "d"; chat_message "user" "e"; chat_message "assistant" "f"].
Definition small_budget : compaction_config :=
  {| cc_enable := true; cc_token_threshold := 10; cc_token_cap := 10; cc_retention_percentage := 40;
     cc_prompt_template := VStr EmptyString |}.

