(* ===== verification/AnthropicStream.v ===== *)
(** * The streaming half of the Anthropic endpoint (utils/anthropic.py):
    [openai_stream_to_anthropic_stream], which turns the server-sent events of
    an OpenAI chat completion into those of the Anthropic Messages API.

    The local variables of the generator are the fields of [stream].  A [yield]
    appends the name of an event and the object that [JSONCodec.dumps] encodes
    into its data line.  [data] lines are decoded by [Json.json_loads], the
    codec of the default configuration. *)

From S2P Require Import Prelude PyVal Json Messages.
From Stdlib Require Import Ascii SpecFloat.

Local Open Scope Z_scope.

(** ** State *)

Notation sse_event := (string * pydict)%type.

(** An entry of [tracked_tool_calls]. *)
Record tool_entry := {
  te_id : pyval;
  te_name : pyval;
  te_arguments : string;
  te_block_index : Z;
  te_started : bool;
  te_stopped : bool;
}.

(** The token counts reported at the end. *)
Record usage_state := {
  us_input : pyval;
  us_output : pyval;
  us_cache_creation : pyval;
  us_cache_read : pyval;
  us_output_details : pyval;
  us_server_tool_use : pyval;
  us_service_tier : pyval;
}.

Record stream := {
  sm_events : list sse_event;
  sm_usage : usage_state;
  sm_stop_reason : pyval;
  sm_error : pyval;
  sm_index : Z;
  sm_thinking : bool;
  sm_text : bool;
  sm_tracked : list (pyval * tool_entry);
  sm_index_to_tool : list (pyval * pyval);
  sm_has_tools : bool;
}.

Definition with_events (l : list sse_event) (s : stream) : stream :=
  {| sm_events := l; sm_usage := sm_usage s; sm_stop_reason := sm_stop_reason s;
     sm_error := sm_error s; sm_index := sm_index s; sm_thinking := sm_thinking s;
     sm_text := sm_text s; sm_tracked := sm_tracked s;
     sm_index_to_tool := sm_index_to_tool s; sm_has_tools := sm_has_tools s |}.

Definition with_usage (u : usage_state) (s : stream) : stream :=
  {| sm_events := sm_events s; sm_usage := u; sm_stop_reason := sm_stop_reason s;
     sm_error := sm_error s; sm_index := sm_index s; sm_thinking := sm_thinking s;
     sm_text := sm_text s; sm_tracked := sm_tracked s;
     sm_index_to_tool := sm_index_to_tool s; sm_has_tools := sm_has_tools s |}.

Definition with_stop_reason (v : pyval) (s : stream) : stream :=
  {| sm_events := sm_events s; sm_usage := sm_usage s; sm_stop_reason := v;
     sm_error := sm_error s; sm_index := sm_index s; sm_thinking := sm_thinking s;
     sm_text := sm_text s; sm_tracked := sm_tracked s;
     sm_index_to_tool := sm_index_to_tool s; sm_has_tools := sm_has_tools s |}.

Definition with_error (v : pyval) (s : stream) : stream :=
  {| sm_events := sm_events s; sm_usage := sm_usage s; sm_stop_reason := sm_stop_reason s;
     sm_error := v; sm_index := sm_index s; sm_thinking := sm_thinking s;
     sm_text := sm_text s; sm_tracked := sm_tracked s;
     sm_index_to_tool := sm_index_to_tool s; sm_has_tools := sm_has_tools s |}.

(** [current_block_index], [thinking_block_open], [text_block_open] *)
Definition with_blocks (index : Z) (thinking text : bool) (s : stream) : stream :=
  {| sm_events := sm_events s; sm_usage := sm_usage s; sm_stop_reason := sm_stop_reason s;
     sm_error := sm_error s; sm_index := index; sm_thinking := thinking; sm_text := text;
     sm_tracked := sm_tracked s; sm_index_to_tool := sm_index_to_tool s;
     sm_has_tools := sm_has_tools s |}.

Definition with_tools (tracked : list (pyval * tool_entry)) (has : bool) (s : stream) : stream :=
  {| sm_events := sm_events s; sm_usage := sm_usage s; sm_stop_reason := sm_stop_reason s;
     sm_error := sm_error s; sm_index := sm_index s; sm_thinking := sm_thinking s;
     sm_text := sm_text s; sm_tracked := tracked; sm_index_to_tool := sm_index_to_tool s;
     sm_has_tools := has |}.

Definition with_routes (l : list (pyval * pyval)) (s : stream) : stream :=
  {| sm_events := sm_events s; sm_usage := sm_usage s; sm_stop_reason := sm_stop_reason s;
     sm_error := sm_error s; sm_index := sm_index s; sm_thinking := sm_thinking s;
     sm_text := sm_text s; sm_tracked := sm_tracked s; sm_index_to_tool := l;
     sm_has_tools := sm_has_tools s |}.

(** [yield f'event: {name}\ndata: {JSONCodec.dumps(data)}\n\n'.encode()] *)
Definition emit (name : string) (data : pydict) : st stream unit :=
  st_modify (λ s, with_events (sm_events s ++ [(name, data)]) s).

(** ** Events *)
Definition block_start (i : Z) (block : pydict) : pydict :=
  [("type", VStr "content_block_start"); ("index", VInt i); ("content_block", VDict block)].
Definition block_delta (i : Z) (delta : pydict) : pydict :=
  [("type", VStr "content_block_delta"); ("index", VInt i); ("delta", VDict delta)].
Definition block_stop (i : Z) : pydict :=
  [("type", VStr "content_block_stop"); ("index", VInt i)].

Definition thinking_block : pydict := [("type", VStr "thinking"); ("thinking", VStr "")].
Definition text_block : pydict := [("type", VStr "text"); ("text", VStr "")].
Definition tool_block_of (t : tool_entry) : pydict :=
  [("type", VStr "tool_use"); ("id", te_id t); ("name", te_name t); ("input", VDict [])].

Definition thinking_delta (v : pyval) : pydict := [("type", VStr "thinking_delta"); ("thinking", v)].
Definition text_delta (v : pyval) : pydict := [("type", VStr "text_delta"); ("text", v)].
Definition json_delta (s : string) : pydict :=
  [("type", VStr "input_json_delta"); ("partial_json", VStr s)].

Definition message_start (message_id model : string) (input_tokens : pyval) : pydict :=
  [("type", VStr "message_start");
   ("message", VDict
     [("id", VStr message_id); ("type", VStr "message"); ("role", VStr "assistant");
      ("content", VList []); ("model", VStr model); ("stop_reason", VNone);
      ("stop_sequence", VNone);
      ("usage", VDict [("input_tokens", por input_tokens (VInt 0)); ("output_tokens", VInt 0)])])].

(** ** Token counts *)

(** [a - b] on numbers. *)
Definition num_sub (a b : pyval) : res pyval :=
  match as_num a, as_num b with
  | Some (NInt x), Some (NInt y) => Ok (VInt (x - y))
  | Some (NFloat f), Some (NFloat g) => Ok (VFloat (F64.sub f g))
  | Some (NInt x), Some (NFloat g) =>
      match F64.of_Z x with Some f => Ok (VFloat (F64.sub f g)) | None => Err OverflowError end
  | Some (NFloat f), Some (NInt y) =>
      match F64.of_Z y with Some g => Ok (VFloat (F64.sub f g)) | None => Err OverflowError end
  | _, _ => Err TypeError
  end.

(** [max(v, 0)] of a number: the first of two equal arguments. *)
Definition max_zero (v : pyval) : pyval :=
  match as_num v with
  | Some n => if num_ltb n (NInt 0) then VInt 0 else v
  | None => v
  end.

(** [cache_read], with the count of [prompt_tokens_details] as a fallback. *)
Definition cache_read_of (usage_data : pydict) : pyval :=
  let cache_read := dget usage_data "cache_read_input_tokens" in
  match cache_read, dget usage_data "prompt_tokens_details" with
  | VNone, VDict prompt_details => dget prompt_details "cached_tokens"
  | _, _ => cache_read
  end.

Definition usage_input_of (usage_data : pydict) : res pyval :=
  let usage_input := dget usage_data "input_tokens" in
  let prompt_tokens := dget usage_data "prompt_tokens" in
  if negb (is_none usage_input) then Ok usage_input
  else if is_none prompt_tokens then Ok VNone
  else
    a ← num_sub prompt_tokens (por (dget usage_data "cache_creation_input_tokens") (VInt 0));
    b ← num_sub a (por (cache_read_of usage_data) (VInt 0));
    Ok (max_zero b).

Definition usage_output_of (usage_data : pydict) : pyval :=
  let usage_output := dget usage_data "output_tokens" in
  if is_none usage_output then dget usage_data "completion_tokens" else usage_output.

Definition or_old (v old : pyval) : pyval := if is_none v then old else v.
Definition dict_or_old (v old : pyval) : pyval := if is_dict v then v else old.

Definition read_usage (u : usage_state) (usage_data : pydict) : res usage_state :=
  usage_input ← usage_input_of usage_data;
  Ok {| us_input := or_old usage_input (us_input u);
        us_output := or_old (usage_output_of usage_data) (us_output u);
        us_cache_creation :=
          or_old (dget usage_data "cache_creation_input_tokens") (us_cache_creation u);
        us_cache_read := or_old (cache_read_of usage_data) (us_cache_read u);
        us_output_details := dict_or_old (dget usage_data "output_tokens_details") (us_output_details u);
        us_server_tool_use := dict_or_old (dget usage_data "server_tool_use") (us_server_tool_use u);
        us_service_tier := or_old (dget usage_data "service_tier") (us_service_tier u) |}.

(** [usage] of the final [message_delta] *)
Definition final_usage (u : usage_state) : pydict :=
  [("output_tokens", us_output u)]
  ++ (if is_none (us_input u) then [] else [("input_tokens", us_input u)])
  ++ (if is_none (us_cache_creation u) then []
      else [("cache_creation_input_tokens", us_cache_creation u)])
  ++ (if is_none (us_cache_read u) then [] else [("cache_read_input_tokens", us_cache_read u)])
  ++ (if is_none (us_output_details u) then [] else [("output_tokens_details", us_output_details u)])
  ++ (if is_none (us_server_tool_use u) then [] else [("server_tool_use", us_server_tool_use u)])
  ++ (if is_none (us_service_tier u) then [] else [("service_tier", us_service_tier u)]).

(** ** Reasoning and text *)

(** [v[0]] of a truthy value. *)
Definition first_item (v : pyval) : res pyval :=
  match v with
  | VList (x :: _) => Ok x
  | VStr (String c _) => Ok (VStr (String c EmptyString))
  | VDict _ => Err (KeyError "0")
  | _ => Err TypeError
  end.

(** [a.get(k) or b.get(l) or ...]: a receiver is only used when the values
    before it are falsy. *)
Fixpoint first_truthy (l : list (pyval * string)) : res pyval :=
  match l with
  | [] => Ok VNone
  | [(v, k)] => vget v k
  | (v, k) :: l' => x ← vget v k; if truthy x then Ok x else first_truthy l'
  end.

(** The loop over [thinking_blocks], which stops at the first reasoning text. *)
Fixpoint thinking_text (reasoning : pyval) (blocks : list pyval) : pyval :=
  match blocks with
  | [] => reasoning
  | VDict block :: r =>
      let rc := por (por (dget block "thinking") (dget block "content")) (dget block "text") in
      if truthy rc then rc else thinking_text rc r
  | _ :: r => thinking_text reasoning r
  end.

Definition reasoning_of (delta message : pyval) : res pyval :=
  rc ← first_truthy [(delta, "reasoning_content"); (delta, "reasoning"); (delta, "thinking");
                     (message, "reasoning_content"); (message, "reasoning")];
  if truthy rc then Ok rc
  else
    tb ← first_truthy [(delta, "thinking_blocks"); (message, "thinking_blocks")];
    blocks ← viter (por tb (VList []));
    Ok (thinking_text rc blocks).

Definition emit_reasoning (reasoning : pyval) : st stream unit :=
  s ← st_get;
  if truthy reasoning && negb (sm_text s) && negb (sm_has_tools s) then
    _ ← (if sm_thinking s then mret tt
         else _ ← emit "content_block_start" (block_start (sm_index s) thinking_block);
              st_modify (with_blocks (sm_index s) true (sm_text s)));
    emit "content_block_delta" (block_delta (sm_index s) (thinking_delta reasoning))
  else mret tt.

(** [if thinking_block_open: ...] *)
Definition close_thinking : st stream unit :=
  s ← st_get;
  if sm_thinking s then
    _ ← emit "content_block_stop" (block_stop (sm_index s));
    st_modify (with_blocks (sm_index s + 1) false (sm_text s))
  else mret tt.

(** [if text_block_open: ...] before tool calls *)
Definition close_text : st stream unit :=
  s ← st_get;
  if sm_text s then
    _ ← emit "content_block_stop" (block_stop (sm_index s));
    st_modify (with_blocks (sm_index s + 1) (sm_thinking s) false)
  else mret tt.

Definition emit_content (content : pyval) : st stream unit :=
  s0 ← st_get;
  if truthy content && negb (sm_has_tools s0) then
    _ ← close_thinking;
    s ← st_get;
    _ ← (if sm_text s then mret tt
         else _ ← emit "content_block_start" (block_start (sm_index s) text_block);
              st_modify (with_blocks (sm_index s) (sm_thinking s) true));
    emit "content_block_delta" (block_delta (sm_index s) (text_delta content))
  else mret tt.

(** ** Tool calls *)

(** The position of a key in a dict whose keys are any hashable values; entries
    keep their position, so that it stands for the entry as an object. *)
Definition key_position {V} (k : pyval) (d : list (pyval * V)) : option nat :=
  find_index (λ kv, py_eqb k kv.1) d.

(** [d[k] = v], and where the entry is. *)
Definition kset {V} (k : pyval) (v : V) (d : list (pyval * V)) : nat * list (pyval * V) :=
  match key_position k d with
  | Some i => (i, alter (λ kv, (kv.1, v)) i d)
  | None => (length d, d ++ [(k, v)])
  end.

Definition new_tool (id name : pyval) : tool_entry :=
  {| te_id := id; te_name := name; te_arguments := ""; te_block_index := -1;
     te_started := false; te_stopped := false |}.

(** Changes the entry at a position in place. *)
Definition update_tool (i : nat) (f : tool_entry → tool_entry) : st stream unit :=
  st_modify (λ s, with_tools (alter (λ kv, (kv.1, f kv.2)) i (sm_tracked s)) (sm_has_tools s) s).

Definition the_tool (i : nat) : st stream tool_entry :=
  s ← st_get;
  match sm_tracked s !! i with Some kv => mret kv.2 | None => raise (KeyError "tool") end.

Definition with_name (v : pyval) (t : tool_entry) : tool_entry :=
  {| te_id := te_id t; te_name := v; te_arguments := te_arguments t;
     te_block_index := te_block_index t; te_started := te_started t; te_stopped := te_stopped t |}.
Definition with_arguments (a : string) (t : tool_entry) : tool_entry :=
  {| te_id := te_id t; te_name := te_name t; te_arguments := a;
     te_block_index := te_block_index t; te_started := te_started t; te_stopped := te_stopped t |}.
Definition start_at (i : Z) (t : tool_entry) : tool_entry :=
  {| te_id := te_id t; te_name := te_name t; te_arguments := te_arguments t;
     te_block_index := i; te_started := true; te_stopped := te_stopped t |}.
Definition stopped (t : tool_entry) : tool_entry :=
  {| te_id := te_id t; te_name := te_name t; te_arguments := te_arguments t;
     te_block_index := te_block_index t; te_started := te_started t; te_stopped := true |}.

Section Generator.
(** The value of [f'toolu_{_uuid.uuid4().hex[:24]}'] drawn while the given ids
    are in use. *)
Context (toolu : list pyval → string).

(** [tracked_tool_calls[id] = {...}] *)
Definition track (id name : pyval) : st stream nat :=
  s ← st_get;
  let '(i, tracked) := kset id (new_tool id name) (sm_tracked s) in
  _ ← st_modify (with_tools tracked (sm_has_tools s));
  mret i.

Definition route (index id : pyval) : st stream unit :=
  index ← st_lift (hashed index);
  st_modify (λ s, with_routes (kset index id (sm_index_to_tool s)).2 s).

(** The entry a delta belongs to: the one of its id, else the one last seen at
    its index, else a new one. *)
Definition resolve_tool (index id name : pyval) : st stream nat :=
  if truthy id then
    id ← st_lift (hashed id);
    s ← st_get;
    i ← match key_position id (sm_tracked s) with Some i => mret i | None => track id name end;
    _ ← route index id;
    mret i
  else
    index ← st_lift (hashed index);
    s ← st_get;
    match key_position index (sm_index_to_tool s) ≫= λ j, sm_index_to_tool s !! j with
    | Some kv =>
        match key_position kv.2 (sm_tracked s) with
        | Some i => mret i
        | None => raise (KeyError "tool_call_id")
        end
    | None =>
        let fallback_id := VStr (toolu (sm_tracked s).*1) in
        i ← track fallback_id name;
        _ ← route index fallback_id;
        mret i
    end.

Definition name_tool (i : nat) (name : pyval) : st stream unit :=
  tool ← the_tool i;
  if truthy name && negb (truthy (te_name tool)) then update_tool i (with_name name) else mret tt.

Definition start_tool (i : nat) : st stream unit :=
  tool ← the_tool i;
  if negb (te_started tool) && truthy (te_name tool) then
    s ← st_get;
    _ ← update_tool i (start_at (sm_index s));
    _ ← st_modify (λ s, with_tools (sm_tracked s) true s);
    _ ← emit "content_block_start" (block_start (sm_index s) (tool_block_of tool));
    st_modify (λ s, with_blocks (sm_index s + 1) (sm_thinking s) (sm_text s) s)
  else mret tt.

(** [s.rstrip()[-1:] == '}' or s.lstrip()[:1] != '{'] *)
Definition may_be_complete (arguments : string) : bool :=
  Str.endswith "}" (Str.rstrip_by Str.is_space arguments)
  || negb (Str.startswith "{" (Str.lstrip_by Str.is_space arguments)).

Definition stop_tool (i : nat) : st stream unit :=
  tool ← the_tool i;
  if te_started tool && negb (te_stopped tool) && may_be_complete (te_arguments tool)
     && is_ok (json_loads (te_arguments tool)) then
    _ ← update_tool i stopped;
    emit "content_block_stop" (block_stop (te_block_index tool))
  else mret tt.

Definition buffer_arguments (i : nat) (chunk : pyval) : st stream unit :=
  if truthy chunk then
    match chunk with
    | VStr c =>
        _ ← update_tool i (λ t, with_arguments (te_arguments t +:+ c) t);
        tool ← the_tool i;
        _ ← (if te_started tool && negb (te_stopped tool)
             then emit "content_block_delta" (block_delta (te_block_index tool) (json_delta c))
             else mret tt);
        stop_tool i
    | _ => raise TypeError
    end
  else mret tt.

(** One pass of the loop over [tool_calls]. *)
Definition handle_tool_call (tool_call : pyval) : st stream unit :=
  index ← st_lift (vgetd tool_call "index" (VInt 0));
  id ← st_lift (vgetd tool_call "id" (VStr ""));
  function ← st_lift (vget tool_call "function");
  let function := por function (VDict []) in
  name ← st_lift (vgetd function "name" (VStr ""));
  arguments_chunk ← st_lift (vgetd function "arguments" (VStr ""));
  i ← resolve_tool index id name;
  _ ← name_tool i name;
  _ ← start_tool i;
  buffer_arguments i arguments_chunk.

Fixpoint for_each {A} (f : A → st stream unit) (l : list A) : st stream unit :=
  match l with [] => mret tt | a :: l' => _ ← f a; for_each f l' end.

Definition handle_tool_calls (tool_calls : pyval) : st stream unit :=
  if truthy tool_calls then
    _ ← close_thinking;
    _ ← close_text;
    calls ← st_lift (viter tool_calls);
    for_each handle_tool_call calls
  else mret tt.

Definition stop_reason_map : pydict :=
  [("stop", VStr "end_turn"); ("length", VStr "max_tokens"); ("tool_calls", VStr "tool_use")].

Definition handle_finish (finish_reason : pyval) : st stream unit :=
  if is_none finish_reason then mret tt
  else
    r ← st_lift (hashed finish_reason);
    let reason := match r with VStr k => dgetd stop_reason_map k (VStr "end_turn")
                  | _ => VStr "end_turn" end in
    st_modify (with_stop_reason reason).

(** ** The loop over the input *)

(** A decoded object; [true] when the loop over the lines is left. *)
Definition handle_data (data : pyval) : st stream bool :=
  error ← st_lift (vget data "error");
  if truthy error then
    let message := por (match error with VDict e => dget e "message" | e => e end)
                       (VStr "Chat completion stream failed") in
    _ ← st_modify (with_error message);
    mret true
  else
    usage_data ← st_lift (vget data "usage");
    _ ← match usage_data with
        | VDict u => s ← st_get;
                     us ← st_lift (read_usage (sm_usage s) u);
                     st_modify (with_usage us)
        | _ => mret tt
        end;
    choices ← st_lift (vgetd data "choices" (VList []));
    if negb (truthy choices) then mret false
    else
      choice ← st_lift (first_item choices);
      delta ← st_lift (vgetd choice "delta" (VDict []));
      finish_reason ← st_lift (vget choice "finish_reason");
      m ← st_lift (vget choice "message");
      let message := por m (VDict []) in
      reasoning ← st_lift (reasoning_of delta message);
      _ ← emit_reasoning reasoning;
      content ← st_lift (vget delta "content");
      _ ← emit_content content;
      tc ← st_lift (vget delta "tool_calls");
      mtc ← (if truthy tc then mret VNone else st_lift (vget message "tool_calls"));
      _ ← handle_tool_calls (if truthy tc then tc else mtc);
      _ ← handle_finish finish_reason;
      mret false.

Definition handle_line (line : string) : st stream bool :=
  let line := Str.strip line in
  if negb (Str.startswith "data:" line) then mret false
  else
    let data_string := Str.strip (Str.drop 5 line) in
    if String.eqb data_string "[DONE]" || String.eqb data_string "{}" then mret false
    else match json_loads data_string with
         | Ok data => handle_data data
         | Err _ => mret false
         end.

Fixpoint handle_lines (lines : list string) : st stream unit :=
  match lines with
  | [] => mret tt
  | line :: r => stop ← handle_line line; if (stop : bool) then mret tt else handle_lines r
  end.

(** What the upstream generator yields; [Broken] when it raises. *)
Inductive chunk := Text (s : string) | Bytes (b : string) | Broken (e : exn).

(** [b.decode('utf-8', errors='ignore')], for code points below 256. *)
Fixpoint decode_ignore (b : string) : string :=
  match b with
  | EmptyString => EmptyString
  | String c r =>
      let n := Str.code c in
      if (n <? 128)%nat then String c (decode_ignore r)
      else match r with
           | String d r' =>
               let m := Str.code d in
               if ((n =? 194) || (n =? 195))%nat && ((128 <=? m) && (m <? 192))%nat
               then String (ascii_of_nat (64 * (n - 194) + m)) (decode_ignore r')
               else decode_ignore r
           | EmptyString => EmptyString
           end
  end.

Fixpoint handle_chunks (chunks : list chunk) : st stream unit :=
  match chunks with
  | [] => mret tt
  | Broken e :: _ => raise e
  | (Text t | Bytes t) as c :: r =>
      let text := match c with Bytes b => decode_ignore b | _ => t end in
      _ ← handle_lines (Str.split (ascii_of_nat 10) (Str.strip text));
      s ← st_get;
      if truthy (sm_error s) then mret tt else handle_chunks r
  end.

(** ** The end of the stream *)
Definition error_event (message : pyval) : pydict :=
  [("type", VStr "error");
   ("error", VDict [("type", VStr "api_error"); ("message", message)])].

Definition flush_tool (i : nat) : st stream unit :=
  tool ← the_tool i;
  if negb (te_started tool) && truthy (te_name tool) then
    s ← st_get;
    _ ← update_tool i (start_at (sm_index s));
    _ ← emit "content_block_start" (block_start (sm_index s) (tool_block_of tool));
    _ ← st_modify (λ s, with_blocks (sm_index s + 1) (sm_thinking s) (sm_text s) s);
    if Str.is_empty (te_arguments tool) then mret tt
    else emit "content_block_delta" (block_delta (sm_index s) (json_delta (te_arguments tool)))
  else mret tt.

Definition close_tool (i : nat) : st stream unit :=
  tool ← the_tool i;
  if te_started tool && negb (te_stopped tool)
  then emit "content_block_stop" (block_stop (te_block_index tool))
  else mret tt.

Definition message_delta (s : stream) : pydict :=
  [("type", VStr "message_delta");
   ("delta", VDict [("stop_reason", sm_stop_reason s); ("stop_sequence", VNone)]);
   ("usage", VDict (final_usage (sm_usage s)))].

Definition finish_stream : st stream unit :=
  _ ← close_thinking;
  s ← st_get;
  _ ← for_each flush_tool (seq 0 (length (sm_tracked s)));
  s ← st_get;
  _ ← (if sm_text s then emit "content_block_stop" (block_stop (sm_index s)) else mret tt);
  _ ← for_each close_tool (seq 0 (length (sm_tracked s)));
  s ← st_get;
  _ ← emit "message_delta" (message_delta s);
  emit "message_stop" [("type", VStr "message_stop")].

Definition initial_stream (input_tokens : pyval) : stream :=
  {| sm_events := [];
     sm_usage := {| us_input := input_tokens; us_output := VInt 0; us_cache_creation := VNone;
                    us_cache_read := VNone; us_output_details := VNone;
                    us_server_tool_use := VNone; us_service_tier := VNone |};
     sm_stop_reason := VStr "end_turn"; sm_error := VNone; sm_index := 0;
     sm_thinking := false; sm_text := false; sm_tracked := []; sm_index_to_tool := [];
     sm_has_tools := false |}.

Definition convert_stream (message_id model : string) (input_tokens : pyval)
    (chunks : list chunk) : st stream unit :=
  _ ← emit "message_start" (message_start message_id model input_tokens);
  _ ← st_catch (handle_chunks chunks)
        (λ _, st_modify (with_error (VStr "Chat completion stream failed")));
  s ← st_get;
  if truthy (sm_error s) then emit "error" (error_event (sm_error s)) else finish_stream.

(** The events of the Anthropic stream. *)
Definition openai_stream_to_anthropic_stream (chunks : list chunk) (message_id model : string)
    (input_tokens : pyval) : list sse_event :=
  sm_events (convert_stream message_id model input_tokens chunks (initial_stream input_tokens)).2.
End Generator.
