(* ===== verification/AnthropicStreamProps.v ===== *)
(** * Properties of [AnthropicStream]: every stream of events follows the
    Anthropic streaming protocol, stated as an automaton on events, whatever the
    provider sends. *)

From S2P Require Import Prelude PyVal Json Messages AnthropicStream.
From Stdlib Require Import Ascii SpecFloat.

Local Open Scope Z_scope.

(** ** The protocol

    A message is a [message_start], content blocks, a [message_delta] and a
    [message_stop], or is cut short by an [error].  Blocks are numbered in the
    order they start; a block gets deltas of its own kind between its start and
    its stop, and every block is stopped before the [message_delta].  Thinking
    and text come before tool calls and are never open beside another block;
    tool calls may overlap and have ids of their own. *)
Inductive kind := KThinking | KText | KTool.

#[export] Instance kind_eq_dec : EqDecision kind.
Proof. solve_decision. Defined.

(** A block that has started, and whether it is still open. *)
Notation block := (kind * bool)%type.

Inductive phase :=
| Opening
| Body (blocks : list block) (ids : list pyval)
| Closing
| Complete
| Failed.

Definition is_tool (k : kind) : bool := bool_decide (k = KTool).

Definition block_kind (b : pydict) : option kind :=
  if veq_str (dget b "type") "thinking" then Some KThinking
  else if veq_str (dget b "type") "text" then Some KText
  else if veq_str (dget b "type") "tool_use" then Some KTool
  else None.

Definition delta_kind (d : pydict) : option kind :=
  if veq_str (dget d "type") "thinking_delta" then Some KThinking
  else if veq_str (dget d "type") "text_delta" then Some KText
  else if veq_str (dget d "type") "input_json_delta" then Some KTool
  else None.

(** Whether a block of this kind and id may start. *)
Definition may_start (k : kind) (id : pyval) (blocks : list block) (ids : list pyval) : bool :=
  forallb (λ b, negb b.2 || is_tool b.1) blocks
  && (if is_tool k then negb (existsb (py_eqb id) ids)
      else negb (existsb (λ b, is_tool b.1) blocks)).

(** The block an event is about, if it is open. *)
Definition open_block (data : pydict) (blocks : list block) : option (nat * kind) :=
  match dget data "index" with
  | VInt i =>
      if i <? 0 then None
      else match blocks !! Z.to_nat i with
           | Some (k, true) => Some (Z.to_nat i, k)
           | _ => None
           end
  | _ => None
  end.

Definition accept_start (blocks : list block) (ids : list pyval) (data : pydict) : option phase :=
  match dget data "index", dget data "content_block" with
  | VInt i, VDict b =>
      k ← block_kind b;
      if (i =? Z.of_nat (length blocks)) && may_start k (dget b "id") blocks ids
      then Some (Body (blocks ++ [(k, true)]) (if is_tool k then ids ++ [dget b "id"] else ids))
      else None
  | _, _ => None
  end.

Definition accept_delta (blocks : list block) (ids : list pyval) (data : pydict) : option phase :=
  match dget data "delta" with
  | VDict d =>
      k ← delta_kind d; p ← open_block data blocks;
      if bool_decide (p.2 = k) then Some (Body blocks ids) else None
  | _ => None
  end.

Definition accept_stop (blocks : list block) (ids : list pyval) (data : pydict) : option phase :=
  p ← open_block data blocks;
  Some (Body (<[p.1 := (p.2, false)]> blocks) ids).

Definition accept (p : phase) (e : sse_event) : option phase :=
  let '(name, data) := e in
  if negb (veq_str (dget data "type") name) then None
  else match p with
       | Opening => if String.eqb name "message_start" then Some (Body [] []) else None
       | Body blocks ids =>
           if String.eqb name "content_block_start" then accept_start blocks ids data
           else if String.eqb name "content_block_delta" then accept_delta blocks ids data
           else if String.eqb name "content_block_stop" then accept_stop blocks ids data
           else if String.eqb name "message_delta"
                then if forallb (λ b, negb b.2) blocks then Some Closing else None
           else if String.eqb name "error" then Some Failed
           else None
       | Closing => if String.eqb name "message_stop" then Some Complete else None
       | Complete | Failed => None
       end.

#[local] Arguments open_block : simpl never.

(** Where a sequence of events leaves the automaton; [None] when it breaks the
    protocol. *)
Definition accepted (evs : list sse_event) : option phase :=
  foldl (λ p e, q ← p; accept q e) (Some Opening) evs.

#[local] Arguments accepted : simpl never.

Lemma accepted_snoc evs e : accepted (evs ++ [e]) = p ← accepted evs; accept p e.
Proof. unfold accepted. by rewrite foldl_app. Qed.

(** ** Equality of dict keys is symmetric *)
Lemma SFcompare_Eq_sym f g : SFcompare f g = Some Eq → SFcompare g f = Some Eq.
Proof.
  destruct f as [[]|[]| |[] m e], g as [[]|[]| |[] m' e']; cbn; try done;
    destruct (Z.compare_spec e e') as [->|?|?]; try done; rewrite Z.compare_refl;
    intros [= H]; f_equal; revert H;
    change (Pos.compare_cont Eq m m') with (m ?= m')%positive;
    change (Pos.compare_cont Eq m' m) with (m' ?= m)%positive;
    rewrite (Pos.compare_antisym m m'); by destruct (m ?= m')%positive.
Qed.

Lemma num_eqb_sym a b : num_eqb a b = num_eqb b a.
Proof.
  assert (∀ x y, num_eqb x y = true → num_eqb y x = true) as H.
  { intros [x|f] [y|g]; unfold num_eqb; cbn.
    - rewrite (Z.compare_antisym x y). by destruct (x ?= y).
    - by destruct (int_float_compare x g) as [[]|].
    - by destruct (int_float_compare y f) as [[]|].
    - unfold F64.compare. destruct (SFcompare f g) as [[]|] eqn:E; try done.
      by rewrite (SFcompare_Eq_sym f g E). }
  destruct (num_eqb a b) eqn:E, (num_eqb b a) eqn:E'; auto; [apply H in E|apply H in E']; congruence.
Qed.

Lemma py_eqb_sym a b : hashable a = true → hashable b = true → py_eqb a b = py_eqb b a.
Proof.
  destruct a, b; intros Ha Hb; try done;
    first [exact (String.eqb_sym _ _) | exact (num_eqb_sym (NInt _) (NInt _))
          | exact (num_eqb_sym (NInt _) (NFloat _)) | exact (num_eqb_sym (NFloat _) (NInt _))
          | exact (num_eqb_sym (NFloat _) (NFloat _))].
Qed.

(** ** The entries of the tool calls against the blocks *)

Notation tracked := (list (pyval * tool_entry)).

(** The entries own the tool blocks: [pending] is an entry that may have a name
    and no block yet. *)
Record tools_ok (pending : option nat) (bs : list block) (ids : list pyval) (l : tracked) : Prop := {
  t_named i kv : l !! i = Some kv → pending ≠ Some i → truthy (te_name kv.2) = true →
    te_started kv.2 = true;
  t_idle i kv : l !! i = Some kv → te_started kv.2 = false → te_stopped kv.2 = false;
  t_block i kv : l !! i = Some kv → te_started kv.2 = true →
    ∃ n, te_block_index kv.2 = Z.of_nat n ∧ bs !! n = Some (KTool, negb (te_stopped kv.2));
  t_inj i j kv kv' : l !! i = Some kv → l !! j = Some kv' → te_started kv.2 = true →
    te_started kv'.2 = true → te_block_index kv.2 = te_block_index kv'.2 → i = j;
  t_surj n b : bs !! n = Some (KTool, b) →
    ∃ i kv, l !! i = Some kv ∧ te_started kv.2 = true ∧ te_block_index kv.2 = Z.of_nat n;
  t_key i kv : l !! i = Some kv → te_id kv.2 = kv.1 ∧ hashable kv.1 = true;
  t_dist i j kv kv' : l !! i = Some kv → l !! j = Some kv' → i ≠ j → py_eqb kv.1 kv'.1 = false;
  t_ids x : x ∈ ids → ∃ i kv, l !! i = Some kv ∧ te_started kv.2 = true ∧ kv.1 = x;
}.

Lemma tools_ok_nil : tools_ok None [] [] [].
Proof.
  split; intros *; rewrite ?lookup_nil; try done. by intros ?%elem_of_nil.
Qed.

(** A new entry under a key that is not in use. *)
Lemma tools_ok_track bs ids l id name :
  tools_ok None bs ids l → hashable id = true → key_position id l = None →
  tools_ok (Some (length l)) bs ids (l ++ [(id, new_tool id name)]).
Proof.
  intros [Hn Hi Hb Hj Hs Hk Hd Hx] Hh Hp.
  assert (∀ kv, kv ∈ l → py_eqb id kv.1 = false) as Hnew.
  { intros kv Hkv. unfold key_position in Hp.
    destruct (py_eqb id kv.1) eqn:E; [|done].
    exfalso. clear -Hp Hkv E. induction l as [|a l IH]; [by apply elem_of_nil in Hkv|].
    cbn in Hp. destruct (py_eqb id a.1) eqn:Ea; [done|].
    apply elem_of_cons in Hkv as [->|Hkv]; [congruence|].
    apply IH; [|done]. by destruct (find_index _ l). }
  assert (∀ i kv, (l ++ [(id, new_tool id name)]) !! i = Some kv →
            l !! i = Some kv ∨ i = length l ∧ kv = (id, new_tool id name)) as Hcase.
  { intros i kv [?|[? ?%list_lookup_singleton_Some]]%lookup_app_Some; [by left|right].
    destruct_and!. subst. split; [lia|done]. }
  split.
  - intros i kv [H|[-> ->]]%Hcase Hne Ht; [by eapply Hn|done].
  - intros i kv [H|[-> ->]]%Hcase; [by apply (Hi i)|done].
  - intros i kv [H|[-> ->]]%Hcase; [by apply (Hb i)|done].
  - intros i j kv kv' [H|[-> ->]]%Hcase [H'|[-> ->]]%Hcase; try done. by apply (Hj i j).
  - intros n b (i & kv & H & ?)%Hs. exists i, kv. split; [|done]. by apply lookup_app_l_Some.
  - intros i kv [H|[-> ->]]%Hcase; [by apply (Hk i)|done].
  - intros i j kv kv' [H|[-> ->]]%Hcase [H'|[-> ->]]%Hcase Hij; try done.
    + by apply (Hd i j).
    + rewrite py_eqb_sym; [apply Hnew; by eapply list_elem_of_lookup_2|by eapply Hk|done].
    + apply Hnew. by eapply list_elem_of_lookup_2.
  - intros x (i & kv & H & ?)%Hx. exists i, kv. split; [|done]. by apply lookup_app_l_Some.
Qed.

(** Changing a name or the buffered arguments. *)
Lemma tools_ok_update e bs ids l i f :
  tools_ok e bs ids l →
  (∀ t, te_id (f t) = te_id t ∧ te_block_index (f t) = te_block_index t ∧
        te_started (f t) = te_started t ∧ te_stopped (f t) = te_stopped t) →
  (e = Some i ∨ ∀ t, te_name (f t) = te_name t) →
  tools_ok e bs ids (alter (λ kv, (kv.1, f kv.2)) i l).
Proof.
  intros [Hn Hi Hb Hj Hs Hk Hd Hx] Hf Hname.
  assert (∀ j kv, alter (λ kv, (kv.1, f kv.2)) i l !! j = Some kv →
    ∃ kv0, l !! j = Some kv0 ∧ kv.1 = kv0.1 ∧ te_id kv.2 = te_id kv0.2 ∧
      te_block_index kv.2 = te_block_index kv0.2 ∧ te_started kv.2 = te_started kv0.2 ∧
      te_stopped kv.2 = te_stopped kv0.2 ∧
      (e = Some j ∨ te_name kv.2 = te_name kv0.2)) as Hpre.
  { intros j kv. destruct (decide (i = j)) as [<-|Hne].
    - rewrite list_lookup_alter_eq. intros (kv0 & H & ->)%fmap_Some.
      destruct (Hf kv0.2) as (?&?&?&?). exists kv0. naive_solver.
    - rewrite list_lookup_alter_ne by done. intros H. exists kv. naive_solver. }
  assert (∀ j kv0, l !! j = Some kv0 → ∃ kv, alter (λ kv, (kv.1, f kv.2)) i l !! j = Some kv ∧
      kv.1 = kv0.1 ∧ te_block_index kv.2 = te_block_index kv0.2 ∧ te_started kv.2 = te_started kv0.2)
    as Hpost.
  { intros j kv0 H. destruct (decide (i = j)) as [<-|Hne].
    - rewrite list_lookup_alter_eq, H. eexists. split; [done|].
      destruct (Hf kv0.2) as (?&?&?&?). naive_solver.
    - rewrite list_lookup_alter_ne by done. naive_solver. }
  split.
  - intros j kv (kv0&H&?&?&?&->&?&Hji)%Hpre He Ht. apply (Hn j); [done..|].
    destruct Hji as [->|<-]; done.
  - intros j kv (kv0&H&?&?&?&->&->&?)%Hpre. by apply (Hi j).
  - intros j kv (kv0&H&?&?&->&->&->&?)%Hpre. by apply (Hb j).
  - intros j j' kv kv' (kv0&H&?&?&->&->&?)%Hpre (kv0'&H'&?&?&->&->&?)%Hpre. by apply (Hj j j').
  - intros n b (j&kv0&H&?&?)%Hs. destruct (Hpost j kv0 H) as (kv&?&?&?&?). exists j, kv.
    split; [done|]. split; congruence.
  - intros j kv (kv0&H&->&->&?)%Hpre. by apply (Hk j).
  - intros j j' kv kv' (kv0&H&->&?)%Hpre (kv0'&H'&->&?)%Hpre. by apply (Hd j j').
  - intros x (j&kv0&H&?&?)%Hx. destruct (Hpost j kv0 H) as (kv&?&?&?&?). exists j, kv.
    split; [done|]. split; congruence.
Qed.

(** An entry starts a block at the end. *)
Lemma tools_ok_start bs ids l i kv :
  tools_ok (Some i) bs ids l → l !! i = Some kv → te_started kv.2 = false →
  tools_ok None (bs ++ [(KTool, true)]) (ids ++ [kv.1])
    (alter (λ kv, (kv.1, start_at (Z.of_nat (length bs)) kv.2)) i l) ∧
  existsb (py_eqb kv.1) ids = false.
Proof.
  intros [Hn Hi Hb Hj Hs Hk Hd Hx] Hl Hst. set (l' := alter _ i l).
  assert (∀ j kv', l' !! j = Some kv' →
    i = j ∧ kv' = (kv.1, start_at (Z.of_nat (length bs)) kv.2) ∨ i ≠ j ∧ l !! j = Some kv') as Hpre.
  { intros j kv'. unfold l'. destruct (decide (i = j)) as [<-|Hne].
    - rewrite list_lookup_alter_eq, Hl. intros [= <-]. by left.
    - rewrite list_lookup_alter_ne by done. by right. }
  assert (l' !! i = Some (kv.1, start_at (Z.of_nat (length bs)) kv.2)) as Hi'.
  { unfold l'. by rewrite list_lookup_alter_eq, Hl. }
  assert (∀ j kv', l !! j = Some kv' → i ≠ j → l' !! j = Some kv') as Hpost.
  { intros j kv' H Hne. unfold l'. by rewrite list_lookup_alter_ne. }
  assert (∀ j kv', l !! j = Some kv' → te_started kv'.2 = true → i ≠ j) as Hne.
  { intros j kv' H Ht ->. congruence. }
  assert (∀ j kv', l !! j = Some kv' → te_started kv'.2 = true →
    te_block_index kv'.2 ≠ Z.of_nat (length bs)) as Hlt.
  { intros j kv' H Ht. destruct (Hb j kv' H Ht) as (n & -> & ?%lookup_lt_Some). lia. }
  split; [split|].
  - intros j kv' [[<- ->]|[? H]]%Hpre _; [done|]. by apply (Hn j); [|congruence].
  - intros j kv' [[<- ->]|[? H]]%Hpre; [done|]. by apply (Hi j).
  - intros j kv' [[<- ->]|[? H]]%Hpre Ht.
    + exists (length bs). split; [done|]. cbn. rewrite (Hi i kv) by done.
      by rewrite lookup_app_r, Nat.sub_diag by done.
    + destruct (Hb j kv' H Ht) as (n & ? & Hlk). exists n. split; [done|].
      by apply lookup_app_l_Some.
  - intros j j' kv1 kv2 [[<- ->]|[? H]]%Hpre [[<- ->]|[? H']]%Hpre Ht Ht' He; [done| | |].
    + exfalso. by apply (Hlt j' kv2).
    + exfalso. by apply (Hlt j kv1).
    + by apply (Hj j j' kv1 kv2).
  - intros n b' [H|[? [? [= <-]]%list_lookup_singleton_Some]]%lookup_app_Some.
    + destruct (Hs n b' H) as (j&kv'&?&?&?). exists j, kv'. eauto.
    + exists i, (kv.1, start_at (Z.of_nat (length bs)) kv.2). split_and!; [done..|]. cbn. lia.
  - intros j kv' [[<- ->]|[? H]]%Hpre; [by apply (Hk i kv)|by apply (Hk j)].
  - intros j j' kv1 kv2 [[<- ->]|[? H]]%Hpre [[<- ->]|[? H']]%Hpre Hjj; try done; cbn.
    + by apply (Hd i j').
    + by apply (Hd j i).
    + by apply (Hd j j').
  - intros x [Hxi| ->%list_elem_of_singleton]%elem_of_app; [|by eexists i, _].
    destruct (Hx x Hxi) as (j&kv'&?&?&?). exists j, kv'. eauto.
  - apply existsb_False. intros x (j&kv'&H&Ht&<-)%Hx. apply (Hd i j); eauto.
Qed.

(** An entry stops its block. *)
Lemma tools_ok_stop e bs ids l i kv :
  tools_ok e bs ids l → l !! i = Some kv → te_started kv.2 = true →
  tools_ok e (<[Z.to_nat (te_block_index kv.2) := (KTool, false)]> bs) ids
    (alter (λ kv, (kv.1, stopped kv.2)) i l).
Proof.
  intros [Hn Hi Hb Hj Hs Hk Hd Hx] Hl Hst. set (l' := alter _ i l).
  destruct (Hb i kv Hl Hst) as (m & Hm & Hbm). rewrite Hm, Nat2Z.id.
  assert (∀ j kv', l' !! j = Some kv' →
    i = j ∧ kv' = (kv.1, stopped kv.2) ∨ i ≠ j ∧ l !! j = Some kv') as Hpre.
  { intros j kv'. unfold l'. destruct (decide (i = j)) as [<-|Hne].
    - rewrite list_lookup_alter_eq, Hl. intros [= <-]. by left.
    - rewrite list_lookup_alter_ne by done. by right. }
  assert (l' !! i = Some (kv.1, stopped kv.2)) as Hi'.
  { unfold l'. by rewrite list_lookup_alter_eq, Hl. }
  assert (∀ j kv', l !! j = Some kv' → ∃ kv2, l' !! j = Some kv2 ∧ kv2.1 = kv'.1 ∧
    te_started kv2.2 = te_started kv'.2 ∧ te_block_index kv2.2 = te_block_index kv'.2) as Hpost.
  { intros j kv' H. unfold l'. destruct (decide (i = j)) as [<-|?].
    - rewrite list_lookup_alter_eq, H. eexists. split; [done|]. done.
    - rewrite list_lookup_alter_ne by done. by exists kv'. }
  assert (m < length bs)%nat as Hlt by (by eapply lookup_lt_Some).
  split.
  - intros j kv' [[<- ->]|[? H]]%Hpre ??; [done|]. by apply (Hn j).
  - intros j kv' [[<- ->]|[? H]]%Hpre; [cbn; congruence|]. by apply (Hi j).
  - intros j kv' [[<- ->]|[? H]]%Hpre Ht.
    + exists m. split; [done|]. by apply list_lookup_insert_eq.
    + destruct (Hb j kv' H Ht) as (n & Hnx & Hlk). exists n. split; [done|].
      rewrite list_lookup_insert_ne; [done|]. intros ->.
      by destruct (Hj i j kv kv' Hl H Hst Ht); [congruence|].
  - intros j j' kv1 kv2 [[<- ->]|[? H]]%Hpre [[<- ->]|[? H']]%Hpre Ht Ht' He; [done| | |].
    + by apply (Hj i j' kv kv2).
    + by apply (Hj j i kv1 kv).
    + by apply (Hj j j' kv1 kv2).
  - intros n b' Hn'. assert (∃ b, bs !! n = Some (KTool, b)) as [b Hb'].
    { destruct (decide (m = n)) as [<-|?]; [by eexists|].
      rewrite list_lookup_insert_ne in Hn' by done. by eexists. }
    destruct (Hs n b Hb') as (j&kv'&H&?&?). destruct (Hpost j kv' H) as (kv2&?&?&?&?).
    exists j, kv2. split; [done|]. split; congruence.
  - intros j kv' [[<- ->]|[? H]]%Hpre; [by apply (Hk i kv)|by apply (Hk j)].
  - intros j j' kv1 kv2 [[<- ->]|[? H]]%Hpre [[<- ->]|[? H']]%Hpre Hjj; try done; cbn.
    + by apply (Hd i j').
    + by apply (Hd j i).
    + by apply (Hd j j').
  - intros x Hxi. destruct (Hx x Hxi) as (j&kv'&H&?&?).
    destruct (Hpost j kv' H) as (kv2&?&?&?&?). exists j, kv2.
    split; [done|]. split; congruence.
Qed.

(** A thinking or text block ends. *)
Lemma tools_ok_block e bs ids l k :
  tools_ok e bs ids l → k ≠ KTool → tools_ok e (bs ++ [(k, false)]) ids l.
Proof.
  intros [Hn Hi Hb Hj Hs Hk Hd Hx] Hne. split; try done.
  - intros i kv H Ht. destruct (Hb i kv H Ht) as (n & ? & ?). exists n. split; [done|].
    by apply lookup_app_l_Some.
  - intros n b [H|[? [? [= ?]]%list_lookup_singleton_Some]]%lookup_app_Some; [by apply (Hs n b)|done].
Qed.

(** ** The invariant of the generator *)

(** The thinking or text block that is open. *)
Definition current (s : stream) : list block :=
  if sm_thinking s then [(KThinking, true)] else if sm_text s then [(KText, true)] else [].

(** The blocks before the current one: an open one is a tool call. *)
Definition quiet (bs : list block) : Prop := Forall (λ b, b.2 = true → b.1 = KTool) bs.

Record invariant (pending : option nat) (bs : list block) (ids : list pyval) (s : stream) : Prop := {
  i_accepted : accepted (sm_events s) = Some (Body (bs ++ current s) ids);
  i_index : sm_index s = Z.of_nat (length bs);
  i_quiet : quiet bs;
  i_single : sm_thinking s && sm_text s = false;
  i_before : current s ≠ [] → sm_has_tools s = false;
  i_has : sm_has_tools s = existsb (λ b, is_tool b.1) bs;
  i_tools : tools_ok pending bs ids (sm_tracked s);
}.

(** Between two deltas; with no thinking or text block open; the same while the
    entry of a delta is being handled; and what an exception leaves. *)
Definition good (s : stream) : Prop := ∃ bs ids, invariant None bs ids s.
Definition good_tools (pending : option nat) (s : stream) : Prop :=
  sm_thinking s = false ∧ sm_text s = false ∧ ∃ bs ids, invariant pending bs ids s.
Definition alive (s : stream) : Prop := ∃ bs ids, accepted (sm_events s) = Some (Body bs ids).

Lemma invariant_alive e bs ids s : invariant e bs ids s → alive s.
Proof. intros []. eexists _, _. eassumption. Qed.
Lemma good_alive s : good s → alive s.
Proof. intros (bs & ids & H). by eapply invariant_alive. Qed.
Lemma good_tools_alive e s : good_tools e s → alive s.
Proof. intros (_ & _ & bs & ids & H). by eapply invariant_alive. Qed.
Lemma good_tools_good s : good_tools None s → good s.
Proof. intros (_ & _ & H). exact H. Qed.

(** A computation that keeps the protocol: from [P] to [Q] when it returns, and
    to a stream that can still report an error when it raises. *)
Definition triple {A} (P : stream → Prop) (m : st stream A) (Q : A → stream → Prop) : Prop :=
  ∀ s, P s → match m s with (Ok a, s') => Q a s' | (Err _, s') => alive s' end.

Lemma triple_bind {A B} P (m : st stream A) (f : A → st stream B) Q R :
  triple P m Q → (∀ a, triple (Q a) (f a) R) → triple P (m ≫= f) R.
Proof.
  intros Hm Hf s Hs. rewrite st_bind_eq. specialize (Hm s Hs).
  destruct (m s) as [[a|x] s']; [by apply Hf|done].
Qed.

Lemma triple_ret {A} (P : stream → Prop) (a : A) : triple P (mret a) (λ _, P).
Proof. by intros s Hs. Qed.

Lemma triple_lift {A} (P : stream → Prop) (m : res A) :
  (∀ s, P s → alive s) → triple P (st_lift m) (λ a s, m = Ok a ∧ P s).
Proof. intros Ha s Hs. unfold st_lift. destruct m; [done|by apply Ha]. Qed.

Lemma triple_lift' {A} (P : stream → Prop) (m : res A) :
  (∀ s, P s → alive s) → triple P (st_lift m) (λ _, P).
Proof. intros Ha s Hs. unfold st_lift. destruct m; [done|by apply Ha]. Qed.

Lemma triple_pre {A} (P P' : stream → Prop) (m : st stream A) Q :
  (∀ s, P s → P' s) → triple P' m Q → triple P m Q.
Proof. intros HP Hm s Hs. by apply Hm, HP. Qed.

Lemma triple_post {A} P (m : st stream A) (Q Q' : A → stream → Prop) :
  triple P m Q → (∀ a s, Q a s → Q' a s) → triple P m Q'.
Proof. intros Hm HQ s Hs. specialize (Hm s Hs). destruct (m s) as [[a|x] s']; auto. Qed.

Lemma triple_for_each {A} P (f : A → st stream unit) l :
  (∀ a, triple P (f a) (λ _, P)) → triple P (for_each f l) (λ _, P).
Proof.
  intros Hf. induction l as [|a l IH]; cbn; [apply triple_ret|].
  eapply triple_bind; [apply Hf|done].
Qed.

(** ** One event at a time *)
Lemma accepted_emit evs p name data q :
  accepted evs = Some p → accept p (name, data) = Some q → accepted (evs ++ [(name, data)]) = Some q.
Proof. intros He Ha. by rewrite accepted_snoc, He. Qed.

Lemma quiet_startable bs ids k id :
  quiet bs → (if is_tool k then existsb (py_eqb id) ids = false
              else existsb (λ b, is_tool b.1) bs = false) → may_start k id bs ids = true.
Proof.
  intros Hq Hk. unfold may_start. apply andb_true_intro. split.
  - apply Prelude.forallb_True. intros [k' b] Hb. unfold quiet in Hq.
    rewrite Forall_forall in Hq. destruct b; [|done]. cbn. unfold is_tool. apply bool_decide_eq_true. by apply (Hq _ Hb).
  - destruct (is_tool k); by rewrite Hk.
Qed.

Lemma accept_block_start bs ids k b :
  block_kind b = Some k → may_start k (dget b "id") bs ids = true →
  accept (Body bs ids) ("content_block_start", block_start (Z.of_nat (length bs)) b) =
    Some (Body (bs ++ [(k, true)]) (if is_tool k then ids ++ [dget b "id"] else ids)).
Proof. intros Hb Hm. cbn. unfold accept_start. cbn. by rewrite Hb, Z.eqb_refl; cbn; rewrite Hm. Qed.

Lemma open_block_lookup bs n k data :
  dget data "index" = VInt (Z.of_nat n) → bs !! n = Some (k, true) →
  open_block data bs = Some (n, k).
Proof.
  intros Hd Hn. unfold open_block. rewrite Hd. destruct (Z.ltb_spec (Z.of_nat n) 0); [lia|].
  by rewrite Nat2Z.id, Hn.
Qed.

Lemma accept_block_delta bs ids k n d :
  delta_kind d = Some k → bs !! n = Some (k, true) →
  accept (Body bs ids) ("content_block_delta", block_delta (Z.of_nat n) d) = Some (Body bs ids).
Proof.
  intros Hd Hn. cbn. unfold accept_delta. cbn. rewrite Hd. cbn.
  rewrite (open_block_lookup bs n k) by done. cbn. by rewrite bool_decide_eq_true_2.
Qed.

Lemma accept_block_stop bs ids k n :
  bs !! n = Some (k, true) →
  accept (Body bs ids) ("content_block_stop", block_stop (Z.of_nat n)) =
    Some (Body (<[n := (k, false)]> bs) ids).
Proof. intros Hn. cbn. unfold accept_stop. by rewrite (open_block_lookup bs n k). Qed.

Notation ev_start i b := ("content_block_start"%string, block_start i b).
Notation ev_delta i d := ("content_block_delta"%string, block_delta i d).
Notation ev_stop i := ("content_block_stop"%string, block_stop i).

(** The last block of a message starts, grows and stops. *)
Section LastBlock.
Context (evs : list sse_event) (bs : list block) (ids : list pyval) (i : Z).
Context (Hi : i = Z.of_nat (length bs)).

Lemma last_start k b :
  accepted evs = Some (Body bs ids) → quiet bs → block_kind b = Some k → k ≠ KTool →
  existsb (λ b, is_tool b.1) bs = false →
  accepted (evs ++ [ev_start i b]) = Some (Body (bs ++ [(k, true)]) ids).
Proof using Hi.
  intros Ha Hq Hb Hk Ht. assert (is_tool k = false) as Hkt by (by apply bool_decide_eq_false).
  eapply accepted_emit; [exact Ha|]. subst i.
  rewrite (accept_block_start bs ids k b); [by rewrite Hkt|done|].
  apply quiet_startable; [done|]. by rewrite Hkt.
Qed.

Lemma last_start_tool b :
  accepted evs = Some (Body bs ids) → quiet bs → block_kind b = Some KTool →
  existsb (py_eqb (dget b "id")) ids = false →
  accepted (evs ++ [ev_start i b]) = Some (Body (bs ++ [(KTool, true)]) (ids ++ [dget b "id"])).
Proof using Hi.
  intros Ha Hq Hb Ht. eapply accepted_emit; [exact Ha|]. subst i.
  rewrite (accept_block_start bs ids KTool b); [done|done|]. by apply quiet_startable.
Qed.

Lemma last_delta k d :
  accepted evs = Some (Body (bs ++ [(k, true)]) ids) → delta_kind d = Some k →
  accepted (evs ++ [ev_delta i d]) = Some (Body (bs ++ [(k, true)]) ids).
Proof using Hi.
  intros Ha Hd. eapply accepted_emit; [exact Ha|]. subst i.
  apply (accept_block_delta _ _ k); [done|]. by rewrite list_lookup_middle.
Qed.

Lemma last_stop k :
  accepted evs = Some (Body (bs ++ [(k, true)]) ids) →
  accepted (evs ++ [ev_stop i]) = Some (Body (bs ++ [(k, false)]) ids).
Proof using Hi.
  intros Ha. eapply accepted_emit; [exact Ha|]. subst i.
  erewrite accept_block_stop by (by rewrite list_lookup_middle).
  by rewrite insert_app_r_alt, Nat.sub_diag by done.
Qed.
End LastBlock.

Lemma quiet_closed bs k : quiet bs → quiet (bs ++ [(k, false)]).
Proof. intros Hq. apply Forall_app. split; [done|]. by constructor. Qed.

Lemma existsb_tool_snoc bs k b :
  existsb (λ b : block, is_tool b.1) (bs ++ [(k, b)]) =
    existsb (λ b : block, is_tool b.1) bs || is_tool k.
Proof. rewrite existsb_app. cbn. by rewrite orb_false_r. Qed.

(** Thinking and text. *)
Lemma emit_reasoning_ok rc : triple good (emit_reasoning rc) (λ _, good).
Proof.
  intros s (bs & ids & [Ha Hi Hq Hs Hb Hh Ht]). unfold emit_reasoning. st_run.
  destruct (truthy rc && negb (sm_text s) && negb (sm_has_tools s)) eqn:E; cbn.
  2: { exists bs, ids. by split. }
  apply andb_prop in E as [[_ Htx%negb_true_iff]%andb_prop Hht%negb_true_iff].
  unfold current in *. rewrite Htx in *. destruct (sm_thinking s) eqn:Hth; cbn.
  - exists bs, ids. split; cbn; unfold current; cbn; rewrite ?Hth, ?Htx; try done.
    by apply last_delta.
  - rewrite app_nil_r in Ha. exists bs, ids.
    split; cbn; unfold current; cbn; rewrite ?Hth, ?Htx; try done.
    apply last_delta; [done| |done]. apply last_start; try done. by rewrite <-Hh.
Qed.

Lemma close_thinking_ok :
  triple good close_thinking (λ _ s, good s ∧ sm_thinking s = false).
Proof.
  intros s (bs & ids & [Ha Hi Hq Hs Hb Hh Ht]). unfold close_thinking. st_run.
  destruct (sm_thinking s) eqn:Hth; cbn.
  2: { split; [|done]. exists bs, ids. by split; rewrite ?Hth. }
  unfold current in *. cbn in Hs. rewrite Hth in *. split; [|done].
  exists (bs ++ [(KThinking, false)]), ids. unfold current.
  split; cbn; unfold current; cbn; rewrite ?Hs; try done.
  - rewrite app_nil_r. by apply last_stop.
  - rewrite length_app. cbn. lia.
  - by apply quiet_closed.
  - by rewrite existsb_tool_snoc, orb_false_r.
  - by apply tools_ok_block.
Qed.

Lemma close_text_ok :
  triple (λ s, good s ∧ sm_thinking s = false) close_text (λ _, good_tools None).
Proof.
  intros s [(bs & ids & [Ha Hi Hq Hs Hb Hh Ht]) Hth]. unfold close_text. st_run.
  destruct (sm_text s) eqn:Htx; cbn.
  2: { split_and!; try done. exists bs, ids. by split; rewrite ?Hth, ?Htx. }
  unfold current in *. rewrite Hth, Htx in *. split_and!; [done..|].
  exists (bs ++ [(KText, false)]), ids.
  split; cbn; unfold current; cbn; rewrite ?Hth; try done.
  - rewrite app_nil_r. by apply last_stop.
  - rewrite length_app. cbn. lia.
  - by apply quiet_closed.
  - by rewrite existsb_tool_snoc, orb_false_r.
  - by apply tools_ok_block.
Qed.

Lemma close_thinking_has s : sm_has_tools (close_thinking s).2 = sm_has_tools s.
Proof. unfold close_thinking. st_run. by destruct (sm_thinking s). Qed.

Lemma emit_text_ok content :
  triple (λ s, (good s ∧ sm_thinking s = false) ∧ sm_has_tools s = false)
    (s ← st_get;
     _ ← (if sm_text s then mret tt
          else _ ← emit "content_block_start" (block_start (sm_index s) text_block);
               st_modify (with_blocks (sm_index s) (sm_thinking s) true));
     emit "content_block_delta" (block_delta (sm_index s) (text_delta content)))
    (λ _, good).
Proof.
  intros s [[(bs & ids & [Ha Hi Hq Hs Hb Hh Ht]) Hth] Hht]. st_run.
  unfold current in *. rewrite Hth in *. destruct (sm_text s) eqn:Htx; cbn.
  - exists bs, ids. split; cbn; unfold current; cbn; rewrite ?Hth, ?Htx; try done.
    by apply last_delta.
  - rewrite app_nil_r in Ha. exists bs, ids.
    split; cbn; unfold current; cbn; rewrite ?Hth, ?Htx; try done.
    apply last_delta; [done| |done]. apply last_start; try done. by rewrite <-Hh.
Qed.

Lemma emit_content_ok content : triple good (emit_content content) (λ _, good).
Proof.
  intros s Hs. unfold emit_content. rewrite st_bind_eq. cbn -[mbind].
  destruct (truthy content && negb (sm_has_tools s)) eqn:E; [|done].
  apply andb_prop in E as [_ Hht%negb_true_iff].
  pose proof (close_thinking_ok s Hs) as Hc. rewrite st_bind_eq.
  pose proof (close_thinking_has s) as Hh. destruct (close_thinking s) as [[[]|x] s']; [|done].
  apply (emit_text_ok content s'). split; [done|]. cbn in Hh. congruence.
Qed.

(** ** Tool calls *)
Lemma tools_ok_pending bs ids l i : tools_ok None bs ids l → tools_ok (Some i) bs ids l.
Proof. intros [Hn ???????]. split; try done. intros j kv H _. by apply (Hn j). Qed.

Lemma key_position_fresh (k : pyval) (l : tracked) :
  existsb (py_eqb k) l.*1 = false → key_position k l = None.
Proof.
  unfold key_position. induction l as [|kv l IH]; cbn; [done|].
  intros [-> Hl]%orb_false_iff. by rewrite IH.
Qed.

(** Only the entries, the flag and the routes change. *)
Lemma good_tools_update e e' s l :
  good_tools e s →
  (∀ bs ids, tools_ok e bs ids (sm_tracked s) → tools_ok e' bs ids l) →
  good_tools e' (with_tools l (sm_has_tools s) s).
Proof.
  intros (Hth & Htx & bs & ids & [Ha Hi Hq Hs Hb Hh Ht]) Hl. split_and!; [done..|].
  exists bs, ids. split; cbn; try done. by apply Hl.
Qed.

Lemma good_tools_routes e s l : good_tools e s → good_tools e (with_routes l s).
Proof.
  intros (Hth & Htx & bs & ids & [Ha Hi Hq Hs Hb Hh Ht]). split_and!; [done..|].
  exists bs, ids. by split.
Qed.

Lemma route_ok e index id : triple (good_tools e) (route index id) (λ _, good_tools e).
Proof.
  eapply triple_bind; [apply triple_lift', good_tools_alive|]. intros k s Hs. cbn.
  by apply good_tools_routes.
Qed.

Lemma track_ok id name :
  hashable id = true →
  triple (λ s, good_tools None s ∧ key_position id (sm_tracked s) = None)
    (track id name) (λ i, good_tools (Some i)).
Proof.
  intros Hid s [Hs Hp]. unfold track, kset. st_run. rewrite Hp. cbn.
  eapply good_tools_update; [exact Hs|]. intros bs ids Ht. by apply tools_ok_track.
Qed.

Lemma hashed_Ok v w : hashed v = Ok w → w = v ∧ hashable v = true.
Proof. unfold hashed. destruct (hashable v); naive_solver. Qed.

Lemma name_tool_ok i name :
  triple (good_tools (Some i)) (name_tool i name) (λ _, good_tools (Some i)).
Proof.
  intros s Hs. unfold name_tool, the_tool. st_run.
  destruct (sm_tracked s !! i) as [kv|] eqn:Hl; cbn; [|by eapply good_tools_alive].
  destruct (truthy name && negb (truthy (te_name kv.2))); cbn; [|done].
  eapply good_tools_update; [exact Hs|]. intros bs ids Ht. apply tools_ok_update; [done..|by left].
Qed.

Lemma start_tool_ok i : triple (good_tools (Some i)) (start_tool i) (λ _, good_tools None).
Proof.
  intros s (Hth & Htx & bs & ids & [Ha Hi Hq Hs Hb Hh Ht]). unfold start_tool, the_tool. st_run.
  destruct (sm_tracked s !! i) as [kv|] eqn:Hl; cbn; [|by exists (bs ++ current s), ids].
  destruct (negb (te_started kv.2) && truthy (te_name kv.2)) eqn:E; cbn.
  - apply andb_prop in E as [Hst%negb_true_iff _].
    destruct (tools_ok_start bs ids _ i kv Ht Hl Hst) as [Ht' Hid].
    destruct (t_key _ _ _ _ Ht i kv Hl) as [Hkey _].
    unfold current in Ha. rewrite Hth, Htx, app_nil_r in Ha. split_and!; [done..|].
    exists (bs ++ [(KTool, true)]), (ids ++ [kv.1]).
    split; cbn; unfold current; cbn; rewrite ?Hth, ?Htx, ?app_nil_r; try done.
    + rewrite <-Hkey. apply (last_start_tool _ _ _ _ Hi (tool_block_of kv.2)); try done.
      cbn. by rewrite Hkey.
    + rewrite length_app. cbn. lia.
    + apply Forall_app. split; [done|]. by constructor.
    + by rewrite existsb_tool_snoc, orb_true_r.
    + by rewrite Hi.
  - split_and!; [done..|]. exists bs, ids. split; try done. destruct Ht as [Hn ???????].
    split; try done. intros j kv' Hj _ Hnm. destruct (decide (i = j)) as [<-|Hne].
    + rewrite Hl in Hj. injection Hj as <-. destruct (te_started kv.2); [done|].
      cbn in E. congruence.
    + apply (Hn j); [done|congruence|done].
Qed.

Lemma stop_tool_ok i : triple (good_tools None) (stop_tool i) (λ _, good_tools None).
Proof.
  intros s (Hth & Htx & bs & ids & [Ha Hi Hq Hs Hb Hh Ht]). unfold stop_tool, the_tool. st_run.
  destruct (sm_tracked s !! i) as [kv|] eqn:Hl; cbn; [|by exists (bs ++ current s), ids].
  match goal with |- context [?b && is_ok ?m] => destruct (b && is_ok m) eqn:E end; cbn.
  2: { split_and!; [done..|]. by exists bs, ids. }
  apply andb_prop in E as [[[Hst Hsp%negb_true_iff]%andb_prop _]%andb_prop _].
  destruct (t_block _ _ _ _ Ht i kv Hl Hst) as (n & Hn & Hbn). rewrite Hsp in Hbn.
  pose proof (tools_ok_stop _ _ _ _ _ _ Ht Hl Hst) as Ht'. rewrite Hn, Nat2Z.id in Ht'.
  unfold current in Ha. rewrite Hth, Htx, app_nil_r in Ha. split_and!; [done..|].
  exists (<[n := (KTool, false)]> bs), ids.
  split; cbn; unfold current; cbn; rewrite ?Hth, ?Htx, ?app_nil_r; try done.
  - eapply accepted_emit; [exact Ha|]. rewrite Hn. by apply accept_block_stop.
  - by rewrite length_insert.
  - apply Forall_insert; done.
  - rewrite Hh. clear -Hbn. apply eq_true_iff_eq. rewrite !existsb_True. split.
    + intros (b & Hb & ?). apply list_elem_of_lookup in Hb as [m Hm].
      destruct (decide (n = m)) as [<-|?].
      * exists (KTool, false). split; [|done]. apply list_elem_of_lookup. exists n.
        apply list_lookup_insert_eq. by eapply lookup_lt_Some.
      * exists b. split; [|done]. apply list_elem_of_lookup. exists m.
        by rewrite list_lookup_insert_ne.
    + intros _. exists (KTool, true). split; [|done]. by eapply list_elem_of_lookup_2.
Qed.

Lemma the_tool_ok i :
  triple (good_tools None) (the_tool i)
    (λ t s, good_tools None s ∧ ∃ kv, sm_tracked s !! i = Some kv ∧ t = kv.2).
Proof.
  intros s Hs. unfold the_tool. st_run.
  destruct (sm_tracked s !! i) as [kv|] eqn:E; cbn; [by eauto|by eapply good_tools_alive].
Qed.

Lemma tool_delta_ok i t c :
  triple (λ s, good_tools None s ∧ ∃ kv, sm_tracked s !! i = Some kv ∧ t = kv.2)
    (if te_started t && negb (te_stopped t)
     then emit "content_block_delta" (block_delta (te_block_index t) (json_delta c))
     else mret tt)
    (λ _, good_tools None).
Proof.
  intros s [Hs (kv & Hl & ->)].
  destruct (te_started kv.2 && negb (te_stopped kv.2)) eqn:E; cbn; [|done].
  apply andb_prop in E as [Hst Hsp%negb_true_iff].
  destruct Hs as (Hth & Htx & bs & ids & [Ha Hi Hq Hss Hb Hh Ht]).
  destruct (t_block _ _ _ _ Ht i kv Hl Hst) as (n & Hn & Hbn). rewrite Hsp in Hbn.
  unfold current in Ha. rewrite Hth, Htx, app_nil_r in Ha. split_and!; [done..|].
  exists bs, ids. split; cbn; unfold current; cbn; rewrite ?Hth, ?Htx, ?app_nil_r; try done.
  eapply accepted_emit; [exact Ha|]. rewrite Hn. by apply (accept_block_delta _ _ KTool).
Qed.

Lemma buffer_arguments_ok i arguments :
  triple (good_tools None) (buffer_arguments i arguments) (λ _, good_tools None).
Proof.
  unfold buffer_arguments. destruct (truthy arguments); [|apply triple_ret].
  destruct arguments; try (intros s Hs; by eapply good_tools_alive).
  eapply triple_bind with (Q := λ _, good_tools None).
  { intros s1 Hs. eapply good_tools_update; [exact Hs|]. intros bs ids Ht.
    apply (tools_ok_update _ _ _ _ i (λ t, with_arguments (te_arguments t +:+ s) t));
      [done..|by right]. }
  intros _. cbn. eapply triple_bind; [apply the_tool_ok|]. intros t. cbn.
  eapply triple_bind; [apply tool_delta_ok|]. intros ?. apply stop_tool_ok.
Qed.

Section Fresh.
Context (toolu : list pyval → string).
(** [uuid4] does not answer an id that is in use. *)
Context (toolu_fresh : ∀ used, existsb (py_eqb (VStr (toolu used))) used = false).

Lemma resolve_tool_ok index id name :
  triple (good_tools None) (resolve_tool toolu index id name) (λ i, good_tools (Some i)).
Proof using toolu_fresh.
  assert (∀ i s, good_tools None s → good_tools (Some i) s) as Hpend.
  { intros i s (?&?&bs&ids&[???????]). split_and!; [done..|]. exists bs, ids. split; try done.
    by apply tools_ok_pending. }
  unfold resolve_tool. destruct (truthy id).
  - eapply triple_bind; [apply triple_lift, good_tools_alive|]. intros k. cbn.
    eapply triple_bind with (Q := λ s' s, s' = s ∧ hashable k = true ∧ good_tools None s).
    { intros s [[-> ?]%hashed_Ok ?]. done. }
    intros s0. eapply triple_bind with (Q := λ i, good_tools (Some i)).
    + intros s (-> & Hk & Hs). destruct (key_position k (sm_tracked s)) as [i|] eqn:E.
      * by apply Hpend.
      * by apply track_ok.
    + intros i. eapply triple_bind; [apply route_ok|]. by intros ? s Hs.
  - eapply triple_bind; [apply triple_lift', good_tools_alive|]. intros k. cbn.
    eapply triple_bind with (Q := λ s' s, s' = s ∧ good_tools None s); [done|].
    intros s0. destruct (key_position k (sm_index_to_tool s0) ≫= _) as [kv|].
    + destruct (key_position kv.2 (sm_tracked s0)) as [i|]; intros s [-> Hs].
      * by apply Hpend.
      * by eapply good_tools_alive.
    + eapply triple_bind with (Q := λ i, good_tools (Some i)).
      * intros s [-> Hs]. apply track_ok; [done|]. split; [done|]. by apply key_position_fresh.
      * intros i. eapply triple_bind; [apply route_ok|]. by intros ? s Hs.
Qed.

Lemma handle_tool_call_ok v :
  triple (good_tools None) (handle_tool_call toolu v) (λ _, good_tools None).
Proof using toolu_fresh.
  unfold handle_tool_call.
  do 5 (eapply triple_bind; [apply triple_lift', good_tools_alive|]; intros ?; cbn).
  eapply triple_bind; [apply resolve_tool_ok|]. intros i. cbn.
  eapply triple_bind; [apply name_tool_ok|]. intros ?. cbn.
  eapply triple_bind; [apply start_tool_ok|]. intros ?. apply buffer_arguments_ok.
Qed.

Lemma handle_tool_calls_ok v : triple good (handle_tool_calls toolu v) (λ _, good).
Proof using toolu_fresh.
  unfold handle_tool_calls. destruct (truthy v); [|apply triple_ret].
  eapply triple_bind; [apply close_thinking_ok|]. intros ?. cbn.
  eapply triple_bind; [apply close_text_ok|]. intros ?. cbn.
  eapply triple_bind; [apply triple_lift', good_tools_alive|]. intros calls. cbn.
  eapply triple_post; [apply triple_for_each, handle_tool_call_ok|].
  intros ? s. apply good_tools_good.
Qed.

(** The parts that emit nothing. *)
Lemma good_same s s' : good s →
  sm_events s' = sm_events s → sm_index s' = sm_index s → sm_thinking s' = sm_thinking s →
  sm_text s' = sm_text s → sm_tracked s' = sm_tracked s → sm_has_tools s' = sm_has_tools s → good s'.
Proof using.
  intros (bs & ids & [Ha Hi Hq Hs Hb Hh Ht]) E1 E2 E3 E4 E5 E6. exists bs, ids. unfold current in *.
  split; unfold current; rewrite ?E1, ?E2, ?E3, ?E4, ?E5, ?E6; done.
Qed.

Lemma handle_finish_ok v : triple good (handle_finish v) (λ _, good).
Proof using.
  unfold handle_finish. destruct (is_none v); [apply triple_ret|].
  eapply triple_bind; [apply triple_lift', good_alive|]. intros r s Hs. cbn. by eapply good_same.
Qed.

Lemma handle_data_ok data : triple good (handle_data toolu data) (λ _, good).
Proof using toolu_fresh.
  unfold handle_data. eapply triple_bind; [apply triple_lift', good_alive|]. intros error. cbn.
  destruct (truthy error).
  { intros s Hs. st_run. by eapply good_same. }
  eapply triple_bind; [apply triple_lift', good_alive|]. intros usage. cbn.
  eapply triple_bind with (Q := λ _, good).
  { destruct usage; try apply triple_ret. intros s Hs. st_run.
    destruct (read_usage _ _); cbn; [by eapply good_same|by apply good_alive]. }
  intros ?. cbn. eapply triple_bind; [apply triple_lift', good_alive|]. intros choices. cbn.
  destruct (negb (truthy choices)); [apply triple_ret|].
  do 5 (eapply triple_bind; [apply triple_lift', good_alive|]; intros ?; cbn).
  eapply triple_bind; [apply emit_reasoning_ok|]. intros ?. cbn.
  eapply triple_bind; [apply triple_lift', good_alive|]. intros content. cbn.
  eapply triple_bind; [apply emit_content_ok|]. intros ?. cbn.
  eapply triple_bind; [apply triple_lift', good_alive|]. intros tc. cbn.
  eapply triple_bind with (Q := λ _, good).
  { destruct (truthy tc); [apply triple_ret|apply triple_lift', good_alive]. }
  intros mtc. cbn. eapply triple_bind; [apply handle_tool_calls_ok|]. intros ?. cbn.
  eapply triple_bind; [apply handle_finish_ok|]. intros ?. apply triple_ret.
Qed.

Lemma handle_lines_ok lines : triple good (handle_lines toolu lines) (λ _, good).
Proof using toolu_fresh.
  induction lines as [|line r IH]; cbn; [apply triple_ret|].
  eapply triple_bind with (Q := λ _, good).
  - unfold handle_line. case_match; [apply triple_ret|]. case_match; [apply triple_ret|].
    case_match; [apply handle_data_ok|apply triple_ret].
  - intros []; [apply triple_ret|done].
Qed.

Lemma handle_chunks_ok chunks : triple good (handle_chunks toolu chunks) (λ _, good).
Proof using toolu_fresh.
  induction chunks as [|c r IH]; cbn; [apply triple_ret|].
  destruct c; [| |intros s Hs; by apply good_alive].
  all: eapply triple_bind; [apply handle_lines_ok|]; intros ?; cbn.
  all: intros s1 Hs; st_run; destruct (truthy (sm_error s1)); [done|by apply IH].
Qed.
End Fresh.

(** ** The end of a stream *)

(** No entry is left to flush: a tool call with a name has started its block. *)
Lemma flush_tool_nothing i s : good s → ∃ r, flush_tool i s = (r, s).
Proof.
  intros (bs & ids & [Ha Hi Hq Hs Hb Hh Ht]). unfold flush_tool, the_tool. st_run.
  destruct (sm_tracked s !! i) as [kv|] eqn:Hl; cbn; [|by eexists].
  destruct (negb (te_started kv.2) && truthy (te_name kv.2)) eqn:E; [|by eexists].
  apply andb_prop in E as [Hst%negb_true_iff Hn].
  by rewrite (t_named _ _ _ _ Ht i kv Hl) in Hst.
Qed.

Lemma the_tool_total i s : (i < length (sm_tracked s))%nat →
  ∃ kv, sm_tracked s !! i = Some kv ∧ the_tool i s = (Ok kv.2, s).
Proof.
  intros Hi. destruct (lookup_lt_is_Some_2 _ _ Hi) as [kv Hkv]. exists kv. split; [done|].
  unfold the_tool. st_run. by rewrite Hkv.
Qed.

Lemma flush_all s l : good s → Forall (λ i, i < length (sm_tracked s))%nat l →
  for_each flush_tool l s = (Ok tt, s).
Proof.
  intros Hs. induction 1 as [|i l Hi _ IH]; cbn; [done|].
  rewrite st_bind_eq. destruct (flush_tool_nothing i s Hs) as [r Hr]. rewrite Hr.
  destruct (the_tool_total i s Hi) as (kv & _ & Ht).
  unfold flush_tool in Hr. rewrite st_bind_eq, Ht in Hr.
  destruct r as [[]|x]; [done|exfalso]. revert Hr. clear. st_run.
  destruct (negb (te_started kv.2) && truthy (te_name kv.2)); cbn; [|done].
  by destruct (Str.is_empty (te_arguments kv.2)).
Qed.

(** The open blocks belong to the entries from [n] on. *)
Definition left_open (n : nat) (l : tracked) (bs : list block) : Prop :=
  ∀ m k, bs !! m = Some (k, true) → k = KTool ∧
    ∃ i kv, (n ≤ i)%nat ∧ l !! i = Some kv ∧ te_block_index kv.2 = Z.of_nat m ∧
      te_started kv.2 = true ∧ te_stopped kv.2 = false.

(** The entries from [n] on that are not stopped have an open block of their own. *)
Definition to_close (n : nat) (l : tracked) (bs : list block) : Prop :=
  ∀ i kv, (n ≤ i)%nat → l !! i = Some kv → te_started kv.2 = true → te_stopped kv.2 = false →
    ∃ m, te_block_index kv.2 = Z.of_nat m ∧ bs !! m = Some (KTool, true).

Lemma close_tool_ok n l ids bs s :
  (∀ i j kv kv', l !! i = Some kv → l !! j = Some kv' → te_started kv.2 = true →
    te_started kv'.2 = true → te_block_index kv.2 = te_block_index kv'.2 → i = j) →
  sm_tracked s = l → (n < length l)%nat →
  accepted (sm_events s) = Some (Body bs ids) → left_open n l bs → to_close n l bs →
  ∃ s' bs', close_tool n s = (Ok tt, s') ∧ sm_tracked s' = l ∧
    accepted (sm_events s') = Some (Body bs' ids) ∧ left_open (S n) l bs' ∧ to_close (S n) l bs'.
Proof.
  intros Hj Hl Hn Ha Ho Hc. subst l.
  destruct (the_tool_total n s Hn) as (kv & Hkv & Ht).
  unfold close_tool. rewrite st_bind_eq, Ht.
  destruct (te_started kv.2 && negb (te_stopped kv.2)) eqn:E.
  - apply andb_prop in E as [Hst Hsp%negb_true_iff].
    destruct (Hc n kv ltac:(lia) Hkv Hst Hsp) as (m & Hm & Hbm).
    eexists _, (<[m := (KTool, false)]> bs). split; [done|]. split; [done|]. split.
    { cbn. eapply accepted_emit; [exact Ha|]. rewrite Hm. by apply accept_block_stop. }
    assert (m < length bs)%nat as Hlt by (by eapply lookup_lt_Some). split.
    + intros m' k Hm'. destruct (decide (m = m')) as [<-|Hne].
      { by rewrite list_lookup_insert_eq in Hm'. }
      rewrite list_lookup_insert_ne in Hm' by done.
      destruct (Ho m' k Hm') as (-> & i & kv' & ? & Hi & ? & ? & ?). split; [done|].
      exists i, kv'. split_and!; try done. destruct (decide (n = i)) as [->|?]; [|lia].
      rewrite Hkv in Hi. injection Hi as <-. exfalso. apply Hne. lia.
    + intros i kv' Hi Hl Hs' Hp'. destruct (Hc i kv' ltac:(lia) Hl Hs' Hp') as (m' & Hm' & Hb').
      exists m'. split; [done|]. rewrite list_lookup_insert_ne; [done|]. intros ->.
      assert (n = i) by (apply (Hj n i kv kv'); [done..|congruence]). lia.
  - exists s, bs. do 3 (split; [done|]). split.
    + intros m k Hm. destruct (Ho m k Hm) as (-> & i & kv' & ? & Hi & ? & Hs' & Hp').
      split; [done|]. exists i, kv'. split_and!; try done.
      destruct (decide (n = i)) as [->|?]; [|lia].
      rewrite Hkv in Hi. injection Hi as <-. by rewrite Hs', Hp' in E.
    + intros i kv' Hi. apply Hc. lia.
Qed.

Lemma close_all l ids bs s k n :
  (∀ i j kv kv', l !! i = Some kv → l !! j = Some kv' → te_started kv.2 = true →
    te_started kv'.2 = true → te_block_index kv.2 = te_block_index kv'.2 → i = j) →
  sm_tracked s = l → (n + k = length l)%nat →
  accepted (sm_events s) = Some (Body bs ids) → left_open n l bs → to_close n l bs →
  ∃ s' bs', for_each close_tool (seq n k) s = (Ok tt, s') ∧
    accepted (sm_events s') = Some (Body bs' ids) ∧ forallb (λ b, negb b.2) bs' = true.
Proof.
  intros Hj. revert s bs n. induction k as [|k IH]; intros s bs n Hl Hn Ha Ho Hc; cbn.
  - exists s, bs. do 2 (split; [done|]). apply Prelude.forallb_True. intros [kd b] Hb.
    destruct b; [exfalso|done]. apply list_elem_of_lookup in Hb as [m Hm].
    destruct (Ho m kd Hm) as (_ & i & kv & ? & Hi%lookup_lt_Some & _). lia.
  - destruct (close_tool_ok n l ids bs s) as (s1 & bs1 & H1 & Hl1 & Ha1 & Ho1 & Hc1);
      [done..|lia|done|done|done|].
    rewrite st_bind_eq, H1. by apply (IH s1 bs1 (S n)); [|lia|..].
Qed.

Lemma tools_left_open bs ids l : quiet bs → tools_ok None bs ids l → left_open 0 l bs.
Proof.
  intros Hq Ht m k Hm. assert (k = KTool) as ->.
  { pose proof (Forall_lookup_1 _ _ _ _ Hq Hm) as Hk. by apply Hk. }
  split; [done|]. destruct (t_surj _ _ _ _ Ht m true Hm) as (i & kv & Hi & Hs & Hx).
  exists i, kv. split_and!; try done; [lia|].
  destruct (t_block _ _ _ _ Ht i kv Hi Hs) as (m' & Hm' & Hb).
  assert (m = m') as <- by lia. rewrite Hm in Hb. injection Hb as Hb. by destruct (te_stopped kv.2).
Qed.

Lemma tools_to_close bs ids l : tools_ok None bs ids l → to_close 0 l bs.
Proof.
  intros Ht i kv _ Hi Hs Hp. destruct (t_block _ _ _ _ Ht i kv Hi Hs) as (m & Hm & Hb).
  exists m. rewrite Hp in Hb. done.
Qed.

Lemma forall_seq n : Forall (λ i, i < n)%nat (seq 0 n).
Proof. apply Forall_forall. intros i Hi%elem_of_seq. lia. Qed.

Lemma finish_stream_ok s : good s →
  ∃ s', finish_stream s = (Ok tt, s') ∧ accepted (sm_events s') = Some Complete.
Proof.
  intros Hs. unfold finish_stream. rewrite st_bind_eq.
  assert (∃ s1, close_thinking s = (Ok tt, s1) ∧ good s1 ∧ sm_thinking s1 = false)
    as (s1 & -> & Hs1 & Hth).
  { pose proof (close_thinking_ok s Hs) as H. revert H. unfold close_thinking. st_run.
    destruct (sm_thinking s) eqn:E; cbn; intros H; by eexists. }
  rewrite st_bind_eq. cbn -[mbind]. rewrite st_bind_eq, flush_all by (done || apply forall_seq).
  rewrite st_bind_eq. cbn -[mbind]. rewrite st_bind_eq.
  destruct Hs1 as (bs & ids & [Ha Hi Hq Hss Hb Hh Ht]). unfold current in Ha. rewrite Hth in Ha.
  assert (∃ s2 bs2, (if sm_text s1 then emit "content_block_stop" (block_stop (sm_index s1))
                     else mret tt) s1 = (Ok tt, s2) ∧ sm_tracked s2 = sm_tracked s1 ∧
      accepted (sm_events s2) = Some (Body bs2 ids) ∧ quiet bs2 ∧
      tools_ok None bs2 ids (sm_tracked s1)) as (s2 & bs2 & -> & Hl2 & Ha2 & Hq2 & Ht2).
  { destruct (sm_text s1).
    - eexists _, (bs ++ [(KText, false)]). split_and!; [done|done| |by apply quiet_closed|].
      + cbn. by apply last_stop.
      + by apply tools_ok_block.
    - rewrite app_nil_r in Ha. by exists s1, bs. }
  rewrite st_bind_eq.
  destruct (close_all (sm_tracked s1) ids bs2 s2 (length (sm_tracked s1)) 0)
    as (s3 & bs3 & -> & Ha3 & Hc3); [|done|done|done| |by eapply tools_to_close|].
  { intros i j kv kv'. apply (t_inj _ _ _ _ Ht2). }
  { by eapply tools_left_open. }
  eexists. split; [reflexivity|]. cbn.
  rewrite accepted_snoc, accepted_snoc, Ha3. cbn. by rewrite Hc3.
Qed.

(** Whether the provider reports an error or the loop raises. *)
Definition stream_fails (toolu : list pyval → string) (chunks : list chunk)
    (message_id model : string) (input_tokens : pyval) : bool :=
  match (_ ← emit "message_start" (message_start message_id model input_tokens);
         handle_chunks toolu chunks) (initial_stream input_tokens) with
  | (Ok _, s) => truthy (sm_error s)
  | (Err _, _) => true
  end.

(** C8: Whatever the upstream provider sends, chunks that are no JSON, objects
    of any shape, exceptions in the middle of a chunk, the converted stream
    follows the Anthropic protocol to its end: a [message_start]; content
    blocks numbered from 0 in the order they start, with deltas of their own
    kind between start and stop, thinking and text before tool calls and never
    beside another open block, tool calls with ids of their own; and then every
    block is stopped and a [message_delta] and a [message_stop] follow, unless
    the provider reports an error or the conversion raises, when an [error]
    event ends it. *)
Theorem stream_follows_protocol toolu chunks message_id model input_tokens :
  (∀ used, existsb (py_eqb (VStr (toolu used))) used = false) →
  accepted (openai_stream_to_anthropic_stream toolu chunks message_id model input_tokens) =
    Some (if stream_fails toolu chunks message_id model input_tokens then Failed else Complete).
Proof.
  intros Hfresh. unfold openai_stream_to_anthropic_stream, convert_stream, stream_fails.
  rewrite !st_bind_eq. cbn -[mbind handle_chunks]. rewrite st_bind_eq. unfold st_catch.
  set (s0 := with_events _ _).
  assert (good s0) as Hs0.
  { exists [], []. split; try done; [by constructor|apply tools_ok_nil]. }
  pose proof (handle_chunks_ok toolu Hfresh chunks s0 Hs0) as H.
  destruct (handle_chunks toolu chunks s0) as [[[]|x] s1]; rewrite ?st_bind_eq.
  - cbn -[finish_stream]. destruct (truthy (sm_error s1)); cbn -[finish_stream].
    + destruct (good_alive s1 H) as (bs & ids & Ha). by rewrite accepted_snoc, Ha.
    + destruct (finish_stream_ok s1 H) as (s2 & Hf & Hc). by rewrite Hf.
  - destruct H as (bs & ids & Ha). cbn -[mbind]. rewrite st_bind_eq. cbn. by rewrite accepted_snoc, Ha.
Qed.

(** ** An example: an id longer than all those in use *)
Definition longest (used : list pyval) : string :=
  "toolu_" +:+ foldr (λ v acc, match v with VStr s => s +:+ acc | _ => acc end) "" used.

Lemma longest_fresh used : existsb (py_eqb (VStr (longest used))) used = false.
Proof.
  apply existsb_False. intros v Hv.
  destruct v as [| | | |s| |]; try done. cbn. apply String.eqb_neq. intros He.
  assert (String.length s < String.length (longest used))%nat as Hlt; [|by rewrite He in Hlt; lia].
  clear He. unfold longest. rewrite Str.app_length. cbn.
  induction used as [|w used IH]; [by apply elem_of_nil in Hv|].
  apply elem_of_cons in Hv as [<-|Hv]; cbn.
  - rewrite Str.app_length. lia.
  - specialize (IH Hv). destruct w; rewrite ?Str.app_length; lia.
Qed.

Definition quotes (s : string) : string := Str.smap (λ c, if Ascii.eqb c "'" then quote else c) s.
Definition newline_str : string := String (ascii_of_nat 10) EmptyString.

(** Text, then a call in two pieces, one of them without an id. *)
Definition example_chunks : list chunk :=
  [Text (quotes ("data: {'choices':[{'delta':{'content':'hi'}}]}" +:+ newline_str +:+ "data: nonsense"));
   Bytes (quotes "data: {'choices':[{'delta':{'tool_calls':[{'index':0,'id':'c','function':{'name':'f','arguments':'{'}}]}}]}");
   Text (quotes "data: {'choices':[{'delta':{'tool_calls':[{'index':0,'function':{'arguments':'}'}}]},'finish_reason':'tool_calls'}]}");
   Text "data: [DONE]"].

Example example_stream :
  map fst (openai_stream_to_anthropic_stream longest example_chunks "msg" "m" VNone) =
  ["message_start"; "content_block_start"; "content_block_delta"; "content_block_stop";
   "content_block_start"; "content_block_delta"; "content_block_delta"; "content_block_stop";
   "message_delta"; "message_stop"].
Proof. vm_compute. reflexivity. Qed.

Lemma stream_follows_protocol_witness :
  accepted (openai_stream_to_anthropic_stream longest example_chunks "msg" "m" VNone) =
    Some (if stream_fails longest example_chunks "msg" "m" VNone then Failed else Complete).
Proof. apply (stream_follows_protocol longest), longest_fresh. Defined.
