(* ===== verification/Anthropic.v ===== *)
(** * The Anthropic endpoint (utils/anthropic.py): a request of the Anthropic
    Messages API as an OpenAI chat completion, and a chat completion as an
    Anthropic message.  The streaming half is [AnthropicStream].

    The code appends to [messages], [openai_content] and [tool_calls]; the
    loops here thread them through. *)

From S2P Require Import Prelude PyVal Json Messages AnthropicStream.
From Stdlib Require Import Ascii SpecFloat.

Local Open Scope Z_scope.

(** [ANTHROPIC_CONVERTED_REQUEST_PARAMS] *)
Definition converted_request_params : list string :=
  ["model"; "messages"; "system"; "max_tokens"; "temperature"; "top_p"; "top_k";
   "stop_sequences"; "stream"; "metadata"; "service_tier"; "tools"; "tool_choice";
   "reasoning_effort"].

Definition is_anthropic_url (url : string) : bool := Str.contains "api.anthropic.com" url.

(** [_copy_cache_control] *)
Definition copy_cache_control (source : pyval) (target : pydict) : pydict :=
  match source with
  | VDict d => match dict_get "cache_control" d with
               | Some v => dict_set "cache_control" v target
               | None => target
               end
  | _ => target
  end.

(** [_has_cache_control] *)
Definition has_cache_control (blocks : list pydict) : bool := existsb (dict_has "cache_control") blocks.

(** [_finalize_openai_content] *)
Definition finalize_openai_content (blocks : list pydict) : pyval :=
  match blocks with
  | [] => VStr ""
  | [b] => if veq_str (dget b "type") "text" && negb (has_cache_control blocks)
           then dgetd b "text" (VStr "") else VList [VDict b]
  | _ => VList (VDict <$> blocks)
  end.

Section Conversion.
(** [repr] of floats and containers, and [JSONCodec.dumps], which may raise. *)
Context (repr_other : pyval → string) (dumps : pyval → res string).

Definition is_anthropic_messages_passthrough (url : string) (api_config : pyval) : res bool :=
  provider ← vgetd (por api_config (VDict [])) "provider" (VStr "");
  Ok (is_anthropic_url url
      || String.eqb (Str.lower (py_str repr_other provider)) "litellm").

(** ** Content blocks *)
Definition openai_text (block : pydict) : pydict :=
  copy_cache_control (VDict block) [("type", VStr "text"); ("text", dgetd block "text" (VStr ""))].

Definition image_url_part (block : pydict) (url : pyval) : pydict :=
  copy_cache_control (VDict block)
    [("type", VStr "image_url"); ("image_url", VDict [("url", url)])].

(** An image block; one whose source is neither inline nor a link is dropped. *)
Definition openai_image (block : pydict) : res (list pydict) :=
  match dgetd block "source" (VDict []) with
  | VDict source =>
      if veq_str (dget source "type") "base64" then
        let media_type := py_str repr_other (dgetd source "media_type" (VStr "image/png")) in
        let data := py_str repr_other (dgetd source "data" (VStr "")) in
        Ok [image_url_part block (VStr ("data:" +:+ media_type +:+ ";base64," +:+ data))]
      else if veq_str (dget source "type") "url" then
        Ok [image_url_part block (dgetd source "url" (VStr ""))]
      else Ok []
  | _ => Err AttributeError
  end.

(** ** System prompt *)
Definition system_block (block : pyval) : list pydict :=
  match block with
  | VDict d => if veq_str (dget d "type") "text" then [openai_text d] else []
  | VStr s => [[("type", VStr "text"); ("text", VStr s)]]
  | _ => []
  end.

Definition role_message (role content : pyval) : pydict := [("role", role); ("content", content)].

Definition system_messages (system : pyval) : list pydict :=
  if truthy system then
    match system with
    | VStr s => [role_message (VStr "system") (VStr s)]
    | VList blocks =>
        [role_message (VStr "system") (finalize_openai_content (blocks ≫= system_block))]
    | _ => []
    end
  else [].

(** ** Tool results *)

(** [sep.join(l)] of values that must be texts *)
Definition join_texts (sep : string) (l : list pyval) : res string :=
  texts ← mapR (λ v, match v with VStr s => Ok s | _ => Err TypeError end) l;
  Ok (Str.join sep texts).

Definition document_part (block : pydict) : res pydict :=
  match dgetd block "source" (VDict []) with
  | VDict source =>
      let title := py_str repr_other (dgetd block "title" (VStr "Document")) in
      let context := dgetd block "context" (VStr "") in
      let text := "[Document: " +:+ title +:+ "]" in
      let text := if truthy context then text +:+ newline +:+ py_str repr_other context else text in
      let data := dget source "data" in
      let text := if veq_str (dget source "type") "text" && truthy data
                  then text +:+ newline +:+ py_str repr_other data else text in
      Ok [("type", VStr "text"); ("text", VStr text)]
  | _ => Err AttributeError
  end.

Definition search_text (block : pyval) : option pyval :=
  match block with
  | VDict d => if veq_str (dget d "type") "text" then Some (dgetd d "text" (VStr "")) else None
  | _ => None
  end.

Definition search_result_part (block : pydict) : res pydict :=
  let title := py_str repr_other (dgetd block "title" (VStr "")) in
  let url := dgetd block "source" (VStr "") in
  blocks ← viter (dgetd block "content" (VList []));
  body ← join_texts newline (omap (M:=list) search_text blocks);
  let text := "[Search Result: " +:+ title +:+ "]" in
  let text := if truthy url then text +:+ newline +:+ "Source: " +:+ py_str repr_other url else text in
  let text := if Str.is_empty body then text else text +:+ newline +:+ body in
  Ok [("type", VStr "text"); ("text", VStr text)].

Definition result_part (block : pyval) : res (list pydict) :=
  match block with
  | VDict b =>
      let ty := dgetd b "type" (VStr "text") in
      if veq_str ty "text" then Ok [openai_text b]
      else if veq_str ty "image" then openai_image b
      else if veq_str ty "document" then p ← document_part b; Ok [p]
      else if veq_str ty "search_result" then p ← search_result_part b; Ok [p]
      else Ok []
  | _ => Ok []
  end.

(** [tool_content] before the error mark *)
Definition result_content (content : pyval) : res pyval :=
  match content with
  | VStr s => Ok (VStr s)
  | VList blocks =>
      parts ← mapR result_part blocks;
      let parts := concat parts in
      if forallb (λ p, veq_str (dget p "type") "text") parts && negb (has_cache_control parts)
      then text ← join_texts newline (map (λ p, dgetd p "text" (VStr "")) parts); Ok (VStr text)
      else Ok (VList (VDict <$> parts))
  | _ => Ok (VStr "")
  end.

Definition mark_error (is_error content : pyval) : pyval :=
  if truthy is_error then
    match content with
    | VStr s => VStr ("Error: " +:+ s)
    | VList l => VList (VDict [("type", VStr "text"); ("text", VStr "Error: ")] :: l)
    | c => c
    end
  else content.

Definition result_message (block : pydict) : res pydict :=
  content ← result_content (dgetd block "content" (VStr ""));
  Ok [("role", VStr "tool"); ("tool_call_id", dgetd block "tool_use_id" (VStr ""));
      ("content", mark_error (dget block "is_error") content)].

(** ** Messages *)
Definition tool_use_call (block : pydict) : res pyval :=
  arguments ← match dgetd block "input" VNone with
              | VDict d => dumps (VDict d)
              | _ => Ok (py_str repr_other (dgetd block "input" (VStr "{}")))
              end;
  Ok (VDict [("id", dgetd block "id" (VStr "")); ("type", VStr "function");
             ("function", VDict [("name", dgetd block "name" (VStr ""));
                                 ("arguments", VStr arguments)])]).

(** [openai_content], [tool_calls], and the tool messages appended so far. *)
Record parts := { pt_content : list pydict; pt_calls : list pyval; pt_results : list pydict }.

Definition no_parts : parts := {| pt_content := []; pt_calls := []; pt_results := [] |}.
Definition add_block (l : list pydict) (p : parts) : parts :=
  {| pt_content := pt_content p ++ l; pt_calls := pt_calls p; pt_results := pt_results p |}.
Definition add_call (c : pyval) (p : parts) : parts :=
  {| pt_content := pt_content p; pt_calls := pt_calls p ++ [c]; pt_results := pt_results p |}.
Definition add_result (m : pydict) (p : parts) : parts :=
  {| pt_content := pt_content p; pt_calls := pt_calls p; pt_results := pt_results p ++ [m] |}.

Definition content_block_step (p : parts) (block : pyval) : res parts :=
  b ← as_dict block;
  let ty := dgetd b "type" (VStr "text") in
  if veq_str ty "text" then Ok (add_block [openai_text b] p)
  else if vin_strs ty ["thinking"; "redacted_thinking"] then
    Ok (if veq_str ty "redacted_thinking" || truthy (dget b "signature")
        then add_block [copy_cache_control block b] p else p)
  else if veq_str ty "image" then l ← openai_image b; Ok (add_block l p)
  else if veq_str ty "tool_use" then c ← tool_use_call b; Ok (add_call c p)
  else if veq_str ty "tool_result" then m ← result_message b; Ok (add_result m p)
  else Ok p.

(** The messages that one Anthropic message becomes. *)
Definition convert_message (msg : pyval) : res (list pydict) :=
  role ← vgetd msg "role" (VStr "user");
  content ← vget msg "content";
  match content with
  | VStr s => Ok [role_message role (VStr s)]
  | VList blocks =>
      p ← foldM content_block_step no_parts blocks;
      let message :=
        match pt_calls p with
        | _ :: _ => [role_message role (finalize_openai_content (pt_content p))
                     ++ [("tool_calls", VList (pt_calls p))]]
        | [] =>
            match pt_content p with
            | _ :: _ => [role_message role (finalize_openai_content (pt_content p))]
            | [] => if veq_str role "assistant"
                    then [role_message role (finalize_openai_content (pt_content p))] else []
            end
        end in
      Ok (pt_results p ++ message)
  | c => Ok [role_message role (VStr (if truthy c then py_str repr_other c else ""))]
  end.

Definition convert_messages (anthropic_payload : pydict) : res (list pydict) :=
  msgs ← viter (dgetd anthropic_payload "messages" (VList []));
  converted ← mapR convert_message msgs;
  Ok (system_messages (dget anthropic_payload "system") ++ concat converted).

(** ** Parameters *)

(** [passthrough_param_names], without repetitions.  The code keeps them in a
    set, whose order only affects the order of keys of the payload. *)
Definition passthrough_names (passthrough_params : pyval) : list string :=
  let items := match passthrough_params with
               | VStr s => VStr <$> Str.split "," s
               | VList l => l
               | _ => []
               end in
  remove_dups (List.filter (λ n, negb (Str.is_empty n))
                 (map (λ v, Str.strip (py_str repr_other v)) items)).

Definition captured_params (anthropic_payload : pydict) : pydict :=
  List.filter (λ kv, negb (existsb (String.eqb kv.1) converted_request_params)) anthropic_payload.

(** [if key in d: target[key'] = d[key]] *)
Definition copy_key (key key' : string) (d target : pydict) : pydict :=
  match dict_get key d with Some v => dict_set key' v target | None => target end.

Definition pass_params (passthrough_params : pyval) (anthropic_payload payload : pydict) : pydict :=
  let captured := captured_params anthropic_payload in
  let names := passthrough_names passthrough_params in
  if existsb (String.eqb "*") names then dict_update payload captured
  else foldl (λ acc n, copy_key n n captured acc) payload names.

Definition output_format (format_config : pyval) (payload : pydict) : pydict :=
  match format_config with
  | VDict f =>
      let format_type := dget f "type" in
      if veq_str format_type "json_schema" then
        let json_schema := [("name", dgetd f "name" (VStr "response_schema"));
                            ("schema", dgetd f "schema" (VDict []))] in
        let json_schema := copy_key "strict" "strict" f
                             (copy_key "description" "description" f json_schema) in
        dict_set "response_format"
          (VDict [("type", VStr "json_schema"); ("json_schema", VDict json_schema)]) payload
      else if veq_str format_type "json_object" then
        dict_set "response_format" (VDict [("type", format_type)]) payload
      else payload
  | _ => payload
  end.

Definition apply_output_config (anthropic_payload payload : pydict) : pydict :=
  match dget anthropic_payload "output_config" with
  | VDict output_config =>
      let payload := if dict_has "reasoning_effort" anthropic_payload then payload
                     else copy_key "effort" "reasoning_effort" output_config payload in
      output_format (dget output_config "format") payload
  | _ => payload
  end.

Definition common_params : list (string * string) :=
  [("temperature", "temperature"); ("top_p", "top_p"); ("top_k", "top_k");
   ("stop_sequences", "stop"); ("stream", "stream"); ("metadata", "metadata");
   ("service_tier", "service_tier")].

Definition convert_tool (tool : pyval) : res pyval :=
  t ← as_dict tool;
  Ok (VDict (copy_cache_control tool
    [("type", VStr "function");
     ("function", VDict [("name", dgetd t "name" (VStr ""));
                         ("description", dgetd t "description" (VStr ""));
                         ("parameters", dgetd t "input_schema" (VDict []))])])).

Definition convert_tools (anthropic_payload payload : pydict) : res pydict :=
  let tools := dget anthropic_payload "tools" in
  if truthy tools then
    l ← viter tools; openai_tools ← mapR convert_tool l;
    Ok (dict_set "tools" (VList openai_tools) payload)
  else Ok payload.

Definition convert_tool_choice (anthropic_payload payload : pydict) : pydict :=
  if dict_has "tool_choice" anthropic_payload && dict_has "tools" payload then
    match dget anthropic_payload "tool_choice" with
    | VDict tool_choice =>
        let ty := dgetd tool_choice "type" (VStr "auto") in
        if veq_str ty "auto" then dict_set "tool_choice" (VStr "auto") payload
        else if veq_str ty "any" then dict_set "tool_choice" (VStr "required") payload
        else if veq_str ty "tool" then
          dict_set "tool_choice"
            (VDict [("type", VStr "function");
                    ("function", VDict [("name", dgetd tool_choice "name" (VStr ""))])]) payload
        else payload
    | _ => payload
    end
  else payload.

Definition convert_anthropic_to_openai_payload (anthropic_payload : pydict)
    (passthrough_params : pyval) : res pydict :=
  messages ← convert_messages anthropic_payload;
  let payload := [("model", dgetd anthropic_payload "model" (VStr ""));
                  ("messages", VList (VDict <$> messages))] in
  let payload := copy_key "max_tokens" "max_tokens" anthropic_payload payload in
  let payload := pass_params passthrough_params anthropic_payload payload in
  let payload := apply_output_config anthropic_payload payload in
  let payload := copy_key "reasoning_effort" "reasoning_effort" anthropic_payload payload in
  let payload := foldl (λ acc p, copy_key p.1 p.2 anthropic_payload acc) payload common_params in
  payload ← convert_tools anthropic_payload payload;
  Ok (convert_tool_choice anthropic_payload payload).
End Conversion.

(** ** Responses *)

(** A block of [thinking_blocks]: its content block, if any. *)
Definition thinking_content (block : pyval) : option pydict :=
  match block with
  | VDict b =>
      if veq_str (dget b "type") "redacted_thinking" then
        Some (List.filter (λ kv, String.eqb kv.1 "type" || String.eqb kv.1 "data") b)
      else
        let thinking := por (por (dget b "thinking") (dget b "content")) (dget b "text") in
        if truthy thinking then
          Some ([("type", VStr "thinking"); ("thinking", thinking)]
                ++ (if truthy (dget b "signature") then [("signature", dget b "signature")] else []))
        else None
  | _ => None
  end.

Definition thinking_blocks_of (message : pydict) : pyval :=
  let blocks := por (dget message "thinking_blocks") (VList []) in
  match dget message "thinking" with
  | VDict t => if truthy blocks then blocks else por (dget t "blocks") (VList [])
  | _ => blocks
  end.

Definition reasoning_text (message : pydict) : pyval :=
  let reasoning := por (dget message "reasoning_content") (dget message "reasoning") in
  match dget message "thinking" with
  | VStr s => if truthy reasoning then reasoning else VStr s
  | _ => reasoning
  end.

(** [tool_input] *)
Definition parse_input (arguments : pyval) : pyval :=
  match arguments with
  | VStr s => match json_loads s with Ok v => v | Err _ => VDict [] end
  | _ => VDict []
  end.

Section Response.
(** The n-th value of [f'toolu_{_uuid.uuid4().hex[:24]}'], drawn for every call. *)
Context (toolu : nat → string).

Definition tool_use_block (n : nat) (tool_call : pyval) : res pydict :=
  function ← vgetd tool_call "function" (VDict []);
  arguments ← vgetd function "arguments" (VStr "{}");
  id ← vgetd tool_call "id" (VStr (toolu n));
  name ← vgetd function "name" (VStr "");
  Ok [("type", VStr "tool_use"); ("id", id); ("name", name); ("input", parse_input arguments)].

Fixpoint tool_use_blocks (n : nat) (tool_calls : list pyval) : res (list pydict) :=
  match tool_calls with
  | [] => Ok []
  | c :: r => b ← tool_use_block n c; bs ← tool_use_blocks (S n) r; Ok (b :: bs)
  end.

Definition response_content (message : pydict) : res (list pydict) :=
  thinking_blocks ← viter (thinking_blocks_of message);
  let thinking := omap (M:=list) thinking_content thinking_blocks in
  let reasoning := reasoning_text message in
  let reasoned := if truthy reasoning && bool_decide (thinking = [])
                  then [[("type", VStr "thinking"); ("thinking", reasoning)]] else [] in
  let content := dget message "content" in
  let text := if truthy content then [[("type", VStr "text"); ("text", content)]] else [] in
  tool_calls ← viter (por (dget message "tool_calls") (VList []));
  tools ← tool_use_blocks 0 tool_calls;
  Ok (thinking ++ reasoned ++ text ++ tools).

Definition response_stop_reasons : pydict :=
  stop_reason_map ++ [("content_filter", VStr "end_turn")].

Definition response_usage (openai_usage : pydict) (input_tokens : pyval) : res pydict :=
  usage_input ← usage_input_of openai_usage;
  let u := openai_usage in
  let opt (k : string) (v : pyval) : pydict := if is_none v then [] else [(k, v)] in
  let opt_dict (k : string) : pydict := if is_dict (dget u k) then [(k, dget u k)] else [] in
  Ok ([("input_tokens", or_old (or_old usage_input input_tokens) (VInt 0));
       ("output_tokens", or_old (usage_output_of u) (VInt 0))]
      ++ opt "cache_creation_input_tokens" (dget u "cache_creation_input_tokens")
      ++ opt "cache_read_input_tokens" (cache_read_of u)
      ++ opt_dict "output_tokens_details" ++ opt_dict "server_tool_use"
      ++ opt "service_tier" (dget u "service_tier")).

(** [msg_id] is the value of [f'msg_{_uuid.uuid4().hex[:24]}']. *)
Definition convert_openai_to_anthropic_response (openai_response : pydict) (msg_id model : string)
    (input_tokens : pyval) : res pydict :=
  choice ← (if truthy (dget openai_response "choices")
            then first_item (dget openai_response "choices") else Ok (VDict []));
  message ← vgetd choice "message" (VDict []);
  finish_reason ← vgetd choice "finish_reason" (VStr "stop");
  reason ← hashed finish_reason;
  let stop_reason := match reason with
                     | VStr k => dgetd response_stop_reasons k (VStr "end_turn")
                     | _ => VStr "end_turn"
                     end in
  m ← as_dict message;
  content ← response_content m;
  openai_usage ← as_dict (por (dget openai_response "usage") (VDict []));
  usage ← response_usage openai_usage input_tokens;
  Ok [("id", dgetd openai_response "id" (VStr msg_id)); ("type", VStr "message");
      ("role", VStr "assistant"); ("content", VList (VDict <$> content));
      ("model", if Str.is_empty model then dgetd openai_response "model" (VStr "")
                else VStr model);
      ("stop_reason", stop_reason); ("stop_sequence", VNone); ("usage", VDict usage)].
End Response.
