(* ===== verification/AnthropicProps.v ===== *)
(** * Properties of [Anthropic]: the tool calls and results of a converted
    request are those of the request, paired as OpenAI providers demand. *)

From S2P Require Import Prelude PyVal Json Messages MessagesProps AnthropicStream Anthropic.
From Stdlib Require Import Ascii.

Local Open Scope Z_scope.

#[local] Arguments is_tool : simpl never.
#[local] Arguments has_calls : simpl never.
#[local] Arguments call_ids : simpl never.

(** ** Tool blocks of an Anthropic message *)

Definition content_blocks (msg : pyval) : list pyval :=
  match msg with
  | VDict m => match dget m "content" with VList l => l | _ => [] end
  | _ => []
  end.

(** The values under [key] of the blocks of a type. *)
Definition block_ids (ty key : string) (blocks : list pyval) : list pyval :=
  omap (λ b, match b with
             | VDict d => if veq_str (dgetd d "type" (VStr "text")) ty
                          then Some (dgetd d key (VStr "")) else None
             | _ => None
             end) blocks.

Definition use_ids (msg : pyval) : list pyval := block_ids "tool_use" "id" (content_blocks msg).
Definition result_ids (msg : pyval) : list pyval :=
  block_ids "tool_result" "tool_use_id" (content_blocks msg).

Definition role_of (msg : pyval) : pyval :=
  match msg with VDict m => dgetd m "role" (VStr "user") | _ => VNone end.

(** What the Messages API demands: the results in a message answer tool uses of
    the message before it, only the assistant uses tools, and every use has an
    id and its result in the next message. *)
Fixpoint anthropic_paired (prev : list pyval) (msgs : list pyval) : Prop :=
  match msgs with
  | [] => True
  | m :: rest =>
      (∀ id, id ∈ result_ids m → id ∈ prev) ∧
      (use_ids m ≠ [] → role_of m = VStr "assistant") ∧
      (∀ id, id ∈ use_ids m → truthy id = true ∧ ∃ n, head rest = Some n ∧ id ∈ result_ids n) ∧
      anthropic_paired (use_ids m) rest
  end.

(** A message made of a tool result. *)
Definition is_result (m : pydict) : Prop := is_tool m = true ∧ dget m "tool_calls" = VNone.

(** The ids the tool messages of a conversation answer. *)
Definition answered_ids (ms : list pydict) : list pyval :=
  map (λ m, dget m "tool_call_id") (List.filter is_tool ms).

Section Conversion.
Context (repr_other : pyval → string) (dumps : pyval → res string).

Notation step := (content_block_step repr_other dumps).

Lemma step_spec p block p' :
  step p block = Ok p' →
  map call_id_of (pt_calls p') = map call_id_of (pt_calls p) ++ block_ids "tool_use" "id" [block] ∧
  map (λ m, dget m "tool_call_id") (pt_results p') =
    map (λ m, dget m "tool_call_id") (pt_results p) ++ block_ids "tool_result" "tool_use_id" [block] ∧
  (Forall is_result (pt_results p) → Forall is_result (pt_results p')).
Proof.
  unfold content_block_step. destruct block as [| | | | | |b]; try done.
  cbn [as_dict mbind res_bind block_ids omap list_omap]. set (ty := dgetd b "type" (VStr "text")).
  assert (∀ s t, veq_str ty s = true → s ≠ t → veq_str ty t = false) as Hother.
  { intros s t ->%veq_str_true Hne. cbn. by apply String.eqb_neq. }
  destruct (veq_str ty "text") eqn:E1.
  { intros [= <-]. rewrite !(Hother "text" _) by done. by rewrite !app_nil_r. }
  destruct (vin_strs ty ["thinking"; "redacted_thinking"]) eqn:E2.
  { intros [= <-]. apply vin_strs_true in E2 as (s & -> & Hs).
    assert (veq_str (VStr s) "tool_use" = false ∧ veq_str (VStr s) "tool_result" = false) as [-> ->].
    { apply elem_of_cons in Hs as [->|Hs%list_elem_of_singleton]; [done|]. by subst s. }
    rewrite !app_nil_r. by destruct (_ || _). }
  destruct (veq_str ty "image") eqn:E3.
  { intros (l & _ & [= <-])%bind_Ok. rewrite !(Hother "image" _) by done. by rewrite !app_nil_r. }
  destruct (veq_str ty "tool_use") eqn:E4.
  { intros (c & Hc & [= <-])%bind_Ok. rewrite (Hother "tool_use" "tool_result") by done.
    rewrite app_nil_r. cbn. rewrite map_app. split; [|done]. cbn. do 2 f_equal.
    unfold tool_use_call in Hc. by apply bind_Ok in Hc as (a & _ & [= <-]). }
  destruct (veq_str ty "tool_result") eqn:E5.
  2: { intros [= <-]. by rewrite !app_nil_r. }
  intros (m & Hm & [= <-])%bind_Ok. rewrite app_nil_r. cbn. rewrite map_app.
  apply bind_Ok in Hm as (c & _ & [= <-]). split; [done|]. split; [done|].
  intros Ht. apply Forall_app. split; [done|]. by constructor.
Qed.

Lemma steps_spec blocks p p' :
  foldM step p blocks = Ok p' →
  map call_id_of (pt_calls p') = map call_id_of (pt_calls p) ++ block_ids "tool_use" "id" blocks ∧
  map (λ m, dget m "tool_call_id") (pt_results p') =
    map (λ m, dget m "tool_call_id") (pt_results p) ++ block_ids "tool_result" "tool_use_id" blocks ∧
  (Forall is_result (pt_results p) → Forall is_result (pt_results p')).
Proof.
  revert p. induction blocks as [|b blocks IH]; intros p; cbn [foldM].
  { intros [= <-]. by rewrite !app_nil_r. }
  intros (p1 & H1 & H2)%bind_Ok. apply step_spec in H1 as (Hc & Hr & Ht).
  apply IH in H2 as (Hc' & Hr' & Ht'). unfold block_ids in *. rewrite Hc', Hr', Hc, Hr, <-!app_assoc.
  change (b :: blocks) with ([b] ++ blocks). rewrite !omap_app. auto.
Qed.

(** One message: its results, then at most one message with its tool uses. *)
Lemma convert_message_spec msg l :
  convert_message repr_other dumps msg = Ok l →
  ∃ results tail, l = results ++ tail ∧ Forall is_result results ∧
    map (λ m, dget m "tool_call_id") results = result_ids msg ∧
    (tail = [] ∧ use_ids msg = [] ∨
     ∃ m, tail = [m] ∧ dget m "role" = role_of msg ∧ call_ids m = use_ids msg ∧
       (use_ids msg = [] → dget m "tool_calls" = VNone) ∧
       (use_ids msg ≠ [] → truthy (dget m "tool_calls") = true)).
Proof.
  unfold convert_message. destruct msg as [| | | | | |d]; try done.
  cbn [vget vgetd mbind res_bind]. unfold use_ids, result_ids, role_of. cbn [content_blocks].
  assert (∀ content, ∃ results tail, [role_message (dgetd d "role" (VStr "user")) content] =
    results ++ tail ∧ Forall is_result results ∧
    map (λ m, dget m "tool_call_id") results = [] ∧
    (tail = [] ∧ @nil pyval = [] ∨
     ∃ m, tail = [m] ∧ dget m "role" = dgetd d "role" (VStr "user") ∧ call_ids m = [] ∧
       (@nil pyval = [] → dget m "tool_calls" = VNone) ∧
       (@nil pyval ≠ [] → truthy (dget m "tool_calls") = true))) as Hplain.
  { intros content. eexists [], _. split; [reflexivity|]. split; [done|]. split; [done|].
    right. by eexists. }
  destruct (dget d "content") as [| | | | |blocks|]; try (intros [= <-]; apply Hplain).
  intros (p & Hp & [= <-])%bind_Ok. apply steps_spec in Hp as (Hc & Hr & Ht).
  cbn in Hc, Hr. eexists (pt_results p), _. split; [reflexivity|]. split; [by apply Ht|].
  split; [done|]. rewrite <-Hc. destruct (pt_calls p) as [|c cs].
  - destruct (pt_content p); [destruct (veq_str _ "assistant")|]; [right|left|right]; try done;
      by eexists.
  - right. eexists. split; [reflexivity|]. split; [done|]. split; [done|]. split; [done|].
    by intros _.
Qed.
End Conversion.

(** ** Conversations *)

Lemma is_tool_role m s : dget m "role" = VStr s → is_tool m = String.eqb s "tool".
Proof. unfold is_tool, has_role. by intros ->. Qed.

Lemma tool_block_results results rest :
  Forall is_result results → tool_block (results ++ rest) = results ++ tool_block rest.
Proof.
  induction 1 as [|m l Hm _ IH]; cbn; [done|]. destruct Hm as [-> _]. by rewrite IH.
Qed.

Lemma well_paired_results cur results rest :
  Forall is_result results → (∀ id, id ∈ map (λ m, dget m "tool_call_id") results → id ∈ cur) →
  well_paired_from cur rest → well_paired_from cur (results ++ rest).
Proof.
  induction 1 as [|m l Hm _ IH]; cbn; [done|]. intros Hids Hrest.
  destruct Hm as [-> _]. split; [|apply IH; set_solver]. apply Hids. by left.
Qed.

Section Conversations.
Context (repr_other : pyval → string) (dumps : pyval → res string).

Lemma converted_head n rest converted :
  mapR (convert_message repr_other dumps) (n :: rest) = Ok converted →
  ∀ id, id ∈ result_ids n →
    ∃ t, t ∈ tool_block (concat converted) ∧ dget t "tool_call_id" = id.
Proof.
  cbn. intros (l & Hl & (ls & _ & [= <-])%bind_Ok)%bind_Ok id Hid.
  apply convert_message_spec in Hl as (results & tl & -> & Ht & Hr & _).
  cbn. rewrite <-app_assoc, tool_block_results by done. rewrite <-Hr in Hid.
  apply list_elem_of_fmap in Hid as (t & -> & Hin). exists t. split; [|done]. set_solver.
Qed.

Lemma converted_paired msgs : ∀ prev cur converted,
  mapR (convert_message repr_other dumps) msgs = Ok converted →
  Forall (λ m, role_of m ≠ VStr "tool") msgs → anthropic_paired prev msgs →
  (∀ id, id ∈ prev → id ∈ cur) → well_paired_from cur (concat converted).
Proof.
  induction msgs as [|m rest IH]; intros prev cur converted Hc Hroles Hp Hcur.
  { by injection Hc as <-. }
  pose proof Hc as Hc0. cbn in Hc. apply bind_Ok in Hc as (l & Hl & (ls & Hls & [= <-])%bind_Ok).
  destruct Hp as (Hans & Hassist & Huse & Hrest). inversion Hroles as [|?? Hrole Hroles']; subst.
  apply convert_message_spec in Hl as (results & tl & -> & Ht & Hr & Htail).
  cbn. rewrite <-app_assoc. apply well_paired_results; [done|rewrite Hr; auto|].
  destruct Htail as [[-> Hnil]|(mm & -> & Hmr & Hcalls & Hno & Hyes)]; cbn.
  { apply (IH (use_ids m)); try done. rewrite Hnil. by intros id ?%elem_of_nil. }
  assert (is_tool mm = false) as ->.
  { unfold is_tool, has_role. rewrite Hmr. destruct (veq_str _ "tool") eqn:E; [|done].
    by apply veq_str_true in E. }
  destruct (use_ids m) as [|u us] eqn:Eu.
  - assert (has_calls mm = false) as ->.
    { unfold has_calls. rewrite Hno by done. apply andb_false_r. }
    apply (IH []); try done.
  - assert (has_calls mm = true) as ->.
    { unfold has_calls, has_role. rewrite Hmr, Hassist, Hyes by done. done. }
    rewrite Hcalls. split; [|by apply (IH (u :: us))].
    intros id Hid. destruct (Huse id Hid) as (? & n & Hn & Hin). split; [done|].
    destruct rest as [|n' rest]; [done|]. injection Hn as ->. by eapply converted_head.
Qed.

Lemma converted_ids msgs : ∀ converted,
  mapR (convert_message repr_other dumps) msgs = Ok converted →
  Forall (λ m, role_of m ≠ VStr "tool") msgs →
  concat (map call_ids (concat converted)) = concat (map use_ids msgs) ∧
  answered_ids (concat converted) = concat (map result_ids msgs).
Proof.
  induction msgs as [|m rest IH]; intros converted Hc Hroles; [by injection Hc as <-|].
  cbn in Hc. apply bind_Ok in Hc as (l & Hl & (ls & Hls & [= <-])%bind_Ok).
  inversion Hroles as [|?? Hrole Hroles']; subst.
  destruct (IH ls Hls Hroles') as [IH1 IH2]. unfold answered_ids in *.
  apply convert_message_spec in Hl as (results & tl & -> & Ht & Hr & Htail).
  assert (concat (map call_ids results) = []) as Hnone.
  { clear -Ht. induction Ht as [|x l [_ Hx] _ IH]; [done|]. cbn. unfold call_ids at 1. by rewrite Hx. }
  assert (List.filter is_tool results = results) as Hall.
  { apply filter_id. intros x Hx. by apply (Forall_forall is_result results). }
  cbn. rewrite !map_app, !concat_app, IH1, !List.filter_app, !map_app, IH2, Hnone, Hall, Hr.
  destruct Htail as [[-> ->]|(mm & -> & Hmr & Hcalls & _)]; cbn; [by rewrite app_nil_r|].
  assert (is_tool mm = false) as ->.
  { unfold is_tool, has_role. rewrite Hmr. destruct (veq_str _ "tool") eqn:E; [|done].
    by apply veq_str_true in E. }
  cbn. by rewrite Hcalls, !app_nil_r.
Qed.
End Conversations.

(** ** The rest of the payload *)
Lemma dict_get_elem_filter k (f : string * pyval → bool) d :
  (∀ v, f (k, v) = false) → dict_get k (List.filter f d) = None.
Proof.
  intros Hf. induction d as [|[k' v] d IH]; cbn; [done|].
  destruct (f (k', v)) eqn:E; [|done]. cbn. destruct (String.eqb_spec k k') as [->|]; [|done].
  by rewrite Hf in E.
Qed.

(** [payload] keeps its messages. *)
Definition keeps (v : pyval) (d : pydict) : Prop := dict_get "messages" d = Some v.

Lemma keeps_set v k w d : k ≠ "messages" → keeps v d → keeps v (dict_set k w d).
Proof. unfold keeps. intros Hk Hd. by rewrite dict_get_set_ne. Qed.

Lemma keeps_copy v k k' s d : k' ≠ "messages" → keeps v d → keeps v (copy_key k k' s d).
Proof. intros Hk Hd. unfold copy_key. destruct (dict_get k s); [by apply keeps_set|done]. Qed.

Lemma keeps_foldl {A} v (f : pydict → A → pydict) l d :
  (∀ d a, a ∈ l → keeps v d → keeps v (f d a)) → keeps v d → keeps v (foldl f d l).
Proof.
  revert d. induction l as [|a l IH]; cbn; intros d Hf Hd; [done|].
  apply IH; [|apply Hf; [by left|done]]. intros d' a' Ha. apply Hf. by right.
Qed.

#[local] Hint Resolve keeps_set keeps_copy : core.

Section Payload.
Context (repr_other : pyval → string) (dumps : pyval → res string).

Lemma keeps_pass v params ap d : keeps v d → keeps v (pass_params repr_other params ap d).
Proof.
  intros Hd. unfold pass_params.
  assert (dict_get "messages" (captured_params ap) = None) as Hno.
  { unfold captured_params. by apply dict_get_elem_filter. }
  destruct (existsb _ _).
  - unfold dict_update. apply keeps_foldl; [|done]. intros d' [k w] Hin Hd'. cbn.
    destruct (decide (k = "messages")) as [->|?]; [|by apply keeps_set].
    apply dict_get_None in Hno. destruct Hno. apply list_elem_of_fmap. by exists ("messages", w).
  - apply keeps_foldl; [|done]. intros d' n _ Hd'.
    destruct (decide (n = "messages")) as [->|?]; [|by apply keeps_copy].
    unfold copy_key. by rewrite Hno.
Qed.

Lemma keeps_output v ap d : keeps v d → keeps v (apply_output_config ap d).
Proof.
  intros Hd. unfold apply_output_config. destruct (dget ap "output_config") as [| | | | | |oc]; try done.
  assert (keeps v (if dict_has "reasoning_effort" ap then d
                   else copy_key "effort" "reasoning_effort" oc d)) as Hd'.
  { destruct (dict_has _ _); auto. }
  revert Hd'. generalize (if dict_has "reasoning_effort" ap then d
                          else copy_key "effort" "reasoning_effort" oc d).
  intros d' Hd'. unfold output_format. destruct (dget oc "format"); try done.
  destruct (veq_str _ "json_schema"); [by apply keeps_set|].
  destruct (veq_str _ "json_object"); [by apply keeps_set|done].
Qed.

Lemma payload_messages ap params out :
  convert_anthropic_to_openai_payload repr_other dumps ap params = Ok out →
  ∃ ms, convert_messages repr_other dumps ap = Ok ms ∧ dget out "messages" = VList (VDict <$> ms).
Proof.
  unfold convert_anthropic_to_openai_payload. intros (ms & Hms & H)%bind_Ok. exists ms. split; [done|].
  apply bind_Ok in H as (d & Hd & [= <-]).
  set (v := VList (VDict <$> ms)) in *.
  assert (keeps v d) as Hk.
  { set (d0 := foldl _ _ _) in Hd.
    assert (keeps v d0) as H0.
    { unfold d0. cbn. repeat (apply keeps_copy; [done|]). apply keeps_output, keeps_pass.
      by apply keeps_copy. }
    unfold convert_tools in Hd. destruct (truthy (dget ap "tools")); [|by injection Hd as <-].
    apply bind_Ok in Hd as (l & _ & (ts & _ & [= <-])%bind_Ok). by apply keeps_set. }
  assert (keeps v (convert_tool_choice ap d)) as Hk'.
  { unfold convert_tool_choice. destruct (_ && _); [|done].
    destruct (dget ap "tool_choice"); try done. repeat case_match; auto. }
  unfold dget. by rewrite Hk'.
Qed.

Lemma system_plain sys m : m ∈ system_messages sys →
  is_tool m = false ∧ has_calls m = false ∧ call_ids m = [].
Proof.
  unfold system_messages. destruct (truthy sys); [|by intros ?%elem_of_nil].
  destruct sys; first [by intros ?%elem_of_nil|by intros ->%list_elem_of_singleton].
Qed.
End Payload.

(** C9: Converting a request to OpenAI's format loses no tool use and no
    result: the calls of the converted messages carry the ids of the tool uses,
    and the tool messages those of the results, each in their order.  If the
    request pairs them as the Messages API demands, the converted messages are
    well paired, the form that [reconcile_tool_pairs] answers and leaves alone. *)
Theorem converted_payload_is_well_paired repr_other dumps payload params msgs out :
  viter (dgetd payload "messages" (VList [])) = Ok msgs →
  Forall (λ m, role_of m ≠ VStr "tool") msgs →
  convert_anthropic_to_openai_payload repr_other dumps payload params = Ok out →
  ∃ ms, dget out "messages" = VList (VDict <$> ms) ∧
    concat (map call_ids ms) = concat (map use_ids msgs) ∧
    answered_ids ms = concat (map result_ids msgs) ∧
    (anthropic_paired [] msgs → well_paired ms).
Proof.
  intros Hmsgs Hroles (ms & Hms & Hout)%payload_messages. exists ms. split; [done|].
  unfold convert_messages in Hms. rewrite Hmsgs in Hms. cbn in Hms.
  apply bind_Ok in Hms as (converted & Hc & [= <-]).
  destruct (converted_ids _ _ _ _ Hc Hroles) as [Huse Hres].
  pose proof (converted_paired repr_other dumps msgs [] [] converted Hc Hroles) as Hpair.
  pose proof (system_plain (dget payload "system")) as Hsys. clear Hc Hout.
  induction (system_messages (dget payload "system")) as [|m0 l IH].
  { split_and!; [done..|]. intros Hp. by apply Hpair. }
  destruct (Hsys m0) as (Ht & Hcalls & Hids); [by left|].
  specialize (IH ltac:(intros x Hx; apply Hsys; by right)) as (IH1 & IH2 & IH3).
  cbn. unfold answered_ids in *. cbn. rewrite Hids, Ht. split_and!; [done..|].
  intros Hp. unfold well_paired. cbn. rewrite Hcalls. by apply IH3.
Qed.

(** ** An example *)
Definition example_use (id : string) : pyval :=
  VDict [("type", VStr "tool_use"); ("id", VStr id); ("name", VStr "search");
         ("input", VDict [("q", VStr "x")])].
Definition example_result (id : string) : pyval :=
  VDict [("type", VStr "tool_result"); ("tool_use_id", VStr id);
         ("content", VList [VDict [("type", VStr "text"); ("text", VStr "found")]]);
         ("is_error", VBool true)].

Definition example_turns : list pyval :=
  [VDict [("role", VStr "user"); ("content", VStr "find x and y")];
   VDict [("role", VStr "assistant");
          ("content", VList [VDict [("type", VStr "text"); ("text", VStr "looking")];
                             example_use "a"; example_use "b"])];
   VDict [("role", VStr "user");
          ("content", VList [example_result "b"; example_result "a";
                             VDict [("type", VStr "text"); ("text", VStr "go on")]])]].

Definition example_payload : pydict :=
  [("model", VStr "m"); ("system", VStr "be brief"); ("messages", VList example_turns);
   ("stop_sequences", VList [VStr "END"]); ("thinking", VDict [])].

Definition example_dumps (v : pyval) : res string := Ok "json".

Example example_payload_converted :
  convert_anthropic_to_openai_payload example_repr example_dumps example_payload (VStr "thinking, x") =
  Ok [("model", VStr "m");
      ("messages", VList
        [VDict [("role", VStr "system"); ("content", VStr "be brief")];
         VDict [("role", VStr "user"); ("content", VStr "find x and y")];
         VDict [("role", VStr "assistant"); ("content", VStr "looking");
                ("tool_calls", VList
                  [VDict [("id", VStr "a"); ("type", VStr "function");
                          ("function", VDict [("name", VStr "search"); ("arguments", VStr "json")])];
                   VDict [("id", VStr "b"); ("type", VStr "function");
                          ("function", VDict [("name", VStr "search"); ("arguments", VStr "json")])]])];
         VDict [("role", VStr "tool"); ("tool_call_id", VStr "b"); ("content", VStr "Error: found")];
         VDict [("role", VStr "tool"); ("tool_call_id", VStr "a"); ("content", VStr "Error: found")];
         VDict [("role", VStr "user"); ("content", VStr "go on")]]);
      ("thinking", VDict []); ("stop", VList [VStr "END"])].
Proof. vm_compute. reflexivity. Qed.

Lemma example_turns_paired : anthropic_paired [] example_turns.
Proof.
  cbn. split_and!; try done; try set_solver.
  intros id Hid. assert (id = VStr "a" ∨ id = VStr "b") as [-> | ->] by set_solver.
  all: split; [done|]; eexists; split; [reflexivity|]; cbn; set_solver.
Qed.

Lemma converted_payload_is_well_paired_witness :
  ∃ out ms, convert_anthropic_to_openai_payload example_repr example_dumps example_payload VNone = Ok out ∧
    dget out "messages" = VList (VDict <$> ms) ∧ well_paired ms.
Proof.
  eexists.
  destruct (converted_payload_is_well_paired example_repr example_dumps example_payload VNone
              example_turns _ eq_refl ltac:(by repeat constructor) eq_refl)
    as (ms & Hout & _ & _ & Hp).
  exists ms. split; [reflexivity|]. split; [exact Hout|]. apply Hp, example_turns_paired.
Defined.
