(* ===== verification/ChatTree.v ===== *)
(** * The message tree of a chat (models/chats.py, utils/chat_fork.py).

    A chat's [history] is a dict with the messages by id, each naming its parent
    and its children, and the id of the message shown last ([currentId]).  The
    methods change the dicts they are given in place; here they answer the
    changed [history].  Ids are dict keys, so texts; the links may be any value
    a stored chat holds. *)

From S2P Require Import Prelude PyVal Messages.

Local Open Scope Z_scope.

(** ** Lookups *)

(** [v in messages] *)
Definition in_messages (v : pyval) (messages : pydict) : res bool :=
  k ← hashed v; Ok (match k with VStr s => dict_has s messages | _ => false end).

(** [[v for v in l if v in messages]]: only texts can be keys. *)
Fixpoint known_ids (l : list pyval) (messages : pydict) : res (list string) :=
  match l with
  | [] => Ok []
  | v :: l' =>
      b ← in_messages v messages; r ← known_ids l' messages;
      Ok (match v with VStr s => if (b : bool) then s :: r else r | _ => r end)
  end.

(** [messages.get(id, {}).get('childrenIds', dflt)] *)
Definition children_of (messages : pydict) (id : pyval) (dflt : pyval) : res pyval :=
  k ← hashed id;
  let message := match k with VStr s => dgetd messages s (VDict []) | _ => VDict [] end in
  vgetd message "childrenIds" dflt.

(** [v[-1]] of a truthy value *)
Definition last_item (v : pyval) : res pyval :=
  match v with
  | VList l => match last l with Some x => Ok x | None => Err IndexError end
  | VStr s => match last (chars s) with Some c => Ok (VStr c) | None => Err IndexError end
  | VDict _ => Err (KeyError "-1")
  | _ => Err TypeError
  end.

(** [id in v] *)
Definition contains_id (id : string) (v : pyval) : res bool :=
  match v with
  | VList l => Ok (existsb (py_eqb (VStr id)) l)
  | VStr s => Ok (Str.contains id s)
  | VDict d => Ok (dict_has id d)
  | _ => Err TypeError
  end.

(** [item.get('role')] of the first output item that has one *)
Fixpoint output_role (output : list pyval) : pyval :=
  match output with
  | [] => VNone
  | VDict item :: r => if truthy (dget item "role") then dget item "role" else output_role r
  | _ :: r => output_role r
  end.

(** [{key: d[key] for key in keys if key in d}] *)
Fixpoint pick_keys (keys : list string) (d : pydict) : pydict :=
  match keys with
  | [] => []
  | k :: r => match dict_get k d with
              | Some v => (k, v) :: pick_keys r d
              | None => pick_keys r d
              end
  end.

(** [get_current_message_id] *)
Definition last_message_id (messages : list pyval) : pyval :=
  default VNone (find_first truthy
    (map (λ m, match m with VDict d => dget d "id" | _ => VNone end) (rev messages))).

Definition get_current_message_id (chat : pydict) : pyval :=
  let history := match dget chat "history" with VDict h => h | _ => [] end in
  let current_id := por (por (dget history "currentId") (dget chat "currentId"))
                        (dget chat "branchPointMessageId") in
  if truthy current_id then current_id
  else match dget chat "messages" with VList l => last_message_id l | _ => VNone end.

(** ** Links *)

(** [_add_child_id_to_parent]: the messages, and whether they changed. *)
Definition add_child_id_to_parent (messages : pydict) (parent_id : pyval) (child_id : string)
    : res (pydict * bool) :=
  parent ← (if truthy parent_id then get_by messages parent_id else Ok VNone);
  match parent, parent_id with
  | VDict d, VStr p =>
      let child_ids := match dget d "childrenIds" with VList l => l | _ => [] end in
      if existsb (py_eqb (VStr child_id)) child_ids then Ok (messages, false)
      else Ok (dict_set p (VDict (dict_set "childrenIds" (VList (child_ids ++ [VStr child_id])) d))
                 messages, true)
  | _, _ => Ok (messages, false)
  end.

(** The child that [_last_descendant_id] follows: a well-formed one, the last. *)
Definition follows (messages : pydict) (seen : list string) (message_id : string) (v : pyval) : bool :=
  match v with
  | VStr c =>
      negb (bool_decide (c ∈ seen)) &&
      match dget messages c with
      | VDict child => veq_str (dget child "id") c && truthy (dget child "role")
                       && veq_str (dget child "parentId") message_id
      | _ => false
      end
  | _ => false
  end.

(** [_last_descendant_id]; the loop visits a message at most once. *)
Fixpoint descend (fuel : nat) (messages : pydict) (seen : list string) (message_id : string) : string :=
  match fuel with
  | O => message_id
  | S fuel =>
      if dict_has message_id messages && negb (bool_decide (message_id ∈ seen)) then
        let seen := message_id :: seen in
        let child_ids := match dget messages message_id with
                         | VDict m => match dget m "childrenIds" with VList l => l | _ => [] end
                         | _ => []
                         end in
        match find_first (follows messages seen message_id) (rev child_ids) with
        | Some (VStr c) => if Str.is_empty c then message_id else descend fuel messages seen c
        | _ => message_id
        end
      else message_id
  end.

Definition last_descendant_id (messages : pydict) (message_id : string) : string :=
  descend (S (length messages)) messages [] message_id.

(** ** Repair *)

(** The first loop of [_repair_chat_current_id]: every message becomes a child
    of its parent. *)
Definition relink_step (acc : pydict * bool) (message_id : string) : res (pydict * bool) :=
  match dget acc.1 message_id with
  | VDict message =>
      r ← add_child_id_to_parent acc.1 (dget message "parentId") message_id;
      Ok (r.1, r.2 || acc.2)
  | _ => Ok acc
  end.

Definition relink (messages : pydict) : res (pydict * bool) :=
  foldM relink_step (messages, false) (dict_keys messages).

(** The leaf with the latest timestamp *)
Definition latest_leaf_step (acc : pyval * pynum) (kv : string * pyval) : res (pyval * pynum) :=
  match kv.2 with
  | VDict message =>
      if negb (truthy (dget message "role")) then Ok acc
      else
        let leaf := match dget message "childrenIds" with VList (_ :: _) => false | _ => true end in
        let timestamp := por (dget message "timestamp") (VInt 0) in
        if negb leaf then Ok acc
        else match as_num timestamp with
             | Some t => Ok (if num_ltb acc.2 t then (VStr kv.1, t) else acc)
             | None => Err TypeError
             end
  | _ => Ok acc
  end.

Definition latest_leaf (messages : pydict) : res pyval :=
  r ← foldM latest_leaf_step (VNone, NInt (-1)) messages; Ok r.1.

(** A root without a time made of assistant output, beside other messages. *)
Definition is_bad_leaf (messages current_message : pydict) : res bool :=
  output ← viter (por (dget current_message "output") (VList []));
  Ok (veq_str (output_role output) "assistant" && is_none (dget current_message "parentId")
      && negb (truthy (dget current_message "timestamp")) && (1 <? length messages)%nat).

(** [currentId] becomes the latest leaf, if there is another one. *)
Definition show_latest_leaf (messages : pydict) (changed : bool) (history : pydict)
    : res (pydict * bool) :=
  leaf ← latest_leaf messages;
  Ok (if negb (truthy leaf) || py_eqb leaf (dget history "currentId") then (history, changed)
      else (dict_set "currentId" leaf history, true)).

Definition repair_current (messages : pydict) (changed : bool) (history : pydict)
    : res (pydict * bool) :=
  current ← get_by messages (dget history "currentId");
  bad ← match current with VDict m => is_bad_leaf messages m | _ => Ok false end;
  match current, dget history "currentId" with
  | VDict m, VStr current_id =>
      if truthy (dget m "id") && truthy (dget m "role") && negb bad then
        let d := last_descendant_id messages current_id in
        Ok (if String.eqb d current_id then (history, changed)
            else (dict_set "currentId" (VStr d) history, true))
      else show_latest_leaf messages changed history
  | _, _ => show_latest_leaf messages changed history
  end.

(** [_repair_chat_current_id] *)
Definition repair_chat_current_id (chat : pydict) : res (pydict * bool) :=
  match dget chat "history" with
  | VDict history =>
      match dget history "messages" with
      | VDict messages =>
          r ← relink messages;
          h ← repair_current r.1 r.2 (dict_set "messages" (VDict r.1) history);
          Ok (dict_set "history" (VDict h.1) chat, h.2)
      | _ => Ok (chat, false)
      end
  | _ => Ok (chat, false)
  end.

(** ** Gaps and merges *)

(** [get_unresolved_parent_ids]: a set in the code. *)
Fixpoint unresolved_parent_ids (messages_map : pydict) (msgs : list pyval) : res (list pyval) :=
  match msgs with
  | [] => Ok []
  | msg :: r =>
      parent ← vget msg "parentId";
      known ← (if truthy parent then in_messages parent messages_map else Ok true);
      rest ← unresolved_parent_ids messages_map r;
      Ok (if (known : bool) then rest else parent :: rest)
  end.

Definition get_unresolved_parent_ids (messages_map : pydict) : res (list pyval) :=
  unresolved_parent_ids messages_map (dict_values messages_map).

(** [(history or {}).get('messages') or {}] *)
Definition messages_in (history : pyval) : res pydict :=
  m ← vget (por history (VDict [])) "messages";
  match por m (VDict []) with VDict d => Ok d | _ => Err TypeError end.

(** The messages that are dicts, without children. *)
Fixpoint without_children (messages : pydict) : pydict :=
  match messages with
  | [] => []
  | (k, VDict m) :: r => (k, VDict (dict_set "childrenIds" (VList []) m)) :: without_children r
  | _ :: r => without_children r
  end.

(** [merged[parent_id]['childrenIds'].append(message_id)] *)
Definition append_child (messages : pydict) (parent : string) (child : string) : pydict :=
  match dget messages parent with
  | VDict d => match dget d "childrenIds" with
               | VList l => dict_set parent (VDict (dict_set "childrenIds" (VList (l ++ [VStr child])) d))
                              messages
               | _ => messages
               end
  | _ => messages
  end.

Definition merge_step (merged : pydict) (message_id : string) : res pydict :=
  parent_id ← vget (dget merged message_id) "parentId";
  known ← in_messages parent_id merged;
  Ok (match parent_id with
      | VStr p => if (known : bool) then append_child merged p message_id else merged
      | _ => merged
      end).

(** [merge_history] *)
Definition merge_history (existing_history incoming_history : pyval) : res pydict :=
  existing ← messages_in existing_history;
  incoming ← messages_in incoming_history;
  let merged := without_children (dict_update existing incoming) in
  messages ← foldM merge_step merged (dict_keys merged);
  existing_history ← as_dict (por existing_history (VDict []));
  incoming_history ← as_dict (por incoming_history (VDict []));
  let incoming_id := dget incoming_history "currentId" in
  let existing_id := dget existing_history "currentId" in
  known ← in_messages incoming_id messages;
  current_id ← (if (known : bool) then Ok incoming_id
                else known ← in_messages existing_id messages;
                     Ok (if (known : bool) then existing_id else VNone));
  Ok (dict_update (dict_update existing_history incoming_history)
        [("messages", VDict messages); ("currentId", current_id)]).

(** ** Deletion *)

(** The ids of the messages without a parent, in their order. *)
Fixpoint root_ids (messages : pydict) : res (list pyval) :=
  match messages with
  | [] => Ok []
  | (k, m) :: r =>
      parent ← vget m "parentId"; rest ← root_ids r;
      Ok (if is_none parent then VStr k :: rest else rest)
  end.

(** The loop that follows the last child; it visits an id at most once. *)
Fixpoint last_leaf (fuel : nat) (messages : pydict) (visited : list pyval) (current_id child_ids : pyval)
    : res pyval :=
  match fuel with
  | O => Ok current_id
  | S fuel =>
      if negb (truthy child_ids) then Ok current_id
      else
        id ← last_item child_ids; id ← hashed id;
        if mem_id id visited then Ok current_id
        else
          next ← children_of messages id (VList []);
          last_leaf fuel messages (id :: visited) id next
  end.

(** The links around a message that goes: its parent takes its grandchildren. *)
Definition adopt (messages : pydict) (message_id : string) (parent_id : pyval)
    (grandchild_ids : list string) : res pydict :=
  known ← in_messages parent_id messages;
  messages ←
    match parent_id with
    | VStr p =>
        if (known : bool) then
          d ← as_dict (dget messages p);
          l ← viter (por (dget d "childrenIds") (VList []));
          let kept := List.filter (λ c, negb (py_eqb c (VStr message_id))) l in
          Ok (dict_set p (VDict (dict_set "childrenIds" (VList (kept ++ (VStr <$> grandchild_ids))) d))
                messages)
        else Ok messages
    | _ => Ok messages
    end;
  foldM (λ acc g, d ← match dget acc g with VDict d => Ok d | _ => Err TypeError end;
                  Ok (dict_set g (VDict (dict_set "parentId" parent_id d)) acc))
    messages grandchild_ids.

Fixpoint grandchildren (messages : pydict) (child_ids : list string) : res (list string) :=
  match child_ids with
  | [] => Ok []
  | c :: r =>
      l ← vget (dgetd messages c (VDict [])) "childrenIds";
      l ← viter (por l (VList []));
      ids ← known_ids l messages; rest ← grandchildren messages r;
      Ok (ids ++ rest)
  end.

(** [delete_message_from_history]: the history and the ids deleted. *)
Definition delete_message_from_history (history : pydict) (message_id : string)
    : res (pydict * list string) :=
  messages ← match por (dget history "messages") (VDict []) with
             | VDict m => Ok m
             | _ => Err AttributeError
             end;
  match dget messages message_id with
  | VDict message =>
      let parent_id := dget message "parentId" in
      l ← viter (por (dget message "childrenIds") (VList []));
      child_ids ← known_ids l messages;
      grandchild_ids ← grandchildren messages child_ids;
      messages ← adopt messages message_id parent_id grandchild_ids;
      let deleted := message_id :: child_ids in
      let messages := foldl (λ acc k, dict_del k acc) messages deleted in
      start ← (if is_none parent_id then l ← root_ids messages; Ok (VList l)
               else children_of messages parent_id (VList []));
      current_id ← last_leaf (S (S (length messages))) messages [] parent_id start;
      known ← in_messages current_id messages;
      Ok (dict_set "currentId" (if (known : bool) then current_id else VNone)
            (dict_set "messages" (VDict messages) history), deleted)
  | _ => Ok (history, [])
  end.

(** ** Upserts *)

Definition turn_meta_keys : list string := ["voice"; "task_id"; "response_started_at"; "response_ended_at"].

(** The [meta] of a message that is saved again: updates of the turn's own
    timing and speech extend it; others replace the rest of it. *)
Definition merge_meta (existing message : pydict) : pydict :=
  let existing_meta := match dget existing "meta" with VDict m => m | _ => [] end in
  match dget message "meta" with
  | VDict incoming_meta =>
      let meta :=
        if forallb (λ k, existsb (String.eqb k) turn_meta_keys) (dict_keys incoming_meta)
        then dict_update existing_meta incoming_meta
        else dict_update
               (pick_keys turn_meta_keys existing_meta) incoming_meta in
      dict_set "meta" (VDict meta) message
  | _ => message
  end.

(** A message that lists the id among its children *)
Fixpoint find_parent (message_id : string) (messages : pydict) : res pyval :=
  match messages with
  | [] => Ok VNone
  | (k, m) :: r =>
      children ← vgetd m "childrenIds" (VList []);
      b ← contains_id message_id children;
      if (b : bool) then Ok (VStr k) else find_parent message_id r
  end.

Definition role_after (parent : pyval) : res pyval :=
  parent_role ← (if truthy parent then vget parent "role" else Ok VNone);
  Ok (VStr (if veq_str parent_role "user" then "assistant"
            else if veq_str parent_role "assistant" then "user" else "assistant")).

(** The row of a message that is saved for the first time. *)
Definition new_message (messages : pydict) (message_id : string) (message : pydict) (now : Z)
    : res pydict :=
  let message_parent_id := dget message "parentId" in
  parent_id ← (if is_none message_parent_id then find_parent message_id messages
               else Ok message_parent_id);
  parent ← (if truthy parent_id then get_by messages parent_id else Ok VNone);
  output ← viter (por (dget message "output") (VList []));
  let role := por (dget message "role") (output_role output) in
  role ← (if truthy role then Ok role else role_after parent);
  Ok (dict_update message
        [("id", por (dget message "id") (VStr message_id));
         ("parentId", if is_none message_parent_id then parent_id else message_parent_id);
         ("childrenIds", match dget message "childrenIds" with VList l => VList l | _ => VList [] end);
         ("role", role);
         ("timestamp", por (dget message "timestamp") (VInt now))]).

(** [upsert_message_to_history]: the history and the saved message. *)
Definition upsert_message_to_history (history : pydict) (message_id : string) (message : pydict)
    (now : Z) : res (pydict * pyval) :=
  let history := dict_setdefault "messages" (VDict []) history in
  messages ← match dget history "messages" with VDict m => Ok m | _ => Err TypeError end;
  r ← match dict_get message_id messages with
      | Some existing =>
          d ← as_dict existing;
          Ok (dict_set message_id (VDict (dict_update d (merge_meta d message))) messages, history)
      | None =>
          m ← new_message messages message_id message now;
          Ok (dict_set message_id (VDict m) messages, dict_set "currentId" (VStr message_id) history)
      end;
  parent ← vget (dget r.1 message_id) "parentId";
  linked ← add_child_id_to_parent r.1 parent message_id;
  Ok (dict_set "messages" (VDict linked.1) r.2, dget linked.1 message_id).

(** ** Text the database cannot store *)

(** [sanitize_text_for_db]; there are no surrogates below code point 256. *)
Fixpoint sanitize_text_for_db (s : string) : string :=
  match s with
  | EmptyString => EmptyString
  | String c s' => if (Str.code c =? 0)%nat then sanitize_text_for_db s'
                   else String c (sanitize_text_for_db s')
  end.

(** [_strip_null_bytes_deep].  [sanitize_data_for_db] skips this walk when it
    would change nothing. *)
Fixpoint sanitize_data_for_db (v : pyval) : pyval :=
  match v with
  | VStr s => VStr (sanitize_text_for_db s)
  | VList l => VList (map sanitize_data_for_db l)
  | VDict d =>
      VDict ((fix go d acc := match d with
              | [] => acc
              | (k, x) :: r => go r (dict_set (sanitize_text_for_db k) (sanitize_data_for_db x) acc)
              end) d [])
  | _ => v
  end.

(** [_clean_null_bytes] of a message *)
Definition clean_message (m : pydict) : pydict :=
  match sanitize_data_for_db (VDict m) with VDict d => d | _ => m end.

(** ** A turn of the user *)

Definition conflict : exn := HTTPException 409 "Message already exists or has an invalid ID.".

(** Ids that may be used: non-empty texts, all different. *)
Fixpoint turn_ids (ids : list pyval) : res (list string) :=
  match ids with
  | [] => Ok []
  | VStr s :: r => if Str.is_empty s then Err conflict else l ← turn_ids r; Ok (s :: l)
  | _ => Err conflict
  end.

(** A reply that is already there must be an unused one of the same user. *)
Definition check_reply (messages : pydict) (chat_user_id user_id : string) (user_message : pydict)
    (user_message_id : pyval) (mid : string) : res unit :=
  let existing := dget messages mid in
  if negb (truthy existing) then Ok tt
  else
    reply ← as_dict existing;
    if negb (veq_str (dget reply "role") "assistant")
       || truthy (dget reply "done") || truthy (dget reply "content")
       || truthy (dget reply "output")
       || negb (py_eqb (por (dget reply "user_id") (VStr chat_user_id)) (VStr user_id))
       || (truthy (VDict user_message) && negb (py_eqb (dget reply "parentId") user_message_id))
    then Err conflict else Ok tt.

Definition user_turn (messages : pydict) (chat_user_id user_id user_name : string)
    (user_message : pydict) (user_message_id : pyval) (now : Z) : res (pydict * pyval) :=
  existing ← get_by messages user_message_id;
  existing ← (if truthy existing then d ← as_dict existing; Ok (Some d) else Ok None);
  match existing with
  | Some e =>
      if negb (veq_str (dget e "role") "user")
      then Err (HTTPException 403 "You can only regenerate replies to user messages.")
      else
        let parent_id := dget e "parentId" in
        known ← in_messages parent_id messages;
        if negb (is_none parent_id) && negb known
        then Err (HTTPException 409 "Parent message no longer exists.")
        else
          let own := py_eqb (por (dget e "user_id") (VStr chat_user_id)) (VStr user_id) in
          Ok (if dict_has "models" user_message && own
              then dict_set "models" (dget user_message "models") e else e, parent_id)
  | None =>
      let parent_id := dget user_message "parentId" in
      known ← in_messages parent_id messages;
      if negb (is_none parent_id) && negb known
      then Err (HTTPException 409 "Parent message no longer exists.")
      else
        let message :=
          if String.eqb chat_user_id user_id then user_message
          else pick_keys ["content"; "files"; "models"] user_message in
        Ok (dict_update message
              [("id", user_message_id); ("parentId", parent_id); ("role", VStr "user");
               ("childrenIds", VList []); ("timestamp", VInt now); ("user_id", VStr user_id);
               ("user", VDict [("id", VStr user_id); ("name", VStr user_name)])], parent_id)
  end.

Definition reply_message (user_id : string) (user_message_id : pyval) (now : Z) (mid : string)
    (entry : pydict) : res pydict :=
  model_id ← ditem entry "model_id";
  Ok [("id", VStr mid); ("parentId", user_message_id); ("childrenIds", VList []);
      ("role", VStr "assistant"); ("content", VStr ""); ("done", VBool false);
      ("model", model_id); ("modelIdx", dget entry "modelIdx"); ("timestamp", VInt now);
      ("user_id", VStr user_id)].

Definition insert_reply (user_id : string) (user_message_id : pyval) (now : Z) (history : pydict)
    (e : string * pydict) : res pydict :=
  m ← reply_message user_id user_message_id now e.1 e.2;
  r ← upsert_message_to_history history e.1 m now;
  Ok r.1.

(** [insert_chat_turn], past the access check: the chat, the ids of the turn,
    whose messages are written to the message table and answered (with the
    parent), and the id shown.  [user_message] is empty when replies are
    regenerated. *)
Definition insert_chat_turn (chat : pydict) (chat_user_id user_id user_name : string)
    (user_message : pydict) (message_ids : list pydict) (now : Z)
    : res (pydict * list string * pyval) :=
  let dflt := [("messages", VDict []); ("currentId", VNone)] in
  history ← as_dict (por (dget chat "history") (VDict dflt));
  messages ← as_dict (por (dget history "messages") (VDict []));
  let user_message_id := dget user_message "id" in
  let assistant_ids := map (λ e, dget e "message_id") message_ids in
  ids ← turn_ids (if truthy (VDict user_message) then user_message_id :: assistant_ids
                  else assistant_ids);
  if negb (bool_decide (NoDup ids)) then Err conflict
  else
    let replies := if truthy (VDict user_message) then tail ids else ids in
    _ ← mapR (check_reply messages chat_user_id user_id user_message user_message_id) replies;
    h ← match user_message, user_message_id with
        | _ :: _, VStr umid =>
            t ← user_turn messages chat_user_id user_id user_name user_message user_message_id now;
            r ← upsert_message_to_history history umid (clean_message t.1) now;
            Ok (r.1, t.2)
        | _, _ => Ok (history, VNone)
        end;
    let history := h.1 in
    history ← foldM (insert_reply user_id user_message_id now) history (zip replies message_ids);
    current_id ← ditem history "currentId";
    Ok (dict_set "history" (VDict history) chat,
        ids ++ match h.2 with VStr p => if Str.is_empty p then [] else [p] | _ => [] end,
        current_id).

(** ** Patching a chat *)

(** [v is False] *)
Definition is_False (v : pyval) : bool := match v with VBool b => negb b | _ => false end.

(** A stored message that a patch must not replace: one of another author, or
    a reply that is still being written. *)
Definition keeps_stored (chat_user_id : string) (updated : pydict) (mid : string) (message : pydict)
    : res bool :=
  if negb (py_eqb (por (dget message "user_id") (VStr chat_user_id)) (VStr chat_user_id)) then Ok true
  else if negb (veq_str (dget message "role") "assistant") then Ok false
  else if is_False (dget message "done") then Ok true
  else m ← ditem updated mid; done ← vget m "done"; Ok (is_False done).

Definition restore_step (chat_user_id : string) (updated : pydict) (kv : string * pyval) : res pydict :=
  message ← as_dict kv.2;
  keep ← keeps_stored chat_user_id updated kv.1 message;
  Ok (if (keep : bool) then dict_set kv.1 (VDict message) updated else updated).

(** The history [update_chat_by_id] stores: the caller's, merged with what was
    saved since the caller read it. *)
Definition update_history (chat_user_id : string) (stored : pydict) (incoming_history : pyval)
    : res pydict :=
  h ← merge_history (dget stored "history") incoming_history;
  saved ← vget (dgetd stored "history" (VDict [])) "messages";
  saved ← as_dict (por saved (VDict []));
  merged ← messages_in (VDict h);
  messages ← foldM (restore_step chat_user_id) merged saved;
  merge_history (VDict (dict_set "messages" (VDict messages) h)) (VDict []).

(** ** Forks *)

(** The messages from the given one up to its root.  Only texts are keys, so
    the loop ends after one pass per message and one more. *)
Fixpoint fork_branch (fuel : nat) (messages_map : pydict) (seen : list pyval) (message_id : pyval)
    : res (list (string * pydict)) :=
  match fuel with
  | O => Err RecursionError
  | S fuel =>
      if negb (truthy message_id) then Ok []
      else
        id ← hashed message_id;
        if mem_id id seen then Err (ValueError "message branch contains a cycle")
        else
          message ← get_by messages_map id;
          match id, message with
          | VStr s, VDict d =>
              r ← fork_branch fuel messages_map (id :: seen) (dget d "parentId"); Ok ((s, d) :: r)
          | _, _ => Err (ValueError "message not found")
          end
  end.

(** [fork_messages], the ids of [ordered_messages], whose items are the same
    objects, and [parent_id]. *)
Record fork_state := { fk_messages : pydict; fk_ordered : list string; fk_parent : pyval }.

Definition fork_step (s : fork_state) (m : string * pydict) : res fork_state :=
  let copied := dict_set "childrenIds" (VList [])
                  (dict_set "parentId" (fk_parent s) (dict_set "id" (VStr m.1) m.2)) in
  messages ←
    match fk_parent s with
    | VStr p =>
        if Str.is_empty p then Ok (fk_messages s)
        else parent ← ditem (fk_messages s) p; parent ← as_dict parent;
             Ok (dict_set p (VDict (dict_set "childrenIds" (VList [VStr m.1]) parent)) (fk_messages s))
    | _ => Ok (fk_messages s)
    end;
  Ok {| fk_messages := dict_set m.1 (VDict copied) messages;
        fk_ordered := fk_ordered s ++ [m.1]; fk_parent := VStr m.1 |}.

(** [build_fork_history]: the history of the fork and its messages in order. *)
Definition build_fork_history (messages_map : pydict) (source_message_id : string)
    : res (pydict * list pyval) :=
  match messages_map with
  | [] => Err (ValueError "chat has no messages to fork")
  | _ =>
      branch ← fork_branch (S (S (length messages_map))) messages_map [] (VStr source_message_id);
      s ← foldM fork_step {| fk_messages := []; fk_ordered := []; fk_parent := VNone |} (rev branch);
      Ok ([("messages", VDict (fk_messages s)); ("currentId", VStr source_message_id)],
          map (dget (fk_messages s)) (fk_ordered s))
  end.

(** ** The chat and its message rows *)

(** The columns of a chat these methods write. *)
Record chat_row := {
  cr_user_id : string;
  cr_chat : pydict;
  cr_title : pyval;
  cr_current_message_id : pyval;
  cr_updated_at : Z;
}.

(** Writes to the message table in the same transaction. *)
Inductive row_write :=
| WriteRow (message_id : string) (user_id : pyval) (message : pyval)
| DeleteRows (message_ids : list string).

Definition write_row (chat_user_id : string) (message_id : string) (message : pyval) : res row_write :=
  user_id ← vget message "user_id";
  Ok (WriteRow message_id (por user_id (VStr chat_user_id)) message).

(** The columns that follow the chat after a change. *)
Definition with_chat (chat : pydict) (updated_at : Z) (row : chat_row) : chat_row :=
  {| cr_user_id := cr_user_id row; cr_chat := chat;
     cr_title := sanitize_data_for_db (dgetd chat "title" (VStr "New Chat"));
     cr_current_message_id := get_current_message_id chat; cr_updated_at := updated_at |}.

Section Store.
Context (repr_other : pyval → string).

(** A message without content takes the text of its output; no null bytes. *)
Definition prepare_message (message : pydict) : pydict :=
  clean_message
    (if truthy (dget message "content") then message
     else let text := get_output_text repr_other (dget message "output") in
          if Str.is_empty text then message else dict_set "content" (VStr text) message).

(** [upsert_message_to_chat_by_id_and_message_id], for a chat that exists.  An
    exception rolls the transaction back and answers None. *)
Definition save_message (row : chat_row) (message_id : string) (message : pydict) (touch : bool)
    (now : Z) : res (chat_row * list row_write) :=
  let message_id := sanitize_text_for_db message_id in
  repaired ← repair_chat_current_id (cr_chat row);
  history ← as_dict (dgetd repaired.1 "history" (VDict []));
  r ← upsert_message_to_history history message_id (prepare_message message) now;
  w ← write_row (cr_user_id row) message_id r.2;
  Ok (with_chat (dict_set "history" (VDict r.1) repaired.1)
        (if touch then now else cr_updated_at row) row, [w]).

(** The messages below a parent are written again. *)
Fixpoint write_children (chat_user_id : string) (parent_id : pyval) (messages : pydict)
    : res (list row_write) :=
  match messages with
  | [] => Ok []
  | (mid, message) :: r =>
      p ← vget message "parentId"; w ← write_row chat_user_id mid message;
      rest ← write_children chat_user_id parent_id r;
      Ok (if py_eqb p parent_id then w :: rest else rest)
  end.

(** [delete_message_from_chat_by_id_and_message_id], for a chat that exists. *)
Definition delete_message (row : chat_row) (message_id : string) (now : Z)
    : res (chat_row * list row_write) :=
  repaired ← repair_chat_current_id (cr_chat row);
  history ← as_dict (dgetd repaired.1 "history" (VDict []));
  messages ← as_dict (por (dget history "messages") (VDict []));
  message ← as_dict (por (dget messages message_id) (VDict []));
  let parent_id := dget message "parentId" in
  r ← delete_message_from_history history message_id;
  match r.2 with
  | [] => Ok (with_chat repaired.1 (cr_updated_at row) row, [DeleteRows []])
  | _ =>
      left ← as_dict (por (dget r.1 "messages") (VDict []));
      ws ← write_children (cr_user_id row) parent_id left;
      Ok (with_chat (dict_set "history" (VDict r.1) repaired.1) now row, DeleteRows r.2 :: ws)
  end.

(** The messages of the patch that changed are written again. *)
Fixpoint write_changed (chat_user_id : string) (stored updated : pydict) (mids : list string)
    : res (list row_write) :=
  match mids with
  | [] => Ok []
  | mid :: r =>
      let message := dget updated mid in
      role ← (if truthy message then vget message "role" else Ok VNone);
      w ← (if truthy role && negb (py_eqb message (dget stored mid))
           then w ← write_row chat_user_id mid message; Ok [w] else Ok []);
      rest ← write_changed chat_user_id stored updated r;
      Ok (w ++ rest)
  end.

(** [(chat.get('history', {}).get('messages') or {})] *)
Definition history_messages (chat : pydict) : res pydict :=
  m ← vget (dgetd chat "history" (VDict [])) "messages"; as_dict (por m (VDict [])).

(** [update_chat_by_id], for a chat that exists; [chat] holds the keys that are
    patched. *)
Definition update_chat (row : chat_row) (chat : pydict) (touch : bool) (now : Z)
    : res (chat_row * list row_write) :=
  let stored := cr_chat row in
  let updated := dict_update stored chat in
  updated ← (if dict_has "history" chat
             then h ← update_history (cr_user_id row) stored (dget chat "history");
                  Ok (dict_set "history" (VDict h) updated)
             else Ok updated);
  let updated := clean_message updated in
  patched ← history_messages chat;
  ws ← (if match patched with [] => true | _ => false end then Ok []
        else saved ← history_messages stored; new ← history_messages updated;
             write_changed (cr_user_id row) saved new (dict_keys patched));
  Ok ({| cr_user_id := cr_user_id row; cr_chat := updated;
         cr_title := dgetd updated "title" (VStr "New Chat");
         cr_current_message_id :=
           if existsb (λ k, dict_has k chat) ["history"; "messages"; "currentId"; "branchPointMessageId"]
           then get_current_message_id updated else cr_current_message_id row;
         cr_updated_at := if touch then now else cr_updated_at row |}, ws).
End Store.
