(* ===== verification/ChatTreeProps.v ===== *)
(** * Properties of [ChatTree]: the links of the messages of a chat form a
    forest, which saving and deleting messages keep; merging loses no message
    and rebuilds the links; a fork is a chat of its own whose branch is the
    branch it was taken from. *)

From S2P Require Import Prelude PyVal Messages MessagesProps ChatTree.

(** ** Forests

    What the links of a stored chat mean: a message by its id, with its parent
    and its children in their order. *)
Record node := Node { nd_parent : option string; nd_children : list string }.
Notation graph := (gmap string node).

Record forest (G : graph) : Prop := {
  fo_named : G !! "" = None;
  fo_parent k n p : G !! k = Some n → nd_parent n = Some p → is_Some (G !! p);
  fo_nodup k n : G !! k = Some n → NoDup (nd_children n);
  fo_children k n c : G !! k = Some n →
    c ∈ nd_children n ↔ ∃ n', G !! c = Some n' ∧ nd_parent n' = Some k;
  fo_rank : ∃ rank : string → nat,
    ∀ k n p, G !! k = Some n → nd_parent n = Some p → rank p < rank k;
}.

Definition add_child (c : string) (n : node) : node :=
  Node (nd_parent n) (nd_children n ++ [c]).

(** A message is added under a message, or as a root. *)
Definition graft (c : string) (parent : option string) (G : graph) : graph :=
  <[c := Node parent []]> (match parent with Some p => alter (add_child c) p G | None => G end).

(** A message and its children go; its grandchildren move up to its parent. *)
Definition grandchildren_in (G : graph) (children : list string) : list string :=
  children ≫= λ c, match G !! c with Some n => nd_children n | None => [] end.

Definition set_parent (p : option string) (n : node) : node := Node p (nd_children n).
Definition replace_child (c : string) (l : list string) (n : node) : node :=
  Node (nd_parent n) (filter (λ x, x ≠ c) (nd_children n) ++ l).

Definition prune (id : string) (n : node) (G : graph) : graph :=
  let grand := grandchildren_in G (nd_children n) in
  let adopted := match nd_parent n with
                 | Some p => alter (replace_child id grand) p G
                 | None => G
                 end in
  let moved := foldl (λ H g, alter (set_parent (nd_parent n)) g H) adopted grand in
  foldl (λ H k, delete k H) moved (id :: nd_children n).

Lemma forest_empty : forest ∅.
Proof.
  assert (∀ k n, (∅ : graph) !! k = Some n → False) as Hno by (intros k n; by rewrite lookup_empty).
  split; [done|by intros k n p ?%Hno|by intros k n ?%Hno|by intros k n c ?%Hno|].
  exists (λ _, 0). by intros k n p ?%Hno.
Qed.

Lemma fo_irrefl G k n : forest G → G !! k = Some n → nd_parent n ≠ Some k.
Proof. intros [????[f Hf]] Hk Hp. specialize (Hf k n k Hk Hp). lia. Qed.

Lemma forest_graft G c p :
  forest G → G !! c = None → c ≠ "" → (∀ q, p = Some q → is_Some (G !! q)) →
  forest (graft c p G).
Proof.
  intros HG Hc Hne Hp. pose proof HG as [Hn Hpar Hnd Hch [f Hf]].
  assert (∀ k n, G !! k = Some n → nd_parent n ≠ Some c) as Hnoc.
  { intros k n Hk Hpk. destruct (Hpar k n c Hk Hpk) as [? ?]. congruence. }
  (* the nodes of the new graph *)
  assert (∀ k, k ≠ c → graft c p G !! k =
            (if decide (p = Some k) then add_child c <$> G !! k else G !! k)) as Hk.
  { intros k Hkc. unfold graft. rewrite lookup_insert_ne by done. destruct p as [q|]; [|done].
    destruct (decide (q = k)) as [->|?].
    - by rewrite lookup_alter_eq, decide_True.
    - rewrite lookup_alter_ne by done. by rewrite decide_False by congruence. }
  assert (graft c p G !! c = Some (Node p [])) as Hcc by (by apply lookup_insert_eq).
  assert (∀ k n, graft c p G !! k = Some n → k ≠ c → ∃ n0, G !! k = Some n0 ∧
            nd_parent n = nd_parent n0 ∧
            nd_children n = if decide (p = Some k) then nd_children n0 ++ [c] else nd_children n0)
    as Hold.
  { intros k n H Hkc. rewrite Hk in H by done. destruct (decide (p = Some k)) as [Hd|Hd].
    - apply fmap_Some in H as (n0 & ? & ->). by exists n0.
    - by exists n. }
  assert (∀ k n0, G !! k = Some n0 → ∃ n, graft c p G !! k = Some n ∧ nd_parent n = nd_parent n0)
    as Hnew.
  { intros k n0 H. assert (k ≠ c) by congruence. rewrite Hk by done.
    destruct (decide (p = Some k)); rewrite H; by eexists. }
  split.
  - rewrite Hk by done. rewrite Hn. by destruct (decide _).
  - intros k n q H Hq. destruct (decide (k = c)) as [->|Hkc].
    + rewrite Hcc in H. injection H as <-. cbn in Hq. destruct (Hp q Hq) as [n0 H0].
      destruct (Hnew q n0 H0) as (? & ? & ?). by eexists.
    + destruct (Hold k n H Hkc) as (n0 & H0 & Hpn & _). rewrite Hpn in Hq.
      destruct (Hpar k n0 q H0 Hq) as [n1 H1]. destruct (Hnew q n1 H1) as (? & ? & ?). by eexists.
  - intros k n H. destruct (decide (k = c)) as [->|Hkc].
    + rewrite Hcc in H. injection H as <-. constructor.
    + destruct (Hold k n H Hkc) as (n0 & H0 & _ & ->). destruct (decide _); [|by apply (Hnd k)].
      apply NoDup_app. split; [by apply (Hnd k)|]. split; [|apply NoDup_singleton].
      intros x Hx ->%list_elem_of_singleton. apply (Hch k n0 c H0) in Hx as (? & ? & _). congruence.
  - intros k n x H. destruct (decide (k = c)) as [->|Hkc].
    + rewrite Hcc in H. injection H as <-. split; [by intros ?%elem_of_nil|].
      intros (n' & Hx & Hpx). exfalso. destruct (decide (x = c)) as [->|Hxc].
      * rewrite Hcc in Hx. injection Hx as <-. cbn in Hpx. destruct (Hp c Hpx) as [? ?]. congruence.
      * destruct (Hold x n' Hx Hxc) as (n0 & H0 & Hpn & _). apply (Hnoc x n0 H0). congruence.
    + destruct (Hold k n H Hkc) as (n0 & H0 & _ & ->).
      assert (x ∈ nd_children n0 ↔ ∃ n', x ≠ c ∧ graft c p G !! x = Some n' ∧ nd_parent n' = Some k)
        as Hin.
      { rewrite (Hch k n0 x H0). split.
        - intros (n' & Hx & Hpx). destruct (Hnew x n' Hx) as (n2 & ? & ?). exists n2.
          split; [congruence|]. split; [done|congruence].
        - intros (n' & Hxc & Hx & Hpx). destruct (Hold x n' Hx Hxc) as (n2 & ? & ? & _).
          exists n2. split; [done|congruence]. }
      destruct (decide (p = Some k)) as [->|Hpk].
      * rewrite elem_of_app, list_elem_of_singleton, Hin. split.
        -- intros [(n' & _ & ?)| ->]; [by exists n'|by eexists].
        -- intros (n' & Hx & Hpx). destruct (decide (x = c)) as [->|]; [by right|left; by exists n'].
      * rewrite Hin. split; [intros (n' & _ & ?); by exists n'|].
        intros (n' & Hx & Hpx). exists n'. split; [|done]. intros ->.
        rewrite Hcc in Hx. injection Hx as <-. done.
  - exists (λ k, if decide (k = c) then S (match p with Some q => f q | None => 0 end) else f k).
    intros k n q H Hq. destruct (decide (k = c)) as [->|Hkc].
    + rewrite Hcc in H. injection H as <-. cbn in Hq. subst p. destruct (Hp q eq_refl) as [? ?].
      rewrite decide_False by congruence. lia.
    + destruct (Hold k n H Hkc) as (n0 & H0 & Hpn & _). rewrite Hpn in Hq.
      rewrite decide_False by (intros ->; by apply (Hnoc k n0)). by apply (Hf k n0).
Qed.

Lemma lookup_foldl_delete (G : graph) l k :
  foldl (λ H x, delete x H) G l !! k = if decide (k ∈ l) then None else G !! k.
Proof.
  revert G. induction l as [|x l IH]; intros G; cbn; [done|]. rewrite IH.
  destruct (decide (k ∈ l)); [by rewrite decide_True by (by right)|].
  destruct (decide (x = k)) as [->|Hne].
  - rewrite lookup_delete_eq. by rewrite decide_True by left.
  - rewrite lookup_delete_ne by done. rewrite decide_False; [done|]. by intros [?|?]%elem_of_cons.
Qed.

Lemma lookup_foldl_alter (f : node → node) (G : graph) l k : (∀ n, f (f n) = f n) →
  foldl (λ H g, alter f g H) G l !! k = if decide (k ∈ l) then f <$> G !! k else G !! k.
Proof.
  intros Hf. revert G. induction l as [|x l IH]; intros G; cbn; [done|]. rewrite IH.
  destruct (decide (x = k)) as [->|Hne].
  - rewrite lookup_alter_eq, (decide_True (P := k ∈ k :: l)) by left.
    destruct (decide (k ∈ l)); [|done]. destruct (G !! k); cbn; by rewrite ?Hf.
  - rewrite lookup_alter_ne by done. destruct (decide (k ∈ l)).
    + by rewrite decide_True by (by right).
    + rewrite decide_False; [done|]. by intros [?|?]%elem_of_cons.
Qed.

#[local] Arguments prune : simpl never.

(** The node that is left of one that stays. *)
Definition pruned (id : string) (n : node) (G : graph) (k : string) (n0 : node) : node :=
  Node (if decide (k ∈ grandchildren_in G (nd_children n)) then nd_parent n else nd_parent n0)
       (if decide (nd_parent n = Some k)
        then filter (λ x, x ≠ id) (nd_children n0) ++ grandchildren_in G (nd_children n)
        else nd_children n0).

Lemma prune_lookup id n G k :
  prune id n G !! k =
    if decide (k ∈ id :: nd_children n) then None else pruned id n G k <$> G !! k.
Proof.
  unfold prune, pruned. rewrite lookup_foldl_delete. destruct (decide _) as [|Hkd]; [done|].
  rewrite lookup_foldl_alter by done.
  set (grand := grandchildren_in G (nd_children n)).
  assert ((match nd_parent n with Some p => alter (replace_child id grand) p G | None => G end) !! k =
    (λ n0, Node (nd_parent n0) (if decide (nd_parent n = Some k)
       then filter (λ x, x ≠ id) (nd_children n0) ++ grand else nd_children n0)) <$> G !! k) as ->.
  { destruct (nd_parent n) as [p|].
    - destruct (decide (p = k)) as [->|Hne].
      + rewrite lookup_alter_eq. destruct (G !! k); cbn; [|done]. by rewrite decide_True.
      + rewrite lookup_alter_ne by done. destruct (G !! k) as [[]|]; cbn; [|done].
        by rewrite decide_False by congruence.
    - destruct (G !! k) as [[]|]; done. }
  destruct (G !! k) as [n0|]; cbn; destruct (decide (k ∈ grand)); done.
Qed.

Section Prune.
Context (G : graph) (id : string) (n : node).
Context (HG : forest G) (Hid : G !! id = Some n).

Lemma grand_spec g :
  g ∈ grandchildren_in G (nd_children n) ↔
    ∃ c nc ng, G !! c = Some nc ∧ nd_parent nc = Some id ∧ G !! g = Some ng ∧ nd_parent ng = Some c.
Proof using HG Hid.
  unfold grandchildren_in. rewrite list_elem_of_bind. split.
  - intros (c & Hg & Hc). apply (fo_children _ HG id n c Hid) in Hc as (nc & Hnc & Hp).
    rewrite Hnc in Hg. apply (fo_children _ HG c nc g Hnc) in Hg as (ng & ? & ?). by exists c, nc, ng.
  - intros (c & nc & ng & Hc & Hp & Hg & Hpg). exists c. rewrite Hc. split.
    + apply (fo_children _ HG c nc g Hc). by exists ng.
    + apply (fo_children _ HG id n c Hid). by exists nc.
Qed.

Lemma grand_not_deleted g :
  g ∈ grandchildren_in G (nd_children n) → g ∉ id :: nd_children n.
Proof using HG Hid.
  intros (c & nc & ng & Hc & Hp & Hg & Hpg)%grand_spec. pose proof (fo_rank _ HG) as [f Hf].
  pose proof (Hf _ _ _ Hc Hp). pose proof (Hf _ _ _ Hg Hpg).
  intros [->|Hin]%elem_of_cons; [lia|].
  apply (fo_children _ HG id n g Hid) in Hin as (ng' & Hg' & Hp'). simplify_eq. lia.
Qed.

Lemma parent_not_deleted q : nd_parent n = Some q →
  q ∉ id :: nd_children n ∧ q ∉ grandchildren_in G (nd_children n).
Proof using HG Hid.
  intros Hq. pose proof (fo_rank _ HG) as [f Hf]. pose proof (Hf _ _ _ Hid Hq). split.
  - intros [->|Hin]%elem_of_cons; [lia|].
    apply (fo_children _ HG id n q Hid) in Hin as (nq & Hnq & Hp). pose proof (Hf _ _ _ Hnq Hp). lia.
  - intros (c & nc & ng & Hc & Hp & Hg & Hpg)%grand_spec.
    pose proof (Hf _ _ _ Hc Hp). pose proof (Hf _ _ _ Hg Hpg). lia.
Qed.

Lemma grand_NoDup : NoDup (grandchildren_in G (nd_children n)).
Proof using HG Hid.
  unfold grandchildren_in. pose proof (fo_nodup _ HG _ _ Hid) as Hnd.
  induction Hnd as [|c l Hc _ IH]; cbn; [constructor|].
  apply NoDup_app. split; [|split; [|exact IH]].
  - destruct (G !! c) eqn:E; [|constructor]. by apply (fo_nodup _ HG c).
  - destruct (G !! c) as [nc|] eqn:E; [|by intros x ?%elem_of_nil].
    intros x (nx & Hx & Hpx)%(fo_children _ HG c nc x E) (c' & Hx' & Hc')%list_elem_of_bind.
    destruct (G !! c') as [nc'|] eqn:E'; [|by apply elem_of_nil in Hx'].
    apply (fo_children _ HG c' nc' x E') in Hx' as (nx' & ? & ?).
    assert (c = c') by congruence. by subst.
Qed.

(** A node that stays, and one it comes from. *)
Lemma pruned_inv k m : prune id n G !! k = Some m →
  k ∉ id :: nd_children n ∧ ∃ n0, G !! k = Some n0 ∧ m = pruned id n G k n0.
Proof using.
  rewrite prune_lookup. destruct (decide _) as [|Hkd]; [done|]. intros (n0 & ? & ->)%fmap_Some. eauto.
Qed.

Lemma pruned_stays k n0 : G !! k = Some n0 → k ∉ id :: nd_children n →
  prune id n G !! k = Some (pruned id n G k n0).
Proof using. intros Hk Hd. rewrite prune_lookup, decide_False by done. by rewrite Hk. Qed.

(** The parent of a node that stays. *)
Lemma pruned_parent k n0 p : G !! k = Some n0 → k ∉ id :: nd_children n →
  nd_parent (pruned id n G k n0) = Some p →
  p ∉ id :: nd_children n ∧ is_Some (G !! p).
Proof using HG Hid.
  intros Hk Hd. cbn. destruct (decide _) as [Hg|Hg]; intros Hp.
  - split; [by apply parent_not_deleted|]. by apply (fo_parent _ HG id n).
  - split; [|by apply (fo_parent _ HG k n0)]. intros [->|Hin]%elem_of_cons.
    + apply Hd. right. apply (fo_children _ HG id n k Hid). by exists n0.
    + apply Hg, grand_spec. apply (fo_children _ HG id n p Hid) in Hin as (np & ? & ?).
      by exists p, np, n0.
Qed.

Lemma forest_prune : forest (prune id n G).
Proof using HG Hid.
  pose proof (fo_rank _ HG) as [f Hf]. split.
  - rewrite prune_lookup. destruct (decide _); [done|]. by rewrite (fo_named _ HG).
  - intros k m p (Hd & n0 & H0 & ->)%pruned_inv Hp.
    destruct (pruned_parent k n0 p H0 Hd Hp) as [Hpd [np Hnp]].
    by rewrite (pruned_stays p np).
  - intros k m (Hd & n0 & H0 & ->)%pruned_inv. cbn.
    destruct (decide _) as [Hq|]; [|by apply (fo_nodup _ HG k)].
    apply NoDup_app. split; [by apply NoDup_filter, (fo_nodup _ HG k)|]. split; [|apply grand_NoDup].
    intros x [_ Hx]%list_elem_of_filter (c & nc & ng & Hc & Hpc & Hg & Hpg)%grand_spec.
    apply (fo_children _ HG k n0 x H0) in Hx as (nx & ? & ?).
    assert (c = k) by congruence. subst c. destruct (parent_not_deleted k Hq) as [[]%not_elem_of_cons _].
    assert (nc = n0) by congruence. subst nc. destruct (Hd). right.
    apply (fo_children _ HG id n k Hid). by exists n0.
  - intros k m c (Hd & n0 & H0 & ->)%pruned_inv. cbn.
    assert (c ∉ id :: nd_children n → c ∉ grandchildren_in G (nd_children n) →
      c ∈ nd_children n0 ↔ ∃ n', prune id n G !! c = Some n' ∧ nd_parent n' = Some k) as Hplain.
    { intros Hcd Hcg. rewrite (fo_children _ HG k n0 c H0). split.
      - intros (nc & Hc & Hpc). exists (pruned id n G c nc). split; [by apply pruned_stays|].
        cbn. by rewrite decide_False.
      - intros (m & (_ & nc & Hc & ->)%pruned_inv & Hpm). exists nc. split; [done|].
        cbn in Hpm. by rewrite decide_False in Hpm. }
    destruct (decide (c ∈ id :: nd_children n)) as [Hcd|Hcd].
    { (* c is deleted *)
      transitivity False.
      - split; [|done]. intros Hin.
        assert (c ∈ nd_children n0 ∧ (nd_parent n = Some k → c ≠ id)) as [Hc Hne].
        { destruct (decide (nd_parent n = Some k)) as [Hq|Hq]; [|done].
          apply elem_of_app in Hin as [[? ?]%list_elem_of_filter|Hin]; [done|].
          by apply grand_not_deleted in Hin. }
        apply (fo_children _ HG k n0 c H0) in Hc as (nc & Hc & Hpc).
        apply elem_of_cons in Hcd as [->|Hcd].
        + apply Hne; [congruence|done].
        + apply (fo_children _ HG id n c Hid) in Hcd as (nc' & ? & ?).
          assert (k = id) by congruence. subst. apply Hd. by left.
      - split; [done|]. intros (m & (? & _)%pruned_inv & _). done. }
    destruct (decide (c ∈ grandchildren_in G (nd_children n))) as [Hcg|Hcg].
    { (* c is a grandchild *)
      pose proof Hcg as (x & nx & nc & Hx & Hpx & Hc & Hpc)%grand_spec.
      assert (prune id n G !! c = Some (pruned id n G c nc)) as Hcc by (by apply pruned_stays).
      assert (nd_parent (pruned id n G c nc) = nd_parent n) as Hpp.
      { cbn. by rewrite decide_True. }
      destruct (decide (nd_parent n = Some k)) as [Hq|Hq].
      - split; [intros _; eexists; split; [exact Hcc|congruence]|]. intros _.
        apply elem_of_app. by right.
      - split.
        + intros (nc' & ? & ?)%(fo_children _ HG k n0 c H0). assert (x = k) by congruence. subst x.
          destruct Hd. right. apply (fo_children _ HG id n k Hid). by exists nx.
        + intros (m & Hm1 & Hm). rewrite Hcc in Hm1. congruence. }
    destruct (decide (nd_parent n = Some k)) as [Hq|Hq]; [|by apply Hplain].
    rewrite elem_of_app, list_elem_of_filter, <-Hplain by done. split; [naive_solver|].
    intros Hc. left. split; [|done]. intros ->. apply Hcd. by left.
  - exists f. intros k m p (Hd & n0 & H0 & ->)%pruned_inv. cbn. destruct (decide _) as [Hg|Hg].
    + apply grand_spec in Hg as (c & nc & ng & Hc & Hpc & Hg & Hpg). intros Hp.
      pose proof (Hf _ _ _ Hc Hpc). pose proof (Hf _ _ _ Hg Hpg). pose proof (Hf _ _ _ Hid Hp). lia.
    + by apply Hf.
Qed.
End Prune.

(** ** Histories as forests *)

Definition link (p : option string) : pyval := match p with Some s => VStr s | None => VNone end.

Record has_links (d : pydict) (n : node) : Prop := {
  hl_keys : NoDup (dict_keys d);
  hl_parent : dget d "parentId" = link (nd_parent n);
  hl_children : dget d "childrenIds" = VList (VStr <$> nd_children n);
}.

(** The messages of a chat and the forest of their links. *)
Record shows (ms : pydict) (G : graph) : Prop := {
  sh_keys : NoDup (dict_keys ms);
  sh_node k : match dict_get k ms with
              | Some v => ∃ d n, v = VDict d ∧ G !! k = Some n ∧ has_links d n
              | None => G !! k = None
              end;
}.

Lemma shows_get ms G k n : shows ms G → G !! k = Some n →
  ∃ d, dict_get k ms = Some (VDict d) ∧ dget ms k = VDict d ∧ has_links d n.
Proof.
  intros [_ Hs] Hk. specialize (Hs k). unfold dget. destruct (dict_get k ms) as [v|]; [|congruence].
  destruct Hs as (d & n' & -> & ? & ?). exists d. simplify_eq. done.
Qed.

Lemma shows_none ms G k : shows ms G → G !! k = None ↔ dict_get k ms = None.
Proof.
  intros [_ Hs]. specialize (Hs k). destruct (dict_get k ms); [|naive_solver].
  destruct Hs as (? & ? & ? & ? & ?). naive_solver.
Qed.

Lemma shows_has ms G k : shows ms G → dict_has k ms = bool_decide (is_Some (G !! k)).
Proof.
  intros Hs. unfold dict_has. destruct (G !! k) as [n|] eqn:E.
  - destruct (shows_get _ _ _ _ Hs E) as (d & -> & _). by rewrite bool_decide_eq_true_2.
  - apply (shows_none _ _ _ Hs) in E as ->. rewrite bool_decide_eq_false_2; [done|]. by intros [??].
Qed.

Lemma shows_set ms G k d n : shows ms G → has_links d n →
  shows (dict_set k (VDict d) ms) (<[k := n]> G).
Proof.
  intros [Hk Hs] Hn. split; [by apply dict_set_NoDup|]. intros x. rewrite dict_get_set.
  destruct (String.eqb_spec x k) as [->|Hne].
  - exists d, n. rewrite lookup_insert_eq. done.
  - rewrite lookup_insert_ne by done. apply Hs.
Qed.

Lemma dict_del_NoDup {V} k (d : list (string * V)) :
  NoDup (dict_keys d) → NoDup (dict_keys (dict_del k d)).
Proof.
  intros Hd. rewrite dict_keys_del. induction Hd as [|x l Hx _ IH]; cbn; [constructor|].
  destruct (negb (String.eqb k x)); [|done]. constructor; [|done].
  intros [? _]%filter_elem. done.
Qed.

Lemma shows_del ms G k : shows ms G → shows (dict_del k ms) (delete k G).
Proof.
  intros [Hk Hs]. split; [by apply dict_del_NoDup|]. intros x.
  destruct (decide (x = k)) as [->|Hne].
  - by rewrite dict_get_del_eq, lookup_delete_eq.
  - rewrite dict_get_del_ne, lookup_delete_ne by done. apply Hs.
Qed.

(** Changing one field of the links. *)
Lemma links_children d n l : has_links d n →
  has_links (dict_set "childrenIds" (VList (VStr <$> l)) d) (Node (nd_parent n) l).
Proof. intros [Hk Hp Hc]. split; [by apply dict_set_NoDup|by dict_simpl..]. Qed.

Lemma links_parent d n p : has_links d n →
  has_links (dict_set "parentId" (link p) d) (Node p (nd_children n)).
Proof. intros [Hk Hp Hc]. split; [by apply dict_set_NoDup|by dict_simpl..]. Qed.

Lemma existsb_VStr c l : existsb (py_eqb (VStr c)) (VStr <$> l) = bool_decide (c ∈ l).
Proof.
  induction l as [|x l IH]; [done|]. 
  change (String.eqb c x || existsb (py_eqb (VStr c)) (VStr <$> l) = bool_decide (c ∈ x :: l)).
  rewrite IH. destruct (String.eqb_spec c x) as [->|Hne].
  - symmetry. apply bool_decide_eq_true_2. by left.
  - cbn. apply bool_decide_ext. rewrite elem_of_cons. naive_solver.
Qed.

Lemma graph_parent_named G p : forest G → is_Some (G !! p) → p ≠ "".
Proof. intros HG [n Hn] ->. by rewrite (fo_named _ HG) in Hn. Qed.

(** The two outcomes of [_add_child_id_to_parent]. *)
Lemma add_child_known ms G p n c : shows ms G → G !! p = Some n → c ∈ nd_children n →
  add_child_id_to_parent ms (VStr p) c = Ok (ms, false).
Proof.
  intros Hs Hp Hc. destruct (shows_get _ _ _ _ Hs Hp) as (d & _ & Hd & [_ Hl Hch]).
  unfold add_child_id_to_parent. destruct (truthy (VStr p)); [|done]. cbn [get_by mbind res_bind].
  rewrite Hd, Hch, existsb_VStr. by rewrite bool_decide_eq_true_2.
Qed.

Lemma add_child_new ms G p n c : shows ms G → p ≠ "" → G !! p = Some n → c ∉ nd_children n →
  ∃ ms', add_child_id_to_parent ms (VStr p) c = Ok (ms', true) ∧ shows ms' (alter (add_child c) p G) ∧
    (∀ k, k ≠ p → dict_get k ms' = dict_get k ms).
Proof.
  intros Hs Hne Hp Hc. destruct (shows_get _ _ _ _ Hs Hp) as (d & _ & Hd & Hl).
  unfold add_child_id_to_parent. assert (truthy (VStr p) = true) as -> by (by destruct p).
  cbn [get_by mbind res_bind]. rewrite Hd. pose proof Hl as [_ _ ->].
  rewrite existsb_VStr, bool_decide_eq_false_2 by done.
  eexists. split; [done|]. split.
  - replace (alter (add_child c) p G) with (<[p := add_child c n]> G).
    + apply shows_set; [done|]. change [VStr c] with (VStr <$> [c]). rewrite <-fmap_app.
      by apply links_children.
    + apply map_eq. intros k. destruct (decide (p = k)) as [<-|?].
      * by rewrite lookup_insert_eq, lookup_alter_eq, Hp.
      * by rewrite lookup_insert_ne, lookup_alter_ne.
  - intros k Hk. by rewrite dict_get_set_ne.
Qed.

(** ** Saving *)

(** A message that is new has no children yet and hangs under a known message
    or none; one that is saved again keeps its links, or leaves them out. *)
Definition keeps_links (message d : pydict) (key : string) : Prop :=
  match dict_get key message with Some v => v = dget d key | None => True end.

Record saves (ms : pydict) (id : string) (message : pydict) : Prop := {
  sv_keys : NoDup (dict_keys message);
  sv_id : id ≠ "";
  sv_old d : dict_get id ms = Some (VDict d) →
    keeps_links message d "parentId" ∧ keeps_links message d "childrenIds";
  sv_new : dict_get id ms = None →
    (dget message "parentId" = VNone ∨ ∃ p, dget message "parentId" = VStr p ∧ dict_has p ms = true) ∧
    (dget message "childrenIds" = VNone ∨ dget message "childrenIds" = VList []);
}.

Lemma dget_update d m k : NoDup (dict_keys m) →
  dget (dict_update d m) k = match dict_get k m with Some v => v | None => dget d k end.
Proof. intros Hm. unfold dget. rewrite dict_get_update by done. by destruct (dict_get k m). Qed.

Lemma dget_Some d k v : dict_get k d = Some v → dget d k = v.
Proof. unfold dget. by intros ->. Qed.

Lemma update_keeps d m k : NoDup (dict_keys m) → keeps_links m d k →
  dget (dict_update d m) k = dget d k.
Proof.
  intros Hm Hk. rewrite dget_update by done. unfold keeps_links in Hk.
  by destruct (dict_get k m).
Qed.

Lemma find_parent_none (G : graph) id ms : forest G → G !! id = None →
  Forall (λ kv, ∃ d n, kv.2 = VDict d ∧ G !! kv.1 = Some n ∧ has_links d n) ms →
  find_parent id ms = Ok VNone.
Proof.
  intros HG Hid. induction 1 as [|[k v] ms (d & n & Hv & Hk & [_ _ Hc]) _ IH]; [done|].
  cbn in Hv, Hk. subst v. cbn [find_parent vgetd mbind res_bind].
  assert (dgetd d "childrenIds" (VList []) = VList (VStr <$> nd_children n)) as ->.
  { unfold dgetd, dget in *. by destruct (dict_get "childrenIds" d); cbn in *. }
  cbn [contains_id mbind res_bind]. rewrite existsb_VStr, bool_decide_eq_false_2; [done|].
  intros (nc & ? & _)%(fo_children _ HG k n id Hk). congruence.
Qed.

Lemma shows_all ms G : shows ms G →
  Forall (λ kv, ∃ d n, kv.2 = VDict d ∧ G !! kv.1 = Some n ∧ has_links d n) ms.
Proof.
  intros [Hk Hs]. apply Forall_forall. intros [k v] Hin. specialize (Hs k).
  by rewrite (dict_get_elem k v) in Hs.
Qed.

(** The messages of a history *)
Definition messages_of (h : pydict) : pydict :=
  match dgetd h "messages" (VDict []) with VDict ms => ms | _ => [] end.
Definition history_shows (h : pydict) (G : graph) : Prop :=
  (∃ ms, dgetd h "messages" (VDict []) = VDict ms) ∧ shows (messages_of h) G.

Lemma messages_of_set ms h : messages_of (dict_set "messages" (VDict ms) h) = ms.
Proof. unfold messages_of, dgetd. by rewrite dict_get_set_eq. Qed.

Lemma history_shows_set ms h G : shows ms G → history_shows (dict_set "messages" (VDict ms) h) G.
Proof.
  intros Hs. split; [|by rewrite messages_of_set]. exists ms. unfold dgetd. by rewrite dict_get_set_eq.
Qed.

Lemma merge_meta_NoDup d m : NoDup (dict_keys m) → NoDup (dict_keys (merge_meta d m)).
Proof. intros Hm. unfold merge_meta. destruct (dget m "meta"); auto using dict_set_NoDup. Qed.

Lemma merge_meta_keeps d m d0 k : k ≠ "meta" → keeps_links m d0 k → keeps_links (merge_meta d m) d0 k.
Proof.
  intros Hk. unfold keeps_links, merge_meta. destruct (dget m "meta"); try done.
  by rewrite dict_get_set_ne.
Qed.

(** The links [new_message] gives a message. *)
Lemma new_message_links ms G id m now m' :
  forest G → shows ms G → G !! id = None → saves ms id m → new_message ms id m now = Ok m' →
  ∃ p, dget m "parentId" = link p ∧ (∀ q, p = Some q → is_Some (G !! q)) ∧ has_links m' (Node p []).
Proof.
  intros HG Hs Hid Hsv Hm'. pose proof (proj1 (shows_none _ _ id Hs) Hid) as Hget.
  destruct (sv_new _ _ _ Hsv Hget) as [Hpar Hch].
  assert (∃ p, dget m "parentId" = link p ∧ ∀ q, p = Some q → is_Some (G !! q)) as (p & Hp & Hin).
  { destruct Hpar as [Hp|(p & Hp & Hhas)]; [by exists None|]. exists (Some p). split; [done|].
    intros q [= <-]. rewrite (shows_has _ _ _ Hs) in Hhas. by apply bool_decide_eq_true in Hhas. }
  exists p. split; [done|]. split; [done|]. unfold new_message in Hm'. rewrite Hp in Hm'.
  apply bind_Ok in Hm' as (pid & Hpid & Hm').
  assert (pid = link p) as ->.
  { destruct p; cbn in Hpid; [by injection Hpid|].
    rewrite (find_parent_none G) in Hpid by eauto using shows_all. by injection Hpid. }
  apply bind_Ok in Hm' as (parent & _ & Hm'). apply bind_Ok in Hm' as (output & _ & Hm').
  apply bind_Ok in Hm' as (role & _ & [= <-]).
  pose proof (sv_keys _ _ _ Hsv). split; [by repeat apply dict_set_NoDup| |];
    do 2 rewrite dget_set_ne by done.
  - rewrite dget_set_ne, dget_set_eq by done. by destruct p.
  - rewrite dget_set_eq. by destruct Hch as [-> | ->].
Qed.

Lemma upsert_ok h id m now h' saved G :
  forest G → history_shows h G → saves (messages_of h) id m →
  upsert_message_to_history h id m now = Ok (h', saved) →
  ∃ G', forest G' ∧ history_shows h' G' ∧ is_Some (G' !! id) ∧
    (∀ k, is_Some (G !! k) → is_Some (G' !! k)) ∧
    (∀ k, k ≠ id → dget m "parentId" ≠ VStr k → G' !! k = G !! k) ∧
    dget h' "currentId" = (if dict_has id (messages_of h) then dget h "currentId" else VStr id).
Proof.
  intros HG [[ms Hms] Hs] Hsv H. unfold upsert_message_to_history in H.
  unfold messages_of in Hs, Hsv. rewrite Hms in Hs, Hsv. unfold messages_of. rewrite Hms.
  set (h0 := dict_setdefault "messages" (VDict []) h) in *.
  assert (dget h0 "messages" = VDict ms ∧ dget h0 "currentId" = dget h "currentId") as [Hm0 Hc0].
  { unfold h0, dict_setdefault, dict_has, dgetd in *. destruct (dict_get "messages" h) as [v|] eqn:E.
    - cbn in Hms. split; [unfold dget; by rewrite E|done].
    - cbn in Hms. split; dict_simpl; done. }
  rewrite Hm0 in H. cbn [mbind res_bind] in H. unfold dict_has.
  destruct (dict_get id ms) as [v|] eqn:Hget; cbn [mbind res_bind] in H.
  - (* saved again *)
    destruct (G !! id) as [n|] eqn:Hn; [|apply (shows_none _ _ _ Hs) in Hn; congruence].
    destruct (shows_get _ _ _ _ Hs Hn) as (d & Hd & _ & Hl). rewrite Hget in Hd. injection Hd as ->.
    cbn [as_dict mbind res_bind] in H. destruct (sv_old _ _ _ Hsv d Hget) as [Hkp Hkc].
    set (d' := dict_update d (merge_meta d m)) in *.
    assert (has_links d' n) as Hl'.
    { destruct Hl as [Hnd Hp Hc]. unfold d'. pose proof (sv_keys _ _ _ Hsv).
      split; [by apply dict_update_NoDup| |];
        rewrite update_keeps; auto using merge_meta_NoDup, merge_meta_keeps. }
    pose proof (shows_set _ _ id d' n Hs Hl') as Hs'. rewrite insert_id in Hs' by done.
    cbn [fst snd] in H. rewrite dget_set_eq in H. cbn [vget mbind res_bind] in H.
    pose proof Hl' as [_ Hp' _]. rewrite Hp' in H.
    assert (add_child_id_to_parent (dict_set id (VDict d') ms) (link (nd_parent n)) id =
      Ok (dict_set id (VDict d') ms, false)) as Hadd.
    { destruct (nd_parent n) as [p|] eqn:Ep; [|done].
      destruct (fo_parent _ HG id n p Hn Ep) as [np Hnp]. apply (add_child_known _ G _ np); [done|done|].
      apply (fo_children _ HG p np id Hnp). by exists n. }
    rewrite Hadd in H. injection H as <- _. exists G. split_and!; try done.
    + by apply history_shows_set.
    + by rewrite dget_set_ne.
  - (* new *)
    assert (G !! id = None) as Hid by (by apply (shows_none _ _ _ Hs)).
    apply bind_Ok in H as (r & Hr & H). apply bind_Ok in Hr as (m' & Hm' & [= <-]).
    destruct (new_message_links ms G id m now m' HG Hs Hid Hsv Hm') as (p & Hp & Hin & Hl).
    cbn [fst snd] in H. rewrite dget_set_eq in H. cbn [vget mbind res_bind] in H.
    pose proof Hl as [_ Hp' _]. cbn in Hp'. rewrite Hp' in H.
    pose proof (shows_set _ _ id m' _ Hs Hl) as Hs1.
    assert (∃ ms', add_child_id_to_parent (dict_set id (VDict m') ms) (link p) id = Ok ms' ∧
      shows ms'.1 (graft id p G)) as ([ms' b] & Hadd & Hs').
    { unfold graft. destruct p as [q|]; [|by eexists].
      destruct (Hin q eq_refl) as [nq Hq]. assert (q ≠ id) by congruence.
      destruct (add_child_new (dict_set id (VDict m') ms) (<[id := Node (Some q) []]> G) q nq id)
        as (ms' & Hms' & Hs' & _).
      - done.
      - by eapply graph_parent_named.
      - by rewrite lookup_insert_ne.
      - intros (nc & ? & _)%(fo_children _ HG q nq id Hq). congruence.
      - exists (ms', true). split; [done|]. cbn. by rewrite alter_insert_ne in Hs'. }
    rewrite Hadd in H. cbn [mbind res_bind fst snd] in H. injection H as <- _.
    exists (graft id p G). split_and!.
    + apply forest_graft; [done|done|by apply (sv_id _ _ _ Hsv)|done].
    + by apply history_shows_set.
    + unfold graft. rewrite lookup_insert_eq. by eexists.
    + intros k [nk Hk]. unfold graft. assert (k ≠ id) by congruence. rewrite lookup_insert_ne by done.
      destruct p as [q|]; [|by eexists]. destruct (decide (q = k)) as [->|].
      * rewrite lookup_alter_eq, Hk. by eexists.
      * rewrite lookup_alter_ne by done. by eexists.
    + intros k Hk Hpk. unfold graft. rewrite lookup_insert_ne by done. rewrite Hp in Hpk.
      destruct p as [q|]; [|done]. by rewrite lookup_alter_ne by (intros ->; done).
    + rewrite dget_set_ne by done. by rewrite dget_set_eq.
Qed.

(** ** Deleting *)

Lemma in_messages_VStr ms G p : shows ms G → in_messages (VStr p) ms = Ok (bool_decide (is_Some (G !! p))).
Proof. intros Hs. unfold in_messages. cbn. by rewrite (shows_has ms G). Qed.

Lemma known_ids_all ms G cs : shows ms G → Forall (λ c, is_Some (G !! c)) cs →
  known_ids (VStr <$> cs) ms = Ok cs.
Proof.
  intros Hs. induction 1 as [|c cs Hc _ IH]; [done|]. rewrite fmap_cons. cbn [known_ids].
  rewrite (in_messages_VStr _ G) by done. rewrite IH. cbn. by rewrite bool_decide_eq_true_2.
Qed.

Lemma children_known G k n : forest G → G !! k = Some n → Forall (λ c, is_Some (G !! c)) (nd_children n).
Proof.
  intros HG Hk. apply Forall_forall. intros c (nc & ? & _)%(fo_children _ HG k n c Hk). by eexists.
Qed.

Lemma por_children (cs : list string) :
  por (VList (VStr <$> cs)) (VList []) = VList (VStr <$> cs).
Proof. by destruct cs. Qed.

Lemma grandchildren_ok ms G cs : forest G → shows ms G → Forall (λ c, is_Some (G !! c)) cs →
  grandchildren ms cs = Ok (grandchildren_in G cs).
Proof.
  intros HG Hs. induction 1 as [|c cs [n Hc] _ IH]; [done|]. cbn [grandchildren].
  destruct (shows_get _ _ _ _ Hs Hc) as (d & Hd & _ & [_ _ Hch]).
  assert (dgetd ms c (VDict []) = VDict d) as -> by (unfold dgetd; by rewrite Hd).
  cbn [vget mbind res_bind]. rewrite Hch, por_children. cbn [viter mbind res_bind].
  rewrite (known_ids_all ms G) by eauto using children_known. cbn [mbind res_bind]. rewrite IH.
  unfold grandchildren_in. rewrite bind_cons, Hc. done.
Qed.

(** The parent takes the grandchildren. *)
Lemma filter_VStr id l :
  List.filter (λ c, negb (py_eqb c (VStr id))) (VStr <$> l) = VStr <$> filter (λ x, x ≠ id) l.
Proof.
  induction l as [|x l IH]; [done|]. rewrite fmap_cons. cbn [List.filter py_eqb].
  rewrite filter_cons. destruct (String.eqb_spec x id) as [->|Hne].
  - rewrite decide_False by naive_solver. exact IH.
  - rewrite decide_True by done. cbn. by f_equal.
Qed.

Lemma move_all ms G p gs : shows ms G → Forall (λ g, is_Some (G !! g)) gs →
  ∃ ms', foldM (λ acc g, d ← match dget acc g with VDict d => Ok d | _ => Err TypeError end;
                         Ok (dict_set g (VDict (dict_set "parentId" (link p) d)) acc)) ms gs = Ok ms' ∧
    shows ms' (foldl (λ H g, alter (set_parent p) g H) G gs).
Proof.
  intros Hs Hgs. revert ms G Hs Hgs. induction gs as [|g gs IH]; intros ms G Hs Hgs.
  { by exists ms. }
  apply Forall_cons in Hgs as [[n Hg] Hgs]. cbn [foldM].
  destruct (shows_get _ _ _ _ Hs Hg) as (d & _ & Hd & Hl). rewrite Hd. cbn [mbind res_bind].
  apply IH.
  - replace (alter (set_parent p) g G) with (<[g := set_parent p n]> G).
    + apply shows_set; [done|]. by apply links_parent.
    + apply map_eq. intros k. destruct (decide (g = k)) as [<-|?].
      * by rewrite lookup_insert_eq, lookup_alter_eq, Hg.
      * by rewrite lookup_insert_ne, lookup_alter_ne.
  - eapply Forall_impl; [exact Hgs|]. intros x [nx Hx]. cbn. destruct (decide (g = x)) as [<-|].
    + rewrite lookup_alter_eq, Hx. by eexists.
    + rewrite lookup_alter_ne by done. by eexists.
Qed.

Lemma adopt_ok ms G id n : forest G → shows ms G → G !! id = Some n →
  let grand := grandchildren_in G (nd_children n) in
  ∃ ms', adopt ms id (link (nd_parent n)) grand = Ok ms' ∧
    shows ms' (foldl (λ H g, alter (set_parent (nd_parent n)) g H)
                 (match nd_parent n with
                  | Some p => alter (replace_child id grand) p G
                  | None => G
                  end) grand).
Proof.
  intros HG Hs Hid grand.
  assert (Forall (λ g, is_Some (G !! g)) grand) as Hgr.
  { apply Forall_forall. intros g (c & nc & ng & _ & _ & ? & _)%(grand_spec G id n HG Hid). by eexists. }
  unfold adopt. destruct (nd_parent n) as [p|] eqn:Ep; cbn [link].
  2: { cbn [in_messages hashed hashable mbind res_bind]. exact (move_all ms G None grand Hs Hgr). }
  destruct (fo_parent _ HG id n p Hid Ep) as [np Hp].
  rewrite (in_messages_VStr _ G) by done. rewrite bool_decide_eq_true_2 by (by eexists).
  cbn [mbind res_bind]. destruct (shows_get _ _ _ _ Hs Hp) as (d & _ & Hd & Hl). rewrite Hd.
  cbn [as_dict mbind res_bind]. pose proof Hl as [_ _ Hch]. rewrite Hch, por_children.
  cbn [viter mbind res_bind]. rewrite filter_VStr, <-fmap_app.
  apply (move_all _ _ (Some p)).
  - replace (alter (replace_child id grand) p G) with (<[p := replace_child id grand np]> G).
    + apply shows_set; [done|]. by apply links_children.
    + apply map_eq. intros k. destruct (decide (p = k)) as [<-|?].
      * by rewrite lookup_insert_eq, lookup_alter_eq, Hp.
      * by rewrite lookup_insert_ne, lookup_alter_ne.
  - eapply Forall_impl; [exact Hgr|]. intros x [nx Hx]. cbn. destruct (decide (p = x)) as [<-|].
    + rewrite lookup_alter_eq, Hx. by eexists.
    + rewrite lookup_alter_ne by done. by eexists.
Qed.

Lemma delete_all ms G l : shows ms G →
  shows (foldl (λ acc k, dict_del k acc) ms l) (foldl (λ H k, delete k H) G l).
Proof. revert ms G. induction l as [|k l IH]; intros ms G Hs; [done|]. apply IH. by apply shows_del. Qed.

(** ** The leaf that is shown *)

Lemma children_of_ok ms G k n : shows ms G → G !! k = Some n →
  children_of ms (VStr k) (VList []) = Ok (VList (VStr <$> nd_children n)).
Proof.
  intros Hs Hk. destruct (shows_get _ _ _ _ Hs Hk) as (d & Hd & _ & [_ _ Hc]).
  unfold children_of. cbn [hashed hashable mbind res_bind].
  assert (dgetd ms k (VDict []) = VDict d) as -> by (unfold dgetd; by rewrite Hd).
  cbn [vgetd]. unfold dgetd, dget in *. destruct (dict_get "childrenIds" d); cbn in *; congruence.
Qed.

Lemma shows_key ms G k : shows ms G → is_Some (G !! k) → k ∈ dict_keys ms.
Proof.
  intros Hs [n Hk]. destruct (shows_get _ _ _ _ Hs Hk) as (d & Hd & _). by eapply dict_get_Some_key.
Qed.

Definition leaf (G : graph) (v : pyval) : Prop :=
  ∃ k n, v = VStr k ∧ G !! k = Some n ∧ nd_children n = [].

Section Leaf.
Context (ms : pydict) (G : graph) (HG : forest G) (Hs : shows ms G).
Context (rank : string → nat).
Context (Hrank : ∀ k n p, G !! k = Some n → nd_parent n = Some p → rank p < rank k).

Lemma last_leaf_ok fuel vs cur cs :
  Forall (λ c, is_Some (G !! c) ∧ Forall (λ v, rank v < rank c) vs) cs →
  NoDup vs → (∀ v, v ∈ vs → v ∈ dict_keys ms) → length ms < fuel + length vs → cs ≠ [] →
  ∃ v, last_leaf fuel ms (VStr <$> vs) cur (VList (VStr <$> cs)) = Ok v ∧ leaf G v.
Proof using HG Hs Hrank.
  revert vs cur cs. induction fuel as [|fuel IH]; intros vs cur cs Hcs Hnd Hin Hlen Hne.
  { exfalso. assert (length vs ≤ length (dict_keys ms)) as Hle.
    { apply submseteq_length, NoDup_submseteq; [done|]. exact Hin. }
    unfold dict_keys in Hle. rewrite length_map in Hle. lia. }
  destruct (last cs) as [c|] eqn:Hlast; [|by apply last_None in Hlast].
  assert (c ∈ cs) as Hc by (by apply last_Some_elem_of).
  pose proof (proj1 (Forall_forall _ _) Hcs c Hc) as [[n Hn] Hless].
  cbn [last_leaf]. assert (truthy (VList (VStr <$> cs)) = true) as -> by (by destruct cs).
  cbn [negb last_item]. rewrite fmap_last, Hlast. cbn [fmap option_fmap option_map mbind res_bind].
  cbn [hashed hashable mbind res_bind]. unfold mem_id. rewrite existsb_VStr.
  rewrite bool_decide_eq_false_2.
  2: { intros Hv. pose proof (proj1 (Forall_forall _ _) Hless c Hv) as H. cbn in H. lia. }
  rewrite (children_of_ok ms G c n) by done. cbn [mbind res_bind].
  destruct (nd_children n) as [|c' cs'] eqn:Ech.
  { exists (VStr c). split; [by destruct fuel|]. by exists c, n. }
  rewrite <-Ech. change (VStr c :: (VStr <$> vs)) with (VStr <$> c :: vs). apply IH.
  - apply Forall_forall. intros x Hx. apply (fo_children _ HG c n x Hn) in Hx as (nx & Hnx & Hp).
    split; [by eexists|]. pose proof (Hrank _ _ _ Hnx Hp). constructor; [done|].
    eapply Forall_impl; [exact Hless|]. intros v Hv. cbn in Hv. lia.
  - constructor; [|done]. intros Hv. pose proof (proj1 (Forall_forall _ _) Hless c Hv) as H. cbn in H. lia.
  - intros v [->|Hv]%elem_of_cons; [|auto]. apply (shows_key ms G); [done|by eexists].
  - cbn. lia.
  - by rewrite Ech.
Qed.
End Leaf.

(** A forest with a message has a root. *)
Lemma forest_has_root (G : graph) k : forest G → is_Some (G !! k) →
  ∃ r n, G !! r = Some n ∧ nd_parent n = None.
Proof.
  intros HG. pose proof (fo_rank _ HG) as [f Hf].
  induction (Nat.lt_wf_0_projected f k) as [k _ IH]. intros [n Hk].
  destruct (nd_parent n) as [p|] eqn:Ep; [|by exists k, n].
  apply (IH p); [by apply (Hf k n)|]. by apply (fo_parent _ HG k n).
Qed.

Lemma root_ids_ok ms (G : graph) : Forall (λ kv, ∃ d n, kv.2 = VDict d ∧ G !! kv.1 = Some n ∧ has_links d n) ms →
  ∃ rs, root_ids ms = Ok (VStr <$> rs) ∧
    ∀ r, r ∈ rs ↔ r ∈ dict_keys ms ∧ ∃ n, G !! r = Some n ∧ nd_parent n = None.
Proof.
  induction 1 as [|[k v] ms (d & n & Hv & Hk & [_ Hp _]) _ (rs & Hrs & Hin)].
  { exists []. split; [done|]. intros r. split; [by intros ?%elem_of_nil|]. intros [?%elem_of_nil _]. done. }
  cbn in Hv, Hk. subst v. cbn [root_ids vget mbind res_bind]. rewrite Hp, Hrs. cbn [mbind res_bind].
  destruct (nd_parent n) as [p|] eqn:Ep; cbn [link is_none].
  - exists rs. split; [done|]. intros r. rewrite Hin. cbn. rewrite elem_of_cons. split; [tauto|].
    intros [[->|?] (n' & ? & ?)]; [congruence|]. eauto.
  - exists (k :: rs). split; [done|]. intros r. rewrite elem_of_cons, Hin. cbn. rewrite elem_of_cons.
    split; [intros [->|[? ?]]; [|by auto]; eauto|]. intros [[->|?] ?]; auto.
Qed.

(** Deleting a message of a forest prunes it, and shows a leaf that is left. *)
Lemma delete_ok h id n G : forest G → history_shows h G → G !! id = Some n →
  ∃ h', delete_message_from_history h id = Ok (h', id :: nd_children n) ∧
    history_shows h' (prune id n G) ∧
    (leaf (prune id n G) (dget h' "currentId") ∨
     prune id n G = ∅ ∧ dget h' "currentId" = VNone).
Proof.
  intros HG [[ms Hms] Hs] Hid. unfold messages_of in Hs. rewrite Hms in Hs.
  destruct (shows_get _ _ _ _ Hs Hid) as (d & Hget & Hd & [_ Hp Hc]).
  unfold delete_message_from_history.
  assert (por (dget h "messages") (VDict []) = VDict ms) as ->.
  { unfold dgetd, dget in *. destruct (dict_get "messages" h) as [v|]; cbn in *; [|congruence].
    subst v. by destruct ms. }
  cbn [mbind res_bind]. rewrite Hd, Hc, Hp, por_children. cbn [viter mbind res_bind].
  rewrite (known_ids_all ms G) by eauto using children_known. cbn [mbind res_bind].
  rewrite (grandchildren_ok ms G) by eauto using children_known. cbn [mbind res_bind].
  destruct (adopt_ok ms G id n HG Hs Hid) as (ms1 & -> & Hs1). cbn [mbind res_bind].
  pose proof (delete_all _ _ (id :: nd_children n) Hs1) as Hs2.
  set (ms2 := foldl (λ acc k, dict_del k acc) ms1 (id :: nd_children n)) in *.
  change (shows ms2 (prune id n G)) in Hs2.
  pose proof (forest_prune G id n HG Hid) as HG2. pose proof (fo_rank _ HG2) as [rank Hrank].
  set (G2 := prune id n G) in *.
  assert (∃ v, (start ← (if is_none (link (nd_parent n)) then l ← root_ids ms2; Ok (VList l)
                         else children_of ms2 (link (nd_parent n)) (VList []));
                last_leaf (S (S (length ms2))) ms2 [] (link (nd_parent n)) start) = Ok v ∧
          (leaf G2 v ∨ G2 = ∅ ∧ v = VNone)) as (v & Hv & Hleaf).
  { destruct (nd_parent n) as [p|] eqn:Ep; cbn [link is_none].
    - destruct (fo_parent _ HG id n p Hid Ep) as [np Hnp].
      assert (G2 !! p = Some (pruned id n G p np)) as Hp2.
      { apply pruned_stays; [done|]. by apply (parent_not_deleted G id n HG Hid). }
      rewrite (children_of_ok ms2 G2 p _ Hs2 Hp2). cbn [mbind res_bind].
      destruct (nd_children (pruned id n G p np)) as [|c cs] eqn:Ec.
      + exists (VStr p). split; [done|]. left. by eexists p, _.
      + destruct (last_leaf_ok ms2 G2 HG2 Hs2 rank Hrank (S (S (length ms2))) [] (VStr p) (c :: cs))
          as (v & Hv & ?); [|constructor|by intros ? ?%elem_of_nil|cbn; lia|done|by eauto].
        rewrite <-Ec. eapply Forall_impl; [exact (children_known G2 p _ HG2 Hp2)|]. by split.
    - destruct (root_ids_ok ms2 G2 (shows_all _ _ Hs2)) as (rs & -> & Hrs). cbn [mbind res_bind].
      destruct rs as [|r rs].
      + exists VNone. split; [done|]. right. split; [|done]. apply map_eq. intros k.
        rewrite lookup_empty. destruct (G2 !! k) as [nk|] eqn:Ek; [|done]. exfalso.
        destruct (forest_has_root G2 k HG2) as (r & nr & Hr & Hpr); [by eexists|].
        assert (r ∈ @nil string) as ?%elem_of_nil; [|done]. apply Hrs.
        split; [|by eauto]. apply (shows_key ms2 G2); [done|by eexists].
      + destruct (last_leaf_ok ms2 G2 HG2 Hs2 rank Hrank (S (S (length ms2))) [] VNone (r :: rs))
          as (v & Hv & ?); [|constructor|by intros ? ?%elem_of_nil|cbn; lia|done|by eauto].
        apply Forall_forall. intros x (_ & nx & ? & _)%Hrs. split; [by eexists|done]. }
  apply bind_Ok in Hv as (start & -> & Hv). cbn [mbind res_bind]. rewrite Hv. cbn [mbind res_bind].
  assert (∃ b, in_messages v ms2 = Ok b ∧ (if b then v else VNone) = v) as (b & Hb & Hbv).
  { destruct Hleaf as [(k & nk & -> & Hk & _)|[_ ->]]; [|by exists false].
    exists true. split; [|done]. rewrite (in_messages_VStr _ G2) by done.
    by rewrite bool_decide_eq_true_2 by (by eexists). }
  change (match v with VList _ | VDict _ => Err TypeError | _ => _ end) with (in_messages v ms2).
  rewrite Hb. cbn [mbind res_bind]. rewrite Hbv. eexists. split; [reflexivity|]. split.
  - destruct (history_shows_set ms2 h G2 Hs2) as [[ms3 H3] H4]. unfold history_shows, messages_of, dgetd in *.
    rewrite dict_get_set_ne by done. eauto.
  - rewrite dget_set_eq. done.
Qed.

(** ** Repairing *)

Lemma relink_ok ms G : forest G → shows ms G → relink ms = Ok (ms, false).
Proof.
  intros HG Hs. unfold relink. generalize (dict_keys ms). intros l. induction l as [|k l IH]; [done|].
  cbn [foldM]. assert (relink_step (ms, false) k = Ok (ms, false)) as ->; [|exact IH].
  unfold relink_step. cbn [fst]. destruct (G !! k) as [n|] eqn:Hn.
  - destruct (shows_get _ _ _ _ Hs Hn) as (d & _ & Hd & [_ Hp _]). rewrite Hd, Hp.
    destruct (nd_parent n) as [p|] eqn:Ep; [|done].
    destruct (fo_parent _ HG k n p Hn Ep) as [np Hnp]. cbn [link].
    rewrite (add_child_known ms G p np); [done|done|done|].
    apply (fo_children _ HG p np k Hnp). by exists n.
  - apply (shows_none _ _ _ Hs) in Hn. unfold dget. by rewrite Hn.
Qed.

Lemma follows_has ms seen id v : follows ms seen id v = true → ∃ c, v = VStr c ∧ dict_has c ms = true.
Proof.
  destruct v as [| | | |c| |]; try done. intros [_ H]%andb_prop. exists c. split; [done|].
  unfold dict_has, dget in *. by destruct (dict_get c ms).
Qed.

Lemma descend_has fuel ms seen id : dict_has id ms = true → dict_has (descend fuel ms seen id) ms = true.
Proof.
  revert seen id. induction fuel as [|fuel IH]; intros seen id Hid; cbn; [done|].
  destruct (dict_has id ms && _); [|done].
  destruct (find_first _ _) as [v|] eqn:E; [|done]. apply find_first_Some in E as [_ Hf].
  apply follows_has in Hf as (c & -> & Hc). destruct (Str.is_empty c); [done|]. by apply IH.
Qed.

Lemma latest_leaf_has ms v : latest_leaf ms = Ok v → truthy v = true →
  ∃ k, v = VStr k ∧ dict_has k ms = true.
Proof.
  unfold latest_leaf. intros (r & Hr & [= <-])%bind_Ok.
  assert (r.1 = VNone ∨ ∃ k, r.1 = VStr k ∧ dict_has k ms = true) as H.
  { apply (foldM_inv (λ r, r.1 = VNone ∨ ∃ k, r.1 = VStr k ∧ dict_has k ms = true)) in Hr;
      [done| |by left].
    intros s1 [k m] s2 Hin Hs1. unfold latest_leaf_step. cbn.
    assert (dict_has k ms = true) as Hk.
    { unfold dict_has. destruct (dict_get k ms) eqn:E; [done|]. apply dict_get_None in E.
      destruct E. apply list_elem_of_fmap. by exists (k, m). }
    destruct m; try (by intros [= <-]).
    destruct (negb _); [by intros [= <-]|]. destruct (negb _); [by intros [= <-]|].
    destruct (as_num _); [|done]. intros [= <-]. destruct (num_ltb _ _); [|done]. right. by eexists. }
  destruct H as [->|?]; [done|by intros _].
Qed.

(** A repair keeps the messages of a forest, and shows one of them. *)
Lemma repair_current_ok ms b h h' b' :
  repair_current ms b h = Ok (h', b') →
  h' = h ∨ ∃ k, h' = dict_set "currentId" (VStr k) h ∧ dict_has k ms = true.
Proof.
  assert (show_latest_leaf ms b h = Ok (h', b') →
    h' = h ∨ ∃ k, h' = dict_set "currentId" (VStr k) h ∧ dict_has k ms = true) as Hlatest.
  { unfold show_latest_leaf. intros (v & Hv & H)%bind_Ok.
    destruct (negb (truthy v) || _) eqn:E; [injection H; auto|]. injection H as <- _.
    apply orb_false_elim in E as [Ht%negb_false_iff _].
    destruct (latest_leaf_has ms v Hv Ht) as (k & -> & Hk). right. by exists k. }
  unfold repair_current. intros (cur & Hcur & (bad & _ & H)%bind_Ok)%bind_Ok.
  destruct cur as [| | | | | |m]; try (by apply Hlatest).
  destruct (dget h "currentId") as [| | | |c| |] eqn:Ec; try (by apply Hlatest).
  destruct (truthy (dget m "id") && _ && _); [|by apply Hlatest].
  destruct (String.eqb _ c); [injection H; auto|]. injection H as <- _. right.
  exists (last_descendant_id ms c). split; [done|]. apply descend_has.
  cbn in Hcur. injection Hcur as Hcur. unfold dict_has, dget in *. by destruct (dict_get c ms).
Qed.

(** A chat whose messages form a forest and that shows one of them. *)
Definition good_history (h : pydict) (G : graph) : Prop :=
  forest G ∧ history_shows h G ∧
  (dget h "currentId" = VNone ∨ ∃ k, dget h "currentId" = VStr k ∧ is_Some (G !! k)).
Definition good_chat (chat : pydict) (G : graph) : Prop :=
  ∃ h, dgetd chat "history" (VDict []) = VDict h ∧ good_history h G.

Lemma good_chat_set chat h G : good_history h G → good_chat (dict_set "history" (VDict h) chat) G.
Proof. intros Hh. exists h. split; [|done]. unfold dgetd. by rewrite dict_get_set_eq. Qed.

Lemma good_history_current h G k : good_history h G → is_Some (G !! k) →
  good_history (dict_set "currentId" (VStr k) h) G.
Proof.
  intros (HG & [[ms Hms] Hs] & _) Hk. split; [done|]. split.
  - unfold history_shows, messages_of, dgetd in *. rewrite dict_get_set_ne by done. eauto.
  - right. exists k. by rewrite dget_set_eq.
Qed.

Lemma repair_ok chat G chat' b : good_chat chat G → repair_chat_current_id chat = Ok (chat', b) →
  good_chat chat' G ∧ (∃ h, dgetd chat "history" (VDict []) = VDict h ∧
    ∃ h', dgetd chat' "history" (VDict []) = VDict h' ∧ messages_of h' = messages_of h).
Proof.
  intros (h & Hh & Hgood) H. pose proof Hgood as (HG & [[ms Hms] Hs] & Hcur).
  unfold messages_of in Hs. rewrite Hms in Hs. unfold repair_chat_current_id in H.
  assert (chat' = chat ∨ ∃ h', chat' = dict_set "history" (VDict h') chat ∧ good_history h' G ∧
    messages_of h' = ms) as [->|(h' & -> & Hg & Hm)].
  2: { split; [by exists h|]. exists h. split; [done|]. by exists h. }
  2: { split; [by apply good_chat_set|]. exists h. split; [done|]. exists h'.
       unfold dgetd at 1. rewrite dict_get_set_eq. split; [done|].
       unfold messages_of at 2. by rewrite Hms. }
  unfold dgetd, dget in *. destruct (dict_get "history" chat) as [v|] eqn:Ev; cbn in Hh, H.
  2: { left. by injection H. }
  subst v. unfold dget in H. destruct (dict_get "messages" h) as [v|] eqn:Em; cbn in Hms, H.
  2: { left. by injection H. }
  subst v. rewrite (relink_ok ms G) in H by done. cbn [mbind res_bind fst snd] in H.
  apply bind_Ok in H as ([h' b'] & H' & [= <- _]). right. exists h'. split; [done|].
  set (h0 := dict_set "messages" (VDict ms) h) in *.
  assert (good_history h0 G ∧ messages_of h0 = ms) as [Hg0 Hm0].
  { split; [|apply messages_of_set]. split; [done|]. split; [by apply history_shows_set|].
    unfold h0. by rewrite dget_set_ne. }
  apply repair_current_ok in H' as [->|(k & -> & Hk)]; [done|]. split.
  - apply good_history_current; [done|]. rewrite (shows_has _ G) in Hk by done.
    by apply bool_decide_eq_true in Hk.
  - unfold messages_of, dgetd in *. by rewrite dict_get_set_ne.
Qed.

(** ** The operations on a chat *)

Lemma upsert_good h id m now h' saved G :
  good_history h G → saves (messages_of h) id m →
  upsert_message_to_history h id m now = Ok (h', saved) →
  ∃ G', good_history h' G' ∧ is_Some (G' !! id) ∧ (∀ k, is_Some (G !! k) → is_Some (G' !! k)) ∧
    (∀ k, k ≠ id → dget m "parentId" ≠ VStr k → G' !! k = G !! k).
Proof.
  intros (HG & Hs & Hcur) Hsv H.
  destruct (upsert_ok h id m now h' saved G HG Hs Hsv H) as (G' & HG' & Hs' & Hid & Hmono & Hsame & Hc).
  exists G'. split; [|done]. split; [done|]. split; [done|]. rewrite Hc.
  destruct (dict_has id (messages_of h)); [|by eauto].
  destruct Hcur as [?|(k & ? & ?)]; eauto.
Qed.

(** The messages of a chat *)
Definition chat_messages (chat : pydict) : pydict :=
  match dgetd chat "history" (VDict []) with VDict h => messages_of h | _ => [] end.

Section Operations.
Context (repr_other : pyval → string).

Lemma save_message_ok row id m touch now row' ws G :
  good_chat (cr_chat row) G →
  saves (chat_messages (cr_chat row)) (sanitize_text_for_db id) (prepare_message repr_other m) →
  save_message repr_other row id m touch now = Ok (row', ws) → ∃ G', good_chat (cr_chat row') G'.
Proof.
  intros Hg Hsv H. unfold save_message in H. apply bind_Ok in H as ([chat b] & Hr & H).
  destruct (repair_ok _ _ _ _ Hg Hr) as (Hg' & h & Hh & h' & Hh' & Hm).
  cbn [fst] in H. rewrite Hh' in H. cbn [as_dict mbind res_bind] in H.
  apply bind_Ok in H as ([h2 saved] & Hu & H). apply bind_Ok in H as (w & _ & [= <- _]).
  destruct Hg' as (h0 & Hh0 & Hgood). rewrite Hh' in Hh0. injection Hh0 as <-.
  unfold chat_messages in Hsv. rewrite Hh, <-Hm in Hsv.
  destruct (upsert_good _ _ _ _ _ _ _ Hgood Hsv Hu) as (G' & Hg2 & _).
  exists G'. by apply good_chat_set.
Qed.

Lemma delete_good h id h' ids G : good_history h G →
  delete_message_from_history h id = Ok (h', ids) → ids ≠ [] → ∃ G', good_history h' G'.
Proof.
  intros (HG & Hs & Hcur) H Hne. destruct (G !! id) as [n|] eqn:Hn.
  - destruct (delete_ok h id n G HG Hs Hn) as (h2 & Hd & Hs2 & Hc). rewrite Hd in H.
    injection H as <- <-. exists (prune id n G).
    split; [by apply forest_prune|]. split; [done|].
    destruct Hc as [(k & nk & -> & Hk & _)|[_ ->]]; [right; by eauto|by left].
  - exfalso. destruct Hs as [[ms Hms] Hs]. unfold messages_of in Hs. rewrite Hms in Hs.
    apply (shows_none _ _ _ Hs) in Hn. unfold delete_message_from_history in H.
    assert (por (dget h "messages") (VDict []) = VDict ms) as Hp.
    { unfold dgetd, dget in *. destruct (dict_get "messages" h) as [v|]; cbn in *; [|congruence].
      subst v. by destruct ms. }
    rewrite Hp in H. cbn [mbind res_bind] in H. unfold dget in H. rewrite Hn in H.
    injection H as _ <-. done.
Qed.

Lemma delete_message_ok row id now row' ws G :
  good_chat (cr_chat row) G → delete_message row id now = Ok (row', ws) →
  ∃ G', good_chat (cr_chat row') G'.
Proof.
  intros Hg H. unfold delete_message in H. apply bind_Ok in H as ([chat b] & Hr & H).
  destruct (repair_ok _ _ _ _ Hg Hr) as (Hg' & _). pose proof Hg' as (h' & Hh' & Hgood).
  cbn [fst] in H. rewrite Hh' in H. cbn [as_dict mbind res_bind] in H.
  apply bind_Ok in H as (ms & _ & H). apply bind_Ok in H as (m & _ & H).
  apply bind_Ok in H as ([h2 ids] & Hd & H). cbn [fst snd] in H.
  destruct ids as [|i ids]; [injection H as <- _; by exists G|].
  apply bind_Ok in H as (left & _ & H). apply bind_Ok in H as (w & _ & [= <- _]).
  destruct (delete_good _ _ _ _ _ Hgood Hd) as [G' HG']; [done|].
  exists G'. by apply good_chat_set.
Qed.
End Operations.

(** ** Turns *)

Lemma pick_keys_elem ks d x : x ∈ dict_keys (pick_keys ks d) → x ∈ ks.
Proof.
  induction ks as [|k ks IH]; cbn; [done|]. destruct (dict_get k d); cbn; rewrite !elem_of_cons; tauto.
Qed.

Lemma pick_keys_NoDup ks d : NoDup ks → NoDup (dict_keys (pick_keys ks d)).
Proof.
  induction 1 as [|k ks Hk _ IH]; cbn; [constructor|]. destruct (dict_get k d); cbn; [|done].
  constructor; [|done]. by intros ?%pick_keys_elem.
Qed.

Lemma in_messages_known v ms : in_messages v ms = Ok true → ∃ s, v = VStr s ∧ dict_has s ms = true.
Proof. unfold in_messages. destruct v; cbn; try done. intros [= H]. by eexists. Qed.

(** The message of the user may be saved. *)
Lemma user_turn_saves ms G chat_user_id user_id user_name um umid now t :
  forest G → shows ms G → NoDup (dict_keys um) → umid ≠ "" →
  user_turn ms chat_user_id user_id user_name um (VStr umid) now = Ok t → saves ms umid t.1.
Proof.
  intros HG Hs Hum Hne H. unfold user_turn in H. cbn [get_by mbind res_bind] in H.
  destruct (G !! umid) as [n|] eqn:Hn.
  - destruct (shows_get _ _ _ _ Hs Hn) as (d & Hget & Hd & Hl). rewrite Hd in H.
    assert (truthy (VDict d) = true) as Ht.
    { destruct d; [|done]. destruct Hl as [_ _ Hc]. done. }
    rewrite Ht in H. cbn [as_dict mbind res_bind] in H. destruct (negb _); [done|].
    apply bind_Ok in H as (known & _ & H). destruct (negb _ && negb _); [done|]. injection H as <-. cbn [fst].
    destruct (_ && _); split; try done; cbn.
    + apply dict_set_NoDup, (hl_keys _ _ Hl).
    + intros d' Hd'. rewrite Hget in Hd'. injection Hd' as <-. unfold keeps_links.
      rewrite !dict_get_set_ne by done. unfold dget. split; by destruct (dict_get _ d).
    + congruence.
    + apply (hl_keys _ _ Hl).
    + intros d' Hd'. rewrite Hget in Hd'. injection Hd' as <-. unfold keeps_links, dget.
      split; by destruct (dict_get _ d).
    + congruence.
  - pose proof (proj1 (shows_none _ _ _ Hs) Hn) as Hget.
    assert (dget ms umid = VNone) as Hd by (unfold dget; by rewrite Hget). rewrite Hd in H.
    cbn [truthy mbind res_bind] in H.
    apply bind_Ok in H as (known & Hk & H). destruct (negb _ && negb _) eqn:E; [done|].
    apply Ok_inj in H as <-. cbn [fst]. unfold dict_update. cbn [foldl fst snd].
    set (base := if String.eqb chat_user_id user_id then um else _).
    assert (NoDup (dict_keys base)) as Hb.
    { unfold base. destruct (String.eqb _ _); [done|]. apply pick_keys_NoDup.
      refine (bool_decide_unpack _ _). vm_compute. exact I. }
    split; try done.
    + by repeat apply dict_set_NoDup.
    + intros d Hd2. congruence.
    + intros _. do 5 rewrite (dget_set_ne "parentId") by done. rewrite dget_set_eq. split.
      * apply andb_false_iff in E as [E|E]; apply negb_false_iff in E.
        -- left. by destruct (dget um "parentId").
        -- right. subst known. by apply in_messages_known in Hk.
      * right. do 3 rewrite dget_set_ne by done. by rewrite dget_set_eq.
Qed.

(** A reply of the turn is new, or hangs under the message of the user and has
    no children. *)
Definition ready (G : graph) (user_message_id : pyval) (mid : string) : Prop :=
  ∀ n, G !! mid = Some n → nd_children n = [] ∧ link (nd_parent n) = user_message_id.

(** The message of the user does not hang under one of its replies. *)
Lemma saves_not_under ms G umid m mid :
  forest G → shows ms G → saves ms umid m → ready G (VStr umid) mid →
  dget m "parentId" ≠ VStr mid.
Proof.
  intros HG Hs Hsv Hr Hp. destruct (G !! umid) as [n|] eqn:Hn.
  - destruct (shows_get _ _ _ _ Hs Hn) as (d & Hget & _ & [_ Hpd _]).
    destruct (sv_old _ _ _ Hsv d Hget) as [Hk _]. unfold keeps_links in Hk.
    assert (dict_get "parentId" m = Some (VStr mid)) as E.
    { unfold dget in Hp. destruct (dict_get "parentId" m); cbn in Hp; congruence. }
    rewrite E, Hpd in Hk. destruct (nd_parent n) as [p|] eqn:Ep; [|done]. injection Hk as <-.
    destruct (fo_parent _ HG umid n mid Hn) as [nm Hnm]; [congruence|].
    destruct (Hr nm Hnm) as [Hch _].
    assert (umid ∈ nd_children nm) as Hin.
    { apply (fo_children _ HG mid nm umid Hnm). exists n. split; [done|congruence]. }
    rewrite Hch in Hin. by apply elem_of_nil in Hin.
  - pose proof (proj1 (shows_none _ _ _ Hs) Hn) as Hget.
    destruct (sv_new _ _ _ Hsv Hget) as [[Hv|(p & Hv & Hhas)] _]; [congruence|].
    rewrite Hv in Hp. injection Hp as ->. rewrite (shows_has _ _ _ Hs) in Hhas.
    apply bool_decide_eq_true in Hhas as [nm Hnm]. destruct (Hr nm Hnm) as [_ Hl].
    destruct (nd_parent nm) as [q|] eqn:Eq; [|done]. injection Hl as ->.
    destruct (fo_parent _ HG mid nm umid Hnm Eq). congruence.
Qed.

(** What a turn may hang its replies under *)
Definition anchored (G : graph) (user_message_id : pyval) (mids : list string) : Prop :=
  user_message_id = VNone ∨ ∃ u, user_message_id = VStr u ∧ is_Some (G !! u) ∧ u ∉ mids.

Lemma reply_saves ms G user_id umid now mid entry m mids :
  shows ms G → anchored G umid mids → mid ≠ "" → ready G umid mid →
  reply_message user_id umid now mid entry = Ok m →
  saves ms mid m ∧ dget m "parentId" = umid.
Proof.
  intros Hs Ha Hne Hr H. unfold reply_message in H. apply bind_Ok in H as (model & _ & H).
  apply Ok_inj in H as <-. split; [|done]. split; cbn; try done.
  - refine (bool_decide_unpack _ _). vm_compute. exact I.
  - intros d Hd. destruct (G !! mid) as [n|] eqn:Hn; [|apply (shows_none _ _ _ Hs) in Hn; congruence].
    destruct (shows_get _ _ _ _ Hs Hn) as (d' & Hd' & _ & [_ Hp Hc]). assert (d' = d) as -> by congruence.
    destruct (Hr n Hn) as [Hch Hl]. split; cbn; [congruence|]. by rewrite Hc, Hch.
  - intros _. split; [|by right]. destruct Ha as [->|(u & -> & Hu & _)]; [by left|right].
    exists u. split; [done|]. rewrite (shows_has _ _ _ Hs). by apply bool_decide_eq_true.
Qed.

Lemma insert_replies_ok user_id umid now l h h' G :
  good_history h G → anchored G umid l.*1 → NoDup l.*1 → Forall (λ mid, mid ≠ "") l.*1 →
  Forall (ready G umid) l.*1 →
  foldM (insert_reply user_id umid now) h l = Ok h' → ∃ G', good_history h' G'.
Proof.
  revert h G. induction l as [|[mid entry] l IH]; intros h G Hg Ha Hnd Hne Hr H.
  { injection H as <-. by exists G. }
  cbn in Ha, Hnd, Hne, Hr. apply NoDup_cons in Hnd as [Hmid Hnd].
  apply Forall_cons in Hne as [Hm Hne]. apply Forall_cons in Hr as [Hrm Hr].
  cbn [foldM] in H. apply bind_Ok in H as (h1 & H1 & H).
  unfold insert_reply in H1. cbn [fst snd] in H1. apply bind_Ok in H1 as (m & Hrep & H1).
  apply bind_Ok in H1 as ([h2 saved] & Hu & H1). apply Ok_inj in H1 as <-. cbn [fst] in H.
  pose proof Hg as (HG & [_ Hs] & _).
  destruct (reply_saves (messages_of h) G user_id umid now mid entry m (mid :: l.*1)) as [Hsv Hp]; try done.
  destruct (upsert_good _ _ _ _ _ _ _ Hg Hsv Hu) as (G1 & Hg1 & _ & Hmono & Hsame).
  apply (IH h2 G1); try done.
  - destruct Ha as [->|(u & -> & Hu' & Hul)]; [by left|right]. exists u.
    split; [done|]. split; [by apply Hmono|]. set_solver.
  - apply Forall_forall. intros x Hx. rewrite Forall_forall in Hr. intros n.
    rewrite Hsame; [by apply Hr| |].
    + intros ->. done.
    + rewrite Hp. destruct Ha as [->|(u & -> & _ & Hul)]; [done|]. intros [= ->]. set_solver.
Qed.

Lemma turn_ids_ok l ids : turn_ids l = Ok ids → l = VStr <$> ids ∧ Forall (λ s, s ≠ "") ids.
Proof.
  revert ids. induction l as [|v l IH]; intros ids; cbn; [by intros [= <-]|].
  destruct v as [| | | |s| |]; try done. destruct s as [|c s]; [done|]. cbn.
  intros (l' & Hl & [= <-])%bind_Ok. destruct (IH l' Hl) as [-> Hne]. split; [done|by constructor].
Qed.

(** The history a turn starts from *)
Lemma turn_history chat G h0 :
  good_chat chat G →
  as_dict (por (dget chat "history") (VDict [("messages", VDict []); ("currentId", VNone)])) = Ok h0 →
  good_history h0 G ∧
  ∀ ms, as_dict (por (dget h0 "messages") (VDict [])) = Ok ms → ms = messages_of h0.
Proof.
  intros (h & Hh & Hg) H. assert (good_history h0 G) as Hg0.
  { assert (h0 = h ∨ messages_of h = [] ∧ h0 = [("messages", VDict []); ("currentId", VNone)])
      as [->|[Hm ->]]; [|done|].
    - unfold dgetd, dget in *. destruct (dict_get "history" chat) as [v|]; cbn in *.
      + subst v. destruct h; cbn in H; [right|left]; by injection H as <-.
      + injection Hh as <-. right. by injection H as <-.
    - destruct Hg as (HG & [_ Hs] & _). split; [done|]. rewrite Hm in Hs. split; [|by left].
      split; [by eexists|exact Hs]. }
  split; [done|]. intros ms Hms. destruct Hg0 as (_ & [[ms' Hms'] _] & _).
  unfold messages_of. rewrite Hms'. unfold dgetd, dget in *.
  destruct (dict_get "messages" h0) as [v|]; cbn in *; [|congruence].
  subst v. destruct ms'; by injection Hms as <-.
Qed.

(** A turn whose texts hold no null bytes, and whose replies are new or were
    prepared under the message of the user and have no answer yet. *)
Record plain_turn (chat : pydict) (chat_user_id user_id user_name : string) (um : pydict)
    (message_ids : list pydict) (now : Z) : Prop := {
  pt_keys : NoDup (dict_keys um);
  pt_clean t : user_turn (chat_messages chat) chat_user_id user_id user_name um (dget um "id") now = Ok t →
    clean_message t.1 = t.1;
  pt_replies e mid d : e ∈ message_ids → dget e "message_id" = VStr mid →
    dict_get mid (chat_messages chat) = Some (VDict d) →
    dget d "childrenIds" = VList [] ∧ (dget d "parentId" = dget um "id");
}.

Lemma chat_messages_turn chat G h0 :
  good_chat chat G →
  as_dict (por (dget chat "history") (VDict [("messages", VDict []); ("currentId", VNone)])) = Ok h0 →
  chat_messages chat = messages_of h0.
Proof.
  intros (h & Hh & _) H. unfold chat_messages. rewrite Hh. unfold dgetd, dget in *.
  destruct (dict_get "history" chat) as [v|]; cbn in *.
  - subst v. destruct h; by injection H as <-.
  - injection Hh as <-. by injection H as <-.
Qed.

Lemma zip_fst {A B} (l : list A) (k : list B) : length l = length k → (zip l k).*1 = l.
Proof. intros Hl. apply fst_zip. lia. Qed.

Lemma insert_chat_turn_ok chat cu u un um mids now chat' ids cur G :
  good_chat chat G → plain_turn chat cu u un um mids now →
  insert_chat_turn chat cu u un um mids now = Ok (chat', ids, cur) → ∃ G', good_chat chat' G'.
Proof.
  intros Hg Hpt H. unfold insert_chat_turn in H.
  apply bind_Ok in H as (h0 & Hh0 & H). apply bind_Ok in H as (ms & Hms & H).
  destruct (turn_history chat G h0 Hg Hh0) as [Hg0 Hms0]. apply Hms0 in Hms as ->.
  pose proof (chat_messages_turn chat G h0 Hg Hh0) as Hcm. clear Hh0 Hms0.
  apply bind_Ok in H as (l & Hl & H). apply turn_ids_ok in Hl as [Hl Hne].
  destruct (negb (bool_decide (NoDup l))) eqn:Hnd; [done|].
  apply negb_false_iff, bool_decide_eq_true in Hnd.
  apply bind_Ok in H as (checked & _ & H). apply bind_Ok in H as ([h1 parent] & H1 & H).
  cbn [fst snd] in H. apply bind_Ok in H as (h2 & H2 & H). apply bind_Ok in H as (c & _ & H).
  apply Ok_inj in H. injection H as <- _ _.
  set (replies := if truthy (VDict um) then tail l else l) in *.
  assert (VStr <$> replies = map (λ e, dget e "message_id") mids ∧ NoDup replies ∧
    Forall (λ s, s ≠ "") replies) as (Hrep & Hndr & Hner).
  { unfold replies. destruct (truthy (VDict um)); [|done]. destruct l as [|u0 l]; [done|].
    injection Hl as _ Hl. apply NoDup_cons in Hnd as [_ ?]. apply Forall_cons in Hne as [_ ?]. done. }
  assert ((zip replies mids).*1 = replies) as Hzip.
  { apply zip_fst. apply (f_equal length) in Hrep. by rewrite length_fmap, length_map in Hrep. }
  pose proof Hg0 as (HG & [_ Hs] & _).
  assert (Forall (ready G (dget um "id")) replies) as Hready.
  { apply Forall_forall. intros mid Hmid n Hn.
    destruct (shows_get _ _ _ _ Hs Hn) as (d & Hd & _ & [_ Hp Hc]).
    assert (VStr mid ∈ map (λ e, dget e "message_id") mids) as Hin.
    { rewrite <-Hrep. by apply list_elem_of_fmap_2. }
    apply list_elem_of_fmap in Hin as (e & He & Hin).
    rewrite <-Hcm in Hd. destruct (pt_replies _ _ _ _ _ _ _ Hpt e mid d Hin (eq_sym He) Hd) as [Hc' Hp'].
    rewrite Hc' in Hc. split; [|congruence]. injection Hc as Hc. by destruct (nd_children n). }
  assert (∃ G1, good_history h1 G1 ∧ anchored G1 (dget um "id") replies ∧
    Forall (ready G1 (dget um "id")) replies) as (G1 & Hg1 & Ha & Hr1).
  { destruct um as [|kv um']; [injection H1 as <- _; exists G; by split_and!; [|left|]|].
    destruct (dget (kv :: um') "id") as [| | | |umid| |] eqn:Eid;
      try (destruct l; discriminate Hl).
    cbn [mbind] in H1. apply bind_Ok in H1 as (t & Ht & H1).
    apply bind_Ok in H1 as ([h3 saved] & Hu & H1). apply Ok_inj in H1. injection H1 as <- _.
    rewrite <-Hcm in Ht. pose proof (pt_clean _ _ _ _ _ _ _ Hpt) as Hclean. rewrite Eid in Hclean.
    rewrite (Hclean t Ht) in Hu. rewrite Hcm in Ht.
    destruct l as [|u0 l]; [done|]. injection Hl as -> Hl. cbn [truthy] in replies.
    apply NoDup_cons in Hnd as [Hnotin _]. apply Forall_cons in Hne as [Hu0 _].
    assert (saves (messages_of h0) u0 t.1) as Hsv.
    { by eapply user_turn_saves; [| |apply (pt_keys _ _ _ _ _ _ _ Hpt)|..]. }
    destruct (upsert_good _ _ _ _ _ _ _ Hg0 Hsv Hu) as (G1 & Hg1 & Hin1 & _ & Hsame).
    exists G1. split; [done|]. split; [right; by exists u0|].
    apply Forall_forall. intros mid Hmid n. rewrite Hsame.
    - rewrite Forall_forall in Hready. by apply Hready.
    - intros ->. done.
    - rewrite Forall_forall in Hready. eapply saves_not_under; eauto. }
  destruct (insert_replies_ok u (dget um "id") now (zip replies mids) h1 h2 G1) as [G' HG'];
    rewrite ?Hzip; try done.
  exists G'. by apply good_chat_set.
Qed.

(** ** Sequences of operations *)

Inductive chat_step (repr_other : pyval → string) : chat_row → chat_row → Prop :=
| step_save row id m touch now row' ws :
    saves (chat_messages (cr_chat row)) (sanitize_text_for_db id) (prepare_message repr_other m) →
    save_message repr_other row id m touch now = Ok (row', ws) →
    chat_step repr_other row row'
| step_delete row id now row' ws :
    delete_message row id now = Ok (row', ws) → chat_step repr_other row row'
| step_turn row user_id user_name um message_ids now chat' ids cur row' :
    plain_turn (cr_chat row) (cr_user_id row) user_id user_name um message_ids now →
    insert_chat_turn (cr_chat row) (cr_user_id row) user_id user_name um message_ids now =
      Ok (chat', ids, cur) →
    cr_chat row' = chat' → chat_step repr_other row row'.

Lemma chat_step_ok repr_other row row' G :
  chat_step repr_other row row' → good_chat (cr_chat row) G → ∃ G', good_chat (cr_chat row') G'.
Proof.
  intros H Hg. destruct H as [row id m touch now row' ws Hsv H|row id now row' ws H
    |row u un um mids now chat' ids cur row' Hpt H <-].
  - by eapply save_message_ok.
  - by eapply delete_message_ok.
  - by eapply insert_chat_turn_ok.
Qed.

(** ** Branches *)

Lemma shows_message_map ms G : shows ms G → message_map ms.
Proof.
  intros Hs x v Hx. pose proof (sh_node _ _ Hs x) as Hn. rewrite Hx in Hn.
  destruct Hn as (d & nx & -> & _ & [_ Hp _]). exists d. split; [done|]. rewrite Hp.
  by destruct (nd_parent nx).
Qed.

Lemma shows_truthy ms G k : shows ms G → is_Some (G !! k) → truthy (dget ms k) = true.
Proof.
  intros Hs [n Hk]. destruct (shows_get _ _ _ _ Hs Hk) as (d & _ & -> & [_ _ Hc]). by destruct d.
Qed.

Lemma shows_parent_key ms G k p : forest G → shows ms G →
  parent_key ms k = Some p ↔ ∃ n, G !! k = Some n ∧ nd_parent n = Some p.
Proof.
  intros HG Hs. unfold parent_key. split.
  - intros H. destruct (G !! k) as [n|] eqn:Hk.
    + destruct (shows_get _ _ _ _ Hs Hk) as (d & _ & Hd & [_ Hp _]). rewrite Hd, Hp in H.
      exists n. split; [done|]. destruct (nd_parent n) as [q|]; [|done]. cbn in H.
      destruct (_ && _); [congruence|done].
    + apply (shows_none _ _ _ Hs) in Hk. unfold dget in H. by rewrite Hk in H.
  - intros (n & Hk & Hn). destruct (shows_get _ _ _ _ Hs Hk) as (d & _ & Hd & [_ Hp _]).
    assert (is_Some (G !! p)) as Hin by eauto using fo_parent.
    rewrite Hd, Hp, Hn. cbn [link]. rewrite (shows_truthy _ _ _ Hs Hin).
    pose proof (graph_parent_named _ _ HG Hin). by destruct p.
Qed.

(** A walk along parents stays among the messages and climbs. *)
Lemma walk_climbs ms G (f : string → nat) (ids : list string) i k : forest G → shows ms G →
  (∀ k n p, G !! k = Some n → nd_parent n = Some p → (f p < f k)%nat) →
  (∀ i a b, ids !! i = Some a → ids !! S i = Some b → parent_key ms a = Some b) →
  ids !! i = Some k → is_Some (G !! k) →
  ∀ j b, ids !! (i + j)%nat = Some b → is_Some (G !! b) ∧ (f b ≤ f k)%nat.
Proof.
  intros HG Hs Hf Hnext Hi Hk j. induction j as [|j IH]; intros b Hb.
  - rewrite Nat.add_0_r in Hb. by simplify_eq.
  - rewrite Nat.add_succ_r in Hb.
    assert (is_Some (ids !! (i + j)%nat)) as [c Hc].
    { apply lookup_lt_is_Some. apply lookup_lt_Some in Hb. lia. }
    pose proof (Hnext _ _ _ Hc Hb) as Hp.
    apply (shows_parent_key _ _ _ _ HG Hs) in Hp as (nc & Hnc & Hp).
    specialize (IH c Hc) as [_ IH]. pose proof (Hf _ _ _ Hnc Hp).
    split; [by eapply fo_parent|lia].
Qed.

(** The branch of a message of a forest ends at a root. *)
Lemma branch_reaches_root ms G k :
  forest G → shows ms G → is_Some (G !! k) →
  ∃ ids r d, get_message_list ms (VStr k) = Ok (rev (map (dget ms) ids)) ∧ head ids = Some k ∧
    last ids = Some r ∧ dget ms r = VDict d ∧ dget d "parentId" = VNone.
Proof.
  intros HG Hs Hk. pose proof (fo_rank _ HG) as [f Hf].
  destruct (branch_spec (S (length ms)) ms [] k) as (_ & _ & Hnext & Hlast & Hhead);
    [constructor|by intros ? ?%elem_of_nil|cbn; lia|].
  specialize (Hhead (shows_truthy _ _ _ Hs Hk) (not_elem_of_nil k)).
  remember (branch (S (length ms)) ms [] k) as ids eqn:Eids.
  destruct (last ids) as [r|] eqn:Hr.
  2: { apply last_None in Hr. by rewrite Hr in Hhead. }
  pose proof Hr as Hrl. rewrite last_lookup in Hrl. pose proof Hhead as Hh. rewrite head_lookup in Hh.
  destruct (walk_climbs ms G f ids 0 k HG Hs Hf Hnext Hh Hk (pred (length ids)) r Hrl) as [[nr Hnr] _].
  destruct (shows_get _ _ _ _ Hs Hnr) as (d & _ & Hd & [_ Hp _]).
  exists ids, r, d. split; [|split; [done|split; [done|split; [done|]]]].
  - unfold get_message_list. destruct ms as [|kv ms'] eqn:Ems; [by subst ids|].
    cbn [get_by mbind res_bind]. rewrite <-Ems in *.
    rewrite message_loop_branch by (by eapply shows_message_map). by rewrite app_nil_r, <-Eids.
  - rewrite Hp. destruct (nd_parent nr) as [p|] eqn:Ep; [exfalso|done].
    pose proof (Hf _ _ _ Hnr Ep) as Hlt.
    destruct (Hlast r p eq_refl) as [Hpin|Hn]; [|idtac|by apply elem_of_nil in Hn].
    { apply (shows_parent_key _ _ _ _ HG Hs). eauto. }
    apply list_elem_of_lookup in Hpin as [i Hi]. pose proof (lookup_lt_Some _ _ _ Hi).
    destruct (walk_climbs ms G f ids i p HG Hs Hf Hnext Hi ltac:(by eapply fo_parent)
      (pred (length ids) - i) r) as [_ Hle]; [|lia].
    by replace (i + (pred (length ids) - i))%nat with (pred (length ids)) by lia.
Qed.


Definition empty_row : chat_row :=
  {| cr_user_id := "u"; cr_chat := []; cr_title := VNone; cr_current_message_id := VNone;
     cr_updated_at := 0 |}.
Definition no_repr (_ : pyval) : string := "".
Definition saved_row (row : chat_row) (id : string) (m : pydict) : chat_row :=
  match save_message no_repr row id m true 7 with Ok r => r.1 | Err _ => row end.
Definition row_question : chat_row :=
  saved_row empty_row "q" [("id", VStr "q"); ("role", VStr "user"); ("content", VStr "hi")].
Definition row_answer : chat_row :=
  saved_row row_question "a" [("parentId", VStr "q"); ("role", VStr "assistant"); ("content", VStr "ho")].

Lemma empty_row_good : good_chat (cr_chat empty_row) ∅.
Proof.
  exists []. split; [done|]. split; [apply forest_empty|]. split; [|by left].
  split; [by eexists|]. split; [constructor|done].
Qed.


(** A turn without a message of the user (replies are regenerated) hangs every
    reply under nothing: a reply that was prepared under a message loses its
    parent, which still lists it. *)
Definition prepared_chat : pydict :=
  [("history", VDict [("currentId", VStr "a"); ("messages", VDict
      [("q", VDict [("parentId", VNone); ("childrenIds", VList [VStr "a"]); ("role", VStr "user")]);
       ("a", VDict [("parentId", VStr "q"); ("childrenIds", VList []); ("role", VStr "assistant")])])])].

Example prepared_reply_loses_its_parent :
  ∃ chat, insert_chat_turn prepared_chat "u" "u" "Ann" []
      [[("message_id", VStr "a"); ("model_id", VStr "m")]] 7 = Ok (chat, ["a"], VStr "a") ∧
    py_eqb (dget (match dget (chat_messages chat) "a" with VDict d => d | _ => [] end) "parentId") VNone = true ∧
    py_eqb (dget (match dget (chat_messages chat) "q" with VDict d => d | _ => [] end) "childrenIds")
      (VList [VStr "a"]) = true.
Proof. eexists. split; [vm_compute; reflexivity|]. split; vm_compute; reflexivity. Qed.
