(* ===== verification/ChatMergeProps.v ===== *)
(** * Properties of [ChatTree], continued: merging two copies of a history loses
    no message and rebuilds the lists of children; a stale save leaves the
    messages of others and unfinished replies alone; a fork is a chat of its own
    whose branch is the branch it was taken from. *)

From S2P Require Import Prelude PyVal Messages MessagesProps ChatTree ChatTreeProps.

(** ** Changing every value of a dict *)

Definition dmap (f : string → pyval → pyval) (d : pydict) : pydict := map (λ kv, (kv.1, f kv.1 kv.2)) d.

Lemma dmap_keys f d : dict_keys (dmap f d) = dict_keys d.
Proof. unfold dict_keys, dmap. by rewrite map_map. Qed.

Lemma dict_get_dmap f d k : dict_get k (dmap f d) = f k <$> dict_get k d.
Proof.
  induction d as [|[k' v] d IH]; [done|]. cbn. destruct (String.eqb k k') eqn:E; [|done].
  apply String.eqb_eq in E as ->. done.
Qed.

Lemma dmap_ext f g d : (∀ k v, (k, v) ∈ d → f k v = g k v) → dmap f d = dmap g d.
Proof.
  intros H. apply map_ext_in. intros [k v] Hin. cbn. f_equal. apply H. by apply list_elem_of_In.
Qed.

Lemma dict_set_dmap f g d p v :
  NoDup (dict_keys d) → dict_get p d = Some v → (∀ k w, k ≠ p → f k w = g k w) →
  dict_set p (g p v) (dmap f d) = dmap g d.
Proof.
  induction d as [|[k w] d IH]; [done|]. cbn. intros [Hk Hnd]%NoDup_cons Hg Hfg.
  destruct (String.eqb p k) eqn:E.
  - apply String.eqb_eq in E as ->. injection Hg as ->. f_equal. apply dmap_ext.
    intros k' w' Hin. apply Hfg. intros ->. apply Hk. by apply (list_elem_of_fmap_2 fst _ (k, w')).
  - f_equal; [|by apply IH]. rewrite Hfg; [done|]. intros ->. by rewrite String.eqb_refl in E.
Qed.

(** ** Merging *)

Definition no_id_or_text (v : pyval) : Prop := v = VNone ∨ ∃ s, v = VStr s.

Lemma in_messages_plain v ms : no_id_or_text v →
  in_messages v ms = Ok (match v with VStr s => dict_has s ms | _ => false end).
Proof. by intros [->|[s ->]]. Qed.

(** Messages that are dicts and name their parent, if any, by a text *)
Record plain (ms : pydict) : Prop := {
  pl_keys : NoDup (dict_keys ms);
  pl_message k v : dict_get k ms = Some v → ∃ d, v = VDict d ∧ no_id_or_text (dget d "parentId");
}.

Definition parent_of (ms : pydict) (id : string) : pyval :=
  match dget ms id with VDict d => dget d "parentId" | _ => VNone end.

(** The ids among [ids] of the messages under [k], in their order *)
Definition children_among (ids : list string) (ms : pydict) (k : string) : list string :=
  List.filter (λ c, veq_str (parent_of ms c) k) ids.

Definition with_children (cs : list string) (v : pyval) : pyval :=
  match v with VDict d => VDict (dict_set "childrenIds" (VList (VStr <$> cs)) d) | _ => v end.

Definition relinked (ids : list string) (ms : pydict) : pydict :=
  dmap (λ k, with_children (children_among ids ms k)) ms.

Lemma plain_dict ms k : plain ms → k ∈ dict_keys ms →
  ∃ d, dict_get k ms = Some (VDict d) ∧ dget ms k = VDict d ∧ parent_of ms k = dget d "parentId" ∧
    no_id_or_text (dget d "parentId").
Proof.
  intros Hp Hk. destruct (dict_get k ms) as [v|] eqn:E; [|by apply dict_get_None in E].
  destruct (pl_message _ Hp k v E) as (d & -> & Hd). exists d. unfold parent_of, dget at 1 2.
  by rewrite E.
Qed.

Lemma plain_update ex inc : plain ex → plain inc → plain (dict_update ex inc).
Proof.
  intros He Hi. split; [apply dict_update_NoDup, pl_keys, He|].
  intros k v. rewrite dict_get_update by apply Hi.
  destruct (dict_get k inc) as [w|] eqn:E; [intros [= <-]; by eapply pl_message|]. by apply pl_message.
Qed.

Lemma parent_of_relinked ids ms k : parent_of (relinked ids ms) k = parent_of ms k.
Proof.
  unfold parent_of, dget at 1 3. unfold relinked. rewrite dict_get_dmap.
  destruct (dict_get k ms) as [v|]; [|done]. cbn. destruct v; try done. cbn. by rewrite dget_set_ne.
Qed.

Lemma dict_has_relinked ids ms k : dict_has k (relinked ids ms) = dict_has k ms.
Proof. unfold dict_has, relinked. rewrite dict_get_dmap. by destruct (dict_get k ms). Qed.

Lemma without_children_relinked ms : plain ms → without_children ms = relinked [] ms.
Proof.
  intros Hp. assert (∀ k v, (k, v) ∈ ms → ∃ d, v = VDict d) as H.
  { intros k v Hin. apply dict_get_elem in Hin; [|apply Hp].
    destruct (pl_message _ Hp k v Hin) as (d & -> & _). by exists d. }
  clear Hp. unfold relinked. change (λ k, with_children (children_among [] ms k))
    with (λ _ : string, with_children []).
  induction ms as [|[k v] ms IH]; [done|]. destruct (H k v) as [d ->]; [left|].
  cbn. f_equal. apply IH. intros k' v' Hin. apply (H k'). by right.
Qed.

Lemma children_among_snoc ids ms c k :
  children_among (ids ++ [c]) ms k =
    children_among ids ms k ++ (if veq_str (parent_of ms c) k then [c] else []).
Proof. unfold children_among. rewrite List.filter_app. cbn. by destruct (veq_str _ k). Qed.

Lemma relinked_none ids ms c :
  (∀ k, dict_has k ms = true → veq_str (parent_of ms c) k = false) →
  relinked (ids ++ [c]) ms = relinked ids ms.
Proof.
  intros H. apply dmap_ext. intros k v Hin. rewrite children_among_snoc, H, app_nil_r; [done|].
  unfold dict_has. destruct (dict_get k ms) eqn:E; [done|]. apply dict_get_None in E.
  destruct E. by apply (list_elem_of_fmap_2 fst _ (k, v)).
Qed.

Lemma merge_step_ok ids ms c : plain ms → c ∈ dict_keys ms →
  merge_step (relinked ids ms) c = Ok (relinked (ids ++ [c]) ms).
Proof.
  intros Hp Hc. destruct (plain_dict ms c Hp Hc) as (d & Hd & _ & Hpar & Hid). unfold merge_step.
  assert (vget (dget (relinked ids ms) c) "parentId" = Ok (parent_of ms c)) as ->.
  { unfold relinked, dget at 1. rewrite dict_get_dmap, Hd. cbn. rewrite Hpar. f_equal.
    by rewrite dget_set_ne. }
  cbn [mbind res_bind]. rewrite Hpar in *.
  rewrite in_messages_plain by done. cbn [mbind res_bind]. f_equal.
  destruct Hid as [Hn|[p Hn]]; rewrite Hn in *.
  { symmetry. apply relinked_none. intros k _. by rewrite Hpar. }
  rewrite dict_has_relinked. destruct (dict_has p ms) eqn:Hhas.
  2: { symmetry. apply relinked_none. intros k Hk. rewrite Hpar.
       destruct (veq_str (VStr p) k) eqn:E; [|done]. apply veq_str_true in E. congruence. }
  unfold dict_has in Hhas. destruct (dict_get p ms) as [v|] eqn:Ev; [clear Hhas|done].
  destruct (pl_message _ Hp p v Ev) as (dp & -> & _).
  assert (dget (relinked ids ms) p =
    VDict (dict_set "childrenIds" (VList (VStr <$> children_among ids ms p)) dp)) as Hdp.
  { unfold dget, relinked. rewrite dict_get_dmap, Ev. done. }
  unfold append_child. rewrite Hdp. cbv iota beta. rewrite dget_set_eq, dict_set_set.
  unfold relinked. rewrite <-(dict_set_dmap (λ k, with_children (children_among ids ms k))
    (λ k, with_children (children_among (ids ++ [c]) ms k)) ms p (VDict dp)); [|apply Hp|done|].
  - f_equal. cbn [with_children]. rewrite children_among_snoc, Hpar, (proj2 (veq_str_true _ _) eq_refl).
    by rewrite fmap_app.
  - intros k w Hk. rewrite children_among_snoc, Hpar.
    destruct (veq_str (VStr p) k) eqn:E; [apply veq_str_true in E; congruence|by rewrite app_nil_r].
Qed.

Lemma merge_steps_ok ids done ms : plain ms → (∀ c, c ∈ ids → c ∈ dict_keys ms) →
  foldM merge_step (relinked done ms) ids = Ok (relinked (done ++ ids) ms).
Proof.
  intros Hp. revert done. induction ids as [|c ids IH]; intros done H; cbn [foldM].
  { by rewrite app_nil_r. }
  rewrite merge_step_ok; [|done|apply H; by left]. cbn [mbind res_bind]. rewrite IH.
  - by rewrite <-app_assoc.
  - intros x Hx. apply H. by right.
Qed.

(** A history that stores the messages [ms], or none *)
Definition stores (h ms : pydict) : Prop :=
  dget h "messages" = VDict ms ∨ dget h "messages" = VNone ∧ ms = [].

Lemma por_dict h : por (VDict h) (VDict []) = VDict h.
Proof. by destruct h. Qed.

Lemma stores_messages h ms : stores h ms → messages_in (VDict h) = Ok ms.
Proof.
  unfold messages_in. rewrite por_dict. cbn [vget mbind res_bind].
  intros [->|[-> ->]]; [by rewrite por_dict|done].
Qed.

(** The id shown after a merge: the incoming one if it is known, else the
    stored one if it is known, else none. *)
Definition merged_current (he hi ms : pydict) : pyval :=
  let known v := match v with VStr s => dict_has s ms | _ => false end in
  if known (dget hi "currentId") then dget hi "currentId"
  else if known (dget he "currentId") then dget he "currentId" else VNone.

Lemma merge_history_ok he hi ex inc :
  stores he ex → stores hi inc → plain ex → plain inc →
  no_id_or_text (dget he "currentId") → no_id_or_text (dget hi "currentId") →
  let ms := dict_update ex inc in
  ∃ h, merge_history (VDict he) (VDict hi) = Ok h ∧
    dget h "messages" = VDict (relinked (dict_keys ms) ms) ∧
    dget h "currentId" = merged_current he hi ms ∧
    (∀ k, k ≠ "messages" → k ≠ "currentId" → NoDup (dict_keys hi) →
      dget h k = match dict_get k hi with Some v => v | None => dget he k end).
Proof.
  intros He Hi Hpe Hpi Hce Hci ms. pose proof (plain_update ex inc Hpe Hpi) as Hp. fold ms in Hp.
  unfold merge_history. rewrite (stores_messages _ _ He), (stores_messages _ _ Hi).
  cbn [mbind res_bind]. fold ms. rewrite (without_children_relinked ms Hp).
  assert (dict_keys (relinked [] ms) = dict_keys ms) as -> by apply dmap_keys.
  rewrite merge_steps_ok by done. cbn [mbind res_bind app]. rewrite !por_dict.
  cbn [as_dict mbind res_bind]. rewrite (in_messages_plain _ _ Hci), (in_messages_plain _ _ Hce).
  set (h := dict_update _ _). eexists. split; [|split; [|split]].
  - cbn [mbind res_bind].
    instantiate (1 := dict_update (dict_update he hi)
      [("messages", VDict (relinked (dict_keys ms) ms)); ("currentId", merged_current he hi ms)]).
    unfold merged_current. subst h. revert Hce Hci.
    intros [->|[e ->]] [->|[i ->]]; rewrite ?dict_has_relinked; try done;
      destruct (dict_has _ ms); try done; destruct (dict_has _ ms); done.
  - unfold dict_update at 1. cbn [foldl fst snd]. rewrite dget_set_ne by done. by rewrite dget_set_eq.
  - unfold dict_update at 1. cbn [foldl fst snd]. by rewrite dget_set_eq.
  - intros k H1 H2 Hnd. unfold dict_update at 1. cbn [foldl fst snd].
    rewrite !dget_set_ne by done. by apply dget_update.
Qed.

(** ** Stale saves *)

(** The stored message [d] must not be replaced by the incoming one [m]: it is
    another author's, or a reply that is still being written in one of them. *)
Definition protects (chat_user_id : string) (d m : pydict) : bool :=
  negb (py_eqb (por (dget d "user_id") (VStr chat_user_id)) (VStr chat_user_id))
  || veq_str (dget d "role") "assistant" && (is_False (dget d "done") || is_False (dget m "done")).

(** The message that survives under an id *)
Definition survivor (chat_user_id : string) (ex inc : pydict) (k : string) : pyval :=
  match dict_get k ex, dict_get k inc with
  | Some (VDict d), Some (VDict m) => if protects chat_user_id d m then VDict d else VDict m
  | Some v, _ => v
  | None, Some v => v
  | None, None => VNone
  end.

Lemma restore_step_ok cu updated k d m :
  dict_get k updated = Some (VDict m) →
  restore_step cu updated (k, VDict d) =
    Ok (if protects cu d m then dict_set k (VDict d) updated else updated).
Proof.
  intros Hm. unfold restore_step, keeps_stored, protects. cbn [fst snd as_dict mbind res_bind].
  destruct (py_eqb _ _); cbn [negb orb mbind res_bind]; [|done].
  destruct (veq_str _ _); cbn [negb andb mbind res_bind]; [|done].
  destruct (is_False (dget d "done")); cbn [orb mbind res_bind]; [done|].
  unfold ditem. rewrite Hm. cbn [mbind res_bind vget]. done.
Qed.

Lemma restore_ok cu saved updated :
  NoDup (dict_keys saved) →
  (∀ k v, (k, v) ∈ saved → ∃ d, v = VDict d) →
  (∀ k, k ∈ dict_keys saved → ∃ m, dict_get k updated = Some (VDict m)) →
  ∃ r, foldM (restore_step cu) updated saved = Ok r ∧ dict_keys r = dict_keys updated ∧
    ∀ k, dict_get k r = match dict_get k saved, dict_get k updated with
                        | Some (VDict d), Some (VDict m) =>
                            if protects cu d m then Some (VDict d) else Some (VDict m)
                        | _, v => v
                        end.
Proof.
  revert updated. induction saved as [|[k v] saved IH]; intros updated Hnd Hv Hin.
  { exists updated. done. }
  apply NoDup_cons in Hnd as [Hk Hnd]. destruct (Hv k v) as [d ->]; [left|].
  destruct (Hin k) as [m Hm]; [left|]. cbn [foldM]. rewrite (restore_step_ok _ _ _ _ m Hm).
  cbn [mbind res_bind]. set (u1 := if protects cu d m then dict_set k (VDict d) updated else updated).
  assert (dict_keys u1 = dict_keys updated ∧ ∀ x, x ≠ k → dict_get x u1 = dict_get x updated) as [Hu1 Hne].
  { subst u1. destruct (protects cu d m); [|done]. split; [|intros x Hx; by apply dict_get_set_ne].
    rewrite dict_keys_set. unfold dict_has. by rewrite Hm. }
  destruct (IH u1 Hnd) as (r & Hr & Hkeys & Hget).
  - intros k' v' H'. apply (Hv k'). by right.
  - intros x Hx. rewrite Hne; [apply Hin; by right|]. intros ->. done.
  - exists r. split; [done|]. split; [congruence|]. intros x. rewrite Hget. cbn [dict_get].
    destruct (String.eqb x k) eqn:E.
    + apply String.eqb_eq in E as ->. cbn in Hk. apply dict_get_None in Hk as ->. rewrite Hm. subst u1.
      destruct (protects cu d m); [apply dict_get_set_eq|done].
    + rewrite Hne; [done|]. intros ->. by rewrite String.eqb_refl in E.
Qed.

Lemma dict_has_keys {V W} k (d : list (string * V)) (e : list (string * W)) :
  dict_keys d = dict_keys e → dict_has k d = dict_has k e.
Proof.
  intros H. unfold dict_has. destruct (dict_get k d) eqn:E, (dict_get k e) eqn:E'; try done.
  - apply dict_get_None in E'. apply dict_get_Some_key in E. congruence.
  - apply dict_get_None in E. apply dict_get_Some_key in E'. congruence.
Qed.

Lemma merged_current_known he hi ms :
  merged_current he hi ms = VNone ∨ ∃ s, merged_current he hi ms = VStr s ∧ dict_has s ms = true.
Proof.
  unfold merged_current. destruct (dget hi "currentId") as [| | | |i| |], (dget he "currentId") as [| | | |e| |];
    cbn; try (by left); try destruct (dict_has i ms) eqn:Hi; try destruct (dict_has e ms) eqn:He; eauto.
Qed.

Lemma merged_current_keys he hi ms ms' : dict_keys ms = dict_keys ms' →
  merged_current he hi ms = merged_current he hi ms'.
Proof.
  intros Hk. unfold merged_current. destruct (dget hi "currentId") as [| | | |i| |],
    (dget he "currentId") as [| | | |e| |]; rewrite ?(dict_has_keys _ ms ms' Hk); done.
Qed.

Lemma merged_current_again he hi h ms :
  dget h "currentId" = merged_current he hi ms → merged_current h [] ms = merged_current he hi ms.
Proof.
  intros Hh. unfold merged_current at 1. cbn [dget dict_get default]. rewrite Hh.
  destruct (merged_current_known he hi ms) as [->|(s & -> & Hs)]; [done|]. by rewrite Hs.
Qed.

Lemma merged_current_ok he hi ms : no_id_or_text (merged_current he hi ms).
Proof. destruct (merged_current_known he hi ms) as [->|(s & -> & _)]; [by left|right; by exists s]. Qed.

(** The messages that are merged, with the protected ones put back *)
Lemma restored_spec cu ex inc r k :
  plain ex → plain inc →
  let ms := dict_update ex inc in
  dict_get k r = match dict_get k ex, dict_get k (relinked (dict_keys ms) ms) with
                 | Some (VDict d), Some (VDict m) =>
                     if protects cu d m then Some (VDict d) else Some (VDict m)
                 | _, v => v
                 end →
  k ∈ dict_keys ms →
  ∃ d, survivor cu ex inc k = VDict d ∧ no_id_or_text (dget d "parentId") ∧
    ∃ d', dict_get k r = Some (VDict d') ∧
      (d' = d ∨ ∃ l, d' = dict_set "childrenIds" l d).
Proof.
  intros Hpe Hpi ms Hr Hk. unfold survivor, relinked in *. rewrite dict_get_dmap in Hr.
  subst ms. rewrite dict_get_update in Hr by apply Hpi.
  destruct (dict_get k ex) as [v|] eqn:Ee, (dict_get k inc) as [w|] eqn:Ei.
  - destruct (pl_message _ Hpe k v Ee) as (d & -> & Hd), (pl_message _ Hpi k w Ei) as (m & -> & Hm).
    cbn in Hr. assert (∀ l, protects cu d (dict_set "childrenIds" l m) = protects cu d m) as Hpr.
    { intros l. unfold protects. by rewrite dget_set_ne. }
    rewrite Hpr in Hr. destruct (protects cu d m); eauto 8.
  - destruct (pl_message _ Hpe k v Ee) as (d & -> & Hd). cbn in Hr. exists d.
    destruct (protects cu d _); eauto 8.
  - destruct (pl_message _ Hpi k w Ei) as (m & -> & Hm). cbn in Hr. eauto 8.
  - apply dict_keys_update_elem in Hk as [Hk|Hk]; apply dict_get_None in Hk; done.
Qed.

Lemma restored_ok cu ex inc :
  plain ex → plain inc →
  let ms := dict_update ex inc in
  ∃ r, foldM (restore_step cu) (relinked (dict_keys ms) ms) ex = Ok r ∧ dict_keys r = dict_keys ms ∧
    plain r ∧ ∀ k, k ∈ dict_keys ms → ∃ d, survivor cu ex inc k = VDict d ∧
      ∃ d', dict_get k r = Some (VDict d') ∧ (d' = d ∨ ∃ l, d' = dict_set "childrenIds" l d).
Proof.
  intros Hpe Hpi ms. pose proof (plain_update ex inc Hpe Hpi) as Hp. fold ms in Hp.
  destruct (restore_ok cu ex (relinked (dict_keys ms) ms)) as (r & Hr & Hkr & Hget).
  { apply Hpe. }
  { intros k v Hin. apply dict_get_elem in Hin; [|apply Hpe].
    destruct (pl_message _ Hpe k v Hin) as (d & -> & _). eauto. }
  { intros k Hk. unfold relinked. rewrite dict_get_dmap.
    destruct (plain_dict ms k Hp) as (d & -> & _); [|cbn; eauto].
    apply dict_keys_update_elem. by left. }
  unfold relinked in Hkr at 1. rewrite dmap_keys in Hkr.
  assert (∀ k, k ∈ dict_keys ms → ∃ d, survivor cu ex inc k = VDict d ∧
    no_id_or_text (dget d "parentId") ∧ ∃ d', dict_get k r = Some (VDict d') ∧
      (d' = d ∨ ∃ l, d' = dict_set "childrenIds" l d)) as Hspec.
  { intros k Hk. eapply restored_spec; eauto. }
  assert (plain r) as Hpr.
  { split; [rewrite Hkr; apply Hp|]. intros k v Hv. destruct (Hspec k) as (d & _ & Hd & d' & Hd' & Hor).
    { rewrite <-Hkr. by eapply dict_get_Some_key. }
    exists d'. split; [congruence|]. destruct Hor as [->|[l ->]]; [done|]. by rewrite dget_set_ne. }
  exists r. split; [done|]. split; [done|]. split; [done|]. intros k Hk.
  destruct (Hspec k Hk) as (d & Hsv & _ & Hd). eauto.
Qed.

(** C13: patching a chat with a history read earlier loses no message: every
    message stored since survives, in place; a message of another author, and a
    reply that either copy says is unfinished, keeps what is stored; every other
    message is the caller's.  The list of children of each message is rebuilt:
    the messages that name it as parent, in the order of the dict.  The chat
    shows the caller's message, else the stored one, if it exists. *)
Theorem stale_save_loses_nothing chat_user_id stored he hi ex inc :
  dict_get "history" stored = Some (VDict he) → stores he ex → stores hi inc →
  plain ex → plain inc → no_id_or_text (dget he "currentId") → no_id_or_text (dget hi "currentId") →
  ∃ h ms, update_history chat_user_id stored (VDict hi) = Ok h ∧ dget h "messages" = VDict ms ∧
    dict_keys ms = dict_keys (dict_update ex inc) ∧
    (∀ k, k ∈ dict_keys ms →
      dget ms k = with_children (children_among (dict_keys ms) ms k) (survivor chat_user_id ex inc k)) ∧
    dget h "currentId" = merged_current he hi ms.
Proof.
  intros Hst He Hi Hpe Hpi Hce Hci.
  destruct (merge_history_ok he hi ex inc He Hi Hpe Hpi Hce Hci) as (h1 & Hm & Hms & Hcur & _).
  destruct (restored_ok chat_user_id ex inc Hpe Hpi) as (r & Hr & Hkr & Hpr & Hspec).
  set (ms := dict_update ex inc) in *.
  destruct (merge_history_ok (dict_set "messages" (VDict r) h1) [] r []) as (h2 & Hm2 & Hms2 & Hcur2 & _).
  { left. by rewrite dget_set_eq. }
  { by right. }
  { done. }
  { split; [constructor|done]. }
  { rewrite dget_set_ne, Hcur by done. apply merged_current_ok. }
  { by left. }
  cbn [dict_update foldl] in Hms2, Hcur2. exists h2, (relinked (dict_keys r) r).
  split_and!.
  - unfold update_history. rewrite (dget_Some _ _ _ Hst), Hm.
    assert (dgetd stored "history" (VDict []) = VDict he) as -> by (unfold dgetd; by rewrite Hst).
    cbn [mbind res_bind vget].
    assert (as_dict (por (dget he "messages") (VDict [])) = Ok ex) as ->.
    { destruct He as [->|[-> ->]]; [by rewrite por_dict|done]. }
    cbn [mbind res_bind]. rewrite (stores_messages h1 (relinked (dict_keys ms) ms)) by by left.
    cbn [mbind res_bind]. rewrite Hr. cbn [mbind res_bind]. exact Hm2.
  - done.
  - unfold relinked. by rewrite dmap_keys.
  - intros k Hk. unfold relinked in Hk. rewrite dmap_keys, Hkr in Hk.
    destruct (Hspec k Hk) as (d & -> & d' & Hd' & Hor).
    assert (children_among (dict_keys (relinked (dict_keys r) r)) (relinked (dict_keys r) r) k =
      children_among (dict_keys r) r k) as ->.
    { unfold children_among. unfold relinked at 2. rewrite dmap_keys. apply List.filter_ext.
      intros c. by rewrite parent_of_relinked. }
    unfold dget, relinked. rewrite dict_get_dmap, Hd'. cbn. destruct Hor as [->|[l ->]]; [done|].
    by rewrite dict_set_set.
  - rewrite Hcur2, (merged_current_keys _ _ r ms) by done.
    rewrite (merged_current_again he hi) by (by rewrite dget_set_ne).
    apply merged_current_keys. unfold relinked. by rewrite dmap_keys.
Qed.

Definition msg (parent : pyval) (fields : pydict) : pyval :=
  VDict (("parentId", parent) :: ("childrenIds", VList []) :: fields).

(** A stored chat with a reply that is still being written, and a copy read
    before the reply and a follow-up by another author. *)
Definition stored_messages : pydict :=
  [("q", msg VNone [("role", VStr "user")]);
   ("a", msg (VStr "q") [("role", VStr "assistant"); ("done", VBool false)]);
   ("x", msg (VStr "a") [("role", VStr "user"); ("user_id", VStr "v")])].
Definition stale_messages : pydict :=
  [("q", msg VNone [("role", VStr "user"); ("content", VStr "edited")]);
   ("a", msg (VStr "q") [("role", VStr "assistant"); ("done", VBool true); ("content", VStr "old")])].
Definition with_messages (ms : pydict) (current : string) : pydict :=
  [("messages", VDict ms); ("currentId", VStr current)].

Lemma plain_check ms :
  NoDup (dict_keys ms) →
  Forall (λ kv, ∃ d, kv.2 = VDict d ∧ no_id_or_text (dget d "parentId")) ms → plain ms.
Proof.
  intros Hnd H. split; [done|]. intros k v Hk. rewrite Forall_forall in H.
  apply (H (k, v)). by apply dict_get_Some_elem.
Qed.

Lemma stale_save_loses_nothing_witness :
  plain stored_messages ∧ plain stale_messages ∧
  ∃ h ms, update_history "u" [("history", VDict (with_messages stored_messages "x"))]
      (VDict (with_messages stale_messages "a")) = Ok h ∧
    dget h "messages" = VDict ms ∧ dict_keys ms = ["q"; "a"; "x"] ∧
    dget ms "a" = VDict [("parentId", VStr "q"); ("childrenIds", VList [VStr "x"]);
                         ("role", VStr "assistant"); ("done", VBool false)] ∧
    dget h "currentId" = VStr "a".
Proof.
  assert (plain stored_messages) as H1.
  { apply plain_check; [refine (bool_decide_unpack _ _); vm_compute; exact I|].
    repeat constructor; (eexists; split; [reflexivity|]); first [by left|right; by eexists]. }
  assert (plain stale_messages) as H2.
  { apply plain_check; [refine (bool_decide_unpack _ _); vm_compute; exact I|].
    repeat constructor; (eexists; split; [reflexivity|]); first [by left|right; by eexists]. }
  split; [exact H1|]. split; [exact H2|].
  destruct (stale_save_loses_nothing "u" [("history", VDict (with_messages stored_messages "x"))]
    (with_messages stored_messages "x") (with_messages stale_messages "a") stored_messages stale_messages)
    as (h & ms & Hh & Hms & Hk & Hget & Hc);
    [reflexivity|left; reflexivity|left; reflexivity|exact H1|exact H2
    |right; exists "x"; reflexivity|right; exists "a"; reflexivity|].
  exists h, ms. vm_compute in Hh. apply Ok_inj in Hh. subst h. vm_compute in Hms. injection Hms as <-.
  split; [vm_compute; reflexivity|]. split; [reflexivity|]. split; [vm_compute; reflexivity|].
  split; vm_compute; reflexivity.
Defined.
