(* ===== verification/ChatForkProps.v ===== *)
(** * Properties of [ChatTree], continued: a fork is a chat of its own, whose
    branch is the branch it was taken from. *)

From S2P Require Import Prelude PyVal Messages MessagesProps ChatTree ChatTreeProps ChatMergeProps.

(** ** The branch that is copied *)

(** The messages from an id up to a message without a parent *)
Inductive ancestry (ms : pydict) : pyval → list (string * pydict) → Prop :=
| ancestry_end v : truthy v = false → ancestry ms v []
| ancestry_up s d l :
    s ≠ "" → dict_get s ms = Some (VDict d) → ancestry ms (dget d "parentId") l →
    ancestry ms (VStr s) ((s, d) :: l).

(** Messages name their parent, if any, by a text *)
Definition linked_by_text (ms : pydict) : Prop :=
  ∀ k d, dict_get k ms = Some (VDict d) → no_id_or_text (dget d "parentId").

Lemma ancestry_inv ms v l : ancestry ms v l →
  match v, l with
  | VStr s, (s', d) :: l' => s = s' ∧ s ≠ "" ∧ dict_get s ms = Some (VDict d) ∧ ancestry ms (dget d "parentId") l'
  | _, [] => truthy v = false
  | _, _ => False
  end.
Proof. destruct 1 as [v Hv|s d l Hs Hd Hl]; [by destruct v|done]. Qed.

Lemma mem_id_VStr s sn : mem_id (VStr s) (VStr <$> sn) = bool_decide (s ∈ sn).
Proof. apply existsb_VStr. Qed.

Lemma fork_branch_spec ms : linked_by_text ms → ∀ fuel sn v,
  no_id_or_text v → NoDup sn → (∀ x, x ∈ sn → x ∈ dict_keys ms) → S (length ms) < fuel + length sn →
  match fork_branch fuel ms (VStr <$> sn) v with
  | Ok l => ancestry ms v l ∧ NoDup l.*1 ∧ (∀ x, x ∈ l.*1 → x ∉ sn)
  | Err e => (∃ m, e = ValueError m) ∧
      ∀ l, ancestry ms v l → NoDup l.*1 → (∀ x, x ∈ l.*1 → x ∉ sn) → False
  end.
Proof.
  intros Hms fuel. induction fuel as [|fuel IH]; intros sn v Hv Hnd Hsub Hlen.
  { exfalso. apply NoDup_submseteq in Hsub; [|done]. apply submseteq_length in Hsub.
    unfold dict_keys in Hsub. rewrite length_map in Hsub. lia. }
  cbn [fork_branch]. destruct (truthy v) eqn:Ht; cbn [negb].
  2:{ split; [by constructor|]. split; [constructor|]. by intros x ?%elem_of_nil. }
  destruct Hv as [->|[s ->]]; [done|]. assert (s ≠ "") as Hs by (by intros ->).
  change (hashed (VStr s)) with (Ok (VStr s)). cbn [mbind res_bind]. rewrite mem_id_VStr.
  case_bool_decide as Hin.
  { split; [by eexists|]. intros l Hl _ Hfresh. apply ancestry_inv in Hl.
    destruct l as [|[s' d] l]; [congruence|]. destruct Hl as (<- & _). apply (Hfresh s); [by left|done]. }
  change (get_by ms (VStr s)) with (Ok (dget ms s)). cbn [mbind res_bind].
  assert ((∃ d, dict_get s ms = Some (VDict d) ∧ dget ms s = VDict d) ∨
    (∀ d, dict_get s ms ≠ Some (VDict d)) ∧ ∀ d, dget ms s ≠ VDict d) as [(d & Hd & ->)|[Hno Hno']].
  { unfold dget. destruct (dict_get s ms) as [[]|]; cbn; eauto; by right. }
  2:{ assert (∀ (k : pydict → res (list (string * pydict))) e,
        match dget ms s with VDict d => k d | _ => Err e end = Err e) as Hm.
      { intros k e. destruct (dget ms s) as [| | | | | |d'] eqn:E; try done. by destruct (Hno' d'). }
      rewrite Hm. split; [by eexists|]. intros l Hl _ _. apply ancestry_inv in Hl.
      destruct l as [|[s' d] l]; [congruence|]. destruct Hl as (<- & _ & Hd & _). by apply (Hno d). }
  specialize (IH (s :: sn) (dget d "parentId")). cbn [fmap list_fmap] in IH.
  destruct (fork_branch fuel ms _ _) as [l|e] eqn:Ef; cbn [mbind res_bind].
  - destruct IH as (Hl & Hndl & Hfr); [by eapply Hms|by constructor| |cbn; lia|].
    { intros x [->|Hx]%elem_of_cons; [by eapply dict_get_Some_key|by apply Hsub]. }
    split; [by constructor|]. cbn. split.
    + constructor; [|done]. intros Hx. apply (Hfr s Hx). by left.
    + intros x [->|Hx]%elem_of_cons; [done|]. intros Hs'. apply (Hfr x Hx). by right.
  - destruct IH as [He Hn]; [by eapply Hms|by constructor| |cbn; lia|].
    { intros x [->|Hx]%elem_of_cons; [by eapply dict_get_Some_key|by apply Hsub]. }
    split; [done|]. intros l Hl Hndl Hfr. apply ancestry_inv in Hl.
    destruct l as [|[s' d'] l]; [congruence|]. destruct Hl as (<- & _ & Hd' & Hl).
    rewrite Hd in Hd'. injection Hd' as <-. cbn in Hndl, Hfr. apply NoDup_cons in Hndl as [Hsl Hndl].
    apply (Hn l Hl Hndl). intros x Hx [->|Hx']%elem_of_cons; [done|].
    apply (Hfr x); [by right|done].
Qed.

(** ** The copies *)

Definition copy (parent : pyval) (k : string) (d : pydict) (next : list string) : pyval :=
  VDict (dict_set "childrenIds" (VList (VStr <$> next))
           (dict_set "parentId" parent (dict_set "id" (VStr k) d))).

Definition next_id (l : list (string * pydict)) : list string :=
  match l with [] => [] | m :: _ => [m.1] end.
Definition last_id (parent : pyval) (l : list (string * pydict)) : pyval :=
  match last l with Some m => VStr m.1 | None => parent end.

(** The messages of the fork, the root first: each hangs under the one before
    and lists the one after. *)
Fixpoint fork_chain (parent : pyval) (l : list (string * pydict)) : pydict :=
  match l with
  | [] => []
  | (k, d) :: r => (k, copy parent k d (next_id r)) :: fork_chain (VStr k) r
  end.

Lemma fork_chain_keys parent l : dict_keys (fork_chain parent l) = l.*1.
Proof. revert parent. induction l as [|[k d] l IH]; intros parent; cbn; [done|]. f_equal. apply IH. Qed.

Lemma fork_chain_length parent l : length (fork_chain parent l) = length l.
Proof. revert parent. induction l as [|[k d] l IH]; intros parent; cbn; [done|]. by rewrite IH. Qed.

Lemma last_id_cons parent k d l : last_id parent ((k, d) :: l) = last_id (VStr k) l.
Proof. unfold last_id. rewrite last_cons. by destruct (last l). Qed.

Lemma fork_chain_get parent l1 k d l2 :
  NoDup (l1 ++ (k, d) :: l2).*1 →
  dict_get k (fork_chain parent (l1 ++ (k, d) :: l2)) = Some (copy (last_id parent l1) k d (next_id l2)).
Proof.
  revert parent. induction l1 as [|[k' d'] l1 IH]; intros parent.
  - intros _. cbn. by rewrite String.eqb_refl.
  - cbn [app fmap list_fmap fst]. intros [Hk Hnd]%NoDup_cons. cbn [fork_chain dict_get].
    destruct (String.eqb_spec k k') as [->|_].
    + destruct Hk. rewrite fmap_app. apply elem_of_app. right. by left.
    + by rewrite IH, last_id_cons.
Qed.

Lemma dict_set_new {V} k (v : V) d : k ∉ dict_keys d → dict_set k v d = d ++ [(k, v)].
Proof.
  induction d as [|[k' v'] d IH]; cbn; [done|]. intros [Hne Hk]%not_elem_of_cons.
  destruct (String.eqb_spec k k') as [->|_]; [done|]. by rewrite IH.
Qed.

Lemma fork_chain_snoc parent l p dp k d :
  NoDup (l ++ [(p, dp)]).*1 →
  dict_set p (copy (last_id parent l) p dp [k]) (fork_chain parent (l ++ [(p, dp)]))
    ++ [(k, copy (VStr p) k d [])] =
  fork_chain parent (l ++ [(p, dp); (k, d)]).
Proof.
  revert parent. induction l as [|[k' d'] l IH]; intros parent.
  - intros _. cbn. by rewrite String.eqb_refl.
  - cbn [app fmap list_fmap fst]. intros [Hk Hnd]%NoDup_cons. cbn [fork_chain dict_set].
    destruct (String.eqb_spec p k') as [->|_].
    + destruct Hk. rewrite fmap_app. apply elem_of_app. right. by left.
    + rewrite last_id_cons. cbn [app]. rewrite IH by done. by destruct l.
Qed.

(** The state of the loop after some messages *)
Definition fork_state_of (l : list (string * pydict)) : fork_state :=
  {| fk_messages := fork_chain VNone l; fk_ordered := l.*1; fk_parent := last_id VNone l |}.

Lemma fork_step_ok l k d :
  NoDup (l.*1 ++ [k]) → "" ∉ l.*1 → fork_step (fork_state_of l) (k, d) = Ok (fork_state_of (l ++ [(k, d)])).
Proof.
  intros Hnd Hne. unfold fork_step, fork_state_of. cbn [fk_messages fk_ordered fk_parent fst snd].
  assert (k ∉ l.*1) as Hk.
  { apply NoDup_app in Hnd as (_ & H & _). intros Hk. apply (H k Hk). by left. }
  destruct l as [|[p dp] l _] using rev_ind.
  - cbn. done.
  - unfold last_id. rewrite !last_snoc. cbn [fst].
    assert (p ≠ "") as Hp.
    { intros ->. apply Hne. rewrite fmap_app. apply elem_of_app. right. by left. }
    assert (Str.is_empty p = false) as -> by (by destruct p).
    assert (NoDup (l ++ [(p, dp)]).*1) as Hndl by (by apply NoDup_app in Hnd as (? & _)).
    unfold ditem. rewrite fork_chain_get by done. cbn [mbind res_bind as_dict copy next_id fmap list_fmap].
    rewrite dict_set_set. f_equal. f_equal.
    + rewrite dict_set_new.
      * rewrite <-(app_assoc l [(p, dp)] [(k, d)]). cbn [app]. by apply fork_chain_snoc.
      * rewrite dict_keys_set, fork_chain_keys. case_match; [done|].
        intros [?|?%list_elem_of_singleton]%elem_of_app; [done|subst].
        apply Hk. rewrite fmap_app. apply elem_of_app. right. by left.
    + by rewrite !fmap_app.
Qed.

Lemma fork_steps_ok l1 l2 :
  NoDup (l1 ++ l2).*1 → "" ∉ (l1 ++ l2).*1 →
  foldM fork_step (fork_state_of l1) l2 = Ok (fork_state_of (l1 ++ l2)).
Proof.
  revert l1. induction l2 as [|[k d] l2 IH]; intros l1 Hnd Hne; cbn [foldM].
  { by rewrite app_nil_r. }
  rewrite fork_step_ok.
  - cbn [mbind res_bind]. rewrite IH; rewrite <-app_assoc; done.
  - rewrite fmap_app, fmap_cons in Hnd. rewrite cons_middle, app_assoc in Hnd.
    by apply NoDup_app in Hnd as (? & _).
  - intros H. apply Hne. rewrite fmap_app. apply elem_of_app. by left.
Qed.

(** ** The branch of the fork *)

Lemma fork_chain_truthy l1 k d l2 : NoDup (l1 ++ (k, d) :: l2).*1 →
  dget (fork_chain VNone (l1 ++ (k, d) :: l2)) k = copy (last_id VNone l1) k d (next_id l2) ∧
  truthy (copy (last_id VNone l1) k d (next_id l2)) = true.
Proof.
  intros Hnd. split; [unfold dget; by rewrite fork_chain_get|].
  unfold copy. destruct (dict_set "childrenIds" _ _) eqn:E; [|done].
  apply (f_equal (dict_get "childrenIds")) in E. by rewrite dict_get_set_eq in E.
Qed.

Lemma fork_chain_parent l1 k d l2 : NoDup (l1 ++ (k, d) :: l2).*1 → "" ∉ l1.*1 →
  parent_key (fork_chain VNone (l1 ++ (k, d) :: l2)) k = fst <$> last l1.
Proof.
  intros Hnd Hne. unfold parent_key. destruct (fork_chain_truthy l1 k d l2 Hnd) as [-> _].
  unfold copy at 1. rewrite dget_set_ne, dget_set_eq by done. unfold last_id.
  destruct l1 as [|[p dp] l1 _] using rev_ind; [done|]. rewrite last_snoc. cbn [fst fmap option_fmap option_map].
  rewrite <-app_assoc in *. cbn [app] in *.
  destruct (fork_chain_truthy l1 p dp ((k, d) :: l2) Hnd) as [-> ->].
  assert (p ≠ "") as Hp; [|by destruct p].
  intros ->. apply Hne. rewrite fmap_app. apply elem_of_app. right. by left.
Qed.

Lemma fork_chain_branch l1 k d l2 fuel visited : NoDup (l1 ++ (k, d) :: l2).*1 → "" ∉ l1.*1 →
  (∀ x, x ∈ visited → x ∉ (l1 ++ [(k, d)]).*1) → length l1 < fuel →
  branch fuel (fork_chain VNone (l1 ++ (k, d) :: l2)) visited k = rev (l1 ++ [(k, d)]).*1.
Proof.
  revert k d l2 fuel visited. induction l1 as [|[p dp] l1 IH] using rev_ind;
    intros k d l2 fuel visited Hnd Hne Hv Hf; (destruct fuel as [|fuel]; [lia|]); cbn [branch].
  all: rewrite (proj1 (fork_chain_truthy _ k d l2 Hnd)), (proj2 (fork_chain_truthy _ k d l2 Hnd)),
    (fork_chain_parent _ k d l2 Hnd Hne).
  all: rewrite bool_decide_eq_true_2 by
    (intros Hk; apply (Hv k Hk); rewrite fmap_app; apply elem_of_app; right; by left); cbn [andb].
  - done.
  - rewrite last_snoc. cbn [fst fmap option_fmap option_map]. rewrite <-app_assoc in Hnd |- *. cbn [app] in *.
    rewrite IH.
    + by rewrite (fmap_app _ (l1 ++ _)), (rev_app_distr (fst <$> (l1 ++ _))).
    + done.
    + intros H. apply Hne. rewrite fmap_app. apply elem_of_app. by left.
    + intros x [->|Hx]%elem_of_cons.
      * replace (l1 ++ (p, dp) :: (k, d) :: l2) with ((l1 ++ [(p, dp)]) ++ (k, d) :: l2) in Hnd
          by (by rewrite <-app_assoc).
        rewrite fmap_app in Hnd. apply NoDup_app in Hnd as (_ & H & _).
        intros Hk. apply (H k Hk). by left.
      * intros Hin. apply (Hv x Hx). rewrite fmap_app. apply elem_of_app. by left.
    + rewrite length_app in Hf. cbn in Hf. lia.
Qed.

Lemma dict_values_dget (d : pydict) : NoDup (dict_keys d) → map (dget d) (dict_keys d) = dict_values d.
Proof.
  intros Hnd. unfold dict_keys, dict_values. rewrite map_map. apply map_ext_in.
  intros [k v] Hin. apply list_elem_of_In in Hin. cbn. apply dget_Some. by apply dict_get_elem.
Qed.

Lemma fork_chain_messages l src d : NoDup (l ++ [(src, d)]).*1 → "" ∉ l.*1 →
  get_message_list (fork_chain VNone (l ++ [(src, d)])) (VStr src) =
    Ok (dict_values (fork_chain VNone (l ++ [(src, d)]))).
Proof.
  intros Hnd Hne. set (C := fork_chain VNone (l ++ [(src, d)])).
  assert (message_map C) as Hm.
  { intros k v Hv. assert (k ∈ (l ++ [(src, d)]).*1) as Hk.
    { rewrite <-(fork_chain_keys VNone). by eapply dict_get_Some_key. }
    apply list_elem_of_fmap in Hk as ([k' dk] & -> & Hk). apply list_elem_of_split in Hk as (l1 & l2 & Hl).
    cbn in Hv. unfold C in Hv. rewrite Hl in Hv, Hnd. rewrite fork_chain_get in Hv by done.
    injection Hv as <-. eexists. split; [reflexivity|]. rewrite dget_set_ne, dget_set_eq by done.
    unfold last_id. by destruct (last l1). }
  unfold get_message_list. destruct C as [|kv C'] eqn:EC.
  { apply (f_equal dict_keys) in EC. unfold C in EC. rewrite fork_chain_keys in EC. by destruct l. }
  cbn [get_by mbind res_bind]. rewrite <-EC in *. rewrite message_loop_branch by done.
  unfold C at 3. rewrite fork_chain_branch; [|done|done|by intros ? ?%elem_of_nil|].
  - rewrite app_nil_r, <-map_rev, rev_involutive. rewrite <-(fork_chain_keys VNone (l ++ [(src, d)])).
    f_equal. apply dict_values_dget. unfold C. by rewrite fork_chain_keys.
  - unfold C. rewrite fork_chain_length, length_app. cbn. lia.
Qed.

Lemma ancestry_named ms v l : ancestry ms v l → "" ∉ l.*1.
Proof.
  induction 1 as [|s d l Hs _ _ IH]; [by intros ?%elem_of_nil|]. cbn.
  intros [H|H]%elem_of_cons; [by symmetry in H|done].
Qed.

(** The ancestry as it is, root first, is what the fork stores. *)
Lemma build_fork_ok ms src l :
  fork_branch (S (S (length ms))) ms [] (VStr src) = Ok l → ms ≠ [] → NoDup l.*1 → "" ∉ l.*1 →
  build_fork_history ms src =
    Ok ([("messages", VDict (fork_chain VNone (rev l))); ("currentId", VStr src)],
        dict_values (fork_chain VNone (rev l))).
Proof.
  intros Hb Hms Hnd Hne. unfold build_fork_history. destruct ms as [|kv ms]; [done|].
  rewrite Hb. cbn [mbind res_bind].
  assert ((rev l).*1 ≡ₚ l.*1) as Hperm.
  { apply fmap_Permutation. symmetry. apply Permutation_rev. }
  change {| fk_messages := []; fk_ordered := []; fk_parent := VNone |} with (fork_state_of []).
  rewrite fork_steps_ok; cbn [app]; [|by rewrite Hperm|by rewrite Hperm].
  cbn [mbind res_bind fork_state_of fk_messages fk_ordered]. do 2 f_equal.
  rewrite <-(fork_chain_keys VNone (rev l)). apply dict_values_dget.
  rewrite fork_chain_keys. by rewrite Hperm.
Qed.

(** C16: [build_fork_history] copies exactly the branch of the given message:
    the fork holds its ancestry, root first, each copy with the fields of its
    original, under the copy before and with the copy after as its only child,
    and reading the branch of the fork back gives the copies in order.  It fails
    with a [ValueError] when, and only when, the branch runs into an unknown
    message or a cycle. *)
Theorem fork_is_the_branch ms src :
  ms ≠ [] → src ≠ "" → linked_by_text ms →
  match build_fork_history ms src with
  | Ok (h, ordered) =>
      ∃ l, ancestry ms (VStr src) l ∧ NoDup l.*1 ∧
        h = [("messages", VDict (fork_chain VNone (rev l))); ("currentId", VStr src)] ∧
        ordered = dict_values (fork_chain VNone (rev l)) ∧
        get_message_list (fork_chain VNone (rev l)) (VStr src) = Ok ordered
  | Err e => (∃ m, e = ValueError m) ∧ ¬ ∃ l, ancestry ms (VStr src) l ∧ NoDup l.*1
  end.
Proof.
  intros Hms Hsrc Hl.
  pose proof (fork_branch_spec ms Hl (S (S (length ms))) [] (VStr src)) as H. cbn [fmap list_fmap] in H.
  specialize (H ltac:(right; by eexists) ltac:(constructor) ltac:(by intros ? ?%elem_of_nil) ltac:(cbn; lia)).
  destruct (fork_branch _ ms [] (VStr src)) as [l|e] eqn:Hb.
  - destruct H as (Ha & Hnd & _). pose proof (ancestry_named _ _ _ Ha) as Hne.
    rewrite (build_fork_ok ms src l Hb Hms Hnd Hne). exists l. split_and!; try done.
    apply ancestry_inv in Ha as Hi. destruct l as [|[s d] l]; [by destruct src|].
    destruct Hi as (<- & _). cbn [rev]. apply fork_chain_messages.
    + assert ((rev l ++ [(src, d)]).*1 ≡ₚ ((src, d) :: l).*1) as ->; [|done].
      apply fmap_Permutation. rewrite <-Permutation_rev. symmetry. apply Permutation_cons_append.
    + intros Hin. apply Hne. cbn. right. rewrite list_elem_of_fmap in Hin |- *.
      destruct Hin as (x & Hx & Hin). exists x. split; [done|].
      apply list_elem_of_In. apply list_elem_of_In in Hin. by apply in_rev.
  - destruct H as [He Hno]. unfold build_fork_history. destruct ms as [|kv ms]; [done|].
    rewrite Hb. cbn [mbind res_bind]. split; [done|]. intros (l & Ha & Hnd).
    apply (Hno l Ha Hnd). by intros ? _ ?%elem_of_nil.
Qed.

Definition forked_messages : pydict :=
  [("q", msg VNone [("content", VStr "hi")]); ("b", msg (VStr "q") []);
   ("a", msg (VStr "q") [("content", VStr "ho")])].

Lemma fork_is_the_branch_witness :
  ∃ h ordered l, build_fork_history forked_messages "a" = Ok (h, ordered) ∧
    l.*1 = ["a"; "q"] ∧ ancestry forked_messages (VStr "a") l ∧
    get_message_list (fork_chain VNone (rev l)) (VStr "a") = Ok ordered.
Proof.
  assert (linked_by_text forked_messages) as Hl.
  { intros k d Hk. apply dict_get_Some_elem in Hk. unfold forked_messages in Hk.
    rewrite !elem_of_cons in Hk. destruct Hk as [Hk|[Hk|[Hk|Hk]]]; [| | |by apply elem_of_nil in Hk];
      injection Hk as _ ->; first [by left|right; by eexists]. }
  pose proof (fork_is_the_branch forked_messages "a" ltac:(discriminate) ltac:(discriminate) Hl) as H.
  destruct (build_fork_history forked_messages "a") as [[h ordered]|e] eqn:E;
    [|vm_compute in E; discriminate E].
  destruct H as (l & Ha & _ & Hh & _ & Hg). exists h, ordered, l.
  split; [reflexivity|]. split; [|by split].
  inversion Ha as [|s d l' _ Hd Hl' Hs]; subst; [done|]. vm_compute in Hd. injection Hd as <-.
  vm_compute in Hl'. inversion Hl' as [|s d l2 _ Hd Hl2 Hs]; subst; [done|]. vm_compute in Hd. injection Hd as <-.
  vm_compute in Hl2. inversion Hl2; subst. reflexivity.
Defined.
