(* ===== verification/BotGateway.v ===== *)
(** * The tables of the bot gateway (models/bot_gateway.py): connections of bots,
    the identities bound to accounts, binding codes, conversations, groups,
    inbound events with their leases, request nonces and stored credentials.

    [gateway_db] holds the tables.  Every method of the source ends in a commit;
    a unique key that is violated is an [IntegrityError].  Foreign keys are not
    enforced (SQLite): the code does not rely on their cascades.  [now] is the
    time a method reads and [uuid] the identifier it draws. *)

From S2P Require Import Prelude PyVal PyDecimal Scheduler.
From Stdlib Require Import SpecFloat.

Local Open Scope Z_scope.

(** ** Rows *)

(** [BotGatewayConnection] *)
Record bot_connection := {
  co_id : string;
  co_channel : string;
  co_name : string;
  co_enabled : bool;
  co_status : string;
  co_credentials_configured : bool;
  co_account_id : option string;
  co_account_name : option string;
  co_config : pyval;
  co_last_error : option string;
  co_last_seen_at : option Z;
  co_created_by : option string;
  co_owner_user_id : option string;
  co_shard_id : option string;
  co_account_key : option string;
  co_assignment_generation : option Z;
  co_last_runtime_node_id : option string;
  co_last_runtime_at : option Z;
  co_created_at : Z;
  co_updated_at : Z;
}.

(** [BotGatewayBinding] *)
Record binding := {
  bi_id : string;
  bi_connection_id : string;
  bi_user_id : string;
  bi_external_user_id : string;
  bi_display_name : option string;
  bi_enabled : bool;
  bi_blocked : bool;
  bi_blocked_at : option Z;
  bi_blocked_by : option string;
  bi_unbind_requested_at : option Z;
  bi_last_seen_at : option Z;
  bi_created_at : Z;
  bi_updated_at : Z;
}.

(** [BotGatewayConversation] *)
Record conversation := {
  cv_id : string;
  cv_connection_id : string;
  cv_binding_id : string;
  cv_user_id : string;
  cv_conversation_type : string;
  cv_external_conversation_id : string;
  cv_external_sender_id : string;
  cv_session_key : string;
  cv_chat_id : option string;
  cv_model_id : option string;
  cv_last_event_at : option Z;
  cv_created_at : Z;
  cv_updated_at : Z;
}.

(** [BotGatewayBindingCode] *)
Record binding_code := {
  bc_id : string;
  bc_user_id : string;
  bc_channel : option string;
  bc_code_hash : string;
  bc_expires_at : Z;
  bc_consumed_at : option Z;
  bc_consumed_by_binding_id : option string;
  bc_created_at : Z;
}.

(** [BotGatewayGroup] *)
Record group := {
  gp_id : string;
  gp_connection_id : string;
  gp_external_group_id : string;
  gp_name : option string;
  gp_allowed : bool;
  gp_member_count : option Z;
  gp_discovered_at : option Z;
  gp_last_seen_at : option Z;
  gp_updated_by : option string;
  gp_created_at : Z;
  gp_updated_at : Z;
}.

(** [BotGatewayEvent] *)
Inductive event_status := Processing | Completed | Failed.
#[export] Instance event_status_eq_dec : EqDecision event_status.
Proof. solve_decision. Defined.

Record event := {
  ev_id : string;
  ev_connection_id : string;
  ev_event_id : string;
  ev_request_hash : string;
  ev_request_nonce : string;
  ev_status : event_status;
  ev_conversation_type : string;
  ev_external_conversation_id : string;
  ev_external_sender_id : string;
  ev_binding_id : option string;
  ev_conversation_id : option string;
  ev_chat_id : option string;
  ev_assistant_message_id : option string;
  ev_response : option pyval;
  ev_error : option string;
  ev_attempts : Z;
  ev_received_at : Z;
  ev_completed_at : option Z;
  ev_updated_at : Z;
}.

(** [BotGatewayRequestNonce] *)
Record nonce_row := { no_nonce : string; no_expires_at : Z; no_created_at : Z }.

(** [BotGatewayBindingHistory] *)
Record history_row := {
  hi_id : string;
  hi_user_id : option string;
  hi_connection_id : option string;
  hi_channel : string;
  hi_external_user_id : option string;
  hi_display_name : option string;
  hi_action : string;
  hi_actor_user_id : option string;
  hi_metadata : pyval;
  hi_created_at : Z;
}.

(** [BotGatewayCredential]; the versions are always 1. *)
Record credential := {
  cr_id : string;
  cr_connection_id : string;
  cr_channel : string;
  cr_account_digest : string;
  cr_envelope : string;
  cr_created_at : Z;
  cr_updated_at : Z;
}.

(** [BotGatewayAccountCheckpoint] *)
Record checkpoint := {
  cp_connection_id : string;
  cp_payload : string;
  cp_payload_sha256 : string;
  cp_updated_at : Z;
}.

(** The tables, and the time of the next cleanup that [BotGatewayTable] keeps. *)
Record gateway_db := {
  gw_connections : list bot_connection;
  gw_bindings : list binding;
  gw_conversations : list conversation;
  gw_codes : list binding_code;
  gw_groups : list group;
  gw_events : list event;
  gw_nonces : list nonce_row;
  gw_history : list history_row;
  gw_credentials : list credential;
  gw_checkpoints : list checkpoint;
  gw_next_cleanup_at : Z;
}.

Definition set_connections l d :=
  {| gw_connections := l; gw_bindings := gw_bindings d; gw_conversations := gw_conversations d;
     gw_codes := gw_codes d; gw_groups := gw_groups d; gw_events := gw_events d;
     gw_nonces := gw_nonces d; gw_history := gw_history d; gw_credentials := gw_credentials d;
     gw_checkpoints := gw_checkpoints d; gw_next_cleanup_at := gw_next_cleanup_at d |}.
Definition set_bindings l d :=
  {| gw_connections := gw_connections d; gw_bindings := l; gw_conversations := gw_conversations d;
     gw_codes := gw_codes d; gw_groups := gw_groups d; gw_events := gw_events d;
     gw_nonces := gw_nonces d; gw_history := gw_history d; gw_credentials := gw_credentials d;
     gw_checkpoints := gw_checkpoints d; gw_next_cleanup_at := gw_next_cleanup_at d |}.
Definition set_conversations l d :=
  {| gw_connections := gw_connections d; gw_bindings := gw_bindings d; gw_conversations := l;
     gw_codes := gw_codes d; gw_groups := gw_groups d; gw_events := gw_events d;
     gw_nonces := gw_nonces d; gw_history := gw_history d; gw_credentials := gw_credentials d;
     gw_checkpoints := gw_checkpoints d; gw_next_cleanup_at := gw_next_cleanup_at d |}.
Definition set_codes l d :=
  {| gw_connections := gw_connections d; gw_bindings := gw_bindings d;
     gw_conversations := gw_conversations d; gw_codes := l; gw_groups := gw_groups d;
     gw_events := gw_events d; gw_nonces := gw_nonces d; gw_history := gw_history d;
     gw_credentials := gw_credentials d; gw_checkpoints := gw_checkpoints d;
     gw_next_cleanup_at := gw_next_cleanup_at d |}.
Definition set_groups l d :=
  {| gw_connections := gw_connections d; gw_bindings := gw_bindings d;
     gw_conversations := gw_conversations d; gw_codes := gw_codes d; gw_groups := l;
     gw_events := gw_events d; gw_nonces := gw_nonces d; gw_history := gw_history d;
     gw_credentials := gw_credentials d; gw_checkpoints := gw_checkpoints d;
     gw_next_cleanup_at := gw_next_cleanup_at d |}.
Definition set_events l d :=
  {| gw_connections := gw_connections d; gw_bindings := gw_bindings d;
     gw_conversations := gw_conversations d; gw_codes := gw_codes d; gw_groups := gw_groups d;
     gw_events := l; gw_nonces := gw_nonces d; gw_history := gw_history d;
     gw_credentials := gw_credentials d; gw_checkpoints := gw_checkpoints d;
     gw_next_cleanup_at := gw_next_cleanup_at d |}.
Definition set_nonces l d :=
  {| gw_connections := gw_connections d; gw_bindings := gw_bindings d;
     gw_conversations := gw_conversations d; gw_codes := gw_codes d; gw_groups := gw_groups d;
     gw_events := gw_events d; gw_nonces := l; gw_history := gw_history d;
     gw_credentials := gw_credentials d; gw_checkpoints := gw_checkpoints d;
     gw_next_cleanup_at := gw_next_cleanup_at d |}.
Definition set_history l d :=
  {| gw_connections := gw_connections d; gw_bindings := gw_bindings d;
     gw_conversations := gw_conversations d; gw_codes := gw_codes d; gw_groups := gw_groups d;
     gw_events := gw_events d; gw_nonces := gw_nonces d; gw_history := l;
     gw_credentials := gw_credentials d; gw_checkpoints := gw_checkpoints d;
     gw_next_cleanup_at := gw_next_cleanup_at d |}.
Definition set_credentials l d :=
  {| gw_connections := gw_connections d; gw_bindings := gw_bindings d;
     gw_conversations := gw_conversations d; gw_codes := gw_codes d; gw_groups := gw_groups d;
     gw_events := gw_events d; gw_nonces := gw_nonces d; gw_history := gw_history d;
     gw_credentials := l; gw_checkpoints := gw_checkpoints d;
     gw_next_cleanup_at := gw_next_cleanup_at d |}.
Definition set_checkpoints l d :=
  {| gw_connections := gw_connections d; gw_bindings := gw_bindings d;
     gw_conversations := gw_conversations d; gw_codes := gw_codes d; gw_groups := gw_groups d;
     gw_events := gw_events d; gw_nonces := gw_nonces d; gw_history := gw_history d;
     gw_credentials := gw_credentials d; gw_checkpoints := l;
     gw_next_cleanup_at := gw_next_cleanup_at d |}.
Definition set_next_cleanup_at z d :=
  {| gw_connections := gw_connections d; gw_bindings := gw_bindings d;
     gw_conversations := gw_conversations d; gw_codes := gw_codes d; gw_groups := gw_groups d;
     gw_events := gw_events d; gw_nonces := gw_nonces d; gw_history := gw_history d;
     gw_credentials := gw_credentials d; gw_checkpoints := gw_checkpoints d;
     gw_next_cleanup_at := z |}.

(** ** Statements *)

(** UPDATE, DELETE and their row counts *)
Definition update_where {R} (p : R → bool) (f : R → R) (l : list R) : list R :=
  map (λ r, if p r then f r else r) l.
Definition delete_where {R} (p : R → bool) (l : list R) : list R := List.filter (λ r, negb (p r)) l.
Definition count_where {R} (p : R → bool) (l : list R) : nat := length (List.filter p l).

Definition opt_eqb (a b : option string) : bool := bool_decide (a = b).

(** ** Request nonces *)

(** [claim_request_nonce] *)
Definition claim_request_nonce (now : Z) (nonce : string) (expires_at : Z) : st gateway_db bool := λ d,
  let kept := delete_where (λ r, String.eqb (no_nonce r) nonce && (no_expires_at r <=? now)) (gw_nonces d) in
  let row := {| no_nonce := nonce; no_expires_at := Z.max expires_at (now + 1); no_created_at := now |} in
  if existsb (λ r, String.eqb (no_nonce r) nonce) kept then (Ok false, d)
  else (Ok true, set_nonces (kept ++ [row]) d).

(** [cleanup_expired_records]: the numbers of rows deleted. *)
Definition event_retention_seconds : Z := 30 * 24 * 60 * 60.
Definition binding_code_retention_seconds : Z := 24 * 60 * 60.
Definition cleanup_interval_seconds : Z := 10 * 60.

Definition cleanup_expired_records (now : Z) (retention : Z) (force : bool) : st gateway_db (nat * nat * nat) := λ d,
  if negb force && (now <? gw_next_cleanup_at d) then (Ok (0, 0, 0)%nat, d)
  else
    let old_nonce r := no_expires_at r <=? now in
    let old_event e := ev_updated_at e <=? now - Z.max 1 retention in
    let old_code c := bc_expires_at c <=? now - binding_code_retention_seconds in
    (Ok (count_where old_nonce (gw_nonces d), count_where old_event (gw_events d),
         count_where old_code (gw_codes d)),
     set_nonces (delete_where old_nonce (gw_nonces d))
       (set_events (delete_where old_event (gw_events d))
          (set_codes (delete_where old_code (gw_codes d))
             (set_next_cleanup_at (now + cleanup_interval_seconds) d)))).

(** ** Inbound events *)

Definition same_event (connection_id event_id : string) (e : event) : bool :=
  String.eqb (ev_connection_id e) connection_id && String.eqb (ev_event_id e) event_id.

(** The event a worker holds *)
Definition held_by (id nonce : string) (e : event) : bool :=
  String.eqb (ev_id e) id && bool_decide (ev_status e = Processing)
  && String.eqb (ev_request_nonce e) nonce.

Definition event_conflict : exn := ValueError "Event ID was reused with a different payload".

(** The INSERT of [claim_event] *)
Definition insert_event (uuid : string) (now : Z) (connection_id event_id request_hash request_nonce
    conversation_type external_conversation_id external_sender_id : string) : st gateway_db event := λ d,
  let item := {| ev_id := uuid; ev_connection_id := connection_id; ev_event_id := event_id;
    ev_request_hash := request_hash; ev_request_nonce := request_nonce; ev_status := Processing;
    ev_conversation_type := conversation_type;
    ev_external_conversation_id := external_conversation_id;
    ev_external_sender_id := external_sender_id; ev_binding_id := None; ev_conversation_id := None;
    ev_chat_id := None; ev_assistant_message_id := None; ev_response := None; ev_error := None;
    ev_attempts := 1; ev_received_at := now; ev_completed_at := None; ev_updated_at := now |} in
  if existsb (λ e, same_event connection_id event_id e || String.eqb (ev_id e) uuid) (gw_events d)
  then (Err IntegrityError, d) else (Ok item, set_events (gw_events d ++ [item]) d).

(** The UPDATE of [claim_event], which takes a failed event over, or one whose
    lease ran out *)
Definition reclaimable (id request_hash : string) (lease_cutoff : Z) (e : event) : bool :=
  String.eqb (ev_id e) id && String.eqb (ev_request_hash e) request_hash
  && (bool_decide (ev_status e = Failed)
      || bool_decide (ev_status e = Processing) && (ev_updated_at e <=? lease_cutoff)).

Definition take_over (now : Z) (request_nonce : string) (e : event) : event :=
  {| ev_id := ev_id e; ev_connection_id := ev_connection_id e; ev_event_id := ev_event_id e;
     ev_request_hash := ev_request_hash e; ev_request_nonce := request_nonce; ev_status := Processing;
     ev_conversation_type := ev_conversation_type e;
     ev_external_conversation_id := ev_external_conversation_id e;
     ev_external_sender_id := ev_external_sender_id e; ev_binding_id := ev_binding_id e;
     ev_conversation_id := ev_conversation_id e; ev_chat_id := ev_chat_id e;
     ev_assistant_message_id := ev_assistant_message_id e; ev_response := ev_response e;
     ev_error := None; ev_attempts := ev_attempts e + 1; ev_received_at := ev_received_at e;
     ev_completed_at := None; ev_updated_at := now |}.

Definition reclaim_event (now : Z) (id request_hash request_nonce : string) (lease_seconds : Z)
    : st gateway_db bool := λ d,
  let p := reclaimable id request_hash (now - Z.max 1 lease_seconds) in
  (Ok (count_where p (gw_events d) =? 1)%nat,
   set_events (update_where p (take_over now request_nonce) (gw_events d)) d).

Definition find_event (p : event → bool) : st gateway_db event := λ d,
  match find_first p (gw_events d) with Some e => (Ok e, d) | None => (Err IntegrityError, d) end.

(** [claim_event]: the event, and whether it is the caller's to process. *)
Definition claim_event (uuid : string) (now : Z) (connection_id event_id request_hash request_nonce
    conversation_type external_conversation_id external_sender_id : string) (lease_seconds : Z)
    : st gateway_db (event * bool) :=
  st_catch
    (item ← insert_event uuid now connection_id event_id request_hash request_nonce
              conversation_type external_conversation_id external_sender_id;
     mret (item, true))
    (λ _,
      existing ← find_event (same_event connection_id event_id);
      if negb (String.eqb (ev_request_hash existing) request_hash) then raise event_conflict
      else if bool_decide (ev_status existing = Completed) then mret (existing, false)
      else
        reclaimed ← reclaim_event now (ev_id existing) request_hash request_nonce lease_seconds;
        existing ← find_event (λ e, String.eqb (ev_id e) (ev_id existing));
        mret (existing, reclaimed)).

(** An UPDATE of the event a worker holds: whether there was one. *)
Definition update_held (id nonce : string) (f : event → event) : st gateway_db bool := λ d,
  let p := held_by id nonce in
  (Ok (count_where p (gw_events d) =? 1)%nat, set_events (update_where p f (gw_events d)) d).

Definition set_event (status : event_status) (target : option (string * string * string * string))
    (response : option pyval) (error : option string) (completed_at : option Z) (now : Z)
    (e : event) : event :=
  {| ev_id := ev_id e; ev_connection_id := ev_connection_id e; ev_event_id := ev_event_id e;
     ev_request_hash := ev_request_hash e; ev_request_nonce := ev_request_nonce e; ev_status := status;
     ev_conversation_type := ev_conversation_type e;
     ev_external_conversation_id := ev_external_conversation_id e;
     ev_external_sender_id := ev_external_sender_id e;
     ev_binding_id := match target with Some (b, _, _, _) => Some b | None => ev_binding_id e end;
     ev_conversation_id := match target with Some (_, c, _, _) => Some c | None => ev_conversation_id e end;
     ev_chat_id := match target with Some (_, _, c, _) => Some c | None => ev_chat_id e end;
     ev_assistant_message_id :=
       match target with Some (_, _, _, a) => Some a | None => ev_assistant_message_id e end;
     ev_response := response; ev_error := error; ev_attempts := ev_attempts e;
     ev_received_at := ev_received_at e; ev_completed_at := completed_at; ev_updated_at := now |}.

(** [renew_event_lease] *)
Definition renew_event_lease (now : Z) (id nonce : string) : st gateway_db bool :=
  update_held id nonce (λ e,
    set_event (ev_status e) None (ev_response e) (ev_error e) (ev_completed_at e) now e).

(** [set_event_target] *)
Definition set_event_target (now : Z) (id nonce binding_id conversation_id chat_id
    assistant_message_id : string) : st gateway_db bool :=
  update_held id nonce (λ e,
    set_event (ev_status e) (Some (binding_id, conversation_id, chat_id, assistant_message_id))
      (ev_response e) (ev_error e) (ev_completed_at e) now e).

(** [complete_event] *)
Definition complete_event (now : Z) (id nonce : string) (response : pyval) : st gateway_db bool :=
  update_held id nonce (λ e, set_event Completed None (Some response) None (Some now) now e).

(** [fail_event] *)
Definition fail_event (now : Z) (id nonce error : string) : st gateway_db bool :=
  update_held id nonce (λ e,
    set_event Failed None (ev_response e) (Some (Str.take 4000 error)) (Some now) now e).

(** ** Binding codes and identities *)

(** [BotGatewayBindingError] carries a code. *)
Definition binding_error (code : string) : exn := ValueError code.

(** [create_binding_code]: earlier unused codes of the user for the channel are
    used up. *)
Definition consume_code (now : Z) (by_binding : option string) (c : binding_code) : binding_code :=
  {| bc_id := bc_id c; bc_user_id := bc_user_id c; bc_channel := bc_channel c;
     bc_code_hash := bc_code_hash c; bc_expires_at := bc_expires_at c; bc_consumed_at := Some now;
     bc_consumed_by_binding_id := by_binding; bc_created_at := bc_created_at c |}.

Definition create_binding_code (uuid : string) (now : Z) (user_id code_hash : string)
    (channel : option string) (expires_at : Z) : st gateway_db unit := λ d,
  let stale c := String.eqb (bc_user_id c) user_id && bool_decide (bc_consumed_at c = None)
                 && opt_eqb (bc_channel c) channel in
  let codes := update_where stale (λ c, consume_code now (bc_consumed_by_binding_id c) c) (gw_codes d) in
  let row := {| bc_id := uuid; bc_user_id := user_id; bc_channel := channel; bc_code_hash := code_hash;
                bc_expires_at := expires_at; bc_consumed_at := None; bc_consumed_by_binding_id := None;
                bc_created_at := now |} in
  if existsb (λ c, String.eqb (bc_code_hash c) code_hash || String.eqb (bc_id c) uuid) codes
  then (Err IntegrityError, d) else (Ok tt, set_codes (codes ++ [row]) d).

Definition same_identity (connection_id external_user_id : string) (b : binding) : bool :=
  String.eqb (bi_connection_id b) connection_id && String.eqb (bi_external_user_id b) external_user_id.

(** [get_enabled_binding] *)
Definition get_enabled_binding (connection_id external_user_id : string) (d : gateway_db) : option binding :=
  find_first (λ b, same_identity connection_id external_user_id b && bi_enabled b && negb (bi_blocked b))
    (gw_bindings d).

Definition set_binding (user_id : string) (display_name : option string) (enabled blocked : bool)
    (blocked_at : option Z) (blocked_by : option string) (unbind_requested_at last_seen_at : option Z)
    (updated_at : Z) (b : binding) : binding :=
  {| bi_id := bi_id b; bi_connection_id := bi_connection_id b; bi_user_id := user_id;
     bi_external_user_id := bi_external_user_id b; bi_display_name := display_name;
     bi_enabled := enabled; bi_blocked := blocked; bi_blocked_at := blocked_at;
     bi_blocked_by := blocked_by; bi_unbind_requested_at := unbind_requested_at;
     bi_last_seen_at := last_seen_at; bi_created_at := bi_created_at b; bi_updated_at := updated_at |}.

Definition new_binding (uuid : string) (now : Z) (connection_id user_id external_user_id : string)
    (display_name : option string) (last_seen_at : option Z) : binding :=
  {| bi_id := uuid; bi_connection_id := connection_id; bi_user_id := user_id;
     bi_external_user_id := external_user_id; bi_display_name := display_name; bi_enabled := true;
     bi_blocked := false; bi_blocked_at := None; bi_blocked_by := None; bi_unbind_requested_at := None;
     bi_last_seen_at := last_seen_at; bi_created_at := now; bi_updated_at := now |}.

Definition insert_binding (b : binding) : st gateway_db unit := λ d,
  if existsb (λ r, same_identity (bi_connection_id b) (bi_external_user_id b) r
                   || String.eqb (bi_id r) (bi_id b)) (gw_bindings d)
  then (Err IntegrityError, d) else (Ok tt, set_bindings (gw_bindings d ++ [b]) d).

Definition with_id {R} (key : R → string) (id : string) (r : R) : bool := String.eqb (key r) id.

Definition delete_conversations_of (binding_id : string) : st gateway_db unit :=
  st_modify (λ d, set_conversations
    (delete_where (with_id cv_binding_id binding_id) (gw_conversations d)) d).

Definition get_binding (binding_id : string) (d : gateway_db) : option binding :=
  find_first (with_id bi_id binding_id) (gw_bindings d).

Definition update_bindings (p : binding → bool) (f : binding → binding) : st gateway_db nat := λ d,
  (Ok (count_where p (gw_bindings d)), set_bindings (update_where p f (gw_bindings d)) d).

(** The identity after [bind_with_code]: a new binding, or the known one given
    to the user of the code, whose conversations go. *)
Definition bind_identity (uuid : string) (now : Z) (connection_id external_user_id user_id : string)
    (display_name : option string) (known : option binding) : st gateway_db string :=
  match known with
  | None =>
      let b := new_binding uuid now connection_id user_id external_user_id display_name (Some now) in
      _ ← insert_binding b; mret (bi_id b)
  | Some b =>
      n ← update_bindings (λ r, with_id bi_id (bi_id b) r && negb (bi_blocked r))
            (λ r, set_binding user_id display_name true (bi_blocked r) (bi_blocked_at r) (bi_blocked_by r)
                    None (Some now) now r);
      if negb (n =? 1)%nat then raise (binding_error "identity_blocked")
      else _ ← delete_conversations_of (bi_id b); mret (bi_id b)
  end.

(** [bind_with_code]: the binding and whether it is new.  [role] is the role of
    a user, if there is one. *)
Definition bind_with_code (role : string → option string) (uuid : string) (now : Z)
    (connection_id channel external_user_id : string) (display_name : option string)
    (code_hash : string) : st gateway_db (binding * bool) :=
  transaction (
    d ← st_get;
    match find_first (with_id bc_code_hash code_hash) (gw_codes d) with
    | None => raise (binding_error "invalid_or_expired_code")
    | Some code =>
        if negb (bool_decide (bc_consumed_at code = None)) || (bc_expires_at code <=? now)
        then raise (binding_error "invalid_or_expired_code")
        else if negb (bool_decide (bc_channel code = None)) && negb (opt_eqb (bc_channel code) (Some channel))
        then raise (binding_error "channel_mismatch")
        else if negb (match role (bc_user_id code) with
                      | Some r => String.eqb r "user" || String.eqb r "admin"
                      | None => false
                      end)
        then raise (binding_error "user_unavailable")
        else
          let known := find_first (same_identity connection_id external_user_id) (gw_bindings d) in
          if match known with Some b => bi_blocked b | None => false end
          then raise (binding_error "identity_blocked")
          else if match known with
                  | Some b => bi_enabled b && negb (String.eqb (bi_user_id b) (bc_user_id code))
                  | None => false
                  end
          then raise (binding_error "identity_already_bound")
          else
            id ← bind_identity uuid now connection_id external_user_id (bc_user_id code) display_name known;
            n ← (λ d,
              let p c := with_id bc_id (bc_id code) c && bool_decide (bc_consumed_at c = None)
                         && (now <? bc_expires_at c) in
              (Ok (count_where p (gw_codes d)),
               set_codes (update_where p (consume_code now (Some id)) (gw_codes d)) d));
            if negb (n =? 1)%nat then raise (binding_error "invalid_or_expired_code")
            else
              d ← st_get;
              match get_binding id d with
              | Some b => mret (b, bool_decide (known = None))
              | None => raise IntegrityError
              end
    end).

(** [request_unbind] *)
Definition request_unbind (now : Z) (binding_id user_id : string) : st gateway_db bool := λ d,
  match get_binding binding_id d with
  | Some b =>
      if negb (bi_enabled b) || negb (String.eqb (bi_user_id b) user_id) then (Ok false, d)
      else (Ok true, set_bindings (update_where (with_id bi_id binding_id)
              (λ r, set_binding (bi_user_id r) (bi_display_name r) (bi_enabled r) (bi_blocked r)
                      (bi_blocked_at r) (bi_blocked_by r) (Some now) (bi_last_seen_at r) now r)
              (gw_bindings d)) d)
  | None => (Ok false, d)
  end.

(** [block_binding] *)
Definition block_binding (now : Z) (binding_id blocked_by : string) : st gateway_db bool := λ d,
  let p := with_id bi_id binding_id in
  if negb (count_where p (gw_bindings d) =? 1)%nat then (Ok false, d)
  else (Ok true,
    set_conversations (delete_where (with_id cv_binding_id binding_id) (gw_conversations d))
      (set_bindings (update_where p
         (λ r, set_binding (bi_user_id r) (bi_display_name r) false true (Some now) (Some blocked_by)
                 None (bi_last_seen_at r) now r) (gw_bindings d)) d)).

(** [unblock_binding] *)
Definition unblock_binding (now : Z) (binding_id : string) : st gateway_db bool :=
  n ← update_bindings (λ r, with_id bi_id binding_id r && bi_blocked r)
        (λ r, set_binding (bi_user_id r) (bi_display_name r) false false None None
                (bi_unbind_requested_at r) (bi_last_seen_at r) now r);
  mret (n =? 1)%nat.

(** [unbind] *)
Definition unbind (now : Z) (binding_id : string) (user_id : option string) (require_confirmation : bool)
    : st gateway_db bool := λ d,
  match get_binding binding_id d with
  | Some b =>
      if match user_id with Some u => negb (String.eqb (bi_user_id b) u) | None => false end
      then (Ok false, d)
      else if require_confirmation
              && match bi_unbind_requested_at b with Some t => t <? now - 5 * 60 | None => true end
      then (Ok false, d)
      else (Ok true,
        set_conversations (delete_where (with_id cv_binding_id binding_id) (gw_conversations d))
          (set_bindings (update_where (with_id bi_id binding_id)
             (λ r, set_binding (bi_user_id r) (bi_display_name r) false (bi_blocked r) (bi_blocked_at r)
                     (bi_blocked_by r) None (bi_last_seen_at r) now r) (gw_bindings d)) d))
  | None => (Ok false, d)
  end.

Definition is_text (s : option string) : bool := match s with Some s => negb (Str.is_empty s) | None => false end.

(** [touch_binding] *)
Definition touch_binding (now : Z) (binding_id : string) (display_name : option string) : st gateway_db unit :=
  _ ← update_bindings (with_id bi_id binding_id)
        (λ r, set_binding (bi_user_id r)
                (if is_text display_name then display_name else bi_display_name r) (bi_enabled r)
                (bi_blocked r) (bi_blocked_at r) (bi_blocked_by r) (bi_unbind_requested_at r) (Some now)
                now r);
  mret tt.

(** [list_bindings]: newest first, with their status; bindings of connections
    that are gone do not join. *)
Definition binding_status (b : binding) : string :=
  if bi_blocked b then "blocked" else if bi_enabled b then "active" else "disabled".

Definition list_bindings (user_id : option string) (include_disabled : bool) (d : gateway_db)
    : list (binding * string * string) :=
  omap (M:=list) (λ b,
    match find_first (with_id co_id (bi_connection_id b)) (gw_connections d) with
    | Some c =>
        if match user_id with Some u => String.eqb (bi_user_id b) u | None => true end
           && (include_disabled || bi_enabled b)
        then Some (b, co_channel c, binding_status b) else None
    | None => None
    end)
    (py_sorted (λ a b, bi_updated_at b <=? bi_updated_at a) (gw_bindings d)).

Section Owner.
Context (repr_other : pyval → string).

(** [str((connection.config or {}).get('trusted_external_user_id') or '').strip()] *)
Definition trusted_external_user_id (c : bot_connection) : res string :=
  v ← vget (por (co_config c) (VDict [])) "trusted_external_user_id";
  Ok (Str.strip (py_str repr_other (por v (VStr EmptyString)))).

Definition history_entry (uuid : string) (now : Z) (c : bot_connection) (owner external_user_id : string)
    (display_name : option string) : history_row :=
  {| hi_id := uuid; hi_user_id := Some owner; hi_connection_id := Some (co_id c);
     hi_channel := co_channel c; hi_external_user_id := Some external_user_id;
     hi_display_name := display_name; hi_action := "auto_bound"; hi_actor_user_id := Some owner;
     hi_metadata := VDict [("source", VStr "personal_connection")]; hi_created_at := now |}.

(** [ensure_owner_binding] *)
Definition ensure_owner_binding (uuid history_uuid : string) (now : Z) (connection_id external_user_id : string)
    (display_name : option string) : st gateway_db (option binding) :=
  transaction (
    d ← st_get;
    match find_first (with_id co_id connection_id) (gw_connections d) with
    | None => mret None
    | Some c =>
        match co_owner_user_id c with
        | None => mret None
        | Some owner =>
            if Str.is_empty owner then mret None
            else
              trusted ← st_lift (trusted_external_user_id c);
              if Str.is_empty trusted || negb (String.eqb trusted external_user_id) then mret None
              else
                match find_first (same_identity connection_id external_user_id) (gw_bindings d) with
                | None =>
                    if existsb (λ b, String.eqb (bi_connection_id b) connection_id && bi_enabled b
                                     && negb (bi_blocked b)) (gw_bindings d)
                    then mret None
                    else
                      let b := new_binding uuid now connection_id owner external_user_id display_name None in
                      _ ← insert_binding b;
                      _ ← st_modify (λ d, set_history (gw_history d ++
                            [history_entry history_uuid now c owner external_user_id display_name]) d);
                      mret (Some b)
                | Some b =>
                    if negb (String.eqb (bi_user_id b) owner) || bi_blocked b || negb (bi_enabled b)
                    then mret None
                    else
                      _ ← update_bindings (with_id bi_id (bi_id b))
                            (λ r, set_binding (bi_user_id r)
                                    (if is_text display_name then display_name else bi_display_name r)
                                    (bi_enabled r) (bi_blocked r) (bi_blocked_at r) (bi_blocked_by r)
                                    (bi_unbind_requested_at r) (bi_last_seen_at r) now r);
                      d ← st_get;
                      mret (get_binding (bi_id b) d)
                end
        end
    end).
End Owner.

(** ** Conversations *)

(** [build_bot_gateway_session_key] *)
Definition build_bot_gateway_session_key (conversation_type conversation_id sender_id : string)
    : string * string * string :=
  if String.eqb conversation_type "private" then ("private:" +:+ sender_id, sender_id, EmptyString)
  else ("group:" +:+ conversation_id +:+ ":" +:+ sender_id, conversation_id, sender_id).

Definition in_session (binding_id session_key : string) (c : conversation) : bool :=
  String.eqb (cv_binding_id c) binding_id && String.eqb (cv_session_key c) session_key.

(** [get_or_create_conversation]; [b] is what the caller read of the binding. *)
Definition get_or_create_conversation (uuid : string) (now : Z) (b : binding)
    (conversation_type conversation_id sender_id : string) : st gateway_db conversation := λ d,
  let '(session_key, normalized_conversation_id, normalized_sender_id) :=
    build_bot_gateway_session_key conversation_type conversation_id sender_id in
  match find_first (in_session (bi_id b) session_key) (gw_conversations d) with
  | Some c => (Ok c, d)
  | None =>
      let item := {| cv_id := uuid; cv_connection_id := bi_connection_id b; cv_binding_id := bi_id b;
        cv_user_id := bi_user_id b; cv_conversation_type := conversation_type;
        cv_external_conversation_id := normalized_conversation_id;
        cv_external_sender_id := normalized_sender_id; cv_session_key := session_key; cv_chat_id := None;
        cv_model_id := None; cv_last_event_at := Some now; cv_created_at := now; cv_updated_at := now |} in
      if existsb (with_id cv_id uuid) (gw_conversations d) then (Err IntegrityError, d)
      else (Ok item, set_conversations (gw_conversations d ++ [item]) d)
  end.

(** [get_conversation] *)
Definition get_conversation (conversation_id user_id : string) (binding_id : option string) (d : gateway_db)
    : option conversation :=
  match find_first (with_id cv_id conversation_id) (gw_conversations d) with
  | Some c =>
      if negb (String.eqb (cv_user_id c) user_id)
         || match binding_id with Some b => negb (String.eqb (cv_binding_id c) b) | None => false end
      then None else Some c
  | None => None
  end.

(** [list_conversations] *)
Definition list_conversations (user_id : string) (limit : Z) (binding_id : option string) (d : gateway_db)
    : list conversation :=
  firstn (Z.to_nat (Z.max 1 (Z.min limit 100)))
    (py_sorted (λ a b, cv_updated_at b <=? cv_updated_at a)
       (List.filter (λ c, String.eqb (cv_user_id c) user_id
          && match binding_id with Some b => String.eqb (cv_binding_id c) b | None => true end)
          (gw_conversations d))).

(** The values [update_conversation] may set; other keys are ignored. *)
Inductive conversation_value :=
| CvChatId (v : option string)
| CvModelId (v : option string)
| CvLastEventAt (v : option Z)
| CvOther (key : string).

Definition set_conversation_value (c : conversation) (v : conversation_value) : conversation :=
  {| cv_id := cv_id c; cv_connection_id := cv_connection_id c; cv_binding_id := cv_binding_id c;
     cv_user_id := cv_user_id c; cv_conversation_type := cv_conversation_type c;
     cv_external_conversation_id := cv_external_conversation_id c;
     cv_external_sender_id := cv_external_sender_id c; cv_session_key := cv_session_key c;
     cv_chat_id := match v with CvChatId x => x | _ => cv_chat_id c end;
     cv_model_id := match v with CvModelId x => x | _ => cv_model_id c end;
     cv_last_event_at := match v with CvLastEventAt x => x | _ => cv_last_event_at c end;
     cv_created_at := cv_created_at c; cv_updated_at := cv_updated_at c |}.

Definition touch_conversation (now : Z) (c : conversation) : conversation :=
  {| cv_id := cv_id c; cv_connection_id := cv_connection_id c; cv_binding_id := cv_binding_id c;
     cv_user_id := cv_user_id c; cv_conversation_type := cv_conversation_type c;
     cv_external_conversation_id := cv_external_conversation_id c;
     cv_external_sender_id := cv_external_sender_id c; cv_session_key := cv_session_key c;
     cv_chat_id := cv_chat_id c; cv_model_id := cv_model_id c; cv_last_event_at := cv_last_event_at c;
     cv_created_at := cv_created_at c; cv_updated_at := now |}.

(** [update_conversation] *)
Definition update_conversation (now : Z) (conversation_id : string) (values : list conversation_value)
    : st gateway_db (option conversation) := λ d,
  let f c := touch_conversation now (foldl set_conversation_value c values) in
  match find_first (with_id cv_id conversation_id) (gw_conversations d) with
  | Some c => (Ok (Some (f c)),
      set_conversations (update_where (with_id cv_id conversation_id) f (gw_conversations d)) d)
  | None => (Ok None, d)
  end.

(** [upsert_group] *)
Definition same_group (connection_id external_group_id : string) (g : group) : bool :=
  String.eqb (gp_connection_id g) connection_id && String.eqb (gp_external_group_id g) external_group_id.

Definition upsert_group (uuid : string) (now : Z) (connection_id external_group_id : string)
    (name : option string) (member_count : option Z) (allowed : option bool) (updated_by : option string)
    : st gateway_db group := λ d,
  match find_first (same_group connection_id external_group_id) (gw_groups d) with
  | None =>
      let g := {| gp_id := uuid; gp_connection_id := connection_id; gp_external_group_id := external_group_id;
        gp_name := name; gp_allowed := match allowed with Some b => b | None => false end;
        gp_member_count := member_count; gp_discovered_at := Some now; gp_last_seen_at := Some now;
        gp_updated_by := updated_by; gp_created_at := now; gp_updated_at := now |} in
      if existsb (with_id gp_id uuid) (gw_groups d) then (Err IntegrityError, d)
      else (Ok g, set_groups (gw_groups d ++ [g]) d)
  | Some g0 =>
      let f g := {| gp_id := gp_id g; gp_connection_id := gp_connection_id g;
        gp_external_group_id := gp_external_group_id g;
        gp_name := if is_text name then name else gp_name g;
        gp_allowed := match allowed with Some b => b | None => gp_allowed g end;
        gp_member_count := match member_count with Some n => Some n | None => gp_member_count g end;
        gp_discovered_at := gp_discovered_at g; gp_last_seen_at := Some now;
        gp_updated_by := match updated_by with Some u => Some u | None => gp_updated_by g end;
        gp_created_at := gp_created_at g; gp_updated_at := now |} in
      (Ok (f g0), set_groups (update_where (same_group connection_id external_group_id) f (gw_groups d)) d)
  end.

(** ** Credentials and checkpoints

    [digest] and [envelope] are what [utils/bot_gateway_crypto.py] computes from
    the credentials. *)

Definition set_credential (channel digest envelope : string) (now : Z) (c : credential) : credential :=
  {| cr_id := cr_id c; cr_connection_id := cr_connection_id c; cr_channel := channel;
     cr_account_digest := digest; cr_envelope := envelope; cr_created_at := cr_created_at c;
     cr_updated_at := now |}.

(** COMMIT with the unique keys of the table: connection and digest. *)
Definition credentials_unique (l : list credential) : bool :=
  bool_decide (NoDup (map cr_connection_id l)) && bool_decide (NoDup (map cr_account_digest l)).

Definition commit_credentials (l : list credential) : st gateway_db unit := λ d,
  if credentials_unique l then (Ok tt, set_credentials l d) else (Err IntegrityError, d).

Definition update_credential (p : credential → bool) (channel digest envelope : string) (now : Z)
    : st gateway_db unit := λ d,
  commit_credentials (update_where p (set_credential channel digest envelope now) (gw_credentials d)) d.

(** [_resolve_digest_conflict] *)
Definition resolve_digest_conflict (connection_id digest envelope channel : string) (now : Z)
    : st gateway_db unit := λ d,
  match find_first (with_id cr_account_digest digest) (gw_credentials d) with
  | Some c =>
      if String.eqb (cr_connection_id c) connection_id
      then update_credential (with_id cr_account_digest digest) channel digest envelope now d
      else (Err (binding_error "account_already_bound"), d)
  | None =>
      match find_first (with_id cr_connection_id connection_id) (gw_credentials d) with
      | Some _ => update_credential (with_id cr_connection_id connection_id) channel digest envelope now d
      | None => (Err (RuntimeError ("credential upsert lost the race for connection " +:+ connection_id)), d)
      end
  end.

(** [save_credential], past the encryption *)
Definition save_credential (uuid : string) (now : Z) (connection_id channel digest envelope : string)
    : st gateway_db unit :=
  st_catch
    (d ← st_get;
     match find_first (with_id cr_connection_id connection_id) (gw_credentials d) with
     | Some _ => update_credential (with_id cr_connection_id connection_id) channel digest envelope now
     | None => commit_credentials (gw_credentials d ++
         [{| cr_id := uuid; cr_connection_id := connection_id; cr_channel := channel;
             cr_account_digest := digest; cr_envelope := envelope; cr_created_at := now;
             cr_updated_at := now |}])
     end)
    (λ _, resolve_digest_conflict connection_id digest envelope channel now).

(** [delete_credential] *)
Definition delete_credential (connection_id : string) : st gateway_db unit :=
  st_modify (λ d, set_credentials
    (delete_where (with_id cr_connection_id connection_id) (gw_credentials d)) d).

(** [connection_has_credential] *)
Definition connection_has_credential (connection_id : string) (d : gateway_db) : bool :=
  existsb (with_id cr_connection_id connection_id) (gw_credentials d).

(** [BotGatewayCheckpointTable.save], past the encryption *)
Definition save_checkpoint (now : Z) (connection_id payload sha256 : string) : st gateway_db unit := λ d,
  let row := {| cp_connection_id := connection_id; cp_payload := payload; cp_payload_sha256 := sha256;
                cp_updated_at := now |} in
  (Ok tt, set_checkpoints
    (if existsb (with_id cp_connection_id connection_id) (gw_checkpoints d)
     then update_where (with_id cp_connection_id connection_id) (λ _, row) (gw_checkpoints d)
     else gw_checkpoints d ++ [row]) d).

(** ** Connections *)

Definition config_of (c : bot_connection) : pydict := match co_config c with VDict m => m | _ => [] end.
Definition generation_of (c : bot_connection) : Z := default 0 (co_assignment_generation c).

(** A connection with other values in the columns the methods below write *)
Definition set_runtime (shard_id account_key : option string) (generation : option Z)
    (node_id : option string) (runtime_at : option Z) (config : pyval) (updated_at : Z)
    (c : bot_connection) : bot_connection :=
  {| co_id := co_id c; co_channel := co_channel c; co_name := co_name c; co_enabled := co_enabled c;
     co_status := co_status c; co_credentials_configured := co_credentials_configured c;
     co_account_id := co_account_id c; co_account_name := co_account_name c; co_config := config;
     co_last_error := co_last_error c; co_last_seen_at := co_last_seen_at c;
     co_created_by := co_created_by c; co_owner_user_id := co_owner_user_id c; co_shard_id := shard_id;
     co_account_key := account_key; co_assignment_generation := generation;
     co_last_runtime_node_id := node_id; co_last_runtime_at := runtime_at;
     co_created_at := co_created_at c; co_updated_at := updated_at |}.

Definition get_connection (connection_id : string) (d : gateway_db) : option bot_connection :=
  find_first (with_id co_id connection_id) (gw_connections d).

(** [get_user_connection] *)
Definition owned_by (user_id channel : string) (c : bot_connection) : bool :=
  opt_eqb (co_owner_user_id c) (Some user_id) && String.eqb (co_channel c) channel.
Definition get_user_connection (user_id channel : string) (d : gateway_db) : option bot_connection :=
  find_first (owned_by user_id channel) (gw_connections d).

Definition new_connection (id channel name : string) (enabled : bool) (owner : option string) (now : Z)
    : bot_connection :=
  {| co_id := id; co_channel := channel; co_name := name; co_enabled := enabled; co_status := "logged_out";
     co_credentials_configured := false; co_account_id := None; co_account_name := None;
     co_config := VDict []; co_last_error := None; co_last_seen_at := None; co_created_by := owner;
     co_owner_user_id := owner; co_shard_id := None; co_account_key := None;
     co_assignment_generation := Some 0; co_last_runtime_node_id := None; co_last_runtime_at := None;
     co_created_at := now; co_updated_at := now |}.

(** [ensure_user_connection] *)
Definition ensure_user_connection (now : Z) (user_id channel : string) (enabled : bool)
    : st gateway_db bot_connection := λ d,
  match get_user_connection user_id channel d with
  | Some c0 =>
      let f c := {| co_id := co_id c; co_channel := co_channel c; co_name := co_name c; co_enabled := enabled;
        co_status := co_status c; co_credentials_configured := co_credentials_configured c;
        co_account_id := co_account_id c; co_account_name := co_account_name c; co_config := co_config c;
        co_last_error := co_last_error c; co_last_seen_at := co_last_seen_at c;
        co_created_by := co_created_by c; co_owner_user_id := co_owner_user_id c;
        co_shard_id := co_shard_id c; co_account_key := co_account_key c;
        co_assignment_generation := co_assignment_generation c;
        co_last_runtime_node_id := co_last_runtime_node_id c; co_last_runtime_at := co_last_runtime_at c;
        co_created_at := co_created_at c; co_updated_at := now |} in
      (Ok (f c0), set_connections (update_where (with_id co_id (co_id c0)) f (gw_connections d)) d)
  | None =>
      let c := new_connection ("bot-" +:+ channel +:+ "-" +:+ user_id) channel (channel +:+ " bot") enabled
                 (Some user_id) now in
      if existsb (with_id co_id (co_id c)) (gw_connections d) then (Err IntegrityError, d)
      else (Ok c, set_connections (gw_connections d ++ [c]) d)
  end.

(** The values [update_connection] may set; other keys are ignored. *)
Inductive connection_value :=
| CoEnabled (b : bool)
| CoStatus (s : string)
| CoCredentialsConfigured (b : bool)
| CoAccountId (v : option string)
| CoAccountName (v : option string)
| CoConfig (v : pyval)
| CoLastError (v : option string)
| CoLastSeenAt (v : option Z)
| CoName (s : string)
| CoOther (key : string).

Definition set_connection_value (c : bot_connection) (v : connection_value) : bot_connection :=
  {| co_id := co_id c; co_channel := co_channel c;
     co_name := match v with CoName s => s | _ => co_name c end;
     co_enabled := match v with CoEnabled b => b | _ => co_enabled c end;
     co_status := match v with CoStatus s => s | _ => co_status c end;
     co_credentials_configured :=
       match v with CoCredentialsConfigured b => b | _ => co_credentials_configured c end;
     co_account_id := match v with CoAccountId x => x | _ => co_account_id c end;
     co_account_name := match v with CoAccountName x => x | _ => co_account_name c end;
     co_config := match v with CoConfig x => x | _ => co_config c end;
     co_last_error := match v with CoLastError x => x | _ => co_last_error c end;
     co_last_seen_at := match v with CoLastSeenAt x => x | _ => co_last_seen_at c end;
     co_created_by := co_created_by c; co_owner_user_id := co_owner_user_id c;
     co_shard_id := co_shard_id c; co_account_key := co_account_key c;
     co_assignment_generation := co_assignment_generation c;
     co_last_runtime_node_id := co_last_runtime_node_id c; co_last_runtime_at := co_last_runtime_at c;
     co_created_at := co_created_at c; co_updated_at := co_updated_at c |}.

Definition touch_connection (now : Z) (c : bot_connection) : bot_connection :=
  set_runtime (co_shard_id c) (co_account_key c) (co_assignment_generation c) (co_last_runtime_node_id c)
    (co_last_runtime_at c) (co_config c) now c.

(** [update_connection] *)
Definition update_connection (now : Z) (connection_id : string) (values : list connection_value)
    (touch : bool) : st gateway_db (option bot_connection) := λ d,
  let f c := let c := foldl set_connection_value c values in
             if touch then touch_connection now c else c in
  match get_connection connection_id d with
  | Some c => (Ok (Some (f c)),
      set_connections (update_where (with_id co_id connection_id) f (gw_connections d)) d)
  | None => (Ok None, d)
  end.

Definition runtime_config_keys : list string :=
  ["account_error_streak"; "control_operation_in_progress"; "credential_migration_in_progress"; "half_open";
   "last_shard_move_at"; "overloaded_windows"; "runtime_metrics"; "scheduler_window_minute";
   "trusted_external_user_id"; "underloaded_windows"].

(** [clear_connection_credentials] *)
Definition logged_out (now : Z) (c : bot_connection) : bot_connection :=
  {| co_id := co_id c; co_channel := co_channel c; co_name := co_name c; co_enabled := co_enabled c;
     co_status := "logged_out"; co_credentials_configured := false; co_account_id := None;
     co_account_name := None;
     co_config := VDict (List.filter (λ kv, negb (existsb (String.eqb kv.1) runtime_config_keys)) (config_of c));
     co_last_error := None; co_last_seen_at := None; co_created_by := co_created_by c;
     co_owner_user_id := co_owner_user_id c; co_shard_id := None; co_account_key := None;
     co_assignment_generation := Some (generation_of c + 1); co_last_runtime_node_id := None;
     co_last_runtime_at := None; co_created_at := co_created_at c; co_updated_at := now |}.

Definition clear_connection_credentials (now : Z) (connection_id : string)
    : st gateway_db (option bot_connection) := λ d,
  match get_connection connection_id d with
  | None => (Ok None, d)
  | Some c => (Ok (Some (logged_out now c)),
      set_connections (update_where (with_id co_id connection_id) (logged_out now) (gw_connections d))
        (set_checkpoints (delete_where (with_id cp_connection_id connection_id) (gw_checkpoints d))
           (set_credentials (delete_where (with_id cr_connection_id connection_id) (gw_credentials d)) d)))
  end.

(** [delete_owned_connection] *)
Definition forget_binding (bindings : list binding) (connection_id : string) (c : binding_code) : binding_code :=
  {| bc_id := bc_id c; bc_user_id := bc_user_id c; bc_channel := bc_channel c; bc_code_hash := bc_code_hash c;
     bc_expires_at := bc_expires_at c; bc_consumed_at := bc_consumed_at c;
     bc_consumed_by_binding_id :=
       if existsb (λ b, String.eqb (bi_connection_id b) connection_id
                        && opt_eqb (bc_consumed_by_binding_id c) (Some (bi_id b))) bindings
       then None else bc_consumed_by_binding_id c;
     bc_created_at := bc_created_at c |}.

Definition forget_connection (connection_id : string) (h : history_row) : history_row :=
  {| hi_id := hi_id h; hi_user_id := hi_user_id h;
     hi_connection_id := if opt_eqb (hi_connection_id h) (Some connection_id) then None else hi_connection_id h;
     hi_channel := hi_channel h; hi_external_user_id := hi_external_user_id h;
     hi_display_name := hi_display_name h; hi_action := hi_action h; hi_actor_user_id := hi_actor_user_id h;
     hi_metadata := hi_metadata h; hi_created_at := hi_created_at h |}.

Definition delete_owned_connection (connection_id owner_user_id : string) : st gateway_db bool := λ d,
  let owned c := with_id co_id connection_id c && opt_eqb (co_owner_user_id c) (Some owner_user_id) in
  if negb (existsb owned (gw_connections d)) then (Ok false, d)
  else
    let d1 := set_events (delete_where (with_id ev_connection_id connection_id) (gw_events d)) d in
    let d2 := set_conversations
                (delete_where (with_id cv_connection_id connection_id) (gw_conversations d1)) d1 in
    let d3 := set_codes (map (forget_binding (gw_bindings d2) connection_id) (gw_codes d2)) d2 in
    let d4 := set_bindings (delete_where (with_id bi_connection_id connection_id) (gw_bindings d3)) d3 in
    let d5 := set_groups (delete_where (with_id gp_connection_id connection_id) (gw_groups d4)) d4 in
    let d6 := set_credentials (delete_where (with_id cr_connection_id connection_id) (gw_credentials d5)) d5 in
    let d7 := set_checkpoints (delete_where (with_id cp_connection_id connection_id) (gw_checkpoints d6)) d6 in
    let d8 := set_history (map (forget_connection connection_id) (gw_history d7)) d7 in
    let d9 := set_connections (delete_where owned (gw_connections d8)) d8 in
    if negb (count_where owned (gw_connections d8) =? 1)%nat then (Ok false, d) else (Ok true, d9).

(** [set_connection_runtime] *)
Definition pick {A} (v : option A) (dflt : option A) : option A := match v with Some _ => v | None => dflt end.

Definition set_connection_runtime (now : Z) (connection_id : string) (shard_id account_key : option string)
    (assignment_generation : option Z) (last_runtime_node_id : option string) (last_runtime_at : option Z)
    : st gateway_db unit :=
  st_modify (λ d, set_connections (update_where (with_id co_id connection_id)
    (λ c, set_runtime (pick shard_id (co_shard_id c)) (pick account_key (co_account_key c))
            (pick assignment_generation (co_assignment_generation c))
            (pick last_runtime_node_id (co_last_runtime_node_id c))
            (pick last_runtime_at (co_last_runtime_at c)) (co_config c) now c) (gw_connections d)) d).

(** [apply_shard_assignments] *)
Definition move_to (now : Z) (target : string) (c : bot_connection) : bot_connection :=
  if opt_eqb (co_shard_id c) (Some target) then c
  else set_runtime (Some target) (co_account_key c) (Some (generation_of c + 1)) (co_last_runtime_node_id c)
         (co_last_runtime_at c) (VDict (dict_set "last_shard_move_at" (VInt now) (config_of c))) now c.

Definition apply_shard_assignments (now : Z) (assignments : list (string * string))
    : st gateway_db (list bot_connection) := λ d,
  let f c := match dict_get (co_id c) assignments with Some t => move_to now t c | None => c end in
  let connections := map f (gw_connections d) in
  (Ok (List.filter (λ c, dict_has (co_id c) assignments) connections), set_connections connections d).

(** ** Runtime metrics *)

Definition set_metrics (now : Z) (node_id : string) (metrics_by_connection : pydict) (c : bot_connection)
    : res bot_connection :=
  match dict_get (co_id c) metrics_by_connection with
  | Some metrics =>
      v ← vgetd metrics "account_error_streak" (VInt 0); streak ← py_int (por v (VInt 0));
      Ok (set_runtime (co_shard_id c) (co_account_key c) (co_assignment_generation c) (Some node_id)
            (Some now)
            (VDict (dict_set "account_error_streak" (VInt streak)
                      (dict_set "runtime_metrics" metrics (config_of c)))) (co_updated_at c) c)
  | None => Ok c
  end.

Definition add_load (acc : list (string * Z)) (c : bot_connection) : res (list (string * Z)) :=
  match co_shard_id c with
  | Some s =>
      if Str.is_empty s then Ok acc
      else
        sample ← load_sample_from_config (Some (config_of c)); units ← calculate_load_units sample;
        Ok (dict_set s (get_count s acc + units) acc)
  | None => Ok acc
  end.

(** [int(config.get(key, 0) or 0) + 1 if high else 0] *)
Definition next_window (config : pydict) (key : string) (high : bool) : res pyval :=
  if high then n ← py_int (por (dgetd config key (VInt 0)) (VInt 0)); Ok (VInt (n + 1)) else Ok (VInt 0).

Definition count_windows (now load_capacity : Z) (overload_limit : Z) (shard_load : list (string * Z))
    (c : bot_connection) : res bot_connection :=
  let config := config_of c in
  let minute := now / 60 in
  if py_eqb (dget config "scheduler_window_minute") (VInt minute)
  then Ok (touch_connection now c)
  else
    let load := get_count (default EmptyString (co_shard_id c)) shard_load in
    low_limit ← (match F64.of_Z load_capacity with
                 | Some f => Ok (F64.mul f (float_of_dec (Dec 4 (-1)))) | None => Err OverflowError end);
    over ← next_window config "overloaded_windows" (overload_limit <? load);
    let config := dict_set "overloaded_windows" over config in
    under ← next_window config "underloaded_windows" (num_ltb (NInt load) (NFloat low_limit));
    Ok (set_runtime (co_shard_id c) (co_account_key c) (co_assignment_generation c)
          (co_last_runtime_node_id c) (co_last_runtime_at c)
          (VDict (dict_set "scheduler_window_minute" (VInt minute) (dict_set "underloaded_windows" under config)))
          now c).

(** [update_connection_runtime_metrics]: an exception leaves the tables. *)
Definition update_connection_runtime_metrics (now : Z) (node_id : string) (metrics_by_connection : pydict)
    (load_capacity : Z) : st gateway_db nat := λ d,
  match metrics_by_connection with
  | [] => (Ok 0%nat, d)
  | _ =>
      let run : res (nat * list bot_connection) :=
        rows ← mapR (λ c, if co_enabled c then set_metrics now node_id metrics_by_connection c else Ok c)
                 (gw_connections d);
        let items := List.filter co_enabled rows in
        shard_load ← foldM add_load [] items;
        limit ← (match F64.of_Z load_capacity with
                 | Some f => F64.trunc (F64.mul f (float_of_dec (Dec 12 (-1))))
                 | None => Err OverflowError
                 end);
        let counted c := co_enabled c && dict_has (co_id c) metrics_by_connection in
        rows ← mapR (λ c, if counted c then count_windows now load_capacity limit shard_load c else Ok c) rows;
        Ok (count_where counted rows, rows) in
      match run with
      | Ok (n, rows) => (Ok n, set_connections rows d)
      | Err e => (Err e, d)
      end
  end.
