(* ===== verification/BotGatewayEventsProps.v ===== *)
(** * Properties of [BotGateway]: the leases of inbound events and the nonces of
    signed requests, under any interleaving of workers. *)

From S2P Require Import Prelude PyVal BotGateway.

(** ** Tables with a key *)

Lemma map_update {R K} (key : R → K) p f l : (∀ r, key (f r) = key r) →
  map key (update_where p f l) = map key l.
Proof. intros Hf. unfold update_where. rewrite map_map. apply map_ext. intros r. by destruct (p r). Qed.

Lemma delete_keys {R K} (key : R → K) p l : NoDup (map key l) → NoDup (map key (delete_where p l)).
Proof.
  unfold delete_where. induction l as [|r l IH]; cbn; [done|]. intros [Hr Hnd]%NoDup_cons.
  destruct (p r); cbn; [by apply IH|]. constructor; [|by apply IH].
  intros (x & Hx & Hin)%list_elem_of_fmap. apply filter_elem in Hin as [Hin _]. apply Hr.
  rewrite Hx. by apply list_elem_of_fmap_2.
Qed.

Section Rows.
Context {R : Type} (key : R → string).

Definition row_of (id : string) (l : list R) : option R := find_first (with_id key id) l.

Lemma row_of_key id l r : row_of id l = Some r → key r = id ∧ r ∈ l.
Proof. intros [Hin Hr]%find_first_Some. split; [by apply String.eqb_eq in Hr|done]. Qed.

Lemma row_of_elem id l : NoDup (map key l) → ∀ r, row_of id l = Some r ↔ r ∈ l ∧ key r = id.
Proof.
  intros Hnd r. split; [intros H; by apply row_of_key in H as []|]. intros [Hin <-]. unfold row_of.
  induction l as [|x l IH]; [by apply elem_of_nil in Hin|]. cbn in *. apply NoDup_cons in Hnd as [Hx Hnd].
  apply elem_of_cons in Hin as [->|Hin].
  - unfold with_id at 1. by rewrite String.eqb_refl.
  - unfold with_id at 1. destruct (String.eqb_spec (key x) (key r)) as [E|_]; [|by apply IH].
    destruct Hx. rewrite E. by apply list_elem_of_fmap_2.
Qed.

Lemma row_of_None id l : row_of id l = None ↔ id ∉ map key l.
Proof.
  unfold row_of. rewrite find_first_None, list_elem_of_fmap. split.
  - intros H (r & -> & Hr). specialize (H r Hr). unfold with_id in H. by rewrite String.eqb_refl in H.
  - intros H r Hr. unfold with_id. apply String.eqb_neq. intros E. apply H. by exists r.
Qed.

Lemma row_of_update p f id l : (∀ r, key (f r) = key r) →
  row_of id (update_where p f l) = (λ r, if p r then f r else r) <$> row_of id l.
Proof.
  intros Hf. unfold row_of, update_where. induction l as [|r l IH]; [done|]. cbn.
  assert (with_id key id (if p r then f r else r) = with_id key id r) as ->.
  { unfold with_id. destruct (p r); [by rewrite Hf|done]. }
  by destruct (with_id key id r).
Qed.

Lemma count_one p l id : NoDup (map key l) → (∀ r, p r = true → key r = id) →
  (count_where p l =? 1)%nat = match row_of id l with Some r => p r | None => false end.
Proof.
  intros Hnd Hp. unfold count_where, row_of. induction l as [|r l IH]; [done|]. cbn in *.
  apply NoDup_cons in Hnd as [Hr Hnd]. unfold with_id at 1.
  destruct (p r) eqn:E.
  - rewrite (Hp r E), String.eqb_refl, E. cbn.
    assert (List.filter p l = []) as ->; [|done].
    destruct (List.filter p l) as [|x l'] eqn:El; [done|]. exfalso.
    assert (x ∈ List.filter p l) as Hx by (rewrite El; by left).
    apply filter_elem in Hx as [Hx Hpx]. apply Hr. rewrite (Hp r E), <-(Hp x Hpx).
    by apply list_elem_of_fmap_2.
  - rewrite IH by done. destruct (String.eqb_spec (key r) id) as [<-|_]; [|done]. rewrite E.
    destruct (find_first _ l) as [x|] eqn:El; [|done]. exfalso. apply find_first_Some in El as [Hx Ex].
    apply String.eqb_eq in Ex. apply Hr. rewrite <-Ex. by apply list_elem_of_fmap_2.
Qed.

Lemma row_of_delete p id l r : NoDup (map key l) →
  row_of id (delete_where p l) = Some r → row_of id l = Some r.
Proof.
  intros Hnd H. apply row_of_key in H as [<- Hin]. apply filter_elem in Hin as [Hin _].
  by apply row_of_elem.
Qed.

Lemma row_of_app id l r :
  row_of id (l ++ [r]) = match row_of id l with Some x => Some x | None => if with_id key id r then Some r else None end.
Proof.
  unfold row_of. induction l as [|x l IH]; [done|]. cbn. by destruct (with_id key id x).
Qed.
End Rows.

Notation event_row := (row_of ev_id).

(** ** Workers

    What happens to events, one statement at a time: between the statements of a
    worker's call other workers may act. *)
Inductive action :=
| Inserted (id nonce : string)
| TookOver (id nonce : string)
| Refused (id nonce : string)
| Wrote (id nonce : string) (ok : bool)
| Answered (id nonce : string) (response : pyval) (ok : bool)
| Other.

Inductive event_step : gateway_db → action → gateway_db → Prop :=
| step_insert uuid now conn eid hash nonce ctype cid sid d e d' :
    insert_event uuid now conn eid hash nonce ctype cid sid d = (Ok e, d') →
    event_step d (Inserted uuid nonce) d'
| step_reclaim now id hash nonce lease d ok d' :
    reclaim_event now id hash nonce lease d = (Ok ok, d') →
    event_step d (if ok then TookOver id nonce else Refused id nonce) d'
| step_renew now id nonce d ok d' :
    renew_event_lease now id nonce d = (Ok ok, d') → event_step d (Wrote id nonce ok) d'
| step_target now id nonce b c ch a d ok d' :
    set_event_target now id nonce b c ch a d = (Ok ok, d') → event_step d (Wrote id nonce ok) d'
| step_fail now id nonce error d ok d' :
    fail_event now id nonce error d = (Ok ok, d') → event_step d (Wrote id nonce ok) d'
| step_complete now id nonce response d ok d' :
    complete_event now id nonce response d = (Ok ok, d') →
    event_step d (Answered id nonce response ok) d'
| step_cleanup now retention force d n d' :
    cleanup_expired_records now retention force d = (Ok n, d') → event_step d Other d'
| step_delete connection_id owner d ok d' :
    delete_owned_connection connection_id owner d = (Ok ok, d') → event_step d Other d'
| step_other d d' : gw_events d' = gw_events d → event_step d Other d'.

Inductive run : gateway_db → list action → gateway_db → Prop :=
| run_nil d : run d [] d
| run_cons d1 a d2 l d3 : event_step d1 a d2 → run d2 l d3 → run d1 (a :: l) d3.

(** What a step does to the row of an event *)
Definition events_keyed (d : gateway_db) : Prop := NoDup (map ev_id (gw_events d)).

Definition frame (id : string) (o o' : option event) : Prop :=
  match o' with Some e' => ∃ e, o = Some e ∧ e' = e | None => True end.

(** The changes of a row: taken over, written by its holder, or left. *)
Inductive row_change (id : string) : action → option event → option event → Prop :=
| rc_insert nonce e :
    ev_id e = id → ev_status e = Processing → ev_request_nonce e = nonce →
    row_change id (Inserted id nonce) None (Some e)
| rc_take nonce e e' :
    ev_status e ≠ Completed → ev_status e' = Processing → ev_request_nonce e' = nonce →
    row_change id (TookOver id nonce) (Some e) (Some e')
| rc_write nonce e e' a :
    (a = Wrote id nonce true ∨ ∃ r, a = Answered id nonce r true ∧ ev_status e' = Completed ∧ ev_response e' = Some r) →
    ev_status e = Processing → ev_request_nonce e = nonce → ev_request_nonce e' = nonce →
    row_change id a (Some e) (Some e')
| rc_keep a o o' :
    (∀ nonce, a ≠ Inserted id nonce) → (∀ nonce, a ≠ TookOver id nonce) →
    (∀ nonce, a ≠ Wrote id nonce true) → (∀ nonce r, a ≠ Answered id nonce r true) →
    frame id o o' → row_change id a o o'.

Lemma held_by_true id n e : held_by id n e = true ↔
  ev_id e = id ∧ ev_status e = Processing ∧ ev_request_nonce e = n.
Proof.
  unfold held_by. rewrite !andb_true_iff, String.eqb_eq, String.eqb_eq, bool_decide_eq_true. tauto.
Qed.

Lemma reclaimable_true id hash cutoff e : reclaimable id hash cutoff e = true →
  ev_id e = id ∧ ev_status e ≠ Completed ∧ ev_request_hash e = hash ∧
  (ev_status e = Failed ∨ (ev_updated_at e <= cutoff)%Z).
Proof.
  unfold reclaimable. rewrite !andb_true_iff, orb_true_iff, andb_true_iff, !String.eqb_eq, !bool_decide_eq_true.
  intros [[? ?] [Hf|[Hp Hle]]]; split_and!; try done; try (by rewrite ?Hf, ?Hp); [by left|right; lia].
Qed.

(** A guarded UPDATE of one event *)
Lemma update_row (p : event → bool) f d ok d' id k :
  (∀ e, ev_id (f e) = ev_id e) → (∀ e, p e = true → ev_id e = id) → events_keyed d →
  (Ok (count_where p (gw_events d) =? 1)%nat : res bool, set_events (update_where p f (gw_events d)) d) = (Ok ok, d') →
  events_keyed d' ∧ ok = match event_row id (gw_events d) with Some e => p e | None => false end ∧
  event_row k (gw_events d') = (λ e, if p e then f e else e) <$> event_row k (gw_events d).
Proof.
  intros Hf Hp Hk H. injection H as <- <-. cbn [gw_events set_events]. split_and!.
  - unfold events_keyed. cbn. by rewrite map_update.
  - by apply count_one.
  - by apply row_of_update.
Qed.

Lemma update_elsewhere (p : event → bool) f id k o : (∀ e, p e = true → ev_id e = id) → k ≠ id →
  (∀ e, o = Some e → ev_id e = k) → (λ e, if p e then f e else e) <$> o = o.
Proof.
  intros Hp Hk Ho. destruct o as [e|]; [|done]. cbn. destruct (p e) eqn:E; [|done].
  exfalso. apply Hk. rewrite <-(Ho e eq_refl). by apply Hp.
Qed.

Lemma row_frame id o : frame id o o.
Proof. destruct o as [e|]; [|done]. by exists e. Qed.

Lemma write_change id k n f d ok d' a :
  (∀ e, ev_id (f e) = ev_id e) → (∀ e, ev_request_nonce (f e) = ev_request_nonce e) →
  (a = Wrote id n ok ∨ ∃ r, a = Answered id n r ok ∧ ∀ e, ev_status (f e) = Completed ∧ ev_response (f e) = Some r) →
  events_keyed d → update_held id n f d = (Ok ok, d') →
  events_keyed d' ∧ row_change k a (event_row k (gw_events d)) (event_row k (gw_events d')).
Proof.
  intros Hf Hn Ha Hk H.
  destruct (update_row (held_by id n) f d ok d' id k) as (Hk' & Hok & Hrow); try done.
  { by intros e [? _]%held_by_true. }
  split; [done|]. rewrite Hrow. destruct (decide (k = id)) as [->|Hne].
  - destruct (event_row id (gw_events d)) as [e|] eqn:E; cbn.
    + destruct (held_by id n e) eqn:Eh; subst ok.
      * apply held_by_true in Eh as (Hid & Hs & Hnon). apply (rc_write id n); rewrite ?Hn; try done.
        destruct Ha as [->|(r & -> & Hr)]; [by left|right]. exists r. split; [done|]. apply Hr.
      * apply rc_keep; try (intros; destruct Ha as [->|(? & -> & _)]; done). by exists e.
    + subst ok. apply rc_keep; try (intros; destruct Ha as [->|(? & -> & _)]; done).
  - rewrite (update_elsewhere _ _ id k).
    + apply rc_keep; try (intros; destruct Ha as [->|(? & -> & _)]; congruence). apply row_frame.
    + by intros e [? _]%held_by_true.
    + done.
    + intros e [? _]%row_of_key. done.
Qed.

Lemma delete_change (p : event → bool) k d d' : events_keyed d →
  gw_events d' = delete_where p (gw_events d) →
  events_keyed d' ∧ row_change k Other (event_row k (gw_events d)) (event_row k (gw_events d')).
Proof.
  intros Hk H. unfold events_keyed. rewrite H. split; [by apply delete_keys|].
  apply rc_keep; try done. destruct (event_row k (delete_where p (gw_events d))) as [e|] eqn:E; [|done].
  exists e. split; [|done]. by eapply row_of_delete.
Qed.

Lemma same_change k d d' : events_keyed d → gw_events d' = gw_events d →
  events_keyed d' ∧ row_change k Other (event_row k (gw_events d)) (event_row k (gw_events d')).
Proof.
  intros Hk H. unfold events_keyed. rewrite H. split; [done|]. apply rc_keep; try done. apply row_frame.
Qed.

Lemma insert_change uuid now conn eid hash nonce ctype cid sid d e d' k : events_keyed d →
  insert_event uuid now conn eid hash nonce ctype cid sid d = (Ok e, d') →
  events_keyed d' ∧ row_change k (Inserted uuid nonce) (event_row k (gw_events d)) (event_row k (gw_events d')).
Proof.
  intros Hk H. unfold insert_event in H. destruct (existsb _ (gw_events d)) eqn:E; [done|].
  injection H as _ <-. cbn [gw_events set_events]. assert (uuid ∉ map ev_id (gw_events d)) as Hfresh.
  { intros (x & Hx & Hin)%list_elem_of_fmap. rewrite existsb_False in E. specialize (E x Hin).
    apply orb_false_iff in E as [_ E]. apply String.eqb_neq in E. done. }
  split.
  - unfold events_keyed in *. cbn. rewrite map_app. apply NoDup_app. split; [done|]. split; [|apply NoDup_singleton].
    intros x Hx ->%list_elem_of_singleton. done.
  - rewrite row_of_app. destruct (decide (k = uuid)) as [->|Hne].
    + rewrite (proj2 (row_of_None ev_id uuid (gw_events d)) Hfresh). unfold with_id. cbn [ev_id].
      rewrite String.eqb_refl. by constructor.
    + unfold with_id at 1. cbn [ev_id]. assert (String.eqb uuid k = false) as -> by (apply String.eqb_neq; congruence).
      apply rc_keep; try (intros; congruence). destruct (event_row k (gw_events d)) as [x|]; [by exists x|done].
Qed.

Lemma reclaim_change now id hash nonce lease d ok d' k : events_keyed d →
  reclaim_event now id hash nonce lease d = (Ok ok, d') →
  events_keyed d' ∧ row_change k (if ok then TookOver id nonce else Refused id nonce)
                      (event_row k (gw_events d)) (event_row k (gw_events d')).
Proof.
  intros Hk H. unfold reclaim_event in H. set (p := reclaimable id hash _) in H.
  destruct (update_row p (take_over now nonce) d ok d' id k) as (Hk' & Hok & Hrow); try done.
  { by intros e [? _]%reclaimable_true. }
  split; [done|]. rewrite Hrow. destruct (decide (k = id)) as [->|Hne].
  - destruct (event_row id (gw_events d)) as [e|] eqn:E; cbn.
    + destruct (p e) eqn:Ep; subst ok.
      * apply reclaimable_true in Ep as (_ & Hs & _). by apply rc_take.
      * apply rc_keep; try done. by exists e.
    + subst ok. by apply rc_keep.
  - rewrite (update_elsewhere _ _ id k).
    + apply rc_keep; try (intros; destruct ok; congruence). apply row_frame.
    + by intros e [? _]%reclaimable_true.
    + done.
    + intros e [? _]%row_of_key. done.
Qed.

Lemma step_change d a d' k : events_keyed d → event_step d a d' →
  events_keyed d' ∧ row_change k a (event_row k (gw_events d)) (event_row k (gw_events d')).
Proof.
  intros Hk H. destruct H as [uuid now conn eid hash nonce ctype cid sid d e d' H|now id hash nonce lease d ok d' H
    |now id nonce d ok d' H|now id nonce b c ch a d ok d' H|now id nonce error d ok d' H
    |now id nonce response d ok d' H|now retention force d n d' H|connection_id owner d ok d' H|d d' H].
  - by eapply insert_change.
  - by eapply reclaim_change.
  - eapply write_change; [| | |done|exact H]; [done|done|by left].
  - eapply write_change; [| | |done|exact H]; [done|done|by left].
  - eapply write_change; [| | |done|exact H]; [done|done|by left].
  - eapply write_change; [| | |done|exact H]; [done|done|right; by exists response].
  - unfold cleanup_expired_records in H. destruct (negb force && _); injection H as _ <-;
      [by apply same_change|by eapply delete_change].
  - unfold delete_owned_connection in H. destruct (negb (existsb _ _)); [by injection H as _ <-; apply same_change|].
    destruct (negb _); injection H as _ <-; [by apply same_change|by eapply delete_change].
  - by apply same_change.
Qed.

(** ** Keys *)

Definition event_key (e : event) : string * string := (ev_connection_id e, ev_event_id e).

Definition events_unique (d : gateway_db) : Prop :=
  events_keyed d ∧ NoDup (map event_key (gw_events d)).

Lemma step_keys d a d' : event_step d a d' →
  NoDup (map event_key (gw_events d)) → NoDup (map event_key (gw_events d')).
Proof.
  intros H Hk. destruct H as [uuid now conn eid hash nonce ctype cid sid d e d' H|now id hash nonce lease d ok d' H
    |now id nonce d ok d' H|now id nonce b c ch a d ok d' H|now id nonce error d ok d' H
    |now id nonce response d ok d' H|now retention force d n d' H|connection_id owner d ok d' H|d d' H].
  1: { unfold insert_event in H. destruct (existsb _ _) eqn:E; [done|]. injection H as _ <-. cbn.
       rewrite map_app. apply NoDup_app. split; [done|]. split; [|apply NoDup_singleton].
       intros x Hx ->%list_elem_of_singleton. apply list_elem_of_fmap in Hx as (y & Hy & Hin).
       rewrite existsb_False in E. specialize (E y Hin). unfold event_key in Hy. cbn in Hy.
       injection Hy as Hc Hi. unfold same_event in E. rewrite <-Hc, <-Hi, !String.eqb_refl in E. done. }
  1-5: injection H as _ <-; cbn; by rewrite map_update.
  - unfold cleanup_expired_records in H. destruct (_ && _); injection H as _ <-; [done|by apply delete_keys].
  - unfold delete_owned_connection in H. destruct (negb (existsb _ _)); [by injection H as _ <-|].
    destruct (negb _); injection H as _ <-; [done|by apply delete_keys].
  - by rewrite H.
Qed.

(** ** Runs *)

(** The events inserted, and the nonces of the requests that got an event *)
Definition inserted (l : list action) : list string :=
  omap (M:=list) (λ a, match a with Inserted id _ => Some id | _ => None end) l.
Definition acquired (l : list action) : list string :=
  omap (M:=list) (λ a, match a with Inserted _ n | TookOver _ n => Some n | _ => None end) l.

(** Drawn identifiers are new. *)
Definition fresh (d : gateway_db) (l : list action) : Prop :=
  NoDup (inserted l) ∧ ∀ x, x ∈ inserted l → x ∉ map ev_id (gw_events d).

Lemma row_change_ids id a o o' : row_change id a o o' →
  o' = None ∨ is_Some o ∨ ∃ n, a = Inserted id n.
Proof.
  destruct 1 as [nonce e|nonce e e'|nonce e e' a|a o o' _ _ _ _ Hf]; eauto.
  destruct o' as [e'|]; [|by left]. destruct Hf as (e & -> & _). eauto.
Qed.

Lemma fresh_step d a d' l : events_keyed d → event_step d a d' → fresh d (a :: l) → fresh d' l.
Proof.
  intros Hk H [Hnd Hf].
  assert (NoDup (inserted l) ∧ ∀ x, x ∈ inserted l → ∀ n, a ≠ Inserted x n) as [Hl Hne].
  { unfold inserted in *. destruct a; cbn in *; try (split; [done|congruence]).
    apply NoDup_cons in Hnd as [Hid Hnd]. split; [done|]. intros x Hx n [= ->]. done. }
  split; [done|]. intros x Hx. apply row_of_None.
  destruct (step_change d a d' x Hk H) as [_ Hc]. apply row_change_ids in Hc as [?|[[e He]|[n Hn]]]; [done| |].
  - exfalso. apply (Hf x).
    + unfold inserted in *. destruct a; cbn; try done. by right.
    + apply row_of_key in He as [<- He]. by apply list_elem_of_fmap_2.
  - exfalso. by apply (Hne x Hx n).
Qed.

(** A run up to an action, and what follows it *)
Lemma run_split d l d' i a : run d l d' → l !! i = Some a → events_unique d → fresh d l →
  ∃ d1 d2, event_step d1 a d2 ∧ run d2 (drop (S i) l) d' ∧ events_unique d1 ∧ events_unique d2 ∧
    fresh d1 (a :: drop (S i) l) ∧ fresh d2 (drop (S i) l).
Proof.
  intros H. revert i. induction H as [d|d1 b d2 l d3 Hs Hr IH]; intros i Hi Hu Hf; [by destruct i|].
  assert (events_unique d2) as Hu2.
  { destruct Hu as [Hk He]. split; [by apply (step_change d1 b d2 EmptyString)|by eapply step_keys]. }
  assert (fresh d2 l) as Hf2 by (eapply fresh_step; eauto; apply Hu).
  destruct i as [|i].
  - injection Hi as ->. exists d1, d2. done.
  - cbn in Hi. destruct (IH i Hi Hu2 Hf2) as (x & y & ?). by exists x, y.
Qed.

Lemma run_keeps d l d' : run d l d' → events_unique d → events_unique d'.
Proof.
  induction 1 as [|d1 a d2 l d3 Hs _ IH]; [done|]. intros [Hk He]. apply IH.
  split; [by apply (step_change d1 a d2 EmptyString)|by eapply step_keys].
Qed.

(** An invariant of one row along a run *)
Lemma run_row (P : option event → Prop) (Q : action → Prop) id d l d' :
  run d l d' → events_keyed d → fresh d l → P (event_row id (gw_events d)) →
  (∀ a o o', a ∈ l → P o → row_change id a o o' → P o' ∧ Q a) →
  P (event_row id (gw_events d')) ∧ ∀ a, a ∈ l → Q a.
Proof.
  induction 1 as [d|d1 a d2 l d3 Hs Hr IH]; intros Hk Hf HP Hstep.
  { split; [done|]. by intros a ?%elem_of_nil. }
  destruct (step_change d1 a d2 id Hk Hs) as [Hk2 Hc].
  assert (a ∈ a :: l) as Ha by left.
  destruct (Hstep a _ _ Ha HP Hc) as [HP2 HQ].
  destruct IH as [HP3 HQ3]; [done|by apply (fresh_step d1 a d2)|done| |].
  { intros b o o' Hb. apply Hstep. by right. }
  split; [done|]. intros b [->|Hb]%elem_of_cons; [done|by apply HQ3].
Qed.

(** Actions that are not a worker's success on an event *)
Definition idle (id : string) (a : action) : Prop :=
  (∀ n, a ≠ TookOver id n) ∧ (∀ n, a ≠ Wrote id n true) ∧ ∀ n r, a ≠ Answered id n r true.

Definition final (e : event) (o : option event) : Prop :=
  o = None ∨ o = Some e ∧ ev_status e = Completed.

Lemma final_step e id a o o' : (∀ n, a ≠ Inserted id n) → final e o → row_change id a o o' →
  final e o' ∧ idle id a.
Proof.
  intros Hins Hf H. destruct H as [n e1|n e1 e2 Hs|n e1 e2 a Ha Hs|a o o' _ Ht Hw Han Hfr].
  - by destruct (Hins n).
  - destruct Hf as [?|[[= ->] ?]]; done.
  - destruct Hf as [?|[[= ->] ?]]; congruence.
  - split; [|by split_and!]. destruct o' as [e'|]; [|by left]. destruct Hfr as (x & -> & ->).
    destruct Hf as [?|[[= ->] ?]]; [done|by right].
Qed.

Lemma lookup_later {A} (l : list A) i j a : i < j → l !! j = Some a → a ∈ drop (S i) l.
Proof.
  intros Hij Hj. apply (list_elem_of_lookup_2 _ (j - S i)). rewrite lookup_drop.
  by replace (S i + (j - S i)) with j by lia.
Qed.

Lemma not_inserted id l a : id ∉ inserted l → a ∈ l → ∀ n, a ≠ Inserted id n.
Proof.
  intros Hn Ha n ->. apply Hn. unfold inserted. apply list_elem_of_omap. by eexists.
Qed.

(** After the answer *)
Lemma answered_final d l d' i id n r :
  run d l d' → events_unique d → fresh d l → l !! i = Some (Answered id n r true) →
  ∃ e, ev_id e = id ∧ ev_status e = Completed ∧ ev_response e = Some r ∧
    final e (event_row id (gw_events d')) ∧ ∀ a, a ∈ drop (S i) l → idle id a.
Proof.
  intros Hr Hu Hf Hi. destruct (run_split _ _ _ _ _ Hr Hi Hu Hf) as (d1 & d2 & Hs & Hr2 & [Hk1 _] & [Hk2 _] & Hf1 & Hf2).
  destruct (step_change d1 _ d2 id Hk1 Hs) as [_ Hc].
  assert (∃ e, event_row id (gw_events d2) = Some e ∧ ev_status e = Completed ∧ ev_response e = Some r)
    as (e & He & Hst & Hre).
  { inversion Hc as [|nn e e'|nonce e1 e2 a Ha Hs1 Hn1 Hn2 Ha' Ho Ho'|a o o' _ _ _ Han _]; subst.
    - destruct Ha as [[=]|(r' & [= -> ->] & ? & ?)]. by exists e2.
    - by destruct (Han n r). }
  exists e. split; [by apply row_of_key in He as []|]. split; [done|]. split; [done|].
  assert (id ∉ inserted (drop (S i) l)) as Hno.
  { intros Hin. destruct Hf2 as [_ Hf2]. apply (Hf2 id Hin).
    apply row_of_key in He as [<- He]. by apply list_elem_of_fmap_2. }
  apply (run_row (final e) (idle id) id d2 _ d'); try done.
  - by right.
  - intros a o o' Ha HP Hrc. apply (final_step e) in Hrc; [done| |done]. by eapply not_inserted.
Qed.

Lemma claim_completed uuid now hash nonce ctype cid sid lease d e :
  events_unique d → e ∈ gw_events d → ev_status e = Completed →
  claim_event uuid now (ev_connection_id e) (ev_event_id e) hash nonce ctype cid sid lease d =
    if String.eqb (ev_request_hash e) hash then (Ok (e, false), d) else (Err event_conflict, d).
Proof.
  intros [_ Hk] He Hs. unfold claim_event, st_catch, insert_event.
  assert (existsb (λ x, same_event (ev_connection_id e) (ev_event_id e) x || String.eqb (ev_id x) uuid)
    (gw_events d) = true) as Hex.
  { apply existsb_True. exists e. split; [done|]. unfold same_event. by rewrite !String.eqb_refl. }
  rewrite st_bind_eq. rewrite Hex, st_bind_eq.
  assert (find_event (same_event (ev_connection_id e) (ev_event_id e)) d = (Ok e, d)) as ->.
  { unfold find_event. destruct (find_first _ _) as [x|] eqn:Ex.
    - apply find_first_Some in Ex as [Hx Hsame]. do 2 f_equal. unfold same_event in Hsame.
      apply andb_true_iff in Hsame as [Hc Hi]. apply String.eqb_eq in Hc, Hi.
      apply list_elem_of_lookup in Hx as [i Hxi]. apply list_elem_of_lookup in He as [j Hej].
      assert (i = j) as ->; [|congruence].
      apply (NoDup_lookup (map event_key (gw_events d)) i j (event_key e)); [done| |];
        rewrite list_lookup_fmap; [|by rewrite Hej].
      rewrite Hxi. unfold event_key. cbn. by rewrite <-Hc, <-Hi.
    - rewrite find_first_None in Ex. specialize (Ex e He). unfold same_event in Ex.
      by rewrite !String.eqb_refl in Ex. }
  destruct (String.eqb (ev_request_hash e) hash); cbn [negb]; [|done]. by rewrite bool_decide_eq_true_2.
Qed.

(** A worker gets an event. *)
Definition got (id n : string) (a : action) : Prop := a = Inserted id n ∨ a = TookOver id n.

Lemma got_acquired id n a l : a ∈ l → got id n a → n ∈ acquired l.
Proof. intros Ha H. apply list_elem_of_omap. exists a. split; [done|]. by destruct H as [->| ->]. Qed.

Lemma acquired_later l i id id' n a b : NoDup (acquired l) → l !! i = Some a → got id n a →
  b ∈ drop (S i) l → ¬ got id' n b.
Proof.
  intros Hnd Hi Ha Hb Hg. rewrite <-(take_drop (S i) l) in Hnd.
  unfold acquired in Hnd. rewrite omap_app in Hnd. apply NoDup_app in Hnd as (_ & Hd & _).
  apply (Hd n).
  - apply (got_acquired id n a); [|done]. apply (list_elem_of_lookup_2 _ i). rewrite lookup_take_lt; [done|lia].
  - by apply (got_acquired id' n b).
Qed.

Definition not_held (n : string) (o : option event) : Prop := ∀ e, o = Some e → ev_request_nonce e ≠ n.

Definition no_success (id n : string) (a : action) : Prop :=
  a ≠ Wrote id n true ∧ ∀ r, a ≠ Answered id n r true.

Lemma not_held_step n id a o o' : ¬ got id n a → not_held n o → row_change id a o o' →
  not_held n o' ∧ no_success id n a.
Proof.
  intros Hg Hn H. destruct H as [m e Hid Hs Hm|m e e' Hs Hs' Hm|m e e' a Ha Hs Hm Hm'|a o o' Hi Ht Hw Han Hfr].
  - split; [|by split]. intros x [= <-] Hx. apply Hg. left. congruence.
  - split; [|by split]. intros x [= <-] Hx. apply Hg. right. congruence.
  - assert (m ≠ n) as Hne by (rewrite <-Hm; by apply Hn). split; [intros x [= <-]; congruence|].
    destruct Ha as [->|(r & -> & _)]; split; congruence.
  - split; [|by split]. intros x ->. destruct Hfr as (y & -> & ->). by apply Hn.
Qed.

Lemma row_got id n a o o' : got id n a → row_change id a o o' →
  ∃ e, o' = Some e ∧ ev_request_nonce e = n.
Proof.
  intros Hg H. destruct H as [m e Hid Hs Hm|m e e' Hs Hs' Hm|m e e' a Ha Hs Hm Hm'|a o o' Hi Ht Hw Han Hfr].
  - exists e. split; [done|]. destruct Hg as [[=]|[=]]; congruence.
  - exists e'. split; [done|]. destruct Hg as [[=]|[=]]; congruence.
  - destruct Hg as [->| ->]; destruct Ha as [[=]|(r & [=] & _)].
  - destruct Hg as [->| ->]; [by destruct (Hi n)|by destruct (Ht n)].
Qed.


(** C14: the lease of an event fences its workers: an event is taken over only
    when its worker failed or did not renew the lease in time, with the same
    payload, and from then on nothing the former worker writes has an effect,
    however late it comes. *)
Theorem lease_fences_workers d l d' i j id n1 n2 a b :
  run d l d' → events_unique d → fresh d l → NoDup (acquired l) → i < j →
  l !! i = Some a → got id n1 a → l !! j = Some b → got id n2 b →
  (∀ k c, j < k → l !! k = Some c → no_success id n1 c) ∧
  ∀ now hash nonce lease d1 d2, events_keyed d1 → reclaim_event now id hash nonce lease d1 = (Ok true, d2) →
    ∃ e, event_row id (gw_events d1) = Some e ∧ ev_request_hash e = hash ∧
      (ev_status e = Failed ∨ (ev_updated_at e <= now - Z.max 1 lease)%Z).
Proof.
  intros Hr Hu Hf Hnd Hij Hi Ha Hj Hb. split.
  - assert (n1 ≠ n2) as Hne.
    { intros <-. by apply (acquired_later l i id id n1 a b Hnd Hi Ha (lookup_later _ _ _ _ Hij Hj)). }
    destruct (run_split _ _ _ _ _ Hr Hj Hu Hf) as (d1 & d2 & Hs & Hr2 & [Hk1 _] & [Hk2 _] & _ & Hf2).
    destruct (step_change d1 b d2 id Hk1 Hs) as [_ Hc].
    destruct (row_got _ _ _ _ _ Hb Hc) as (e & He & Hn).
    destruct (run_row (not_held n1) (no_success id n1) id d2 _ d' Hr2 Hk2 Hf2) as [_ Hall].
    + rewrite He. intros x [= <-]. congruence.
    + intros c o o' Hin Hnot Hrc. apply (not_held_step n1 id c o o'); [|done|done].
      apply (acquired_later l i id id n1 a c Hnd Hi Ha).
      apply list_elem_of_lookup in Hin as [m Hm]. rewrite lookup_drop in Hm.
      apply (lookup_later l i (S j + m)); [lia|done].
    + intros k c Hjk Hk. apply Hall. by apply (lookup_later l j k).
  - intros now hash nonce lease d1 d2 Hk H. unfold reclaim_event in H. injection H as Hc _.
    rewrite (count_one ev_id _ _ id Hk) in Hc by (by intros e [? _]%reclaimable_true).
    destruct (event_row id (gw_events d1)) as [e|] eqn:E; [|done].
    apply reclaimable_true in Hc as (_ & _ & Hh & Hl). by exists e.
Qed.

(** A worker whose lease runs out, and the one that takes its event over *)
Definition no_rows : gateway_db :=
  {| gw_connections := []; gw_bindings := []; gw_conversations := []; gw_codes := []; gw_groups := [];
     gw_events := []; gw_nonces := []; gw_history := []; gw_credentials := []; gw_checkpoints := [];
     gw_next_cleanup_at := 0 |}.
Definition example_1 : gateway_db :=
  (insert_event "e" 0 "bot" "m1" "hash" "n1" "private" "c" "s" no_rows).2.
Definition example_2 : gateway_db := (reclaim_event 200 "e" "hash" "n2" 180 example_1).2.
Definition example_3 : gateway_db := (complete_event 201 "e" "n1" (VStr "late") example_2).2.
Definition example_4 : gateway_db := (complete_event 202 "e" "n2" (VStr "hi") example_3).2.
Definition example_actions : list action :=
  [Inserted "e" "n1"; TookOver "e" "n2"; Answered "e" "n1" (VStr "late") false;
   Answered "e" "n2" (VStr "hi") true].

Lemma example_run : run no_rows example_actions example_4.
Proof.
  unfold example_actions. eapply run_cons; [eapply (step_insert "e" 0 "bot" "m1" "hash" "n1"); reflexivity|].
  eapply run_cons; [apply (step_reclaim 200 "e" "hash" "n2" 180 example_1 true example_2); reflexivity|].
  eapply run_cons; [apply (step_complete 201 "e" "n1" (VStr "late") example_2 false example_3); reflexivity|].
  eapply run_cons; [apply (step_complete 202 "e" "n2" (VStr "hi") example_3 true example_4); reflexivity|].
  constructor.
Qed.

Lemma example_fresh : events_unique no_rows ∧ fresh no_rows example_actions.
Proof.
  split; [split; constructor|]. split; [refine (bool_decide_unpack _ _); vm_compute; exact I|].
  intros x _ Hx. by apply elem_of_nil in Hx.
Qed.


Lemma lease_fences_workers_witness :
  ∃ c, example_actions !! 2 = Some c ∧ c = Answered "e" "n1" (VStr "late") false ∧ no_success "e" "n1" c.
Proof.
  destruct (lease_fences_workers no_rows example_actions example_4 0 1 "e" "n1" "n2" (Inserted "e" "n1")
    (TookOver "e" "n2") example_run (proj1 example_fresh) (proj2 example_fresh)) as [H _].
  - refine (bool_decide_unpack _ _). vm_compute. exact I.
  - lia.
  - reflexivity.
  - by left.
  - reflexivity.
  - by right.
  - eexists. split; [reflexivity|]. split; [reflexivity|]. apply (H 2); [lia|reflexivity].
Defined.
