(* ===== verification/Sha256.v ===== *)
(** * SHA-256 and HMAC-SHA-256 (the standard library's [hashlib] and [hmac]).

    Byte strings are strings of characters below 256; words are integers below
    2 ^ 32. *)

From S2P Require Import Prelude PyVal.
From Stdlib Require Import Ascii.

Local Open Scope Z_scope.

Definition mask32 : Z := 4294967295.
Definition add32 (x y : Z) : Z := Z.land (x + y) mask32.
Definition shr (n x : Z) : Z := Z.shiftr x n.
Definition rotr (n x : Z) : Z := Z.lor (Z.shiftr x n) (Z.land (Z.shiftl x (32 - n)) mask32).
Definition not32 (x : Z) : Z := Z.lxor x mask32.

Definition ch (x y z : Z) : Z := Z.lxor (Z.land x y) (Z.land (not32 x) z).
Definition maj (x y z : Z) : Z := Z.lxor (Z.lxor (Z.land x y) (Z.land x z)) (Z.land y z).
Definition bsig0 (x : Z) : Z := Z.lxor (Z.lxor (rotr 2 x) (rotr 13 x)) (rotr 22 x).
Definition bsig1 (x : Z) : Z := Z.lxor (Z.lxor (rotr 6 x) (rotr 11 x)) (rotr 25 x).
Definition ssig0 (x : Z) : Z := Z.lxor (Z.lxor (rotr 7 x) (rotr 18 x)) (shr 3 x).
Definition ssig1 (x : Z) : Z := Z.lxor (Z.lxor (rotr 17 x) (rotr 19 x)) (shr 10 x).

(** The constants of the standard: the first 32 bits of the fractional parts of
    the cube roots of the first 64 primes, and of the square roots of the first
    eight.  [root_bits k p] is [floor(p ^ (1/k) * 2 ^ 32)], bit by bit. *)
Definition root_bits (k p : Z) : Z :=
  let bound := p * 2 ^ (32 * k) in
  foldl (λ r b, let r' := r + 2 ^ b in if r' ^ k <=? bound then r' else r) 0 (rev (seqZ 0 38)).
Definition is_prime (n : Z) : bool := forallb (λ m, negb (n mod m =? 0)) (seqZ 2 (n - 2)).
Definition primes : list Z := List.filter is_prime (seqZ 2 310).

Definition round_constants : list Z :=
  Eval vm_compute in map (λ p, Z.land (root_bits 3 p) mask32) primes.

Record hash_state := Hash { ha : Z; hb : Z; hc : Z; hd : Z; he : Z; hf : Z; hg : Z; hh : Z }.

Definition initial_hash : hash_state :=
  Eval vm_compute in
    match map (λ p, Z.land (root_bits 2 p) mask32) primes with
    | a :: b :: c :: d :: e :: f :: g :: h :: _ => Hash a b c d e f g h
    | _ => Hash 0 0 0 0 0 0 0 0
    end.

Definition round (s : hash_state) (kw : Z * Z) : hash_state :=
  let t1 := add32 (hh s + bsig1 (he s) + ch (he s) (hf s) (hg s)) (kw.1 + kw.2) in
  let t2 := bsig0 (ha s) + maj (ha s) (hb s) (hc s) in
  Hash (add32 t1 t2) (ha s) (hb s) (hc s) (add32 (hd s) t1) (he s) (hf s) (hg s).

(** The message schedule, last word first *)
Definition next_word (w : list Z) : Z :=
  add32 (ssig1 (nth 1 w 0) + nth 6 w 0) (ssig0 (nth 14 w 0) + nth 15 w 0).
Fixpoint extend (n : nat) (w : list Z) : list Z :=
  match n with O => w | S n => extend n (next_word w :: w) end.

Definition add_state (s t : hash_state) : hash_state :=
  Hash (add32 (ha s) (ha t)) (add32 (hb s) (hb t)) (add32 (hc s) (hc t)) (add32 (hd s) (hd t))
       (add32 (he s) (he t)) (add32 (hf s) (hf t)) (add32 (hg s) (hg t)) (add32 (hh s) (hh t)).

Definition compress (s : hash_state) (block : list Z) : hash_state :=
  add_state s (foldl round s (combine round_constants (rev (extend 48 (rev block))))).

(** Big-endian words of bytes; the length is a multiple of four. *)
Fixpoint words (bytes : list Z) : list Z :=
  match bytes with
  | a :: b :: c :: d :: r => (a * 16777216 + b * 65536 + c * 256 + d) :: words r
  | _ => []
  end.

Definition word_bytes (w : Z) : list Z := map (λ n, Z.land (Z.shiftr w n) 255) [24; 16; 8; 0].

Definition pad (bytes : list Z) : list Z :=
  let n := Z.of_nat (length bytes) in
  let zeros := (55 - n) mod 64 in
  bytes ++ [128] ++ repeat 0 (Z.to_nat zeros)
    ++ word_bytes (Z.shiftr (8 * n) 32) ++ word_bytes (Z.land (8 * n) mask32).

Fixpoint blocks (fuel : nat) (s : hash_state) (ws : list Z) : hash_state :=
  match fuel, ws with
  | O, _ | _, [] => s
  | S fuel, _ => blocks fuel (compress s (firstn 16 ws)) (skipn 16 ws)
  end.

Definition sha256_bytes (bytes : list Z) : list Z :=
  let ws := words (pad bytes) in
  let s := blocks (S (length ws)) initial_hash ws in
  flat_map word_bytes [ha s; hb s; hc s; hd s; he s; hf s; hg s; hh s].

Fixpoint bytes_of (s : string) : list Z :=
  match s with EmptyString => [] | String c r => Z.of_nat (Str.code c) :: bytes_of r end.

(** [s.encode()]: UTF-8 of code points below 256 *)
Fixpoint utf8 (s : string) : list Z :=
  match s with
  | EmptyString => []
  | String c r =>
      let n := Z.of_nat (Str.code c) in
      (if n <? 128 then [n] else [192 + n / 64; 128 + n mod 64]) ++ utf8 r
  end.

Definition hex_digit (n : Z) : ascii :=
  nth (Z.to_nat n) ["0"; "1"; "2"; "3"; "4"; "5"; "6"; "7"; "8"; "9"; "a"; "b"; "c"; "d"; "e"; "f"]%char "0"%char.

Fixpoint hex (bytes : list Z) : string :=
  match bytes with
  | [] => EmptyString
  | b :: r => String (hex_digit (b / 16)) (String (hex_digit (b mod 16)) (hex r))
  end.

(** [hashlib.sha256(body).hexdigest()] *)
Definition sha256_hexdigest (body : list Z) : string := hex (sha256_bytes body).

(** [hmac.new(key, message, hashlib.sha256).hexdigest()] *)
Definition hmac_key (key : list Z) : list Z :=
  let k := if (64 <? length key)%nat then sha256_bytes key else key in
  k ++ repeat 0 (64 - length k).

Definition hmac_sha256 (key message : list Z) : list Z :=
  let k := hmac_key key in
  sha256_bytes (map (Z.lxor 92) k ++ sha256_bytes (map (Z.lxor 54) k ++ message)).

Definition hmac_hexdigest (key message : list Z) : string := hex (hmac_sha256 key message).

(** Published test vectors *)
Example sha256_abc :
  sha256_hexdigest (utf8 "abc") = "ba7816bf8f01cfea414140de5dae2223b00361a396177a9cb410ff61f20015ad".
Proof. vm_compute. reflexivity. Qed.

Example sha256_two_blocks :
  sha256_hexdigest (utf8 "abcdbcdecdefdefgefghfghighijhijkijkljklmklmnlmnomnopnopq") =
  "248d6a61d20638b8e5c026930c3e6039a33ce45964ff2167f6ecedd419db06c1".
Proof. vm_compute. reflexivity. Qed.

Example hmac_jefe :
  hmac_hexdigest (utf8 "Jefe") (utf8 "what do ya want for nothing?") =
  "5bdcc146bf60754e6a042426089575c75a003f089d2739839dec58b964ec3843".
Proof. vm_compute. reflexivity. Qed.

(** Digests are in lower case. *)
Lemma hex_digit_lower n : Str.lower_char (hex_digit n) = hex_digit n.
Proof.
  unfold hex_digit. set (digits := ["0"%char; _; _; _; _; _; _; _; _; _; _; _; _; _; _; _]).
  assert (forallb (λ c, Ascii.eqb (Str.lower_char c) c) digits = true) as H by reflexivity.
  rewrite forallb_forall in H.
  destruct (nth_in_or_default (Z.to_nat n) digits "0"%char) as [Hin| ->]; [|reflexivity].
  apply Ascii.eqb_eq. by apply H.
Qed.

Lemma hex_lower bytes : Str.lower (hex bytes) = hex bytes.
Proof.
  unfold Str.lower. induction bytes as [|b l IH]; [done|].
  cbn [hex Str.smap]. by rewrite !hex_digit_lower, IH.
Qed.
