(* ===== verification/BotGatewayRouter.v ===== *)
(** * The internal API of the bot gateway (routers/bot_gateway.py): signed
    requests, who may be answered, replies on the wire, and applying rebalance
    plans.

    Requests are their header values and body; an inbound event has passed its
    pydantic model.  The lookups of models and the chat run are left out: an
    event that reaches them is [RunChat]. *)

From S2P Require Import Prelude PyVal PyDecimal Scheduler Sha256 BotGateway.
From Stdlib Require Import Ascii.

Local Open Scope Z_scope.

Definition BINDING_CODE_TTL : Z := 10 * 60.
Definition SIGNATURE_MAX_SKEW : Z := 5 * 60.
Definition NONCE_RETENTION_SECONDS : Z := 2 * SIGNATURE_MAX_SKEW + 60.
Definition EVENT_LEASE_SECONDS : Z := 3 * 60.
Definition MAX_REPLY_CHARS : nat := Z.to_nat 100000.
Definition HMAC_VERSION : string := "v1".

(** [s.upper()] *)
Definition upper_char (c : ascii) : ascii :=
  let n := Str.code c in if ((97 <=? n) && (n <=? 122))%nat then Ascii.ascii_of_nat (n - 32) else c.
Definition upper (s : string) : string := Str.smap upper_char s.

(** ** Signed requests *)

(** [canonical_bot_gateway_request] *)
Definition newline : string := String (Ascii.ascii_of_nat 10) EmptyString.
Definition canonical_bot_gateway_request (method path_with_query timestamp nonce content_sha256 : string)
    : string :=
  Str.join newline [HMAC_VERSION; timestamp; nonce; upper method; path_with_query; content_sha256].

Definition request_signature (secret method path_with_query timestamp nonce content_sha256 : string) : string :=
  HMAC_VERSION +:+ "=" +:+ hmac_hexdigest (utf8 secret)
    (utf8 (canonical_bot_gateway_request method path_with_query timestamp nonce content_sha256)).

(** The headers [x-ryanai-timestamp], [-nonce], [-content-sha256] and [-signature] *)
Record signature_headers := {
  sh_timestamp : option string;
  sh_nonce : option string;
  sh_content_sha256 : option string;
  sh_signature : option string;
}.

(** [sign_bot_gateway_request] *)
Definition sign_bot_gateway_request (secret method path_with_query : string) (body : list Z)
    (timestamp nonce : string) : signature_headers :=
  let content_sha256 := sha256_hexdigest body in
  {| sh_timestamp := Some timestamp; sh_nonce := Some nonce; sh_content_sha256 := Some content_sha256;
     sh_signature := Some (request_signature secret method path_with_query timestamp nonce content_sha256) |}.

(** [re.fullmatch(r'[A-Za-z0-9._:-]{16,128}', nonce)] *)
Definition nonce_char (c : ascii) : bool :=
  let n := Str.code c in
  Str.is_digit c || ((65 <=? n) && (n <=? 90))%nat || ((97 <=? n) && (n <=? 122))%nat
  || Ascii.eqb c "." || Ascii.eqb c "_" || Ascii.eqb c ":" || Ascii.eqb c "-".
Definition valid_nonce (s : string) : bool :=
  Str.sforallb nonce_char s && (16 <=? String.length s)%nat && (String.length s <=? 128)%nat.

(** [hmac.compare_digest] of texts refuses characters that are not ASCII. *)
Definition is_ascii (s : string) : bool := Str.sforallb (λ c, (Str.code c <? 128)%nat) s.
Definition compare_digest (a b : string) : res bool :=
  if is_ascii a && is_ascii b then Ok (String.eqb a b) else Err TypeError.

Definition unauthorized (detail : string) : exn := HTTPException 401 detail.

Definition present (o : option string) : option string :=
  match o with Some s => if Str.is_empty s then None else Some s | None => None end.

(** [verify_bot_gateway_signature]: the nonce and the digest of the body. *)
Definition verify_bot_gateway_signature (secret method path_with_query : string) (body : list Z)
    (h : signature_headers) (now : Z) : res (string * string) :=
  match present (sh_timestamp h), present (sh_nonce h), present (sh_content_sha256 h), present (sh_signature h) with
  | Some timestamp, Some nonce, Some content_sha256, Some signature =>
      if negb (valid_nonce nonce) then Err (unauthorized "Invalid bot gateway nonce")
      else
        match int_of_string timestamp with
        | None => Err (unauthorized "Invalid bot gateway timestamp")
        | Some t =>
            if SIGNATURE_MAX_SKEW <? Z.abs (now - t) then Err (unauthorized "Stale bot gateway signature")
            else
              let actual_hash := sha256_hexdigest body in
              same ← compare_digest actual_hash (Str.lower content_sha256);
              if negb same then Err (unauthorized "Bot gateway content hash mismatch")
              else
                same ← compare_digest
                  (request_signature secret method path_with_query timestamp nonce actual_hash)
                  (Str.lower signature);
                if negb same then Err (unauthorized "Invalid bot gateway signature")
                else Ok (nonce, actual_hash)
        end
  | _, _, _, _ => Err (unauthorized "Missing bot gateway signature")
  end.

(** ** Inbound events *)

(** [InboundEvent] *)
Record inbound_event := {
  ie_event_id : string;
  ie_channel : string;
  ie_connection_id : string;
  ie_shard_id : option string;
  ie_node_id : option string;
  ie_lease_epoch : option Z;
  ie_assignment_generation : option Z;
  ie_conversation_type : string;
  ie_conversation_id : string;
  ie_conversation_name : option string;
  ie_sender_id : string;
  ie_sender_name : option string;
  ie_mentions_bot : bool;
}.

(** The start of [receive_event]: a request is taken at most once. *)
Definition accept_request (secret method path_with_query : string) (body : list Z) (h : signature_headers)
    (now : Z) : st gateway_db string :=
  v ← st_lift (verify_bot_gateway_signature secret method path_with_query body h now);
  claimed ← claim_request_nonce now v.1 (now + NONCE_RETENTION_SECONDS);
  if (claimed : bool) then mret v.1
  else raise (HTTPException 409 "HMAC nonce has already been used").

(** [_gateway_policy]: whether the gateway and the channel are on. *)
Definition channel_enabled (settings : pyval) (channel : string) : bool :=
  let value := match settings with VDict d => d | _ => [] end in
  truthy (dget value "enabled") && truthy (dget value (channel +:+ "_enabled")).

Definition stale_fence : exn := HTTPException 409 "stale_fence".

(** What [receive_event] does with an event it may process *)
Inductive admission :=
| Ignored
| Stored (response : pyval)
| Acquired (record : event).

(** The rest of [receive_event] up to the lease; [lease] is what Redis answers
    for the shard, [request_hash] the digest of the event. *)
Definition admit_event (mode : string) (lease : res (option shard_lease)) (settings : pyval)
    (uuid : string) (now : Z) (nonce request_hash : string) (e : inbound_event) : st gateway_db admission :=
  d ← st_get;
  match get_connection (ie_connection_id e) d with
  | None => raise (HTTPException 404 "Bot connection not found")
  | Some c =>
      if negb (String.eqb (co_channel c) (ie_channel e)) then raise (HTTPException 404 "Bot connection not found")
      else
        match validate_event_fence mode (ie_shard_id e) (ie_node_id e) (ie_lease_epoch e)
                (ie_assignment_generation e) (co_shard_id c) (generation_of c) lease with
        | Ok true =>
            if negb (channel_enabled settings (ie_channel e)) then mret Ignored
            else
              claimed ← st_catch
                (claim_event uuid now (ie_connection_id e) (ie_event_id e) request_hash nonce
                   (ie_conversation_type e) (ie_conversation_id e) (ie_sender_id e) EVENT_LEASE_SECONDS)
                (λ x, match x with ValueError m => raise (HTTPException 409 m) | x => raise x end);
              if (claimed.2 : bool) then mret (Acquired claimed.1)
              else
                match ev_status claimed.1, ev_response claimed.1 with
                | Completed, Some r => mret (Stored r)
                | _, _ => raise (HTTPException 409 "Bot gateway event is already processing")
                end
        | _ => raise stale_fence
        end
  end.

(** Who answers an acquired event: nobody; the reply of an earlier attempt; the
    commands and replies to a sender that is or is not bound; or the chat. *)
Inductive routing :=
| NoAnswer
| Identified (b : option binding).

Section Routing.
Context (repr_other : pyval → string).

Definition route_event (uuid group_uuid history_uuid : string) (now : Z) (c : bot_connection)
    (e : inbound_event) : st gateway_db routing :=
  if negb (co_enabled c) then mret NoAnswer
  else
    let group := String.eqb (ie_conversation_type e) "group" in
    let private := String.eqb (ie_conversation_type e) "private" in
    let owned := is_text (co_owner_user_id c) in
    listens ← (if group
               then g ← upsert_group group_uuid now (ie_connection_id e) (ie_conversation_id e)
                          (ie_conversation_name e) None None None;
                    mret (gp_allowed g && ie_mentions_bot e)
               else mret true);
    if negb listens then mret NoAnswer
    else
      trusted ← (if private && owned
                 then t ← st_lift (trusted_external_user_id repr_other c);
                      mret (negb (Str.is_empty t) && String.eqb t (ie_sender_id e))
                 else mret true);
      if negb trusted then mret NoAnswer
      else
        d ← st_get;
        b ← (match get_enabled_binding (ie_connection_id e) (ie_sender_id e) d with
             | Some b => mret (Some b)
             | None =>
                 if private && owned
                 then ensure_owner_binding repr_other uuid history_uuid now (ie_connection_id e) (ie_sender_id e)
                        (ie_sender_name e)
                 else mret None
             end);
        if group && bool_decide (b = None) then mret NoAnswer else mret (Identified b).
End Routing.

(** ** Replies on the wire *)

Definition char_count (s : string) : nat := String.length s.

(** The loop of [_wire_reply] over several messages *)
Fixpoint take_messages (remaining : nat) (texts : list string) : list string :=
  match texts with
  | [] => []
  | t :: r =>
      let message := Str.strip t in
      if Str.is_empty message || (remaining =? 0)%nat then take_messages remaining r
      else
        let message := Str.take remaining message in
        message :: take_messages (remaining - char_count message) r
  end.

(** [_wire_reply] of one text and of several *)
Definition wire_text (text : string) : pyval := VDict [("text", VStr (Str.take MAX_REPLY_CHARS text))].

Definition wire_messages (texts : list string) : pyval :=
  match take_messages MAX_REPLY_CHARS texts with
  | [] => VNone
  | messages => VDict [("text", VStr (Str.take MAX_REPLY_CHARS (Str.join (newline +:+ newline) messages)));
                       ("messages", VList (VStr <$> messages))]
  end.

(** [_wire_response] *)
Definition wire_response (event_id : string) (reply : pyval) (ignored : bool) : pyval :=
  VDict [("version", VStr "1.0"); ("event_id", VStr event_id);
         ("status", VStr (if ignored then "ignored" else "ok"));
         ("reply", if ignored then VNone else reply)].

(** ** Binding codes *)

(** [_normalize_binding_code] *)
Definition code_char (c : ascii) : bool :=
  let n := Str.code c in Str.is_digit c || ((65 <=? n) && (n <=? 90))%nat.
Fixpoint keep_chars (p : ascii → bool) (s : string) : string :=
  match s with
  | EmptyString => EmptyString
  | String c r => if p c then String c (keep_chars p r) else keep_chars p r
  end.
Definition normalize_binding_code (value : string) : string := keep_chars code_char (upper value).

(** [hash_bot_gateway_binding_code] *)
Definition hash_bot_gateway_binding_code (secret value : string) : string :=
  hmac_hexdigest (utf8 secret) (utf8 (normalize_binding_code value)).

(** [_new_binding_code] of ten random picks *)
Definition binding_code_alphabet : string := "23456789ABCDEFGHJKLMNPQRSTUVWXYZ".
Definition new_binding_code (picks : list nat) : string :=
  let raw := foldr (λ n s, match String.get n binding_code_alphabet with Some c => String c s | None => s end)
               EmptyString picks in
  Str.take 5 raw +:+ "-" +:+ Str.drop 5 raw.

(** ** Applying a rebalance plan *)

(** [_rebalance_plan] *)
Definition scheduling_connection (c : bot_connection) : res connection :=
  sample ← load_sample_from_config (Some (config_of c));
  units ← calculate_load_units sample;
  Ok {| cn_id := co_id c; cn_channel := co_channel c; cn_shard_id := co_shard_id c;
        cn_enabled := co_enabled c; cn_status := co_status c; cn_load_units := units;
        cn_config := config_of c |}.

Definition rebalance_plan (account_capacity load_capacity now : Z) (connections : list bot_connection)
    : res plan :=
  scheduled ← mapR scheduling_connection connections;
  build_rebalance_plan account_capacity load_capacity now scheduled.

(** A [rebalance_apply] row of [BotGatewayControlOperation] *)
Record rebalance_operation := { ro_created_at : Z; ro_moves : nat }.

Definition REBALANCE_MIN_INTERVAL_SECONDS : Z := 2 * 60.
Definition REBALANCE_HOURLY_WINDOW_SECONDS : Z := 60 * 60.

(** The operations of the last hour, newest first *)
Definition recent_operations (now : Z) (log : list rebalance_operation) : list rebalance_operation :=
  py_sorted (λ a b, ro_created_at b <=? ro_created_at a)
    (List.filter (λ o, now - REBALANCE_HOURLY_WINDOW_SECONDS <=? ro_created_at o) log).

Definition active_shards (connections : list bot_connection) : nat :=
  length (remove_dups (omap (M:=list) (λ c,
    if co_enabled c && is_text (co_shard_id c) then co_shard_id c else None) connections)).

Definition hourly_budget (connections : list bot_connection) : nat :=
  Nat.max 1 ((active_shards connections + 9) / 10).

(** [apply_rebalance]; [requested] are the moves of the form, if it has any:
    the rows updated, and the operation that is logged. *)
Definition apply_rebalance (account_capacity load_capacity now : Z) (scheduler_mode : string)
    (requested : option (list (string * string))) (log : list rebalance_operation)
    : st gateway_db (list bot_connection * rebalance_operation) :=
  if negb (String.eqb scheduler_mode "auto")
  then raise (HTTPException 409 ("Bot scheduler is in " +:+ scheduler_mode +:+ " mode"))
  else
    d ← st_get;
    current ← st_lift (rebalance_plan account_capacity load_capacity now (gw_connections d));
    let allowed := map (λ m, (mv_connection_id m, mv_to_shard_id m)) (pl_moves current) in
    let requested := match requested with Some r => r | None => allowed end in
    if (1 <? length requested)%nat
    then raise (HTTPException 409 "Bot scheduler moves at most one connection per run")
    else
      (* the newest of at most a hundred operations *)
      let recent := firstn 100 (recent_operations now log) in
      if match recent with
         | o :: _ => now - REBALANCE_MIN_INTERVAL_SECONDS <? ro_created_at o
         | [] => false
         end
      then raise (HTTPException 429 "Bot scheduler move interval has not elapsed")
      else if negb (match requested with [] => true | _ => false end)
              && (hourly_budget (gw_connections d) <=? sum_list (ro_moves <$> recent))%nat
      then raise (HTTPException 429 "Bot scheduler hourly move budget is exhausted")
      else if negb (forallb (λ r, existsb (λ a, String.eqb r.1 a.1 && String.eqb r.2 a.2) allowed) requested)
      then raise (HTTPException 409 "Rebalance plan is stale")
      else
        updated ← apply_shard_assignments now (foldl (λ a r, dict_set r.1 r.2 a) [] requested);
        mret (updated, {| ro_created_at := now; ro_moves := length requested |}).
