(* ===== verification/BotGatewayRouterProps.v ===== *)
(** * Properties of [BotGatewayRouter]: signatures and replays, who is answered,
    replies, and rebalancing under fencing. *)

From S2P Require Import Prelude PyVal PyDecimal Scheduler Sha256 BotGateway BotGatewayEventsProps BotGatewayRouter.
From Stdlib Require Import Ascii.

Local Open Scope Z_scope.

(** ** Signatures *)

Lemma compare_digest_true a b : compare_digest a b = Ok true → a = b.
Proof. unfold compare_digest. destruct (_ && _); [|done]. intros [= H]. by apply String.eqb_eq. Qed.

Lemma hex_ascii bytes : is_ascii (hex bytes) = true.
Proof.
  unfold is_ascii. induction bytes as [|b l IH]; [done|]. cbn [hex Str.sforallb].
  assert (∀ n, (Str.code (hex_digit n) <? 128)%nat = true) as Hd; [|by rewrite !Hd, IH].
  intros n. unfold hex_digit. set (digits := ["0"%char; _; _; _; _; _; _; _; _; _; _; _; _; _; _; _]).
  assert (forallb (λ c, (Str.code c <? 128)%nat) digits = true) as H by reflexivity.
  rewrite forallb_forall in H.
  destruct (nth_in_or_default (Z.to_nat n) digits "0"%char) as [Hin| ->]; [by apply H|reflexivity].
Qed.

Lemma compare_digest_same a : is_ascii a = true → compare_digest a a = Ok true.
Proof. intros H. unfold compare_digest. by rewrite H, String.eqb_refl. Qed.

Lemma hmac_digest_text key m : Str.lower (hmac_hexdigest key m) = hmac_hexdigest key m ∧
  is_ascii (hmac_hexdigest key m) = true.
Proof. split; [apply hex_lower|apply hex_ascii]. Qed.

Lemma sha_digest_text body : Str.lower (sha256_hexdigest body) = sha256_hexdigest body ∧
  is_ascii (sha256_hexdigest body) = true ∧ Str.is_empty (sha256_hexdigest body) = false.
Proof. split_and!; [apply hex_lower|apply hex_ascii|reflexivity]. Qed.

#[local] Opaque hmac_hexdigest sha256_hexdigest.

Lemma versioned_text x : Str.lower x = x → is_ascii x = true →
  Str.lower (HMAC_VERSION +:+ "=" +:+ x) = HMAC_VERSION +:+ "=" +:+ x ∧
  is_ascii (HMAC_VERSION +:+ "=" +:+ x) = true.
Proof.
  intros Hl Ha. change (Str.lower (HMAC_VERSION +:+ "=" +:+ x)) with (HMAC_VERSION +:+ "=" +:+ Str.lower x).
  by rewrite Hl.
Qed.

Lemma signature_text secret method path ts nonce sha :
  Str.lower (request_signature secret method path ts nonce sha) = request_signature secret method path ts nonce sha ∧
  is_ascii (request_signature secret method path ts nonce sha) = true.
Proof. unfold request_signature. apply versioned_text; apply hmac_digest_text. Qed.

Lemma present_Some o s : present o = Some s → o = Some s.
Proof. unfold present. destruct o as [x|]; [|done]. destruct (Str.is_empty x); [done|]. congruence. Qed.

(** What a request must carry to be accepted *)
Definition signed (secret method path : string) (body : list Z) (h : signature_headers) (now : Z)
    (nonce : string) : Prop :=
  ∃ ts t sig, sh_timestamp h = Some ts ∧ int_of_string ts = Some t ∧ Z.abs (now - t) <= SIGNATURE_MAX_SKEW ∧
    sh_nonce h = Some nonce ∧ valid_nonce nonce = true ∧ sh_signature h = Some sig ∧
    Str.lower sig = request_signature secret method path ts nonce (sha256_hexdigest body).

Lemma verify_signed secret method path body h now v :
  verify_bot_gateway_signature secret method path body h now = Ok v →
  signed secret method path body h now v.1 ∧ v.2 = sha256_hexdigest body.
Proof.
  unfold verify_bot_gateway_signature. intros H.
  destruct (present (sh_timestamp h)) as [ts|] eqn:Ets; [|done].
  destruct (present (sh_nonce h)) as [nonce|] eqn:En; [|done].
  destruct (present (sh_content_sha256 h)) as [sha|] eqn:Esha; [|done].
  destruct (present (sh_signature h)) as [sig|] eqn:Esig; [|done].
  destruct (valid_nonce nonce) eqn:Hn; cbn [negb] in H; [|done].
  destruct (int_of_string ts) as [t|] eqn:Et; [|done].
  destruct (SIGNATURE_MAX_SKEW <? Z.abs (now - t)) eqn:Hskew; [done|]. apply Z.ltb_ge in Hskew.
  apply bind_Ok in H as (b & _ & H). destruct b; cbn [negb] in H; [|done].
  apply bind_Ok in H as (b & Hb & H). destruct b; cbn [negb] in H; [|done]. injection H as <-.
  apply compare_digest_true in Hb. split; [|done].
  exists ts, t, sig. split_and!; try done; by apply present_Some.
Qed.

Lemma verify_sign secret method path body ts t nonce now :
  int_of_string ts = Some t → Z.abs (now - t) <= SIGNATURE_MAX_SKEW → valid_nonce nonce = true →
  verify_bot_gateway_signature secret method path body
    (sign_bot_gateway_request secret method path body ts nonce) now = Ok (nonce, sha256_hexdigest body).
Proof.
  intros Ht Hskew Hn. unfold verify_bot_gateway_signature, sign_bot_gateway_request.
  cbn [sh_timestamp sh_nonce sh_content_sha256 sh_signature present].
  assert (Str.is_empty ts = false) as -> by (by destruct ts).
  assert (Str.is_empty nonce = false) as -> by (by destruct nonce).
  destruct (sha_digest_text body) as (Hlow & Hascii & ->).
  assert (Str.is_empty (request_signature secret method path ts nonce (sha256_hexdigest body)) = false) as ->
    by done.
  rewrite Hn, Ht. cbn [negb]. assert (SIGNATURE_MAX_SKEW <? Z.abs (now - t) = false) as -> by (by apply Z.ltb_ge).
  rewrite Hlow, compare_digest_same by done. cbn [mbind res_bind negb].
  destruct (signature_text secret method path ts nonce (sha256_hexdigest body)) as [-> Hsa].
  by rewrite compare_digest_same.
Qed.

(** ** Replays *)

(** Requests at the internal event route, in the order of time; other methods
    leave the nonces, the cleanup drops expired ones. *)
Inductive deliveries (secret : string) : Z → gateway_db → list (signature_headers * bool) → Prop :=
| dl_done t d : deliveries secret t d []
| dl_request t now method path body h d r d' l :
    t <= now → accept_request secret method path body h now d = (r, d') →
    deliveries secret now d' l → deliveries secret t d ((h, is_ok r) :: l)
| dl_cleanup t now retention force d n d' l :
    t <= now → cleanup_expired_records now retention force d = (Ok n, d') →
    deliveries secret now d' l → deliveries secret t d l
| dl_other t d d' l :
    gw_nonces d' = gw_nonces d → deliveries secret t d' l → deliveries secret t d l.

(** The nonce of a request accepted at [t0] is reserved. *)
Definition reserved (t0 : Z) (nonce : string) (t : Z) (d : gateway_db) : Prop :=
  t0 + NONCE_RETENTION_SECONDS <= t ∨
  ∃ r, r ∈ gw_nonces d ∧ no_nonce r = nonce ∧ t0 + NONCE_RETENTION_SECONDS <= no_expires_at r.

Lemma reserved_later t0 nonce t t' d : t <= t' → reserved t0 nonce t d → reserved t0 nonce t' d.
Proof. intros Ht [H|H]; [left; lia|by right]. Qed.

Lemma claim_reserves now nonce expires d d' :
  claim_request_nonce now nonce expires d = (Ok true, d') →
  (∀ r, r ∈ gw_nonces d → no_nonce r = nonce → no_expires_at r <= now) ∧
  ∃ r, r ∈ gw_nonces d' ∧ no_nonce r = nonce ∧ expires <= no_expires_at r.
Proof.
  unfold claim_request_nonce. destruct (existsb _ _) eqn:E; [done|]. intros [= <-]. split.
  - intros r Hr Hn. rewrite existsb_False in E. destruct (Z.leb_spec (no_expires_at r) now) as [|Hlt]; [done|].
    exfalso. assert (r ∈ delete_where (λ r, String.eqb (no_nonce r) nonce && (no_expires_at r <=? now))
      (gw_nonces d)) as Hin.
    { apply filter_elem. split; [done|]. destruct (Z.leb_spec (no_expires_at r) now); [lia|].
      by rewrite andb_false_r. }
    specialize (E r Hin). cbn in E. rewrite Hn, String.eqb_refl in E. done.
  - eexists. split; [cbn; apply elem_of_app; right; by left|]. cbn. split; [done|lia].
Qed.

Lemma claim_keeps t0 nonce now n expires r d d' t : t <= now →
  claim_request_nonce now n expires d = (r, d') → reserved t0 nonce t d → reserved t0 nonce now d'.
Proof.
  intros Ht H [Hr|(x & Hx & Hn & He)]; [left; lia|]. unfold claim_request_nonce in H.
  destruct (existsb _ _); injection H as _ <-; [right; by exists x|]. cbn.
  destruct (String.eqb (no_nonce x) n && (no_expires_at x <=? now)) eqn:E.
  - left. apply andb_true_iff in E as [_ E]. apply Z.leb_le in E. lia.
  - right. exists x. split; [|done]. apply elem_of_app. left. apply filter_elem. by rewrite E.
Qed.

Lemma cleanup_keeps t0 nonce t now retention force n d d' : t <= now →
  cleanup_expired_records now retention force d = (Ok n, d') → reserved t0 nonce t d → reserved t0 nonce now d'.
Proof.
  intros Ht H [Hr|(x & Hx & Hn & He)]; [left; lia|]. unfold cleanup_expired_records in H.
  destruct (_ && _); injection H as _ <-; [right; by exists x|]. cbn.
  destruct (no_expires_at x <=? now) eqn:E.
  - left. apply Z.leb_le in E. lia.
  - right. exists x. split; [|done]. apply filter_elem. by rewrite E.
Qed.

Lemma accept_spec secret method path body h now d r d' :
  accept_request secret method path body h now d = (r, d') →
  (d' = d ∧ is_ok r = false) ∨
  ∃ n, claim_request_nonce now n (now + NONCE_RETENTION_SECONDS) d = (Ok (is_ok r), d') ∧
    signed secret method path body h now n.
Proof.
  unfold accept_request. rewrite st_bind_eq. unfold st_lift.
  destruct (verify_bot_gateway_signature _ _ _ _ _ _) as [v|e] eqn:Hv; [|intros [= <- <-]; by left].
  apply verify_signed in Hv as [Hs _]. rewrite st_bind_eq.
  destruct (claim_request_nonce now v.1 _ d) as [[[]|e] d1] eqn:Hc; intros [= <- <-].
  - right. by exists v.1.
  - right. by exists v.1.
  - unfold claim_request_nonce in Hc. by destruct (existsb _ _).
Qed.

(** No request with the timestamp and nonce of an accepted one is accepted. *)
Lemma reserved_refuses secret t d l t0 ts nonce h :
  deliveries secret t d l → (∃ x, int_of_string ts = Some x ∧ Z.abs (t0 - x) <= SIGNATURE_MAX_SKEW) →
  reserved t0 nonce t d → (h, true) ∈ l → sh_timestamp h = Some ts → sh_nonce h = Some nonce → False.
Proof.
  intros H [x [Hx Hskew]] Hr Hin Hts Hn.
  induction H as [t d|t now method path body h' d r d' l Ht Ha H IH|t now retention force d n d' l Ht Hc H IH
    |t d d' l Hsame H IH]; [by apply elem_of_nil in Hin| | |].
  - apply accept_spec in Ha as [[-> Hko]|(n & Hclaim & Hsig)].
    + apply elem_of_cons in Hin as [E|Hin]; [injection E as -> E; congruence|].
      apply IH; [by eapply reserved_later|done].
    + apply elem_of_cons in Hin as [E|Hin].
      * injection E as <- E. rewrite <-E in Hclaim. apply claim_reserves in Hclaim as [Hold _].
        destruct Hsig as (ts' & t' & sig & Hts' & Ht' & Hskew' & Hn' & _).
        assert (ts' = ts) as -> by congruence. assert (n = nonce) as -> by congruence.
        assert (t' = x) as -> by congruence.
        destruct Hr as [Hr|(y & Hy & Hyn & Hye)]; [|specialize (Hold y Hy Hyn)];
          unfold NONCE_RETENTION_SECONDS, SIGNATURE_MAX_SKEW in *; lia.
      * apply IH; [|done]. by eapply claim_keeps.
  - apply IH; [by eapply cleanup_keeps|done].
  - apply IH; [|done]. destruct Hr as [Hr|Hr]; [by left|right]. by rewrite Hsame.
Qed.

(** C7: a signed request to the event route is accepted at most once: whatever
    requests and cleanups come in between, no second request with the same
    timestamp and nonce is accepted, because the nonce stays reserved for as long
    as the timestamp could still be valid.  A request signed with the secret is
    accepted the first time, within the allowed skew, and one that is accepted
    carries the HMAC of its method, path, timestamp, nonce and body. *)
Theorem signed_request_accepted_once secret :
  (∀ t d l i j h h', deliveries secret t d l → (i < j)%nat → l !! i = Some (h, true) → l !! j = Some (h', true) →
     sh_nonce h = sh_nonce h' → sh_timestamp h ≠ sh_timestamp h') ∧
  (∀ method path body ts t nonce now d,
     int_of_string ts = Some t → Z.abs (now - t) <= SIGNATURE_MAX_SKEW → valid_nonce nonce = true →
     (∀ r, r ∈ gw_nonces d → no_nonce r ≠ nonce) →
     (accept_request secret method path body (sign_bot_gateway_request secret method path body ts nonce) now d).1
       = Ok nonce) ∧
  (∀ method path body h now n d d',
     accept_request secret method path body h now d = (Ok n, d') → signed secret method path body h now n).
Proof.
  split; [|split].
  - intros t d l i j h h' H. revert i j. induction H as [t d|t now method path body h0 d r d' l Ht Ha H IH
      |t now retention force d n d' l Ht Hc H IH|t d d' l Hsame H IH]; intros i j Hij Hi Hj Hn Hts; [done| |by apply (IH i j)|by apply (IH i j)].
    destruct i as [|i].
    + injection Hi as -> Hok. destruct j as [|j]; [lia|]. cbn in Hj.
      apply accept_spec in Ha as [[_ Hko]|(n & Hclaim & Hsig)]; [congruence|].
      rewrite Hok in Hclaim. apply claim_reserves in Hclaim as [_ (r0 & Hr0 & Hrn & Hre)].
      destruct Hsig as (ts & x & sig & Hts0 & Hx & Hskew & Hn0 & _).
      apply (reserved_refuses secret now d' l now ts n h' H).
      * by exists x.
      * right. by exists r0.
      * by eapply list_elem_of_lookup_2.
      * congruence.
      * congruence.
    + destruct j as [|j]; [lia|]. cbn in Hi, Hj. by apply (IH i j); [lia|..].
  - intros method path body ts t nonce now d Ht Hskew Hv Hfresh. unfold accept_request. rewrite st_bind_eq.
    unfold st_lift. rewrite (verify_sign _ _ _ _ _ t) by done. rewrite st_bind_eq. cbn [fst].
    unfold claim_request_nonce. destruct (existsb _ _) eqn:E; [|done].
    apply existsb_True in E as (r & Hr & E). apply String.eqb_eq in E. apply filter_elem in Hr as [Hr _].
    by destruct (Hfresh r Hr).
  - intros method path body h now n d d' H. unfold accept_request in H. rewrite st_bind_eq in H. unfold st_lift in H.
    destruct (verify_bot_gateway_signature _ _ _ _ _ _) as [v|e] eqn:Hv; [|done].
    apply verify_signed in Hv as [Hs _]. rewrite st_bind_eq in H.
    destruct (claim_request_nonce now v.1 _ d) as [[[]|e] d1] eqn:Hc; [|done|done]. injection H as <- _. done.
Qed.

Definition example_secret : string := "0123456789abcdef0123456789abcdef".
Definition example_headers : signature_headers :=
  sign_bot_gateway_request example_secret "post" "/events" [] "1000" "nonce-0123456789".

Lemma signed_request_accepted_once_witness :
  (accept_request example_secret "post" "/events" [] example_headers 1100 no_rows).1 = Ok "nonce-0123456789" ∧
  ∀ t d l i j, deliveries example_secret t d l → (i < j)%nat → l !! i = Some (example_headers, true) →
    l !! j ≠ Some (example_headers, true).
Proof.
  destruct (signed_request_accepted_once example_secret) as (H1 & H2 & _). split.
  - apply (H2 "post" "/events" [] "1000" 1000 "nonce-0123456789" 1100 no_rows);
      [reflexivity|unfold SIGNATURE_MAX_SKEW; lia|reflexivity|].
    intros r Hr. by apply elem_of_nil in Hr.
  - intros t d l i j Hd Hij Hi Hj.
    by apply (H1 t d l i j example_headers example_headers Hd Hij Hi Hj).
Defined.

(** ** Who is answered *)

Lemma get_enabled_binding_Some conn ext d b : get_enabled_binding conn ext d = Some b →
  b ∈ gw_bindings d ∧ bi_connection_id b = conn ∧ bi_external_user_id b = ext ∧ bi_enabled b = true ∧
  bi_blocked b = false.
Proof.
  intros [Hin H]%find_first_Some. unfold same_identity in H.
  rewrite !andb_true_iff, !String.eqb_eq, negb_true_iff in H. tauto.
Qed.
