(* ===== verification/BotGatewayBindingsProps.v ===== *)
(** * Properties of [BotGateway]: bound identities and their conversations, binding
    codes, credentials, and who an inbound event may act for. *)

From S2P Require Import Prelude PyVal Scheduler BotGateway BotGatewayEventsProps BotGatewayRouter BotGatewayRouterProps.

(** ** The invariant of bindings and conversations *)

Definition identity (b : binding) : string * string := (bi_connection_id b, bi_external_user_id b).

(** The binding a conversation belongs to *)
Definition owns (b : binding) (c : conversation) : Prop :=
  bi_id b = cv_binding_id c ∧ bi_user_id b = cv_user_id c ∧ bi_connection_id b = cv_connection_id c ∧
  bi_enabled b = true.

Record pair_ok (bs : list binding) (cs : list conversation) : Prop := {
  po_ids : NoDup (map bi_id bs);
  po_identities : NoDup (map identity bs);
  po_blocked b : b ∈ bs → bi_blocked b = true → bi_enabled b = false;
  po_owner c : c ∈ cs → ∃ b, b ∈ bs ∧ owns b c;
}.

Definition bindings_ok (d : gateway_db) : Prop := pair_ok (gw_bindings d) (gw_conversations d).

Lemma update_elem {R} (p : R → bool) f l r : r ∈ l → (if p r then f r else r) ∈ update_where p f l.
Proof. intros H. unfold update_where. by apply (list_elem_of_fmap_2 (λ r, if p r then f r else r)). Qed.

Lemma update_elem_inv {R} (p : R → bool) f l r : r ∈ update_where p f l →
  ∃ x, x ∈ l ∧ r = if p x then f x else x.
Proof. intros (x & -> & Hx)%list_elem_of_fmap. eauto. Qed.

(** An update of bindings; those with conversations keep their user and stay enabled. *)
Lemma pair_update p f bs cs : (∀ b, bi_id (f b) = bi_id b) → (∀ b, identity (f b) = identity b) →
  (∀ b, b ∈ bs → p b = true → bi_blocked (f b) = true → bi_enabled (f b) = false) →
  (∀ b c, b ∈ bs → p b = true → c ∈ cs → owns b c →
     bi_user_id (f b) = bi_user_id b ∧ bi_enabled (f b) = bi_enabled b) →
  pair_ok bs cs → pair_ok (update_where p f bs) cs.
Proof.
  intros Hid Hidy Hblk Hown [Hi Hy Hb Ho]. split.
  - by rewrite map_update.
  - by rewrite map_update.
  - intros b (x & Hx & ->)%update_elem_inv. destruct (p x) eqn:E; [by apply Hblk|by apply Hb].
  - intros c Hc. destruct (Ho c Hc) as (b & Hbin & Howns). exists (if p b then f b else b).
    split; [by apply update_elem|]. destruct (p b) eqn:E; [|done].
    destruct (Hown b c Hbin E Hc Howns) as [Hu He]. destruct Howns as (H1 & H2 & H3 & H4).
    specialize (Hidy b). unfold identity in Hidy. injection Hidy as Hconn _.
    unfold owns. rewrite Hid, Hu, He, Hconn. done.
Qed.

Lemma pair_fewer_conversations q bs cs : pair_ok bs cs → pair_ok bs (delete_where q cs).
Proof. intros [Hi Hy Hb Ho]. split; try done. intros c [Hc _]%filter_elem. by apply Ho. Qed.

(** An update of one binding whose conversations go *)
Lemma pair_reset id p f bs cs : (∀ b, bi_id (f b) = bi_id b) → (∀ b, identity (f b) = identity b) →
  (∀ b, p b = true → bi_id b = id) →
  (∀ b, b ∈ bs → p b = true → bi_blocked (f b) = true → bi_enabled (f b) = false) →
  pair_ok bs cs → pair_ok (update_where p f bs) (delete_where (with_id cv_binding_id id) cs).
Proof.
  intros Hid Hidy Hp Hblk Hok. apply pair_update; try done; [|by apply pair_fewer_conversations].
  intros b c Hb Hpb [_ Hc]%filter_elem (Hbc & _). exfalso.
  unfold with_id in Hc. rewrite <-Hbc, (Hp b Hpb), String.eqb_refl in Hc. done.
Qed.

Lemma pair_new_binding b bs cs : bi_blocked b = false →
  existsb (λ r, same_identity (bi_connection_id b) (bi_external_user_id b) r || String.eqb (bi_id r) (bi_id b)) bs = false →
  pair_ok bs cs → pair_ok (bs ++ [b]) cs.
Proof.
  intros Hblk Hnew [Hi Hy Hb Ho]. rewrite existsb_False in Hnew. split.
  - rewrite map_app. apply NoDup_app. split; [done|]. split; [|apply NoDup_singleton].
    intros x Hx ->%list_elem_of_singleton. apply list_elem_of_fmap in Hx as (y & Hy' & Hin).
    specialize (Hnew y Hin). apply orb_false_iff in Hnew as [_ H]. by rewrite Hy', String.eqb_refl in H.
  - rewrite map_app. apply NoDup_app. split; [done|]. split; [|apply NoDup_singleton].
    intros x Hx ->%list_elem_of_singleton. apply list_elem_of_fmap in Hx as (y & Hy' & Hin).
    specialize (Hnew y Hin). apply orb_false_iff in Hnew as [H _]. unfold same_identity in H.
    unfold identity in Hy'. injection Hy' as H1 H2. by rewrite H1, H2, !String.eqb_refl in H.
  - intros x [Hx| ->%list_elem_of_singleton]%elem_of_app; [by apply Hb|congruence].
  - intros c Hc. destruct (Ho c Hc) as (x & Hx & ?). exists x. split; [|done]. apply elem_of_app. by left.
Qed.

Lemma pair_new_conversation b c bs cs : b ∈ bs → owns b c → pair_ok bs cs → pair_ok bs (cs ++ [c]).
Proof.
  intros Hb Hc [Hi Hy Hbl Ho]. split; try done.
  intros x [Hx| ->%list_elem_of_singleton]%elem_of_app; [by apply Ho|by exists b].
Qed.

Lemma get_binding_id id d b : get_binding id d = Some b → bi_id b = id ∧ b ∈ gw_bindings d.
Proof. intros [Hb Hid]%find_first_Some. split; [by apply String.eqb_eq in Hid|done]. Qed.

(** ** The operations *)

Lemma set_codes_ok l d : bindings_ok d → bindings_ok (set_codes l d). Proof. done. Qed.

Lemma insert_binding_ok b d r d' : bi_blocked b = false → bindings_ok d →
  insert_binding b d = (r, d') → bindings_ok d'.
Proof.
  intros Hb Hd H. unfold insert_binding in H. destruct (existsb _ _) eqn:E; injection H as _ <-; [done|].
  by apply pair_new_binding.
Qed.

Lemma bind_identity_ok uuid now conn ext user name known d id d' :
  bindings_ok d → bind_identity uuid now conn ext user name known d = (Ok id, d') → bindings_ok d'.
Proof.
  intros Hd H. unfold bind_identity in H. destruct known as [b|].
  - rewrite st_bind_eq in H. unfold update_bindings in H.
    set (p := λ r, with_id bi_id (bi_id b) r && negb (bi_blocked r)) in H.
    destruct (negb _); [done|]. rewrite st_bind_eq in H. injection H as _ <-.
    unfold bindings_ok. cbn. apply pair_reset; try done.
    + intros r [Hr _]%andb_true_iff. by apply String.eqb_eq in Hr.
    + intros r _ [_ Hr%negb_true_iff]%andb_true_iff. cbn. congruence.
  - rewrite st_bind_eq in H. destruct (insert_binding _ d) as [[u|e] d1] eqn:E; [|done]. injection H as _ <-.
    eapply insert_binding_ok; [|done|exact E]. done.
Qed.

Lemma bind_with_code_ok role uuid now conn channel ext name code d r d' :
  bindings_ok d → bind_with_code role uuid now conn channel ext name code d = (r, d') → bindings_ok d'.
Proof.
  intros Hd H. unfold bind_with_code, transaction in H.
  destruct ((d0 ← st_get; _) d) as [[x|e] d1] eqn:E in H; injection H as _ <-; [|done].
  rewrite st_bind_eq in E. cbn [st_get] in E.
  destruct (find_first _ (gw_codes d)) as [c|]; [|done].
  destruct (_ || _); [done|]. destruct (_ && _); [done|]. destruct (negb _); [done|].
  destruct (match find_first _ (gw_bindings d) with Some b => bi_blocked b | None => false end); [done|].
  destruct (match find_first _ (gw_bindings d) with Some b => _ | None => false end); [done|].
  rewrite st_bind_eq in E. destruct (bind_identity _ _ _ _ _ _ _ d) as [[id|e] d2] eqn:Eb; [|done].
  rewrite st_bind_eq in E. destruct (negb _); [done|]. rewrite st_bind_eq in E. cbn [st_get] in E.
  destruct (get_binding id _); [|done]. injection E as _ <-.
  apply set_codes_ok. by eapply bind_identity_ok.
Qed.

Lemma pair_touch p f d : (∀ b, bi_id (f b) = bi_id b) → (∀ b, identity (f b) = identity b) →
  (∀ b, bi_user_id (f b) = bi_user_id b ∧ bi_enabled (f b) = bi_enabled b ∧ bi_blocked (f b) = bi_blocked b) →
  bindings_ok d → bindings_ok (set_bindings (update_where p f (gw_bindings d)) d).
Proof.
  intros Hi Hy Hf Hd. apply pair_update; try done.
  - intros b Hb _. destruct (Hf b) as (_ & -> & ->). by apply (po_blocked _ _ Hd).
  - intros b c _ _ _ _. by destruct (Hf b) as (-> & -> & _).
Qed.

Lemma ensure_owner_binding_ok repr uuid huuid now conn ext name d r d' :
  bindings_ok d → ensure_owner_binding repr uuid huuid now conn ext name d = (r, d') → bindings_ok d'.
Proof.
  intros Hd H. unfold ensure_owner_binding, transaction in H.
  destruct ((d0 ← st_get; _) d) as [[x|e] d1] eqn:E in H; injection H as _ <-; [|done].
  rewrite st_bind_eq in E. cbn [st_get] in E.
  destruct (find_first _ (gw_connections d)) as [c|]; [|by injection E as _ <-].
  destruct (co_owner_user_id c) as [owner|]; [|by injection E as _ <-].
  destruct (Str.is_empty owner); [by injection E as _ <-|]. rewrite st_bind_eq in E. unfold st_lift in E.
  destruct (trusted_external_user_id repr c) as [t|]; [|done].
  destruct (_ || _); [by injection E as _ <-|].
  destruct (find_first (same_identity conn ext) (gw_bindings d)) as [b|].
  - destruct (_ || _); [by injection E as _ <-|]. rewrite st_bind_eq in E. unfold update_bindings in E.
    rewrite st_bind_eq in E. injection E as _ <-. by apply pair_touch.
  - destruct (existsb _ _); [by injection E as _ <-|]. rewrite st_bind_eq in E.
    destruct (insert_binding _ d) as [[u|e] d2] eqn:Ei; [|done]. rewrite st_bind_eq in E. injection E as _ <-.
    unfold bindings_ok. cbn. change (bindings_ok d2). eapply insert_binding_ok; [|done|exact Ei]. done.
Qed.

Lemma request_unbind_ok now id user d r d' : bindings_ok d → request_unbind now id user d = (r, d') → bindings_ok d'.
Proof.
  intros Hd H. unfold request_unbind in H. destruct (get_binding id d) as [b|]; [|by injection H as _ <-].
  destruct (_ || _); injection H as _ <-; [done|]. by apply pair_touch.
Qed.

Lemma touch_binding_ok now id name d r d' : bindings_ok d → touch_binding now id name d = (r, d') → bindings_ok d'.
Proof. intros Hd H. unfold touch_binding in H. rewrite st_bind_eq in H. injection H as _ <-. by apply pair_touch. Qed.

Lemma block_binding_ok now id by_user d r d' : bindings_ok d → block_binding now id by_user d = (r, d') → bindings_ok d'.
Proof.
  intros Hd H. unfold block_binding in H. destruct (negb _); injection H as _ <-; [done|].
  unfold bindings_ok. cbn. apply pair_reset; try done. intros b Hb. by apply String.eqb_eq in Hb.
Qed.

Lemma unbind_ok now id user confirm d r d' : bindings_ok d → unbind now id user confirm d = (r, d') → bindings_ok d'.
Proof.
  intros Hd H. unfold unbind in H. destruct (get_binding id d) as [b|]; [|by injection H as _ <-].
  destruct (match user with Some u => _ | None => false end); [by injection H as _ <-|].
  destruct (_ && _); injection H as _ <-; [done|].
  unfold bindings_ok. cbn. apply pair_reset; try done. intros x Hx. by apply String.eqb_eq in Hx.
Qed.

(** A blocked binding is disabled, so it owns no conversation. *)
Lemma unblock_binding_ok now id d r d' : bindings_ok d → unblock_binding now id d = (r, d') → bindings_ok d'.
Proof.
  intros Hd H. unfold unblock_binding in H. rewrite st_bind_eq in H. injection H as _ <-.
  unfold bindings_ok. cbn. apply pair_update; try done.
  intros b c Hb [_ Hbl]%andb_true_iff _ (_ & _ & _ & He). by rewrite (po_blocked _ _ Hd b Hb Hbl) in He.
Qed.

Lemma get_or_create_ok uuid now conn ext b ctype cid sid d r d' : bindings_ok d →
  get_enabled_binding conn ext d = Some b →
  get_or_create_conversation uuid now b ctype cid sid d = (r, d') → bindings_ok d'.
Proof.
  intros Hd Hb H. unfold get_or_create_conversation in H.
  destruct (build_bot_gateway_session_key ctype cid sid) as [[key ncid] nsid].
  destruct (find_first _ _) as [c|]; [by injection H as _ <-|].
  destruct (existsb _ _); injection H as _ <-; [done|].
  apply find_first_Some in Hb as [Hin [[_ He]%andb_true_iff _]%andb_true_iff].
  unfold bindings_ok. cbn. by apply (pair_new_conversation b).
Qed.

Lemma pair_update_conversations p f bs cs : (∀ c, cv_binding_id (f c) = cv_binding_id c ∧
    cv_user_id (f c) = cv_user_id c ∧ cv_connection_id (f c) = cv_connection_id c) →
  pair_ok bs cs → pair_ok bs (update_where p f cs).
Proof.
  intros Hf [Hi Hy Hb Ho]. split; try done. intros c (x & Hx & ->)%update_elem_inv.
  destruct (Ho x Hx) as (b & Hin & Hown). exists b. split; [done|].
  destruct (p x); [|done]. destruct (Hf x) as (H1 & H2 & H3). unfold owns. by rewrite H1, H2, H3.
Qed.

Lemma conversation_values_keep vs c : let c' := foldl set_conversation_value c vs in
  cv_binding_id c' = cv_binding_id c ∧ cv_user_id c' = cv_user_id c ∧ cv_connection_id c' = cv_connection_id c.
Proof. revert c. induction vs as [|v vs IH]; intros c; [done|]. apply (IH (set_conversation_value c v)). Qed.

Lemma update_conversation_ok now id vs d r d' : bindings_ok d →
  update_conversation now id vs d = (r, d') → bindings_ok d'.
Proof.
  intros Hd H. unfold update_conversation in H. destruct (find_first _ _) as [c0|]; injection H as _ <-; [|done].
  unfold bindings_ok. cbn. apply pair_update_conversations; [|done]. intros c. apply conversation_values_keep.
Qed.

(** The bindings and the conversations of a connection go together. *)
Lemma pair_delete_connection conn bs cs : pair_ok bs cs →
  pair_ok (delete_where (with_id bi_connection_id conn) bs) (delete_where (with_id cv_connection_id conn) cs).
Proof.
  intros [Hi Hy Hb Ho]. split; [by apply delete_keys..| |].
  - intros b [Hin _]%filter_elem. by apply Hb.
  - intros c [Hc Hn]%filter_elem. destruct (Ho c Hc) as (b & Hin & Hown). exists b. split; [|done].
    apply filter_elem. split; [done|]. destruct Hown as (_ & _ & He & _). unfold with_id in *. by rewrite He.
Qed.

Lemma delete_owned_connection_ok conn owner d r d' : bindings_ok d →
  delete_owned_connection conn owner d = (r, d') → bindings_ok d'.
Proof.
  intros Hd H. unfold delete_owned_connection in H. destruct (negb _); [by injection H as _ <-|].
  cbv zeta in H. destruct (negb (count_where _ _ =? 1)%nat); injection H as _ <-; [done|].
  by apply pair_delete_connection.
Qed.

(** ** Runs of the gateway

    The operations, each of which commits once; other workers and routes may run
    in between. *)

(** The operations of the other tables leave bindings and conversations. *)
Definition keeps_bindings {A} (m : st gateway_db A) : Prop :=
  ∀ bs cs, preserves (λ d, gw_bindings d = bs ∧ gw_conversations d = cs) m.

Lemma keeps_bindings_ok {A} (m : st gateway_db A) : keeps_bindings m → preserves bindings_ok m.
Proof. intros H d Hd. destruct (H _ _ d (conj eq_refl eq_refl)) as [Hb Hc]. unfold bindings_ok. by rewrite Hb, Hc. Qed.

(** Solves [keeps_bindings] of an operation by cases of its body. *)
Ltac keeps :=
  intros bs cs d Hd; try st_run;
  repeat (case_match; subst; try done; cbn in *).

Section Other.
Context (now : Z) (id conn : string).

Lemma claim_request_nonce_keeps n e : keeps_bindings (claim_request_nonce now n e).
Proof. unfold claim_request_nonce. keeps. Qed.
Lemma cleanup_keeps_bindings r f : keeps_bindings (cleanup_expired_records now r f).
Proof. unfold cleanup_expired_records. keeps. Qed.
Lemma update_held_keeps n f : keeps_bindings (update_held id n f).
Proof. by intros bs cs d Hd. Qed.
Lemma find_event_keeps p : keeps_bindings (find_event p).
Proof. unfold find_event. keeps. Qed.
Lemma claim_event_keeps uuid eid hash n t c s l : keeps_bindings (claim_event uuid now conn eid hash n t c s l).
Proof.
  intros bs cs. unfold claim_event. apply preserves_catch.
  - apply preserves_bind; [|eauto with preserves]. unfold insert_event. intros d Hd. by destruct (existsb _ _).
  - intros x. apply preserves_bind; [apply find_event_keeps|]. intros e.
    destruct (negb _); [eauto with preserves|]. destruct (bool_decide _); [eauto with preserves|].
    apply preserves_bind; [by intros d Hd|]. intros b. apply preserves_bind; [apply find_event_keeps|eauto with preserves].
Qed.
Lemma create_binding_code_keeps uuid u h ch e : keeps_bindings (create_binding_code uuid now u h ch e).
Proof. unfold create_binding_code. keeps. Qed.
Lemma upsert_group_keeps uuid g n m a u : keeps_bindings (upsert_group uuid now conn g n m a u).
Proof. unfold upsert_group. keeps. Qed.
Lemma commit_credentials_keeps l : keeps_bindings (commit_credentials l).
Proof. unfold commit_credentials. keeps. Qed.
Lemma update_credential_keeps p ch dg en : keeps_bindings (update_credential p ch dg en now).
Proof. unfold update_credential, commit_credentials. keeps. Qed.
Lemma save_credential_keeps uuid ch dg en : keeps_bindings (save_credential uuid now conn ch dg en).
Proof.
  intros bs cs. unfold save_credential. apply preserves_catch.
  - apply preserves_bind; [eauto with preserves|]. intros d. destruct (find_first _ _);
      [apply update_credential_keeps|apply commit_credentials_keeps].
  - intros e d Hd. unfold resolve_digest_conflict.
    destruct (find_first _ _); [destruct (String.eqb _ _); [by apply update_credential_keeps|done]|].
    destruct (find_first _ _); [by apply update_credential_keeps|done].
Qed.
Lemma delete_credential_keeps : keeps_bindings (delete_credential conn).
Proof. by intros bs cs d Hd. Qed.
Lemma save_checkpoint_keeps p h : keeps_bindings (save_checkpoint now conn p h).
Proof. by intros bs cs d Hd. Qed.
Lemma ensure_user_connection_keeps u ch en : keeps_bindings (ensure_user_connection now u ch en).
Proof. unfold ensure_user_connection. keeps. Qed.
Lemma update_connection_keeps vs t : keeps_bindings (update_connection now conn vs t).
Proof. unfold update_connection. keeps. Qed.
Lemma clear_connection_credentials_keeps : keeps_bindings (clear_connection_credentials now conn).
Proof. unfold clear_connection_credentials. keeps. Qed.
Lemma set_connection_runtime_keeps s k g n t : keeps_bindings (set_connection_runtime now conn s k g n t).
Proof. by intros bs cs d Hd. Qed.
Lemma apply_shard_assignments_keeps l : keeps_bindings (apply_shard_assignments now l).
Proof. by intros bs cs d Hd. Qed.
Lemma update_metrics_keeps n m c : keeps_bindings (update_connection_runtime_metrics now n m c).
Proof. unfold update_connection_runtime_metrics. intros bs cs d Hd. by repeat case_match. Qed.
End Other.

Section Gateway.
Context (role : string → option string) (repr_other : pyval → string).

(** The conversation of an inbound event: the binding is the one the sender has. *)
Definition open_conversation (uuid : string) (now : Z) (conn ext ctype cid : string) : st gateway_db conversation :=
  d ← st_get;
  match get_enabled_binding conn ext d with
  | Some b => get_or_create_conversation uuid now b ctype cid ext
  | None => raise (ValueError "binding")
  end.

Inductive gateway_op : ∀ {A}, st gateway_db A → Prop :=
| op_bind uuid now conn ch ext name code : gateway_op (bind_with_code role uuid now conn ch ext name code)
| op_route uuid guuid huuid now c e : gateway_op (route_event repr_other uuid guuid huuid now c e)
| op_converse uuid now conn ext ctype cid : gateway_op (open_conversation uuid now conn ext ctype cid)
| op_update_conversation now id vs : gateway_op (update_conversation now id vs)
| op_request_unbind now id u : gateway_op (request_unbind now id u)
| op_unbind now id u cf : gateway_op (unbind now id u cf)
| op_block now id u : gateway_op (block_binding now id u)
| op_unblock now id : gateway_op (unblock_binding now id)
| op_touch now id name : gateway_op (touch_binding now id name)
| op_delete conn owner : gateway_op (delete_owned_connection conn owner)
| op_nonce now n e : gateway_op (claim_request_nonce now n e)
| op_cleanup now r f : gateway_op (cleanup_expired_records now r f)
| op_claim uuid now conn eid hash n t c s l : gateway_op (claim_event uuid now conn eid hash n t c s l)
| op_renew now id n : gateway_op (renew_event_lease now id n)
| op_target now id n b c ch a : gateway_op (set_event_target now id n b c ch a)
| op_complete now id n r : gateway_op (complete_event now id n r)
| op_fail now id n e : gateway_op (fail_event now id n e)
| op_code uuid now u h ch e : gateway_op (create_binding_code uuid now u h ch e)
| op_group uuid now conn g n m a u : gateway_op (upsert_group uuid now conn g n m a u)
| op_save_credential uuid now conn ch dg en : gateway_op (save_credential uuid now conn ch dg en)
| op_delete_credential conn : gateway_op (delete_credential conn)
| op_checkpoint now conn p h : gateway_op (save_checkpoint now conn p h)
| op_ensure now u ch en : gateway_op (ensure_user_connection now u ch en)
| op_update_connection now conn vs t : gateway_op (update_connection now conn vs t)
| op_clear now conn : gateway_op (clear_connection_credentials now conn)
| op_runtime now conn s k g n t : gateway_op (set_connection_runtime now conn s k g n t)
| op_assign now l : gateway_op (apply_shard_assignments now l)
| op_metrics now n m c : gateway_op (update_connection_runtime_metrics now n m c).

(** An operation that answers or fails *)
Inductive gateway_step (d d' : gateway_db) : Prop :=
| step_of {A} (m : st gateway_db A) (r : res A) : gateway_op m → m d = (r, d') → gateway_step d d'.

Lemma ok_preserves {A} (m : st gateway_db A) :
  (∀ d r d', bindings_ok d → m d = (r, d') → bindings_ok d') → preserves bindings_ok m.
Proof. intros H d Hd. destruct (m d) as [r d'] eqn:E. by eapply H. Qed.

Lemma route_event_ok uuid guuid huuid now c e :
  preserves bindings_ok (route_event repr_other uuid guuid huuid now c e).
Proof.
  unfold route_event. destruct (negb (co_enabled c)); [eauto with preserves|]. cbv zeta.
  apply preserves_bind.
  { case_match; [|eauto with preserves]. apply preserves_bind; [|eauto with preserves].
    apply keeps_bindings_ok, upsert_group_keeps. }
  intros listens. case_match; [eauto with preserves|]. apply preserves_bind.
  { case_match; eauto with preserves. }
  intros trusted. case_match; [eauto with preserves|]. apply preserves_bind; [eauto with preserves|]. intros d.
  apply preserves_bind.
  { case_match; [eauto with preserves|]. case_match; [|eauto with preserves].
    apply ok_preserves. intros ??? ?. by apply ensure_owner_binding_ok. }
  intros b. case_match; eauto with preserves.
Qed.

Lemma op_ok {A} (m : st gateway_db A) : gateway_op m → preserves bindings_ok m.
Proof.
  intros []; try (apply keeps_bindings_ok, update_held_keeps).
  - apply ok_preserves. intros ??? ?. by apply bind_with_code_ok.
  - apply route_event_ok.
  - intros d Hd. unfold open_conversation. rewrite st_bind_eq. cbn [st_get].
    destruct (get_enabled_binding conn ext d) as [b|] eqn:E; [|done].
    destruct (get_or_create_conversation _ _ _ _ _ _ d) as [r d'] eqn:Ec. by eapply get_or_create_ok.
  - apply ok_preserves. intros ??? ?. by apply update_conversation_ok.
  - apply ok_preserves. intros ??? ?. by apply request_unbind_ok.
  - apply ok_preserves. intros ??? ?. by apply unbind_ok.
  - apply ok_preserves. intros ??? ?. by apply block_binding_ok.
  - apply ok_preserves. intros ??? ?. by apply unblock_binding_ok.
  - apply ok_preserves. intros ??? ?. by apply touch_binding_ok.
  - apply ok_preserves. intros ??? ?. by apply delete_owned_connection_ok.
  - apply keeps_bindings_ok, claim_request_nonce_keeps.
  - apply keeps_bindings_ok, cleanup_keeps_bindings.
  - apply keeps_bindings_ok, claim_event_keeps.
  - apply keeps_bindings_ok, create_binding_code_keeps.
  - apply keeps_bindings_ok, upsert_group_keeps.
  - apply keeps_bindings_ok, save_credential_keeps.
  - apply keeps_bindings_ok, delete_credential_keeps.
  - apply keeps_bindings_ok, save_checkpoint_keeps.
  - apply keeps_bindings_ok, ensure_user_connection_keeps.
  - apply keeps_bindings_ok, update_connection_keeps.
  - apply keeps_bindings_ok, clear_connection_credentials_keeps.
  - apply keeps_bindings_ok, set_connection_runtime_keeps.
  - apply keeps_bindings_ok, apply_shard_assignments_keeps.
  - apply keeps_bindings_ok, update_metrics_keeps.
Qed.

Lemma reachable_ok d : rtc gateway_step no_rows d → bindings_ok d.
Proof.
  assert (Hgen : ∀ d1 d2, rtc gateway_step d1 d2 → bindings_ok d1 → bindings_ok d2).
  { induction 1 as [|d1 d2 d3 [A m r Hop Hm] _ IH]; [done|]. intros Hd. apply IH.
    pose proof (op_ok m Hop d1 Hd) as H. by rewrite Hm in H. }
  intros H. apply (Hgen _ _ H). split; cbn; [constructor|constructor|..]; by intros x ?%elem_of_nil.
Qed.

Lemma owner_is bs cs b c : pair_ok bs cs → b ∈ bs → c ∈ cs → cv_binding_id c = bi_id b → owns b c.
Proof.
  intros Hok Hb Hc Hid. destruct (po_owner _ _ Hok c Hc) as (b' & Hb' & Hown).
  assert (row_of bi_id (bi_id b) bs = Some b) as E by (apply row_of_elem; [apply Hok|done]).
  assert (row_of bi_id (bi_id b) bs = Some b') as E'.
  { apply row_of_elem; [apply Hok|]. split; [done|]. destruct Hown as [-> _]. by rewrite Hid. }
  by simplify_eq.
Qed.

End Gateway.

(** A user binds an identity and talks, unbinds, and another user takes it over. *)
Definition everyone (u : string) : option string := Some "user".
Definition no_repr (v : pyval) : string := EmptyString.

Definition handover : list (gateway_db → gateway_db) :=
  [λ d, (create_binding_code "k1" 100 "alice" "hash-a" None 700 d).2;
   λ d, (bind_with_code everyone "b" 110 "bot" "qq" "ext" None "hash-a" d).2;
   λ d, (open_conversation "c1" 120 "bot" "ext" "private" "p" d).2;
   λ d, (unbind 130 "b" (Some "alice") false d).2;
   λ d, (create_binding_code "k2" 140 "bob" "hash-b" (Some "qq") 740 d).2;
   λ d, (bind_with_code everyone "b2" 150 "bot" "qq" "ext" None "hash-b" d).2].
Definition handed_over : gateway_db := foldl (λ d f, f d) no_rows handover.

Lemma step_run role repr {A} (m : st gateway_db A) d : gateway_op role repr m → gateway_step role repr d (m d).2.
Proof. intros H. apply (step_of _ _ _ _ m (m d).1 H). by destruct (m d). Qed.

Lemma handover_reachable : rtc (gateway_step everyone no_repr) no_rows handed_over.
Proof. unfold handed_over, handover. cbn [foldl]. repeat (eapply rtc_r; [|apply step_run; constructor]). constructor. Qed.


(** ** Who an event acts for *)

Lemma upsert_group_spec uuid now conn g name n a u d r d' : upsert_group uuid now conn g name n a u d = (Ok r, d') →
  gw_bindings d' = gw_bindings d ∧ gw_conversations d' = gw_conversations d ∧
  gw_connections d' = gw_connections d ∧ r ∈ gw_groups d' ∧
  gp_connection_id r = conn ∧ gp_external_group_id r = g.
Proof.
  unfold upsert_group. destruct (find_first _ _) as [g0|] eqn:E.
  - apply find_first_Some in E as [Hin Hs]. intros H. injection H as <- <-.
    pose proof Hs as Hs'. unfold same_group in Hs'. apply andb_true_iff in Hs' as [Hc%String.eqb_eq Hg%String.eqb_eq].
    split_and!; try done.
    match goal with |- _ ∈ gw_groups (set_groups (update_where ?p ?f _) _) =>
      pose proof (update_elem p f _ _ Hin) as H; cbv beta in H; rewrite Hs in H; exact H end.
  - destruct (existsb _ _); [done|]. intros H. injection H as <- <-. split_and!; try done. cbn.
    apply elem_of_app. right. by apply list_elem_of_singleton.
Qed.

(** Without an enabled binding of the sender, the owner's binding is a new one. *)
Lemma ensure_owner_new repr uuid huuid now c conn ext name d b d' : bindings_ok d →
  get_connection conn d = Some c → get_enabled_binding conn ext d = None →
  ensure_owner_binding repr uuid huuid now conn ext name d = (Ok (Some b), d') →
  co_owner_user_id c = Some (bi_user_id b) ∧ b = new_binding uuid now conn (bi_user_id b) ext name None ∧
  gw_bindings d' = gw_bindings d ++ [b] ∧ gw_groups d' = gw_groups d ∧
  (∀ x, x ∈ gw_bindings d → bi_connection_id x = conn → bi_enabled x = false).
Proof.
  intros Hok Hc Hno H. unfold ensure_owner_binding, transaction in H.
  destruct ((d0 ← st_get; _) d) as [[o|e] d1] eqn:E in H; [|done]. injection H as -> ->.
  rewrite st_bind_eq in E. cbn [st_get] in E. unfold get_connection in Hc. rewrite Hc in E.
  destruct (co_owner_user_id c) as [owner|] eqn:Eo; [|done]. destruct (Str.is_empty owner); [done|].
  rewrite st_bind_eq in E. unfold st_lift in E. destruct (trusted_external_user_id repr c) as [t|]; [|done].
  destruct (_ || _); [done|].
  destruct (find_first (same_identity conn ext) (gw_bindings d)) as [x|] eqn:Ex.
  - exfalso. destruct (_ || _) eqn:Eb; [done|]. apply find_first_Some in Ex as [Hx Hs].
    rewrite !orb_false_iff, !negb_false_iff in Eb. destruct Eb as [[_ Hb] He].
    pose proof (proj1 (find_first_None _ _) Hno x Hx) as Hn. cbv beta in Hn. by rewrite Hs, He, Hb in Hn.
  - destruct (existsb _ _) eqn:En; [done|]. rewrite existsb_False in En.
    rewrite st_bind_eq in E. unfold insert_binding in E. destruct (existsb _ _); [done|].
    rewrite st_bind_eq in E. injection E as <- <-. split_and!; try done.
    intros x Hx <-. specialize (En x Hx). rewrite String.eqb_refl in En. cbn in En.
    destruct (bi_enabled x) eqn:He; [|done]. cbn in En. apply negb_false_iff in En.
    by rewrite (po_blocked _ _ Hok x Hx En) in He.
Qed.

(** C28: an inbound event acts for a user only through a binding of its sender on
    its connection that is enabled and not blocked; in a group only when the bot
    is mentioned and the group is allowed; in private on a personal bot only when
    the sender is the trusted identity of the connection.  The binding was there
    before, or it is the first enabled one of a personal bot and belongs to the
    owner. *)
Theorem event_acts_for_bound_user repr uuid guuid huuid now c e d b d' :
  bindings_ok d → get_connection (ie_connection_id e) d = Some c →
  route_event repr uuid guuid huuid now c e d = (Ok (Identified (Some b)), d') →
  co_enabled c = true ∧ b ∈ gw_bindings d' ∧ identity b = (ie_connection_id e, ie_sender_id e) ∧
  bi_enabled b = true ∧ bi_blocked b = false ∧
  (ie_conversation_type e = "group" → ie_mentions_bot e = true ∧
     ∃ g, g ∈ gw_groups d' ∧ gp_allowed g = true ∧ gp_connection_id g = ie_connection_id e ∧
       gp_external_group_id g = ie_conversation_id e) ∧
  (ie_conversation_type e = "private" → is_text (co_owner_user_id c) = true →
     trusted_external_user_id repr c = Ok (ie_sender_id e)) ∧
  (b ∈ gw_bindings d ∨
   ie_conversation_type e = "private" ∧ co_owner_user_id c = Some (bi_user_id b) ∧
   gw_bindings d' = gw_bindings d ++ [b] ∧
   ∀ x, x ∈ gw_bindings d → bi_connection_id x = ie_connection_id e → bi_enabled x = false).
Proof.
  intros Hok Hc H. unfold route_event in H. destruct (co_enabled c); [|done]. cbn [negb] in H. cbv zeta in H.
  rewrite st_bind_eq in H.
  match type of H with context [(if ?g then ?x else ?y) d] =>
    destruct ((if g then x else y) d) as [[listens|err] d1] eqn:Egr; [|done] end. destruct listens; [|done]. cbn [negb] in H.
  assert (gw_bindings d1 = gw_bindings d ∧ gw_conversations d1 = gw_conversations d ∧ gw_connections d1 = gw_connections d ∧
    (ie_conversation_type e = "group" → ie_mentions_bot e = true ∧ ∃ g, g ∈ gw_groups d1 ∧ gp_allowed g = true ∧
       gp_connection_id g = ie_connection_id e ∧ gp_external_group_id g = ie_conversation_id e))
    as (Hb1 & Hcv1 & Hc1 & Hgroup).
  { destruct (String.eqb_spec (ie_conversation_type e) "group") as [Eg|Eg]; [|by injection Egr as <-].
    rewrite st_bind_eq in Egr. destruct (upsert_group _ _ _ _ _ _ _ _ d) as [[g|x] d2] eqn:Eu; [|done].
    injection Egr as [Ha Hm]%andb_true_iff ->.
    apply upsert_group_spec in Eu as (? & ? & ? & ? & ? & ?).
    split_and!; try done. intros _. split; [done|]. by exists g. }
  rewrite st_bind_eq in H.
  match type of H with context [(if ?g then ?x else ?y) d1] =>
    destruct ((if g then x else y) d1) as [[trusted|err] d2] eqn:Etr; [|done] end.
  destruct trusted; [|done]. cbn [negb] in H.
  assert (d2 = d1 ∧ (ie_conversation_type e = "private" → is_text (co_owner_user_id c) = true →
     trusted_external_user_id repr c = Ok (ie_sender_id e))) as [-> Htrust].
  { destruct (String.eqb_spec (ie_conversation_type e) "private") as [Ep|Ep]; cbn [andb] in Etr;
      [|by injection Etr as <-].
    destruct (is_text (co_owner_user_id c)); [|by injection Etr as <-].
    rewrite st_bind_eq in Etr. unfold st_lift in Etr. destruct (trusted_external_user_id repr c) as [t|]; [|done].
    injection Etr as [_ ->%String.eqb_eq]%andb_true_iff <-. done. }
  rewrite st_bind_eq in H. cbn [st_get] in H. rewrite st_bind_eq in H.
  destruct (get_enabled_binding (ie_connection_id e) (ie_sender_id e) d1) as [b0|] eqn:Eb.
  - cbn in H. destruct (_ && _); [done|]. injection H as -> <-.
    apply get_enabled_binding_Some in Eb as (Hin & Hci & Hsi & He & Hbl).
    assert (identity b = (ie_connection_id e, ie_sender_id e)) by (unfold identity; congruence).
    split_and!; try done. left. by rewrite <-Hb1.
  - destruct (String.eqb_spec (ie_conversation_type e) "private") as [Ep|Ep]; cbn [andb] in H;
      [|destruct (String.eqb (ie_conversation_type e) "group") eqn:?; cbn in H; [done|by injection H]].
    destruct (is_text (co_owner_user_id c)); [|by destruct (String.eqb (ie_conversation_type e) "group"); [|injection H]].
    destruct (ensure_owner_binding _ _ _ _ _ _ _ d1) as [[o|x] d3] eqn:Eo; [|done].
    assert (o = Some b ∧ d3 = d') as [-> ->].
    { cbn in H. destruct (_ && _); [done|]. by injection H as <- <-. }
    apply (ensure_owner_new _ _ _ _ c) in Eo as (Hown & Hnew & Hbs & Hgs & Hall);
      [|unfold bindings_ok; by rewrite Hb1, Hcv1|unfold get_connection in *; by rewrite Hc1|done].
    rewrite Hbs, Hb1, Hgs in *.
    assert (identity b = (ie_connection_id e, ie_sender_id e) ∧ bi_enabled b = true ∧ bi_blocked b = false)
      as (? & ? & ?) by by rewrite Hnew.
    assert (b ∈ gw_bindings d ++ [b]) by (apply elem_of_app; right; by apply list_elem_of_singleton).
    split_and!; try done. by right.
Qed.

(** The owner's first message to a personal bot *)
Definition personal_bot : gateway_db :=
  (update_connection 101 "bot-qq-alice" [CoConfig (VDict [("trusted_external_user_id", VStr "ext")])] true
    (ensure_user_connection 100 "alice" "qq" true no_rows).2).2.
Definition first_message : inbound_event :=
  {| ie_event_id := "e1"; ie_channel := "qq"; ie_connection_id := "bot-qq-alice"; ie_shard_id := None;
     ie_node_id := None; ie_lease_epoch := None; ie_assignment_generation := None;
     ie_conversation_type := "private"; ie_conversation_id := "p"; ie_conversation_name := None;
     ie_sender_id := "ext"; ie_sender_name := Some "Alice"; ie_mentions_bot := false |}.

Definition alice_bot : bot_connection :=
  default (new_connection "" "" "" false None 0) (get_connection "bot-qq-alice" personal_bot).
Definition after_message : gateway_db :=
  (route_event no_repr "b" "g" "h" 200 alice_bot first_message personal_bot).2.
Definition alice_binding : binding := new_binding "b" 200 "bot-qq-alice" "alice" "ext" (Some "Alice") None.

Lemma event_acts_for_bound_user_witness :
  route_event no_repr "b" "g" "h" 200 alice_bot first_message personal_bot
    = (Ok (Identified (Some alice_binding)), after_message) ∧
  alice_binding ∈ gw_bindings after_message.
Proof.
  assert (Hr : route_event no_repr "b" "g" "h" 200 alice_bot first_message personal_bot
    = (Ok (Identified (Some alice_binding)), after_message)) by (vm_compute; reflexivity).
  split; [exact Hr|].
  apply (event_acts_for_bound_user no_repr "b" "g" "h" 200 alice_bot first_message personal_bot alice_binding after_message).
  - split; cbn; [constructor|constructor|..]; intros x Hx; by apply elem_of_nil in Hx.
  - vm_compute. reflexivity.
  - exact Hr.
Defined.
