(* ===== verification/BotGatewayRebalanceProps.v ===== *)
(** * Properties of [BotGatewayRouter]: applying rebalance plans. *)

From S2P Require Import Prelude PyVal PyDecimal Scheduler BotGateway BotGatewayEventsProps BotGatewayRouter.

Local Open Scope Z_scope.

(** The newest operation of the window comes first. *)
Lemma recent_operations_gap now log : (match recent_operations now log with
    | o :: _ => now - REBALANCE_MIN_INTERVAL_SECONDS <? ro_created_at o | [] => false end = false) →
  ∀ o, o ∈ log → now - REBALANCE_HOURLY_WINDOW_SECONDS <= ro_created_at o →
  ro_created_at o <= now - REBALANCE_MIN_INTERVAL_SECONDS.
Proof.
  unfold recent_operations. set (le := λ a b : rebalance_operation, ro_created_at b <=? ro_created_at a).
  set (l := List.filter _ log). intros Hhead o Ho Hin.
  assert (Hl : o ∈ py_sorted le l) by (apply py_sorted_elem, filter_elem; split; [done|by apply Z.leb_le]).
  assert (Hs : StronglySorted (λ a b, le a b = true) (py_sorted le l)).
  { apply py_sorted_sorted; intros *; unfold le; rewrite ?Z.leb_le; lia. }
  destruct (py_sorted le l) as [|x r]; [by apply elem_of_nil in Hl|]. apply Z.ltb_ge in Hhead.
  apply StronglySorted_inv in Hs as [_ Hall]. apply elem_of_cons in Hl as [->|Hr]; [done|].
  rewrite Forall_forall in Hall. specialize (Hall o Hr). apply Z.leb_le in Hall. lia.
Qed.

(** A connection that changes shard takes a new generation: the fence refuses
    events of the old one. *)
Lemma fence_refuses s n ep g shard g' lease : g ≠ g' → validate_event_fence "redis" s n ep (Some g) shard g' lease ≠ Ok true.
Proof.
  intros Hg. unfold validate_event_fence. cbn. destruct s, n, ep; try done.
  rewrite (proj2 (Z.eqb_neq g g')) by done. by rewrite orb_true_r.
Qed.

(** What a move does to a connection *)
Definition moved (now : Z) (target : string) (c c' : bot_connection) : Prop :=
  co_shard_id c' = Some target ∧ generation_of c' = generation_of c + 1 ∧
  (∀ s n ep lease, validate_event_fence "redis" s n ep (Some (generation_of c)) (co_shard_id c') (generation_of c') lease
     ≠ Ok true) ∧
  (∀ later sc, later < now + MOVE_COOLDOWN_SECONDS → scheduling_connection c' = Ok sc →
     connection_can_move later sc = false).

Lemma move_to_moves now target c : co_shard_id c ≠ Some target → moved now target c (move_to now target c).
Proof.
  intros H. unfold move_to, opt_eqb. rewrite bool_decide_eq_false_2 by done. split_and!; try done.
  - intros s n ep lease. apply fence_refuses. cbn. unfold generation_of. cbn. lia.
  - intros later sc Hl Hs. unfold scheduling_connection in Hs.
    destruct (load_sample_from_config _) as [x|]; [|done]. cbn in Hs.
    destruct (calculate_load_units x) as [u|]; [|done]. injection Hs as <-.
    unfold connection_can_move. cbn. unfold config_of. cbn. unfold dgetd. rewrite dict_get_set_eq. cbn.
    rewrite (proj2 (Z.ltb_lt _ _)) by lia. by rewrite !orb_true_r.
Qed.

Lemma moved_rows now (assignments : list (string * string)) (l : list bot_connection) i c c' :
  l !! i = Some c →
  map (λ c, match dict_get (co_id c) assignments with Some t => move_to now t c | None => c end) l !! i = Some c' →
  c' = c ∨ ∃ t, dict_get (co_id c) assignments = Some t ∧ moved now t c c'.
Proof.
  intros Hc Hc'. rewrite list_lookup_fmap, Hc in Hc'. injection Hc' as <-.
  destruct (dict_get (co_id c) assignments) as [t|]; [|by left].
  destruct (decide (co_shard_id c = Some t)) as [E|E]; [left|right; exists t; split; [done|by apply move_to_moves]].
  unfold move_to, opt_eqb. by rewrite bool_decide_eq_true_2.
Qed.

Lemma move_to_id now t c : co_id (move_to now t c) = co_id c.
Proof. unfold move_to. by destruct (opt_eqb _ _). Qed.

Lemma one_assignment {A} (requested : list (string * A)) : (length requested <= 1)%nat →
  foldl (λ a r, dict_set r.1 r.2 a) [] requested = requested.
Proof. destruct requested as [|[k v] [|y r]]; intros H; cbn in *; [done|done|lia]. Qed.

Lemma filter_only {A} (p : A → bool) (l : list A) i x : l !! i = Some x → p x = true →
  (∀ j y, j ≠ i → l !! j = Some y → p y = false) → List.filter p l = [x].
Proof.
  revert i. induction l as [|y l IH]; intros i Hi Hx Ho; [done|]. destruct i as [|i]; cbn in *.
  - injection Hi as ->. rewrite Hx. f_equal. assert (Hnone : ∀ y, y ∈ l → p y = false).
    { intros y [j Hj]%list_elem_of_lookup_1. by apply (Ho (S j)). }
    clear -Hnone. induction l as [|y l IH]; cbn; [done|]. rewrite Hnone by left. apply IH. intros z Hz. apply Hnone. by right.
  - rewrite (Ho 0%nat y) by done. apply (IH i); [done|done|]. intros j z Hj. apply (Ho (S j)). lia.
Qed.

(** C15: applying a rebalance plan needs the automatic mode, two minutes since the
    last run of the hour, and a move left in the hourly budget.  It changes only
    connections, at most one of them, and by a move of the plan computed from the
    same rows: the connection goes to the planned shard under a new generation, so
    that in redis mode events of the old generation are refused, and it is not
    moved again for half an hour.  A run that is refused changes nothing. *)
Theorem rebalance_moves_one_planned ac lc now mode requested log d r d' :
  NoDup (map co_id (gw_connections d)) → apply_rebalance ac lc now mode requested log d = (r, d') →
  match r with
  | Err _ => d' = d
  | Ok (updated, op) =>
      mode = "auto" ∧
      (∀ o, o ∈ log → now - REBALANCE_HOURLY_WINDOW_SECONDS <= ro_created_at o →
         ro_created_at o <= now - REBALANCE_MIN_INTERVAL_SECONDS) ∧
      (ro_moves op <= 1)%nat ∧
      (ro_moves op = 1%nat →
         (sum_list (ro_moves <$> firstn 100 (recent_operations now log)) < hourly_budget (gw_connections d))%nat) ∧
      d' = set_connections (gw_connections d') d ∧
      (∃ pl, rebalance_plan ac lc now (gw_connections d) = Ok pl ∧
         ∀ i c c', gw_connections d !! i = Some c → gw_connections d' !! i = Some c' → c' ≠ c →
           ∃ mv, mv ∈ pl_moves pl ∧ mv_connection_id mv = co_id c ∧ moved now (mv_to_shard_id mv) c c' ∧
             updated = [c'] ∧ ro_moves op = 1%nat ∧
             ∀ j, j ≠ i → gw_connections d' !! j = gw_connections d !! j)
  end.
Proof.
  intros Hnd H. unfold apply_rebalance in H.
  destruct (String.eqb_spec mode "auto") as [->|]; cbn [negb] in H; [|by injection H as <- <-].
  rewrite st_bind_eq in H. cbn [st_get] in H. rewrite st_bind_eq in H. unfold st_lift in H.
  destruct (rebalance_plan _ _ _ _) as [pl|e] eqn:Epl; [|by injection H as <- <-]. cbv zeta in H.
  set (allowed := map (λ m, (mv_connection_id m, mv_to_shard_id m)) (pl_moves pl)) in H.
  set (req := match requested with Some q => q | None => allowed end) in H.
  destruct (Nat.ltb_spec 1 (length req)) as [|Hlen]; [by injection H as <- <-|].
  destruct (match firstn 100 _ with o :: _ => _ | [] => false end) eqn:Egap in H; [by injection H as <- <-|].
  destruct (_ && _) eqn:Ebudget in H; [by injection H as <- <-|].
  destruct (negb _) eqn:Eallowed in H; [by injection H as <- <-|]. apply negb_false_iff in Eallowed.
  rewrite Prelude.forallb_True in Eallowed.
  rewrite st_bind_eq, one_assignment in H by done. cbn in H. injection H as <- <-. cbn.
  split_and!; [done| |done| |done|].
  - apply recent_operations_gap. by destruct (recent_operations now log).
  - intros Hone. destruct req as [|q req]; [done|]. cbn [andb negb] in Ebudget. by apply Nat.leb_gt in Ebudget.
  - exists pl. split; [done|]. intros i c c' Hc Hc' Hne.
    destruct (moved_rows _ _ _ _ _ _ Hc Hc') as [?|(t & Ht & Hm)]; [done|].
    destruct req as [|[k t'] [|q req]]; [done| |cbn in Hlen; lia]. cbn in Ht.
    destruct (String.eqb_spec (co_id c) k) as [Hk|]; [|done]. injection Ht as ->.
    specialize (Eallowed (k, t) (list_elem_of_here _ _)). apply existsb_True in Eallowed as ([k2 t2] & Hin & He).
    apply andb_true_iff in He as [Hk2%String.eqb_eq Ht2%String.eqb_eq]. cbn in Hk2, Ht2. subst k2 t2.
    apply list_elem_of_fmap in Hin as (mv & [= Hmk Hmt] & Hmv). exists mv. subst k t.
    assert (Hid : co_id c' = co_id c).
    { rewrite list_lookup_fmap, Hc in Hc'. injection Hc' as <-. cbn. case_match; [apply move_to_id|done]. }
    assert (Hothers : ∀ j x, j ≠ i → gw_connections d !! j = Some x → co_id x ≠ co_id c).
    { intros j x Hj Hx Heq. apply Hj. apply (NoDup_lookup _ j i (co_id c) Hnd);
        rewrite list_lookup_fmap; [by rewrite Hx, <-Heq|by rewrite Hc]. }
    split; [done|]. split; [done|]. split; [done|]. split.
    + apply (filter_only _ _ i c'); [done| |].
      * rewrite Hid. unfold dict_has. cbn. by rewrite Hk, String.eqb_refl.
      * intros j y Hj Hy. rewrite list_lookup_fmap in Hy.
        destruct (gw_connections d !! j) as [x|] eqn:Hx; [|done]. injection Hy as <-.
        specialize (Hothers j x Hj Hx). rewrite Hk in Hothers. apply String.eqb_neq in Hothers.
        rewrite Hothers. unfold dict_has. cbn. by rewrite Hothers.
    + split; [done|]. intros j Hj. rewrite list_lookup_fmap.
      destruct (gw_connections d !! j) as [x|] eqn:Hx; [|done]. cbn.
      specialize (Hothers j x Hj Hx). rewrite Hk in Hothers. apply String.eqb_neq in Hothers.
      by rewrite Hothers.
Qed.

(** A connection that has no shard yet *)
Definition unassigned_db : gateway_db :=
  set_connections [new_connection "a" "qq" "bot" true None 0] no_rows.
Definition assigned_db : gateway_db := (apply_rebalance 250 400 10000 "auto" None [] unassigned_db).2.

Lemma rebalance_moves_one_planned_witness :
  ∃ c', gw_connections assigned_db = [c'] ∧ co_shard_id c' = Some "qq-shard-000" ∧ generation_of c' = 1 ∧
  ∃ pl mv, rebalance_plan 250 400 10000 (gw_connections unassigned_db) = Ok pl ∧ mv ∈ pl_moves pl ∧
    mv_connection_id mv = "a".
Proof.
  assert (Hnd : NoDup (map co_id (gw_connections unassigned_db))) by (cbn; apply NoDup_singleton).
  assert (E : apply_rebalance 250 400 10000 "auto" None [] unassigned_db
    = (Ok (gw_connections assigned_db, {| ro_created_at := 10000; ro_moves := 1 |}), assigned_db))
    by (vm_compute; reflexivity).
  destruct (rebalance_moves_one_planned 250 400 10000 "auto" None [] unassigned_db _ assigned_db Hnd E)
    as (_ & _ & _ & _ & _ & pl & Hpl & H).
  destruct (gw_connections assigned_db) as [|c' l] eqn:Ec; [vm_compute in Ec; discriminate|].
  assert (Hl : l = [] ∧ co_shard_id c' = Some "qq-shard-000" ∧ generation_of c' = 1).
  { vm_compute in Ec. injection Ec as <- <-. split; [reflexivity|]. split; reflexivity. }
  destruct Hl as (-> & Hs & Hg). exists c'. split; [reflexivity|]. split; [exact Hs|]. split; [exact Hg|].
  destruct (H 0%nat (new_connection "a" "qq" "bot" true None 0) c' eq_refl eq_refl) as (mv & Hmv & Hid & _).
  { intros Heq. rewrite Heq in Hg. vm_compute in Hg. discriminate. }
  exists pl, mv. split; [exact Hpl|]. split; [exact Hmv|exact Hid].
Defined.
