(* ===== verification/StreamTags.v ===== *)
(** * Tags in the text of a streamed reply (utils/middleware.py): the nested
    [tag_output_handler] of [streaming_chat_response_handler], which turns
    <think>, solution and code interpreter tags into output items while the text
    arrives, and the branch of [stream_body_handler] that feeds it.

    The handler is called after every delta and keeps, per item and kind of tag,
    how much of the text it has scanned and where the last brackets are; the dicts
    [tag_scan_positions] and [tag_boundary_positions] and the list [output] that it
    changes in place are the fields of [tag_state].  [now] is the time of a delta and
    [uuid n] the n-th identifier drawn, as 24 hexadecimal digits. *)

From S2P Require Import Prelude PyVal PyDecimal Messages AnthropicStream.
From Stdlib Require Import Ascii SpecFloat.

Local Open Scope nat_scope.

(** ** Searching for tags *)

Definition less_char : ascii := "<".
Definition greater_char : ascii := ">".
Definition newline_char : ascii := ascii_of_nat 10.

(** [.*?>]: the length up to the first [>], if no newline comes before it. *)
Fixpoint attributes_end (s : string) : option nat :=
  match s with
  | EmptyString => None
  | String c r =>
      if Ascii.eqb c greater_char then Some 1
      else if Ascii.eqb c newline_char then None
      else option_map S (attributes_end r)
  end.

Definition is_bracket_tag (start_tag : string) : bool :=
  Str.startswith "<" start_tag && Str.endswith ">" start_tag.

(** [_start_tag_pattern] matched at the start of [s]: the length of the match, and
    its first group. *)
Definition match_start_tag (start_tag s : string) : option (nat * string) :=
  if is_bracket_tag start_tag then
    let head := Str.take (String.length start_tag - 1) start_tag in
    if Str.startswith head s then
      match Str.drop (String.length head) s with
      | String c r =>
          if Str.is_space c then
            match attributes_end r with
            | Some n => Some (String.length head + 1 + n, String c (Str.take (n - 1) r))
            | None => None
            end
          else if Ascii.eqb c greater_char then Some (String.length head + 1, EmptyString) else None
      | EmptyString => None
      end
    else None
  else if Str.startswith start_tag s then Some (String.length start_tag, EmptyString) else None.

(** [re.search] from a position: where the leftmost match starts and ends, and its
    group. *)
Fixpoint search_from (start_tag s : string) (i : nat) : option (nat * nat * string) :=
  match match_start_tag start_tag s with
  | Some (n, attributes) => Some (i, i + n, attributes)
  | None => match s with EmptyString => None | String _ r => search_from start_tag r (S i) end
  end.
Definition search (start_tag text : string) (pos : nat) : option (nat * nat * string) :=
  search_from start_tag (Str.drop pos text) pos.

(** [re.sub] with the empty text: a match is removed, and an empty one skips a
    character. *)
Fixpoint remove_tags (fuel : nat) (start_tag s : string) : string :=
  match fuel, s with
  | O, _ | _, EmptyString => s
  | S fuel, String c r =>
      match match_start_tag start_tag s with
      | Some (S n, _) => remove_tags fuel start_tag (Str.drop n r)
      | _ => String c (remove_tags fuel start_tag r)
      end
  end.

(** [text.find(sub, pos)] *)
Fixpoint find_from (sub s : string) (i : nat) : option nat :=
  if Str.startswith sub s then Some i
  else match s with EmptyString => None | String _ r => find_from sub r (S i) end.
Definition find (sub text : string) (pos : nat) : option nat := find_from sub (Str.drop pos text) pos.

(** [text.rfind(c, lo, hi)] *)
Fixpoint last_index (c : ascii) (s : string) (i : nat) (last : Z) : Z :=
  match s with
  | EmptyString => last
  | String d r => last_index c r (S i) (if Ascii.eqb c d then Z.of_nat i else last)
  end.
Definition rfind (c : ascii) (text : string) (lo hi : nat) : Z :=
  last_index c (Str.take (hi - lo) (Str.drop lo text)) lo (-1)%Z.

(** The attributes of a tag: words with a quoted value that is not empty *)
Definition is_word (c : ascii) : bool :=
  let n := Str.code c in
  Str.is_digit c || ((65 <=? n) && (n <=? 90)) || ((97 <=? n) && (n <=? 122)) || Ascii.eqb c "_"
  || existsb (Nat.eqb n) [170; 178; 179; 181; 185; 186; 188; 189; 190]
  || ((192 <=? n) && negb (n =? 215) && negb (n =? 247)).

Fixpoint span (p : ascii → bool) (s : string) : string * string :=
  match s with
  | String c r => if p c then let '(a, b) := span p r in (String c a, b) else (EmptyString, s)
  | EmptyString => (EmptyString, EmptyString)
  end.

Definition quote_char : ascii := ascii_of_nat 34.
Definition skip_spaces (s : string) : string := Str.lstrip_by Str.is_space s.

(** One match at the start of [s]: the key, the value and the rest *)
Definition match_attribute (s : string) : option (string * string * string) :=
  let '(key, r) := span is_word s in
  match key, skip_spaces r with
  | String _ _, String e r =>
      if Ascii.eqb e "=" then
        match skip_spaces r with
        | String q r =>
            if Ascii.eqb q quote_char then
              let '(value, r) := span (λ c, negb (Ascii.eqb c quote_char)) r in
              match value, r with
              | String _ _, String _ r => Some (key, value, r)
              | _, _ => None
              end
            else None
        | EmptyString => None
        end
      else None
  | _, _ => None
  end.

Fixpoint find_attributes (fuel : nat) (s : string) (acc : pydict) : pydict :=
  match fuel, s with
  | O, _ | _, EmptyString => acc
  | S fuel, String _ r =>
      match match_attribute s with
      | Some (key, value, rest) => find_attributes fuel rest (dict_set key (VStr value) acc)
      | None => find_attributes fuel r acc
      end
  end.

(** [extract_attributes] *)
Definition extract_attributes (tag_content : string) : pydict :=
  find_attributes (String.length tag_content) tag_content [].

(** ** The state of a stream *)

(** An item and a kind of tag *)
Notation scan_key := (pyval * string)%type.
Definition same_key (a b : scan_key) : bool := py_eqb a.1 b.1 && String.eqb a.2 b.2.

Fixpoint key_get {V} (k : scan_key) (d : list (scan_key * V)) : option V :=
  match d with
  | [] => None
  | (k', v) :: d => if same_key k k' then Some v else key_get k d
  end.
Definition key_pop {V} (k : scan_key) (d : list (scan_key * V)) : list (scan_key * V) :=
  List.filter (λ kv, negb (same_key k kv.1)) d.
Definition key_set {V} (k : scan_key) (v : V) (d : list (scan_key * V)) : list (scan_key * V) :=
  (k, v) :: key_pop k d.

Record tag_state := {
  tg_output : list pydict;
  tg_scans : list (scan_key * nat);
  tg_bounds : list (scan_key * (nat * Z * Z));
  tg_next : nat;
}.

Definition with_output (l : list pydict) (s : tag_state) : tag_state :=
  {| tg_output := l; tg_scans := tg_scans s; tg_bounds := tg_bounds s; tg_next := tg_next s |}.
Definition with_scans (l : list (scan_key * nat)) (s : tag_state) : tag_state :=
  {| tg_output := tg_output s; tg_scans := l; tg_bounds := tg_bounds s; tg_next := tg_next s |}.
Definition with_bounds (l : list (scan_key * (nat * Z * Z))) (s : tag_state) : tag_state :=
  {| tg_output := tg_output s; tg_scans := tg_scans s; tg_bounds := l; tg_next := tg_next s |}.

(** [output[-1]] *)
Definition last_item (s : tag_state) : option pydict := last (tg_output s).
Definition set_last (item : pydict) (s : tag_state) : tag_state :=
  with_output (removelast (tg_output s) ++ [item]) s.
Definition pop_last (s : tag_state) : tag_state := with_output (removelast (tg_output s)) s.
Definition push (item : pydict) (s : tag_state) : tag_state := with_output (tg_output s ++ [item]) s.

(** [parts[-1]] of the content of an item, when it is a text *)
Definition last_part (item : pydict) : res (option (list pyval * pydict)) :=
  match dgetd item "content" (VList []) with
  | VList parts =>
      match last parts with
      | Some (VDict p) => Ok (if is_type p "output_text" then Some (removelast parts, p) else None)
      | Some _ => Err AttributeError
      | None => Ok None
      end
  | v => if truthy v then Err TypeError else Ok None
  end.

Definition as_text (v : pyval) : res string := match v with VStr s => Ok s | _ => Err TypeError end.

Definition block_text (item : pydict) : res string :=
  p ← last_part item;
  match p with Some (_, p) => as_text (dgetd p "text" (VStr EmptyString)) | None => Ok EmptyString end.

Definition set_item_text (text : string) (item : pydict) : res pydict :=
  p ← last_part item;
  Ok match p with
     | Some (front, p) =>
         dict_set "content" (VList (front ++ [VDict (dict_set "text" (VStr text) p)])) item
     | None => item
     end.

Definition text_part (text : string) : pyval := VDict [("type", VStr "output_text"); ("text", VStr text)].

Definition is_message (item : pydict) : bool := is_type item "message".

(** [get_last_text] *)
Definition get_last_text (s : tag_state) : res string :=
  match last_item s with
  | Some item => if is_message item then block_text item else Ok EmptyString
  | None => Ok EmptyString
  end.

(** [set_last_text] *)
Definition set_last_text (text : string) : st tag_state unit := λ s,
  match last_item s with
  | Some item =>
      if is_message item then
        match set_item_text text item with
        | Ok item => (Ok tt, set_last item s)
        | Err e => (Err e, s)
        end
      else (Ok tt, s)
  | None => (Ok tt, s)
  end.

(** ** The handler *)

(** [content_type] *)
Inductive tag_kind := Reasoning | Solution | CodeInterpreter.
#[export] Instance tag_kind_eq_dec : EqDecision tag_kind.
Proof. solve_decision. Defined.
Definition kind_name (k : tag_kind) : string :=
  match k with Reasoning => "reasoning" | Solution => "solution" | CodeInterpreter => "code_interpreter" end.

(** A start tag and its end tag *)
Notation tag := (string * string)%type.

Section Handler.
Context (uuid : nat → string) (now : spec_float).

(** [output_id] *)
Definition output_id (prefix : string) : st tag_state string := λ s,
  (Ok (prefix +:+ "_" +:+ uuid (tg_next s)),
   {| tg_output := tg_output s; tg_scans := tg_scans s; tg_bounds := tg_bounds s; tg_next := S (tg_next s) |}).

Definition message_item (id text : string) : pydict :=
  [("type", VStr "message"); ("id", VStr id); ("status", VStr "in_progress"); ("role", VStr "assistant");
   ("content", VList [text_part text])].

Section Kind.
Context (kind : tag_kind) (tags : list tag).

(** [get_scanned_length] *)
Definition get_scanned_length (item : pydict) (text : string) (s : tag_state) : res nat :=
  if negb (truthy (dget item "id")) then Ok 0
  else
    id ← hashed (dget item "id");
    let n := default 0 (key_get (id, kind_name kind) (tg_scans s)) in
    Ok (if n <=? String.length text then n else 0).

(** [save_scanned_length], [clear_scanned_length] *)
Definition save_scanned_length (item : pydict) (text : string) : st tag_state unit :=
  if negb (truthy (dget item "id")) then mret tt
  else
    id ← st_lift (hashed (dget item "id"));
    st_modify (λ s, with_scans (key_set (id, kind_name kind) (String.length text) (tg_scans s)) s).
Definition clear_scanned_length (item : pydict) : st tag_state unit :=
  if negb (truthy (dget item "id")) then mret tt
  else
    id ← st_lift (hashed (dget item "id"));
    st_modify (λ s, with_bounds (key_pop (id, kind_name kind) (tg_bounds s))
                      (with_scans (key_pop (id, kind_name kind) (tg_scans s)) s)).

(** [get_tag_boundaries] *)
Definition get_tag_boundaries (item : pydict) (text : string) (scanned_length : nat) : st tag_state (Z * Z) :=
  id ← st_lift (hashed (dget item "id"));
  s ← st_get;
  let key := (id, kind_name kind) in
  let '(scanned, last_open, last_boundary) := default (0, (-1)%Z, (-1)%Z) (key_get key (tg_bounds s)) in
  let '(scanned, last_open, last_boundary) :=
    if scanned_length <? scanned then (0, (-1)%Z, (-1)%Z) else (scanned, last_open, last_boundary) in
  if scanned <? scanned_length then
    let open_tag := rfind less_char text scanned scanned_length in
    let last_open := if Z.eqb open_tag (-1) then last_open else open_tag in
    let boundary := Z.max (rfind greater_char text scanned scanned_length)
                      (rfind newline_char text scanned scanned_length) in
    let last_boundary := if Z.eqb boundary (-1) then last_boundary else boundary in
    _ ← st_modify (λ s, with_bounds (key_set key (scanned_length, last_open, last_boundary) (tg_bounds s)) s);
    mret (last_open, last_boundary)
  else mret (last_open, last_boundary).

(** Where the search for a start tag resumes *)
Definition search_start (item : pydict) (text : string) : st tag_state nat :=
  s ← st_get;
  scanned_length ← st_lift (get_scanned_length item text s);
  let max_start_tag_length :=
    match tags with [] => 1 | _ => list_max (map (λ t, String.length t.1) tags) end in
  let start := scanned_length + 1 - max_start_tag_length in
  if (0 <? scanned_length) && existsb (λ t, is_bracket_tag t.1) tags then
    b ← get_tag_boundaries item text scanned_length;
    mret (if (b.2 <? b.1)%Z then Nat.min start (Z.to_nat b.1) else start)
  else mret start.

(** The first tag of the list that occurs, with its leftmost occurrence *)
Fixpoint first_tag (tags : list tag) (text : string) (pos : nat) : option (tag * (nat * nat * string)) :=
  match tags with
  | [] => None
  | t :: tags =>
      match search t.1 text pos with Some m => Some (t, m) | None => first_tag tags text pos end
  end.

(** The item of a block that has started *)
Definition block_item (id : string) (t : tag) (attributes : pydict) : pydict :=
  match kind with
  | Reasoning =>
      [("type", VStr "reasoning"); ("id", VStr id); ("status", VStr "in_progress"); ("start_tag", VStr t.1);
       ("end_tag", VStr t.2); ("attributes", VDict attributes); ("content", VList []); ("summary", VNone);
       ("started_at", VFloat now)]
  | CodeInterpreter =>
      [("type", VStr "open_webui:code_interpreter"); ("id", VStr id); ("status", VStr "in_progress");
       ("start_tag", VStr t.1); ("end_tag", VStr t.2); ("attributes", VDict attributes);
       ("lang", dgetd attributes "lang" (VStr "python")); ("code", VStr EmptyString); ("output", VNone);
       ("started_at", VFloat now)]
  | Solution =>
      [("type", VStr "message"); ("id", VStr id); ("status", VStr "in_progress"); ("role", VStr "assistant");
       ("content", VList [text_part EmptyString]); ("_tag_type", VStr "solution"); ("start_tag", VStr t.1);
       ("end_tag", VStr t.2); ("attributes", VDict attributes); ("started_at", VFloat now)]
  end.

Definition id_prefix : string :=
  match kind with Reasoning => "r" | CodeInterpreter => "ci" | Solution => "msg" end.

(** The text of a block, and putting a text in it *)
Definition block_content (item : pydict) : res string :=
  if is_type item "open_webui:code_interpreter" then as_text (dgetd item "code" (VStr EmptyString))
  else block_text item.

Definition start_block_text (text : string) (item : pydict) : res pydict :=
  match kind with
  | Reasoning => Ok (dict_set "content" (VList [text_part text]) item)
  | CodeInterpreter => Ok (dict_set "code" (VStr text) item)
  | Solution => set_item_text text item
  end.

Definition finished_text (text : string) (item : pydict) : res pydict :=
  if is_type item "reasoning" then Ok (dict_set "content" (VList [text_part text]) item)
  else if is_type item "open_webui:code_interpreter" then Ok (dict_set "code" (VStr text) item)
  else set_item_text text item.

Definition update_last (f : pydict → res pydict) : st tag_state unit := λ s,
  match last_item s with
  | Some item => match f item with Ok item => (Ok tt, set_last item s) | Err e => (Err e, s) end
  | None => (Err IndexError, s)
  end.

(** [item['ended_at'] - item['started_at']] *)
Definition set_duration (item : pydict) : res pydict :=
  started ← ditem item "started_at";
  d ← num_sub (VFloat now) started; n ← py_int d; Ok (dict_set "duration" (VInt n) item).

(** The block [item] has ended: what its text is in the end, and the text after it *)
Definition split_block (start_tag end_tag content : string) : string * string :=
  let content := remove_tags (String.length content) start_tag content in
  match find end_tag content 0 with
  | Some i => (Str.strip (Str.take i content),
               Str.lstrip_by Str.is_space (Str.drop (i + String.length end_tag) content))
  | None => (Str.strip content, EmptyString)
  end.

(** A block with no text in it is dropped, another gets its final text. *)
Definition end_item (item : pydict) (text : string) : st tag_state unit :=
  if Str.is_empty text then st_modify pop_last
  else
    _ ← update_last (finished_text text);
    _ ← update_last (λ item, Ok (dict_set "ended_at" (VFloat now) item));
    if is_message item then mret tt
    else
      _ ← update_last set_duration;
      if is_type item "reasoning"
      then update_last (λ item, Ok (dict_set "status" (VStr "completed") item)) else mret tt.

Definition end_block (item : pydict) (start_tag end_tag content : string) : st tag_state (bool * bool) :=
  _ ← clear_scanned_length item;
  _ ← end_item item (split_block start_tag end_tag content).1;
  id ← output_id "msg";
  _ ← st_modify (push (message_item id (split_block start_tag end_tag content).2));
  mret (true, true).

Definition close_block (item : pydict) : st tag_state (bool * bool) :=
  start_tag ← st_lift (as_text (dgetd item "start_tag" (VStr EmptyString)));
  end_tag ← st_lift (as_text (dgetd item "end_tag" (VStr EmptyString)));
  content ← st_lift (block_content item);
  s ← st_get;
  scanned_length ← st_lift (get_scanned_length item content s);
  let from := scanned_length + 1 - Nat.max (String.length end_tag) 1 in
  match find end_tag content from with
  | Some _ => end_block item start_tag end_tag content
  | None => _ ← save_scanned_length item content; mret (false, false)
  end.

(** A start tag was found in the message [item]: the text before it stays, and a
    block starts. *)
Definition begin_block (item : pydict) (before : string) (t : tag) (attr : string) : st tag_state unit :=
  _ ← clear_scanned_length item;
  _ ← set_last_text before;
  _ ← (if Str.is_empty (Str.strip before) then st_modify pop_last else mret tt);
  id ← output_id id_prefix;
  st_modify (push (block_item id t (extract_attributes attr))).

(** The block that has just started may end in the same text. *)
Definition close_last : st tag_state (bool * bool) :=
  s ← st_get;
  match last_item s with
  | Some block => r ← close_block block; mret (true, r.2)
  | None => raise IndexError
  end.

Definition open_block (item : pydict) (text : string) (t : tag) (m : nat * nat * string)
    : st tag_state (bool * bool) :=
  let '(i, j, attr) := m in
  _ ← begin_block item (Str.take i text) t attr;
  let after := Str.drop j text in
  if Str.is_empty after then mret (true, false)
  else
    _ ← update_last (start_block_text after);
    close_last.

(** [tag_output_handler]: whether a tag was consumed, and whether a block ended. *)
Definition inside_block (item : pydict) : bool :=
  match kind with
  | Reasoning => is_type item "reasoning"
  | CodeInterpreter => is_type item "open_webui:code_interpreter"
  | Solution => false
  end || is_message item && veq_str (dget item "_tag_type") (kind_name kind).

Definition tag_output_handler : st tag_state (bool * bool) :=
  s ← st_get;
  match last_item s with
  | None => mret (false, false)
  | Some item =>
      if is_message item && negb (veq_str (dget item "_tag_type") (kind_name kind)) then
        text ← st_lift (get_last_text s);
        start ← search_start item text;
        match first_tag tags text start with
        | Some (t, m) => open_block item text t m
        | None => _ ← save_scanned_length item text; mret (false, false)
        end
      else if inside_block item then close_block item
      else mret (false, false)
  end.
End Kind.
End Handler.

(** ** Deltas of content *)

Section Delta.
Context (uuid : nat → string) (now : spec_float).

(** Appends to the last text of an item, or gives it one. *)
Definition append_block_text (value : string) (item : pydict) : res pydict :=
  p ← last_part item;
  match p with
  | Some (front, p) =>
      old ← ditem p "text"; old ← as_text old;
      Ok (dict_set "content" (VList (front ++ [VDict (dict_set "text" (VStr (old +:+ value)) p)])) item)
  | None => Ok (dict_set "content" (VList [text_part value]) item)
  end.

Definition append_code (value : string) (item : pydict) : res pydict :=
  old ← as_text (dgetd item "code" (VStr EmptyString));
  Ok (dict_set "code" (VStr (old +:+ value)) item).

(** [item.get('attributes', {}).get('type') == 'reasoning_content'] *)
Definition from_reasoning_field (item : pydict) : res bool :=
  t ← vget (dgetd item "attributes" (VDict [])) "type"; Ok (veq_str t "reasoning_content").

(** Reasoning that came in a field of its own ends when content arrives. *)
Definition end_field_reasoning : st tag_state unit :=
  s ← st_get;
  match last_item s with
  | Some item =>
      field ← (if is_type item "reasoning" then st_lift (from_reasoning_field item) else mret false);
      if (field : bool) then
        _ ← update_last (λ item, Ok (dict_set "ended_at" (VFloat now) item));
        _ ← update_last (set_duration now);
        _ ← update_last (λ item, Ok (dict_set "status" (VStr "completed") item));
        id ← output_id uuid "msg";
        st_modify (push (message_item id EmptyString))
      else mret tt
  | None => mret tt
  end.

(** [inside_tag_block] *)
Definition inside_tag_block (item : pydict) : res bool :=
  if negb (veq_str (dget item "status") "in_progress") then Ok false
  else
    field ← from_reasoning_field item;
    Ok (negb field
        && (is_type item "reasoning" || is_type item "open_webui:code_interpreter"
            || is_message item && negb (is_none (dget item "_tag_type")))).

Definition append_value (value : string) : st tag_state unit :=
  s ← st_get;
  inside ← (match last_item s with Some item => st_lift (inside_tag_block item) | None => mret false end);
  if (inside : bool) then
    update_last (λ item, if is_type item "open_webui:code_interpreter" then append_code value item
                         else append_block_text value item)
  else
    _ ← (if match last_item s with Some item => is_message item | None => false end then mret tt
         else id ← output_id uuid "msg"; st_modify (push (message_item id EmptyString)));
    update_last (append_block_text value).

(** The tags a stream looks for, and whether it looks for code *)
Record tag_settings := {
  ts_detect_reasoning : bool;
  ts_reasoning_tags : list tag;
  ts_solution_tags : list tag;
  ts_detect_code : bool;
  ts_code_tags : list tag;
}.

Definition any_field_reasoning (s : tag_state) : res bool :=
  foldM (λ (found : bool) item, if found then Ok true else from_reasoning_field item) false (tg_output s).

(** The three calls of the handler: whether the output was rewritten, and whether a
    code block ended *)
Definition detect_tags (c : tag_settings) : st tag_state (bool * bool) :=
  rewritten ← (if ts_detect_reasoning c then
      s ← st_get;
      field ← st_lift (any_field_reasoning s);
      r ← (if (field : bool) then mret (false, false)
           else tag_output_handler uuid now Reasoning (ts_reasoning_tags c));
      r' ← tag_output_handler uuid now Solution (ts_solution_tags c);
      mret (r.1 || r'.1)
    else mret false);
  if ts_detect_code c then
    r ← tag_output_handler uuid now CodeInterpreter (ts_code_tags c);
    mret ((rewritten : bool) || r.1, r.2)
  else mret (rewritten, false).

(** The branch of [stream_body_handler] for a delta of content *)
Definition content_delta (c : tag_settings) (value : string) : st tag_state (bool * bool) :=
  if Str.is_empty value then mret (false, false)
  else
    _ ← end_field_reasoning;
    _ ← append_value value;
    detect_tags c.

(** What [stream_body_handler] does to the last item when the stream is over *)
Definition strip_last_message : st tag_state unit :=
  s ← st_get;
  match last_item s with
  | Some item =>
      if is_message item then
        p ← st_lift (last_part item);
        match p with
        | Some (_, p) =>
            text ← st_lift (t ← ditem p "text"; as_text t);
            _ ← update_last (set_item_text (Str.strip text));
            if Str.is_empty (Str.strip text) then
              _ ← st_modify pop_last;
              s ← st_get;
              match tg_output s with
              | [] => id ← output_id uuid "msg"; st_modify (push (message_item id EmptyString))
              | _ => mret tt
              end
            else mret tt
        | None => mret tt
        end
      else mret tt
  | None => mret tt
  end.

Definition end_last_reasoning : st tag_state unit :=
  s ← st_get;
  match last_item s with
  | Some item =>
      if is_type item "reasoning" && is_none (dget item "ended_at") then
        _ ← update_last (λ item, Ok (dict_set "ended_at" (VFloat now) item));
        _ ← (if is_none (dget item "started_at") then mret tt else update_last (set_duration now));
        update_last (λ item, Ok (dict_set "status" (VStr "completed") item))
      else mret tt
  | None => mret tt
  end.

Definition finish_output (continuing : bool) : st tag_state unit :=
  _ ← (if continuing then mret tt else strip_last_message);
  end_last_reasoning.
End Delta.

(** The deltas of a stream, each at its time.  An exception skips the rest of its
    delta; the end of a code block ends the reading. *)
Fixpoint content_deltas (uuid : nat → string) (c : tag_settings) (deltas : list (spec_float * string))
    (s : tag_state) : tag_state :=
  match deltas with
  | [] => s
  | (now, value) :: deltas =>
      match content_delta uuid now c value s with
      | (Ok (_, true), s) => s
      | (_, s) => content_deltas uuid c deltas s
      end
  end.

Definition empty_tags : tag_state := {| tg_output := []; tg_scans := []; tg_bounds := []; tg_next := 0 |}.

Definition DEFAULT_SOLUTION_TAGS : list tag := [("<|begin_of_solution|>", "<|end_of_solution|>")].
Definition DEFAULT_CODE_INTERPRETER_TAGS : list tag := [("<code_interpreter>", "</code_interpreter>")].
