(* ===== verification/StreamTagsProps.v ===== *)
(** * Properties of [StreamTags]: remembering what was scanned does not change what
    is found. *)

From S2P Require Import Prelude PyVal PyDecimal Messages AnthropicStream StreamTags.
From Stdlib Require Import Ascii SpecFloat.

Local Open Scope nat_scope.

(** ** Texts by position *)

Lemma get_drop i q s : String.get q (Str.drop i s) = String.get (i + q) s.
Proof. revert s. induction i as [|i IH]; intros [|c s]; [done..|by destruct q|apply IH]. Qed.

Lemma take_cons n c s : Str.take (S n) (String c s) = String c (Str.take n s).
Proof. done. Qed.

Lemma take_zero s : Str.take 0 s = EmptyString.
Proof. by destruct s. Qed.

Lemma take_empty n : Str.take n EmptyString = EmptyString.
Proof. by destruct n. Qed.

Lemma get_take m q s : q < m → String.get q (Str.take m s) = String.get q s.
Proof.
  revert q s. induction m as [|m IH]; intros q s Hq; [lia|]. destruct s as [|c s]; [done|]. rewrite take_cons.
  destruct q as [|q]; [done|]. apply (IH q s). lia.
Qed.

Lemma drop_take i n s : Str.drop i (Str.take n s) = Str.take (n - i) (Str.drop i s).
Proof.
  revert n s. induction i as [|i IH]; intros n s; [by rewrite Nat.sub_0_r|].
  destruct s as [|c s]; [rewrite take_empty; symmetry; apply take_empty|]. destruct n as [|n]; [by rewrite !take_zero|].
  rewrite take_cons. apply (IH n s).
Qed.

Lemma take_app n s t : n <= String.length s → Str.take n (s +:+ t) = Str.take n s.
Proof.
  revert s. induction n as [|n IH]; intros s H; [by rewrite !take_zero|].
  destruct s as [|c s]; cbn in H; [lia|]. change (String c s +:+ t) with (String c (s +:+ t)).
  rewrite !take_cons, IH by lia. done.
Qed.

Lemma get_app q s t : q < String.length s → String.get q (s +:+ t) = String.get q s.
Proof.
  revert q. induction s as [|c s IH]; intros q H; cbn in H; [lia|]. destruct q as [|q]; [done|].
  apply (IH q). lia.
Qed.

Lemma get_some q s : q < String.length s ↔ ∃ c, String.get q s = Some c.
Proof.
  revert q. induction s as [|c s IH]; intros q; cbn.
  - split; [lia|]. by intros [c ?].
  - destruct q as [|q]; [split; [by exists c|lia]|]. rewrite <-IH. lia.
Qed.

Lemma startswith_spec p s : Str.startswith p s = true ↔ ∃ r, s = p +:+ r.
Proof.
  unfold Str.startswith. revert s. induction p as [|c p IH]; intros s; [split; [intros _; by exists s|intros _; by destruct s]|].
  destruct s as [|d s]; cbn.
  - split; [done|]. by intros [r [=]].
  - destruct (ascii_dec c d) as [->|Hcd].
    + rewrite IH. split; intros [r Hr]; exists r.
      * change (String d s = String d (p +:+ r)). by rewrite Hr.
      * change (String d s = String d (p +:+ r)) in Hr. by injection Hr.
    + split; [done|]. intros [r Hr]. change (String d s = String c (p +:+ r)) in Hr. congruence.
Qed.

Lemma startswith_take p s m : String.length p <= m → Str.startswith p (Str.take m s) = Str.startswith p s.
Proof.
  unfold Str.startswith. revert s m. induction p as [|c p IH]; intros s m H; [by destruct (Str.take m s), s|]. cbn in H.
  destruct m as [|m]; [lia|]. destruct s as [|d s]; [done|]. rewrite take_cons. cbn.
  destruct (ascii_dec c d); [|done]. apply IH. lia.
Qed.

Lemma get_startswith p s q : Str.startswith p s = true → q < String.length p → String.get q s = String.get q p.
Proof. intros [r ->]%startswith_spec Hq. by apply get_app. Qed.

Lemma take_take a b s : a <= b → Str.take a (Str.take b s) = Str.take a s.
Proof.
  revert b s. induction a as [|a IH]; intros b s H; [by rewrite !take_zero|].
  destruct b as [|b]; [lia|]. destruct s as [|c s]; [done|]. rewrite !take_cons, IH by lia. done.
Qed.

Lemma sforallb_get p s q c : Str.sforallb p s = true → String.get q s = Some c → p c = true.
Proof.
  revert q. induction s as [|d s IH]; intros q; cbn; [done|]. intros [Hd Hs]%andb_true_iff.
  destruct q as [|q]; [by intros [= <-]|by apply IH].
Qed.

(** ** Matches *)

Lemma attributes_end_spec r n : attributes_end r = Some n →
  0 < n ∧ n <= String.length r ∧
  (∀ q, q < n - 1 → ∃ d, String.get q r = Some d ∧ d ≠ greater_char ∧ d ≠ newline_char) ∧
  ∀ m, n <= m → attributes_end (Str.take m r) = Some n.
Proof.
  revert n. induction r as [|c r IH]; intros n; [done|]. cbn [attributes_end String.length].
  destruct (Ascii.eqb_spec c greater_char) as [->|Hg].
  - intros [= <-]. split_and!; [lia..| |]; [intros q Hq; lia|]. intros [|m] Hm; [lia|]. by rewrite take_cons.
  - destruct (Ascii.eqb_spec c newline_char) as [->|Hn]; [done|].
    destruct (attributes_end r) as [n'|] eqn:E; [|done]. intros [= <-].
    destruct (IH n' eq_refl) as (H0 & Hl & Hc & Ht). split_and!; [lia..| |].
    + intros [|q] Hq; [by exists c|]. destruct (Hc q) as (d & Hd); [lia|]. by exists d.
    + intros [|m] Hm; [lia|]. rewrite take_cons. cbn [attributes_end].
      rewrite (proj2 (Ascii.eqb_neq _ _) Hg), (proj2 (Ascii.eqb_neq _ _) Hn), (Ht m) by lia. done.
Qed.

Definition tag_head (t : string) : string := Str.take (String.length t - 1) t.

Lemma tag_head_length t : is_bracket_tag t = true → String.length (tag_head t) = String.length t - 1 ∧ 1 < String.length t.
Proof.
  unfold is_bracket_tag, tag_head. intros [[r Hr]%startswith_spec [u Hu]%Str.endswith_app]%andb_true_iff.
  rewrite Str.take_length. assert (1 < String.length t); [|lia].
  destruct r as [|c r]; [|rewrite Hr, Str.app_length; cbn; lia]. rewrite Hr in Hu. destruct u as [|c u]; [done|].
  change (String less_char EmptyString = String c (u +:+ ">")) in Hu. injection Hu as _ Hu.
  apply (f_equal String.length) in Hu. rewrite Str.app_length in Hu. cbn in Hu. lia.
Qed.

(** A match is the bare tag, or a bracket tag with attributes. *)
Lemma match_shape t s k a : match_start_tag t s = Some (k, a) →
  k = String.length t ∧ Str.is_empty a = true ∨
  is_bracket_tag t = true ∧ Str.startswith (tag_head t) s = true ∧ String.length t < k ∧
  (∃ c, String.get 0 a = Some c ∧ String.get (String.length t - 1) s = Some c ∧ Str.is_space c = true) ∧
  ∀ q, String.length t - 1 < q → q < k - 1 →
    ∃ d, String.get q s = Some d ∧ d ≠ greater_char ∧ d ≠ newline_char ∧ String.get (q - (String.length t - 1)) a = Some d.
Proof.
  unfold match_start_tag. fold (tag_head t). destruct (is_bracket_tag t) eqn:Eb.
  - destruct (tag_head_length t Eb) as [Hl Hpos]. destruct (Str.startswith (tag_head t) s) eqn:Es; [|done].
    destruct (Str.drop (String.length (tag_head t)) s) as [|c r] eqn:Ed; [done|].
    assert (Hget : ∀ q, String.get (String.length t - 1 + q) s = String.get q (String c r))
      by (intros q; by rewrite <-Hl, <-get_drop, Ed).
    destruct (Str.is_space c) eqn:Ec.
    + destruct (attributes_end r) as [n|] eqn:En; [|done]. intros [= <- <-]. right.
      destruct (attributes_end_spec r n En) as (Hn & _ & Hc & _). split_and!; [done..|lia| |].
      * exists c. split_and!; [done| |done]. by rewrite <-(Nat.add_0_r (String.length t - 1)), Hget.
      * intros q Hq1 Hq2. destruct (Hc (q - String.length t)) as (d & Hd & H1 & H2); [lia|]. exists d.
        split_and!; try done.
        -- replace q with (String.length t - 1 + S (q - String.length t)) by lia. by rewrite Hget.
        -- replace (q - (String.length t - 1)) with (S (q - String.length t)) by lia. cbn.
           rewrite get_take by lia. done.
    + destruct (Ascii.eqb c greater_char); [|done]. intros [= <- <-]. left. split; [lia|done].
  - destruct (Str.startswith t s); [|done]. intros [= <- <-]. by left.
Qed.

(** A match that ends in a prefix is a match of the prefix. *)
Lemma match_take t s k a m : match_start_tag t s = Some (k, a) → k <= m →
  match_start_tag t (Str.take m s) = Some (k, a).
Proof.
  unfold match_start_tag. fold (tag_head t). destruct (is_bracket_tag t) eqn:Eb.
  - destruct (tag_head_length t Eb) as [Hl Hpos]. destruct (Str.startswith (tag_head t) s) eqn:Es; [|done].
    destruct (Str.drop (String.length (tag_head t)) s) as [|c r] eqn:Ed; [done|]. intros H Hm.
    assert (Hk : String.length (tag_head t) + 1 <= k).
    { destruct (Str.is_space c); [destruct (attributes_end r); [|done]|destruct (Ascii.eqb c _); [|done]];
        injection H as <- _; lia. }
    rewrite startswith_take, Es, drop_take, Ed by lia.
    destruct (m - String.length (tag_head t)) as [|m'] eqn:Em; [lia|]. rewrite take_cons.
    destruct (Str.is_space c); [|done]. destruct (attributes_end r) as [n|] eqn:En; [|done].
    injection H as <- <-. destruct (attributes_end_spec r n En) as (Hn & _ & _ & ->); [|lia].
    rewrite take_take by lia. done.
  - destruct (Str.startswith t s) eqn:Es; [|done]. intros [= <- <-] Hm. by rewrite startswith_take, Es.
Qed.

(** [search] answers the leftmost match. *)
Lemma search_from_spec t s i0 : 0 < String.length t →
  match search_from t s i0 with
  | Some (i, j, a) => ∃ k, i = i0 + k ∧ match_start_tag t (Str.drop k s) = Some (j - i, a) ∧ i <= j ∧
      ∀ q, q < k → match_start_tag t (Str.drop q s) = None
  | None => ∀ k, match_start_tag t (Str.drop k s) = None
  end.
Proof.
  intros Ht. revert i0. induction s as [|c s IH]; intros i0; cbn [search_from].
  - assert (Hnone : match_start_tag t EmptyString = None).
    { destruct (match_start_tag t EmptyString) as [[k a]|] eqn:E; [|done]. unfold match_start_tag in E.
      fold (tag_head t) in E. destruct (is_bracket_tag t) eqn:Eb.
      - destruct (Str.startswith _ _); [|done]. by destruct (String.length (tag_head t)).
      - destruct (Str.startswith t EmptyString) eqn:Es; [|done]. apply startswith_spec in Es as [r Hr].
        destruct t; [cbn in Ht; lia|done]. }
    rewrite Hnone. intros k. by destruct k.
  - destruct (match_start_tag t (String c s)) as [[k a]|] eqn:E.
    + exists 0. split_and!; [lia| |lia|lia]. cbn [Str.drop]. by replace (i0 + k - i0) with k by lia.
    + specialize (IH (S i0)). destruct (search_from t s (S i0)) as [[[i j] a]|].
      * destruct IH as (k & -> & Hm & Hij & Hq). exists (S k). split_and!; [lia|done|done|].
        intros [|q] Hqk; [done|]. apply Hq. lia.
      * intros [|k]; [done|apply IH].
Qed.

Lemma drop_drop a b s : Str.drop a (Str.drop b s) = Str.drop (b + a) s.
Proof. revert s. induction b as [|b IH]; intros [|c s]; [done..|by destruct a|apply IH]. Qed.

Lemma search_Some t text pos i j a : 0 < String.length t → search t text pos = Some (i, j, a) ↔
  pos <= i ∧ i <= j ∧ match_start_tag t (Str.drop i text) = Some (j - i, a) ∧
  ∀ q, pos <= q → q < i → match_start_tag t (Str.drop q text) = None.
Proof.
  intros Ht. unfold search. pose proof (search_from_spec t (Str.drop pos text) pos Ht) as H. split.
  - intros E. rewrite E in H. destruct H as (k & -> & Hm & Hij & Hq). rewrite drop_drop in Hm. split_and!; [lia|done..|].
    intros q H1 H2. specialize (Hq (q - pos)). rewrite drop_drop in Hq. replace (pos + (q - pos)) with q in Hq by lia.
    apply Hq. lia.
  - intros (H1 & Hij & Hm & Hno). destruct (search_from t (Str.drop pos text) pos) as [[[i' j'] a']|].
    + destruct H as (k & -> & Hm' & Hij' & Hq). rewrite drop_drop in Hm'. destruct (Nat.lt_total (pos + k) i) as [Hlt|[He|Hgt]].
      * rewrite Hno in Hm' by lia. done.
      * subst i. rewrite Hm in Hm'. injection Hm' as Hjj ->. do 3 f_equal. lia.
      * specialize (Hq (i - pos)). rewrite drop_drop in Hq. replace (pos + (i - pos)) with i in Hq by lia.
        rewrite Hq in Hm by lia. done.
    + specialize (H (i - pos)). rewrite drop_drop in H. replace (pos + (i - pos)) with i in H by lia. congruence.
Qed.

Lemma search_None t text pos : 0 < String.length t → search t text pos = None ↔
  ∀ i, pos <= i → match_start_tag t (Str.drop i text) = None.
Proof.
  intros Ht. unfold search. pose proof (search_from_spec t (Str.drop pos text) pos Ht) as H. split.
  - intros E i Hi. rewrite E in H. specialize (H (i - pos)). rewrite drop_drop in H. by replace (pos + (i - pos)) with i in H by lia.
  - intros Hno. destruct (search_from _ _ _) as [[[i j] a]|]; [|done]. destruct H as (k & -> & Hm & _).
    rewrite drop_drop, Hno in Hm by lia. done.
Qed.

(** Searching from a later position finds the same, if it is not after it. *)
Lemma search_later t text pos : 0 < String.length t →
  (∀ i j a, search t text 0 = Some (i, j, a) → pos <= i) → search t text pos = search t text 0.
Proof.
  intros Ht H. destruct (search t text 0) as [[[i j] a]|] eqn:E.
  - specialize (H i j a eq_refl). apply search_Some in E as (_ & Hij & Hm & Hno); [|done].
    apply search_Some; [done|]. split_and!; [done..|]. intros q Hq. apply Hno. lia.
  - apply search_None; [done|]. intros i Hi. apply (proj1 (search_None t text 0 Ht) E). lia.
Qed.

(** ** Last positions *)

(** [z] is the last position before [n] of a character of [P], or -1. *)
Definition is_last (P : ascii → Prop) (text : string) (n : nat) (z : Z) : Prop :=
  (z = -1)%Z ∧ (∀ q c, q < n → String.get q text = Some c → ¬ P c) ∨
  ∃ p c, z = Z.of_nat p ∧ p < n ∧ String.get p text = Some c ∧ P c ∧
    ∀ q d, p < q → q < n → String.get q text = Some d → ¬ P d.

Lemma last_index_spec c s i l :
  last_index c s i l = l ∧ (∀ q, String.get q s ≠ Some c) ∨
  ∃ p, last_index c s i l = Z.of_nat (i + p) ∧ String.get p s = Some c ∧ ∀ q, p < q → String.get q s ≠ Some c.
Proof.
  revert i l. induction s as [|d s IH]; intros i l; cbn [last_index]; [by left|].
  destruct (IH (S i) (if Ascii.eqb c d then Z.of_nat i else l)) as [[-> Hno]|(p & -> & Hp & Hno)].
  - destruct (Ascii.eqb_spec c d) as [->|Hcd].
    + right. exists 0. split_and!; [f_equal; lia|done|]. intros [|q] Hq; [lia|apply Hno].
    + left. split; [done|]. intros [|q]; [cbn; congruence|apply Hno].
  - right. exists (S p). split_and!; [f_equal; lia|done|]. intros [|q] Hq; [lia|]. apply Hno. lia.
Qed.

Lemma get_none n s : String.length s <= n → String.get n s = None.
Proof.
  intros H. destruct (String.get n s) as [c|] eqn:E; [|done].
  assert (n < String.length s) by (apply get_some; by exists c). lia.
Qed.

Lemma rfind_spec c text lo hi : lo <= hi →
  rfind c text lo hi = (-1)%Z ∧ (∀ q, lo <= q → q < hi → String.get q text ≠ Some c) ∨
  ∃ p, rfind c text lo hi = Z.of_nat p ∧ lo <= p ∧ p < hi ∧ String.get p text = Some c ∧
    ∀ q, p < q → q < hi → String.get q text ≠ Some c.
Proof.
  intros Hlh. unfold rfind. set (s := Str.take (hi - lo) (Str.drop lo text)).
  assert (Hget : ∀ q, q < hi - lo → String.get q s = String.get (lo + q) text)
    by (intros q Hq; unfold s; by rewrite get_take, get_drop).
  assert (Hlen : String.length s <= hi - lo) by (unfold s; rewrite Str.take_length; lia).
  destruct (last_index_spec c s lo (-1)%Z) as [[-> Hno]|(p & -> & Hp & Hno)].
  - left. split; [done|]. intros q H1 H2. replace q with (lo + (q - lo)) by lia. rewrite <-Hget by lia. apply Hno.
  - right. assert (Hpl : p < String.length s) by (apply get_some; by exists c).
    exists (lo + p). split_and!; [done|lia|lia|by rewrite <-Hget by lia|].
    intros q H1 H2. replace q with (lo + (q - lo)) by lia. rewrite <-Hget by lia. apply Hno. lia.
Qed.

Definition is_open (c : ascii) : Prop := c = less_char.
Definition is_boundary (c : ascii) : Prop := c = greater_char ∨ c = newline_char.

(** Only the text added since can move a last position. *)
Lemma is_last_open text m n z : m <= n → is_last is_open text m z →
  is_last is_open text n (let r := rfind less_char text m n in if Z.eqb r (-1) then z else r).
Proof.
  intros Hmn Hz. cbv zeta. destruct (rfind_spec less_char text m n Hmn) as [[-> Hno]|(p & -> & H1 & H2 & H3 & H4)].
  - cbn. destruct Hz as [[-> Hz]|(p & c & -> & Hp & Hc & HP & Hz)].
    + left. split; [done|]. intros q c Hq Hc ->. destruct (decide (q < m)); [by apply (Hz q less_char)|].
      by apply (Hno q); [lia|lia|].
    + right. exists p, c. split_and!; [done|lia|done..|]. intros q d H1 H2 Hd ->.
      destruct (decide (q < m)); [by apply (Hz q less_char)|]. by apply (Hno q); [lia|lia|].
  - destruct (Z.eqb_spec (Z.of_nat p) (-1)); [lia|]. right. exists p, less_char. split_and!; [done..|].
    intros q d Hq1 Hq2 Hd ->. by apply (H4 q).
Qed.

Lemma is_last_boundary text m n z : m <= n → is_last is_boundary text m z →
  is_last is_boundary text n
    (let r := Z.max (rfind greater_char text m n) (rfind newline_char text m n) in if Z.eqb r (-1) then z else r).
Proof.
  intros Hmn Hz. cbv zeta.
  assert (Hor : ∀ q d, String.get q text = Some d → is_boundary d →
    String.get q text = Some greater_char ∨ String.get q text = Some newline_char) by (intros q d -> [->| ->]; auto).
  assert (Hfound : ∀ p c, is_boundary c → m <= p → p < n → String.get p text = Some c →
    (∀ q d, p < q → q < n → String.get q text = Some d → ¬ is_boundary d) →
    is_last is_boundary text n (if Z.eqb (Z.of_nat p) (-1) then z else Z.of_nat p)).
  { intros p c Hc H1 H2 Hp Hno. destruct (Z.eqb_spec (Z.of_nat p) (-1)); [lia|]. right. by exists p, c. }
  destruct (rfind_spec greater_char text m n Hmn) as [[-> Hg]|(p & -> & H1 & H2 & H3 & H4)];
    destruct (rfind_spec newline_char text m n Hmn) as [[-> Hn]|(p' & -> & H1' & H2' & H3' & H4')].
  - cbn. destruct Hz as [[-> Hz]|(p & c & -> & Hp & Hc & HP & Hz)].
    + left. split; [done|]. intros q c Hq Hc HP. destruct (decide (q < m)); [by apply (Hz q c)|].
      destruct (Hor q c Hc HP); [apply (Hg q)|apply (Hn q)]; (done || lia).
    + right. exists p, c. split_and!; [done|lia|done..|]. intros q d H1 H2 Hd HPd.
      destruct (decide (q < m)); [by apply (Hz q d)|]. destruct (Hor q d Hd HPd); [apply (Hg q)|apply (Hn q)]; (done || lia).
  - rewrite Z.max_r by lia. apply (Hfound p' newline_char); [by right|done..|].
    intros q d Hq1 Hq2 Hd HP. destruct (Hor q d Hd HP); [apply (Hg q)|apply (H4' q)]; (done || lia).
  - rewrite Z.max_l by lia. apply (Hfound p greater_char); [by left|done..|].
    intros q d Hq1 Hq2 Hd HP. destruct (Hor q d Hd HP); [apply (H4 q)|apply (Hn q)]; (done || lia).
  - destruct (Nat.le_ge_cases p p').
    + rewrite Z.max_r by lia. apply (Hfound p' newline_char); [by right|done..|].
      intros q d Hq1 Hq2 Hd HP. destruct (Hor q d Hd HP); [apply (H4 q)|apply (H4' q)]; (done || lia).
    + rewrite Z.max_l by lia. apply (Hfound p greater_char); [by left|done..|].
      intros q d Hq1 Hq2 Hd HP. destruct (Hor q d Hd HP); [apply (H4 q)|apply (H4' q)]; (done || lia).
Qed.

Lemma is_last_app P text v n z : n <= String.length text → is_last P text n z → is_last P (text +:+ v) n z.
Proof.
  intros Hn [[-> H]|(p & c & -> & Hp & Hc & HP & H)].
  - left. split; [done|]. intros q c Hq. rewrite get_app by lia. by apply H.
  - right. exists p, c. split_and!; [done|done|by rewrite get_app by lia|done|].
    intros q d H1 H2. rewrite get_app by lia. by apply H.
Qed.

Lemma is_last_none P text : is_last P text 0 (-1)%Z.
Proof. left. split; [done|]. intros q c Hq. lia. Qed.

(** ** Searching on from what was scanned *)

(** Start tags that are not empty; brackets only at the ends of a bracket tag *)
Definition inner_char (c : ascii) : bool :=
  negb (Ascii.eqb c less_char || Ascii.eqb c greater_char || Ascii.eqb c newline_char).
Definition tag_ok (t : string) : bool :=
  negb (Str.is_empty t) &&
  (negb (is_bracket_tag t) || Str.sforallb inner_char (Str.drop 1 (tag_head t))).

(** Attributes without a bracket, not on a new line *)
Definition attribute_plain (a : string) : bool :=
  Str.sforallb (λ c, negb (Ascii.eqb c less_char)) a &&
  match a with String c _ => negb (Ascii.eqb c newline_char) | EmptyString => true end.

Lemma tag_ok_length t : tag_ok t = true → 0 < String.length t.
Proof. unfold tag_ok. destruct t; [done|]. intros _. cbn. lia. Qed.

(** A tag that was not in the scanned part starts where the search resumes. *)
Lemma resumed_start t text n L lo lb i j a : tag_ok t = true → String.length t <= L → n <= String.length text →
  search t (Str.take n text) 0 = None → is_last is_open text n lo → is_last is_boundary text n lb →
  search t text 0 = Some (i, j, a) → attribute_plain a = true →
  n + 1 - L <= i ∨ is_bracket_tag t = true ∧ 0 < n ∧ lo = Z.of_nat i ∧ (lb < lo)%Z.
Proof.
  intros Hok HL Hn Hscan Hlo Hlb Hs Hplain. pose proof (tag_ok_length t Hok) as Hpos.
  apply search_Some in Hs as (_ & Hij & Hm & _); [|done].
  assert (Hout : n < j).
  { destruct (Nat.le_gt_cases j n) as [Hjn|]; [|done]. exfalso.
    apply (match_take _ _ _ _ (n - i)) in Hm; [|lia]. rewrite <-drop_take in Hm.
    apply search_None with (i := i) in Hscan; [congruence|done|lia]. }
  destruct (match_shape _ _ _ _ Hm) as [[Hk _]|(Hb & Hhead & Hlong & (c & Ha0 & Hc & Hsp) & Hattr)]; [left; lia|].
  destruct (decide (n + 1 - L <= i)) as [|Hfar]; [by left|]. right. split; [done|]. split; [lia|].
  destruct (tag_head_length t Hb) as [Hhl Hlen]. rewrite get_drop in Hc.
  unfold tag_ok in Hok. rewrite Hb in Hok. apply andb_true_iff in Hok as [_ Hinner]. cbn [negb orb] in Hinner.
  unfold attribute_plain in Hplain. apply andb_true_iff in Hplain as [Hnolt Hnl].
  assert (Hi : String.get i text = Some less_char).
  { rewrite <-(Nat.add_0_r i), <-get_drop. rewrite (get_startswith _ _ 0 Hhead) by lia.
    unfold tag_head. rewrite get_take by lia. unfold is_bracket_tag in Hb. apply andb_true_iff in Hb as [Hb _].
    by rewrite (get_startswith _ _ 0 Hb) by (cbn; lia). }
  assert (Hafter : ∀ q d, i < q → q < n → String.get q text = Some d → d ≠ less_char ∧ ¬ is_boundary d).
  { intros q d Hiq Hqn Hd. destruct (Nat.lt_total (q - i) (String.length t - 1)) as [Hlt|[Heq|Hgt]].
    - assert (Hd' : String.get (q - i) (tag_head t) = Some d).
      { rewrite <-(get_startswith _ _ (q - i) Hhead), get_drop by lia. by replace (i + (q - i)) with q by lia. }
      assert (Hin : inner_char d = true).
      { apply (sforallb_get _ _ (q - i - 1) d Hinner). rewrite get_drop. by replace (1 + (q - i - 1)) with (q - i) by lia. }
      unfold inner_char in Hin. rewrite negb_true_iff, !orb_false_iff, !Ascii.eqb_neq in Hin.
      split; [tauto|]. intros [->| ->]; tauto.
    - replace (i + (String.length t - 1)) with q in Hc by lia. assert (d = c) as -> by congruence. split.
      + apply (sforallb_get _ _ 0 c Hnolt) in Ha0. by apply negb_true_iff, Ascii.eqb_neq in Ha0.
      + intros [->| ->]; [done|]. destruct a as [|c' a]; [done|]. cbn in Ha0. injection Ha0 as ->.
        by rewrite Ascii.eqb_refl in Hnl.
    - destruct (Hattr (q - i)) as (d' & Hd' & H1 & H2 & H3); [lia|lia|]. rewrite get_drop in Hd'.
      replace (i + (q - i)) with q in Hd' by lia. assert (d' = d) as -> by congruence. split.
      + apply (sforallb_get _ _ _ _ Hnolt) in H3. by apply negb_true_iff, Ascii.eqb_neq in H3.
      + intros [->| ->]; done. }
  assert (Hin : i < n) by lia.
  assert (lo = Z.of_nat i) as ->.
  { destruct Hlo as [[_ H]|(p & d & -> & Hp & Hd & -> & H)]; [by destruct (H i less_char)|].
    destruct (Nat.lt_total p i) as [Hlt|[->|Hgt]]; [by destruct (H i less_char)|done|].
    by destruct (Hafter p less_char Hgt Hp Hd). }
  split; [done|]. destruct Hlb as [[-> _]|(p & d & -> & Hp & Hd & HP & _)]; [lia|].
  destruct (Nat.lt_total p i) as [Hlt|[->|Hgt]]; [lia| |by destruct (Hafter p d Hgt Hp Hd)].
  rewrite Hi in Hd. injection Hd as <-. by destruct HP.
Qed.

(** ** End tags *)

Lemma startswith_empty s : Str.startswith EmptyString s = true.
Proof. by destruct s. Qed.

Lemma find_None sub text pos : find sub text pos = None ↔
  ∀ i, pos <= i → Str.startswith sub (Str.drop i text) = false.
Proof.
  unfold find. assert (H : ∀ s i0, find_from sub s i0 = None ↔ ∀ i, Str.startswith sub (Str.drop i s) = false).
  { induction s as [|c s IH]; intros i0; cbn [find_from].
    - destruct (Str.startswith sub EmptyString) eqn:E; split; try done.
      + intros H. specialize (H 0). cbn [Str.drop] in H. congruence.
      + intros _ i. by destruct i.
    - destruct (Str.startswith sub (String c s)) eqn:E; split; try done.
      + intros H. specialize (H 0). cbn [Str.drop] in H. congruence.
      + intros Hn [|i]; [done|]. by apply IH with (i0 := S i0).
      + intros H. apply IH. intros i. apply (H (S i)). }
  rewrite H. split; intros Hi i.
  - intros Hp. specialize (Hi (i - pos)). rewrite drop_drop in Hi. by replace (pos + (i - pos)) with i in Hi by lia.
  - rewrite drop_drop. apply Hi. lia.
Qed.

(** An end tag that was not in the scanned part ends after it. *)
Lemma resumed_end sub text n : n <= String.length text → (0 < n → find sub (Str.take n text) 0 = None) →
  (find sub text (n + 1 - Nat.max (String.length sub) 1) = None ↔ find sub text 0 = None).
Proof.
  intros Hn Hscan. destruct (Nat.eq_0_gt_0_cases n) as [->|Hpos].
  { by replace (0 + 1 - Nat.max (String.length sub) 1) with 0 by lia. }
  specialize (Hscan Hpos). rewrite !find_None. rewrite find_None in Hscan. split; intros H i Hi; [|apply H; lia].
  destruct (decide (n + 1 - Nat.max (String.length sub) 1 <= i)) as [|Hlt]; [by apply H|].
  assert (Hsub : sub ≠ EmptyString).
  { intros ->. specialize (Hscan 0 ltac:(lia)). by rewrite startswith_empty in Hscan. }
  assert (0 < String.length sub) by (destruct sub; [done|cbn; lia]).
  specialize (Hscan i ltac:(lia)). rewrite drop_take, startswith_take in Hscan by lia. done.
Qed.

(** ** Operations that do not read what was scanned *)

Definition forget (s : tag_state) : tag_state := with_bounds [] (with_scans [] s).
Definition view {A} (m : st tag_state A) (s : tag_state) : res A * tag_state := ((m s).1, forget (m s).2).
Definition oblivious {A} (m : st tag_state A) : Prop := ∀ s, view m s = view m (forget s).

Lemma forget_forget s : forget (forget s) = forget s. Proof. done. Qed.

Lemma view_same {A} (m : st tag_state A) s s' : oblivious m → forget s = forget s' → view m s = view m s'.
Proof. intros Hm E. by rewrite Hm, E, <-Hm. Qed.

Lemma view_bind {A B} (m : st tag_state A) (f : A → st tag_state B) s s' :
  view m s = view m s' → (∀ a, oblivious (f a)) → view (m ≫= f) s = view (m ≫= f) s'.
Proof.
  intros Hm Hf. unfold view in *. rewrite !st_bind_eq. apply pair_eq in Hm as [E1 E2].
  destruct (m s) as [r s1], (m s') as [r' s1']. cbn [fst snd] in E1, E2. subst r'.
  destruct r as [a|e]; [by apply (view_same (f a))|]. cbn [fst snd]. by rewrite E2.
Qed.

Lemma oblivious_bind {A B} (m : st tag_state A) (f : A → st tag_state B) :
  oblivious m → (∀ a, oblivious (f a)) → oblivious (m ≫= f).
Proof. intros Hm Hf s. apply view_bind; [apply Hm|done]. Qed.

Lemma oblivious_ret {A} (a : A) : oblivious (mret a). Proof. done. Qed.
Lemma oblivious_raise {A} e : oblivious (raise (A := A) e). Proof. done. Qed.
Lemma oblivious_lift {A} (r : res A) : oblivious (st_lift r). Proof. done. Qed.
Lemma oblivious_push item : oblivious (st_modify (push item)). Proof. done. Qed.
Lemma oblivious_pop : oblivious (st_modify pop_last). Proof. done. Qed.
Lemma oblivious_scans f : oblivious (st_modify (λ s, with_scans (f s) s)). Proof. done. Qed.
Lemma oblivious_output_id uuid p : oblivious (output_id uuid p). Proof. done. Qed.

Lemma oblivious_update_last f : oblivious (update_last f).
Proof.
  intros s. unfold view, update_last. change (last_item (forget s)) with (last_item s).
  destruct (last_item s) as [item|]; [|done]. by destruct (f item).
Qed.

Lemma oblivious_set_last_text t : oblivious (set_last_text t).
Proof.
  intros s. unfold view, set_last_text. change (last_item (forget s)) with (last_item s).
  destruct (last_item s) as [item|]; [|done]. destruct (is_message item); [|done]. by destruct (set_item_text t item).
Qed.

Lemma oblivious_if {A} (b : bool) (m n : st tag_state A) : oblivious m → oblivious n → oblivious (if b then m else n).
Proof. by destruct b. Qed.

Create HintDb oblivious discriminated.
#[export] Hint Resolve oblivious_bind oblivious_ret oblivious_raise oblivious_lift oblivious_push oblivious_pop
  oblivious_output_id oblivious_update_last oblivious_set_last_text oblivious_if : oblivious.

Lemma oblivious_save k item t : oblivious (save_scanned_length k item t).
Proof. unfold save_scanned_length. apply oblivious_if; [auto with oblivious|]. apply oblivious_bind; [auto with oblivious|done]. Qed.
Lemma oblivious_clear k item : oblivious (clear_scanned_length k item).
Proof. unfold clear_scanned_length. apply oblivious_if; [auto with oblivious|]. apply oblivious_bind; [auto with oblivious|done]. Qed.
#[export] Hint Resolve oblivious_save oblivious_clear : oblivious.

(** ** What the caches hold *)

Lemma same_key_text x a k : same_key (VStr x, a) k = true ↔ k = (VStr x, a).
Proof.
  destruct k as [v b]. unfold same_key. cbn [fst snd]. rewrite andb_true_iff, String.eqb_eq. split.
  - intros [Hv ->]. destruct v; try done. cbn in Hv. apply String.eqb_eq in Hv. by subst.
  - intros [= -> ->]. cbn. by rewrite String.eqb_refl.
Qed.

Section Keys.
Context {V : Type}.
Implicit Types d : list (scan_key * V).

Lemma key_get_pop x a y b d : key_get (VStr x, a) (key_pop (VStr y, b) d) =
  if decide ((x, a) = (y, b)) then None else key_get (VStr x, a) d.
Proof.
  induction d as [|[k v] d IH]; [by destruct (decide _)|]. cbn [key_pop List.filter fst].
  destruct (same_key (VStr y, b) k) eqn:E; cbn [negb].
  - apply same_key_text in E as ->. unfold key_pop in IH. rewrite IH. destruct (decide _) as [|Hne]; [done|].
    cbn [key_get]. destruct (same_key (VStr x, a) (VStr y, b)) eqn:E; [|done].
    apply same_key_text in E. congruence.
  - cbn [key_get]. unfold key_pop in IH. rewrite IH. destruct (same_key (VStr x, a) k) eqn:E'; [|done].
    apply same_key_text in E' as ->. destruct (decide _) as [[= -> ->]|]; [|done].
    rewrite (proj2 (same_key_text y b _)) in E; done.
Qed.

Lemma key_get_set x a y b v d : key_get (VStr x, a) (key_set (VStr y, b) v d) =
  if decide ((x, a) = (y, b)) then Some v else key_get (VStr x, a) d.
Proof.
  unfold key_set. cbn [key_get]. destruct (same_key (VStr x, a) (VStr y, b)) eqn:E.
  - apply same_key_text in E as [= -> ->]. by rewrite decide_True.
  - rewrite key_get_pop. destruct (decide _) as [[= -> ->]|]; [|done].
    rewrite (proj2 (same_key_text y b _)) in E; done.
Qed.
End Keys.

Lemma kind_name_inj k k' : kind_name k = kind_name k' → k = k'.
Proof. by destruct k, k'. Qed.

(** A message that no block of the kind has started *)
Definition plain_message (k : tag_kind) (item : pydict) : bool :=
  is_message item && negb (veq_str (dget item "_tag_type") (kind_name k)).

(** The prefixes of the identifiers of output items *)
Definition prefixes : list string := ["r"; "ci"; "msg"; "fc"; "fco"; "cc"].

Section Caches.
Context (uuid : nat → string) (tags_of : tag_kind → list tag).

Definition drawn (n : nat) (x : string) : Prop := ∃ p, p ∈ prefixes ∧ x = p +:+ "_" +:+ uuid n.

(** The scanned part of an item holds no tag that the next scan looks for. *)
Definition scanned_ok (k : tag_kind) (item : pydict) (n : nat) : Prop :=
  ∀ text, block_content item = Ok text → n <= String.length text ∧
    (plain_message k item = true → ∀ t, t ∈ tags_of k → search t.1 (Str.take n text) 0 = None) ∧
    (plain_message k item = false → 0 < n → ∀ e, as_text (dgetd item "end_tag" (VStr EmptyString)) = Ok e →
       find e (Str.take n text) 0 = None).

Definition bounds_ok (item : pydict) (b : nat * Z * Z) : Prop :=
  ∀ text, block_content item = Ok text → b.1.1 <= String.length text ∧
    is_last is_open text b.1.1 b.1.2 ∧ is_last is_boundary text b.1.1 b.2.

(** Identifiers still to be drawn are in no item and no cache. *)
Record ids_ok (s : tag_state) : Prop := {
  io_ids item : item ∈ tg_output s → ∃ x, dget item "id" = VStr x ∧ Str.is_empty x = false;
  io_fresh x n : tg_next s <= n → drawn n x →
    (∀ item, item ∈ tg_output s → dget item "id" ≠ VStr x) ∧
    (∀ k, key_get (VStr x, kind_name k) (tg_scans s) = None ∧ key_get (VStr x, kind_name k) (tg_bounds s) = None);
}.

(** The entries of the last item *)
Record caches_ok (s : tag_state) : Prop := {
  co_ids : ids_ok s;
  co_kinds item x k : last_item s = Some item → dget item "id" = VStr x →
    plain_message k item || inside_block k item = false →
    key_get (VStr x, kind_name k) (tg_scans s) = None ∧ key_get (VStr x, kind_name k) (tg_bounds s) = None;
  co_scan item x k n : last_item s = Some item → dget item "id" = VStr x →
    key_get (VStr x, kind_name k) (tg_scans s) = Some n → scanned_ok k item n;
  co_bounds item x k b : last_item s = Some item → dget item "id" = VStr x →
    key_get (VStr x, kind_name k) (tg_bounds s) = Some b → bounds_ok item b;
}.

Definition uncached (s : tag_state) : Prop :=
  ∀ item x k, last_item s = Some item → dget item "id" = VStr x →
    key_get (VStr x, kind_name k) (tg_scans s) = None ∧ key_get (VStr x, kind_name k) (tg_bounds s) = None.

Lemma uncached_ok s : ids_ok s → uncached s → caches_ok s.
Proof.
  intros Hi Hu. split; [done|..].
  - intros item x k Hl Hx _. by apply (Hu item).
  - intros item x k n Hl Hx. destruct (Hu item x k Hl Hx) as [-> _]. done.
  - intros item x k b Hl Hx. destruct (Hu item x k Hl Hx) as [_ ->]. done.
Qed.

Lemma last_elem s item : last_item s = Some item → item ∈ tg_output s.
Proof. unfold last_item. intros H. apply last_Some in H as [l ->]. apply elem_of_app. right. by left. Qed.

Lemma scanned_length k item x text s : dget item "id" = VStr x →
  get_scanned_length k item text s = Ok (if Str.is_empty x then 0 else
    let n := default 0 (key_get (VStr x, kind_name k) (tg_scans s)) in
    if n <=? String.length text then n else 0).
Proof. intros H. unfold get_scanned_length. rewrite H. by destruct x. Qed.

Lemma scanned_forget k item x text s : dget item "id" = VStr x → get_scanned_length k item text (forget s) = Ok 0.
Proof. intros H. rewrite (scanned_length _ _ x) by done. destruct (Str.is_empty x); done. Qed.

(** What is read of the caches is right. *)
Lemma scanned_good k item x text s : caches_ok s → last_item s = Some item → dget item "id" = VStr x →
  block_content item = Ok text → ∃ n, get_scanned_length k item text s = Ok n ∧ n <= String.length text ∧
    (n = 0 ∨ scanned_ok k item n).
Proof.
  intros Hs Hl Hx Ht. rewrite (scanned_length _ _ x) by done. eexists. split; [done|].
  destruct (Str.is_empty x); [split; [lia|by left]|]. cbv zeta.
  destruct (key_get (VStr x, kind_name k) (tg_scans s)) as [n|] eqn:E; cbn; [|split; [lia|by left]].
  destruct (Nat.leb_spec n (String.length text)); [|split; [lia|by left]].
  split; [done|]. right. by apply (co_scan s Hs item x).
Qed.

(** *** Changes of the output *)

(** The last item with more text, and nothing else that a scan reads changed *)
Definition grows (v : string) (item item' : pydict) : Prop :=
  dget item' "id" = dget item "id" ∧ dget item' "type" = dget item "type" ∧
  dget item' "_tag_type" = dget item "_tag_type" ∧
  dgetd item' "end_tag" (VStr EmptyString) = dgetd item "end_tag" (VStr EmptyString) ∧
  ∀ text', block_content item' = Ok text' → ∃ text, block_content item = Ok text ∧ text' = text +:+ v.

Lemma last_push s item : last_item (push item s) = Some item.
Proof. unfold last_item, push. cbn. by rewrite last_snoc. Qed.

Lemma last_set item s : last_item (set_last item s) = Some item.
Proof. unfold last_item, set_last. cbn. by rewrite last_snoc. Qed.

Lemma removelast_elem {A} (l : list A) x : x ∈ removelast l → x ∈ l.
Proof.
  induction l as [|y l IH]; [done|]. cbn [removelast]. destruct l as [|z l]; [by intros ?%elem_of_nil|].
  intros [->|H]%elem_of_cons; [by left|right; by apply IH].
Qed.

Lemma ids_pop s : ids_ok s → ids_ok (pop_last s).
Proof.
  intros [H1 H2]. split.
  - intros item Hi. apply H1. by apply removelast_elem.
  - intros x n Hn Hx. destruct (H2 x n Hn Hx) as [Ho Hk]. split; [|done]. intros item Hi. apply Ho. by apply removelast_elem.
Qed.

Lemma ids_set_last s item item' : last_item s = Some item → dget item' "id" = dget item "id" →
  ids_ok s → ids_ok (set_last item' s).
Proof.
  intros Hl Hid [H1 H2]. apply last_elem in Hl. split.
  - intros i [Hi| ->%list_elem_of_singleton]%elem_of_app; [apply H1; by apply removelast_elem|].
    rewrite Hid. by apply H1.
  - intros x n Hn Hx. destruct (H2 x n Hn Hx) as [Ho Hk]. split; [|done].
    intros i [Hi| ->%list_elem_of_singleton]%elem_of_app; [apply Ho; by apply removelast_elem|].
    rewrite Hid. by apply Ho.
Qed.

Lemma scanned_grows k v item item' n : grows v item item' → scanned_ok k item n → scanned_ok k item' n.
Proof.
  intros (Hid & Hty & Htt & Hend & Htext) H text' Ht'. destruct (Htext text' Ht') as (text & Ht & ->).
  destruct (H text Ht) as (Hn & Hp & He).
  assert (plain_message k item' = plain_message k item) as -> by (unfold plain_message, is_message, is_type; by rewrite Hty, Htt).
  rewrite Str.app_length, take_app, Hend by done. split_and!; [lia|done..].
Qed.

Lemma bounds_grows v item item' b : grows v item item' → bounds_ok item b → bounds_ok item' b.
Proof.
  intros (_ & _ & _ & _ & Htext) H text' Ht'. destruct (Htext text' Ht') as (text & Ht & ->).
  destruct (H text Ht) as (Hn & Ho & Hb). rewrite Str.app_length. split_and!; [lia|by apply is_last_app..].
Qed.

Lemma caches_grow v s item item' : last_item s = Some item → grows v item item' → caches_ok s → caches_ok (set_last item' s).
Proof.
  intros Hl Hg Hs. pose proof Hg as (Hid & Hty & Htt & _ & _). split.
  - by apply (ids_set_last _ item); [..|apply Hs].
  - intros i x k Hi Hx Hk. rewrite last_set in Hi. injection Hi as <-. apply (co_kinds s Hs item x k Hl); [congruence|].
    revert Hk. unfold plain_message, inside_block, is_message, is_type. by rewrite Hty, Htt.
  - intros i x k n Hi Hx Hk. rewrite last_set in Hi. injection Hi as <-. apply (scanned_grows k v item); [done|].
    apply (co_scan s Hs item x k n Hl); [congruence|done].
  - intros i x k b Hi Hx Hk. rewrite last_set in Hi. injection Hi as <-. apply (bounds_grows v item); [done|].
    apply (co_bounds s Hs item x k b Hl); [congruence|done].
Qed.

Lemma uncached_set_last s item item' : last_item s = Some item → dget item' "id" = dget item "id" →
  uncached s → uncached (set_last item' s).
Proof.
  intros Hl Hid Hu i x k Hi Hx. rewrite last_set in Hi. injection Hi as <-. apply (Hu item x k Hl). congruence.
Qed.

(** A new item with an identifier that was just drawn *)
Hypothesis uuid_inj : ∀ n m, uuid n = uuid m → n = m.

Lemma drawn_inj p n m : p ∈ prefixes → drawn m (p +:+ "_" +:+ uuid n) → n = m.
Proof.
  intros Hp (q & Hq & E).
  assert (Hsuf : ∀ c a b, String c a = String c b → a = b) by (by intros c a b [= ->]).
  apply uuid_inj.
  repeat (apply elem_of_cons in Hp as [->|Hp] || apply elem_of_nil in Hp as []);
  repeat (apply elem_of_cons in Hq as [->|Hq] || apply elem_of_nil in Hq as []);
    try (by apply (f_equal (String.get 0)) in E); try (by apply (f_equal (String.get 1)) in E);
    try (by apply (f_equal (String.get 2)) in E);
    cbn in E; repeat (apply Hsuf in E); done.
Qed.

Definition bump (s : tag_state) : tag_state :=
  {| tg_output := tg_output s; tg_scans := tg_scans s; tg_bounds := tg_bounds s; tg_next := S (tg_next s) |}.

Lemma push_ok p item s : p ∈ prefixes → dget item "id" = VStr (p +:+ "_" +:+ uuid (tg_next s)) →
  ids_ok s → ids_ok (push item (bump s)) ∧ uncached (push item (bump s)).
Proof.
  intros Hp Hid [H1 H2]. split; [split|].
  - intros i [Hi| ->%list_elem_of_singleton]%elem_of_app; [by apply H1|].
    eexists. split; [done|]. repeat (apply elem_of_cons in Hp as [->|Hp] || apply elem_of_nil in Hp as []); done.
  - intros x n Hn Hx. destruct (H2 x n) as [Ho Hk]; [cbn in Hn; lia|done|]. split; [|done].
    intros i [Hi| ->%list_elem_of_singleton]%elem_of_app; [by apply Ho|]. rewrite Hid. intros [= <-].
    apply drawn_inj in Hx; [|done]. cbn in Hn. lia.
  - intros i x k Hi Hx. rewrite last_push in Hi. injection Hi as <-. rewrite Hid in Hx. injection Hx as <-.
    destruct (H2 (p +:+ "_" +:+ uuid (tg_next s)) (tg_next s)) as [_ Hk]; [done|by exists p|]. apply Hk.
Qed.

(** *** Changes of the caches *)

Lemma take_all s : Str.take (String.length s) s = s.
Proof.
  induction s as [|c s IH]; [done|]. change (Str.take (S (String.length s)) (String c s) = String c s).
  by rewrite take_cons, IH.
Qed.

Lemma clear_run k item x s : dget item "id" = VStr x → ∃ s', clear_scanned_length k item s = (Ok tt, s') ∧
  tg_output s' = tg_output s ∧ tg_next s' = tg_next s ∧
  ∀ y k', (key_get (VStr y, kind_name k') (tg_scans s') = None ∨
           key_get (VStr y, kind_name k') (tg_scans s') = key_get (VStr y, kind_name k') (tg_scans s)) ∧
          (key_get (VStr y, kind_name k') (tg_bounds s') = None ∨
           key_get (VStr y, kind_name k') (tg_bounds s') = key_get (VStr y, kind_name k') (tg_bounds s)) ∧
          (y = x → k' = k → Str.is_empty x = false → key_get (VStr y, kind_name k') (tg_scans s') = None ∧
             key_get (VStr y, kind_name k') (tg_bounds s') = None).
Proof.
  intros Hx. unfold clear_scanned_length. rewrite Hx. destruct (negb (truthy (VStr x))) eqn:E.
  - exists s. split_and!; [done..|]. intros y k'. split; [by right|]. split; [by right|]. intros _ _ He. by destruct x.
  - eexists. split; [reflexivity|]. split; [done|]. split; [done|]. intros y k'. cbn [tg_scans tg_bounds with_scans with_bounds].
    rewrite !key_get_pop. destruct (decide _) as [|Hne]; [split; [by left|split; [by left|done]]|].
    split; [by right|]. split; [by right|]. intros -> -> _. done.
Qed.

Lemma ids_fewer s s' : tg_output s' = tg_output s → tg_next s' = tg_next s →
  (∀ y k, (key_get (VStr y, kind_name k) (tg_scans s') = None ∨
           key_get (VStr y, kind_name k) (tg_scans s') = key_get (VStr y, kind_name k) (tg_scans s)) ∧
          (key_get (VStr y, kind_name k) (tg_bounds s') = None ∨
           key_get (VStr y, kind_name k) (tg_bounds s') = key_get (VStr y, kind_name k) (tg_bounds s))) →
  ids_ok s → ids_ok s'.
Proof.
  intros Ho Hn Hk [H1 H2]. split; [by rewrite Ho|]. rewrite Ho, Hn. intros x n Hx Hd.
  destruct (H2 x n Hx Hd) as [Hi Hc]. split; [done|]. intros k. destruct (Hk x k) as [[->| ->] [->| ->]];
    destruct (Hc k); done.
Qed.

Lemma caches_fewer s s' : tg_output s' = tg_output s → tg_next s' = tg_next s →
  (∀ y k, (key_get (VStr y, kind_name k) (tg_scans s') = None ∨
           key_get (VStr y, kind_name k) (tg_scans s') = key_get (VStr y, kind_name k) (tg_scans s)) ∧
          (key_get (VStr y, kind_name k) (tg_bounds s') = None ∨
           key_get (VStr y, kind_name k) (tg_bounds s') = key_get (VStr y, kind_name k) (tg_bounds s))) →
  caches_ok s → caches_ok s'.
Proof.
  intros Ho Hn Hk Hs. assert (Hl : last_item s' = last_item s) by (unfold last_item; by rewrite Ho).
  split; rewrite ?Hl.
  - by apply (ids_fewer s); [..|apply Hs].
  - intros item x k Hi Hx Hp. destruct (co_kinds s Hs item x k Hi Hx Hp).
    destruct (Hk x k) as [[->| ->] [->| ->]]; done.
  - intros item x k n Hi Hx. destruct (Hk x k) as [[->| ->] _]; [done|]. by apply (co_scan s Hs item).
  - intros item x k b Hi Hx. destruct (Hk x k) as [_ [->| ->]]; [done|]. by apply (co_bounds s Hs item).
Qed.

(** A scan of the whole text that found nothing is remembered. *)
Lemma save_ok k item x text s : caches_ok s → last_item s = Some item → dget item "id" = VStr x →
  block_content item = Ok text → plain_message k item || inside_block k item = true →
  scanned_ok k item (String.length text) → caches_ok (save_scanned_length k item text s).2.
Proof.
  intros Hs Hl Hx Ht Hk Hscan. unfold save_scanned_length. rewrite Hx. destruct (negb (truthy (VStr x))); [done|].
  assert (E : (st_lift (hashed (VStr x)) ≫= λ id, st_modify (λ s, with_scans (key_set (id, kind_name k) (String.length text) (tg_scans s)) s)) s
    = (Ok tt, with_scans (key_set (VStr x, kind_name k) (String.length text) (tg_scans s)) s)) by done.
  rewrite E. clear E. cbn [snd]. destruct Hs as [[H1 H2] H3 H4 H5]. split; [split; [done|]|..]; cbn [tg_scans tg_bounds tg_output tg_next with_scans].
  - intros y n Hn Hy. destruct (H2 y n Hn Hy) as [Ho Hc]. split; [done|]. intros k'. rewrite key_get_set.
    destruct (decide _) as [[= -> _]|]; [|done]. by destruct (Ho item (last_elem _ _ Hl)).
  - intros i y k' Hi Hy Hp. rewrite key_get_set. destruct (H3 i y k' Hi Hy Hp) as [Ha Hb].
    destruct (decide _) as [[= -> Hkk]|]; [|done]. apply kind_name_inj in Hkk as ->.
    change (last_item s = Some i) in Hi. rewrite Hl in Hi. injection Hi as <-. congruence.
  - intros i y k' n Hi Hy. rewrite key_get_set. destruct (decide _) as [[= -> Hkk]|].
    + intros [= <-]. apply kind_name_inj in Hkk as ->. change (last_item s = Some i) in Hi. rewrite Hl in Hi. by injection Hi as <-.
    + by apply (H4 i y k').
  - done.
Qed.

(** *** The end of a block *)

Lemma set_text_ids f s (Hf : ∀ item item', f item = Ok item' → dget item' "id" = dget item "id") :
  ids_ok s → ids_ok (update_last f s).2.
Proof.
  intros Hs. unfold update_last. destruct (last_item s) as [item|] eqn:E; [|done]. destruct (f item) as [item'|] eqn:Ef; [|done].
  cbn. apply (ids_set_last s item); [done|by apply Hf|done].
Qed.

Lemma set_text_uncached f s (Hf : ∀ item item', f item = Ok item' → dget item' "id" = dget item "id") :
  uncached s → uncached (update_last f s).2.
Proof.
  intros Hs. unfold update_last. destruct (last_item s) as [item|] eqn:E; [|done]. destruct (f item) as [item'|] eqn:Ef; [|done].
  cbn. apply (uncached_set_last s item); [done|by apply Hf|done].
Qed.

Lemma set_item_text_id t item item' : set_item_text t item = Ok item' → dget item' "id" = dget item "id".
Proof.
  unfold set_item_text. intros (p & _ & H)%bind_Ok. injection H as <-. destruct p as [[front p]|]; [|done].
  by rewrite dget_set_ne.
Qed.

Lemma finished_text_id t item item' : finished_text t item = Ok item' → dget item' "id" = dget item "id".
Proof.
  unfold finished_text. destruct (is_type item "reasoning"); [intros [= <-]; by rewrite dget_set_ne|].
  destruct (is_type item _); [intros [= <-]; by rewrite dget_set_ne|]. apply set_item_text_id.
Qed.

Lemma set_duration_id now item item' : set_duration now item = Ok item' → dget item' "id" = dget item "id".
Proof.
  unfold set_duration. intros (v & _ & H)%bind_Ok. apply bind_Ok in H as (d & _ & H). apply bind_Ok in H as (n & _ & [= <-]).
  by rewrite dget_set_ne.
Qed.

Lemma set_key_id k v item item' : k ≠ "id" → Ok (dict_set k v item) = Ok item' → dget item' "id" = dget item "id".
Proof. intros Hk [= <-]. by rewrite dget_set_ne. Qed.

(** An operation that leaves good caches even when it fails *)
Definition hoare {A} (P : tag_state → Prop) (m : st tag_state A) (Q : A → tag_state → Prop) : Prop :=
  ∀ s, P s → match m s with (Ok a, s') => Q a s' | (Err _, s') => caches_ok s' end.

Lemma hoare_bind {A B} P (m : st tag_state A) Q (f : A → st tag_state B) R :
  hoare P m Q → (∀ a, hoare (Q a) (f a) R) → hoare P (m ≫= f) R.
Proof.
  intros Hm Hf s Hs. rewrite st_bind_eq. specialize (Hm s Hs). destruct (m s) as [[a|e] s']; [by apply Hf|done].
Qed.

Lemma hoare_caches {A} P (m : st tag_state A) s : hoare P m (λ _, caches_ok) → P s → caches_ok (m s).2.
Proof. intros H Hs. specialize (H s Hs). by destruct (m s) as [[a|e] s']. Qed.

Definition held (s : tag_state) : Prop := ids_ok s ∧ last_item s ≠ None.
Definition held_uncached (s : tag_state) : Prop := ids_ok s ∧ uncached s ∧ last_item s ≠ None.

Lemma held_uncached_ok s : held_uncached s → caches_ok s.
Proof. intros (H1 & H2 & _). by apply uncached_ok. Qed.

Lemma hoare_update_held f : (∀ item item', f item = Ok item' → dget item' "id" = dget item "id") →
  (∀ item, is_ok (f item) = true) → hoare held (update_last f) (λ _, held).
Proof.
  intros Hid Hok s [Hs Hl]. pose proof (set_text_ids f s Hid Hs) as H. unfold update_last in *.
  destruct (last_item s) as [item|]; [|done]. specialize (Hok item). destruct (f item) as [item'|]; [|done].
  split; [done|]. by rewrite last_set.
Qed.

Lemma hoare_update_uncached f : (∀ item item', f item = Ok item' → dget item' "id" = dget item "id") →
  hoare held_uncached (update_last f) (λ _, held_uncached).
Proof.
  intros Hid s (Hs & Hu & Hl). pose proof (set_text_ids f s Hid Hs) as H. pose proof (set_text_uncached f s Hid Hu) as H'.
  unfold update_last in *. destruct (last_item s) as [item|]; [|done]. destruct (f item) as [item'|].
  - split; [done|]. split; [done|]. by rewrite last_set.
  - by apply uncached_ok.
Qed.

Lemma msg_prefix : "msg" ∈ prefixes. Proof. do 2 right. left. Qed.

Lemma push_message text s : ids_ok s → caches_ok (push (message_item ("msg" +:+ "_" +:+ uuid (tg_next s)) text) (bump s)).
Proof.
  intros Hs. destruct (push_ok "msg" (message_item ("msg" +:+ "_" +:+ uuid (tg_next s)) text) s) as [H1 H2];
    [apply msg_prefix|done|done|]. by apply uncached_ok.
Qed.

Lemma end_item_ok now item text :
  hoare (λ s, caches_ok s ∧ last_item s ≠ None ∧ (is_message item = false → uncached s)) (end_item now item text)
    (λ _, ids_ok).
Proof.
  unfold end_item. destruct (Str.is_empty text).
  { intros s (Hs & _). cbn. by apply ids_pop, Hs. }
  apply (hoare_bind _ _ (λ _ s, held s ∧ (is_message item = false → uncached s))).
  { intros s (Hs & Hl & Hu). pose proof (set_text_ids (finished_text text) s (finished_text_id text) (co_ids s Hs)) as H.
    pose proof (λ E, set_text_uncached (finished_text text) s (finished_text_id text) (Hu E)) as H'.
    unfold update_last in *. destruct (last_item s) as [i|]; [|done]. destruct (finished_text text i); [|done].
    split; [|done]. split; [done|]. by rewrite last_set. }
  intros _. destruct (is_message item).
  - apply (hoare_bind _ _ (λ _, held)).
    + intros s [Hs _]. apply (hoare_update_held (λ item, Ok (dict_set "ended_at" (VFloat now) item))); [|done|done].
      intros i i'. by apply set_key_id.
    + by intros _ s [Hs _].
  - apply (hoare_bind _ _ (λ _, held_uncached)).
    + intros s [[H1 H2] H3]. apply (hoare_update_uncached (λ item, Ok (dict_set "ended_at" (VFloat now) item)));
        [|split_and!; [done|by apply H3|done]]. intros i i'. by apply set_key_id.
    + intros _. apply (hoare_bind _ _ (λ _, held_uncached)); [apply hoare_update_uncached, set_duration_id|].
      intros _. destruct (is_type item "reasoning").
      * intros s Hs. pose proof (hoare_update_uncached (λ item, Ok (dict_set "status" (VStr "completed") item))) as H.
        specialize (H (λ i i', set_key_id "status" (VStr "completed") i i' ltac:(done)) s Hs).
        destruct (update_last _ s) as [[a|e] s']; [by destruct H|done].
      * by intros s [Hs _].
Qed.

Lemma end_block_oblivious now k item t e c : oblivious (end_block uuid now k item t e c).
Proof.
  unfold end_block, end_item. apply oblivious_bind; [auto with oblivious|]. intros _.
  apply oblivious_bind; [|auto 10 with oblivious]. apply oblivious_if; [auto with oblivious|].
  apply oblivious_bind; [auto with oblivious|]. intros _. apply oblivious_bind; [auto with oblivious|]. intros _.
  apply oblivious_if; [auto with oblivious|]. apply oblivious_bind; auto with oblivious.
Qed.

Lemma plain_not_inside k item : inside_block k item = true → plain_message k item = false.
Proof.
  unfold inside_block, plain_message, is_message, is_type. rewrite orb_true_iff, andb_true_iff. intros [H|[_ H]].
  - destruct k; [destruct (veq_str (dget item "type") "message") eqn:E|done|destruct (veq_str (dget item "type") "message") eqn:E];
      try done; destruct (dget item "type"); try done; cbn in *; apply String.eqb_eq in H, E; congruence.
  - rewrite H. apply andb_false_r.
Qed.

(** Only its own kind looks into a reasoning or code block. *)
Lemma inside_other k k' item : inside_block k item = true → is_message item = false → k' ≠ k →
  plain_message k' item || inside_block k' item = false.
Proof.
  unfold inside_block, plain_message. intros H Hm Hk. rewrite Hm in *. cbn in *. rewrite orb_false_r in *.
  unfold is_type in *. destruct k, k'; try done; destruct (dget item "type"); try done; cbn in *;
    apply String.eqb_eq in H; subst; done.
Qed.

Lemma end_block_ok now k item x t e c s : caches_ok s → last_item s = Some item → dget item "id" = VStr x →
  Str.is_empty x = false → inside_block k item = true → caches_ok (end_block uuid now k item t e c s).2.
Proof.
  intros Hs Hl Hx Hxe Hin. unfold end_block. rewrite st_bind_eq.
  destruct (clear_run k item x s Hx) as (s1 & -> & Ho & Hn & Hk).
  assert (Hs1 : caches_ok s1).
  { apply (caches_fewer s); [done|done| |done]. intros y k'. destruct (Hk y k') as (H1 & H2 & _). done. }
  assert (Hl1 : last_item s1 = Some item) by (unfold last_item; by rewrite Ho).
  assert (Hu : is_message item = false → uncached s1).
  { intros Hm i y k' Hi Hy. rewrite Hl1 in Hi. injection Hi as <-. assert (y = x) as -> by congruence.
    destruct (decide (k' = k)) as [->|Hne]; [by apply Hk|]. apply (co_kinds s1 Hs1 item); [done..|].
    by apply (inside_other k). }
  apply (hoare_caches (λ s, caches_ok s ∧ last_item s ≠ None ∧ (is_message item = false → uncached s)));
    [|split_and!; [done|by rewrite Hl1|done]].
  apply (hoare_bind _ _ _ _ _ (end_item_ok now item _)). intros _ s2 Hs2.
  pose proof (push_message (split_block t e c).2 s2 Hs2) as H. rewrite st_bind_eq. exact H.
Qed.

Lemma view_lift {A B} (r : res A) (f : A → st tag_state B) s :
  view (st_lift r ≫= f) s = match r with Ok a => view (f a) s | Err e => (Err e, forget s) end.
Proof. unfold view. rewrite st_bind_eq. by destruct r. Qed.

Lemma lift_ok {A B} (r : res A) (f : A → st tag_state B) s :
  caches_ok s → (∀ a, r = Ok a → caches_ok (f a s).2) → caches_ok ((st_lift r ≫= f) s).2.
Proof. intros Hs Hf. rewrite st_bind_eq. unfold st_lift. destruct r as [a|e]; [by apply Hf|done]. Qed.

Lemma get_lift {B} (f : tag_state → st tag_state B) s : (st_get ≫= f) s = f s s. Proof. done. Qed.

(** Whatever of the block was scanned, its end is found. *)
Lemma close_ok now k item s : caches_ok s → last_item s = Some item → inside_block k item = true →
  view (close_block uuid now k item) s = view (close_block uuid now k item) (forget s) ∧
  caches_ok (close_block uuid now k item s).2.
Proof.
  intros Hs Hl Hin. destruct (io_ids s (co_ids s Hs) item (last_elem _ _ Hl)) as (x & Hx & Hxe).
  unfold close_block. rewrite !view_lift.
  destruct (as_text (dgetd item "start_tag" _)) as [t|e1] eqn:Et; [|split; [done|by apply lift_ok]].
  rewrite !view_lift. destruct (as_text (dgetd item "end_tag" _)) as [e|e1] eqn:Ee;
    [|split; [done|apply lift_ok; [done|]; intros t' [= <-]; by apply lift_ok]].
  rewrite !view_lift. destruct (block_content item) as [c|e1] eqn:Ec;
    [|split; [done|do 2 (apply lift_ok; [done|]; intros ? [= <-]); by apply lift_ok]].
  destruct (scanned_good k item x c s Hs Hl Hx Ec) as (n & Hn & Hlen & Hgood).
  assert (Hend : find e c (n + 1 - Nat.max (String.length e) 1) = None ↔ find e c 0 = None).
  { apply resumed_end; [done|]. intros Hpos. destruct Hgood as [->|Hgood]; [lia|].
    destruct (Hgood c Ec) as (_ & _ & H). by apply H; [apply plain_not_inside| |]. }
  split.
  - unfold view at 1 2. rewrite !get_lift, Hn, (scanned_forget k item x) by done. cbv zeta. rewrite !st_bind_eq. cbn [st_lift].
    replace (0 + 1 - Nat.max (String.length e) 1) with 0 by lia.
    destruct (find e c (n + 1 - _)) as [i|] eqn:Ef, (find e c 0) as [i'|] eqn:Ef0;
      [|by discriminate (proj2 Hend eq_refl)|by discriminate (proj1 Hend eq_refl)|].
    + apply (end_block_oblivious now k item t e c s).
    + apply (oblivious_bind (save_scanned_length k item c)); auto with oblivious.
  - do 3 (apply lift_ok; [done|]; intros ? [= <-]). rewrite get_lift, Hn. apply lift_ok; [done|]. intros ? [= <-]. cbv zeta.
    destruct (find e c (n + 1 - _)) as [i|] eqn:Ef; [by apply (end_block_ok now k item x)|].
    pose proof (save_ok k item x c s Hs Hl Hx Ec) as H. rewrite st_bind_eq.
    assert (Hsave : caches_ok (save_scanned_length k item c s).2).
    { apply H; [by rewrite Hin, orb_true_r|]. intros c' Hc'. assert (c' = c) as -> by congruence.
      split; [done|]. rewrite take_all. split; [by rewrite plain_not_inside|].
      intros _ _ e' He'. assert (e' = e) as -> by congruence. by apply Hend. }
    destruct (save_scanned_length k item c s) as [[u|err] s']; done.
Qed.

(** *** The start of a block *)
Hypothesis tags_ok : ∀ k t, t ∈ tags_of k → tag_ok t.1 = true.

(** The start tags in a text have plain attributes. *)
Definition plain_text (k : tag_kind) (text : string) : Prop :=
  ∀ t i j a, t ∈ tags_of k → search t.1 text 0 = Some (i, j, a) → attribute_plain a = true.

Lemma first_tag_None l text : first_tag l text 0 = None → ∀ t, t ∈ l → search t.1 text 0 = None.
Proof.
  induction l as [|t' l IH]; cbn [first_tag]; intros H t Ht; [by apply elem_of_nil in Ht|].
  destruct (search t'.1 text 0) eqn:E; [done|]. apply elem_of_cons in Ht as [->|Ht]; [done|by apply IH].
Qed.

Lemma first_tag_ext tags text p q : (∀ t, t ∈ tags → search t.1 text p = search t.1 text q) →
  first_tag tags text p = first_tag tags text q.
Proof.
  induction tags as [|t tags IH]; intros H; [done|]. cbn. rewrite H by left.
  destruct (search t.1 text q); [done|]. apply IH. intros t' Ht. apply H. by right.
Qed.

Lemma list_max_elem l n : n ∈ l → n <= list_max l.
Proof. intros H. assert (Hf := proj1 (list_max_le l (list_max l)) (le_n _)). rewrite List.Forall_forall in Hf. by apply Hf, list_elem_of_In. Qed.

Definition max_start (tags : list tag) : nat :=
  match tags with [] => 1 | _ => list_max (map (λ t, String.length t.1) tags) end.

Lemma max_start_length k t : t ∈ tags_of k → String.length t.1 <= max_start (tags_of k).
Proof.
  intros Ht. unfold max_start. destruct (tags_of k) as [|t0 l]; [by apply elem_of_nil in Ht|]. apply list_max_elem.
  apply (list_elem_of_fmap_2 (λ t : tag, String.length t.1)). done.
Qed.

Lemma max_start_pos k : 1 <= max_start (tags_of k).
Proof.
  destruct (tags_of k) as [|t l] eqn:E; [done|]. rewrite <-E. assert (Ht : t ∈ tags_of k) by (rewrite E; left).
  pose proof (max_start_length k t Ht). pose proof (tag_ok_length t.1 (tags_ok k t Ht)). lia.
Qed.

(** The boundaries are those of the scanned text, new or remembered. *)
Lemma boundaries_ok k item x text n s : caches_ok s → last_item s = Some item → dget item "id" = VStr x →
  block_content item = Ok text → n <= String.length text → plain_message k item = true →
  ∃ lo lb s', get_tag_boundaries k item text n s = (Ok (lo, lb), s') ∧ forget s' = forget s ∧ caches_ok s' ∧
    tg_scans s' = tg_scans s ∧ is_last is_open text n lo ∧ is_last is_boundary text n lb.
Proof.
  intros Hs Hl Hx Ht Hn Hp. unfold get_tag_boundaries. rewrite Hx.
  change ((st_lift (hashed (VStr x)) ≫= ?f) s) with (f (VStr x) s). cbv beta. rewrite get_lift. cbv zeta.
  assert (Hold : let '(m, lo, lb) := default (0, (-1)%Z, (-1)%Z) (key_get (VStr x, kind_name k) (tg_bounds s)) in
    is_last is_open text m lo ∧ is_last is_boundary text m lb).
  { destruct (key_get (VStr x, kind_name k) (tg_bounds s)) as [[[m lo] lb]|] eqn:E; cbn;
      [|split; apply is_last_none]. by apply (co_bounds s Hs item x k _ Hl Hx E). }
  destruct (default _ _) as [[m0 lo0] lb0].
  assert (Hnew : ∃ m lo lb, (if n <? m0 then (0, (-1)%Z, (-1)%Z) else (m0, lo0, lb0)) = (m, lo, lb) ∧ m <= n ∧
    is_last is_open text m lo ∧ is_last is_boundary text m lb).
  { destruct (Nat.ltb_spec n m0); eexists _, _, _; (split; [done|]); [|done].
    split_and!; [lia|apply is_last_none..]. }
  destruct Hnew as (m & lo & lb & -> & Hm & Hlo & Hlb).
  destruct (Nat.ltb_spec m n).
  - eexists _, _, _. split; [reflexivity|]. split; [done|].
    set (lo' := if Z.eqb _ (-1) then lo else _). set (lb' := if Z.eqb _ (-1) then lb else _).
    assert (Hlo' : is_last is_open text n lo') by (by apply is_last_open).
    assert (Hlb' : is_last is_boundary text n lb') by (by apply is_last_boundary). split_and!; [|done..].
    destruct Hs as [[H1 H2] H3 H4 H5]. split; [split; [done|]|..]; cbn [tg_scans tg_bounds tg_output tg_next with_bounds].
    + intros y i Hi Hy. destruct (H2 y i Hi Hy) as [Ho Hc]. split; [done|]. intros k'. rewrite key_get_set.
      destruct (decide _) as [[= -> _]|]; [|done]. by destruct (Ho item (last_elem _ _ Hl)).
    + intros i y k' Hi Hy Hpi. rewrite key_get_set. destruct (H3 i y k' Hi Hy Hpi) as [Ha Hb].
      destruct (decide _) as [[= -> Hkk]|]; [|done]. apply kind_name_inj in Hkk as ->.
      change (last_item s = Some i) in Hi. rewrite Hl in Hi. injection Hi as <-. by rewrite Hp in Hpi.
    + done.
    + intros i y k' b Hi Hy. rewrite key_get_set. destruct (decide _) as [[= -> Hkk]|].
      * intros [= <-]. change (last_item s = Some i) in Hi. rewrite Hl in Hi. injection Hi as <-.
        intros text' Ht'. assert (text' = text) as -> by congruence. done.
      * by apply (H5 i y k').
  - assert (m = n) as -> by lia. eexists _, _, s. split; [reflexivity|]. done.
Qed.

Lemma search_start_ok k item x text s : caches_ok s → last_item s = Some item → dget item "id" = VStr x →
  block_content item = Ok text → plain_message k item = true → plain_text k text →
  ∃ start s', search_start k (tags_of k) item text s = (Ok start, s') ∧ forget s' = forget s ∧ caches_ok s' ∧
    first_tag (tags_of k) text start = first_tag (tags_of k) text 0.
Proof.
  intros Hs Hl Hx Ht Hp Hplain. destruct (scanned_good k item x text s Hs Hl Hx Ht) as (n & Hn & Hlen & Hgood).
  unfold search_start. rewrite get_lift, Hn. change ((st_lift (Ok n) ≫= ?f) s) with (f n s). cbv beta zeta.
  fold (max_start (tags_of k)). set (L := max_start (tags_of k)). pose proof (max_start_pos k) as HL.
  assert (Hfirst : ∀ lo lb pos, is_last is_open text n lo → is_last is_boundary text n lb →
    (pos <= n + 1 - L) → (0 < n → existsb (λ t, is_bracket_tag t.1) (tags_of k) = true → (lb < lo)%Z → pos <= Z.to_nat lo) →
    first_tag (tags_of k) text pos = first_tag (tags_of k) text 0).
  { intros lo lb pos Hlo Hlb Hpos Hbr. apply first_tag_ext. intros t Htin. pose proof (tags_ok k t Htin) as Hok.
    apply search_later; [by apply tag_ok_length|]. intros i j a Hfound.
    destruct Hgood as [->|Hgood]; [unfold L in *; lia|]. destruct (Hgood text Ht) as (_ & Hno & _).
    destruct (resumed_start t.1 text n L lo lb i j a Hok (max_start_length k t Htin) Hlen (Hno Hp t Htin) Hlo Hlb Hfound
      (Hplain t i j a Htin Hfound)) as [?|(Hb & Hn0 & -> & Hlt)]; [lia|].
    rewrite Nat2Z.id in Hbr. apply Hbr; [done| |done]. apply existsb_True. by exists t. }
  destruct ((0 <? n) && existsb (λ t, is_bracket_tag t.1) (tags_of k)) eqn:Eb.
  - destruct (boundaries_ok k item x text n s Hs Hl Hx Ht Hlen Hp) as (lo & lb & s' & Hrun & Hf & Hs' & _ & Hlo & Hlb).
    rewrite st_bind_eq, Hrun. cbn [fst snd]. eexists _, s'. split; [reflexivity|]. split_and!; [done..|].
    apply (Hfirst lo lb); [done..| |].
    + destruct (Z.ltb_spec lb lo); [apply Nat.le_min_l|done].
    + intros _ _ Hlt. rewrite (proj2 (Z.ltb_lt _ _) Hlt). apply Nat.le_min_r.
  - exists (n + 1 - L), s. split; [done|]. split_and!; [done..|].
    apply (Hfirst _ _ _ (is_last_open text 0 n (-1)%Z (Nat.le_0_l n) (is_last_none _ text))
      (is_last_boundary text 0 n (-1)%Z (Nat.le_0_l n) (is_last_none _ text))); [done|].
    intros Hn0 He. rewrite He, (proj2 (Nat.ltb_lt _ _) Hn0) in Eb. done.
Qed.

Lemma view_bind_inv {A B} (P : tag_state → Prop) (m : st tag_state A) (f : A → st tag_state B) s s' :
  view m s = view m s' → (∀ a s1, m s = (Ok a, s1) → P s1) → (∀ a s1, m s' = (Ok a, s1) → P s1) →
  (∀ a s1, P s1 → view (f a) s1 = view (f a) (forget s1)) → view (m ≫= f) s = view (m ≫= f) s'.
Proof.
  intros Hm H1 H2 Hf. unfold view in Hm |- *. rewrite !st_bind_eq. apply pair_eq in Hm as [E1 E2].
  destruct (m s) as [r s1], (m s') as [r' s1']. cbn [fst snd] in E1, E2. subst r'.
  destruct r as [a|e]; [|cbn [fst snd]; by rewrite E2].
  change (view (f a) s1 = view (f a) s1'). rewrite (Hf a s1), (Hf a s1'), E2; [done|by apply (H2 a)|by apply (H1 a)].
Qed.

(** A block has just started. *)
Definition started (k : tag_kind) (s : tag_state) : Prop :=
  ids_ok s ∧ uncached s ∧ ∃ b, last_item s = Some b ∧ inside_block k b = true.

Lemma begin_oblivious now k item b t a : oblivious (begin_block uuid now k item b t a).
Proof. unfold begin_block. apply oblivious_bind; [auto with oblivious|]. intros _. auto 10 with oblivious. Qed.

Lemma id_prefix_elem k : id_prefix k ∈ prefixes.
Proof. destruct k; cbn; [left|do 2 right; left|right; left]. Qed.

Lemma begin_ok now k item x b t a :  dget item "id" = VStr x →
  hoare (λ s, caches_ok s ∧ last_item s = Some item) (begin_block uuid now k item b t a) (λ _, started k).
Proof.
  intros Hx. unfold begin_block. apply (hoare_bind _ _ (λ _ s, caches_ok s)).
  { intros s [Hs _]. destruct (clear_run k item x s Hx) as (s1 & -> & Ho & Hn & Hk). apply (caches_fewer s); [done|done| |done].
    intros y k'. destruct (Hk y k') as (H1 & H2 & _). done. }
  intros _. apply (hoare_bind _ _ (λ _, ids_ok)).
  { intros s Hs. unfold set_last_text. destruct (last_item s) as [i|] eqn:El; [|apply Hs]. destruct (is_message i); [|apply Hs].
    destruct (set_item_text b i) as [i'|] eqn:Et; [|done]. apply (ids_set_last s i); [done|by apply (set_item_text_id b)|apply Hs]. }
  intros _. apply (hoare_bind _ _ (λ _, ids_ok)).
  { intros s Hs. destruct (Str.is_empty (Str.strip b)); [by apply ids_pop|done]. }
  intros _ s Hs. rewrite st_bind_eq.
  change (output_id uuid (id_prefix k) s) with (Ok (id_prefix k +:+ "_" +:+ uuid (tg_next s)), bump s). cbv beta iota.
  set (block := block_item now k _ t _).
  change (st_modify (push block) (bump s)) with (Ok tt, push block (bump s)).
  assert (Hid : dget block "id" = VStr (id_prefix k +:+ "_" +:+ uuid (tg_next s))) by (by destruct k).
  destruct (push_ok (id_prefix k) block s (id_prefix_elem k) Hid Hs) as [H1 H2].
  split; [done|]. split; [done|]. exists block. split; [apply last_push|]. by destruct k.
Qed.

Lemma started_update k v s : started k s →
  match update_last (start_block_text k v) s with (Ok _, s') => started k s' | (Err _, s') => caches_ok s' end.
Proof.
  intros (Hi & Hu & b & Hl & Hin).
  assert (Hid : ∀ i i', start_block_text k v i = Ok i' → dget i' "id" = dget i "id").
  { intros i i'. destruct k; cbn; [by apply set_key_id|apply set_item_text_id|by apply set_key_id]. }
  assert (Hin' : ∀ b', start_block_text k v b = Ok b' → inside_block k b' = true).
  { intros b' Hb'. unfold inside_block, is_message, is_type in *. destruct k; cbn in Hb'.
    - injection Hb' as <-. by rewrite !dget_set_ne.
    - unfold set_item_text in Hb'. apply bind_Ok in Hb' as (p & _ & [= <-]). destruct p as [[f p]|]; [|done].
      by rewrite !dget_set_ne.
    - injection Hb' as <-. by rewrite !dget_set_ne. }
  pose proof (set_text_ids _ s Hid Hi) as H1. pose proof (set_text_uncached _ s Hid Hu) as H2.
  unfold update_last in *. rewrite Hl in *. destruct (start_block_text k v b) as [b'|].
  - split; [done|]. split; [done|]. exists b'. split; [apply last_set|by apply Hin'].
  - by apply uncached_ok.
Qed.

Lemma close_last_ok now k s : started k s → view (close_last uuid now k) s = view (close_last uuid now k) (forget s) ∧
  caches_ok (close_last uuid now k s).2.
Proof.
  intros (Hi & Hu & b & Hl & Hin). destruct (close_ok now k b s (uncached_ok s Hi Hu) Hl Hin) as [Hv Hc].
  unfold close_last. rewrite !get_lift. unfold view. rewrite !get_lift.
  change (last_item (forget s)) with (last_item s). rewrite Hl. split.
  - apply (view_bind (close_block uuid now k b)); [done|auto with oblivious].
  - rewrite st_bind_eq. destruct (close_block uuid now k b s) as [[r|e] s']; done.
Qed.

Lemma open_rest_ok now k v s : started k s →
  let rest := if Str.is_empty v then mret (true, false) else _ ← update_last (start_block_text k v); close_last uuid now k in
  view rest s = view rest (forget s) ∧ caches_ok (rest s).2.
Proof.
  intros Hs. cbv zeta. destruct (Str.is_empty v).
  { split; [done|]. destruct Hs as (H1 & H2 & _). by apply uncached_ok. }
  assert (Hforget : started k (forget s)).
  { destruct Hs as ([H1 H2] & _ & b & Hl & Hin). split; [split; [done|]|split; [done|by exists b]].
    intros x n Hn Hx. destruct (H2 x n Hn Hx) as [Ho _]. split; [done|]. done. }
  pose proof (λ s, started_update k v s) as Hup. split.
  - apply (view_bind_inv (started k)).
    + apply oblivious_update_last.
    + intros u s1 E. specialize (Hup s Hs). by rewrite E in Hup.
    + intros u s1 E. specialize (Hup _ Hforget). by rewrite E in Hup.
    + intros _ s1 H1. by apply close_last_ok.
  - rewrite st_bind_eq. specialize (Hup s Hs). destruct (update_last _ s) as [[u|e] s1]; [by apply close_last_ok|done].
Qed.

Lemma forget_ok s : caches_ok s → caches_ok (forget s).
Proof.
  intros [[H1 H2] _ _ _]. split; [split; [done|]|done..]. intros x n Hn Hx. destruct (H2 x n Hn Hx) as [Ho _]. by split.
Qed.

Lemma open_ok now k item x text t m s : caches_ok s → last_item s = Some item → dget item "id" = VStr x →
  view (open_block uuid now k item text t m) s = view (open_block uuid now k item text t m) (forget s) ∧
  caches_ok (open_block uuid now k item text t m s).2.
Proof.
  intros Hs Hl Hx. destruct m as [[i j] a]. unfold open_block.
  pose proof (begin_ok now k item x (Str.take i text) t a Hx) as Hb. split.
  - apply (view_bind_inv (started k)).
    + apply begin_oblivious.
    + intros u s1 E. specialize (Hb s (conj Hs Hl)). by rewrite E in Hb.
    + intros u s1 E. specialize (Hb (forget s) (conj (forget_ok s Hs) Hl)). by rewrite E in Hb.
    + intros _ s1 H1. by apply (open_rest_ok now k (Str.drop j text)).
  - rewrite st_bind_eq. specialize (Hb s (conj Hs Hl)).
    destruct (begin_block _ _ _ _ _ _ _ s) as [[u|e] s1]; [by apply (open_rest_ok now k (Str.drop j text))|done].
Qed.

(** *** The handler, and the steps of a stream *)

Definition plain_state (k : tag_kind) (s : tag_state) : Prop :=
  ∀ item text, last_item s = Some item → plain_message k item = true → block_content item = Ok text → plain_text k text.

Lemma message_text k item s : last_item s = Some item → plain_message k item = true →
  get_last_text s = block_content item.
Proof.
  intros Hl [Hm _]%andb_true_iff. unfold get_last_text, block_content. rewrite Hl, Hm.
  unfold is_message, is_type in *. destruct (dget item "type"); try done. cbn in *. apply String.eqb_eq in Hm as ->. done.
Qed.

Lemma handler_ok now k s : caches_ok s → plain_state k s →
  view (tag_output_handler uuid now k (tags_of k)) s = view (tag_output_handler uuid now k (tags_of k)) (forget s) ∧
  caches_ok (tag_output_handler uuid now k (tags_of k) s).2.
Proof.
  intros Hs Hplain. unfold tag_output_handler. unfold view. rewrite !get_lift. change (last_item (forget s)) with (last_item s).
  destruct (last_item s) as [item|] eqn:Hl; [|by split]. fold (plain_message k item).
  destruct (io_ids s (co_ids s Hs) item (last_elem _ _ Hl)) as (x & Hx & Hxe).
  destruct (plain_message k item) eqn:Hp.
  - change (get_last_text (forget s)) with (get_last_text s). rewrite (message_text k item) by done.
    destruct (block_content item) as [text|e] eqn:Ht; [|split; [done|by apply lift_ok]].
    specialize (Hplain item text Hl Hp Ht).
    destruct (search_start_ok k item x text s Hs Hl Hx Ht Hp Hplain) as (start & s1 & Hrun & Hf & Hs1 & Hfirst).
    destruct (search_start_ok k item x text (forget s) (forget_ok s Hs) Hl Hx Ht Hp Hplain) as (start' & s2 & Hrun' & Hf' & Hs2 & Hfirst').
    assert (Hl1 : last_item s1 = Some item) by (rewrite <-Hl; change (last_item (forget s1) = last_item (forget s)); by rewrite Hf).
    assert (Hl2 : last_item s2 = Some item) by (rewrite <-Hl; change (last_item (forget s2) = last_item (forget s)); by rewrite Hf').
    rewrite !st_bind_eq. cbn [st_lift]. rewrite !st_bind_eq, Hrun, Hrun', Hfirst, Hfirst'.
    destruct (first_tag (tags_of k) text 0) as [[t m]|] eqn:Eft.
    + destruct (open_ok now k item x text t m s1 Hs1 Hl1 Hx) as [Hv Hc].
      destruct (open_ok now k item x text t m s2 Hs2 Hl2 Hx) as [Hv' _]. split; [|done].
      fold (view (open_block uuid now k item text t m) s1). fold (view (open_block uuid now k item text t m) s2).
      by rewrite Hv, Hv', Hf, Hf'.
    + split.
      * apply (view_bind (save_scanned_length k item text)); [|auto with oblivious].
        apply view_same; [auto with oblivious|by rewrite Hf, Hf'].
      * assert (Hsave : caches_ok (save_scanned_length k item text s1).2).
        { apply (save_ok k item x text s1 Hs1 Hl1 Hx Ht); [by rewrite Hp|]. intros text' Ht'.
          assert (text' = text) as -> by congruence. split; [done|]. rewrite take_all. split; [|by rewrite Hp].
          intros _. by apply first_tag_None. }
        rewrite st_bind_eq. destruct (save_scanned_length k item text s1) as [[u|e] s3].
        -- exact Hsave.
        -- exact Hsave.
  - destruct (inside_block k item) eqn:Hin; [|by split]. by apply close_ok.
Qed.

(** *** Growing texts *)

Lemma dgetd_set_ne k k' v w d : k ≠ k' → dgetd (dict_set k' v d) k w = dgetd d k w.
Proof. intros H. unfold dgetd. by rewrite dict_get_set_ne. Qed.

Lemma dgetd_set_same k v w d : dgetd (dict_set k v d) k w = v.
Proof. unfold dgetd. by rewrite dict_get_set_eq. Qed.

Lemma app_nil_text s : s +:+ EmptyString = s.
Proof. apply Str.app_nil_r. Qed.

Lemma grows_key k v item : k ∉ ["id"; "type"; "_tag_type"; "end_tag"; "content"; "code"] → grows EmptyString item (dict_set k v item).
Proof.
  intros Hk. rewrite !not_elem_of_cons in Hk. destruct Hk as (H1 & H2 & H3 & H4 & H5 & H6 & _).
  unfold grows. rewrite !dget_set_ne, dgetd_set_ne by congruence. split_and!; [done..|]. intros text H. exists text.
  rewrite app_nil_text. split; [|done]. rewrite <-H. unfold block_content, block_text, last_part, is_type.
  by rewrite dget_set_ne, !dgetd_set_ne by congruence.
Qed.

Lemma grows_append v item item' :
  (if is_type item "open_webui:code_interpreter" then append_code v item else append_block_text v item) = Ok item' →
  grows v item item'.
Proof.
  destruct (is_type item "open_webui:code_interpreter") eqn:Ety.
  - unfold append_code. intros (old & Hold & [= <-])%bind_Ok. unfold grows.
    rewrite !dget_set_ne, dgetd_set_ne by done. split_and!; [done..|]. intros text'. unfold block_content, is_type in *.
    rewrite dget_set_ne, Ety by done. rewrite dgetd_set_same. cbn. intros [= <-]. by exists old.
  - unfold append_block_text. intros (p & Hp & H)%bind_Ok.
    assert (Hgen : ∀ parts, item' = dict_set "content" (VList parts) item →
      (∀ text', block_text item' = Ok text' → ∃ text, block_text item = Ok text ∧ text' = text +:+ v) → grows v item item').
    { intros parts -> Ht. unfold grows. rewrite !dget_set_ne, dgetd_set_ne by done. split_and!; [done..|].
      intros text'. unfold block_content, is_type in *. rewrite dget_set_ne, Ety by done. apply Ht. }
    destruct p as [[front p]|].
    + apply bind_Ok in H as (w & Hw & H). apply bind_Ok in H as (old & Hold & [= <-]).
      apply (Hgen (front ++ [VDict (dict_set "text" (VStr (old +:+ v)) p)])); [done|]. intros text'.
      assert (Hty : is_type p "output_text" = true).
      { unfold last_part in Hp. destruct (dgetd item "content" _) as [| | | | |parts|]; try (by destruct (truthy _)).
        destruct (last parts) as [[| | | | | |q]|]; try done. destruct (is_type q "output_text") eqn:E; [|done].
        by injection Hp as _ <-. }
      unfold block_text at 1, last_part. rewrite dgetd_set_same.
      rewrite last_snoc. unfold is_type in *. rewrite dget_set_ne, Hty by done. cbn [mbind res_bind].
      rewrite dgetd_set_same. cbn. intros [= <-]. exists old. split; [|done].
      unfold block_text. rewrite Hp. cbn [mbind res_bind]. unfold ditem in Hw. unfold dgetd.
      destruct (dict_get "text" p); [|done]. injection Hw as ->. done.
    + injection H as <-. apply (Hgen [text_part v]); [done|]. intros text'.
      unfold block_text at 1, last_part. rewrite dgetd_set_same. cbn. intros [= <-].
      exists EmptyString. split; [|done]. unfold block_text. by rewrite Hp.
Qed.

Lemma update_grows v f s : (∀ item item', last_item s = Some item → f item = Ok item' → grows v item item') →
  caches_ok s → caches_ok (update_last f s).2.
Proof.
  intros Hf Hs. unfold update_last. destruct (last_item s) as [item|] eqn:Hl; [|done].
  destruct (f item) as [item'|] eqn:E; [|done]. cbn. apply (caches_grow v s item); [done|by apply Hf|done].
Qed.

Lemma new_message_ok s : caches_ok s →
  caches_ok ((id ← output_id uuid "msg"; st_modify (push (message_item id EmptyString))) s).2.
Proof. intros Hs. apply (push_message EmptyString s), Hs. Qed.

Lemma append_value_ok v s : caches_ok s → caches_ok (append_value uuid v s).2.
Proof.
  intros Hs. unfold append_value. rewrite get_lift, st_bind_eq.
  assert (Hcode : ∀ s1, caches_ok s1 → (∀ item, last_item s1 = Some item → is_message item = true) →
    caches_ok (update_last (append_block_text v) s1).2).
  { intros s1 H1 Hm. apply (update_grows v); [|done]. intros item item' Hl E. apply grows_append.
    specialize (Hm item Hl). unfold is_message, is_type in *. destruct (dget item "type"); try done.
    cbn in *. apply String.eqb_eq in Hm as ->. done. }
  match goal with |- context [match ?m s with _ => _ end] => set (inside := m) end.
  assert (∃ r, inside s = (r, s)) as [[b|e] ->]; [|clear inside|done].
  { subst inside. destruct (last_item s) as [item|]; [unfold st_lift; destruct (inside_tag_block item)|]; by eexists. }
  destruct b.
  - apply (update_grows v); [|done]. intros item item' _. apply grows_append.
  - rewrite st_bind_eq. destruct (match last_item s with Some item => is_message item | None => false end) eqn:Em.
    + apply Hcode; [done|]. intros item Hl. by rewrite Hl in Em.
    + pose proof (new_message_ok s Hs) as H. rewrite st_bind_eq in H |- *.
      change (output_id uuid "msg" s) with (Ok ("msg" +:+ "_" +:+ uuid (tg_next s)), bump s) in H |- *. cbv beta iota in H |- *.
      apply Hcode; [done|]. intros item Hl. cbn [st_modify] in Hl. rewrite last_push in Hl. by injection Hl as <-.
Qed.

Lemma bind_ok {A B} (m : st tag_state A) (f : A → st tag_state B) s :
  caches_ok (m s).2 → (∀ a s1, caches_ok s1 → caches_ok (f a s1).2) → caches_ok ((m ≫= f) s).2.
Proof. intros Hm Hf. rewrite st_bind_eq. destruct (m s) as [[a|e] s1]; [by apply Hf|done]. Qed.

Lemma set_duration_grows now item item' : set_duration now item = Ok item' → grows EmptyString item item'.
Proof.
  unfold set_duration. intros (v & _ & H)%bind_Ok. apply bind_Ok in H as (d & _ & H). apply bind_Ok in H as (n & _ & [= <-]).
  apply grows_key. by refine (bool_decide_unpack _ _).
Qed.

Lemma end_field_ok now s : caches_ok s → caches_ok (end_field_reasoning uuid now s).2.
Proof.
  intros Hs. unfold end_field_reasoning. rewrite get_lift. destruct (last_item s) as [item|]; [|done].
  assert (Hkey : ∀ k v s1, k ∉ ["id"; "type"; "_tag_type"; "end_tag"; "content"; "code"] → caches_ok s1 →
    caches_ok (update_last (λ item, Ok (dict_set k v item)) s1).2).
  { intros k v s1 Hk H1. apply (update_grows EmptyString); [|done]. intros i i' _ [= <-]. by apply grows_key. }
  apply bind_ok.
  { destruct (is_type item "reasoning"); [unfold st_lift; by destruct (from_reasoning_field item)|done]. }
  intros field s1 H1. destruct field; [|done].
  apply bind_ok; [apply Hkey; [by refine (bool_decide_unpack _ _)|done]|]. intros _ s2 H2.
  apply bind_ok; [apply (update_grows EmptyString); [intros i i' _; apply set_duration_grows|done]|]. intros _ s3 H3.
  apply bind_ok; [apply Hkey; [by refine (bool_decide_unpack _ _)|done]|]. intros _ s4 H4. by apply new_message_ok.
Qed.

(** What happens to the output while a reply streams: calls of the handler, text
    that arrives, and items of other parts of the reply. *)
Inductive stream_step : tag_state → tag_state → Prop :=
| step_call k now s : plain_state k s → stream_step s (tag_output_handler uuid now k (tags_of k) s).2
| step_append value s : stream_step s (append_value uuid value s).2
| step_end_field now s : stream_step s (end_field_reasoning uuid now s).2
| step_item p item s : p ∈ prefixes → dget item "id" = VStr (p +:+ "_" +:+ uuid (tg_next s)) →
    stream_step s (push item (bump s)).

Lemma step_ok s s' : stream_step s s' → caches_ok s → caches_ok s'.
Proof.
  intros [k now s1 Hp|v s1|now s1|p item s1 Hp Hid] Hs.
  - by apply handler_ok.
  - by apply append_value_ok.
  - by apply end_field_ok.
  - destruct (push_ok p item s1 Hp Hid) as [H1 H2]; [apply Hs|]. by apply uncached_ok.
Qed.

Lemma stream_ok s : rtc stream_step empty_tags s → caches_ok s.
Proof.
  assert (Hempty : caches_ok empty_tags).
  { split; [split|done..].
    - by intros item ?%elem_of_nil.
    - intros x n _ _. split; [by intros item ?%elem_of_nil|done]. }
  assert (Hgen : ∀ s1 s2, rtc stream_step s1 s2 → caches_ok s1 → caches_ok s2).
  { induction 1 as [|s1 s2 s3 H _ IH]; [done|]. intros H1. apply IH. by apply (step_ok s1). }
  intros H. by apply (Hgen empty_tags).
Qed.
(** *** What a call finds *)

Lemma open_block_consumes now k item text t m s : (open_block uuid now k item text t m s).1 ≠ Ok (false, false).
Proof.
  destruct m as [[i j] a]. unfold open_block. rewrite st_bind_eq. destruct (begin_block _ _ _ _ _ _ _ s) as [[u|e] s1]; [|done].
  destruct (Str.is_empty (Str.drop j text)); [done|]. rewrite st_bind_eq.
  destruct (update_last _ s1) as [[u'|e] s2]; [|done]. unfold close_last. rewrite get_lift.
  destruct (last_item s2) as [b|]; [|done]. rewrite st_bind_eq. by destruct (close_block uuid now k b s2) as [[r|e] s3].
Qed.

Lemma handler_misses_none now k item text s : caches_ok s → plain_state k s →
  last_item s = Some item → plain_message k item = true → block_content item = Ok text →
  (tag_output_handler uuid now k (tags_of k) s).1 = Ok (false, false) →
  ∀ t, t ∈ tags_of k → search t.1 text 0 = None.
Proof.
  intros Hs Hplain Hl Hp Ht. specialize (Hplain item text Hl Hp Ht).
  destruct (io_ids s (co_ids s Hs) item (last_elem _ _ Hl)) as (x & Hx & Hxe).
  destruct (search_start_ok k item x text s Hs Hl Hx Ht Hp Hplain) as (start & s1 & Hrun & Hf & Hs1 & Hfirst).
  unfold tag_output_handler. rewrite get_lift, Hl. fold (plain_message k item). rewrite Hp.
  rewrite (message_text k item), Ht by done. rewrite !st_bind_eq. cbn [st_lift]. rewrite !st_bind_eq, Hrun, Hfirst.
  destruct (first_tag (tags_of k) text 0) as [[t m]|] eqn:E; [|intros _; by apply first_tag_None].
  intros H. by apply open_block_consumes in H.
Qed.
End Caches.

(** ** What the memory of scanned texts does *)

(** C17: remembering what was scanned changes nothing, whatever the chunks of a reply
    are: in every state a stream reaches, with identifiers never drawn twice, start
    tags whose brackets are only at their ends and start tags in the text whose
    attributes have no bracket and begin on the line of the tag, [tag_output_handler]
    answers, rewrites the output and draws identifiers as if it scanned the whole text
    of the last item again; and when it consumes no tag of a plain message, no start
    tag is anywhere in its text, split over chunks or not. *)
Theorem scan_memory_is_transparent (uuid : nat → string) (tags_of : tag_kind → list tag)
    (Huuid : ∀ n m, uuid n = uuid m → n = m) (Htags : ∀ k t, t ∈ tags_of k → tag_ok t.1 = true)
    now k s (Hs : rtc (stream_step uuid tags_of) empty_tags s) (Hplain : plain_state tags_of k s) :
  let handler := tag_output_handler uuid now k (tags_of k) in
  (handler s).1 = (handler (forget s)).1 ∧ tg_output (handler s).2 = tg_output (handler (forget s)).2 ∧
  tg_next (handler s).2 = tg_next (handler (forget s)).2 ∧
  ((handler s).1 = Ok (false, false) → ∀ item text, last_item s = Some item → plain_message k item = true →
     block_content item = Ok text → ∀ t, t ∈ tags_of k → search t.1 text 0 = None).
Proof.
  cbv zeta. pose proof (stream_ok uuid tags_of Huuid Htags s Hs) as Hok.
  destruct (handler_ok uuid tags_of Huuid Htags now k s Hok Hplain) as [[H1 H2]%pair_eq _].
  split; [done|]. split; [exact (f_equal tg_output H2)|]. split; [exact (f_equal tg_next H2)|].
  intros H item text Hl Hp Ht. by apply (handler_misses_none uuid tags_of Htags now k item text s).
Qed.

(** A stream that gets the text a <th and then ink>b *)
Fixpoint example_uuid (n : nat) : string :=
  match n with O => EmptyString | S n => String "x" (example_uuid n) end.
Definition example_tags (k : tag_kind) : list tag :=
  match k with
  | Reasoning => [("<think>", "</think>")]
  | Solution => DEFAULT_SOLUTION_TAGS
  | CodeInterpreter => DEFAULT_CODE_INTERPRETER_TAGS
  end.

Lemma example_uuid_inj n m : example_uuid n = example_uuid m → n = m.
Proof. revert m. induction n as [|n IH]; intros [|m]; [done..|]. intros [= E]. f_equal. by apply IH. Qed.

Lemma example_tags_ok k t : t ∈ example_tags k → tag_ok t.1 = true.
Proof. destruct k; intros ->%list_elem_of_singleton; vm_compute; done. Qed.

Definition plain_stateb (tags_of : tag_kind → list tag) (k : tag_kind) (s : tag_state) : bool :=
  match last_item s with
  | Some item =>
      match block_content item with
      | Ok text =>
          List.forallb (λ t : tag, match search t.1 text 0 with Some (_, _, a) => attribute_plain a | None => true end)
            (tags_of k)
      | Err _ => true
      end
  | None => true
  end.

Lemma plain_stateb_ok tags_of k s : plain_stateb tags_of k s = true → plain_state tags_of k s.
Proof.
  unfold plain_stateb. intros H item text Hl _ Ht t i j a Htin E. rewrite Hl, Ht in H.
  rewrite List.forallb_forall in H. specialize (H t (proj1 (list_elem_of_In _ _) Htin)). by rewrite E in H.
Qed.

Definition example_call (s : tag_state) : tag_state :=
  (tag_output_handler example_uuid (S754_zero false) Reasoning (example_tags Reasoning) s).2.

Definition example_append (value : string) (s : tag_state) : tag_state := (append_value example_uuid value s).2.

(** The state before the second call *)
Definition example_state : tag_state := example_append "ink>b" (example_call (example_append "a <th" empty_tags)).

Lemma scan_memory_is_transparent_witness :
  rtc (stream_step example_uuid example_tags) empty_tags example_state ∧
  length (tg_scans example_state) = 1 ∧
  (tag_output_handler example_uuid (S754_zero false) Reasoning (example_tags Reasoning) example_state).1 =
  (tag_output_handler example_uuid (S754_zero false) Reasoning (example_tags Reasoning) (forget example_state)).1.
Proof.
  assert (H : rtc (stream_step example_uuid example_tags) empty_tags example_state).
  { eapply rtc_l; [apply (step_append _ _ "a <th")|]. eapply rtc_l; [apply (step_call _ _ Reasoning (S754_zero false))|].
    - apply plain_stateb_ok. vm_compute. reflexivity.
    - apply rtc_once. apply (step_append _ _ "ink>b"). }
  split; [exact H|]. split; [by vm_compute|].
  apply (scan_memory_is_transparent example_uuid example_tags example_uuid_inj example_tags_ok _ _ _ H).
  apply plain_stateb_ok. vm_compute. reflexivity.
Defined.

(** ** Where the code departs from it *)

(** A tag whose attributes begin on a new line is found in one chunk, and missed when
    the line break and the attributes come in different chunks. *)
Example tag_over_lines_is_missed :
  let newline := String newline_char EmptyString in
  let chunks l := fold_left (λ s v, example_call (example_append v s)) l empty_tags in
  map (λ i, dget i "type") (tg_output (chunks ["<think" +:+ newline +:+ "type=xyyy>abc"])) = [VStr "reasoning"] ∧
  map (λ i, dget i "type") (tg_output (chunks ["<think" +:+ newline; "type=x"; "yyy"; ">abc"])) = [VStr "message"].
Proof. split; vm_compute; reflexivity. Qed.

(** Closing a block also removes the start tags after its end tag: the second block
    is shown as text. *)
Example second_block_loses_its_tag :
  map block_text (tg_output (example_call (example_append "<think>a</think>b<think>c</think>d" empty_tags)))
  = [Ok "a"; Ok "bc</think>d"].
Proof. vm_compute. reflexivity. Qed.
