(* ===== verification/JsonDump.v ===== *)
(** * [json.dumps]: the JSON codec of the application when ORJSON is off
    (utils/json_codec.py: [JSONCodec] is the standard library's [json] and
    [dumps_bytes] encodes its [dumps]), and its round trip with [Json.json_loads].

    Default separators and [ensure_ascii].  How a float is written ([float.__repr__])
    is a parameter. *)

From S2P Require Import Prelude PyVal PyDecimal Json.
From Stdlib Require Import Ascii SpecFloat.

Local Open Scope Z_scope.

(** ** Writing *)

Definition hex_digit (n : nat) : ascii := ascii_of_nat (if (n <? 10)%nat then 48 + n else 87 + n).

(** A character of a string literal: [ESCAPE_ASCII] *)
Definition escape_char (c : ascii) : string :=
  let n := Str.code c in
  let short x := String backslash (String x EmptyString) in
  if Ascii.eqb c quote || Ascii.eqb c backslash then short c
  else if (n =? 10)%nat then short "n"%char
  else if (n =? 13)%nat then short "r"%char
  else if (n =? 9)%nat then short "t"%char
  else if (n =? 12)%nat then short "f"%char
  else if (n =? 8)%nat then short "b"%char
  else if (32 <=? n)%nat && (n <=? 126)%nat then String c EmptyString
  else String backslash (String "u" (String "0" (String "0"
         (String (hex_digit (Nat.div n 16)) (String (hex_digit (Nat.modulo n 16)) EmptyString))))).

Fixpoint escape (s : string) : string :=
  match s with EmptyString => EmptyString | String c s => escape_char c +:+ escape s end.

Definition dump_string (s : string) : string := String quote (escape s +:+ String quote EmptyString).

Section Dumps.
Context (float_repr : spec_float → string).

Fixpoint json_dumps (v : pyval) : string :=
  match v with
  | VNone => "null"
  | VBool true => "true"
  | VBool false => "false"
  | VInt z => pretty z
  | VFloat f => float_repr f
  | VStr s => dump_string s
  | VList [] => "[]"
  | VList (x :: l) =>
      "[" +:+ json_dumps x +:+
        (fix items (l : list pyval) : string :=
           match l with [] => "]" | x :: l => ", " +:+ json_dumps x +:+ items l end) l
  | VDict [] => "{}"
  | VDict ((k, x) :: d) =>
      "{" +:+ dump_string k +:+ ": " +:+ json_dumps x +:+
        (fix members (d : pydict) : string :=
           match d with
           | [] => "}"
           | (k, x) :: d => ", " +:+ dump_string k +:+ ": " +:+ json_dumps x +:+ members d
           end) d
  end.

(** The items after the first one *)
Fixpoint dump_items (l : list pyval) : string :=
  match l with [] => "]" | x :: l => ", " +:+ json_dumps x +:+ dump_items l end.
Fixpoint dump_members (d : pydict) : string :=
  match d with
  | [] => "}"
  | (k, x) :: d => ", " +:+ dump_string k +:+ ": " +:+ json_dumps x +:+ dump_members d
  end.
End Dumps.

(** Values that are read back as they were: no floats, and keys that are not repeated,
    as in every dict *)
Fixpoint plain_json (v : pyval) : bool :=
  match v with
  | VFloat _ => false
  | VList l => (fix go l := match l with [] => true | x :: l => plain_json x && go l end) l
  | VDict d =>
      bool_decide (NoDup (dict_keys d)) &&
      (fix go (d : pydict) := match d with [] => true | (_, x) :: d => plain_json x && go d end) d
  | _ => true
  end.

(** ** Reading back *)

Lemma parse_escaped c fuel rest :
  parse_string (S fuel) (escape_char c +:+ rest) = (r ← parse_string fuel rest; Ok (String c r.1, r.2)).
Proof. destruct c as [[] [] [] [] [] [] [] []]; reflexivity. Qed.

Lemma parse_escape s fuel rest : (String.length (escape s) < fuel)%nat →
  parse_string fuel (escape s +:+ String quote rest) = Ok (s, rest).
Proof.
  revert fuel. induction s as [|c s IH]; intros [|fuel] Hf; cbn [escape] in *; try lia; [reflexivity|].
  rewrite Str.app_length in Hf. assert (1 <= String.length (escape_char c))%nat.
  { apply Nat.leb_le. clear. destruct c as [[] [] [] [] [] [] [] []]; reflexivity. }
  rewrite <-Str.app_assoc, parse_escaped, IH by lia. done.
Qed.

(** *** Integers *)

Definition digits_from (acc : Z) (s : string) : Z := foldl (λ acc d, 10 * acc + d) acc (span_digits s).1.

Lemma digit_char d : (d < 10)%N → Str.is_digit (pretty_N_char d) = true ∧ digit_val (pretty_N_char d) = Z.of_N d ∧
  (pretty_N_char d = "0"%char → d = 0%N).
Proof.
  intros Hd. assert (H : d ∈ [0; 1; 2; 3; 4; 5; 6; 7; 8; 9]%N).
  { assert (Hc : (d = 0 ∨ d = 1 ∨ d = 2 ∨ d = 3 ∨ d = 4 ∨ d = 5 ∨ d = 6 ∨ d = 7 ∨ d = 8 ∨ d = 9)%N) by lia. set_solver. }
  rewrite !elem_of_cons, elem_of_nil in H. destruct H as [->|[->|[->|[->|[->|[->|[->|[->|[->|[->|[]]]]]]]]]]]; done.
Qed.

Lemma digits_from_step acc d s : (d < 10)%N → digits_from acc (String (pretty_N_char d) s) = digits_from (10 * acc + Z.of_N d) s.
Proof.
  intros Hd. destruct (digit_char d Hd) as (H1 & H2 & _). unfold digits_from. cbn [span_digits]. rewrite H1.
  destruct (span_digits s) as [ds r]. cbn [fst foldl]. by rewrite H2.
Qed.

Lemma digits_from_go x s : digits_from 0 (pretty_N_go x s) = digits_from (Z.of_N x) s.
Proof.
  revert s. induction (N.lt_wf_0 x) as [x _ IH]. intros s. destruct (decide (x = 0)%N) as [->|Hx]; [by rewrite pretty_N_go_0|].
  rewrite pretty_N_go_step by lia. rewrite IH by (apply N.div_lt; lia). rewrite digits_from_step by (apply N.mod_lt; lia).
  f_equal. pose proof (N.Div0.div_mod x 10). lia.
Qed.

Lemma pretty_go_head x s : (0 < x)%N → ∃ c r, pretty_N_go x s = String c r ∧ c ≠ "0"%char ∧ Str.is_digit c = true.
Proof.
  revert s. induction (N.lt_wf_0 x) as [x _ IH]. intros s Hx. rewrite pretty_N_go_step by lia.
  destruct (decide (x / 10 = 0)%N) as [E|E].
  - rewrite E, pretty_N_go_0. assert (Hm : (x mod 10 = x)%N) by (pose proof (N.Div0.div_mod x 10); lia).
    destruct (digit_char (x mod 10)) as (H1 & _ & H3); [apply N.mod_lt; lia|]. eexists _, s. split; [done|]. split; [|done].
    intros H0%H3. lia.
  - apply IH; [apply N.div_lt; lia|by apply N.neq_0_lt_0].
Qed.

Lemma pretty_N_val (n : N) : digits_from 0 (pretty n) = Z.of_N n.
Proof. unfold pretty, pretty_N. destruct (decide _) as [->|]; [done|]. by rewrite digits_from_go. Qed.

(** What follows a number does not continue it. *)
Definition number_ends (rest : string) : bool :=
  match rest with
  | String c _ => negb (Str.is_digit c || Ascii.eqb c "." || Ascii.eqb c "e" || Ascii.eqb c "E")
  | EmptyString => true
  end.

Lemma span_digits_app s rest : Str.sforallb Str.is_digit s = true → number_ends rest = true →
  span_digits (s +:+ rest) = ((span_digits s).1, rest).
Proof.
  intros Hs Hr. induction s as [|c s IH]; cbn [Str.sforallb] in Hs.
  - change (EmptyString +:+ rest) with rest. destruct rest as [|c r]; [done|]. cbn [number_ends] in Hr. cbn [span_digits].
    by destruct (Str.is_digit c).
  - apply andb_true_iff in Hs as [Hc Hs]. change (String c s +:+ rest) with (String c (s +:+ rest)). cbn [span_digits].
    rewrite Hc, IH by done. by destruct (span_digits s).
Qed.

Lemma digits_val_app ds : digits_val (ds ++ []) = digits_val ds.
Proof. by rewrite app_nil_r. Qed.

Definition sign (neg : bool) : string := if neg then "-" else EmptyString.
Definition signed (neg : bool) (z : Z) : Z := if neg then - z else z.

Lemma parse_digits neg s rest d ds : span_digits s = (d :: ds, EmptyString) → Str.sforallb Str.is_digit s = true →
  match s with String "0" r => r = EmptyString | _ => True end → number_ends rest = true →
  parse_number (sign neg +:+ (s +:+ rest)) = Ok (VInt (signed neg (digits_val (d :: ds))), rest).
Proof.
  intros Hs Hd H0 Hr. pose proof (span_digits_app s rest Hd Hr) as Hspan. rewrite Hs in Hspan. cbn [fst] in Hspan.
  unfold parse_number.
  assert (Hneg : (match sign neg +:+ (s +:+ rest) with String "-" r => (true, r) | _ => (false, sign neg +:+ (s +:+ rest)) end)
    = (neg, s +:+ rest)).
  { destruct neg; [done|]. destruct s as [|c s]; [done|]. cbn [Str.sforallb] in Hd. apply andb_true_iff in Hd as [Hc _].
    clear -Hc. destruct c as [[] [] [] [] [] [] [] []]; done. }
  rewrite Hneg.
  assert (Hip : (match s +:+ rest with String "0" r => ([0], r) | _ => span_digits (s +:+ rest) end) = (d :: ds, rest)).
  { destruct s as [|c s]; [done|]. change (String c s +:+ rest) with (String c (s +:+ rest)) in *.
    destruct (Ascii.eqb_spec c "0") as [->|Hc].
    - subst s. cbn in Hs |- *. by injection Hs as <- <-.
    - rewrite <-Hspan. clear -Hc. destruct c as [[] [] [] [] [] [] [] []]; done. }
  rewrite Hip. clear -Hr. destruct rest as [|c r]; [cbn [app]; rewrite app_nil_r; by destruct neg|].
  assert (Hdot : c ≠ "."%char ∧ (Ascii.eqb c "e" || Ascii.eqb c "E") = false).
  { cbn in Hr. apply negb_true_iff in Hr. rewrite !orb_false_iff in Hr. destruct Hr as [[[_ H1] H2] H3].
    split; [by apply Ascii.eqb_neq|by rewrite H2, H3]. }
  destruct Hdot as [Hdot He].
  assert (Hfp : (match String c r with String "." r => match span_digits r with ([], _) => ([], String c r) | p => p end
    | _ => ([], String c r) end) = ([], String c r)).
  { clear -Hdot. destruct c as [[] [] [] [] [] [] [] []]; done. }
  rewrite Hfp, He, app_nil_r. by destruct neg.
Qed.

Lemma span_digits_all s : Str.sforallb Str.is_digit s = true → (span_digits s).2 = EmptyString.
Proof.
  induction s as [|c s IH]; [done|]. cbn. intros [Hc Hs]%andb_true_iff. rewrite Hc. specialize (IH Hs).
  by destruct (span_digits s).
Qed.

Lemma parse_pretty_N neg n rest : number_ends rest = true →
  parse_number (sign neg +:+ (pretty (n : N) +:+ rest)) = Ok (VInt (signed neg (Z.of_N n)), rest).
Proof.
  intros Hr. pose proof (Str.pretty_N_digits n) as Hd. pose proof (pretty_N_val n) as Hv. unfold digits_from in Hv.
  fold (digits_val (span_digits (pretty n)).1) in Hv. pose proof (span_digits_all _ Hd) as Ha.
  destruct (span_digits (pretty n)) as [ds r] eqn:Es. cbn [fst snd] in *. subst r.
  assert (Hhead : ∃ c s, pretty n = String c s ∧ Str.is_digit c = true ∧ (c = "0"%char → s = EmptyString)).
  { unfold pretty, pretty_N. destruct (decide (n = 0)%N) as [->|Hn]; [by exists "0"%char, EmptyString|].
    destruct (pretty_go_head n EmptyString) as (c & s & -> & Hc & Hc'); [lia|]. by exists c, s. }
  destruct Hhead as (c & s & Hp & Hc & H0). destruct ds as [|d ds].
  { rewrite Hp in Es. cbn in Es. rewrite Hc in Es. by destruct (span_digits s). }
  rewrite (parse_digits neg (pretty n) rest d ds); [by rewrite Hv|done|done| |done].
  rewrite Hp. destruct (Ascii.eqb_spec c "0") as [->|Hne]; [by apply H0|].
  clear -Hne. destruct c as [[] [] [] [] [] [] [] []]; done.
Qed.

(** *** Values *)

Section RoundTrip.
Context (float_repr : spec_float → string).
Notation dump := (json_dumps float_repr).
Notation items := (dump_items float_repr).
Notation members := (dump_members float_repr).

Lemma dump_list x l : dump (VList (x :: l)) = "[" +:+ dump x +:+ items l.
Proof. reflexivity. Qed.

Lemma dump_dict k x d : dump (VDict ((k, x) :: d)) = "{" +:+ dump_string k +:+ ": " +:+ dump x +:+ members d.
Proof. reflexivity. Qed.

Lemma plain_json_list l : plain_json (VList l) = true ↔ Forall (λ x, plain_json x = true) l.
Proof.
  cbn [plain_json]. induction l as [|x l IH]; [split; [constructor|done]|]. rewrite andb_true_iff, IH. by rewrite Forall_cons.
Qed.

Lemma plain_json_dict d : plain_json (VDict d) = true ↔ NoDup (dict_keys d) ∧ Forall (λ kv, plain_json kv.2 = true) d.
Proof.
  cbn [plain_json]. rewrite andb_true_iff, bool_decide_eq_true. apply and_iff_compat_l.
  induction d as [|[k x] d IH]; [split; [constructor|done]|]. rewrite andb_true_iff, IH. by rewrite Forall_cons.
Qed.

(** The first character of a value *)
Definition value_head (c : ascii) : bool := negb (json_ws c) && negb (Ascii.eqb c "]") && negb (Ascii.eqb c "}").

Lemma pretty_head z : ∃ c r, pretty (z : Z) = String c r ∧ (Str.is_digit c = true ∨ c = "-"%char).
Proof.
  assert (HN : ∀ n : N, ∃ c r, pretty n = String c r ∧ Str.is_digit c = true).
  { intros n. unfold pretty, pretty_N. destruct (decide (n = 0)%N) as [->|Hn]; [by exists "0"%char, EmptyString|].
    destruct (pretty_go_head n EmptyString) as (c & r & -> & _ & Hc); [lia|]. by exists c, r. }
  destruct z as [|p|p].
  - by exists "0"%char, EmptyString; split; [|left].
  - destruct (HN (Npos p)) as (c & r & Hp & Hc). exists c, r. split; [exact Hp|by left].
  - exists "-"%char, (pretty (Npos p)). split; [done|by right].
Qed.

Lemma dump_head v : plain_json v = true → ∃ c r, dump v = String c r ∧ value_head c = true.
Proof.
  destruct v as [|[]|z|f|s|[|x l]|[|[k x] d]]; intros Hv; try done; try (by eexists _, _).
  cbn [json_dumps]. destruct (pretty_head z) as (c & r & -> & Hc). exists c, r. split; [done|].
  destruct Hc as [Hc| ->]; [|done]. clear -Hc. destruct c as [[] [] [] [] [] [] [] []]; done.
Qed.

Lemma skip_head c r : value_head c = true → skip_ws (String c r) = String c r.
Proof. unfold value_head. rewrite !andb_true_iff, negb_true_iff. intros [[H _] _]. unfold skip_ws. cbn. by rewrite H. Qed.

Lemma parse_dumped_string s fuel rest :
  parse_value (S fuel) (dump_string s +:+ rest) = Ok (VStr s, rest).
Proof.
  unfold dump_string. change (String quote (escape s +:+ String quote EmptyString) +:+ rest) with
    (String quote ((escape s +:+ String quote EmptyString) +:+ rest)).
  rewrite <-Str.app_assoc. change (String quote EmptyString +:+ rest) with (String quote rest).
  cbn [parse_value]. change (Ascii.eqb quote quote) with true. cbv iota.
  rewrite parse_escape; [done|]. rewrite Str.app_length. lia.
Qed.

Lemma parse_dumped_int z fuel rest : number_ends rest = true → parse_value (S fuel) (dump (VInt z) +:+ rest) = Ok (VInt z, rest).
Proof.
  intros Hr. cbn [json_dumps]. destruct (pretty_head z) as (c & r & Hp & Hc).
  assert (Hnum : parse_number (pretty z +:+ rest) = Ok (VInt z, rest)).
  { destruct z as [|p|p]; [by apply (parse_pretty_N false 0%N)|by apply (parse_pretty_N false (Npos p))|
      by apply (parse_pretty_N true (Npos p))]. }
  rewrite Hp in *. change (String c r +:+ rest) with (String c (r +:+ rest)) in *. cbn [parse_value].
  assert (Hq : Ascii.eqb c quote = false ∧ Ascii.eqb c "[" = false ∧ Ascii.eqb c "{" = false ∧
    parse_constant json_constants (String c (r +:+ rest)) = None).
  { assert (HN : ∀ p, ∃ c r, pretty (Npos p) = String c r ∧ Str.is_digit c = true).
    { intros p. unfold pretty, pretty_N. destruct (decide _) as [E|_]; [done|].
      destruct (pretty_go_head (Npos p) EmptyString) as (c' & r' & -> & _ & H'); [lia|]. by exists c', r'. }
    destruct z as [|p|p].
    - injection Hp as <- <-. done.
    - destruct (HN p) as (c' & r' & Hp' & Hd). change (pretty (Z.pos p)) with (pretty (Npos p)) in Hp.
      rewrite Hp' in Hp. injection Hp as -> ->. clear -Hd. destruct c as [[] [] [] [] [] [] [] []]; done.
    - change (pretty (Z.neg p)) with (String "-" (pretty (Npos p))) in Hp. injection Hp as <- Hp.
      destruct (HN p) as (c' & r' & Hp' & Hd). rewrite Hp' in Hp. subst r. clear -Hd.
      destruct c' as [[] [] [] [] [] [] [] []]; done. }
  destruct Hq as (-> & -> & -> & ->). exact Hnum.
Qed.

(** What is read back *)
Definition reads (v : pyval) : Prop := ∀ fuel rest, (String.length (dump v) < fuel)%nat → number_ends rest = true →
  parse_value fuel (dump v +:+ rest) = Ok (v, rest).

Lemma skip_space s : skip_ws (String " " s) = skip_ws s. Proof. done. Qed.

Lemma items_ends l rest : number_ends (items l +:+ rest) = true.
Proof. by destruct l. Qed.

Lemma items_length l : (1 <= String.length (items l))%nat.
Proof. destruct l; [done|]. cbn [dump_items]. rewrite Str.app_length. change (String.length ", ") with 2%nat. lia. Qed.

Lemma members_length d : (1 <= String.length (members d))%nat.
Proof. destruct d as [|[k x] d]; [done|]. cbn [dump_members]. rewrite Str.app_length. change (String.length ", ") with 2%nat. lia. Qed.

Lemma parse_dumped_items x l fuel rest : reads x → Forall reads l → Forall (λ x, plain_json x = true) l →
  (String.length (dump x +:+ items l) < fuel)%nat →
  parse_items fuel (dump x +:+ (items l +:+ rest)) = Ok (x :: l, rest).
Proof.
  intros Hx Hl. revert x Hx fuel. induction Hl as [|y l Hy _ IH]; intros x Hx fuel Hpl Hf; rewrite Str.app_length in Hf;
    (destruct fuel as [|fuel]; [lia|]); cbn [parse_items];
    (rewrite Hx; [cbn [mbind res_bind fst snd]| |apply items_ends]).
  - done.
  - pose proof (items_length []). lia.
  - inversion_clear Hpl as [|? ? Hpy Hpl']. cbn [dump_items] in *.
    change ((", " +:+ dump y +:+ items l) +:+ rest) with (String "," (String " " ((dump y +:+ items l) +:+ rest))).
    change (skip_ws (String "," (String " " ((dump y +:+ items l) +:+ rest)))) with
      (String "," (String " " ((dump y +:+ items l) +:+ rest))). cbv beta iota.
    rewrite skip_space, <-Str.app_assoc. destruct (dump_head y Hpy) as (c & r & Hy0 & Hc).
    assert (Hskip : skip_ws (dump y +:+ (items l +:+ rest)) = dump y +:+ (items l +:+ rest)) by (rewrite Hy0; by apply skip_head).
    rewrite Hskip, IH; [done|done|done|]. rewrite !Str.app_length in Hf. rewrite Str.app_length.
    change (String.length ", ") with 2%nat in Hf. lia.
  - pose proof (items_length (y :: l)). lia.
Qed.

Lemma dict_set_fresh k v (d : pydict) : k ∉ dict_keys d → dict_set k v d = d ++ [(k, v)].
Proof.
  induction d as [|[k' w] d IH]; [done|]. unfold dict_keys. cbn [map fst]. rewrite not_elem_of_cons. intros [Hk Hd].
  cbn [dict_set]. rewrite (proj2 (String.eqb_neq _ _)) by done. by rewrite IH.
Qed.

Lemma members_ends d rest : number_ends (members d +:+ rest) = true.
Proof. by destruct d as [|[]]. Qed.

Lemma parse_member k x acc fuel tail : reads x → plain_json x = true → (String.length (dump x) < fuel)%nat →
  number_ends tail = true →
  parse_members (S fuel) acc (dump_string k +:+ (": " +:+ (dump x +:+ tail))) =
  match skip_ws tail with
  | String "}" r => Ok (dict_set k x acc, r)
  | String "," r => parse_members fuel (dict_set k x acc) (skip_ws r)
  | _ => Err decode_error
  end.
Proof.
  intros Hx Hpx Hf Ht. unfold dump_string.
  change (String quote (escape k +:+ String quote EmptyString) +:+ (": " +:+ (dump x +:+ tail))) with
    (String quote ((escape k +:+ String quote EmptyString) +:+ (": " +:+ (dump x +:+ tail)))).
  rewrite <-Str.app_assoc. change (String quote EmptyString +:+ (": " +:+ (dump x +:+ tail))) with
    (String quote (String ":" (String " " (dump x +:+ tail)))).
  cbn [parse_members]. change (Ascii.eqb quote quote) with true. cbv iota.
  rewrite parse_escape by (rewrite Str.app_length; lia). cbn [mbind res_bind fst snd].
  change (skip_ws (String ":" (String " " (dump x +:+ tail)))) with (String ":" (String " " (dump x +:+ tail))).
  cbv beta iota. rewrite skip_space. destruct (dump_head x Hpx) as (c & r & Hx0 & Hc).
  assert (Hskip : skip_ws (dump x +:+ tail) = dump x +:+ tail) by (rewrite Hx0; by apply skip_head).
  rewrite Hskip, Hx by done. done.
Qed.

Lemma NoDup_app_mid {A} (l : list A) x r : NoDup (l ++ x :: r) → x ∉ l.
Proof. intros (_ & H & _)%NoDup_app Hx. by apply (H x Hx); left. Qed.

Lemma parse_dumped_members k x d acc fuel rest : reads x → Forall (λ kv, reads kv.2) d →
  plain_json x = true → Forall (λ kv, plain_json kv.2 = true) d → NoDup (dict_keys (acc ++ (k, x) :: d)) →
  (String.length (dump x +:+ members d) < fuel)%nat →
  parse_members fuel acc (dump_string k +:+ (": " +:+ (dump x +:+ (members d +:+ rest)))) = Ok (acc ++ (k, x) :: d, rest).
Proof.
  intros Hx Hd. revert k x Hx acc fuel. induction Hd as [|[k' y] d Hy _ IH]; intros k x Hx acc fuel Hpx Hpd Hnd Hf;
    rewrite Str.app_length in Hf; (destruct fuel as [|fuel]; [lia|]);
    (assert (Hk : k ∉ dict_keys acc) by (unfold dict_keys in *; rewrite map_app in Hnd; by apply NoDup_app_mid in Hnd));
    (rewrite parse_member; [|done|done| |apply members_ends]); rewrite ?dict_set_fresh by done.
  - done.
  - pose proof (members_length []). lia.
  - inversion_clear Hpd as [|? ? Hpy Hpd']. cbn [dump_members] in *. cbn [snd] in *.
    change ((", " +:+ dump_string k' +:+ ": " +:+ dump y +:+ members d) +:+ rest) with
      (String "," (String " " ((dump_string k' +:+ ": " +:+ dump y +:+ members d) +:+ rest))).
    change (skip_ws (String "," ?s)) with (String "," s). cbv beta iota. rewrite skip_space.
    rewrite <-!Str.app_assoc.
    assert (Hskip : ∀ s, skip_ws (dump_string k' +:+ s) = dump_string k' +:+ s) by done.
    rewrite Hskip, IH; [by rewrite <-app_assoc|done|done|done|by rewrite <-app_assoc|].
    rewrite !Str.app_length in Hf. rewrite Str.app_length. change (String.length ", ") with 2%nat in Hf. lia.
  - pose proof (members_length ((k', y) :: d)). lia.
Qed.

Lemma dump_reads v : plain_json v = true → reads v.
Proof.
  induction v as [|b|z|f|s|l IH|d IH] using pyval_nested_ind; intros Hp fuel rest Hf Hr; (destruct fuel as [|fuel]; [lia|]).
  - done.
  - by destruct b.
  - by apply parse_dumped_int.
  - done.
  - apply parse_dumped_string.
  - rewrite plain_json_list in Hp. destruct l as [|x l]; [done|]. rewrite dump_list in Hf |- *.
    assert (Hreads : Forall reads (x :: l)).
    { rewrite Forall_forall in IH, Hp |- *. intros y Hy. by apply IH, Hp. }
    inversion_clear Hreads as [|? ? Hx Hl]. inversion_clear Hp as [|? ? Hpx Hpl].
    rewrite <-!Str.app_assoc. change ("[" +:+ ?s) with (String "[" s). cbn [parse_value].
    change (Ascii.eqb "[" quote) with false. change (Ascii.eqb "[" "[") with true. cbv iota.
    destruct (dump_head x Hpx) as (c & r & Hx0 & Hc).
    assert (Hskip : skip_ws (dump x +:+ (items l +:+ rest)) = dump x +:+ (items l +:+ rest)) by (rewrite Hx0; by apply skip_head).
    rewrite Hskip.
    assert (Hitems : parse_items fuel (dump x +:+ (items l +:+ rest)) = Ok (x :: l, rest)).
    { apply parse_dumped_items; [done..|]. rewrite Str.app_length in Hf. change (String.length "[") with 1%nat in Hf. lia. }
    rewrite Hx0 in Hitems |- *. change (String c r +:+ ?s) with (String c (r +:+ s)) in *.
    clear -Hc Hitems. destruct c as [[] [] [] [] [] [] [] []]; first [discriminate Hc|cbv beta iota; by rewrite Hitems].
  - rewrite plain_json_dict in Hp. destruct Hp as [Hnd Hp]. destruct d as [|[k x] d]; [done|]. rewrite dump_dict in Hf |- *.
    assert (Hreads : Forall (λ kv, reads kv.2) ((k, x) :: d)).
    { rewrite Forall_forall in IH, Hp |- *. intros y Hy. by apply IH, Hp. }
    inversion_clear Hreads as [|? ? Hx Hl]. inversion_clear Hp as [|? ? Hpx Hpl]. cbn [snd] in *.
    rewrite <-!Str.app_assoc. change ("{" +:+ ?s) with (String "{" s). cbn [parse_value].
    change (Ascii.eqb "{" quote) with false. change (Ascii.eqb "{" "[") with false. change (Ascii.eqb "{" "{") with true. cbv iota.
    assert (Hskip : ∀ s, skip_ws (dump_string k +:+ s) = dump_string k +:+ s) by done. rewrite Hskip.
    assert (Hm : parse_members fuel [] (dump_string k +:+ (": " +:+ (dump x +:+ (members d +:+ rest)))) = Ok ((k, x) :: d, rest)).
    { apply (parse_dumped_members k x d []); [done..|]. rewrite !Str.app_length in Hf. rewrite Str.app_length.
      change (String.length "{") with 1%nat in Hf. lia. }
    change ((p ← parse_members fuel [] (dump_string k +:+ (": " +:+ (dump x +:+ (members d +:+ rest)))); Ok (VDict p.1, p.2))
      = Ok (VDict ((k, x) :: d), rest)). by rewrite Hm.
Qed.

(** *** One line *)

Definition no_newline (s : string) : bool := Str.sforallb (λ c, negb (Ascii.eqb (ascii_of_nat 10) c)) s.

Lemma no_newline_app s t : no_newline (s +:+ t) = no_newline s && no_newline t.
Proof. apply Str.sforallb_app. Qed.

Lemma escape_line s : no_newline (escape s) = true.
Proof.
  induction s as [|c s IH]; [done|]. cbn [escape]. rewrite no_newline_app, IH, andb_true_r.
  destruct c as [[] [] [] [] [] [] [] []]; reflexivity.
Qed.

Lemma dump_string_line s : no_newline (dump_string s) = true.
Proof. unfold dump_string. change (no_newline (escape s +:+ String quote EmptyString) = true). by rewrite no_newline_app, escape_line. Qed.

Lemma pretty_line z : no_newline (pretty (z : Z)) = true.
Proof.
  assert (HN : ∀ n : N, no_newline (pretty n) = true).
  { intros n. eapply Str.sforallb_impl; [|apply Str.pretty_N_digits].
    intros c Hc. destruct c as [[] [] [] [] [] [] [] []]; done. }
  destruct z as [|p|p]; [done|apply (HN (Npos p))|]. apply (HN (Npos p)).
Qed.

Lemma dump_line v : plain_json v = true → no_newline (dump v) = true.
Proof.
  induction v as [|b|z|f|s|l IH|d IH] using pyval_nested_ind; intros Hp; try done.
  - by destruct b.
  - apply pretty_line.
  - apply dump_string_line.
  - rewrite plain_json_list in Hp. destruct l as [|x l]; [done|]. rewrite dump_list, !no_newline_app.
    inversion_clear IH as [|? ? Hx IHl]. inversion_clear Hp as [|? ? Hpx Hpl]. rewrite Hx by done. cbn [andb].
    clear Hx Hpx. change (no_newline "[") with true. cbn [andb].
    induction IHl as [|y l Hy _ IH]; [done|]. inversion_clear Hpl as [|? ? Hpy Hpl']. cbn [dump_items].
    rewrite !no_newline_app, Hy, IH by done. done.
  - rewrite plain_json_dict in Hp. destruct Hp as [_ Hp]. destruct d as [|[k x] d]; [done|]. rewrite dump_dict, !no_newline_app, dump_string_line.
    inversion_clear IH as [|? ? Hx IHl]. inversion_clear Hp as [|? ? Hpx Hpl]. cbn [snd] in *. rewrite Hx by done.
    clear Hx Hpx. change (no_newline "{") with true. change (no_newline ": ") with true. cbn [andb].
    induction IHl as [|[k' y] d Hy _ IH]; [done|]. inversion_clear Hpl as [|? ? Hpy Hpl']. cbn [dump_members snd] in *.
    rewrite !no_newline_app, dump_string_line, Hy, IH by done. done.
Qed.

Lemma json_read_back v : plain_json v = true → json_loads (dump v) = Ok v ∧ no_newline (dump v) = true ∧ dump v ≠ EmptyString.
Proof.
  intros Hp. destruct (dump_head v Hp) as (c & r & Hv & Hc). split; [|split; [by apply dump_line|by rewrite Hv]].
  unfold json_loads. assert (Hskip : skip_ws (dump v) = dump v) by (rewrite Hv; by apply skip_head). rewrite Hskip.
  pose proof (dump_reads v Hp (S (2 * String.length (dump v))) EmptyString) as H. rewrite Str.app_nil_r in H.
  rewrite H by (done || lia). done.
Qed.
End RoundTrip.

(** JSON is read back as it was written: [json.loads] of [json.dumps] is the value,
    for every value without floats (texts with any characters, integers of any size,
    nested lists, objects in their order), and what is written is one line that is not
    empty, as the line-framed streams of the application need. *)
Theorem json_round_trip (float_repr : spec_float → string) v (Hv : plain_json v = true) :
  json_loads (json_dumps float_repr v) = Ok v ∧ no_newline (json_dumps float_repr v) = true ∧
  json_dumps float_repr v ≠ EmptyString.
Proof. by apply json_read_back. Qed.

Lemma json_round_trip_witness :
  let v := VDict [("text", VStr (String (ascii_of_nat 10) "a")); ("n", VList [VInt (-12); VNone; VBool true])] in
  plain_json v = true ∧ json_loads (json_dumps (λ _, "nan") v) = Ok v.
Proof.
  assert (H : plain_json (VDict [("text", VStr (String (ascii_of_nat 10) "a")); ("n", VList [VInt (-12); VNone; VBool true])]) = true)
    by (vm_compute; reflexivity).
  split; [exact H|apply (json_round_trip (λ _, "nan") _ H)].
Defined.
