(* ===== verification/Responses.v ===== *)
(** * Events of the Responses API applied to a list of output items
    (utils/response.py: [deep_merge], [handle_responses_streaming_event],
    [get_response_delta_key]).

    The event and the items are JSON values of any shape: what the code would raise
    on one that is not what it expects is an [Err].  The code copies the lists and
    items it changes, so new values stand for them. *)

From S2P Require Import Prelude PyVal Messages.
From Stdlib Require Import Ascii SpecFloat.

Local Open Scope Z_scope.

(** ** Merging a delta into a value *)

Fixpoint deep_merge (source target : pyval) {struct source} : pyval :=
  match target, source with
  | VDict t, VDict s =>
      VDict ((fix go (s t : pydict) : pydict :=
                match s with
                | [] => t
                | (k, v) :: s =>
                    go s (match dict_get k t with
                          | Some w => dict_set k (deep_merge v w) t
                          | None => dict_set k v t
                          end)
                end) s t)
  | VStr t, VStr s => VStr (t +:+ s)
  | _, _ => source
  end.

(** ** Positions *)

(** [i < j] and [i <= j] for an index that was sent, and a length *)
Definition lt_len (i : pyval) (n : Z) : res bool :=
  match as_num i with Some x => Ok (num_ltb x (NInt n)) | None => Err TypeError end.
Definition ge_len (i : pyval) (n : Z) : res bool :=
  match as_num i with Some x => Ok (num_leb (NInt n) x) | None => Err TypeError end.

(** [0 <= i < n] *)
Definition in_range (i : pyval) (n : Z) : res bool :=
  b ← ge_len i 0; if (b : bool) then lt_len i n else Ok false.

(** An index of a list is an integer. *)
Definition as_index (i : pyval) : res Z :=
  match i with VInt z => Ok z | VBool b => Ok (if b then 1 else 0) | _ => Err TypeError end.

Definition zlen {A} (l : list A) : Z := Z.of_nat (length l).

(** [l[i]]: an integer below zero counts from the end. *)
Definition position {A} (l : list A) (i : pyval) : res nat :=
  z ← as_index i;
  if (0 <=? z) && (z <? zlen l) then Ok (Z.to_nat z)
  else if (z <? 0) && (- zlen l <=? z) then Ok (Z.to_nat (zlen l + z))
  else Err IndexError.
Definition get_item (l : list pyval) (i : pyval) : res pyval :=
  n ← position l i; match l !! n with Some v => Ok v | None => Err IndexError end.
Definition set_at (l : list pyval) (i : pyval) (v : pyval) : res (list pyval) :=
  n ← position l i; Ok (<[ n := v ]> l).

(** [l.insert(i, v)] for an index of the list *)
Definition insert_at (l : list pyval) (i : pyval) (v : pyval) : res (list pyval) :=
  n ← position l i; Ok (take n l ++ v :: drop n l).

(** [while len(l) <= i: l.append(v)] *)
Definition pad_to (l : list pyval) (i : pyval) (v : pyval) : res (list pyval) :=
  b ← ge_len i (zlen l);
  if (b : bool) then z ← as_index i; Ok (l ++ replicate (Z.to_nat (z + 1 - zlen l)) v)
  else Ok l.

(** [list(v)] *)
Definition py_list : pyval → res (list pyval) := viter.

(** ** Deltas *)

Definition is_delta_type (t : string) : bool := Str.startswith "response." t && Str.endswith ".delta" t.
Definition is_done_type (t : string) : bool := Str.startswith "response." t && Str.endswith ".done" t.

(** [parts[1]] of a type with at least three parts *)
Definition type_part (t : string) : option string :=
  match Str.split "." t with _ :: p :: _ :: _ => Some p | _ => None end.

Definition empty_text_part (type : string) : pyval := VDict [("type", VStr type); ("text", VStr EmptyString)].

(** The value a delta is merged into when there is none yet *)
Definition initial_value (v delta : pyval) : pyval :=
  if is_none v then (if is_dict delta then VDict [] else VStr EmptyString) else v.

(** [item[field]], a list of parts, with the delta merged into [key] of the part at
    [index]; [merge] is the new value of the key. *)
Definition merge_part (field : string) (pad : pyval) (index : pyval) (key : string)
    (merge : pydict → pyval) (item : pydict) : res pydict :=
  parts ← match dict_get field item with Some v => py_list v | None => Ok [] end;
  parts ← pad_to parts index pad;
  part ← get_item parts index;
  part ← as_dict part;
  parts ← set_at parts index (VDict (dict_set key (merge part) part));
  Ok (dict_set field (VList parts) item).

Section Events.
Context (repr_other : pyval → string).

(** The changes of a delta to its item *)
Definition delta_item (delta_type : string) (data : pydict) (item : pydict) : res pydict :=
  let delta := dgetd data "delta" (VStr EmptyString) in
  let item_type := dgetd item "type" (VStr EmptyString) in
  if String.eqb delta_type "function_call_arguments" then
    if veq_str item_type "function_call" then
      match dgetd item "arguments" (VStr EmptyString) with
      | VStr old => Ok (dict_set "arguments" (VStr (old +:+ py_str repr_other delta)) item)
      | _ => Err TypeError
      end
    else Ok item
  else if veq_str item_type "message" then
    if String.eqb delta_type "reasoning_text" || String.eqb delta_type "reasoning_summary_text" then Ok item
    else
      let key := if String.eqb delta_type "text" || String.eqb delta_type "output_text" then "text" else delta_type in
      merge_part "content" (empty_text_part "text") (dgetd data "content_index" (VInt 0)) key
        (λ part, deep_merge delta (initial_value (dget part key) delta)) item
  else if veq_str item_type "reasoning" then
    if String.eqb delta_type "reasoning_summary_text" then
      merge_part "summary" (empty_text_part "summary_text") (dgetd data "summary_index" (VInt 0)) "text"
        (λ part, deep_merge delta (dgetd part "text" (VStr EmptyString))) item
    else if String.eqb delta_type "reasoning_text" then
      merge_part "content" (empty_text_part "text") (dgetd data "content_index" (VInt 0)) "text"
        (λ part, deep_merge delta (dgetd part "text" (VStr EmptyString))) item
    else Ok item
  else
    let key := if String.eqb delta_type "text" || String.eqb delta_type "output_text" then "text" else delta_type in
    Ok (dict_set key (deep_merge delta (initial_value (dget item key) delta)) item).

(** An item that a delta starts *)
Definition placeholder : pydict :=
  [("type", VStr "message"); ("status", VStr "in_progress"); ("role", VStr "assistant"); ("content", VList [])].
Definition started_item (delta_type : string) (data : pydict) : pyval :=
  VDict (dict_set "type"
    (VStr (if Str.startswith "reasoning" delta_type then "reasoning"
           else if String.eqb delta_type "function_call_arguments" then "function_call" else "message"))
    (dict_set "id" (dget data "item_id") placeholder)).

Definition handle_delta (delta_type : string) (data : pydict) (output : list pyval) : res (list pyval) :=
  let index := dgetd data "output_index" (VInt (Z.max (zlen output - 1) 0)) in
  beyond ← ge_len index (zlen output);
  output ← (if (beyond : bool) then
      padded ← pad_to output index (VDict placeholder);
      set_at padded index (started_item delta_type data)
    else Ok output);
  inside ← in_range index (zlen output);
  if (inside : bool) then
    item ← get_item output index;
    item ← as_dict item;
    item ← delta_item delta_type data item;
    set_at output index (VDict item)
  else Ok output.

(** ** The other events *)

(** Is [existing] the item that was sent? *)
Definition same_item (item existing : pyval) : res bool :=
  id ← vget item "id";
  by_id ← (if truthy id then i ← vget existing "id"; Ok (py_eqb i id) else Ok false);
  if (by_id : bool) then Ok true
  else
    call_id ← vget item "call_id";
    if truthy call_id then
      t ← vget existing "type"; t' ← vget item "type";
      if py_eqb t t' then c ← vget existing "call_id"; Ok (py_eqb c call_id) else Ok false
    else Ok false.

Fixpoint find_item (item : pyval) (output : list pyval) (i : Z) : res (option Z) :=
  match output with
  | [] => Ok None
  | existing :: output =>
      same ← same_item item existing;
      if (same : bool) then Ok (Some i) else find_item item output (i + 1)
  end.

Definition item_added (data : pydict) (output : list pyval) : res (list pyval) :=
  let item := dgetd data "item" (VDict []) in
  if negb (truthy item) then Ok output
  else
    let index := dgetd data "output_index" (VInt (zlen output)) in
    existing ← find_item item output 0;
    match existing with
    | Some i => set_at output (VInt i) item
    | None =>
        inside ← in_range index (zlen output);
        if (inside : bool) then insert_at output index item else Ok (output ++ [item])
    end.

(** [item.copy()] and [item[field]] as a list: a list has no field. *)
Definition copied_item (v : pyval) : res pydict :=
  match v with VDict d => Ok d | VList _ => Err TypeError | _ => Err AttributeError end.

(** [response.content_part.added], [response.reasoning_summary_part.added] *)
Definition part_added (field : string) (skip_reasoning : bool) (data : pydict) (output : list pyval)
    : res (list pyval) :=
  let part := dgetd data "part" (VDict []) in
  let index := dgetd data "output_index" (VInt (zlen output - 1)) in
  inside ← match output with [] => Ok false | _ => in_range index (zlen output) end;
  if (inside : bool) then
    item ← get_item output index;
    item ← copied_item item;
    parts ← match dict_get field item with Some v => py_list v | None => Ok [] end;
    let parts := if skip_reasoning && is_type item "reasoning" then parts else parts ++ [part] in
    set_at output index (VDict (dict_set field (VList parts) item))
  else Ok output.

Definition item_done (data : pydict) (output : list pyval) : res (list pyval) :=
  let item := dget data "item" in
  let index := dgetd data "output_index" (VInt (zlen output - 1)) in
  if negb (truthy item) then Ok output
  else
    inside ← in_range index (zlen output);
    if (inside : bool) then set_at output index item else Ok (output ++ [item]).

(** [response.content_part.done], [response.reasoning_summary_part.done]: the new
    output, and whether it changed *)
Definition part_done (field index_key : string) (data : pydict) (output : list pyval) : res (list pyval * bool) :=
  let part := dget data "part" in
  let index := dgetd data "output_index" (VInt (zlen output - 1)) in
  inside ← (if truthy part then match output with [] => Ok false | _ => in_range index (zlen output) end
            else Ok false);
  if (inside : bool) then
    item ← get_item output index;
    match item with
    | VDict item =>
        match dict_get field item with
        | Some v =>
            parts ← py_list v;
            let part_index := dgetd data index_key (VInt (zlen parts - 1)) in
            inside ← in_range part_index (zlen parts);
            if (inside : bool) then
              parts ← set_at parts part_index part;
              output ← set_at output index (VDict (dict_set field (VList parts) item));
              Ok (output, true)
            else Ok (output, false)
        | None => Ok (output, false)
        end
    | VList l => if existsb (py_eqb (VStr field)) l then Err TypeError else Ok (output, false)
    | _ => Err AttributeError
    end
  else Ok (output, false).

(** A finished field, [response.<field>.done] *)
Definition done_item (type_name key : string) (data item : pydict) : res pydict :=
  let final_value := dget data key in
  let item_type := dgetd item "type" (VStr EmptyString) in
  if String.eqb type_name "function_call_arguments" then
    Ok (if veq_str item_type "function_call" then dict_set "arguments" final_value item else item)
  else if veq_str item_type "message" then
    match dict_get "content" item with
    | Some v =>
        parts ← py_list v;
        let index := dgetd data "content_index" (VInt 0) in
        there ← lt_len index (zlen parts);
        if (there : bool) then
          part ← get_item parts index;
          part ← copied_item part;
          parts ← set_at parts index (VDict (dict_set key final_value part));
          Ok (dict_set "content" (VList parts) item)
        else Ok (dict_set "content" (VList parts) item)
    | None => Ok item
    end
  else if veq_str item_type "reasoning" then Ok (dict_set "status" (VStr "completed") item)
  else Ok (dict_set key final_value item).

Definition field_done (type_name : string) (data : pydict) (output : list pyval) : res (list pyval * bool) :=
  let index := dgetd data "output_index" (VInt (zlen output - 1)) in
  inside ← match output with [] => Ok false | _ => in_range index (zlen output) end;
  let key := if vin_strs (VStr type_name) ["text"; "output_text"; "reasoning_text"; "reasoning_summary_text"]
             then "text"
             else if String.eqb type_name "function_call_arguments" then "arguments" else type_name in
  if (inside : bool) && dict_has key data then
    item ← get_item output index;
    item ← as_dict item;
    item ← done_item type_name key data item;
    output ← set_at output index (VDict item);
    Ok (output, true)
  else Ok (output, false).

Definition handle_done (t : string) (data : pydict) (output : list pyval) : res (list pyval * bool) :=
  match type_part t with
  | Some name =>
      if String.eqb name "content_part" then part_done "content" "content_index" data output
      else if String.eqb name "reasoning_summary_part" then part_done "summary" "summary_index" data output
      else if String.eqb name "completed" || String.eqb name "failed" then Ok (output, false)
      else field_done name data output
  | None => Ok (output, false)
  end.

(** The reasoning of a finished response is complete. *)
Definition complete_item (v : pyval) : res pyval :=
  d ← as_dict v;
  Ok (VDict (if is_type d "reasoning" && negb (veq_str (dget d "status") "completed")
             then dict_set "status" (VStr "completed") d else d)).

Definition completed_response (data : pydict) (output : list pyval) : res (list pyval * pydict) :=
  let response := dgetd data "response" (VDict []) in
  final_output ← vget response "output";
  items ← (if truthy final_output then viter final_output else Ok output);
  items ← mapM complete_item items;
  usage ← vget response "usage"; id ← vget response "id";
  Ok (items, [("usage", usage); ("done", VBool true); ("response_id", id)]).

(** [handle_responses_streaming_event]: the new output, and the metadata *)
Definition handle_responses_streaming_event (data : pydict) (output : list pyval)
    : res (list pyval * option pydict) :=
  let quiet (r : res (list pyval)) : res (list pyval * option pydict) := o ← r; Ok (o, None) in
  let noted (r : res (list pyval * bool)) : res (list pyval * option pydict) :=
    p ← r; Ok (p.1, if (p.2 : bool) then Some [] else None) in
  match dgetd data "type" (VStr EmptyString) with
  | VStr t =>
      if String.eqb t "response.output_item.added" then quiet (item_added data output)
      else if String.eqb t "response.content_part.added" then quiet (part_added "content" true data output)
      else if String.eqb t "response.reasoning_summary_part.added" then quiet (part_added "summary" false data output)
      else if is_delta_type t then
        quiet match type_part t with Some name => handle_delta name data output | None => Ok output end
      else if String.eqb t "response.output_item.done" then o ← item_done data output; Ok (o, Some [])
      else if is_done_type t then noted (handle_done t data output)
      else if String.eqb t "response.completed" then p ← completed_response data output; Ok (p.1, Some p.2)
      else if String.eqb t "response.in_progress" then Ok (output, None)
      else if String.eqb t "response.failed" then
        error ← vgetd (dgetd data "response" (VDict [])) "error" (VDict []);
        Ok (output, Some [("error", error)])
      else if String.eqb t "error" then Ok (output, Some [("error", VDict data)])
      else Ok (output, None)
  | _ => Err AttributeError
  end.
End Events.

(** ** The identity of a delta *)

(** [get_response_delta_key]: the five values of the tuple *)
Definition delta_positions : list string := ["item_id"; "output_index"; "content_index"; "summary_index"].
Definition get_response_delta_key (data : pydict) : res (option (list pyval)) :=
  match dgetd data "type" (VStr EmptyString) with
  | VStr t => Ok (if is_delta_type t then Some (VStr t :: map (dget data) delta_positions) else None)
  | _ => Err AttributeError
  end.

(** [==] of two keys *)
Definition same_delta_key (a b : option (list pyval)) : bool :=
  match a, b with
  | Some a, Some b => py_eqb (VList a) (VList b)
  | None, None => true
  | _, _ => false
  end.
