(* ===== verification/ResponsesProps.v ===== *)
(** * Properties of [Responses]: a delta of text applied twice is the joined delta
    applied once. *)

From S2P Require Import Prelude PyVal Messages Responses.

Local Open Scope Z_scope.

(** ** Positions given by integers *)

Lemma ge_len_int z n : ge_len (VInt z) n = Ok (n <=? z).
Proof. unfold ge_len, as_num. by rewrite num_leb_int. Qed.

Lemma lt_len_int z n : lt_len (VInt z) n = Ok (z <? n).
Proof. unfold lt_len, as_num. by rewrite num_ltb_int. Qed.

Lemma in_range_int z n : in_range (VInt z) n = Ok ((0 <=? z) && (z <? n)).
Proof. unfold in_range. rewrite ge_len_int, lt_len_int. cbn. by destruct (0 <=? z). Qed.

Lemma position_length {A B} (l : list A) (m : list B) i : length l = length m → position l i = position m i.
Proof. intros H. unfold position, zlen. by rewrite H. Qed.

Lemma position_lt {A} (l : list A) i n : position l i = Ok n → (n < length l)%nat.
Proof.
  unfold position, zlen. intros (z & _ & H)%bind_Ok.
  destruct (_ && _) eqn:E1; [injection H as <-; lia|]. destruct ((z <? 0) && _) eqn:E2; [injection H as <-; lia|done].
Qed.

Lemma set_at_ok l i v l' : set_at l i v = Ok l' → ∃ n, position l i = Ok n ∧ l' = <[ n := v ]> l.
Proof. unfold set_at. intros (n & Hn & [= <-])%bind_Ok. by exists n. Qed.

Lemma get_set l i v l' : set_at l i v = Ok l' → get_item l' i = Ok v.
Proof.
  intros (n & Hn & ->)%set_at_ok. unfold get_item. rewrite (position_length _ l) by apply length_insert.
  rewrite Hn. cbn. rewrite list_lookup_insert_eq; [done|by apply (position_lt l i)].
Qed.

Lemma set_set l i v w l' : set_at l i v = Ok l' → set_at l' i w = set_at l i w.
Proof.
  intros (n & Hn & ->)%set_at_ok. unfold set_at. rewrite (position_length _ l) by apply length_insert.
  rewrite Hn. cbn. by rewrite list_insert_insert_eq.
Qed.

Lemma get_item_set l i v x : get_item l i = Ok x → ∃ l', set_at l i v = Ok l'.
Proof. unfold get_item, set_at. intros (n & -> & _)%bind_Ok. by eexists. Qed.

Lemma set_at_length l i v l' : set_at l i v = Ok l' → length l' = length l.
Proof. intros (n & _ & ->)%set_at_ok. apply length_insert. Qed.

Lemma pad_to_long l z v : z < zlen l → pad_to l (VInt z) v = Ok l.
Proof. intros H. unfold pad_to. rewrite ge_len_int. cbn. by rewrite (proj2 (Z.leb_gt _ _)). Qed.

Lemma pad_to_int l z v : ∃ n, pad_to l (VInt z) v = Ok (l ++ replicate n v) ∧ z < zlen (l ++ replicate n v).
Proof.
  unfold pad_to, zlen. rewrite ge_len_int. cbn. destruct (Z.leb_spec (Z.of_nat (length l)) z).
  - eexists. split; [done|]. rewrite length_app, length_replicate. lia.
  - exists 0%nat. cbn. by rewrite app_nil_r.
Qed.

(** ** Deltas of text *)

Lemma dgetd_set_eq k v w (d : pydict) : dgetd (dict_set k v d) k w = v.
Proof. unfold dgetd. by rewrite dict_get_set_eq. Qed.

Lemma dgetd_set_other k k' v w (d : pydict) : k ≠ k' → dgetd (dict_set k' v d) k w = dgetd d k w.
Proof. intros. unfold dgetd. by rewrite dict_get_set_ne. Qed.

(** Two parts of a text merged one after the other *)
Lemma deep_merge_text d v : ∃ t, deep_merge (VStr d) v = VStr t ∧ ∀ e, deep_merge (VStr (d +:+ e)) v = VStr (t +:+ e).
Proof.
  destruct v; cbn; try (by exists d). exists (s +:+ d). split; [done|]. intros e. by rewrite Str.app_assoc.
Qed.

Lemma merge_part_twice field pad z key m1 m2 m item :
  (∀ part, m2 (dict_set key (m1 part) part) = m part) →
  (merge_part field pad (VInt z) key m1 item ≫= merge_part field pad (VInt z) key m2) =
  merge_part field pad (VInt z) key m item.
Proof.
  intros Hm. unfold merge_part.
  destruct (match dict_get field item with Some v => py_list v | None => Ok [] end) as [parts|e]; [|done].
  cbn [mbind res_bind]. destruct (pad_to_int parts z pad) as (n & -> & Hn). cbn [mbind res_bind].
  set (l := parts ++ replicate n pad) in *. destruct (get_item l (VInt z)) as [part|e] eqn:Hg; [|done].
  cbn [mbind res_bind]. destruct (as_dict part) as [part'|e] eqn:Hd; [|done]. cbn [mbind res_bind].
  destruct (get_item_set l (VInt z) (VDict (dict_set key (m1 part') part')) part Hg) as [l' Hl']. rewrite Hl'.
  cbn [mbind res_bind]. rewrite dict_get_set_eq. cbn [py_list viter mbind res_bind].
  pose proof (set_at_length _ _ _ _ Hl') as Hlen. rewrite pad_to_long by (unfold zlen in *; lia). cbn [mbind res_bind].
  rewrite (get_set _ _ _ _ Hl'). cbn [as_dict mbind res_bind]. rewrite (set_set _ _ _ _ _ Hl'), Hm, dict_set_set.
  destruct (set_at l (VInt z) (VDict (dict_set key (m part') part'))) as [l''|e]; [|done]. cbn. by rewrite dict_set_set.
Qed.

Lemma merge_part_type field pad i key m item item' : field ≠ "type" →
  merge_part field pad i key m item = Ok item' → dgetd item' "type" (VStr EmptyString) = dgetd item "type" (VStr EmptyString).
Proof.
  intros Hf. unfold merge_part. intros (l & _ & H)%bind_Ok. apply bind_Ok in H as (l1 & _ & H).
  apply bind_Ok in H as (v & _ & H). apply bind_Ok in H as (d & _ & H). apply bind_Ok in H as (l2 & _ & [= <-]).
  by rewrite dgetd_set_other.
Qed.

(** Running [f] once more after [f], where the type of the item says which branch is taken *)
Lemma bind_ext {A B} (m : res A) (f g : A → res B) : (∀ a, m = Ok a → f a = g a) → (m ≫= f) = (m ≫= g).
Proof. intros H. destruct m; [by apply H|done]. Qed.

Section Deltas.
Context (repr_other : pyval → string).

(** A delta of text, at positions that are integers *)
Definition text_of (e : pydict) : option string := match dict_get "delta" e with Some (VStr d) => Some d | _ => None end.
Definition index_ok (e : pydict) (k : string) : bool :=
  match dict_get k e with Some (VInt _) | None => true | _ => false end.
Definition delta_name (e : pydict) : option string :=
  match dict_get "type" e with Some (VStr t) => if is_delta_type t then type_part t else None | _ => None end.

(** The name is not the key that says what an item is. *)
Definition plain_delta (e : pydict) : bool :=
  match dict_get "type" e with
  | Some (VStr t) => is_delta_type t && negb (match type_part t with Some n => String.eqb n "type" | None => false end)
  | _ => false
  end && forallb (index_ok e) ["output_index"; "content_index"; "summary_index"]
  && match text_of e with Some _ => true | None => false end.

(** The second delta goes to the same place. *)
Definition same_place (e1 e2 : pydict) : Prop :=
  dict_get "type" e1 = dict_get "type" e2 ∧
  ∀ k, k ∈ ["output_index"; "content_index"; "summary_index"] → dict_get k e1 = dict_get k e2.

(** The first delta with the text of both *)
Definition joined (e1 : pydict) (d2 : string) : pydict :=
  dict_set "delta" (VStr (default EmptyString (text_of e1) +:+ d2)) e1.

Lemma delta_item_twice name e1 e2 d1 d2 item : name ≠ "type" →
  text_of e1 = Some d1 → text_of e2 = Some d2 → same_place e1 e2 →
  index_ok e1 "content_index" = true → index_ok e1 "summary_index" = true →
  (delta_item repr_other name e1 item ≫= delta_item repr_other name e2) =
  delta_item repr_other name (joined e1 d2) item.
Proof.
  intros Hname H1 H2 [_ Hpos] Hc Hs.
  assert (Hd1 : dgetd e1 "delta" (VStr EmptyString) = VStr d1).
  { unfold text_of, dgetd in *. destruct (dict_get "delta" e1) as [[]|]; try done. by injection H1 as ->. }
  assert (Hd2 : dgetd e2 "delta" (VStr EmptyString) = VStr d2).
  { unfold text_of, dgetd in *. destruct (dict_get "delta" e2) as [[]|]; try done. by injection H2 as ->. }
  assert (Hidx : ∀ k, k ∈ ["content_index"; "summary_index"] → ∃ z,
    dgetd e1 k (VInt 0) = VInt z ∧ dgetd e2 k (VInt 0) = VInt z ∧ dgetd (joined e1 d2) k (VInt 0) = VInt z).
  { intros k Hk. assert (Hok : index_ok e1 k = true) by (rewrite !elem_of_cons, elem_of_nil in Hk; naive_solver).
    assert (Hk' : k ≠ "delta") by (intros ->; rewrite !elem_of_cons, elem_of_nil in Hk; naive_solver).
    unfold joined. rewrite dgetd_set_other by done. unfold dgetd. rewrite <-(Hpos k) by (by right).
    unfold index_ok in Hok. destruct (dict_get k e1) as [[]|]; try done; by eexists. }
  destruct (Hidx "content_index") as (zc & Hc1 & Hc2 & Hcj); [left|].
  destruct (Hidx "summary_index") as (zs & Hs1 & Hs2 & Hsj); [right; left|].
  assert (Hdj : dgetd (joined e1 d2) "delta" (VStr EmptyString) = VStr (d1 +:+ d2)).
  { unfold joined. rewrite dgetd_set_eq, H1. done. }
  clear Hidx.
  unfold delta_item. rewrite Hd1, Hd2, Hdj, Hc1, Hc2, Hcj, Hs1, Hs2, Hsj.
  destruct (String.eqb_spec name "function_call_arguments") as [->|Hn].
  { destruct (veq_str (dgetd item "type" _) "function_call") eqn:Hf; [|cbn; by rewrite Hf].
    destruct (dgetd item "arguments" _); try done. cbn [mbind res_bind].
    rewrite dgetd_set_other, Hf, dgetd_set_eq, dict_set_set by done. cbn. by rewrite Str.app_assoc. }
  assert (Htwice : ∀ v, deep_merge (VStr d2) (initial_value (deep_merge (VStr d1) v) (VStr d2)) = deep_merge (VStr (d1 +:+ d2)) v).
  { intros v. destruct (deep_merge_text d1 v) as (t & -> & ->). done. }
  assert (Htwice' : ∀ v, deep_merge (VStr d2) (deep_merge (VStr d1) v) = deep_merge (VStr (d1 +:+ d2)) v).
  { intros v. destruct (deep_merge_text d1 v) as (t & -> & ->). done. }
  set (key := if _ || _ then "text" else name) in *.
  assert (Hkey : key ≠ "type").
  { subst key. destruct (_ || _); [done|exact Hname]. }
  clearbody key.
  destruct (veq_str (dgetd item "type" _) "message") eqn:Hm.
  { destruct (_ || _); [cbn [mbind res_bind]; by rewrite Hm|].
    rewrite (bind_ext _ _ (merge_part "content" (empty_text_part "text") (VInt zc) key
      (λ part, deep_merge (VStr d2) (initial_value (dget part key) (VStr d2))))).
    - apply merge_part_twice. intros part. rewrite dget_set_eq. apply Htwice.
    - intros item' H. apply merge_part_type in H; [|done]. by rewrite H, Hm. }
  destruct (veq_str (dgetd item "type" _) "reasoning") eqn:Hr.
  { destruct (String.eqb name "reasoning_summary_text").
    - rewrite (bind_ext _ _ (merge_part "summary" (empty_text_part "summary_text") (VInt zs) "text"
        (λ part, deep_merge (VStr d2) (dgetd part "text" (VStr EmptyString))))).
      + apply merge_part_twice. intros part. rewrite dgetd_set_eq. apply Htwice'.
      + intros item' H. apply merge_part_type in H; [|done]. by rewrite H, Hm, Hr.
    - destruct (String.eqb name "reasoning_text"); [|cbn; by rewrite Hm, Hr].
      rewrite (bind_ext _ _ (merge_part "content" (empty_text_part "text") (VInt zc) "text"
        (λ part, deep_merge (VStr d2) (dgetd part "text" (VStr EmptyString))))).
      + apply merge_part_twice. intros part. rewrite dgetd_set_eq. apply Htwice'.
      + intros item' H. apply merge_part_type in H; [|done]. by rewrite H, Hm, Hr. }
  cbn [mbind res_bind]. rewrite dgetd_set_other, Hm, Hr, dget_set_eq, dict_set_set, Htwice by done. done.
Qed.
(** Where a delta goes, and the output with an item there *)
Definition delta_index (e : pydict) (output : list pyval) : Z :=
  match dict_get "output_index" e with Some (VInt z) => z | _ => Z.max (zlen output - 1) 0 end.

Lemma delta_index_eq e output : index_ok e "output_index" = true →
  dgetd e "output_index" (VInt (Z.max (zlen output - 1) 0)) = VInt (delta_index e output).
Proof. unfold index_ok, delta_index, dgetd. by destruct (dict_get "output_index" e) as [[]|]. Qed.

Definition opened (name : string) (e : pydict) (output : list pyval) : list pyval :=
  let z := delta_index e output in
  if zlen output <=? z then
    <[ Z.to_nat z := started_item name e ]> (output ++ replicate (Z.to_nat (z + 1 - zlen output)) (VDict placeholder))
  else output.

Lemma position_int {A} (l : list A) z : 0 <= z < zlen l → position l (VInt z) = Ok (Z.to_nat z).
Proof. intros H. unfold position. cbn. destruct (Z.leb_spec 0 z), (Z.ltb_spec z (zlen l)); cbn; done || lia. Qed.

Lemma opened_length name e output : 0 <= delta_index e output → delta_index e output < zlen (opened name e output).
Proof.
  intros H. unfold opened, zlen in *. destruct (Z.leb_spec (Z.of_nat (length output)) (delta_index e output)); [|done].
  rewrite length_insert, length_app, length_replicate. lia.
Qed.

Lemma handle_delta_eq name e output : index_ok e "output_index" = true →
  handle_delta repr_other name e output =
  if 0 <=? delta_index e output then
    item ← get_item (opened name e output) (VInt (delta_index e output));
    item ← as_dict item;
    item ← delta_item repr_other name e item;
    set_at (opened name e output) (VInt (delta_index e output)) (VDict item)
  else Ok output.
Proof.
  intros Hi. unfold handle_delta. rewrite delta_index_eq by done. rewrite ge_len_int. cbn [mbind res_bind].
  set (z := delta_index e output).
  assert (Ho : (if zlen output <=? z then
      padded ← pad_to output (VInt z) (VDict placeholder); set_at padded (VInt z) (started_item name e)
    else Ok output) = Ok (opened name e output)).
  { unfold opened. fold z. destruct (Z.leb_spec (zlen output) z); [|done]. unfold pad_to. rewrite ge_len_int.
    cbn [mbind res_bind]. rewrite (proj2 (Z.leb_le _ _)) by done. cbn [as_index mbind res_bind]. unfold set_at.
    rewrite position_int; [done|]. unfold zlen in *. rewrite length_app, length_replicate. lia. }
  rewrite Ho. cbn [mbind res_bind]. rewrite in_range_int. cbn [mbind res_bind].
  destruct (Z.leb_spec 0 z).
  - rewrite (proj2 (Z.ltb_lt _ _)); [done|]. by apply opened_length.
  - cbn. unfold opened. fold z. rewrite (proj2 (Z.leb_gt _ _)); [done|]. unfold zlen. lia.
Qed.

Lemma delta_index_after name e1 e2 output output' : dict_get "output_index" e1 = dict_get "output_index" e2 →
  index_ok e1 "output_index" = true → 0 <= delta_index e1 output →
  length output' = length (opened name e1 output) → delta_index e2 output' = delta_index e1 output.
Proof.
  intros He Hi Hz Hl. unfold opened in Hl. unfold delta_index in *. rewrite <-He in *. unfold index_ok in Hi.
  destruct (dict_get "output_index" e1) as [[]|]; try done. unfold zlen in *. destruct (Z.leb_spec (Z.of_nat (length output)) (Z.max (Z.of_nat (length output) - 1) 0)).
  - rewrite length_insert, length_app, length_replicate in Hl. rewrite Hl. lia.
  - by rewrite Hl.
Qed.

Lemma handle_delta_twice name e1 e2 d1 d2 output : name ≠ "type" →
  text_of e1 = Some d1 → text_of e2 = Some d2 → same_place e1 e2 →
  forallb (index_ok e1) ["output_index"; "content_index"; "summary_index"] = true →
  (handle_delta repr_other name e1 output ≫= handle_delta repr_other name e2) =
  handle_delta repr_other name (joined e1 d2) output.
Proof.
  intros Hname H1 H2 Hpl Hidx. cbn [forallb] in Hidx. rewrite !andb_true_iff in Hidx.
  destruct Hidx as (Ho & Hc & Hs & _). destruct Hpl as [Ht Hpos].
  assert (Hoj : dict_get "output_index" (joined e1 d2) = dict_get "output_index" e1) by (by apply dict_get_set_ne).
  assert (Ho2 : dict_get "output_index" e1 = dict_get "output_index" e2) by (apply Hpos; left).
  assert (Hij : index_ok (joined e1 d2) "output_index" = true) by (unfold index_ok in *; by rewrite Hoj).
  assert (Hi2 : index_ok e2 "output_index" = true) by (unfold index_ok in *; by rewrite <-Ho2).
  rewrite !handle_delta_eq by done.
  assert (Hdj : delta_index (joined e1 d2) output = delta_index e1 output) by (unfold delta_index; by rewrite Hoj).
  assert (Hopj : opened name (joined e1 d2) output = opened name e1 output).
  { unfold opened. rewrite Hdj. unfold started_item. unfold joined at 1. by rewrite dget_set_ne. }
  rewrite Hdj, Hopj. destruct (Z.leb_spec 0 (delta_index e1 output)) as [Hz|Hz].
  2:{ cbn [mbind res_bind]. rewrite handle_delta_eq by done.
      assert (delta_index e2 output = delta_index e1 output) as -> by (unfold delta_index; by rewrite Ho2).
      by rewrite (proj2 (Z.leb_gt _ _)). }
  set (l := opened name e1 output) in *. set (z := delta_index e1 output) in *.
  destruct (get_item l (VInt z)) as [v|e] eqn:Hg; [|done]. cbn [mbind res_bind].
  destruct (as_dict v) as [item|e]; [|done]. cbn [mbind res_bind].
  rewrite <-(delta_item_twice name e1 e2 d1 d2) by done.
  destruct (delta_item repr_other name e1 item) as [item1|e]; [|done]. cbn [mbind res_bind].
  destruct (get_item_set l (VInt z) (VDict item1) v Hg) as [l1 Hl1]. rewrite Hl1. cbn [mbind res_bind].
  pose proof (set_at_length _ _ _ _ Hl1) as Hlen.
  rewrite handle_delta_eq by done. rewrite (delta_index_after name e1 e2 output l1) by done. fold z.
  rewrite (proj2 (Z.leb_le _ _)) by done.
  assert (opened name e2 l1 = l1) as ->.
  { unfold opened. rewrite (delta_index_after name e1 e2 output l1) by done. fold z.
    rewrite (proj2 (Z.leb_gt _ _)); [done|]. pose proof (opened_length name e1 output Hz) as H. fold l z in H.
    unfold zlen in *. lia. }
  rewrite (get_set _ _ _ _ Hl1). cbn [as_dict mbind res_bind].
  destruct (delta_item repr_other name e2 item1) as [item2|e]; [|done]. cbn [mbind res_bind]. by apply (set_set _ _ _ _ _ Hl1).
Qed.
(** ** Events *)

(** The output after an event *)
Definition apply_event (e : pydict) (output : list pyval) : res (list pyval) :=
  r ← handle_responses_streaming_event repr_other e output; Ok r.1.
Definition apply_events (events : list pydict) (output : list pyval) : res (list pyval) :=
  foldM (λ o e, apply_event e o) output events.

Lemma plain_delta_inv e : plain_delta e = true → ∃ t d,
  dict_get "type" e = Some (VStr t) ∧ is_delta_type t = true ∧ text_of e = Some d ∧
  (∀ n, type_part t = Some n → n ≠ "type") ∧
  forallb (index_ok e) ["output_index"; "content_index"; "summary_index"] = true.
Proof.
  unfold plain_delta. rewrite !andb_true_iff. intros [[Ht Hi] Hd].
  destruct (dict_get "type" e) as [[]|]; try done. apply andb_true_iff in Ht as [Ht Hn].
  destruct (text_of e) as [d|]; [|done]. exists s, d. split_and!; [done..| |done].
  intros n Hn' ->. by rewrite Hn' in Hn.
Qed.

Lemma apply_plain e t output : dict_get "type" e = Some (VStr t) → is_delta_type t = true →
  apply_event e output = match type_part t with Some name => handle_delta repr_other name e output | None => Ok output end.
Proof.
  intros Ht Hd. unfold apply_event, handle_responses_streaming_event. unfold dgetd at 1. rewrite Ht. cbn [default from_option id].
  destruct (String.eqb_spec t "response.output_item.added") as [->|_]; [done|].
  destruct (String.eqb_spec t "response.content_part.added") as [->|_]; [done|].
  destruct (String.eqb_spec t "response.reasoning_summary_part.added") as [->|_]; [done|].
  rewrite Hd. destruct (type_part t) as [name|]; [|done]. by destruct (handle_delta repr_other name e output).
Qed.

Lemma joined_fields e d k : k ≠ "delta" → dict_get k (joined e d) = dict_get k e.
Proof. intros H. by apply dict_get_set_ne. Qed.

Lemma joined_text e d d' : text_of e = Some d → text_of (joined e d') = Some (d +:+ d').
Proof. intros H. unfold text_of at 1, joined. by rewrite dict_get_set_eq, H. Qed.

Lemma joined_plain e d : plain_delta e = true → plain_delta (joined e d) = true.
Proof.
  intros (t & d0 & Ht & Hd & Hx & Hn & Hi)%plain_delta_inv. unfold plain_delta.
  rewrite (joined_text e d0) by done. rewrite joined_fields, Ht, Hd by done.
  assert (∀ k, k ≠ "delta" → index_ok (joined e d) k = index_ok e k) as Hk.
  { intros k Hk. unfold index_ok. by rewrite joined_fields. }
  cbn [forallb] in *. rewrite !Hk by done. rewrite Hi.
  destruct (type_part t) as [n|]; [|done]. destruct (String.eqb_spec n "type") as [->|]; [by destruct (Hn "type")|done].
Qed.

Lemma joined_joined e d1 d2 : joined (joined e d1) d2 = joined e (d1 +:+ d2).
Proof.
  unfold joined. rewrite dict_set_set. unfold text_of at 1. rewrite dict_get_set_eq. cbn. by rewrite Str.app_assoc.
Qed.

Lemma joined_key e d : get_response_delta_key (joined e d) = get_response_delta_key e.
Proof.
  unfold get_response_delta_key, dgetd, joined. rewrite dict_get_set_ne by done. cbn [map delta_positions].
  by rewrite !dget_set_ne by done.
Qed.

Lemma plain_key e t : dict_get "type" e = Some (VStr t) → is_delta_type t = true →
  get_response_delta_key e = Ok (Some (VStr t :: map (dget e) delta_positions)).
Proof. intros Ht Hd. unfold get_response_delta_key, dgetd. rewrite Ht. cbn [default from_option id]. by rewrite Hd. Qed.

Lemma index_eqb e1 e2 k : index_ok e1 k = true → index_ok e2 k = true →
  py_eqb (dget e1 k) (dget e2 k) = true → dict_get k e1 = dict_get k e2.
Proof.
  unfold index_ok, dget. destruct (dict_get k e1) as [[]|], (dict_get k e2) as [[]|]; try done.
  cbn [default from_option id py_eqb as_num]. unfold num_eqb. cbn. destruct (Z.compare_spec z z0) as [->| |]; done.
Qed.

Lemma same_key_place e1 e2 k1 k2 : plain_delta e1 = true → plain_delta e2 = true →
  get_response_delta_key e1 = Ok k1 → get_response_delta_key e2 = Ok k2 → same_delta_key k1 k2 = true → same_place e1 e2.
Proof.
  intros (t1 & d1 & Ht1 & Hd1 & _ & _ & Hi1)%plain_delta_inv (t2 & d2 & Ht2 & Hd2 & _ & _ & Hi2)%plain_delta_inv.
  rewrite (plain_key e1 t1), (plain_key e2 t2) by done. intros [= <-] [= <-]. unfold same_delta_key.
  cbn [py_eqb map delta_positions]. rewrite !andb_true_iff. intros (Ht & _ & Ho & Hc & Hs & _).
  apply String.eqb_eq in Ht as ->. cbn [forallb] in Hi1, Hi2. rewrite !andb_true_iff in Hi1, Hi2.
  destruct Hi1 as (? & ? & ? & _), Hi2 as (? & ? & ? & _). split; [by rewrite Ht1, Ht2|].
  intros k Hk. rewrite !elem_of_cons, elem_of_nil in Hk. destruct Hk as [->|[->|[->|[]]]]; by apply index_eqb.
Qed.

(** A delta after another of the same key is the joined delta. *)
Lemma apply_joined e1 e2 d2 k1 k2 output : plain_delta e1 = true → plain_delta e2 = true → text_of e2 = Some d2 →
  get_response_delta_key e1 = Ok k1 → get_response_delta_key e2 = Ok k2 → same_delta_key k1 k2 = true →
  (apply_event e1 output ≫= apply_event e2) = apply_event (joined e1 d2) output.
Proof.
  intros Hp1 Hp2 Hx2 Hk1 Hk2 Hk. pose proof (same_key_place e1 e2 k1 k2 Hp1 Hp2 Hk1 Hk2 Hk) as Hpl.
  destruct (plain_delta_inv e1 Hp1) as (t & d1 & Ht & Hd & Hx1 & Hn & Hi).
  assert (Ht2 : dict_get "type" e2 = Some (VStr t)) by (by rewrite <-(proj1 Hpl)).
  rewrite (apply_plain e1 t), (apply_plain (joined e1 d2) t) by (rewrite ?joined_fields; done).
  destruct (type_part t) as [name|] eqn:En.
  - rewrite <-(handle_delta_twice name e1 e2 d1 d2) by (by auto).
    apply bind_ext. intros o _. rewrite (apply_plain e2 t), En by done. done.
  - cbn [mbind res_bind]. by rewrite (apply_plain e2 t), En.
Qed.
End Deltas.
