(* ===== verification/ResponseStream.v ===== *)
(** * Saving and sending a reply while it streams: the response streams of tasks.py
    and the parts of [streaming_chat_response_handler] (utils/middleware.py) that
    write them and queue the deltas for the clients.

    A reply in progress is kept in Redis as one line with a snapshot of its output
    and a line per delta since.  [JsonCodec] states what is relied on of the JSON
    codec; texts here are bytes.  The reply is a new one ([continuing] is false) with
    the output of earlier rounds in [prior]. *)

From S2P Require Import Prelude PyVal Messages Responses.
From Stdlib Require Import Ascii.

Local Open Scope Z_scope.

Definition line_feed : ascii := ascii_of_nat 10.
Definition one_line (s : string) : bool := Str.sforallb (λ c, negb (Ascii.eqb line_feed c)) s.

(** [dumps_bytes] and [JSONCodec.loads]: values that are JSON are read back as they
    were, from one line. *)
Class JsonCodec := {
  dumps : pyval → res string;
  loads : string → res pyval;
  is_json : pyval → Prop;
  loads_dumps v : is_json v → ∃ t, dumps v = Ok t ∧ loads t = Ok v ∧ one_line t = true ∧ t ≠ EmptyString;
}.

Section Tasks.
Context `{JsonCodec} (repr_other : pyval → string).

(** ** Reading a saved stream *)

Definition key_of (event : pyval) : res (option (list pyval)) :=
  match event with VDict d => get_response_delta_key d | _ => Err AttributeError end.

(** [itertools.groupby]: the events that follow with the same key *)
Fixpoint span_group (key : option (list pyval)) (events : list pyval) : res (list pyval * list pyval) :=
  match events with
  | [] => Ok ([], [])
  | e :: rest =>
      key' ← key_of e;
      if same_delta_key key key' then p ← span_group key rest; Ok (e :: p.1, p.2) else Ok ([], events)
  end.

(** [{**first, 'delta': first['delta'] + ''.join(...)}] *)
Definition as_str (v : pyval) : res string := match v with VStr s => Ok s | _ => Err TypeError end.
Definition join_deltas (first : pyval) (rest : list pyval) : res pydict :=
  d ← as_dict first;
  delta ← ditem d "delta";
  deltas ← mapM (λ e, vitem e "delta") rest;
  texts ← mapM as_str deltas;
  text ← as_str delta;
  Ok (dict_set "delta" (VStr (text +:+ Str.join EmptyString texts)) d).

Definition set_output (snapshot : pyval) (output : list pyval) : pyval :=
  match snapshot with VDict d => VDict (dict_set "output" (VList output) d) | _ => snapshot end.

Fixpoint apply_groups (fuel : nat) (snapshot : pyval) (events : list pyval) : res pyval :=
  match fuel, events with
  | _, [] => Ok snapshot
  | O, _ => Err RecursionError
  | S fuel, first :: rest =>
      key ← key_of first;
      p ← span_group key rest;
      delta ← join_deltas first p.1;
      output ← vitem snapshot "output"; output ← viter output;
      r ← handle_responses_streaming_event repr_other delta output;
      apply_groups fuel (set_output snapshot r.1) p.2
  end.

(** [load_response_stream] *)
Definition load_response_stream (value : string) : res pyval :=
  let lines := List.filter (λ l, negb (Str.is_empty l)) (Str.split line_feed value) in
  values ← mapM loads lines;
  match values with
  | [] => Err (ValueError "not enough values to unpack")
  | snapshot :: deltas => apply_groups (length deltas) snapshot deltas
  end.

(** ** Redis *)

(** What happens to a command: it is done, it is not, or it is done and the answer is
    lost. *)
Inductive redis_answer := Done | Refused | Lost.

(** The state of a stream: the output of this round, what Redis holds, the sizes of
    what was written and of its snapshot, the delta that is not sent yet with its type
    and key, the number of deltas joined in it, and the events sent to the clients *)
Record stream_state := {
  st_output : list pyval;
  st_value : option string;
  st_size : Z;
  st_snapshot : Z;
  st_pending : option (pydict * pyval * option (list pyval));
  st_count : Z;
  st_events : list pydict;
}.

Definition with_stream_output (o : list pyval) (s : stream_state) : stream_state :=
  {| st_output := o; st_value := st_value s; st_size := st_size s; st_snapshot := st_snapshot s;
     st_pending := st_pending s; st_count := st_count s; st_events := st_events s |}.
Definition with_value (v : option string) (s : stream_state) : stream_state :=
  {| st_output := st_output s; st_value := v; st_size := st_size s; st_snapshot := st_snapshot s;
     st_pending := st_pending s; st_count := st_count s; st_events := st_events s |}.
Definition with_size (n : Z) (s : stream_state) : stream_state :=
  {| st_output := st_output s; st_value := st_value s; st_size := n; st_snapshot := st_snapshot s;
     st_pending := st_pending s; st_count := st_count s; st_events := st_events s |}.
Definition with_sizes (n : Z) (s : stream_state) : stream_state :=
  {| st_output := st_output s; st_value := st_value s; st_size := n; st_snapshot := n;
     st_pending := st_pending s; st_count := st_count s; st_events := st_events s |}.
Definition with_pending (p : option (pydict * pyval * option (list pyval))) (n : Z) (s : stream_state) : stream_state :=
  {| st_output := st_output s; st_value := st_value s; st_size := st_size s; st_snapshot := st_snapshot s;
     st_pending := p; st_count := n; st_events := st_events s |}.
Definition send (e : pydict) (s : stream_state) : stream_state :=
  {| st_output := st_output s; st_value := st_value s; st_size := st_size s; st_snapshot := st_snapshot s;
     st_pending := st_pending s; st_count := st_count s; st_events := st_events s ++ [e] |}.

(** [save_response_stream] with Redis: the value it sets and the size it answers *)
Definition snapshot_data (chat_id message_id : string) (output : list pyval) : pydict :=
  [("chat_id", VStr chat_id); ("message_id", VStr message_id); ("output", VList output)].
Definition save_response_stream (task_id chat_id message_id : string) (output : list pyval) (a : redis_answer)
    : st stream_state Z :=
  if Str.is_empty task_id || Str.is_empty chat_id || Str.is_empty message_id then mret 0
  else
    line ← st_lift (dumps (VDict (snapshot_data chat_id message_id output)));
    let snapshot := line +:+ String line_feed EmptyString in
    match a with
    | Done => _ ← st_modify (with_value (Some snapshot)); mret (Z.of_nat (String.length snapshot))
    | Refused => mret 0
    | Lost => _ ← st_modify (with_value (Some snapshot)); mret 0
    end.

(** [append_response_stream]: the script appends only when the length of the value is
    the size given. *)
Definition append_response_stream (delta : string) (size : Z) (a : redis_answer) : st stream_state bool :=
  s ← st_get;
  let value := default EmptyString (st_value s) in
  match a with
  | Refused => mret false
  | _ =>
      if Z.eqb (Z.of_nat (String.length value)) size then
        _ ← st_modify (with_value (Some (value +:+ delta)));
        mret match a with Done => true | _ => false end
      else mret false
  end.

(** ** The stream of a reply *)

Section Reply.
Context (task_id chat_id message_id : string) (prior : list pyval) (delta_chunk_size : Z).

Definition full_output (s : stream_state) : list pyval := prior ++ st_output s.

Definition save_current_response_stream (a : redis_answer) : st stream_state unit :=
  s ← st_get;
  n ← save_response_stream task_id chat_id message_id (full_output s) a;
  st_modify (with_sizes n).

(** [any(item.get('type') == 'open_webui:code_interpreter' for item in output)] *)
Fixpoint has_code (output : list pyval) : res bool :=
  match output with
  | [] => Ok false
  | item :: output =>
      t ← vget item "type";
      if veq_str t "open_webui:code_interpreter" then Ok true else has_code output
  end.

Definition save_response_delta (delta : pydict) (a : redis_answer) : st stream_state unit :=
  s ← st_get;
  if Z.eqb (st_size s) 0 then mret tt
  else
    code ← (if is_str (dget delta "delta") then st_lift (has_code (st_output s)) else mret true);
    if (code : bool) then st_modify (with_size 0)
    else
      line ← st_lift (dumps (VDict delta));
      let line := line +:+ String line_feed EmptyString in
      let length := Z.of_nat (String.length line) in
      appended ← (if st_size s + length <=? st_snapshot s * 2 then append_response_stream line (st_size s) a
                  else mret false);
      st_modify (with_size (if (appended : bool) then st_size s + length else 0)).

(** [get_response_data_with_full_output_index] *)
Definition with_full_index (data : pydict) : pydict :=
  match prior with
  | [] => data
  | _ =>
      match as_index (dget data "output_index"), dget data "response" with
      | Ok z, _ => dict_set "output_index" (VInt (z + zlen prior)) data
      | _, VDict response => dict_set "response" (VDict (dict_del "output" response)) data
      | _, _ => data
      end
  end.

Definition flush_pending_delta_data (threshold : Z) : st stream_state unit :=
  s ← st_get;
  match st_pending s with
  | Some (data, _, _) =>
      if (threshold <=? st_count s) && truthy (VDict data) then
        _ ← st_modify (send data); st_modify (with_pending None 0)
      else mret tt
  | None => mret tt
  end.

Definition queue_pending_delta_data (data : pydict) (delta_type : pyval) (a : redis_answer) : st stream_state unit :=
  let data := with_full_index data in
  _ ← save_response_delta data a;
  key ← st_lift (get_response_delta_key data);
  s ← st_get;
  let joined :=
    match st_pending s with
    | Some (last, t, k) =>
        if same_delta_key k key then
          match dget last "delta", dget data "delta" with
          | VStr d, VStr d' => Some (dict_set "delta" (VStr (d +:+ d')) last, t, k)
          | _, _ => None
          end
        else None
    | None => None
    end in
  _ ← match joined with
      | Some p => st_modify (λ s, with_pending (Some p) (st_count s + 1) s)
      | None =>
          _ ← match st_pending s with
              | Some (_, t, k) =>
                  if negb (py_eqb t delta_type) || negb (same_delta_key k key) then flush_pending_delta_data 0
                  else mret tt
              | None => mret tt
              end;
          st_modify (λ s, with_pending (Some (data, delta_type, key)) (st_count s + 1) s)
      end;
  s ← st_get;
  if delta_chunk_size <=? st_count s then flush_pending_delta_data delta_chunk_size else mret tt.

(** [get_response_completion_event_data] *)
Definition RESPONSE_COMPLETION_RESPONSE_FIELDS : list string := ["error"; "id"; "output"; "usage"].
Definition completion_fields (response : pydict) : pydict :=
  omap (M:=list) (λ k, (k,.) <$> dict_get k response) RESPONSE_COMPLETION_RESPONSE_FIELDS.
Definition get_response_completion_event_data (event : pydict) : pydict :=
  match dget event "response" with
  | VDict response => dict_set "response" (VDict (completion_fields response)) event
  | _ => event
  end.

Definition ends_delta (data : pydict) : res bool :=
  match dgetd data "type" (VStr EmptyString) with VStr t => Ok (Str.endswith ".delta" t) | _ => Err AttributeError end.

Definition emit_response_completion_event (data : pydict) (a : redis_answer) : st stream_state unit :=
  delta ← st_lift (ends_delta data);
  if (delta : bool) then queue_pending_delta_data data (dgetd data "type" (VStr "response.delta")) a
  else
    let data := with_full_index data in
    _ ← flush_pending_delta_data 0;
    _ ← st_modify (send (get_response_completion_event_data data));
    st_modify (with_size 0).

(** An event of the Responses API in [stream_body_handler] *)
Definition response_event (data : pydict) (a : redis_answer) : st stream_state unit :=
  s ← st_get;
  delta ← st_lift (ends_delta data);
  r ← st_lift (handle_responses_streaming_event repr_other data (st_output s));
  _ ← st_modify (with_stream_output r.1);
  _ ← (if (delta : bool) then mret tt else flush_pending_delta_data 0);
  emit_response_completion_event data a.

(** A line of the provider: an exception makes the next save a snapshot, and
    [finally] saves one when nothing could be appended. *)
Definition response_line (data : pydict) (a a' : redis_answer) : st stream_state unit := λ s,
  let '(r, s) := response_event data a s in
  let s := match r with Ok _ => s | Err _ => with_size 0 s end in
  if Z.eqb (st_size s) 0 then save_current_response_stream a' s else (Ok tt, s).
End Reply.
End Tasks.

Definition empty_stream (output : list pyval) : stream_state :=
  {| st_output := output; st_value := None; st_size := 0; st_snapshot := 0; st_pending := None; st_count := 0;
     st_events := [] |}.
