(* ===== verification/ResponseStreamProps.v ===== *)
(** * Properties of [ResponseStream]: what is saved replays to the reply, and what the
    clients are sent adds up to it. *)

From S2P Require Import Prelude PyVal Json JsonDump Messages Responses ResponsesProps ResponseStream.
From Stdlib Require Import Ascii.

Local Open Scope Z_scope.

(** ** Lines *)

Definition lf : string := String line_feed EmptyString.
Fixpoint lines_of (ts : list string) : string :=
  match ts with [] => EmptyString | t :: ts => t +:+ lf +:+ lines_of ts end.

Lemma lines_of_app ts us : lines_of (ts ++ us) = lines_of ts +:+ lines_of us.
Proof. induction ts as [|t ts IH]; [done|]. cbn [app lines_of]. rewrite IH. by rewrite !Str.app_assoc. Qed.

Lemma split_lines_of ts : Forall (λ t, one_line t = true) ts → Str.split line_feed (lines_of ts) = ts ++ [EmptyString].
Proof.
  induction 1 as [|t ts Ht _ IH]; [done|]. cbn [lines_of]. rewrite <-(Str.app_assoc lf) || idtac.
  change (lf +:+ lines_of ts) with (String line_feed (lines_of ts)). rewrite Str.split_app_sep, IH.
  rewrite Str.split_no_sep; [done|exact Ht].
Qed.

Lemma filter_nonempty ts : Forall (λ t, t ≠ EmptyString) ts →
  List.filter (λ l, negb (Str.is_empty l)) (ts ++ [EmptyString]) = ts.
Proof.
  induction 1 as [|t ts Ht _ IH]; [done|]. cbn [app List.filter]. rewrite IH. by destruct t.
Qed.

Section Saved.
Context `{JsonCodec} (repr_other : pyval → string) (chat_id message_id : string).

Notation apply_event := (apply_event repr_other).
Notation apply_events := (apply_events repr_other).

Lemma dumps_ok v t : is_json v → dumps v = Ok t → loads t = Ok v ∧ one_line t = true ∧ t ≠ EmptyString.
Proof. intros Hv Ht. destruct (loads_dumps v Hv) as (t' & Ht' & H3). rewrite Ht in Ht'. by injection Ht' as ->. Qed.

(** *** Groups of deltas *)

Definition deltas_ok (events : list pydict) : Prop := Forall (λ e, plain_delta e = true) events.

Lemma span_group_ok k events : deltas_ok events → ∃ g r, events = g ++ r ∧ deltas_ok g ∧ deltas_ok r ∧
  span_group k (VDict <$> events) = Ok (VDict <$> g, VDict <$> r) ∧
  Forall (λ e, ∃ k', get_response_delta_key e = Ok k' ∧ same_delta_key k k' = true) g.
Proof.
  induction 1 as [|e events He Hes IH]; [exists [], []; by split_and!; try constructor|].
  destruct (plain_delta_inv e He) as (t & d & Ht & Hd & _). pose proof (plain_key e t Ht Hd) as Hk.
  destruct IH as (g & r & -> & Hg & Hr & Hs & Hkeys).
  change (VDict <$> e :: g ++ r) with (VDict e :: (VDict <$> g ++ r)). cbn [span_group key_of]. rewrite Hk. cbn [mbind res_bind].
  destruct (same_delta_key k _) eqn:Ek.
  - exists (e :: g), r. rewrite Hs. split_and!; [done|by constructor|done|done|]. constructor; [by eexists|done].
  - exists [], (e :: g ++ r). split_and!; [done|constructor|by constructor|done|constructor].
Qed.

Definition texts_of (g : list pydict) : string := Str.join EmptyString (omap text_of g).

Lemma concat_cons d l : Str.join EmptyString (d :: l) = d +:+ Str.join EmptyString l.
Proof. unfold Str.join. cbn. destruct l; [by rewrite Str.app_nil_r|done]. Qed.

Lemma texts_cons e d g : text_of e = Some d → texts_of (e :: g) = d +:+ texts_of g.
Proof. intros Hd. unfold texts_of. cbn [omap list_omap]. rewrite Hd. apply concat_cons. Qed.

Lemma mapM_values (g : list pydict) : deltas_ok g →
  mapM (λ e : pyval, vitem e "delta") (VDict <$> g) = Ok (VStr <$> omap text_of g).
Proof.
  induction 1 as [|e g He _ IH]; [done|]. destruct (plain_delta_inv e He) as (t & d & _ & _ & Hx & _).
  change (VDict <$> e :: g) with (VDict e :: (VDict <$> g)). cbn [mapM omap list_omap]. rewrite IH, Hx.
  unfold vitem, ditem. unfold text_of in Hx. destruct (dict_get "delta" e) as [[]|]; try done. by injection Hx as ->.
Qed.

Lemma mapM_texts l : mapM as_str (VStr <$> l) = Ok l.
Proof. induction l as [|s l IH]; [done|]. change (VStr <$> s :: l) with (VStr s :: (VStr <$> l)). cbn [mapM]. by rewrite IH. Qed.

Lemma join_deltas_ok e d g : text_of e = Some d → deltas_ok g →
  join_deltas (VDict e) (VDict <$> g) = Ok (joined e (texts_of g)).
Proof.
  intros Hd Hg. unfold join_deltas. cbn [as_dict mbind res_bind].
  assert (Hi : ditem e "delta" = Ok (VStr d)).
  { unfold text_of, ditem in *. destruct (dict_get "delta" e) as [[]|]; try done. by injection Hd as ->. }
  rewrite Hi. cbn [mbind res_bind]. rewrite mapM_values by done. cbn [mbind res_bind]. rewrite mapM_texts.
  cbn [mbind res_bind as_str]. unfold joined. by rewrite Hd.
Qed.

Lemma apply_group e k g output : plain_delta e = true → get_response_delta_key e = Ok k → deltas_ok g →
  Forall (λ e', ∃ k', get_response_delta_key e' = Ok k' ∧ same_delta_key k k' = true) g →
  apply_events (e :: g) output = apply_event (joined e (texts_of g)) output.
Proof.
  intros He Hk Hg. revert e He Hk output. induction Hg as [|e' g He' Hg IH]; intros e He Hk output Hks.
  - destruct (plain_delta_inv e He) as (t & d & _ & _ & Hx & _).
    assert (joined e (texts_of []) = e) as ->.
    { unfold joined, texts_of. cbn. rewrite Str.app_nil_r, Hx. apply dict_set_same. unfold text_of in Hx.
      destruct (dict_get "delta" e) as [[]|]; try done. by injection Hx as ->. }
    unfold ResponsesProps.apply_events. cbn [foldM]. by destruct (apply_event e output).
  - inversion_clear Hks as [|? ? (k' & Hk' & Hs) Hks'].
    destruct (plain_delta_inv e' He') as (t & d' & _ & _ & Hx' & _).
    rewrite (texts_cons e' d') by done. rewrite <-joined_joined.
    rewrite <-(IH (joined e d')); [|by apply joined_plain|by rewrite joined_key|done].
    unfold ResponsesProps.apply_events. cbn [foldM].
    rewrite <-(apply_joined repr_other e e' d' k k') by done.
    by destruct (apply_event e output) as [o|err].
Qed.

Lemma apply_groups_ok n d output events : (length events <= n)%nat → deltas_ok events →
  dict_get "output" d = Some (VList output) →
  apply_groups repr_other n (VDict d) (VDict <$> events) =
  (o ← apply_events events output; Ok (VDict (dict_set "output" (VList o) d))).
Proof.
  revert d output events. induction n as [|n IH]; intros d output [|e events] Hn Hev Hd; cbn [length] in Hn; try lia.
  1,2: cbn; by rewrite dict_set_same.
  inversion_clear Hev as [|? ? He Hes]. destruct (plain_delta_inv e He) as (t & x & Ht & Hdt & Hx & _).
  pose proof (plain_key e t Ht Hdt) as Hk.
  change (VDict <$> e :: events) with (VDict e :: (VDict <$> events)). cbn [apply_groups key_of]. rewrite Hk. cbn [mbind res_bind].
  destruct (span_group_ok (Some (VStr t :: map (dget e) delta_positions)) events Hes) as (g & r & -> & Hg & Hr & Hs & Hks).
  rewrite Hs. cbn [mbind res_bind fst snd]. rewrite (join_deltas_ok e x g) by done. cbn [mbind res_bind].
  assert (Hv : vitem (VDict d) "output" = Ok (VList output)) by (unfold vitem, ditem; by rewrite Hd).
  rewrite Hv. cbn [mbind res_bind viter].
  assert (Happ : apply_events (e :: g ++ r) output = (o ← apply_event (joined e (texts_of g)) output; apply_events r o)).
  { change (e :: g ++ r) with ((e :: g) ++ r). unfold ResponsesProps.apply_events at 1. rewrite foldM_app.
    change (foldM _ output (e :: g)) with (apply_events (e :: g) output).
    by rewrite (apply_group e (Some (VStr t :: map (dget e) delta_positions)) g). }
  rewrite Happ. unfold ResponsesProps.apply_event at 1.
  destruct (handle_responses_streaming_event repr_other (joined e (texts_of g)) output) as [[o m]|x']; [|done].
  cbn [mbind res_bind fst set_output]. rewrite (IH _ o); [|rewrite length_app in Hn; lia|done|apply dict_get_set_eq].
  destruct (apply_events r o) as [o'|x']; [|done]. cbn. by rewrite dict_set_set.
Qed.

(** *** Saved values *)

(** What a value holds: a snapshot and deltas that lead to an output *)
Definition saved (value : string) (output : list pyval) : Prop :=
  ∃ out0 events t ts, is_json (VDict (snapshot_data chat_id message_id out0)) ∧
    dumps (VDict (snapshot_data chat_id message_id out0)) = Ok t ∧
    deltas_ok events ∧ Forall (λ e, is_json (VDict e)) events ∧
    Forall2 (λ e t, dumps (VDict e) = Ok t) events ts ∧
    value = lines_of (t :: ts) ∧ apply_events events out0 = Ok output.

Lemma saved_snapshot output t : is_json (VDict (snapshot_data chat_id message_id output)) →
  dumps (VDict (snapshot_data chat_id message_id output)) = Ok t → saved (t +:+ lf) output.
Proof.
  intros Hj Ht. exists output, [], t, []. split_and!; try done; constructor.
Qed.

Lemma saved_append value output e t output' : saved value output → plain_delta e = true → is_json (VDict e) →
  dumps (VDict e) = Ok t → apply_event e output = Ok output' → saved (value +:+ t +:+ lf) output'.
Proof.
  intros (out0 & events & t0 & ts & Hj & Ht0 & Hd & Hjs & Hts & -> & Ho) He Hje Ht Ha.
  exists out0, (events ++ [e]), t0, (ts ++ [t]). split_and!; [done|done| | | | |].
  - apply Forall_app. split; [done|by constructor].
  - apply Forall_app. split; [done|by constructor].
  - apply Forall2_app; [done|by constructor].
  - change (t0 :: ts ++ [t]) with ((t0 :: ts) ++ [t]). rewrite lines_of_app. cbn [lines_of]. by rewrite Str.app_nil_r.
  - unfold ResponsesProps.apply_events in *. rewrite foldM_app, Ho. cbn [mbind res_bind foldM]. by rewrite Ha.
Qed.

Lemma mapM_loads vs ts : Forall is_json vs → Forall2 (λ v t, dumps v = Ok t) vs ts → mapM loads ts = Ok vs.
Proof.
  intros Hj H2. induction H2 as [|v t vs ts Ht _ IH]; [done|]. inversion_clear Hj as [|? ? Hv Hvs]. cbn [mapM].
  destruct (dumps_ok v t Hv Ht) as [-> _]. cbn [mbind res_bind]. by rewrite IH.
Qed.

Lemma saved_load value output : saved value output →
  load_response_stream repr_other value = Ok (VDict (snapshot_data chat_id message_id output)).
Proof.
  intros (out0 & events & t & ts & Hj & Ht & Hd & Hjs & Hts & -> & Ho).
  assert (H2 : Forall2 (λ v t, dumps v = Ok t) (VDict (snapshot_data chat_id message_id out0) :: (VDict <$> events)) (t :: ts)).
  { constructor; [done|]. by apply Forall2_fmap_l. }
  assert (Hjv : Forall is_json (VDict (snapshot_data chat_id message_id out0) :: (VDict <$> events))).
  { constructor; [done|]. by apply Forall_fmap. }
  assert (Hts' : Forall (λ t, one_line t = true ∧ t ≠ EmptyString) (t :: ts)).
  { clear -H2 Hjv. induction H2 as [|v u vs us Hu _ IH]; [constructor|]. inversion_clear Hjv as [|? ? Hv Hvs].
    constructor; [|by apply IH]. apply (dumps_ok v u Hv Hu). }
  unfold load_response_stream. rewrite split_lines_of by (eapply Forall_impl; [exact Hts'|naive_solver]).
  rewrite filter_nonempty by (eapply Forall_impl; [exact Hts'|naive_solver]).
  rewrite (mapM_loads _ _ Hjv H2). cbn [mbind res_bind].
  rewrite (apply_groups_ok _ _ out0) by (rewrite ?length_fmap; done). rewrite Ho. done.
Qed.
(** ** The stream of a reply *)

Section Reply.
Context (task_id : string) (prior : list pyval) (delta_chunk_size : Z).

Notation full := (full_output prior).
Notation with_full := (with_full_index prior).

(** *** Positions in the output of all rounds *)

Definition index_sent (e : pydict) : Prop := prior = [] ∨ ∃ z, dict_get "output_index" e = Some (VInt z) ∧ 0 <= z.

Lemma zlen_app {A} (l k : list A) : zlen (l ++ k) = zlen l + zlen k.
Proof. unfold zlen. rewrite length_app. lia. Qed.

Lemma zlen_nonneg {A} (l : list A) : 0 <= zlen l.
Proof. unfold zlen. lia. Qed.

Lemma position_shift {A} (p l : list A) z : 0 <= z → position (p ++ l) (VInt (z + zlen p)) =
  (n ← position l (VInt z); Ok (length p + n)%nat).
Proof.
  intros Hz. unfold position. cbn [as_index mbind res_bind]. rewrite zlen_app. pose proof (zlen_nonneg p).
  destruct (Z.leb_spec 0 (z + zlen p)), (Z.leb_spec 0 z); try lia. cbn [andb].
  destruct (Z.ltb_spec (z + zlen p) (zlen p + zlen l)), (Z.ltb_spec z (zlen l)); try lia.
  - cbn. f_equal. unfold zlen. lia.
  - destruct (Z.ltb_spec (z + zlen p) 0), (Z.ltb_spec z 0); try lia. done.
Qed.

Lemma get_item_shift p l z : 0 <= z → get_item (p ++ l) (VInt (z + zlen p)) = get_item l (VInt z).
Proof.
  intros Hz. unfold get_item. rewrite position_shift by done. destruct (position l (VInt z)) as [n|x]; [|done].
  cbn [mbind res_bind]. rewrite lookup_app_r by lia. by replace (length p + n - length p)%nat with n by lia.
Qed.

Lemma set_at_shift p l z v : 0 <= z → set_at (p ++ l) (VInt (z + zlen p)) v = (l' ← set_at l (VInt z) v; Ok (p ++ l')).
Proof.
  intros Hz. unfold set_at. rewrite position_shift by done. destruct (position l (VInt z)) as [n|x]; [|done].
  cbn [mbind res_bind]. by rewrite insert_app_r.
Qed.

Lemma with_full_plain e : plain_delta e = true → plain_delta (with_full e) = true.
Proof.
  intros He. unfold with_full_index. destruct prior as [|i p']; [done|].
  destruct (plain_delta_inv e He) as (t & d & Ht & Hd & Hx & Hn & Hi). cbn [forallb] in Hi.
  destruct (as_index _) as [z|x] eqn:Ez.
  - unfold plain_delta in *. unfold text_of in *. rewrite !dict_get_set_ne by done. cbn [forallb] in *.
    assert (Hidx : ∀ k, index_ok e k = true → index_ok (dict_set "output_index" (VInt (z + zlen (i :: p'))) e) k = true).
    { intros k. unfold index_ok. destruct (String.eqb_spec k "output_index") as [->|Hk]; [by rewrite dict_get_set_eq|].
      by rewrite dict_get_set_ne. }
    rewrite !andb_true_iff in *. destruct He as [[He1 He2] He3]. destruct He2 as (? & ? & ? & _). split_and!; auto.
  - destruct (dget e "response") as [| | | | | |r]; try done.
    unfold plain_delta in *. unfold text_of in *. rewrite !dict_get_set_ne by done. cbn [forallb] in *. unfold index_ok in *.
    by rewrite !dict_get_set_ne by done.
Qed.

Lemma with_full_field e k : k ≠ "output_index" → k ≠ "response" → dict_get k (with_full e) = dict_get k e.
Proof.
  intros H1 H2. unfold with_full_index. destruct prior; [done|]. destruct (as_index _); [by rewrite dict_get_set_ne|].
  destruct (dget e "response"); try done. by rewrite dict_get_set_ne.
Qed.

Lemma delta_item_fields name e e' item : (∀ k, k ≠ "output_index" → k ≠ "response" → dict_get k e' = dict_get k e) →
  delta_item repr_other name e' item = delta_item repr_other name e item.
Proof.
  intros Hk. assert (Hg : ∀ k w, k ≠ "output_index" → k ≠ "response" → dgetd e' k w = dgetd e k w).
  { intros k w H1 H2. unfold dgetd. by rewrite Hk. }
  unfold delta_item. by rewrite !Hg by done.
Qed.

Lemma handle_delta_shift name e out : plain_delta e = true → index_sent e →
  handle_delta repr_other name (with_full e) (prior ++ out) = (o ← handle_delta repr_other name e out; Ok (prior ++ o)).
Proof.
  intros He [Hp|(z & Hz & Hpos)].
  { unfold with_full_index. rewrite Hp. cbn. by destruct (handle_delta repr_other name e out). }
  destruct prior as [|i p'] eqn:Ep; [cbn; by destruct (handle_delta repr_other name e out)|]. rewrite <-Ep in *.
  assert (Hw : with_full e = dict_set "output_index" (VInt (z + zlen prior)) e).
  { unfold with_full_index. rewrite Ep. unfold dget. by rewrite Hz. }
  assert (Hi : index_ok e "output_index" = true) by (unfold index_ok; by rewrite Hz).
  assert (Hi' : index_ok (with_full e) "output_index" = true) by (rewrite Hw; unfold index_ok; by rewrite dict_get_set_eq).
  rewrite !handle_delta_eq by done.
  assert (Hd : delta_index e out = z) by (unfold delta_index; by rewrite Hz).
  assert (Hd' : delta_index (with_full e) (prior ++ out) = z + zlen prior).
  { rewrite Hw. unfold delta_index. by rewrite dict_get_set_eq. }
  rewrite Hd, Hd'. pose proof (zlen_nonneg prior) as Hl.
  rewrite !(proj2 (Z.leb_le _ _)) by lia.
  assert (Ho : opened name (with_full e) (prior ++ out) = prior ++ opened name e out).
  { unfold opened. rewrite Hd, Hd', zlen_app.
    assert (started_item name (with_full e) = started_item name e) as ->.
    { unfold started_item, dget. by rewrite with_full_field. }
    destruct (Z.leb_spec (zlen prior + zlen out) (z + zlen prior)), (Z.leb_spec (zlen out) z); try lia; [|done].
    replace (z + zlen prior + 1 - (zlen prior + zlen out)) with (z + 1 - zlen out) by lia.
    rewrite <-app_assoc. replace (Z.to_nat (z + zlen prior)) with (length prior + Z.to_nat z)%nat by (unfold zlen in *; lia).
    by rewrite insert_app_r. }
  rewrite Ho, get_item_shift by done. destruct (get_item _ (VInt z)) as [v|x]; [|done]. cbn [mbind res_bind].
  destruct (as_dict v) as [item|x]; [|done]. cbn [mbind res_bind].
  rewrite (delta_item_fields name e (with_full e)) by apply with_full_field.
  destruct (delta_item repr_other name e item) as [item'|x]; [|done]. cbn [mbind res_bind]. by apply set_at_shift.
Qed.

Lemma apply_shift e out : plain_delta e = true → index_sent e →
  apply_event (with_full e) (prior ++ out) = (o ← apply_event e out; Ok (prior ++ o)).
Proof.
  intros He Hs. destruct (plain_delta_inv e He) as (t & d & Ht & Hd & _).
  rewrite (apply_plain repr_other e t), (apply_plain repr_other (with_full e) t) by (rewrite ?with_full_field; done).
  destruct (type_part t) as [name|]; [|done]. by apply handle_delta_shift.
Qed.

(** *** What is saved *)

Definition weakly_saved (past : list (list pyval)) (s : stream_state) : Prop :=
  ∀ v, st_value s = Some v → ∃ o, o ∈ past ∧ saved v o.
Definition saved_now (s : stream_state) : Prop :=
  st_size s ≠ 0 → ∀ v, st_value s = Some v → Z.of_nat (String.length v) = st_size s ∧ saved v (full s).

(** The parts of the state that sending does not change *)
Definition same_saved (s s' : stream_state) : Prop :=
  st_output s' = st_output s ∧ st_value s' = st_value s ∧ st_size s' = st_size s ∧ st_snapshot s' = st_snapshot s.

Lemma same_saved_refl s : same_saved s s. Proof. done. Qed.
Lemma same_saved_trans s1 s2 s3 : same_saved s1 s2 → same_saved s2 s3 → same_saved s1 s3.
Proof. unfold same_saved. intros (?&?&?&?) (?&?&?&?). split_and!; congruence. Qed.

Lemma flush_same n s : ∃ s', flush_pending_delta_data n s = (Ok tt, s') ∧ same_saved s s'.
Proof.
  unfold flush_pending_delta_data. rewrite st_bind_eq. cbn [st_get].
  destruct (st_pending s) as [[[data t] k]|]; [|by exists s]. destruct (_ && _); [|by exists s]. by eexists.
Qed.

Lemma queue_saves data t a s : plain_delta (with_full data) = true →
  match save_response_delta (with_full data) a s with
  | (Ok _, s1) => ∃ s2, queue_pending_delta_data prior delta_chunk_size data t a s = (Ok tt, s2) ∧ same_saved s1 s2
  | (Err x, s1) => queue_pending_delta_data prior delta_chunk_size data t a s = (Err x, s1)
  end.
Proof.
  intros Hp. unfold queue_pending_delta_data. rewrite st_bind_eq.
  destruct (save_response_delta (with_full data) a s) as [[u|x] s1]; [|done].
  destruct (plain_delta_inv _ Hp) as (ty & d & Hty & Hd & _). rewrite (plain_key _ ty) by done.
  rewrite st_bind_eq. cbn [st_lift]. rewrite st_bind_eq. cbn [st_get].
  set (joined := match st_pending s1 with Some p => _ | None => None end).
  assert (Hfin : ∀ s3, same_saved s1 s3 → ∃ s2, (s4 ← st_get; if delta_chunk_size <=? st_count s4
    then flush_pending_delta_data delta_chunk_size else mret tt) s3 = (Ok tt, s2) ∧ same_saved s1 s2).
  { intros s3 H3. rewrite st_bind_eq. cbn [st_get]. destruct (_ <=? _); [|by exists s3].
    destruct (flush_same delta_chunk_size s3) as (s4 & -> & H4). exists s4. split; [done|]. by eapply same_saved_trans. }
  rewrite st_bind_eq. destruct joined as [p|].
  - cbn [st_modify]. by apply Hfin.
  - rewrite st_bind_eq.
    assert (∃ s3, match st_pending s1 with
      | Some (_, t0, k) => if negb (py_eqb t0 t) || negb (same_delta_key k (Some (VStr ty :: map (dget (with_full data)) delta_positions)))
          then flush_pending_delta_data 0 else mret tt
      | None => mret tt end s1 = (Ok tt, s3) ∧ same_saved s1 s3) as (s3 & -> & H3).
    { destruct (st_pending s1) as [[[l t'] k]|]; [|by exists s1]. destruct (_ || _); [apply flush_same|by exists s1]. }
    cbn [st_modify]. apply Hfin. by destruct H3 as (?&?&?&?).
Qed.
Lemma weakly_more past o s : weakly_saved past s → weakly_saved (o :: past) s.
Proof. intros Hw v Hv. destruct (Hw v Hv) as (o' & Ho & Hs). exists o'. split; [by right|done]. Qed.

Lemma weakly_same past s s' : st_value s' = st_value s → weakly_saved past s → weakly_saved past s'.
Proof. intros E Hw v Hv. apply Hw. by rewrite <-E. Qed.

Lemma saved_now_same s s' : same_saved s s' → saved_now s → saved_now s'.
Proof.
  intros (Ho & Hv & Hn & _) Hs Hz v Hv'. rewrite Hn in *. rewrite Hv in Hv'. destruct (Hs Hz v Hv') as [H1 H2].
  split; [done|]. unfold full_output in *. by rewrite Ho.
Qed.

(** The value before a delta is applied *)
Definition saved_before (old : list pyval) (s : stream_state) : Prop :=
  st_size s ≠ 0 → ∀ v, st_value s = Some v → Z.of_nat (String.length v) = st_size s ∧ saved v old.

Lemma append_ok data t old past a s : weakly_saved past s → saved_before old s → st_size s ≠ 0 →
  plain_delta data = true → is_json (VDict data) → dumps (VDict data) = Ok t →
  apply_event data old = Ok (full s) → full s ∈ past →
  ∃ b s1, append_response_stream (t +:+ lf) (st_size s) a s = (Ok b, s1) ∧ st_output s1 = st_output s ∧
    st_size s1 = st_size s ∧ weakly_saved past s1 ∧
    ((b : bool) = true → ∃ v, st_value s1 = Some v ∧ saved v (full s) ∧
       Z.of_nat (String.length v) = st_size s + Z.of_nat (String.length (t +:+ lf))).
Proof.
  intros Hw Hb Hz Hp Hj Ht Ha Hin. unfold append_response_stream. rewrite st_bind_eq. cbn [st_get].
  assert (Hno : ∃ b s1, (Ok false, s) = (Ok b, s1) ∧ st_output s1 = st_output s ∧ st_size s1 = st_size s ∧
    weakly_saved past s1 ∧ ((b : bool) = true → ∃ v, st_value s1 = Some v ∧ saved v (full s) ∧
       Z.of_nat (String.length v) = st_size s + Z.of_nat (String.length (t +:+ lf)))).
  { exists false, s. split; [done|]. split; [done|]. split; [done|]. split; [done|]. intros [=]. }
  assert (Hyes : (Z.of_nat (String.length (default EmptyString (st_value s))) =? st_size s) = true →
    ∃ v, st_value s = Some v ∧ saved (v +:+ (t +:+ lf)) (full s) ∧
      Z.of_nat (String.length (v +:+ (t +:+ lf))) = st_size s + Z.of_nat (String.length (t +:+ lf))).
  { intros E%Z.eqb_eq. destruct (st_value s) as [v|] eqn:Ev; [|cbn in E; lia]. cbn [default from_option id] in E.
    destruct (Hb Hz v Ev) as [_ Hs]. exists v. split; [done|]. split; [by apply (saved_append v old data t)|].
    rewrite Str.app_length. lia. }
  destruct (Z.of_nat _ =? st_size s) eqn:E; [destruct (Hyes eq_refl) as (v & Ev & Hs & Hl)|]; destruct a; try exact Hno.
  all: eexists _, _; split; [reflexivity|]; rewrite Ev; cbn [default from_option id].
  all: split_and!; [done|done| |].
  all: try by (intros v' [= <-]; eexists; split; [exact Hin|exact Hs]).
  - intros _. by exists (v +:+ (t +:+ lf)).
  - done.
Qed.

Lemma save_delta_ok data old past a s : weakly_saved past s → saved_before old s →
  plain_delta data = true → is_json (VDict data) → apply_event data old = Ok (full s) → full s ∈ past →
  let s1 := (save_response_delta data a s).2 in
  st_output s1 = st_output s ∧ weakly_saved past s1 ∧
  ((save_response_delta data a s).1 = Ok tt → saved_now s1 ∧ (st_size s1 ≠ 0 → is_Some (st_value s1))).
Proof.
  intros Hw Hb Hp Hj Ha Hin. cbv zeta. unfold save_response_delta. rewrite st_bind_eq. cbn [st_get].
  destruct (Z.eqb_spec (st_size s) 0) as [Hz|Hz].
  { cbn. split_and!; [done|done|]. intros _. split; intros Hz'; done. }
  rewrite st_bind_eq.
  assert (Hcode : ∃ r, (if is_str (dget data "delta") then st_lift (has_code (st_output s)) else mret true) s = (r, s))
    by (destruct (is_str _); by eexists).
  destruct Hcode as [[code|x] ->]; [|by split_and!].
  destruct code.
  { cbn. split_and!; [done|by apply (weakly_same past s)|]. intros _. split; intros Hz'; done. }
  destruct (loads_dumps _ Hj) as (t & Ht & _). rewrite Ht. rewrite st_bind_eq. cbn [st_lift]. rewrite st_bind_eq.
  set (len := Z.of_nat _).
  assert (Hlater : ∀ (b : bool) s1, st_output s1 = st_output s → weakly_saved past s1 →
    (b = true → ∃ v, st_value s1 = Some v ∧ saved v (full s) ∧ Z.of_nat (String.length v) = st_size s + len) →
    let s2 := with_size (if b then st_size s + len else 0) s1 in
    st_output s2 = st_output s ∧ weakly_saved past s2 ∧ (Ok tt = Ok tt → saved_now s2 ∧ (st_size s2 ≠ 0 → is_Some (st_value s2)))).
  { intros b s1 Ho Hw1 Hv. split_and!; [done|by apply (weakly_same past s1)|]. intros _. destruct b.
    - destruct (Hv eq_refl) as (v & Ev & Hs & Hl). split; [|intros _; cbn; rewrite Ev; by eexists].
      intros _ v' Hv'. cbn in Hv'. rewrite Ev in Hv'. injection Hv' as <-. split; [done|].
      unfold full_output in *. cbn. by rewrite Ho.
    - split; intros Hz'; done. }
  destruct (st_size s + len <=? st_snapshot s * 2).
  - destruct (append_ok data t old past a s) as (b & s1 & Hr & Ho & _ & Hw1 & Hv); [done..|].
    change (String line_feed EmptyString) with lf. rewrite Hr. by apply Hlater.
  - by apply (Hlater false s).
Qed.

(** A snapshot *)
Lemma save_current_ok past a s : weakly_saved past s → full s ∈ past →
  is_json (VDict (snapshot_data chat_id message_id (full s))) →
  Str.is_empty task_id || Str.is_empty chat_id || Str.is_empty message_id = false →
  ∃ s1, save_current_response_stream task_id chat_id message_id prior a s = (Ok tt, s1) ∧
    st_output s1 = st_output s ∧ st_pending s1 = st_pending s ∧ st_count s1 = st_count s ∧ st_events s1 = st_events s ∧
    weakly_saved past s1 ∧ saved_now s1 ∧ (a ≠ Refused → ∃ v, st_value s1 = Some v ∧ saved v (full s)).
Proof.
  intros Hw Hin Hj Hids. unfold save_current_response_stream. rewrite st_bind_eq. cbn [st_get].
  unfold save_response_stream. rewrite Hids. destruct (loads_dumps _ Hj) as (t & Ht & _). rewrite Ht.
  rewrite !st_bind_eq. cbn [st_lift]. pose proof (saved_snapshot (full s) t Hj Ht) as Hs.
  change (String line_feed EmptyString) with lf.
  destruct a; cbn; eexists; split; try reflexivity; cbn; split_and!; try done.
  - intros v [= <-]. by eexists.
  - intros _ v [= <-]. done.
  - intros _. by exists (t +:+ lf).
  - intros v [= <-]. by eexists.
  - intros _. by exists (t +:+ lf).
Qed.

(** *** A line of the provider *)

Notation line := (response_line repr_other task_id chat_id message_id prior delta_chunk_size).

(** A Responses event whose deltas are texts at positions, and whose output is JSON *)
Record line_ok (data : pydict) (s : stream_state) : Prop := {
  lo_type : ∃ t, dget data "type" = VStr t ∧ (Str.startswith "response." t || String.eqb t "error") = true ∧
    (is_delta_type t = true → plain_delta data = true ∧ index_sent data ∧ is_json (VDict (with_full data)));
  lo_name t : dget data "type" = VStr t → type_part t ≠ Some "response";
  lo_json r : handle_responses_streaming_event repr_other data (st_output s) = Ok r →
    is_json (VDict (snapshot_data chat_id message_id (prior ++ r.1))) ∧ Forall (λ v, is_dict v = true) r.1;
}.

Record stream_ok (past : list (list pyval)) (s : stream_state) : Prop := {
  so_weak : weakly_saved past s;
  so_now : saved_now s;
  so_past : full s ∈ past;
  so_json : is_json (VDict (snapshot_data chat_id message_id (full s)));
}.

Hypothesis ids : Str.is_empty task_id || Str.is_empty chat_id || Str.is_empty message_id = false.

(** [finally] *)
Lemma line_end past a s : weakly_saved past s → full s ∈ past →
  is_json (VDict (snapshot_data chat_id message_id (full s))) →
  (st_size s ≠ 0 → saved_now s ∧ is_Some (st_value s)) →
  let p := if st_size s =? 0 then save_current_response_stream task_id chat_id message_id prior a s else (Ok tt, s) in
  p.1 = Ok tt ∧ st_output p.2 = st_output s ∧ st_pending p.2 = st_pending s ∧ st_count p.2 = st_count s ∧
  st_events p.2 = st_events s ∧ stream_ok past p.2 ∧ (a ≠ Refused → ∃ v, st_value p.2 = Some v ∧ saved v (full p.2)).
Proof.
  intros Hw Hin Hj Hnow. cbv zeta. destruct (Z.eqb_spec (st_size s) 0) as [Hz|Hz].
  - destruct (save_current_ok past a s Hw Hin Hj ids) as (s1 & -> & Ho & H1 & H2 & H3 & Hw1 & Hn1 & Hv). cbn [fst snd].
    assert (Hf : full s1 = full s) by (unfold full_output; by rewrite Ho).
    split_and!; try done; [by split; rewrite ?Hf|]. by rewrite Hf.
  - destruct (Hnow Hz) as [Hn [v Hv]]. cbn [fst snd]. split_and!; try done. intros _. exists v. split; [done|]. by apply Hn.
Qed.

Lemma ends_delta_ok data t : dget data "type" = VStr t → ends_delta data = Ok (Str.endswith ".delta" t).
Proof.
  unfold ends_delta, dgetd, dget. destruct (dict_get "type" data) as [v|]; cbn [default from_option id]; [|done]. by intros ->.
Qed.

Lemma emit_other data t a s : dget data "type" = VStr t → Str.endswith ".delta" t = false →
  ∃ s1, flush_pending_delta_data 0 s = (Ok tt, s1) ∧ same_saved s s1 ∧
    emit_response_completion_event prior delta_chunk_size data a s =
    (Ok tt, with_size 0 (send (get_response_completion_event_data (with_full data)) s1)).
Proof.
  intros Ht Hd. destruct (flush_same 0 s) as (s1 & Hf & Hs). exists s1. split; [done|]. split; [done|].
  unfold emit_response_completion_event. rewrite (ends_delta_ok data t), Hd by done. rewrite st_bind_eq. cbn [st_lift].
  rewrite st_bind_eq, Hf. done.
Qed.

Lemma line_saved past data a a' s : stream_ok past s → line_ok data s →
  let s' := (line data a a' s).2 in
  stream_ok (full s' :: past) s' ∧ (a' ≠ Refused → ∃ v, st_value s' = Some v ∧ saved v (full s')).
Proof.
  intros [Hw Hn Hp Hj] [(t & Ht & Hguard & Hplain) _ Hjson]. cbv zeta.
  assert (Hend : ∀ past' s2, weakly_saved past' s2 → full s2 ∈ past' →
    is_json (VDict (snapshot_data chat_id message_id (full s2))) →
    (st_size s2 ≠ 0 → saved_now s2 ∧ is_Some (st_value s2)) → (∀ o, o ∈ past' → o ∈ full s2 :: past) →
    let p := if st_size s2 =? 0 then save_current_response_stream task_id chat_id message_id prior a' s2 else (Ok tt, s2) in
    stream_ok (full p.2 :: past) p.2 ∧ (a' ≠ Refused → ∃ v, st_value p.2 = Some v ∧ saved v (full p.2))).
  { intros past' s2 H1 H2 H3 H4 Hsub. destruct (line_end past' a' s2 H1 H2 H3 H4) as (_ & Ho & _ & _ & _ & [K1 K2 K3 K4] & Hv).
    cbv zeta. set (p := if _ =? _ then _ else _) in *. assert (Hf : full p.2 = full s2) by (unfold full_output; by rewrite Ho).
    split; [|done]. split; [|done|by left|done]. intros v Hv'. destruct (K1 v Hv') as (o & Hin & Hs). exists o.
    split; [|done]. rewrite Hf. by apply Hsub. }
  unfold response_line, response_event. rewrite st_bind_eq. cbn [st_get]. rewrite st_bind_eq, (ends_delta_ok data t) by done.
  cbn [st_lift]. rewrite st_bind_eq. cbn [st_lift].
  destruct (handle_responses_streaming_event repr_other data (st_output s)) as [r|x] eqn:Hr.
  2:{ apply (Hend past (with_size 0 s)); [by apply (weakly_same past s)|done|done|done|]. intros o Ho. by right. }
  destruct (Hjson r eq_refl) as [Hj1 _]. set (s1 := with_stream_output r.1 s).
  assert (Hw1 : weakly_saved (full s1 :: past) s1) by (apply weakly_more; by apply (weakly_same past s)).
  rewrite st_bind_eq. cbn [st_modify]. fold s1. rewrite st_bind_eq.
  destruct (Str.endswith ".delta" t) eqn:Hd.
  2:{ destruct (flush_same 0 s1) as (s2 & -> & Hs2). destruct (emit_other data t a s2 Ht Hd) as (s3 & _ & Hs3 & ->).
      destruct (same_saved_trans _ _ _ Hs2 Hs3) as (Ho & Hv & _ & _).
      set (s4 := with_size 0 (send (get_response_completion_event_data (with_full data)) s3)).
      assert (Hf : full s4 = full s1) by (unfold full_output; cbn; by rewrite Ho).
      apply (Hend (full s4 :: past) s4); [by rewrite Hf; apply (weakly_same _ s1)|by left|by rewrite Hf|done|done]. }
  assert (Hdt : is_delta_type t = true).
  { unfold is_delta_type. rewrite Hd. destruct (String.eqb_spec t "error") as [->|]; [done|]. by rewrite orb_false_r in Hguard; rewrite Hguard. }
  destruct (Hplain Hdt) as (Hpl & Hidx & Hjd). cbn [mret st_ret].
  unfold emit_response_completion_event. rewrite st_bind_eq, (ends_delta_ok data t), Hd by done. cbn [st_lift].
  pose proof (with_full_plain data Hpl) as Hpf.
  assert (Happ : apply_event (with_full data) (full s) = Ok (full s1)).
  { unfold full_output. rewrite (apply_shift data (st_output s)) by done. unfold ResponsesProps.apply_event. by rewrite Hr. }
  destruct (save_delta_ok (with_full data) (full s) (full s1 :: past) a s1 Hw1 Hn Hpf Hjd Happ ltac:(by left)) as (Ho2 & Hw2 & Hok).
  pose proof (queue_saves data (dgetd data "type" (VStr "response.delta")) a s1 Hpf) as Hq.
  destruct (save_response_delta (with_full data) a s1) as [[[]|x] s2]; cbn [fst snd] in *.
  - destruct Hq as (s3 & -> & Hs3). destruct (Hok eq_refl) as [Hn2 Hv2].
    assert (Hf : full s3 = full s1) by (unfold full_output; destruct Hs3 as (-> & _); by rewrite Ho2).
    apply (Hend (full s1 :: past) s3).
    + apply (weakly_same _ s2); [apply Hs3|done].
    + rewrite Hf. by left.
    + by rewrite Hf.
    + intros Hz. split; [by apply (saved_now_same s2)|]. destruct Hs3 as (_ & -> & Hz3 & _). apply Hv2. by rewrite <-Hz3.
    + by rewrite Hf.
  - rewrite Hq. assert (Hf : full (with_size 0 s2) = full s1) by (unfold full_output; cbn; by rewrite Ho2).
    apply (Hend (full s1 :: past) (with_size 0 s2)); [by apply (weakly_same _ s2)|rewrite Hf; by left|by rewrite Hf|done|by rewrite Hf].
Qed.
(** *** The states of a stream *)

(** A reply that starts with [out0]: lines, whose Redis commands may be refused or
    lose their answer, and the expiry of the value.  [past] are the outputs the reply
    had after each line. *)
Inductive reached (out0 : list pyval) : list (list pyval) → stream_state → Prop :=
| reached_start : is_json (VDict (snapshot_data chat_id message_id (prior ++ out0))) →
    Forall (λ v, is_dict v = true) out0 → reached out0 [prior ++ out0] (empty_stream out0)
| reached_line data a a' past s : reached out0 past s → line_ok data s →
    reached out0 (full (line data a a' s).2 :: past) (line data a a' s).2
| reached_expiry past s : reached out0 past s → reached out0 past (with_value None s).

Lemma reached_ok out0 past s : reached out0 past s → stream_ok past s.
Proof.
  induction 1 as [Hj _|data a a' past s _ IH Hl|past s _ [Hw Hn Hp Hj]].
  - split; [done|done|by left|done].
  - by apply line_saved.
  - split; [done|done|done|done].
Qed.

(** ** What the clients are sent *)

Definition sent (s : stream_state) : list pydict :=
  st_events s ++ match st_pending s with Some (data, _, _) => [data] | None => [] end.

(** The delta that waits, with the type and key it was queued under *)
Definition pending_ok (s : stream_state) : Prop :=
  0 <= st_count s ∧
  match st_pending s with
  | Some (data, t, k) => plain_delta data = true ∧ dget data "type" = t ∧ get_response_delta_key data = Ok k
  | None => True
  end.

Lemma plain_truthy data : plain_delta data = true → truthy (VDict data) = true.
Proof. intros (t & d & Ht & _)%plain_delta_inv. by destruct data. Qed.

Lemma flush_sent n s : pending_ok s → let s' := (flush_pending_delta_data n s).2 in
  (flush_pending_delta_data n s).1 = Ok tt ∧ sent s' = sent s ∧ pending_ok s' ∧ st_output s' = st_output s ∧
  (n <= 0 → st_pending s' = None).
Proof.
  intros [Hc Hp]. unfold flush_pending_delta_data. rewrite st_bind_eq. cbn [st_get].
  destruct (st_pending s) as [[[data t] k]|] eqn:E; [|cbn; split_and!; try done; split; [done|by rewrite E]].
  destruct Hp as (Hp & Ht & Hk). rewrite (plain_truthy data) by done. rewrite andb_true_r.
  destruct (Z.leb_spec n (st_count s)); cbn.
  - unfold sent. cbn. rewrite E, app_nil_r. split_and!; [done|done|by split|done|done].
  - split_and!; try done; [split; [done|by rewrite E]|lia].
Qed.

Lemma filtered_get r k : k ∈ RESPONSE_COMPLETION_RESPONSE_FIELDS →
  dict_get k (completion_fields r) = dict_get k r.
Proof.
  intros Hk. unfold completion_fields, RESPONSE_COMPLETION_RESPONSE_FIELDS in *. rewrite !elem_of_cons, elem_of_nil in Hk.
  cbn [omap list_omap].
  destruct Hk as [->|[->|[->|[->|[]]]]]; destruct (dict_get "error" r), (dict_get "id" r), (dict_get "output" r), (dict_get "usage" r); reflexivity.
Qed.

Lemma completion_data data out t : dget data "type" = VStr t → is_delta_type t = false → type_part t ≠ Some "response" →
  apply_event (get_response_completion_event_data data) out = apply_event data out.
Proof.
  intros Ht Hd Hn. unfold get_response_completion_event_data.
  destruct (dget data "response") as [| | | | | |r] eqn:Hr; try done. set (f := VDict (completion_fields r)).
  assert (Hg : ∀ k w, k ≠ "response" → dgetd (dict_set "response" f data) k w = dgetd data k w).
  { intros k w Hk. by apply dgetd_set_other. }
  assert (Hg' : ∀ k, k ≠ "response" → dget (dict_set "response" f data) k = dget data k).
  { intros k Hk. by apply dget_set_ne. }
  assert (Hresp : dgetd data "response" (VDict []) = VDict r).
  { unfold dget, dgetd in *. destruct (dict_get "response" data); [done|]. done. }
  assert (Hfr : ∀ k, k ∈ RESPONSE_COMPLETION_RESPONSE_FIELDS → vget f k = vget (VDict r) k).
  { intros k Hk. cbn [vget f]. unfold dget. by rewrite filtered_get. }
  unfold ResponsesProps.apply_event, handle_responses_streaming_event. rewrite Hg by done.
  assert (Hty : dgetd data "type" (VStr EmptyString) = VStr t).
  { unfold dget, dgetd in *. by destruct (dict_get "type" data). }
  rewrite Hty, Hd.
  assert (Hadd : item_added (dict_set "response" f data) out = item_added data out) by (unfold item_added; by rewrite !Hg by done).
  assert (Hpart : ∀ x b, part_added x b (dict_set "response" f data) out = part_added x b data out)
    by (intros; unfold part_added; by rewrite !Hg by done).
  assert (Hdone : item_done (dict_set "response" f data) out = item_done data out)
    by (unfold item_done; by rewrite Hg, Hg' by done).
  assert (Hhas : ∀ k, k ≠ "response" → dict_has k (dict_set "response" f data) = dict_has k data).
  { intros k Hk. unfold dict_has. by rewrite dict_get_set_ne. }
  assert (Hpd : ∀ x k, k ≠ "response" → part_done x k (dict_set "response" f data) out = part_done x k data out).
  { intros x k Hk. unfold part_done. rewrite Hg, Hg' by done.
    destruct (if truthy _ then _ else _) as [[]|]; try done. cbn [mbind res_bind].
    destruct (get_item out _) as [[]|]; try done. cbn [mbind res_bind]. destruct (dict_get x d); [|done].
    destruct (py_list p); [|done]. cbn [mbind res_bind]. by rewrite Hg. }
  assert (Hfd : ∀ n, n ≠ "response" → field_done n (dict_set "response" f data) out = field_done n data out).
  { intros n Hnr. unfold field_done. rewrite Hg by done. set (key := if vin_strs _ _ then _ else _).
    assert (Hkey : key ≠ "response").
    { subst key. destruct (vin_strs _ _); [done|]. by destruct (String.eqb n _). }
    rewrite Hhas by done. unfold done_item. by rewrite !Hg, !Hg' by done. }
  assert (Hhd : handle_done t (dict_set "response" f data) out = handle_done t data out).
  { unfold handle_done. destruct (type_part t) as [n|]; [|done]. rewrite !Hpd by done. rewrite Hfd; [done|congruence]. }
  assert (Hcr : completed_response (dict_set "response" f data) out = completed_response data out).
  { unfold completed_response. rewrite dgetd_set_eq, Hresp. rewrite !Hfr; [done|..]; by refine (bool_decide_unpack _ _). }
  rewrite Hadd, !Hpart, Hdone, Hhd, Hcr, dgetd_set_eq, Hresp.
  repeat (destruct (String.eqb t _); [done|]). destruct (is_done_type t); [done|].
  by repeat (destruct (String.eqb t _); [done|]).
Qed.

(** Saving does not touch what is sent. *)
Definition same_sent (s s' : stream_state) : Prop :=
  st_pending s' = st_pending s ∧ st_count s' = st_count s ∧ st_events s' = st_events s ∧ st_output s' = st_output s.

Lemma append_sends t n a s : same_sent s (append_response_stream t n a s).2.
Proof.
  unfold append_response_stream. rewrite st_bind_eq. cbn [st_get]. destruct a; try done; by destruct (_ =? _).
Qed.

Lemma save_delta_sends data a s : same_sent s (save_response_delta data a s).2.
Proof.
  unfold save_response_delta. rewrite st_bind_eq. cbn [st_get]. destruct (st_size s =? 0); [done|]. rewrite st_bind_eq.
  destruct (is_str (dget data "delta")); [|done]. unfold st_lift at 1. destruct (has_code (st_output s)) as [[]|]; [done| |done].
  rewrite st_bind_eq. unfold st_lift. destruct (dumps (VDict data)) as [t|]; [|done]. rewrite st_bind_eq.
  destruct (_ <=? _); [|done]. pose proof (append_sends (t +:+ String line_feed EmptyString) (st_size s) a s) as Ha.
  destruct (append_response_stream _ _ _ s) as [[b|x] s1]; exact Ha.
Qed.

Lemma sent_same s s' : same_sent s s' → sent s' = sent s ∧ (pending_ok s → pending_ok s').
Proof. intros (Hp & Hc & He & _). unfold sent, pending_ok. rewrite Hp, Hc, He. done. Qed.

Lemma apply_events_snoc l e out : apply_events (l ++ [e]) out = (o ← apply_events l out; apply_event e o).
Proof.
  unfold ResponsesProps.apply_events. rewrite foldM_app. destruct (foldM _ out l) as [o|x]; [|done]. cbn [mbind res_bind foldM].
  by destruct (apply_event e o).
Qed.

(** The last part of [queue_pending_delta_data]: the delta is queued. *)
Lemma queue_rest data t s out0 old : pending_ok s → plain_delta data = true → dget data "type" = t →
  apply_events (sent s) out0 = Ok old → apply_event data old = Ok (st_output s) →
  with_full data = data → ∀ a s0, save_response_delta data a s0 = (Ok tt, s) →
  let s' := (queue_pending_delta_data prior delta_chunk_size data t a s0).2 in
  (queue_pending_delta_data prior delta_chunk_size data t a s0).1 = Ok tt ∧
  apply_events (sent s') out0 = Ok (st_output s') ∧ pending_ok s'.
Proof.
  intros Hpo Hp Ht Hs Ha Hfull a s0 Hsave. cbv zeta. unfold queue_pending_delta_data. rewrite Hfull, st_bind_eq, Hsave.
  destruct (plain_delta_inv data Hp) as (ty & d & Hty & Hd & Hx & _). pose proof (plain_key data ty Hty Hd) as Hk.
  rewrite Hk, st_bind_eq. cbn [st_lift]. rewrite st_bind_eq. cbn [st_get].
  set (key := Some (VStr ty :: map (dget data) delta_positions)) in *.
  assert (Hend : ∀ s3, apply_events (sent s3) out0 = Ok (st_output s3) → pending_ok s3 →
    let p := (s4 ← st_get; if delta_chunk_size <=? st_count s4 then flush_pending_delta_data delta_chunk_size else mret tt) s3 in
    p.1 = Ok tt ∧ apply_events (sent p.2) out0 = Ok (st_output p.2) ∧ pending_ok p.2).
  { intros s3 H3 Hpo3. cbv zeta. rewrite st_bind_eq. cbn [st_get]. destruct (_ <=? _); [|done].
    destruct (flush_sent delta_chunk_size s3 Hpo3) as (E1 & E2 & E3 & E4 & _). rewrite E2, E4. done. }
  assert (Hnew : ∀ s3, st_pending s3 = None → sent s3 = sent s → st_output s3 = st_output s → pending_ok s3 →
    let s4 := with_pending (Some (data, t, key)) (st_count s3 + 1) s3 in
    apply_events (sent s4) out0 = Ok (st_output s4) ∧ pending_ok s4).
  { intros s3 Hnone H3 Ho [Hc _]. split.
    - assert (He : st_events s3 = sent s) by (rewrite <-H3; unfold sent; by rewrite Hnone, app_nil_r).
      change (apply_events (st_events s3 ++ [data]) out0 = Ok (st_output s3)).
      rewrite He, apply_events_snoc, Hs. cbn [mbind res_bind]. by rewrite Ho.
    - split; cbn; [lia|done]. }
  destruct (st_pending s) as [[[last t'] k]|] eqn:Ep.
  - destruct Hpo as [Hc Hpend]. pose proof Hpend as Hpend'. rewrite Ep in Hpend. destruct Hpend as (Hlp & Hlt & Hlk).
    destruct (plain_delta_inv last Hlp) as (tl & dl & Htl & Hdl & Hxl & _).
    assert (Hdl' : dget last "delta" = VStr dl).
    { unfold text_of, dget in *. destruct (dict_get "delta" last) as [[]|]; try done. by injection Hxl as ->. }
    assert (Hdd : dget data "delta" = VStr d).
    { unfold text_of, dget in *. destruct (dict_get "delta" data) as [[]|]; try done. by injection Hx as ->. }
    rewrite Hdl', Hdd. destruct (same_delta_key k key) eqn:Ek.
    + rewrite st_bind_eq. cbn [st_modify]. apply Hend.
      * assert (Hj : dict_set "delta" (VStr (dl +:+ d)) last = joined last d) by (unfold joined; by rewrite Hxl).
        assert (He : sent s = st_events s ++ [last]) by (unfold sent; by rewrite Ep). rewrite He, apply_events_snoc in Hs.
        rewrite Hj. change (apply_events (st_events s ++ [joined last d]) out0 = Ok (st_output s)). rewrite apply_events_snoc.
        destruct (apply_events (st_events s) out0) as [o|x]; [|done]. cbn [mbind res_bind] in *.
        rewrite <-(apply_joined repr_other last data d k key) by done. rewrite Hs. exact Ha.
      * split; cbn; [lia|]. assert (Hj : dict_set "delta" (VStr (dl +:+ d)) last = joined last d) by (unfold joined; by rewrite Hxl).
        rewrite Hj. split_and!; [by apply joined_plain| |by rewrite joined_key].
        unfold dget in *. by rewrite joined_fields.
    + rewrite !st_bind_eq. rewrite orb_true_r. 
      destruct (flush_sent 0 s (conj Hc Hpend')) as (E1 & E2 & E3 & E4 & E5).
      destruct (flush_pending_delta_data 0 s) as [r s3]. cbn [fst snd] in *. subst r. cbn [st_modify].
      destruct (Hnew s3) as [N1 N2]; [by apply E5|done..|]. by apply Hend.
  - rewrite !st_bind_eq. cbn [st_modify mret st_ret]. destruct (Hnew s) as [N1 N2]; [done..|]. by apply Hend.
Qed.

Lemma has_code_ok l : Forall (λ v, is_dict v = true) l → ∃ b, has_code l = Ok b.
Proof.
  induction 1 as [|v l Hv _ [b IH]]; [by exists false|]. destruct v as [| | | | | |d]; try done. cbn [has_code vget mbind res_bind].
  destruct (veq_str _ _); [by exists true|by exists b].
Qed.

Lemma save_delta_done data a s : Forall (λ v, is_dict v = true) (st_output s) → is_json (VDict data) →
  (save_response_delta data a s).1 = Ok tt.
Proof.
  intros Hd Hj. unfold save_response_delta. rewrite st_bind_eq. cbn [st_get]. destruct (st_size s =? 0); [done|].
  rewrite st_bind_eq. destruct (has_code_ok _ Hd) as [b Hb]. destruct (is_str (dget data "delta")); [|done].
  unfold st_lift at 1. rewrite Hb. destruct b; [done|]. destruct (loads_dumps _ Hj) as (t & Ht & _). rewrite st_bind_eq.
  unfold st_lift. rewrite Ht, st_bind_eq. destruct (_ <=? _); [|done].
  assert (Hap : ∃ b s1, append_response_stream (t +:+ String line_feed EmptyString) (st_size s) a s = (Ok b, s1)).
  { unfold append_response_stream. rewrite st_bind_eq. cbn [st_get].
    destruct a; [destruct (_ =? _)| |destruct (_ =? _)]; by eexists _, _. }
  by destruct Hap as (b & s1 & ->).
Qed.

Lemma save_current_sends a s : same_sent s (save_current_response_stream task_id chat_id message_id prior a s).2.
Proof.
  clear ids. unfold save_current_response_stream. rewrite st_bind_eq. cbn [st_get]. rewrite st_bind_eq. unfold save_response_stream.
  destruct (_ || _); [done|]. rewrite st_bind_eq. unfold st_lift. destruct (dumps _); [|done]. by destruct a.
Qed.

Record clients_ok (out0 : list pyval) (s : stream_state) : Prop := {
  cl_sent : apply_events (sent s) out0 = Ok (st_output s);
  cl_pending : pending_ok s;
  cl_dicts : Forall (λ v, is_dict v = true) (st_output s);
}.

Lemma clients_same out0 s s' : same_sent s s' → clients_ok out0 s → clients_ok out0 s'.
Proof.
  intros Hs [H1 H2 H3]. destruct (sent_same s s' Hs) as [E1 E2]. destruct Hs as (_ & _ & _ & Ho).
  split; [by rewrite E1, Ho|by apply E2|by rewrite Ho].
Qed.

Lemma line_sent out0 data a a' s : prior = [] → clients_ok out0 s → line_ok data s → clients_ok out0 (line data a a' s).2.
Proof.
  clear ids. intros Hprior Hc [(t & Ht & Hguard & Hplain) Hname Hjson].
  assert (Hfull : with_full data = data) by (unfold with_full_index; by rewrite Hprior).
  assert (Hend : ∀ s2, clients_ok out0 s2 →
    clients_ok out0 (if st_size s2 =? 0 then save_current_response_stream task_id chat_id message_id prior a' s2 else (Ok tt, s2)).2).
  { intros s2 H2. destruct (_ =? _); [|done]. by apply (clients_same _ s2), H2; apply save_current_sends. }
  unfold response_line, response_event. rewrite st_bind_eq. cbn [st_get]. rewrite st_bind_eq, (ends_delta_ok data t) by done.
  cbn [st_lift]. rewrite st_bind_eq. cbn [st_lift].
  destruct (handle_responses_streaming_event repr_other data (st_output s)) as [r|x] eqn:Hr.
  2:{ apply Hend. by apply (clients_same _ s). }
  destruct (Hjson r eq_refl) as [_ Hdicts]. destruct Hc as [Hs Hpo _]. set (s1 := with_stream_output r.1 s).
  assert (Happ : apply_event data (st_output s) = Ok (st_output s1)) by (unfold ResponsesProps.apply_event; by rewrite Hr).
  rewrite st_bind_eq. cbn [st_modify]. fold s1. rewrite st_bind_eq.
  destruct (Str.endswith ".delta" t) eqn:Hd.
  - assert (Hdt : is_delta_type t = true).
    { unfold is_delta_type. rewrite Hd. destruct (String.eqb_spec t "error") as [->|]; [done|]. by rewrite orb_false_r in Hguard; rewrite Hguard. }
    destruct (Hplain Hdt) as (Hpl & _ & Hjd). rewrite Hfull in Hjd. cbn [mret st_ret].
    unfold emit_response_completion_event. rewrite st_bind_eq, (ends_delta_ok data t), Hd by done. cbn [st_lift].
    assert (Hty : dgetd data "type" (VStr "response.delta") = VStr t).
    { unfold dget, dgetd in *. destruct (dict_get "type" data) as [v|]; [exact Ht|done]. }
    rewrite Hty.
    pose proof (save_delta_done data a s1 Hdicts Hjd) as Hok. pose proof (save_delta_sends data a s1) as Hsame.
    destruct (save_response_delta data a s1) as [r2 s2] eqn:Es. cbn [fst snd] in *. subst r2.
    destruct (sent_same s1 s2 Hsame) as [Hss Hsp]. destruct Hsame as (_ & _ & _ & Ho2).
    destruct (queue_rest data (VStr t) s2 out0 (st_output s)) with (a := a) (s0 := s1) as (Hq1 & Hq2 & Hq3); try done.
    { by apply Hsp. } { by rewrite Hss. } { by rewrite Ho2. }
    destruct (queue_pending_delta_data _ _ _ _ _ s1) as [r3 s3] eqn:Eq. cbn [fst snd] in *. subst r3. apply Hend. split; [done|done|].
    pose proof (queue_saves data (VStr t) a s1) as Hqs. rewrite Hfull, Es in Hqs. destruct (Hqs Hpl) as (s4 & E4 & (Ho4 & _)).
    rewrite E4 in Eq. injection Eq as ->. by rewrite Ho4, Ho2.
  - destruct (flush_sent 0 s1 Hpo) as (F1 & F2 & F3 & F4 & F5). destruct (flush_pending_delta_data 0 s1) as [r2 s2]. cbn [fst snd] in *. subst r2.
    destruct (flush_sent 0 s2 F3) as (G1 & G2 & G3 & G4 & G5).
    destruct (emit_other data t a s2 Ht Hd) as (s3 & Hf3 & _ & ->). rewrite Hf3 in G1, G2, G3, G4, G5. cbn [fst snd] in *.
    apply Hend. rewrite Hfull. specialize (G5 ltac:(done)). split.
    + assert (He : st_events s3 = sent s) by (transitivity (sent s3); [unfold sent; by rewrite G5, app_nil_r|by rewrite G2, F2]).
      set (e := get_response_completion_event_data data).
      assert (sent (with_size 0 (send e s3)) = sent s ++ [e]) as -> by (unfold sent at 1; cbn; by rewrite G5, app_nil_r, He).
      rewrite apply_events_snoc, Hs. cbn [mbind res_bind]. subst e.
      rewrite (completion_data data (st_output s) t); [|done| |by apply Hname].
      * rewrite Happ. cbn. by rewrite G4, F4.
      * unfold is_delta_type. by rewrite Hd, andb_false_r.
    + destruct G3 as [G3 _]. split; cbn; [done|by rewrite G5].
    + cbn. by rewrite G4, F4.
Qed.

Lemma reached_clients out0 past s : prior = [] → reached out0 past s → clients_ok out0 s.
Proof.
  clear ids. intros Hprior. induction 1 as [Hj Hd|data a a' past s _ IH Hl|past s _ IH].
  - by split; [|split|].
  - by apply line_sent.
  - by apply (clients_same _ s).
Qed.
End Reply.
End Saved.

(** ** The properties *)

(** C2: a saved reply is never corrupt, and up to date whenever Redis took the last
    snapshot: whatever events of the Responses API arrive, commands that Redis refuses
    or whose answer is lost, and an expiry of the value at any time, a reader finds
    nothing or a snapshot with deltas that replay, in groups of equal keys, to an
    output the reply had after some line; and after a line whose closing snapshot is
    not refused it finds exactly the output of that moment, with the items of earlier
    rounds in front.  The events are deltas of text at positions that are integers
    (with an output index when there were earlier rounds) or are no deltas. *)
Theorem saved_stream_replays `{JsonCodec} (repr_other : pyval → string) (task_id chat_id message_id : string)
    (prior : list pyval) (delta_chunk_size : Z) (out0 : list pyval) past s
    (Hids : Str.is_empty task_id || Str.is_empty chat_id || Str.is_empty message_id = false)
    (Hs : reached repr_other chat_id message_id task_id prior delta_chunk_size out0 past s) :
  (∀ v, st_value s = Some v → ∃ o, o ∈ past ∧
     load_response_stream repr_other v = Ok (VDict (snapshot_data chat_id message_id o))) ∧
  (∀ data a a', line_ok repr_other chat_id message_id prior data s → a' ≠ Refused →
     let s' := (response_line repr_other task_id chat_id message_id prior delta_chunk_size data a a' s).2 in
     ∃ v, st_value s' = Some v ∧
       load_response_stream repr_other v = Ok (VDict (snapshot_data chat_id message_id (full_output prior s')))).
Proof.
  pose proof (reached_ok _ _ _ _ _ _ Hids _ _ _ Hs) as Hok. split.
  - intros v Hv. destruct (so_weak _ _ _ _ _ _ Hok v Hv) as (o & Ho & Hsv). exists o. split; [done|by apply saved_load].
  - intros data a a' Hl Ha. cbv zeta.
    destruct (line_saved repr_other chat_id message_id task_id prior delta_chunk_size Hids past data a a' s Hok Hl) as [_ Hv].
    destruct (Hv Ha) as (v & Hv1 & Hv2). exists v. split; [done|by apply saved_load].
Qed.


(** *** An example *)

Definition standard_dumps (v : pyval) : res string := Ok (json_dumps (λ _, "nan") v).

Lemma standard_read_back v : plain_json v = true →
  ∃ t, standard_dumps v = Ok t ∧ json_loads t = Ok v ∧ one_line t = true ∧ t ≠ EmptyString.
Proof. intros Hv. destruct (json_read_back (λ _, "nan") v Hv) as (H1 & H2 & H3). by exists (json_dumps (λ _, "nan") v). Qed.

#[export] Instance standard_json : JsonCodec := {|
  dumps := standard_dumps; loads := json_loads; is_json v := plain_json v = true; loads_dumps := standard_read_back;
|}.

Definition example_delta (text : string) : pydict :=
  [("type", VStr "response.output_text.delta"); ("item_id", VStr "i"); ("output_index", VInt 0); ("delta", VStr text)].
Definition example_line (text : string) (a : redis_answer) (s : stream_state) : stream_state :=
  (response_line (λ _, EmptyString) "task" "chat" "message" [] 2 (example_delta text) a a s).2.
Definition example_stream : stream_state := example_line "cd" Done (example_line "ab" Done (empty_stream [])).

Lemma example_line_ok text s : (∃ r, handle_responses_streaming_event (λ _, EmptyString) (example_delta text) (st_output s) = Ok r ∧
    plain_json (VDict (snapshot_data "chat" "message" r.1)) && forallb is_dict r.1 = true) →
  plain_json (VDict (example_delta text)) = true →
  line_ok (λ _, EmptyString) "chat" "message" [] (example_delta text) s.
Proof.
  intros (r & Hr & [Hj Hd]%andb_true_iff) Hp. split.
  - eexists. split; [done|]. split; [done|]. intros _. split; [done|]. split; [by left|exact Hp].
  - intros t [= <-]. done.
  - intros r' Hr'. rewrite Hr in Hr'. injection Hr' as <-. split; [exact Hj|]. by rewrite Forall_forall; setoid_rewrite list_elem_of_In; apply List.forallb_forall.
Qed.

Lemma example_reached : ∃ past, reached (λ _, EmptyString) "chat" "message" "task" [] 2 [] past example_stream.
Proof.
  eexists. apply (reached_line _ _ _ _ _ _ _ (example_delta "cd") Done Done); [apply (reached_line _ _ _ _ _ _ _ (example_delta "ab") Done Done)|].
  - apply reached_start; [done|constructor].
  - apply example_line_ok; [|done]. eexists. split; [vm_compute; reflexivity|done].
  - apply example_line_ok; [|done]. eexists. split; [vm_compute; reflexivity|done].
Qed.

Lemma saved_stream_replays_witness : ∃ past,
  reached (λ _, EmptyString) "chat" "message" "task" [] 2 [] past example_stream ∧
  st_size example_stream ≠ st_snapshot example_stream ∧
  ∀ v, st_value example_stream = Some v → ∃ o, o ∈ past ∧
    load_response_stream (λ _, EmptyString) v = Ok (VDict (snapshot_data "chat" "message" o)).
Proof.
  destruct example_reached as [past H]. exists past. split; [exact H|]. split; [by vm_compute|].
  apply (saved_stream_replays (λ _, EmptyString) "task" "chat" "message" [] 2 [] past example_stream eq_refl H).
Defined.


(** *** Where the code departs from it *)

(** A delta that is no text, with the key of the text that waits: it takes the place of
    the text, which is never sent. *)
Example queued_text_is_lost :
  let other := dict_set "delta" (VDict [("a", VInt 1)]) (example_delta EmptyString) in
  let line data s := (response_line (λ _, EmptyString) "task" "chat" "message" [] 3 data Done Done s).2 in
  let s := line other (line (example_delta "ab") (empty_stream [])) in
  sent s = [other].
Proof. vm_compute. reflexivity. Qed.
