(* ===== verification/SharedDict.v ===== *)
(** * Dictionaries in Redis (socket/utils.py): [RedisDict], whose entries are the fields of
    a Redis hash, and [CachedRedisDict], which answers reads from a copy that each worker
    keeps until the signature of the hash changes.

    The methods are programs of [Interleave], one Redis command per step.  A worker is one
    thread, so what it does with the answer of a command belongs to the step of the
    command.  Commands that fail are left out. *)

From S2P Require Import Prelude PyVal Interleave Sha256 ResponseStream.
From stdpp Require Import gmap strings.

(** The commands; [text] answers GET and [hash] HGETALL. *)
Class RedisHashes (R : Type) := {
  text : R → string → option string;
  hash : R → string → gmap string string;
  r_set : string → string → R → R;
  r_delete : string → R → R;
  r_hset : string → list (string * string) → R → R;
  r_hdel : string → list string → R → R
}.

(** What a worker remembers: [_cache] and [_cached_signature] *)
Record dict_cache := Cached { dc_cache : gmap string string; dc_signature : option string }.
Definition no_cache : dict_cache := Cached ∅ None.

Record shared (R : Type) := Shared { sh_redis : R; sh_caches : gmap nat dict_cache; sh_drawn : nat }.
Arguments Shared {R} _ _ _.
Arguments sh_redis {R} _.
Arguments sh_caches {R} _.
Arguments sh_drawn {R} _.

Section Dict.
Context {R : Type} `{!RedisHashes R} `{!JsonCodec} (uuid_hex : nat → string) (name : string).
(** [_signature_name]: [f'{name}:signature'] if the dict has one *)
Context (signature_name : option string).

Definition command (f : R → R) : prog (shared R) unit :=
  perform (λ w, (Ok tt, Shared (f (sh_redis w)) (sh_caches w) (sh_drawn w))).
Definition ask {A} (f : R → A) : prog (shared R) A := query (λ w, f (sh_redis w)).

Definition drop_signature : prog (shared R) unit :=
  match signature_name with Some s => command (r_delete s) | None => mret tt end.

(** [__setitem__] *)
Definition set_item (key : string) (value : pyval) : prog (shared R) unit :=
  serialized ← lift (dumps value);
  _ ← command (r_hset name [(key, serialized)]);
  drop_signature.

(** [__delitem__]; HDEL answers how many fields there were *)
Definition del_item (key : string) : prog (shared R) unit :=
  found ← perform (λ w : shared R,
    (Ok (bool_decide (is_Some (hash (sh_redis w) name !! key))),
     Shared (r_hdel name [key] (sh_redis w)) (sh_caches w) (sh_drawn w)));
  if (found : bool) then drop_signature else fail (KeyError key).

(** [delete_many] *)
Definition delete_many (keys : list string) : prog (shared R) unit :=
  match keys with [] => mret tt | _ => _ ← command (r_hdel name keys); drop_signature end.

(** [clear] *)
Definition clear : prog (shared R) unit := _ ← command (r_delete name); drop_signature.

Fixpoint serialize (mapping : pydict) : res (list (string * string)) :=
  match mapping with
  | [] => Ok []
  | (k, v) :: mapping => t ← dumps v; rest ← serialize mapping; Ok ((k, t) :: rest)
  end.

(** The digest of the fields, in the order of their names *)
Definition content_digest (serialized : list (string * string)) : string :=
  sha256_hexdigest (flat_map (λ kv, utf8 kv.1 ++ [0%Z] ++ utf8 kv.2 ++ [0%Z])
    (py_sorted (λ a b, Str.leb a.1 b.1) serialized)).

Definition new_signature (digest : string) (n : nat) : string := digest +:+ ":" +:+ uuid_hex n.

(** The writes of [set], after the signature was looked at *)
Definition rewrite (serialized : list (string * string)) : prog (shared R) unit :=
  _ ← drop_signature;
  existing ← ask (λ r, dom (hash r name));
  let stale := elements (existing ∖ list_to_set (map fst serialized)) in
  _ ← command (r_hset name serialized);
  _ ← (match stale with [] => mret tt | _ => command (r_hdel name stale) end);
  match signature_name with
  | Some s =>
      perform (λ w, (Ok tt, Shared (r_set s (new_signature (content_digest serialized) (sh_drawn w)) (sh_redis w))
                              (sh_caches w) (S (sh_drawn w))))
  | None => mret tt
  end.

(** [set] *)
Definition set_mapping (mapping : pydict) : prog (shared R) unit :=
  match mapping with
  | [] => clear
  | _ =>
      serialized ← lift (serialize mapping);
      match signature_name with
      | Some s =>
          stored ← ask (λ r, text r s);
          if match stored with Some t => Str.startswith (content_digest serialized +:+ ":") t | None => false end
          then mret tt
          else rewrite serialized
      | None => rewrite serialized
      end
  end.

(** *** Reads of [RedisDict] *)

Definition get_item (key : string) : prog (shared R) pyval :=
  value ← ask (λ r, hash r name !! key);
  match value with Some t => lift (loads t) | None => fail (KeyError key) end.

Fixpoint load_items (l : list (string * string)) : res pydict :=
  match l with
  | [] => Ok []
  | (k, t) :: l => v ← loads t; rest ← load_items l; Ok ((k, v) :: rest)
  end.
Definition items : prog (shared R) pydict :=
  fields ← ask (λ r, hash r name); lift (load_items (map_to_list fields)).
Definition contains (key : string) : prog (shared R) bool :=
  ask (λ r, bool_decide (is_Some (hash r name !! key))).
Definition len : prog (shared R) nat := ask (λ r, size (hash r name)).
End Dict.

(** ** [CachedRedisDict] *)

Section Cached.
Context {R : Type} `{!RedisHashes R} `{!JsonCodec} (name : string).

Definition signature_of : string := name +:+ ":signature".

Definition cache_of (worker : nat) (w : shared R) : dict_cache := default no_cache (sh_caches w !! worker).

(** [_refresh_cache] of a worker *)
Definition refresh_cache (worker : nat) : prog (shared R) (gmap string string) :=
  stored ← ask (λ r, text r signature_of);
  perform (λ w,
    if bool_decide (stored = None) || negb (bool_decide (stored = dc_signature (cache_of worker w))) then
      let fields := hash (sh_redis w) name in
      (Ok fields, Shared (sh_redis w) (<[worker := Cached fields stored]> (sh_caches w)) (sh_drawn w))
    else (Ok (dc_cache (cache_of worker w)), w)).

Definition cached_get_item (worker : nat) (key : string) : prog (shared R) pyval :=
  fields ← refresh_cache worker;
  match fields !! key with Some t => lift (loads t) | None => fail (KeyError key) end.
Definition cached_items (worker : nat) : prog (shared R) pydict :=
  fields ← refresh_cache worker; lift (load_items (map_to_list fields)).
Definition cached_contains (worker : nat) (key : string) : prog (shared R) bool :=
  fields ← refresh_cache worker; mret (bool_decide (is_Some (fields !! key))).
Definition cached_len (worker : nat) : prog (shared R) nat :=
  fields ← refresh_cache worker; mret (size fields).
End Cached.

(** ** Calls of a worker *)

Inductive dict_call :=
| SetItem (key : string) (value : pyval)
| DelItem (key : string)
| DeleteMany (keys : list string)
| SetMapping (mapping : pydict)
| Clear
| GetItem (key : string)
| GetDefault (key : string) (default : pyval)
| SetDefault (key : string) (default : pyval)
| UpdateFrom (other : pydict)
| Contains (key : string)
| Len
| Items.

Inductive dict_answer :=
| Nothing
| Value (v : pyval)
| Flag (b : bool)
| Number (n : nat)
| Pairs (items : pydict).

Section Calls.
Context {R : Type} `{!RedisHashes R} `{!JsonCodec} (uuid_hex : nat → string) (name : string).

(** [update], an item at a time *)
Fixpoint update_items (other : pydict) : prog (shared R) unit :=
  match other with
  | [] => mret tt
  | (k, v) :: other => _ ← set_item name (Some (signature_of name)) k v; update_items other
  end.

(** A call of a [CachedRedisDict] *)
Definition dict_program (worker : nat) (c : dict_call) : prog (shared R) dict_answer :=
  let signature := Some (signature_of name) in
  match c with
  | SetItem k v => (λ _, Nothing) <$> set_item name signature k v
  | DelItem k => (λ _, Nothing) <$> del_item name signature k
  | DeleteMany ks => (λ _, Nothing) <$> delete_many name signature ks
  | SetMapping m => (λ _, Nothing) <$> set_mapping uuid_hex name signature m
  | Clear => (λ _, Nothing) <$> clear name signature
  | GetItem k => Value <$> cached_get_item name worker k
  | GetDefault k d =>
      Value <$> try_except (cached_get_item name worker k)
                  (λ e, match e with KeyError _ => mret d | _ => fail e end)
  | SetDefault k d =>
      present ← cached_contains name worker k;
      _ ← (if (present : bool) then mret tt else set_item name signature k d);
      Value <$> cached_get_item name worker k
  | UpdateFrom other => (λ _, Nothing) <$> update_items other
  | Contains k => Flag <$> cached_contains name worker k
  | Len => Number <$> cached_len name worker
  | Items => Pairs <$> cached_items name worker
  end.

(** The answer of a read from the hash itself, as a [RedisDict] gives it *)
Definition plain_program (c : dict_call) : prog (shared R) dict_answer :=
  match c with
  | GetItem k => Value <$> get_item name k
  | GetDefault k d =>
      Value <$> try_except (get_item name k) (λ e, match e with KeyError _ => mret d | _ => fail e end)
  | Contains k => Flag <$> contains name k
  | Len => Number <$> len name
  | Items => Pairs <$> items name
  | _ => mret Nothing
  end.

Definition is_read (c : dict_call) : bool :=
  match c with GetItem _ | GetDefault _ _ | Contains _ | Len | Items => true | _ => false end.
End Calls.
