(* ===== verification/SharedDictProps.v ===== *)
(** * Properties of the dictionaries in Redis: once no call is under way, every worker reads
    from its copy what the hash holds. *)

From S2P Require Import Prelude PyVal Interleave Sha256 ResponseStream ResponseStreamProps SharedDict.
From stdpp Require Import gmap strings functions.
From Stdlib Require Import Ascii.

(** The documented effect of the commands on the keys of a dict *)
Class RedisHashLaws (R : Type) `{!RedisHashes R} : Prop := {
  text_set k v r k' : text (r_set k v r) k' = if decide (k = k') then Some v else text r k';
  hash_set k v r h : h ≠ k → hash (r_set k v r) h = hash r h;
  text_delete k r k' : text (r_delete k r) k' = if decide (k = k') then None else text r k';
  hash_delete k r h : hash (r_delete k r) h = if decide (k = h) then ∅ else hash r h;
  text_hset h m r k : k ≠ h → text (r_hset h m r) k = text r k;
  hash_hset h m r h' :
    hash (r_hset h m r) h' = if decide (h = h') then foldl (λ acc kv, <[kv.1 := kv.2]> acc) (hash r h) m else hash r h';
  text_hdel h ks r k : k ≠ h → text (r_hdel h ks r) k = text r k;
  hash_hdel h ks r h' :
    hash (r_hdel h ks r) h' = if decide (h = h') then foldr delete (hash r h) ks else hash r h'
}.

(** Signatures carry a uuid: 32 hexadecimal digits that do not repeat *)
Class UuidLaws (uuid_hex : nat → string) : Prop := {
  uuid_inj n m : uuid_hex n = uuid_hex m → n = m;
  uuid_digits n : Str.sforallb (λ c, negb (Ascii.eqb ":" c)) (uuid_hex n) = true
}.

Section Props.
Context {R : Type} `{!RedisHashes R} `{!RedisHashLaws R} `{!JsonCodec}.
Context (uuid_hex : nat → string) `{!UuidLaws uuid_hex} (name : string).

Notation world := (shared R).
Notation sig := (signature_of name).

Lemma sig_name : sig ≠ name.
Proof.
  unfold signature_of. intros He. apply (f_equal String.length) in He. rewrite Str.app_length in He. cbn in He. lia.
Qed.

(** The hash and its signature *)
Definition fields_of (w : world) : gmap string string := hash (sh_redis w) name.
Definition stored_at (w : world) : option string := text (sh_redis w) sig.

(** Signatures that cannot be written any more *)
Definition past (d : nat) (s : string) : Prop := ∀ n digest, d <= n → s ≠ new_signature uuid_hex digest n.

Lemma past_mono d d' s : d <= d' → past d s → past d' s.
Proof. intros Hd Hp n digest Hn. apply Hp. lia. Qed.

Lemma past_drawn d digest n : n < d → past d (new_signature uuid_hex digest n).
Proof.
  intros Hn m digest' Hm He. unfold new_signature in He. cbn in He.
  apply Str.last_sep_inj in He as [_ He]; [|apply uuid_digits..]. apply uuid_inj in He. lia.
Qed.

Definition later (w w' : world) : Prop := sh_drawn w <= sh_drawn w'.

#[local] Instance later_preorder : PreOrder later.
Proof. split; unfold later; [intros w|intros w1 w2 w3]; lia. Qed.

Definition remembered (w : world) (c : gmap string string) (s : string) : Prop :=
  ∃ worker, sh_caches w !! worker = Some (Cached c (Some s)).

Definition ok (w : world) : Prop :=
  (∀ s, stored_at w = Some s → past (sh_drawn w) s) ∧ ∀ c s, remembered w c s → past (sh_drawn w) s.

(** A program with state [true] has changed the hash and will change the signature. *)
Definition changes (pending pending' : bool) (w w' : world) : Prop :=
  (fields_of w' = fields_of w ∨ pending' = true) ∧
  ((stored_at w' = stored_at w ∧ (pending = true → pending' = true)) ∨ stored_at w' = None ∨ ∃ s, stored_at w' = Some s ∧ ¬ past (sh_drawn w) s) ∧
  ∀ c s, remembered w' c s → remembered w c s ∨ c = fields_of w'.

Lemma changes_refl p w : changes p p w w.
Proof. split_and!; [by left|by left|by left]. Qed.

(** What a worker remembers under the present signature is the hash, or a writer is
    about to change the signature. *)
Definition coherent (w : world) (pending : nat → bool) : Prop :=
  ∀ c s, remembered w c s → stored_at w = Some s → c = fields_of w ∨ ∃ i, pending i = true.

Lemma coherent_step i p w w' pending :
  ok w → later w w' → changes (pending i) p w w' → coherent w pending → coherent w' (<[i := p]> pending).
Proof.
  intros [_ Hpast] _ (Hh & Hs & Hc) Hcoh c s Hr' HS'.
  destruct (Hc c s Hr') as [Hr| ->]; [|by left].
  destruct Hs as [[Hsame Hp]|[Hnone|(t & Ht & Hfresh)]]; [|congruence|].
  2:{ rewrite Ht in HS'. injection HS' as ->. exfalso. by apply Hfresh, (Hpast c). }
  rewrite Hsame in HS'. destruct (Hcoh c s Hr HS') as [->|(j & Hj)].
  - destruct Hh as [->| ->]; [by left|right]. exists i. by rewrite fn_lookup_insert.
  - right. destruct (decide (i = j)) as [<-|Hij]; [exists i; rewrite fn_lookup_insert; auto|].
    exists j. by rewrite fn_lookup_insert_ne.
Qed.

Notation wp := (wp ok later changes).
Definition quiet {A} (r : res A) (p : bool) (w : world) : Prop := p = false.

(** *** Commands *)

Lemma wp_lift {A} Q p (r : res A) (w : world) : Q r p w → wp Q p (lift r) w.
Proof. done. Qed.

Lemma wp_ask {A} (Q : res A → bool → world → Prop) p (f : R → A) w :
  (∀ w1, later w w1 → ok w1 → Q (Ok (f (sh_redis w1))) p w1) → wp Q p (ask f) w.
Proof. intros HQ. apply (wp_query ok later changes changes_refl). exact HQ. Qed.

(** A command of a writer *)
Lemma wp_write (Q : res unit → bool → world → Prop) p p' (f : R → R) w :
  (∀ r, p' = true ∨ hash (f r) name = hash r name) →
  ((∀ r, text (f r) sig = text r sig) ∧ (p = true → p' = true) ∨ ∀ r, text (f r) sig = None) →
  (∀ w1, Q (Ok tt) p' w1) → wp Q p (command f) w.
Proof.
  intros Hh Ht HQ w1 HR [HI1 HI2]. cbn. split_and!; [| |exists p'; split; [split_and!|apply HQ]].
  - split; [|done]. intros s Hs. unfold stored_at in Hs. cbn in Hs.
    destruct Ht as [[Ht _]|Ht]; rewrite Ht in Hs; [by apply HI1|done].
  - unfold later. cbn. lia.
  - destruct (Hh (sh_redis w1)); [by right|by left].
  - unfold stored_at. cbn. destruct Ht as [[Ht Hp]|Ht]; [left; split; [apply Ht|done]|right; left; apply Ht].
  - by left.
Qed.

Lemma wp_hset Q p m w : (∀ w1, Q (Ok tt) true w1) → wp Q p (command (r_hset name m)) w.
Proof.
  intros HQ. apply wp_write with true; [by left| |done]. left. split; [|done]. intros x. apply text_hset, sig_name.
Qed.

Lemma wp_hdel Q p ks w : (∀ w1, Q (Ok tt) true w1) → wp Q p (command (r_hdel name ks)) w.
Proof.
  intros HQ. apply wp_write with true; [by left| |done]. left. split; [|done]. intros x. apply text_hdel, sig_name.
Qed.

Lemma wp_drop Q p w : (∀ w1, Q (Ok tt) false w1) → wp Q p (drop_signature (Some sig)) w.
Proof.
  intros HQ. apply wp_write with false; [intros x; right|right; intros x|done].
  - rewrite hash_delete. rewrite decide_False; [done|]. apply sig_name.
  - rewrite text_delete. by rewrite decide_True.
Qed.

Lemma wp_sign Q p digest w :
  (∀ w1, Q (Ok tt) false w1) →
  wp Q p (perform (λ w : world, (Ok tt, Shared (r_set sig (new_signature uuid_hex digest (sh_drawn w)) (sh_redis w))
                                          (sh_caches w) (Datatypes.S (sh_drawn w))))) w.
Proof.
  intros HQ w1 HR [HI1 HI2]. cbn. split_and!; [| |exists false; split; [split_and!|apply HQ]].
  - split.
    + intros s. unfold stored_at. cbn. rewrite text_set, decide_True by done. intros [= <-]. apply past_drawn. lia.
    + intros c s Hr. eapply past_mono; [|by apply (HI2 c)]. cbn. lia.
  - unfold later. cbn. lia.
  - left. unfold fields_of. cbn. apply hash_set, not_eq_sym, sig_name.
  - right. right. unfold stored_at. cbn. rewrite text_set, decide_True by done. eexists. split; [done|].
    intros Hp. by apply (Hp (sh_drawn w1) digest).
  - by left.
Qed.

(** *** Calls *)

Lemma wp_set_item Q k v w : (∀ r w1, Q r false w1) → wp Q false (set_item name (Some sig) k v) w.
Proof.
  intros HQ. unfold set_item. apply wp_bind. destruct (dumps v) as [t|e]; [|apply HQ].
  apply wp_bind, wp_hset. intros w1. by apply wp_drop.
Qed.

Lemma wp_delete_many Q ks w : (∀ r w1, Q r false w1) → wp Q false (delete_many name (Some sig) ks) w.
Proof.
  intros HQ. unfold delete_many. destruct ks; [apply HQ|]. apply wp_bind, wp_hdel. intros w1. by apply wp_drop.
Qed.

Lemma wp_clear Q w : (∀ r w1, Q r false w1) → wp Q false (clear name (Some sig)) w.
Proof.
  intros HQ. unfold clear. apply wp_bind, wp_write with true; [by left| |].
  - left. split; [|done]. intros r. rewrite text_delete, decide_False; [done|]. apply not_eq_sym, sig_name.
  - intros w1. by apply wp_drop.
Qed.

Lemma wp_del_item Q k w : (∀ r w1, Q r false w1) → wp Q false (del_item name (Some sig) k) w.
Proof.
  intros HQ. unfold del_item. apply wp_bind. intros w1 HR [HI1 HI2]. cbn.
  destruct (hash (sh_redis w1) name !! k) as [t|] eqn:Ek.
  - split_and!; [| |exists true; split; [split_and!|]].
    + split; [|done]. intros s. unfold stored_at. cbn. rewrite text_hdel by apply sig_name. apply HI1.
    + unfold later. cbn. lia.
    + by right.
    + left. split; [|done]. unfold stored_at. cbn. apply text_hdel, sig_name.
    + by left.
    + rewrite bool_decide_true by done. by apply wp_drop.
  - assert (Hsame : hash (r_hdel name [k] (sh_redis w1)) name = hash (sh_redis w1) name).
    { rewrite hash_hdel, decide_True by done. cbn. by apply delete_id. }
    split_and!; [| |exists false; split; [split_and!|]].
    + split; [|done]. intros s. unfold stored_at. cbn. rewrite text_hdel by apply sig_name. apply HI1.
    + unfold later. cbn. lia.
    + by left.
    + left. split; [|done]. unfold stored_at. cbn. apply text_hdel, sig_name.
    + by left.
    + rewrite bool_decide_false by (by intros [? ?]). apply HQ.
Qed.

Lemma wp_rewrite Q serialized w : (∀ r w1, Q r false w1) → wp Q false (rewrite uuid_hex name (Some sig) serialized) w.
Proof.
  intros HQ. unfold rewrite. apply wp_bind, wp_drop. intros w1. apply wp_bind, wp_ask. intros w2 _ _.
  apply wp_bind, wp_hset. intros w3. apply wp_bind. destruct (elements _) as [|k ks].
  - by apply wp_sign.
  - apply wp_hdel. intros w4. by apply wp_sign.
Qed.

Lemma wp_set_mapping Q m w : (∀ r w1, Q r false w1) → wp Q false (set_mapping uuid_hex name (Some sig) m) w.
Proof.
  intros HQ. unfold set_mapping. destruct m as [|kv m]; [by apply wp_clear|].
  apply wp_bind. destruct (serialize _) as [s|e]; [|apply HQ]. apply wp_bind, wp_ask. intros w1 _ _.
  case_goal; [apply HQ|by apply wp_rewrite].
Qed.

Lemma wp_refresh Q worker w : (∀ r w1, Q r false w1) → wp Q false (refresh_cache name worker) w.
Proof.
  intros HQ. unfold refresh_cache. apply wp_bind, wp_ask. intros w1 _ [HI1 _] w2 HR [HI3 HI4]. cbn.
  destruct (_ || _); cbn; [|split_and!; [by split|done|exists false; split; [apply changes_refl|apply HQ]]].
  split_and!; [| |exists false; split; [split_and!|apply HQ]].
  - split; [done|]. cbn. intros c s [x Hx]. cbn in Hx. apply lookup_insert_Some in Hx as [[_ Hx]|[_ Hx]].
    + injection Hx as _ Hs. eapply past_mono; [exact HR|]. by apply HI1.
    + apply (HI4 c). by exists x.
  - unfold later. cbn. lia.
  - by left.
  - left. by split.
  - intros c s [x Hx]. cbn in Hx. apply lookup_insert_Some in Hx as [[_ Hx]|[_ Hx]]; [right; by injection Hx|left; by exists x].
Qed.

Lemma wp_update_items Q other w : (∀ r w1, Q r false w1) → wp Q false (update_items name other) w.
Proof.
  intros HQ. revert w. induction other as [|[k v] other IH]; intros w; cbn [update_items]; [apply HQ|].
  apply wp_bind, wp_set_item. intros [[]|e] w1; [apply IH|apply HQ].
Qed.

Lemma wp_read {A} (Q : res A → bool → world → Prop) worker (f : gmap string string → prog world A) w :
  (∀ fields w1, wp Q false (f fields) w1) → (∀ e w1, Q (Err e) false w1) →
  wp Q false (fields ← refresh_cache name worker; f fields) w.
Proof. intros Hf He. apply wp_bind, wp_refresh. intros [fields|e] w1; auto. Qed.

Lemma wp_get_item Q worker k w : (∀ r w1, Q r false w1) → wp Q false (cached_get_item name worker k) w.
Proof. intros HQ. apply wp_read; [|auto]. intros fields w1. destruct (fields !! k); apply HQ. Qed.

(** Every call ends with nothing left to write. *)
Lemma dict_program_quiet worker c w : wp quiet false (dict_program uuid_hex name worker c) w.
Proof.
  destruct c as [k v|k|ks|m| |k|k d|k d|other|k| |]; cbn [dict_program].
  - by apply wp_fmap, wp_set_item.
  - by apply wp_fmap, wp_del_item.
  - by apply wp_fmap, wp_delete_many.
  - by apply wp_fmap, wp_set_mapping.
  - by apply wp_fmap, wp_clear.
  - by apply wp_fmap, wp_get_item.
  - apply wp_fmap, wp_try, wp_get_item. intros [v|e] w1; [done|by destruct e].
  - apply wp_bind, wp_read; [|done]. intros fields w1. apply wp_bind. destruct (bool_decide _).
    + by apply wp_fmap, wp_get_item.
    + apply wp_set_item. intros [[]|e] w2; [by apply wp_fmap, wp_get_item|done].
  - by apply wp_fmap, wp_update_items.
  - by apply wp_fmap, wp_read.
  - by apply wp_fmap, wp_read.
  - by apply wp_fmap, wp_read.
Qed.

(** *** At rest *)

(** Other keys of the database change, and values are drawn. *)
Definition elsewhere (w w' : world) : Prop :=
  fields_of w' = fields_of w ∧ stored_at w' = stored_at w ∧ sh_caches w' = sh_caches w ∧ sh_drawn w <= sh_drawn w'.

Definition calls_of (calls : list (nat * dict_call)) : list (prog world dict_answer) :=
  (λ c, dict_program uuid_hex name c.1 c.2) <$> calls.

Lemma elsewhere_ok w w' : elsewhere w w' → ok w → ok w' ∧ later w w'.
Proof.
  intros (_ & Hs & Hc & Hd) [HI1 HI2]. split; [|exact Hd]. split.
  - intros s. rewrite Hs. intros Hsig. eapply past_mono; [exact Hd|auto].
  - intros c s [x Hx]. rewrite Hc in Hx. eapply past_mono; [exact Hd|]. apply (HI2 c). by exists x.
Qed.

Lemma elsewhere_coherent w w' pending : elsewhere w w' → ok w → coherent w pending → coherent w' pending.
Proof.
  intros (Hf & Hs & Hc & _) _ Hcoh c s [x Hx]. rewrite Hc in Hx. rewrite Hs, Hf. intros Ht.
  apply Hcoh with s; [by exists x|done].
Qed.

Lemma rest_coherent w calls w' ps :
  ok w → sh_caches w = ∅ → sys_run elsewhere (w, calls_of calls) (w', ps) →
  (∀ i p, ps !! i = Some p → ∃ r, p = Interleave.Done r) →
  ∀ c s, remembered w' c s → stored_at w' = Some s → c = fields_of w'.
Proof.
  intros HI Hnone Hrun Hdone.
  assert (Hstart : pool_ok ok later changes (quiet (A:=dict_answer)) false coherent (w, calls_of calls)).
  { apply pool_start; [done| |].
    - intros c s [x Hx]. by rewrite Hnone in Hx.
    - intros i p (c & -> & _)%list_lookup_fmap_Some. apply dict_program_quiet. }
  assert (Hend : pool_ok ok later changes (quiet (A:=dict_answer)) false coherent (w', ps)).
  { revert Hstart. apply (pool_run ok later changes _ elsewhere false coherent); try done.
    - apply elsewhere_ok.
    - apply elsewhere_coherent.
    - intros i p v v' σ. apply coherent_step. }
  destruct Hend as (_ & pending & Hcoh & Hout & Hp). cbn in *.
  intros c s Hr Hs. destruct (Hcoh c s Hr Hs) as [|(i & Hi)]; [done|].
  destruct (ps !! i) as [p|] eqn:E.
  - destruct (Hdone i p E) as [r ->]. specialize (Hp i _ E). cbn in Hp. unfold quiet in Hp. congruence.
  - apply lookup_ge_None in E. rewrite Hout in Hi by done. done.
Qed.

Lemma refresh_current worker w :
  (∀ c s, remembered w c s → stored_at w = Some s → c = fields_of w) →
  (run_alone (refresh_cache name worker) w).1 = Ok (fields_of w).
Proof.
  intros Hc. cbn. destruct (_ || _) eqn:Eb; [done|]. cbn.
  apply orb_false_elim in Eb as [Hn%bool_decide_eq_false Hs%negb_false_iff].
  apply bool_decide_eq_true in Hs. unfold cache_of in *.
  destruct (text (sh_redis w) sig) as [s|] eqn:Et; [|done].
  destruct (sh_caches w !! worker) as [[c sg]|] eqn:Ew; cbn in *; [|done]. subst sg.
  f_equal. apply (Hc c s); [by exists worker|done].
Qed.

Lemma read_agrees {A} (f : gmap string string → res A) worker w :
  (∀ c s, remembered w c s → stored_at w = Some s → c = fields_of w) →
  (run_alone (fields ← refresh_cache name worker; lift (f fields)) w).1 = f (fields_of w).
Proof.
  intros Hc. rewrite run_alone_bind. pose proof (refresh_current worker w Hc) as Hr.
  destruct (run_alone _ w) as [r w']. cbn in Hr. by subst r.
Qed.

Lemma fmap_alone {A B} (f : A → B) (p : prog world A) w : (run_alone (f <$> p) w).1 = f <$> (run_alone p w).1.
Proof.
  change (f <$> p) with (p ≫= λ a, Interleave.Done (Ok (f a))). rewrite run_alone_bind. by destruct (run_alone p w) as [[a|e] w'].
Qed.

Lemma try_alone {A} (p : prog world A) h w :
  (∀ e, ∃ r, h e = Interleave.Done r) →
  (run_alone (try_except p h) w).1 = match (run_alone p w).1 with Ok a => Ok a | Err e => (run_alone (h e) w).1 end.
Proof.
  intros Hh. revert w. induction p as [[a|e]|u n IH]; intros w; cbn; [done|done|].
  rewrite IH. destruct (run_alone (n w) (u w)).1; [done|]. destruct (Hh e) as [r ->]. done.
Qed.

(** C27: cached reads are coherent: whatever calls of any workers were interleaved,
    command by command, once they have all returned every read of every worker gives what
    the same read of the hash itself gives; no worker goes on serving an old copy. *)
Theorem cached_reads_are_current (w w' : world) (calls : list (nat * dict_call))
    (ps : list (prog world dict_answer)) (worker : nat) (c : dict_call) :
  ok w → sh_caches w = ∅ → sys_run elsewhere (w, calls_of calls) (w', ps) →
  (∀ i p, ps !! i = Some p → ∃ r, p = Interleave.Done r) → is_read c = true →
  (run_alone (dict_program uuid_hex name worker c) w').1 = (run_alone (plain_program name c) w').1.
Proof.
  intros HI Hnone Hrun Hdone Hread. pose proof (rest_coherent w calls w' ps HI Hnone Hrun Hdone) as Hc.
  assert (Hget : ∀ k, (run_alone (cached_get_item name worker k) w').1 = (run_alone (get_item name k) w').1).
  { intros k. transitivity (match fields_of w' !! k with Some t => loads t | None => Err (KeyError k) end).
    - rewrite <-(read_agrees (λ fields, match fields !! k with Some t => loads t | None => Err (KeyError k) end) worker w' Hc).
      unfold cached_get_item. rewrite !run_alone_bind. destruct (run_alone (refresh_cache name worker) w') as [[fields|e] v]; [|done].
      by destruct (fields !! k).
    - unfold get_item, ask. cbn. unfold fields_of. by destruct (hash _ _ !! k). }
  destruct c; try discriminate Hread; cbn [dict_program plain_program]; rewrite !fmap_alone.
  - by rewrite Hget.
  - rewrite !try_alone by (intros e; destruct e; eexists; reflexivity). rewrite Hget.
    destruct (run_alone (get_item name key) w').1 as [v|e]; [done|]. by destruct e.
  - f_equal. exact (read_agrees (λ fields, Ok (bool_decide (is_Some (fields !! key)))) worker w' Hc).
  - f_equal. exact (read_agrees (λ fields, Ok (size fields)) worker w' Hc).
  - f_equal. exact (read_agrees (λ fields, load_items (map_to_list fields)) worker w' Hc).
Qed.
End Props.

(** ** A database with two keys *)

Record tables := Tables { t_text : gmap string string; t_hash : gmap string (gmap string string) }.
Definition fields (r : tables) (h : string) : gmap string string := default ∅ (t_hash r !! h).

#[export] Instance tables_hashes : RedisHashes tables := {|
  text r k := t_text r !! k;
  hash := fields;
  r_set k v r := Tables (<[k := v]> (t_text r)) (delete k (t_hash r));
  r_delete k r := Tables (delete k (t_text r)) (delete k (t_hash r));
  r_hset h m r := Tables (t_text r) (<[h := foldl (λ acc kv, <[kv.1 := kv.2]> acc) (fields r h) m]> (t_hash r));
  r_hdel h ks r := Tables (t_text r) (<[h := foldr delete (fields r h) ks]> (t_hash r))
|}.

#[export] Instance tables_laws : RedisHashLaws tables.
Proof.
  split; intros; cbn; unfold fields; cbn; try done; repeat case_decide; subst;
    by rewrite ?lookup_insert_eq, ?lookup_insert_ne, ?lookup_delete_eq, ?lookup_delete_ne by done.
Qed.

(** Values that do not repeat: the n-th one has n letters *)
Fixpoint hexes (n : nat) : string := match n with O => EmptyString | S n => String "a" (hexes n) end.

#[export] Instance hexes_laws : UuidLaws hexes.
Proof.
  split; [|by intros n; induction n].
  intros n m. revert m. induction n as [|n IH]; intros [|m] He; cbn in He; try discriminate He; [done|].
  injection He as He. f_equal. by apply IH.
Qed.

Definition quiet_start : shared tables := Shared (Tables ∅ ∅) ∅ 0.
Definition model (v : Z) : pydict := [("a", VInt v)].

(** Worker 1 reads between the HSET and the DEL of worker 0's [__setitem__]. *)
Definition example_calls : list (nat * dict_call) :=
  [(0, SetMapping (model 1)); (1, Items); (0, SetItem "a" (VInt 2)); (1, Items)].
Definition example_schedule : list nat := [0; 0; 0; 0; 0; 0; 1; 1; 2; 3; 3; 2].
Definition example_end : shared tables * list (prog (shared tables) dict_answer) :=
  run_schedule example_schedule quiet_start (calls_of hexes "models" example_calls).

Lemma quiet_start_ok : ok hexes "models" quiet_start.
Proof. split; [done|]. intros c s [x Hx]. done. Qed.

Lemma cached_reads_are_current_witness :
  example_end.2 !! 3 = Some (Interleave.Done (Ok (Pairs (model 1)))) ∧
  (run_alone (plain_program "models" Items) example_end.1).1 = Ok (Pairs (model 2)) ∧
  (run_alone (dict_program hexes "models" 1 Items) example_end.1).1
  = (run_alone (plain_program "models" Items) example_end.1).1.
Proof.
  split_and!; [vm_compute; reflexivity|vm_compute; reflexivity|].
  apply (cached_reads_are_current hexes "models" quiet_start example_end.1 example_calls example_end.2).
  - exact quiet_start_ok.
  - reflexivity.
  - exact (run_schedule_ok (elsewhere "models") example_schedule quiet_start (calls_of hexes "models" example_calls)).
  - assert (Hd : Forall (λ p, ∃ r, p = Interleave.Done r) example_end.2).
    { repeat constructor; eexists; vm_compute; reflexivity. }
    intros i p Hi. exact (proj1 (Forall_lookup _ _) Hd i p Hi).
  - reflexivity.
Defined.

(** ** Where the code departs from it *)

Definition set_of (m : pydict) : prog (shared tables) dict_answer := dict_program hexes "models" 0 (SetMapping m).

(** Two [set] calls that overlap leave the signature of the one with the entries of the
    other, and a later [set] of the mapping the signature names writes nothing. *)
Example overlapping_sets_stick :
  let '(w, ps) := run_schedule [0; 0; 0; 0; 1; 1; 1; 1; 1; 0; 2] quiet_start
                    [set_of (model 1); set_of (model 2); set_of (model 1)] in
  ps = [Interleave.Done (Ok Nothing); Interleave.Done (Ok Nothing); Interleave.Done (Ok Nothing)] ∧
  (run_alone (plain_program "models" Items) w).1 = Ok (Pairs (model 2)).
Proof. vm_compute. split; reflexivity. Qed.
