(* ===== verification/Timers.v ===== *)
(** * One-shot timers (utils/timers.py): internal chats that wait for their time, are
    claimed by the scheduler of some instance, and then continue the chat they belong to.

    The functions are programs of [Interleave], one statement of the database at a time.
    On PostgreSQL a claim locks the rows it selects and skips locked ones, so it is one
    step; [execute_due_timer] locks the parent chat while it adds the turn, so the parent
    is read in the step that commits.  A session that loads rows and changes them later
    writes over what others wrote in between.  Left out: the message table, the events
    sent to browsers, and the in-process locks, which only restrict the interleavings. *)

From S2P Require Import Prelude PyVal PyDecimal Messages ChatTree Interleave.
From stdpp Require Import gmap strings.
From Stdlib Require Import Ascii.

Local Open Scope Z_scope.

(** ** Times *)

Definition _TIME_UNITS_NS : list (string * Z) :=
  [("s", 1000000000); ("m", 60 * 1000000000); ("h", 60 * 60 * 1000000000); ("d", 24 * 60 * 60 * 1000000000)].
Definition units : list string :=
  ["s"; "sec"; "second"; "seconds"; "m"; "min"; "minute"; "minutes"; "h"; "hour"; "hours"; "d"; "day"; "days"].

Definition without_sign (s : string) : string :=
  if Str.startswith "+" s then Str.drop 1 s
  else if Str.startswith "in" s then
    let rest := Str.drop 2 s in
    let stripped := Str.lstrip_by Str.is_space rest in
    if String.eqb rest stripped then s else stripped
  else s.

(** [_RELATIVE_TIME]: the number and the unit of a text in lower case *)
Definition relative_time (s : string) : option (Z * string) :=
  let '(digits, rest) := span_digits (without_sign s) in
  let unit := Str.lstrip_by Str.is_space rest in
  if negb (length digits =? 0)%nat && bool_decide (unit ∈ units) then Some (digits_val digits, unit) else None.

Definition unit_ns (unit : string) : Z := default 0 (dict_get (Str.take 1 unit) _TIME_UNITS_NS).

Definition at_error : string :=
  "at must be a relative time such as 10s or in 10 seconds, or an RFC 3339 timestamp with a timezone.".
Definition past_error : string := "at must be in the future.".

(** [_RFC3339_TIME] *)
Definition digits_at (i n : nat) (s : string) : bool :=
  (String.length (String.substring i n s) =? n)%nat && Str.sforallb Str.is_digit (String.substring i n s).
Definition char_at (i : nat) (c : string) (s : string) : bool := String.eqb (String.substring i 1 s) c.
Definition offset_ok (s : string) : bool :=
  String.eqb s "Z"
  || ((String.length s =? 6)%nat && (char_at 0 "+" s || char_at 0 "-" s) && digits_at 1 2 s && char_at 3 ":" s && digits_at 4 2 s).
Definition fraction_ok (s : string) : bool :=
  if char_at 0 "." s then
    let '(digits, rest) := span_digits (Str.drop 1 s) in negb (length digits =? 0)%nat && offset_ok rest
  else offset_ok s.
Definition rfc3339_time (s : string) : bool :=
  digits_at 0 4 s && char_at 4 "-" s && digits_at 5 2 s && char_at 7 "-" s && digits_at 8 2 s && char_at 10 "T" s
  && digits_at 11 2 s && char_at 13 ":" s && digits_at 14 2 s && char_at 16 ":" s && digits_at 17 2 s
  && fraction_ok (Str.drop 19 s).

Section Parse.
(** The nanoseconds since 1970 of a text that [datetime.fromisoformat] reads *)
Context (instant_ns : string → option Z).

(** [parse_timer_at], at a time *)
Definition parse_timer_at (now : Z) (value : string) : res Z :=
  let raw := Str.strip value in
  match relative_time (Str.lower raw) with
  | Some (count, unit) =>
      if count <=? 0 then Err (ValueError past_error) else Ok (now + count * unit_ns unit)
  | None =>
      if negb (rfc3339_time raw) then Err (ValueError at_error)
      else match instant_ns raw with
           | None => Err (ValueError at_error)
           | Some due_at => if due_at <=? now then Err (ValueError past_error) else Ok due_at
           end
  end.
End Parse.

(** ** Rows *)

(** A chat with the columns a timer has *)
Record chat := ChatItem { c_row : ChatTree.chat_row; c_meta : pydict; c_timer_at : option Z }.

Record world := World {
  w_chats : gmap string chat;
  w_roles : gmap string string;           (** the roles of the users *)
  w_messages : gmap string pydict;        (** [get_messages_map_by_chat_id] *)
  w_active : gset string;                 (** chats with active tasks *)
  w_now : Z;                              (** [time.time_ns()] *)
  w_drawn : nat;                          (** uuids drawn so far *)
  w_sent : list (string * pydict)         (** requests handed to the completion handler *)
}.
Definition set_chats (chats : gmap string chat) (w : world) : world :=
  World chats (w_roles w) (w_messages w) (w_active w) (w_now w) (w_drawn w) (w_sent w).
Definition draw (n : nat) (w : world) : world :=
  World (w_chats w) (w_roles w) (w_messages w) (w_active w) (w_now w) (n + w_drawn w) (w_sent w).
Definition send (timer_id : string) (form : pydict) (w : world) : world :=
  World (w_chats w) (w_roles w) (w_messages w) (w_active w) (w_now w) (w_drawn w) (w_sent w ++ [(timer_id, form)]).

Definition seconds (w : world) : Z := w_now w / 1000000000.

Definition touched (now : Z) (r : ChatTree.chat_row) : ChatTree.chat_row :=
  {| cr_user_id := cr_user_id r; cr_chat := cr_chat r; cr_title := cr_title r;
     cr_current_message_id := cr_current_message_id r; cr_updated_at := now |}.
Definition with_meta (meta : pydict) (timer_at : option Z) (now : Z) (c : chat) : chat :=
  ChatItem (touched now (c_row c)) meta timer_at.

Definition stale_data : exn := RuntimeError "StaleDataError".

(** The UPDATEs of a session, all or none: a row that is gone raises. *)
Definition update_rows (updates : list (string * (chat → chat))) : st world unit := λ w,
  if forallb (λ u, bool_decide (is_Some (w_chats w !! u.1))) updates
  then (Ok tt, set_chats (foldl (λ chats u, alter u.2 u.1 chats) (w_chats w) updates) w)
  else (Err stale_data, w).

Definition status_is (s : string) (meta : pydict) : bool := veq_str (dget meta "status") s.

(** [{**meta, **changes}] *)
Definition merged (meta changes : pydict) : pydict := dict_update meta changes.

Section Timers.
Context (uuid4 : nat → string).

(** *** [claim_due_timers] *)

Definition due (now_ns : Z) (c : chat) : bool :=
  match c_timer_at c with Some t => t <=? now_ns | None => false end && status_is "pending" (c_meta c).
Definition earlier (a b : string * chat) : bool :=
  default 0 (c_timer_at a.2) <=? default 0 (c_timer_at b.2).
Definition due_rows (now_ns : Z) (limit : nat) (chats : gmap string chat) : list (string * chat) :=
  take limit (py_sorted earlier (List.filter (λ kv, due now_ns kv.2) (map_to_list chats))).

Definition claimed_meta (now_ns : Z) (claim_id : string) (meta : pydict) : pydict :=
  merged meta [("status", VStr "running"); ("timer_started_at", VInt now_ns); ("timer_claim_id", VStr claim_id)].

(** The rows in order, each with a claim id of its own *)
Fixpoint claim_rows (now_ns now : Z) (n : nat) (rows : list (string * chat)) (chats : gmap string chat)
    : list (string * string) * gmap string chat :=
  match rows with
  | [] => ([], chats)
  | (id, row) :: rows =>
      let r := claim_rows now_ns now (S n) rows
                 (<[id := with_meta (claimed_meta now_ns (uuid4 n) (c_meta row)) None now row]> chats) in
      ((id, uuid4 n) :: r.1, r.2)
  end.

Definition claim_due_timers (now_ns : Z) (limit : nat) : prog world (list (string * string)) :=
  perform (λ w,
    let rows := due_rows now_ns limit (w_chats w) in
    let r := claim_rows now_ns (seconds w) (w_drawn w) rows (w_chats w) in
    (Ok r.1, draw (length rows) (set_chats r.2 w))).

(** *** [cancel_timers_for_chat] *)

(** [event not in (meta.get('cancel_on') or [])] *)
Definition cancels (event : string) (meta : pydict) : res bool :=
  let v := dget meta "cancel_on" in
  if negb (truthy v) then Ok false
  else match v with
       | VList l => Ok (existsb (λ e, veq_str e event) l)
       | VStr s => Ok (Str.contains event s)
       | VDict d => Ok (dict_has event d)
       | _ => Err TypeError
       end.

Definition cancelled_meta (now_ns : Z) (event : string) (meta : pydict) : pydict :=
  merged meta [("status", VStr "cancelled"); ("timer_cancelled_at", VInt now_ns); ("timer_cancelled_by", VStr event)].

Definition pending_for (parent_chat_id user_id : string) (c : chat) : bool :=
  bool_decide (is_Some (c_timer_at c)) && String.eqb (cr_user_id (c_row c)) user_id
  && veq_str (dget (c_meta c) "parent_chat_id") parent_chat_id && status_is "pending" (c_meta c).

Fixpoint cancellations (now_ns now : Z) (event : string) (rows : list (string * chat))
    : res (list (string * (chat → chat))) :=
  match rows with
  | [] => Ok []
  | (id, row) :: rows =>
      b ← cancels event (c_meta row);
      rest ← cancellations now_ns now event rows;
      Ok (if (b : bool) then (id, with_meta (cancelled_meta now_ns event (c_meta row)) None now) :: rest else rest)
  end.

Definition cancel_timers_for_chat (parent_chat_id event user_id : string) : prog world unit :=
  '(rows, now_ns) ← query (λ w,
    (List.filter (λ kv, pending_for parent_chat_id user_id kv.2) (map_to_list (w_chats w)), w_now w));
  updates ← lift (cancellations now_ns (now_ns / 1000000000) event rows);
  perform (update_rows updates).

(** *** [_set_timer_state] *)

Definition set_timer_state (timer_id status : string) (fields : pydict) : prog world unit :=
  row ← query (λ w, w_chats w !! timer_id);
  match row with
  | None => mret tt
  | Some row =>
      perform (λ w, update_rows [(timer_id, λ c,
        with_meta (merged (c_meta row) (("status", VStr status) :: fields)) (c_timer_at c) (seconds w) c)] w)
  end.

(** *** [create_timer] *)

(** [list(dict.fromkeys(l))] *)
Definition without_repeats (l : list string) : list string :=
  foldl (λ acc e, if bool_decide (e ∈ acc) then acc else acc ++ [e]) [] l.

Definition allowed_events : list string := ["chat.read"; "chat.user_message"].

(** [metadata.get('model_id') or (metadata.get('model') or {}).get('id')] *)
Definition model_of (metadata : pydict) : res pyval :=
  if truthy (dget metadata "model_id") then Ok (dget metadata "model_id")
  else vget (por (dget metadata "model") (VDict [])) "id".

Definition run_of (metadata : pydict) (model_id : pyval) : pydict :=
  let or_list k := por (dget metadata k) (VList []) in
  let or_dict k := por (dget metadata k) (VDict []) in
  [("model_id", model_id); ("session_id", dget metadata "session_id"); ("tool_ids", or_list "tool_ids");
   ("skill_ids", or_list "skill_ids"); ("chat_context", or_dict "chat_context"); ("filter_ids", or_list "filter_ids");
   ("terminal_id", dget metadata "terminal_id"); ("features", or_dict "features"); ("files", or_list "files");
   ("variables", or_dict "variables")].

Definition timer_chat (chat_id user_message_id prompt : string) (model_id : pyval) (now : Z) : pydict :=
  let message := [("id", VStr user_message_id); ("parentId", VNone); ("childrenIds", VList []); ("role", VStr "user");
                  ("content", VStr prompt); ("timestamp", VInt now); ("models", VList [model_id])] in
  [("id", VStr chat_id); ("title", VStr ("Timer: " +:+ Str.take 60 prompt)); ("models", VList [model_id]);
   ("history", VDict [("currentId", VStr user_message_id); ("messages", VDict [(user_message_id, VDict message)])]);
   ("messages", VList [VDict [("role", VStr "user"); ("content", VStr prompt)]])].

Definition timer_meta (user_message_id parent_chat_id : string) (parent_message_id model_id : pyval) (due_at : Z)
    (events : list string) (run : pydict) : pydict :=
  [("internal", VBool true); ("type", VStr "timer"); ("parent_chat_id", VStr parent_chat_id);
   ("parent_message_id", parent_message_id); ("timer_at", VInt due_at); ("status", VStr "pending");
   ("timer_model_id", model_id); ("timer_task_message_id", VStr user_message_id);
   ("cancel_on", VList (VStr <$> events)); ("run", VDict run)].

Definition cleaned (d : pydict) : pydict := match sanitize_data_for_db (VDict d) with VDict d => d | _ => d end.

(** [Chats.insert_new_chat] of a timer *)
Definition insert_timer (user_id prompt parent_chat_id : string) (parent_message_id model_id : pyval) (due_at : Z)
    (events : list string) (run : pydict) : st world unit := λ w,
  let chat_id := uuid4 (w_drawn w) in
  let user_message_id := uuid4 (S (w_drawn w)) in
  let form := timer_chat chat_id user_message_id prompt model_id (seconds w) in
  let row := {| cr_user_id := user_id; cr_chat := cleaned form; cr_title := sanitize_data_for_db (dget form "title");
                cr_current_message_id := get_current_message_id form; cr_updated_at := seconds w |} in
  let meta := timer_meta user_message_id parent_chat_id parent_message_id model_id due_at events run in
  match w_chats w !! chat_id with
  | Some _ => (Err (IntegrityError), draw 2 w)
  | None => (Ok tt, draw 2 (set_chats (<[chat_id := ChatItem row meta (Some due_at)]> (w_chats w)) w))
  end.

Context (instant_ns : string → option Z) (iso_utc : Z → string).
(** [Chats.require_chat_creation_permission] of the user *)
Context (require_chat_creation_permission : string → res unit).

Definition exn_message (e : exn) : string := match e with ValueError m => m | _ => EmptyString end.

(** The answer is an error or the object that is dumped as JSON. *)
Definition create_timer (prompt at_ : string) (cancel_on : list string) (user_id : string) (metadata : pydict)
    (parent_chat_id : string) (parent_message_id : pyval) : prog world (string + pydict) :=
  let prompt := Str.strip prompt in
  if Str.is_empty prompt then mret (inl "Error: prompt must not be empty.")
  else if Str.is_empty parent_chat_id || Str.is_empty user_id
  then mret (inl "Error: chat and user context are required.")
  else
    now ← query w_now;
    match parse_timer_at instant_ns now at_ with
    | Err e => mret (inl ("Error: " +:+ exn_message e))
    | Ok due_at =>
        if negb (forallb (λ e, bool_decide (e ∈ allowed_events)) cancel_on)
        then mret (inl "Error: cancel_on accepts only chat.read and chat.user_message.")
        else
          let events := without_repeats cancel_on in
          model_id ← lift (model_of metadata);
          if negb (truthy model_id) then mret (inl "Error: model context is required.")
          else if truthy (dget metadata "direct") then mret (inl "Error: timers are unavailable for direct connections.")
          else
            _ ← lift (require_chat_creation_permission user_id);
            _ ← perform (insert_timer user_id prompt parent_chat_id parent_message_id model_id due_at events
                           (run_of metadata model_id));
            mret (inr [("status", VStr "set"); ("at", VStr (iso_utc due_at)); ("cancel_on", VList (VStr <$> events))])
    end.

(** *** The turn of a timer *)

(** [a < b] of the keys of [max] *)
Definition key_ltb (a b : pyval) : res bool :=
  match as_num a, as_num b, a, b with
  | Some x, Some y, _, _ => Ok (num_ltb x y)
  | _, _, VStr x, VStr y => Ok (Str.ltb x y)
  | _, _, _, _ => Err TypeError
  end.

(** [max(messages, key=lambda message: message.get('timestamp', 0))] *)
Fixpoint latest (best : pyval) (messages : list pyval) : res pyval :=
  match messages with
  | [] => Ok best
  | m :: messages =>
      a ← vgetd best "timestamp" (VInt 0); b ← vgetd m "timestamp" (VInt 0);
      newer ← key_ltb a b;
      latest (if (newer : bool) then m else best) messages
  end.

(** [done_assistants] *)
Fixpoint done_assistants (messages : list pyval) : res (list pyval) :=
  match messages with
  | [] => Ok []
  | m :: messages =>
      role ← vget m "role"; done ← vget m "done"; rest ← done_assistants messages;
      Ok (if veq_str role "assistant" && negb (ChatTree.is_False done) then m :: rest else rest)
  end.

(** The message that the turn continues *)
Definition turn_parent (messages meta : pydict) : res pyval :=
  l ← done_assistants (dict_values messages);
  match l with
  | [] => Ok (dget meta "parent_message_id")
  | m :: l => best ← latest m l; vget best "id"
  end.

(** [messages[parent_id].setdefault('childrenIds', [])] and the append *)
Definition list_child (messages : pydict) (parent_id : pyval) (child : string) : res pydict :=
  known ← (if truthy parent_id then in_messages parent_id messages else Ok false);
  match parent_id with
  | VStr p =>
      if negb known then Ok messages
      else
        d ← as_dict (dget messages p);
        let d := dict_setdefault "childrenIds" (VList []) d in
        match dget d "childrenIds" with
        | VList l =>
            Ok (dict_set p (VDict (if existsb (λ v, veq_str v child) l then d
                                   else dict_set "childrenIds" (VList (l ++ [VStr child])) d)) messages)
        | VStr _ | VDict _ => Err AttributeError
        | _ => Err TypeError
        end
  | _ => Ok messages
  end.

Definition user_turn (timer_id user_message_id assistant_message_id : string) (prompt parent_id model_id : pyval) (now : Z)
    : pydict :=
  [("id", VStr user_message_id); ("parentId", parent_id); ("childrenIds", VList [VStr assistant_message_id]);
   ("role", VStr "user"); ("content", prompt); ("model", model_id);
   ("meta", VDict [("internal", VBool true); ("type", VStr "timer"); ("timer_id", VStr timer_id)]);
   ("timestamp", VInt now)].
Definition assistant_turn (user_message_id assistant_message_id : string) (model_id : pyval) (now : Z) : pydict :=
  [("id", VStr assistant_message_id); ("parentId", VStr user_message_id); ("childrenIds", VList []);
   ("role", VStr "assistant"); ("content", VStr EmptyString); ("done", VBool false); ("model", model_id);
   ("timestamp", VInt now)].

(** What the transaction makes of the parent chat: its new JSON, the conversation before
    the turn and the message of the user.  The conversation holds the messages of the
    chat themselves, so the new child shows in it. *)
Definition add_turn (timer_id user_message_id assistant_message_id : string) (prompt model_id : pyval) (meta : pydict)
    (now : Z) (parent_chat : pydict) : res (pydict * list pyval * pydict) :=
  history ← as_dict (dgetd parent_chat "history" (VDict []));
  messages ← as_dict (dgetd history "messages" (VDict []));
  parent_id ← turn_parent messages meta;
  _ ← get_message_list messages parent_id;
  let user_message := user_turn timer_id user_message_id assistant_message_id prompt parent_id model_id now in
  let messages' := dict_set assistant_message_id (VDict (assistant_turn user_message_id assistant_message_id model_id now))
                     (dict_set user_message_id (VDict user_message) messages) in
  messages' ← list_child messages' parent_id user_message_id;
  linked ← list_child messages parent_id user_message_id;
  message_list ← get_message_list linked parent_id;
  let history' := dict_set "currentId" (VStr assistant_message_id) (dict_set "messages" (VDict messages') history) in
  Ok (dict_set "history" (VDict history') parent_chat, message_list, user_message).
(** *** [execute_due_timer] *)

Definition VERIFIED_USER_ROLES : list string := ["user"; "admin"].

(** [Chats.get_chat_by_id]; a history that cannot be repaired answers None *)
Definition readable (c : chat) : bool := is_ok (repair_chat_current_id (cleaned (cr_chat (c_row c)))).
Definition get_chat_by_id (id : string) (w : world) : option chat :=
  c ← w_chats w !! id; if readable c then Some c else None.
Definition get_chat_by_id_and_user_id (id : pyval) (user_id : string) (w : world) : option chat :=
  match id with
  | VStr s =>
      c ← w_chats w !! s;
      if String.eqb (cr_user_id (c_row c)) user_id && readable c then Some c else None
  | _ => None
  end.

(** [Chats.get_message_by_id_and_message_id]: the message table, else the chat *)
Definition get_message (id : string) (message_id : pyval) (w : world) : res pyval :=
  let rows := default [] (w_messages w !! id) in
  k ← hashed message_id;
  match k with
  | VStr m =>
      match dict_get m rows with
      | Some message => Ok message
      | None =>
          match w_chats w !! id with
          | None => Ok VNone
          | Some c =>
              let history := match dget (cr_chat (c_row c)) "history" with VDict h => h | _ => [] end in
              messages ← as_dict (por (dget history "messages") (VDict []));
              Ok (sanitize_data_for_db (dgetd messages m (VDict [])))
          end
      end
  | _ => Ok (if bool_decide (is_Some (w_chats w !! id)) then VDict [] else VNone)
  end.

Context (repr_other : pyval → string) (exn_text : exn → string).
(** The answer of [app.state.CHAT_COMPLETION_HANDLER] *)
Context (completion : pydict → res unit).

Definition part_text (part : pyval) : option string :=
  match part with
  | VDict d => if veq_str (dget d "type") "text" then Some (py_str repr_other (dgetd d "text" (VStr EmptyString))) else None
  | _ => None
  end.
(** The prompt of the message: its content, lists joined *)
Definition prompt_of (message : pyval) : res pyval :=
  content ← vget message "content";
  Ok (match por content (VStr EmptyString) with
      | VList l => VStr (Str.join EmptyString (omap (M:=list) part_text l))
      | v => v
      end).

(** [_MANIFEST_RE.sub('', text)] *)
Fixpoint after (sub s : string) : option string :=
  if Str.startswith sub s then Some (Str.drop (String.length sub) s)
  else match s with EmptyString => None | String _ s => after sub s end.
Definition newline : string := String (ascii_of_nat 10) EmptyString.
Definition manifest_at (s : string) : option string :=
  let start := "<available_tools>" +:+ newline in
  let s := if Str.startswith (newline +:+ start) s then Str.drop 1 s else s in
  if Str.startswith start s then after "</available_tools>" (Str.drop (String.length start) s) else None.
Fixpoint without_manifests (fuel : nat) (s : string) : string :=
  match fuel with
  | O => s
  | S fuel =>
      match manifest_at s with
      | Some rest => without_manifests fuel rest
      | None => match s with EmptyString => EmptyString | String c s => String c (without_manifests fuel s) end
      end
  end.
Definition strip_deferred_tools_manifest (s : string) : string := without_manifests (String.length s) s.

Definition context_of (run : pydict) : res pydict :=
  context ← as_dict (por (dget run "chat_context") (VDict []));
  if is_none (dget run "chat_context") && truthy (dget run "system_prompt") then
    match dget run "system_prompt" with
    | VStr s => Ok (dict_set "messages" (VList [VDict [("role", VStr "system");
                  ("content", VStr (strip_deferred_tools_manifest s))]]) context)
    | _ => Err TypeError
    end
  else Ok context.

(** [form_data] *)
Definition form_data (parent_chat_id assistant_message_id : string) (run : pydict) (prompt model_id : pyval)
    (message_list : list pyval) (user_message : pydict) : res pydict :=
  context ← context_of run;
  first ← viter (dgetd context "messages" (VList []));
  let or_list k := por (dget run k) (VList []) in
  let or_dict k := por (dget run k) (VDict []) in
  let form :=
    [("model", model_id); ("params", por (dget context "params") (VDict []));
     ("messages", VList (first ++ message_list ++ [VDict [("role", VStr "user"); ("content", prompt)]]));
     ("stream", VBool true); ("chat_id", VStr parent_chat_id); ("id", VStr assistant_message_id);
     ("parent_id", dget user_message "parentId"); ("user_message", VDict user_message);
     ("session_id", por (dget run "session_id") (VStr ("timer:" +:+ parent_chat_id))); ("background_tasks", VDict []);
     ("tool_ids", or_list "tool_ids"); ("skill_ids", or_list "skill_ids"); ("filter_ids", or_list "filter_ids");
     ("features", or_dict "features"); ("files", or_list "files"); ("variables", or_dict "variables");
     ("chat_variables", dget context "chat_variables")] in
  Ok (if truthy (dget run "terminal_id") then dict_set "terminal_id" (dget run "terminal_id") form else form).

Definition set_error (timer_id message : string) : prog world unit :=
  set_timer_state timer_id "error" [("timer_error", VStr message)].

(** The timer waits again: its chat is busy. *)
Definition requeued_meta (meta : pydict) : pydict :=
  merged meta [("status", VStr "pending"); ("timer_claim_id", VNone); ("timer_started_at", VNone)].
Definition requeue (timer_id : string) (row : chat) : prog world unit :=
  timer_at ← lift (match dget (c_meta row) "timer_at" with VInt t => Ok (Some t) | VNone => Ok None | _ => Err TypeError end);
  perform (λ w, update_rows [(timer_id, with_meta (requeued_meta (c_meta row)) timer_at (seconds w))] w).

Definition completed_meta (now_ns : Z) (meta : pydict) : pydict :=
  merged meta [("status", VStr "completed"); ("timer_completed_at", VInt now_ns)].

(** The commit: the turn of the locked parent, and the timer row that was loaded *)
Definition commit_turn (timer_id parent_id : string) (prompt model_id : pyval) (meta : pydict) (row : option chat)
    : st world (string * list pyval * pydict) := λ w,
  let user_message_id := uuid4 (w_drawn w) in
  let assistant_message_id := uuid4 (S (w_drawn w)) in
  match w_chats w !! parent_id with
  | None => (Err stale_data, draw 2 w)
  | Some parent =>
      match add_turn timer_id user_message_id assistant_message_id prompt model_id meta (seconds w) (cr_chat (c_row parent)) with
      | Err e => (Err e, draw 2 w)
      | Ok (chat, message_list, user_message) =>
          let parent_update c := ChatItem
            {| cr_user_id := cr_user_id (c_row c); cr_chat := chat; cr_title := cr_title (c_row c);
               cr_current_message_id := VStr assistant_message_id; cr_updated_at := seconds w |} (c_meta c) (c_timer_at c) in
          let timer_update r := (timer_id, λ c,
            with_meta (completed_meta (w_now w) (c_meta r)) (c_timer_at c) (seconds w) c) in
          let '(r, w') := update_rows ((parent_id, parent_update) :: match row with Some r => [timer_update r] | None => [] end) w in
          ((λ _ : unit, (assistant_message_id, message_list, user_message)) <$> r, draw 2 w')
      end
  end.

(** The message of the assistant shows the error. *)
Definition save_error (parent_id message_id text : string) : st world unit := λ w,
  match w_chats w !! parent_id with
  | None => (Ok tt, w)
  | Some c =>
      let message := [("error", VDict [("content", VStr text)]); ("done", VBool true)] in
      match ChatTree.save_message repr_other (c_row c) message_id message true (seconds w) with
      | Ok (row, _) => (Ok tt, set_chats (<[parent_id := ChatItem row (c_meta c) (c_timer_at c)]> (w_chats w)) w)
      | Err _ => (Ok tt, w)
      end
  end.

(** The request goes to the completion handler. *)
Definition complete (timer_id parent_id assistant_message_id : string) (form : pydict) : prog world unit :=
  answer ← perform (λ w, (Ok (completion form), send timer_id form w));
  match answer with
  | Ok _ => mret tt
  | Err e =>
      _ ← set_error timer_id (Str.take 500 (exn_text e));
      perform (save_error parent_id assistant_message_id (exn_text e))
  end.

(** The part under the lock of the parent *)
Definition run_turn (timer_id parent_id user_id : string) (prompt model_id : pyval) (meta run : pydict)
    : prog world unit :=
  found ← query (λ w, match w_chats w !! parent_id with
                      | Some c => String.eqb (cr_user_id (c_row c)) user_id
                      | None => false
                      end);
  if negb found then set_error timer_id "parent chat no longer exists"
  else
    busy ← query (λ w, bool_decide (parent_id ∈ w_active w));
    row ← query (λ w, w_chats w !! timer_id);
    if (busy : bool) then match row with Some row => requeue timer_id row | None => mret tt end
    else
      '(assistant_message_id, message_list, user_message) ← perform (commit_turn timer_id parent_id prompt model_id meta row);
      form ← lift (form_data parent_id assistant_message_id run prompt model_id message_list user_message);
      complete timer_id parent_id assistant_message_id form.

(** The turn of a claimed timer whose parent was found *)
Definition check_owner (timer_id parent_id user_id : string) (meta : pydict) : prog world unit :=
  message ← query (get_message timer_id (dget meta "timer_task_message_id"));
  prompt_message ← lift message;
  if negb (truthy prompt_message) then set_error timer_id "timer task message is missing"
  else
    role ← query (λ w, w_roles w !! user_id);
    match role with
    | None => set_error timer_id "timer user no longer exists"
    | Some role =>
        if negb (bool_decide (role ∈ VERIFIED_USER_ROLES))
        then set_error timer_id "owner no longer permitted to run timers"
        else
          run ← lift (as_dict (por (dget meta "run") (VDict [])));
          let model_id := por (dget run "model_id") (dget meta "timer_model_id") in
          if negb (truthy model_id) then set_error timer_id "model context is missing"
          else
            prompt ← lift (prompt_of prompt_message);
            run_turn timer_id parent_id user_id prompt model_id meta run
    end.

Definition claimed_by (claim_id : option string) (meta : pydict) : bool :=
  match claim_id with Some c => veq_str (dget meta "timer_claim_id") c | None => true end.

Definition execute_due_timer (timer_id : string) (claim_id : option string) : prog world unit :=
  timer ← query (get_chat_by_id timer_id);
  match timer with
  | None => mret tt
  | Some timer =>
      let meta := c_meta timer in
      if negb (status_is "running" meta && claimed_by claim_id meta) then mret tt
      else
        let user_id := cr_user_id (c_row timer) in
        let parent_chat_id := por (dget meta "parent_chat_id") (VStr EmptyString) in
        parent ← query (get_chat_by_id_and_user_id parent_chat_id user_id);
        match parent, parent_chat_id with
        | Some _, VStr parent_id => check_owner timer_id parent_id user_id meta
        | _, _ => set_error timer_id "parent chat no longer exists"
        end
  end.

(** *** Calls *)

Inductive call :=
| Create (prompt at_ : string) (cancel_on : list string) (user_id : string) (metadata : pydict) (parent_chat_id : string)
    (parent_message_id : pyval)
| Claim (now_ns : Z) (limit : nat)
| CancelFor (parent_chat_id event user_id : string)
| Execute (timer_id claim_id : string).

Definition run (c : call) : prog world unit :=
  match c with
  | Create prompt at_ cancel_on user_id metadata parent_chat_id parent_message_id =>
      (λ _, tt) <$> create_timer prompt at_ cancel_on user_id metadata parent_chat_id parent_message_id
  | Claim now_ns limit => (λ _, tt) <$> claim_due_timers now_ns limit
  | CancelFor parent_chat_id event user_id => cancel_timers_for_chat parent_chat_id event user_id
  | Execute timer_id claim_id => execute_due_timer timer_id (Some claim_id)
  end.
End Timers.
