(* ===== verification/TimersProps.v ===== *)
(** * Properties of the timers: a timer is run once, whatever instances claim, cancel and
    execute timers at the same time. *)

From S2P Require Import Prelude PyVal Messages ChatTree Interleave Timers.
From stdpp Require Import gmap strings functions.

Local Open Scope Z_scope.

Section Once.
Context (uuid4 : nat → string) (instant_ns : string → option Z) (iso_utc : Z → string).
Context (require_chat_creation_permission : string → res unit).
Context (repr_other : pyval → string) (exn_text : exn → string) (completion : pydict → res unit).
Hypothesis uuid_inj : ∀ n m, uuid4 n = uuid4 m → n = m.

(** What a chat is to the timers *)
Inductive view := Waiting | Running (claim : pyval) | Resting.
Definition view_of (c : chat) : view :=
  if status_is "pending" (c_meta c) then Waiting
  else if status_is "running" (c_meta c) then Running (dget (c_meta c) "timer_claim_id")
  else Resting.
Definition seen (w : world) (id : string) : option view := view_of <$> w_chats w !! id.

(** Ids that are not drawn any more *)
Definition past (w : world) (id : string) : Prop := ∀ n, (w_drawn w <= n)%nat → id ≠ uuid4 n.

Definition later (w w' : world) : Prop :=
  (w_drawn w <= w_drawn w')%nat ∧ ∀ id, past w id → w_chats w !! id = None → w_chats w' !! id = None.

Lemma past_grows w w' id : (w_drawn w <= w_drawn w')%nat → past w id → past w' id.
Proof. intros Hd Hp n Hn. apply Hp. lia. Qed.

Lemma past_later w w' id : later w w' → past w id → past w' id.
Proof. intros [Hd _]. by apply past_grows. Qed.

#[local] Instance later_preorder : PreOrder later.
Proof.
  split; [by intros w|]. intros w1 w2 w3 [Hd1 H1] [Hd2 H2]. split; [lia|].
  intros id Hp Hn. apply H2; [by eapply past_grows|auto].
Qed.

(** Timers that wait or run have ids of the past. *)
Definition ok (w : world) : Prop := ∀ id v, seen w id = Some v → v ≠ Resting → past w id.

(** What a step may do to a chat that its program does not execute *)
Inductive calm (w w' : world) (id : string) : Prop :=
| calm_same : seen w' id = seen w id → calm w w' id
| calm_gone : seen w' id = None → calm w w' id
| calm_rest : seen w id ≠ None → seen w' id = Some Resting → calm w w' id
| calm_claim c : seen w id = Some Waiting → seen w' id = Some (Running c) → calm w w' id
| calm_new v : ¬ past w id → past w' id → seen w' id = Some v → calm w w' id.

(** An execution *)
Inductive phase :=
| Idle
| Ready (timer claim : string)     (** not begun *)
| Active (timer claim : string)    (** it has seen its claim *)
| Fired (timer : string).          (** the turn is in the chat, the request not sent *)

Inductive move (w w' : world) : phase → phase → Prop :=
| move_calm s : (∀ id, calm w w' id) → w_sent w' = w_sent w → move w w' s s
| move_start t c : seen w t = Some (Running (VStr c)) → past w t → (∀ id, seen w' id = seen w id) → w_sent w' = w_sent w →
    move w w' (Ready t c) (Active t c)
| move_requeue t c : (∀ id, id ≠ t → calm w w' id) → w_sent w' = w_sent w → move w w' (Active t c) Idle
| move_fire t c : (∀ id, id ≠ t → calm w w' id) → (∀ v, seen w' t = Some v → v = Resting) → w_sent w' = w_sent w →
    move w w' (Active t c) (Fired t)
| move_send t form : (∀ id, seen w' id = seen w id) → w_sent w' = w_sent w ++ [(t, form)] → move w w' (Fired t) Idle.

Definition step_of (s s' : phase) (w w' : world) : Prop := move w w' s s'.

Lemma step_refl s w : step_of s s w w.
Proof. apply move_calm; [|done]. intros id. by apply calm_same. Qed.

Definition claim_of (s : phase) : option string :=
  match s with Ready _ c | Active _ c => Some c | _ => None end.
Definition busy (s : phase) (t : string) : Prop :=
  match s with Active t' _ | Fired t' => t' = t | _ => False end.

Definition rests (w : world) (t : string) : Prop := past w t ∧ ∀ v, seen w t = Some v → v = Resting.

Record good (w : world) (σ : nat → phase) : Prop := {
  good_claims i j c : claim_of (σ i) = Some c → claim_of (σ j) = Some c → i = j;
  good_active i t c : σ i = Active t c → past w t ∧ ∀ v, seen w t = Some v → v = Resting ∨ v = Running (VStr c);
  good_fired i t : σ i = Fired t → rests w t;
  good_alone i j t : i ≠ j → busy (σ i) t → ¬ busy (σ j) t;
  good_sent t : t ∈ (w_sent w).*1 → rests w t ∧ ∀ i, ¬ busy (σ i) t;
  good_once : NoDup (w_sent w).*1
}.

(** *** Steps keep it *)

Lemma calm_rests w w' t : later w w' → calm w w' t → rests w t → rests w' t.
Proof.
  intros HR Hc [Hp Hv]. split; [by eapply past_later|]. intros v Hs.
  destruct Hc as [He|He|_ He|c Hw He|? Hf]; [apply Hv; congruence|congruence|congruence| |done].
  specialize (Hv _ Hw). congruence.
Qed.

Lemma calm_active w w' t c :
  later w w' → calm w w' t → past w t → (∀ v, seen w t = Some v → v = Resting ∨ v = Running (VStr c)) →
  past w' t ∧ ∀ v, seen w' t = Some v → v = Resting ∨ v = Running (VStr c).
Proof.
  intros HR Hc Hp Hv. split; [by eapply past_later|]. intros v Hs.
  destruct Hc as [He|He|_ He|d Hw He|? Hf]; [apply Hv; congruence|congruence|left; congruence| |done].
  destruct (Hv _ Hw); congruence.
Qed.

Lemma seen_same_calm w w' : (∀ id, seen w' id = seen w id) → ∀ id, calm w w' id.
Proof. intros He id. by apply calm_same. Qed.

Lemma good_intro i s' w w' σ :
  later w w' → good w σ →
  (∀ c, claim_of s' = Some c → claim_of (σ i) = Some c) →
  (∀ t, busy (σ i) t ∨ calm w w' t) →
  (∀ t c, s' = Active t c → past w' t ∧ ∀ v, seen w' t = Some v → v = Resting ∨ v = Running (VStr c)) →
  (∀ t, s' = Fired t → rests w' t) →
  (∀ t, busy s' t → (∀ j, i ≠ j → ¬ busy (σ j) t) ∧ t ∉ (w_sent w').*1) →
  (∀ t, t ∈ (w_sent w').*1 → t ∉ (w_sent w).*1 → rests w' t ∧ busy (σ i) t) →
  NoDup (w_sent w').*1 → good w' (<[i := s']> σ).
Proof.
  intros HR Hg Hclaim Hcalm Ha Hf Hb Hs Hn.
  assert (Hother : ∀ j t, i ≠ j → busy (σ j) t → calm w w' t).
  { intros j t Hij Hj. destruct (Hcalm t) as [Hi|]; [|done]. by destruct (good_alone _ _ Hg i j t Hij Hi). }
  split; [| | | | |done].
  - intros j k c. destruct (decide (i = j)) as [<-|Hij], (decide (i = k)) as [<-|Hik]; [done| | |];
      rewrite ?fn_lookup_insert, ?fn_lookup_insert_ne by done; intros Hj Hk.
    + by eapply (good_claims _ _ Hg); [apply Hclaim|].
    + by eapply (good_claims _ _ Hg); [|apply Hclaim].
    + by eapply (good_claims _ _ Hg).
  - intros j t c. destruct (decide (i = j)) as [<-|Hij]; rewrite ?fn_lookup_insert, ?fn_lookup_insert_ne by done; [by apply Ha|].
    intros Hj. apply (calm_active w); [done| |by eapply (good_active _ _ Hg)..]. apply (Hother j); [done|]. by rewrite Hj.
  - intros j t. destruct (decide (i = j)) as [<-|Hij]; rewrite ?fn_lookup_insert, ?fn_lookup_insert_ne by done; [by apply Hf|].
    intros Hj. apply (calm_rests w); [done| |by eapply (good_fired _ _ Hg)]. apply (Hother j); [done|]. by rewrite Hj.
  - intros j k t Hjk. destruct (decide (i = j)) as [<-|Hij], (decide (i = k)) as [<-|Hik]; [done| | |];
      rewrite ?fn_lookup_insert, ?fn_lookup_insert_ne by done; intros Hj Hk.
    + by apply (Hb t Hj) in Hk.
    + by apply (Hb t Hk) in Hj.
    + by apply (good_alone _ _ Hg j k t).
  - intros t Ht. destruct (decide (t ∈ (w_sent w).*1)) as [Hold|Hnew].
    + destruct (good_sent _ _ Hg t Hold) as [Hr Hq]. split.
      * apply (calm_rests w); [done| |done]. destruct (Hcalm t) as [Hi|]; [by destruct (Hq i)|done].
      * intros j. destruct (decide (i = j)) as [<-|Hij]; rewrite ?fn_lookup_insert, ?fn_lookup_insert_ne by done; [|apply Hq].
        intros Hi. by destruct (Hb t Hi) as [_ []].
    + destruct (Hs t Ht Hnew) as [Hr Hi]. split; [done|].
      intros j. destruct (decide (i = j)) as [<-|Hij]; rewrite ?fn_lookup_insert, ?fn_lookup_insert_ne by done.
      * intros Hj. by destruct (Hb t Hj) as [_ []].
      * by apply (good_alone _ _ Hg i).
Qed.

(** A timer that is claimed has no other execution. *)
Lemma started_alone i t c w σ :
  good w σ → σ i = Ready t c → seen w t = Some (Running (VStr c)) →
  (∀ j, i ≠ j → ¬ busy (σ j) t) ∧ t ∉ (w_sent w).*1.
Proof.
  intros Hg Hi Hv. split.
  - intros j Hij Hj. destruct (σ j) as [| |t' c'|t'] eqn:Ej; try done; cbn in Hj; subst t'.
    + destruct (good_active _ _ Hg j t c' Ej) as [_ Ha]. destruct (Ha _ Hv) as [|[= <-]]; [done|].
      apply Hij. apply (good_claims _ _ Hg i j c); [by rewrite Hi|by rewrite Ej].
    + destruct (good_fired _ _ Hg j t Ej) as [_ Hr]. by specialize (Hr _ Hv).
  - intros Ht. destruct (good_sent _ _ Hg t Ht) as [[_ Hr] _]. by specialize (Hr _ Hv).
Qed.

Lemma good_step i s' w w' σ : later w w' → step_of (σ i) s' w w' → good w σ → good w' (<[i := s']> σ).
Proof.
  intros HR Hstep Hg.
  assert (Hkeep : ∀ t, busy (σ i) t → (∀ j, i ≠ j → ¬ busy (σ j) t) ∧ t ∉ (w_sent w).*1).
  { intros t Hi. split; [intros j Hij; by apply (good_alone _ _ Hg i)|].
    intros Ht. by destruct (good_sent _ _ Hg t Ht) as [_ Hq]; apply (Hq i). }
  pose proof (good_once _ _ Hg) as Hn. pose proof (good_active _ _ Hg i) as Hact. pose proof (good_fired _ _ Hg i) as Hfir.
  remember (σ i) as s eqn:Ei. apply (good_intro i s' w); rewrite <-?Ei; try done.
  - intros c. by destruct Hstep.
  - intros t. destruct Hstep as [s1 Hc _|t0 c _ _ He _|t0 c Hc _|t0 c Hc _ _|t0 form He _]; try (right; by auto using seen_same_calm).
    + destruct (decide (t = t0)) as [->|]; [by left|right; auto].
    + destruct (decide (t = t0)) as [->|]; [by left|right; auto].
  - intros t c ->. inversion Hstep as [s1 Hc _ E1|t0 c0 Hv Hp He _ E1 E2| | |].
    + destruct (Hact t c ltac:(congruence)) as [Hp Hv]. by apply (calm_active w).
    + split; [by eapply past_later|]. intros v. rewrite He, Hv. intros [= <-]. by right.
  - intros t ->. inversion Hstep as [s1 Hc _ E1| | |t0 c0 _ Hv _ E1 E2|].
    + apply (calm_rests w); auto.
    + split; [|done]. destruct (Hact t c0 ltac:(congruence)) as [Hp _]. by eapply past_later.
  - intros t Ht. destruct Hstep as [s1 _ Hs|t0 c Hv _ _ Hs|t0 c _ Hs|t0 c _ _ Hs|t0 form He Hs]; rewrite ?Hs; try done; [by apply Hkeep| |by apply Hkeep].
    cbn in Ht. subst t0. by eapply started_alone.
  - intros t Ht Hnew. destruct Hstep as [s1 _ Hs|t0 c _ _ _ Hs|t0 c _ Hs|t0 c _ _ Hs|t0 form He Hs]; rewrite Hs in Ht; try done.
    rewrite fmap_app in Ht. apply elem_of_app in Ht as [Ht|Ht]; [done|]. apply list_elem_of_singleton in Ht as ->.
    split; [|done]. apply (calm_rests w); [done|by apply calm_same|by apply Hfir].
  - destruct Hstep as [s1 _ Hs|t0 c _ _ _ Hs|t0 c _ Hs|t0 c _ _ Hs|t0 form He Hs]; rewrite Hs; try done.
    rewrite fmap_app. apply list.NoDup_app. split_and!; [done| |apply NoDup_singleton].
    intros x Hx ->%list_elem_of_singleton. by destruct (Hkeep t0 eq_refl).
Qed.

(** Chats elsewhere change and come and go, and ids are drawn; only the timers' code writes
    the columns of a timer, and ids of deleted chats are not used again. *)
Definition elsewhere (w w' : world) : Prop :=
  (w_drawn w <= w_drawn w')%nat ∧ w_sent w' = w_sent w ∧
  ∀ id c', w_chats w' !! id = Some c' →
    (∃ c, w_chats w !! id = Some c ∧ c_meta c' = c_meta c) ∨
    (w_chats w !! id = None ∧ view_of c' = Resting ∧ ∃ n, (w_drawn w <= n < w_drawn w')%nat ∧ id = uuid4 n).

Lemma new_id w w' n : (w_drawn w <= n < w_drawn w')%nat → ¬ past w (uuid4 n) ∧ past w' (uuid4 n).
Proof. intros Hn. split; [intros Hp; by apply (Hp n); [lia|]|intros m Hm He%uuid_inj; lia]. Qed.

Lemma elsewhere_calm w w' : elsewhere w w' → ∀ id, calm w w' id.
Proof.
  intros (_ & _ & Hc) id. destruct (w_chats w' !! id) as [c'|] eqn:E.
  - destruct (Hc id c' E) as [(c & Ec & Hm)|(_ & Hv & n & Hn & ->)].
    + apply calm_same. unfold seen. rewrite E, Ec. cbn. unfold view_of. by rewrite Hm.
    + destruct (new_id w w' n Hn). apply calm_new with Resting; [done..|]. unfold seen. by rewrite E; cbn; rewrite Hv.
  - apply calm_gone. unfold seen. by rewrite E.
Qed.

Lemma seen_none w id : seen w id = None ↔ w_chats w !! id = None.
Proof. unfold seen. by destruct (w_chats w !! id). Qed.

Lemma calm_keeps w w' t :
  (w_drawn w <= w_drawn w')%nat → (∀ id, id ≠ t → calm w w' id) → (seen w' t ≠ None → past w t ∧ seen w t ≠ None) →
  ok w → ok w' ∧ later w w'.
Proof.
  intros Hd Hc Ht Hok. split; [|split; [done|]].
  - intros id v Hv Hr. destruct (decide (id = t)) as [->|Hne]; [eapply past_grows, Ht; [done|congruence]|].
    destruct (Hc id Hne) as [He|He|_ He|c Hw He|? _ Hp He]; [|congruence|congruence| |done].
    + eapply past_grows; [done|]. apply (Hok id v); [congruence|done].
    + eapply past_grows; [done|]. by apply (Hok id Waiting).
  - intros id Hp Hn%seen_none. apply seen_none. destruct (decide (id = t)) as [->|Hne].
    + destruct (seen w' t) eqn:E; [|done]. destruct Ht as [_ Hx]; [done|]. by destruct Hx.
    + destruct (Hc id Hne) as [He|He|Hx _|c Hw He|? Hf]; congruence.
Qed.

Lemma calm_all w w' : (w_drawn w <= w_drawn w')%nat → (∀ id, calm w w' id) → ok w → ok w' ∧ later w w'.
Proof.
  intros Hd Hc Hok. split; [|split; [done|]].
  - intros id v Hv Hr. destruct (Hc id) as [He|He|_ He|c Hw He|? _ Hp He]; [|congruence|congruence| |done].
    + eapply past_grows; [done|]. apply (Hok id v); [congruence|done].
    + eapply past_grows; [done|]. by apply (Hok id Waiting).
  - intros id Hp Hn%seen_none. apply seen_none. destruct (Hc id) as [He|He|Hx _|c Hw He|? Hf]; congruence.
Qed.

Lemma good_ext w σ σ' : (∀ i, σ i = σ' i) → good w σ → good w σ'.
Proof.
  intros He [H1 H2 H3 H4 H5 H6]. split; [| | | | |done].
  - intros i j c. rewrite <-!He. eauto.
  - intros i t c. rewrite <-He. eauto.
  - intros i t. rewrite <-He. eauto.
  - intros i j t. rewrite <-!He. eauto.
  - intros t Ht. destruct (H5 t Ht) as [Hr Hb]. split; [done|]. intros i. rewrite <-He. auto.
Qed.

Lemma good_elsewhere w w' σ : elsewhere w w' → ok w → good w σ → good w' σ.
Proof.
  intros Hw Hok Hg. destruct (calm_all w w') as [_ HR]; [apply Hw|by apply elsewhere_calm|done|].
  apply good_ext with (<[0%nat := σ 0%nat]> σ).
  - intros i. destruct (decide (i = 0)%nat) as [->|]; by rewrite ?fn_lookup_insert, ?fn_lookup_insert_ne.
  - apply good_step with w; [done| |done]. apply move_calm; [by apply elsewhere_calm|apply Hw].
Qed.

(** *** Statements *)

(** Rows of a session keep their view, or come to rest. *)
Definition settles (chats chats' : gmap string chat) : Prop :=
  ∀ id, view_of <$> chats' !! id = view_of <$> chats !! id ∨
        (is_Some (chats !! id) ∧ view_of <$> chats' !! id = Some Resting).

Lemma settles_alter (f : chat → chat) id chats :
  (∀ c, view_of (f c) = view_of c ∨ view_of (f c) = Resting) → settles chats (alter f id chats).
Proof.
  intros Hf id'. destruct (decide (id' = id)) as [->|Hne]; [|left; by rewrite lookup_alter_ne].
  rewrite lookup_alter_eq. destruct (chats !! id) as [c|] eqn:E; cbn; [|by left].
  destruct (Hf c) as [-> | ->]; [by left|right; by split].
Qed.

Lemma settles_trans chats1 chats2 chats3 : settles chats1 chats2 → settles chats2 chats3 → settles chats1 chats3.
Proof.
  intros H1 H2 id. destruct (H2 id) as [He|[[c Hc] He]].
  - rewrite He. apply H1.
  - right. split; [|done]. destruct (H1 id) as [He1|[Hs _]]; [|done].
    rewrite Hc in He1. cbn in He1. by destruct (chats1 !! id).
Qed.

Lemma settles_updates (updates : list (string * (chat → chat))) chats :
  Forall (λ u, ∀ c, view_of (u.2 c) = view_of c ∨ view_of (u.2 c) = Resting) updates →
  settles chats (foldl (λ chats u, alter u.2 u.1 chats) chats updates).
Proof.
  intros Hu. revert chats. induction Hu as [|u updates Hf _ IH]; intros chats; cbn; [by left|].
  eapply settles_trans; [by apply settles_alter|apply IH].
Qed.

Lemma update_rows_calm updates w :
  Forall (λ u, ∀ c, view_of (u.2 c) = view_of c ∨ view_of (u.2 c) = Resting) updates →
  (∀ id, calm w (update_rows updates w).2 id) ∧ w_sent (update_rows updates w).2 = w_sent w ∧
  w_drawn (update_rows updates w).2 = w_drawn w.
Proof.
  intros Hu. unfold update_rows. destruct (forallb _ _); cbn; split_and!; try done; intros id; [|by apply calm_same].
  destruct (settles_updates updates (w_chats w) Hu id) as [He|[[c Hc] He]]; [by apply calm_same|].
  apply calm_rest; [unfold seen; by rewrite Hc|done].
Qed.

Lemma rests_meta c s : dget (c_meta c) "status" = VStr s → s ∉ ["pending"; "running"] → view_of c = Resting.
Proof.
  intros Hs Hn. unfold view_of, status_is. rewrite Hs. cbn.
  destruct (String.eqb_spec s "pending") as [->|]; [set_solver|].
  destruct (String.eqb_spec s "running") as [->|]; [set_solver|done].
Qed.

Lemma state_rests meta s k v timer_at now c :
  s ∉ ["pending"; "running"] → k ≠ "status" → view_of (with_meta (merged meta [("status", VStr s); (k, v)]) timer_at now c) = Resting.
Proof.
  intros Hs Hk. apply rests_meta with s; [|done]. cbn. unfold merged, dict_update. cbn. by autorewrite with py_simpl.
Qed.

Lemma cancelled_rests now_ns event meta timer_at now c : view_of (with_meta (cancelled_meta now_ns event meta) timer_at now c) = Resting.
Proof.
  apply rests_meta with "cancelled"; [|set_solver]. cbn. unfold cancelled_meta, merged, dict_update. cbn. by autorewrite with py_simpl.
Qed.

Lemma claimed_runs now_ns claim meta timer_at now c :
  view_of (with_meta (claimed_meta now_ns claim meta) timer_at now c) = Running (VStr claim).
Proof.
  unfold view_of, status_is. cbn. unfold claimed_meta, merged, dict_update. cbn. by autorewrite with py_simpl.
Qed.

Lemma requeued_waits meta timer_at now c : view_of (with_meta (requeued_meta meta) timer_at now c) = Waiting.
Proof. unfold view_of, status_is. cbn. unfold requeued_meta, merged, dict_update. cbn. by autorewrite with py_simpl. Qed.

(** Claims turn waiting timers into running ones. *)
Definition claims (chats chats' : gmap string chat) : Prop :=
  ∀ id, view_of <$> chats' !! id = view_of <$> chats !! id ∨
        (view_of <$> chats !! id = Some Waiting ∧ ∃ c, view_of <$> chats' !! id = Some (Running c)).

Lemma claim_rows_claims now_ns now n rows chats0 chats :
  Forall (λ kv, chats0 !! kv.1 = Some kv.2 ∧ view_of kv.2 = Waiting) rows → claims chats0 chats →
  claims chats0 (claim_rows uuid4 now_ns now n rows chats).2.
Proof.
  intros Hrows. revert n chats. induction Hrows as [|[id row] rows [Hid Hv] _ IH]; intros n chats Hc; cbn; [done|].
  apply IH. intros id'. destruct (decide (id' = id)) as [->|Hne]; [|rewrite lookup_insert_ne by done; apply Hc].
  right. cbn [fst snd] in *. rewrite Hid, lookup_insert_eq. split; [exact (f_equal Some Hv)|].
  exists (VStr (uuid4 n)). exact (f_equal Some (claimed_runs _ _ _ _ _ _)).
Qed.

Lemma due_rows_wait now_ns limit w :
  Forall (λ kv, w_chats w !! kv.1 = Some kv.2 ∧ view_of kv.2 = Waiting) (due_rows now_ns limit (w_chats w)).
Proof.
  unfold due_rows. apply Forall_take. apply list.Forall_forall. intros [id c]. rewrite py_sorted_perm.
  rewrite list_elem_of_In, filter_In, <-list_elem_of_In, elem_of_map_to_list. cbn. intros [Hc Hd]. split; [done|].
  unfold due in Hd. apply andb_true_iff in Hd as [_ Hs]. unfold view_of. by rewrite Hs.
Qed.

(** *** Programs *)

Notation wp := (wp ok later step_of).
Definition any {A} (r : res A) (s : phase) (w : world) : Prop := True.

Lemma wp_observe {A} (Q : res A → phase → world → Prop) s (f : world → A) w :
  (∀ w1, later w w1 → ok w1 → Q (Ok (f w1)) s w1) → wp Q s (query f) w.
Proof. apply (wp_query ok later step_of step_refl). Qed.

Lemma wp_calm {A} (Q : res A → phase → world → Prop) s (m : st world A) w :
  (∀ w1, later w w1 → ok w1 → (∀ id, calm w1 (m w1).2 id) ∧ w_sent (m w1).2 = w_sent w1 ∧ (w_drawn w1 <= w_drawn (m w1).2)%nat ∧
     (later w (m w1).2 → Q (m w1).1 s (m w1).2)) →
  wp Q s (perform m) w.
Proof.
  intros Hm w1 HR Hok. destruct (Hm w1 HR Hok) as (Hc & Hs & Hd & HQ). destruct (calm_all w1 (m w1).2 Hd Hc Hok) as [Hok' HR'].
  split_and!; [done..|]. exists s. split; [by apply move_calm|]. apply HQ. by etrans.
Qed.

Lemma wp_updates (Q : res unit → phase → world → Prop) s (updates : world → list (string * (chat → chat))) w :
  (∀ w1, Forall (λ u, ∀ c, view_of (u.2 c) = view_of c ∨ view_of (u.2 c) = Resting) (updates w1)) →
  (∀ r w1, Q r s w1) → wp Q s (perform (λ w, update_rows (updates w) w)) w.
Proof.
  intros Hu HQ. apply wp_calm. intros w1 _ _. destruct (update_rows_calm (updates w1) w1 (Hu w1)) as (Hc & Hs & Hd).
  rewrite Hd. split_and!; done.
Qed.

Lemma wp_set_error Q s t message w : (∀ r w1, Q r s w1) → wp Q s (set_error t message) w.
Proof.
  intros HQ. unfold set_error, set_timer_state. apply wp_bind, wp_observe. intros w1 _ _.
  destruct (w_chats w1 !! t) as [row|]; [|apply HQ].
  apply (wp_updates Q s (λ w, [(t, λ c, with_meta (merged (c_meta row) [("status", VStr "error"); ("timer_error", VStr message)])
                                         (c_timer_at c) (seconds w) c)])); [|done].
  intros w2. constructor; [|constructor]. intros c. right. apply state_rests; [set_solver|done].
Qed.

Lemma wp_claim Q s now_ns limit w : (∀ r w1, Q r s w1) → wp Q s (claim_due_timers uuid4 now_ns limit) w.
Proof.
  intros HQ. apply wp_calm. intros w1 _ _. cbn. split_and!; [|done|lia|done].
  intros id. pose proof (claim_rows_claims now_ns (seconds w1) (w_drawn w1) _ (w_chats w1) (w_chats w1)
    (due_rows_wait now_ns limit w1) (λ id, or_introl eq_refl) id) as [He|[Hw [c Hc]]]; [by apply calm_same|by eapply calm_claim].
Qed.

Lemma cancellations_rest now_ns now event rows updates :
  cancellations now_ns now event rows = Ok updates → Forall (λ u, ∀ c, view_of (u.2 c) = view_of c ∨ view_of (u.2 c) = Resting) updates.
Proof.
  revert updates. induction rows as [|[id row] rows IH]; intros updates; cbn; [intros [= <-]; constructor|].
  destruct (cancels event (c_meta row)) as [b|e]; [|done]. cbn. destruct (cancellations _ _ _ rows) as [rest|e]; [|done]. cbn.
  intros [= <-]. destruct b; [constructor|]; auto. cbn. intros c. right. apply cancelled_rests.
Qed.

Lemma wp_cancel Q s parent event user w : (∀ r w1, Q r s w1) → wp Q s (cancel_timers_for_chat parent event user) w.
Proof.
  intros HQ. unfold cancel_timers_for_chat. apply wp_bind, wp_observe. intros w1 _ _.
  apply wp_bind. destruct (cancellations _ _ _ _) as [updates|e] eqn:E; [|apply HQ].
  apply (wp_updates Q s (λ _, updates)); [|done]. intros _. by eapply cancellations_rest.
Qed.

Lemma wp_insert Q s user prompt parent message model due events run w :
  (∀ r w1, Q r s w1) → wp Q s (perform (insert_timer uuid4 user prompt parent message model due events run)) w.
Proof.
  intros HQ. apply wp_calm. intros w1 _ _. unfold insert_timer. destruct (w_chats w1 !! uuid4 (w_drawn w1)) as [c|] eqn:E; cbn.
  - split_and!; [intros id; by apply calm_same|done|lia|done].
  - split_and!; [|done|lia|done]. intros id. destruct (decide (id = uuid4 (w_drawn w1))) as [->|Hne].
    + edestruct (new_id w1) as [H1 H2]; [|eapply calm_new; [exact H1|exact H2|]]; [cbn; lia|]. unfold seen. cbn. by rewrite lookup_insert_eq.
    + apply calm_same. unfold seen. cbn. by rewrite lookup_insert_ne.
Qed.

(** *** Executions *)

Lemma wp_requeue (Q : res unit → phase → world → Prop) t c row w :
  past w t → (∀ r s w1, Q r s w1) → wp Q (Active t c) (requeue t row) w.
Proof.
  intros Hp HQ. unfold requeue. apply wp_bind. destruct (match dget (c_meta row) "timer_at" with VNone => _ | _ => _ end) as [timer_at|e]; [|apply HQ].
  intros w1 HR Hok. set (m := update_rows _ w1).
  assert (Hm : m = (Ok tt, set_chats (alter (with_meta (requeued_meta (c_meta row)) timer_at (seconds w1)) t (w_chats w1)) w1)
               ∧ is_Some (w_chats w1 !! t) ∨ m = (Err stale_data, w1)).
  { unfold m, update_rows. cbn. case_bool_decide; [left; by split|by right]. }
  destruct Hm as [[-> Hrow]| ->]; cbn [fst snd].
  - assert (Hc : ∀ id, id ≠ t → calm w1 (set_chats (alter (with_meta (requeued_meta (c_meta row)) timer_at (seconds w1)) t (w_chats w1)) w1) id).
    { intros id Hne. apply calm_same. unfold seen. cbn. by rewrite lookup_alter_ne. }
    edestruct (calm_keeps w1) as [Hok' HR']; [|exact Hc| |done|split_and!; [exact Hok'|exact HR'|exists Idle; split; [by apply move_requeue|apply HQ]]]; [done|].
    intros _. split; [by eapply past_later|]. unfold seen. by destruct Hrow as [? ->].
  - split_and!; [done..|]. eexists. split; [apply step_refl|apply HQ].
Qed.

Lemma completed_rests now_ns meta timer_at now c : view_of (with_meta (completed_meta now_ns meta) timer_at now c) = Resting.
Proof. apply (state_rests meta "completed" "timer_completed_at"); [set_solver|done]. Qed.

(** The commit leaves the timer at rest. *)
Lemma commit_turn_rests t parent_id prompt model_id meta row w r w' :
  commit_turn uuid4 t parent_id prompt model_id meta row w = (r, w') → (row = None → w_chats w !! t = None) →
  (∀ id, calm w w' id) ∧ w_sent w' = w_sent w ∧ (w_drawn w <= w_drawn w')%nat ∧
  (is_ok r = true → ∀ v, seen w' t = Some v → v = Resting).
Proof.
  unfold commit_turn. intros Hc Hrow.
  destruct (w_chats w !! parent_id) as [parent|]; [|injection Hc as <- <-; split_and!; [by intros; apply calm_same|done|cbn; lia|done]].
  destruct (add_turn _ _ _ _ _ _ _ _) as [[[chat message_list] user_message]|e];
    [|injection Hc as <- <-; split_and!; [by intros; apply calm_same|done|cbn; lia|done]].
  set (f := λ c : Timers.chat, ChatItem _ (c_meta c) (c_timer_at c)) in Hc.
  set (g := λ (r c : Timers.chat), with_meta (completed_meta (w_now w) (c_meta r)) (c_timer_at c) (seconds w) c).
  set (updates := (parent_id, f) :: match row with Some r => [(t, g r)] | None => [] end).
  change (_ :: match row with Some _ => _ | None => [] end) with updates in Hc.
  assert (Hu : Forall (λ u, ∀ c, view_of (u.2 c) = view_of c ∨ view_of (u.2 c) = Resting) updates).
  { constructor; [by left|]. destruct row; constructor; [|constructor]. intros c0. right. apply completed_rests. }
  destruct (update_rows_calm updates w Hu) as (Hcalm & Hs & Hd).
  assert (Ht : ∀ v, (update_rows updates w).1 = Ok tt → seen (update_rows updates w).2 t = Some v → v = Resting).
  { intros v. unfold update_rows. destruct (forallb _ _); [|done]. intros _. unfold seen. cbn. subst updates.
    destruct row as [r0|]; cbn.
    - rewrite lookup_alter_eq. destruct (alter f parent_id _ !! t); cbn; [|done]. intros [= <-]. apply completed_rests.
    - destruct (decide (t = parent_id)) as [->|Hne]; rewrite ?lookup_alter_eq, ?lookup_alter_ne by done; by rewrite Hrow. }
  destruct (update_rows updates w) as [o w1] eqn:Eu. cbn in *. injection Hc as <- <-. split_and!; [|done|cbn; lia|].
  - intros id. destruct (Hcalm id) as [He|He|Hx He|d Hw He|v Hn Hp He];
      [by apply calm_same|by apply calm_gone|by apply calm_rest|by eapply calm_claim|].
    eapply calm_new; [done| |done]. eapply past_grows; [|done]. cbn. lia.
  - intros Ho v. destruct o as [[]|]; [|done]. by apply Ht.
Qed.

Lemma wp_commit (Q : res (string * list pyval * pydict) → phase → world → Prop) t c parent_id prompt model_id meta row w :
  past w t → (row = None → w_chats w !! t = None) → (∀ a w1, Q (Ok a) (Fired t) w1) → (∀ e s w1, Q (Err e) s w1) →
  wp Q (Active t c) (perform (commit_turn uuid4 t parent_id prompt model_id meta row)) w.
Proof.
  intros Hp Hrow HQ He w1 HR Hok. destruct (commit_turn _ _ _ _ _ _ _ _) as [r w2] eqn:E.
  assert (Hrow1 : row = None → w_chats w1 !! t = None) by (intros Hn; apply HR; auto).
  destruct (commit_turn_rests _ _ _ _ _ _ _ _ _ E Hrow1) as (Hc & Hs & Hd & Ht). cbn [fst snd].
  destruct (calm_all w1 w2 Hd Hc Hok) as [Hok' HR']. split_and!; [done..|].
  destruct r as [a|e].
  - exists (Fired t). split; [|apply HQ]. apply move_fire; [by auto|by apply Ht|done].
  - exists (Active t c). split; [by apply move_calm|apply He].
Qed.

Lemma wp_save_error Q s parent_id message_id text w :
  (∀ r w1, Q r s w1) → wp Q s (perform (save_error repr_other parent_id message_id text)) w.
Proof.
  intros HQ. apply wp_calm. intros w1 _ _. unfold save_error. destruct (w_chats w1 !! parent_id) as [c|] eqn:E.
  - destruct (save_message _ _ _ _ _ _) as [[row rows]|e]; cbn.
    + split_and!; [|done|lia|done]. intros id. apply calm_same. unfold seen. cbn.
      destruct (decide (id = parent_id)) as [->|]; [by rewrite lookup_insert_eq, E|by rewrite lookup_insert_ne].
    + split_and!; [by intros; apply calm_same|done|lia|done].
  - cbn. split_and!; [by intros; apply calm_same|done|lia|done].
Qed.

Lemma wp_send {A} (Q : res A → phase → world → Prop) t form a w :
  (∀ w1, Q (Ok a) Idle w1) → wp Q (Fired t) (perform (λ w, (Ok a, send t form w))) w.
Proof.
  intros HQ w1 HR Hok. cbn [fst snd].
  destruct (calm_all w1 (send t form w1)) as [Hok' HR']; [done|by intros; apply calm_same|done|].
  split_and!; [done..|]. exists Idle. split; [by apply (move_send _ _ t form)|apply HQ].
Qed.

Lemma wp_complete (Q : res unit → phase → world → Prop) t parent_id message_id form w :
  (∀ r s w1, Q r s w1) → wp Q (Fired t) (complete repr_other exn_text completion t parent_id message_id form) w.
Proof.
  intros HQ. unfold complete. apply wp_bind, wp_send. intros w1. destruct (completion form); [apply HQ|].
  apply wp_bind, wp_set_error. intros [[]|e'] w2; [|apply HQ]. by apply wp_save_error.
Qed.

Lemma wp_given {A B} (Q : res B → phase → world → Prop) s (r : res A) (f : A → prog world B) w :
  (∀ a, wp Q s (f a) w) → (∀ e, Q (Err e) s w) → wp Q s (lift r ≫= f) w.
Proof. intros Hf He. apply wp_bind. destruct r as [a|e]; [apply Hf|apply He]. Qed.

Lemma wp_run_turn (Q : res unit → phase → world → Prop) t c parent_id user_id prompt model_id meta run w :
  past w t → (∀ r s w1, Q r s w1) →
  wp Q (Active t c) (run_turn uuid4 repr_other exn_text completion t parent_id user_id prompt model_id meta run) w.
Proof.
  intros Hp HQ. unfold run_turn. apply wp_bind, wp_observe. intros w1 HR1 _.
  case_goal; [by apply wp_set_error|].
  apply wp_bind, wp_observe. intros w2 HR2 _. apply wp_bind, wp_observe. intros w3 HR3 _.
  assert (Hp3 : past w3 t) by (eapply past_later; [|exact Hp]; by do 2 (etrans; [done|])).
  case_goal.
  - destruct (w_chats w3 !! t) as [row|]; [by apply wp_requeue|apply HQ].
  - apply wp_bind, wp_commit; [done|done| |auto].
    intros [[message_id message_list] user_message] w4. apply wp_given; [intros form; by apply wp_complete|auto].
Qed.

Lemma wp_check_owner (Q : res unit → phase → world → Prop) t c parent_id user_id meta w :
  past w t → (∀ r s w1, Q r s w1) →
  wp Q (Active t c) (check_owner uuid4 repr_other exn_text completion t parent_id user_id meta) w.
Proof.
  intros Hp HQ. unfold check_owner. apply wp_bind, wp_observe. intros w1 HR1 _.
  apply wp_given; [intros message|by auto]. case_goal; [by apply wp_set_error|].
  apply wp_bind, wp_observe. intros w2 HR2 _. destruct (w_roles w2 !! user_id) as [role|]; [|by apply wp_set_error].
  case_goal; [by apply wp_set_error|]. apply wp_given; [intros r|by auto].
  case_goal; [by apply wp_set_error|]. apply wp_given; [intros prompt|by auto].
  apply wp_run_turn; [|done]. eapply past_later; [|exact Hp]. by etrans.
Qed.

(** A read that moves its program *)
Lemma wp_look {A} (Q : res A → phase → world → Prop) s (f : world → A) w :
  (∀ w1, later w w1 → ok w1 → ∃ s', step_of s s' w1 w1 ∧ Q (Ok (f w1)) s' w1) → wp Q s (query f) w.
Proof. intros HQ w1 HR Hok. destruct (HQ w1 HR Hok) as (s' & Hs & Hq). split_and!; [done..|]. by exists s'. Qed.

Lemma claimed_seen w t c timer :
  w_chats w !! t = Some timer → status_is "running" (c_meta timer) && claimed_by (Some c) (c_meta timer) = true →
  seen w t = Some (Running (VStr c)).
Proof.
  intros Et [Hrun Hclaim]%andb_true_iff. cbn in Hclaim. apply veq_str_true in Hclaim.
  unfold seen. rewrite Et. cbn. unfold view_of. rewrite Hrun, Hclaim.
  destruct (status_is "pending" (c_meta timer)) eqn:Ep; [|done].
  apply veq_str_true in Ep. unfold status_is in Hrun. by rewrite Ep in Hrun.
Qed.

Lemma wp_execute (Q : res unit → phase → world → Prop) t c w :
  (∀ r s w1, Q r s w1) →
  wp Q (Ready t c) (execute_due_timer uuid4 repr_other exn_text completion t (Some c)) w.
Proof.
  intros HQ. unfold execute_due_timer. apply wp_bind, wp_look. intros w1 HR Hok.
  destruct (get_chat_by_id t w1) as [timer|] eqn:Et; [|eexists; split; [apply step_refl|apply HQ]].
  assert (Hrow : w_chats w1 !! t = Some timer).
  { unfold get_chat_by_id in Et. destruct (w_chats w1 !! t) as [x|]; [|done]. cbn in Et. by destruct (readable x). }
  destruct (status_is _ _ && claimed_by _ _) eqn:Eb; cbn [negb]; [|eexists; split; [apply step_refl|apply HQ]].
  pose proof (claimed_seen w1 t c timer Hrow Eb) as Hv. assert (Hp : past w1 t) by by apply (Hok t _ Hv).
  exists (Active t c). split; [by apply move_start|].
  apply wp_bind, wp_observe. intros w2 HR2 _.
  destruct (get_chat_by_id_and_user_id _ _ _); [|by apply wp_set_error].
  destruct (por _ _); try by apply wp_set_error. apply wp_check_owner; [|done]. by eapply past_later.
Qed.

(** Where a call starts *)
Definition start_of (c : call) : phase := match c with Execute t c => Ready t c | _ => Idle end.

Notation run := (run uuid4 instant_ns iso_utc require_chat_creation_permission repr_other exn_text completion).

Lemma run_ok (Q : res unit → phase → world → Prop) c w : (∀ r s w1, Q r s w1) → wp Q (start_of c) (run c) w.
Proof.
  intros HQ. destruct c; cbn [start_of Timers.run].
  - apply wp_fmap. unfold create_timer. case_goal; [apply HQ|]. case_goal; [apply HQ|]. apply wp_bind, wp_observe. intros w1 _ _.
    destruct (parse_timer_at _ _ _); [|apply HQ]. case_goal; [apply HQ|]. apply wp_given; [intros model|by auto].
    case_goal; [apply HQ|]. case_goal; [apply HQ|]. apply wp_given; [intros []|by auto].
    apply wp_bind, wp_insert. intros [[]|e] w2; apply HQ.
  - apply wp_fmap, wp_claim. auto.
  - apply wp_cancel. auto.
  - by apply wp_execute.
Qed.

Lemma view_rests c : view_of c = Resting ↔ status_is "pending" (c_meta c) = false ∧ status_is "running" (c_meta c) = false.
Proof. unfold view_of. destruct (status_is "pending" _), (status_is "running" _); naive_solver. Qed.

Definition starts (calls : list call) (i : nat) : phase := default Idle (start_of <$> calls !! i).

Lemma starts_good w calls :
  w_sent w = [] → (∀ i j t t' c, calls !! i = Some (Execute t c) → calls !! j = Some (Execute t' c) → i = j) →
  good w (starts calls).
Proof.
  intros Hs Hc. split; [| | | | |by rewrite Hs; constructor].
  - intros i j c. unfold starts. destruct (calls !! i) as [[]|] eqn:Ei; try done.
    destruct (calls !! j) as [[]|] eqn:Ej; try done. cbn. intros [= ->] [= ->]. by eapply Hc.
  - intros i t c. unfold starts. by destruct (calls !! i) as [[]|].
  - intros i t. unfold starts. by destruct (calls !! i) as [[]|].
  - intros i j t _. unfold starts. by destruct (calls !! i) as [[]|].
  - intros t. rewrite Hs. by intros ?%elem_of_nil.
Qed.

End Once.

(** ** A timer that is due *)

Definition example_id (n : nat) : string := "u" +:+ pretty n.

Lemma example_id_inj n m : example_id n = example_id m → n = m.
Proof. intros He. injection He as He. by apply (inj pretty). Qed.

Definition example_row (chat : pydict) : ChatTree.chat_row :=
  {| cr_user_id := "owner"; cr_chat := chat; cr_title := VNone; cr_current_message_id := VNone; cr_updated_at := 0 |}.
Definition example_parent : chat :=
  ChatItem (example_row [("history", VDict [("messages", VDict [("m", VDict
    [("id", VStr "m"); ("parentId", VNone); ("childrenIds", VList []); ("role", VStr "assistant"); ("content", VStr "hello");
     ("timestamp", VInt 1)])])])]) [] None.
Definition example_timer : chat :=
  ChatItem (example_row (timer_chat "t" "q" "go on" (VStr "model") 0))
    (timer_meta "q" "p" VNone (VStr "model") 5 ["chat.read"] (run_of [] (VStr "model"))) (Some 5).
Definition example_world (active : gset string) : world :=
  World {["p" := example_parent; "t" := example_timer]} {["owner" := "user"]} ∅ active 10 0 [].

Definition example_run : call → prog world unit :=
  run example_id (λ _, None) (λ _, EmptyString) (λ _, Ok tt) (λ _, EmptyString) (λ _, "failed") (λ _, Ok tt).

(** Two executions, of which one has the claim *)
Definition example_calls : list call := [Claim 10 10; Execute "t" "u0"; Execute "t" "u1"; CancelFor "p" "chat.read" "owner"].
Definition example_schedule : list nat := [0; 1; 2; 1; 1; 1; 3; 1; 1; 1; 1; 1; 2; 3]%nat.
Definition example_end : world * list (prog world unit) :=
  run_schedule example_schedule (example_world ∅) (example_run <$> example_calls).

Lemma example_ok active : ok example_id (example_world active).
Proof.
  intros id v Hv _ n _ ->. unfold seen in Hv. cbn [w_chats example_world] in Hv.
  rewrite lookup_insert_ne in Hv by (intros He; discriminate He). by rewrite lookup_singleton_ne in Hv by (intros He; discriminate He).
Qed.


(** *** Where the code departs from it *)

(** A timer is cancelled while it is claimed, and the execution that finds its chat busy
    makes it wait again: the cancelled timer runs later. *)
Example cancelled_timer_waits_again :
  let w := (run_schedule [2; 0; 1; 1; 1; 1; 1; 1; 1; 2]%nat (example_world (singleton "p"))
              (example_run <$> [Claim 10 10; Execute "t" "u0"; CancelFor "p" "chat.read" "owner"])) in
  let w' := run_schedule [1]%nat w.1 w.2 in
  (λ c, dget (c_meta c) "status") <$> w_chats w.1 !! "t" = Some (VStr "cancelled") ∧
  (λ c, (dget (c_meta c) "status", c_timer_at c)) <$> w_chats w'.1 !! "t" = Some (VStr "pending", Some 5).
Proof. vm_compute. split; reflexivity. Qed.

(** An execution that raises before the request leaves its timer running for good: nothing
    claims it again, as nothing does after the process stops. *)
Example failed_execution_stays_running :
  let stamp v := VDict [("id", VStr "m"); ("parentId", VNone); ("role", VStr "assistant"); ("timestamp", v)] in
  let parent := ChatItem (example_row [("history", VDict [("messages", VDict [("m", stamp (VInt 1)); ("n", stamp VNone)])])]) [] None in
  let w := World {["p" := parent; "t" := example_timer]} {["owner" := "user"]} ∅ ∅ 10 0 [] in
  let e := run_schedule [0; 1; 1; 1; 1; 1; 1; 1; 1; 2]%nat w (example_run <$> [Claim 10 10; Execute "t" "u0"; Claim 20 10]) in
  e.2 !! 1%nat = Some (Done (Err TypeError)) ∧
  (λ c, (dget (c_meta c) "status", c_timer_at c)) <$> w_chats e.1 !! "t" = Some (VStr "running", None).
Proof. vm_compute. split; reflexivity. Qed.
