(* ===== verification/Folders.v ===== *)
(** * Chat folders: the table of models/folders.py and the routes of routers/folders.py
    that change its trees (listing with its repairs, creation, updates, moves, deletion).

    A route runs in one request; its statements are not interleaved with others.  A query
    without an order answers in the order of [map_to_list].  The checks of permissions and
    of files ([utils/access_control/files.py]) are parameters; published events are left out. *)

From S2P Require Import Prelude PyVal AccessGrants AccessControl.
From stdpp Require Import gmap strings.
From Stdlib Require Import Ascii.

Local Open Scope Z_scope.

(** ** Rows *)

Record folder := Folder {
  f_id : string; f_parent : option string; f_user : string; f_name : string;
  f_meta : option pydict; f_data : option pydict; f_expanded : bool; f_created : Z; f_updated : Z }.

Notation folders := (gmap string folder).

Definition set_parent (parent : option string) (now : Z) (f : folder) : folder :=
  Folder (f_id f) parent (f_user f) (f_name f) (f_meta f) (f_data f) (f_expanded f) (f_created f) now.
Definition set_expanded (b : bool) (now : Z) (f : folder) : folder :=
  Folder (f_id f) (f_parent f) (f_user f) (f_name f) (f_meta f) (f_data f) b (f_created f) now.
Definition set_fields (name : string) (data meta : option pydict) (now : Z) (f : folder) : folder :=
  Folder (f_id f) (f_parent f) (f_user f) name meta data (f_expanded f) (f_created f) now.

Record FolderForm := Form { fo_name : string; fo_data : option pydict; fo_meta : option pydict; fo_parent_id : option string }.
(** [FolderUpdateForm]: the fields that were sent, which may be null *)
Record FolderUpdateForm := UpdateForm {
  fu_name : option (option string); fu_data : option (option pydict); fu_meta : option (option pydict) }.

(** ** [FolderTable] *)

Definition rows (t : folders) : list folder := (map_to_list t).*2.
Definition select (p : folder → bool) (t : folders) : list folder := List.filter p (rows t).

Definition owned_by (user_id : string) (f : folder) : bool := String.eqb (f_user f) user_id.
Definition below (parent_id : option string) (f : folder) : bool := bool_decide (f_parent f = parent_id).

(** [insert_new_folder]; [id] is the uuid that is drawn *)
Definition insert_new_folder (id user_id : string) (form : FolderForm) (parent_id : option string) (now : Z)
    : st folders (option folder) := λ t,
  let f := Folder id parent_id user_id (fo_name form) (fo_meta form) (fo_data form) false now now in
  match t !! id with
  | Some _ => (Ok None, t)
  | None => (Ok (Some f), <[id := f]> t)
  end.

Definition find_owned (id user_id : string) (t : folders) : option folder :=
  f ← t !! id; if owned_by user_id f then Some f else None.
Definition get_folder_by_id_and_user_id (id user_id : string) (t : folders) : option folder := find_owned id user_id t.
Definition get_folder_by_id (id : string) (t : folders) : option folder := t !! id.
Definition get_folders_by_user_id (user_id : string) (t : folders) : list folder := select (owned_by user_id) t.

Definition newer (a b : folder) : bool := f_updated b <=? f_updated a.

(** [get_folders_by_parent_id_and_user_id] *)
Definition get_folders_by_parent_id_and_user_id (parent_id : option string) (user_id : string) (t : folders) : list folder :=
  py_sorted newer (select (λ f, below parent_id f && owned_by user_id f) t).

Definition same_name (name : string) (f : folder) : bool := String.eqb (Str.lower (f_name f)) (Str.lower name).

(** [get_folder_by_parent_id_and_user_id_and_name] *)
Definition get_folder_by_parent_id_and_user_id_and_name (parent_id : option string) (user_id name : string) (t : folders)
    : option folder :=
  find_first (λ f, below parent_id f && owned_by user_id f && same_name name f) (rows t).

(** *** Subtrees *)

(** Where a recursion over the children stands *)
Record visit := Visit { v_table : folders; v_seen : list string; v_ids : list string }.

Definition mark (id : string) (v : visit) : visit := Visit (v_table v) (id :: v_seen v) (v_ids v).

Fixpoint each {S A} (f : A → st S unit) (l : list A) : st S unit :=
  match l with [] => mret tt | a :: l => _ ← f a; each f l end.

Section Descend.
(** What is done with a child once its own children are done *)
Context (user_id : string) (finish : string → folders → folders).

Definition finished (id : string) (v : visit) : visit := Visit (finish id (v_table v)) (v_seen v) (v_ids v ++ [id]).

(** The inner [get_children] and [delete_children]; [depth] is what the interpreter still
    has of its recursion limit. *)
Fixpoint descend (depth : nat) (id : string) : st visit unit :=
  match depth with
  | O => raise RecursionError
  | S depth => λ v,
      each (λ child v,
        if bool_decide (f_id child ∈ v_seen v) then (Ok tt, v)
        else
          match descend depth (f_id child) (mark (f_id child) v) with
          | (Ok _, v) => (Ok tt, finished (f_id child) v)
          | (Err e, v) => (Err e, v)
          end) (get_folders_by_parent_id_and_user_id (Some id) user_id (v_table v)) v
  end.
End Descend.

(** [get_children_folders_by_id_and_user_id] *)
Definition get_children_folders_by_id_and_user_id (depth : nat) (id user_id : string) (t : folders) : option (list folder) :=
  match find_owned id user_id t with
  | None => None
  | Some _ =>
      match descend user_id (λ _ t, t) depth id (Visit t [id] []) with
      | (Ok _, v) => Some (omap (M:=list) (λ i, t !! i) (v_ids v))
      | (Err _, _) => None
      end
  end.

(** [delete_folder_by_id_and_user_id]: every deletion is committed on its own *)
Definition delete_folder_by_id_and_user_id (depth : nat) (id user_id : string) : st folders (list string) := λ t,
  match find_owned id user_id t with
  | None => (Ok [], t)
  | Some _ =>
      match descend user_id delete depth id (Visit t [id] []) with
      | (Ok _, v) => (Ok (id :: v_ids v), delete id (v_table v))
      | (Err _, v) => (Ok [], v_table v)
      end
  end.

(** The children that are not yet known, in order *)
Fixpoint new_children (known : list string) (children : list folder) : list string :=
  match children with
  | [] => []
  | c :: children =>
      if bool_decide (f_id c ∈ known) then new_children known children
      else f_id c :: new_children (f_id c :: known) children
  end.

(** The loop of [get_folder_ids_by_id_and_user_id_in_subtree]: the list [folders], its end
    first, and the set of ids; it runs once per id at most. *)
Fixpoint subtree_loop (fuel : nat) (user_id : string) (t : folders) (folder_ids stack : list string) : list string :=
  match fuel, stack with
  | S fuel, id :: stack =>
      let new := new_children folder_ids (get_folders_by_parent_id_and_user_id (Some id) user_id t) in
      subtree_loop fuel user_id t (folder_ids ++ new) (rev new ++ stack)
  | _, _ => folder_ids
  end.

(** [get_folder_ids_by_id_and_user_id_in_subtree], a set in the code *)
Definition get_folder_ids_by_id_and_user_id_in_subtree (id user_id : string) (t : folders) : list string :=
  match find_owned id user_id t with
  | None => []
  | Some _ => subtree_loop (S (size t)) user_id t [id] [id]
  end.

(** *** Updates *)

Definition update_row (id user_id : string) (f : folder → folder) : st folders (option folder) := λ t,
  match find_owned id user_id t with
  | None => (Ok None, t)
  | Some row => (Ok (Some (f row)), <[id := f row]> t)
  end.

Definition update_folder_parent_id_by_id_and_user_id (id user_id : string) (parent_id : option string) (now : Z)
    : st folders (option folder) := update_row id user_id (set_parent parent_id now).

Definition update_folder_is_expanded_by_id_and_user_id (id user_id : string) (b : bool) (now : Z)
    : st folders (option folder) := update_row id user_id (set_expanded b now).

(** [{**(old or {}), **new}]; a null [new] raises *)
Definition merge_field (old : option pydict) (new : option (option pydict)) : res (option pydict) :=
  match new with
  | None => Ok old
  | Some None => Err TypeError
  | Some (Some d) => Ok (Some (dict_update (default [] old) d))
  end.

(** A name is not null in the database: an exception answers None. *)
Definition update_folder_by_id_and_user_id (id user_id : string) (form : FolderUpdateForm) (now : Z)
    : st folders (option folder) := λ t,
  match find_owned id user_id t with
  | None => (Ok None, t)
  | Some f =>
      let same_row g := match default None (fu_name form) with Some name => String.eqb (f_name g) name | None => false end in
      let existing := find_first (λ g, same_row g && below (f_parent f) g && owned_by user_id g) (rows t) in
      if match existing with Some g => negb (String.eqb (f_id g) id) | None => false end then (Ok None, t)
      else
        match default (Some (f_name f)) (fu_name form), merge_field (f_data f) (fu_data form), merge_field (f_meta f) (fu_meta form) with
        | Some name, Ok data, Ok meta => update_row id user_id (set_fields name data meta now) t
        | _, _, _ => (Ok None, t)
        end
  end.

(** *** Searches *)

(** [re.sub(r'[\s_]+', ' ', name)]; [gap] when the last character was one of them *)
Fixpoint squeeze (gap : bool) (s : string) : string :=
  match s with
  | EmptyString => EmptyString
  | String c s =>
      if Str.is_space c || Ascii.eqb c "_" then (if gap then squeeze true s else String " " (squeeze true s))
      else String c (squeeze false s)
  end.
Definition normalize_folder_name (name : string) : string := Str.lower (Str.strip (squeeze false name)).

Definition add_result (results : list (string * folder)) (f : folder) : list (string * folder) := dict_set (f_id f) f results.

(** [search_folders_by_names] *)
Definition search_folders_by_names (depth : nat) (user_id : string) (queries : list string) (t : folders) : list folder :=
  let normalized := map normalize_folder_name queries in
  (foldl (λ results f,
     if bool_decide (normalize_folder_name (f_name f) ∈ normalized)
     then foldl add_result (add_result results f)
            (default [] (get_children_folders_by_id_and_user_id depth (f_id f) user_id t))
     else results) [] (select (owned_by user_id) t)).*2.

(** [search_folders_by_name_contains] *)
Definition search_folders_by_name_contains (user_id query : string) (t : folders) : list folder :=
  List.filter (λ f, Str.contains (normalize_folder_name query) (normalize_folder_name (f_name f)))
    (select (owned_by user_id) t).

(** [get_shared_folder_ids_for_user]: the highest permission per folder *)
Definition shared_with (user_id : string) (user_group_ids : list string) (t : folders) (g : grant) : bool :=
  String.eqb (gr_resource_type g) "folder"
  && (match t !! gr_resource_id g with Some f => owned_by user_id f | None => false end
      || matches_principal user_id user_group_ids (gr_principal_type g) (gr_principal_id g)).
Definition get_shared_folder_ids_for_user (user_id : string) (user_group_ids : list string) (t : folders) (d : grant_db)
    : list (string * string) :=
  foldl (λ perms g,
    if bool_decide (dict_get (gr_resource_id g) perms = Some "write") then perms
    else dict_set (gr_resource_id g) (gr_permission g) perms) []
    (List.filter (shared_with user_id user_group_ids t) (gdb_grants d)).

(** ** Routes *)

Record chat_link := ChatLink { cl_user : string; cl_folder : option string; cl_internal : bool }.
Record automation_link := AutomationLink { al_user : string; al_folder : option string }.
Record tables := Tables {
  t_folders : folders; t_chats : gmap string chat_link; t_grants : grant_db; t_automations : gmap string automation_link }.

Definition on_folders {A} (m : st folders A) : st tables A := λ w,
  let '(r, t) := m (t_folders w) in (r, Tables t (t_chats w) (t_grants w) (t_automations w)).
Definition on_chats (f : gmap string chat_link → gmap string chat_link) : st tables unit := λ w,
  (Ok tt, Tables (t_folders w) (f (t_chats w)) (t_grants w) (t_automations w)).
Definition on_grants {A} (m : st grant_db A) : st tables A := λ w,
  let '(r, g) := m (t_grants w) in (r, Tables (t_folders w) (t_chats w) g (t_automations w)).
Definition on_automations (f : gmap string automation_link → gmap string automation_link) : st tables unit := λ w,
  (Ok tt, Tables (t_folders w) (t_chats w) (t_grants w) (f (t_automations w))).

Record requester := Requester { u_id : string; u_role : string }.
Definition is_admin (u : requester) : bool := String.eqb (u_role u) "admin".
Definition in_folder (folder_id : string) (o : option string) : bool := bool_decide (o = Some folder_id).

(** *** Reading the tree of a user *)

(** [{folder.id: folder.parent_id for folder in folders}] *)
Definition parents_of (l : list folder) : gmap string (option string) :=
  foldl (λ m f, <[f_id f := f_parent f]> m) ∅ l.
(** [parent_by_id.get(id)] and its truth *)
Definition parent_in (parents : gmap string (option string)) (id : string) : option string :=
  nonempty (default None (parents !! id)).

(** The loop of [is_in_parent_cycle]: the id where it stops *)
Fixpoint climb (fuel : nat) (parents : gmap string (option string)) (seen : list string) (current : option string) : option string :=
  match fuel, current with
  | S fuel, Some id => if bool_decide (id ∈ seen) then Some id else climb fuel parents (id :: seen) (parent_in parents id)
  | _, _ => None
  end.
Definition is_in_parent_cycle (parents : gmap string (option string)) (id : string) : bool :=
  bool_decide (climb (S (S (size parents))) parents [id] (parent_in parents id) = Some id).

(** [get_folder_unread_counts], from the counts of the folders themselves *)
Fixpoint add_unread (fuel : nat) (parents : gmap string (option string)) (seen : list string) (count : Z) (current : option string)
    (counts : gmap string Z) : gmap string Z :=
  match fuel, current with
  | S fuel, Some id =>
      if bool_decide (id ∈ seen) then counts
      else add_unread fuel parents (id :: seen) count (parent_in parents id) (alter (λ n, n + count) id counts)
  | _, _ => counts
  end.
Definition get_folder_unread_counts (parents : gmap string (option string)) (direct : list (string * Z)) : gmap string Z :=
  foldl (λ counts kv, add_unread (S (S (size parents))) parents [] kv.2 (nonempty (Some kv.1)) counts)
    ((λ _, 0) <$> parents) direct.

(** [len] *)
Definition py_len (v : pyval) : res nat :=
  match v with
  | VList l => Ok (length l)
  | VDict d => Ok (length d)
  | VStr s => Ok (String.length s)
  | _ => Err TypeError
  end.

Section Routes.
(** [check_folders_permission]; who may read files; the count of unread chats; whether
    chats may be deleted; the groups of a user *)
Context (check_folders_permission : requester → res unit).
Context (can_read_all_folder_files : string → pyval → bool) (accessible_folder_files : requester → pyval → list pyval).
Context (user_exists : string → bool) (count_unread : requester → tables → list (string * Z)).
Context (may_delete_chats : requester → bool) (groups_of : string → list string).
Context (depth : nat).

Definition forbidden {A} : st tables A := raise (HTTPException 403 "ACCESS_PROHIBITED").
Definition not_found {A} : st tables A := raise (HTTPException 404 "NOT_FOUND").
Definition bad_request {A} (message : string) : st tables A := raise (HTTPException 400 message).
Definition gets {A} (f : folders → A) : st tables A := st_gets (λ w, f (t_folders w)).

Definition as_row (f : folder) : AccessControl.folder :=
  {| AccessControl.fo_id := f_id f; fo_user_id := f_user f; fo_parent := f_parent f |}.
(** [_has_folder_access] *)
Definition has_folder_access (user_id permission : string) (f : folder) : st tables bool :=
  st_gets (λ w, AccessControl.has_folder_access (as_row <$> t_folders w) (t_grants w) groups_of user_id (as_row f) permission).

(** *** Listing *)

(** The files of a folder that the user may read no more are dropped. *)
Definition drop_files (u : requester) (f : folder) (now : Z) : st tables folder :=
  match f_data f with
  | Some data =>
      match dict_get "files" data with
      | None => mret f
      | Some files =>
          let accessible := accessible_folder_files u files in
          n ← st_lift (py_len files);
          if (length accessible =? n)%nat then mret f
          else
            let data := dict_set "files" (VList accessible) data in
            _ ← on_folders (update_folder_by_id_and_user_id (f_id f) (u_id u) (UpdateForm None (Some (Some data)) None) now);
            mret (set_fields (f_name f) (Some data) (f_meta f) (f_updated f) f)
      end
  | None => mret f
  end.

(** A folder whose parent is missing or loops goes back to the root. *)
Definition repair_folder (u : requester) (now : Z) (parents : gmap string (option string)) (f : folder)
    : st tables (gmap string (option string) * folder) :=
  match nonempty (f_parent f) with
  | None => mret (parents, f)
  | Some p =>
      if bool_decide (is_Some (parents !! p)) && negb (is_in_parent_cycle parents (f_id f)) then mret (parents, f)
      else
        updated ← on_folders (update_folder_parent_id_by_id_and_user_id (f_id f) (u_id u) None now);
        match updated with
        | Some g => mret (<[f_id f := None]> parents, g)
        | None => raise AttributeError
        end
  end.

Fixpoint list_folders (u : requester) (now : Z) (parents : gmap string (option string)) (l : list folder) : st tables (list folder) :=
  match l with
  | [] => mret []
  | f :: l =>
      '(parents, f) ← repair_folder u now parents f;
      f ← drop_files u f now;
      rest ← list_folders u now parents l;
      mret (f :: rest)
  end.

(** GET / *)
Definition get_folders (u : requester) (now : Z) : st tables (list (folder * Z)) :=
  _ ← st_lift (check_folders_permission u);
  l ← gets (get_folders_by_user_id (u_id u));
  listed ← list_folders u now (parents_of l) l;
  now_l ← gets (get_folders_by_user_id (u_id u));
  direct ← st_gets (count_unread u);
  let counts := get_folder_unread_counts (parents_of now_l) direct in
  mret ((λ f, (f, default 0 (counts !! f_id f))) <$> listed).

(** *** Changing the tree *)

Definition files_in (data : option pydict) : option pyval := d ← data; dict_get "files" d.
Definition may_put_files (user_id : string) (data : option pydict) : bool :=
  match files_in data with Some files => can_read_all_folder_files user_id files | None => true end.

Definition created (o : option folder) : st tables folder :=
  match o with Some f => mret f | None => bad_request "Error creating folder" end.

(** POST /; [id] is the uuid that is drawn *)
Definition create_folder (u : requester) (id : string) (form : FolderForm) (now : Z) : st tables folder :=
  _ ← st_lift (check_folders_permission u);
  existing ← gets (get_folder_by_parent_id_and_user_id_and_name (fo_parent_id form) (u_id u) (fo_name form));
  if bool_decide (is_Some existing) then bad_request "Folder already exists"
  else if negb (may_put_files (u_id u) (fo_data form)) then forbidden
  else
    parent ← match nonempty (fo_parent_id form) with
             | Some p => gets (get_folder_by_id p)
             | None => mret None
             end;
    match parent with
    | Some parent =>
        if String.eqb (f_user parent) (u_id u) then f ← on_folders (insert_new_folder id (u_id u) form (fo_parent_id form) now); created f
        else
          may_write ← has_folder_access (u_id u) "write" parent;
          if negb (is_admin u) && negb may_write then forbidden
          else if bool_decide (is_Some (files_in (fo_data form))) && negb (user_exists (f_user parent)) then not_found
          else if negb (may_put_files (f_user parent) (fo_data form)) then forbidden
          else f ← on_folders (insert_new_folder id (f_user parent) form (fo_parent_id form) now); created f
    | None => f ← on_folders (insert_new_folder id (u_id u) form (fo_parent_id form) now); created f
    end.

(** [form_data.data and 'share_mode' in ... != ...] *)
Definition changes_share_mode (form : FolderUpdateForm) (f : folder) : bool :=
  match fu_data form with
  | Some (Some d) =>
      match dict_get "share_mode" d with
      | Some v => negb (py_eqb v (dget (default [] (f_data f)) "share_mode"))
      | None => false
      end
  | _ => false
  end.

(** The entries of the form that the folder does not have yet *)
Definition added_files (files : pyval) (f : folder) : res pyval :=
  existing ← viter (por (default VNone (files_in (f_data f))) (VList []));
  entries ← viter (por files (VList []));
  Ok (VList (List.filter (λ e, negb (existsb (λ x, py_eqb e x) existing)) entries)).

Definition check_files (u : requester) (form : FolderUpdateForm) (f : folder) : st tables unit :=
  match files_in (default None (fu_data form)) with
  | None => mret tt
  | Some files =>
      if negb (String.eqb (f_user f) (u_id u)) && negb (user_exists (f_user f)) then not_found
      else if negb (can_read_all_folder_files (f_user f) files) then forbidden
      else
        added ← st_lift (added_files files f);
        if can_read_all_folder_files (u_id u) added then mret tt else forbidden
  end.

(** POST /{id}/update *)
Definition update_folder_name_by_id (u : requester) (id : string) (form : FolderUpdateForm) (now : Z) : st tables (option folder) :=
  _ ← st_lift (check_folders_permission u);
  own ← gets (get_folder_by_id_and_user_id id (u_id u));
  f ← match own with
      | Some f => mret f
      | None =>
          other ← gets (get_folder_by_id id);
          match other with
          | None => not_found
          | Some f =>
              may_write ← has_folder_access (u_id u) "write" f;
              if is_admin u || may_write then mret f else not_found
          end
      end;
  if negb (is_admin u) && negb (String.eqb (u_id u) (f_user f)) && changes_share_mode form f then forbidden
  else
    existing ← match default None (fu_name form) with
               | Some name => gets (get_folder_by_parent_id_and_user_id_and_name (f_parent f) (f_user f) name)
               | None => mret None
               end;
    if match existing with Some g => negb (String.eqb (f_id g) id) | None => false end then bad_request "Folder already exists"
    else
      _ ← check_files u form f;
      on_folders (update_folder_by_id_and_user_id id (f_user f) form now).

(** POST /{id}/update/parent *)
Definition move_folder (u : requester) (id : string) (parent_id : option string) (now : Z) : st tables (option folder) :=
  _ ← st_lift (check_folders_permission u);
  own ← gets (get_folder_by_id_and_user_id id (u_id u));
  match own with
  | None => not_found
  | Some f =>
      existing ← gets (get_folder_by_parent_id_and_user_id_and_name parent_id (u_id u) (f_name f));
      if match existing with Some g => negb (String.eqb (f_id g) id) | None => false end then bad_request "Folder already exists"
      else
        below_itself ← match nonempty parent_id with
                       | Some p =>
                           ids ← gets (get_folder_ids_by_id_and_user_id_in_subtree id (u_id u));
                           mret (bool_decide (p ∈ ids))
                       | None => mret false
                       end;
        if (below_itself : bool) then bad_request "Cannot move a folder into itself or one of its subfolders"
        else on_folders (update_folder_parent_id_by_id_and_user_id id (u_id u) parent_id now)
  end.

(** POST /{id}/update/expanded *)
Definition update_folder_is_expanded_by_id (u : requester) (id : string) (b : bool) (now : Z) : st tables (option folder) :=
  _ ← st_lift (check_folders_permission u);
  own ← gets (get_folder_by_id_and_user_id id (u_id u));
  match own with
  | Some _ => on_folders (update_folder_is_expanded_by_id_and_user_id id (u_id u) b now)
  | None =>
      other ← gets (get_folder_by_id id);
      match other with
      | None => not_found
      | Some f =>
          may_read ← has_folder_access (u_id u) "read" f;
          if is_admin u || may_read then mret (Some f)
          else on_folders (update_folder_is_expanded_by_id_and_user_id id (u_id u) b now)
      end
  end.

(** *** Deletion *)

(** [Chats.delete_chats_by_user_id_and_folder_id], [Chats.move_chats_by_folder_id] to no
    folder, [Automations.clear_folder_ids] *)
Definition delete_chats (user_id folder_id : string) (chats : gmap string chat_link) : gmap string chat_link :=
  filter (λ kv, ¬ (cl_user kv.2 = user_id ∧ cl_folder kv.2 = Some folder_id)) chats.
Definition leave_folder (folder_id : string) (c : chat_link) : chat_link :=
  if in_folder folder_id (cl_folder c) then ChatLink (cl_user c) None (cl_internal c) else c.
Definition clear_folder_ids (user_id : string) (ids : list string) (a : automation_link) : automation_link :=
  if String.eqb (al_user a) user_id && match al_folder a with Some i => bool_decide (i ∈ ids) | None => false end
  then AutomationLink (al_user a) None else a.

Definition has_chats (ids : list string) (user_id : string) (chats : gmap string chat_link) : bool :=
  existsb (λ c, String.eqb (cl_user c) user_id && negb (cl_internal c)
                && match cl_folder c with Some i => bool_decide (i ∈ ids) | None => false end) (map_to_list chats).*2.

Definition empty_folder (delete_contents : bool) (owner_id folder_id : string) : st tables unit :=
  _ ← (if delete_contents then on_chats (delete_chats owner_id folder_id) else mret tt);
  _ ← on_chats (fmap (leave_folder folder_id));
  _ ← on_grants (revoke_all_access "folder" folder_id);
  mret tt.

(** DELETE /{id}; the loop ends in its first round *)
Definition delete_folder (u : requester) (id : string) (delete_contents : bool) : st tables bool :=
  _ ← st_lift (check_folders_permission u);
  own ← gets (get_folder_by_id_and_user_id id (u_id u));
  f ← match own with
      | Some f => mret f
      | None =>
          other ← gets (get_folder_by_id id);
          match other with
          | None => not_found
          | Some f => if is_admin u then mret f else forbidden
          end
      end;
  let owner_id := f_user f in
  ids ← gets (get_folder_ids_by_id_and_user_id_in_subtree id owner_id);
  chats ← st_gets (λ w, has_chats ids owner_id (t_chats w));
  if delete_contents && chats && negb (is_admin u) && negb (may_delete_chats u) then forbidden
  else
    deleted ← on_folders (delete_folder_by_id_and_user_id depth (f_id f) owner_id);
    _ ← each (empty_folder delete_contents owner_id) deleted;
    _ ← on_automations (fmap (clear_folder_ids owner_id deleted));
    mret true.
End Routes.
