(* ===== verification/FoldersProps.v ===== *)
(** * Properties of the folders: traversals find the subtree on any table, deletion removes
    exactly it, listing repairs the tree of its user, and moves never make a loop. *)

From S2P Require Import Prelude PyVal AccessGrants AccessControl Folders.
From stdpp Require Import gmap strings.

Local Open Scope Z_scope.

(** Rows are stored under their ids. *)
Definition sound (t : folders) : Prop := ∀ i f, t !! i = Some f → f_id f = i.

Lemma rows_elem t f : sound t → f ∈ rows t ↔ t !! f_id f = Some f.
Proof.
  intros Ht. unfold rows. rewrite list_elem_of_fmap. split.
  - intros ([i g] & -> & Hi%elem_of_map_to_list). cbn. by rewrite (Ht i g Hi).
  - intros Hf. exists (f_id f, f). split; [done|]. by apply elem_of_map_to_list.
Qed.

Lemma select_elem p t f : sound t → f ∈ select p t ↔ p f = true ∧ t !! f_id f = Some f.
Proof.
  intros Ht. unfold select. rewrite list_elem_of_In, filter_In, <-list_elem_of_In, rows_elem by done. tauto.
Qed.

Section Tree.
Context (user_id : string).

(** [c] is a folder of the user directly below [p]. *)
Definition child (t : folders) (p c : string) : Prop :=
  ∃ f, t !! c = Some f ∧ f_parent f = Some p ∧ f_user f = user_id.

Lemma children_spec t id c : sound t →
  c ∈ f_id <$> get_folders_by_parent_id_and_user_id (Some id) user_id t ↔ child t id c.
Proof.
  intros Ht. unfold get_folders_by_parent_id_and_user_id.
  rewrite list_elem_of_fmap. setoid_rewrite py_sorted_perm. unfold child, below, owned_by. split.
  - intros (f & -> & Hf). apply select_elem in Hf as [[Hp%bool_decide_eq_true Hu%String.eqb_eq]%andb_true_iff Hf]; [|done].
    by exists f.
  - intros (f & Hf & Hp & Hu). pose proof (Ht c f Hf) as Hi. exists f. split; [done|]. apply select_elem; [done|].
    rewrite Hi. split; [|done]. rewrite Hp, Hu, String.eqb_refl, bool_decide_true by done. done.
Qed.

(** *** Visits *)

(** The table a visit works on: rows of the original one, less some that were seen *)
Definition of_table (t : folders) (v : visit) : Prop :=
  ∀ i, v_table v !! i = t !! i ∨ (v_table v !! i = None ∧ i ∈ v_seen v).

Lemma of_table_sound t v : sound t → of_table t v → sound (v_table v).
Proof. intros Ht Hv i f Hi. destruct (Hv i) as [He|[He _]]; [|congruence]. apply (Ht i). congruence. Qed.

Lemma of_table_child t v p c : of_table t v → (child (v_table v) p c → child t p c) ∧ (child t p c → c ∈ v_seen v ∨ child (v_table v) p c).
Proof.
  intros Hv. unfold child. destruct (Hv c) as [->|[-> Hs]]; [naive_solver|]. split; [|by left]. intros (f & ? & _). done.
Qed.

(** From [v] to [v'] the visit has added closed sets of descendants of [roots]. *)
Record grown (t : folders) (finish : string → folders → folders) (roots : string → Prop) (v v' : visit) : Prop := {
  grown_table : of_table t v';
  grown_seen : v_seen v ⊆ v_seen v';
  grown_below x : x ∈ v_seen v' → x ∈ v_seen v ∨ ∃ r, roots r ∧ rtc (child t) r x;
  grown_closed x y : x ∈ v_seen v' → x ∉ v_seen v → child t x y → y ∈ v_seen v';
  grown_ids : ∃ l, v_ids v' = v_ids v ++ l ∧ NoDup l ∧ (∀ x, x ∈ l ↔ x ∈ v_seen v' ∧ x ∉ v_seen v) ∧
                   v_table v' = foldl (λ t i, finish i t) (v_table v) l
}.

Lemma grown_refl t finish roots v : of_table t v → grown t finish roots v v.
Proof.
  intros Hv. split; [done|done|by left|done|]. exists []. rewrite app_nil_r. split_and!; [done|constructor| |done].
  intros x. split; [by intros ?%elem_of_nil|tauto].
Qed.

Lemma grown_trans t finish (r1 r2 r : string → Prop) v1 v2 v3 :
  grown t finish r1 v1 v2 → grown t finish r2 v2 v3 → (∀ x, r1 x ∨ r2 x → r x) → grown t finish r v1 v3.
Proof.
  intros [T1 S1 B1 C1 (l1 & E1 & N1 & L1 & F1)] [T2 S2 B2 C2 (l2 & E2 & N2 & L2 & F2)] Hr. split; [done|by etrans| | |].
  - intros x Hx. destruct (B2 x Hx) as [Hx1|(y & Hy & Hyx)]; [|right; exists y; eauto].
    destruct (B1 x Hx1) as [|(y & Hy & Hyx)]; [by left|right; exists y; eauto].
  - intros x y Hx Hn Hxy. destruct (decide (x ∈ v_seen v2)) as [H2|H2]; [apply S2; eauto|eauto].
  - exists (l1 ++ l2). rewrite E2, E1, F2, F1, foldl_app, app_assoc. split_and!; [done| | |done].
    + apply NoDup_app. split_and!; [done| |done]. intros x Hx1 Hx2. apply L2 in Hx2 as [_ Hx2]. apply L1 in Hx1 as [Hx1 _]. done.
    + intros x. rewrite elem_of_app, L1, L2. pose proof (S1 x) as Hs1. pose proof (S2 x) as Hs2.
      destruct (decide (x ∈ v_seen v2)); tauto.
Qed.

Lemma grown_weaken t finish (r r' : string → Prop) v v' :
  (∀ x, x ∈ v_seen v' → x ∉ v_seen v → (∃ y, r y ∧ rtc (child t) y x) → ∃ y, r' y ∧ rtc (child t) y x) →
  grown t finish r v v' → grown t finish r' v v'.
Proof.
  intros Hr [T S B C I]. split; [done|done| |done|done]. intros x Hx.
  destruct (decide (x ∈ v_seen v)) as [|Hn]; [by left|right]. apply Hr; [done|done|]. by destruct (B x Hx).
Qed.

(** A step over a child that is new *)
Lemma grown_child t (finish : string → folders → folders) c v v' :
  (∀ i t' j, finish i t' !! j = t' !! j ∨ (j = i ∧ finish i t' !! j = None)) →
  c ∉ v_seen v → of_table t v → grown t finish (child t c) (mark c v) v' → (∀ y, child t c y → y ∈ v_seen v') →
  grown t finish (λ x, x = c) v (finished finish c v').
Proof.
  intros Hfin Hc Ht [T S B C (l & E & N & L & F)] Hch. cbn [mark v_seen v_ids v_table] in *.
  assert (Hcs : c ∈ v_seen v') by (apply S; by left).
  split; cbn [finished v_seen v_ids v_table].
  - intros i. cbn. destruct (Hfin c (v_table v') i) as [->|[-> Hn]]; [apply T|by right].
  - intros x Hx. apply S. by right.
  - intros x Hx. destruct (B x Hx) as [[->|Hs]%elem_of_cons|(y & Hy & Hyx)]; [right; by exists c|by left|].
    right. exists c. split; [done|]. by eapply rtc_l.
  - intros x y Hx Hn Hxy. destruct (decide (x = c)) as [->|Hne]; [by apply Hch|].
    apply (C x y Hx); [|done]. by intros [->|?]%elem_of_cons.
  - exists (l ++ [c]). rewrite E, app_assoc. split_and!; [done| | |].
    + apply NoDup_app. split_and!; [done| |apply NoDup_singleton].
      intros x Hx ->%list_elem_of_singleton. apply L in Hx as [_ Hx]. apply Hx. by left.
    + intros x. rewrite elem_of_app, L, list_elem_of_singleton, elem_of_cons.
      destruct (decide (x = c)) as [->|]; [naive_solver|naive_solver].
    + rewrite foldl_app. cbn. by rewrite F.
Qed.

(** The ids of the table that are not seen *)
Definition unseen (t : folders) (v : visit) : gset string := dom t ∖ list_to_set (v_seen v).

Lemma unseen_grown t finish r v v' : grown t finish r v v' → (size (unseen t v') <= size (unseen t v))%nat.
Proof. intros Hg. pose proof (grown_seen _ _ _ _ _ Hg) as Hs. apply subseteq_size. unfold unseen. set_solver. Qed.

Lemma unseen_mark t c v : c ∈ dom t → c ∉ v_seen v → (size (unseen t (mark c v)) < size (unseen t v))%nat.
Proof. intros Hd Hc. apply subset_size. unfold unseen. cbn. set_solver. Qed.

(** [descend] visits everything below. *)
Lemma descend_spec t (finish : string → folders → folders) depth id v :
  sound t → (∀ i t' j, finish i t' !! j = t' !! j ∨ (j = i ∧ finish i t' !! j = None)) →
  of_table t v → (size (unseen t v) < depth)%nat →
  ∃ v', descend user_id finish depth id v = (Ok tt, v') ∧ grown t finish (child t id) v v' ∧ ∀ y, child t id y → y ∈ v_seen v'.
Proof.
  intros Ht Hfin. revert id v. induction depth as [|depth IH]; intros id v Hv Hd; [lia|]. cbn [descend].
  pose proof (λ c, children_spec (v_table v) id c (of_table_sound t v Ht Hv)) as Hl. revert Hl.
  generalize (get_folders_by_parent_id_and_user_id (Some id) user_id (v_table v)) as l. intros l Hl.
  assert (Hall : ∀ c, child t id c → c ∈ v_seen v ∨ c ∈ f_id <$> l).
  { intros c Hc. apply (of_table_child t v id c Hv) in Hc as [|Hc]; [by left|right; by apply Hl]. }
  assert (Hsub : ∀ c, c ∈ f_id <$> l → child t id c).
  { intros c Hc%Hl. by apply (of_table_child t v id c Hv). }
  assert (Hloop : ∀ w, of_table t w → (size (unseen t w) <= size (unseen t v))%nat → ∃ v',
    each (λ child v, if bool_decide (f_id child ∈ v_seen v) then (Ok tt, v)
                     else match descend user_id finish depth (f_id child) (mark (f_id child) v) with
                          | (Ok _, v) => (Ok tt, finished finish (f_id child) v)
                          | (Err e, v) => (Err e, v)
                          end) l w = (Ok tt, v') ∧
    grown t finish (child t id) w v' ∧ ∀ c, c ∈ f_id <$> l → c ∈ v_seen v').
  2:{ destruct (Hloop v Hv) as (v' & He & Hg & Hc); [done|]. exists v'. split_and!; [done|done|].
      intros y Hy. destruct (Hall y Hy) as [Hs|Hs]; [by apply (grown_seen _ _ _ _ _ Hg)|by apply Hc]. }
  clear Hl Hall. induction l as [|c l IHl]; intros w Hw Hsize; cbn [each].
  { exists w. split_and!; [done|by apply grown_refl|]. by intros c ?%elem_of_nil. }
  assert (Hc : child t id (f_id c)) by (apply Hsub; by left).
  assert (Hsub' : ∀ c, c ∈ f_id <$> l → child t id c) by (intros x Hx; apply Hsub; by right).
  rewrite st_bind_eq. case_bool_decide as Hseen.
  - destruct (IHl Hsub' w Hw Hsize) as (v' & He & Hg & Hin). exists v'. split_and!; [done|done|].
    intros x [->|Hx]%elem_of_cons; [by apply (grown_seen _ _ _ _ _ Hg)|by apply Hin].
  - assert (Hdom : f_id c ∈ dom t) by (apply elem_of_dom; destruct Hc as (f & -> & _); by eexists).
    pose proof (unseen_mark t (f_id c) w Hdom Hseen) as Hlt.
    destruct (IH (f_id c) (mark (f_id c) w)) as (v1 & -> & Hg1 & Hin1).
    { intros i. destruct (Hw i) as [?|[? ?]]; [by left|right; split; [done|by right]]. }
    { lia. }
    pose proof (grown_child t finish (f_id c) w v1 Hfin Hseen Hw Hg1 Hin1) as Hg.
    destruct (IHl Hsub' (finished finish (f_id c) v1)) as (v' & He & Hg' & Hin).
    { apply Hg. } { pose proof (unseen_grown _ _ _ _ _ Hg). lia. }
    exists v'. split_and!; [done| |].
    + eapply grown_trans; [exact Hg|exact Hg'|]. intros x [->|Hx]; done.
    + intros x [->|Hx]%elem_of_cons; [|by apply Hin]. apply (grown_seen _ _ _ _ _ Hg'). apply (grown_seen _ _ _ _ _ Hg1). by left.
Qed.

(** A visit that starts at [id] finds the subtree. *)
Lemma visit_spec t (finish : string → folders → folders) depth id :
  sound t → (∀ i t' j, finish i t' !! j = t' !! j ∨ (j = i ∧ finish i t' !! j = None)) →
  is_Some (t !! id) → (size t <= depth)%nat →
  ∃ v, descend user_id finish depth id (Visit t [id] []) = (Ok tt, v) ∧ NoDup (id :: v_ids v) ∧
    (∀ x, x ∈ id :: v_ids v ↔ rtc (child t) id x) ∧ v_table v = foldl (λ t i, finish i t) t (v_ids v).
Proof.
  intros Ht Hfin Hid Hd.
  destruct (descend_spec t finish depth id (Visit t [id] [])) as (v & He & [T S B C (l & E & N & L & F)] & Hch); [done|done|by left| |].
  { apply Nat.lt_le_trans with (size (dom t)); [|by rewrite size_dom]. apply subset_size. apply elem_of_dom in Hid.
    unfold unseen. cbn. set_solver. }
  exists v. cbn [v_ids v_seen v_table app] in *. subst l.
  assert (Hseen : ∀ x, x ∈ v_seen v ↔ rtc (child t) id x).
  { intros x. split.
    - intros Hx. destruct (B x Hx) as [->%list_elem_of_singleton|(y & Hy & Hyx)]; [done|by eapply rtc_l].
    - intros Hx. revert x Hx. refine (rtc_ind_r (λ x, x ∈ v_seen v) id _ _); [apply S; by left|].
      intros x y _ Hxy Hx. destruct (decide (x = id)) as [->|Hne]; [by apply Hch|].
      apply (C x y Hx); [|done]. by intros ->%list_elem_of_singleton. }
  split_and!; [done| | |done].
  - constructor; [|done]. intros Hin%L. destruct Hin as [_ Hin]. apply Hin. by left.
  - intros x. rewrite elem_of_cons, L, <-Hseen, list_elem_of_singleton.
    assert (id ∈ v_seen v) by (apply Hseen; done). destruct (decide (x = id)) as [->|]; naive_solver.
Qed.

Lemma foldl_delete_lookup (l : list string) (t : folders) i :
  foldl (λ t i, delete i t) t l !! i = if bool_decide (i ∈ l) then None else t !! i.
Proof.
  revert t. induction l as [|j l IH]; intros t; cbn [foldl]; [by rewrite bool_decide_false by (by intros ?%elem_of_nil)|].
  rewrite IH. destruct (decide (i = j)) as [->|Hne].
  - rewrite lookup_delete_eq, (bool_decide_true (j ∈ j :: l)) by by left. by destruct (bool_decide _).
  - rewrite lookup_delete_ne by done. by rewrite (bool_decide_ext (i ∈ j :: l) (i ∈ l)) by (rewrite elem_of_cons; naive_solver).
Qed.

Lemma delete_finish i (t : folders) j : delete i t !! j = t !! j ∨ (j = i ∧ delete i t !! j = None).
Proof. destruct (decide (j = i)) as [->|]; [right; by rewrite lookup_delete_eq|left; by rewrite lookup_delete_ne]. Qed.

(** [delete_folder_by_id_and_user_id] *)
Lemma delete_spec t depth id f :
  sound t → find_owned id user_id t = Some f → (size t <= depth)%nat →
  ∃ ids t', delete_folder_by_id_and_user_id depth id user_id t = (Ok ids, t') ∧ NoDup ids ∧
    (∀ x, x ∈ ids ↔ rtc (child t) id x) ∧ ∀ i, t' !! i = if bool_decide (i ∈ ids) then None else t !! i.
Proof.
  intros Ht Hf Hd. unfold delete_folder_by_id_and_user_id. rewrite Hf.
  assert (Hid : is_Some (t !! id)) by (unfold find_owned in Hf; destruct (t !! id); [by eexists|done]).
  destruct (visit_spec t delete depth id Ht (λ i t' j, delete_finish i t' j) Hid Hd) as (v & -> & Hn & Hx & Hv).
  do 2 eexists. split; [done|]. split_and!; [done|done|]. intros i.
  change (delete id (v_table v)) with (foldl (λ t i, delete i t) (v_table v) [id]). rewrite Hv, <-foldl_app, foldl_delete_lookup.
  by rewrite (bool_decide_ext (i ∈ v_ids v ++ [id]) (i ∈ id :: v_ids v)) by (rewrite elem_of_app, list_elem_of_singleton, elem_of_cons; naive_solver).
Qed.

(** *** The loop with a stack *)

Lemma new_children_spec known l x : x ∈ new_children known l ↔ x ∈ f_id <$> l ∧ x ∉ known.
Proof.
  revert known. induction l as [|c l IH]; intros known; cbn [new_children fmap list_fmap]; [split; [by intros ?%elem_of_nil|by intros [?%elem_of_nil _]]|].
  rewrite elem_of_cons. case_bool_decide as Hc.
  - rewrite IH. split; [tauto|]. intros [[->|?] ?]; [done|tauto].
  - rewrite elem_of_cons, IH, elem_of_cons. destruct (decide (x = f_id c)) as [->|]; naive_solver.
Qed.

Lemma new_children_nodup known l : NoDup (new_children known l).
Proof.
  revert known. induction l as [|c l IH]; intros known; cbn; [constructor|]. case_bool_decide; [apply IH|].
  constructor; [|apply IH]. intros [_ Hn]%new_children_spec. apply Hn. by left.
Qed.

Lemma subtree_loop_spec fuel t id ids stack :
  sound t → NoDup ids → (∀ x, x ∈ ids → rtc (child t) id x) → (∀ x, x ∈ ids → is_Some (t !! x)) → id ∈ ids →
  NoDup stack → stack ⊆ ids →
  (∀ x y, x ∈ ids → x ∉ stack → child t x y → y ∈ ids) → (size t + length stack < fuel + length ids)%nat →
  let l := subtree_loop fuel user_id t ids stack in NoDup l ∧ ∀ x, x ∈ l ↔ rtc (child t) id x.
Proof.
  intros Ht. revert ids stack. induction fuel as [|fuel IH]; intros ids stack Hn Hr Hin Hid Hs Hss Hc Hf.
  { exfalso. assert (Hle : (length ids <= size t)%nat).
    { rewrite <-size_dom, <-(size_list_to_set (C := gset string)) by done. apply subseteq_size.
      intros i Hi%elem_of_list_to_set. by apply elem_of_dom, Hin. } lia. }
  destruct stack as [|p stack]; cbn [subtree_loop].
  { split; [done|]. intros x. split; [apply Hr|]. intros Hx. revert x Hx.
    refine (rtc_ind_r (λ x, x ∈ ids) id _ _); [done|]. intros x y _ Hxy Hx. apply (Hc x y Hx); [by intros ?%elem_of_nil|done]. }
  pose proof (λ c, children_spec t p c Ht) as Hl. revert Hl.
  generalize (get_folders_by_parent_id_and_user_id (Some p) user_id t) as l. intros l Hl.
  pose proof (new_children_spec ids l) as Hnew. pose proof (new_children_nodup ids l) as Hnn.
  assert (Hp : p ∈ ids) by (apply Hss; by left). apply NoDup_cons in Hs as [Hps Hs].
  apply IH.
  - apply NoDup_app. split_and!; [done| |done]. intros x Hx [_ Hx']%Hnew. done.
  - intros x [Hx|[Hx%Hl _]%Hnew]%elem_of_app; [by apply Hr|]. eapply rtc_r; [by apply Hr|done].
  - intros x [Hx|[Hx%Hl _]%Hnew]%elem_of_app; [by apply Hin|]. destruct Hx as (f & -> & _). by eexists.
  - apply elem_of_app. by left.
  - apply NoDup_app. split_and!; [by apply NoDup_ListNoDup, List.NoDup_rev, NoDup_ListNoDup| |done].
    intros x Hx Hx'. rewrite list_elem_of_In, <-in_rev, <-list_elem_of_In in Hx. apply Hnew in Hx as [_ Hx]. apply Hx, Hss. by right.
  - intros x [Hx|Hx]%elem_of_app; apply elem_of_app; [right|left; apply Hss; by right].
    by rewrite list_elem_of_In, <-in_rev, <-list_elem_of_In in Hx.
  - intros x y Hx Hx' Hxy. apply elem_of_app in Hx as [Hx|Hx].
    + apply elem_of_app. destruct (decide (x = p)) as [->|Hne].
      * destruct (decide (y ∈ ids)); [by left|right]. apply Hnew. split; [by apply Hl|done].
      * left. apply (Hc x y Hx); [|done]. intros [->|Hxs]%elem_of_cons; [done|]. apply Hx', elem_of_app. by right.
    + exfalso. apply Hx', elem_of_app. left. by rewrite list_elem_of_In, <-in_rev, <-list_elem_of_In.
  - rewrite !length_app, length_rev. cbn in Hf. lia.
Qed.

(** [get_folder_ids_by_id_and_user_id_in_subtree] *)
Lemma subtree_spec t id f :
  sound t → find_owned id user_id t = Some f →
  let l := get_folder_ids_by_id_and_user_id_in_subtree id user_id t in NoDup l ∧ ∀ x, x ∈ l ↔ rtc (child t) id x.
Proof.
  intros Ht Hf. unfold get_folder_ids_by_id_and_user_id_in_subtree. rewrite Hf.
  assert (Hid : t !! id = Some f).
  { unfold find_owned in Hf. destruct (t !! id) as [g|]; [|done]. cbn in Hf. by destruct (owned_by user_id g). }
  apply subtree_loop_spec; [done|apply NoDup_singleton| | |by left|apply NoDup_singleton|done| |cbn; lia].
  - by intros x ->%list_elem_of_singleton.
  - intros x ->%list_elem_of_singleton. by eexists.
  - intros x y ->%list_elem_of_singleton Hx. exfalso. apply Hx. by left.
Qed.
End Tree.

(** ** Deletion *)

(** A chat after its folders are gone *)
Definition left_folders (ids : list string) (l : chat_link) : chat_link :=
  match cl_folder l with
  | Some i => if bool_decide (i ∈ ids) then ChatLink (cl_user l) None (cl_internal l) else l
  | None => l
  end.
Definition in_folders (ids : list string) (o : option string) : bool :=
  match o with Some i => bool_decide (i ∈ ids) | None => false end.
Definition chat_after (delete_contents : bool) (owner_id : string) (ids : list string) (l : chat_link) : option chat_link :=
  if delete_contents && String.eqb (cl_user l) owner_id && in_folders ids (cl_folder l) then None
  else Some (left_folders ids l).
Definition about_folders (ids : list string) (g : grant) : bool :=
  String.eqb (gr_resource_type g) "folder" && bool_decide (gr_resource_id g ∈ ids).

Lemma chat_after_cons dc owner i ids l :
  chat_after dc owner (i :: ids) l = (chat_after dc owner [i] l ≫= chat_after dc owner ids).
Proof.
  unfold chat_after, left_folders, in_folders. destruct (cl_folder l) as [j|] eqn:E; cbn; rewrite ?andb_false_r; cbn; rewrite ?E, ?andb_false_r; [|done].
  destruct (decide (j = i)) as [->|Hne].
  - rewrite !bool_decide_true by (by left). destruct (dc && _); cbn; rewrite ?andb_false_r; done.
  - rewrite (bool_decide_false (j ∈ [i])) by by intros ->%list_elem_of_singleton. rewrite andb_false_r. cbn. rewrite E.
    by rewrite (bool_decide_ext (j ∈ i :: ids) (j ∈ ids)) by (rewrite elem_of_cons; naive_solver).
Qed.

Lemma chat_after_one (dc : bool) (owner i c : string) (chats : gmap string chat_link) :
  (fmap (leave_folder i) (if dc then delete_chats owner i chats else chats)) !! c = (chats !! c ≫= chat_after dc owner [i]).
Proof.
  rewrite lookup_fmap. unfold chat_after, left_folders, in_folders, leave_folder, in_folder.
  assert (Hl : ∀ l : chat_link, bool_decide (cl_folder l = Some i) = match cl_folder l with Some j => bool_decide (j ∈ [i]) | None => false end).
  { intros l. destruct (cl_folder l) as [j|]; [|by rewrite bool_decide_false]. apply bool_decide_ext. rewrite list_elem_of_singleton. naive_solver. }
  destruct dc; cbn [andb].
  - unfold delete_chats. rewrite map_lookup_filter. destruct (chats !! c) as [l|] eqn:E; cbn; [|done].
    specialize (Hl l). destruct (cl_folder l) as [j|] eqn:Ej.
    + rewrite <-Hl. destruct (String.eqb_spec (cl_user l) owner) as [Hu|Hu], (decide (j = i)) as [->|Hj]; cbn [andb].
      * rewrite bool_decide_true by done. rewrite option_guard_False by tauto. done.
      * rewrite option_guard_True by naive_solver. cbn. by rewrite Ej, bool_decide_false by naive_solver.
      * rewrite option_guard_True by naive_solver. cbn. by rewrite Ej.
      * rewrite option_guard_True by naive_solver. cbn. by rewrite Ej.
    + rewrite option_guard_True by naive_solver. cbn. by rewrite Ej, andb_false_r.
  - destruct (chats !! c) as [l|]; cbn; [|done]. specialize (Hl l). rewrite Hl. by destruct (cl_folder l).
Qed.

Lemma filter_twice {A} (p q r : A → bool) l : (∀ x, r x = p x && q x) → List.filter q (List.filter p l) = List.filter r l.
Proof.
  intros Hr. induction l as [|x l IH]; [done|]. cbn. rewrite Hr. destruct (p x); cbn; [|done]. destruct (q x); by rewrite IH.
Qed.

Lemma each_empty_folder dc owner ids w :
  ∃ w', each (empty_folder dc owner) ids w = (Ok tt, w') ∧ t_folders w' = t_folders w ∧ t_automations w' = t_automations w ∧
    (∀ c, t_chats w' !! c = (t_chats w !! c ≫= chat_after dc owner ids)) ∧
    gdb_grants (t_grants w') = List.filter (λ g, negb (about_folders ids g)) (gdb_grants (t_grants w)).
Proof.
  revert w. induction ids as [|i ids IH]; intros w; cbn [each].
  - exists w. split_and!; [done|done|done| |].
    + intros c. destruct (t_chats w !! c) as [l|]; [|done]. cbn. unfold chat_after, left_folders, in_folders.
      destruct (cl_folder l) as [j|]; cbn; rewrite ?bool_decide_false by (by intros ?%elem_of_nil); by rewrite ?andb_false_r.
    + symmetry. induction (gdb_grants (t_grants w)) as [|g l IHl]; [done|]. cbn [List.filter]. unfold about_folders at 1.
      rewrite bool_decide_false by (by intros ?%elem_of_nil). rewrite andb_false_r. cbn [negb]. by rewrite IHl.
  - set (w1 := (empty_folder dc owner i w).2).
    assert (E : empty_folder dc owner i w = (Ok tt, w1) ∧ t_folders w1 = t_folders w ∧ t_automations w1 = t_automations w ∧
              t_chats w1 = leave_folder i <$> (if dc then delete_chats owner i (t_chats w) else t_chats w) ∧
              gdb_grants (t_grants w1) = List.filter (λ g, negb (on_resource "folder" i g)) (gdb_grants (t_grants w))).
    { unfold w1. by destruct dc. }
    destruct E as (E & Hf & Ha & Hc & Hg). rewrite st_bind_eq, E.
    destruct (IH w1) as (w' & -> & Hf' & Ha' & Hc' & Hg'). exists w'. split_and!; [done|congruence|congruence| |].
    + intros c. rewrite Hc', Hc, chat_after_one. destruct (t_chats w !! c) as [l|]; [|done]. cbn [mbind option_bind].
      by rewrite (chat_after_cons dc owner i ids l).
    + rewrite Hg', Hg. apply filter_twice. intros g. unfold about_folders, on_resource.
      rewrite (bool_decide_ext (gr_resource_id g ∈ i :: ids) (gr_resource_id g = i ∨ gr_resource_id g ∈ ids)) by apply elem_of_cons.
      rewrite bool_decide_or. destruct (String.eqb (gr_resource_type g) "folder"); [|done]. cbn.
      destruct (String.eqb_spec (gr_resource_id g) i) as [He|He]; [by rewrite bool_decide_true|by rewrite (bool_decide_false (gr_resource_id g = i))].
Qed.

Section Routes.
Context (check_folders_permission : requester → res unit).
Context (can_read_all_folder_files : string → pyval → bool) (accessible_folder_files : requester → pyval → list pyval).
Context (user_exists : string → bool) (count_unread : requester → tables → list (string * Z)).
Context (may_delete_chats : requester → bool) (groups_of : string → list string) (depth : nat).

Notation delete_folder := (delete_folder check_folders_permission may_delete_chats depth).

(** The folder that a deletion is about *)
Lemma find_deletable u id w f :
  t_folders w !! id = Some f → (f_user f = u_id u ∨ is_admin u = true) →
  (match get_folder_by_id_and_user_id id (u_id u) (t_folders w) with
   | Some f0 => mret f0
   | None => other ← gets (get_folder_by_id id);
             match other with None => not_found | Some f0 => if is_admin u then mret f0 else forbidden end
   end : st tables folder) w = (Ok f, w).
Proof.
  intros Hf Hwho. unfold get_folder_by_id_and_user_id, find_owned. rewrite Hf. cbn [mbind option_bind]. unfold owned_by.
  destruct (String.eqb_spec (f_user f) (u_id u)) as [He|Hne]; [done|].
  destruct Hwho as [|Hadmin]; [done|]. cbn. unfold get_folder_by_id. rewrite st_bind_eq. unfold gets, st_gets. cbn beta iota zeta.
  by rewrite Hf, Hadmin.
Qed.

(** C34: deleting a folder, by its owner or an administrator who may delete chats,
    succeeds on any table of folders, loops included, that fits the recursion limit.
    Exactly the folder and what is below it among the folders of its owner is deleted (the
    folders whose chats are counted before), no
    chat, grant or automation of the owner is left with a deleted folder, chats of others
    and, when the contents are kept, all chats stay, and nothing else changes. *)
Theorem deletion_takes_the_subtree (u : requester) (id : string) (delete_contents : bool) (w : tables) (f : folder) :
  sound (t_folders w) → (size (t_folders w) <= depth)%nat → check_folders_permission u = Ok tt →
  t_folders w !! id = Some f → (f_user f = u_id u ∨ is_admin u = true) →
  (delete_contents = false ∨ is_admin u = true ∨ may_delete_chats u = true) →
  ∃ ids w', delete_folder u id delete_contents w = (Ok true, w') ∧ NoDup ids ∧
    (∀ i, i ∈ ids ↔ rtc (child (f_user f) (t_folders w)) id i) ∧
    (∀ i, i ∈ get_folder_ids_by_id_and_user_id_in_subtree id (f_user f) (t_folders w) ↔ i ∈ ids) ∧
    (∀ i, t_folders w' !! i = if bool_decide (i ∈ ids) then None else t_folders w !! i) ∧
    (∀ c, t_chats w' !! c = (t_chats w !! c ≫= chat_after delete_contents (f_user f) ids)) ∧
    gdb_grants (t_grants w') = List.filter (λ g, negb (about_folders ids g)) (gdb_grants (t_grants w)) ∧
    t_automations w' = clear_folder_ids (f_user f) ids <$> t_automations w.
Proof.
  intros Ht Hd Hperm Hf Hwho Hmay.
  pose proof (Ht id f Hf) as Hid.
  assert (Howned : find_owned id (f_user f) (t_folders w) = Some f).
  { unfold find_owned. rewrite Hf. cbn. unfold owned_by. by rewrite String.eqb_refl. }
  destruct (delete_spec (f_user f) (t_folders w) depth id f Ht Howned Hd) as (ids & t' & Hdel & Hnd & Hids & Ht').
  set (w1 := Tables t' (t_chats w) (t_grants w) (t_automations w)).
  destruct (each_empty_folder delete_contents (f_user f) ids w1) as (w2 & Heach & Hf2 & Ha2 & Hc2 & Hg2).
  exists ids, (on_automations (fmap (clear_folder_ids (f_user f) ids)) w2).2. split_and!; [|done|done| | | | |].
  - unfold Folders.delete_folder. rewrite st_bind_eq. unfold st_lift. rewrite Hperm. rewrite st_bind_eq.
    unfold gets at 1, st_gets. cbn beta iota zeta. rewrite st_bind_eq.
    rewrite (find_deletable u id w f Hf Hwho). rewrite st_bind_eq. unfold gets at 1, st_gets. cbn beta iota zeta.
    set (sub := get_folder_ids_by_id_and_user_id_in_subtree id (f_user f) (t_folders w)).
    assert (Hgo : delete_contents && has_chats sub (f_user f) (t_chats w) && negb (is_admin u) && negb (may_delete_chats u) = false).
    { destruct Hmay as [-> |[-> | ->]]; [done|..]; cbn; by rewrite ?andb_false_r. }
    rewrite st_bind_eq. cbn beta iota zeta. rewrite Hgo. rewrite st_bind_eq. unfold on_folders at 1. rewrite Hid, Hdel. fold w1. rewrite st_bind_eq, Heach.
    rewrite st_bind_eq. done.
  - intros i. destruct (subtree_spec (f_user f) (t_folders w) id f Ht Howned) as [_ ->]. by symmetry.
  - intros i. cbn. by rewrite Hf2, <-Ht'.
  - intros c. cbn. by rewrite Hc2.
  - cbn. by rewrite Hg2.
  - cbn. by rewrite Ha2.
Qed.
End Routes.

(** ** Loops *)

Definition no_loops (user_id : string) (t : folders) : Prop := ∀ i, ¬ tc (child user_id t) i i.

(** What the trees depend on *)
Definition link (t : folders) (i : string) : option (option string * string) := (λ f, (f_parent f, f_user f)) <$> t !! i.

Lemma child_link u t p c : child u t p c ↔ link t c = Some (Some p, u).
Proof.
  unfold child, link. destruct (t !! c) as [f|]; cbn; [|naive_solver]. split.
  - intros (g & [= <-] & -> & ->). done.
  - intros [= Hp Hu]. by exists f.
Qed.

(** Links that are kept, and folders put back at the root *)
Definition fewer_links (t t' : folders) : Prop :=
  ∀ i l, link t' i = Some l → link t i = Some l ∨ l.1 = None.

#[local] Instance fewer_preorder : PreOrder fewer_links.
Proof.
  split; [by intros t i l; left|]. intros t1 t2 t3 H12 H23 i l Hl.
  destruct (H23 i l Hl) as [Hl'|]; [by apply H12|by right].
Qed.

Lemma fewer_child u t t' p c : fewer_links t t' → child u t' p c → child u t p c.
Proof. rewrite !child_link. intros Hf Hc. by destruct (Hf c _ Hc). Qed.

Lemma sub_no_loops u t t' : (∀ x y, child u t' x y → child u t x y) → no_loops u t → no_loops u t'.
Proof.
  intros Hf Hn i Hi. apply (Hn i). revert Hi. generalize i at 1 3. intros j Hj.
  induction Hj as [x y Hxy|x y z Hxy _ IH]; [apply tc_once|eapply tc_l; [|exact IH]]; auto.
Qed.

Lemma fewer_no_loops u t t' : fewer_links t t' → no_loops u t → no_loops u t'.
Proof. intros Hf. apply sub_no_loops. intros x y. by apply fewer_child. Qed.

(** Moving [i] below [p] makes no loop unless [p] is below [i]. *)
Section Move.
Context (u : string) (t t' : folders) (i p : string).
Hypothesis new_link : ∀ x y, child u t' x y → child u t x y ∨ (x = p ∧ y = i).
Hypothesis not_below : ¬ rtc (child u t) i p.

Lemma below_moved y : rtc (child u t') i y → rtc (child u t) i y.
Proof.
  intros Hy. revert y Hy. refine (rtc_ind_r (λ y, rtc (child u t) i y) i _ _); [done|].
  intros x y _ Hxy Hx. destruct (new_link x y Hxy) as [Hold|[_ ->]]; [by eapply rtc_r|done].
Qed.

Lemma moved_path a b : tc (child u t') a b → tc (child u t) a b ∨ (rtc (child u t') i b ∧ rtc (child u t') a p).
Proof.
  induction 1 as [a b Hab|a c b Hac Hcb IH].
  - destruct (new_link a b Hab) as [Hold|[-> ->]]; [left; by apply tc_once|by right].
  - destruct (new_link a c Hac) as [Hold|[-> ->]].
    + destruct IH as [Hl|[Hb Hp]]; [left; by eapply tc_l|right; split; [done|by eapply rtc_l]].
    + right. split; [by apply tc_rtc|done].
Qed.

Lemma move_no_loops : no_loops u t → no_loops u t'.
Proof.
  intros Hn a Ha. destruct (moved_path a a Ha) as [Hold|[Hi Hp]]; [by apply (Hn a)|].
  apply not_below, below_moved. by etrans.
Qed.
End Move.

(** *** Operations of the table *)

Lemma link_insert t i f : link (<[i := f]> t) i = Some (f_parent f, f_user f).
Proof. unfold link. by rewrite lookup_insert_eq. Qed.
Lemma link_insert_ne t i j f : i ≠ j → link (<[i := f]> t) j = link t j.
Proof. intros Hne. unfold link. by rewrite lookup_insert_ne. Qed.

Lemma find_owned_Some i u t f : find_owned i u t = Some f ↔ t !! i = Some f ∧ f_user f = u.
Proof.
  unfold find_owned, owned_by. destruct (t !! i) as [g|]; cbn; [|naive_solver].
  destruct (String.eqb_spec (f_user g) u); naive_solver.
Qed.

Lemma update_row_fewer i u f t :
  (∀ g, f_user (f g) = f_user g ∧ (f_parent (f g) = f_parent g ∨ f_parent (f g) = None)) →
  fewer_links t (update_row i u f t).2.
Proof.
  intros Hf. unfold update_row. destruct (find_owned i u t) as [g|] eqn:E; cbn; [|reflexivity].
  apply find_owned_Some in E as [Hg _]. intros j l. destruct (decide (i = j)) as [<-|Hne].
  - rewrite link_insert. intros [= <-]. destruct (Hf g) as [Hu [Hp|Hp]]; [left|by right].
    unfold link. rewrite Hg. cbn. by rewrite Hu, Hp.
  - rewrite link_insert_ne by done. by left.
Qed.

Lemma update_row_sound i u f t :
  (∀ g, f_id (f g) = f_id g) → sound t → sound (update_row i u f t).2.
Proof.
  intros Hf Ht. unfold update_row. destruct (find_owned i u t) as [g|] eqn:E; cbn; [|done].
  apply find_owned_Some in E as [Hg _]. intros j h. destruct (decide (i = j)) as [<-|Hne].
  - rewrite lookup_insert_eq. intros [= <-]. rewrite Hf. by apply Ht.
  - rewrite lookup_insert_ne by done. apply Ht.
Qed.

(** *** Climbing *)

Section Climb.
Context (m : gmap string (option string)).

Definition up (i j : string) : Prop := parent_in m i = Some j.

Lemma up_dom i j : up i j → is_Some (m !! i).
Proof. unfold up, parent_in. by destruct (m !! i). Qed.

Lemma climb_sound fuel seen i k : climb fuel m seen (Some i) = Some k → rtc up i k.
Proof.
  revert seen i. induction fuel as [|fuel IH]; intros seen i; cbn; [done|]. case_bool_decide; [by intros [= ->]|].
  destruct (parent_in m i) as [j|] eqn:Ej; [|by destruct fuel]. intros Hk. eapply rtc_l; [exact Ej|by eapply IH].
Qed.

(** The first time a climb comes to [i] *)
Inductive hits (i : string) : string → nat → Prop :=
| hit_here : hits i i 0
| hit_step x y n : x ≠ i → up x y → hits i y n → hits i x (S n).

Lemma hits_det i x n n' : hits i x n → hits i x n' → n = n'.
Proof.
  intros Hn. revert n'. induction Hn as [|x y n Hx Hxy _ IH]; intros n' Hn'; inversion Hn' as [|x' y' k Hx' Hxy' Hk]; subst; try done.
  f_equal. apply IH. unfold up in *. congruence.
Qed.

Lemma hits_reach i x : rtc up x i → ∃ n, hits i x n.
Proof.
  induction 1 as [x|x y i Hxy _ [n Hn]]; [exists 0%nat; constructor|].
  destruct (decide (x = i)) as [->|]; [exists 0%nat; constructor|exists (S n)]. by eapply hit_step.
Qed.

Lemma climb_hits fuel seen i x n :
  hits i x n → i ∈ seen → (∀ s, s ∈ seen → s = i ∨ ∃ k, hits i s k ∧ (n < k)%nat) →
  NoDup seen → (∀ s, s ∈ seen → is_Some (m !! s)) → (size m < fuel + length seen)%nat →
  climb fuel m seen (Some x) = Some i.
Proof.
  revert seen x n. induction fuel as [|fuel IH]; intros seen x n Hx Hi Hs Hn Hd Hf.
  { exfalso. assert (length seen <= size m)%nat; [|cbn in Hf; lia].
    rewrite <-size_dom, <-(size_list_to_set (C := gset string)) by done. apply subseteq_size.
    intros s Hss%elem_of_list_to_set. by apply elem_of_dom, Hd. }
  cbn [climb].
  destruct (decide (x ∈ seen)) as [Hin|Hin]; [rewrite bool_decide_true by done|rewrite bool_decide_false by done].
  { destruct (Hs x Hin) as [->|(k & Hk & Hlt)]; [done|]. pose proof (hits_det _ _ _ _ Hx Hk). lia. }
  destruct Hx as [|x y n Hne Hxy Hy]; [done|]. unfold up in Hxy. rewrite Hxy.
  apply (IH (x :: seen) y n Hy); [by right| |by constructor| |cbn; lia].
  - intros s [->|Hss]%elem_of_cons; [right; exists (S n); split; [by eapply hit_step|lia]|].
    destruct (Hs s Hss) as [|(k & Hk & Hlt)]; [by left|right; exists k; split; [done|lia]].
  - intros s [->|Hss]%elem_of_cons; [by eapply up_dom|auto].
Qed.

(** [is_in_parent_cycle] decides whether a folder lies on a loop. *)
Lemma in_cycle_iff i : is_in_parent_cycle m i = true ↔ tc up i i.
Proof.
  unfold is_in_parent_cycle. rewrite bool_decide_eq_true. split.
  - destruct (parent_in m i) as [j|] eqn:Ej; [|done]. intros Hc. eapply tc_rtc_r; [apply tc_once; exact Ej|by eapply climb_sound].
  - intros Hc. assert (Hj : ∃ j, up i j ∧ rtc up j i) by (inversion Hc as [? ? Hj|? j ? Hj Hr]; subst; [by exists i|exists j; split; [done|by apply tc_rtc]]).
    destruct Hj as (j & Hj & Hr). destruct (hits_reach i j Hr) as [n Hn]. pose proof Hj as Hj'. unfold up in Hj'. rewrite Hj'.
    apply (climb_hits _ [i] i j n Hn); [by left| |apply NoDup_singleton| |cbn; lia].
    + intros s ->%list_elem_of_singleton. by left.
    + intros s ->%list_elem_of_singleton. by eapply up_dom.
Qed.
End Climb.

(** Fewer edges, fewer loops *)
Lemma up_cut (m : gmap string (option string)) i x y : up (<[i := None]> m) x y → up m x y ∧ x ≠ i.
Proof.
  unfold up, parent_in. destruct (decide (i = x)) as [<-|Hne]; [by rewrite lookup_insert_eq|].
  rewrite lookup_insert_ne by done. naive_solver.
Qed.

(** *** Listing *)

Definition with_folders (w : tables) (t : folders) : tables := Tables t (t_chats w) (t_grants w) (t_automations w).

(** The map of parents is that of the table. *)
Definition agrees (u : string) (m : gmap string (option string)) (t : folders) : Prop :=
  ∀ i, m !! i = f_parent <$> find_owned i u t.

Lemma parents_of_lookup l i p :
  (∀ f, f ∈ l → f_id f = i → f_parent f = p) → i ∈ f_id <$> l → parents_of l !! i = Some p.
Proof.
  unfold parents_of. generalize (∅ : gmap string (option string)).
  induction l as [|f l IH] using rev_ind; intros acc Hp Hi; [by apply elem_of_nil in Hi|].
  rewrite foldl_app. cbn. destruct (decide (f_id f = i)) as [<-|Hne].
  - rewrite lookup_insert_eq. f_equal. apply Hp; [apply elem_of_app; right; by left|done].
  - rewrite lookup_insert_ne by done. apply IH.
    + intros g Hg. apply Hp, elem_of_app. by left.
    + rewrite fmap_app in Hi. apply elem_of_app in Hi as [Hi|Hi]; [done|]. cbn in Hi. apply list_elem_of_singleton in Hi. congruence.
Qed.

Lemma parents_of_None l i : i ∉ f_id <$> l → parents_of l !! i = None.
Proof.
  unfold parents_of. intros Hi. assert (Hg : ∀ acc : gmap string (option string), acc !! i = None → foldl (λ m f, <[f_id f := f_parent f]> m) acc l !! i = None);
    [|by apply Hg].
  induction l as [|f l IH]; intros acc Ha; cbn; [done|]. apply IH; [|rewrite lookup_insert_ne; [done|]]; intros Hx; apply Hi; cbn; [by right|rewrite <-Hx; left].
Qed.

Lemma parents_agree u t l : (∀ f, f ∈ l ↔ find_owned (f_id f) u t = Some f) → sound t → agrees u (parents_of l) t.
Proof.
  intros Hl Ht i. destruct (find_owned i u t) as [f|] eqn:E; cbn.
  - pose proof E as E'. apply find_owned_Some in E' as [Hf _]. destruct (Ht i f Hf). apply parents_of_lookup.
    + intros g Hg Hi. apply Hl in Hg. rewrite Hi in Hg. congruence.
    + apply list_elem_of_fmap. exists f. split; [done|]. by apply Hl.
  - apply parents_of_None. intros (f & -> & Hf)%list_elem_of_fmap. apply Hl in Hf. congruence.
Qed.

Lemma own_folders u t f : sound t → f ∈ get_folders_by_user_id u t ↔ find_owned (f_id f) u t = Some f.
Proof.
  intros Ht. unfold get_folders_by_user_id. rewrite select_elem by done. rewrite find_owned_Some. unfold owned_by.
  rewrite String.eqb_eq. tauto.
Qed.

Section Listing.
Context (accessible_folder_files : requester → pyval → list pyval) (u : requester) (now : Z).

(** A parent that the listing accepts *)
Definition fine (m : gmap string (option string)) (f : folder) : Prop :=
  ∀ p, nonempty (f_parent f) = Some p → is_Some (m !! p) ∧ ¬ tc (up m) (f_id f) (f_id f).

Lemma repair_spec m f w :
  sound (t_folders w) → agrees (u_id u) m (t_folders w) → find_owned (f_id f) (u_id u) (t_folders w) = Some f →
  (fine m f ∧ repair_folder u now m f w = (Ok (m, f), w)) ∨
  (¬ fine m f ∧ let g := set_parent None now f in let t' := <[f_id f := g]> (t_folders w) in
     repair_folder u now m f w = (Ok (<[f_id f := None]> m, g), with_folders w t') ∧
     agrees (u_id u) (<[f_id f := None]> m) t').
Proof.
  intros Ht Hm Hf. unfold repair_folder, fine. destruct (nonempty (f_parent f)) as [p|] eqn:Ep; [|left; by split].
  destruct (bool_decide (is_Some (m !! p)) && negb (is_in_parent_cycle m (f_id f))) eqn:Eb.
  - left. split; [|done]. apply andb_true_iff in Eb as [Hp%bool_decide_eq_true Hc%negb_true_iff]. intros p' [= <-]. split; [done|].
    rewrite <-in_cycle_iff. congruence.
  - right. split.
    + intros Hp. destruct (Hp p eq_refl) as [Hs Hc]. rewrite bool_decide_true in Eb by done. rewrite <-in_cycle_iff in Hc.
      by destruct (is_in_parent_cycle m (f_id f)).
    + cbn zeta. unfold on_folders, update_folder_parent_id_by_id_and_user_id, update_row. rewrite st_bind_eq. rewrite Hf.
      apply find_owned_Some in Hf as [Hf Hu]. split; [done|]. intros i. destruct (decide (f_id f = i)) as [<-|Hne].
      * rewrite lookup_insert_eq. unfold find_owned, owned_by. rewrite lookup_insert_eq. cbn. by rewrite Hu, String.eqb_refl.
      * rewrite lookup_insert_ne by done. rewrite Hm. unfold find_owned. by rewrite lookup_insert_ne.
Qed.

Lemma set_fields_link t i f name data meta : t !! i = Some f → ∀ j, link (<[i := set_fields name data meta now f]> t) j = link t j.
Proof.
  intros Hf j. destruct (decide (i = j)) as [<-|Hne]; [|by apply link_insert_ne]. rewrite link_insert. unfold link. by rewrite Hf.
Qed.

Lemma drop_spec f w :
  sound (t_folders w) → find_owned (f_id f) (u_id u) (t_folders w) = Some f →
  (∀ files, files_in (f_data f) = Some files → is_list files = true) →
  ∃ g t', drop_files accessible_folder_files u f now w = (Ok g, with_folders w t') ∧ f_id g = f_id f ∧ sound t' ∧
    (∀ j, link t' j = link (t_folders w) j) ∧ (∀ j, j ≠ f_id f → t' !! j = t_folders w !! j).
Proof.
  intros Ht Hf Hfiles. unfold drop_files, files_in in *.
  assert (Hsame : ∃ g t', (Ok f, w) = (Ok g, with_folders w t') ∧ f_id g = f_id f ∧ sound t' ∧
    (∀ j, link t' j = link (t_folders w) j) ∧ (∀ j, j ≠ f_id f → t' !! j = t_folders w !! j)).
  { exists f, (t_folders w). split_and!; try done. by destruct w. }
  destruct (f_data f) as [data|] eqn:Ed; [|done]. cbn in Hfiles. destruct (dict_get "files" data) as [files|] eqn:Ef; [|done].
  specialize (Hfiles files eq_refl). destruct files as [| | | | |l|]; try done. cbn [py_len]. rewrite st_bind_eq. cbn [st_lift].
  destruct (_ =? _)%nat; [done|]. rewrite st_bind_eq. unfold on_folders, update_folder_by_id_and_user_id. rewrite Hf. cbn [fu_name].
  pose proof Hf as [Hrow Hu]%find_owned_Some.
  match goal with |- context [find_first ?p ?l] => assert (find_first p l = None) as -> end.
  { by apply find_first_None. }
  cbn [fu_name fu_data fu_meta merge_field default]. unfold update_row. rewrite Hf. cbn [mret].
  do 2 eexists. split; [reflexivity|]. split_and!; [done| | |].
  - intros i g. destruct (decide (f_id f = i)) as [<-|Hne].
    + rewrite lookup_insert_eq. by intros [= <-].
    + rewrite lookup_insert_ne by done. apply Ht.
  - by apply set_fields_link.
  - intros j Hj. by rewrite lookup_insert_ne.
Qed.

Lemma owned_link i v t : f_parent <$> find_owned i v t = match link t i with Some (p, v') => if String.eqb v' v then Some p else None | None => None end.
Proof. unfold find_owned, link, owned_by. destruct (t !! i) as [f|]; [|done]. cbn. by destruct (String.eqb (f_user f) v). Qed.

Lemma agrees_link v m t t' : (∀ j, link t' j = link t j) → agrees v m t → agrees v m t'.
Proof. intros Hl Hm i. rewrite (Hm i), !owned_link. by rewrite Hl. Qed.

Definition with_lists (f : folder) : Prop := ∀ files, files_in (f_data f) = Some files → is_list files = true.

(** What a listing leaves of the parents it has looked at *)
Record repaired (l : list folder) (m m' : gmap string (option string)) (t t' : folders) : Prop := {
  rep_sound : sound t';
  rep_agrees : agrees (u_id u) m' t';
  rep_up x y : up m' x y → up m x y;
  rep_dom x : is_Some (m' !! x) ↔ is_Some (m !! x);
  rep_fine f p : f ∈ l → parent_in m' (f_id f) = Some p → is_Some (m' !! p) ∧ ¬ tc (up m') (f_id f) (f_id f);
  rep_kept f : f ∈ l → fine m f → link t' (f_id f) = link t (f_id f);
  rep_others j : j ∉ f_id <$> l → t' !! j = t !! j
}.

Lemma up_mono (m m' : gmap string (option string)) x y : (∀ x y, up m' x y → up m x y) → tc (up m') x y → tc (up m) x y.
Proof. intros Hu. induction 1 as [x y Hxy|x y z Hxy _ IH]; [apply tc_once; auto|eapply tc_l; [apply Hu; exact Hxy|exact IH]]. Qed.

(** One folder *)
Lemma list_one m f w :
  sound (t_folders w) → agrees (u_id u) m (t_folders w) → find_owned (f_id f) (u_id u) (t_folders w) = Some f → with_lists f →
  ∃ g g' m' t1 t', repair_folder u now m f w = (Ok (m', g), with_folders w t1) ∧
    drop_files accessible_folder_files u g now (with_folders w t1) = (Ok g', with_folders w t') ∧ f_id g' = f_id f ∧
    repaired [f] m m' (t_folders w) t'.
Proof.
  intros Ht Hm Hf Hl. pose proof Hf as [Hrow Hu]%find_owned_Some.
  assert (Hmf : m !! f_id f = Some (f_parent f)) by (rewrite (Hm (f_id f)), Hf; done).
  destruct (repair_spec m f w Ht Hm Hf) as [[Hfine Hr]|[Hbad [Hr Ha]]].
  - destruct (drop_spec f w Ht Hf Hl) as (g & t' & Hd & Hg & Hs & Hlink & Ho).
    exists f, g, m, (t_folders w), t'. assert (Hw : with_folders w (t_folders w) = w) by by destruct w. rewrite Hw.
    split_and!; [done|done|done|]. split; [done|by eapply agrees_link|done|done| | |].
    + intros h p ->%list_elem_of_singleton. unfold parent_in. rewrite Hmf. apply Hfine.
    + intros h _ _. apply Hlink.
    + intros j Hj. apply Ho. intros ->. apply Hj. by left.
  - set (g := set_parent None now f) in *. set (t1 := <[f_id f := g]> (t_folders w)) in *.
    assert (Hs1 : sound t1).
    { intros i h. unfold t1. destruct (decide (f_id f = i)) as [<-|Hne]; [|rewrite lookup_insert_ne by done; apply Ht].
      rewrite lookup_insert_eq. by intros [= <-]. }
    assert (Hg1 : find_owned (f_id g) (u_id u) t1 = Some g).
    { apply find_owned_Some. split; [apply lookup_insert_eq|done]. }
    destruct (drop_spec g (with_folders w t1) Hs1 Hg1 Hl) as (g' & t' & Hd & Hg & Hs & Hlink & Ho).
    exists g, g', (<[f_id f := None]> m), t1, t'. split_and!; [done|done|done|]. split; [done|by eapply agrees_link| | | | |].
    + intros x y. by intros [? _]%up_cut.
    + intros x. destruct (decide (f_id f = x)) as [<-|Hne]; [rewrite lookup_insert_eq, Hmf; split; by eexists|by rewrite lookup_insert_ne].
    + intros h p ->%list_elem_of_singleton. unfold parent_in. by rewrite lookup_insert_eq.
    + intros h ->%list_elem_of_singleton. done.
    + intros j Hj. assert (j ≠ f_id f) by (intros ->; apply Hj; by left). rewrite Ho by done. cbn. unfold t1. by rewrite lookup_insert_ne.
Qed.

Lemma fine_mono m m' f : (∀ x y, up m' x y → up m x y) → (∀ x, is_Some (m' !! x) ↔ is_Some (m !! x)) → fine m f → fine m' f.
Proof. intros Hu Hd Hf p Hp. destruct (Hf p Hp) as [Hs Hc]. split; [by apply Hd|]. intros Hx. apply Hc. by eapply up_mono. Qed.

Lemma list_spec l m w :
  sound (t_folders w) → agrees (u_id u) m (t_folders w) → NoDup (f_id <$> l) →
  (∀ f, f ∈ l → find_owned (f_id f) (u_id u) (t_folders w) = Some f ∧ with_lists f) →
  ∃ listed m' t', list_folders accessible_folder_files u now m l w = (Ok listed, with_folders w t') ∧
    f_id <$> listed = f_id <$> l ∧ repaired l m m' (t_folders w) t'.
Proof.
  revert m w. induction l as [|f l IH]; intros m w Ht Hm Hn Hl; cbn [list_folders].
  { exists [], m, (t_folders w). split_and!; [by destruct w|done|]. split; try done; first [by intros ? ? ?%elem_of_nil|by intros ? ?%elem_of_nil]. }
  destruct (Hl f) as [Hf Hlist]; [by left|]. cbn in Hn. apply NoDup_cons in Hn as [Hfl Hn].
  destruct (list_one m f w Ht Hm Hf Hlist) as (g & g' & m1 & t1 & t2 & Hr & Hd & Hg & [S1 A1 U1 D1 F1 K1 O1]).
  destruct (IH m1 (with_folders w t2)) as (listed & m' & t' & He & Hids & [S2 A2 U2 D2 F2 K2 O2]); [done|done|done| |].
  { intros h Hh. destruct (Hl h) as [Hfh Hlh]; [by right|]. split; [|done].
    assert (Hne : f_id h ≠ f_id f) by (intros E; apply Hfl; rewrite <-E; apply list_elem_of_fmap; by exists h).
    unfold find_owned in *. cbn. rewrite O1; [done|]. cbn. by intros E%list_elem_of_singleton. }
  exists (g' :: listed), m', t'. split_and!.
  - rewrite st_bind_eq, Hr. cbn beta iota zeta. rewrite st_bind_eq, Hd. rewrite st_bind_eq, He. done.
  - cbn. by rewrite Hg, Hids.
  - split; [done|done|by auto| | | |].
    + intros x. by rewrite D2, D1.
    + intros h p [->|Hh]%elem_of_cons Hp; [|by apply F2]. apply U2 in Hp as Hp1. destruct (F1 f p) as [Hs Hc]; [by left|done|].
      split; [by apply D2|]. intros Hx. apply Hc. by eapply up_mono.
    + intros h [->|Hh]%elem_of_cons Hfine.
      * rewrite <-(K1 f); [|by left|done]. cbn in O2. unfold link. by rewrite O2.
      * rewrite (K2 h Hh) by by eapply fine_mono. cbn. unfold link. rewrite O1; [done|]. cbn. intros E%list_elem_of_singleton.
        apply Hfl. rewrite <-E. apply list_elem_of_fmap. by exists h.
    + intros j Hj. cbn in Hj. rewrite O2 by (intros Hx; apply Hj; by right). cbn. apply O1. cbn. intros ->%list_elem_of_singleton. apply Hj. by left.
Qed.
End Listing.

Lemma child_up u m t p c : agrees u m t → t !! EmptyString = None → is_Some (find_owned p u t) → child u t p c → up m c p.
Proof.
  intros Hm He [f Hp] Hc%child_link. unfold up, parent_in. rewrite (Hm c), owned_link, Hc, String.eqb_refl. cbn.
  destruct p; [|done]. apply find_owned_Some in Hp as [Hp _]. congruence.
Qed.

(** A loop runs through folders of the user. *)
Lemma child_owned u t p c : child u t p c → is_Some (find_owned c u t).
Proof. intros (f & Hf & _ & Hu). exists f. by apply find_owned_Some. Qed.

Lemma tc_child_owned u t a b : tc (child u t) a b → is_Some (find_owned b u t).
Proof. induction 1 as [a b Hab|a x b _ _ IH]; [by eapply child_owned|done]. Qed.

Lemma tc_child_up u m t a b :
  agrees u m t → t !! EmptyString = None → tc (child u t) a b → is_Some (find_owned a u t) → tc (up m) b a.
Proof.
  intros Hm He. induction 1 as [a b Hab|a x b Hax _ IH]; intros Ha.
  - apply tc_once. by eapply child_up.
  - eapply tc_r; [apply IH; by eapply child_owned|by eapply child_up].
Qed.

Lemma loop_up u m t i : agrees u m t → t !! EmptyString = None → tc (child u t) i i → tc (up m) i i.
Proof. intros Hm He Hi. apply (tc_child_up u m t); [done|done|done|by eapply tc_child_owned]. Qed.

Lemma up_child u m t c p : agrees u m t → up m c p → child u t p c.
Proof.
  intros Hm Hc. apply child_link. unfold up, parent_in in Hc. rewrite (Hm c), owned_link in Hc.
  destruct (link t c) as [[o v]|]; [|done]. destruct (String.eqb_spec v u) as [Ev|]; [|done]. cbn in Hc. rewrite <-Ev.
  destruct o as [q|]; [|done]. unfold nonempty in Hc. destruct (Str.is_empty q); [done|]. by injection Hc as ->.
Qed.

Lemma up_loop u m t i : agrees u m t → tc (up m) i i → tc (child u t) i i.
Proof.
  intros Hm. generalize i at 1 4. intros j Hj. induction Hj as [x y Hxy|x y z Hxy _ IH]; [apply tc_once|eapply tc_r; [exact IH|]]; by eapply up_child.
Qed.

Lemma NoDup_fmap_filter {A B} (f : A → B) (p : A → bool) (l : list A) : NoDup (f <$> l) → NoDup (f <$> List.filter p l).
Proof.
  induction l as [|x l IH]; [done|]. cbn. intros [Hx Hl]%NoDup_cons. destruct (p x); cbn; [constructor|]; auto.
  intros (y & E & Hy)%list_elem_of_fmap. apply Hx. rewrite E. rewrite list_elem_of_In, filter_In, <-list_elem_of_In in Hy.
  apply list_elem_of_fmap. exists y. tauto.
Qed.

Lemma select_NoDup p t : sound t → NoDup (f_id <$> select p t).
Proof.
  intros Ht. apply NoDup_fmap_filter. unfold rows. assert (E : f_id <$> (map_to_list t).*2 = (map_to_list t).*1).
  { rewrite <-list_fmap_compose. apply list_fmap_ext. intros j [i f] Hj. apply list_elem_of_lookup_2, elem_of_map_to_list in Hj.
    exact (Ht i f Hj). }
  rewrite E. apply NoDup_fst_map_to_list.
Qed.

Section Listings.
Context (check_folders_permission : requester → res unit) (accessible_folder_files : requester → pyval → list pyval).
Context (count_unread : requester → tables → list (string * Z)).

Notation get_folders := (get_folders check_folders_permission accessible_folder_files count_unread).

End Listings.

(** *** Moves *)

Lemma update_parent_no_loops v i u p now t :
  sound t → t !! EmptyString = None →
  (∀ q, nonempty p = Some q → ¬ rtc (child u t) i q) →
  no_loops v t → no_loops v (update_folder_parent_id_by_id_and_user_id i u p now t).2.
Proof.
  intros Ht He Hp Hn. unfold update_folder_parent_id_by_id_and_user_id, update_row.
  destruct (find_owned i u t) as [f|] eqn:Ef; cbn; [|done]. apply find_owned_Some in Ef as [Hf Hu].
  assert (Hlink : ∀ x y, child v (<[i := set_parent p now f]> t) x y → child v t x y ∨ (p = Some x ∧ y = i ∧ v = u)).
  { intros x y Hxy%child_link. rewrite child_link. destruct (decide (i = y)) as [<-|Hne].
    - rewrite link_insert in Hxy. cbn in Hxy. right. naive_solver.
    - left. by rewrite link_insert_ne in Hxy. }
  destruct (decide (v = u)) as [->|Hvu]; [|apply (sub_no_loops v t); [|done]; intros x y Hxy; by destruct (Hlink x y Hxy) as [|(_ & _ & ?)]].
  destruct p as [p|]; [|apply (sub_no_loops u t); [|done]; intros x y Hxy; by destruct (Hlink x y Hxy) as [|(? & _ & _)]].
  apply (move_no_loops u t _ i p); [| |done].
  - intros x y Hxy. destruct (Hlink x y Hxy) as [|([= ->] & -> & _)]; [by left|by right].
  - destruct p as [|c p]; [|by apply Hp]. intros Hr. assert (i ≠ EmptyString) by congruence.
    apply rtc_inv_r in Hr as [->|(x & _ & (g & Hg & _))]; [done|congruence].
Qed.

(** A move never makes a loop, not for any user. *)
Theorem moves_make_no_loops (check_folders_permission : requester → res unit) (u : requester) (v id : string)
    (parent_id : option string) (now : Z) (w : tables) :
  sound (t_folders w) → t_folders w !! EmptyString = None → no_loops v (t_folders w) →
  no_loops v (t_folders (move_folder check_folders_permission u id parent_id now w).2).
Proof.
  intros Ht He Hn. unfold move_folder. rewrite st_bind_eq. unfold st_lift at 1. destruct (check_folders_permission u); [|done].
  rewrite st_bind_eq. unfold gets at 1, st_gets. cbn beta iota zeta.
  destruct (get_folder_by_id_and_user_id id (u_id u) (t_folders w)) as [f|] eqn:Ef; [|done].
  rewrite st_bind_eq. unfold gets at 1, st_gets. cbn beta iota zeta. case_goal; [done|].
  assert (Hf : find_owned id (u_id u) (t_folders w) = Some f).
  { exact Ef. }
  destruct (subtree_spec (u_id u) (t_folders w) id f Ht Hf) as [_ Hin].
  rewrite st_bind_eq. destruct (nonempty parent_id) as [p|] eqn:Ep.
  - rewrite st_bind_eq. unfold gets at 1, st_gets. cbn beta iota zeta. set (l := get_folder_ids_by_id_and_user_id_in_subtree id (u_id u) (t_folders w)) in *.
    destruct (decide (p ∈ l)) as [Hpl|Hpl]; [by rewrite bool_decide_true|]. rewrite bool_decide_false by done. cbn [mret st_ret].
    pose proof (update_parent_no_loops v id (u_id u) parent_id now (t_folders w) Ht He) as Hm. rewrite Ep in Hm.
    unfold on_folders. destruct (update_folder_parent_id_by_id_and_user_id _ _ _ _ _) as [r t]. apply Hm; [|done].
    intros q [= <-]. by rewrite <-Hin.
  - cbn [mret st_ret]. pose proof (update_parent_no_loops v id (u_id u) parent_id now (t_folders w) Ht He) as Hm. rewrite Ep in Hm.
    unfold on_folders. destruct (update_folder_parent_id_by_id_and_user_id _ _ _ _ _) as [r t]. by apply Hm.
Qed.

(** ** A table with a loop *)

Definition example_folder (id : string) (parent : option string) (user : string) : folder :=
  Folder id parent user id None None false 0 0.
Definition table_of (l : list folder) : folders := foldl (λ t f, <[f_id f := f]> t) ∅ l.
Definition example_folders : folders := table_of
  [example_folder "a" None "u"; example_folder "b" (Some "a") "u"; example_folder "c" (Some "b") "u";
   example_folder "x" (Some "y") "u"; example_folder "y" (Some "x") "u"; example_folder "z" (Some "x") "u";
   example_folder "d" (Some "gone") "u"; example_folder "o" (Some "a") "other"].
Definition example_tables : tables :=
  Tables example_folders
    {["k" := ChatLink "u" (Some "b") false; "l" := ChatLink "other" (Some "b") false; "m" := ChatLink "u" (Some "x") false]}
    {| gdb_grants := []; gdb_uuids := 0 |} {["t" := AutomationLink "u" (Some "c")]}.
Definition example_user : requester := Requester "u" "user".

Lemma all_rows (P : string → folder → Prop) (t : folders) : Forall (λ kv, P kv.1 kv.2) (map_to_list t) → ∀ i f, t !! i = Some f → P i f.
Proof. intros Hf i f Hi. apply elem_of_map_to_list in Hi. exact (proj1 (list.Forall_forall _ _) Hf (i, f) Hi). Qed.

Lemma example_sound : sound example_folders.
Proof. refine (all_rows (λ i f, f_id f = i) _ _). vm_compute. repeat constructor. Qed.

Lemma deletion_takes_the_subtree_witness :
  let r := Folders.delete_folder (λ _, Ok tt) (λ _, true) 1000 example_user "a" true example_tables in
  (dom (t_folders r.2) = {["x"; "y"; "z"; "d"; "o"]} ∧ dom (t_chats r.2) = {["l"; "m"]}) ∧
  ∃ ids w', r = (Ok true, w') ∧ NoDup ids ∧
    (∀ i, i ∈ ids ↔ rtc (child "u" example_folders) "a" i) ∧
    (∀ i, i ∈ get_folder_ids_by_id_and_user_id_in_subtree "a" "u" example_folders ↔ i ∈ ids) ∧
    (∀ i, t_folders w' !! i = if bool_decide (i ∈ ids) then None else example_folders !! i) ∧
    (∀ c, t_chats w' !! c = (t_chats example_tables !! c ≫= chat_after true "u" ids)) ∧
    gdb_grants (t_grants w') = List.filter (λ g, negb (about_folders ids g)) (gdb_grants (t_grants example_tables)) ∧
    t_automations w' = clear_folder_ids "u" ids <$> t_automations example_tables.
Proof.
  split; [split; apply (bool_decide_unpack _); vm_compute; exact I|].
  apply (deletion_takes_the_subtree (λ _, Ok tt) (λ _, true) 1000 example_user "a" true example_tables (example_folder "a" None "u")).
  - exact example_sound.
  - apply (bool_decide_unpack _). vm_compute. exact I.
  - reflexivity.
  - vm_compute. reflexivity.
  - left. reflexivity.
  - right. right. reflexivity.
Defined.


(** *** Where the code departs from it *)

(** Siblings of an owner get the same name when another user creates them. *)
Example shared_folder_takes_a_name_twice :
  let grants := {| gdb_grants := [{| gr_id := "g"; gr_resource_type := "folder"; gr_resource_id := "a"; gr_principal_type := "user";
                     gr_principal_id := "other"; gr_permission := "write"; gr_created_at := 0 |}]; gdb_uuids := 0 |} in
  let w := Tables (table_of [example_folder "a" None "u"; example_folder "b" (Some "a") "u"]) ∅ grants ∅ in
  let form := Form "b" None None (Some "a") in
  let create u id := (create_folder (λ _, Ok tt) (λ _ _, true) (λ _, true) (λ _, []) u id form 9 w).1 in
  create example_user "n" = Err (HTTPException 400 "Folder already exists") ∧
  f_user <$> create (Requester "other" "user") "n" = Ok "u".
Proof. vm_compute. split; reflexivity. Qed.
