(* ===== verification/Uuid.v ===== *)
(** * UUIDs (the standard library's [uuid.UUID] of a string, [str] of a UUID, and
    [uuid.uuid5], which is SHA-1 of a namespace and a name).

    A UUID is its integer.  Byte strings are lists of integers below 256, words integers
    below 2 ^ 32, as in [Sha256]. *)

From S2P Require Import Prelude PyVal Sha256.
From Stdlib Require Import Ascii.

Local Open Scope Z_scope.

(** ** SHA-1 *)

Definition rotl (n x : Z) : Z := rotr (32 - n) x.

Record sha1_state := Sha1 { sa : Z; sb : Z; sc : Z; sd : Z; se : Z }.

Definition sha1_start : sha1_state := Sha1 1732584193 4023233417 2562383102 271733878 3285377520.

(** The function and the constant of a round: the square roots of 2, 3, 5 and 10, scaled *)
Definition sha1_mix (t b c d : Z) : Z :=
  if t <? 20 then add32 (ch b c d) (Z.sqrt (2 * 2 ^ 60))
  else if t <? 40 then add32 (Z.lxor (Z.lxor b c) d) (Z.sqrt (3 * 2 ^ 60))
  else if t <? 60 then add32 (maj b c d) (Z.sqrt (5 * 2 ^ 60))
  else add32 (Z.lxor (Z.lxor b c) d) (Z.sqrt (10 * 2 ^ 60)).

Definition sha1_round (s : sha1_state) (tw : Z * Z) : sha1_state :=
  let t := add32 (rotl 5 (sa s)) (sha1_mix tw.1 (sb s) (sc s) (sd s) + se s + tw.2) in
  Sha1 t (sa s) (rotl 30 (sb s)) (sc s) (sd s).

(** The message schedule, last word first *)
Fixpoint sha1_extend (n : nat) (w : list Z) : list Z :=
  match n with
  | O => w
  | S n => sha1_extend n (rotl 1 (Z.lxor (Z.lxor (nth 2 w 0) (nth 7 w 0)) (Z.lxor (nth 13 w 0) (nth 15 w 0))) :: w)
  end.

Definition sha1_compress (s : sha1_state) (block : list Z) : sha1_state :=
  let t := foldl sha1_round s (combine (seqZ 0 80) (rev (sha1_extend 64 (rev block)))) in
  Sha1 (add32 (sa s) (sa t)) (add32 (sb s) (sb t)) (add32 (sc s) (sc t)) (add32 (sd s) (sd t)) (add32 (se s) (se t)).

Fixpoint sha1_blocks (fuel : nat) (s : sha1_state) (ws : list Z) : sha1_state :=
  match fuel, ws with
  | O, _ | _, [] => s
  | S fuel, _ => sha1_blocks fuel (sha1_compress s (firstn 16 ws)) (skipn 16 ws)
  end.

Definition sha1 (bytes : list Z) : list Z :=
  let ws := words (pad bytes) in
  let s := sha1_blocks (S (length ws)) sha1_start ws in
  flat_map word_bytes [sa s; sb s; sc s; sd s; se s].

(** ** Texts *)

(** [s.replace(old, '')] *)
Fixpoint remove_all (fuel : nat) (old s : string) : string :=
  match fuel, s with
  | S fuel, String c r => if Str.startswith old s then remove_all fuel old (Str.drop (String.length old) s) else String c (remove_all fuel old r)
  | _, _ => EmptyString
  end.
Definition without (old s : string) : string := remove_all (String.length s) old s.

Definition hex_value (c : ascii) : option Z :=
  let n := Z.of_nat (Str.code c) in
  if (48 <=? n) && (n <=? 57) then Some (n - 48)
  else if (65 <=? n) && (n <=? 70) then Some (n - 55)
  else if (97 <=? n) && (n <=? 102) then Some (n - 87)
  else None.

(** Digits, with single underscores between them *)
Fixpoint hex_digits (acc : Z) (s : string) : option Z :=
  match s with
  | EmptyString => Some acc
  | String c r =>
      match hex_value c with
      | Some d => hex_digits (16 * acc + d) r
      | None =>
          match r with
          | String c' r' =>
              if Ascii.eqb c "_" then match hex_value c' with Some d => hex_digits (16 * acc + d) r' | None => None end
              else None
          | EmptyString => None
          end
      end
  end.

Definition c_space (c : ascii) : bool := let n := Str.code c in ((9 <=? n) && (n <=? 13))%nat || (n =? 32)%nat.
Definition is_ascii (s : string) : bool := Str.sforallb (λ c, (Str.code c <? 128)%nat) s.

(** [int(s, 16)] of a text without a minus sign *)
Definition int16 (s : string) : option Z :=
  let s := if is_ascii s then s else Str.smap (λ c, if Str.is_space c then " "%char else c) s in
  let s := Str.strip_by c_space s in
  let s := match s with String "+" r => r | _ => s end in
  let s := match s with
           | String "0" (String "x" r) | String "0" (String "X" r) =>
               match r with String "_" r => r | _ => r end
           | _ => s
           end in
  match s with String c r => match hex_value c with Some d => hex_digits d r | None => None end | EmptyString => None end.

(** [uuid.UUID(s)]; it raises ValueError on any other text *)
Definition uuid_of (s : string) : option Z :=
  let hex := without "uuid:" (without "urn:" s) in
  let hex := without "-" (Str.strip_chars "{}" hex) in
  if (String.length hex =? 32)%nat then int16 hex else None.

Definition uuid_bytes (u : Z) : list Z := map (λ n, Z.land (Z.shiftr u (8 * n)) 255) (rev (seqZ 0 16)).
Definition int_of_bytes (bytes : list Z) : Z := foldl (λ acc b, 256 * acc + b) 0 bytes.

(** [str(u)] *)
Definition uuid_str (u : Z) : string :=
  let h := hex (uuid_bytes u) in
  let part i n := Str.take n (Str.drop i h) in
  part 0%nat 8%nat +:+ "-" +:+ part 8%nat 4%nat +:+ "-" +:+ part 12%nat 4%nat +:+ "-" +:+ part 16%nat 4%nat +:+ "-" +:+ part 20%nat 12%nat.

(** [uuid.uuid5(namespace, name)] *)
Definition uuid5 (namespace : Z) (name : string) : Z :=
  let u := int_of_bytes (firstn 16 (sha1 (uuid_bytes namespace ++ utf8 name))) in
  let u := Z.lor (Z.ldiff u (Z.shiftl 49152 48)) (Z.shiftl 32768 48) in
  Z.lor (Z.ldiff u (Z.shiftl 61440 64)) (Z.shiftl 5 76).

(** Published vectors, and values the library computes *)
Example sha1_abc : hex (sha1 (utf8 "abc")) = "a9993e364706816aba3e25717850c26c9cd0d89d".
Proof. vm_compute. reflexivity. Qed.

Example sha1_two_blocks :
  hex (sha1 (utf8 "abcdbcdecdefdefgefghfghighijhijkijkljklmklmnlmnomnopnopq")) = "84983e441c3bd26ebaae4aa1f95129e5e54670f1".
Proof. vm_compute. reflexivity. Qed.

Example uuid5_dns :
  uuid_str <$> (flip uuid5 "python.org" <$> uuid_of "{6ba7b810-9dad-11d1-80b4-00c04fd430c8}") =
  Some "886313e1-3b8a-5372-9b90-0c9aee199e5d".
Proof. vm_compute. reflexivity. Qed.

Example uuid_texts :
  uuid_of "urn:uuid:6BA7B810-9dad-11d1-80b4-00c04fd430c8" = uuid_of "6ba7b8109dad11d180b400c04fd430c8" ∧
  uuid_str <$> uuid_of "6ba7b810_9dad_11d1_80b4_00c04fd4" = Some "00006ba7-b810-9dad-11d1-80b400c04fd4" ∧
  uuid_str <$> uuid_of "+0x_a7b8109dad11d180b400c04fd430" = Some "0000a7b8-109d-ad11-d180-b400c04fd430" ∧
  uuid_of "main" = None.
Proof. split_and!; vm_compute; reflexivity. Qed.
