(* ===== verification/NotePages.v ===== *)
(** * The pages of a note (models/notes.py, the functions above [class Note]): their
    normal form, the operations on the tree of pages, edits of a page, and attachments.

    Pages are written by the server alone (the forms refuse a list of pages), so a page is
    a record; the other keys of [note.data] are a dict.  The parsers of Markdown
    ([markdown.markdown]) and HTML ([BeautifulSoup(...).find_all('a', href=True)], as pairs
    of target and text) are parameters, and so are [repr] and the text of a float. *)

From S2P Require Import Prelude PyVal Json JsonDump Sha256 Uuid.
From stdpp Require Import gmap strings.
From Stdlib Require Import Ascii SpecFloat.

Local Open Scope Z_scope.

(** ** Data *)

(** [p_inherits] is [page.get('inherit_note_title', True)], [p_files] the attachments an
    older version kept beside the content. *)
Record page := Page {
  p_id : string; p_parent : option string; p_title : string; p_content : pyval; p_versions : pyval;
  p_revision : Z; p_generation : Z; p_inherits : bool; p_files : option pyval }.

(** [note.data]: the pages, and the other keys *)
Record note_data := NoteData { d_pages : list page; d_fields : pydict }.

Definition main : string := "main".
Definition is_main (p : page) : bool := String.eqb (p_id p) main.
Definition has_id (id : string) (p : page) : bool := String.eqb (p_id p) id.
Definition page_ids (l : list page) : list string := map p_id l.

Definition with_parent (parent : option string) (p : page) : page :=
  Page (p_id p) parent (p_title p) (p_content p) (p_versions p) (p_revision p) (p_generation p) (p_inherits p) (p_files p).
Definition with_title (title : string) (inherits : bool) (p : page) : page :=
  Page (p_id p) (p_parent p) title (p_content p) (p_versions p) (p_revision p) (p_generation p) inherits (p_files p).
Definition with_content (content versions : pyval) (revision generation : Z) (p : page) : page :=
  Page (p_id p) (p_parent p) (p_title p) content versions revision generation (p_inherits p) (p_files p).
Definition without_files (p : page) : page :=
  Page (p_id p) (p_parent p) (p_title p) (p_content p) (p_versions p) (p_revision p) (p_generation p) (p_inherits p) None.

Definition blank_content : pyval := VDict [("json", VNone); ("html", VStr EmptyString); ("md", VStr EmptyString)].
Definition blank_page (id : string) (parent : option string) (title : string) : page :=
  Page id parent title blank_content (VList []) 0 0 true None.

Definition invalid {A} (message : string) : res A := Err (ValueError message).
Definition conflict {A} (message : string) : res A := Err (NotePageConflict message).

(** ** Order *)

Definition child_of (parent : option string) (p : page) : bool := bool_decide (p_parent p = parent).
Definition children (l : list page) (parent : option string) : list page := List.filter (child_of parent) l.

(** The loop over [stack], its end first *)
Fixpoint visit (fuel : nat) (l stack ordered : list page) : list page :=
  match fuel, stack with
  | S fuel, p :: stack => visit fuel l (children l (Some (p_id p)) ++ stack) (ordered ++ [p])
  | _, _ => ordered
  end.

Definition main_to_root (p : page) : page := if is_main p then with_parent None p else p.

(** [roots.sort(key=lambda page: page['id'] != 'main')] *)
Definition main_first (l : list page) : list page := List.filter is_main l ++ List.filter (λ p, negb (is_main p)) l.

Definition parent_exists (l : list page) (p : page) : bool :=
  match p_parent p with Some parent => bool_decide (parent ∈ page_ids l) | None => true end.

(** [order_pages]: every page is visited once, so one more step than pages ends the loop. *)
Definition order_pages (l : list page) : res (list page) :=
  if negb (bool_decide (NoDup (page_ids l))) then invalid "Page IDs must be unique"
  else
    let l := map main_to_root l in
    if negb (forallb (parent_exists l) l) then invalid "Parent page no longer exists"
    else
      let ordered := visit (S (length l)) l (main_first (children l None)) [] in
      if (length ordered =? length l)%nat then Ok ordered
      else invalid "A page cannot be nested inside itself or its subpages".

(** [subtree_ids] *)
Definition subtree_ids (l : list page) (page_id : string) : gset string :=
  foldl (λ ids p, match p_parent p with
                  | Some parent => if decide (parent ∈ ids) then {[ p_id p ]} ∪ ids else ids
                  | None => ids
                  end) {[ page_id ]} l.

(** [page_paths] *)
Definition page_paths (l : list page) : gmap string string :=
  foldl (λ paths p,
    let above := match p_parent p with Some parent => default EmptyString (paths !! parent) | None => EmptyString end in
    <[p_id p := if Str.is_empty above then p_title p else above +:+ " / " +:+ p_title p]> paths) ∅ l.

(** ** Attachments *)

(** [re.fullmatch(r'[\w-]+', s)] for ASCII words *)
Definition word_char (c : ascii) : bool :=
  let n := Str.code c in
  Str.is_digit c || ((65 <=? n) && (n <=? 90))%nat || ((97 <=? n) && (n <=? 122))%nat || Ascii.eqb c "_" || Ascii.eqb c "-".
Definition is_file_id (s : string) : bool := negb (Str.is_empty s) && Str.sforallb word_char s.

Fixpoint vsize (v : pyval) : nat :=
  match v with
  | VList l => S ((fix go l := match l with [] => 0 | x :: l => vsize x + go l end) l)
  | VDict d => S ((fix go d := match d with [] => 0 | (_, x) :: d => vsize x + go d end) d)
  | _ => 1
  end%nat.

Definition file_entry (id : string) (name size : pyval) : pyval :=
  VDict [("type", VStr "file"); ("id", VStr id); ("name", name); ("size", size)].

(** The attachment a node stands for *)
Definition node_file (node : pydict) : res (option (string * pyval)) :=
  if veq_str (dget node "type") "fileAttachment" then
    let attrs := por (dget node "attrs") (VDict []) in
    file_id ← vget attrs "id";
    match file_id with
    | VStr id =>
        if is_file_id id then
          name ← vget attrs "name"; size ← vgetd attrs "size" (VInt 0);
          Ok (Some (id, file_entry id (por name (VStr id)) size))
        else Ok None
    | _ => Ok None
    end
  else Ok None.

(** The loop over [stack] of [get_content_files] *)
Fixpoint walk_nodes (fuel : nat) (stack : list pyval) (files : pydict) : res pydict :=
  match fuel, stack with
  | S fuel, VDict node :: stack =>
      f ← node_file node;
      below ← viter (por (dget node "content") (VList []));
      walk_nodes fuel (below ++ stack) (match f with Some (id, entry) => dict_set id entry files | None => files end)
  | S fuel, _ :: stack => walk_nodes fuel stack files
  | _, _ => Ok files
  end.

(** [re.fullmatch(r'/api/v1/files/([\w-]+)/content', href)] *)
Definition file_link (href : string) : option string :=
  match Json.strip_prefix "/api/v1/files/" href with
  | Some rest =>
      if Str.endswith "/content" rest then
        let id := Str.take (String.length rest - 8) rest in
        if is_file_id id then Some id else None
      else None
  | None => None
  end.

(** [s.replace(old, new)] *)
Fixpoint replace_from (fuel : nat) (old new s : string) : string :=
  match fuel, s with
  | S fuel, String c r =>
      if Str.startswith old s then new +:+ replace_from fuel old new (Str.drop (String.length old) s)
      else String c (replace_from fuel old new r)
  | _, _ => EmptyString
  end.
Definition replace_text (old new s : string) : string := replace_from (String.length s) old new s.

(** [html.escape(s, quote=True)] *)
Definition escape_html_char (c : ascii) : string :=
  if Ascii.eqb c "&" then "&amp;"
  else if Ascii.eqb c "<" then "&lt;"
  else if Ascii.eqb c ">" then "&gt;"
  else if Ascii.eqb c quote then "&quot;"
  else if Ascii.eqb c "'" then "&#x27;"
  else String c EmptyString.
Fixpoint escape_html (s : string) : string :=
  match s with EmptyString => EmptyString | String c r => escape_html_char c +:+ escape_html r end.

Definition as_text (v : pyval) (e : exn) : res string := match v with VStr s => Ok s | _ => Err e end.

Section Pages.
Context (markdown : string → string) (links : string → list (string * string)).
Context (repr_other : pyval → string) (float_repr : spec_float → string).

Notation dumps := (json_dumps float_repr).
Notation str := (py_str repr_other).

(** [content.get('html') or markdown.markdown(content.get('md') or '')] *)
Definition html_of (content : pydict) : res string :=
  if truthy (dget content "html") then as_text (dget content "html") TypeError
  else markdown <$> as_text (por (dget content "md") (VStr EmptyString)) AttributeError.

Definition add_link (files : pydict) (link : string * string) : pydict :=
  match file_link link.1 with
  | Some id => dict_set id (file_entry id (VStr (if Str.is_empty link.2 then id else link.2)) (VInt 0)) files
  | None => files
  end.

(** [get_content_files] *)
Definition get_content_files (content : pyval) : res (list pyval) :=
  match content with
  | VDict c =>
      files ← match dget c "json" with
              | VDict document => walk_nodes (S (vsize (VDict document))) [VDict document] []
              | _ => html ← html_of c; Ok (foldl add_link [] (links html))
              end;
      Ok (dict_values files)
  | _ => Ok []
  end.

(** *** Attachments of older versions *)

(** [json.dumps(url)[1:-1]] *)
Definition inner (s : string) : string := Str.take (String.length s - 2) (Str.drop 1 s).

(** A snapshot in which [reference] stands for the image; true if it occurs there *)
Definition inline_image (reference : string) (url snapshot : pyval) : res (pyval * bool) :=
  match snapshot with
  | VDict d =>
      let encoded := dumps snapshot in
      if Str.contains reference encoded then
        new ← json_loads (replace_text reference (inner (dumps url)) encoded);
        fields ← as_dict new;
        Ok (VDict (dict_update d fields), true)
      else Ok (snapshot, false)
  | _ => Ok (snapshot, false)
  end.

Definition inline_versions (reference : string) (url versions : pyval) : res (pyval * bool) :=
  match versions with
  | VList l => done ← mapR (inline_image reference url) l; Ok (VList (map fst done), existsb snd done)
  | _ => Ok (versions, false)
  end.

(** The block of an attachment at the end of the three forms of the content *)
Definition append_file (content : pyval) (id name : string) (size : pyval) : res pyval :=
  let href := "/api/v1/files/" +:+ id +:+ "/content" in
  let q := String quote EmptyString in
  let block := "<div data-file-id=" +:+ q +:+ escape_html id +:+ q +:+ "><a href=" +:+ q +:+ escape_html href +:+ q +:+ ">"
                 +:+ escape_html name +:+ "</a></div>" in
  c ← as_dict content;
  html ← html_of c;
  md ← as_text (por (dget c "md") (VStr EmptyString)) TypeError;
  let label := replace_text "]" EmptyString (replace_text "[" EmptyString name) in
  let newlines := String (ascii_of_nat 10) (String (ascii_of_nat 10) EmptyString) in
  let c := dict_set "html" (VStr (html +:+ block)) c in
  let c := dict_set "md" (VStr (md +:+ newlines +:+ "[" +:+ label +:+ "](" +:+ href +:+ ")")) c in
  match dget c "json" with
  | VDict document =>
      let node := VDict [("type", VStr "fileAttachment");
                         ("attrs", VDict [("id", VStr id); ("name", VStr name); ("size", size)])] in
      match dgetd document "content" (VList []) with
      | VList nodes => Ok (VDict (dict_set "json" (VDict (dict_set "content" (VList (nodes ++ [node])) document)) c))
      | _ => Err AttributeError
      end
  | _ => Ok (VDict c)
  end.

Record migration := Migration { mi_content : pyval; mi_versions : pyval; mi_existing : list string; mi_changed : bool }.

(** One file of the loop of [migrate_page_files] *)
Definition migrate_file (m : migration) (file : pyval) : res migration :=
  match file with
  | VDict f =>
      if negb (truthy (dget f "id")) then Ok m
      else if veq_str (dget f "type") "image" then
        let reference := "data://" +:+ str (dget f "id") in
        let url := por (dget f "url") (VStr EmptyString) in
        if negb (truthy url) then Ok m
        else
          _ ← viter (por (mi_versions m) (VList []));
          c ← inline_image reference url (mi_content m);
          v ← inline_versions reference url (mi_versions m);
          Ok (Migration c.1 v.1 (mi_existing m) (mi_changed m || c.2 || v.2))
      else
        match dget f "id" with
        | VStr id =>
            if bool_decide (id ∈ mi_existing m) then Ok m
            else
              name ← as_text (por (dget f "name") (VStr id)) AttributeError;
              content ← append_file (mi_content m) id name (por (dget f "size") (VInt 0));
              Ok (Migration content (mi_versions m) (id :: mi_existing m) true)
        | VList _ | VDict _ => Err TypeError
        | _ => Err AttributeError
        end
  | _ => Ok m
  end.

Definition entry_id (v : pyval) : list string := match v with VDict d => match dget d "id" with VStr id => [id] | _ => [] end | _ => [] end.

(** [migrate_page_files] *)
Definition migrate_page_files (p : page) (files : pyval) : res page :=
  existing ← get_content_files (p_content p);
  l ← viter files;
  m ← foldM migrate_file (Migration (p_content p) (p_versions p) (flat_map entry_id existing) false) l;
  Ok (with_content (mi_content m) (mi_versions m) (p_revision p) (p_generation p + (if mi_changed m then 1 else 0)) p).

Definition referenced_image (references : string) (file : pyval) : bool :=
  match file with
  | VDict f => veq_str (dget f "type") "image" && Str.contains ("data://" +:+ str (dget f "id")) references
  | _ => false
  end.

(** The files that belong to a page, and the page without its list *)
Definition migrate_page (legacy_files : pyval) (p : page) : res page :=
  files ← match p_files p with
          | Some files => Ok files
          | None =>
              if is_main p then Ok legacy_files
              else
                l ← viter legacy_files;
                Ok (VList (List.filter (referenced_image (dumps (VList [p_content p; p_versions p]))) l))
          end;
  if truthy files then migrate_page_files (without_files p) files else Ok (without_files p).

(** ** Normal form *)

Definition or_untitled (title : option string) : string :=
  match title with Some t => if Str.is_empty t then "Untitled" else t | None => "Untitled" end.

Definition first_page (note_title : option string) (fields : pydict) : page :=
  Page main None (or_untitled note_title) (por (dget fields "content") blank_content)
    (por (dget fields "versions") (VList [])) 0 0 true None.

(** The list of pages, with a main page *)
Definition pages_with_main (note_title : option string) (d : note_data) : list page :=
  let l := match d_pages d with [] => [first_page note_title (d_fields d)] | l => l end in
  if existsb is_main l then l else blank_page main None (or_untitled note_title) :: l.

(** The main page has the title of the note until it is renamed. *)
Definition inherit_title (note_title : option string) (p : page) : page :=
  match note_title with
  | Some t => if is_main p && p_inherits p then with_title (or_untitled (Some t)) (p_inherits p) p else p
  | None => p
  end.

Definition markdown_of (p : page) : res string := md ← vgetd (p_content p) "md" (VStr EmptyString); Ok (str md).

Definition two_lines : string := String (ascii_of_nat 10) (String (ascii_of_nat 10) EmptyString).
Definition one_line : string := String (ascii_of_nat 10) EmptyString.

Definition path_of (paths : gmap string string) (p : page) : string := default EmptyString (paths !! p_id p).

(** The projections of the pages: [data['content']] and [data['search_text']] *)
Definition joined_content (l : list page) : res pyval :=
  match l with
  | [p] => Ok (p_content p)
  | _ =>
      parts ← mapR (λ p, md ← markdown_of p; Ok ("## " +:+ path_of (page_paths l) p +:+ two_lines +:+ md)) l;
      Ok (VDict [("json", VNone); ("md", VStr (Str.join two_lines parts)); ("html", VStr EmptyString)])
  end.
Definition search_text (l : list page) : res string :=
  parts ← mapR (λ p, md ← markdown_of p; Ok (path_of (page_paths l) p +:+ one_line +:+ md)) l;
  Ok (Str.join two_lines parts).

(** [normalize_pages] *)
Definition normalize_pages (data : option note_data) (note_title : option string) : res note_data :=
  let d := default (NoteData [] []) data in
  ordered ← order_pages (map (inherit_title note_title) (pages_with_main note_title d));
  let legacy_files := por (dget (d_fields d) "files") (VList []) in
  pages ← mapR (migrate_page legacy_files) ordered;
  let fields := dict_del "versions" (dict_setdefault "pages_revision" (VInt 0) (dict_del "files" (d_fields d))) in
  content ← joined_content pages;
  text ← search_text pages;
  Ok (NoteData pages (dict_set "search_text" (VStr text) (dict_set "content" content fields))).

(** [get_note_files] *)
Definition get_note_files (data : option note_data) : res (list pyval) :=
  d ← normalize_pages data None;
  files ← mapR (λ p, get_content_files (p_content p)) (d_pages d);
  Ok (concat files).

(** [get_page] *)
Definition get_page (data : option note_data) (page_id : option string) : res page :=
  d ← normalize_pages data None;
  match page_id with
  | None => match d_pages d with [p] => Ok p | _ => conflict "Select a page before editing this note" end
  | Some id => match find_first (has_id id) (d_pages d) with Some p => Ok p | None => conflict "Page no longer exists" end
  end.

(** [document_page] *)
Definition document_page (data : option note_data) (document_id : string) : res page :=
  match Str.split ":"%char document_id with
  | [_; _] =>
      p ← get_page data None;
      if p_generation p =? 0 then Ok p else conflict "Reload this page before editing"
  | [_; _; kind; page_id; generation] =>
      if String.eqb kind "page" then
        p ← get_page data (Some page_id);
        if String.eqb (pretty (p_generation p)) generation then Ok p else conflict "Page changed; reload before editing"
      else invalid "Invalid note document ID"
  | _ => invalid "Invalid note document ID"
  end.

(** ** Operations on the tree of pages *)

Inductive page_action := CreatePage | RenamePage | DuplicatePage | ReorderPages | MovePage | DeletePage.

#[global] Instance page_action_eq_dec : EqDecision page_action.
Proof. solve_decision. Defined.

(** [NotePageOperation] *)
Record NotePageOperation := PageOperation {
  op_action : page_action; op_page_id : option string; op_new_id : option string; op_parent_id : option string;
  op_before_id : option string; op_title : option string; op_order : option (list string); op_revision : Z }.

Definition pages_revision (d : note_data) : pyval := dget (d_fields d) "pages_revision".

(** [data['pages_revision'] += 1] *)
Definition bump_revision (d : note_data) : res pydict :=
  v ← ditem (d_fields d) "pages_revision";
  match v with
  | VInt n => Ok (dict_set "pages_revision" (VInt (n + 1)) (d_fields d))
  | VBool b => Ok (dict_set "pages_revision" (VInt (Z.b2z b + 1)) (d_fields d))
  | VFloat f => Ok (dict_set "pages_revision" (VFloat (F64.add f (default F64.zero (F64.of_Z 1)))) (d_fields d))
  | _ => Err TypeError
  end.

Definition required_title (title : option string) : res string :=
  let t := Str.strip (default EmptyString title) in
  if Str.is_empty t then invalid "Page title is required" else Ok t.

Definition find_page (page_id : option string) (l : list page) : res page :=
  match find_first (λ p, bool_decide (Some (p_id p) = page_id)) l with
  | Some p => Ok p
  | None => conflict "Page no longer exists"
  end.

(** The first index of the page with an id *)
Fixpoint index_of (id : string) (l : list page) : nat :=
  match l with [] => O | p :: l => if has_id id p then O else S (index_of id l) end.

Definition create_page (op : NotePageOperation) (new_id : string) (l : list page) : res (list page) :=
  title ← required_title (op_title op);
  Ok (l ++ [blank_page new_id (op_parent_id op) title]).

Definition reorder_pages (op : NotePageOperation) (l : list page) : res (list page) :=
  let order := default [] (op_order op) in
  if negb (length order =? length l)%nat
     || negb (bool_decide (list_to_set order =@{gset string} list_to_set (page_ids l)))
  then invalid "Order must contain each page exactly once"
  else
    match order with
    | [] => Err IndexError
    | first :: _ =>
        if String.eqb first main then Ok (omap (M:=list) (λ id, find_first (has_id id) l) order)
        else invalid "The default page must stay first"
    end.

Definition update_page (id : string) (f : page → page) (l : list page) : list page :=
  map (λ p, if has_id id p then f p else p) l.

Definition rename_page (op : NotePageOperation) (p : page) (l : list page) : res (list page) :=
  title ← required_title (op_title op);
  Ok (update_page (p_id p) (with_title title (p_inherits p && negb (is_main p))) l).

Definition inside (ids : gset string) (p : page) : bool := bool_decide (p_id p ∈ ids).

Definition move_page (op : NotePageOperation) (p : page) (l : list page) : res (list page) :=
  let parent_id := op_parent_id op in
  if bool_decide (op_before_id op = Some main) then invalid "The default page must stay first"
  else
    let branch_ids := subtree_ids l (p_id p) in
    if match parent_id with Some parent => bool_decide (parent ∈ branch_ids) | None => false end
    then invalid "A page cannot be nested inside itself or its subpages"
    else if match parent_id with Some parent => negb (existsb (has_id parent) l) | None => false end
    then invalid "Parent page no longer exists"
    else
      let branch := List.filter (inside branch_ids) l in
      let remaining := List.filter (λ p, negb (inside branch_ids p)) l in
      position ← match op_before_id op with
                 | None => Ok (length remaining)
                 | Some before =>
                     match find_first (has_id before) remaining with
                     | Some anchor =>
                         if bool_decide (p_parent anchor = parent_id) then Ok (index_of before remaining)
                         else invalid "Move target must be a sibling in the destination"
                     | None => invalid "Move target must be a sibling in the destination"
                     end
                 end;
      Ok (firstn position remaining ++ update_page (p_id p) (with_parent parent_id) branch ++ skipn position remaining).

(** The children of a deleted page move up. *)
Definition delete_page (p : page) (l : list page) : res (list page) :=
  if (length l =? 1)%nat then invalid "A note must have at least one page"
  else
    let l := map (λ c, if child_of (Some (p_id p)) c then with_parent (p_parent p) c else c) l in
    Ok (firstn (index_of (p_id p) l) l ++ skipn (S (index_of (p_id p) l)) l).

Definition copy_page (ids : gmap string string) (p : page) : page :=
  Page (default (p_id p) (ids !! p_id p))
    (match p_parent p with Some parent => Some (default parent (ids !! parent)) | None => None end)
    (p_title p) (p_content p) (VList []) 0 0 (p_inherits p) (p_files p).

Definition copy_ids (namespace : Z) (new_id : string) (p : page) (branch : list page) : gmap string string :=
  <[p_id p := new_id]> (foldl (λ ids c, <[p_id c := uuid_str (uuid5 namespace (p_id c))]> ids) ∅ branch).

Definition duplicate_page (op : NotePageOperation) (namespace : Z) (new_id : string) (p : page) (l : list page) : res (list page) :=
  let branch := List.filter (inside (subtree_ids l (p_id p))) l in
  let ids := copy_ids namespace new_id p branch in
  if existsb (λ id, existsb (has_id id) l) ((map_to_list ids).*2) then invalid "A duplicated page ID already exists"
  else
    let copies := match map (copy_page ids) branch with
                  | c :: copies => with_title (Str.take 193 (p_title p) +:+ " (Copy)") (p_inherits c) c :: copies
                  | [] => []
                  end in
    let position := match last branch with Some c => S (index_of (p_id c) l) | None => O end in
    Ok (firstn position l ++ copies ++ skipn position l).

(** [if not operation.new_id] and [uuid.UUID(operation.new_id)] *)
Definition required_id (new_id : option string) : res (string * Z) :=
  let id := default EmptyString new_id in
  if Str.is_empty id then invalid "A new page ID is required"
  else match uuid_of id with Some u => Ok (id, u) | None => invalid "badly formed hexadecimal UUID string" end.

Definition adds_page (action : page_action) : bool := match action with CreatePage | DuplicatePage => true | _ => false end.
Definition fixed_main (action : page_action) : bool := match action with MovePage | DeletePage => true | _ => false end.

(** The list of pages after the operation; None if it was done before *)
Definition operate (op : NotePageOperation) (d : note_data) : res (option (list page)) :=
  let l := d_pages d in
  new ← if adds_page (op_action op) then required_id (op_new_id op) else Ok (EmptyString, 0);
  if adds_page (op_action op) && existsb (has_id new.1) l then Ok None
  else if negb (py_eqb (VInt (op_revision op)) (pages_revision d)) then conflict "Pages changed. Refresh and try again"
  else
    Some <$>
      match op_action op with
      | CreatePage => create_page op new.1 l
      | ReorderPages => reorder_pages op l
      | action =>
          p ← find_page (op_page_id op) l;
          if is_main p && fixed_main action then invalid "The default page cannot be moved or deleted"
          else
            match action with
            | RenamePage => rename_page op p l
            | MovePage => move_page op p l
            | DeletePage => delete_page p l
            | _ => duplicate_page op new.2 new.1 p l
            end
      end.

(** [apply_page_operation] *)
Definition apply_page_operation (data : option note_data) (op : NotePageOperation) : res note_data :=
  d ← normalize_pages data None;
  done ← operate op d;
  match done with
  | None => Ok d
  | Some l => fields ← bump_revision d; normalize_pages (Some (NoteData l fields)) None
  end.

(** ** Edits of a page *)

Definition text_field (d : pydict) (key : string) : bool :=
  match dict_get key d with Some (VStr _) | None => true | Some _ => false end.

(** [changes['content']] *)
Definition valid_content (content : pyval) : res pydict :=
  match content with
  | VDict c => if text_field c "md" && text_field c "html" then Ok c else invalid "Page content must contain text markdown and HTML"
  | _ => invalid "Page content must contain text markdown and HTML"
  end.

Definition expected (given : option Z) (actual : Z) : bool := match given with Some n => n =? actual | None => true end.

(** [update_page_content] *)
Definition update_page_content (data : option note_data) (page_id : option string) (changes : pydict)
    (generation revision : option Z) : res note_data :=
  d ← normalize_pages data None;
  target ← get_page (Some d) page_id;
  page ← match find_first (has_id (p_id target)) (d_pages d) with Some p => Ok p | None => Err (RuntimeError "StopIteration") end;
  if negb (expected generation (p_generation page)) then conflict "Page changed; reload before editing"
  else if negb (expected revision (p_revision page)) then conflict "Page content changed. Read it again before editing"
  else
    l ← match dict_get "content" changes with
        | Some content =>
            c ← valid_content content;
            Ok (update_page (p_id page) (λ p,
                  with_content (VDict (dict_update [("json", VNone); ("html", VStr EmptyString); ("md", VStr EmptyString)] c))
                    (p_versions p) (p_revision p + 1)
                    (match generation with None => p_generation p + 1 | Some _ => p_generation p end) p) (d_pages d))
        | None => Ok (d_pages d)
        end;
    let l := match dict_get "versions" changes with
             | Some versions => update_page (p_id page) (λ p, with_content (p_content p) versions (p_revision p) (p_generation p) p) l
             | None => l
             end in
    if dict_has "files" changes then invalid "Attach files through page content"
    else normalize_pages (Some (NoteData l (d_fields d))) None.

(** ** Searches *)

(** [s.split()] *)
Fixpoint split_words (s word : string) : list string :=
  let flush := if Str.is_empty word then [] else [word] in
  match s with
  | EmptyString => flush
  | String c r => if Str.is_space c then flush ++ split_words r EmptyString else split_words r (word +:+ String c EmptyString)
  end.

(** [matching_page]: the first page with all words of the query, else with any, else the first *)
Definition matching_page (data : option note_data) (query : string) : res page :=
  d ← normalize_pages data None;
  let terms := split_words (Str.lower query) EmptyString in
  let text p := md ← markdown_of p; Ok (Str.lower (path_of (page_paths (d_pages d)) p +:+ " " +:+ md)) in
  texts ← mapR (λ p, t ← text p; Ok (p, t)) (d_pages d);
  let found holds := find_first (λ pt : page * string, negb (bool_decide (terms = [])) && holds (λ t, Str.contains t pt.2) terms) texts in
  match found (@forallb string), found (@existsb string), texts with
  | Some pt, _, _ | None, Some pt, _ | None, None, pt :: _ => Ok pt.1
  | None, None, [] => Err IndexError
  end.

(** ** Malformed content *)

Context (dumps_indented : pyval → string).

Definition code_fence (s : string) : string := "```json" +:+ one_line +:+ s +:+ one_line +:+ "```".

Definition sane_md (md : pyval) : string :=
  match md with
  | VNone => EmptyString
  | VList _ | VDict _ => code_fence (dumps_indented md)
  | md => str md
  end.

(** [sanitize_note_data] of None or a dict *)
Definition sanitize_note_data (data : option note_data) : option note_data :=
  match data with
  | None => None
  | Some d =>
      match dict_get "content" (d_fields d) with
      | Some (VDict c) =>
          match dict_get "md" c with
          | None | Some (VStr _) => data
          | Some md => Some (NoteData (d_pages d) (dict_set "content" (VDict (dict_set "md" (VStr (sane_md md)) c)) (d_fields d)))
          end
      | _ => data
      end
  end.
End Pages.
