(* ===== verification/NotePagesProps.v ===== *)
(** * Properties of the pages of a note: the order of pages is the outline of a tree, normal
    data stays as it is, and the operations edit the tree and keep what pages hold. *)

From S2P Require Import Prelude PyVal Json JsonDump Uuid NotePages.
From stdpp Require Import gmap strings.
From Stdlib Require Import Ascii SpecFloat.

Local Open Scope Z_scope.

(** ** Outlines

    A list of pages is the outline of the pages under [parent]: each of them is followed
    by the outline of its own subpages. *)

Inductive outline : option string → list page → Prop :=
| outline_nil parent : outline parent []
| outline_cons parent p below rest :
    p_parent p = parent → outline (Some (p_id p)) below → outline parent rest → outline parent (p :: below ++ rest).

(** The pages of a note: unique ids, the main page first, each page before its subpages *)
Record page_tree (l : list page) : Prop := {
  tree_ids : NoDup (page_ids l);
  tree_outline : outline None l;
  tree_main : match l with p :: _ => is_main p = true | [] => False end
}.

Lemma children_app l1 l2 q : children (l1 ++ l2) q = children l1 q ++ children l2 q.
Proof. apply List.filter_app. Qed.

Lemma children_elem l q p : p ∈ children l q ↔ p ∈ l ∧ p_parent p = q.
Proof. unfold children, child_of. by rewrite filter_elem, bool_decide_eq_true. Qed.

Lemma children_none l q : (∀ p, p ∈ l → p_parent p ≠ q) → children l q = [].
Proof.
  intros H. destruct (children l q) as [|p r] eqn:E; [done|]. exfalso.
  assert (Hp : p ∈ children l q) by (rewrite E; left). apply children_elem in Hp as [Hp <-]. by apply (H p).
Qed.

Lemma children_cons p l q : children (p :: l) q = if decide (p_parent p = q) then p :: children l q else children l q.
Proof. unfold children, child_of; cbn. by rewrite <-decide_bool_decide; destruct (decide _). Qed.

Lemma page_ids_app l1 l2 : page_ids (l1 ++ l2) = page_ids l1 ++ page_ids l2.
Proof. apply map_app. Qed.

Lemma page_ids_elem p l : p ∈ l → p_id p ∈ page_ids l.
Proof. intros Hp. apply list_elem_of_fmap. by exists p. Qed.

Lemma page_ids_inv id l : id ∈ page_ids l → ∃ p, p ∈ l ∧ p_id p = id.
Proof. intros (p & -> & Hp)%list_elem_of_fmap. by exists p. Qed.

Lemma page_ids_inj l p p' : NoDup (page_ids l) → p ∈ l → p' ∈ l → p_id p = p_id p' → p = p'.
Proof.
  intros Hnd Hp Hp' Heq. induction l as [|x l IH]; [by apply elem_of_nil in Hp|].
  cbn in Hnd. apply NoDup_cons in Hnd as [Hx Hnd].
  apply elem_of_cons in Hp as [->|Hp]; apply elem_of_cons in Hp' as [->|Hp']; auto.
  - destruct Hx. rewrite Heq. by apply page_ids_elem.
  - destruct Hx. rewrite <-Heq. by apply page_ids_elem.
Qed.

Lemma pages_NoDup l : NoDup (page_ids l) → NoDup l.
Proof. apply NoDup_fmap_1. Qed.

Lemma children_NoDup l q : NoDup (page_ids l) → NoDup (children l q).
Proof. intros Hnd. apply NoDup_ListNoDup, List.NoDup_filter, NoDup_ListNoDup. by apply pages_NoDup. Qed.

Lemma main_first_perm l : main_first l ≡ₚ l.
Proof.
  unfold main_first. induction l as [|p r IH]; cbn; [done|].
  destruct (is_main p); cbn; [by rewrite IH|]. by rewrite <-Permutation_middle, IH.
Qed.

Lemma outline_parents q l : outline q l → ∀ p, p ∈ l → p_parent p = q ∨ ∃ p', p' ∈ l ∧ p_parent p = Some (p_id p').
Proof.
  induction 1 as [|q p below rest Hp _ IHb _ IHr]; [by intros ? ?%elem_of_nil|].
  intros x [->|[Hx|Hx]%elem_of_app]%elem_of_cons; [by left| |].
  - right. destruct (IHb x Hx) as [->|(p' & ? & ->)]; [exists p|exists p']; (split; [set_solver|done]).
  - destruct (IHr x Hx) as [?|(p' & ? & ->)]; [by left|]. right. exists p'. split; [set_solver|done].
Qed.

(** Where the children of a page are in its outline *)
Lemma outline_children q p below rest (o := p :: below ++ rest) :
  p_parent p = q → outline (Some (p_id p)) below → outline q rest →
  NoDup (page_ids o) → (∀ x, x ∈ o → q ≠ Some (p_id x)) →
  (NoDup (page_ids below) ∧ ∀ x, x ∈ below → Some (p_id p) ≠ Some (p_id x)) ∧
  (NoDup (page_ids rest) ∧ ∀ x, x ∈ rest → q ≠ Some (p_id x)) ∧
  children o q = p :: children rest q ∧
  children o (Some (p_id p)) = children below (Some (p_id p)) ∧
  (∀ x, x ∈ below → children o (Some (p_id x)) = children below (Some (p_id x))) ∧
  (∀ x, x ∈ rest → children o (Some (p_id x)) = children rest (Some (p_id x))).
Proof.
  intros Hp Ob Or Hnd Hq. subst o. cbn in Hnd. rewrite page_ids_app in Hnd. apply NoDup_cons in Hnd as [Hpid Hnd].
  apply NoDup_app in Hnd as (Hndb & Hbr & Hndr). rewrite not_elem_of_app in Hpid. destruct Hpid as [Hpb Hpr].
  assert (Nb : ∀ x, x ∉ page_ids below → x ≠ p_id p → children below (Some x) = []).
  { intros x Hx Hxp. apply children_none. intros y Hy Hyx.
    destruct (outline_parents _ _ Ob y Hy) as [E|(y' & Hy' & E)]; rewrite Hyx in E; injection E as ->; [done|].
    by apply Hx, page_ids_elem. }
  assert (Nr : ∀ x, x ∉ page_ids rest → q ≠ Some x → children rest (Some x) = []).
  { intros x Hx Hxq. apply children_none. intros y Hy Hyx.
    destruct (outline_parents _ _ Or y Hy) as [E|(y' & Hy' & E)]; rewrite Hyx in E; [by apply Hxq|].
    injection E as ->. by apply Hx, page_ids_elem. }
  assert (Hbq : children below q = []).
  { apply children_none. intros y Hy Hyq. destruct (outline_parents _ _ Ob y Hy) as [E|(y' & Hy' & E)]; rewrite Hyq in E.
    - apply (Hq p); [left|done].
    - apply (Hq y'); [set_solver|done]. }
  assert (Hown : ∀ x, x ∈ p :: below ++ rest →
    children (p :: below ++ rest) (Some (p_id x)) = children below (Some (p_id x)) ++ children rest (Some (p_id x))).
  { intros x Hx. rewrite children_cons, decide_False by (rewrite Hp; by apply Hq). apply children_app. }
  split_and!.
  - done.
  - intros x Hx [= Heq]. apply Hpb. rewrite Heq. by apply page_ids_elem.
  - done.
  - intros x Hx. apply Hq. set_solver.
  - rewrite children_cons, decide_True by done. by rewrite children_app, Hbq.
  - rewrite Hown by left. rewrite Nr, app_nil_r; [done..|]. apply Hq. left.
  - intros x Hx. rewrite Hown by set_solver. rewrite Nr, app_nil_r; [done| |apply Hq; set_solver].
    apply Hbr. by apply page_ids_elem.
  - intros x Hx. rewrite Hown by set_solver. rewrite Nb; [done| |].
    + intros Hb. by apply (Hbr _ Hb), page_ids_elem.
    + intros E. apply Hpr. rewrite <-E. by apply page_ids_elem.
Qed.

(** ** The walk over the children *)

Section Walk.
Context (l : list page).

Inductive walks : list page → list page → Prop :=
| walks_nil : walks [] []
| walks_cons p stack out : walks (children l (Some (p_id p)) ++ stack) out → walks (p :: stack) (p :: out).

Lemma walks_app s1 o1 s2 o2 : walks s1 o1 → walks s2 o2 → walks (s1 ++ s2) (o1 ++ o2).
Proof. intros H1 H2. induction H1 as [|p s o _ IH]; [done|]. cbn. constructor. by rewrite <-app_assoc in IH. Qed.

Lemma walks_app_inv s1 s2 out : walks (s1 ++ s2) out → ∃ o1 o2, out = o1 ++ o2 ∧ walks s1 o1 ∧ walks s2 o2.
Proof.
  revert s1. induction out as [|p out IH]; intros s1 H.
  - inversion H as [E|]. symmetry in E. apply app_nil in E as [-> ->]. exists [], []. repeat constructor.
  - destruct s1 as [|p' s1]; [exists [], (p :: out); repeat constructor; done|].
    inversion H as [|? ? ? Hw]; subst. cbn in *. rewrite app_assoc in Hw.
    destruct (IH _ Hw) as (o1 & o2 & -> & H1 & H2). exists (p :: o1), o2. repeat constructor; done.
Qed.

Lemma walks_inv p s out : walks (p :: s) out →
  ∃ below rest, out = p :: below ++ rest ∧ walks (children l (Some (p_id p))) below ∧ walks s rest.
Proof.
  inversion 1 as [|? ? o Hw]; subst. destruct (walks_app_inv _ _ _ Hw) as (o1 & o2 & -> & ? & ?). eauto.
Qed.

(** Induction along the outline of what is walked *)
Lemma walks_forest_ind (P : option string → list page → list page → Prop) :
  (∀ q, P q [] []) →
  (∀ q p s below rest, p_parent p = q →
     walks (children l (Some (p_id p))) below → P (Some (p_id p)) (children l (Some (p_id p))) below →
     walks s rest → P q s rest → P q (p :: s) (p :: below ++ rest)) →
  ∀ q s out, Forall (λ p, p_parent p = q) s → walks s out → P q s out.
Proof.
  intros Hnil Hcons q s out. revert q s.
  remember (length out) as n eqn:Hn. revert out Hn.
  induction (lt_wf n) as [n _ IH]. intros out -> q s Hs Hw.
  destruct s as [|p s]; [inversion Hw; subst; apply Hnil|].
  apply walks_inv in Hw as (below & rest & -> & Hb & Hr). apply Forall_cons in Hs as [Hp Hs].
  apply Hcons; [done|done| |done|].
  - eapply (IH (length below)); [cbn; rewrite length_app; lia|done| |done].
    apply Forall_forall. by intros x [_ ?]%children_elem.
  - eapply (IH (length rest)); [cbn; rewrite length_app; lia|done|done|done].
Qed.

Lemma walks_outline q s out : Forall (λ p, p_parent p = q) s → walks s out → outline q out.
Proof.
  apply (walks_forest_ind (λ q _ out, outline q out)); [constructor|].
  intros q' p s' below rest Hp _ Hb _ Hr. by constructor.
Qed.

(** The children of what is walked are those of the whole list. *)
Lemma walks_children q s out : Forall (λ p, p_parent p = q) s → walks s out →
  NoDup (page_ids out) → (∀ p, p ∈ out → q ≠ Some (p_id p)) →
  children out q = s ∧ ∀ p, p ∈ out → children out (Some (p_id p)) = children l (Some (p_id p)).
Proof.
  intros Hs Hw.
  cut (outline q out ∧ (NoDup (page_ids out) → (∀ p, p ∈ out → q ≠ Some (p_id p)) →
    children out q = s ∧ ∀ p, p ∈ out → children out (Some (p_id p)) = children l (Some (p_id p)))); [by intros [_ ?]|].
  revert q s out Hs Hw.
  apply (walks_forest_ind (λ q s out, outline q out ∧ (NoDup (page_ids out) → (∀ p, p ∈ out → q ≠ Some (p_id p)) →
    children out q = s ∧ ∀ p, p ∈ out → children out (Some (p_id p)) = children l (Some (p_id p))))).
  { intros q. split; [constructor|]. intros _ _. split; [done|]. by intros ? ?%elem_of_nil. }
  intros q p s below rest Hp _ [Ob IHb] _ [Or IHr]. split; [by constructor|]. intros Hnd Hq.
  destruct (outline_children q p below rest) as ((Hb & Hbq) & (Hr & Hrq) & Eq & Ep & Eb & Er); try done.
  destruct (IHb Hb Hbq) as [Cb IHb']. destruct (IHr Hr Hrq) as [Cr IHr'].
  split; [by rewrite Eq, Cr|].
  intros x [->|[Hx|Hx]%elem_of_app]%elem_of_cons; [by rewrite Ep|rewrite Eb; auto|rewrite Er; auto].
Qed.

(** An outline walks over its own pages. *)
Lemma outline_walks q o : outline q o → NoDup (page_ids o) → (∀ p, p ∈ o → q ≠ Some (p_id p)) →
  (∀ p, p ∈ o → children l (Some (p_id p)) = children o (Some (p_id p))) → walks (children o q) o.
Proof.
  induction 1 as [|q p below rest Hp Ob IHb Or IHr]; intros Hnd Hq Hl; [constructor|].
  destruct (outline_children q p below rest) as ((Hb & Hbq) & (Hr & Hrq) & Eq & Ep & Eb & Er); try done.
  rewrite Eq. constructor. rewrite (Hl p), Ep by left.
  apply walks_app; [apply IHb|apply IHr]; try done.
  - intros x Hx. rewrite Hl by set_solver. auto.
  - intros x Hx. rewrite Hl by set_solver. auto.
Qed.
End Walk.

Lemma walks_det l l' s o o' : (∀ q, children l q = children l' q) → walks l s o → walks l' s o' → o = o'.
Proof.
  intros Hl Hw. revert o'. induction Hw as [|p s o _ IH]; intros o' Hw'; [by inversion Hw'|].
  inversion Hw' as [|? ? r Hr]; subst. f_equal. apply IH. by rewrite Hl.
Qed.

Lemma tree_walks l : page_tree l → walks l (children l None) l.
Proof. intros [Hnd Ho _]. by apply outline_walks. Qed.

(** The pages are determined by the subpages of every page, in order. *)
Lemma siblings_determine l l' : page_tree l → page_tree l' → (∀ q, children l q = children l' q) → l = l'.
Proof.
  intros Ht Ht' Hl. apply (walks_det l l' (children l None)); [done|by apply tree_walks|].
  rewrite Hl. by apply tree_walks.
Qed.

(** *** The loop *)

Lemma visit_walks fuel l stack out V : walks l stack out → (length out < fuel)%nat → visit fuel l stack V = V ++ out.
Proof.
  intros Hw. revert fuel V. induction Hw as [|p stack out _ IH]; intros [|fuel] V Hf; cbn in *; try lia.
  - by rewrite app_nil_r.
  - rewrite IH by lia. by rewrite <-app_assoc.
Qed.

(** Visited pages and those on the stack: every one once, and closed under children *)
Record visiting (l V stack : list page) : Prop := {
  vi_once : NoDup (V ++ stack);
  vi_known p : p ∈ V ++ stack → p ∈ l;
  vi_closed p c : p ∈ V → c ∈ l → p_parent c = Some (p_id p) → c ∈ V ++ stack;
  vi_from c : c ∈ V ++ stack → p_parent c = None ∨ ∃ p, p ∈ V ∧ p_parent c = Some (p_id p)
}.

Lemma visiting_start l : NoDup (page_ids l) → visiting l [] (main_first (children l None)).
Proof.
  intros Hnd. pose proof (main_first_perm (children l None)) as Hp.
  assert (Hin : ∀ p, p ∈ [] ++ main_first (children l None) → p ∈ l ∧ p_parent p = None).
  { intros p. cbn. rewrite Hp. by intros [? ?]%children_elem. }
  split.
  - cbn. rewrite Hp. by apply children_NoDup.
  - intros p Hx. by apply Hin.
  - by intros p c ?%elem_of_nil.
  - intros c Hc. left. by apply Hin.
Qed.

Lemma visiting_step l V p stack : NoDup (page_ids l) → visiting l V (p :: stack) →
  visiting l (V ++ [p]) (children l (Some (p_id p)) ++ stack).
Proof.
  intros Hnd [Honce Hknown Hclosed Hfrom].
  assert (Hpl : p ∈ l) by (apply Hknown; set_solver).
  assert (HpV : p ∉ V).
  { intros HpV. rewrite NoDup_app in Honce. destruct Honce as (_ & Hd & _). apply (Hd p HpV). left. }
  assert (Hfresh : ∀ c, c ∈ children l (Some (p_id p)) → c ∉ V ++ p :: stack).
  { intros c [Hc Hcp]%children_elem Hin. destruct (Hfrom c Hin) as [E|(x & Hx & E)]; rewrite Hcp in E; [done|].
    injection E as E. apply HpV. rewrite (page_ids_inj l p x); try done. apply Hknown. set_solver. }
  assert (Hperm : (V ++ [p]) ++ children l (Some (p_id p)) ++ stack ≡ₚ children l (Some (p_id p)) ++ V ++ p :: stack).
  { rewrite <-app_assoc. cbn. rewrite (app_assoc (children _ _)), (Permutation_app_comm (children _ _) V), <-app_assoc.
    by rewrite Permutation_middle. }
  split.
  - rewrite Hperm. apply NoDup_app. split_and!; [by apply children_NoDup|exact Hfresh|done].
  - intros x. rewrite Hperm. intros [Hx|Hx]%elem_of_app; [by apply children_elem in Hx as [? _]|by apply Hknown].
  - intros x c [Hx|Hx]%elem_of_app Hc Hcx; rewrite Hperm, elem_of_app.
    + right. by apply (Hclosed x c).
    + left. apply list_elem_of_singleton in Hx as ->. by apply children_elem.
  - intros c. rewrite Hperm. intros [Hc|Hc]%elem_of_app.
    + right. exists p. apply children_elem in Hc as [_ ?]. split; [set_solver|done].
    + destruct (Hfrom c Hc) as [?|(x & ? & ?)]; [by left|]. right. exists x. split; [set_solver|done].
Qed.

(** One more step than pages ends the loop: what it visits is closed. *)
Lemma visit_ends fuel l V stack : NoDup (page_ids l) → visiting l V stack → (length l < length V + fuel)%nat →
  ∃ out, visit fuel l stack V = V ++ out ∧ walks l stack out ∧ visiting l (V ++ out) [].
Proof.
  intros Hnd. revert V stack. induction fuel as [|fuel IH]; intros V stack Hv Hf.
  - exfalso. assert (length V ≤ length l)%nat; [|lia].
    apply submseteq_length, NoDup_submseteq; [by apply (proj1 (NoDup_app V stack)), (vi_once l)|].
    intros x Hx. eapply vi_known; [done|]. set_solver.
  - destruct stack as [|p stack]; [exists []; rewrite app_nil_r; split_and!; [done|constructor|done]|].
    destruct (IH (V ++ [p]) (children l (Some (p_id p)) ++ stack)) as (out & Hvis & Hw & Hend).
    + by apply visiting_step.
    + rewrite length_app; cbn. lia.
    + exists (p :: out). cbn [visit]. rewrite Hvis. rewrite <-app_assoc in *. split_and!; [done|by constructor|done].
Qed.

(** ** [order_pages] *)

Lemma main_to_root_id p : p_id (main_to_root p) = p_id p.
Proof. unfold main_to_root. by destruct (is_main p). Qed.

Lemma rooted_ids l : page_ids (map main_to_root l) = page_ids l.
Proof. unfold page_ids. rewrite map_map. apply map_ext, main_to_root_id. Qed.

Lemma is_main_id p : is_main p = true ↔ p_id p = main.
Proof. apply String.eqb_eq. Qed.

(** The siblings after the pages are put in order *)
Definition ordered_children (l : list page) (q : option string) : list page :=
  let c := children (map main_to_root l) q in match q with None => main_first c | Some _ => c end.

(** The pages that are visited are the outline of the whole list, or some page is not under a root. *)
Lemma order_visited l (r := map main_to_root l) : NoDup (page_ids l) →
  ∃ out, visit (S (length r)) r (main_first (children r None)) [] = out ∧
    walks r (main_first (children r None)) out ∧ visiting r out [].
Proof.
  intros Hnd. assert (Hr : NoDup (page_ids r)) by (subst r; by rewrite rooted_ids).
  destruct (visit_ends (S (length r)) r [] (main_first (children r None))) as (out & Hv & Hw & He);
    [done|by apply visiting_start|cbn; lia|]. cbn in Hv, He. eauto.
Qed.

Lemma visiting_perm l V : NoDup (page_ids l) → visiting l V [] → length V = length l → V ≡ₚ l.
Proof.
  intros Hnd [Honce Hknown _ _] Hlen. rewrite app_nil_r in *.
  apply submseteq_length_Permutation; [by apply NoDup_submseteq|lia].
Qed.

Lemma order_ok l l' : order_pages l = Ok l' → existsb is_main l = true →
  page_tree l' ∧ l' ≡ₚ map main_to_root l ∧ ∀ q, children l' q = ordered_children l q.
Proof.
  unfold order_pages. destruct (bool_decide_reflect (NoDup (page_ids l))) as [Hnd|]; cbn; [|done].
  destruct (forallb _ _); cbn; [|done]. intros Ho Hmain.
  destruct (order_visited l Hnd) as (out & Hv & Hw & He). cbn in Hv. rewrite Hv in Ho. clear Hv.
  destruct (Nat.eqb_spec (length out) (length (map main_to_root l))) as [Hlen|]; [|done].
  injection Ho as <-. set (r := map main_to_root l) in *.
  assert (Hr : NoDup (page_ids r)) by (subst r; by rewrite rooted_ids).
  pose proof (visiting_perm r out Hr He Hlen) as Hperm.
  assert (Hids : NoDup (page_ids out)).
  { unfold page_ids. change (NoDup (p_id <$> out)). rewrite Hperm. done. }
  assert (Hroots : Forall (λ p, p_parent p = None) (main_first (children r None))).
  { apply list.Forall_forall. intros p. rewrite main_first_perm. by intros [_ ?]%children_elem. }
  destruct (walks_children r None _ out Hroots Hw Hids) as [Hnone Hsome]; [done|].
  split_and!; [split; [done|by eapply walks_outline|]|done|].
  - apply existsb_True in Hmain as (p & Hp & Hm).
    assert (Hin : main_to_root p ∈ main_first (children r None)).
    { rewrite main_first_perm. apply children_elem. split; [by apply list_elem_of_fmap_2|]. unfold main_to_root. by rewrite Hm. }
    unfold main_first in Hin, Hw. destruct (List.filter is_main (children r None)) as [|m ms] eqn:Em.
    + exfalso. apply elem_of_app in Hin as [Hin|Hin]; [by apply elem_of_nil in Hin|].
      apply filter_elem in Hin as [_ Hin]. unfold is_main in Hin. rewrite main_to_root_id in Hin.
      unfold is_main in Hm. by rewrite Hm in Hin.
    + inversion Hw; subst. assert (Hmm : m ∈ List.filter is_main (children r None)) by (rewrite Em; left).
      by apply filter_elem in Hmm as [_ ?].
  - intros [q|]; unfold ordered_children; fold r; [|done].
    destruct (decide (q ∈ page_ids out)) as [Hq|Hq].
    + apply page_ids_inv in Hq as (p & Hp & <-). by apply Hsome.
    + assert (Hno : ∀ p, p ∈ out → p_parent p ≠ Some q).
      { intros p Hp Hpar. destruct (vi_from _ _ _ He p) as [E|(p' & Hp' & E)]; [by rewrite app_nil_r|congruence|].
        rewrite Hpar in E. injection E as ->. by apply Hq, page_ids_elem. }
      rewrite !children_none; [done| |done]. intros p. rewrite <-Hperm. apply Hno.
Qed.

(** Nothing moves when the main page leads the list. *)
Lemma head_only_main m r p : NoDup (page_ids (m :: r)) → is_main m = true → p ∈ r → is_main p = false.
Proof.
  cbn. intros [Hn _]%NoDup_cons Hm Hp. destruct (is_main p) eqn:E; [|done]. exfalso. apply Hn.
  apply is_main_id in E, Hm. rewrite Hm, <-E. by apply page_ids_elem.
Qed.

Lemma head_rooted m r : NoDup (page_ids (m :: r)) → is_main m = true → p_parent m = None → map main_to_root (m :: r) = m :: r.
Proof.
  intros Hnd Hm Hp. rewrite <-(map_id (m :: r)) at 2. apply map_ext_in. intros p Hin%list_elem_of_In.
  unfold main_to_root. destruct (is_main p) eqn:E; [|done]. apply elem_of_cons in Hin as [->|Hin].
  - by destruct m; cbn in *; subst.
  - by rewrite (head_only_main m r) in E.
Qed.

Lemma no_main_filter l : (∀ p, p ∈ l → is_main p = false) → main_first l = l.
Proof.
  unfold main_first. induction l as [|p l IH]; intros H; cbn; [done|]. rewrite (H p) by left. cbn.
  assert (Hl : ∀ p, p ∈ l → is_main p = false) by (intros; apply H; by right).
  destruct (List.filter is_main l) as [|x f] eqn:Ef; [cbn in *; by rewrite IH|].
  assert (Hx : x ∈ List.filter is_main l) by (rewrite Ef; left). apply filter_elem in Hx as [Hx Hxm]. by rewrite Hl in Hxm.
Qed.

Lemma head_main_first m r : NoDup (page_ids (m :: r)) → is_main m = true → p_parent m = None →
  main_first (children (m :: r) None) = children (m :: r) None.
Proof.
  intros Hnd Hm Hp. rewrite children_cons, decide_True by done.
  assert (Hc : main_first (children r None) = children r None).
  { apply no_main_filter. intros p [Hin _]%children_elem. by eapply head_only_main. }
  unfold main_first in *. cbn. rewrite Hm. cbn. by rewrite Hc.
Qed.

Lemma order_children m r l' : order_pages (m :: r) = Ok l' → is_main m = true → p_parent m = None →
  page_tree l' ∧ l' ≡ₚ m :: r ∧ ∀ q, children l' q = children (m :: r) q.
Proof.
  intros Ho Hm Hp. apply order_ok in Ho as (Ht & Hperm & Hc); [|cbn; by rewrite Hm].
  assert (Hnd : NoDup (page_ids (m :: r))).
  { rewrite <-rooted_ids. unfold page_ids. change (NoDup (p_id <$> map main_to_root (m :: r))). rewrite <-Hperm. apply Ht. }
  rewrite head_rooted in Hperm by done. split_and!; [done|done|]. intros [q|]; rewrite Hc; unfold ordered_children;
    rewrite head_rooted by done; [done|by apply head_main_first].
Qed.

(** The pages of a tree are in order. *)
Lemma tree_head l : page_tree l → ∃ m r, l = m :: r ∧ is_main m = true ∧ p_parent m = None.
Proof. intros [_ Ho Hm]. destruct l as [|m r]; [done|]. inversion Ho; subst. eauto. Qed.

Lemma order_fixed l : page_tree l → order_pages l = Ok l.
Proof.
  intros Ht. pose proof (tree_walks l Ht) as Hw. pose proof Ht as [Hnd Ho _].
  destruct (tree_head l Ht) as (m & r & Hl & Hm & Hmp).
  assert (Hroot : map main_to_root l = l) by (rewrite Hl in *; by apply head_rooted).
  unfold order_pages. rewrite bool_decide_eq_true_2 by done. cbn. rewrite Hroot.
  assert (forallb (parent_exists l) l = true) as ->.
  { apply forallb_forall. intros p Hp%list_elem_of_In. unfold parent_exists.
    destruct (outline_parents _ _ Ho p Hp) as [->|(p' & Hp' & ->)]; [done|].
    by apply bool_decide_eq_true, page_ids_elem. }
  cbn. assert (main_first (children l None) = children l None) as -> by (rewrite Hl in *; by apply head_main_first).
  assert (visit (S (length l)) l (children l None) [] = l) as Hv by (rewrite (visit_walks _ _ _ l []); [done|done|lia]).
  cbn in Hv. rewrite Hv. by rewrite Nat.eqb_refl.
Qed.

(** A list whose parents exist and whose pages have a rank above that of their parent has an order. *)
Lemma order_complete l (rank : string → nat) :
  NoDup (page_ids l) → (∀ p q, p ∈ map main_to_root l → p_parent p = Some q → q ∈ page_ids l ∧ (rank q < rank (p_id p))%nat) →
  ∃ l', order_pages l = Ok l'.
Proof.
  intros Hnd Hrank. destruct (order_visited l Hnd) as (out & Hv & Hw & He). cbn in Hv.
  unfold order_pages. rewrite bool_decide_eq_true_2 by done. cbn. set (r := map main_to_root l) in *.
  assert (Hr : NoDup (page_ids r)) by (subst r; by rewrite rooted_ids).
  assert (forallb (parent_exists r) r = true) as ->.
  { apply forallb_forall. intros p Hp%list_elem_of_In. unfold parent_exists.
    destruct (p_parent p) as [q|] eqn:E; [|done]. apply bool_decide_eq_true.
    subst r. rewrite rooted_ids. by apply (Hrank p). }
  cbn. rewrite Hv. assert (Hall : ∀ n p, p ∈ r → (rank (p_id p) < n)%nat → p ∈ out).
  { induction n as [|n IH]; intros p Hp Hn; [lia|]. destruct (p_parent p) as [q|] eqn:E.
    - destruct (Hrank p q Hp E) as [Hq Hlt]. rewrite <-(rooted_ids l) in Hq. fold r in Hq.
      apply page_ids_inv in Hq as (p' & Hp' & <-). rewrite <-(app_nil_r out).
      apply (vi_closed _ _ _ He p' p); [apply IH; [done|lia]|done|done].
    - assert (Hin : p ∈ main_first (children r None)) by (rewrite main_first_perm; by apply children_elem).
      revert Hw Hin. clear. intros Hw. induction Hw as [|x s o _ IH]; [done|].
      intros [->|Hin]%elem_of_cons; [left|]. right. apply IH. rewrite elem_of_app. by right. }
  assert (length out = length r) as ->; [|rewrite Nat.eqb_refl; eauto].
  apply Permutation_length, NoDup_Permutation.
  - pose proof (vi_once _ _ _ He) as Ho. by rewrite app_nil_r in Ho.
  - by apply pages_NoDup.
  - intros p. split; [intros; eapply vi_known; [done|by rewrite app_nil_r]|]. intros Hp. by apply (Hall (S (rank (p_id p)))); [|lia].
Qed.

(** ** Normal form *)

Lemma mapR_Forall2 {A B} (f : A → res B) l l' : mapR f l = Ok l' → Forall2 (λ a b, f a = Ok b) l l'.
Proof.
  revert l'. induction l as [|a l IH]; cbn; intros l'; [by intros [= <-]|].
  destruct (f a) as [b|] eqn:Ha; cbn; [|done]. destruct (mapR f l) as [bs|]; cbn; [|done].
  intros [= <-]. constructor; auto.
Qed.

Lemma mapR_id {A} (f : A → res A) l : (∀ a, a ∈ l → f a = Ok a) → mapR f l = Ok l.
Proof. induction l as [|a l IH]; cbn; intros H; [done|]. rewrite H by left. cbn. rewrite IH; [done|]. intros; apply H; by right. Qed.

(** Pages that stand at the same place of the tree *)
Definition same_place (p p' : page) : Prop := p_id p' = p_id p ∧ p_parent p' = p_parent p.

Lemma same_place_ids l l' : Forall2 same_place l l' → page_ids l' = page_ids l.
Proof. unfold page_ids. induction 1 as [|p p' l l' [Hid _] _ IH]; cbn; [done|]. by rewrite Hid, IH. Qed.

Lemma same_place_outline q l l' : Forall2 same_place l l' → outline q l → outline q l'.
Proof.
  intros H2 Ho. revert l' H2. induction Ho as [|q p below rest Hp _ IHb _ IHr]; intros l' H2.
  - inversion H2; constructor.
  - inversion H2 as [|? p' ? l'' [Hid Hpar] H2']; subst.
    apply Forall2_app_inv_l in H2' as (b' & r' & Hb & Hr & ->). constructor; [done| |].
    + rewrite Hid. auto.
    + auto.
Qed.

Lemma same_place_tree l l' : Forall2 same_place l l' → page_tree l → page_tree l'.
Proof.
  intros H2 [Hnd Ho Hm]. split; [by rewrite (same_place_ids l l' H2)|by eapply same_place_outline|].
  destruct H2 as [|p p' l l' [Hid _] _]; [done|]. unfold is_main in *. by rewrite Hid.
Qed.

Lemma dict_del_absent {V} k (d : list (string * V)) : dict_get k d = None → dict_del k d = d.
Proof.
  intros H. apply filter_id. intros [k' v] Hin. cbn. apply negb_true_iff, String.eqb_neq. intros ->.
  apply dict_get_None in H. apply H. apply list_elem_of_fmap. by exists (k', v).
Qed.

Section Normal.
Context (markdown : string → string) (links : string → list (string * string)).
Context (repr_other : pyval → string) (float_repr : spec_float → string).

Notation migrate := (migrate_page markdown links repr_other float_repr).
Notation normalize := (normalize_pages markdown links repr_other float_repr).

(** What an old list of files may change *)
Record migrated (p p' : page) : Prop := {
  mg_place : same_place p p';
  mg_title : p_title p' = p_title p;
  mg_revision : p_revision p' = p_revision p;
  mg_inherits : p_inherits p' = p_inherits p;
  mg_files : p_files p' = None
}.

Lemma migrate_page_migrated files p p' : migrate files p = Ok p' → migrated p p'.
Proof.
  unfold migrate_page. destruct (match p_files p with Some _ => _ | None => _ end) as [f|]; cbn; [|done].
  destruct (truthy f); [|by intros [= <-]].
  unfold migrate_page_files. intros H. simplify_res. by repeat split.
Qed.

Lemma migrate_page_done p : p_files p = None → migrate (VList []) p = Ok p.
Proof. intros Hf. unfold migrate_page. rewrite Hf. destruct (is_main p); cbn; by destruct p; cbn in *; subst. Qed.

(** Data that [normalize_pages] leaves as it is *)
Record normal (d : note_data) : Prop := {
  nm_tree : page_tree (d_pages d);
  nm_files : Forall (λ p, p_files p = None) (d_pages d);
  nm_fields : dict_get "files" (d_fields d) = None ∧ dict_get "versions" (d_fields d) = None ∧
              is_Some (dict_get "pages_revision" (d_fields d));
  nm_content : ∃ v, joined_content repr_other (d_pages d) = Ok v ∧ dict_get "content" (d_fields d) = Some v;
  nm_search : ∃ t, search_text repr_other (d_pages d) = Ok t ∧ dict_get "search_text" (d_fields d) = Some (VStr t)
}.

Lemma pages_with_main_main t d : existsb is_main (pages_with_main t d) = true.
Proof. unfold pages_with_main. cbv zeta. set (l := match d_pages d with [] => _ | _ => _ end). by destruct (existsb is_main l) eqn:E. Qed.

Lemma normalize_pages_inv data t d' : normalize data t = Ok d' → ∃ ordered pages content text,
  let d := default (NoteData [] []) data in
  order_pages (map (inherit_title t) (pages_with_main t d)) = Ok ordered ∧
  mapR (migrate (por (dget (d_fields d) "files") (VList []))) ordered = Ok pages ∧
  joined_content repr_other pages = Ok content ∧ search_text repr_other pages = Ok text ∧
  d' = NoteData pages (dict_set "search_text" (VStr text) (dict_set "content" content
         (dict_del "versions" (dict_setdefault "pages_revision" (VInt 0) (dict_del "files" (d_fields d)))))).
Proof. unfold normalize_pages. cbv zeta. intros H. simplify_res. eauto 10. Qed.

Lemma inherit_title_id t p : p_id (inherit_title t p) = p_id p.
Proof. unfold inherit_title. destruct t as [t|]; [|done]. by destruct (_ && _). Qed.

Lemma inherit_main t l : existsb is_main l = true → existsb is_main (map (inherit_title t) l) = true.
Proof.
  rewrite !existsb_True. intros (p & Hp & Hm). exists (inherit_title t p). split; [by apply list_elem_of_fmap_2|].
  unfold is_main in *. by rewrite inherit_title_id.
Qed.

Lemma normalize_normal data t d' : normalize data t = Ok d' → normal d'.
Proof.
  intros (ordered & pages & content & text & Ho & Hm & Hc & Hs & ->)%normalize_pages_inv.
  apply order_ok in Ho as [Ht _]; [|apply inherit_main, pages_with_main_main].
  apply mapR_Forall2 in Hm. split; cbn [d_pages d_fields].
  - eapply same_place_tree, Ht. eapply Forall2_impl; [exact Hm|]. intros p p' Hp. exact (mg_place _ _ (migrate_page_migrated _ _ _ Hp)).
  - eapply Forall2_Forall_r; [exact Hm|]. apply list.Forall_forall. intros p _ p' Hp. exact (mg_files _ _ (migrate_page_migrated _ _ _ Hp)).
  - rewrite !dict_get_set_ne by done. rewrite dict_get_del_eq, dict_get_del_ne by done.
    unfold dict_setdefault. rewrite dict_get_del_ne by done.
    destruct (dict_has "pages_revision" _) eqn:E.
    + rewrite dict_get_del_eq. split_and!; [done|done|]. unfold dict_has in E. by destruct (dict_get "pages_revision" _).
    + rewrite dict_get_set_ne, dict_get_del_eq, dict_get_set_eq by done. split_and!; [done|done|by eexists].
  - exists content. by rewrite dict_get_set_ne, dict_get_set_eq.
  - exists text. by rewrite dict_get_set_eq.
Qed.

Lemma normalize_fixed d t : normal d → map (inherit_title t) (d_pages d) = d_pages d → normalize (Some d) t = Ok d.
Proof.
  intros [Ht Hf (Hnf & Hnv & Hnr) (content & Hc & Ec) (text & Hs & Es)] Hi. destruct d as [l fields]. cbn [d_pages d_fields] in *.
  unfold normalize_pages. cbv zeta. cbn [default d_pages d_fields from_option id].
  assert (pages_with_main t (NoteData l fields) = l) as ->.
  { destruct Ht as [_ _ Hm]. unfold pages_with_main. cbn. destruct l as [|p r]; [done|]. cbn in *. by rewrite Hm. }
  rewrite Hi, order_fixed by done. cbn [mbind res_bind]. unfold dget. rewrite Hnf. cbn [default from_option por truthy].
  rewrite mapR_id by (intros p Hp; apply migrate_page_done; by eapply list.Forall_forall in Hf).
  cbn [mbind res_bind]. rewrite Hc, Hs. cbn [mbind res_bind]. rewrite (dict_del_absent "files") by done.
  unfold dict_setdefault, dict_has. destruct Hnr as [n Hn]. rewrite Hn.
  rewrite dict_del_absent by done. rewrite (dict_set_same "content") by done. by rewrite dict_set_same.
Qed.

Lemma normalize_again d : normal d → normalize (Some d) None = Ok d.
Proof. intros Hd. apply normalize_fixed; [done|]. apply map_id. Qed.

Lemma inherit_twice t p : inherit_title t (inherit_title t p) = inherit_title t p.
Proof.
  destruct t as [t|]; [|done]. unfold inherit_title. destruct (is_main p && p_inherits p) eqn:E; [|by rewrite E].
  destruct p; cbn in *. unfold is_main in *. cbn in *. by rewrite E.
Qed.

Lemma inherit_rooted t p : inherit_title t (main_to_root p) = main_to_root (inherit_title t p).
Proof.
  unfold main_to_root, inherit_title. destruct p as [i ? ? ? ? ? ? inh ?], t as [t|]; unfold is_main; cbn;
    [|by destruct (String.eqb i main)].
  destruct (String.eqb i main) eqn:E, inh; cbn; by rewrite ?E.
Qed.

Lemma migrated_inherits t p p' : migrated p p' → inherit_title t p = p → inherit_title t p' = p'.
Proof.
  intros [[Hid _] Htitle _ Hinh _] Hp. destruct t as [t|]; [|done]. unfold inherit_title, is_main in *.
  rewrite Hid, Hinh. destruct (_ && _); [|done]. apply (f_equal p_title) in Hp. cbn in Hp.
  destruct p'; cbn in *; subst. unfold with_title; cbn. f_equal. by rewrite <-Hp.
Qed.

Lemma normalize_inherits data t d' : normalize data t = Ok d' → map (inherit_title t) (d_pages d') = d_pages d'.
Proof.
  intros (ordered & pages & content & text & Ho & Hm & _ & _ & ->)%normalize_pages_inv. cbn.
  apply order_ok in Ho as (_ & Hperm & _); [|apply inherit_main, pages_with_main_main].
  assert (Hall : ∀ p, p ∈ ordered → inherit_title t p = p).
  { intros p. rewrite Hperm. intros (p1 & -> & Hp1)%list_elem_of_fmap.
    apply list_elem_of_fmap in Hp1 as (p2 & -> & _). by rewrite inherit_rooted, inherit_twice. }
  apply mapR_Forall2 in Hm. clear Hperm. induction Hm as [|p p' l l' Hp _ IH]; [done|]. cbn. f_equal.
  - eapply migrated_inherits; [by eapply migrate_page_migrated|]. apply Hall. left.
  - apply IH. intros; apply Hall. by right.
Qed.
End Normal.
