(* ===== verification/NotePageOpsProps.v ===== *)
(** * Properties of the operations on the pages of a note: each edits the tree in one place,
    and no text is lost. *)

From S2P Require Import Prelude PyVal Json JsonDump Uuid NotePages NotePagesProps.
From stdpp Require Import gmap strings.
From Stdlib Require Import Ascii SpecFloat.

Local Open Scope Z_scope.

(** ** A page and its subtree in the list *)

Definition under (ids : list string) (p : page) : Prop := ∃ q, p_parent p = Some q ∧ q ∈ ids.

(** [l] is [before], the page, its subpages, and [after]; what [after] hangs from is elsewhere. *)
Record split_at (l before : list page) (p : page) (below after : list page) : Prop := {
  sp_list : l = before ++ p :: below ++ after;
  sp_ids : NoDup (page_ids (before ++ p :: below ++ after));
  sp_below : outline (Some (p_id p)) below;
  sp_before x : x ∈ before → p_parent x = None ∨ under (page_ids before) x;
  sp_parent : p_parent p = None ∨ under (page_ids before) p;
  sp_after x : x ∈ after → ¬ under (page_ids (p :: below)) x
}.

Lemma outline_split q l p : outline q l → NoDup (page_ids l) → (∀ x, x ∈ l → q ≠ Some (p_id x)) → p ∈ l →
  ∃ before below after, l = before ++ p :: below ++ after ∧ outline (Some (p_id p)) below ∧
    (∀ x, x ∈ before → p_parent x = q ∨ under (page_ids before) x) ∧
    (p_parent p = q ∨ under (page_ids before) p) ∧
    (∀ x, x ∈ after → ¬ under (page_ids (p :: below)) x).
Proof.
  intros Ho. induction Ho as [|q r below rest Hr Ob IHb Or IHr]; intros Hnd Hq; [by intros ?%elem_of_nil|].
  destruct (outline_children q r below rest) as ((Hb & Hbq) & (Hrn & Hrq) & _); try done.
  assert (Hrest : ∀ ids x, x ∈ rest → (∀ i, i ∈ ids → i ∈ page_ids (r :: below)) → ¬ under ids x).
  { intros ids x Hx Hids (i & Hi & Hin). apply Hids in Hin. cbn in Hnd. rewrite page_ids_app in Hnd.
    rewrite app_comm_cons, NoDup_app in Hnd. destruct Hnd as (_ & Hd & _).
    destruct (outline_parents _ _ Or x Hx) as [E|(y & Hy & E)]; rewrite Hi in E.
    - apply page_ids_inv in Hin as (z & Hz & <-). apply (Hq z); [set_solver|done].
    - injection E as ->. apply (Hd _ Hin). by apply page_ids_elem. }
  intros [->|[Hp|Hp]%elem_of_app]%elem_of_cons.
  - exists [], below, rest. split_and!; [done|done|by intros ? ?%elem_of_nil|by left|]. intros x Hx. by apply Hrest.
  - destruct (IHb Hb Hbq Hp) as (b1 & b2 & b3 & -> & Hout & Hb1 & Hpp & Hb3).
    exists (r :: b1), b2, (b3 ++ rest).
    assert (Hup : ∀ x, p_parent x = Some (p_id r) ∨ under (page_ids b1) x → under (page_ids (r :: b1)) x).
    { intros x [E|(i & Hi & Hin)]; [exists (p_id r); split; [done|left]|exists i; split; [done|by right]]. }
    split_and!; [by cbn; rewrite <-!app_assoc; cbn; rewrite <-app_assoc|done| |right; by apply Hup|].
    + intros x [->|Hx]%elem_of_cons; [by left|]. right. by apply Hup, Hb1.
    + intros x [Hx|Hx]%elem_of_app; [by apply Hb3|]. apply Hrest; [done|]. intros i Hi.
      cbn. rewrite page_ids_app. cbn. rewrite page_ids_app. cbn in Hi. set_solver.
  - destruct (IHr Hrn Hrq Hp) as (b1 & b2 & b3 & -> & Hout & Hb1 & Hpp & Hb3).
    exists (r :: below ++ b1), b2, b3.
    assert (Hup : ∀ x, p_parent x = q ∨ under (page_ids b1) x → p_parent x = q ∨ under (page_ids (r :: below ++ b1)) x).
    { intros x [E|(i & Hi & Hin)]; [by left|]. right. exists i. split; [done|]. cbn. rewrite page_ids_app. set_solver. }
    split_and!; [by cbn; rewrite <-!app_assoc|done| |by apply Hup|done].
    intros x [->|[Hx|Hx]%elem_of_app]%elem_of_cons; [by left| |by apply Hup, Hb1].
    right. destruct (outline_parents _ _ Ob x Hx) as [E|(y & Hy & E)].
    + exists (p_id r). split; [done|left].
    + exists (p_id y). split; [done|]. cbn. right. rewrite page_ids_app, elem_of_app. left. by apply page_ids_elem.
Qed.

Lemma tree_split l p : page_tree l → p ∈ l → ∃ before below after, split_at l before p below after.
Proof.
  intros [Hnd Ho _] Hp. destruct (outline_split None l p) as (b & w & a & -> & ? & ? & ? & ?); try done.
  exists b, w, a. by split.
Qed.

(** One page of the loop of [subtree_ids] *)
Definition grow (ids : gset string) (p : page) : gset string :=
  match p_parent p with
  | Some parent => if decide (parent ∈ ids) then {[ p_id p ]} ∪ ids else ids
  | None => ids
  end.

Lemma grow_none ids l : (∀ x q, x ∈ l → p_parent x = Some q → q ∉ ids) → foldl grow ids l = ids.
Proof.
  induction l as [|x l IH]; cbn; intros H; [done|]. unfold grow at 2. destruct (p_parent x) as [q|] eqn:E.
  - rewrite decide_False by (apply (H x q); [left|done]). apply IH. intros; eapply H; [by right|done].
  - apply IH. intros; eapply H; [by right|done].
Qed.

Lemma grow_below ids q l : outline (Some q) l → q ∈ ids → foldl grow ids l = ids ∪ list_to_set (page_ids l).
Proof.
  remember (Some q) as sq eqn:Hsq. intros Ho. revert q ids Hsq.
  induction Ho as [|sq p below rest Hp _ IHb _ IHr]; intros q ids -> Hq; cbn; [set_solver|].
  unfold grow at 2. rewrite Hp, decide_True by done. rewrite foldl_app, (IHb (p_id p)) by set_solver.
  rewrite (IHr q) by set_solver. rewrite page_ids_app, list_to_set_app_L. set_solver.
Qed.

Section Split.
Context (l before : list page) (p : page) (below after : list page) (Hs : split_at l before p below after).

Notation ids := (page_ids (p :: below)).

Lemma split_disjoint x : x ∈ page_ids before ∨ x ∈ page_ids after → x ∉ ids.
Proof.
  pose proof (sp_ids _ _ _ _ _ Hs) as Hnd. cbn in Hnd. rewrite page_ids_app in Hnd. cbn in Hnd. rewrite page_ids_app in Hnd.
  rewrite app_comm_cons in Hnd. apply NoDup_app in Hnd as (_ & Hd1 & Hnd). apply NoDup_app in Hnd as (_ & Hd2 & _).
  cbn. intros [Hx|Hx] Hin; [apply (Hd1 _ Hx)|by apply (Hd2 _ Hin)]. rewrite elem_of_app. by left.
Qed.

Lemma split_subtree : subtree_ids l (p_id p) = list_to_set ids.
Proof.
  unfold subtree_ids. fold grow. rewrite (sp_list _ _ _ _ _ Hs), foldl_app. cbn. rewrite foldl_app.
  assert (Hold : ∀ x q, p_parent x = None ∨ under (page_ids before) x → p_parent x = Some q → q ∉ ({[p_id p]} : gset string)).
  { intros x q [E|(i & E & Hi)] Hq; rewrite Hq in E; [done|]. injection E as ->. intros ->%elem_of_singleton.
    apply (split_disjoint (p_id p)); [by left|left]. }
  rewrite (grow_none _ before) by (intros x q Hx; eapply Hold; by eapply sp_before).
  assert (grow {[p_id p]} p = {[p_id p]}) as ->.
  { apply (grow_none _ [p]). intros x q ->%list_elem_of_singleton. eapply Hold. by eapply sp_parent. }
  rewrite (grow_below _ (p_id p) below) by (exact (sp_below _ _ _ _ _ Hs) || by apply elem_of_singleton).
  apply grow_none. intros x q Hx Hq Hin. apply (sp_after _ _ _ _ _ Hs x Hx). exists q. split; [done|].
  apply elem_of_union in Hin as [->%elem_of_singleton|Hin%elem_of_list_to_set]; [left|by right].
Qed.

Lemma split_inside x : x ∈ l → inside (subtree_ids l (p_id p)) x = bool_decide (p_id x ∈ ids).
Proof.
  intros _. unfold inside. rewrite split_subtree. apply bool_decide_ext. apply elem_of_list_to_set.
Qed.

Lemma split_filter (f : page → bool) : (∀ x, x ∈ p :: below → f x = true) → (∀ x, x ∈ before ++ after → f x = false) →
  List.filter f l = p :: below ∧ List.filter (λ x, negb (f x)) l = before ++ after.
Proof.
  intros Hin Hout. rewrite (sp_list _ _ _ _ _ Hs), app_comm_cons, !List.filter_app.
  assert (H0 : ∀ r (g : page → bool), (∀ x, x ∈ r → g x = false) → List.filter g r = []).
  { induction r as [|x r IH]; cbn; intros g Hg; [done|]. rewrite Hg by left. apply IH. intros; apply Hg; by right. }
  split.
  - rewrite (H0 before), (H0 after), app_nil_r by (intros; apply Hout; set_solver). by apply filter_id.
  - rewrite (H0 (p :: below)) by (intros x Hx; by rewrite Hin).
    cbn [app]. f_equal; apply filter_id; intros x Hx; rewrite Hout; set_solver.
Qed.

Lemma split_branch : List.filter (inside (subtree_ids l (p_id p))) l = p :: below ∧
  List.filter (λ x, negb (inside (subtree_ids l (p_id p)) x)) l = before ++ after.
Proof.
  pose proof (sp_list _ _ _ _ _ Hs) as Hl. apply split_filter; intros x Hx.
  - rewrite split_inside by (rewrite Hl; set_solver). apply bool_decide_eq_true. by apply page_ids_elem.
  - rewrite split_inside by (rewrite Hl; set_solver). apply bool_decide_eq_false, split_disjoint.
    apply elem_of_app in Hx as [Hx|Hx]; [left|right]; by apply page_ids_elem.
Qed.

Lemma split_where q : (∃ x, q = Some x ∧ x ∈ ids) ∨ (∀ x, q = Some x → x ∉ ids).
Proof.
  destruct q as [x|]; [|by right]. destruct (decide (x ∈ ids)); [left; eauto|right; by intros y [= <-]].
Qed.

(** Where children are: those of the subtree in [below], the others outside *)
Lemma split_children q : (∀ x, q = Some x → x ∉ ids) →
  children below q = [] ∧ children l q = children before q ++ (if decide (p_parent p = q) then [p] else []) ++ children after q.
Proof.
  intros Hq. assert (Hb : children below q = []).
  { apply children_none. intros x Hx Hxq. destruct (outline_parents _ _ (sp_below _ _ _ _ _ Hs) x Hx) as [E|(y & Hy & E)];
      rewrite Hxq in E; apply (Hq _ E); [left|right; by apply page_ids_elem]. }
  split; [done|]. rewrite (sp_list _ _ _ _ _ Hs), children_app, children_cons, children_app, Hb.
  by destruct (decide (p_parent p = q)).
Qed.

Lemma split_children_in x : x ∈ ids → children before (Some x) = [] ∧ children after (Some x) = [] ∧
  p_parent p ≠ Some x ∧ children l (Some x) = children below (Some x).
Proof.
  intros Hx. assert (Hb : children before (Some x) = []).
  { apply children_none. intros y Hy Hyx. destruct (sp_before _ _ _ _ _ Hs y Hy) as [E|(i & E & Hi)]; rewrite Hyx in E; [done|].
    injection E as ->. apply (split_disjoint i); [by left|done]. }
  assert (Ha : children after (Some x) = []).
  { apply children_none. intros y Hy Hyx. apply (sp_after _ _ _ _ _ Hs y Hy). by exists x. }
  assert (Hp : p_parent p ≠ Some x).
  { intros E. destruct (sp_parent _ _ _ _ _ Hs) as [E'|(i & E' & Hi)]; rewrite E in E'; [done|].
    injection E' as ->. apply (split_disjoint i); [by left|done]. }
  split_and!; [done..|]. rewrite (sp_list _ _ _ _ _ Hs), children_app, children_cons, decide_False, children_app by done.
  by rewrite Hb, Ha, app_nil_r.
Qed.
End Split.

(** ** What the operations do to the siblings under each page *)

Definition insert_before (id : option string) (x : page) (c : list page) : list page :=
  match id with
  | None => c ++ [x]
  | Some id => firstn (index_of id c) c ++ x :: skipn (index_of id c) c
  end.

Definition siblings_delete (p : page) (l : list page) (q : option string) : list page :=
  if decide (q = Some (p_id p)) then []
  else flat_map (λ c, if has_id (p_id p) c then map (with_parent (p_parent p)) (children l (Some (p_id p))) else [c]) (children l q).

Definition siblings_move (parent before : option string) (p : page) (l : list page) (q : option string) : list page :=
  let c := List.filter (λ c, negb (has_id (p_id p) c)) (children l q) in
  if decide (q = parent) then insert_before before (with_parent parent p) c else c.

(** The page whose copy has the id *)
Definition source (ids : gmap string string) (l : list page) (q : option string) : option page :=
  match q with Some x => find_first (λ c, bool_decide (ids !! p_id c = Some x)) l | None => None end.

Definition siblings_duplicate (ids : gmap string string) (copy p : page) (l : list page) (q : option string) : list page :=
  match source ids l q with
  | Some c => map (copy_page ids) (children l (Some (p_id c)))
  | None => flat_map (λ c, if has_id (p_id p) c then [c; copy] else [c]) (children l q)
  end.

Lemma has_id_true id p : has_id id p = true ↔ p_id p = id.
Proof. apply String.eqb_eq. Qed.

Lemma has_id_false id p : has_id id p = false ↔ p_id p ≠ id.
Proof. apply String.eqb_neq. Qed.

Lemma fmap_Ok {A B} (f : A → B) (m : res A) b : f <$> m = Ok b → ∃ a, m = Ok a ∧ f a = b.
Proof. destruct m as [a|]; cbn; [|done]. intros [= <-]. eauto. Qed.

Lemma index_of_app id l1 p l2 : id ∉ page_ids l1 → p_id p = id → index_of id (l1 ++ p :: l2) = length l1.
Proof.
  intros Hn Hp. induction l1 as [|x l1 IH]; cbn in *.
  - by apply has_id_true in Hp as ->.
  - apply not_elem_of_cons in Hn as [Hx Hn]. assert (has_id id x = false) as -> by (by apply has_id_false, not_eq_sym).
    by rewrite IH.
Qed.

Lemma eq_comm {A} (a b : A) : a = b ↔ b = a.
Proof. done. Qed.

Lemma flat_map_skip (f : page → list page) l : (∀ x, x ∈ l → f x = [x]) → flat_map f l = l.
Proof. induction l as [|x l IH]; cbn; intros H; [done|]. rewrite H by left. cbn. rewrite IH; [done|]. intros; apply H; by right. Qed.

Lemma filter_none {A} (f : A → bool) l : (∀ a, a ∈ l → f a = false) → List.filter f l = [].
Proof. induction l as [|a l IH]; cbn; intros H; [done|]. rewrite H by left. apply IH. intros; apply H; by right. Qed.

Section Ops.
Context (l before : list page) (p : page) (below after : list page) (Hs : split_at l before p below after).

Lemma split_other x : x ∈ before ++ below ++ after → has_id (p_id p) x = false.
Proof.
  intros Hx. apply has_id_false. intros E. pose proof (sp_ids _ _ _ _ _ Hs) as Hnd.
  rewrite page_ids_app in Hnd. cbn in Hnd. apply NoDup_app in Hnd as (_ & Hd & [Hn _]%NoDup_cons).
  apply elem_of_app in Hx as [Hx|Hx].
  - apply (Hd (p_id p)); [rewrite <-E; by apply page_ids_elem|left].
  - apply Hn. rewrite <-E. by apply page_ids_elem.
Qed.

Lemma split_known q : q ∈ page_ids l ↔ q ∈ page_ids before ∨ q ∈ page_ids (p :: below) ∨ q ∈ page_ids after.
Proof.
  rewrite (sp_list _ _ _ _ _ Hs), page_ids_app. cbn. rewrite page_ids_app, elem_of_app, !elem_of_cons, elem_of_app. tauto.
Qed.

(** *** Delete *)

Definition lift_children (c : page) : page := if child_of (Some (p_id p)) c then with_parent (p_parent p) c else c.

Lemma lift_untouched r : children r (Some (p_id p)) = [] → map lift_children r = r.
Proof.
  induction r as [|x r IH]; cbn [map]; [done|]. rewrite children_cons. unfold lift_children at 1, child_of.
  destruct (decide _) as [E|E]; [done|]. intros H. rewrite bool_decide_eq_false_2 by done. by rewrite IH.
Qed.

Lemma delete_result l1 : delete_page p l = Ok l1 → l1 = before ++ map lift_children below ++ after.
Proof.
  unfold delete_page. destruct (_ =? _)%nat; [done|]. intros [= <-]. fold lift_children.
  destruct (split_children_in _ _ _ _ _ Hs (p_id p)) as (Hb & Ha & Hp & _); [left|].
  assert (map lift_children l = before ++ p :: map lift_children below ++ after) as ->.
  { rewrite (sp_list _ _ _ _ _ Hs), map_app. cbn [map].
    rewrite map_app, (lift_untouched before), (lift_untouched after) by done. do 2 f_equal.
    unfold lift_children, child_of. by rewrite bool_decide_eq_false_2. }
  rewrite index_of_app; [| |done].
  - rewrite take_app_length. f_equal. rewrite skipn_app, skipn_all2 by lia.
    replace (S (length before) - length before)%nat with 1%nat by lia. done.
  - intros Hin. apply (split_disjoint _ _ _ _ _ Hs (p_id p)); [by left|left].
Qed.

Lemma lift_child x : p_parent x = Some (p_id p) → lift_children x = with_parent (p_parent p) x.
Proof. intros E. unfold lift_children, child_of. by rewrite bool_decide_eq_true_2. Qed.

Lemma lift_other x : p_parent x ≠ Some (p_id p) → lift_children x = x.
Proof. intros E. unfold lift_children, child_of. by rewrite bool_decide_eq_false_2. Qed.

Lemma lift_siblings r q : q ≠ Some (p_id p) → p_parent p ≠ q → children (map lift_children r) q = children r q.
Proof.
  intros Hq Hpq. induction r as [|x r IH]; cbn [map]; [done|]. rewrite !children_cons, IH.
  destruct (decide (p_parent x = Some (p_id p))) as [E|E].
  - rewrite lift_child, decide_False, decide_False by (done || congruence). done.
  - by rewrite lift_other.
Qed.

Lemma lift_nowhere r : p_parent p ≠ Some (p_id p) → children (map lift_children r) (Some (p_id p)) = [].
Proof.
  intros Hp. apply children_none. intros x (y & -> & _)%list_elem_of_fmap.
  destruct (decide (p_parent y = Some (p_id p))) as [E|E]; [by rewrite lift_child|by rewrite lift_other].
Qed.

Lemma lift_into r : p_parent p ≠ Some (p_id p) → children r (p_parent p) = [] →
  children (map lift_children r) (p_parent p) = map (with_parent (p_parent p)) (children r (Some (p_id p))).
Proof.
  intros Hp. induction r as [|x r IH]; cbn [map]; [done|]. rewrite !children_cons.
  destruct (decide (p_parent x = Some (p_id p))) as [E|E].
  - rewrite lift_child by done. destruct (decide (p_parent (with_parent _ x) = _)) as [_|[]]; [|done].
    rewrite decide_False by congruence. intros Hr. cbn [map]. by rewrite IH.
  - rewrite lift_other by done. destruct (decide (p_parent x = p_parent p)); [done|]. apply IH.
Qed.

Lemma delete_siblings q : children (before ++ map lift_children below ++ after) q = siblings_delete p l q.
Proof.
  destruct (split_children_in _ _ _ _ _ Hs (p_id p)) as (Hb & Ha & Hp & Hl); [left|].
  assert (Hskip : ∀ r x, (∀ y, y ∈ r → y ∈ before ++ below ++ after) →
    flat_map (λ c, if has_id (p_id p) c then map (with_parent (p_parent p)) x else [c]) r = r).
  { intros r x Hr. apply flat_map_skip. intros y Hy. by rewrite split_other by auto. }
  unfold siblings_delete. destruct (decide (q = Some (p_id p))) as [->|Hq].
  { by rewrite !children_app, Hb, Ha, lift_nowhere. }
  rewrite !children_app. destruct (split_where p below q) as [(x & -> & Hx)|Hout].
  - destruct (split_children_in _ _ _ _ _ Hs x Hx) as (Hbx & Hax & Hpx & Hlx).
    rewrite Hbx, Hax, Hlx, lift_siblings, app_nil_r by done. cbn. symmetry. apply Hskip.
    intros y [Hy _]%children_elem. set_solver.
  - destruct (split_children _ _ _ _ _ Hs q Hout) as [Hbq Hlq].
    rewrite Hlq. rewrite !flat_map_app, (Hskip (children before q)), (Hskip (children after q))
      by (intros y [Hy _]%children_elem; set_solver).
    f_equal. destruct (decide (p_parent p = q)) as [<-|Hpq].
    + rewrite lift_into, Hl by done. cbn [flat_map]. assert (has_id (p_id p) p = true) as -> by (by apply has_id_true).
      by rewrite app_nil_r.
    + by rewrite lift_siblings, Hbq by done.
Qed.

(** *** Move *)

Lemma update_branch f : update_page (p_id p) f (p :: below) = f p :: below.
Proof.
  unfold update_page. cbn [map]. assert (has_id (p_id p) p = true) as -> by (by apply has_id_true). f_equal.
  rewrite <-(map_id below) at 2. apply map_ext_in. intros x Hx%list_elem_of_In.
  by rewrite split_other by (rewrite !elem_of_app; auto).
Qed.

(** Where a moved branch goes among the other pages *)
Definition target (parent id : option string) (rest : list page) (n : nat) : Prop :=
  match id with
  | None => n = length rest
  | Some b => b ≠ main ∧ n = index_of b rest ∧ ∃ a, find_first (has_id b) rest = Some a ∧ p_parent a = parent
  end.

Lemma move_result op l1 : move_page op p l = Ok l1 →
  (∀ x, op_parent_id op = Some x → x ∉ page_ids (p :: below) ∧ x ∈ page_ids l) ∧
  ∃ n, target (op_parent_id op) (op_before_id op) (before ++ after) n ∧
    l1 = firstn n (before ++ after) ++ (with_parent (op_parent_id op) p :: below) ++ skipn n (before ++ after).
Proof.
  unfold move_page. destruct (split_branch _ _ _ _ _ Hs) as [-> ->].
  destruct (bool_decide_reflect (op_before_id op = Some main)) as [|Hmain]; [done|].
  destruct (match op_parent_id op with Some _ => _ | None => false end) eqn:Hin; [done|].
  destruct (match op_parent_id op with Some _ => negb _ | None => false end) eqn:Hex; [done|].
  rewrite update_branch. intros H. simplify_res. split.
  - intros y Hy. rewrite Hy in Hin, Hex. apply bool_decide_eq_false in Hin. rewrite (split_subtree _ _ _ _ _ Hs) in Hin.
    split; [by rewrite elem_of_list_to_set in Hin|]. apply negb_false_iff, existsb_True in Hex as (c & Hc & Hid).
    apply has_id_true in Hid as <-. by apply page_ids_elem.
  - exists x. split; [|done]. unfold target. destruct (op_before_id op) as [b|]; [|by simplify_res].
    destruct (find_first (has_id b) _) as [a|]; [|done]. case_bool_decide as Ha; [|done]. injection Hx as <-.
    split_and!; [congruence|done|eauto].
Qed.

Lemma index_children b rest q a : find_first (has_id b) rest = Some a → p_parent a = q →
  children (firstn (index_of b rest) rest) q = firstn (index_of b (children rest q)) (children rest q) ∧
  children (skipn (index_of b rest) rest) q = skipn (index_of b (children rest q)) (children rest q).
Proof.
  intros Ha Hq. induction rest as [|x rest IH]; [done|]. cbn [find_first index_of] in *.
  destruct (has_id b x) eqn:Hx.
  - injection Ha as ->. cbn [firstn skipn]. rewrite children_cons, decide_True by done. cbn [index_of]. by rewrite Hx.
  - destruct (IH Ha) as [I1 I2]. cbn [firstn skipn]. rewrite !children_cons. rewrite I1, I2.
    destruct (decide (p_parent x = q)); [|done]. cbn [index_of]. by rewrite Hx.
Qed.

Lemma move_siblings parent id n q : target parent id (before ++ after) n → (∀ x, parent = Some x → x ∉ page_ids (p :: below)) →
  children (firstn n (before ++ after) ++ (with_parent parent p :: below) ++ skipn n (before ++ after)) q = siblings_move parent id p l q.
Proof.
  intros Ht Hpar. unfold siblings_move. rewrite !children_app, children_cons. cbn [p_parent with_parent].
  assert (Hkeep : ∀ r, (∀ y, y ∈ r → y ∈ before ++ below ++ after) → List.filter (λ c, negb (has_id (p_id p) c)) r = r).
  { intros r Hr. apply filter_id. intros y Hy. by rewrite split_other by auto. }
  destruct (split_where p below q) as [(x & -> & Hx)|Hout].
  - destruct (split_children_in _ _ _ _ _ Hs x Hx) as (Hbx & Hax & Hpx & Hlx).
    do 2 rewrite decide_False by (intros E; by apply (Hpar x)).
    assert (Hrem : ∀ r, (∀ y, y ∈ r → y ∈ before ++ after) → children r (Some x) = []).
    { intros r Hr. apply children_none. intros y Hy E. apply Hr in Hy. rewrite elem_of_app in Hy.
      assert (y ∈ children before (Some x) ∨ y ∈ children after (Some x)) as Hc by (rewrite !children_elem; tauto).
      rewrite Hbx, Hax in Hc. by destruct Hc as [?%elem_of_nil|?%elem_of_nil]. }
    rewrite (Hrem (firstn _ _)), (Hrem (skipn _ _)) by (intros y Hy; rewrite <-(firstn_skipn n (before ++ after)), elem_of_app; auto).
    cbn [app]. rewrite app_nil_r, Hlx. symmetry. apply Hkeep. intros y [Hy _]%children_elem. rewrite !elem_of_app. auto.
  - destruct (split_children _ _ _ _ _ Hs q Hout) as [Hbq Hlq]. rewrite Hbq, Hlq.
    assert (List.filter (λ c, negb (has_id (p_id p) c)) (children before q ++ (if decide (p_parent p = q) then [p] else []) ++ children after q)
      = children (before ++ after) q) as ->.
    { rewrite !List.filter_app, children_app, (Hkeep (children before q)), (Hkeep (children after q)) by (intros y [Hy _]%children_elem; rewrite !elem_of_app; auto).
      destruct (decide _); cbn [List.filter]; [|done]. by assert (has_id (p_id p) p = true) as -> by (by apply has_id_true). }
    destruct (decide (parent = q)) as [->|Hne].
    + rewrite decide_True by done. destruct id as [b|]; cbn [target insert_before] in *.
      * destruct Ht as (_ & -> & a & Ha & Hpa). destruct (index_children b (before ++ after) q a Ha Hpa) as [-> ->]. done.
      * subst n. by rewrite firstn_all, skipn_all.
    + rewrite decide_False by congruence. cbn [app]. by rewrite <-children_app, firstn_skipn.
Qed.

(** *** Duplicate *)

Lemma copy_ids_known ns new_id x : is_Some (copy_ids ns new_id p (p :: below) !! x) ↔ x ∈ page_ids (p :: below).
Proof.
  unfold copy_ids.
  assert (H : ∀ r (m : gmap string string), is_Some (foldl (λ ids c, <[p_id c := uuid_str (uuid5 ns (p_id c))]> ids) m r !! x) ↔
    x ∈ page_ids r ∨ is_Some (m !! x)).
  { induction r as [|c r IH]; intros m; cbn [foldl page_ids map]; [split; [by right|by intros [?%elem_of_nil|]]|].
    rewrite IH, lookup_insert_is_Some', elem_of_cons. fold (page_ids r). rewrite (eq_comm x). tauto. }
  rewrite lookup_insert_is_Some', H, lookup_empty. cbn [page_ids map]. rewrite !elem_of_cons. fold (page_ids below).
  rewrite (eq_comm x). assert (¬ is_Some (None : option string)) by (by intros [? [=]]). tauto.
Qed.

Notation copies_of ids := (map (copy_page ids)).

Lemma duplicate_result op ns new_id l1 (ids := copy_ids ns new_id p (p :: below))
    (copy := with_title (Str.take 193 (p_title p) +:+ " (Copy)") (p_inherits p) (copy_page ids p)) :
  duplicate_page op ns new_id p l = Ok l1 →
  l1 = before ++ (p :: below) ++ (copy :: copies_of ids below) ++ after ∧ ∀ x y, ids !! x = Some y → y ∉ page_ids l.
Proof.
  unfold duplicate_page. destruct (split_branch _ _ _ _ _ Hs) as [-> _]. fold ids.
  destruct (existsb _ _) eqn:Hex; [done|]. cbn [map]. fold copy.
  intros H. assert (Hlen : match last (p :: below) with Some c => S (index_of (p_id c) l) | None => O end = length (before ++ p :: below)).
  { destruct (last (p :: below)) as [c|] eqn:Hc; [|by apply last_None in Hc]. apply last_Some in Hc as [r Hr].
    rewrite (sp_list _ _ _ _ _ Hs), app_comm_cons, Hr, length_app, <-app_assoc. cbn [app]. rewrite app_assoc, index_of_app; [|..|done].
    - rewrite !length_app. cbn. lia.
    - pose proof (sp_ids _ _ _ _ _ Hs) as Hnd. rewrite app_comm_cons, Hr, <-app_assoc in Hnd. cbn [app] in Hnd.
      rewrite app_assoc, page_ids_app in Hnd. cbn in Hnd. apply NoDup_app in Hnd as (_ & Hd & _).
      intros Hin. apply (Hd _ Hin). left. }
  assert (Hl : l = (before ++ p :: below) ++ after) by (rewrite <-app_assoc; exact (sp_list _ _ _ _ _ Hs)).
  rewrite Hlen in H. replace (firstn _ l) with (before ++ p :: below) in H by (by rewrite Hl, take_app_length).
  replace (skipn _ l) with after in H by (by rewrite Hl, drop_app_length). clear Hl.
  injection H as <-. split; [by rewrite <-!app_assoc|].
  intros x y Hxy Hy. apply page_ids_inv in Hy as (c & Hc & <-). apply not_true_iff_false in Hex. apply Hex, existsb_True.
  exists (p_id c). split.
  - apply list_elem_of_fmap. exists (x, p_id c). split; [done|]. by apply elem_of_map_to_list.
  - apply existsb_True. exists c. split; [done|]. by apply has_id_true.
Qed.

Section Copies.
Context (ids : gmap string string) (copy : page).
Hypothesis Htree : page_tree l.
Hypothesis Hknown : ∀ x, is_Some (ids !! x) ↔ x ∈ page_ids (p :: below).
Hypothesis Hfresh : ∀ x y, ids !! x = Some y → y ∉ page_ids l.
Hypothesis Hinj : ∀ a b z, ids !! a = Some z → ids !! b = Some z → a = b.
Hypothesis Hcopy : p_parent copy = p_parent (copy_page ids p).

Lemma copy_top_parent : p_parent copy = p_parent p.
Proof.
  rewrite Hcopy. cbn. destruct (sp_parent _ _ _ _ _ Hs) as [->|(i & -> & Hi)]; [done|].
  destruct (ids !! i) as [z|] eqn:E; [|done]. exfalso.
  apply (split_disjoint _ _ _ _ _ Hs i); [by left|]. by apply Hknown; rewrite E.
Qed.

Lemma copy_parent y : y ∈ below → ∃ yp z, p_parent y = Some yp ∧ ids !! yp = Some z ∧ p_parent (copy_page ids y) = Some z.
Proof.
  intros Hy. assert (∃ yp, p_parent y = Some yp ∧ yp ∈ page_ids (p :: below)) as (yp & E & Hin).
  { destruct (outline_parents _ _ (sp_below _ _ _ _ _ Hs) y Hy) as [E|(y' & Hy' & E)];
      eexists; (split; [exact E|]); [left|right; by apply page_ids_elem]. }
  apply Hknown in Hin as [z Hz]. exists yp, z. split_and!; [done|done|]. cbn. by rewrite E, Hz.
Qed.

Lemma source_some q c : source ids l q = Some c → c ∈ l ∧ ∃ x, q = Some x ∧ ids !! p_id c = Some x.
Proof. destruct q as [x|]; cbn; [|done]. intros [? H%bool_decide_eq_true]%find_first_Some. eauto. Qed.

Lemma source_none q x z : source ids l q = None → ids !! x = Some z → q ≠ Some z.
Proof.
  intros Hq Hx ->. cbn in Hq. assert (Hin : x ∈ page_ids l).
  { apply (split_known x). right; left. apply Hknown. by rewrite Hx. }
  apply page_ids_inv in Hin as (c & Hc & <-). apply (proj1 (find_first_None _ _) Hq) in Hc.
  by apply bool_decide_eq_false in Hc.
Qed.

Lemma known_parent y x : y ∈ l → p_parent y = Some x → x ∈ page_ids l.
Proof.
  intros Hy E. destruct (outline_parents _ _ (tree_outline _ Htree) y Hy) as [E'|(y' & Hy' & E')]; rewrite E in E'; [done|].
  injection E' as ->. by apply page_ids_elem.
Qed.

Lemma fresh_no_children x z r : ids !! x = Some z → (∀ y, y ∈ r → y ∈ l) → children r (Some z) = [].
Proof. intros Hx Hr. apply children_none. intros y Hy E. apply (Hfresh _ _ Hx). eapply known_parent; [by apply Hr|done]. Qed.

Lemma copies_children c x r : ids !! c = Some x → (∀ y, y ∈ r → y ∈ below) →
  children (map (copy_page ids) r) (Some x) = map (copy_page ids) (children r (Some c)).
Proof.
  intros Hc. induction r as [|y r IH]; intros Hr; [done|]. cbn [map]. rewrite !children_cons, IH by (intros; apply Hr; by right).
  destruct (copy_parent y) as (yp & z & E & Hz & ->); [apply Hr; left|]. rewrite E.
  destruct (decide (yp = c)) as [->|Hne].
  - rewrite Hc in Hz. injection Hz as ->. by rewrite !decide_True.
  - rewrite !decide_False; [done|congruence|]. intros [= ->]. by apply Hne, (Hinj _ _ x).
Qed.

Lemma duplicate_siblings q :
  children (before ++ (p :: below) ++ (copy :: map (copy_page ids) below) ++ after) q = siblings_duplicate ids copy p l q.
Proof.
  unfold siblings_duplicate. pose proof (sp_list _ _ _ _ _ Hs) as Hl.
  assert (Hin : ∀ y, y ∈ before ∨ y ∈ p :: below ∨ y ∈ after → y ∈ l).
  { intros y. rewrite Hl, elem_of_app, app_comm_cons, elem_of_app. tauto. }
  rewrite !children_app. rewrite (children_cons copy), copy_top_parent.
  destruct (source ids l q) as [c|] eqn:Hsrc.
  - apply source_some in Hsrc as (_ & x & -> & Hc).
    rewrite (fresh_no_children _ _ before Hc), (fresh_no_children _ _ (p :: below) Hc), (fresh_no_children _ _ after Hc), app_nil_r by auto.
    rewrite decide_False by (intros E; eapply (Hfresh _ _ Hc), known_parent; [apply Hin; right; left; left|done]).
    cbn [app]. rewrite (copies_children (p_id c)) by done.
    destruct (split_children_in _ _ _ _ _ Hs (p_id c)) as (_ & _ & _ & ->); [|done]. apply Hknown. by rewrite Hc.
  - assert (children (map (copy_page ids) below) q = []) as ->.
    { apply children_none. intros y (b & -> & Hb)%list_elem_of_fmap E.
      destruct (copy_parent b Hb) as (yp & z & _ & Hz & E'). rewrite E in E'. by eapply source_none in E'. }
    assert (Hskip : ∀ r, (∀ y, y ∈ r → y ∈ before ++ below ++ after) →
      flat_map (λ c, if has_id (p_id p) c then [c; copy] else [c]) r = r).
    { intros r Hr. apply flat_map_skip. intros y Hy. by rewrite split_other by auto. }
    rewrite (children_cons p). destruct (split_where p below q) as [(x & -> & Hx)|Hout].
    + destruct (split_children_in _ _ _ _ _ Hs x Hx) as (-> & -> & Hpx & ->).
      rewrite !decide_False by done. rewrite Hskip; [by rewrite app_nil_r|]. intros y [Hy _]%children_elem. rewrite !elem_of_app. auto.
    + destruct (split_children _ _ _ _ _ Hs q Hout) as [-> ->].
      rewrite !flat_map_app, (Hskip (children before q)), (Hskip (children after q))
        by (intros y [Hy _]%children_elem; rewrite !elem_of_app; auto).
      f_equal. destruct (decide (p_parent p = q)); [|done]. cbn [flat_map].
      by assert (has_id (p_id p) p = true) as -> by (by apply has_id_true).
Qed.
End Copies.
End Ops.

(** ** Every operation *)

Definition copied_top (ids : gmap string string) (p : page) : page :=
  with_title (Str.take 193 (p_title p) +:+ " (Copy)") (p_inherits p) (copy_page ids p).

(** The siblings under each page that an operation leaves *)
Definition siblings_after (op : NotePageOperation) (l : list page) (q : option string) : list page :=
  let new_id := default EmptyString (op_new_id op) in
  let title := Str.strip (default EmptyString (op_title op)) in
  match op_action op with
  | CreatePage => children l q ++ (if decide (q = op_parent_id op) then [blank_page new_id (op_parent_id op) title] else [])
  | ReorderPages => children (omap (M:=list) (λ id, find_first (has_id id) l) (default [] (op_order op))) q
  | action =>
      match find_page (op_page_id op) l with
      | Ok p =>
          match action with
          | RenamePage => update_page (p_id p) (with_title title (p_inherits p && negb (is_main p))) (children l q)
          | MovePage => siblings_move (op_parent_id op) (op_before_id op) p l q
          | DeletePage => siblings_delete p l q
          | _ =>
              let ids := copy_ids (default 0 (uuid_of new_id)) new_id p (List.filter (inside (subtree_ids l (p_id p))) l) in
              siblings_duplicate ids (copied_top ids p) p l q
          end
      | Err _ => children l q
      end
  end.

(** What a page holds *)
Definition same_text (p p' : page) : Prop :=
  p_id p' = p_id p ∧ p_content p' = p_content p ∧ p_versions p' = p_versions p ∧
  p_revision p' = p_revision p ∧ p_generation p' = p_generation p.

Definition plain (p : page) : Prop := p_files p = None ∧ is_dict (p_content p) = true.

Definition ranked (l : list page) : Prop := ∃ rank : string → nat,
  ∀ x q, x ∈ l → p_parent x = Some q → q ∈ page_ids l ∧ (rank q < rank (p_id x))%nat.

(** A list of pages that an operation made of [l]: it has an order, which shows [sib]; the pages that are not [gone]
    stay, and ids stay unique if the new ones are [fresh]. *)
Record edited (fresh : Prop) (gone : page → Prop) (sib : option string → list page) (l l1 : list page) : Prop := {
  ed_head : ∃ m r, l1 = m :: r ∧ is_main m = true ∧ p_parent m = None;
  ed_plain : Forall plain l → Forall plain l1;
  ed_kept x : x ∈ l → ¬ gone x → ∃ x', x' ∈ l1 ∧ same_text x x';
  ed_siblings : NoDup (page_ids l1) → ∀ q, children l1 q = sib q;
  ed_ranked : NoDup (page_ids l1) → ranked l1;
  ed_unique : fresh → NoDup (page_ids l1);
  ed_gone x : x ∈ l → gone x → p_id x ∉ page_ids l1
}.

Lemma same_text_refl p : same_text p p.
Proof. done. Qed.

Lemma index_of_lt id l1 l2 : id ∈ page_ids l1 → (index_of id (l1 ++ l2) < length l1)%nat.
Proof.
  induction l1 as [|x l1 IH]; [by intros ?%elem_of_nil|]. cbn [app index_of length].
  destruct (has_id id x) eqn:E; [lia|]. intros [->|H]%elem_of_cons; [by apply has_id_false in E|]. specialize (IH H). lia.
Qed.

Lemma index_of_app_l id l1 l2 : id ∈ page_ids l1 → index_of id (l1 ++ l2) = index_of id l1.
Proof.
  induction l1 as [|x l1 IH]; [by intros ?%elem_of_nil|]. intros Hi. cbn [app index_of].
  destruct (has_id id x) eqn:E; [done|]. f_equal. apply IH.
  apply elem_of_cons in Hi as [->|?]; [by apply has_id_false in E|done].
Qed.

Lemma tree_index l x q : page_tree l → x ∈ l → p_parent x = Some q →
  q ∈ page_ids l ∧ (index_of q l < index_of (p_id x) l)%nat.
Proof.
  intros Ht Hx E. destruct (tree_split l x Ht Hx) as (before & below & after & Hs).
  destruct (sp_parent _ _ _ _ _ Hs) as [E'|(i & E' & Hi)]; rewrite E in E'; [done|]. injection E' as <-.
  split; [apply (split_known _ _ _ _ _ Hs); by left|].
  rewrite (sp_list _ _ _ _ _ Hs). rewrite (index_of_app (p_id x)); [by apply index_of_lt| |done].
  intros Hin. apply (split_disjoint _ _ _ _ _ Hs (p_id x)); [by left|left].
Qed.

Lemma tree_ranked l : page_tree l → ranked l.
Proof. intros Ht. exists (λ x, index_of x l). intros x q Hx E. by apply tree_index. Qed.

Lemma update_page_id id f x l : (∀ y, p_id (f y) = p_id y) → x ∈ update_page id f l → ∃ y, y ∈ l ∧ p_id x = p_id y.
Proof.
  intros Hf (y & -> & Hy)%list_elem_of_fmap. exists y. split; [done|]. by destruct (has_id id y).
Qed.

(** A change of pages that keeps the tree *)
Lemma map_edited gone (f : page → page) l : page_tree l →
  (∀ x, same_place x (f x)) → (∀ x, plain x → plain (f x)) → (∀ x, x ∈ l → same_text x (f x)) → (∀ x, ¬ gone x) →
  edited True gone (λ q, map f (children l q)) l (map f l).
Proof.
  intros Ht Hplace Hplain Htext Hgone. destruct (tree_head l Ht) as (m & r & Hl & Hm & Hp). split.
  - exists (f m), (map f r). rewrite Hl. destruct (Hplace m) as [Hid Hpar]. unfold is_main in *. by rewrite Hid, Hpar.
  - rewrite !list.Forall_forall. intros H x (y & -> & Hy)%list_elem_of_fmap. auto.
  - intros x Hx Hg. exists (f x). split; [by apply list_elem_of_fmap_2|auto].
  - intros _ q. clear - Hplace. induction l as [|x l IH]; [done|]. cbn [map]. rewrite !children_cons, IH.
    rewrite (proj2 (Hplace x)). by destruct (decide _).
  - intros _. apply tree_ranked. eapply same_place_tree, Ht. clear - Hplace.
    induction l; constructor; auto.
  - intros _. unfold page_ids. rewrite map_map. erewrite map_ext; [apply Ht|]. intros x. apply Hplace.
  - intros x _ Hg. by destruct (Hgone x).
Qed.

Section Edits.
Context (l : list page) (Ht : page_tree l) (op : NotePageOperation).

Lemma create_edited new_id l1 : create_page op new_id l = Ok l1 → (∀ x, op_parent_id op = Some x → x ∈ page_ids l) →
  edited (new_id ∉ page_ids l) (λ _, False) (λ q, children l q ++
    (if decide (q = op_parent_id op) then [blank_page new_id (op_parent_id op) (Str.strip (default EmptyString (op_title op)))] else [])) l l1.
Proof.
  unfold create_page, required_title. destruct (Str.is_empty _); [done|]. cbn. intros [= <-] Hpar.
  set (b := blank_page new_id (op_parent_id op) (Str.strip (default EmptyString (op_title op)))).
  destruct (tree_head l Ht) as (m & r & Hl & Hm & Hp). split.
  - exists m, (r ++ [b]). by rewrite Hl.
  - intros H. apply Forall_app. split; [done|]. by repeat constructor.
  - intros x Hx _. exists x. split; [rewrite elem_of_app; by left|done].
  - intros _ q. rewrite children_app, children_cons. cbn [children]. f_equal. cbn. 
    destruct (decide (op_parent_id op = q)), (decide (q = op_parent_id op)); congruence || done.
  - intros Hnd. exists (λ x, index_of x (l ++ [b])). intros x q Hx E. rewrite page_ids_app in *.
    assert (Hb : index_of new_id (l ++ [b]) = length l).
    { apply index_of_app; [|done]. apply NoDup_app in Hnd as (_ & Hd & _). intros Hin. apply (Hd _ Hin). left. }
    pose proof (λ i, index_of_app_l i l [b]) as Hold.
    apply elem_of_app in Hx as [Hx| ->%list_elem_of_singleton].
    + destruct (tree_index l x q Ht Hx E) as [Hq Hlt]. rewrite !Hold by (done || by apply page_ids_elem).
      split; [rewrite elem_of_app; by left|done].
    + cbn in E. specialize (Hpar _ E). cbn [p_id blank_page b]. rewrite Hb. split; [rewrite elem_of_app; by left|].
      by apply index_of_lt.
  - intros Hn. rewrite page_ids_app. apply NoDup_app. split_and!; [apply Ht| |apply NoDup_singleton].
    by intros x Hx ->%list_elem_of_singleton.
  - done.
Qed.

Lemma rename_edited p l1 : p ∈ l → rename_page op p l = Ok l1 →
  edited True (λ _, False) (λ q, update_page (p_id p) (with_title (Str.strip (default EmptyString (op_title op))) (p_inherits p && negb (is_main p)))
    (children l q)) l l1.
Proof.
  unfold rename_page, required_title. destruct (Str.is_empty _); [done|]. cbn. intros _ [= <-].
  apply map_edited; [done|intros x; by destruct (has_id (p_id p) x)..|by intros x []].
Qed.

Lemma delete_edited p l1 : p ∈ l → is_main p = false → delete_page p l = Ok l1 →
  edited True (λ x, x = p) (siblings_delete p l) l l1.
Proof.
  intros Hp Hmain Hdel. destruct (tree_split l p Ht Hp) as (before & below & after & Hs).
  rewrite (delete_result _ _ _ _ _ Hs l1 Hdel).
  assert (Hlift : ∀ x, p_id (lift_children p x) = p_id x ∧ same_text x (lift_children p x) ∧ (plain x → plain (lift_children p x))).
  { intros x. unfold lift_children. by destruct (child_of _ x). }
  assert (Hin : ∀ x, x ∈ before ∨ x ∈ below ∨ x ∈ after → x ∈ l).
  { intros x Hx. rewrite (sp_list _ _ _ _ _ Hs), elem_of_app, elem_of_cons, elem_of_app. tauto. }
  split.
  - destruct (tree_head l Ht) as (m & r & Hl & Hm & Hmp). pose proof (sp_list _ _ _ _ _ Hs) as Hl'.
    destruct before as [|m' b]; cbn in Hl'; rewrite Hl in Hl'; injection Hl' as -> ->; [congruence|].
    by exists m', (b ++ map (lift_children p) below ++ after).
  - rewrite !list.Forall_forall. intros H x. rewrite !elem_of_app. intros [Hx|[(y & -> & Hy)%list_elem_of_fmap|Hx]]; [auto| |auto].
    apply Hlift. auto.
  - intros x Hx Hxp. rewrite (sp_list _ _ _ _ _ Hs), elem_of_app, elem_of_cons, elem_of_app in Hx.
    destruct Hx as [Hx|[Hx|[Hx|Hx]]]; [|done|..].
    + exists x. split; [rewrite elem_of_app; by left|done].
    + exists (lift_children p x). split; [rewrite !elem_of_app; right; left; by apply list_elem_of_fmap_2|apply Hlift].
    + exists x. split; [rewrite !elem_of_app; auto|done].
  - intros _ q. by apply delete_siblings.
  - intros _. exists (λ x, index_of x l).
    assert (Hids : ∀ q, q ∈ page_ids l → q ≠ p_id p → q ∈ page_ids (before ++ map (lift_children p) below ++ after)).
    { intros q Hq Hqp. apply (split_known _ _ _ _ _ Hs) in Hq. rewrite !page_ids_app, !elem_of_app.
      assert (page_ids (map (lift_children p) below) = page_ids below) as ->.
      { unfold page_ids. rewrite map_map. apply map_ext. intros x. by destruct (Hlift x). }
      cbn in Hq. rewrite elem_of_cons in Hq. tauto. }
    assert (Hplain : ∀ x q, x ∈ l → p_parent x = Some q → q ≠ p_id p →
      q ∈ page_ids (before ++ map (lift_children p) below ++ after) ∧ (index_of q l < index_of (p_id x) l)%nat).
    { intros x q Hx E Hq. destruct (tree_index l x q Ht Hx E). auto. }
    destruct (split_children_in _ _ _ _ _ Hs (p_id p)) as (Hb & Ha & Hpp & _); [left|].
    intros x q. rewrite !elem_of_app. intros [Hx|[(y & -> & Hy)%list_elem_of_fmap|Hx]] E.
    + apply Hplain; [auto|done|]. intros ->. assert (Hc : x ∈ children before (Some (p_id p))) by (by apply children_elem).
      rewrite Hb in Hc. by apply elem_of_nil in Hc.
    + destruct (Hlift y) as [-> _]. destruct (decide (p_parent y = Some (p_id p))) as [Ey|Ey].
      * rewrite lift_child in E by done. cbn in E. destruct (tree_index l p q Ht Hp E). destruct (tree_index l y (p_id p) Ht); [auto|done|].
        split; [|lia]. apply Hids; [done|]. intros ->. by rewrite E in Hpp.
      * rewrite lift_other in E by done. apply Hplain; [auto|done|]. intros ->. by apply Ey.
    + apply Hplain; [auto|done|]. intros ->. assert (Hc : x ∈ children after (Some (p_id p))) by (by apply children_elem).
      rewrite Ha in Hc. by apply elem_of_nil in Hc.
  - intros _. rewrite !page_ids_app. assert (page_ids (map (lift_children p) below) = page_ids below) as ->.
    { unfold page_ids. rewrite map_map. apply map_ext. intros x. by destruct (Hlift x). }
    pose proof (sp_ids _ _ _ _ _ Hs) as Hnd. rewrite page_ids_app in Hnd. cbn in Hnd. fold (page_ids (below ++ after)) in Hnd.
    rewrite page_ids_app, <-Permutation_middle in Hnd. by apply NoDup_cons in Hnd as [_ ?].
  - intros x _ -> (y & Hy & Hid)%page_ids_inv. rewrite !elem_of_app in Hy.
    assert (∃ z, p_id z = p_id p ∧ z ∈ before ++ below ++ after) as (z & Hz & Hin').
    { destruct Hy as [Hy|[(z & -> & Hy)%list_elem_of_fmap|Hy]]; [exists y|exists z|exists y];
        rewrite !elem_of_app; (split; [|auto]); [done| |done]. destruct (Hlift z) as [E _]. by rewrite <-E. }
    apply (split_other _ _ _ _ _ Hs) in Hin'. by apply has_id_false in Hin'.
Qed.

(** Parents of the pages outside a branch are outside, those of its subpages inside. *)
Lemma split_parents before p below after (Hs : split_at l before p below after) x q : p_parent x = Some q →
  (x ∈ before ∨ x ∈ after ∨ x = p → q ∉ page_ids (p :: below)) ∧ (x ∈ below → q ∈ page_ids (p :: below)).
Proof.
  intros E. split.
  - intros Hx Hq. destruct (split_children_in _ _ _ _ _ Hs q Hq) as (Hb & Ha & Hp & _).
    destruct Hx as [Hx|[Hx| ->]]; [| |done].
    + assert (Hc : x ∈ children before (Some q)) by (by apply children_elem). rewrite Hb in Hc. by apply elem_of_nil in Hc.
    + assert (Hc : x ∈ children after (Some q)) by (by apply children_elem). rewrite Ha in Hc. by apply elem_of_nil in Hc.
  - intros Hx. destruct (outline_parents _ _ (sp_below _ _ _ _ _ Hs) x Hx) as [E'|(y & Hy & E')]; rewrite E in E';
      injection E' as ->; [left|right; by apply page_ids_elem].
Qed.

Lemma move_edited p l1 : p ∈ l → is_main p = false → move_page op p l = Ok l1 →
  edited True (λ _, False) (siblings_move (op_parent_id op) (op_before_id op) p l) l l1.
Proof.
  intros Hp Hmain Hmove. destruct (tree_split l p Ht Hp) as (before & below & after & Hs).
  destruct (move_result _ _ _ _ _ Hs op l1 Hmove) as (Hpar & n & Htarget & ->).
  set (p' := with_parent (op_parent_id op) p). set (rest := before ++ after) in *.
  pose proof (sp_list _ _ _ _ _ Hs) as Hl.
  assert (Hin : ∀ x, x ∈ firstn n rest ++ (p' :: below) ++ skipn n rest ↔ x = p' ∨ x ∈ below ∨ x ∈ before ∨ x ∈ after).
  { intros x. rewrite !elem_of_app, elem_of_cons. rewrite <-(elem_of_app before). fold rest.
    rewrite <-(firstn_skipn n rest) at 3. rewrite elem_of_app. tauto. }
  assert (Hinl : ∀ x, x ∈ l ↔ x = p ∨ x ∈ below ∨ x ∈ before ∨ x ∈ after).
  { intros x. rewrite Hl, elem_of_app, elem_of_cons, elem_of_app. tauto. }
  assert (Hids : ∀ q, q ∈ page_ids l → q ∈ page_ids (firstn n rest ++ (p' :: below) ++ skipn n rest)).
  { intros q (x & Hx & <-)%page_ids_inv. apply Hinl in Hx as [->|Hx].
    - change (p_id p) with (p_id p'). apply page_ids_elem, Hin. by left.
    - apply page_ids_elem, Hin. by right. }
  split.
  - destruct (tree_head l Ht) as (m & r & Hlm & Hm & Hmp).
    destruct before as [|m' b]; cbn in Hl; rewrite Hlm in Hl; injection Hl as -> ->; [congruence|].
    assert (Hn : n ≠ O).
    { destruct (op_before_id op) as [b0|]; cbn in Htarget; [|by subst n]. destruct Htarget as (Hb & -> & _).
      apply is_main_id in Hm. cbn. by assert (has_id b0 m' = false) as -> by (apply has_id_false; congruence). }
    destruct n as [|n]; [done|].
    eexists m', _. split; [reflexivity|done].
  - rewrite !list.Forall_forall. intros H x Hx. apply Hin in Hx as [->|Hx]; [apply (H p); apply Hinl; by left|apply H, Hinl; by right].
  - intros x Hx _. apply Hinl in Hx as [->|Hx]; [exists p'|exists x]; (split; [apply Hin; by (left + right)|done]).
  - intros _ q. apply move_siblings; [done|done|]. intros x Hx. by apply Hpar.
  - intros _. exists (λ x, if decide (x ∈ page_ids (p :: below)) then length l + index_of x l else index_of x l)%nat.
    intros x q Hx E. apply Hin in Hx as [->|Hx].
    + destruct (Hpar q E) as [Hq Hql]. split; [by apply Hids|]. rewrite decide_False by done. rewrite decide_True by left.
      pose proof (index_of_lt q l [] Hql) as Hlt. rewrite app_nil_r in Hlt. cbn. lia.
    + destruct (tree_index l x q Ht) as [Hq Hlt]; [apply Hinl; by right|done|]. split; [by apply Hids|].
      destruct (split_parents _ _ _ _ Hs x q E) as [Hout Hbelow].
      destruct Hx as [Hx|Hx].
      * rewrite !decide_True; [lia|right; by apply page_ids_elem|by apply Hbelow].
      * rewrite decide_False by (apply Hout; tauto). destruct (decide _); lia.
  - intros _. assert (Hperm : firstn n rest ++ (p' :: below) ++ skipn n rest ≡ₚ p' :: below ++ before ++ after).
    { rewrite (app_assoc (firstn n rest)), (Permutation_app_comm (firstn n rest)), <-app_assoc, firstn_skipn. done. }
    unfold page_ids. change (NoDup (p_id <$> firstn n rest ++ (p' :: below) ++ skipn n rest)). rewrite Hperm.
    pose proof (sp_ids _ _ _ _ _ Hs) as Hnd. change (NoDup (p_id <$> before ++ p :: below ++ after)) in Hnd.
    rewrite app_comm_cons, (app_assoc before), (Permutation_app_comm before), <-app_assoc in Hnd. exact Hnd.
  - done.
Qed.

Lemma NoDup_map_inj {A B} (f : A → B) r a b : NoDup (map f r) → a ∈ r → b ∈ r → f a = f b → a = b.
Proof.
  induction r as [|x r IH]; [by intros _ ?%elem_of_nil|]. cbn. intros [Hx Hnd]%NoDup_cons Ha Hb E.
  apply elem_of_cons in Ha as [->|Ha], Hb as [->|Hb]; [done|..|auto]; exfalso; apply Hx.
  - rewrite E. by apply list_elem_of_fmap_2.
  - rewrite <-E. by apply list_elem_of_fmap_2.
Qed.

Lemma duplicate_edited ns new_id p l1 (ids := copy_ids ns new_id p (List.filter (inside (subtree_ids l (p_id p))) l)) :
  p ∈ l → duplicate_page op ns new_id p l = Ok l1 →
  edited False (λ _, False) (siblings_duplicate ids (copied_top ids p) p l) l l1.
Proof.
  intros Hp Hdup. destruct (tree_split l p Ht Hp) as (before & below & after & Hs).
  subst ids. rewrite (proj1 (split_branch _ _ _ _ _ Hs)).
  destruct (duplicate_result _ _ _ _ _ Hs op ns new_id l1 Hdup) as [-> Hfresh]. fold (copied_top (copy_ids ns new_id p (p :: below)) p).
  pose proof (copy_ids_known p below ns new_id) as Hknown. set (ids := copy_ids ns new_id p (p :: below)) in *.
  set (copy := copied_top ids p). set (l1 := before ++ (p :: below) ++ (copy :: map (copy_page ids) below) ++ after).
  pose proof (sp_list _ _ _ _ _ Hs) as Hl.
  assert (Hin : ∀ x, x ∈ l1 ↔ x ∈ l ∨ x = copy ∨ x ∈ map (copy_page ids) below).
  { intros x. subst l1. rewrite Hl, !elem_of_app, !elem_of_cons, !elem_of_app. tauto. }
  assert (Hinj : NoDup (page_ids l1) → ∀ a b z, ids !! a = Some z → ids !! b = Some z → a = b).
  { intros Hnd a b z Ha Hb. assert (Hnd' : NoDup (map (λ c, p_id (copy_page ids c)) (p :: below))).
    { subst l1. rewrite !page_ids_app in Hnd. apply NoDup_app in Hnd as (_ & _ & Hnd).
      apply NoDup_app in Hnd as (_ & _ & Hnd). apply NoDup_app in Hnd as (Hnd & _).
      cbn in Hnd |- *. by rewrite map_map in Hnd. }
    destruct (page_ids_inv a (p :: below)) as (x & Hx & <-); [by apply Hknown; rewrite Ha|].
    destruct (page_ids_inv b (p :: below)) as (y & Hy & <-); [by apply Hknown; rewrite Hb|].
    f_equal. apply (NoDup_map_inj _ _ x y Hnd' Hx Hy). cbn. by rewrite Ha, Hb. }
  split.
  - destruct (tree_head l Ht) as (m & r & Hlm & Hm & Hmp). rewrite Hl in Hlm. subst l1.
    destruct before as [|m' b]; injection Hlm as -> _; by eexists _, _.
  - rewrite !list.Forall_forall. intros H x [Hx|[->|(y & -> & Hy)%list_elem_of_fmap]]%Hin; [auto|by apply (H p)|].
    apply (H y). rewrite Hl, elem_of_app, elem_of_cons, elem_of_app. auto.
  - intros x Hx _. exists x. split; [apply Hin; by left|done].
  - intros Hnd q. by apply (duplicate_siblings l before p below after Hs ids copy Ht Hknown Hfresh (Hinj Hnd)).
  - intros Hnd. exists (λ z, match source ids l (Some z) with Some c => length l + index_of (p_id c) l | None => index_of z l end)%nat.
    assert (Hold : ∀ q, q ∈ page_ids l → source ids l (Some q) = None ∧ (index_of q l < length l)%nat ∧ q ∈ page_ids l1).
    { intros q Hq. split_and!.
      - destruct (source ids l (Some q)) as [c|] eqn:E; [|done]. apply source_some in E as (_ & z & [= <-] & E). by destruct (Hfresh _ _ E).
      - pose proof (index_of_lt q l [] Hq) as Hlt. by rewrite app_nil_r in Hlt.
      - apply page_ids_inv in Hq as (y & Hy & <-). apply page_ids_elem, Hin. by left. }
    assert (Hnew : ∀ c z, ids !! p_id c = Some z → c ∈ l → source ids l (Some z) = Some c).
    { intros c z Hz Hc. destruct (source ids l (Some z)) as [c'|] eqn:E.
      - apply source_some in E as (Hc' & z' & [= <-] & E). f_equal.
        apply (page_ids_inj l); [apply Ht|done|done|]. by apply (Hinj Hnd _ _ z).
      - exfalso. by apply (source_none l before p below after Hs ids Hknown _ _ _ E Hz). }
    assert (Hlen : ∀ c z, ids !! p_id c = Some z → c ∈ l → z ∈ page_ids l1).
    { intros c z Hz Hc. assert (Hcb : p_id c ∈ page_ids (p :: below)) by (apply Hknown; by rewrite Hz).
      destruct (page_ids_inv _ _ Hcb) as (y & Hy & Hid). rewrite <-Hid in Hz. apply elem_of_cons in Hy as [->|Hy].
      - replace z with (p_id copy) by (cbn; by rewrite Hz). apply page_ids_elem, Hin. auto.
      - replace z with (p_id (copy_page ids y)) by (cbn; by rewrite Hz). apply page_ids_elem, Hin. right; right. by apply list_elem_of_fmap_2. }
    assert (Hpids : ids !! p_id p = Some (p_id copy)).
    { cbn. destruct (ids !! p_id p) eqn:E; [done|]. exfalso. assert (is_Some (ids !! p_id p)) as [? Hs'] by (apply Hknown; left). congruence. }
    intros x q Hx E. apply Hin in Hx as [Hx|[->|(y & -> & Hy)%list_elem_of_fmap]].
    + destruct (tree_index l x q Ht Hx E) as [Hq Hlt]. destruct (Hold q Hq) as (-> & _ & ?).
      destruct (Hold (p_id x)) as (-> & _); [by apply page_ids_elem|]. done.
    + rewrite (copy_top_parent l before p below after Hs ids copy Hknown eq_refl) in E.
      destruct (tree_index l p q Ht Hp E) as [Hq _]. destruct (Hold q Hq) as (-> & Hlt & ?). split; [done|].
      rewrite (Hnew p) by done. lia.
    + destruct (copy_parent l before p below after Hs ids Hknown y Hy) as (yp & z & Ey & Hz & Ez).
      rewrite E in Ez. injection Ez as ->.
      assert (Hyl : y ∈ l) by (rewrite Hl, elem_of_app, elem_of_cons, elem_of_app; auto).
      destruct (tree_index l y yp Ht Hyl Ey) as [Hyp Hlt]. apply page_ids_inv in Hyp as (c & Hc & <-).
      split; [by apply (Hlen c)|]. rewrite (Hnew c z Hz Hc).
      assert (is_Some (ids !! p_id y)) as [w Hw] by (apply Hknown; right; by apply page_ids_elem).
      rewrite (Hnew y); [lia| |done]. cbn. by rewrite Hw.
  - done.
  - done.
Qed.

Lemma find_by_id r p : NoDup (page_ids r) → p ∈ r → find_first (has_id (p_id p)) r = Some p.
Proof.
  intros Hnd Hp. destruct (find_first (has_id (p_id p)) r) as [x|] eqn:E.
  - apply find_first_Some in E as [Hx Hid%has_id_true]. f_equal. by apply (page_ids_inj r).
  - exfalso. apply (proj1 (find_first_None _ _) E) in Hp. by apply has_id_false in Hp.
Qed.

Lemma omap_by_id r : NoDup (page_ids r) → omap (M:=list) (λ id, find_first (has_id id) r) (page_ids r) = r.
Proof.
  intros Hnd. assert (H : ∀ s, (∀ p, p ∈ s → p ∈ r) → omap (M:=list) (λ id, find_first (has_id id) r) (page_ids s) = s).
  { induction s as [|p s IH]; intros Hs; [done|]. cbn. rewrite find_by_id by (done || apply Hs; left).
    f_equal. apply IH. intros; apply Hs. by right. }
  by apply H.
Qed.

Lemma reorder_edited l1 : reorder_pages op l = Ok l1 →
  edited True (λ _, False) (λ q, children (omap (M:=list) (λ id, find_first (has_id id) l) (default [] (op_order op))) q) l l1.
Proof.
  unfold reorder_pages. set (order := default [] (op_order op)).
  destruct (Nat.eqb_spec (length order) (length l)) as [Hlen|]; [|done]. cbn.
  destruct (bool_decide_reflect (list_to_set order =@{gset string} list_to_set (page_ids l))) as [Hset|]; [|done]. cbn.
  destruct order as [|first rest] eqn:Ho; [done|]. destruct (String.eqb_spec first main) as [->|]; [|done].
  rewrite <-Ho in *. intros [= <-]. pose proof (tree_ids _ Ht) as Hnd.
  assert (Hperm : omap (M:=list) (λ id, find_first (has_id id) l) order ≡ₚ l).
  { transitivity (omap (M:=list) (λ id, find_first (has_id id) l) (page_ids l)); [|by rewrite omap_by_id].
    assert (Hp : page_ids l ≡ₚ order); [|by rewrite Hp].
    apply submseteq_length_Permutation; [|unfold page_ids; rewrite length_map; lia].
    apply NoDup_submseteq; [done|]. intros x Hx. rewrite <-(elem_of_list_to_set (C := gset string)), Hset.
    by apply elem_of_list_to_set. }
  split.
  - destruct (tree_head l Ht) as (m & r & Hl & Hm & Hp). rewrite Ho. cbn.
    assert (find_first (has_id main) l = Some m) as ->; [|by eexists _, _].
    apply is_main_id in Hm. rewrite <-Hm. apply find_by_id; [done|]. rewrite Hl. left.
  - by rewrite Hperm.
  - intros x Hx _. exists x. by rewrite Hperm.
  - done.
  - intros _. destruct (tree_ranked l Ht) as [rank Hr]. exists rank. intros x q Hx E. rewrite Hperm in Hx.
    unfold page_ids. change (q ∈ p_id <$> omap (M:=list) (λ id, find_first (has_id id) l) order ∧ (rank q < rank (p_id x))%nat).
    rewrite Hperm. by apply Hr.
  - intros _. unfold page_ids. change (NoDup (p_id <$> omap (M:=list) (λ id, find_first (has_id id) l) order)). by rewrite Hperm.
  - done.
Qed.

Lemma find_page_elem id r p : find_page id r = Ok p → p ∈ r ∧ id = Some (p_id p).
Proof.
  unfold find_page. destruct (find_first _ _) as [x|] eqn:E; [|done]. intros [= <-].
  apply find_first_Some in E as [? E%bool_decide_eq_true]. done.
Qed.

Definition gone (x : page) : Prop := op_action op = DeletePage ∧ op_page_id op = Some (p_id x).

Lemma edited_gone (f f' : Prop) (g g' : page → Prop) sib l1 : (f' → f) → (∀ x, x ∈ l → g x ↔ g' x) →
  edited f g sib l l1 → edited f' g' sib l l1.
Proof.
  intros Hf Hg [H1 H2 H3 H4 H5 H6 H7]. split; auto.
  - intros x Hx Hn. apply H3; [done|]. by rewrite Hg.
  - intros x Hx Hg'. apply H7; [done|]. by rewrite Hg.
Qed.

(** What an operation makes of the pages, if it is accepted *)
Lemma operate_edited d l1 : d_pages d = l → operate op d = Ok (Some l1) →
  (op_action op = CreatePage → ∀ x, op_parent_id op = Some x → x ∈ page_ids l) →
  edited (op_action op ≠ DuplicatePage) gone (siblings_after op l) l l1.
Proof.
  intros Hd Ho Hpar. unfold operate in Ho. rewrite Hd in Ho. apply bind_Ok in Ho as ([new_id ns] & Hnew & Ho). cbn [fst snd] in Ho.
  destruct (adds_page (op_action op) && _) eqn:Hold; [done|]. destruct (negb _); [done|].
  apply fmap_Ok in Ho as (l1' & Ho & E). injection E as ->. unfold siblings_after, gone.
  assert (Hid : adds_page (op_action op) = true → default EmptyString (op_new_id op) = new_id ∧ uuid_of new_id = Some ns).
  { intros E. rewrite E in Hnew. unfold required_id in Hnew. destruct (Str.is_empty _); [done|].
    destruct (uuid_of _) as [u|] eqn:Eu; [|done]. injection Hnew as <- <-. done. }
  destruct (op_action op) eqn:Hact.
  - destruct (Hid eq_refl) as [-> _]. eapply edited_gone; [| |by apply create_edited; auto]; [|by split; [|intros []]]. intros _.
    intros (x & Hx & <-)%page_ids_inv. apply not_true_iff_false in Hold. apply Hold, existsb_True.
    exists x. split; [done|]. by apply has_id_true.
  - apply bind_Ok in Ho as (p & Hp & Ho). rewrite Hp. rewrite andb_false_r in Ho.
    eapply edited_gone; [| |by apply rename_edited; [eapply find_page_elem|]]; [done|by split; [|intros []]].
  - destruct (Hid eq_refl) as [-> ->]. apply bind_Ok in Ho as (p & Hp & Ho). rewrite Hp. rewrite andb_false_r in Ho.
    eapply edited_gone; [| |by eapply duplicate_edited; [eapply find_page_elem|]]; [done|by split; [|intros []]].
  - eapply edited_gone; [| |by apply reorder_edited]; [done|by split; [|intros []]].
  - apply bind_Ok in Ho as (p & Hp & Ho). rewrite Hp. rewrite andb_true_r in Ho. destruct (is_main p) eqn:Hm; [done|].
    eapply edited_gone; [| |by apply move_edited; [eapply find_page_elem| |]]; [done|by split; [|intros []]].
  - apply bind_Ok in Ho as (p & Hp & Ho). rewrite Hp. rewrite andb_true_r in Ho. destruct (is_main p) eqn:Hm; [done|].
    eapply edited_gone; [| |by apply delete_edited; [eapply find_page_elem| |]]; [done|].
    apply find_page_elem in Hp as [Hin ->]. intros x Hx. split; [by intros ->|].
    intros [_ [= E]]. by apply (page_ids_inj l); [apply Ht|..].
Qed.
End Edits.

(** ** [apply_page_operation] *)

Section Apply.
Context (markdown : string → string) (links : string → list (string * string)).
Context (repr_other : pyval → string) (float_repr : spec_float → string).

Notation normalize := (normalize_pages markdown links repr_other float_repr).
Notation apply := (apply_page_operation markdown links repr_other float_repr).
Notation normal := (normal repr_other).

Lemma mapR_total {A B} (f : A → res B) l : (∀ a, a ∈ l → ∃ b, f a = Ok b) → ∃ l', mapR f l = Ok l'.
Proof.
  induction l as [|a l IH]; cbn; intros H; [by eexists|]. destruct (H a) as [b ->]; [left|].
  destruct IH as [l' ->]; [intros; apply H; by right|]. by eexists.
Qed.

Lemma plain_markdown p : plain p → ∃ md, markdown_of repr_other p = Ok md.
Proof. intros [_ H]. unfold markdown_of, vgetd. destruct (p_content p); try done. by eexists. Qed.

Lemma plain_texts l : Forall plain l → (∃ v, joined_content repr_other l = Ok v) ∧ ∃ t, search_text repr_other l = Ok t.
Proof.
  rewrite list.Forall_forall. intros Hl.
  assert (H : ∀ f : string → page → string, ∃ parts, mapR (λ p, md ← markdown_of repr_other p; Ok (f md p)) l = Ok parts).
  { intros f. apply mapR_total. intros p Hp. destruct (plain_markdown p) as [md ->]; [auto|]. by eexists. }
  split.
  - unfold joined_content.
    destruct (H (λ md p, "## " +:+ path_of (page_paths l) p +:+ two_lines +:+ md)) as [parts Hparts].
    destruct l as [|p [|p' l]]; [by eexists|by eexists|]. rewrite Hparts. by eexists.
  - unfold search_text. destruct (H (λ md p, path_of (page_paths l) p +:+ one_line +:+ md)) as [parts ->]. by eexists.
Qed.

Lemma mapR_elem {A B} (f : A → res B) l l' a : mapR f l = Ok l' → a ∈ l → ∃ b, f a = Ok b.
Proof.
  intros Hm. apply mapR_Forall2 in Hm. induction Hm as [|x y r r' Hxy _ IH]; [by intros ?%elem_of_nil|].
  intros [->|?]%elem_of_cons; eauto.
Qed.

Lemma normal_plain d : normal d → Forall plain (d_pages d).
Proof.
  intros [_ Hf _ _ (t & Ht & _)]. unfold search_text in Ht. apply bind_Ok in Ht as (parts & Hp & _).
  apply list.Forall_forall. intros p Hin. split; [by eapply list.Forall_forall in Hf|].
  destruct (mapR_elem _ _ _ p Hp Hin) as [b Hb]. unfold markdown_of, vgetd in Hb. by destruct (p_content p).
Qed.

Lemma normal_list d fields m r l : normal d → Forall plain (m :: r) → is_main m = true → p_parent m = None →
  order_pages (m :: r) = Ok l → dict_get "files" fields = None → dict_get "pages_revision" fields ≠ None →
  ∃ d', normalize (Some (NoteData (m :: r) fields)) None = Ok d' ∧ d_pages d' = l ∧ pages_revision d' = dget fields "pages_revision".
Proof.
  intros Hd Hplain Hm Hp Ho Hf Hr. unfold normalize_pages. cbv zeta. cbn [default from_option id d_pages d_fields].
  unfold pages_with_main. cbn [d_pages existsb]. rewrite Hm. cbn [orb inherit_title]. rewrite map_id, Ho. cbn [mbind res_bind].
  unfold dget at 1. rewrite Hf. cbn [default from_option por truthy].
  destruct (order_children m r l Ho Hm Hp) as (_ & Hperm & _).
  assert (Hpl : Forall plain l) by (by rewrite Hperm).
  rewrite mapR_id by (intros p Hin; apply migrate_page_done; rewrite list.Forall_forall in Hpl; by apply Hpl).
  cbn [mbind res_bind]. destruct (plain_texts l Hpl) as [[v ->] [t ->]]. cbn [mbind res_bind].
  eexists. split; [reflexivity|]. cbn [d_pages d_fields]. split; [done|]. unfold pages_revision. cbn [d_fields]. unfold dget.
  rewrite !dict_get_set_ne, dict_get_del_ne by done. rewrite (dict_del_absent "files") by done.
  unfold dict_setdefault, dict_has. destruct (dict_get "pages_revision" fields) eqn:E; [by rewrite E|done].
Qed.

(** A list that [order_pages] accepts has unique ids and all parents. *)
Lemma order_accepts m r l : order_pages (m :: r) = Ok l → is_main m = true → p_parent m = None →
  NoDup (page_ids (m :: r)) ∧ ∀ x q, x ∈ m :: r → p_parent x = Some q → q ∈ page_ids (m :: r) ∧ q ≠ p_id x.
Proof.
  intros Ho Hm Hp. destruct (order_children m r l Ho Hm Hp) as (Ht & Hperm & _). pose proof (tree_ids _ Ht) as Hnd.
  assert (Hids : page_ids l ≡ₚ page_ids (m :: r)) by (apply (fmap_Permutation p_id), Hperm).
  split; [by rewrite <-Hids|]. intros x q Hx E. rewrite <-Hperm in Hx. rewrite <-Hids.
  destruct (tree_index l x q Ht Hx E) as [? Hlt]. split; [done|]. intros ->. lia.
Qed.

Lemma normal_list_order m r fields d' : is_main m = true → p_parent m = None →
  normalize (Some (NoteData (m :: r) fields)) None = Ok d' → ∃ l, order_pages (m :: r) = Ok l.
Proof.
  intros Hm Hp (ordered & pages & content & text & Ho & _)%normalize_pages_inv. cbv zeta in Ho. cbn [default from_option id d_fields] in Ho.
  unfold pages_with_main in Ho. cbn [d_pages existsb inherit_title] in Ho. rewrite Hm in Ho. cbn [orb] in Ho. rewrite map_id in Ho. eauto.
Qed.

(** The revision of the tree goes up by one. *)
Definition next_revision (before after : pyval) : Prop :=
  match before with
  | VInt n => after = VInt (n + 1)
  | VBool b => after = VInt (Z.b2z b + 1)
  | VFloat f => after = VFloat (F64.add f (default F64.zero (F64.of_Z 1)))
  | _ => False
  end.

Lemma bump_accepted d n : py_eqb (VInt n) (pages_revision d) = true → ∃ fields, bump_revision d = Ok fields ∧
  next_revision (pages_revision d) (dget fields "pages_revision") ∧ ∀ k, k ≠ "pages_revision" → dict_get k fields = dict_get k (d_fields d).
Proof.
  unfold pages_revision, bump_revision, ditem, dget. destruct (dict_get "pages_revision" (d_fields d)) as [v|]; [|done].
  cbn. destruct v; try done; intros _; eexists; (split; [reflexivity|]); cbn;
    (split; [by rewrite dict_get_set_eq|]); intros k Hk; by rewrite dict_get_set_ne.
Qed.

Lemma operate_revision op d l1 : operate op d = Ok (Some l1) → py_eqb (VInt (op_revision op)) (pages_revision d) = true.
Proof.
  unfold operate. intros H. apply bind_Ok in H as (new & _ & H). destruct (_ && existsb _ _); [done|].
  by destruct (py_eqb (VInt (op_revision op)) (pages_revision d)).
Qed.

Lemma operate_creates op d l1 : op_action op = CreatePage → operate op d = Ok (Some l1) →
  ∃ b, l1 = d_pages d ++ [b] ∧ p_parent b = op_parent_id op.
Proof.
  intros Hc H. unfold operate in H. rewrite Hc in H. apply bind_Ok in H as (new & _ & H). destruct (_ && existsb _ _); [done|].
  destruct (negb _); [done|]. apply fmap_Ok in H as (l & H & E). injection E as <-.
  unfold create_page in H. apply bind_Ok in H as (t & _ & H). injection H as <-. by eexists.
Qed.

(** C22: An operation is refused with the pages as they are, or was done before, or edits the
    tree in one place ([siblings_after]): the list of pages is the outline of a tree again,
    every page that is not deleted keeps its text, its versions and its counters, and the
    revision of the tree goes up.  Only a new page under a missing parent and copies whose
    derived ids clash are refused late. *)
Theorem page_operations_edit_the_tree op d (Hd : normal d) :
  match operate op d with
  | Err e => apply (Some d) op = Err e
  | Ok None => apply (Some d) op = Ok d
  | Ok (Some l1) =>
      match apply (Some d) op with
      | Ok d' =>
          page_tree (d_pages d') ∧ (∀ q, children (d_pages d') q = siblings_after op (d_pages d) q) ∧
          (∀ p, p ∈ d_pages d → ¬ gone op p → ∃ p', p' ∈ d_pages d' ∧ same_text p p') ∧
          (∀ p, p ∈ d_pages d → gone op p → p_id p ∉ page_ids (d_pages d')) ∧
          next_revision (pages_revision d) (pages_revision d')
      | Err _ =>
          (op_action op = CreatePage ∧ ∃ parent, op_parent_id op = Some parent ∧ parent ∉ page_ids (d_pages d)) ∨
          (op_action op = DuplicatePage ∧ ¬ NoDup (page_ids l1))
      end
  end.
Proof.
  assert (Happ : apply (Some d) op = (done ← operate op d; match done with
    | None => Ok d | Some l => fields ← bump_revision d; normalize (Some (NoteData l fields)) None end)).
  { unfold apply_page_operation. by rewrite normalize_again. }
  destruct (operate op d) as [[l1|]|e] eqn:Ho; rewrite Happ; cbn [mbind res_bind]; [|done..].
  destruct (bump_accepted d (op_revision op) (operate_revision op d l1 Ho)) as (fields & -> & Hnext & Hkeep). cbn [mbind res_bind].
  assert ((∃ x, op_parent_id op = Some x ∧ x ∉ page_ids (d_pages d)) ∨ ∀ x, op_parent_id op = Some x → x ∈ page_ids (d_pages d)) as Hpar.
  { destruct (op_parent_id op) as [x|]; [|by right]. destruct (decide (x ∈ page_ids (d_pages d))); [right|left; eauto]. by intros y [= <-]. }
  assert ((op_action op = CreatePage ∧ ∃ x, op_parent_id op = Some x ∧ x ∉ page_ids (d_pages d)) ∨
    (op_action op = CreatePage → ∀ x, op_parent_id op = Some x → x ∈ page_ids (d_pages d))) as [[Hc (x & Hx & Hxl)]|Hok].
  { destruct Hpar; [|by right]. destruct (op_action op); naive_solver. }
  - destruct (operate_creates op d l1 Hc Ho) as (b & -> & Hb).
    destruct (tree_head _ (nm_tree _ _ Hd)) as (m & r & Hl & Hm & Hp). rewrite Hl in *. cbn [app].
    destruct (normalize _ None) as [d'|] eqn:En; [|left; split; [done|by eexists]]. exfalso.
    apply normal_list_order in En as [l Hol]; [|done..]. apply order_accepts in Hol as [_ Hall]; [|done..].
    destruct (Hall b x) as [Hin Hne]; [rewrite app_comm_cons, elem_of_app; right; left|congruence|].
    rewrite app_comm_cons, page_ids_app in Hin. apply elem_of_app in Hin as [?|Hin]; [done|].
    apply list_elem_of_singleton in Hin. done.
  - destruct (operate_edited (d_pages d) (nm_tree _ _ Hd) op d l1 eq_refl Ho Hok) as [(m & r & -> & Hm & Hp) Hplain Hkept Hsib Hrank Huniq Hgone].
    specialize (Hplain (normal_plain d Hd)). destruct (decide (NoDup (page_ids (m :: r)))) as [Hnd|Hnd].
    + destruct (Hrank Hnd) as [rank Hr]. destruct (order_complete (m :: r) rank Hnd) as [l Hl]; [by rewrite head_rooted|].
      destruct (order_children m r l Hl Hm Hp) as (Htree & Hperm & Hchild).
      destruct (normal_list d fields m r l Hd Hplain Hm Hp Hl) as (d' & -> & Hpages & Hrev).
      * rewrite Hkeep by done. apply (nm_fields _ _ Hd).
      * intros E. unfold dget in Hnext. rewrite E in Hnext. by destruct (pages_revision d).
      * rewrite Hpages, Hrev. split_and!; [done| | | |done].
        -- intros q. rewrite Hchild. by apply Hsib.
        -- intros p Hin Hg. destruct (Hkept p Hin Hg) as (p' & Hp' & ?). exists p'. by rewrite Hperm.
        -- intros p Hin Hg. assert (page_ids l ≡ₚ page_ids (m :: r)) as -> by (apply (fmap_Permutation p_id), Hperm). auto.
    + destruct (normalize _ None) as [d'|] eqn:En.
      * exfalso. apply normal_list_order in En as [l Hl]; [|done..]. by apply order_accepts in Hl as [? _].
      * right. split; [|done]. destruct (op_action op); try done; destruct (Hnd (Huniq ltac:(done))).
Qed.
End Apply.

(** ** An example *)

Definition example_page (id : string) (parent : option string) (text : string) : page :=
  Page id parent id (VDict [("json", VNone); ("html", VStr EmptyString); ("md", VStr text)]) (VList []) 3 0 false None.

(** Pages b and c under a, and d under b, in the order they were made *)
Definition example_pages : list page :=
  [example_page main None "first"; example_page "a" None "of a"; example_page "b" (Some "a") "of b";
   example_page "c" (Some "a") "of c"; example_page "d" (Some "b") "of d"].

Definition example_normalize (data : note_data) : note_data :=
  match normalize_pages (λ s, s) (λ _, []) (λ _, "?") (λ _, "0.0") (Some data) (Some "Title") with Ok d => d | Err _ => data end.

Definition example_note : note_data := Eval vm_compute in example_normalize (NoteData example_pages [("pages_revision", VInt 4)]).

Definition example_operation (action : page_action) (page_id : string) (new_id : option string) : NotePageOperation :=
  PageOperation action (Some page_id) new_id None None None None 4.

Definition example_apply : NotePageOperation → res note_data :=
  apply_page_operation (λ s, s) (λ _, []) (λ _, "?") (λ _, "0.0") (Some example_note).

Definition outline_of (d : note_data) : list (string * option string) := map (λ p, (p_id p, p_parent p)) (d_pages d).

Lemma example_normal : normal (λ _, "?") example_note.
Proof.
  apply (normalize_normal (λ s, s) (λ _, []) (λ _, "?") (λ _, "0.0")
           (Some (NoteData example_pages [("pages_revision", VInt 4)])) (Some "Title")). vm_compute. reflexivity.
Qed.

(** Deleting page b moves d up to a; the outline of the note is main, a with d and c. *)
Lemma page_operations_edit_the_tree_witness :
  let op := example_operation DeletePage "b" None in
  outline_of <$> example_apply op = Ok [(main, None); ("a", None); ("d", Some "a"); ("c", Some "a")] ∧
  ∃ d', example_apply op = Ok d' ∧ page_tree (d_pages d') ∧
    (∀ q, children (d_pages d') q = siblings_after op (d_pages example_note) q) ∧
    (∀ p, p ∈ d_pages example_note → ¬ gone op p → ∃ p', p' ∈ d_pages d' ∧ same_text p p') ∧
    (∀ p, p ∈ d_pages example_note → gone op p → p_id p ∉ page_ids (d_pages d')) ∧
    next_revision (pages_revision example_note) (pages_revision d').
Proof.
  intros op. split; [vm_compute; reflexivity|].
  pose proof (page_operations_edit_the_tree (λ s, s) (λ _, []) (λ _, "?") (λ _, "0.0") op example_note example_normal) as H.
  fold (example_apply op) in H.
  destruct (operate op example_note) as [[l1|]|e] eqn:Ho; [|vm_compute in Ho; discriminate Ho..].
  destruct (example_apply op) as [d'|e] eqn:Ha; [|vm_compute in Ha; discriminate Ha].
  exists d'. split; [reflexivity|exact H].
Defined.

(** A copy takes its place behind the branch, with ids derived from the new one. *)
Example duplicate_takes_the_branch :
  let op := example_operation DuplicatePage "b" (Some "01234567-89ab-cdef-0123-456789abcdef") in
  (λ d, map p_parent (d_pages d)) <$> example_apply op =
  Ok [None; None; Some "a"; Some "b"; Some "a"; Some "01234567-89ab-cdef-0123-456789abcdef"; Some "a"].
Proof. vm_compute. reflexivity. Qed.

(** A page whose id has the urn form is created, and no document id stands for it. *)
Example urn_page_has_no_document :
  let id := "urn:uuid:01234567-89ab-cdef-0123-456789abcdef" in
  let d := example_apply (PageOperation CreatePage None (Some id) None None (Some "New") None 4) in
  (λ d, existsb (has_id id) (d_pages d)) <$> d = Ok true ∧
  (d ← d; document_page (λ s, s) (λ _, []) (λ _, "?") (λ _, "0.0") (Some d) ("note:n:page:" +:+ id +:+ ":0"))
  = Err (ValueError "Invalid note document ID").
Proof. vm_compute. split; reflexivity. Qed.
