(* ===== verification/Notes.v ===== *)
(** * Notes: the table of models/notes.py ([NoteTable]) and the tools of tools/builtin.py
    that read and edit a note.

    The methods are programs of [Interleave]: a select or a transaction is one step, and
    other requests may run between two of them.  Access grants and pins are left out;
    forms are as pydantic validated them. *)

From S2P Require Import Prelude PyVal JsonDump Interleave NotePages.
From stdpp Require Import gmap strings.
From Stdlib Require Import Ascii SpecFloat.

Local Open Scope Z_scope.

(** ** Rows and forms *)

(** The title may be null in the database. *)
Record note_row := NoteRow {
  n_user : string; n_title : option string; n_data : option note_data; n_meta : option pydict; n_created : Z; n_updated : Z }.

(** [NoteModel], without its grants *)
Record NoteModel := Model {
  m_id : string; m_user : string; m_title : string; m_data : note_data; m_meta : option pydict; m_created : Z; m_updated : Z }.

Record NoteForm := Form { fo_title : string; fo_data : option pydict; fo_meta : option pydict }.

(** [NoteUpdateForm]: [uf_title], [uf_data] and [uf_meta] are [None] when they were not sent. *)
Record NoteUpdateForm := UpdateForm {
  uf_title : option (option string); uf_data : option (option pydict); uf_meta : option (option pydict);
  uf_page_id : option string; uf_page_revision : option Z; uf_page_generation : option Z;
  uf_page_operation : option NotePageOperation }.

(** What was committed, in order: the history of the table, which no code reads *)
Inductive event :=
| Inserted (id : string) (row : note_row)
| Updated (id : string) (form : NoteUpdateForm) (now : Z)
| Deleted (id : string).

Record world := World { w_notes : gmap string note_row; w_now : Z; w_drawn : nat; w_log : list event }.

Section Notes.
Context (markdown : string → string) (links : string → list (string * string)).
Context (repr_other : pyval → string) (float_repr : spec_float → string) (dumps_indented : pyval → string).
Context (uuid4 : nat → string).

Notation normalize := (normalize_pages markdown links repr_other float_repr).
Notation sanitize := (sanitize_note_data repr_other dumps_indented).
Notation get_page := (get_page markdown links repr_other float_repr).

(** [_to_note_model]: pydantic refuses a null title. *)
Definition to_note_model (id : string) (row : note_row) : res NoteModel :=
  match n_title row with
  | None => Err (ValueError "ValidationError")
  | Some title =>
      data ← normalize (sanitize (n_data row)) (Some title);
      Ok (Model id (n_user row) title data (n_meta row) (n_created row) (n_updated row))
  end.

(** [get_note_by_id] *)
Definition get_note_by_id (id : string) : prog world (option NoteModel) :=
  row ← query (λ w, w_notes w !! id);
  match row with None => mret None | Some row => Some <$> lift (to_note_model id row) end.

(** [insert_new_note] *)
Definition insert_new_note (user_id : string) (form : NoteForm) : prog world NoteModel :=
  data ← lift (normalize (sanitize (NoteData [] <$> fo_data form)) (Some (fo_title form)));
  idn ← perform (λ w,
    let id := uuid4 (w_drawn w) in
    let row := NoteRow user_id (Some (fo_title form)) (Some data) (fo_meta form) (w_now w) (w_now w) in
    match w_notes w !! id with
    | Some _ => (Err IntegrityError, World (w_notes w) (w_now w) (S (w_drawn w)) (w_log w))
    | None => (Ok (id, row), World (<[id := row]> (w_notes w)) (w_now w) (S (w_drawn w)) (w_log w ++ [Inserted id row]))
    end);
  lift (to_note_model idn.1 idn.2).

(** [delete_note_by_id] *)
Definition delete_note_by_id (id : string) : prog world bool :=
  perform (λ w, (Ok true, World (delete id (w_notes w)) (w_now w) (w_drawn w) (w_log w ++ [Deleted id]))).

(** *** Updates *)

Definition incoming (form : NoteUpdateForm) : pydict := default [] (default None (uf_data form)).
Definition is_page_key (k : string) : bool := bool_decide (k ∈ ["content"; "versions"; "files"]).

Definition edited_page (form : NoteUpdateForm) : option string :=
  match uf_page_id form with
  | Some id => if Str.is_empty id then None else Some id
  | None => None
  end.

(** [form_data.page_id or ('main' if not {'content', 'versions'} & incoming.keys() else None)] *)
Definition page_to_edit (form : NoteUpdateForm) : option string :=
  match edited_page form with
  | Some id => Some id
  | None => if dict_has "content" (incoming form) || dict_has "versions" (incoming form) then None else Some main
  end.

(** The data of the row after the form *)
Definition new_data (form : NoteUpdateForm) (row : note_row) : res note_data :=
  d ← normalize (sanitize (n_data row)) (n_title row);
  d ← match uf_page_operation form with
      | Some op => apply_page_operation markdown links repr_other float_repr (Some d) op
      | None => Ok d
      end;
  d ← (if existsb is_page_key (dict_keys (incoming form))
       then update_page_content markdown links repr_other float_repr (Some d) (page_to_edit form) (incoming form)
              (uf_page_generation form) (uf_page_revision form)
       else Ok d);
  let rest := List.filter (λ kv, negb (is_page_key kv.1)) (incoming form) in
  normalize (Some (NoteData (d_pages d) (dict_update (d_fields d) rest))) (default (n_title row) (uf_title form)).

(** One pass of the loop: the row that is to replace [row] *)
Definition update_row (form : NoteUpdateForm) (now : Z) (row : note_row) : res note_row :=
  data ← new_data form row;
  Ok (NoteRow (n_user row) (default (n_title row) (uf_title form)) (Some data)
        (match uf_meta form with Some meta => Some (dict_update (default [] (n_meta row)) (default [] meta)) | None => n_meta row end)
        (n_created row) (Z.max now (n_updated row + 1))).

(** The update where [updated_at] is as it was read; the rows it changed *)
Definition compare_and_set (id : string) (form : NoteUpdateForm) (now previous : Z) (row : note_row) : st world nat := λ w,
  match w_notes w !! id with
  | Some current =>
      if n_updated current =? previous
      then (Ok 1%nat, World (<[id := row]> (w_notes w)) (w_now w) (w_drawn w) (w_log w ++ [Updated id form now]))
      else (Ok O, w)
  | None => (Ok O, w)
  end.

Fixpoint update_loop (tries : nat) (id : string) (form : NoteUpdateForm) : prog world (option NoteModel) :=
  match tries with
  | O => fail (NotePageConflict "Note changed while saving. Please try again")
  | S tries =>
      read ← query (λ w, (w_notes w !! id, w_now w));
      match read with
      | (None, _) => mret None
      | (Some row, now) =>
          row' ← lift (update_row form now row);
          rowcount ← perform (compare_and_set id form now (n_updated row) row');
          if (rowcount =? 0)%nat then update_loop tries id form else get_note_by_id id
      end
  end.

(** [update_note_by_id] *)
Definition update_note_by_id (id : string) (form : NoteUpdateForm) : prog world (option NoteModel) :=
  if dict_has "pages" (incoming form) || dict_has "pages_revision" (incoming form)
  then fail (ValueError "Use page operations instead of replacing all pages")
  else update_loop 8 id form.
End Notes.
