(* ===== verification/NotesProps.v ===== *)
(** * Properties of the notes table: updates of a note that run at the same time have the
    effect of one after the other. *)

From S2P Require Import Prelude PyVal JsonDump Interleave NotePages NotePagesProps NotePageOpsProps Notes.
From stdpp Require Import gmap strings functions.
From Stdlib Require Import Ascii SpecFloat.

Local Open Scope Z_scope.

(** ** Requests *)

Inductive request :=
| Insert (user_id : string) (form : NoteForm)
| Update (id : string) (form : NoteUpdateForm)
| Delete (id : string).

Inductive answer := Noted (note : option NoteModel) | Removed (b : bool).

Lemma omap_pointwise {A B} (f g : A → option B) (l : list A) : (∀ x, x ∈ l → f x = g x) → omap f l = omap g l.
Proof.
  induction l as [|x l IH]; intros H; [done|]. cbn. rewrite (H x) by left. rewrite IH; [done|]. intros; apply H; by right.
Qed.

(** One more value *)
Lemma omap_update {A B} (f : nat → A) (g : A → option B) i a b n : (i < n)%nat → g (f i) = None → g a = Some b →
  omap (M:=list) (λ j, g ((<[i := a]> f : nat → A) j)) (seq 0 n) ≡ₚ omap (M:=list) (λ j, g (f j)) (seq 0 n) ++ [b].
Proof.
  intros Hi Hf Ha. replace n with (i + S (n - S i))%nat by lia. rewrite seq_app, !omap_app. cbn [seq].
  cbn [omap list_omap]. rewrite Nat.add_0_l, fn_lookup_insert, Hf, Ha.
  assert (H : ∀ k m, (∀ j, j ∈ seq k m → j ≠ i) →
    omap (M:=list) (λ j, g ((<[i := a]> f : nat → A) j)) (seq k m) = omap (M:=list) (λ j, g (f j)) (seq k m)).
  { intros k m Hne. apply omap_pointwise. intros j Hj. by rewrite fn_lookup_insert_ne by (apply not_eq_sym; auto). }
  rewrite !H by (intros j Hj%elem_of_seq; lia). rewrite <-app_assoc.
  apply Permutation_app_head. by rewrite Permutation_cons_append.
Qed.

Section Serial.
Context (markdown : string → string) (links : string → list (string * string)).
Context (repr_other : pyval → string) (float_repr : spec_float → string) (dumps_indented : pyval → string).
Context (uuid4 : nat → string).
Hypothesis uuid_inj : ∀ n m, uuid4 n = uuid4 m → n = m.

Notation update_row := (update_row markdown links repr_other float_repr dumps_indented).
Notation get_note_by_id := (get_note_by_id markdown links repr_other float_repr dumps_indented).
Notation update_loop := (update_loop markdown links repr_other float_repr dumps_indented).

Definition serve (r : request) : prog world answer :=
  match r with
  | Insert user_id form => Noted ∘ Some <$> insert_new_note markdown links repr_other float_repr dumps_indented uuid4 user_id form
  | Update id form => Noted <$> update_note_by_id markdown links repr_other float_repr dumps_indented id form
  | Delete id => Removed <$> delete_note_by_id id
  end.

(** The table after an event that runs alone *)
Definition apply_event (t : option (gmap string note_row)) (e : event) : option (gmap string note_row) :=
  t ← t;
  match e with
  | Inserted id row => if t !! id then None else Some (<[id := row]> t)
  | Updated id form now =>
      row ← t !! id;
      match update_row form now row with Ok row' => Some (<[id := row']> t) | Err _ => None end
  | Deleted id => Some (delete id t)
  end.
Definition replay (log : list event) (t : gmap string note_row) : option (gmap string note_row) :=
  foldl apply_event (Some t) log.

Lemma replay_snoc log e t : replay (log ++ [e]) t = apply_event (replay log t) e.
Proof. unfold replay. by rewrite foldl_app. Qed.

(** The event of a request *)
Definition event_of (r : request) (e : event) : Prop :=
  match r, e with
  | Insert user_id form, Inserted _ row => n_user row = user_id ∧ n_title row = Some (fo_title form)
  | Update id form, Updated id' form' _ => id' = id ∧ form' = form
  | Delete id, Deleted id' => id' = id
  | _, _ => False
  end.

(** *** Invariant and guarantee *)

(** Ids that are not drawn any more *)
Definition past (w : world) (id : string) : Prop := ∀ n, (w_drawn w <= n)%nat → id ≠ uuid4 n.

Definition newer (row row' : note_row) : Prop := row = row' ∨ n_updated row < n_updated row'.

Context (t0 : gmap string note_row).

Definition ok (w : world) : Prop :=
  (∀ id row, w_notes w !! id = Some row → past w id) ∧ replay (w_log w) t0 = Some (w_notes w).

Definition later (w w' : world) : Prop :=
  (w_drawn w <= w_drawn w')%nat ∧
  ∀ id row', past w id → w_notes w' !! id = Some row' → ∃ row, w_notes w !! id = Some row ∧ newer row row'.

Lemma past_id_grows w w' id : (w_drawn w <= w_drawn w')%nat → past w id → past w' id.
Proof. intros Hd Hp n Hn. apply Hp. lia. Qed.

#[export] Instance later_preorder : PreOrder later.
Proof.
  split.
  - intros w. split; [lia|]. intros id row' _ H. exists row'. split; [done|by left].
  - intros w1 w2 w3 [Hd1 H1] [Hd2 H2]. split; [lia|]. intros id row3 Hp Hrow3.
    destruct (H2 id row3) as (row2 & Hrow2 & H23); [by eapply past_id_grows|done|].
    destruct (H1 id row2 Hp Hrow2) as (row1 & Hrow1 & H12). exists row1. split; [done|].
    destruct H12 as [->|H12], H23 as [->|H23]; [by left|right..]; lia.
Qed.

(** A program: its request and its event; it commits once at most. *)
Notation state := (option request * option event)%type.

Definition commits (s s' : state) (w w' : world) : Prop :=
  (s' = s ∧ w_log w' = w_log w) ∨
  ∃ r e, s = (Some r, None) ∧ s' = (Some r, Some e) ∧ event_of r e ∧ w_log w' = w_log w ++ [e].

Lemma commits_refl s w : commits s s w w.
Proof. by left. Qed.

Notation wp := (wp ok later commits).

(** The events of the programs, in an order that the log gives *)
Definition logged (requests : list request) (w : world) (σ : nat → state) : Prop :=
  (∀ i, (σ i).1 = requests !! i) ∧ (∀ i e, (σ i).2 = Some e → ∃ r, requests !! i = Some r ∧ event_of r e) ∧
  w_log w ≡ₚ omap (M:=list) (λ i, (σ i).2) (seq 0 (length requests)).

Lemma logged_step requests i s' w w' σ : commits (σ i) s' w w' → logged requests w σ → logged requests w' (<[i := s']> σ).
Proof.
  intros Hc (Hreq & Hev & Hlog). destruct Hc as [[-> Hl]|(r & e & Hs & -> & He & Hl)].
  - assert (Hsame : ∀ j, (<[i := σ i]> σ : nat → state) j = σ j).
    { intros j. destruct (decide (i = j)) as [<-|Hij]; by rewrite ?fn_lookup_insert, ?fn_lookup_insert_ne. }
    split_and!; [intros j; by rewrite Hsame|intros j e; rewrite Hsame; auto|]. rewrite Hl, Hlog.
    by rewrite (omap_pointwise (λ j, (σ j).2) (λ j, ((<[i := σ i]> σ : nat → state) j).2)) by (intros j _; by rewrite Hsame).
  - assert (Hr : requests !! i = Some r) by (by rewrite <-Hreq, Hs). split_and!.
    + intros j. destruct (decide (i = j)) as [<-|Hij]; [by rewrite fn_lookup_insert|by rewrite fn_lookup_insert_ne].
    + intros j e'. destruct (decide (i = j)) as [<-|Hij]; [|rewrite fn_lookup_insert_ne by done; auto].
      rewrite fn_lookup_insert. intros [= <-]. eauto.
    + rewrite Hl, Hlog. symmetry. apply (omap_update σ snd); [by eapply lookup_lt_Some|by rewrite Hs|done].
Qed.

(** *** Programs *)

(** A note that is answered was committed. *)
Definition answered (r : res answer) (s : state) (w : world) : Prop :=
  match r with
  | Ok (Noted (Some _)) | Ok (Removed _) => is_Some s.2
  | _ => True
  end.

Definition found {A} (f : A → bool) (r : res A) (s : state) (w : world) : Prop :=
  match r with Ok a => f a = true → is_Some s.2 | Err _ => True end.

Lemma wp_lift_bind {A B} (Q : res B → state → world → Prop) s (r : res A) (f : A → prog world B) w :
  match r with Ok a => wp Q s (f a) w | Err e => Q (Err e) s w end → wp Q s (lift r ≫= f) w.
Proof. by destruct r. Qed.

(** A statement that commits an event *)
Lemma wp_commit_note {A} (Q : res A → state → world → Prop) s (m : st world A) w :
  (∀ w1, later w w1 → ok w1 → ok (m w1).2 ∧ later w1 (m w1).2 ∧ ∃ s', commits s s' w1 (m w1).2 ∧ Q (m w1).1 s' (m w1).2) →
  wp Q s (perform m) w.
Proof. intros Hm w1 HR HI. destruct (Hm w1 HR HI) as (? & ? & s' & ? & ?). split_and!; [done..|]. by exists s'. Qed.

Lemma wp_get id e r w : wp (found (λ n : option NoteModel, true)) (Some r, Some e) (get_note_by_id id) w.
Proof.
  unfold Notes.get_note_by_id. apply (wp_bind ok later commits). apply (wp_query ok later commits commits_refl).
  intros w1 _ _. destruct (w_notes w1 !! id) as [row|]; [|by exists e]. cbn.
  destruct (to_note_model _ _ _ _ _ _ row); [by exists e|done].
Qed.

Lemma ok_write w id row e now : ok w → is_Some (w_notes w !! id) → apply_event (Some (w_notes w)) e = Some (<[id := row]> (w_notes w)) →
  ok (World (<[id := row]> (w_notes w)) now (w_drawn w) (w_log w ++ [e])).
Proof.
  intros [Hp Hr] [old Hold] He. split; [|by cbn [w_log w_notes]; rewrite replay_snoc, Hr].
  cbn [w_notes]. intros i r. rewrite lookup_insert_Some. intros [[<- _]|[_ Hi]]; [by eapply Hp|by eapply Hp].
Qed.

Lemma wp_update tries id form w :
  wp (found (λ n : option NoteModel, if n then true else false)) (Some (Update id form), None) (update_loop tries id form) w.
Proof.
  revert w. induction tries as [|tries IH]; intros w; [done|]. cbn [Notes.update_loop].
  apply (wp_bind ok later commits). apply (wp_query ok later commits commits_refl). intros w1 _ Hok1.
  destruct (w_notes w1 !! id) as [row|] eqn:Hrow; [|done].
  apply wp_lift_bind. destruct (update_row form (w_now w1) row) as [row'|e] eqn:Hup; [|done].
  apply (wp_bind ok later commits). apply wp_commit_note. intros w2 [Hd Hlater] Hok2. unfold compare_and_set.
  destruct (w_notes w2 !! id) as [cur|] eqn:Hcur; [|by split_and!; [done|done|exists (Some (Update id form), None); split; [by left|]; apply IH]].
  destruct (Z.eqb_spec (n_updated cur) (n_updated row)) as [Heq|];
    [|by split_and!; [done|done|exists (Some (Update id form), None); split; [by left|]; apply IH]].
  assert (cur = row) as ->.
  { destruct (Hlater id cur) as (old & Hold & Hnew); [by eapply Hok1|done|].
    rewrite Hrow in Hold. injection Hold as <-. destruct Hnew as [->|]; [done|lia]. }
  cbn [fst snd]. split_and!.
  - apply ok_write; [done|by rewrite Hcur|]. cbn. by rewrite Hcur; cbn; rewrite Hup.
  - split; [done|]. cbn. intros i r Hp. rewrite lookup_insert_Some. intros [[<- <-]|[_ Hi]].
    + exists row. split; [done|]. right. unfold Notes.update_row in Hup. apply bind_Ok in Hup as (data & _ & [= <-]). cbn. lia.
    + exists r. split; [done|by left].
  - eexists. split; [right; exists (Update id form), (Updated id form (w_now w1)); split_and!; done|].
    cbn [fst snd Nat.eqb]. eapply (wp_mono ok later commits), wp_get. intros [n|x] s' w'; [|done]. cbn. auto.
Qed.

Lemma wp_insert_note user_id form w :
  wp (found (λ n : NoteModel, true)) (Some (Insert user_id form), None)
    (insert_new_note markdown links repr_other float_repr dumps_indented uuid4 user_id form) w.
Proof.
  unfold insert_new_note. apply wp_lift_bind. destruct (normalize_pages _ _ _ _ _ _) as [data|e]; [|done].
  apply (wp_bind ok later commits). apply wp_commit_note. intros w1 _ [Hpast Hrep].
  assert (Hfresh : ∀ w', w_drawn w' = S (w_drawn w1) → past w' (uuid4 (w_drawn w1))).
  { intros w' Hd n Hn Heq. rewrite Hd in Hn. apply uuid_inj in Heq. lia. }
  assert (Hold : ∀ w', w_drawn w' = S (w_drawn w1) → ∀ id, past w1 id → past w' id).
  { intros w' Hd id. apply past_id_grows. lia. }
  cbv zeta. destruct (w_notes w1 !! uuid4 (w_drawn w1)) as [row|] eqn:Hid; cbn [fst snd].
  - split_and!; [split; [|done]; cbn; intros id r Hr; eapply Hold; [done|by eapply Hpast]| |].
    + split; [cbn; lia|]. cbn. intros id r _ Hr. exists r. split; [done|by left].
    + eexists. split; [by left|done].
  - set (row := NoteRow _ _ _ _ _ _). split_and!.
    + split.
      * cbn. intros id r. rewrite lookup_insert_Some. intros [[<- _]|[_ Hr]]; [by apply Hfresh|]. eapply Hold; [done|by eapply Hpast].
      * cbn [w_log w_notes]. rewrite replay_snoc, Hrep. cbn. by rewrite Hid.
    + split; [cbn; lia|]. cbn. intros id r Hp. rewrite lookup_insert_Some. intros [[<- _]|[_ Hr]].
      * exfalso. by apply (Hp (w_drawn w1)).
      * exists r. split; [done|by left].
    + eexists. split; [right; exists (Insert user_id form), (Inserted (uuid4 (w_drawn w1)) row); split_and!; done|].
      destruct (to_note_model _ _ _ _ _ _ _); cbn; [by eexists|done].
Qed.

Lemma wp_delete id w : wp (found (λ b : bool, true)) (Some (Delete id), None) (delete_note_by_id id) w.
Proof.
  apply wp_commit_note. intros w1 _ [Hpast Hrep]. cbn [fst snd]. split_and!.
  - split; cbn [w_notes w_log].
    + intros i r. rewrite lookup_delete_Some. intros [_ Hr]. by eapply Hpast.
    + by rewrite replay_snoc, Hrep.
  - split; [done|]. cbn. intros i r _. rewrite lookup_delete_Some. intros [_ Hr]. exists r. split; [done|by left].
  - eexists. split; [right; exists (Delete id), (Deleted id); split_and!; done|]. cbn. by eexists.
Qed.

Lemma wp_serve r w : wp answered (Some r, None) (serve r) w.
Proof.
  destruct r as [user_id form|id form|id]; cbn [serve]; apply (wp_fmap ok later commits).
  - eapply (wp_mono ok later commits), wp_insert_note. intros [n|e] s w'; cbn; auto.
  - unfold update_note_by_id. destruct (_ || _); [done|].
    eapply (wp_mono ok later commits), wp_update. intros [[n|]|e] s w'; cbn; auto.
  - eapply (wp_mono ok later commits), wp_delete. intros [b|e] s w'; cbn; auto.
Qed.

(** The clock may show anything at any time. *)
Inductive clock_moves : world → world → Prop :=
| clock_set w now : clock_moves w (World (w_notes w) now (w_drawn w) (w_log w)).

Lemma clock_ok w w' : clock_moves w w' → ok w → ok w' ∧ later w w'.
Proof.
  intros [w1 now] [Hp Hr]. split; [split; [done|exact Hr]|]. split; [done|].
  cbn. intros id row _ H. exists row. split; [done|by left].
Qed.
End Serial.

(** C12: Whatever requests run at the same time, and whatever the clock shows: the table is the
    one that the committed requests give when they run alone, one after the other, in the
    order of the log.  A request commits once at most; it has, when it answers with a note
    or a deletion.  No update is lost: each is computed from the row that the one before
    left. *)
Theorem note_updates_are_serial (markdown : string → string) (links : string → list (string * string))
    (repr_other : pyval → string) (float_repr : spec_float → string) (dumps_indented : pyval → string)
    (uuid4 : nat → string) (Huuid : ∀ n m, uuid4 n = uuid4 m → n = m)
    (w0 : world) (Hlog : w_log w0 = []) (Hpast : ∀ id row, w_notes w0 !! id = Some row → past uuid4 w0 id)
    (requests : list request) (w : world) ps
    (Hrun : sys_run clock_moves (w0, map (serve markdown links repr_other float_repr dumps_indented uuid4) requests) (w, ps)) :
  replay markdown links repr_other float_repr dumps_indented (w_log w) (w_notes w0) = Some (w_notes w) ∧
  ∃ σ : nat → option event,
    w_log w ≡ₚ omap (M:=list) σ (seq 0 (length requests)) ∧
    (∀ i e, σ i = Some e → ∃ r, requests !! i = Some r ∧ event_of r e) ∧
    (∀ i a, ps !! i = Some (Done (Ok a)) → match a with Noted (Some _) | Removed _ => is_Some (σ i) | Noted None => True end).
Proof.
  set (t0 := w_notes w0).
  set (I := ok markdown links repr_other float_repr dumps_indented uuid4 t0).
  assert (HI : I w0) by (split; [done|by rewrite Hlog]).
  assert (Hpool : pool_ok I (later uuid4) commits answered (None, None) (logged requests) (w, ps)).
  { assert (Hstart : pool_ok I (later uuid4) commits answered (None, None) (logged requests)
      (w0, map (serve markdown links repr_other float_repr dumps_indented uuid4) requests)).
    { apply pool_start_at with (λ i, (requests !! i, None)); [done|split_and!; cbn; [done|done|]| |].
      + rewrite Hlog. by induction (seq 0 (length requests)).
      + intros i Hi. rewrite length_map in Hi. by rewrite lookup_ge_None_2.
      + intros i p Hp. change (map ?f requests) with (f <$> requests) in Hp. rewrite list_lookup_fmap in Hp.
        destruct (requests !! i) as [r|] eqn:Hr; [|done]. injection Hp as <-. by apply wp_serve. }
    revert Hstart. apply (pool_run I (later uuid4) commits answered clock_moves (None, None) (logged requests)); [..|exact Hrun].
    - intros r s v v' _. by destruct r as [[[?|]|?]|?].
    - intros v v' Hc. by apply clock_ok.
    - intros v v' σ [u now] _. done.
    - intros i s' v v' σ _ _. apply logged_step. }
  destruct Hpool as ([_ Hrep] & σ & (Hreq & Hev & Hperm) & _ & Hps). cbn in *. split; [done|].
  exists (λ i, (σ i).2). split_and!; [done|done|]. intros i a Ha. specialize (Hps i _ Ha). cbn in Hps.
  by destruct a as [[n|]|b].
Qed.

(** *** An example *)

Definition example_uuid (n : nat) : string := "u" +:+ pretty n.

Lemma example_note_uuid_inj n m : example_uuid n = example_uuid m → n = m.
Proof. intros H. unfold example_uuid in H. injection H as H. by apply (inj pretty). Qed.

Definition example_row : note_row :=
  NoteRow "owner" (Some "Note") (Some (NoteData [] [("content", VDict [("md", VStr "text")])])) None 1 1.
Definition example_world : world := World {["n" := example_row]} 5 0 [].

Definition rename_form (title : string) : NoteUpdateForm := UpdateForm (Some (Some title)) None None None None None None.
Definition tag_form (tag : string) : NoteUpdateForm := UpdateForm None None (Some (Some [("tag", VStr tag)])) None None None None.

Definition example_serve : request → prog world answer :=
  serve (λ s, s) (λ _, []) (λ _, "?") (λ _, "0.0") (λ _, "{}") example_uuid.
Definition example_requests : list request :=
  [Update "n" (rename_form "New"); Update "n" (tag_form "red"); Insert "other" (Form "Mine" None None)].

(** Both updates read the note; the second one finds it changed and reads it again. *)
Definition example_schedule : list nat := [0; 1; 0; 1; 2; 1; 1; 0; 1]%nat.
Definition example_end : world * list (prog world answer) :=
  run_schedule example_schedule example_world (map example_serve example_requests).

Lemma note_updates_are_serial_witness :
  (λ r, (n_title r, n_meta r, n_updated r)) <$> w_notes example_end.1 !! "n" = Some (Some "New", Some [("tag", VStr "red")], 6) ∧
  replay (λ s, s) (λ _, []) (λ _, "?") (λ _, "0.0") (λ _, "{}") (w_log example_end.1) {["n" := example_row]}
    = Some (w_notes example_end.1) ∧
  ∃ σ : nat → option event,
    w_log example_end.1 ≡ₚ omap (M:=list) σ (seq 0 3) ∧
    (∀ i e, σ i = Some e → ∃ r, example_requests !! i = Some r ∧ event_of r e) ∧
    (∀ i a, example_end.2 !! i = Some (Done (Ok a)) → match a with Noted (Some _) | Removed _ => is_Some (σ i) | Noted None => True end).
Proof.
  split; [vm_compute; reflexivity|].
  apply (note_updates_are_serial (λ s, s) (λ _, []) (λ _, "?") (λ _, "0.0") (λ _, "{}") example_uuid example_note_uuid_inj
           example_world eq_refl) with (requests := example_requests).
  - intros id row H. change (({["n" := example_row]} : gmap string note_row) !! id = Some row) in H. apply lookup_singleton_Some in H as [<- _]. intros n _ E. discriminate E.
  - rewrite <-(surjective_pairing example_end). exact (run_schedule_ok clock_moves example_schedule example_world (map example_serve example_requests)).
Defined.

(** *** Where the code departs from it *)

(** A form with a null title is accepted, and the note cannot be read afterwards. *)
Example null_title_hides_the_note :
  let form := UpdateForm (Some None) None None None None None None in
  let w := (run_alone (example_serve (Update "n" form)) example_world).2 in
  n_title <$> w_notes w !! "n" = Some None ∧
  (run_alone (get_note_by_id (λ s, s) (λ _, []) (λ _, "?") (λ _, "0.0") (λ _, "{}") "n") w).1 = Err (ValueError "ValidationError").
Proof. vm_compute. split; reflexivity. Qed.
