(* ===== verification/NoteTools.v ===== *)
(** * The tools of tools/builtin.py that read and edit a note for a model: [view_note],
    [write_note] and [replace_note_content], with the operations on its text.

    What a tool answers is a value instead of its JSON text.  Whether the user may read,
    write or attach is asked through arguments; events are left out. *)

From S2P Require Import Prelude PyVal JsonDump Interleave NotePages Notes.
From stdpp Require Import gmap strings.
From Stdlib Require Import Ascii SpecFloat.

Local Open Scope Z_scope.

(** ** Operations on a text *)

(** A range of characters and the text that is to stand there *)
Record range := Range { r_start : nat; r_end : nat; r_text : string }.

(** [content[:start] + text + content[end:]] *)
Definition splice (r : range) (s : string) : string := Str.take (r_start r) s +:+ r_text r +:+ Str.drop (r_end r) s.

(** The ranges are applied from the last to the first. *)
Definition apply_ranges (s : string) (ranges : list range) : string := foldr splice s ranges.

(** Where [find] occurs in [s], which starts at [pos]: the loop over [str.find] *)
Fixpoint find_all (fuel : nat) (find s : string) (pos : nat) : list (nat * nat) :=
  match fuel, s with
  | S fuel, String _ r =>
      let n := String.length find in
      if Str.startswith find s then (pos, pos + n)%nat :: find_all fuel find (Str.drop n s) (pos + n)%nat
      else find_all fuel find r (S pos)
  | _, _ => []
  end.
Definition matches_of (find s : string) : list (nat * nat) := find_all (String.length s) find s O.

(** [isinstance(v, int)] *)
Definition int_of (v : pyval) : option Z :=
  match v with VInt z => Some z | VBool b => Some (Z.b2z b) | _ => None end.

Inductive planned (A : Type) :=
| Planned (a : A)
| Refused (code : string).
Arguments Planned {A} a.
Arguments Refused {A} code.

#[export] Instance planned_ret : MRet planned := λ A a, Planned a.
#[export] Instance planned_bind : MBind planned := λ A B f m, match m with Planned a => f a | Refused code => Refused code end.

Definition require (b : bool) (code : string) : planned unit := if b then Planned tt else Refused code.

(** [type(occurrence) is int and occurrence >= 0], or None *)
Definition valid_occurrence (v : pyval) : bool := match v with VNone => true | VInt z => 0 <=? z | _ => false end.

(** The matches that an operation with [find] replaces *)
Definition find_ranges (current : string) (operation : pydict) (text : string) : planned (list range) :=
  _ ← require (negb (dict_has "start" operation || dict_has "end" operation)) "invalid_operation";
  match dget operation "find" with
  | VStr find =>
      if Str.is_empty find then Refused "invalid_find"
      else
        let occurrence := dget operation "occurrence" in
        match dgetd operation "replace_all" (VBool false) with
        | VBool replace_all =>
            _ ← require (valid_occurrence occurrence && negb (replace_all && negb (is_none occurrence))) "invalid_occurrence";
            let found := matches_of find current in
            _ ← require (negb (length found =? 0)%nat) "text_not_found";
            chosen ← match occurrence with
                     | VInt z => match found !! Z.to_nat z with Some m => Planned [m] | None => Refused "invalid_occurrence" end
                     | _ => if (1 <? length found)%nat && negb replace_all then Refused "ambiguous_match" else Planned found
                     end;
            Planned (map (λ m, Range m.1 m.2 text) chosen)
        | _ => Refused "invalid_occurrence"
        end
  | _ => Refused "invalid_find"
  end.

(** [current[start:end] != expected] *)
Definition expected_text (current : string) (first last : nat) (expected : pyval) : bool :=
  match expected with VNone => true | v => veq_str v (Str.take (last - first) (Str.drop first current)) end.

(** The range of an operation with [start] and [end] *)
Definition given_range (current : string) (operation : pydict) (text : string) : planned (list range) :=
  match int_of (dget operation "start"), int_of (dget operation "end") with
  | Some first, Some last =>
      _ ← require ((0 <=? first) && (first <=? last) && (last <=? Z.of_nat (String.length current))) "range_out_of_bounds";
      _ ← require (expected_text current (Z.to_nat first) (Z.to_nat last) (dget operation "expected")) "expected_mismatch";
      Planned [Range (Z.to_nat first) (Z.to_nat last) text]
  | _, _ => Refused "invalid_range"
  end.

(** The whole text, or the ranges, of a list of operations *)
Inductive change := Whole (text : string) | Parts (ranges : list range).

Fixpoint plan_operations (current : string) (count : nat) (operations : list pyval) (ranges : list range) : planned change :=
  match operations with
  | [] => Planned (Parts ranges)
  | VDict operation :: operations =>
      let action := dget operation "action" in
      let replacement := dget operation "content" in
      if veq_str action "replace" then
        if negb (count =? 1)%nat then Refused "invalid_operations"
        else match replacement with VStr text => Planned (Whole text) | _ => Refused "invalid_content" end
      else if negb (vin_strs action ["replace_range"; "replace_text"]) then Refused "invalid_action"
      else
        match replacement with
        | VStr text =>
            new ← if veq_str action "replace_text" && dict_has "find" operation
                  then find_ranges current operation text
                  else given_range current operation text;
            plan_operations current count operations (ranges ++ new)
        | _ => Refused "invalid_content"
        end
  | _ :: _ => Refused "invalid_operation"
  end.

(** [range_operations.sort(key=lambda operation: operation['start'])] *)
Definition sort_ranges (l : list range) : list range := py_sorted (λ a b, (r_start a <=? r_start b)%nat) l.

Fixpoint disjoint_from (previous_end : nat) (l : list range) : bool :=
  match l with [] => true | r :: l => (previous_end <=? r_start r)%nat && disjoint_from (r_end r) l end.

(** The new text of the page, and the ranges that were replaced *)
Definition plan_content (current : string) (content operations : pyval) : planned (pyval * list range) :=
  match operations with
  | VNone => match content with VNone => Refused "content_required" | _ => Planned (content, []) end
  | VList [] => Refused "invalid_operations"
  | VList l =>
      c ← plan_operations current (length l) l [];
      match c with
      | Whole text => Planned (VStr text, [])
      | Parts ranges =>
          let sorted := sort_ranges ranges in
          _ ← require (disjoint_from O sorted) "overlapping_operations";
          Planned (match sorted with [] => content | _ => VStr (apply_ranges current sorted) end, sorted)
      end
  | _ => Refused "invalid_operations"
  end.

(** ** The tools *)

(** The caller: [__user__] *)
Record caller := Caller { ca_id : string; ca_role : string }.

(** [request.state.note_page_revisions], by user, note and page *)
Notation revisions := (gmap (string * string * string) Z).

Inductive tool_answer :=
| Failed (code : string)
| Viewed (note : NoteModel) (content : pyval) (page_id : option string)
| Written (note : NoteModel)
| Replaced (note : NoteModel) (page_id : string) (ranges : list range).

Section Tools.
Context (markdown : string → string) (links : string → list (string * string)).
Context (repr_other : pyval → string) (float_repr : spec_float → string) (dumps_indented : pyval → string).
Context (uuid4 : nat → string).
Context (may : string → string → NoteModel → bool) (may_attach : string → option NoteModel → list pyval → bool).

Notation get_page := (get_page markdown links repr_other float_repr).
Notation get_note_by_id := (get_note_by_id markdown links repr_other float_repr dumps_indented).
Notation update_note_by_id := (update_note_by_id markdown links repr_other float_repr dumps_indented).

(** [user.role == 'admin'], the owner, or a grant with the permission *)
Definition allowed (c : caller) (permission : string) (note : NoteModel) : bool :=
  String.eqb (ca_role c) "admin" || String.eqb (m_user note) (ca_id c) || may (ca_id c) permission note.

(** [except NotePageConflict] and [except Exception] *)
Definition code_of (e : exn) : tool_answer :=
  match e with NotePageConflict _ => Failed "page_conflict" | _ => Failed "unexpected_error" end.

Definition see_page (c : caller) (note : NoteModel) (seen : revisions) (p : page) : revisions :=
  <[(ca_id c, m_id note, p_id p) := p_revision p]> seen.

Definition nonblank (s : option string) : bool := match s with Some s => negb (Str.is_empty s) | None => false end.

(** What [view_note] reads of the note it got *)
Definition view_of (c : caller) (note : NoteModel) (page_id : option string) (seen : revisions) : res (tool_answer * revisions) :=
  if nonblank page_id || (length (d_pages (m_data note)) =? 1)%nat then
    p ← get_page (Some (m_data note)) page_id;
    content ← vgetd (p_content p) "md" (VStr EmptyString);
    Ok (Viewed note content (Some (p_id p)), see_page c note seen p)
  else
    content ← vgetd (dget (d_fields (m_data note)) "content") "md" (VStr EmptyString);
    Ok (Viewed note content None, foldl (see_page c note) seen (d_pages (m_data note))).

(** [view_note] *)
Definition view_note (c : caller) (note_id : string) (page_id : option string) (seen : revisions) : prog world (tool_answer * revisions) :=
  try_except (
    note ← get_note_by_id note_id;
    match note with
    | None => mret (Failed "not_found", seen)
    | Some note => if allowed c "read" note then lift (view_of c note page_id seen) else mret (Failed "access_denied", seen)
    end) (λ e, mret (Failed "unexpected_error", seen)).

(** [write_note] *)
Definition write_note (c : caller) (title content : string) : prog world tool_answer :=
  try_except (
    let md := VDict [("md", VStr content)] in
    files ← lift (get_content_files markdown links md);
    if may_attach (ca_id c) None files
    then Written <$> insert_new_note markdown links repr_other float_repr dumps_indented uuid4 (ca_id c) (Form title (Some [("content", md)]) None)
    else mret (Failed "not_attached")) (λ e, mret (Failed "unexpected_error")).

Definition edit_content (content : pyval) : pyval := VDict [("json", VNone); ("html", VStr EmptyString); ("md", content)].

(** [NoteUpdateForm( **update_data )] *)
Definition edit_form (title : option string) (page_id : string) (read_revision : Z) (content : pyval) : NoteUpdateForm :=
  UpdateForm (if nonblank title then Some title else None) (Some (Some [("content", edit_content content)])) None
    (Some page_id) (Some read_revision) None None.

(** The page to edit, the revision that was read and the edit, from the note as it is now.
    The markdown of a page is a text, as [update_page_content] and [sanitize_note_data] see to. *)
Definition prepare_edit (c : caller) (note : NoteModel) (page_id : option string) (content operations : pyval) (seen : revisions)
    : res (planned (page * Z * (pyval * list range))) :=
  if negb (allowed c "write" note) then Ok (Refused "write_access_denied")
  else
    p ← get_page (Some (m_data note)) page_id;
    match seen !! (ca_id c, m_id note, p_id p) with
    | None => Ok (Refused "read_required")
    | Some read =>
        if negb (read =? p_revision p) then conflict "Page changed since you read it. Use view_note again before editing"
        else
          md ← vget (p_content p) "md";
          current ← match operations with VNone => Ok EmptyString | _ => as_text (por md (VStr EmptyString)) AttributeError end;
          Ok (plan ← plan_content current content operations; Planned (p, read, plan))
    end.

(** [replace_note_content]; the revision after the edit counts as read *)
Definition replace_note_content (c : caller) (note_id : string) (page_id : option string) (title : option string)
    (content operations : pyval) (seen : revisions) : prog world (tool_answer * revisions) :=
  try_except (
    note ← get_note_by_id note_id;
    match note with
    | None => mret (Failed "not_found", seen)
    | Some note =>
        edit ← lift (prepare_edit c note page_id content operations seen);
        match edit with
        | Refused code => mret (Failed code, seen)
        | Planned (p, read, (text, ranges)) =>
            files ← lift (get_content_files markdown links (edit_content text));
            if may_attach (ca_id c) (Some note) files then
              updated ← update_note_by_id note_id (edit_form title (p_id p) read text);
              match updated with
              | None => mret (Failed "update_failed", seen)
              | Some updated =>
                  new ← lift (get_page (Some (m_data updated)) (Some (p_id p)));
                  mret (Replaced updated (p_id p) ranges, see_page c note seen new)
              end
            else mret (Failed "not_attached", seen)
        end
    end) (λ e, mret (code_of e, seen)).
End Tools.
