(* ===== verification/NoteToolsProps.v ===== *)
(** * Properties of the note tools: a revision stands for one text of a page, so a model
    edits the text that it read, whatever happens to the note in between. *)

From S2P Require Import Prelude PyVal JsonDump Interleave NotePages NotePagesProps NotePageOpsProps Notes NoteTools.
From stdpp Require Import gmap strings.
From Stdlib Require Import Ascii SpecFloat.

Local Open Scope Z_scope.

(** ** Ranges *)

(** The text from [pos] on, copied up to each range *)
Fixpoint spliced (pos : nat) (ranges : list range) (s : string) : string :=
  match ranges with
  | [] => s
  | r :: ranges =>
      Str.take (r_start r - pos) s +:+ r_text r +:+ spliced (r_end r) ranges (Str.drop (r_end r - pos) s)
  end.

(** Ranges in order, apart, and inside a text of length [n] *)
Fixpoint in_order (pos n : nat) (ranges : list range) : Prop :=
  match ranges with
  | [] => (pos <= n)%nat
  | r :: ranges => (pos <= r_start r)%nat ∧ (r_start r <= r_end r)%nat ∧ in_order (r_end r) n ranges
  end.

Lemma in_order_le pos n l : in_order pos n l → (pos <= n)%nat.
Proof. revert pos. induction l as [|r l IH]; intros pos; cbn; [done|]. intros (? & ? & H). apply IH in H. lia. Qed.

Lemma str_take_app n a b : (n <= String.length a)%nat → Str.take n (a +:+ b) = Str.take n a.
Proof.
  revert n. induction a as [|c a IH]; intros n Hn.
  - cbn in Hn. replace n with O by lia. by destruct b.
  - destruct n as [|n]; [done|]. change (Str.take (S n) (String c (a +:+ b)) = Str.take (S n) (String c a)).
    cbn in Hn |- *. f_equal. apply IH. lia.
Qed.

Lemma str_take_past n a b : Str.take (String.length a + n) (a +:+ b) = a +:+ Str.take n b.
Proof.
  induction a as [|c a IH]; [done|].
  change (String c (Str.take (String.length a + n) (a +:+ b)) = String c (a +:+ Str.take n b)). by rewrite IH.
Qed.

Lemma str_take_drop n s : Str.take n s +:+ Str.drop n s = s.
Proof.
  revert s. induction n as [|n IH]; intros s; [by destruct s|]. destruct s as [|c s]; [done|].
  change (String c (Str.take n s +:+ Str.drop n s) = String c s). by rewrite IH.
Qed.

(** Ranges that lie behind [pos] leave the text before it alone. *)
Lemma apply_ranges_prefix a b l : in_order (String.length a) (String.length (a +:+ b)) l →
  apply_ranges (a +:+ b) l = a +:+ spliced (String.length a) l b.
Proof.
  revert a b. induction l as [|r l IH]; intros a b; [done|]. cbn [in_order]. intros (H1 & H2 & H3).
  pose proof (in_order_le _ _ _ H3) as H4. rewrite Str.app_length in H4.
  cbn [apply_ranges foldr spliced]. fold (apply_ranges (a +:+ b) l).
  set (b1 := Str.take (r_end r - String.length a) b). set (b2 := Str.drop (r_end r - String.length a) b).
  assert (Hb : b = b1 +:+ b2) by (by rewrite <-(str_take_drop (r_end r - String.length a) b)).
  assert (Hb1 : String.length b1 = (r_end r - String.length a)%nat) by (unfold b1; rewrite Str.take_length; lia).
  assert (Hab : a +:+ b = (a +:+ b1) +:+ b2) by (rewrite Hb at 1; by rewrite Str.app_assoc).
  assert (Hl : String.length (a +:+ b1) = r_end r) by (rewrite Str.app_length; lia).
  assert (Hin : in_order (String.length (a +:+ b1)) (String.length ((a +:+ b1) +:+ b2)) l) by (rewrite Hl, <-Hab; exact H3).
  rewrite Hab, (IH (a +:+ b1) b2 Hin), Hl.
  unfold splice. rewrite (str_take_app _ (a +:+ b1)) by lia.
  assert (Str.drop (r_end r) ((a +:+ b1) +:+ spliced (r_end r) l b2) = spliced (r_end r) l b2) as ->.
  { rewrite <-Hl at 1. apply Str.drop_app_length. }
  rewrite (Str.app_assoc a). f_equal.
  replace (Str.take (r_start r - String.length a) b) with (Str.take (r_start r - String.length a) b1)
    by (rewrite Hb; rewrite str_take_app by lia; done).
  replace (Str.take (r_start r) (a +:+ b1)) with (Str.take (String.length a + (r_start r - String.length a)) (a +:+ b1)) by (f_equal; lia).
  apply str_take_past.
Qed.

Lemma ranges_are_spliced s l : in_order O (String.length s) l → apply_ranges s l = spliced O l s.
Proof. apply (apply_ranges_prefix EmptyString s l). Qed.

(** *** The ranges of a plan are in order *)

Definition within (n : nat) (r : range) : Prop := (r_start r <= r_end r)%nat ∧ (r_end r <= n)%nat.

Lemma prefix_length p s : String.prefix p s = true → (String.length p <= String.length s)%nat.
Proof.
  revert s. induction p as [|c p IH]; intros s; [cbn; lia|]. destruct s as [|d s]; [done|].
  simpl. destruct (ascii_dec c d); [|done]. intros H. apply IH in H. lia.
Qed.

Lemma drop_length n s : String.length (Str.drop n s) = (String.length s - n)%nat.
Proof. revert s. induction n as [|n IH]; intros [|c s]; cbn; [lia..|apply IH]. Qed.

Lemma find_all_within fuel find s pos m : m ∈ find_all fuel find s pos → (m.1 <= m.2)%nat ∧ (m.2 <= pos + String.length s)%nat.
Proof.
  revert s pos. induction fuel as [|fuel IH]; intros s pos; cbn [find_all]; [by intros ?%elem_of_nil|].
  destruct s as [|c s]; [by intros ?%elem_of_nil|]. destruct (Str.startswith find (String c s)) eqn:E.
  - apply prefix_length in E. intros [->|H]%elem_of_cons; [cbn in *; lia|]. apply IH in H. rewrite drop_length in H. lia.
  - intros H. apply IH in H. cbn. lia.
Qed.

Lemma require_ok b code u : require b code = Planned u → b = true.
Proof. by destruct b. Qed.

Lemma planned_bind_ok {A B} (m : planned A) (f : A → planned B) b : m ≫= f = Planned b → ∃ a, m = Planned a ∧ f a = Planned b.
Proof. destruct m as [a|]; [eauto|done]. Qed.

Lemma find_ranges_within current operation text l : find_ranges current operation text = Planned l →
  Forall (within (String.length current)) l.
Proof.
  unfold find_ranges. intros H. apply planned_bind_ok in H as (_ & _ & H).
  destruct (dget operation "find") as [| | | |find| |]; try done. destruct (Str.is_empty find); [done|].
  destruct (dgetd operation "replace_all" _) as [|all| | | | |]; try done.
  apply planned_bind_ok in H as (_ & _ & H). apply planned_bind_ok in H as (_ & _ & H). apply planned_bind_ok in H as (chosen & Hc & [= <-]).
  assert (Hall : ∀ m, m ∈ chosen → m ∈ matches_of find current).
  { destruct (dget operation "occurrence") as [| |z| | | |]; try (destruct (_ && _); [done|]; injection Hc as <-; done).
    destruct (matches_of find current !! Z.to_nat z) as [m|] eqn:E; [|done]. injection Hc as <-.
    intros m' ->%list_elem_of_singleton. by eapply list_elem_of_lookup_2. }
  apply list.Forall_forall. intros r (m & -> & Hm)%list_elem_of_fmap. apply Hall, find_all_within in Hm. unfold within. cbn. lia.
Qed.

Lemma given_range_within current operation text l : given_range current operation text = Planned l →
  Forall (within (String.length current)) l.
Proof.
  unfold given_range. destruct (int_of _) as [first|]; [|done]. destruct (int_of _) as [last|]; [|done].
  intros H. apply planned_bind_ok in H as (? & Hb%require_ok & H). apply planned_bind_ok in H as (_ & _ & [= <-]).
  rewrite !andb_true_iff, !Z.leb_le in Hb. repeat constructor; cbn; lia.
Qed.

Lemma plan_operations_within current count ops ranges l : Forall (within (String.length current)) ranges →
  plan_operations current count ops ranges = Planned (Parts l) → Forall (within (String.length current)) l.
Proof.
  revert ranges. induction ops as [|op ops IH]; intros ranges Hr; cbn [plan_operations]; [by intros [= <-]|].
  destruct op as [| | | | | |operation]; try done.
  destruct (veq_str _ "replace"); [destruct (negb _); [done|]; by destruct (dget operation "content")|].
  destruct (negb _); [done|]. destruct (dget operation "content") as [| | | |text| |]; try done.
  intros H. apply planned_bind_ok in H as (new & Hn & H). eapply IH, H. apply Forall_app. split; [done|].
  destruct (_ && _); [by eapply find_ranges_within|by eapply given_range_within].
Qed.

Lemma disjoint_in_order pos n l : (pos <= n)%nat → Forall (within n) l → disjoint_from pos l = true → in_order pos n l.
Proof.
  revert pos. induction l as [|r l IH]; intros pos Hp Hw; cbn; [done|].
  apply Forall_cons in Hw as [[H1 H2] Hw]. rewrite andb_true_iff, Nat.leb_le. intros [H3 H4]. auto.
Qed.

(** The text of a plan is the whole new text, or the old one with the ranges replaced. *)
Lemma plan_spliced current content operations v ranges : plan_content current content operations = Planned (v, ranges) →
  ranges ≠ [] → v = VStr (spliced O ranges current).
Proof.
  unfold plan_content. destruct operations as [| | | | |l|]; [by destruct content; intros [= <- <-]|done..| |done].
  destruct l as [|o l]; [done|]. intros H Hne. apply planned_bind_ok in H as (c & Hc & H).
  destruct c as [text|parts]; [by injection H as _ <-|]. apply planned_bind_ok in H as (? & Hd%require_ok & H). injection H as <- <-.
  assert (Hin : in_order O (String.length current) (sort_ranges parts)).
  { apply disjoint_in_order; [lia| |done]. unfold sort_ranges. rewrite py_sorted_perm.
    by eapply plan_operations_within in Hc; [|constructor]. }
  rewrite <-ranges_are_spliced by done. by destruct (sort_ranges parts).
Qed.

(** ** Revisions *)

(** [p'] is [p] or a later state of it. *)
Definition revises (p p' : page) : Prop :=
  p_revision p < p_revision p' ∨ (p_revision p = p_revision p' ∧ p_content p = p_content p').

Lemma revises_refl p : revises p p.
Proof. by right. Qed.

Lemma revises_trans p1 p2 p3 : revises p1 p2 → revises p2 p3 → revises p1 p3.
Proof. intros [H1|[H1 E1]] [H2|[H2 E2]]; [left; lia..|right; split; congruence]. Qed.

(** The pages of [l'] are later states of those of [l]. *)
Definition advanced (l l' : list page) : Prop := ∀ p p', p ∈ l → p' ∈ l' → p_id p' = p_id p → revises p p'.

Lemma advanced_map l l' (f : page → page) : NoDup (page_ids l') → (∀ x, p_id (f x) = p_id x) → (∀ x, x ∈ l' → revises x (f x)) →
  advanced l l' → advanced l (map f l').
Proof.
  intros Hnd Hid Hf Ha p p' Hp (x & -> & Hx)%list_elem_of_fmap E. rewrite Hid in E.
  eapply revises_trans; [by apply (Ha p x)|auto].
Qed.

Section Revisions.
Context (markdown : string → string) (links : string → list (string * string)).
Context (repr_other : pyval → string) (float_repr : spec_float → string) (dumps_indented : pyval → string).

Notation normalize := (normalize_pages markdown links repr_other float_repr).
Notation sanitize := (sanitize_note_data repr_other dumps_indented).
Notation update_row := (update_row markdown links repr_other float_repr dumps_indented).
Notation normal := (normal repr_other).

(** Pages in order and without old attachments only take the title of the note. *)
Lemma normalize_tree l fields t : page_tree l → Forall plain l → dict_get "files" fields = None →
  ∃ d, normalize (Some (NoteData l fields)) t = Ok d ∧ d_pages d = map (inherit_title t) l.
Proof.
  intros Ht Hp Hf.
  assert (Hplace : Forall2 same_place l (map (inherit_title t) l)).
  { clear. induction l as [|x l IH]; constructor; [|done]. unfold inherit_title. destruct t; [|done]. by destruct (_ && _). }
  assert (Ht' : page_tree (map (inherit_title t) l)) by (by eapply same_place_tree).
  assert (Hp' : Forall plain (map (inherit_title t) l)).
  { apply list.Forall_forall. intros x (y & -> & Hy)%list_elem_of_fmap. rewrite list.Forall_forall in Hp. specialize (Hp y Hy).
    unfold inherit_title. destruct t; [|done]. by destruct (_ && _). }
  unfold normalize_pages. cbv zeta. cbn [default from_option id d_pages d_fields].
  assert (pages_with_main t (NoteData l fields) = l) as ->.
  { destruct (tree_head l Ht) as (m & r & -> & Hm & _). unfold pages_with_main. cbn. by rewrite Hm. }
  rewrite order_fixed by done. cbn [mbind res_bind]. unfold dget. rewrite Hf. cbn [default from_option por truthy].
  rewrite mapR_id by (intros p Hin; apply migrate_page_done; rewrite list.Forall_forall in Hp'; by apply Hp').
  cbn [mbind res_bind]. destruct (plain_texts repr_other _ Hp') as [[v ->] [s ->]]. cbn [mbind res_bind]. by eexists.
Qed.

Lemma inherit_revises t p : revises p (inherit_title t p).
Proof. right. unfold inherit_title. destruct t; [|done]. by destruct (_ && _). Qed.

(** An operation on the tree *)
Lemma operation_advances d op d' : normal d → apply_page_operation markdown links repr_other float_repr (Some d) op = Ok d' →
  normal d' ∧ advanced (d_pages d) (d_pages d').
Proof.
  intros Hd Hop. pose proof (page_operations_edit_the_tree markdown links repr_other float_repr op d Hd) as H.
  assert (Hsame : ∀ p p', p ∈ d_pages d → p' ∈ d_pages d → p_id p' = p_id p → p' = p).
  { intros p p' Hp Hp' E. by apply (page_ids_inj (d_pages d)); [apply Hd|..]. }
  destruct (operate op d) as [[l1|]|e]; [rewrite Hop in H|..].
  - destruct H as (Ht & _ & Hkept & Hgone & _). split.
    + unfold apply_page_operation in Hop. rewrite (normalize_again markdown links repr_other float_repr d Hd) in Hop. cbn in Hop.
      apply bind_Ok in Hop as ([l|] & _ & Hop); [|by injection Hop as <-].
      apply bind_Ok in Hop as (fields & _ & Hop). by eapply normalize_normal.
    + intros p p' Hp Hp' E. destruct (decide (op_action op = DeletePage ∧ op_page_id op = Some (p_id p))) as [Hg|Hg].
      * exfalso. apply (Hgone p Hp Hg). rewrite <-E. by apply page_ids_elem.
      * destruct (Hkept p Hp Hg) as (x & Hx & Hid & Hc & _ & Hr & _). replace p' with x; [by right|].
        apply (page_ids_inj (d_pages d')); [apply Ht|done|done|congruence].
  - assert (d' = d) as -> by congruence. split; [done|]. intros p p' Hp Hp' E. rewrite (Hsame p p') by done. apply revises_refl.
  - congruence.
Qed.

(** *** An edit of a page *)

Definition blank_fields : pydict := [("json", VNone); ("html", VStr EmptyString); ("md", VStr EmptyString)].

(** The page after the changes *)
Definition changed (changes : pydict) (generation : option Z) (p : page) : page :=
  let p := match dict_get "content" changes with
           | Some (VDict c) =>
               with_content (VDict (dict_update blank_fields c)) (p_versions p) (p_revision p + 1)
                 (match generation with None => p_generation p + 1 | Some _ => p_generation p end) p
           | _ => p
           end in
  match dict_get "versions" changes with
  | Some versions => with_content (p_content p) versions (p_revision p) (p_generation p) p
  | None => p
  end.

Lemma changed_facts changes g p : same_place p (changed changes g p) ∧ revises p (changed changes g p) ∧ (plain p → plain (changed changes g p)).
Proof.
  unfold changed. destruct (dict_get "content" changes) as [[| | | | | |c]|], (dict_get "versions" changes) as [v|];
    (split_and!; [done|first [by right|left; cbn; lia]|by intros [? ?]]).
Qed.

Lemma update_page_app id f g l : (∀ x, p_id (f x) = p_id x) →
  update_page id g (update_page id f l) = update_page id (λ x, g (f x)) l.
Proof.
  intros Hf. unfold update_page. rewrite map_map. apply map_ext. intros x. unfold has_id.
  destruct (String.eqb (p_id x) id) eqn:E; [by rewrite Hf, E|by rewrite E].
Qed.

Lemma update_page_id_map id l : update_page id (λ x, x) l = l.
Proof. unfold update_page. rewrite <-(map_id l) at 2. apply map_ext. intros x. by destruct (has_id id x). Qed.

Lemma update_content_pages d pid changes g r d' : normal d →
  update_page_content markdown links repr_other float_repr (Some d) pid changes g r = Ok d' →
  ∃ p, p ∈ d_pages d ∧ (∀ i, pid = Some i → p_id p = i) ∧ (pid = None → d_pages d = [p]) ∧ expected r (p_revision p) = true ∧ normal d' ∧
    d_pages d' = update_page (p_id p) (changed changes g) (d_pages d).
Proof.
  intros Hd H. unfold update_page_content in H. rewrite (normalize_again markdown links repr_other float_repr d Hd) in H.
  cbn [mbind res_bind] in H. apply bind_Ok in H as (target & Htarget & H). apply bind_Ok in H as (p & Hp & H).
  destruct (find_first (has_id (p_id target)) (d_pages d)) as [p0|] eqn:Hfind; [|done]. injection Hp as ->.
  apply find_first_Some in Hfind as [Hin Hid%has_id_true].
  destruct (expected g _); [|done]. destruct (expected r (p_revision p)) eqn:Hr; [|done]. cbn [negb] in H.
  apply bind_Ok in H as (l & Hl & H). destruct (dict_has "files" changes); [done|].
  exists p. split_and!; [done| | |done|by eapply normalize_normal|].
  - intros i ->. unfold get_page in Htarget. rewrite (normalize_again markdown links repr_other float_repr d Hd) in Htarget.
    cbn [mbind res_bind] in Htarget. destruct (find_first (has_id i) (d_pages d)) as [t|] eqn:Ht; [|done]. injection Htarget as <-.
    apply find_first_Some in Ht as [_ Ht%has_id_true]. congruence.
  - intros ->. unfold get_page in Htarget. rewrite (normalize_again markdown links repr_other float_repr d Hd) in Htarget.
    cbn [mbind res_bind] in Htarget. destruct (d_pages d) as [|x [|y l']]; [done| |done].
    by apply list_elem_of_singleton in Hin as ->.
  - assert (Hpages : match dict_get "versions" changes with
      | Some versions => update_page (p_id p) (λ x, with_content (p_content x) versions (p_revision x) (p_generation x) x) l
      | None => l end = update_page (p_id p) (changed changes g) (d_pages d)).
    { unfold changed. destruct (dict_get "content" changes) as [content|].
      - apply bind_Ok in Hl as (c & Hc & [= <-]). unfold valid_content in Hc.
        destruct content as [| | | | | |c']; try done. destruct (_ && _); [|done]. injection Hc as ->.
        destruct (dict_get "versions" changes); [by rewrite update_page_app|done].
      - injection Hl as <-. destruct (dict_get "versions" changes); [done|by rewrite update_page_id_map]. }
    rewrite Hpages in H.
    assert (Hplace : Forall2 same_place (d_pages d) (update_page (p_id p) (changed changes g) (d_pages d))).
    { clear. induction (d_pages d) as [|x l IH]; constructor; [|done]. destruct (has_id _ x); [apply changed_facts|done]. }
    destruct (normalize_tree (update_page (p_id p) (changed changes g) (d_pages d)) (d_fields d) None) as (d1 & Hd1 & Hl1).
    + by eapply same_place_tree, Hd.
    + apply list.Forall_forall. intros x (y & -> & Hy)%list_elem_of_fmap.
      pose proof (normal_plain repr_other d Hd) as Hpl. rewrite list.Forall_forall in Hpl.
      destruct (has_id _ y); [apply changed_facts|]; auto.
    + apply (nm_fields _ _ Hd).
    + rewrite Hd1 in H. injection H as <-. rewrite Hl1. apply map_id.
Qed.

(** *** Rows *)

(** The pages that a reader of the row sees *)
Definition pages_of (row : note_row) : res (list page) :=
  d_pages <$> normalize (sanitize (n_data row)) (n_title row).

Lemma dict_get_filter (keep : string → bool) k (d : pydict) : keep k = true →
  dict_get k (List.filter (λ kv, keep kv.1) d) = dict_get k d.
Proof.
  intros Hk. induction d as [|[k' v] d IH]; cbn; [done|]. destruct (keep k') eqn:E; cbn.
  - by destruct (String.eqb k k').
  - destruct (String.eqb_spec k k') as [->|]; [congruence|done].
Qed.

Lemma dict_update_absent k (d d2 : pydict) : dict_get k d = None → k ∉ dict_keys d2 → dict_get k (dict_update d d2) = None.
Proof.
  intros Hd H2. apply dict_get_None. rewrite dict_keys_update_elem. apply dict_get_None in Hd. tauto.
Qed.

Lemma sanitize_some d : ∃ d', sanitize (Some d) = Some d' ∧ d_pages d' = d_pages d ∧ ∀ k, k ≠ "content" → dict_get k (d_fields d') = dict_get k (d_fields d).
Proof.
  unfold sanitize_note_data. destruct (dict_get "content" (d_fields d)) as [[| | | | | |c]|]; eauto.
  destruct (dict_get "md" c) as [[]|]; eauto; (eexists; split; [reflexivity|]; split; [done|]; intros k Hk; cbn; by rewrite dict_get_set_ne).
Qed.

(** The edit of a page that a form asks for *)
Definition edits (form : NoteUpdateForm) (l l' : list page) : Prop :=
  if existsb is_page_key (dict_keys (incoming form)) then
    ∃ p, p ∈ l ∧ (∀ i, page_to_edit form = Some i → p_id p = i) ∧ (page_to_edit form = None → l = [p]) ∧ expected (uf_page_revision form) (p_revision p) = true ∧
      l' = update_page (p_id p) (changed (incoming form) (uf_page_generation form)) l
  else l' = l.

(** What an update of a row does to the pages: an operation, an edit of one page, the title *)
Lemma update_row_pages form now row row' l : pages_of row = Ok l → update_row form now row = Ok row' →
  ∃ l1 l2, page_tree l1 ∧ advanced l l1 ∧ (uf_page_operation form = None → l1 = l) ∧ edits form l1 l2 ∧
    pages_of row' = Ok (map (inherit_title (n_title row')) l2).
Proof.
  intros Hl Hup. unfold pages_of in Hl. apply fmap_Ok in Hl as (d & Hd & <-).
  unfold Notes.update_row in Hup. apply bind_Ok in Hup as (d3 & Hnew & [= <-]). unfold new_data in Hnew.
  rewrite Hd in Hnew. cbn [mbind res_bind] in Hnew. pose proof (normalize_normal _ _ _ _ _ _ _ Hd) as Hnd.
  apply bind_Ok in Hnew as (d1 & Hop & Hnew).
  assert (normal d1 ∧ advanced (d_pages d) (d_pages d1) ∧ (uf_page_operation form = None → d_pages d1 = d_pages d)) as (Hnd1 & Hadv & Hno).
  { destruct (uf_page_operation form) as [op|].
    - apply operation_advances in Hop as [? ?]; [|done]. by split_and!.
    - injection Hop as <-. split_and!; [done| |done]. intros p p' Hp Hp' E.
      replace p' with p; [apply revises_refl|]. by apply (page_ids_inj (d_pages d)); [apply Hnd|..]. }
  apply bind_Ok in Hnew as (d2 & Hedit & Hnew).
  assert (normal d2 ∧ edits form (d_pages d1) (d_pages d2)) as [Hnd2 Hed].
  { unfold edits. destruct (existsb _ _).
    - apply update_content_pages in Hedit as (p & ? & ? & ? & ? & ? & ?); [|done]. split; [done|]. by exists p.
    - by injection Hedit as <-. }
  set (rest := List.filter (λ kv, negb (is_page_key kv.1)) (incoming form)) in *. set (t := default (n_title row) (uf_title form)) in *.
  assert (Hf : dict_get "files" (dict_update (d_fields d2) rest) = None).
  { apply dict_update_absent; [apply Hnd2|]. intros ((k & v) & E & Hin)%list_elem_of_fmap. cbn in E. subst k.
    apply filter_elem in Hin as [_ Hin]. done. }
  destruct (normalize_tree (d_pages d2) _ t (nm_tree _ _ Hnd2) (normal_plain _ _ Hnd2) Hf) as (d3' & Hd3 & Hpages).
  rewrite Hd3 in Hnew. injection Hnew as ->. pose proof (normalize_normal _ _ _ _ _ _ _ Hd3) as Hnd3.
  exists (d_pages d1), (d_pages d2). split_and!; [apply Hnd1|done|done|done|].
  cbn [n_title n_data]. unfold pages_of. cbn [n_title n_data].
  destruct (sanitize_some d3) as ([l4 f4] & -> & Hl4 & Hf4). cbn in Hl4, Hf4. subst l4.
  destruct (normalize_tree (d_pages d3) f4 t (nm_tree _ _ Hnd3) (normal_plain _ _ Hnd3)) as (d5 & -> & Hd5).
  { rewrite Hf4 by done. apply (nm_fields _ _ Hnd3). }
  cbn. rewrite Hd5, Hpages, map_map. f_equal. apply map_ext, inherit_twice.
Qed.

(** [row'] comes from [row] by updates, and the page is there all the time. *)
Definition step (id : string) (row row' : note_row) : Prop :=
  (∃ form now, update_row form now row = Ok row') ∧ ∃ l, pages_of row' = Ok l ∧ id ∈ page_ids l.

Lemma step_advances id row row' l l' : step id row row' → pages_of row = Ok l → pages_of row' = Ok l' → advanced l l'.
Proof.
  intros [(form & now & Hup) _] Hl Hl'. destruct (update_row_pages form now row row' l Hl Hup) as (l1 & l2 & Ht1 & Hadv & _ & Hed & Hp).
  rewrite Hl' in Hp. injection Hp as ->.
  assert (advanced l l2 ∧ NoDup (page_ids l2)) as [Ha2 Hnd2].
  { unfold edits in Hed. destruct (existsb _ _); [|subst; split; [done|apply Ht1]].
    destruct Hed as (p & _ & _ & _ & _ & ->). split.
    - apply advanced_map; [apply Ht1| | |done]; intros x; destruct (has_id _ x); [|done|..].
      + apply changed_facts.
      + intros _. apply changed_facts.
      + intros _. apply revises_refl.
    - unfold page_ids, update_page. rewrite map_map. erewrite map_ext; [apply Ht1|].
      intros x. destruct (has_id _ x); [apply changed_facts|done]. }
  apply advanced_map; [done|apply inherit_title_id| |done]. intros x _. apply inherit_revises.
Qed.

(** The revision of a page stands for its content. *)
Lemma reaches_revises id row row' l l' p p' : rtc (step id) row row' → pages_of row = Ok l → pages_of row' = Ok l' →
  p ∈ l → p' ∈ l' → p_id p = id → p_id p' = id → revises p p'.
Proof.
  intros Hs. revert l p. induction Hs as [row|row row1 row2 Hstep Hs IH]; intros l p Hl Hl' Hp Hp' Hid Hid'.
  - rewrite Hl in Hl'. injection Hl' as <-. replace p' with p; [apply revises_refl|].
    unfold pages_of in Hl. apply fmap_Ok in Hl as (d & Hd & <-). pose proof (normalize_normal _ _ _ _ _ _ _ Hd) as Hnd.
    apply (page_ids_inj (d_pages d)); [apply Hnd|done|done|congruence].
  - pose proof Hstep as [_ (l1 & Hl1 & Hin)]. apply page_ids_inv in Hin as (p1 & Hp1 & Hid1).
    eapply revises_trans; [|by apply (IH l1 p1)]. apply (step_advances id row row1 l l1); [done..|congruence].
Qed.

(** *** The tools *)

Lemma to_note_pages id row note : to_note_model markdown links repr_other float_repr dumps_indented id row = Ok note →
  pages_of row = Ok (d_pages (m_data note)) ∧ normal (m_data note) ∧ m_id note = id.
Proof.
  unfold to_note_model, pages_of. destruct (n_title row) as [t|]; [|done]. intros H.
  apply bind_Ok in H as (d & Hd & [= <-]). cbn. rewrite Hd. split_and!; [done|by eapply normalize_normal|done].
Qed.

Lemma get_page_elem d pid p : normal d → get_page markdown links repr_other float_repr (Some d) pid = Ok p → p ∈ d_pages d.
Proof.
  intros Hd H. unfold get_page in H. rewrite (normalize_again markdown links repr_other float_repr d Hd) in H. cbn [mbind res_bind] in H.
  destruct pid as [i|].
  - destruct (find_first _ _) as [x|] eqn:E; [|done]. injection H as <-. by apply find_first_Some in E as [? _].
  - destruct (d_pages d) as [|x [|y l]]; [done| |done]. injection H as <-. left.
Qed.

(** What was seen of a page is its revision. *)
Lemma see_pages c note l seen x r : foldl (see_page c note) seen l !! (ca_id c, m_id note, x) = Some r →
  seen !! (ca_id c, m_id note, x) = Some r ∨ ∃ p, p ∈ l ∧ p_id p = x ∧ p_revision p = r.
Proof.
  revert seen. induction l as [|p l IH]; intros seen; cbn [foldl]; [by left|]. intros H.
  apply IH in H as [H|(q & ? & ? & ?)]; [|right; exists q; split; [by right|done]].
  unfold see_page in H. apply lookup_insert_Some in H as [[[= <-] <-]|[_ H]]; [right; exists p; split; [left|done]|by left].
Qed.

Lemma view_seen c note pid seen seen' answer x r : normal (m_data note) →
  view_of markdown links repr_other float_repr c note pid seen = Ok (answer, seen') →
  seen' !! (ca_id c, m_id note, x) = Some r →
  seen !! (ca_id c, m_id note, x) = Some r ∨ ∃ p, p ∈ d_pages (m_data note) ∧ p_id p = x ∧ p_revision p = r.
Proof.
  intros Hn H. unfold view_of in H. destruct (_ || _).
  - apply bind_Ok in H as (p & Hp & H). apply bind_Ok in H as (content & _ & H). injection H as _ <-. intros Hs.
    apply (see_pages c note [p]) in Hs as [?|(q & ->%list_elem_of_singleton & ? & ?)]; [by left|].
    right. exists p. split; [by eapply get_page_elem|done].
  - apply bind_Ok in H as (content & _ & H). injection H as _ <-. apply see_pages.
Qed.

(** A page that was there and was never deleted is there still. *)
Lemma reaches_page id row row' l : pages_of row = Ok l → id ∈ page_ids l → rtc (step id) row row' →
  ∃ l', pages_of row' = Ok l' ∧ id ∈ page_ids l'.
Proof. intros Hl Hid [->|(row1 & _ & _ & H)]%rtc_inv_r; eauto. Qed.

Lemma inherit_content t p : p_content (inherit_title t p) = p_content p ∧ p_revision (inherit_title t p) = p_revision p.
Proof. unfold inherit_title. destruct t; [|done]. by destruct (_ && _). Qed.

Lemma inherit_same_text t p : same_text p (inherit_title t p).
Proof. unfold inherit_title. destruct t; [|done]. by destruct (_ && _). Qed.

Definition edited_text (generation : option Z) (text : pyval) : page → page := changed [("content", edit_content text)] generation.

(** The edit of a tool on a row *)
Lemma edit_row_pages title id revision text now row row' l : id ∈ page_ids l → pages_of row = Ok l →
  update_row (edit_form title id revision text) now row = Ok row' →
  ∃ p, p ∈ l ∧ p_id p = id ∧ p_revision p = revision ∧
    pages_of row' = Ok (map (inherit_title (n_title row')) (update_page id (edited_text None text) l)).
Proof.
  intros Hin Hl Hup. destruct (update_row_pages _ _ _ _ _ Hl Hup) as (l1 & l2 & _ & _ & Hl1 & Hed & Hp).
  rewrite (Hl1 eq_refl) in Hed. clear l1 Hl1.
  unfold edits in Hed. change (existsb is_page_key (dict_keys (incoming (edit_form title id revision text)))) with true in Hed.
  destruct Hed as (p & Hpl & Hpid & Hone & Hrev & ->). cbn in Hrev. apply Z.eqb_eq in Hrev as ->.
  assert (p_id p = id) as Hid.
  { unfold page_to_edit, edited_page in Hpid, Hone. cbn in Hpid, Hone. destruct (Str.is_empty id); [|by apply Hpid].
    rewrite (Hone eq_refl) in Hin. by apply list_elem_of_singleton in Hin. }
  exists p. split_and!; [done..|]. by rewrite Hp, Hid.
Qed.

(** Only the page that was edited changes. *)
Lemma edit_pages t id text l p : p ∈ l → p_id p = id →
  (∃ p', p' ∈ map (inherit_title t) (update_page id (edited_text None text) l) ∧ p_id p' = id ∧
     p_content p' = edit_content text ∧ p_revision p' = p_revision p + 1) ∧
  (∀ q, q ∈ l → p_id q ≠ id → ∃ q', q' ∈ map (inherit_title t) (update_page id (edited_text None text) l) ∧ same_text q q').
Proof.
  intros Hp Hid.
  assert (Hin : ∀ x, x ∈ l → inherit_title t (if has_id id x then edited_text None text x else x) ∈
    map (inherit_title t) (update_page id (edited_text None text) l)).
  { intros x Hx. unfold update_page. rewrite map_map. by apply (list_elem_of_fmap_2 (λ x, inherit_title t (if has_id id x then edited_text None text x else x))). }
  split.
  - apply Hin in Hp as H. assert (has_id id p = true) as E by by apply has_id_true. rewrite E in H.
    eexists. split; [exact H|]. rewrite inherit_title_id. destruct (inherit_content t (edited_text None text p)) as [-> ->]. done.
  - intros q Hq Hne. apply Hin in Hq as H. assert (has_id id q = false) as E by by apply has_id_false. rewrite E in H.
    eexists. split; [exact H|]. apply inherit_same_text.
Qed.

(** The text of an edit with operations *)
Lemma prepare_text may c note pid content operations seen p revision text ranges :
  prepare_edit markdown links repr_other float_repr may c note pid content operations seen = Ok (Planned (p, revision, (text, ranges))) →
  normal (m_data note) →
  p ∈ d_pages (m_data note) ∧ seen !! (ca_id c, m_id note, p_id p) = Some revision ∧ p_revision p = revision ∧
  (ranges ≠ [] → ∃ fields md, p_content p = VDict fields ∧ por (dget fields "md") (VStr EmptyString) = VStr md ∧
     text = VStr (spliced O ranges md)).
Proof.
  unfold prepare_edit. intros H Hn. destruct (negb (allowed _ _ _ _)); [done|]. apply bind_Ok in H as (p0 & Hp0 & H).
  destruct (seen !! (ca_id c, m_id note, p_id p0)) as [r|] eqn:Hr; [|done]. destruct (Z.eqb_spec r (p_revision p0)) as [->|]; [|done].
  cbn [negb] in H. apply bind_Ok in H as (md & Hmd & H). apply bind_Ok in H as (current & Hcur & H).
  destruct (plan_content current content operations) as [v|code] eqn:E; [|done]. cbn in H. injection H as -> <- ->.
  split_and!; [by eapply get_page_elem|done..|]. intros Hne. rewrite (plan_spliced _ _ _ _ _ E Hne).
  destruct (p_content p) as [| | | | | |fields]; try done. injection Hmd as <-. exists fields, current. split_and!; [done| |done].
  destruct operations; try (destruct (por _ _); try done; by injection Hcur as <-).
  cbn in E. destruct content; try done; by injection E as _ <-.
Qed.
End Revisions.


(** *** An example *)

Definition example_data : note_data :=
  NoteData [Page main None "Main" (edit_content (VStr "red blue red")) (VList []) 3 0 false None;
            Page "a" (Some main) "A" (edit_content (VStr "other")) (VList []) 1 0 false None] [].
Definition example_viewed : note_row := NoteRow "owner" (Some "Note") (Some example_data) None 1 1.

Definition example_update : NoteUpdateForm → Z → note_row → res note_row :=
  update_row (λ s, s) (λ _, []) (λ _, "?") (λ _, "0.0") (λ _, "{}").
Definition example_step (form : NoteUpdateForm) (now : Z) (row : note_row) : note_row :=
  match example_update form now row with Ok row' => row' | Err _ => row end.
Definition example_note_of (row : note_row) : res NoteModel :=
  to_note_model (λ s, s) (λ _, []) (λ _, "?") (λ _, "0.0") (λ _, "{}") "n" row.

Definition title_form : NoteUpdateForm := UpdateForm (Some (Some "New")) None None None None None None.

(** Page a is edited by the owner after the model read the note. *)
Definition other_form : NoteUpdateForm := edit_form None "a" 1 (VStr "changed").

Definition example_read : note_row := Eval vm_compute in example_step title_form 5 example_viewed.
Definition example_written : note_row := Eval vm_compute in example_step other_form 6 example_read.
Definition example_result : note_row := Eval vm_compute in
  example_step (edit_form None main 3 (VStr "green blue red")) 7 example_written.

Definition example_caller : caller := Caller "owner" "user".
Definition example_edit : pyval :=
  VList [VDict [("action", VStr "replace_text"); ("find", VStr "red"); ("occurrence", VInt 0); ("content", VStr "green")]].

Definition example_model (row : note_row) : NoteModel :=
  match example_note_of row with Ok note => note | Err _ => Model EmptyString EmptyString EmptyString example_data None 0 0 end.
Definition example_note_v : NoteModel := Eval vm_compute in example_model example_viewed.
Definition example_note_r : NoteModel := Eval vm_compute in example_model example_read.

Definition example_main : page := Page main None "Main" (edit_content (VStr "red blue red")) (VList []) 3 0 false None.
Definition example_seen : revisions := see_page example_caller example_note_v ∅ example_main.

