(* ===== verification/Documents.v ===== *)
(** * Documents that several users edit (socket/utils.py): [YdocManager], which keeps the
    updates and the members of every document in the memory of the process or in Redis,
    and what the handlers of socket/main.py do with it.

    The two halves of the class are two instances of one interface.  An operation on a
    document runs under the lock of the document and is one step, and so is the end of a
    session, which takes the locks of its documents in turn.  Rooms, events, access checks
    and the saving of notes are left out. *)

From S2P Require Import Prelude PyVal ResponseStream.
From stdpp Require Import gmap strings.
From Stdlib Require Import Ascii.

Local Open Scope Z_scope.

(** ** Y documents *)

(** pycrdt: a document, its updates as bytes, and the update that holds its whole state;
    [apply_update] raises on bytes that it cannot decode. *)
Class YDoc (D : Type) := {
  y_empty : D;
  y_decodes : list Z → bool;
  y_apply : D → list Z → D;
  y_update : D → list Z
}.

(** ** Redis *)

Inductive redis_value := RList (l : list string) | RSet (s : gset string) | RNumber (n : Z).

(** The value of a key; an absent key has none. *)
Class RedisKeys (R : Type) := {
  key_value : R → string → option redis_value;
  put_key : string → option redis_value → R → R
}.

Section Commands.
Context {R : Type} `{!RedisKeys R}.

Definition wrong_type {A} : st R A := raise (RuntimeError "WRONGTYPE").

Definition rewrite_key {A} (k : string) (f : option redis_value → option (option redis_value * A)) : st R A := λ r,
  match f (key_value r k) with
  | Some (v, a) => (Ok a, put_key k v r)
  | None => wrong_type r
  end.
Definition read_key {A} (k : string) (f : option redis_value → option A) : st R A := λ r,
  match f (key_value r k) with Some a => (Ok a, r) | None => wrong_type r end.

Definition incrby (k : string) (n : Z) : st R Z :=
  rewrite_key k (λ v, match v with
    | None => Some (Some (RNumber n), n)
    | Some (RNumber m) => Some (Some (RNumber (m + n)), m + n)
    | _ => None
    end).
Definition decrby (k : string) (n : Z) : st R Z := incrby k (- n).
Definition set_number (k : string) (n : Z) : st R unit := rewrite_key k (λ _, Some (Some (RNumber n), tt)).
Definition delete_key (k : string) : st R unit := rewrite_key k (λ _, Some (None, tt)).
Definition exists_key (k : string) : st R bool := read_key k (λ v, Some (bool_decide (is_Some v))).

Definition rpush (k : string) (items : list string) : st R unit :=
  rewrite_key k (λ v, match v with
    | None => Some (Some (RList items), tt)
    | Some (RList l) => Some (Some (RList (l ++ items)), tt)
    | _ => None
    end).
Definition lrange (k : string) : st R (list string) :=
  read_key k (λ v, match v with None => Some [] | Some (RList l) => Some l | _ => None end).

(** A set that loses its last member is no key any more. *)
Definition members_value (s : gset string) : option redis_value := if decide (s = ∅) then None else Some (RSet s).
Definition change_set (k : string) (f : gset string → gset string) : st R unit :=
  rewrite_key k (λ v, match v with
    | None => Some (members_value (f ∅), tt)
    | Some (RSet s) => Some (members_value (f s), tt)
    | _ => None
    end).
Definition sadd (k x : string) : st R unit := change_set k (λ s, {[x]} ∪ s).
Definition srem (k x : string) : st R unit := change_set k (λ s, s ∖ {[x]}).
Definition smembers (k : string) : st R (gset string) :=
  read_key k (λ v, match v with None => Some ∅ | Some (RSet s) => Some s | _ => None end).
End Commands.

(** ** The interface of [YdocManager] *)

Class DocumentStore (S : Type) := {
  append_to_updates : string → pyval → st S bool;
  count_documents_for_user : string → st S nat;
  get_updates : string → st S (list (list Z));
  document_exists : string → st S bool;
  get_users : string → st S (gset string);
  add_user : string → string → st S unit;
  remove_user : string → string → st S unit;
  documents_of_user : string → st S (gset string);
  clear_document : string → st S unit
}.

Definition COMPACTION_THRESHOLD : nat := 500.
Definition MAX_DOCUMENTS_PER_SESSION : nat := 20.
Definition MAX_DOCUMENT_SIZE : Z := 2 * 1024 * 1024.

(** [bytes(update)] of a list *)
Definition byte_of (v : pyval) : option Z :=
  match v with
  | VInt z => if (0 <=? z) && (z <? 256) then Some z else None
  | VBool b => Some (Z.b2z b)
  | _ => None
  end.
Definition bytes_of (update : pyval) : option (list Z) :=
  match update with VList l => mapM byte_of l | _ => None end.

Definition bytes_value (u : list Z) : pyval := VList (VInt <$> u).

Definition size_of (u : list Z) : Z := Z.of_nat (length u).
Definition total_size (l : list (list Z)) : Z := foldr (λ u n, size_of u + n) 0 l.

Section Store.
Context {D : Type} `{!YDoc D}.

Definition apply_update (doc : D) (u : list Z) : res D :=
  if y_decodes u then Ok (y_apply doc u) else Err (ValueError "Cannot decode update").

(** [ydoc = Y.Doc()], then every update, then [get_update] *)
Definition merged (l : list (list Z)) : res (list Z) := doc ← foldM apply_update y_empty l; Ok (y_update doc).

(** The update that [append_to_updates] is to store *)
Definition checked_update (update : pyval) : option (list Z) :=
  u ← bytes_of update;
  if y_decodes u && (size_of u <=? MAX_DOCUMENT_SIZE) then Some u else None.

(** *** In memory: [_updates] and [_users] *)

Record memory := Memory { me_updates : gmap string (list (list Z)); me_users : gmap string (gset string) }.

Definition no_documents : memory := Memory ∅ ∅.

(** [_compact_updates_memory] *)
Definition compact_updates_memory (d : string) : st memory unit :=
  m ← st_get;
  let updates := default [] (me_updates m !! d) in
  if (length updates <=? 1)%nat then mret tt
  else
    let mid := Nat.div2 (length updates) in
    snapshot ← st_lift (merged (firstn mid updates));
    st_put (Memory (<[d := snapshot :: skipn mid updates]> (me_updates m)) (me_users m)).

Definition append_memory (d : string) (update : pyval) : st memory bool :=
  match checked_update update with
  | None => mret false
  | Some u =>
      m ← st_get;
      let updates := default [] (me_updates m !! d) in
      if MAX_DOCUMENT_SIZE <? total_size updates + size_of u then mret false
      else
        _ ← st_put (Memory (<[d := updates ++ [u]]> (me_updates m)) (me_users m));
        _ ← (if (COMPACTION_THRESHOLD <=? length (updates ++ [u]))%nat then compact_updates_memory d else mret tt);
        mret true
  end.

(** The documents whose members include the user *)
Definition joined_by (user_id : string) (m : memory) : gmap string (gset string) :=
  filter (λ kv, user_id ∈ kv.2) (me_users m).

Definition add_user_memory (d user_id : string) (m : memory) : memory :=
  Memory (me_updates m) (<[d := {[user_id]} ∪ default ∅ (me_users m !! d)]> (me_users m)).

Definition remove_user_memory (d user_id : string) (m : memory) : memory :=
  match me_users m !! d with
  | Some users =>
      if decide (user_id ∈ users) then
        let users := users ∖ {[user_id]} in
        Memory (me_updates m) (if decide (users = ∅) then delete d (me_users m) else <[d := users]> (me_users m))
      else m
  | None => m
  end.

Definition clear_memory (d : string) (m : memory) : memory := Memory (delete d (me_updates m)) (delete d (me_users m)).

Definition memory_store : DocumentStore memory := {|
  append_to_updates := append_memory;
  count_documents_for_user := λ user_id, st_gets (λ m, size (joined_by user_id m));
  get_updates := λ d, st_gets (λ m, default [] (me_updates m !! d));
  document_exists := λ d, st_gets (λ m, bool_decide (is_Some (me_updates m !! d)));
  get_users := λ d, st_gets (λ m, default ∅ (me_users m !! d));
  add_user := λ d user_id, st_modify (add_user_memory d user_id);
  remove_user := λ d user_id, st_modify (remove_user_memory d user_id);
  documents_of_user := λ user_id, st_gets (λ m, dom (joined_by user_id m));
  clear_document := λ d, st_modify (clear_memory d)
|}.
#[export] Existing Instance memory_store.

(** *** In Redis *)

Context {R : Type} `{!RedisKeys R} `{!JsonCodec} (prefix : string).

(** [f'{prefix}:{name}:{kind}'] *)
Definition key (kind name : string) : string := (prefix +:+ ":" +:+ name) +:+ String ":"%char kind.
Definition session_key (user_id : string) : string := key "documents" ("session:" +:+ user_id).

(** [bytes(JSONCodec.loads(raw))]; a list that is stored reads back as a list. *)
Definition stored_bytes (raw : string) : res (list Z) :=
  v ← loads raw;
  match bytes_of v with Some u => Ok u | None => Err (ValueError "bytes must be in range(0, 256)") end.

(** [len(JSONCodec.loads(raw))] *)
Definition stored_length (raw : string) : res Z :=
  v ← loads raw; match v with VList l => Ok (Z.of_nat (length l)) | _ => Err TypeError end.

(** [_compact_updates_redis] *)
Definition compact_updates_redis (d : string) : st R unit :=
  all_updates ← lrange (key "updates" d);
  if (length all_updates <=? 1)%nat then mret tt
  else
    let mid := Nat.div2 (length all_updates) in
    squashed ← st_lift (mapR stored_bytes (firstn mid all_updates));
    snapshot ← st_lift (merged squashed);
    text ← st_lift (dumps (bytes_value snapshot));
    _ ← delete_key (key "updates" d);
    _ ← rpush (key "updates" d) (text :: skipn mid all_updates);
    lengths ← st_lift (mapR stored_length (skipn mid all_updates));
    set_number (key "size" d) (size_of snapshot + foldr Z.add 0 lengths).

Definition append_redis (d : string) (update : pyval) : st R bool :=
  match checked_update update with
  | None => mret false
  | Some u =>
      total ← incrby (key "size" d) (size_of u);
      if MAX_DOCUMENT_SIZE <? total then _ ← decrby (key "size" d) (size_of u); mret false
      else
        text ← st_lift (dumps update);
        _ ← rpush (key "updates" d) [text];
        l ← lrange (key "updates" d);
        _ ← (if (COMPACTION_THRESHOLD <=? length l)%nat then compact_updates_redis d else mret tt);
        mret true
  end.

Definition redis_store : DocumentStore R := {|
  append_to_updates := append_redis;
  count_documents_for_user := λ user_id, documents ← smembers (session_key user_id); mret (size documents);
  get_updates := λ d, l ← lrange (key "updates" d); st_lift (mapR stored_bytes l);
  document_exists := λ d, exists_key (key "updates" d);
  get_users := λ d, smembers (key "users" d);
  add_user := λ d user_id, _ ← sadd (key "users" d) user_id; sadd (session_key user_id) d;
  remove_user := λ d user_id, _ ← srem (key "users" d) user_id; srem (session_key user_id) d;
  documents_of_user := λ user_id, smembers (session_key user_id);
  clear_document := λ d,
    _ ← delete_key (key "updates" d); _ ← delete_key (key "users" d); delete_key (key "size" d)
|}.
#[export] Existing Instance redis_store.
End Store.

Arguments memory_store D {_}.
Arguments redis_store {D _ R _ _} prefix.

(** ** The handlers *)

(** [active] says whether tasks of a document are under way ([has_active_tasks]). *)
Inductive doc_request :=
| Enter (sid d : string)
| GetState (d : string)
| Update (d : string) (initialize : bool) (update : pyval)
| Leave (sid d : string) (active : bool)
| Expel (sid d : string)
| Saved (d : string)
| Close (d : string)
| Disconnect (sid : string) (active : gset string).

Inductive doc_answer :=
| State (state : list Z)
| JoinRefused
| NoDocument
| Stored
| NotStored
| Nothing
| Left (cleared : bool)
| Disconnected (documents cleared : gset string).

Section Handlers.
Context {D : Type} `{!YDoc D} {S : Type} `{!DocumentStore S}.

(** The state of a document that is sent to a client *)
Definition send_state (d : string) : st S doc_answer :=
  updates ← get_updates d; state ← st_lift (merged updates); mret (State state).

(** [ydoc_document_join], for a user who may read the document *)
Definition join_document (sid d : string) : st S doc_answer :=
  users ← get_users d;
  full ← (if decide (sid ∈ users) then mret false
          else n ← count_documents_for_user sid; mret (MAX_DOCUMENTS_PER_SESSION <=? n)%nat);
  if (full : bool) then mret JoinRefused else _ ← add_user d sid; send_state d.

(** [yjs_document_state], for a session in the room *)
Definition get_state (d : string) : st S doc_answer :=
  found ← document_exists d;
  if (found : bool) then send_state d else mret NoDocument.

Definition store (d : string) (update : pyval) : st S doc_answer :=
  if truthy update then stored ← append_to_updates d update; mret (if (stored : bool) then Stored else NotStored)
  else mret Nothing.

(** [yjs_document_update], for a user who may write the document, up to the saving *)
Definition update_document (d : string) (initialize : bool) (update : pyval) : st S doc_answer :=
  if initialize then
    updates ← get_updates d;
    match updates with
    | [] => store d update
    | _ => state ← st_lift (merged updates); mret (State state)
    end
  else store d update.

(** A document that nobody edits is forgotten. *)
Definition clear_if_unused (d : string) (active : bool) : st S bool :=
  users ← get_users d;
  if decide (users = ∅) then if active then mret false else _ ← clear_document d; mret true else mret false.

(** [yjs_document_leave] *)
Definition leave (sid d : string) (active : bool) : st S doc_answer :=
  _ ← remove_user d sid; cleared ← clear_if_unused d active; mret (Left cleared).

Fixpoint each {A B} (f : A → st S B) (l : list A) : st S (list B) :=
  match l with [] => mret [] | a :: l => b ← f a; bs ← each f l; mret (b :: bs) end.

(** [remove_user_from_all_documents] *)
Definition remove_user_from_all_documents (sid : string) (active : gset string) : st S doc_answer :=
  documents ← documents_of_user sid;
  cleared ← each (λ d, _ ← remove_user d sid;
                       cleared ← clear_if_unused d (bool_decide (d ∈ active));
                       mret (if (cleared : bool) then [d] else [])) (elements documents);
  mret (Disconnected documents (list_to_set (concat cleared))).

(** [close_changed_note_documents], for one document *)
Definition close_document (d : string) : st S doc_answer :=
  users ← get_users d;
  _ ← each (λ sid, remove_user d sid) (elements users);
  _ ← clear_document d;
  mret Nothing.

Definition handle (request : doc_request) : st S doc_answer :=
  match request with
  | Enter sid d => join_document sid d
  | GetState d => get_state d
  | Update d initialize update => update_document d initialize update
  | Leave sid d active => leave sid d active
  | Expel sid d => _ ← remove_user d sid; mret Nothing
  | Saved d => cleared ← clear_if_unused d false; mret (Left cleared)
  | Close d => close_document d
  | Disconnect sid active => remove_user_from_all_documents sid active
  end.

Definition serve_all : list doc_request → st S (list doc_answer) := each handle.
End Handlers.
