(* ===== verification/DocumentsProps.v ===== *)
(** * Properties of the documents that several users edit: the store in memory and the
    store in Redis answer alike, and no update that was accepted is lost when the oldest
    ones are squashed. *)

From S2P Require Import Prelude PyVal JsonDump ResponseStream ResponseStreamProps Documents.
From stdpp Require Import gmap strings.
From Stdlib Require Import Ascii.

Local Open Scope Z_scope.

(** ** What is relied on *)

(** Documents are equivalent when nobody can tell them apart.  An update that holds the
    state of a document does what the updates of the document did. *)
Class YDocLaws (D : Type) `{!YDoc D} `{!Equiv D} := {
  y_equivalence :: Equivalence (≡@{D});
  y_apply_proper u :: Proper ((≡@{D}) ==> (≡)) (λ d, y_apply d u);
  y_update_decodes (d : D) : y_decodes (y_update d) = true;
  y_update_bytes (d : D) : Forall (λ b, 0 <= b < 256) (y_update d);
  y_update_whole (doc : D) l : Forall (λ u, y_decodes u = true) l →
    y_apply doc (y_update (foldl y_apply y_empty l)) ≡ foldl y_apply doc l
}.

(** A key keeps what was put there. *)
Class RedisKeysLaws (R : Type) `{!RedisKeys R} := {
  key_put_eq (r : R) k v : key_value (put_key k v r) k = v;
  key_put_ne (r : R) k k' v : k ≠ k' → key_value (put_key k v r) k' = key_value r k'
}.

(** ** The specification *)

Section Specification.
Context {D : Type} `{!YDoc D} `{!Equiv D}.

(** The state of the specification has the form of the store in memory, but it keeps
    every update that was accepted since the document was last cleared. *)
Definition accepted (d : string) (h : memory) : list (list Z) := default [] (me_updates h !! d).
Definition users_of (d : string) (h : memory) : gset string := default ∅ (me_users h !! d).
Definition documents_of (sid : string) (h : memory) : gset string := dom (joined_by sid h).

(** [state] is one update that does what [l] does. *)
Definition stands_for (state : list Z) (l : list (list Z)) : Prop :=
  y_decodes state = true ∧ ∀ doc : D, y_apply doc state ≡ foldl y_apply doc l.

Definition shown (d : string) (h : memory) (a : doc_answer) : Prop := ∃ state, a = State state ∧ stands_for state (accepted d h).

Definition full (sid d : string) (h : memory) : Prop :=
  sid ∉ users_of d h ∧ (MAX_DOCUMENTS_PER_SESSION <= size (documents_of sid h))%nat.

Definition accept (d : string) (u : list Z) (h : memory) : memory :=
  Memory (<[d := accepted d h ++ [u]]> (me_updates h)) (me_users h).

(** The update is no update, or the document is as large as it may get. *)
Definition refusable (d : string) (update : pyval) (h : memory) : Prop :=
  match checked_update update with
  | None => True
  | Some u => MAX_DOCUMENT_SIZE < total_size (accepted d h) + size_of u ∨ (COMPACTION_THRESHOLD <= length (accepted d h))%nat
  end.

Definition clears (d : string) (active : bool) (h : memory) : bool := bool_decide (users_of d h = ∅) && negb active.
Definition cleared (d : string) (active : bool) (h : memory) : memory := if clears d active h then clear_memory d h else h.

(** The documents that a session is the last one to leave *)
Definition abandoned (sid : string) (active : gset string) (h : memory) : gset string :=
  filter (λ d, users_of d h = {[sid]} ∧ d ∉ active) (documents_of sid h).

Definition without_user (sid : string) (users : gset string) : option (gset string) :=
  if decide (users ∖ {[sid]} = ∅) then None else Some (users ∖ {[sid]}).

Definition depart (sid : string) (active : gset string) (h : memory) : memory :=
  Memory (filter (λ kv, kv.1 ∉ abandoned sid active h) (me_updates h)) (omap (without_user sid) (me_users h)).

Definition specified (h : memory) (request : doc_request) (a : doc_answer) (h' : memory) : Prop :=
  match request with
  | Enter sid d => (full sid d h ∧ a = JoinRefused ∧ h' = h) ∨ (¬ full sid d h ∧ shown d h a ∧ h' = add_user_memory d sid h)
  | GetState d => h' = h ∧ if decide (accepted d h = []) then a = NoDocument else shown d h a
  | Update d initialize update =>
      if initialize && negb (bool_decide (accepted d h = [])) then shown d h a ∧ h' = h
      else if truthy update then
        (a = Stored ∧ ∃ u, checked_update update = Some u ∧ h' = accept d u h) ∨ (a = NotStored ∧ refusable d update h ∧ h' = h)
      else a = Nothing ∧ h' = h
  | Leave sid d active =>
      let h1 := remove_user_memory d sid h in a = Left (clears d active h1) ∧ h' = cleared d active h1
  | Expel sid d => a = Nothing ∧ h' = remove_user_memory d sid h
  | Saved d => a = Left (clears d false h) ∧ h' = cleared d false h
  | Close d => a = Nothing ∧ h' = clear_memory d h
  | Disconnect sid active => a = Disconnected (documents_of sid h) (abandoned sid active h) ∧ h' = depart sid active h
  end.

Fixpoint traced (h : memory) (requests : list doc_request) (answers : list doc_answer) (h' : memory) : Prop :=
  match requests, answers with
  | [], [] => h' = h
  | request :: requests, a :: answers => ∃ h1, specified h request a h1 ∧ traced h1 requests answers h'
  | _, _ => False
  end.
End Specification.

(** ** Members *)

Lemma remove_users_of d sid m d' :
  me_users (remove_user_memory d sid m) !! d' =
  if decide (d = d' ∧ sid ∈ users_of d m) then me_users m !! d ≫= without_user sid else me_users m !! d'.
Proof.
  unfold remove_user_memory, users_of, without_user. destruct (me_users m !! d) as [users|] eqn:E; cbn.
  - destruct (decide (sid ∈ users)) as [Hs|Hs].
    + destruct (decide (d = d')) as [<-|Hne].
      * rewrite (decide_True (P := _ ∧ _)) by (by split). destruct (decide (users ∖ {[sid]} = ∅)); cbn; [by rewrite lookup_delete_eq|by rewrite lookup_insert_eq].
      * rewrite (decide_False (P := d = d' ∧ _)) by tauto. destruct (decide _); cbn; [by rewrite lookup_delete_ne|by rewrite lookup_insert_ne].
    + by rewrite (decide_False (P := d = d' ∧ _)) by tauto.
  - by rewrite (decide_False (P := d = d' ∧ _)) by set_solver.
Qed.

Lemma remove_updates d sid m : me_updates (remove_user_memory d sid m) = me_updates m.
Proof. unfold remove_user_memory. destruct (_ !! _); [|done]. by destruct (decide _). Qed.

Lemma joined_elem sid d m : d ∈ documents_of sid m ↔ sid ∈ users_of d m.
Proof.
  unfold documents_of, joined_by, users_of. rewrite elem_of_dom. split.
  - intros [users [H Hs]%map_lookup_filter_Some]. by rewrite H.
  - destruct (me_users m !! d) as [users|] eqn:E; cbn; [|set_solver]. intros H. exists users. by apply map_lookup_filter_Some.
Qed.

Lemma removed_users sid d m : sid ∈ users_of d m → users_of d (remove_user_memory d sid m) = users_of d m ∖ {[sid]}.
Proof.
  intros Hs. unfold users_of at 1. rewrite remove_users_of, decide_True by done. unfold users_of in *.
  destruct (me_users m !! d) as [users|]; cbn in *; [|set_solver]. unfold without_user. destruct (decide _) as [->|]; done.
Qed.

Lemma documents_of_add d sid m sid' :
  documents_of sid' (add_user_memory d sid m) = if decide (sid = sid') then {[d]} ∪ documents_of sid' m else documents_of sid' m.
Proof.
  apply set_eq. intros d'. rewrite joined_elem. unfold users_of, add_user_memory. cbn.
  assert (d' ∈ documents_of sid' m ↔ sid' ∈ users_of d' m) as Hj by apply joined_elem. unfold users_of in Hj.
  destruct (decide (d = d')) as [<-|Hd]; [rewrite lookup_insert_eq|rewrite lookup_insert_ne by done]; destruct (decide (sid = sid')); cbn; set_solver.
Qed.

Lemma users_of_remove d sid m d' :
  users_of d' (remove_user_memory d sid m) = if decide (d = d') then users_of d' m ∖ {[sid]} else users_of d' m.
Proof.
  destruct (decide (d = d')) as [<-|Hd]; [|unfold users_of at 1; by rewrite remove_users_of, decide_False by tauto].
  destruct (decide (sid ∈ users_of d m)) as [Hs|Hs]; [by apply removed_users|].
  unfold users_of at 1. rewrite remove_users_of, decide_False by tauto. fold (users_of d m). set_solver.
Qed.

Lemma documents_of_remove d sid m sid' :
  documents_of sid' (remove_user_memory d sid m) = if decide (sid = sid') then documents_of sid' m ∖ {[d]} else documents_of sid' m.
Proof.
  apply set_eq. intros d'. rewrite joined_elem, users_of_remove.
  assert (d' ∈ documents_of sid' m ↔ sid' ∈ users_of d' m) as Hj by apply joined_elem.
  destruct (decide (d = d')) as [<-|Hd], (decide (sid = sid')); set_solver.
Qed.

Lemma removed_all d l m : users_of d (foldl (λ m sid, remove_user_memory d sid m) m l) = users_of d m ∖ list_to_set l.
Proof.
  revert m. induction l as [|sid l IH]; intros m; cbn [foldl list_to_set]; [set_solver|].
  rewrite IH, users_of_remove, decide_True by done. set_solver.
Qed.

(** ** Merging *)

Section Merging.
Context {D : Type} `{!YDoc D} `{!Equiv D} `{!YDocLaws D}.

Notation decoding l := (Forall (λ u, y_decodes u = true) l).

Lemma merged_ok l : decoding l → merged l = Ok (y_update (foldl y_apply y_empty l)).
Proof.
  intros Hl. unfold merged. assert (H : ∀ doc : D, foldM apply_update doc l = Ok (foldl y_apply doc l)).
  { induction Hl as [|u l Hu Hl IH]; intros doc; [done|]. cbn [foldM]. unfold apply_update. rewrite Hu. apply IH. }
  by rewrite H.
Qed.

#[export] Instance foldl_apply_proper l : Proper ((≡@{D}) ==> (≡)) (λ doc, foldl y_apply doc l).
Proof.
  induction l as [|u l IH]; intros doc doc' Hd; [done|]. cbn. apply IH. by apply (y_apply_proper u).
Qed.

(** The stored updates do what the accepted ones did, and are the same while they are few. *)
Record compacted (h l : list (list Z)) : Prop := {
  co_some : l ≠ [];
  co_few : (length l < COMPACTION_THRESHOLD)%nat;
  co_less : (length l <= length h)%nat;
  co_decode : decoding l;
  co_same (doc : D) : foldl y_apply doc l ≡ foldl y_apply doc h;
  co_early : (length h < COMPACTION_THRESHOLD)%nat → l = h
}.

(** The list after [compact_updates_memory] *)
Definition squashed (l : list (list Z)) : list (list Z) :=
  let mid := Nat.div2 (length l) in y_update (foldl y_apply y_empty (firstn mid l)) :: skipn mid l.

Lemma squashed_decodes l : decoding l → decoding (squashed l).
Proof. intros Hl. constructor; [apply y_update_decodes|by apply Forall_drop]. Qed.

Lemma squashed_same l (doc : D) : decoding l → foldl y_apply doc (squashed l) ≡ foldl y_apply doc l.
Proof.
  intros Hl. unfold squashed. set (mid := Nat.div2 (length l)). cbn [foldl].
  transitivity (foldl y_apply (foldl y_apply doc (firstn mid l)) (skipn mid l)).
  - apply (foldl_apply_proper (skipn mid l)). apply y_update_whole. by apply Forall_take.
  - by rewrite <-foldl_app, firstn_skipn.
Qed.

(** The list after an update is stored *)
Definition appended (l : list (list Z)) (u : list Z) : list (list Z) :=
  let l' := l ++ [u] in if (COMPACTION_THRESHOLD <=? length l')%nat then squashed l' else l'.

Lemma appended_compacted h l u : y_decodes u = true → (l = [] ∧ h = [] ∨ compacted h l) → compacted (h ++ [u]) (appended l u).
Proof.
  intros Hu Hc.
  assert ((length l < COMPACTION_THRESHOLD)%nat ∧ (length l <= length h)%nat ∧ decoding l ∧
    (∀ doc : D, foldl y_apply doc l ≡ foldl y_apply doc h) ∧ ((length h < COMPACTION_THRESHOLD)%nat → l = h)) as (H1 & H2 & H3 & H4 & H5).
  { destruct Hc as [[-> ->]|[]]; [|by split_and!]. unfold COMPACTION_THRESHOLD. cbn. split_and!; [lia..|constructor|done|done]. }
  assert (Hd : decoding (l ++ [u])) by (apply Forall_app; split; [done|by repeat constructor]).
  assert (Hs : ∀ doc : D, foldl y_apply doc (l ++ [u]) ≡ foldl y_apply doc (h ++ [u])).
  { intros doc. rewrite !foldl_app. cbn. by apply (y_apply_proper u). }
  pose proof (length_app l [u]) as Hn. pose proof (length_app h [u]) as Hm. cbn [length] in Hn, Hm.
  unfold appended. cbv zeta. destruct (Nat.leb_spec COMPACTION_THRESHOLD (length (l ++ [u]))).
  - assert (Hlen : length (squashed (l ++ [u])) = 251%nat).
    { unfold squashed. cbn [length]. rewrite length_drop. replace (length (l ++ [u])) with COMPACTION_THRESHOLD by lia. reflexivity. }
    unfold COMPACTION_THRESHOLD in *. split; unfold COMPACTION_THRESHOLD; [done|lia|lia|by apply squashed_decodes| |intros ?; exfalso; lia].
    intros doc. by rewrite squashed_same, Hs.
  - split; [by destruct l|lia|lia|done|done|]. intros ?. by rewrite H5 by lia.
Qed.

(** ** The store in memory *)

Record tracks (h m : memory) : Prop := {
  tr_users : me_users m = me_users h;
  tr_updates d : option_Forall2 compacted (me_updates h !! d) (me_updates m !! d);
  tr_nonempty d users : me_users h !! d = Some users → users ≠ ∅
}.

Lemma tracks_stored h m d : tracks h m →
  (accepted d m = [] ∧ accepted d h = []) ∨ compacted (accepted d h) (accepted d m).
Proof. intros Ht. unfold accepted. destruct (tr_updates _ _ Ht d) as [lh l Hc|]; [by right|by left]. Qed.

Lemma tracks_decoding h m d : tracks h m → decoding (accepted d m).
Proof. intros Ht. destruct (tracks_stored h m d Ht) as [[-> _]|[]]; [constructor|done]. Qed.

Lemma tracks_users_of h m d : tracks h m → users_of d m = users_of d h.
Proof. intros Ht. unfold users_of. by rewrite (tr_users _ _ Ht). Qed.

Lemma tracks_joined h m sid : tracks h m → joined_by sid m = joined_by sid h.
Proof. intros Ht. unfold joined_by. by rewrite (tr_users _ _ Ht). Qed.

Lemma tracks_empty h m d : tracks h m → accepted d m = [] ↔ accepted d h = [].
Proof.
  intros Ht. destruct (tracks_stored h m d Ht) as [[-> ->]|[H1 _ H2 _ _ _]]; [done|].
  split; [done|]. intros E. rewrite E in H2. by destruct (accepted d m); [|cbn in H2; lia].
Qed.

Lemma send_state_tracks h m d : tracks h m →
  ∃ a, send_state d m = (Ok a, m) ∧ shown d h a.
Proof.
  intros Ht. unfold send_state. cbn. unfold st_gets, st_lift. rewrite st_bind_eq. cbn [fst].
  rewrite st_bind_eq. fold (accepted d m). rewrite merged_ok by by eapply tracks_decoding.
  eexists. split; [reflexivity|]. eexists. split; [reflexivity|]. split; [apply y_update_decodes|].
  intros doc. rewrite y_update_whole by by eapply tracks_decoding.
  destruct (tracks_stored h m d Ht) as [[-> ->]|Hc]; [done|apply Hc].
Qed.

Lemma checked_decodes update u : checked_update update = Some u → y_decodes u = true.
Proof.
  intros Hu. unfold checked_update in Hu. apply bind_Some in Hu as (u' & _ & Hu). destruct (y_decodes u') eqn:E; [|done]. cbn in Hu.
  destruct (_ <=? _); [|done]. by injection Hu as <-.
Qed.

(** An update in memory *)
Lemma append_memory_eq d update m : decoding (accepted d m) →
  append_memory d update m =
  match checked_update update with
  | None => (Ok false, m)
  | Some u =>
      if MAX_DOCUMENT_SIZE <? total_size (accepted d m) + size_of u then (Ok false, m)
      else (Ok true, Memory (<[d := appended (accepted d m) u]> (me_updates m)) (me_users m))
  end.
Proof.
  intros Hd. unfold append_memory. destruct (checked_update update) as [u|] eqn:Hu; [|done].
  pose proof (checked_decodes update u Hu) as Hdu.
  unfold st_get. rewrite st_bind_eq. fold (accepted d m). destruct (_ <? _); [done|].
  unfold st_put at 1. rewrite st_bind_eq. unfold appended. cbv zeta.
  destruct (Nat.leb_spec COMPACTION_THRESHOLD (length (accepted d m ++ [u]))) as [Hl|Hl]; [|done].
  rewrite st_bind_eq. unfold compact_updates_memory, st_get. rewrite st_bind_eq. cbn [me_updates me_users].
  rewrite lookup_insert_eq. cbn [default from_option id].
  destruct (Nat.leb_spec (length (accepted d m ++ [u])) 1) as [H|_].
  { unfold COMPACTION_THRESHOLD in Hl. lia. }
  unfold st_lift. rewrite st_bind_eq, merged_ok by (apply Forall_take, Forall_app; split; [done|by repeat constructor]).
  cbn [st_put]. unfold st_put. cbn. by rewrite insert_insert_eq.
Qed.

Lemma append_memory_tracks h m d update : tracks h m → ∃ b m', append_memory d update m = (Ok b, m') ∧
  if (b : bool) then ∃ u, checked_update update = Some u ∧ tracks (accept d u h) m' else m' = m ∧ refusable d update h.
Proof.
  intros Ht. rewrite append_memory_eq by by eapply tracks_decoding. unfold refusable.
  destruct (checked_update update) as [u|] eqn:Hu; [|by eexists false, m].
  pose proof (tracks_stored h m d Ht) as Hc. destruct (Z.ltb_spec MAX_DOCUMENT_SIZE (total_size (accepted d m) + size_of u)) as [Hs|_].
  - exists false, m. split; [done|]. split; [done|]. destruct (Nat.le_gt_cases COMPACTION_THRESHOLD (length (accepted d h))); [by right|left].
    destruct Hc as [[E1 E2]|Hc]; [by rewrite E2, <-E1|]. by rewrite <-(co_early _ _ Hc).
  - eexists true, _. split; [reflexivity|]. exists u. split; [done|]. split; cbn [accept me_users me_updates].
    + apply Ht.
    + intros d'. destruct (decide (d = d')) as [<-|Hne].
      * rewrite !lookup_insert_eq. constructor. apply appended_compacted; [by eapply checked_decodes|].
        destruct Hc as [[-> ->]|Hc]; [by left|by right].
      * rewrite !lookup_insert_ne by done. apply Ht.
    + apply Ht.
Qed.

(** *** Members *)

Lemma tracks_remove h m d sid : tracks h m → tracks (remove_user_memory d sid h) (remove_user_memory d sid m).
Proof.
  intros Ht. split.
  - apply map_eq. intros d'. rewrite !remove_users_of, (tracks_users_of h m) by done. by rewrite (tr_users _ _ Ht).
  - intros d'. rewrite !remove_updates. apply Ht.
  - intros d' users. rewrite remove_users_of. destruct (decide _); [|apply Ht].
    intros (s & _ & H)%bind_Some. unfold without_user in H. destruct (decide _); [done|]. by injection H as <-.
Qed.

Lemma tracks_add h m d sid : tracks h m → tracks (add_user_memory d sid h) (add_user_memory d sid m).
Proof.
  intros Ht. split; cbn.
  - by rewrite (tr_users _ _ Ht).
  - apply Ht.
  - intros d' users [[<- <-]|[_ H]]%lookup_insert_Some; [set_solver|by eapply Ht].
Qed.

Lemma tracks_clear h m d : tracks h m → tracks (clear_memory d h) (clear_memory d m).
Proof.
  intros Ht. split; cbn.
  - by rewrite (tr_users _ _ Ht).
  - intros d'. rewrite !lookup_delete. destruct (decide _); [constructor|apply Ht].
  - intros d' users [_ H]%lookup_delete_Some. by eapply Ht.
Qed.

Lemma tracks_clears h m d active : tracks h m → clears d active m = clears d active h.
Proof. intros Ht. unfold clears. by rewrite (tracks_users_of h m). Qed.

Lemma tracks_cleared h m d active : tracks h m → tracks (cleared d active h) (cleared d active m).
Proof. intros Ht. unfold cleared. rewrite (tracks_clears h m) by done. destruct (clears _ _ _); [by apply tracks_clear|done]. Qed.

Lemma clear_if_unused_eq d active m : clear_if_unused d active m = (Ok (clears d active m), cleared d active m).
Proof.
  unfold clear_if_unused, cleared, clears. rewrite st_bind_eq. cbn [get_users memory_store]. unfold st_gets. fold (users_of d m).
  destruct (decide (users_of d m = ∅)) as [H|H]; [rewrite bool_decide_true by done|by rewrite bool_decide_false by done]. by destruct active.
Qed.

(** Loops over the store *)
Lemma each_eq {A B} (f : A → st memory B) (b : A → memory → B) (g : A → memory → memory) l m :
  (∀ a m, f a m = (Ok (b a m), g a m)) →
  ∃ bs, each f l m = (Ok bs, foldl (λ m a, g a m) m l).
Proof.
  intros Hf. revert m. induction l as [|a l IH]; intros m; cbn [each]; [by eexists|].
  rewrite st_bind_eq, Hf, st_bind_eq. destruct (IH (g a m)) as [bs Hbs]. rewrite Hbs. by eexists.
Qed.

(** Closing a document *)
Lemma clear_removed d m l : clear_memory d (foldl (λ m sid, remove_user_memory d sid m) m l) = clear_memory d m.
Proof.
  revert m. induction l as [|sid l IH]; intros m; [done|]. cbn [foldl]. rewrite IH. unfold clear_memory. rewrite remove_updates. f_equal.
  apply map_eq. intros d'. rewrite !lookup_delete, remove_users_of. destruct (decide (d = d')); [done|]. by rewrite decide_False by tauto.
Qed.

Lemma close_document_eq d m : close_document d m = (Ok Nothing, clear_memory d m).
Proof.
  unfold close_document. rewrite st_bind_eq. cbn [get_users memory_store]. unfold st_gets. rewrite st_bind_eq.
  destruct (each_eq (λ sid, remove_user d sid) (λ _ _, tt) (λ sid m, remove_user_memory d sid m)
    (elements (default ∅ (me_users m !! d))) m) as [bs ->]; [done|].
  rewrite st_bind_eq. cbn [clear_document memory_store]. unfold st_modify. by rewrite clear_removed.
Qed.

(** *** A session that ends *)

Section Departure.
Context (sid : string) (active : gset string).

Definition last_one (m : memory) (d : string) : Prop := users_of d m = {[sid]} ∧ d ∉ active.
#[local] Instance last_one_dec m d : Decision (last_one m d) := _.

Definition depart_from (d : string) (m : memory) : memory := cleared d (bool_decide (d ∈ active)) (remove_user_memory d sid m).
Definition departing (d : string) : st memory (list string) :=
  _ ← remove_user d sid;
  cleared ← clear_if_unused d (bool_decide (d ∈ active));
  mret (if (cleared : bool) then [d] else []).

Lemma last_clears d m : sid ∈ users_of d m →
  clears d (bool_decide (d ∈ active)) (remove_user_memory d sid m) = bool_decide (last_one m d).
Proof.
  intros Hs. unfold clears. rewrite removed_users by done. apply eq_true_iff_eq.
  rewrite andb_true_iff, negb_true_iff, bool_decide_eq_true, bool_decide_eq_false, bool_decide_eq_true. unfold last_one.
  assert (users_of d m ∖ {[sid]} = ∅ ↔ users_of d m = {[sid]}) as ->; [|done]. split; [|set_solver]. intros H. apply set_eq. intros x.
  rewrite elem_of_singleton. split; [|by intros ->]. intros Hx. destruct (decide (x = sid)); [done|exfalso; set_solver].
Qed.

Lemma depart_from_users d m d' : sid ∈ users_of d m →
  me_users (depart_from d m) !! d' = if decide (d = d') then me_users m !! d ≫= without_user sid else me_users m !! d'.
Proof.
  intros Hs. unfold depart_from, cleared. rewrite last_clears by done. destruct (bool_decide_reflect (last_one m d)) as [[Hl _]|_]; cbn.
  - rewrite lookup_delete, remove_users_of. destruct (decide (d = d')); [|by rewrite decide_False by tauto].
    unfold users_of in Hl. destruct (me_users m !! d) as [users|]; cbn in *; [|done]. subst users.
    unfold without_user. by rewrite decide_True by set_solver.
  - rewrite remove_users_of. destruct (decide (d = d')); [by rewrite decide_True|by rewrite decide_False by tauto].
Qed.

Lemma depart_from_updates d m d' : sid ∈ users_of d m →
  me_updates (depart_from d m) !! d' = if decide (d = d' ∧ last_one m d) then None else me_updates m !! d'.
Proof.
  intros Hs. unfold depart_from, cleared. rewrite last_clears by done. destruct (bool_decide_reflect (last_one m d)) as [Hl|Hl]; cbn.
  - rewrite lookup_delete, remove_updates. destruct (decide (d = d')); [by rewrite decide_True|by rewrite decide_False by tauto].
  - rewrite remove_updates, decide_False; [done|tauto].
Qed.

Lemma departing_eq d m : sid ∈ users_of d m → departing d m = (Ok (if decide (last_one m d) then [d] else []), depart_from d m).
Proof.
  intros Hs. unfold departing. rewrite st_bind_eq. cbn [remove_user memory_store]. unfold st_modify.
  rewrite st_bind_eq, clear_if_unused_eq, last_clears by done. cbn. by destruct (bool_decide_reflect (last_one m d)) as [?|?], (decide (last_one m d)).
Qed.

Lemma depart_from_other d d' m : sid ∈ users_of d m → d ≠ d' → users_of d' (depart_from d m) = users_of d' m.
Proof. intros Hs Hne. unfold users_of at 1. by rewrite depart_from_users, decide_False. Qed.

Lemma each_departing l m : NoDup l → (∀ d, d ∈ l → sid ∈ users_of d m) → ∃ bs m', each departing l m = (Ok bs, m') ∧
  list_to_set (concat bs) = filter (last_one m) (list_to_set l : gset string) ∧
  (∀ d, me_users m' !! d = if decide (d ∈ l) then me_users m !! d ≫= without_user sid else me_users m !! d) ∧
  (∀ d, me_updates m' !! d = if decide (d ∈ l ∧ last_one m d) then None else me_updates m !! d).
Proof.
  intros Hnd. revert m. induction Hnd as [|d l Hd Hnd IH]; intros m Hl; cbn [each].
  - eexists _, _. split; [reflexivity|]. split_and!; [set_solver| |]; intros d; by rewrite decide_False by set_solver.
  - rewrite st_bind_eq. specialize (Hl d) as Hs. rewrite departing_eq by (apply Hs; left). rewrite st_bind_eq.
    assert (Hsame : ∀ d', d' ∈ l → users_of d' (depart_from d m) = users_of d' m).
    { intros d' Hd'. apply depart_from_other; [apply Hs; left|congruence]. }
    destruct (IH (depart_from d m)) as (bs & m' & -> & Hset & Hu & Hup).
    { intros d' Hd'. rewrite Hsame by done. apply Hl. by right. }
    eexists _, m'. split; [reflexivity|]. split_and!.
    + cbn [concat]. rewrite list_to_set_app_L, Hset. apply set_eq. intros d'.
      rewrite elem_of_union, !elem_of_filter, !elem_of_list_to_set, elem_of_cons.
      assert (d' ∈ l → last_one (depart_from d m) d' ↔ last_one m d') as Hlast by (intros H; unfold last_one; by rewrite Hsame).
      clear -Hlast Hd. destruct (decide (last_one m d)); [rewrite list_elem_of_singleton|rewrite elem_of_nil].
      * split; [intros [->|[? ?]]|intros [? [->|?]]]; tauto.
      * split; [intros [[]|[? ?]]|intros [? [->|?]]]; tauto.
    + intros d'. rewrite Hu, depart_from_users by (apply Hs; left). destruct (decide (d' ∈ l)) as [H|H].
      * rewrite (decide_True (P := d' ∈ d :: l)) by (by right). by rewrite decide_False by congruence.
      * destruct (decide (d = d')) as [<-|]; [by rewrite decide_True by left|]. rewrite decide_False; [done|]. set_solver.
    + intros d'. rewrite Hup, depart_from_updates by (apply Hs; left).
      assert (d' ∈ l → last_one (depart_from d m) d' ↔ last_one m d') as Hlast by (intros H; unfold last_one; by rewrite Hsame).
      destruct (decide (d' ∈ l ∧ last_one (depart_from d m) d')) as [[H1 H2]|H].
      { rewrite decide_True; [done|]. split; [by right|by apply Hlast]. }
      destruct (decide (d = d' ∧ last_one m d)) as [[-> Ha]|Ha]; [rewrite decide_True; [done|split; [left|done]]|].
      rewrite decide_False; [done|]. intros [[->|Hin]%elem_of_cons Hb]; [tauto|]. apply H. split; [done|]. by apply Hlast.
Qed.

Lemma disconnect_eq m : (∀ d users, me_users m !! d = Some users → users ≠ ∅) →
  remove_user_from_all_documents sid active m = (Ok (Disconnected (documents_of sid m) (abandoned sid active m)), depart sid active m).
Proof.
  intros Hne. unfold remove_user_from_all_documents. rewrite st_bind_eq. cbn [documents_of_user memory_store]. unfold st_gets.
  fold (documents_of sid m). change (λ d, remove_user d sid ≫= _) with departing. rewrite st_bind_eq.
  destruct (each_departing (elements (documents_of sid m)) m) as (bs & m' & -> & Hset & Hu & Hup).
  { apply NoDup_elements. } { intros d Hd%elem_of_elements. by apply joined_elem. }
  rewrite list_to_set_elements_L in Hset.
  assert (list_to_set (concat bs) = abandoned sid active m) as -> by exact Hset.
  cbn. unfold mret, st_ret. f_equal. destruct m' as [updates users]. unfold depart. cbn in Hu, Hup. f_equal; apply map_eq; intros d.
  - rewrite Hup. destruct (decide _) as [[H1%elem_of_elements H2]|H].
    + symmetry. apply map_lookup_filter_None. right. intros x _ Hx. apply Hx. by apply elem_of_filter.
    + destruct (me_updates m !! d) as [x|] eqn:E; symmetry.
      * apply map_lookup_filter_Some. split; [done|]. cbn. intros [H2 H1]%elem_of_filter. apply H. by rewrite elem_of_elements.
      * apply map_lookup_filter_None. by left.
  - rewrite Hu, lookup_omap. destruct (decide _) as [H|H]; [done|].
    destruct (me_users m !! d) as [x|] eqn:E; [|done]. cbn. unfold without_user.
    assert (sid ∉ x) as Hx by (intros Hx; apply H, elem_of_elements, joined_elem; unfold users_of; by rewrite E).
    assert (x ∖ {[sid]} = x) as -> by set_solver. by rewrite decide_False by eauto.
Qed.
End Departure.

Lemma tracks_documents h m sid : tracks h m → documents_of sid m = documents_of sid h.
Proof. intros Ht. unfold documents_of. by rewrite (tracks_joined h m). Qed.

Lemma tracks_abandoned h m sid active : tracks h m → abandoned sid active m = abandoned sid active h.
Proof.
  intros Ht. unfold abandoned. rewrite (tracks_documents h m) by done. apply set_eq. intros d.
  by rewrite !elem_of_filter, (tracks_users_of h m).
Qed.

Lemma tracks_depart h m sid active : tracks h m → tracks (depart sid active h) (depart sid active m).
Proof.
  intros Ht. split; cbn.
  - by rewrite (tr_users _ _ Ht).
  - intros d. rewrite (tracks_abandoned h m) by done. rewrite !map_lookup_filter. destruct (tr_updates _ _ Ht d); [|constructor].
    cbn. rewrite !option_guard_decide. cbn. destruct (decide _); by constructor.
  - intros d users. rewrite lookup_omap. intros (s & _ & H)%bind_Some. unfold without_user in H.
    destruct (decide _); [done|]. by injection H as <-.
Qed.

Lemma store_tracks h m d update : tracks h m → ∃ a h' m', store d update m = (Ok a, m') ∧ tracks h' m' ∧
  if truthy update then
    (a = Stored ∧ ∃ u, checked_update update = Some u ∧ h' = accept d u h) ∨ (a = NotStored ∧ refusable d update h ∧ h' = h)
  else a = Nothing ∧ h' = h.
Proof.
  intros Ht. unfold store. destruct (truthy update); [|by exists Nothing, h, m]. rewrite st_bind_eq. cbn [append_to_updates memory_store].
  destruct (append_memory_tracks h m d update Ht) as (b & m' & -> & H). destruct b.
  - destruct H as (u & Hu & Ht'). eexists _, _, m'. split; [done|]. split; [exact Ht'|]. left. eauto.
  - destruct H as [-> H]. eexists _, h, m. split; [done|]. split; [done|]. by right.
Qed.

(** A request in memory does what is specified. *)
Lemma handle_tracks h m request : tracks h m →
  ∃ a h' m', handle request m = (Ok a, m') ∧ specified h request a h' ∧ tracks h' m'.
Proof.
  intros Ht. destruct request as [sid d|d|d initialize update|sid d active|sid d|d|d|sid active]; cbn [handle specified].
  - unfold join_document. rewrite st_bind_eq. cbn [get_users memory_store]. unfold st_gets at 1. fold (users_of d m). rewrite (tracks_users_of h m) by done.
    cbn beta iota.
    assert (Hadd : ∃ a h' m', (_ ← add_user d sid; send_state d) m = (Ok a, m') ∧ (shown d h a ∧ h' = add_user_memory d sid h) ∧ tracks h' m').
    { rewrite st_bind_eq. cbn [add_user memory_store]. unfold st_modify. apply (tracks_add _ _ d sid) in Ht.
      destruct (send_state_tracks _ _ d Ht) as (a & -> & Ha). eexists a, _, _. by split_and!. }
    destruct Hadd as (a & h' & m' & Hadd & [Ha ->] & Ht').
    unfold full. destruct (decide (sid ∈ users_of d h)) as [Hin|Hin].
    + rewrite st_bind_eq. cbn [mret st_ret]. unfold mret, st_ret. rewrite Hadd. eexists a, _, m'. split; [done|]. split; [|exact Ht']. right. by split_and!; [intros [? _]| |].
    + rewrite !st_bind_eq. cbn [count_documents_for_user memory_store]. unfold st_gets.
      assert (size (joined_by sid m) = size (documents_of sid h)) as ->.
      { rewrite <-(tracks_documents h m) by done. unfold documents_of. by rewrite size_dom. }
      unfold mret, st_ret. cbn beta iota. destruct (Nat.leb_spec MAX_DOCUMENTS_PER_SESSION (size (documents_of sid h))).
      * exists JoinRefused, h, m. split; [done|]. split; [by left|done].
      * rewrite Hadd. eexists a, _, m'. split; [done|]. split; [|exact Ht']. right. split_and!; [intros [_ ?]; lia|done|done].
  - unfold get_state. rewrite st_bind_eq. cbn [document_exists memory_store]. unfold st_gets.
    destruct (send_state_tracks _ _ d Ht) as (a & Hs & Ha). unfold accepted. destruct (tr_updates _ _ Ht d) as [lh l Hc|]; cbn [default from_option id].
    + rewrite bool_decide_true by eauto. cbn beta iota. rewrite Hs. exists a, h, m. split_and!; [done|done| |done]. rewrite decide_False; [done|].
      intros ->. destruct Hc as [H _ Hl _ _ _]. by destruct l; [|cbn in Hl; lia].
    + rewrite bool_decide_false by (by intros [? ?]). by exists NoDocument, h, m.
  - unfold update_document. destruct initialize; cbn [andb].
    + rewrite st_bind_eq. cbn [get_updates memory_store]. unfold st_gets. fold (accepted d m).
      pose proof (tracks_empty h m d Ht) as He. destruct (send_state_tracks _ _ d Ht) as (a & Hs & Ha).
      destruct (accepted d m) as [|u l] eqn:E.
      * rewrite bool_decide_true by by apply He. cbn. destruct (store_tracks h m d update Ht) as (b & h' & m' & H1 & H2 & H3).
        by exists b, h', m'.
      * rewrite bool_decide_false by (intros H; by apply He in H). cbn [negb]. exists a, h, m. split; [|done].
        change (send_state d m) with ((state ← st_lift (merged (accepted d m)); mret (State state)) m) in Hs.
        rewrite E in Hs. exact Hs.
    + destruct (store_tracks h m d update Ht) as (b & h' & m' & H1 & H2 & H3). by exists b, h', m'.
  - unfold leave. rewrite st_bind_eq. cbn [remove_user memory_store]. unfold st_modify. rewrite st_bind_eq, clear_if_unused_eq.
    apply (tracks_remove _ _ d sid) in Ht. rewrite (tracks_clears _ _ d active Ht). eexists _, _, _. split; [reflexivity|].
    split; [by split|by apply tracks_cleared].
  - rewrite st_bind_eq. cbn [remove_user memory_store]. unfold st_modify. eexists _, _, _. split; [reflexivity|].
    split; [by split|by apply tracks_remove].
  - rewrite st_bind_eq, clear_if_unused_eq. rewrite (tracks_clears _ _ d false Ht). eexists _, _, _. split; [reflexivity|].
    split; [by split|by apply tracks_cleared].
  - rewrite close_document_eq. eexists _, _, _. split; [reflexivity|]. split; [by split|by apply tracks_clear].
  - rewrite disconnect_eq by (intros d users; rewrite (tr_users _ _ Ht); apply Ht).
    rewrite (tracks_documents h m), (tracks_abandoned h m) by done. eexists _, _, _. split; [reflexivity|].
    split; [by split|by apply tracks_depart].
Qed.
End Merging.

(** ** The store in Redis *)

Section Redis.
Context {D : Type} `{!YDoc D} `{!Equiv D} `{!YDocLaws D}.
Context {R : Type} `{!RedisKeys R} `{!RedisKeysLaws R} {codec : JsonCodec} (prefix : string).
(** What a list of bytes is written as is read back. *)
Hypothesis bytes_are_json : ∀ l, bytes_of (VList l) ≠ None → is_json (VList l).

Notation key := (key prefix).
Notation session_key := (session_key prefix).
Notation decoding l := (Forall (λ u, y_decodes u = true) l).

Definition kinds : list string := ["updates"; "users"; "size"; "documents"].

Lemma key_inj kind d kind' d' : kind ∈ kinds → kind' ∈ kinds → key kind d = key kind' d' → kind = kind' ∧ d = d'.
Proof.
  intros Hk Hk' H.
  assert (∀ k, k ∈ kinds → Str.sforallb (λ c, negb (Ascii.eqb ":"%char c)) k = true) as Hc.
  { intros k. unfold kinds. rewrite !elem_of_cons, elem_of_nil. by intros [->|[->|[->|[->|[]]]]]. }
  apply Str.last_sep_inj in H as [H ->]; [|by apply Hc..]. split; [done|].
  by repeat apply (inj (String.append _)) in H.
Qed.

Lemma value_put kind d v (r : R) kind' d' : kind ∈ kinds → kind' ∈ kinds →
  key_value (put_key (key kind d) v r) (key kind' d') =
  if decide (kind = kind' ∧ d = d') then v else key_value r (key kind' d').
Proof.
  intros Hk Hk'. destruct (decide (kind = kind' ∧ d = d')) as [[<- <-]|Hne]; [apply key_put_eq|].
  apply key_put_ne. intros E. by apply key_inj in E.
Qed.

Lemma value_put_same kind d v (r : R) d' : kind ∈ kinds →
  key_value (put_key (key kind d) v r) (key kind d') = if decide (d = d') then v else key_value r (key kind d').
Proof.
  intros Hk. rewrite value_put by done. destruct (decide (d = d')) as [->|]; [by rewrite decide_True|by rewrite decide_False by tauto].
Qed.

Lemma value_put_other kind d v (r : R) kind' d' : kind ∈ kinds → kind' ∈ kinds → kind ≠ kind' →
  key_value (put_key (key kind d) v r) (key kind' d') = key_value r (key kind' d').
Proof. intros. by rewrite value_put, decide_False by tauto. Qed.

(** *** Bytes as JSON *)

Definition written (raw : string) (u : list Z) : Prop := ∃ l, loads raw = Ok (VList l) ∧ bytes_of (VList l) = Some u.

Lemma bytes_length l u : bytes_of (VList l) = Some u → length u = length l.
Proof. cbn. intros H. symmetry. by eapply length_mapM. Qed.

Lemma written_bytes raw u : written raw u → stored_bytes raw = Ok u.
Proof. intros (l & Hl & Hu). unfold stored_bytes. rewrite Hl. cbn [mbind res_bind]. by rewrite Hu. Qed.

Lemma written_length raw u : written raw u → stored_length raw = Ok (size_of u).
Proof. intros (l & Hl & Hu). unfold stored_length, size_of. rewrite Hl. cbn. by rewrite (bytes_length _ _ Hu). Qed.

Lemma mapR_written {A} (f : string → res A) (g : list Z → A) ts l :
  (∀ t u, written t u → f t = Ok (g u)) → Forall2 written ts l → mapR f ts = Ok (g <$> l).
Proof. intros Hf. induction 1 as [|t u ts l H _ IH]; [done|]. cbn. rewrite (Hf _ _ H). cbn. by rewrite IH. Qed.

Lemma write_update update u : bytes_of update = Some u → ∃ t, dumps update = Ok t ∧ written t u.
Proof.
  intros Hu. destruct update as [| | | | |l|]; try done.
  destruct (loads_dumps (VList l)) as (t & Ht & Hl & _); [apply bytes_are_json; by rewrite Hu|]. exists t. split; [done|]. by exists l.
Qed.

Lemma bytes_of_value u : Forall (λ b, 0 <= b < 256) u → bytes_of (bytes_value u) = Some u.
Proof.
  cbn. induction 1 as [|b u [H1 H2] _ IH]; [done|]. cbn. apply Z.leb_le in H1. apply Z.ltb_lt in H2. rewrite H1, H2. cbn. by rewrite IH.
Qed.

(** *** Agreement *)

Definition same_updates (v : option redis_value) (l : option (list (list Z))) : Prop :=
  match v, l with
  | None, None => True
  | Some (RList ts), Some l => Forall2 written ts l
  | _, _ => False
  end.

Definition counts (v : option redis_value) (n : Z) : Prop := match v with None => n = 0 | Some v => v = RNumber n end.

Record agree (r : R) (m : memory) : Prop := {
  ag_updates d : same_updates (key_value r (key "updates" d)) (me_updates m !! d);
  ag_size d : counts (key_value r (key "size" d)) (total_size (accepted d m));
  ag_users d : key_value r (key "users" d) = RSet <$> me_users m !! d;
  ag_documents sid : key_value r (session_key sid) = members_value (documents_of sid m)
}.

(** The program in Redis does at [m] what the program in memory does. *)
Definition follows {A} (p : st R A) (q : st memory A) (m : memory) : Prop :=
  ∀ r, agree r m → ∃ a r' m', p r = (Ok a, r') ∧ q m = (Ok a, m') ∧ agree r' m'.

Lemma follows_ret {A} (a : A) m : follows (mret a) (mret a) m.
Proof. intros r Hr. by exists a, r, m. Qed.

Lemma follows_bind {A B} (p : st R A) q (f : A → st R B) g m : follows p q m →
  (∀ a m', q m = (Ok a, m') → follows (f a) (g a) m') → follows (p ≫= f) (q ≫= g) m.
Proof.
  intros Hp Hf r Hr. destruct (Hp r Hr) as (a & r' & m' & Hpr & Hqm & Hr'). rewrite !st_bind_eq, Hpr, Hqm. by apply Hf.
Qed.

Lemma follows_lift {A B} (x : res A) a (f : A → st R B) g m : x = Ok a → follows (f a) (g a) m →
  follows (st_lift x ≫= f) (st_lift x ≫= g) m.
Proof. intros -> H r Hr. rewrite !st_bind_eq. by apply H. Qed.

Lemma follows_each {A B} (f : A → st R B) (g : A → st memory B) (I : memory → Prop) l m :
  (∀ a m, a ∈ l → I m → follows (f a) (g a) m) → (∀ a m b m', a ∈ l → I m → g a m = (Ok b, m') → I m') → I m →
  follows (each f l) (each g l) m.
Proof.
  intros Hf HI. revert m. induction l as [|a l IH]; intros m Hm; cbn [each]; [apply follows_ret|].
  apply follows_bind; [apply Hf; [left|done]|]. intros b m' Hb. apply follows_bind; [|intros; apply follows_ret].
  apply IH; [intros; apply Hf; [by right|done]|intros a' m1 b' m2 Ha'; apply HI; by right|]. eapply HI; [left|exact Hm|exact Hb].
Qed.

#[local] Instance documents_in_redis : DocumentStore R := redis_store (D := D) prefix.
#[local] Instance documents_in_memory : DocumentStore memory := memory_store D.

Ltac plain_kind := unfold kinds; rewrite !elem_of_cons; tauto.
Ltac look := repeat first [rewrite value_put_same by plain_kind | rewrite value_put_other by first [done | plain_kind]].

(** *** Reads *)

Lemma lrange_agrees r m d : agree r m → ∃ ts, lrange (key "updates" d) r = (Ok ts, r) ∧ Forall2 written ts (accepted d m).
Proof.
  intros Hr. unfold lrange, read_key, accepted. pose proof (ag_updates _ _ Hr d) as H.
  destruct (key_value r _) as [[ts| |]|], (me_updates m !! d) as [l|]; try done; [by exists ts|by exists []].
Qed.

Lemma smembers_agrees r k s : key_value r k = members_value s → smembers k r = (Ok s, r).
Proof. intros H. unfold smembers, read_key. rewrite H. unfold members_value. destruct (decide (s = ∅)) as [->|]; done. Qed.

Lemma get_updates_follows d m : follows (get_updates (S := R) d) (get_updates (S := memory) d) m.
Proof.
  intros r Hr. cbn. destruct (lrange_agrees r m d Hr) as (ts & Hts & Hw). rewrite st_bind_eq, Hts. unfold st_lift.
  rewrite (mapR_written _ id ts (accepted d m)); [|intros; by apply written_bytes|done].
  rewrite list_fmap_id. by eexists _, r, m.
Qed.

Lemma document_exists_follows d m : follows (document_exists (S := R) d) (document_exists (S := memory) d) m.
Proof.
  intros r Hr. cbn. unfold exists_key, read_key, st_gets. eexists _, r, m. split; [done|]. split; [|done].
  pose proof (ag_updates _ _ Hr d) as H. by destruct (key_value r _) as [[| |]|], (me_updates m !! d).
Qed.

Lemma get_users_follows d m : follows (get_users (S := R) d) (get_users (S := memory) d) m.
Proof.
  intros r Hr. cbn. unfold smembers, read_key, st_gets. rewrite (ag_users _ _ Hr). destruct (me_users m !! d) as [users|]; cbn; by eexists _, r, m.
Qed.

Lemma count_follows sid m : follows (count_documents_for_user (S := R) sid) (count_documents_for_user (S := memory) sid) m.
Proof.
  intros r Hr. cbn. rewrite st_bind_eq, (smembers_agrees _ _ _ (ag_documents _ _ Hr sid)). unfold mret, st_ret, st_gets.
  eexists _, r, m. split; [done|]. split; [|done]. unfold documents_of. by rewrite size_dom.
Qed.

Lemma documents_of_user_follows sid m : follows (documents_of_user (S := R) sid) (documents_of_user (S := memory) sid) m.
Proof.
  intros r Hr. cbn. rewrite (smembers_agrees _ _ _ (ag_documents _ _ Hr sid)). by eexists _, r, m.
Qed.

(** *** Members *)

Lemma change_set_eq k f s (r : R) : key_value r k = members_value s →
  change_set k f r = (Ok tt, put_key k (members_value (f s)) r).
Proof. intros H. unfold change_set, rewrite_key. rewrite H. unfold members_value. by destruct (decide (s = ∅)) as [->|]. Qed.

Lemma session_key_inj sid sid' : "session:" +:+ sid = "session:" +:+ sid' ↔ sid = sid'.
Proof. split; [|by intros ->]. intros H. by apply (inj (String.append _)) in H. Qed.

Lemma members_users v : (∀ s, v = Some s → s ≠ ∅) → RSet <$> v = members_value (default ∅ v).
Proof.
  intros H. destruct v as [s|]; cbn; unfold members_value; [by rewrite decide_False by eauto|by rewrite decide_True].
Qed.

Lemma add_user_follows d sid m : (∀ d users, me_users m !! d = Some users → users ≠ ∅) →
  follows (add_user (S := R) d sid) (add_user (S := memory) d sid) m.
Proof.
  intros Hne r Hr. cbn. unfold sadd. rewrite st_bind_eq.
  rewrite (change_set_eq _ _ (users_of d m)) by (rewrite (ag_users _ _ Hr); apply members_users; eauto).
  rewrite (change_set_eq _ _ (documents_of sid m)) by (unfold Documents.session_key; look; apply (ag_documents _ _ Hr)).
  eexists _, _, _. split; [reflexivity|]. split; [reflexivity|]. unfold Documents.session_key. split.
  - intros d'. look. apply Hr.
  - intros d'. look. apply Hr.
  - intros d'. look. unfold add_user_memory. cbn. destruct (decide (d = d')) as [<-|Hd].
    + rewrite lookup_insert_eq. unfold members_value. by rewrite decide_False by set_solver.
    + rewrite lookup_insert_ne by done. apply Hr.
  - intros sid'. unfold Documents.session_key. look. rewrite documents_of_add. pose proof (ag_documents _ _ Hr sid') as H.
    destruct (decide (sid = sid')) as [<-|Hs]; [by rewrite decide_True|].
    rewrite decide_False by (by rewrite session_key_inj). exact H.
Qed.

Definition inhabited_users (m : memory) : Prop := ∀ d users, me_users m !! d = Some users → users ≠ ∅.

Lemma inhabited_value m d : inhabited_users m → RSet <$> me_users m !! d = members_value (users_of d m).
Proof. intros Hm. apply members_users, Hm. Qed.

Lemma inhabited_remove d sid m : inhabited_users m → inhabited_users (remove_user_memory d sid m).
Proof.
  intros Hm d' users. rewrite remove_users_of. destruct (decide _); [|apply Hm].
  intros (s & _ & H)%bind_Some. unfold without_user in H. destruct (decide _); [done|]. by injection H as <-.
Qed.

Lemma remove_user_follows d sid m : inhabited_users m →
  follows (remove_user (S := R) d sid) (remove_user (S := memory) d sid) m.
Proof.
  intros Hne r Hr. cbn. unfold srem. rewrite st_bind_eq.
  rewrite (change_set_eq _ _ (users_of d m)) by (rewrite (ag_users _ _ Hr); by apply inhabited_value).
  rewrite (change_set_eq _ _ (documents_of sid m)) by (unfold Documents.session_key; look; apply (ag_documents _ _ Hr)).
  eexists _, _, _. split; [reflexivity|]. split; [reflexivity|]. unfold Documents.session_key. split.
  - intros d'. look. rewrite remove_updates. apply Hr.
  - intros d'. look. unfold accepted. rewrite remove_updates. apply Hr.
  - intros d'. look. rewrite inhabited_value, users_of_remove by by apply inhabited_remove.
    destruct (decide (d = d')) as [<-|Hd]; [done|]. rewrite (ag_users _ _ Hr). by apply inhabited_value.
  - intros sid'. unfold Documents.session_key. look. rewrite documents_of_remove. pose proof (ag_documents _ _ Hr sid') as H.
    destruct (decide (sid = sid')) as [<-|Hs]; [by rewrite decide_True|].
    rewrite decide_False by (by rewrite session_key_inj). exact H.
Qed.

Lemma clear_document_follows d m : inhabited_users m → users_of d m = ∅ →
  follows (clear_document (S := R) d) (clear_document (S := memory) d) m.
Proof.
  intros Hne He r Hr. cbn. eexists _, _, _. split; [reflexivity|]. split; [reflexivity|].
  assert (me_users m !! d = None) as Hn.
  { destruct (me_users m !! d) as [users|] eqn:E; [|done]. unfold users_of in He. rewrite E in He. by apply Hne in E. }
  split.
  - intros d'. look. cbn. rewrite lookup_delete. destruct (decide (d = d')); [done|apply Hr].
  - intros d'. look. unfold accepted. cbn. rewrite lookup_delete. destruct (decide (d = d')); [done|apply Hr].
  - intros d'. look. cbn. rewrite lookup_delete. destruct (decide (d = d')); [done|apply Hr].
  - intros sid. unfold Documents.session_key. look. etransitivity; [apply (ag_documents _ _ Hr sid)|]. f_equal. unfold documents_of, joined_by. cbn.
    by rewrite delete_id.
Qed.

(** *** Updates *)

Lemma accepted_put d l updates users d' :
  accepted d' (Memory (<[d := l]> updates) users) = if decide (d = d') then l else accepted d' (Memory updates users).
Proof. unfold accepted. cbn. rewrite lookup_insert. by destruct (decide (d = d')). Qed.

Lemma compact_follows d m : decoding (accepted d m) →
  follows (compact_updates_redis prefix d) (compact_updates_memory d) m.
Proof.
  intros Hd r Hr. destruct (lrange_agrees r m d Hr) as (ts & Hts & Hw). pose proof (Forall2_length _ _ _ Hw) as Hlen.
  unfold compact_updates_redis, compact_updates_memory. rewrite st_bind_eq, Hts. unfold st_get. rewrite st_bind_eq. fold (accepted d m).
  rewrite Hlen. destruct (length (accepted d m) <=? 1)%nat; [by eexists _, r, m|].
  set (mid := Nat.div2 (length (accepted d m))).
  pose proof (Forall_take (λ u, y_decodes u = true) mid (accepted d m) Hd) as Hdt.
  rewrite !(st_bind_eq (st_lift _)). unfold st_lift.
  rewrite (mapR_written _ id _ (take mid (accepted d m))); [|intros; by apply written_bytes|by apply Forall2_take].
  rewrite list_fmap_id, !st_bind_eq, merged_ok by done. set (snapshot := y_update _).
  destruct (write_update (bytes_value snapshot) snapshot) as (text & Htext & Hwt); [apply bytes_of_value, y_update_bytes|].
  rewrite st_bind_eq, Htext, st_bind_eq. unfold delete_key, rewrite_key. cbn beta iota.
  rewrite st_bind_eq. unfold rpush, rewrite_key. look. rewrite decide_True by done.
  rewrite st_bind_eq, (mapR_written _ size_of _ (drop mid (accepted d m))); [|intros; by apply written_length|by apply Forall2_drop].
  unfold set_number, rewrite_key. eexists _, _, _. split; [reflexivity|]. split; [reflexivity|].
  assert (Hsum : ∀ l, foldr Z.add 0 (size_of <$> l) = total_size l) by (induction l as [|u l IH]; [done|cbn [fmap list_fmap foldr total_size]; by rewrite IH]).
  split.
  - intros d'. look. cbn [me_updates]. destruct (decide (d = d')) as [<-|Hne].
    + rewrite lookup_insert_eq. cbn. constructor; [done|by apply Forall2_drop].
    + rewrite lookup_insert_ne by done. apply Hr.
  - intros d'. look. rewrite accepted_put. destruct (decide (d = d')) as [<-|Hne]; [|apply Hr].
    cbn [counts total_size foldr]. by rewrite Hsum.
  - intros d'. look. apply Hr.
  - intros sid. unfold Documents.session_key. look. apply (ag_documents _ _ Hr sid).
Qed.

Lemma incrby_eq k n x (r : R) : counts (key_value r k) n → incrby k x r = (Ok (n + x), put_key k (Some (RNumber (n + x))) r).
Proof. intros H. unfold incrby, rewrite_key. destruct (key_value r k) as [v|]; cbn in H; subst; [done|by rewrite Z.add_0_l]. Qed.

Lemma total_size_snoc l u : total_size (l ++ [u]) = total_size l + size_of u.
Proof. induction l as [|v l IH]; cbn [app total_size foldr]; [lia|]. fold (total_size (l ++ [u])) (total_size l). lia. Qed.

Lemma append_follows d update m : decoding (accepted d m) →
  follows (append_to_updates (S := R) d update) (append_to_updates (S := memory) d update) m.
Proof.
  intros Hd r Hr. cbn. unfold append_redis, append_memory. destruct (checked_update update) as [u|] eqn:Hu; [|by eexists false, r, m].
  pose proof (checked_decodes update u Hu) as Hdu. apply bind_Some in Hu as (u' & Hu & Hu').
  destruct (_ && _); [|done]. injection Hu' as ->. destruct (write_update update u Hu) as (text & Htext & Hwt).
  rewrite st_bind_eq, (incrby_eq _ (total_size (accepted d m))) by apply Hr. unfold st_get. rewrite (st_bind_eq (λ s, (Ok s, s))).
  fold (accepted d m). destruct (MAX_DOCUMENT_SIZE <? total_size (accepted d m) + size_of u).
  - unfold decrby. rewrite st_bind_eq, (incrby_eq _ (total_size (accepted d m) + size_of u)) by by look; rewrite decide_True.
    eexists false, _, m. split; [reflexivity|]. split; [reflexivity|]. split.
    + intros d'. look. apply Hr.
    + intros d'. look. destruct (decide (d = d')) as [<-|]; [cbn [counts]; f_equal; lia|apply Hr].
    + intros d'. look. apply Hr.
    + intros sid. unfold Documents.session_key. look. apply (ag_documents _ _ Hr sid).
  - rewrite st_bind_eq. unfold st_lift. rewrite Htext, st_bind_eq. unfold st_put. rewrite (st_bind_eq (λ _, (Ok tt, _))).
    set (m1 := Memory _ (me_users m)). destruct (lrange_agrees r m d Hr) as (ts & Hts & Hw).
    assert (∃ r1, rpush (key "updates" d) [text] (put_key (key "size" d) (Some (RNumber (total_size (accepted d m) + size_of u))) r) = (Ok tt, r1) ∧
      agree r1 m1 ∧ accepted d m1 = accepted d m ++ [u]) as (r1 & -> & Hr1 & Hacc).
    { assert (Hpush : rpush (key "updates" d) [text] (put_key (key "size" d) (Some (RNumber (total_size (accepted d m) + size_of u))) r) =
        (Ok tt, put_key (key "updates" d) (Some (RList (ts ++ [text]))) (put_key (key "size" d) (Some (RNumber (total_size (accepted d m) + size_of u))) r))).
      { unfold rpush, rewrite_key. look. unfold lrange, read_key in Hts. destruct (key_value r _) as [[l| |]|]; cbn in Hts; try discriminate Hts; injection Hts as Hts; by subst. }
      eexists. split; [exact Hpush|]. assert (Hacc : accepted d m1 = accepted d m ++ [u]).
      { unfold m1. rewrite accepted_put. by rewrite decide_True. }
      split; [|done]. split.
      - intros d'. look. unfold m1. cbn [me_updates]. destruct (decide (d = d')) as [<-|Hne].
        + rewrite lookup_insert_eq. cbn. apply Forall2_app; [done|by repeat constructor].
        + rewrite lookup_insert_ne by done. apply Hr.
      - intros d'. look. unfold m1. rewrite accepted_put. destruct (decide (d = d')) as [<-|Hne]; [|apply Hr].
        cbn [counts]. by rewrite total_size_snoc.
      - intros d'. look. apply Hr.
      - intros sid. unfold Documents.session_key. look. apply (ag_documents _ _ Hr sid). }
    destruct (lrange_agrees r1 m1 d Hr1) as (ts1 & Hts1 & Hw1). rewrite st_bind_eq, Hts1. rewrite (Forall2_length _ _ _ Hw1), Hacc.
    clear Hts1. revert r1 Hr1. change (follows (_ ← (if (COMPACTION_THRESHOLD <=? length (accepted d m ++ [u]))%nat then compact_updates_redis prefix d else mret tt); mret true)
      (_ ← (if (COMPACTION_THRESHOLD <=? length (accepted d m ++ [u]))%nat then compact_updates_memory d else mret tt); mret true) m1).
    apply follows_bind; [|intros; apply follows_ret]. destruct (COMPACTION_THRESHOLD <=? _)%nat; [|apply follows_ret].
    apply compact_follows. rewrite Hacc. apply Forall_app. split; [done|by repeat constructor].
Qed.

(** *** Requests *)

Lemma send_state_follows d m : decoding (accepted d m) → follows (send_state (S := R) d) (send_state (S := memory) d) m.
Proof.
  intros Hd. apply follows_bind; [apply get_updates_follows|]. intros l m' [= <- <-].
  eapply follows_lift; [by apply merged_ok|]. apply follows_ret.
Qed.

Lemma clear_if_unused_follows d active m : inhabited_users m →
  follows (clear_if_unused (S := R) d active) (clear_if_unused (S := memory) d active) m.
Proof.
  intros Hm. apply follows_bind; [apply get_users_follows|]. intros users m' [= <- <-]. fold (users_of d m).
  destruct (decide (users_of d m = ∅)); [|apply follows_ret]. destruct active; [apply follows_ret|].
  apply follows_bind; [by apply clear_document_follows|]. intros; apply follows_ret.
Qed.

Lemma inhabited_cleared d active m : inhabited_users m → inhabited_users (cleared d active m).
Proof. intros Hm. unfold cleared. destruct (clears _ _ _); [|done]. intros d' users. cbn. intros [_ H]%lookup_delete_Some. by eapply Hm. Qed.

Lemma store_follows d update m : decoding (accepted d m) → follows (store (S := R) d update) (store (S := memory) d update) m.
Proof.
  intros Hd. unfold store. destruct (truthy update); [|apply follows_ret].
  apply follows_bind; [by apply append_follows|]. intros; apply follows_ret.
Qed.

Lemma inhabited_removed d l m : inhabited_users m → inhabited_users (foldl (λ m sid, remove_user_memory d sid m) m l).
Proof. revert m. induction l as [|sid l IH]; intros m Hm; [done|]. cbn. by apply IH, inhabited_remove. Qed.

Lemma close_follows d m : inhabited_users m → follows (close_document (S := R) d) (close_document (S := memory) d) m.
Proof.
  intros Hm. apply follows_bind; [apply get_users_follows|]. intros users m' [= <- <-]. fold (users_of d m).
  apply follows_bind.
  - apply follows_each with inhabited_users; [|intros sid m1 [] m2 _ H1 [= <-]; by apply inhabited_remove|done].
    intros sid m1 _ H1. by apply remove_user_follows.
  - intros bs m1 Hm1.
    destruct (each_eq (λ sid, remove_user (S := memory) d sid) (λ _ _, tt) (λ sid m, remove_user_memory d sid m)
      (elements (users_of d m)) m) as [bs' Hbs]; [done|]. rewrite Hbs in Hm1. injection Hm1 as _ <-.
    apply follows_bind; [|intros; apply follows_ret]. apply clear_document_follows; [by apply inhabited_removed|].
    rewrite removed_all, list_to_set_elements_L. set_solver.
Qed.

Lemma disconnect_follows sid active m : inhabited_users m →
  follows (remove_user_from_all_documents (S := R) sid active) (remove_user_from_all_documents (S := memory) sid active) m.
Proof.
  intros Hm. apply follows_bind; [apply documents_of_user_follows|]. intros ids m' [= <- <-].
  apply follows_bind; [|intros; apply follows_ret]. apply follows_each with inhabited_users; [| |done].
  - intros d m1 _ H1. apply follows_bind; [by apply remove_user_follows|]. intros [] m2 [= <-].
    apply follows_bind; [by apply clear_if_unused_follows, inhabited_remove|]. intros; apply follows_ret.
  - intros d m1 b m2 _ H1 H2. rewrite st_bind_eq in H2. cbn [remove_user documents_in_memory memory_store] in H2. unfold st_modify in H2.
    rewrite st_bind_eq in H2. change (@clear_if_unused memory documents_in_memory) with (@clear_if_unused memory (memory_store D)) in H2.
    rewrite clear_if_unused_eq in H2. injection H2 as _ <-. by apply inhabited_cleared, inhabited_remove.
Qed.

Lemma handle_follows h m request : tracks (D := D) h m →
  follows (handle (D := D) (S := R) request) (handle (D := D) (S := memory) request) m.
Proof.
  intros Ht. assert (Hm : inhabited_users m) by (intros d users; rewrite (tr_users _ _ Ht); apply Ht).
  assert (Hd : ∀ d, decoding (accepted d m)) by (intros d; by eapply tracks_decoding).
  destruct request as [sid d|d|d initialize update|sid d active|sid d|d|d|sid active]; cbn [handle].
  - apply follows_bind; [apply get_users_follows|]. intros users m' [= <- <-]. apply follows_bind.
    + destruct (decide _); [apply follows_ret|]. apply follows_bind; [apply count_follows|intros; apply follows_ret].
    + intros full m1 H1. assert (m1 = m) as ->.
      { destruct (decide _); cbn in H1; [by injection H1|]. by injection H1. }
      destruct full; [apply follows_ret|]. apply follows_bind; [by apply add_user_follows|]. intros [] m2 [= <-]. apply send_state_follows. exact (Hd d).
  - apply follows_bind; [apply document_exists_follows|]. intros found m' [= <- <-]. destruct (bool_decide _); [by apply send_state_follows|apply follows_ret].
  - unfold update_document. destruct initialize; [|by apply store_follows]. apply follows_bind; [apply get_updates_follows|].
    intros l m' [= <- <-]. fold (accepted d m). destruct (accepted d m) as [|u l] eqn:E; [by apply store_follows|].
    eapply follows_lift; [apply merged_ok; by rewrite <-E|]. apply follows_ret.
  - apply follows_bind; [by apply remove_user_follows|]. intros [] m' [= <-].
    apply follows_bind; [by apply clear_if_unused_follows, inhabited_remove|]. intros; apply follows_ret.
  - apply follows_bind; [by apply remove_user_follows|]. intros; apply follows_ret.
  - apply follows_bind; [by apply clear_if_unused_follows|]. intros; apply follows_ret.
  - by apply close_follows.
  - by apply disconnect_follows.
Qed.
End Redis.

(** *** Sessions take part in a bounded number of documents *)

Definition few_documents (h : memory) : Prop := ∀ sid, (size (documents_of sid h) <= MAX_DOCUMENTS_PER_SESSION)%nat.

Lemma few_sub h h' : (∀ d sid, sid ∈ users_of d h' → sid ∈ users_of d h) → few_documents h → few_documents h'.
Proof.
  intros Hs Hf sid. etransitivity; [|apply (Hf sid)]. apply subseteq_size. intros d. rewrite !joined_elem. apply Hs.
Qed.

Lemma users_of_clear d h d' : users_of d' (clear_memory d h) ⊆ users_of d' h.
Proof. unfold users_of, clear_memory. cbn. rewrite lookup_delete. destruct (decide (d = d')); cbn; [apply empty_subseteq|done]. Qed.

Lemma few_cleared d active h : few_documents h → few_documents (cleared d active h).
Proof. unfold cleared. destruct (clears _ _ _); [|done]. apply few_sub. intros d' sid. apply users_of_clear. Qed.

Lemma few_removed d sid h : few_documents h → few_documents (remove_user_memory d sid h).
Proof. apply few_sub. intros d' sid'. rewrite users_of_remove. destruct (decide _); [|done]. set_solver. Qed.

Lemma specified_few {D} `{!YDoc D} `{!Equiv D} h request a h' : specified (D := D) h request a h' → few_documents h → few_documents h'.
Proof.
  destruct request as [sid d|d|d initialize update|sid d active|sid d|d|d|sid active]; cbn.
  - intros [(_ & _ & ->)|(Hf & _ & ->)] Hh; [done|]. intros sid'. rewrite documents_of_add. destruct (decide (sid = sid')) as [<-|]; [|apply Hh].
    specialize (Hh sid). destruct (decide (sid ∈ users_of d h)) as [Hin|Hin].
    + assert ({[d]} ∪ documents_of sid h = documents_of sid h) as -> by (apply joined_elem in Hin; set_solver). done.
    + assert (size (documents_of sid h) < MAX_DOCUMENTS_PER_SESSION)%nat by (apply Nat.nle_gt; intros H; apply Hf; by split).
      rewrite size_union by (apply disjoint_singleton_l; by rewrite joined_elem). rewrite size_singleton. lia.
  - by intros [-> _].
  - destruct (_ && _); [by intros [_ ->]|]. destruct (truthy update); [|by intros [_ ->]].
    intros [(_ & u & _ & ->)|(_ & _ & ->)]; [|done]. apply few_sub. done.
  - intros [_ ->] Hh. by apply few_cleared, few_removed.
  - intros [_ ->]. apply few_removed.
  - intros [_ ->]. apply few_cleared.
  - intros [_ ->]. apply few_sub. intros d' sid. apply users_of_clear.
  - intros [_ ->]. apply few_sub. intros d sid'. unfold users_of, depart. cbn. rewrite lookup_omap.
    destruct (me_users h !! d) as [users|]; cbn; [|done]. unfold without_user. destruct (decide _); cbn; set_solver.
Qed.

Lemma no_documents_of sid : documents_of sid no_documents = ∅.
Proof. apply set_eq. intros d. rewrite joined_elem. unfold users_of. cbn. done. Qed.

(** All requests, on both stores and the specification *)
Lemma serve_all_follows {D} `{!YDoc D} `{!Equiv D} `{!YDocLaws D} {R} `{!RedisKeys R} `{!RedisKeysLaws R}
    {codec : JsonCodec} (Hjson : ∀ l, bytes_of (VList l) ≠ None → is_json (VList l)) (prefix : string) requests :
  ∀ (r : R) h m, tracks (D := D) h m → agree prefix r m → few_documents h → ∃ answers r' h' m',
    @serve_all D _ R (redis_store (D := D) prefix) requests r = (Ok answers, r') ∧
    @serve_all D _ memory (memory_store D) requests m = (Ok answers, m') ∧
    traced (D := D) h requests answers h' ∧ tracks (D := D) h' m' ∧ agree prefix r' m' ∧ few_documents h'.
Proof.
  unfold serve_all. induction requests as [|request requests IH]; intros r h m Ht Hr Hf; [by exists [], r, h, m|]. cbn [each].
  destruct (handle_follows prefix Hjson h m request Ht r Hr) as (a & r1 & m1 & Hr1 & Hm1 & Hagree).
  destruct (handle_tracks h m request Ht) as (a' & h1 & m1' & Hm1' & Hs & Ht1).
  change (@handle D _ R (redis_store (D := D) prefix) request r = (Ok a, r1)) in Hr1.
  change (@handle D _ memory (memory_store D) request m = (Ok a, m1)) in Hm1.
  assert ((a', m1') = (a, m1)) as [= -> ->] by (rewrite Hm1 in Hm1'; by injection Hm1' as -> ->).
  destruct (IH r1 h1 m1 Ht1 Hagree (specified_few _ _ _ _ Hs Hf)) as (answers & r' & h' & m' & Hr' & Hm' & Htr & Ht' & Hag & Hf').
  exists (a :: answers), r', h', m'.
  rewrite !st_bind_eq, Hr1, Hm1, !st_bind_eq, Hr', Hm'. split_and!; [done|done|by exists h1|done..].
Qed.


(** *** An example *)

(** Documents to which bytes can be added: the first byte of an update is 255. *)
Definition is_byte (b : Z) : bool := (0 <=? b) && (b <? 256).

#[export] Instance bytes_doc : YDoc (gset Z) := {|
  y_empty := ∅;
  y_decodes u := match u with b :: _ => b =? 255 | [] => false end;
  y_apply doc u := list_to_set (List.filter is_byte (tail u)) ∪ doc;
  y_update doc := 255 :: List.filter is_byte (elements doc)
|}.

Lemma is_byte_range b : is_byte b = true ↔ 0 <= b < 256.
Proof. unfold is_byte. rewrite andb_true_iff, Z.leb_le, Z.ltb_lt. done. Qed.

Lemma bytes_elem b l (doc : gset Z) : b ∈ foldl y_apply doc l ↔ b ∈ doc ∨ ∃ u, u ∈ l ∧ b ∈ tail u ∧ is_byte b = true.
Proof.
  revert doc. induction l as [|u l IH]; intros doc; cbn [foldl].
  - split; [by left|]. intros [?|(u & []%elem_of_nil & _)]. done.
  - rewrite IH. cbn [y_apply bytes_doc]. rewrite elem_of_union, elem_of_list_to_set.
    setoid_rewrite elem_of_cons. rewrite filter_elem. naive_solver.
Qed.

#[export] Instance bytes_doc_laws : YDocLaws (gset Z).
Proof.
  split.
  - apply _.
  - intros u d d' H. cbn. by rewrite H.
  - done.
  - intros d. cbn. constructor; [lia|]. apply list.Forall_forall. intros b [_ H]%filter_elem. by apply is_byte_range.
  - intros doc l _ b. cbn [y_apply bytes_doc y_update tail]. rewrite elem_of_union, elem_of_list_to_set, !filter_elem, elem_of_elements, !bytes_elem.
    set_solver.
Qed.

(** A server with nothing else to say *)
#[export] Instance plain_keys : RedisKeys (gmap string redis_value) := {|
  key_value r k := r !! k;
  put_key k v r := partial_alter (λ _, v) k r
|}.

#[export] Instance plain_keys_laws : RedisKeysLaws (gmap string redis_value).
Proof. split; intros; cbn; [by rewrite lookup_partial_alter_eq|by rewrite lookup_partial_alter_ne]. Qed.

Lemma plain_bytes l : bytes_of (VList l) ≠ None → is_json (VList l).
Proof.
  intros H. cbn. destruct (bytes_of (VList l)) as [u|] eqn:E; [clear H|done]. cbn in E. revert u E.
  induction l as [|v l IH]; intros u E; [done|]. cbn in E. apply bind_Some in E as (b & Hb & E). apply bind_Some in E as (u' & Hu & _).
  destruct v; try done; cbn; eauto.
Qed.

Definition example_update (b : Z) : doc_request := Update "d" false (bytes_value [255; b]).
Definition example_requests : list doc_request :=
  [Enter "s" "d"; Enter "t" "d"; Update "d" true (bytes_value [255; 1]); example_update 2; Update "d" false (bytes_value [7]);
   Update "d" true (bytes_value [255; 3]); Disconnect "s" ∅; GetState "d"; Leave "t" "d" false; GetState "d"].

Definition example_server : gmap string redis_value := {["other" := RNumber 1]}.
Definition example_redis (requests : list doc_request) : res (list doc_answer) * gmap string redis_value :=
  @serve_all (gset Z) _ _ (redis_store (D := gset Z) "p") requests example_server.
Definition example_local (requests : list doc_request) : res (list doc_answer) * memory :=
  @serve_all (gset Z) _ _ (memory_store (gset Z)) requests no_documents.


(** The 500th update squashes 250 of them; the state stays. *)
Example updates_are_squashed :
  let requests := Enter "s" "d" :: (example_update <$> seqZ 0 250) ++ (example_update <$> seqZ 0 250) in
  length (accepted "d" (example_local requests).2) = 251%nat ∧
  (λ answers, last answers) <$> (example_redis (requests ++ [GetState "d"])).1 =
  (λ answers, last answers) <$> (example_local (requests ++ [GetState "d"])).1.
Proof. vm_compute. split; reflexivity. Qed.
